(* ===== verification/_CoqProject ===== *)
-Q . S2P
Prelude.v
Utils.v
LibC.v
SysLog.v
Console.v
Timer.v
Counters.v
Scheduler.v
DucknetUtils.v
Net.v
Phy.v
Arp.v
Ipv4.v
Transport.v
Ducknet.v
NetInvariant.v
Nic.v
Memory.v
PageTables.v
E1000.v
I211.v
Realtek.v
Pci.v
NetworkDriver.v
Elf.v
ElfRun.v
UserLib.v
UserRun.v
KernelCalls.v
Logger.v
Boot.v
Trap.v
DuckCache.v
CacheSpec.v
CacheStore.v
Judger.v
JudgerSpec.v
JudgerInit.v
JudgeAnswers.v
Judgement.v
DuckServer.v
Service.v
KernelMemory.v
Parts.v
Startup.v
