(* ===== verification/Prelude.v ===== *)
(** * JudgeDuck-OS: a verification library

    JudgeDuck-OS is an operating system that judges programs: it boots, waits for
    UDP requests, runs one program at a time in user mode with exact time and
    memory limits, and reports what it did.  This library models the C++ code
    under [src/] as executable definitions and proves what the parts promise.

    ** The program and its model

    A request travels through the program as follows; in parentheses, the files
    of the library that model the part.
    - [main] of [kern/kern_main.cpp] (Startup) calls the [init] of every part in order, runs
      two programs as a test and enters the loop of the server.
    - At boot the tags of the boot loader say which memory there is, the ACPI tables where
      the APIC is, and the old interrupt controllers are set up
      ([lib/multiboot2_loader.cpp], [lib/acpi.cpp], [lib/pic.cpp]: Boot).  What the kernel
      prints goes to two screens and a serial line ([lib/vga_buffer.cpp],
      [lib/framebuffer.cpp], [lib/serial.cpp]: Console) and to the log ([lib/syslog.cpp],
      SysLog), through the system calls of its C library
      ([kern/duck64_syscall_handler.cpp], KernelCalls) and loggers ([lib/logger.cpp],
      Logger).
    - Then the PCI bus is scanned ([lib/pci.cpp], Pci) and one of three network
      drivers chosen ([lib/network_driver.cpp], NetworkDriver; [lib/e1000.cpp],
      E1000; [lib/i211.cpp], I211; [lib/realtek.cpp], Realtek).  The driver shares
      rings of descriptors with its card; Nic is what the two are together.
    - The driver hands frames to the network stack [ducknet/] through hooks (Phy,
      Net); the stack answers ARP (Arp) and ICMP echo, checks and builds IPv4 and UDP (Ipv4,
      Transport, DucknetUtils) and runs from one loop (Ducknet).
    - The UDP hook of [kern/duck_server.cpp] (DuckServer) parses the request and
      calls the judger; Service is its initialisation, with the configuration of the
      stack, and its loop.
    - [kern/judger.cpp] (Judger) owns the big buffer the client fills, two caches
      of blocks addressed by their digest ([kern/duck_cache.cpp], DuckCache) and
      the result of the last judgement.
    - To judge, it loads an ELF file ([lib/elf.cpp], Elf) into user memory, whose
      page tables belong to [lib/memory.cpp] (Memory; PageTables says what the
      processor finds through the tables it builds), runs it, and measures what
      it did (Elf.run).  The run itself is [kern/trap.cpp] (Trap): descriptor tables,
      entry into user mode, the handler of traps, the time limit; Judgement follows the
      last trap through the report to the verdict.  The program answers its own system calls with a library
      ([user_lib/], [user_lib32/], UserLib) that reads its input and collects its
      output in memory; UserRun puts loader, library and report together.
    - When there is nothing to do, the idle hook asks [lib/scheduler.cpp]
      (Scheduler) how long to sleep, with the clocks of [lib/timer.cpp] and the
      APIC of [lib/lapic.cpp] (Timer).  The performance counters a run is measured with
      are in Counters.

    Each file has one Module of its own name (Timer also [LAPIC], Memory also
    [DMA]), with the state of the component as a Record, one definition per
    function with the function's name, then lemmas, then the theorems, then
    witnesses on concrete inputs.  Where the proofs are long they have a file of
    their own: PageTables (what [Memory.init] builds), NetInvariant (Ducknet), ElfRun (Elf), CacheSpec and CacheStore
    (DuckCache), JudgerSpec, JudgerInit and JudgeAnswers (Judger), KernelMemory (what becomes of memory
    during the start) and Parts (under which conditions the single parts start).  Boot has a Module per source file
    ([Multiboot], [ACPI], [PIC]), Console too ([VGA], [FrameBuffer], [Serial]).  This file holds machine words, byte lists
    and the tactics; Utils holds [inc/utils.hpp]; LibC the parts of [sprintf] and
    [sscanf] the requests use.

    Three interfaces are type classes.  [Nic.Driver] is what the network expects of a
    driver with its card: a simulation of a first-in first-out channel; the three
    drivers are its instances and NetworkDriver uses nothing else of them.
    [UserLib.Handler] is what a program expects of its library; the theorems about
    output and input are proved against it and both libraries are instances.
    [Console.Terminal] is what a screen promises: it shows a window of an endless
    sheet of paper; both screens are instances, with their own width and fill.

    ** Conventions

    A machine integer is a [Z] with its wrap-around written out ([u8] ... [u64],
    [s32]).  Memory is a function from addresses to bytes, a buffer a list of
    bytes, a table a list.  A function that changes statics takes and returns its
    state; [None] is a failed assertion, a loop that ran out of fuel, or an access that
    leaves the memory it is meant for (a cache copying to or from outside the buffer, a
    program loaded past the end of the memory for programs), and the theorems show that
    none of this happens under the invariants.  The stack receives into a buffer of its
    state; a copy that leaves it makes it longer than it is, which is not well formed.
    In the server the machine can stop (a request that reboots it, a failed assertion):
    [halted] says so, no hook does anything afterwards, and [Service.run] ends there with
    [Stopped]; [Returned] is the end the code has after the loop, and [None] is a run that
    still goes on.  A hook, a clock, a
    sensor, the program that is judged, and the sort of the C++ library are
    parameters.  Loops have fuel: a loop over pages has one unit per page and one
    more ([Memory.for_pages_ends] shows that this is always enough), the loops of
    the cache one per page of the object ([DuckCache.loop_fuel]), the bisection
    of the ARP table one per entry, the carry loop of the checksum three rounds,
    the scan of the buses 256 nested buses (there are no more numbers).  The waits
    for a card have no bound in the code; their fuel is an argument, and the theorems
    say what happens once the card has answered.  The replay of the log takes at most
    1025 rounds, the walk over the memory map one per page of 2 MiB that can be mapped.
    A program in user mode is known by the frames of its traps, which are arguments.

    ** What is proved

    - Isolation: the page tables [Memory::init] makes map the kernel and exactly the
      huge pages behind the tables, none twice and none open to user mode; after the loader has run, exactly the pages of the program are
      reachable from user mode; a judgement changes only the parts of the buffer
      it was given; a dirty page is cleared before the next program sees it; in every
      reachable state of the descriptor tables user code has only the doors made for
      it; the segment a program asks for is read and answered only in its own memory.
    - Refinement: the cache is a finite map with least-recently-used eviction, the
      ARP table a finite map, the log the last 32767 characters, a driver and its
      card a queue of frames in each direction, whatever the card does and in
      whichever order; loading, running and reporting a program together deliver
      exactly what it wrote; the verdict is the one an abstract description of
      endings gives to the last trap; every console shows exactly the output of the kernel.
    - Invariants: the buffers and tables of the network stack keep their sizes in
      every reachable state; the page chains of the cache never meet.
    - Function: datagrams arrive at the other end as they were sent, checksums
      verify, echo and ARP requests are answered, waiting packets are sent, the
      text of a request reaches the operation with its numbers, a host's request to the
      address on the command line is served in every round of the server's loop, the PCI scan
      finds every device and the size of its regions, verdicts and
      measurements are what they should be, round trips of the caches; the kernel
      takes exactly the memory the boot loader offers, in tags as the specification writes
      them; messages have the colour of
      their level; interrupts are masked as asked.
    - Bounds and termination: the checks of the loader suffice, replies fit a
      datagram, conversions are exact, the loops end, no session of a client stops the
      judger as long as it keeps the caches inside the buffer, a program is stopped by the
      interrupt counted for its limit and charged for its own cycles only.
    - Composition: on a machine that shows the kernel what [Startup.machine_ok] lists (its
      tags, tables and registers, and cards that leave the waiting loops), and with a
      gigabyte behind the page tables, the whole start succeeds, memory is shared out
      between judger and programs, and the kernel is in the loop of the server for as long
      as no round of it stops the machine.
    - Errors: where the code does not do what it means to, the theorem states what
      it does; these are also listed as findings in the manifest.

    ** Not modelled

    - The revision of the microcode, which [DuckServer::init] only reads, and the greeting
      of [kern/kern_main.cpp]: its characters are an argument of the start.
    - The assembly files, but for the count of timer interrupts and the time-stamp
      counter in [kern/trap_entry.S]; [inc/x86_64.hpp] is one instruction per function.
    - What [printf] makes of its arguments, and the log lines of the drivers, of the
      loaders and of the scan.
    - The libraries and headers of others: [inc/pcireg.h] and [inc/multiboot2.h] but for
      the constants that are used, newlib, the example programs [user/] and [user32/].
*)

From Stdlib Require Export ZArith Lia Bool.
From stdpp Require Export base tactics list numbers.

#[export] Set Warnings "-notation-overridden".

(** Every file of the development reads arithmetic in [Z]. *)
Global Open Scope Z_scope.

(** ** Machine integers

    A value of an unsigned C++ type of [w] bits is a [Z] in [0, 2^w); an
    operation on it is the operation of [Z] followed by [wrap w].  The
    functions below are the casts of the source ([(uint64_t) x] ...). *)
Declare Scope word_scope.
Delimit Scope word_scope with word.

Definition wrap (w z : Z) : Z := z mod 2 ^ w.
Definition u8 (z : Z) : Z := z mod 256.
Definition u16 (z : Z) : Z := z mod 65536.
Definition u32 (z : Z) : Z := z mod 4294967296.
Definition u64 (z : Z) : Z := z mod 18446744073709551616.

(** Conversion to [int] / [int32_t] (two's complement, as GCC defines it). *)
Definition s32 (z : Z) : Z := (z + 2147483648) mod 4294967296 - 2147483648.
(** Conversion to [long] / [int64_t]. *)
Definition s64 (z : Z) : Z :=
  (z + 9223372036854775808) mod 18446744073709551616 - 9223372036854775808.

Notation "x +64 y" := (u64 (x + y)) (at level 50, left associativity) : word_scope.
Notation "x -64 y" := (u64 (x - y)) (at level 50, left associativity) : word_scope.
Notation "x *64 y" := (u64 (x * y)) (at level 40, left associativity) : word_scope.
Notation "x +32 y" := (u32 (x + y)) (at level 50, left associativity) : word_scope.
Notation "x -32 y" := (u32 (x - y)) (at level 50, left associativity) : word_scope.

Definition is_u8 (z : Z) : Prop := 0 <= z < 256.
Definition is_u16 (z : Z) : Prop := 0 <= z < 65536.
Definition is_u32 (z : Z) : Prop := 0 <= z < 4294967296.
Definition is_u64 (z : Z) : Prop := 0 <= z < 18446744073709551616.
Definition is_s32 (z : Z) : Prop := -2147483648 <= z < 2147483648.

(** A buffer of bytes. *)
Definition bytes (l : list Z) : Prop := Forall is_u8 l.

Create HintDb duck.
Create Rewrite HintDb word.
Create Rewrite HintDb duck.

(** [word_lia] opens the word functions and closes linear goals, with division
    and modulo by constants. *)
Ltac word_unfold :=
  unfold wrap, u8, u16, u32, u64, s32, s64, is_u8, is_u16, is_u32, is_u64, is_s32 in *.
Ltac word_lia := word_unfold; Z.to_euclidean_division_equations; lia.

(** [zbool] turns the boolean comparisons of the code into propositions, one
    case per comparison that the goal or a hypothesis tests. *)
Ltac zbool_step :=
  match goal with
  | |- context [Z.ltb ?a ?b] => destruct (Z.ltb_spec a b)
  | |- context [Z.leb ?a ?b] => destruct (Z.leb_spec a b)
  | |- context [Z.eqb ?a ?b] => destruct (Z.eqb_spec a b)
  | H : context [Z.ltb ?a ?b] |- _ => destruct (Z.ltb_spec a b)
  | H : context [Z.leb ?a ?b] |- _ => destruct (Z.leb_spec a b)
  | H : context [Z.eqb ?a ?b] |- _ => destruct (Z.eqb_spec a b)
  end.
Ltac zbool := repeat (zbool_step; cbn [andb orb negb] in *; try discriminate; try congruence).

(** Split conjunctions, and nothing that unfolds to one. *)
(** The facts behind a test that succeeded. *)
Ltac bool_props := repeat match goal with
  | H : _ && _ = true |- _ => apply andb_true_iff in H as [? ?]
  | H : (_ =? _) = true |- _ => apply Z.eqb_eq in H
  | H : (_ <=? _) = true |- _ => apply Z.leb_le in H
  | H : (_ <? _) = true |- _ => apply Z.ltb_lt in H
  | H : negb (_ =? _) = true |- _ => apply negb_true_iff, Z.eqb_neq in H
  | H : bool_decide _ = true |- _ => apply bool_decide_eq_true_1 in H
  end.
Ltac conj_split := repeat match goal with |- _ /\ _ => split end.

Lemma u8_range z : is_u8 (u8 z).
Proof. word_unfold. apply Z.mod_pos_bound. lia. Qed.
Lemma u16_range z : is_u16 (u16 z).
Proof. word_unfold. apply Z.mod_pos_bound. lia. Qed.
Lemma u32_range z : is_u32 (u32 z).
Proof. word_unfold. apply Z.mod_pos_bound. lia. Qed.
Lemma u64_range z : is_u64 (u64 z).
Proof. word_unfold. apply Z.mod_pos_bound. lia. Qed.
Lemma s32_range z : is_s32 (s32 z).
Proof. word_unfold. pose proof (Z.mod_pos_bound (z + 2147483648) 4294967296). lia. Qed.

Lemma is_u64_0 : is_u64 0.
Proof. unfold is_u64. lia. Qed.

Lemma u8_small z : is_u8 z -> u8 z = z.
Proof. apply Z.mod_small. Qed.
Lemma u16_small z : is_u16 z -> u16 z = z.
Proof. apply Z.mod_small. Qed.
Lemma u32_small z : is_u32 z -> u32 z = z.
Proof. apply Z.mod_small. Qed.
Lemma u64_small z : is_u64 z -> u64 z = z.
Proof. apply Z.mod_small. Qed.
Lemma s32_small z : is_s32 z -> s32 z = z.
Proof. unfold s32, is_s32. intros. rewrite Z.mod_small; lia. Qed.

Lemma u64_add_l a b : u64 (u64 a + b) = u64 (a + b).
Proof. apply Zplus_mod_idemp_l. Qed.
Lemma u64_add_r a b : u64 (a + u64 b) = u64 (a + b).
Proof. apply Zplus_mod_idemp_r. Qed.
Lemma u64_add3_l a b c : u64 (u64 a + b + c) = u64 (a + b + c).
Proof. by rewrite <- Z.add_assoc, u64_add_l, Z.add_assoc. Qed.
Lemma u64_mul_l a b : u64 (u64 a * b) = u64 (a * b).
Proof. apply Zmult_mod_idemp_l. Qed.
Lemma u64_mul_r a b : u64 (a * u64 b) = u64 (a * b).
Proof. apply Zmult_mod_idemp_r. Qed.
Lemma u64_sub_l a b : u64 (u64 a - b) = u64 (a - b).
Proof. apply Zminus_mod_idemp_l. Qed.
Lemma u64_sub_r a b : u64 (a - u64 b) = u64 (a - b).
Proof. apply Zminus_mod_idemp_r. Qed.
Lemma u32_add_l a b : u32 (u32 a + b) = u32 (a + b).
Proof. apply Zplus_mod_idemp_l. Qed.
Lemma u32_add_r a b : u32 (a + u32 b) = u32 (a + b).
Proof. apply Zplus_mod_idemp_r. Qed.

#[export] Hint Resolve u8_range u16_range u32_range u64_range s32_range : duck.
#[export] Hint Rewrite u64_add_l u64_add_r u64_add3_l u64_mul_l u64_mul_r u64_sub_l u64_sub_r
  u32_add_l u32_add_r : word.

(** ** Arrays indexed by machine integers

    [zget d l i] is [l[i]]; [zset l i x] is the assignment [l[i] = x].  Both
    are used inside the bounds only ([d] and the identity are what the model
    returns outside, where the C++ program has no defined behaviour). *)
Definition zget {A} (d : A) (l : list A) (i : Z) : A := nth (Z.to_nat i) l d.
Definition zset {A} (l : list A) (i : Z) (x : A) : list A := <[Z.to_nat i := x]> l.
Definition zlen {A} (l : list A) : Z := Z.of_nat (length l).
Definition ztake {A} (n : Z) (l : list A) : list A := take (Z.to_nat n) l.
Definition zdrop {A} (n : Z) (l : list A) : list A := drop (Z.to_nat n) l.

(** Evaluate [Z.to_nat] on literals (stdpp keeps it from [cbn]). *)
Ltac eval_to_nat :=
  repeat match goal with
  | |- context [Z.to_nat ?z] =>
      let n := eval vm_compute in (Z.to_nat z) in
      lazymatch n with
      | O => idtac
      | S _ => idtac
      end; change (Z.to_nat z) with n
  end.

(** [memcpy (dst + off, src, length src)] on a byte array [dst]. *)
Definition write_at {A} (off : Z) (src dst : list A) : list A :=
  ztake off dst ++ src ++ zdrop (off + zlen src) dst.
(** The [n] bytes at offset [off]. *)
Definition read_at {A} (off n : Z) (l : list A) : list A := ztake n (zdrop off l).

Lemma zlen_nonneg {A} (l : list A) : 0 <= zlen l.
Proof. unfold zlen. lia. Qed.
Lemma zlen_cons {A} (x : A) l : zlen (x :: l) = 1 + zlen l.
Proof. unfold zlen. cbn [length]. lia. Qed.
Lemma zlen_one {A} (x : A) : zlen [x] = 1.
Proof. done. Qed.
Lemma ztake_zlen {A} (l : list A) : ztake (zlen l) l = l.
Proof. unfold ztake, zlen. rewrite Nat2Z.id. apply firstn_all. Qed.
Lemma zlen_app {A} (l k : list A) : zlen (l ++ k) = zlen l + zlen k.
Proof. unfold zlen. rewrite length_app. lia. Qed.
Lemma zlen_zset {A} (l : list A) i x : zlen (zset l i x) = zlen l.
Proof. unfold zlen, zset. by rewrite length_insert. Qed.
Lemma zlen_ztake {A} n (l : list A) : 0 <= n <= zlen l -> zlen (ztake n l) = n.
Proof. unfold zlen, ztake. intros. rewrite length_take. lia. Qed.
Lemma ztake_all {A} n (l : list A) : zlen l <= n -> ztake n l = l.
Proof. unfold zlen, ztake. intros. apply firstn_all2. lia. Qed.
Lemma zlen_ztake_le {A} n (l : list A) : 0 <= n -> zlen (ztake n l) <= n.
Proof. unfold zlen, ztake. intros. rewrite length_take. lia. Qed.
Lemma zlen_zdrop {A} n (l : list A) : 0 <= n <= zlen l -> zlen (zdrop n l) = zlen l - n.
Proof. unfold zlen, zdrop. intros. rewrite length_drop. lia. Qed.

Lemma zget_zset_eq {A} (d : A) l i x : 0 <= i < zlen l -> zget d (zset l i x) i = x.
Proof.
  unfold zget, zset, zlen. intros. apply nth_lookup_Some, list_lookup_insert_eq. lia.
Qed.
Lemma zget_zset_ne {A} (d : A) l i j x :
  0 <= i -> 0 <= j -> i <> j -> zget d (zset l i x) j = zget d l j.
Proof.
  unfold zget, zset. intros. rewrite !nth_lookup, list_lookup_insert_ne; [done|]. lia.
Qed.
Lemma zset_zget_id {A} (d : A) l i : 0 <= i < zlen l -> zset l i (zget d l i) = l.
Proof.
  unfold zget, zset, zlen. intros. apply list_insert_id.
  destruct (lookup_lt_is_Some_2 l (Z.to_nat i)) as [y Hy]; [lia|].
  by rewrite Hy, (nth_lookup_Some _ _ d _ Hy).
Qed.
Lemma zget_replicate {A} (d : A) n i : zget d (replicate n d) i = d.
Proof. unfold zget. generalize (Z.to_nat i). induction n as [|n IH]; intros [|k]; cbn; auto. Qed.
Lemma zget_app_l {A} (d : A) l k i : 0 <= i < zlen l -> zget d (l ++ k) i = zget d l i.
Proof. unfold zget, zlen. intros. apply app_nth1. lia. Qed.
Lemma zget_app_r {A} (d : A) l k i :
  zlen l <= i -> zget d (l ++ k) i = zget d k (i - zlen l).
Proof.
  unfold zget, zlen. intros. rewrite app_nth2 by lia. f_equal. lia.
Qed.

Lemma zlen_write_at {A} off (src dst : list A) :
  0 <= off -> off + zlen src <= zlen dst -> zlen (write_at off src dst) = zlen dst.
Proof.
  intros. unfold write_at. pose proof (zlen_nonneg src).
  rewrite !zlen_app, zlen_ztake, zlen_zdrop by lia. lia.
Qed.

(** What was written is read back, and the rest of the array is unchanged. *)
Lemma read_write_at_eq {A} off (src dst : list A) :
  0 <= off -> off + zlen src <= zlen dst ->
  read_at off (zlen src) (write_at off src dst) = src.
Proof.
  intros. unfold read_at, write_at, ztake, zdrop, zlen in *.
  rewrite drop_app_length' by (rewrite length_take; lia).
  by rewrite take_app_length' by lia.
Qed.

Lemma read_write_at_before {A} off n m (src dst : list A) :
  0 <= m -> 0 <= n -> m + n <= off -> off + zlen src <= zlen dst ->
  read_at m n (write_at off src dst) = read_at m n dst.
Proof.
  intros. unfold read_at, write_at, ztake, zdrop, zlen in *.
  rewrite drop_app_le by (rewrite length_take; lia).
  rewrite take_app_le by (rewrite length_drop, length_take; lia).
  rewrite !take_drop_commute, take_take.
  do 2 f_equal. lia.
Qed.

Lemma read_write_at_after {A} off n m (src dst : list A) :
  0 <= off -> 0 <= n -> off + zlen src <= m -> m + n <= zlen dst ->
  read_at m n (write_at off src dst) = read_at m n dst.
Proof.
  intros. unfold read_at, write_at, ztake, zdrop, zlen in *.
  rewrite drop_app_ge by (rewrite length_take; lia).
  rewrite drop_app_ge by (rewrite length_take; lia).
  rewrite drop_drop. do 2 f_equal. rewrite length_take. lia.
Qed.

(** Cutting a buffer at an offset, and writing over the middle part. *)
Lemma split_at {A} k (l : list A) : 0 <= k <= zlen l -> exists a b, l = a ++ b /\ zlen a = k.
Proof.
  intros Hk. exists (ztake k l), (zdrop k l). split; [|by apply zlen_ztake].
  unfold ztake, zdrop. by rewrite take_drop.
Qed.
Lemma write_at_mid {A} off (a mid b src : list A) :
  zlen a = off -> zlen src = zlen mid -> write_at off src (a ++ mid ++ b) = a ++ src ++ b.
Proof.
  unfold write_at, ztake, zdrop, zlen. intros <- Hs.
  rewrite take_app_length' by lia. do 2 f_equal.
  rewrite app_assoc, drop_app_length' by (rewrite length_app; lia). done.
Qed.
Lemma write_at_nil {A} off (l : list A) : 0 <= off -> write_at off [] l = l.
Proof.
  intros. unfold write_at, ztake, zdrop, zlen. cbn. by rewrite Z.add_0_r, take_drop.
Qed.

(** ** Little-endian integers in memory

    The processor stores a [k]-byte integer least significant byte first. *)
Fixpoint le_bytes (k : nat) (z : Z) : list Z :=
  match k with
  | O => []
  | S k => z mod 256 :: le_bytes k (z / 256)
  end.

Fixpoint le_val (bs : list Z) : Z :=
  match bs with
  | [] => 0
  | b :: bs => b + 256 * le_val bs
  end.

Definition get16 (bs : list Z) (off : Z) : Z := le_val (read_at off 2 bs).
Definition get32 (bs : list Z) (off : Z) : Z := le_val (read_at off 4 bs).
Definition get64 (bs : list Z) (off : Z) : Z := le_val (read_at off 8 bs).

Lemma length_le_bytes k z : length (le_bytes k z) = k.
Proof. revert z. induction k; intros; cbn; auto. Qed.
Lemma zlen_le_bytes k z : zlen (le_bytes k z) = Z.of_nat k.
Proof. unfold zlen. by rewrite length_le_bytes. Qed.

Lemma bytes_le_bytes k z : bytes (le_bytes k z).
Proof.
  revert z. induction k; intros; constructor; [| apply IHk].
  apply Z.mod_pos_bound. lia.
Qed.

Lemma le_val_le_bytes k z : le_val (le_bytes k z) = z mod 256 ^ Z.of_nat k.
Proof.
  revert z. induction k as [|k IH]; intros z.
  - cbn. by rewrite Z.mod_1_r.
  - cbn [le_bytes le_val]. rewrite IH, Nat2Z.inj_succ, Z.pow_succ_r by lia.
    rewrite Z.rem_mul_r; lia.
Qed.

Lemma le_val_range bs : bytes bs -> 0 <= le_val bs < 256 ^ zlen bs.
Proof.
  unfold zlen. induction 1 as [|b bs Hb Hbs IH]; [cbn; lia|].
  cbn [le_val length]. rewrite Nat2Z.inj_succ, Z.pow_succ_r by lia.
  unfold is_u8 in Hb. lia.
Qed.

Lemma le_bytes_le_val bs : bytes bs -> le_bytes (length bs) (le_val bs) = bs.
Proof.
  induction 1 as [|b bs Hb Hbs IH]; [done|].
  cbn [length le_bytes le_val]. unfold is_u8 in Hb.
  replace ((b + 256 * le_val bs) mod 256) with b by word_lia.
  replace ((b + 256 * le_val bs) / 256) with (le_val bs) by word_lia.
  by rewrite IH.
Qed.

Lemma le_val_app bs cs : le_val (bs ++ cs) = le_val bs + 256 ^ zlen bs * le_val cs.
Proof.
  induction bs as [|b bs IH]; [change (zlen []) with 0; cbn [app le_val]; lia|].
  unfold zlen in *. cbn [app le_val length].
  rewrite IH, Nat2Z.inj_succ, Z.pow_succ_r by apply Nat2Z.is_nonneg. ring.
Qed.

Lemma bytes_nil : bytes [].
Proof. apply List.Forall_nil. Qed.
Lemma bytes_cons b l : bytes (b :: l) <-> is_u8 b /\ bytes l.
Proof. apply Forall_cons_iff. Qed.
Lemma bytes_app l k : bytes (l ++ k) <-> bytes l /\ bytes k.
Proof. apply Forall_app. Qed.
Lemma bytes_take n l : bytes l -> bytes (take n l).
Proof. apply Forall_take. Qed.
Lemma bytes_drop n l : bytes l -> bytes (drop n l).
Proof. apply Forall_drop. Qed.
Lemma bytes_ztake n l : bytes l -> bytes (ztake n l).
Proof. apply bytes_take. Qed.
Lemma bytes_zdrop n l : bytes l -> bytes (zdrop n l).
Proof. apply bytes_drop. Qed.
Lemma bytes_read_at off n l : bytes l -> bytes (read_at off n l).
Proof. intros. by apply bytes_ztake, bytes_zdrop. Qed.
Lemma bytes_write_at off src dst : bytes src -> bytes dst -> bytes (write_at off src dst).
Proof.
  intros. unfold write_at. rewrite !bytes_app.
  auto using bytes_ztake, bytes_zdrop.
Qed.
Lemma zget_byte l i : bytes l -> is_u8 (zget 0 l i).
Proof.
  intros Hl. unfold zget. destruct (nth_in_or_default (Z.to_nat i) l 0) as [Hin| ->].
  - by apply (proj1 (Forall_forall _ _) Hl).
  - unfold is_u8. lia.
Qed.

(** A list written out as bytes, one linear goal per element. *)
Ltac bytes_lit := repeat (apply bytes_nil || (apply bytes_cons; split; [word_unfold; lia|])).

(** The test that a closed buffer evaluates. *)
Definition bytesb (l : list Z) : bool := forallb (λ b, (0 <=? b) && (b <? 256)) l.
Lemma bytesb_bytes l : bytesb l = true -> bytes l.
Proof.
  unfold bytesb, bytes. rewrite forallb_forall. intros H. apply List.Forall_forall.
  intros b Hb%H. unfold is_u8. lia.
Qed.

Lemma zlen_read_at_le {A} off n (l : list A) : 0 <= n -> zlen (read_at off n l) <= n.
Proof. unfold zlen, read_at, ztake. intros. rewrite length_take. lia. Qed.
Lemma le_val_read_at off n l :
  0 <= n -> bytes l -> 0 <= le_val (read_at off n l) < 256 ^ n.
Proof.
  intros Hn Hl. pose proof (le_val_range (read_at off n l) ltac:(by apply bytes_read_at)).
  pose proof (zlen_read_at_le off n l Hn). pose proof (zlen_nonneg (read_at off n l)).
  split; [lia|]. eapply Z.lt_le_trans; [apply H|]. apply Z.pow_le_mono_r; lia.
Qed.
Lemma get16_range l off : bytes l -> is_u16 (get16 l off).
Proof. intros Hl. by apply (le_val_read_at off 2). Qed.
Lemma get32_range l off : bytes l -> is_u32 (get32 l off).
Proof. intros Hl. by apply (le_val_read_at off 4). Qed.
Lemma get64_range l off : bytes l -> is_u64 (get64 l off).
Proof. intros Hl. by apply (le_val_read_at off 8). Qed.

#[export] Hint Resolve get16_range get32_range get64_range : duck.
#[export] Hint Resolve bytes_nil bytes_le_bytes bytes_take bytes_drop bytes_ztake bytes_zdrop
  bytes_read_at bytes_write_at zget_byte zlen_nonneg : duck.
#[export] Hint Rewrite @zlen_app @zlen_zset @zlen_le_bytes : duck.

(** ** Bit fields *)

Lemma testbit_high a n i : 0 <= a < 2 ^ n -> 0 <= n <= i -> Z.testbit a i = false.
Proof.
  intros Ha Hi. rewrite <- (Z.mod_small a (2 ^ n)) by done.
  apply Z.mod_pow2_bits_high. lia.
Qed.

Lemma testbit_low b n i : b mod 2 ^ n = 0 -> 0 <= i < n -> Z.testbit b i = false.
Proof.
  intros Hb Hi. apply Z.mod_divide in Hb as [k ->]; [|apply Z.pow_nonzero; lia].
  apply Z.mul_pow2_bits_low. lia.
Qed.

(** The converse of [testbit_high]. *)
Lemma bits_bound n z :
  0 <= n -> (forall i, n <= i -> Z.testbit z i = false) -> 0 <= z < 2 ^ n.
Proof.
  intros Hn Hz. replace z with (z mod 2 ^ n); [apply Z.mod_pos_bound; lia|].
  apply Z.bits_inj'. intros i Hi. destruct (Z.lt_ge_cases i n).
  - by apply Z.mod_pow2_bits_low.
  - rewrite Z.mod_pow2_bits_high by lia. by rewrite Hz.
Qed.
Lemma lor_bound n a b : 0 <= n -> 0 <= a < 2 ^ n -> 0 <= b < 2 ^ n -> 0 <= Z.lor a b < 2 ^ n.
Proof.
  intros. apply bits_bound; [done|]. intros i Hi.
  by rewrite Z.lor_spec, (testbit_high a n), (testbit_high b n) by lia.
Qed.
Lemma land_bound n a b : 0 <= n -> 0 <= a < 2 ^ n -> 0 <= Z.land a b < 2 ^ n.
Proof.
  intros. apply bits_bound; [done|]. intros i Hi.
  by rewrite Z.land_spec, (testbit_high a n) by lia.
Qed.

(** Two values with no bit in common: their [or] is their sum. *)
Lemma lor_add n a b : 0 <= n -> 0 <= a < 2 ^ n -> b mod 2 ^ n = 0 -> Z.lor a b = a + b.
Proof.
  intros Hn Ha Hb. rewrite <- Z.add_lor_land.
  replace (Z.land a b) with 0; [lia|]. symmetry. apply Z.bits_inj'. intros i Hi.
  rewrite Z.land_spec, Z.testbit_0_l. destruct (Z.lt_ge_cases i n).
  - rewrite (testbit_low b n) by lia. apply andb_false_r.
  - by rewrite (testbit_high a n) by lia.
Qed.
Lemma lor_add_r n a b : 0 <= n -> 0 <= b < 2 ^ n -> a mod 2 ^ n = 0 -> Z.lor a b = a + b.
Proof. intros. rewrite Z.lor_comm, (lor_add n) by done. lia. Qed.

(** A masked field: [x & (ones k << s)]. *)
Lemma land_field k s x :
  0 <= k -> 0 <= s -> Z.land x (Z.shiftl (Z.ones k) s) = (x / 2 ^ s) mod 2 ^ k * 2 ^ s.
Proof.
  intros Hk Hs. rewrite <- Z.land_ones, <- Z.shiftr_div_pow2, <- Z.shiftl_mul_pow2 by done.
  apply Z.bits_inj'. intros i Hi. rewrite Z.land_spec, !Z.shiftl_spec by done.
  destruct (Z.lt_ge_cases i s).
  - rewrite !(Z.testbit_neg_r _ (i - s)) by lia. apply andb_false_r.
  - rewrite Z.land_spec, Z.shiftr_spec by lia. do 2 f_equal. lia.
Qed.

(** The test of one bit, [x & (1 << k)]. *)
Lemma land_bit x k : 0 <= k -> negb (Z.land x (2 ^ k) =? 0) = Z.testbit x k.
Proof.
  intros Hk. replace (Z.land x (2 ^ k)) with (Z.b2z (Z.testbit x k) * 2 ^ k).
  - destruct (Z.testbit x k); cbn [Z.b2z]; [|done].
    destruct (Z.eqb_spec (1 * 2 ^ k) 0); [|done]. pose proof (Z.pow_pos_nonneg 2 k). lia.
  - rewrite <- Z.shiftl_mul_pow2 by done. apply Z.bits_inj'. intros i Hi.
    rewrite Z.land_spec, Z.pow2_bits_eqb, Z.shiftl_spec by lia.
    destruct (Z.eqb_spec k i) as [<-|Hne].
    + rewrite Z.sub_diag. by destruct (Z.testbit x k).
    + rewrite andb_false_r. destruct (Z.testbit x k); [|apply Z.testbit_0_l].
      destruct (Z.lt_ge_cases i k); [apply Z.testbit_neg_r; lia|].
      apply (testbit_high _ 1); cbn; lia.
Qed.

Lemma shiftr_div z n : 0 <= n -> Z.shiftr z n = z / 2 ^ n.
Proof. apply Z.shiftr_div_pow2. Qed.
Lemma shiftl_mul z n : 0 <= n -> Z.shiftl z n = z * 2 ^ n.
Proof. apply Z.shiftl_mul_pow2. Qed.

(** ** Loops over a range *)

(** The invariant of a loop [for (i = a; i < a + n; i++)]. *)
Lemma fold_seqZ_ind {A} (P : Z -> A -> Prop) (f : A -> Z -> A) a n s :
  0 <= n -> P a s -> (forall i s, a <= i < a + n -> P i s -> P (i + 1) (f s i)) ->
  P (a + n) (fold_left f (seqZ a n) s).
Proof.
  intros Hn H0 Hs. rewrite <- (Z2Nat.id n Hn) in *. set (k := Z.to_nat n) in *. clearbody k. clear Hn.
  induction k as [|k IH]; [by rewrite Z.add_0_r|].
  rewrite seqZ_S, fold_left_app. cbn [fold_left]. replace (a + Z.of_nat (S k)) with (a + Z.of_nat k + 1) by lia.
  apply Hs; [lia|]. apply IH. intros i s' Hi. apply Hs. lia.
Qed.

(** A part of the state that a loop treats by itself. *)
Lemma fold_left_proj {A B C} (p : A -> B) (f : A -> C -> A) (g : B -> C -> B) l s :
  (forall s x, p (f s x) = g (p s) x) -> p (fold_left f l s) = fold_left g l (p s).
Proof. intros H. revert s. induction l as [|x l IH]; intros s; [done|]. cbn [fold_left]. by rewrite IH, H. Qed.

Lemma fold_left_keep {A B C} (p : A -> B) (f : A -> C -> A) l s :
  (forall s x, p (f s x) = p s) -> p (fold_left f l s) = p s.
Proof. intros H. revert s. induction l as [|x l IH]; intros s; [done|]. cbn [fold_left]. by rewrite IH, H. Qed.

(** ** Memory as a function from addresses to bytes *)

(** [memcpy (a, bs, length bs)]. *)
Definition write_bytes (m : Z -> Z) (a : Z) (bs : list Z) : Z -> Z :=
  λ x, if (a <=? x) && (x <? a + zlen bs) then zget 0 bs (x - a) else m x.
Definition read_bytes (m : Z -> Z) (a n : Z) : list Z := m <$> seqZ a n.

Lemma read_bytes_app m a j k : read_bytes m a (Z.of_nat j + Z.of_nat k) =
  read_bytes m a (Z.of_nat j) ++ read_bytes m (a + Z.of_nat j) (Z.of_nat k).
Proof. unfold read_bytes. rewrite seqZ_app by lia. apply fmap_app. Qed.

Lemma read_bytes_ext m m' a n :
  (forall x, a <= x < a + n -> m x = m' x) -> read_bytes m a n = read_bytes m' a n.
Proof.
  intros H. unfold read_bytes. apply list_fmap_ext.
  intros i x Hx%list_elem_of_lookup_2%elem_of_seqZ. by apply H.
Qed.

(** What was written is what is there; the rest of memory is unchanged. *)
Lemma read_write_bytes m a bs : read_bytes (write_bytes m a bs) a (zlen bs) = bs.
Proof.
  unfold read_bytes. apply list_eq. intros i.
  destruct (decide (i < length bs)%nat) as [Hi|Hi].
  - rewrite list_lookup_fmap, lookup_seqZ_lt by (unfold zlen; lia). cbn [fmap option_fmap option_map].
    unfold write_bytes, zget. replace (a + Z.of_nat i - a) with (Z.of_nat i) by lia. rewrite Nat2Z.id.
    destruct (Z.leb_spec a (a + Z.of_nat i)); [|lia].
    destruct (Z.ltb_spec (a + Z.of_nat i) (a + zlen bs)); [|unfold zlen in *; lia].
    destruct (lookup_lt_is_Some_2 bs i Hi) as [b Hb]. by rewrite Hb, (nth_lookup_Some _ _ _ _ Hb).
  - rewrite (lookup_ge_None_2 bs) by lia. apply lookup_ge_None_2.
    rewrite length_fmap, length_seqZ. unfold zlen. lia.
Qed.
Lemma write_bytes_outside m a bs x : x < a \/ a + zlen bs <= x -> write_bytes m a bs x = m x.
Proof.
  unfold write_bytes. intros Hx.
  by destruct (Z.leb_spec a x), (Z.ltb_spec x (a + zlen bs)); [lia|..].
Qed.
Lemma read_write_outside m a bs b n :
  b + n <= a \/ a + zlen bs <= b -> read_bytes (write_bytes m a bs) b n = read_bytes m b n.
Proof. intros H. apply read_bytes_ext. intros x Hx. apply write_bytes_outside. lia. Qed.
Lemma zlen_read_bytes m a n : 0 <= n -> zlen (read_bytes m a n) = n.
Proof. intros. unfold zlen, read_bytes. rewrite length_fmap, length_seqZ. lia. Qed.
