(* ===== verification/Utils.v ===== *)
(** * Utils: the arithmetic helpers of [inc/utils.hpp]

    [round_up], [round_down] and [extract_bits] at [uint64_t], with the exact
    condition under which the rounding wraps (the "overflow?" tests of the ELF
    loader rely on it). *)
From S2P Require Import Prelude.

Module Utils.

(** [(x + r - 1) / r * r], every operation at 64 bits. *)
Definition round_up (x r : Z) : Z := u64 (u64 (x + r - 1) / r * r).

(** [x / r * r]. *)
Definition round_down (x r : Z) : Z := u64 (x / r * r).

(** [x << (63 - hi) >> (lo + 63 - hi)]. *)
Definition extract_bits (x hi lo : Z) : Z :=
  Z.shiftr (u64 (Z.shiftl x (63 - hi))) (lo + 63 - hi).

(** ** Lemmas *)

Lemma round_up_no_wrap x r :
  is_u64 x -> 0 < r -> x + r - 1 < 2 ^ 64 ->
  round_up x r = (x + r - 1) / r * r /\
  x <= round_up x r < x + r /\ round_up x r mod r = 0 /\ round_up x r < 2 ^ 64.
Proof.
  intros Hx Hr Hs. unfold round_up. unfold is_u64 in Hx.
  rewrite (u64_small (x + r - 1)) by (unfold is_u64; lia).
  pose proof (Z.mul_div_le (x + r - 1) r Hr).
  pose proof (Z.mul_succ_div_gt (x + r - 1) r Hr).
  assert (0 <= (x + r - 1) / r) by (apply Z.div_pos; lia).
  rewrite u64_small by (unfold is_u64; nia).
  split; [done|]. split; [nia|]. split; [apply Z.mod_mul; lia | nia].
Qed.

Lemma round_up_wrap x r :
  is_u64 x -> 0 < r <= 2 ^ 64 -> 2 ^ 64 <= x + r - 1 -> round_up x r = 0.
Proof.
  intros Hx Hr Hs. unfold round_up, is_u64 in *.
  replace (u64 (x + r - 1)) with (x + r - 1 - 2 ^ 64) by word_lia.
  rewrite Z.div_small by lia. done.
Qed.

Lemma round_down_spec x r :
  is_u64 x -> 0 < r ->
  round_down x r = x / r * r /\ round_down x r <= x < round_down x r + r /\
  round_down x r mod r = 0 /\ 0 <= round_down x r.
Proof.
  intros Hx Hr. unfold round_down, is_u64 in *.
  pose proof (Z.mul_div_le x r Hr). pose proof (Z.mul_succ_div_gt x r Hr).
  assert (0 <= x / r) by (apply Z.div_pos; lia).
  rewrite u64_small by (unfold is_u64; nia).
  split; [done|]. split; [nia|]. split; [apply Z.mod_mul; lia | nia].
Qed.

Lemma round_up_range x r : is_u64 (round_up x r).
Proof. apply u64_range. Qed.
Lemma round_down_range x r : is_u64 (round_down x r).
Proof. apply u64_range. Qed.
#[export] Hint Resolve round_up_range round_down_range : duck.

(** A multiple of [r] is its own rounding. *)
Lemma round_up_multiple x r :
  is_u64 x -> 0 < r -> x + r - 1 < 2 ^ 64 -> x mod r = 0 -> round_up x r = x.
Proof.
  intros Hx Hr Hs Hm. destruct (round_up_no_wrap x r) as (_ & Hb & Hm' & _); [done..|].
  apply Z.mod_divide in Hm as [k ->]; [|lia]. apply Z.mod_divide in Hm' as [k' Hk']; [|lia].
  rewrite Hk' in *. f_equal. nia.
Qed.

(** The test the loader makes after rounding a size: [round_up x r < x] holds
    exactly when the addition wrapped. *)
Lemma round_up_overflow_test x r :
  is_u64 x -> 0 < r <= 2 ^ 64 -> (round_up x r < x <-> 2 ^ 64 <= x + r - 1).
Proof.
  intros Hx Hr. split; intros H.
  - destruct (Z.lt_ge_cases (x + r - 1) (2 ^ 64)) as [Hs|Hs]; [|done].
    destruct (round_up_no_wrap x r) as (_ & Hb & _); [done|lia..].
  - rewrite round_up_wrap by done. lia.
Qed.

End Utils.
