(* ===== verification/LibC.v ===== *)
(** * LibC: the parts of the C library the server uses on text

    C strings as lists of bytes, and [sprintf] / [sscanf] for the conversions that
    occur in the source: [%lu], [%d], [%lx], [%02x], [%hhu], [%hhx], [%s], white
    space and literal characters. *)
From Stdlib Require Import String Ascii.
From S2P Require Import Prelude.

Module LibC.

(** ** Strings *)

Definition code (c : ascii) : Z := Z.of_nat (nat_of_ascii c).
Fixpoint str (s : string) : list Z :=
  match s with EmptyString => [] | String c s => code c :: str s end.

(** The bytes before the first null. *)
Fixpoint c_string (l : list Z) : list Z :=
  match l with [] => [] | c :: l => if c =? 0 then [] else c :: c_string l end.

Fixpoint list_eqb (l k : list Z) : bool :=
  match l, k with
  | [], [] => true
  | x :: l, y :: k => (x =? y) && list_eqb l k
  | _, _ => false
  end.
Definition strcmp_eq (a b : list Z) : bool := list_eqb (c_string a) (c_string b).

Definition is_space (c : Z) : bool := (c =? 32) || ((9 <=? c) && (c <=? 13)).
Definition is_digit (c : Z) : bool := (48 <=? c) && (c <=? 57).

(** ** Formats *)

Inductive directive :=
  | Lit (c : Z) | Space (c : Z) | Lu | D | Lx | X02 | S_ | Hhu | Hhx.

Fixpoint fmt (s : string) : list directive :=
  match s with
  | EmptyString => []
  | String "%" (String "l" (String "u" s)) => Lu :: fmt s
  | String "%" (String "d" s) => D :: fmt s
  | String "%" (String "l" (String "x" s)) => Lx :: fmt s
  | String "%" (String "0" (String "2" (String "x" s))) => X02 :: fmt s
  | String "%" (String "s" s) => S_ :: fmt s
  | String "%" (String "h" (String "h" (String "u" s))) => Hhu :: fmt s
  | String "%" (String "h" (String "h" (String "x" s))) => Hhx :: fmt s
  | String c s => (if is_space (code c) then Space (code c) else Lit (code c)) :: fmt s
  end%string.

Inductive value := VNum (z : Z) | VStr (l : list Z).

(** ** [sprintf] *)

Definition digit_char (d : Z) : Z := if d <? 10 then 48 + d else 87 + d.
Fixpoint digits (fuel : nat) (base z : Z) (acc : list Z) : list Z :=
  match fuel with
  | O => acc
  | S fuel =>
      let acc := digit_char (z mod base) :: acc in
      if z / base =? 0 then acc else digits fuel base (z / base) acc
  end.
Definition print_lu (z : Z) : list Z := digits 64 10 z [].
Definition print_d (z : Z) : list Z := if z <? 0 then 45 :: print_lu (- z) else print_lu z.
Definition print_lx (z : Z) : list Z := digits 64 16 z [].
Definition print_x02 (z : Z) : list Z := if z <? 16 then 48 :: print_lx z else print_lx z.

Fixpoint sprintf (f : list directive) (args : list value) : list Z :=
  match f with
  | [] => []
  | Lit c :: f => c :: sprintf f args
  | Space c :: f => c :: sprintf f args
  | d :: f =>
      match args with
      | VNum z :: args =>
          match d with
          | Lu => print_lu z | D => print_d z | Lx => print_lx z | X02 => print_x02 z | _ => []
          end ++ sprintf f args
      | VStr l :: args => match d with S_ => c_string l | _ => [] end ++ sprintf f args
      | [] => []
      end
  end.

(** ** [sscanf] *)

Fixpoint skip_space (l : list Z) : list Z :=
  match l with c :: l' => if is_space c then skip_space l' else l | [] => [] end.

Fixpoint scan_digits (l : list Z) (acc : Z) : Z * list Z :=
  match l with
  | c :: l' => if is_digit c then scan_digits l' (acc * 10 + (c - 48)) else (acc, l)
  | [] => (acc, [])
  end.

(** An optional sign and at least one digit. *)
Definition scan_number (l : list Z) : option (bool * Z * list Z) :=
  let '(neg, l) :=
    match skip_space l with
    | c :: l' => if c =? 45 then (true, l') else if c =? 43 then (false, l') else (false, c :: l')
    | [] => (false, [])
    end in
  match l with
  | c :: _ => if is_digit c then let '(v, l) := scan_digits l 0 in Some (neg, v, l) else None
  | [] => None
  end.

Definition scan_lu (l : list Z) : option (Z * list Z) :=
  match scan_number l with
  | None => None
  | Some (neg, v, l) => Some (if 2 ^ 64 <=? v then 2 ^ 64 - 1 else if neg then u64 (- v) else v, l)
  end.
Definition scan_d (l : list Z) : option (Z * list Z) :=
  match scan_number l with
  | None => None
  | Some (neg, v, l) =>
      Some (s32 (if neg then Z.max (- v) (- 2 ^ 63) else Z.min v (2 ^ 63 - 1)), l)
  end.

(** Hexadecimal, with an optional sign and an optional [0x]. *)
Definition is_xdigit (c : Z) : bool :=
  is_digit c || ((97 <=? c) && (c <=? 102)) || ((65 <=? c) && (c <=? 70)).
Definition xdigit_value (c : Z) : Z := if c <=? 57 then c - 48 else if c <=? 70 then c - 55 else c - 87.
Fixpoint scan_xdigits (l : list Z) (acc : Z) : Z * list Z :=
  match l with
  | c :: l' => if is_xdigit c then scan_xdigits l' (acc * 16 + xdigit_value c) else (acc, l)
  | [] => (acc, [])
  end.
Definition skip_0x (l : list Z) : list Z :=
  match l with z :: x :: l' => if (z =? 48) && ((x =? 120) || (x =? 88)) then l' else l | _ => l end.
Definition scan_lx (l : list Z) : option (Z * list Z) :=
  let '(neg, l) :=
    match skip_space l with
    | c :: l' => if c =? 45 then (true, l') else if c =? 43 then (false, l') else (false, c :: l')
    | [] => (false, [])
    end in
  match skip_0x l with
  | c :: l' =>
      if is_xdigit c then
        let '(v, l) := scan_xdigits (c :: l') 0 in
        Some (if 2 ^ 64 <=? v then 2 ^ 64 - 1 else if neg then u64 (- v) else v, l)
      else None
  | [] => None
  end.

Fixpoint scan_word (l : list Z) : list Z * list Z :=
  match l with
  | c :: l' => if is_space c then ([], l) else let '(w, l') := scan_word l' in (c :: w, l')
  | [] => ([], [])
  end.

(** The converted values, up to the first failure; [sscanf] returns their number. *)
Fixpoint scan (f : list directive) (l : list Z) : list value :=
  match f with
  | [] => []
  | Lit c :: f => match l with x :: l => if x =? c then scan f l else [] | [] => [] end
  | Space _ :: f => scan f (skip_space l)
  | Lu :: f => match scan_lu l with Some (v, l) => VNum v :: scan f l | None => [] end
  | D :: f => match scan_d l with Some (v, l) => VNum v :: scan f l | None => [] end
  | S_ :: f =>
      match scan_word (skip_space l) with
      | ([], _) => []
      | (w, l) => VStr w :: scan f l
      end
  | Hhu :: f => match scan_lu l with Some (v, l) => VNum (u8 v) :: scan f l | None => [] end
  | Hhx :: f => match scan_lx l with Some (v, l) => VNum (u8 v) :: scan f l | None => [] end
  | _ :: _ => []
  end.
Definition sscanf (content : list Z) (f : string) : list value := scan (fmt f) (c_string content).

(** ** Lemmas: decimal numbers *)

Lemma digits_app fuel base z acc : digits fuel base z acc = digits fuel base z [] ++ acc.
Proof.
  revert z acc. induction fuel as [|fuel IH]; intros z acc; cbn [digits]; [done|].
  destruct (z / base =? 0); [done|]. rewrite IH, (IH _ [_]), <- app_assoc. done.
Qed.

Lemma scan_digits_app l k acc :
  Forall (λ c, is_digit c = true) l ->
  scan_digits (l ++ k) acc = scan_digits k (fst (scan_digits l acc)).
Proof.
  intros Hl. revert acc. induction Hl as [|c l Hc _ IH]; intros acc; cbn [app scan_digits fst]; [done|].
  by rewrite Hc, IH.
Qed.

Lemma digit_char_digit d : 0 <= d < 10 -> is_digit (digit_char d) = true /\ digit_char d - 48 = d.
Proof. intros Hd. unfold digit_char, is_digit. destruct (Z.ltb_spec d 10); lia. Qed.

(** The digits of a number are digits, and scanning them gives it back. *)
Lemma digits_scan fuel z :
  0 <= z < 10 ^ Z.of_nat fuel ->
  Forall (λ c, is_digit c = true) (digits fuel 10 z []) /\
  forall acc, exists k, fst (scan_digits (digits fuel 10 z []) acc) = acc * 10 ^ k + z /\ 0 <= k /\ z < 10 ^ k.
Proof.
  revert z. induction fuel as [|fuel IH]; intros z Hz.
  { cbn in *. split; [constructor|]. intros acc. exists 0. cbn. lia. }
  rewrite Nat2Z.inj_succ, Z.pow_succ_r in Hz by lia. cbn [digits].
  destruct (digit_char_digit (z mod 10)) as [D1 D2]; [apply Z.mod_pos_bound; lia|].
  destruct (Z.eqb_spec (z / 10) 0) as [E|E].
  - split; [by repeat constructor|]. intros acc. exists 1. cbn [scan_digits]. rewrite D1, D2. cbn [fst].
    assert (z mod 10 = z /\ 0 <= z < 10) by (Z.to_euclidean_division_equations; lia). lia.
  - rewrite digits_app. destruct (IH (z / 10)) as [F G]; [Z.to_euclidean_division_equations; lia|].
    split; [apply Forall_app; split; [done|by repeat constructor]|]. intros acc.
    rewrite scan_digits_app by done. destruct (G acc) as (k & -> & Hk & Hb).
    cbn [scan_digits]. rewrite D1, D2. cbn [fst]. exists (k + 1).
    rewrite Z.pow_add_r by lia. Z.to_euclidean_division_equations; lia.
Qed.

Lemma digits_nonempty fuel base z acc : acc <> [] -> digits fuel base z acc <> [].
Proof.
  revert z acc. induction fuel as [|fuel IH]; intros z acc Ha; cbn [digits]; [done|].
  destruct (_ =? 0); [done|]. by apply IH.
Qed.
Lemma print_lu_nonempty z : exists c l, print_lu z = c :: l.
Proof.
  unfold print_lu. change 64%nat with (S 63). set (n := 63%nat). cbn [digits].
  destruct (_ =? 0); [eauto|]. pose proof (digits_nonempty n 10 (z / 10) [digit_char (z mod 10)]) as H.
  destruct (digits _ _ _ _); [by destruct H|eauto].
Qed.

Definition ends_number (l : list Z) : Prop := match l with c :: _ => is_digit c = false | [] => True end.

(** Reading a printed number gives it back. *)
Lemma scan_print_lu z l : is_u64 z -> ends_number l -> scan_lu (print_lu z ++ l) = Some (z, l).
Proof.
  intros Hz Hl. destruct (digits_scan 64 z) as [F G].
  { split; [apply Hz|]. eapply Z.lt_le_trans; [apply Hz|]. by vm_compute. }
  destruct (print_lu_nonempty z) as (c & k & Ep). unfold print_lu in *. rewrite Ep in *.
  apply Forall_cons_iff in F as [Fc Fk].
  assert (Hc : is_space c = false /\ (c =? 45) = false /\ (c =? 43) = false).
  { unfold is_digit, is_space in *. destruct (Z.leb_spec 48 c), (Z.leb_spec c 57); try done.
    repeat split; apply Z.eqb_neq || (apply orb_false_iff; split); lia. }
  destruct Hc as (C1 & C2 & C3). unfold scan_lu, scan_number. cbn [app skip_space]. rewrite C1, C2, C3, Fc.
  change (c :: k ++ l) with ((c :: k) ++ l). rewrite scan_digits_app by by apply Forall_cons_iff.
  destruct (G 0) as (e & Ev & _). rewrite Ev. replace (0 * 10 ^ e + z) with z by lia.
  replace (scan_digits l z) with (z, l); [cbn beta iota; destruct (Z.leb_spec (2 ^ 64) z); [unfold is_u64 in Hz; lia|done]|].
  destruct l as [|x l]; [done|]. cbn [scan_digits]. by rewrite Hl.
Qed.

(** Digits contain no null and no white space. *)
Lemma digit_plain c : is_digit c = true -> is_space c = false /\ c <> 0.
Proof. unfold is_digit, is_space. intros H. destruct (Z.leb_spec 48 c), (Z.leb_spec c 57); try done. lia. Qed.
Lemma print_lu_digits z : is_u64 z -> Forall (λ c, is_digit c = true) (print_lu z).
Proof.
  intros Hz. apply (digits_scan 64 z). split; [apply Hz|]. eapply Z.lt_le_trans; [apply Hz|]. by vm_compute.
Qed.

Lemma c_string_app l k : Forall (λ c, c <> 0) l -> c_string (l ++ k) = l ++ c_string k.
Proof.
  induction 1 as [|c l Hc _ IH]; [done|]. cbn [app c_string].
  destruct (Z.eqb_spec c 0); [done|]. by rewrite IH.
Qed.
Lemma c_string_id l : Forall (λ c, c <> 0) l -> c_string l = l.
Proof. intros H. rewrite <- (app_nil_r l) at 1. by rewrite c_string_app, app_nil_r. Qed.

Lemma list_eqb_eq l k : list_eqb l k = true <-> l = k.
Proof.
  revert k. induction l as [|x l IH]; intros [|y k]; cbn [list_eqb]; try done.
  rewrite andb_true_iff, Z.eqb_eq, IH. split; [by intros [-> ->]|by intros [= -> ->]].
Qed.

(** Reading two hexadecimal digits gives the byte. *)
Definition print_hex2 (b : Z) : list Z := [digit_char (b / 16); digit_char (b mod 16)].
Lemma digit_char_xdigit d : 0 <= d < 16 ->
  is_xdigit (digit_char d) = true /\ xdigit_value (digit_char d) = d /\ 48 <= digit_char d <= 102 /\
  is_space (digit_char d) = false.
Proof.
  intros Hd. unfold digit_char, is_xdigit, is_digit, xdigit_value, is_space.
  destruct (Z.ltb_spec d 10);
    repeat match goal with |- context [?a <=? ?b] => destruct (Z.leb_spec a b) | |- context [?a =? ?b] => destruct (Z.eqb_spec a b) end;
    cbn [andb orb]; lia.
Qed.
Definition ends_hex (l : list Z) : Prop := match l with c :: _ => is_xdigit c = false | [] => True end.
Lemma scan_print_hex2 b l : is_u8 b -> ends_hex l -> scan_lx (print_hex2 b ++ l) = Some (b, l).
Proof.
  intros Hb Hl. unfold is_u8 in Hb.
  destruct (digit_char_xdigit (b / 16)) as (A1 & A2 & A3 & A4); [Z.to_euclidean_division_equations; lia|].
  destruct (digit_char_xdigit (b mod 16)) as (B1 & B2 & B3 & B4); [Z.to_euclidean_division_equations; lia|].
  unfold print_hex2, scan_lx. revert A1 A2 A3 A4 B1 B2 B3 B4. generalize (digit_char (b / 16)) (digit_char (b mod 16)).
  intros x y A1 A2 A3 A4 B1 B2 B3 B4. cbn [app skip_space]. rewrite A4.
  destruct (Z.eqb_spec x 45); [lia|]. destruct (Z.eqb_spec x 43); [lia|]. cbn [skip_0x].
  destruct (Z.eqb_spec y 120); [lia|]. assert ((y =? 88) = false) as ->.
  { apply Z.eqb_neq. intros ->. by vm_compute in B1. }
  rewrite andb_false_r, A1. cbn [scan_xdigits]. rewrite A1, B1, A2, B2.
  replace ((0 * 16 + b / 16) * 16 + b mod 16) with b by (Z.to_euclidean_division_equations; lia).
  assert (E : scan_xdigits l b = (b, l)).
  { destruct l as [|z l]; [done|]. cbn [scan_xdigits]. by rewrite Hl. }
  rewrite E. destruct (Z.leb_spec (2 ^ 64) b); [lia|done].
Qed.

(** ** A printed request is read back *)

(** Formats that [sscanf] reads the way [sprintf] writes them, for the number of
    values they take: [%lu] is followed by white space or the end, and white space
    by something that is not white space. *)
Fixpoint readable (f : list directive) (n : nat) : bool :=
  match f, n with
  | [], O => true
  | Lit c :: f, _ => negb (is_space c) && negb (c =? 0) && readable f n
  | Space c :: f, _ =>
      is_space c &&
      match f with Lit _ :: _ => true | Lu :: _ => true | _ => false end && readable f n
  | Lu :: f, S n => match f with [] => true | Space _ :: _ => true | _ => false end && readable f n
  | _, _ => false
  end.

Lemma skip_space_print f n args : readable f n = true ->
  match f with Lit _ :: _ => True | Lu :: _ => True | _ => False end ->
  Forall is_u64 args -> length args = n ->
  skip_space (sprintf f (VNum <$> args)) = sprintf f (VNum <$> args).
Proof.
  destruct f as [|[c|c| | | | | | |] f]; try done; intros Hr _ Ha Hn.
  - cbn [readable] in Hr. cbn [sprintf skip_space]. destruct (is_space c); [|done]. done.
  - destruct n as [|n]; [done|]. destruct args as [|a args]; [done|].
    apply Forall_cons_iff in Ha as [Ha _]. cbn [fmap list_fmap sprintf].
    destruct (print_lu_nonempty a) as (c & k & E). pose proof (print_lu_digits a Ha) as Hd. rewrite E in *.
    apply Forall_cons_iff in Hd as [Hd _]. cbn [app skip_space]. by rewrite (proj1 (digit_plain c Hd)).
Qed.

Lemma scan_sprintf f args :
  readable f (length args) = true -> Forall is_u64 args ->
  scan f (sprintf f (VNum <$> args)) = VNum <$> args /\
  Forall (λ c, c <> 0) (sprintf f (VNum <$> args)).
Proof.
  revert args. induction f as [|d f IH]; intros args Hr Ha; [destruct args; [by split|done]|].
  destruct d as [c|c| | | | | | |]; cbn [readable] in Hr; try done.
  - apply andb_true_iff in Hr as [[_ H0%negb_true_iff%Z.eqb_neq]%andb_true_iff Hr].
    destruct (IH args Hr Ha) as [E F]. cbn [sprintf scan]. rewrite Z.eqb_refl. split; [done|by constructor].
  - apply andb_true_iff in Hr as [[Hc Hn]%andb_true_iff Hr]. destruct (IH args Hr Ha) as [E F].
    cbn [sprintf scan skip_space]. rewrite Hc. split.
    + rewrite (skip_space_print f (length args)); [done|done| |done|done].
      destruct f as [|[]]; try done; by destruct args.
    + constructor; [|done]. intros ->. done.
  - destruct args as [|a args]; [done|]. cbn [length] in Hr. apply andb_true_iff in Hr as [Hn Hr].
    apply Forall_cons_iff in Ha as [Ha Hrest]. destruct (IH args Hr Hrest) as [E F].
    cbn [fmap list_fmap sprintf scan]. rewrite scan_print_lu; [|done|].
    + split; [by rewrite E|]. apply Forall_app. split; [|done].
      generalize (print_lu_digits a Ha). apply List.Forall_impl. intros c Hc. by apply digit_plain.
    + destruct f as [|[]]; try done. cbn [sprintf ends_number]. cbn [readable] in Hr.
      apply andb_true_iff in Hr as [[Hc _]%andb_true_iff _]. destruct (is_digit c) eqn:Ed; [|done].
      apply digit_plain in Ed as [Ed _]. congruence.
Qed.

End LibC.
