(* ===== verification/SysLog.v ===== *)
(** * SysLog: the kernel log ring buffer ([lib/syslog.cpp])

    The state is the three statics of the file.  [log_of] reads the abstract
    log out of the ring; [putchar] keeps the last [MAX_LOG_LEN - 1] characters
    and [get] is a bounds-clamped slice of that log. *)
From S2P Require Import Prelude.

Module SysLog.

Definition MAX_LOG_LEN : Z := 32768.

Record state := mk_state { buffer : list Z; head : Z; tail : Z }.

(** The statics are zero-initialised; [init] resets the two indices only. *)
Definition boot : state := mk_state (replicate (Z.to_nat MAX_LOG_LEN) 0) 0 0.
Definition init (s : state) : state := mk_state (buffer s) 0 0.

Definition putchar (s : state) (c : Z) : state :=
  let buf := zset (buffer s) (tail s) c in
  let tl := (tail s + 1) mod MAX_LOG_LEN in
  if tl =? head s
  then mk_state buf ((head s + 1) mod MAX_LOG_LEN) tl
  else mk_state buf (head s) tl.

(** [get] returns the number of bytes and the bytes it stores in [buf]. *)
Definition get (s : state) (start len : Z) : Z * list Z :=
  let buf_len := (tail s - head s + MAX_LOG_LEN) mod MAX_LOG_LEN in
  let start := if start <? 0 then buf_len + start else start in
  let start := if start <? 0 then 0 else start in
  let start := if buf_len <? start then buf_len else start in
  let len := if buf_len - start <? len then buf_len - start else len in
  (len, (λ i, zget 0 (buffer s) ((head s + start + i) mod MAX_LOG_LEN)) <$> seqZ 0 len).

(** ** The abstract log *)

(** The last [n] elements of a list. *)
Definition lastn (n : nat) (l : list Z) : list Z := drop (length l - n) l.

Definition wf (s : state) : Prop :=
  zlen (buffer s) = MAX_LOG_LEN /\ 0 <= head s < MAX_LOG_LEN /\ 0 <= tail s < MAX_LOG_LEN.

Definition log_len (s : state) : Z := (tail s - head s + MAX_LOG_LEN) mod MAX_LOG_LEN.
Definition log_of (s : state) : list Z :=
  (λ i, zget 0 (buffer s) ((head s + i) mod MAX_LOG_LEN)) <$> seqZ 0 (log_len s).

(** What [get] promises on a log [l]. *)
Definition slice (l : list Z) (start len : Z) : Z * list Z :=
  let n := zlen l in
  let from := if start <? 0 then Z.max 0 (n + start) else Z.min start n in
  let cnt := Z.min len (n - from) in
  (cnt, ztake cnt (zdrop from l)).

(** ** Lemmas *)

Lemma wf_boot : wf boot.
Proof. unfold wf, boot, zlen. cbn [buffer head tail]. rewrite length_replicate. unfold MAX_LOG_LEN; lia. Qed.

Lemma log_len_range s : 0 <= log_len s < MAX_LOG_LEN.
Proof. apply Z.mod_pos_bound. done. Qed.

Lemma zlen_log_of s : zlen (log_of s) = log_len s.
Proof.
  unfold zlen, log_of. rewrite length_fmap, length_seqZ.
  pose proof (log_len_range s). lia.
Qed.

Lemma lookup_log_of s (i : nat) :
  Z.of_nat i < log_len s ->
  log_of s !! i = Some (zget 0 (buffer s) ((head s + Z.of_nat i) mod MAX_LOG_LEN)).
Proof.
  intros Hi. unfold log_of. rewrite list_lookup_fmap.
  rewrite (proj2 (lookup_seqZ 0 (log_len s) i (Z.of_nat i))) by lia. done.
Qed.

Lemma wf_putchar s c : wf s -> wf (putchar s c).
Proof.
  unfold wf, putchar. intros (Hb & Hh & Ht).
  assert (forall z, 0 <= z mod MAX_LOG_LEN < MAX_LOG_LEN) by (intros; apply Z.mod_pos_bound; done).
  destruct (_ =? _); cbn [buffer head tail]; rewrite zlen_zset; auto.
Qed.

(** A slot between the head and the old tail survives the write at the tail. *)
Lemma putchar_slot s c i :
  wf s -> 0 <= i < log_len s ->
  zget 0 (zset (buffer s) (tail s) c) ((head s + i) mod MAX_LOG_LEN) =
  zget 0 (buffer s) ((head s + i) mod MAX_LOG_LEN).
Proof.
  intros (Hb & Hh & Ht) Hi. unfold log_len, MAX_LOG_LEN in *.
  apply zget_zset_ne; [lia | apply Z.mod_pos_bound; lia |].
  Z.to_euclidean_division_equations. lia.
Qed.

(** The slot one past the last character is the tail itself. *)
Lemma tail_slot s : wf s -> (head s + log_len s) mod MAX_LOG_LEN = tail s.
Proof.
  intros (_ & Hh & Ht). unfold log_len, MAX_LOG_LEN in *.
  Z.to_euclidean_division_equations. lia.
Qed.

Lemma log_len_putchar s c :
  wf s -> log_len (putchar s c) = Z.min (log_len s + 1) (MAX_LOG_LEN - 1).
Proof.
  intros (_ & Hh & Ht). unfold putchar, log_len, MAX_LOG_LEN in *.
  destruct (Z.eqb_spec ((tail s + 1) mod 32768) (head s)); cbn [head tail];
    Z.to_euclidean_division_equations; lia.
Qed.

(** The new head: unchanged while there is room, the next slot once full. *)
Lemma head_putchar s c :
  wf s -> head (putchar s c) =
    (head s + (log_len s + 1 - log_len (putchar s c))) mod MAX_LOG_LEN.
Proof.
  intros Hwf. rewrite log_len_putchar by done. destruct Hwf as (_ & Hh & Ht).
  unfold putchar, log_len, MAX_LOG_LEN in *.
  destruct (Z.eqb_spec ((tail s + 1) mod 32768) (head s)); cbn [head tail];
    Z.to_euclidean_division_equations; lia.
Qed.

(** One [putchar] appends and keeps the last [MAX_LOG_LEN - 1] characters. *)
Lemma log_of_putchar s c :
  wf s -> log_of (putchar s c) = lastn (Z.to_nat (MAX_LOG_LEN - 1)) (log_of s ++ [c]).
Proof.
  intros Hwf. pose proof (wf_putchar s c Hwf) as Hwf'.
  pose proof (zlen_log_of s) as Hn. pose proof (zlen_log_of (putchar s c)) as Hn'.
  pose proof (log_len_range s). pose proof (log_len_putchar s c Hwf) as Hl.
  unfold zlen in *. apply list_eq. intros i.
  unfold lastn. rewrite lookup_drop, length_app. cbn [length].
  destruct (decide (Z.of_nat i < log_len (putchar s c))) as [Hi|Hi].
  2: { rewrite !lookup_ge_None_2; [done| |lia]. rewrite length_app. cbn [length]. lia. }
  rewrite lookup_log_of, head_putchar by done.
  set (k := (length (log_of s) + 1 - Z.to_nat (MAX_LOG_LEN - 1))%nat).
  rewrite Zplus_mod_idemp_l, <- Z.add_assoc.
  replace (log_len s + 1 - log_len (putchar s c) + Z.of_nat i) with (Z.of_nat (k + i)) by lia.
  assert (buffer (putchar s c) = zset (buffer s) (tail s) c) as ->
    by (unfold putchar; by destruct (_ =? _)).
  destruct (decide (Z.of_nat (k + i) < log_len s)) as [Hk|Hk].
  - rewrite putchar_slot, lookup_app_l by (done || lia). by rewrite lookup_log_of.
  - rewrite lookup_app_r by lia.
    replace (Z.of_nat (k + i)) with (log_len s) by lia. rewrite tail_slot by done.
    destruct Hwf as (Hb & _ & Ht). rewrite zget_zset_eq by lia.
    by replace (k + i - length (log_of s))%nat with 0%nat by lia.
Qed.

Lemma lastn_app_lastn n l k : lastn n (lastn n l ++ k) = lastn n (l ++ k).
Proof.
  unfold lastn. rewrite !length_app, length_drop.
  destruct (decide (n <= length l)%nat).
  - rewrite (drop_app (drop _ _)), (drop_app l), drop_drop, length_drop. f_equal; f_equal; lia.
  - replace (length l - n)%nat with 0%nat by lia. rewrite drop_0. f_equal; lia.
Qed.

Lemma log_of_run s cs :
  wf s -> log_of (fold_left putchar cs s) = lastn (Z.to_nat (MAX_LOG_LEN - 1)) (log_of s ++ cs).
Proof.
  revert s. induction cs as [|c cs IH]; intros s Hwf; cbn [fold_left].
  - rewrite app_nil_r. unfold lastn. pose proof (zlen_log_of s). pose proof (log_len_range s).
    unfold zlen in *. replace (_ - _)%nat with 0%nat by lia. done.
  - rewrite IH by auto using wf_putchar. rewrite log_of_putchar by done.
    by rewrite lastn_app_lastn, <- app_assoc.
Qed.

Lemma wf_run s cs : wf s -> wf (fold_left putchar cs s).
Proof. revert s. induction cs; cbn; auto using wf_putchar. Qed.

(** [get] is the slice of the abstract log. *)
Lemma get_slice s start len : wf s -> get s start len = slice (log_of s) start len.
Proof.
  intros Hwf. unfold get, slice. rewrite zlen_log_of. fold (log_len s).
  pose proof (log_len_range s) as Hr. set (n := log_len s) in *.
  set (from := if start <? 0 then Z.max 0 (n + start) else Z.min start n).
  replace (if n <? (if (if start <? 0 then n + start else start) <? 0 then 0
                    else if start <? 0 then n + start else start)
           then n else _) with from by (subst from; zbool; lia).
  assert (0 <= from <= n) by (subst from; zbool; lia).
  replace (if n - from <? len then n - from else len) with (Z.min len (n - from))
    by (zbool; lia).
  f_equal. set (cnt := Z.min len (n - from)).
  apply list_eq. intros i. unfold ztake, zdrop. rewrite list_lookup_fmap.
  destruct (decide (Z.of_nat i < cnt)) as [Hi|Hi].
  - rewrite (proj2 (lookup_seqZ 0 cnt i (Z.of_nat i))) by lia. cbn.
    rewrite lookup_take_lt, lookup_drop, lookup_log_of by lia.
    do 3 f_equal. lia.
  - rewrite (lookup_ge_None_2 (seqZ _ _)) by (rewrite length_seqZ; lia).
    rewrite lookup_take_ge by lia. done.
Qed.

(** C33: After any sequence of [putchar]s from boot, [get] returns the requested slice
    of the last 32767 characters written, oldest first: a negative start counts
    from the end, and both bounds are clamped to the log. *)
Theorem syslog_get_after_putchars cs start len :
  get (fold_left putchar cs (init boot)) start len =
    slice (lastn (Z.to_nat (MAX_LOG_LEN - 1)) cs) start len.
Proof.
  pose proof wf_boot as Hb. assert (Hi : wf (init boot)) by exact Hb.
  rewrite get_slice by (by apply wf_run). by rewrite log_of_run.
Qed.

End SysLog.
