(* ===== verification/Console.v ===== *)
(** * Console: the text screens and the serial line

    [lib/vga_buffer.cpp], [lib/framebuffer.cpp], [lib/serial.cpp].  The two screens
    scroll; what they show is a window onto a sheet of paper without end
    ([paper]), and this is what [Terminal] promises the rest of the kernel.
    Screen memory is a function of the position. *)
From S2P Require Import Prelude SysLog.
From stdpp Require Import list.

Module Console.
Local Open Scope Z_scope.

(** A character and its colours. *)
Record cell := mk_cell { byte : Z; color_code : Z }.

Definition upd2 {A} (f : Z -> Z -> A) (i j : Z) (v : A) : Z -> Z -> A :=
  λ i' j', if (i' =? i) && (j' =? j) then v else f i' j'.

(** ** The text buffer ([lib/vga_buffer.cpp]) *)

Module VGA.
Definition Black := 0.
Definition Green := 2.
Definition LightGray := 7.
Definition DarkGray := 8.
Definition LightRed := 12.
Definition Yellow := 14.
Definition White := 15.
(** [ColorCode::generate]. *)
Definition generate (foreground background : Z) : Z := u8 (Z.lor (Z.shiftl background 4) foreground).

Definition BUFFER_HEIGHT : Z := 25.
Definition BUFFER_WIDTH : Z := 80.
Record Writer := mk_writer { column_position : Z; color : Z; chars : Z -> Z -> cell }.
Definition with_chars (w : Writer) (c : Z -> Z -> cell) : Writer := mk_writer (column_position w) (color w) c.
Definition with_column (w : Writer) (c : Z) : Writer := mk_writer c (color w) (chars w).
Definition with_color (w : Writer) (c : Z) : Writer := mk_writer (column_position w) c (chars w).
(** [the_writer], on the screen as it is found. *)
Definition the_writer (screen : Z -> Z -> cell) : Writer := mk_writer 0 (generate LightGray Black) screen.

Definition clear_row (w : Writer) (row : Z) : Writer :=
  let blank := mk_cell 32 (color w) in
  with_chars w (fold_left (λ c col, upd2 c row col blank) (seqZ 0 BUFFER_WIDTH) (chars w)).
Definition new_line (w : Writer) : Writer :=
  let w := with_chars w
    (fold_left (λ c row, fold_left (λ c col, upd2 c (row - 1) col (c row col)) (seqZ 0 BUFFER_WIDTH) c)
       (seqZ 1 (BUFFER_HEIGHT - 1)) (chars w)) in
  let w := clear_row w (BUFFER_HEIGHT - 1) in
  with_column w 0.
(** The end of [write_byte]: a character goes into the last row. *)
Definition put (w : Writer) (b : Z) : Writer :=
  let row := BUFFER_HEIGHT - 1 in
  let col := column_position w in
  let w := with_chars w (upd2 (chars w) row col (mk_cell b (color w))) in
  with_column w (column_position w + 1).
(** [write_byte], after the call of the frame buffer. *)
Definition write_byte (w : Writer) (b : Z) : Writer :=
  if b =? 10 then new_line w
  else put (if BUFFER_WIDTH <=? column_position w then new_line w else w) b.
End VGA.

(** ** The frame buffer ([lib/framebuffer.cpp]) *)

Module FrameBuffer.
Definition font : list Z :=
  [0x00; 0x00; 0x00; 0x00; 0x00; 0x00; 0x00; 0x00;
   0x7e; 0x81; 0xa5; 0x81; 0xbd; 0x99; 0x81; 0x7e;
   0x7e; 0xff; 0xdb; 0xff; 0xc3; 0xe7; 0xff; 0x7e;
   0x6c; 0xfe; 0xfe; 0xfe; 0x7c; 0x38; 0x10; 0x00;
   0x10; 0x38; 0x7c; 0xfe; 0x7c; 0x38; 0x10; 0x00;
   0x38; 0x7c; 0x38; 0xfe; 0xfe; 0x7c; 0x38; 0x7c;
   0x10; 0x10; 0x38; 0x7c; 0xfe; 0x7c; 0x38; 0x7c;
   0x00; 0x00; 0x18; 0x3c; 0x3c; 0x18; 0x00; 0x00;
   0xff; 0xff; 0xe7; 0xc3; 0xc3; 0xe7; 0xff; 0xff;
   0x00; 0x3c; 0x66; 0x42; 0x42; 0x66; 0x3c; 0x00;
   0xff; 0xc3; 0x99; 0xbd; 0xbd; 0x99; 0xc3; 0xff;
   0x0f; 0x07; 0x0f; 0x7d; 0xcc; 0xcc; 0xcc; 0x78;
   0x3c; 0x66; 0x66; 0x66; 0x3c; 0x18; 0x7e; 0x18;
   0x3f; 0x33; 0x3f; 0x30; 0x30; 0x70; 0xf0; 0xe0;
   0x7f; 0x63; 0x7f; 0x63; 0x63; 0x67; 0xe6; 0xc0;
   0x99; 0x5a; 0x3c; 0xe7; 0xe7; 0x3c; 0x5a; 0x99;
   0x80; 0xe0; 0xf8; 0xfe; 0xf8; 0xe0; 0x80; 0x00;
   0x02; 0x0e; 0x3e; 0xfe; 0x3e; 0x0e; 0x02; 0x00;
   0x18; 0x3c; 0x7e; 0x18; 0x18; 0x7e; 0x3c; 0x18;
   0x66; 0x66; 0x66; 0x66; 0x66; 0x00; 0x66; 0x00;
   0x7f; 0xdb; 0xdb; 0x7b; 0x1b; 0x1b; 0x1b; 0x00;
   0x3e; 0x63; 0x38; 0x6c; 0x6c; 0x38; 0xcc; 0x78;
   0x00; 0x00; 0x00; 0x00; 0x7e; 0x7e; 0x7e; 0x00;
   0x18; 0x3c; 0x7e; 0x18; 0x7e; 0x3c; 0x18; 0xff;
   0x18; 0x3c; 0x7e; 0x18; 0x18; 0x18; 0x18; 0x00;
   0x18; 0x18; 0x18; 0x18; 0x7e; 0x3c; 0x18; 0x00;
   0x00; 0x18; 0x0c; 0xfe; 0x0c; 0x18; 0x00; 0x00;
   0x00; 0x30; 0x60; 0xfe; 0x60; 0x30; 0x00; 0x00;
   0x00; 0x00; 0xc0; 0xc0; 0xc0; 0xfe; 0x00; 0x00;
   0x00; 0x24; 0x66; 0xff; 0x66; 0x24; 0x00; 0x00;
   0x00; 0x18; 0x3c; 0x7e; 0xff; 0xff; 0x00; 0x00;
   0x00; 0xff; 0xff; 0x7e; 0x3c; 0x18; 0x00; 0x00;
   0x00; 0x00; 0x00; 0x00; 0x00; 0x00; 0x00; 0x00;
   0x30; 0x78; 0x78; 0x30; 0x30; 0x00; 0x30; 0x00;
   0x6c; 0x6c; 0x6c; 0x00; 0x00; 0x00; 0x00; 0x00;
   0x6c; 0x6c; 0xfe; 0x6c; 0xfe; 0x6c; 0x6c; 0x00;
   0x30; 0x7c; 0xc0; 0x78; 0x0c; 0xf8; 0x30; 0x00;
   0x00; 0xc6; 0xcc; 0x18; 0x30; 0x66; 0xc6; 0x00;
   0x38; 0x6c; 0x38; 0x76; 0xdc; 0xcc; 0x76; 0x00;
   0x60; 0x60; 0xc0; 0x00; 0x00; 0x00; 0x00; 0x00;
   0x18; 0x30; 0x60; 0x60; 0x60; 0x30; 0x18; 0x00;
   0x60; 0x30; 0x18; 0x18; 0x18; 0x30; 0x60; 0x00;
   0x00; 0x66; 0x3c; 0xff; 0x3c; 0x66; 0x00; 0x00;
   0x00; 0x30; 0x30; 0xfc; 0x30; 0x30; 0x00; 0x00;
   0x00; 0x00; 0x00; 0x00; 0x00; 0x30; 0x30; 0x60;
   0x00; 0x00; 0x00; 0xfc; 0x00; 0x00; 0x00; 0x00;
   0x00; 0x00; 0x00; 0x00; 0x00; 0x30; 0x30; 0x00;
   0x06; 0x0c; 0x18; 0x30; 0x60; 0xc0; 0x80; 0x00;
   0x7c; 0xc6; 0xce; 0xde; 0xf6; 0xe6; 0x7c; 0x00;
   0x30; 0x70; 0x30; 0x30; 0x30; 0x30; 0xfc; 0x00;
   0x78; 0xcc; 0x0c; 0x38; 0x60; 0xcc; 0xfc; 0x00;
   0x78; 0xcc; 0x0c; 0x38; 0x0c; 0xcc; 0x78; 0x00;
   0x1c; 0x3c; 0x6c; 0xcc; 0xfe; 0x0c; 0x1e; 0x00;
   0xfc; 0xc0; 0xf8; 0x0c; 0x0c; 0xcc; 0x78; 0x00;
   0x38; 0x60; 0xc0; 0xf8; 0xcc; 0xcc; 0x78; 0x00;
   0xfc; 0xcc; 0x0c; 0x18; 0x30; 0x30; 0x30; 0x00;
   0x78; 0xcc; 0xcc; 0x78; 0xcc; 0xcc; 0x78; 0x00;
   0x78; 0xcc; 0xcc; 0x7c; 0x0c; 0x18; 0x70; 0x00;
   0x00; 0x30; 0x30; 0x00; 0x00; 0x30; 0x30; 0x00;
   0x00; 0x30; 0x30; 0x00; 0x00; 0x30; 0x30; 0x60;
   0x18; 0x30; 0x60; 0xc0; 0x60; 0x30; 0x18; 0x00;
   0x00; 0x00; 0xfc; 0x00; 0x00; 0xfc; 0x00; 0x00;
   0x60; 0x30; 0x18; 0x0c; 0x18; 0x30; 0x60; 0x00;
   0x78; 0xcc; 0x0c; 0x18; 0x30; 0x00; 0x30; 0x00;
   0x7c; 0xc6; 0xde; 0xde; 0xde; 0xc0; 0x78; 0x00;
   0x30; 0x78; 0xcc; 0xcc; 0xfc; 0xcc; 0xcc; 0x00;
   0xfc; 0x66; 0x66; 0x7c; 0x66; 0x66; 0xfc; 0x00;
   0x3c; 0x66; 0xc0; 0xc0; 0xc0; 0x66; 0x3c; 0x00;
   0xf8; 0x6c; 0x66; 0x66; 0x66; 0x6c; 0xf8; 0x00;
   0xfe; 0x62; 0x68; 0x78; 0x68; 0x62; 0xfe; 0x00;
   0xfe; 0x62; 0x68; 0x78; 0x68; 0x60; 0xf0; 0x00;
   0x3c; 0x66; 0xc0; 0xc0; 0xce; 0x66; 0x3e; 0x00;
   0xcc; 0xcc; 0xcc; 0xfc; 0xcc; 0xcc; 0xcc; 0x00;
   0x78; 0x30; 0x30; 0x30; 0x30; 0x30; 0x78; 0x00;
   0x1e; 0x0c; 0x0c; 0x0c; 0xcc; 0xcc; 0x78; 0x00;
   0xe6; 0x66; 0x6c; 0x78; 0x6c; 0x66; 0xe6; 0x00;
   0xf0; 0x60; 0x60; 0x60; 0x62; 0x66; 0xfe; 0x00;
   0xc6; 0xee; 0xfe; 0xfe; 0xd6; 0xc6; 0xc6; 0x00;
   0xc6; 0xe6; 0xf6; 0xde; 0xce; 0xc6; 0xc6; 0x00;
   0x38; 0x6c; 0xc6; 0xc6; 0xc6; 0x6c; 0x38; 0x00;
   0xfc; 0x66; 0x66; 0x7c; 0x60; 0x60; 0xf0; 0x00;
   0x78; 0xcc; 0xcc; 0xcc; 0xdc; 0x78; 0x1c; 0x00;
   0xfc; 0x66; 0x66; 0x7c; 0x6c; 0x66; 0xe6; 0x00;
   0x78; 0xcc; 0xe0; 0x70; 0x1c; 0xcc; 0x78; 0x00;
   0xfc; 0xb4; 0x30; 0x30; 0x30; 0x30; 0x78; 0x00;
   0xcc; 0xcc; 0xcc; 0xcc; 0xcc; 0xcc; 0xfc; 0x00;
   0xcc; 0xcc; 0xcc; 0xcc; 0xcc; 0x78; 0x30; 0x00;
   0xc6; 0xc6; 0xc6; 0xd6; 0xfe; 0xee; 0xc6; 0x00;
   0xc6; 0xc6; 0x6c; 0x38; 0x38; 0x6c; 0xc6; 0x00;
   0xcc; 0xcc; 0xcc; 0x78; 0x30; 0x30; 0x78; 0x00;
   0xfe; 0xc6; 0x8c; 0x18; 0x32; 0x66; 0xfe; 0x00;
   0x78; 0x60; 0x60; 0x60; 0x60; 0x60; 0x78; 0x00;
   0xc0; 0x60; 0x30; 0x18; 0x0c; 0x06; 0x02; 0x00;
   0x78; 0x18; 0x18; 0x18; 0x18; 0x18; 0x78; 0x00;
   0x10; 0x38; 0x6c; 0xc6; 0x00; 0x00; 0x00; 0x00;
   0x00; 0x00; 0x00; 0x00; 0x00; 0x00; 0x00; 0xff;
   0x30; 0x30; 0x18; 0x00; 0x00; 0x00; 0x00; 0x00;
   0x00; 0x00; 0x78; 0x0c; 0x7c; 0xcc; 0x76; 0x00;
   0xe0; 0x60; 0x60; 0x7c; 0x66; 0x66; 0xdc; 0x00;
   0x00; 0x00; 0x78; 0xcc; 0xc0; 0xcc; 0x78; 0x00;
   0x1c; 0x0c; 0x0c; 0x7c; 0xcc; 0xcc; 0x76; 0x00;
   0x00; 0x00; 0x78; 0xcc; 0xfc; 0xc0; 0x78; 0x00;
   0x38; 0x6c; 0x60; 0xf0; 0x60; 0x60; 0xf0; 0x00;
   0x00; 0x00; 0x76; 0xcc; 0xcc; 0x7c; 0x0c; 0xf8;
   0xe0; 0x60; 0x6c; 0x76; 0x66; 0x66; 0xe6; 0x00;
   0x30; 0x00; 0x70; 0x30; 0x30; 0x30; 0x78; 0x00;
   0x0c; 0x00; 0x0c; 0x0c; 0x0c; 0xcc; 0xcc; 0x78;
   0xe0; 0x60; 0x66; 0x6c; 0x78; 0x6c; 0xe6; 0x00;
   0x70; 0x30; 0x30; 0x30; 0x30; 0x30; 0x78; 0x00;
   0x00; 0x00; 0xcc; 0xfe; 0xfe; 0xd6; 0xc6; 0x00;
   0x00; 0x00; 0xf8; 0xcc; 0xcc; 0xcc; 0xcc; 0x00;
   0x00; 0x00; 0x78; 0xcc; 0xcc; 0xcc; 0x78; 0x00;
   0x00; 0x00; 0xdc; 0x66; 0x66; 0x7c; 0x60; 0xf0;
   0x00; 0x00; 0x76; 0xcc; 0xcc; 0x7c; 0x0c; 0x1e;
   0x00; 0x00; 0xdc; 0x76; 0x66; 0x60; 0xf0; 0x00;
   0x00; 0x00; 0x7c; 0xc0; 0x78; 0x0c; 0xf8; 0x00;
   0x10; 0x30; 0x7c; 0x30; 0x30; 0x34; 0x18; 0x00;
   0x00; 0x00; 0xcc; 0xcc; 0xcc; 0xcc; 0x76; 0x00;
   0x00; 0x00; 0xcc; 0xcc; 0xcc; 0x78; 0x30; 0x00;
   0x00; 0x00; 0xc6; 0xd6; 0xfe; 0xfe; 0x6c; 0x00;
   0x00; 0x00; 0xc6; 0x6c; 0x38; 0x6c; 0xc6; 0x00;
   0x00; 0x00; 0xcc; 0xcc; 0xcc; 0x7c; 0x0c; 0xf8;
   0x00; 0x00; 0xfc; 0x98; 0x30; 0x64; 0xfc; 0x00;
   0x1c; 0x30; 0x30; 0xe0; 0x30; 0x30; 0x1c; 0x00;
   0x18; 0x18; 0x18; 0x00; 0x18; 0x18; 0x18; 0x00;
   0xe0; 0x30; 0x30; 0x1c; 0x30; 0x30; 0xe0; 0x00;
   0x76; 0xdc; 0x00; 0x00; 0x00; 0x00; 0x00; 0x00;
   0x00; 0x10; 0x38; 0x6c; 0xc6; 0xc6; 0xfe; 0x00].
Definition color_to_rgb : list Z :=
  [0x000000; 0x000080; 0x008000; 0x008080;
   0x800000; 0x800080; 0x808000; 0xC0C0C0;
   0x808080; 0x0000FF; 0x00FF00; 0x00FFFF;
   0xFF0000; 0xFF00FF; 0xFFFF00; 0xFFFFFF].

Definition N_ROWS : Z := 600 / 12.
Definition N_COLS : Z := 800 / 8.
(** [framebuffer] is the address; [pixels] what is there, by index. *)
Record state := mk_state {
  framebuffer : Z; initialized : bool; chars : Z -> Z -> cell; current_col : Z; current_color_code : Z;
  pixels : Z -> Z }.
Definition with_screen (s : state) (c : Z -> Z -> cell) (p : Z -> Z) : state :=
  mk_state (framebuffer s) (initialized s) c (current_col s) (current_color_code s) p.
Definition with_position (s : state) (col color : Z) : state :=
  mk_state (framebuffer s) (initialized s) (chars s) col color (pixels s).
(** The statics are zero. *)
Definition boot (p : Z -> Z) : state := mk_state 0 false (λ _ _, mk_cell 0 0) 0 0 p.

Definition draw_char (row col : Z) (c : cell) (fb : Z -> Z) : Z -> Z :=
  let b := if 128 <=? byte c then 0 else byte c in
  let glyph := b * 8 in
  let front_color := zget 0 color_to_rgb (Z.shiftr (color_code c) 4) in
  let back_color := zget 0 color_to_rgb (Z.land (color_code c) 0xf) in
  let pos_row := row * 12 in
  let pos_col := col * 8 in
  fold_left (λ fb i,
    let line := if (2 <=? i) && (i <? 10) then zget 0 font (glyph + (i - 2)) else 0 in
    fold_left (λ fb j,
      let bit := Z.land (Z.shiftr line (7 - j)) 1 in
      let color := if negb (bit =? 0) then front_color else back_color in
      λ x, if x =? (pos_row + i) * 800 + pos_col + j then color else fb x) (seqZ 0 8) fb) (seqZ 0 12) fb.

(** [chars[i][j] = c] and drawing it. *)
Definition set_char (i j : Z) (c : cell) (s : state) : state :=
  with_screen s (upd2 (chars s) i j c) (draw_char i j c (pixels s)).

(** The two loops of [draw_new_line]. *)
Definition move_up (s : state) : state :=
  fold_left (λ s i, fold_left (λ s j, set_char i j (chars s (i + 1) j) s) (seqZ 0 N_COLS) s) (seqZ 0 (N_ROWS - 1)) s.
Definition clear_last (s : state) : state :=
  fold_left (λ s j, set_char (N_ROWS - 1) j (mk_cell 32 (current_color_code s)) s) (seqZ 0 N_COLS) s.
Definition draw_new_line (s : state) : state :=
  let s := clear_last (move_up s) in
  with_position s 0 (current_color_code s).

(** The end of [write_byte]. *)
Definition put (b color : Z) (s : state) : state :=
  let col := current_col s in
  with_position (set_char (N_ROWS - 1) col (mk_cell b color) s) (col + 1) color.
Definition write_byte (b color : Z) (s : state) : state :=
  if negb (initialized s) then s
  else if b =? 10 then draw_new_line (with_position s (current_col s) color)
  else put b color (if N_COLS <=? current_col s then draw_new_line s else s).

(** [Memory::remap]: 1024 GiB down. *)
Definition remap (addr : Z) : Z := u64 (addr - Z.shiftl 1024 30).
Definition set_framebuffer_addr (addr : Z) (s : state) : state :=
  mk_state (remap addr) (initialized s) (chars s) (current_col s) (current_color_code s) (pixels s).

(** The replay; None is a loop that goes on. *)
Fixpoint replay (fuel : nat) (log : SysLog.state) (offset color : Z) (s : state) : option state :=
  match fuel with
  | O => None
  | S fuel =>
      let '(len, buf) := SysLog.get log offset 32 in
      if len =? 0 then Some s
      else replay fuel log (offset + len) color (fold_left (λ s b, write_byte (u8 b) color s) buf s)
  end.
Definition init (fuel : nat) (log : SysLog.state) (color : Z) (s : state) : option state :=
  if framebuffer s =? 0 then Some s
  else if framebuffer s =? remap 0 then Some s
  else
    let s := mk_state (framebuffer s) true (chars s) (current_col s) (current_color_code s) (pixels s) in
    replay fuel log 0 color (draw_new_line s).
End FrameBuffer.

(** ** Both screens ([Writer] of [lib/vga_buffer.cpp]) *)

Module Writer.
Record screens := mk_screens { vga : VGA.Writer; fb : FrameBuffer.state }.
Definition write_byte (s : screens) (b : Z) : screens :=
  mk_screens (VGA.write_byte (vga s) b) (FrameBuffer.write_byte b (VGA.color (vga s)) (fb s)).
Definition write_buf (buf : list Z) (s : screens) : screens := fold_left (λ s c, write_byte s (u8 c)) buf s.
(** A string, up to its zero. *)
Fixpoint write_str (str : list Z) (s : screens) : screens :=
  match str with
  | [] => s
  | c :: str => if c =? 0 then s else write_str str (write_byte s (u8 c))
  end.
End Writer.

(** ** The serial line ([lib/serial.cpp]) *)

Module Serial.
Definition COM1 : Z := 0x3F8.
Definition COM_TX : Z := 0.
Definition COM_RX : Z := 0.
Definition COM_DLL : Z := 0.
Definition COM_DLM : Z := 1.
Definition COM_IER : Z := 1.
Definition COM_IER_RDI : Z := 0x01.
Definition COM_IIR : Z := 2.
Definition COM_FCR : Z := 2.
Definition COM_LCR : Z := 3.
Definition COM_LCR_DLAB : Z := 0x80.
Definition COM_LCR_WLEN8 : Z := 0x03.
Definition COM_MCR : Z := 4.
Definition COM_LSR : Z := 5.
Definition COM_LSR_TXRDY : Z := 0x20.

(** What was written to the ports, in order, and how often they were read. *)
Record state := mk_state { outs : list (Z * Z); reads : Z; serial_exists : bool }.
Definition outb (port v : Z) (s : state) : state := mk_state (outs s ++ [(port, u8 v)]) (reads s) (serial_exists s).
Definition inb (s : state) : state := mk_state (outs s) (reads s + 1) (serial_exists s).
Definition delay (s : state) : state := inb (inb (inb (inb s))).

Section Serial.
(** What the port holds at the reading of a number. *)
Variable port_value : Z -> Z.
Fixpoint wait_ready (n : nat) (s : state) : state :=
  match n with
  | O => s
  | S n =>
      let v := port_value (reads s) in
      let s := inb s in
      if negb (Z.land v COM_LSR_TXRDY =? 0) then s else wait_ready n (delay s)
  end.
Definition putc (s : state) (c : Z) : state := outb (COM1 + COM_TX) c (wait_ready (Z.to_nat 12800) s).
Definition write_buf (buf : list Z) (s : state) : state := fold_left putc buf s.

Definition init (s : state) : state :=
  let s := outb (COM1 + COM_FCR) 0 s in
  let s := outb (COM1 + COM_LCR) COM_LCR_DLAB s in
  let s := outb (COM1 + COM_DLL) (115200 / 9600) s in
  let s := outb (COM1 + COM_DLM) 0 s in
  let s := outb (COM1 + COM_LCR) (Z.land COM_LCR_WLEN8 (Z.lnot COM_LCR_DLAB)) s in
  let s := outb (COM1 + COM_MCR) 0 s in
  let s := outb (COM1 + COM_IER) COM_IER_RDI s in
  let s := mk_state (outs s) (reads s) (negb (port_value (reads s) =? 0xFF)) in
  inb (inb (inb s)).
End Serial.
End Serial.

(** ** What a terminal shows

    A sheet without end: the full lines above, the line being typed, and what was
    below it before. *)

Record paper := mk_paper { above : list (list cell); line : list cell; under : list cell; last : Z }.
Definition no_cell : cell := mk_cell 0 0.
Definition current (p : paper) : list cell := line p ++ drop (length (line p)) (under p).
Definition blank (W color : Z) : list cell := replicate (Z.to_nat W) (mk_cell 32 color).
(** A new line, filled with blanks of a colour. *)
Definition feed (W fill : Z) (p : paper) : paper := mk_paper (above p ++ [current p]) [] (blank W fill) (last p).
(** A byte in a colour.  A line that is full is fed first; its successor is filled with
    the colour of the new byte ([early]) or that of the last one. *)
Definition type_byte (W : Z) (early : bool) (p : paper) (b color : Z) : paper :=
  if b =? 10 then let p := feed W color p in mk_paper (above p) (line p) (under p) color
  else
    let p := if W <=? zlen (line p) then feed W (if early then color else last p) p else p in
    mk_paper (above p) (line p ++ [mk_cell b color]) (under p) color.
Definition type_text (W : Z) (early : bool) (p : paper) (color : Z) (text : list Z) : paper :=
  fold_left (λ p b, type_byte W early p b color) text p.

(** The last [H] lines, in the window at the end. *)
Record window (H W : Z) (screen : Z -> Z -> cell) (col : Z) (p : paper) : Prop := {
  win_cells : forall i j, 0 <= i < H -> 0 <= j < W ->
    screen i j = zget no_cell (zget [] (above p ++ [current p]) (zlen (above p) + 1 - H + i)) j;
  win_col : col = zlen (line p) /\ zlen (line p) <= W;
  win_under : zlen (under p) = W;
  win_above : H - 1 <= zlen (above p) }.

(** What a screen promises: typing on it is typing on the paper. *)
Class Terminal (A : Type) (W : Z) (early : bool) (write : Z -> Z -> A -> A) (shows : A -> paper -> Prop) := {
  terminal_types : forall b color s p, shows s p -> shows (write b color s) (type_byte W early p b color) }.

Lemma terminal_text {A W early write shows} `{!Terminal A W early write shows} text color s p :
  shows s p -> shows (fold_left (λ s b, write b color s) text s) (type_text W early p color text).
Proof.
  unfold type_text. revert s p. induction text as [|b text IH]; intros s p Hs; [done|].
  apply IH. by apply terminal_types.
Qed.

(** ** Lemmas: windows *)

Lemma zget_blank W color j : 0 <= j < W -> zget no_cell (blank W color) j = mk_cell 32 color.
Proof. intros Hj. unfold zget, blank. apply nth_lookup_Some, lookup_replicate_2. lia. Qed.
Lemma zlen_blank W color : 0 <= W -> zlen (blank W color) = W.
Proof. intros. unfold zlen, blank. rewrite length_replicate. lia. Qed.

Lemma zget_snoc {A} (d : A) l x i : i = zlen l -> zget d (l ++ [x]) i = x.
Proof. intros ->. rewrite zget_app_r by lia. by rewrite Z.sub_diag. Qed.

Lemma window_feed H W screen screen' col p fill : 0 < H -> 0 <= W -> window H W screen col p ->
  (forall i j, 0 <= i < H -> 0 <= j < W ->
     screen' i j = if i <? H - 1 then screen (i + 1) j else mk_cell 32 fill) ->
  window H W screen' 0 (feed W fill p).
Proof.
  intros HH HW [C _ _ A] E. unfold feed. constructor; cbn [above line under last].
  - intros i j Hi Hj. rewrite E, zlen_app by done. change (zlen [current p]) with 1.
    destruct (Z.ltb_spec i (H - 1)) as [Hl|Hl].
    + rewrite C, (zget_app_l _ (above p ++ [current p])) by (rewrite ?zlen_app; change (zlen [current p]) with 1; lia).
      do 2 f_equal. lia.
    + rewrite zget_snoc by (rewrite zlen_app; change (zlen [current p]) with 1; lia).
      unfold current. cbn [line under length drop Datatypes.app].
      symmetry. by apply zget_blank.
  - split; [done|]. change (zlen []) with 0. lia.
  - by apply zlen_blank.
  - rewrite zlen_app. change (zlen [current p]) with 1. lia.
Qed.

Lemma current_put l u (c : cell) j : zlen l < zlen u -> 0 <= j ->
  zget no_cell ((l ++ [c]) ++ drop (length (l ++ [c])) u) j =
  if j =? zlen l then c else zget no_cell (l ++ drop (length l) u) j.
Proof.
  intros Hl Hj. unfold zlen in *. destruct (Z.eqb_spec j (Z.of_nat (length l))) as [->|N].
  - unfold zget. rewrite Nat2Z.id, <- app_assoc, app_nth2, Nat.sub_diag by lia. done.
  - unfold zget. rewrite <- app_assoc. destruct (Nat.lt_ge_cases (Z.to_nat j) (length l)) as [Hlt|Hge].
    + by rewrite !app_nth1 by lia.
    + rewrite !app_nth2 by lia. rewrite length_app. cbn [length Datatypes.app].
      destruct (Z.to_nat j - length l)%nat as [|k] eqn:E; [lia|]. cbn [nth].
      rewrite !nth_lookup, lookup_drop.
      rewrite lookup_app_r, lookup_drop by lia. do 2 f_equal. lia.
Qed.

Lemma window_put H W screen col p c color : 0 < H -> window H W screen col p -> col < W ->
  window H W (upd2 screen (H - 1) col c) (col + 1) (mk_paper (above p) (line p ++ [c]) (under p) color).
Proof.
  intros HH [C [Hc Hl] U A] Hw. constructor; cbn [above line under last]; [|split|done|done].
  - intros i j Hi Hj. unfold upd2. unfold current at 1. cbn [line under].
    destruct (Z.eqb_spec i (H - 1)) as [->|N]; cbn [andb].
    + rewrite zget_snoc by lia. rewrite current_put by lia. rewrite <- Hc. destruct (j =? col); [done|].
      rewrite C, zget_snoc by lia. done.
    + rewrite C by done. by rewrite !zget_app_l by lia.
  - rewrite zlen_app. change (zlen [c]) with 1. lia.
  - rewrite zlen_app. change (zlen [c]) with 1. lia.
Qed.

Lemma window_last H W screen col p color : window H W screen col p ->
  window H W screen col (mk_paper (above p) (line p) (under p) color).
Proof. intros [C1 C2 C3 C4]. constructor; [exact C1|exact C2|exact C3|exact C4]. Qed.

(** A row being filled, and rows being moved up. *)
Lemma row_spec (f : Z -> Z -> cell) row n v i j : 0 <= n ->
  fold_left (λ c col, upd2 c row col v) (seqZ 0 n) f i j = if (i =? row) && (0 <=? j) && (j <? n) then v else f i j.
Proof.
  intros Hn. revert i j.
  apply (fold_seqZ_ind (λ k c, forall i j, c i j = if (i =? row) && (0 <=? j) && (j <? k) then v else f i j)); [done| |].
  - intros i j. zbool; (done || lia).
  - intros k c Hk E i j. unfold upd2. rewrite E. zbool; (done || lia).
Qed.

Lemma copy_row (f : Z -> Z -> cell) src dst n i j : 0 <= n -> src <> dst ->
  fold_left (λ c col, upd2 c dst col (c src col)) (seqZ 0 n) f i j =
  if (i =? dst) && (0 <=? j) && (j <? n) then f src j else f i j.
Proof.
  intros Hn Hne. revert i j.
  apply (fold_seqZ_ind (λ k c, forall i j, c i j = if (i =? dst) && (0 <=? j) && (j <? k) then f src j else f i j)); [done| |].
  - intros i j. zbool; (done || lia).
  - intros k c Hk E i j. unfold upd2. rewrite !E. zbool; (done || lia || (f_equal; lia)).
Qed.
Lemma shift_spec (src dst : Z -> Z) (f : Z -> Z -> cell) o n W i j : 0 <= n -> 0 <= W ->
  (forall r, src r = r - o + 1) -> (forall r, dst r = r - o) ->
  fold_left (λ c row, fold_left (λ c col, upd2 c (dst row) col (c (src row) col)) (seqZ 0 W) c) (seqZ o n) f i j =
  if (0 <=? i) && (i <? n) && (0 <=? j) && (j <? W) then f (i + 1) j else f i j.
Proof.
  intros Hn HW Hs Hd. replace n with (o + n - o) at 2 by lia. revert i j.
  apply (fold_seqZ_ind (λ k c, forall i j, c i j =
    if (0 <=? i) && (i <? k - o) && (0 <=? j) && (j <? W) then f (i + 1) j else f i j)); [done| |].
  - intros i j. zbool; (done || lia).
  - intros k c Hk E i j. rewrite copy_row, Hd, Hs, !E by (rewrite ?Hs, ?Hd; lia).
    zbool; (done || lia || (f_equal; lia)).
Qed.

(** ** The text buffer is a terminal *)

Definition vga_shows (w : VGA.Writer) (p : paper) : Prop :=
  window VGA.BUFFER_HEIGHT VGA.BUFFER_WIDTH (VGA.chars w) (VGA.column_position w) p.
Definition vga_write (b color : Z) (w : VGA.Writer) : VGA.Writer := VGA.write_byte (VGA.with_color w color) b.

Lemma new_line_spec w p : vga_shows w p -> let w' := VGA.new_line w in
  vga_shows w' (feed VGA.BUFFER_WIDTH (VGA.color w) p) /\ VGA.color w' = VGA.color w /\ VGA.column_position w' = 0.
Proof.
  intros Hs. cbn zeta. split; [|done]. apply (window_feed _ _ (VGA.chars w) _ (VGA.column_position w)); [done|done|exact Hs|].
  intros i j Hi Hj. unfold VGA.new_line, VGA.clear_row. cbn [VGA.chars VGA.with_chars VGA.with_column VGA.color].
  rewrite row_spec by done.
  rewrite (shift_spec (λ r, r) (λ r, r - 1) (VGA.chars w) 1) by (done || lia).
  unfold VGA.BUFFER_HEIGHT, VGA.BUFFER_WIDTH in *. zbool; (done || lia).
Qed.

Lemma vga_put w p b : vga_shows w p -> VGA.column_position w < VGA.BUFFER_WIDTH ->
  vga_shows (VGA.put w b) (mk_paper (above p) (line p ++ [mk_cell b (VGA.color w)]) (under p) (VGA.color w)).
Proof. intros Hs Hc. by apply window_put. Qed.
Lemma vga_wrap color w p b : vga_shows w (feed VGA.BUFFER_WIDTH color p) -> VGA.color w = color ->
  VGA.column_position w = 0 -> let q := feed VGA.BUFFER_WIDTH color p in
  vga_shows (VGA.put w b) (mk_paper (above q) (line q ++ [mk_cell b color]) (under q) color).
Proof. intros Hs <- Hc. apply (vga_put w _ b Hs). by rewrite Hc. Qed.

Lemma new_line_color w : VGA.color (VGA.new_line w) = VGA.color w.
Proof. reflexivity. Qed.

#[local] Opaque VGA.new_line.

Lemma vga_types b w p : vga_shows w p ->
  vga_shows (VGA.write_byte w b) (type_byte VGA.BUFFER_WIDTH true p b (VGA.color w)).
Proof.
  intros Hs. unfold VGA.write_byte, type_byte. destruct (b =? 10).
  { apply window_last. exact (proj1 (new_line_spec w p Hs)). }
  pose proof (win_col _ _ _ _ _ Hs) as [Hc Hl]. rewrite <- Hc.
  destruct (Z.leb_spec VGA.BUFFER_WIDTH (VGA.column_position w)) as [Hf|Hf].
  - destruct (new_line_spec w p Hs) as (H2 & E2 & E3). exact (vga_wrap _ (VGA.new_line w) _ b H2 E2 E3).
  - exact (vga_put w p b Hs Hf).
Qed.

#[export] Instance vga_terminal : Terminal VGA.Writer VGA.BUFFER_WIDTH true vga_write vga_shows.
Proof. constructor. intros b color w p Hs. assert (H1 : vga_shows (VGA.with_color w color) p) by (unfold vga_shows in *; exact Hs).
  apply (vga_types b) in H1. exact H1.
Qed.

(** Whatever is on the screen, the first writer shows it as a paper. *)
Definition row_of (screen : Z -> Z -> cell) (i : Z) : list cell := (λ j, screen i j) <$> seqZ 0 VGA.BUFFER_WIDTH.
Definition found (screen : Z -> Z -> cell) : paper :=
  mk_paper (row_of screen <$> seqZ 0 (VGA.BUFFER_HEIGHT - 1)) [] (row_of screen (VGA.BUFFER_HEIGHT - 1)) 0.
Lemma zget_fmap_seqZ {A} (d : A) f n i : 0 <= i < n -> zget d (f <$> seqZ 0 n) i = f i.
Proof.
  intros Hi. unfold zget. apply nth_lookup_Some. rewrite list_lookup_fmap, lookup_seqZ_lt by lia. cbn.
  by rewrite Z2Nat.id by lia.
Qed.
Lemma the_writer_shows screen : vga_shows (VGA.the_writer screen) (found screen).
Proof.
  constructor; cbn [found above line under VGA.the_writer VGA.chars VGA.column_position].
  - intros i j Hi Hj. unfold zlen at 1. rewrite length_fmap, length_seqZ, Z2Nat.id by done.
    replace (VGA.BUFFER_HEIGHT - 1 + 1 - VGA.BUFFER_HEIGHT + i) with i by lia. unfold current, found. cbn [line under length drop Datatypes.app].
    destruct (Z.eq_dec i (VGA.BUFFER_HEIGHT - 1)) as [->|N].
    + rewrite zget_snoc by (unfold zlen; by rewrite length_fmap, length_seqZ). rewrite drop_0. unfold row_of. by rewrite zget_fmap_seqZ.
    + rewrite zget_app_l by (unfold zlen; rewrite length_fmap, length_seqZ; lia).
      rewrite (zget_fmap_seqZ [] (row_of screen)) by lia. unfold row_of. by rewrite zget_fmap_seqZ.
  - by split.
  - unfold zlen, row_of. by rewrite length_fmap, length_seqZ.
  - unfold zlen. by rewrite length_fmap, length_seqZ.
Qed.

(** ** The frame buffer is a terminal *)

(** Whether the pixel in row [a] and column [b] of a character is lit, and its colour. *)
Definition lit (c : cell) (a b : Z) : bool :=
  (2 <=? a) && (a <? 10) && (byte c <? 128) && Z.testbit (zget 0 FrameBuffer.font (8 * byte c + (a - 2))) (7 - b).
Definition pixel (c : cell) (a b : Z) : Z :=
  zget 0 FrameBuffer.color_to_rgb (if lit c a b then color_code c / 16 else color_code c mod 16).
Definition inside (i j x : Z) : bool :=
  (i * 12 <=? x / 800) && (x / 800 <? i * 12 + 12) && (j * 8 <=? x mod 800) && (x mod 800 <? j * 8 + 8).

Lemma glyph_bit c a b : 0 <= b < 8 ->
  negb (Z.land (Z.shiftr (if (2 <=? a) && (a <? 10)
    then zget 0 FrameBuffer.font ((if 128 <=? byte c then 0 else byte c) * 8 + (a - 2)) else 0) (7 - b)) 1 =? 0) = lit c a b.
Proof.
  intros Hb. unfold lit.
  assert (E : forall l, negb (Z.land (Z.shiftr l (7 - b)) 1 =? 0) = Z.testbit l (7 - b)).
  { intros l. change 1 with (2 ^ 0). rewrite land_bit, Z.shiftr_spec by lia. f_equal. }
  rewrite E. destruct (Z.leb_spec 2 a); cbn [andb]; [|by rewrite Z.bits_0].
  destruct (Z.ltb_spec a 10); cbn [andb]; [|by rewrite Z.bits_0].
  destruct (Z.leb_spec 128 (byte c)), (Z.ltb_spec (byte c) 128); cbn [andb]; try lia; [|do 2 f_equal; lia].
  assert (Hz : zget 0 FrameBuffer.font (0 * 8 + (a - 2)) = 0).
  { assert (Ha : 0 <= a - 2 < 8) by lia. revert Ha. generalize (a - 2). intros k Hk.
    assert (Hcase : k = 0 \/ k = 1 \/ k = 2 \/ k = 3 \/ k = 4 \/ k = 5 \/ k = 6 \/ k = 7) by lia.
    by repeat (destruct Hcase as [->|Hcase]); subst. }
  by rewrite Hz, Z.bits_0.
Qed.

Lemma draw_row (g : Z -> Z) base n fb x : 0 <= n ->
  fold_left (λ fb j y, if y =? base + j then g j else fb y) (seqZ 0 n) fb x =
  if (base <=? x) && (x <? base + n) then g (x - base) else fb x.
Proof.
  intros Hn. revert x.
  apply (fold_seqZ_ind (λ k f, forall x, f x = if (base <=? x) && (x <? base + k) then g (x - base) else fb x)); [done| |].
  - intros x. zbool; (done || lia).
  - intros k f Hk E x. rewrite E. zbool; (done || lia || (f_equal; lia)).
Qed.

Lemma draw_char_spec i j c fb x : 0 <= j < 100 ->
  FrameBuffer.draw_char i j c fb x = if inside i j x then pixel c (x / 800 - i * 12) (x mod 800 - j * 8) else fb x.
Proof.
  intros Hj. unfold FrameBuffer.draw_char, inside. revert x.
  apply (fold_seqZ_ind (λ k f, forall x, f x =
    if (i * 12 <=? x / 800) && (x / 800 <? i * 12 + k) && (j * 8 <=? x mod 800) && (x mod 800 <? j * 8 + 8)
    then pixel c (x / 800 - i * 12) (x mod 800 - j * 8) else fb x)); [done| |].
  - intros x. zbool; (done || lia).
  - intros k f Hk E x. rewrite (draw_row (λ q, if negb (Z.land (Z.shiftr _ (7 - q)) 1 =? 0) then _ else _)) by lia.
    rewrite E. pose proof (Z.div_mod x 800 ltac:(lia)) as Ex. pose proof (Z.mod_pos_bound x 800 ltac:(lia)) as Em.
    set (X := x / 800) in *. set (Y := x mod 800) in *. clearbody X Y. subst x.
    assert (Hin : ((i * 12 + k) * 800 + j * 8 <=? 800 * X + Y) && (800 * X + Y <? (i * 12 + k) * 800 + j * 8 + 8) =
      (X =? i * 12 + k) && (j * 8 <=? Y) && (Y <? j * 8 + 8)) by (zbool; (done || lia)).
    rewrite Hin. destruct (Z.eqb_spec X (i * 12 + k)) as [->|N]; cbn [andb]; [|zbool; (done || lia)].
    destruct (Z.leb_spec (j * 8) Y); cbn [andb]; [|zbool; (done || lia)].
    destruct (Z.ltb_spec Y (j * 8 + 8)); cbn [andb]; [|zbool; (done || lia)].
    destruct (Z.leb_spec (i * 12) (i * 12 + k)); [|lia]. destruct (Z.ltb_spec (i * 12 + k) (i * 12 + (k + 1))); [|lia].
    cbn [andb]. replace (800 * (i * 12 + k) + Y - ((i * 12 + k) * 800 + j * 8)) with (Y - j * 8) by lia.
    replace (i * 12 + k - i * 12) with k by lia. rewrite glyph_bit by lia. unfold pixel.
    change 15 with (Z.ones 4). rewrite Z.land_ones, Z.shiftr_div_pow2 by lia. by destruct (lit c k (Y - j * 8)).
Qed.


(** The pixels of a character show it. *)
Definition right (s : FrameBuffer.state) (i j : Z) : Prop :=
  forall x, inside i j x = true -> FrameBuffer.pixels s x = pixel (FrameBuffer.chars s i j) (x / 800 - i * 12) (x mod 800 - j * 8).
Definition on_screen (i j : Z) : Prop := 0 <= i < FrameBuffer.N_ROWS /\ 0 <= j < FrameBuffer.N_COLS.
(** Nothing outside the screen is written. *)
Definition tidy (rest : Z -> Z) (s : FrameBuffer.state) : Prop :=
  forall x, x < 0 \/ 800 * 600 <= x -> FrameBuffer.pixels s x = rest x.

Lemma inside_unique i j i' j' x : inside i j x = true -> inside i' j' x = true -> i = i' /\ j = j'.
Proof. unfold inside. zbool; intros; try done; lia. Qed.
Lemma inside_screen i j x : on_screen i j -> inside i j x = true -> 0 <= x < 800 * 600.
Proof.
  unfold on_screen, inside. change FrameBuffer.N_ROWS with 50. change FrameBuffer.N_COLS with 100. intros [Hi Hj].
  zbool; intros; try done; Z.to_euclidean_division_equations; lia.
Qed.

Lemma set_char_right i j c s rest : on_screen i j -> tidy rest s -> let s' := FrameBuffer.set_char i j c s in
  right s' i j /\ tidy rest s' /\ forall i' j', right s i' j' -> right s' i' j'.
Proof.
  intros Ho Ht. pose proof Ho as [_ Hj]. change FrameBuffer.N_COLS with 100 in Hj.
  assert (H1 : right (FrameBuffer.set_char i j c s) i j).
  { intros x Hx. cbn [FrameBuffer.set_char FrameBuffer.pixels FrameBuffer.chars FrameBuffer.with_screen].
    rewrite draw_char_spec, Hx by done. unfold upd2. by rewrite !Z.eqb_refl. }
  split; [exact H1|]. split.
  - intros x Hx. cbn [FrameBuffer.set_char FrameBuffer.pixels FrameBuffer.with_screen]. rewrite draw_char_spec by done.
    destruct (inside i j x) eqn:E; [apply (inside_screen i j) in E; [lia|done]|by apply Ht].
  - intros i' j' Hr. destruct (decide (i' = i /\ j' = j)) as [[-> ->]|Hn]; [exact H1|].
    intros x Hx. cbn [FrameBuffer.set_char FrameBuffer.pixels FrameBuffer.chars FrameBuffer.with_screen].
    rewrite draw_char_spec by done. destruct (inside i j x) eqn:E.
    { by destruct (inside_unique _ _ _ _ _ E Hx) as [-> ->]; destruct Hn. }
    unfold upd2. rewrite (Hr x Hx). destruct (Z.eqb_spec i' i), (Z.eqb_spec j' j); try done. by destruct Hn.
Qed.

(** A row drawn from left to right. *)
Lemma draw_row_right (v : FrameBuffer.state -> Z -> cell) i s rest : 0 <= i < FrameBuffer.N_ROWS -> tidy rest s ->
  let s' := fold_left (λ s j, FrameBuffer.set_char i j (v s j) s) (seqZ 0 FrameBuffer.N_COLS) s in
  (forall j, 0 <= j < FrameBuffer.N_COLS -> right s' i j) /\ tidy rest s' /\
  forall i' j', right s i' j' -> right s' i' j'.
Proof.
  intros Hi Ht.
  apply (fold_seqZ_ind (λ k s', (forall j, 0 <= j < k -> right s' i j) /\ tidy rest s' /\
    forall i' j', right s i' j' -> right s' i' j') _ 0 FrameBuffer.N_COLS); [done|split; [lia|by split]|].
  intros k s' Hk (R & T & K). destruct (set_char_right i k (v s' k) s' rest) as (R' & T' & K'); [by split|done|].
  split; [|split; [done|auto]]. intros j Hj. destruct (Z.eq_dec j k) as [->|]; [done|]. apply K', R. lia.
Qed.

Lemma set_char_keeps {B} (p : FrameBuffer.state -> B) i j c s :
  (forall s c x, p (FrameBuffer.with_screen s c x) = p s) -> p (FrameBuffer.set_char i j c s) = p s.
Proof. intros H. apply H. Qed.

Lemma chars_moved s : FrameBuffer.chars (FrameBuffer.move_up s) =
  fold_left (λ c i, fold_left (λ c j, upd2 c i j (c (i + 1) j)) (seqZ 0 FrameBuffer.N_COLS) c)
    (seqZ 0 (FrameBuffer.N_ROWS - 1)) (FrameBuffer.chars s).
Proof.
  apply (fold_left_proj FrameBuffer.chars). intros s' k.
  by apply (fold_left_proj FrameBuffer.chars _ (λ c j, upd2 c k j (c (k + 1) j))).
Qed.
Lemma chars_cleared s : FrameBuffer.chars (FrameBuffer.clear_last s) =
  fold_left (λ c j, upd2 c (FrameBuffer.N_ROWS - 1) j (mk_cell 32 (FrameBuffer.current_color_code s)))
    (seqZ 0 FrameBuffer.N_COLS) (FrameBuffer.chars s).
Proof.
  unfold FrameBuffer.clear_last. generalize (seqZ 0 FrameBuffer.N_COLS). intros l. revert s.
  induction l as [|j l IH]; intros s; [done|]. cbn [fold_left]. by rewrite IH.
Qed.
Lemma move_up_keeps {B} (p : FrameBuffer.state -> B) s : (forall s c x, p (FrameBuffer.with_screen s c x) = p s) ->
  p (FrameBuffer.move_up s) = p s.
Proof. intros Hp. apply fold_left_keep. intros. apply fold_left_keep. intros. by apply set_char_keeps. Qed.
Lemma clear_last_keeps {B} (p : FrameBuffer.state -> B) s : (forall s c x, p (FrameBuffer.with_screen s c x) = p s) ->
  p (FrameBuffer.clear_last s) = p s.
Proof. intros Hp. apply fold_left_keep. intros. by apply set_char_keeps. Qed.

Lemma move_up_right s rest : tidy rest s -> let s1 := FrameBuffer.move_up s in
  (forall i j, 0 <= i < FrameBuffer.N_ROWS - 1 -> 0 <= j < FrameBuffer.N_COLS -> right s1 i j) /\ tidy rest s1.
Proof.
  intros Ht.
  apply (fold_seqZ_ind (λ k s', (forall i j, 0 <= i < k -> 0 <= j < FrameBuffer.N_COLS -> right s' i j) /\ tidy rest s')
    _ 0 (FrameBuffer.N_ROWS - 1)); [done|split; [lia|done]|]. intros k s' Hk [R T].
  destruct (draw_row_right (λ s j, FrameBuffer.chars s (k + 1) j) k s' rest) as (R' & T' & K');
    [change FrameBuffer.N_ROWS with 50 in *; lia|done|].
  split; [|done]. intros i j Hi Hj. destruct (Z.eq_dec i k) as [->|]; [by apply R'|]. apply K', R; lia.
Qed.
Lemma clear_last_right s rest : tidy rest s -> let s2 := FrameBuffer.clear_last s in
  (forall j, 0 <= j < FrameBuffer.N_COLS -> right s2 (FrameBuffer.N_ROWS - 1) j) /\ tidy rest s2 /\
  forall i j, right s i j -> right s2 i j.
Proof.
  intros Ht. by apply (draw_row_right (λ s _, mk_cell 32 (FrameBuffer.current_color_code s)) (FrameBuffer.N_ROWS - 1)).
Qed.

#[local] Opaque FrameBuffer.move_up FrameBuffer.clear_last.

(** [draw_new_line]: everything is moved up, and everything is drawn. *)
Lemma draw_new_line_spec s rest : tidy rest s -> let s' := FrameBuffer.draw_new_line s in
  (forall i j, on_screen i j -> right s' i j) /\ tidy rest s' /\
  (forall i j, on_screen i j -> FrameBuffer.chars s' i j =
     if i <? FrameBuffer.N_ROWS - 1 then FrameBuffer.chars s (i + 1) j
     else mk_cell 32 (FrameBuffer.current_color_code s)) /\
  FrameBuffer.current_col s' = 0 /\ FrameBuffer.current_color_code s' = FrameBuffer.current_color_code s /\
  FrameBuffer.initialized s' = FrameBuffer.initialized s /\ FrameBuffer.framebuffer s' = FrameBuffer.framebuffer s.
Proof.
  intros Ht. destruct (move_up_right s rest Ht) as [R1 T1].
  destruct (clear_last_right (FrameBuffer.move_up s) rest T1) as (R2 & T2 & K2).
  pose proof (chars_moved s) as C1. pose proof (chars_cleared (FrameBuffer.move_up s)) as C2.
  pose proof (move_up_keeps FrameBuffer.current_color_code s ltac:(done)) as K3.
  pose proof (move_up_keeps FrameBuffer.initialized s ltac:(done)) as K4.
  pose proof (move_up_keeps FrameBuffer.framebuffer s ltac:(done)) as K5.
  pose proof (clear_last_keeps FrameBuffer.current_color_code (FrameBuffer.move_up s) ltac:(done)) as K6.
  pose proof (clear_last_keeps FrameBuffer.initialized (FrameBuffer.move_up s) ltac:(done)) as K7.
  pose proof (clear_last_keeps FrameBuffer.framebuffer (FrameBuffer.move_up s) ltac:(done)) as K8.
  unfold FrameBuffer.draw_new_line. cbn zeta in *. generalize dependent (FrameBuffer.clear_last (FrameBuffer.move_up s)).
  intros s2 R2 T2 K2 C2 K6 K7 K8. generalize dependent (FrameBuffer.move_up s). intros s1 R1 T1 C1 K3 K4 K5 K2 C2 K6 K7 K8.
  split; [|split; [exact T2|split; [|split; [done|]]]]; [| |split; [|split]; cbn; congruence].
  - intros i j [Hi Hj]. assert (Hr : right s2 i j); [|exact Hr].
    destruct (Z.eq_dec i (FrameBuffer.N_ROWS - 1)) as [->|]; [by apply R2|]. apply K2, R1; lia.
  - intros i j [Hi Hj]. cbn [FrameBuffer.chars FrameBuffer.with_position]. rewrite C2, row_spec, C1, K3 by done.
    rewrite (shift_spec (λ r, r + 1) (λ r, r) _ 0) by (done || lia).
    change FrameBuffer.N_ROWS with 50 in *. change FrameBuffer.N_COLS with 100 in *. zbool; (done || lia).
Qed.

(** A frame buffer in use: the characters are those of the paper, every pixel of the
    screen shows them, and memory outside of it is as it was. *)
Record fb_shows (rest : Z -> Z) (s : FrameBuffer.state) (p : paper) : Prop := {
  fb_on : FrameBuffer.initialized s = true;
  fb_window : window FrameBuffer.N_ROWS FrameBuffer.N_COLS (FrameBuffer.chars s) (FrameBuffer.current_col s) p;
  fb_color : FrameBuffer.current_color_code s = last p;
  fb_right : forall i j, on_screen i j -> right s i j;
  fb_tidy : tidy rest s }.

#[local] Opaque FrameBuffer.draw_new_line FrameBuffer.draw_char.

Lemma fb_feed rest s p : fb_shows rest s p ->
  fb_shows rest (FrameBuffer.draw_new_line s) (feed FrameBuffer.N_COLS (last p) p).
Proof.
  intros [Hi Hw Hc Hr Ht]. destruct (draw_new_line_spec s rest Ht) as (R & T & C & E1 & E2 & E3 & _).
  cbn zeta in *. generalize dependent (FrameBuffer.draw_new_line s). intros s' R T C E1 E2 E3.
  constructor; [congruence| |by rewrite E2|done|done]. rewrite E1, <- Hc.
  apply (window_feed _ _ (FrameBuffer.chars s) _ (FrameBuffer.current_col s)); [done|done|exact Hw|].
  intros i j Hi' Hj'. by apply C.
Qed.
Lemma fb_put rest s p b color : fb_shows rest s p -> FrameBuffer.current_col s < FrameBuffer.N_COLS ->
  fb_shows rest (FrameBuffer.put b color s) (mk_paper (above p) (line p ++ [mk_cell b color]) (under p) color).
Proof.
  intros [Hi Hw Hc Hr Ht] Hcol. pose proof (win_col _ _ _ _ _ Hw) as [Hl _].
  destruct (set_char_right (FrameBuffer.N_ROWS - 1) (FrameBuffer.current_col s) (mk_cell b color) s rest) as (_ & T & R);
    [split; [done|]; unfold zlen in Hl; lia|done|].
  constructor; [exact Hi|by apply window_put|done| |exact T].
  intros i j Hij. assert (H : right (FrameBuffer.set_char (FrameBuffer.N_ROWS - 1) (FrameBuffer.current_col s) (mk_cell b color) s) i j);
    [by apply R, Hr|exact H].
Qed.
Lemma fb_recolor rest s p color : fb_shows rest s p ->
  fb_shows rest (FrameBuffer.with_position s (FrameBuffer.current_col s) color)
    (mk_paper (above p) (line p) (under p) color).
Proof. intros [Hi Hw Hc Hr Ht]. constructor; [exact Hi|by apply window_last|done|exact Hr|exact Ht]. Qed.

#[export] Instance fb_terminal rest :
  Terminal FrameBuffer.state FrameBuffer.N_COLS false FrameBuffer.write_byte (fb_shows rest).
Proof.
  constructor. intros b color s p Hs. unfold FrameBuffer.write_byte, type_byte. rewrite (fb_on _ _ _ Hs). cbn [negb].
  destruct (b =? 10); [exact (fb_feed rest _ _ (fb_recolor rest s p color Hs))|].
  pose proof (win_col _ _ _ _ _ (fb_window _ _ _ Hs)) as [Hc Hl]. rewrite <- Hc.
  destruct (Z.leb_spec FrameBuffer.N_COLS (FrameBuffer.current_col s)) as [Hf|Hf]; [|by apply fb_put].
  pose proof (fb_feed rest s p Hs) as H2. apply (fb_put rest _ _ b color) in H2; [exact H2|].
  pose proof (win_col _ _ _ _ _ (fb_window _ _ _ (fb_feed rest s p Hs))) as [E _]. by rewrite E.
Qed.

(** ** The serial line *)

Lemma wait_ready_spec pv n s : Serial.outs (Serial.wait_ready pv n s) = Serial.outs s /\
  Serial.reads s <= Serial.reads (Serial.wait_ready pv n s) <= Serial.reads s + 5 * Z.of_nat n.
Proof.
  revert s. induction n as [|n IH]; intros s; cbn [Serial.wait_ready]; [split; [done|lia]|].
  destruct (negb _); [split; [done|cbn; lia]|]. destruct (IH (Serial.delay (Serial.inb s))) as [-> H].
  split; [done|]. cbn in H. lia.
Qed.

(** Every byte is sent once, in order, whatever the status of the line, after at most
    12800 looks at it and as many delays. *)
Lemma serial_sends pv buf s : let s' := Serial.write_buf pv buf s in
  Serial.outs s' = Serial.outs s ++ ((λ c, (0x3F8, u8 c)) <$> buf) /\
  Serial.reads s' <= Serial.reads s + 64000 * zlen buf.
Proof.
  cbn zeta. unfold Serial.write_buf. revert s. induction buf as [|c buf IH]; intros s; cbn [fold_left fmap list_fmap].
  - rewrite app_nil_r. split; [done|]. change (zlen []) with 0. lia.
  - destruct (IH (Serial.putc pv s c)) as [-> H2]. unfold Serial.putc in *.
    destruct (wait_ready_spec pv (Z.to_nat 12800) s) as [E1 E2]. cbn [Serial.outb Serial.outs Serial.reads] in *.
    rewrite E1. split; [by rewrite <- app_assoc|]. change (zlen (c :: buf)) with (zlen ([c] ++ buf)).
    rewrite zlen_app. change (zlen [c]) with 1. lia.
Qed.

(** ** Both screens at once *)

(** The frame buffer shows a paper, or it is off and stays as it is. *)
Definition fb_state (rest : Z -> Z) (s0 s : FrameBuffer.state) (p : option paper) : Prop :=
  match p with Some p => fb_shows rest s p | None => FrameBuffer.initialized s0 = false /\ s = s0 end.

Lemma vga_color_kept b w : VGA.color (VGA.write_byte w b) = VGA.color w.
Proof.
  unfold VGA.write_byte. destruct (_ =? _); [apply new_line_color|].
  transitivity (VGA.color (if VGA.BUFFER_WIDTH <=? VGA.column_position w then VGA.new_line w else w)); [done|].
  destruct (_ <=? _); [apply new_line_color|done].
Qed.

Lemma fb_off b color s : FrameBuffer.initialized s = false -> FrameBuffer.write_byte b color s = s.
Proof. intros H. unfold FrameBuffer.write_byte. by rewrite H. Qed.

(** A text appears on both screens, on each wrapped at its own width, in the colour of
    the writer, which stays. *)
Lemma screens_text rest s0 text s p q : vga_shows (Writer.vga s) p -> fb_state rest s0 (Writer.fb s) q ->
  let color := VGA.color (Writer.vga s) in let s' := Writer.write_buf text s in
  vga_shows (Writer.vga s') (type_text VGA.BUFFER_WIDTH true p color (u8 <$> text)) /\
  fb_state rest s0 (Writer.fb s') ((λ q, type_text FrameBuffer.N_COLS false q color (u8 <$> text)) <$> q) /\
  VGA.color (Writer.vga s') = color.
Proof.
  cbn zeta. unfold Writer.write_buf. revert s p q. induction text as [|c text IH]; intros s p q Hv Hf.
  { split; [done|]. split; [by destruct q|done]. }
  cbn [fold_left fmap list_fmap]. set (s1 := Writer.write_byte s (u8 c)).
  assert (Ec : VGA.color (Writer.vga s1) = VGA.color (Writer.vga s)) by apply vga_color_kept.
  assert (Hf1 : fb_state rest s0 (Writer.fb s1) ((λ q, type_byte FrameBuffer.N_COLS false q (u8 c) (VGA.color (Writer.vga s))) <$> q)).
  { destruct q as [q|]; cbn [fmap option_fmap option_map fb_state] in *.
    - by apply (terminal_types (Terminal := fb_terminal rest)).
    - destruct Hf as [Ho E]. split; [done|]. unfold s1. cbn [Writer.fb Writer.write_byte]. by rewrite E, fb_off. }
  destruct (IH s1 _ _ (vga_types (u8 c) _ p Hv) Hf1) as (H1 & H2 & H3). rewrite Ec in *.
  split; [exact H1|]. split; [by destruct q|exact H3].
Qed.

#[local] Opaque FrameBuffer.write_byte.

(** ** A frame buffer that is turned on late *)

(** The screen as [init] first draws it: empty. *)
Definition empty_paper (color : Z) : paper :=
  mk_paper (replicate 49 (replicate 100 no_cell)) [] (blank 100 color) color.

Lemma fb_first s : (forall i j, on_screen i j -> FrameBuffer.chars s i j = no_cell) -> FrameBuffer.initialized s = true ->
  fb_shows (FrameBuffer.pixels s) (FrameBuffer.draw_new_line s) (empty_paper (FrameBuffer.current_color_code s)).
Proof.
  intros Hz Hi. destruct (draw_new_line_spec s (FrameBuffer.pixels s)) as (R & T & C & E1 & E2 & E3 & _); [done|].
  cbn zeta in *. generalize dependent (FrameBuffer.draw_new_line s). intros s' R T C E1 E2 E3.
  constructor; [congruence| |by rewrite E2|done|done]. rewrite E1. unfold empty_paper. constructor; cbn [above line under].
  - intros i j Hi' Hj'. rewrite C by (by split). change FrameBuffer.N_ROWS with 50 in *. change FrameBuffer.N_COLS with 100 in *.
    change (zlen (replicate 49 (replicate 100 no_cell))) with 49. replace (49 + 1 - 50 + i) with i by lia.
    destruct (Z.ltb_spec i (50 - 1)) as [Hl|Hl].
    + rewrite Hz by (split; [change FrameBuffer.N_ROWS with 50|change FrameBuffer.N_COLS with 100]; lia).
      rewrite zget_app_l by (change (0 <= i < 49); lia).
      unfold zget at 2. rewrite (nth_lookup_Some _ _ _ (replicate 100 no_cell)) by (apply lookup_replicate_2; lia).
      by rewrite zget_replicate.
    + rewrite zget_snoc by (change (i = 49); lia). unfold current. cbn [line under length drop Datatypes.app].
      symmetry. by apply zget_blank.
  - by split.
  - by apply zlen_blank.
  - done.
Qed.

(** The replay takes the whole log, 32 bytes at a time. *)
Lemma replay_spec log color fuel offset s : SysLog.wf log -> 0 <= offset <= zlen (SysLog.log_of log) ->
  zlen (SysLog.log_of log) - offset <= 32 * (Z.of_nat fuel - 1) ->
  FrameBuffer.replay fuel log offset color s =
    Some (fold_left (λ s b, FrameBuffer.write_byte (u8 b) color s) (zdrop offset (SysLog.log_of log)) s).
Proof.
  intros Hw. revert offset s. induction fuel as [|fuel IH]; intros offset s Ho Hf; [lia|]. cbn [FrameBuffer.replay].
  rewrite SysLog.get_slice by done. unfold SysLog.slice. set (l := SysLog.log_of log) in *.
  destruct (Z.ltb_spec offset 0); [lia|]. rewrite (Z.min_l offset) by lia.
  destruct (Z.eqb_spec (Z.min 32 (zlen l - offset)) 0) as [E|E].
  - unfold zdrop, zlen in *. rewrite drop_ge by lia. done.
  - rewrite IH by lia. rewrite <- fold_left_app. do 2 f_equal. set (cnt := Z.min 32 (zlen l - offset)) in *.
    transitivity (take (Z.to_nat cnt) (zdrop offset l) ++ drop (Z.to_nat cnt) (zdrop offset l)); [|apply take_drop].
    unfold ztake, zdrop. rewrite drop_drop. do 2 f_equal. lia.
Qed.

Lemma fb_write_map color l s : fold_left (λ s b, FrameBuffer.write_byte (u8 b) color s) l s =
  fold_left (λ s b, FrameBuffer.write_byte b color s) (u8 <$> l) s.
Proof.
  revert s. induction l as [|b l IH]; intros s; rewrite ?fmap_nil, ?fmap_cons; cbn [fold_left]; [reflexivity|apply IH].
Qed.

(** The replay ends, whatever the log and the screen hold. *)
Lemma screen_init_ends fuel log color s : (1025 <= fuel)%nat -> SysLog.wf log -> is_Some (FrameBuffer.init fuel log color s).
Proof.
  intros Hf Hw. unfold FrameBuffer.init. destruct (_ =? 0); [by eexists|]. destruct (_ =? _); [by eexists|].
  pose proof (SysLog.zlen_log_of log) as Hz. pose proof (SysLog.log_len_range log) as Hb. unfold SysLog.MAX_LOG_LEN in Hb.
  eexists. apply replay_spec; [done|lia|lia].
Qed.

(** C30: A frame buffer catches up.  Whatever was written to the log since the start of the
    kernel, when the frame buffer is turned on it shows, wrapped at 100
    columns, the last 32767 bytes of it, as if they had been typed on the empty
    screen: 50 lines of it, pixel by pixel in the font; memory outside the screen
    is untouched; and the replay ends.  Without a frame buffer nothing happens. *)
Theorem framebuffer_catches_up text pixels addr color fuel : (1025 <= fuel)%nat -> is_u64 addr ->
  let log := fold_left SysLog.putchar text (SysLog.init SysLog.boot) in
  let shown := u8 <$> SysLog.lastn (Z.to_nat (SysLog.MAX_LOG_LEN - 1)) text in
  let s := FrameBuffer.set_framebuffer_addr addr (FrameBuffer.boot pixels) in
  FrameBuffer.init fuel log color (FrameBuffer.boot pixels) = Some (FrameBuffer.boot pixels) /\
  FrameBuffer.init fuel log color (FrameBuffer.set_framebuffer_addr 0 (FrameBuffer.boot pixels)) =
    Some (FrameBuffer.set_framebuffer_addr 0 (FrameBuffer.boot pixels)) /\
  (addr <> 0 -> addr <> Z.shiftl 1024 30 -> exists s',
     FrameBuffer.init fuel log color s = Some s' /\
     fb_shows pixels s' (type_text FrameBuffer.N_COLS false (empty_paper 0) color shown)).
Proof.
  intros Hf Ha. cbn zeta. split; [done|]. split; [done|]. intros H1 H2.
  set (log := fold_left _ text _). assert (Hw : SysLog.wf log) by (apply SysLog.wf_run; exact SysLog.wf_boot).
  assert (El : SysLog.log_of log = SysLog.lastn (Z.to_nat (SysLog.MAX_LOG_LEN - 1)) text).
  { unfold log. rewrite SysLog.log_of_run by exact SysLog.wf_boot. done. }
  unfold FrameBuffer.init. cbn [FrameBuffer.set_framebuffer_addr FrameBuffer.framebuffer].
  assert (Hr : FrameBuffer.remap addr <> 0 /\ FrameBuffer.remap addr <> FrameBuffer.remap 0).
  { unfold FrameBuffer.remap, is_u64 in *. change (Z.shiftl 1024 30) with 1099511627776 in *. unfold u64. word_lia. }
  destruct Hr as [Hr1 Hr2]. rewrite (proj2 (Z.eqb_neq _ _) Hr1), (proj2 (Z.eqb_neq _ _) Hr2).
  set (s1 := FrameBuffer.mk_state _ true _ _ _ _).
  pose proof (SysLog.zlen_log_of log) as Hz. pose proof (SysLog.log_len_range log) as Hb.
  unfold SysLog.MAX_LOG_LEN in Hb.
  eexists. split; [apply replay_spec; [done|lia|lia]|].
  rewrite fb_write_map. change (zdrop 0 (SysLog.log_of log)) with (SysLog.log_of log). rewrite El.
  apply (terminal_text (Terminal0 := fb_terminal pixels)). by apply (fb_first s1).
Qed.

Lemma framebuffer_catches_up_witness : exists s',
  FrameBuffer.init 1025 (fold_left SysLog.putchar [72; 105] (SysLog.init SysLog.boot)) 7
    (FrameBuffer.set_framebuffer_addr 0xfd000000 (FrameBuffer.boot (λ _, 0))) = Some s' /\
  FrameBuffer.chars s' 49 1 = mk_cell 105 7.
Proof.
  destruct (framebuffer_catches_up [72; 105] (λ _, 0) 0xfd000000 7 1025) as (_ & _ & H);
    [lia|unfold is_u64; lia|]. destruct H as (s' & E & [_ [C _ _ _] _ _ _]); [lia|done|].
  exists s'. split; [exact E|]. rewrite C by (by split). reflexivity.
Defined.

End Console.
