(* ===== verification/Timer.v ===== *)
(** * Timer: clock conversions, CPU speed detection, delays and the LAPIC timer

    [inc/timer.hpp], [lib/timer.cpp], [lib/ctime.cpp] and the timer part of
    [lib/lapic.cpp].  The time stamp counter and the CPUID results are inputs:
    a reading of [rdtsc] is an argument [tsc] of the operation that takes it. *)
From Stdlib Require Import Strings.String.
From S2P Require Import Prelude Utils.

Module Timer.

Record state := mk_state { tsc_freq : Z; tsc_epoch : Z; ext_freq : Z; clk_freq : Z }.

Definition tsc_to_ns (s : state) (tsc : Z) : Z :=
  let q := tsc / tsc_freq s in
  let r := tsc mod tsc_freq s in
  u64 (u64 (q * 1000000000) + u64 (r * 1000000000) / tsc_freq s).

Definition clk_to_ns (s : state) (clk : Z) : Z :=
  let q := clk / clk_freq s in
  let r := clk mod clk_freq s in
  u64 (u64 (q * 1000000000) + u64 (r * 1000000000) / clk_freq s).

(** [-1] at [uint64_t] before the epoch is set. *)
Definition tsc_since_epoch (s : state) (tsc : Z) : Z :=
  if tsc_epoch s =? 0 then u64 (-1) else u64 (tsc - tsc_epoch s).

Definition ns_since_epoch (s : state) (tsc : Z) : Z :=
  if tsc_epoch s =? 0 then u64 (-1) else tsc_to_ns s (tsc_since_epoch s tsc).

(** [microdelay]: the loop consumes one reading of the counter per iteration;
    the readings left when it exits are returned, [None] while it still spins
    when they run out. *)
Fixpoint microdelay_loop (tsc_target : Z) (readings : list Z) : option (list Z) :=
  match readings with
  | [] => None
  | tsc :: rest =>
      if s64 (u64 (tsc - tsc_target)) <? 0 then microdelay_loop tsc_target rest else Some rest
  end.
Definition microdelay (s : state) (us : Z) (readings : list Z) : option (list Z) :=
  match readings with
  | [] => None
  | tsc :: rest => microdelay_loop (u64 (tsc + u64 (us * (tsc_freq s / 1000000)))) rest
  end.

(** [clock ()] and [time ()] of [lib/ctime.cpp] ([clock_t], [time_t] are [long]). *)
Definition clock (s : state) (tsc : Z) : Z :=
  if tsc_freq s =? 0 then -1 else s64 (tsc_since_epoch s tsc).
Definition time (s : state) (tsc : Z) : Z :=
  let c := clock s tsc in
  if c =? -1 then -1 else s64 (u64 c / tsc_freq s).

(** ** CPU speed detection *)

(** [strstr (hay, needle) != NULL]. *)
Definition strstr (hay needle : string) : bool :=
  match String.index 0 needle hay with Some _ => true | None => false end.

(** The 48 bytes the three CPUID leaves 0x80000002..4 contribute to
    [cpu_model_name], four registers each ([abcd]). *)
Definition model_name_word (w : Z) : list Z :=
  [Z.land w 255; Z.land (Z.shiftr w 8) 255; Z.land (Z.shiftr w 16) 255; Z.land (Z.shiftr w 24) 255].
Definition detect_cpu_model_name (regs : list Z) : list Z := (regs ≫= model_name_word) ++ [0].

(** [get_tsc_clock_ratio]: CPUID leaf 0x15 in [(eax, ebx, ecx)]; [None] is the
    error return, otherwise numerator, denominator and crystal frequency. *)
Definition get_tsc_clock_ratio (leaf15 : Z * Z * Z) : option (Z * Z * Z) :=
  let '(a, b, c) := leaf15 in
  if b =? 0 then None else Some (b, a, c).

(** The special cases by model name: [(ext_freq, tsc_freq, clk_freq)]. *)
Definition special_case (cpu_model_name : string) : Z * Z * Z :=
  if strstr cpu_model_name "i7-4790" then (100 * 1000000, 3600 * 1000000, 3800 * 1000000)
  else if strstr cpu_model_name "N100" then (0, 0, 3400 * 1000000)
  else if strstr cpu_model_name "N150" then (0, 0, 3600 * 1000000)
  else if strstr cpu_model_name "i7-13700K" then (0, 0, 5300 * 1000000)
  else (0, 0, 0).

(** [None] is the divide error of a zero TSC denominator. *)
Definition detect_cpu_speed_intel (cpu_model_name : string) (leaf15 : Z * Z * Z)
    (tsc_epoch : Z) : option state :=
  let '(ext0, tsc0, clk0) := special_case cpu_model_name in
  let speeds : option (Z * Z) :=
    if ext0 =? 0 then
      match get_tsc_clock_ratio leaf15 with
      | None => Some (1000 * 1000000, 3600 * 1000000)
      | Some (a, b, c) =>
          let ext := if c =? 0 then 24 * 1000000 else c in
          if b =? 0 then None else Some (ext, u64 (ext * a) / b)
      end
    else Some (ext0, tsc0) in
  match speeds with
  | None => None
  | Some (ext, tsc) =>
      let clk := if clk0 =? 0
                 then Utils.round_down (u64 (tsc + 50 * 1000000)) (100 * 1000000)
                 else clk0 in
      Some (mk_state tsc tsc_epoch ext clk)
  end.

Definition detect_cpu_speed_others (tsc_epoch : Z) : state :=
  mk_state (3700 * 1000000) tsc_epoch (100 * 1000000) (3700 * 1000000).

(** [init] reads the brand string, detects the speeds, then sets the epoch. *)
Definition init (brand cpu_model_name : string) (leaf15 : Z * Z * Z) (tsc : Z) : option state :=
  if String.eqb brand "GenuineIntel"
  then detect_cpu_speed_intel cpu_model_name leaf15 tsc
  else Some (detect_cpu_speed_others tsc).

(** ** Lemmas *)

(** Dividing before multiplying loses nothing: [q * K + r * K / f = t * K / f]. *)
Lemma split_div t K f : 0 < f -> t / f * K + t mod f * K / f = t * K / f.
Proof.
  intros Hf. rewrite (Z.div_mod t f) at 3 by lia.
  rewrite Z.mul_add_distr_r, (Z.mul_comm f), <- Z.mul_assoc, (Z.mul_comm f), Z.mul_assoc.
  rewrite Z.div_add_l by lia. lia.
Qed.

Lemma convert_exact t K f :
  0 < f -> 0 < K -> f * K <= 2 ^ 64 -> is_u64 t ->
  u64 (u64 (t / f * K) + u64 (t mod f * K) / f) = u64 (t * K / f).
Proof.
  intros Hf HK Hfit Ht. pose proof (Z.mod_pos_bound t f Hf).
  rewrite (u64_small (t mod f * K)) by (unfold is_u64; nia).
  by rewrite u64_add_l, split_div.
Qed.

(** Time stamps convert to nanoseconds exactly (rounded down, modulo 2^64) for
    every counter value, as long as the frequency is at most 18.4 GHz: dividing
    before multiplying keeps every intermediate product in 64 bits. *)
Theorem tsc_to_ns_exact s t :
  0 < tsc_freq s <= 18446744073 -> is_u64 t -> tsc_to_ns s t = u64 (t * 1000000000 / tsc_freq s).
Proof. intros Hf Ht. apply convert_exact; lia || done. Qed.
Lemma tsc_to_ns_exact_witness :
  tsc_to_ns (mk_state 3600000000 0 0 0) 18446744073709551615 =
    u64 (18446744073709551615 * 1000000000 / 3600000000).
Proof. apply (tsc_to_ns_exact (mk_state 3600000000 0 0 0)); [cbn; lia|unfold is_u64; lia]. Defined.

(** The delay loop ends at the first reading at or past the target, and not before. *)
Lemma microdelay_loop_spec target early tsc rest :
  Forall (λ t, s64 (u64 (t - target)) < 0) early -> 0 <= s64 (u64 (tsc - target)) ->
  microdelay_loop target (early ++ tsc :: rest) = Some rest.
Proof.
  intros He Ht. induction early as [|t early IH]; cbn [app microdelay_loop].
  - by destruct (Z.ltb_spec (s64 (u64 (tsc - target))) 0); [lia|].
  - apply Forall_cons_iff in He as [Hh He]. destruct (Z.ltb_spec (s64 (u64 (t - target))) 0); [|lia].
    by apply IH.
Qed.

(** [microdelay] waits long enough and, on a counter that moves, not for ever: with
    no wrap-around of the counter, it consumes exactly the readings below
    [start + us * (tsc_freq / 10^6)] and stops at the first one that is not. *)
Theorem microdelay_waits s us start early tsc rest :
  is_u64 start -> 0 <= us -> 0 <= tsc_freq s ->
  let target := start + us * (tsc_freq s / 1000000) in
  target < 2 ^ 63 -> Forall (λ t, 0 <= t < target) early -> target <= tsc < 2 ^ 63 ->
  microdelay s us (start :: early ++ tsc :: rest) = Some rest.
Proof.
  intros Hs Hus Hf target Ht He Htsc. cbn [microdelay]. unfold is_u64 in Hs.
  assert (0 <= us * (tsc_freq s / 1000000)) by (apply Z.mul_nonneg_nonneg; [done|apply Z.div_pos; lia]).
  rewrite (u64_small (us * _)) by (unfold is_u64; lia). fold target.
  rewrite u64_small by (unfold is_u64; lia).
  apply microdelay_loop_spec.
  - revert He. apply Forall_impl. intros t Ht'. word_lia.
  - word_lia.
Qed.
Lemma microdelay_waits_witness :
  microdelay (mk_state 3600000000 0 0 0) 10 [1000; 1001; 20000; 37000; 5] = Some [5].
Proof.
  apply (microdelay_waits (mk_state 3600000000 0 0 0) 10 1000 [1001; 20000] 37000 [5]);
    [..|repeat (apply List.Forall_cons; [|]); try apply List.Forall_nil|];
    vm_compute; intuition discriminate.
Defined.

End Timer.

(** ** The LAPIC timer

    The registers are written through [lapicw]; the model keeps the writes in
    order, index and 32-bit value. *)
Module LAPIC.

Definition TIMER : Z := 200.    (* 0x0320 / 4 *)
Definition TICR : Z := 224.     (* 0x0380 / 4 *)
Definition EOI : Z := 44.       (* 0x00B0 / 4 *)
Definition SINGLESHOT : Z := 0.
Definition PERIODIC : Z := 131072.
Definition IRQ_OFFSET : Z := 32.
Definition IRQ_TIMER : Z := 0.

Record state := mk_state { writes : list (Z * Z); lapic_timer_cnt : Z }.

Definition lapicw (index value : Z) (s : state) : state :=
  mk_state (writes s ++ [(index, u32 value)]) (lapic_timer_cnt s).

Definition timer_disable (s : state) : state := lapicw TICR (-1) s.
Definition eoi (s : state) : state := lapicw EOI 0 s.

(** [init], after the mapping: the writes of the set-up, in order, with the
    version register [ver]; [readings] are the values of [ICRLO] the final wait
    polls, [None] while the delivery is still pending when they run out. *)
Definition SVR : Z := 60.
Definition TDCR : Z := 248.
Definition LINT1 : Z := 216.
Definition PCINT : Z := 208.
Definition ERROR : Z := 220.
Definition ESR : Z := 160.
Definition ICRHI : Z := 196.
Definition ICRLO : Z := 192.
Definition TPR : Z := 32.
Definition MASKED : Z := 65536.
Fixpoint wait_delivery (readings : list Z) : option (list Z) :=
  match readings with
  | [] => None
  | r :: rest => if negb (Z.land r 0x1000 =? 0) then wait_delivery rest else Some rest
  end.
Definition init (ver : Z) (readings : list Z) (s : state) : option state :=
  let s := lapicw SVR (Z.lor 0x100 MASKED) s in
  let s := lapicw TDCR 0xB s in
  let s := lapicw TIMER (Z.lor SINGLESHOT (IRQ_OFFSET + IRQ_TIMER)) s in
  let s := lapicw LINT1 MASKED s in
  let s := if 4 <=? Z.land (Z.shiftr ver 16) 0xff then lapicw PCINT MASKED s else s in
  let s := lapicw ERROR MASKED s in
  let s := lapicw ESR 0 (lapicw ESR 0 s) in
  let s := lapicw EOI 0 s in
  let s := lapicw ICRHI 0 s in
  let s := lapicw ICRLO (Z.lor (Z.lor 0x80000 0x500) 0x8000) s in
  match wait_delivery readings with
  | None => None
  | Some _ => Some (lapicw TPR 0 s)
  end.

(** [(__uint128_t) ns * ext_freq / 1000000000], stored in a [uint64_t]. *)
Definition ticks (t : Timer.state) (ns : Z) : Z := u64 (ns * Timer.ext_freq t / 1000000000).

(** [None] is the failed [assert (to_set < 4000000000)]. *)
Definition timer_single_shot_ns (t : Timer.state) (ns : Z) (s : state) : option state :=
  let to_set := ticks t ns in
  if to_set <? 4000000000 then
    Some (lapicw TICR to_set
           (lapicw TIMER (Z.lor SINGLESHOT (IRQ_OFFSET + IRQ_TIMER)) (mk_state (writes s) 1)))
  else None.

Definition timer_periodic_ns (t : Timer.state) (ns cnt : Z) (s : state) : option state :=
  let to_set := ticks t ns in
  if to_set <? 4000000000 then
    Some (lapicw TICR to_set
           (lapicw TIMER (Z.lor PERIODIC (IRQ_OFFSET + IRQ_TIMER)) (mk_state (writes s) cnt)))
  else None.

Lemma ticks_small t ns :
  0 <= ns <= 500000000 -> is_u32 (Timer.ext_freq t) -> ticks t ns < 4000000000.
Proof.
  intros Hns He. unfold ticks, is_u32 in *.
  assert (0 <= ns * Timer.ext_freq t <= 500000000 * 4294967295) by nia.
  assert (0 <= ns * Timer.ext_freq t / 1000000000 < 4000000000).
  { split; [apply Z.div_pos; lia | apply Z.div_lt_upper_bound; lia]. }
  rewrite u64_small by (unfold is_u64; lia). lia.
Qed.

End LAPIC.
