(* ===== verification/Counters.v ===== *)
(** * Counters: the performance counters ([lib/timer.cpp], [inc/x86_64.hpp])

    The three fixed counters of the processor (instructions, unhalted cycles,
    unhalted cycles of the reference clock), which [ELF::run] resets before a
    program runs and reads after it.  The model-specific registers are a map;
    what the processor does to it is given, with what its manual says of these
    registers as hypotheses. *)
From S2P Require Import Prelude Utils Timer.
From stdpp Require Import list.

Module Counters.
Local Open Scope Z_scope.

Definition FIXED_CTR_CTRL : Z := 909.
Definition PERF_GLOBAL_CTRL : Z := 911.
Definition FIXED_CTR0 : Z := 0x309.
Definition FIXED_CTR1 : Z := 0x30A.
Definition FIXED_CTR2 : Z := 0x30B.
Definition INST_RETIRED_ANY := FIXED_CTR0.
Definition CPU_CLK_UNHALTED_THREAD := FIXED_CTR1.
Definition CPU_CLK_UNHALTED_REF_TSC := FIXED_CTR2.

Abbreviation msrs := (Z -> Z).
(** The events of the three counters: instructions, cycles, reference cycles. *)
Definition events : Type := Z -> Z.
Inductive mode := User | Kernel.

Section Counters.
(** What the processor does when a register is written, and when code runs. *)
Variable wrmsr : Z -> Z -> msrs -> msrs.
Variable execute : mode -> events -> msrs -> msrs.

Definition enable_performance_counters (r : msrs) : msrs :=
  wrmsr PERF_GLOBAL_CTRL (Z.shiftl 7 32) (wrmsr FIXED_CTR_CTRL (2 * 0x111) r).
Definition reset_performance_counters (r : msrs) : msrs :=
  wrmsr CPU_CLK_UNHALTED_REF_TSC 0 (wrmsr CPU_CLK_UNHALTED_THREAD 0 (wrmsr INST_RETIRED_ANY 0 r)).
Definition read_performance_counters (r : msrs) : Z * Z * Z :=
  (r INST_RETIRED_ANY, r CPU_CLK_UNHALTED_THREAD, r CPU_CLK_UNHALTED_REF_TSC).

(** ** What the manual says *)

Definition counter (i : Z) : Z := FIXED_CTR0 + i.
Definition used (x : Z) : Prop := x = FIXED_CTR_CTRL \/ x = PERF_GLOBAL_CTRL \/ exists i, 0 <= i < 3 /\ x = counter i.
(** Bit [32 + i] of the global register and one of two bits of the control register
    let a counter count, in the kernel or in user mode. *)
Definition counts (r : msrs) (m : mode) (i : Z) : bool :=
  Z.testbit (r PERF_GLOBAL_CTRL) (32 + i) &&
  Z.testbit (r FIXED_CTR_CTRL) (4 * i + match m with User => 1 | Kernel => 0 end).

Hypothesis write_law : forall i v r x, used i -> used x -> wrmsr i v r x = if x =? i then v else r x.
Hypothesis execute_law : forall m ev r,
  execute m ev r FIXED_CTR_CTRL = r FIXED_CTR_CTRL /\ execute m ev r PERF_GLOBAL_CTRL = r PERF_GLOBAL_CTRL /\
  forall i, 0 <= i < 3 ->
    execute m ev r (counter i) = (r (counter i) + if counts r m i then ev i else 0) mod 2 ^ 48.

(** A run: the program's code, with the kernel's in between. *)
Definition execute_all (l : list (mode * events)) (r : msrs) : msrs :=
  fold_left (λ r p, execute p.1 p.2 r) l r.
(** What the program alone caused. *)
Definition of_program (l : list (mode * events)) (i : Z) : Z :=
  foldr (λ p n, match p.1 with User => p.2 i | Kernel => 0 end + n) 0 l.

(** ** Lemmas *)

Record enabled (r : msrs) : Prop := {
  enabled_ctrl : r FIXED_CTR_CTRL = 0x222; enabled_global : r PERF_GLOBAL_CTRL = Z.shiftl 7 32 }.

Lemma used_counter i : 0 <= i < 3 -> used (counter i).
Proof. intros. right. right. by exists i. Qed.

Lemma enabled_counts r m i : enabled r -> 0 <= i < 3 -> counts r m i = match m with User => true | Kernel => false end.
Proof.
  intros [Hc Hg] Hi. unfold counts. rewrite Hc, Hg.
  assert (i = 0 \/ i = 1 \/ i = 2) as [->|[->| ->]] by lia; by destruct m.
Qed.

Lemma enable_enables r : enabled (enable_performance_counters r).
Proof.
  assert (Uc : used FIXED_CTR_CTRL) by (by left). assert (Ug : used PERF_GLOBAL_CTRL) by (right; by left).
  unfold enable_performance_counters. split; by rewrite !write_law.
Qed.
Lemma reset_spec r : enabled r ->
  enabled (reset_performance_counters r) /\ forall i, 0 <= i < 3 -> reset_performance_counters r (counter i) = 0.
Proof.
  assert (Uc : used FIXED_CTR_CTRL) by (by left). assert (Ug : used PERF_GLOBAL_CTRL) by (right; by left).
  pose proof (used_counter 0 ltac:(lia)) as U0. pose proof (used_counter 1 ltac:(lia)) as U1.
  pose proof (used_counter 2 ltac:(lia)) as U2.
  intros [Hc Hg]. unfold reset_performance_counters. split.
  - split; by rewrite !write_law.
  - intros i Hi. assert (i = 0 \/ i = 1 \/ i = 2) as [->|[->| ->]] by lia; by rewrite !write_law.
Qed.

Lemma execute_enabled m ev r : enabled r -> enabled (execute m ev r).
Proof. intros [Hc Hg]. destruct (execute_law m ev r) as (Ec & Eg & _). split; by rewrite ?Ec, ?Eg. Qed.

Lemma execute_all_counts l : forall r i, enabled r -> 0 <= i < 3 -> 0 <= r (counter i) < 2 ^ 48 ->
  execute_all l r (counter i) = (r (counter i) + of_program l i) mod 2 ^ 48.
Proof.
  induction l as [|[m ev] l IH]; intros r i He Hi Hr; [cbn; rewrite Z.add_0_r; symmetry; by apply Z.mod_small|].
  destruct (execute_law m ev r) as (_ & _ & Ex). specialize (Ex i Hi).
  change (execute_all ((m, ev) :: l) r) with (execute_all l (execute m ev r)).
  rewrite IH; [|by apply execute_enabled|done|rewrite Ex; by apply Z.mod_pos_bound].
  rewrite Ex, enabled_counts by done. cbn [of_program foldr fst snd]. fold (of_program l i).
  rewrite Zplus_mod_idemp_l. f_equal. destruct m; lia.
Qed.

Lemma of_program_nonneg l i : Forall (λ p, 0 <= p.2 i) l -> 0 <= of_program l i.
Proof.
  induction 1 as [|[m ev] l He _ IH]; [done|]. cbn [snd] in He.
  change (of_program ((m, ev) :: l) i) with (match m with User => ev i | Kernel => 0 end + of_program l i).
  destruct m; lia.
Qed.

(** C18: A program is charged for its own time.  However the kernel's code is mixed with
    the program's during the run, the counters read after it are exactly the
    instructions, the cycles and the reference cycles of the program's own code,
    and the reported time is these cycles in nanoseconds, rounded down: neither the
    64-bit arithmetic nor the 48 bits of the counters lose anything. *)
Theorem time_is_the_programs_own (t : Timer.state) r l :
  1000000 <= Timer.clk_freq t <= 18446744073 ->
  Forall (λ p, forall i, 0 <= i < 3 -> 0 <= p.2 i) l -> (forall i, 0 <= i < 3 -> of_program l i < 2 ^ 48) ->
  let after := execute_all l (reset_performance_counters (enable_performance_counters r)) in
  read_performance_counters after = (of_program l 0, of_program l 1, of_program l 2) /\
  Timer.clk_to_ns t (of_program l 1) = of_program l 1 * 1000000000 / Timer.clk_freq t.
Proof.
  intros Hf Hev Hmax. destruct (reset_spec _ (enable_enables r)) as [He Hz].
  assert (Hn : forall i, 0 <= i < 3 -> 0 <= of_program l i).
  { intros i Hi. apply of_program_nonneg, (Forall_impl _ _ _ Hev). intros p Hp. by apply Hp. }
  assert (Hc : forall i, 0 <= i < 3 ->
    execute_all l (reset_performance_counters (enable_performance_counters r)) (counter i) = of_program l i).
  { intros i Hi. specialize (Hz i Hi). rewrite execute_all_counts by (done || rewrite Hz; lia).
    rewrite Hz. apply Z.mod_small. auto. }
  cbn zeta. split.
  - unfold read_performance_counters. pose proof (Hc 0 ltac:(lia)) as H0. pose proof (Hc 1 ltac:(lia)) as H1.
    pose proof (Hc 2 ltac:(lia)) as H2.
    unfold INST_RETIRED_ANY, CPU_CLK_UNHALTED_THREAD, CPU_CLK_UNHALTED_REF_TSC.
    by change FIXED_CTR0 with (counter 0) at 1; change FIXED_CTR1 with (counter 1); change FIXED_CTR2 with (counter 2);
      rewrite H0, H1, H2.
  - pose proof (Hn 1 ltac:(lia)). specialize (Hmax 1 ltac:(lia)). unfold Timer.clk_to_ns.
    rewrite Timer.convert_exact by (unfold is_u64; lia). apply u64_small. unfold is_u64.
    split; [apply Z.div_pos; lia|apply Z.div_lt_upper_bound; lia].
Qed.

End Counters.

(** ** Instances *)

Definition demo_wrmsr (i v : Z) (r : msrs) : msrs := λ x, if x =? i then v else r x.
Definition demo_execute (m : mode) (ev : events) (r : msrs) : msrs := λ x,
  let i := x - FIXED_CTR0 in
  if (0 <=? i) && (i <? 3) then (r x + if counts r m i then ev i else 0) mod 2 ^ 48 else r x.
Definition demo_timer : Timer.state := Timer.mk_state 3600000000 0 100000000 3800000000.

Lemma demo_execute_law m ev r :
  demo_execute m ev r FIXED_CTR_CTRL = r FIXED_CTR_CTRL /\ demo_execute m ev r PERF_GLOBAL_CTRL = r PERF_GLOBAL_CTRL /\
  forall i, 0 <= i < 3 ->
    demo_execute m ev r (counter i) = (r (counter i) + if counts r m i then ev i else 0) mod 2 ^ 48.
Proof.
  split; [done|]. split; [done|]. intros i Hi. unfold demo_execute, counter.
  replace (FIXED_CTR0 + i - FIXED_CTR0) with i by lia.
  destruct (Z.leb_spec 0 i), (Z.ltb_spec i 3); try lia. done.
Qed.

(** Of 380 and 760 cycles in the program and 5000 in the kernel, 1140 are charged. *)
Lemma time_is_the_programs_own_witness :
  read_performance_counters (execute_all demo_execute
    [(User, λ _, 380); (Kernel, λ _, 5000); (User, λ _, 760)]
    (reset_performance_counters demo_wrmsr (enable_performance_counters demo_wrmsr (λ _, 7)))) = (1140, 1140, 1140) /\
  Timer.clk_to_ns demo_timer 1140 = 300.
Proof.
  apply (time_is_the_programs_own demo_wrmsr demo_execute (λ i v r x _ _, eq_refl) demo_execute_law demo_timer (λ _, 7)
    [(User, λ _, 380); (Kernel, λ _, 5000); (User, λ _, 760)]).
  - cbn. lia.
  - repeat (apply List.Forall_cons; [cbn; lia|]). apply List.Forall_nil.
  - intros i Hi. cbn. lia.
Defined.

End Counters.
