(* ===== verification/Scheduler.v ===== *)
(** * Scheduler: the idle policy of the server loop ([lib/scheduler.cpp])

    The state is [current_state] and [last_active_timestamp_ns]; every
    operation that asks [Timer::ns_since_epoch] gets the reading as [now_ns]. *)
From S2P Require Import Prelude Utils Timer.

Module Scheduler.

Inductive activity := ACTIVE | IDLE.

Record state := mk_state { current_state : activity; last_active_timestamp_ns : Z }.

Definition init (s : state) : state := mk_state ACTIVE (last_active_timestamp_ns s).
Definition set_active (s : state) : state := mk_state ACTIVE (last_active_timestamp_ns s).
Definition set_idle (now_ns : Z) (s : state) : state :=
  match current_state s with
  | ACTIVE => mk_state IDLE now_ns
  | IDLE => s
  end.

(** Already X ms idle -> sleep Y ms. *)
Definition idle_policy_ms : list (Z * Z) := [(0, 0); (1, 1); (30, 2)].
Definition n_idle_policies : nat := length idle_policy_ms.

(** [for (i = n_idle_policies - 1; i > 0; i--) if (idle >= policy[i][0]) break;] *)
Fixpoint pick_policy (i : nat) (idle_time_ms : Z) : nat :=
  match i with
  | O => O
  | S i' => if fst (nth (S i') idle_policy_ms (0, 0)) <=? idle_time_ms
            then S i' else pick_policy i' idle_time_ms
  end.

Definition get_sleep_duration_ms (now_ns : Z) (s : state) : Z :=
  match current_state s with
  | ACTIVE => 0
  | IDLE =>
      let idle_time_ms := u64 (now_ns - last_active_timestamp_ns s) / 1000000 in
      snd (nth (pick_policy (n_idle_policies - 1) idle_time_ms) idle_policy_ms (0, 0))
  end.

Definition can_sleep (now_ns : Z) (s : state) : bool := 0 <? get_sleep_duration_ms now_ns s.

(** [Timer::powersave_sleep]: arm the LAPIC timer, then [sti; hlt] until the
    interrupt; [None] is a failed assertion in the LAPIC driver. *)
Definition powersave_sleep (t : Timer.state) (ns : Z) (l : LAPIC.state) : option LAPIC.state :=
  LAPIC.timer_single_shot_ns t ns l.

Definition sleep (t : Timer.state) (now_ns : Z) (s : state) (l : LAPIC.state)
    : option LAPIC.state :=
  let ms := get_sleep_duration_ms now_ns s in
  if 0 <? ms then powersave_sleep t (u64 (ms * 1000000)) l else Some l.

(** ** Lemmas *)

(** The events of the server loop that reach the scheduler. *)
Inductive event := Packet | Idle (now_ns : Z).
Definition step (s : state) (e : event) : state :=
  match e with Packet => set_active s | Idle now => set_idle now s end.
Definition run (s : state) (es : list event) : state := fold_left step es s.

Lemma run_idle_stays s es :
  current_state s = IDLE -> Forall (λ e, e <> Packet) es -> run s es = s.
Proof.
  intros Hs Hes. revert s Hs. induction Hes as [|e es He Hes IH]; intros s Hs; [done|].
  cbn. destruct e; [done|]. cbn. unfold set_idle. rewrite Hs. by apply IH.
Qed.

Lemma run_app s es fs : run s (es ++ fs) = run (run s es) fs.
Proof. apply fold_left_app. Qed.

Lemma sleep_duration_cases now s :
  get_sleep_duration_ms now s =
    match current_state s with
    | ACTIVE => 0
    | IDLE =>
        let idle_ns := u64 (now - last_active_timestamp_ns s) in
        if idle_ns <? 1000000 then 0 else if idle_ns <? 30000000 then 1 else 2
    end.
Proof.
  unfold get_sleep_duration_ms. destruct (current_state s); [done|].
  cbn -[u64 Z.leb Z.div]. pose proof (u64_range (now - last_active_timestamp_ns s)) as Hr.
  set (d := u64 _) in *. unfold is_u64 in Hr.
  destruct (Z.leb_spec 30 (d / 1000000)), (Z.leb_spec 1 (d / 1000000)),
    (Z.ltb_spec d 1000000), (Z.ltb_spec d 30000000); cbn; try done;
    exfalso; Z.to_euclidean_division_equations; lia.
Qed.

(** How long the server sleeps depends only on the time since the first idle round
    after the last packet: whatever happened before, and however often the loop
    went idle in between, nothing below 1 ms, 1 ms up to 30 ms, then 2 ms. *)
Theorem sleep_policy s before t0 ts now :
  get_sleep_duration_ms now (run s (before ++ Packet :: Idle t0 :: map Idle ts)) =
    let idle_ns := u64 (now - t0) in
    if idle_ns <? 1000000 then 0 else if idle_ns <? 30000000 then 1 else 2.
Proof.
  rewrite run_app. set (s1 := run s before). change (Packet :: ?l) with ([Packet] ++ l).
  rewrite run_app. cbn [run fold_left step].
  fold (run (set_idle t0 (set_active s1)) (map Idle ts)).
  rewrite run_idle_stays; [|done|].
  - by rewrite sleep_duration_cases.
  - apply List.Forall_forall. intros e (t & <- & _)%in_map_iff. done.
Qed.

(** The sleep of the server loop never trips the assertion of the timer driver:
    on any external clock that fits its 32-bit variable, [sleep] arms the
    one-shot timer with the exact number of ticks, or does nothing. *)
Theorem sleep_never_asserts t now s l :
  is_u32 (Timer.ext_freq t) ->
  let ms := get_sleep_duration_ms now s in
  sleep t now s l = Some (
    if 0 <? ms then
      LAPIC.mk_state (LAPIC.writes l ++
        [(LAPIC.TIMER, 32); (LAPIC.TICR, ms * 1000000 * Timer.ext_freq t / 1000000000)]) 1
    else l).
Proof.
  intros He ms. unfold sleep. fold ms.
  assert (Hms : 0 <= ms <= 2).
  { subst ms. rewrite sleep_duration_cases. destruct (current_state s); [lia|].
    cbn zeta. repeat case_match; lia. }
  destruct (Z.ltb_spec 0 ms); [|done]. unfold powersave_sleep, LAPIC.timer_single_shot_ns.
  rewrite (u64_small (ms * 1000000)) by (unfold is_u64; lia).
  pose proof (LAPIC.ticks_small t (ms * 1000000) ltac:(lia) He) as Hs.
  destruct (Z.ltb_spec (LAPIC.ticks t (ms * 1000000)) 4000000000); [|lia].
  unfold LAPIC.lapicw, LAPIC.ticks in *. cbn [LAPIC.writes LAPIC.lapic_timer_cnt].
  assert (0 <= ms * 1000000 * Timer.ext_freq t / 1000000000 < 4294967296).
  { unfold is_u32 in He. assert (0 <= ms * Timer.ext_freq t <= 2 * 4294967295) by nia.
    replace (ms * 1000000 * Timer.ext_freq t) with (ms * Timer.ext_freq t * 1000000) by ring.
    split; [apply Z.div_pos; lia|apply Z.div_lt_upper_bound; lia]. }
  change (u32 (Z.lor LAPIC.SINGLESHOT _)) with 32.
  rewrite (u64_small (_ / _)), u32_small by (unfold is_u64, is_u32; lia).
  by rewrite <- app_assoc.
Qed.
Lemma sleep_never_asserts_witness :
  sleep (Timer.mk_state 0 0 4294967295 0) 40000000 (mk_state IDLE 0) (LAPIC.mk_state [] 0) =
    Some (LAPIC.mk_state [(LAPIC.TIMER, 32); (LAPIC.TICR, 8589934)] 1).
Proof.
  apply (sleep_never_asserts (Timer.mk_state 0 0 4294967295 0) 40000000 (mk_state IDLE 0)
    (LAPIC.mk_state [] 0)). unfold is_u32. cbn. lia.
Defined.

End Scheduler.
