(* ===== verification/DucknetUtils.v ===== *)
(** * ducknet utilities: byte order, time arithmetic, the Internet checksum

    [ducknet/inc/ducknet_utils.h] and [ducknet/lib/utils.cpp].  The time
    functions take the static [tsc_freq] as their first argument. *)
From S2P Require Import Prelude.

Module DucknetUtils.

(** ** Byte order *)

Definition ducknet_htons (x : Z) : Z :=
  u16 (Z.lor (Z.shiftr (Z.land x 0xff00) 8) (Z.shiftl (Z.land x 0x00ff) 8)).

Definition ducknet_htonl (x : Z) : Z :=
  u32 (Z.lor (Z.lor (Z.lor
    (Z.shiftr (Z.land x 0xff000000) 24)
    (Z.shiftr (Z.land x 0x00ff0000) 8))
    (Z.shiftl (Z.land x 0x0000ff00) 8))
    (Z.shiftl (Z.land x 0x000000ff) 24)).

Definition ducknet_htonll (x : Z) : Z :=
  u64 (Z.lor (Z.lor (Z.lor (Z.lor (Z.lor (Z.lor (Z.lor
    (Z.shiftr (Z.land x 0xff00000000000000) 56)
    (Z.shiftr (Z.land x 0x00ff000000000000) 40))
    (Z.shiftr (Z.land x 0x0000ff0000000000) 24))
    (Z.shiftr (Z.land x 0x000000ff00000000) 8))
    (Z.shiftl (Z.land x 0x00000000ff000000) 8))
    (Z.shiftl (Z.land x 0x0000000000ff0000) 24))
    (Z.shiftl (Z.land x 0x000000000000ff00) 40))
    (Z.shiftl (Z.land x 0x00000000000000ff) 56)).

(** ** Time *)

Definition mul_div (a b d : Z) : Z :=
  let x := a / d in
  let y := a mod d in
  let u := b / d in
  let v := b mod d in
  u64 (u64 (u64 (u64 (u64 (x * u) * d) + u64 (x * v)) + u64 (y * u)) + u64 (y * v) / d).

Definition ducknet_time_add_ns (tsc_freq t ns : Z) : Z := u64 (t + mul_div ns tsc_freq 1000000000).
Definition ducknet_time_add_us (tsc_freq t us : Z) : Z := u64 (t + mul_div us tsc_freq 1000000).
Definition ducknet_time_add_ms (tsc_freq t ms : Z) : Z := u64 (t + mul_div ms tsc_freq 1000).
Definition ducknet_time_add_sec (tsc_freq t sec : Z) : Z := u64 (t + u64 (sec * tsc_freq)).
Definition ducknet_time_to_ns (tsc_freq t : Z) : Z := mul_div t 1000000000 tsc_freq.
Definition ducknet_time_to_us (tsc_freq t : Z) : Z := mul_div t 1000000 tsc_freq.
Definition ducknet_time_to_ms (tsc_freq t : Z) : Z := mul_div t 1000 tsc_freq.
Definition ducknet_time_to_sec (tsc_freq t : Z) : Z := t / tsc_freq.

(** ** Checksum

    While [count > 1], a 16-bit word is added and [a], [count] advance by two;
    then the odd byte.  [count] itself bounds the iterations. *)
Fixpoint checksum_loop (fuel : nat) (a : list Z) (count sum : Z) : list Z * Z * Z :=
  match fuel with
  | O => (a, count, sum)
  | S fuel =>
      if 1 <? count
      then checksum_loop fuel (zdrop 2 a) (count - 2) (u32 (sum + get16 a 0))
      else (a, count, sum)
  end.

Definition ducknet_checksum_sum (a : list Z) (count : Z) : Z :=
  let '(a, count, sum) := checksum_loop (Z.to_nat count) a count 0 in
  if count =? 0 then sum else u32 (sum + zget 0 a 0).

(** [while (sum >> 16) sum = (sum & 0xffff) + (sum >> 16);] *)
Fixpoint carry_loop (fuel : nat) (sum : Z) : Z :=
  match fuel with
  | O => sum
  | S fuel =>
      if Z.shiftr sum 16 =? 0 then sum
      else carry_loop fuel (u32 (Z.land sum 0xffff + Z.shiftr sum 16))
  end.

(** A 32-bit sum needs at most two folds; three rounds are always enough. *)
Definition carry_fuel : nat := 3.

Definition ducknet_checksum (a : list Z) (count sum : Z) : Z :=
  let sum := u32 (sum + ducknet_checksum_sum a count) in
  u16 (Z.lnot (carry_loop carry_fuel sum)).

(** ** Lemmas: byte order *)

Lemma htons_bytes b0 b1 :
  is_u8 b0 -> is_u8 b1 -> ducknet_htons (b0 + 256 * b1) = b1 + 256 * b0.
Proof.
  unfold is_u8. intros. unfold ducknet_htons.
  change 0xff00 with (Z.shiftl (Z.ones 8) 8). change 0x00ff with (Z.shiftl (Z.ones 8) 0).
  rewrite !land_field, shiftr_div, shiftl_mul by lia.
  change (2 ^ 8) with 256. change (2 ^ 0) with 1.
  rewrite (lor_add 8) by (change (2 ^ 8) with 256; Z.to_euclidean_division_equations; lia).
  word_lia.
Qed.

Lemma htonl_bytes b0 b1 b2 b3 :
  is_u8 b0 -> is_u8 b1 -> is_u8 b2 -> is_u8 b3 ->
  ducknet_htonl (le_val [b0; b1; b2; b3]) = le_val [b3; b2; b1; b0].
Proof.
  unfold is_u8. intros. unfold ducknet_htonl.
  change 0xff000000 with (Z.shiftl (Z.ones 8) 24). change 0x00ff0000 with (Z.shiftl (Z.ones 8) 16).
  change 0x0000ff00 with (Z.shiftl (Z.ones 8) 8). change 0x000000ff with (Z.shiftl (Z.ones 8) 0).
  rewrite !land_field by lia. cbn [le_val].
  set (x := b0 + 256 * (b1 + _)).
  replace ((x / 2 ^ 24) mod 2 ^ 8) with b3 by (subst x; Z.to_euclidean_division_equations; lia).
  replace ((x / 2 ^ 16) mod 2 ^ 8) with b2 by (subst x; Z.to_euclidean_division_equations; lia).
  replace ((x / 2 ^ 8) mod 2 ^ 8) with b1 by (subst x; Z.to_euclidean_division_equations; lia).
  replace ((x / 2 ^ 0) mod 2 ^ 8) with b0 by (subst x; Z.to_euclidean_division_equations; lia).
  rewrite !shiftr_div, !shiftl_mul by lia.
  replace (b3 * 2 ^ 24 / 2 ^ 24) with b3 by (Z.to_euclidean_division_equations; lia).
  replace (b2 * 2 ^ 16 / 2 ^ 8) with (b2 * 2 ^ 8) by (Z.to_euclidean_division_equations; lia).
  rewrite (lor_add 8 b3) by (lia || (Z.to_euclidean_division_equations; lia)).
  rewrite (lor_add 16 (b3 + _)) by (lia || (Z.to_euclidean_division_equations; lia)).
  rewrite (lor_add 24 (b3 + _ + _)) by (lia || (Z.to_euclidean_division_equations; lia)).
  rewrite u32_small; unfold is_u32; lia.
Qed.

Lemma u16_bytes x : is_u16 x -> exists b0 b1, is_u8 b0 /\ is_u8 b1 /\ x = b0 + 256 * b1.
Proof.
  intros Hx. exists (x mod 256), (x / 256). unfold is_u16, is_u8 in *.
  repeat split; Z.to_euclidean_division_equations; lia.
Qed.

Lemma htons_involutive x : is_u16 x -> ducknet_htons (ducknet_htons x) = x.
Proof.
  intros Hx. destruct (u16_bytes x Hx) as (b0 & b1 & H0 & H1 & ->).
  rewrite !htons_bytes by done. done.
Qed.

(** Swapping the value is reversing its bytes in memory. *)
Lemma le_bytes_htons x : is_u16 x -> le_bytes 2 (ducknet_htons x) = rev (le_bytes 2 x).
Proof.
  intros Hx. destruct (u16_bytes x Hx) as (b0 & b1 & H0 & H1 & ->).
  rewrite htons_bytes by done. cbn [le_bytes rev app]. unfold is_u8 in *.
  f_equal; [|f_equal]; Z.to_euclidean_division_equations; lia.
Qed.

Lemma u32_le_bytes x : is_u32 x -> exists b0 b1 b2 b3,
  is_u8 b0 /\ is_u8 b1 /\ is_u8 b2 /\ is_u8 b3 /\ x = le_val [b0; b1; b2; b3].
Proof.
  intros Hx. pose proof (bytes_le_bytes 4 x) as Hb. pose proof (le_val_le_bytes 4 x) as Hv.
  destruct (le_bytes 4 x) as [|b0 [|b1 [|b2 [|b3 [|]]]]] eqn:E; try discriminate.
  exists b0, b1, b2, b3. rewrite !bytes_cons in Hb.
  change (256 ^ Z.of_nat 4) with 4294967296 in Hv.
  rewrite Z.mod_small in Hv by done. intuition.
Qed.

Lemma le_bytes_htonl x : is_u32 x -> le_bytes 4 (ducknet_htonl x) = rev (le_bytes 4 x).
Proof.
  intros Hx. destruct (u32_le_bytes x Hx) as (b0 & b1 & b2 & b3 & H0 & H1 & H2 & H3 & ->).
  rewrite htonl_bytes by done.
  change 4%nat with (length [b3; b2; b1; b0]) at 1.
  change 4%nat with (length [b0; b1; b2; b3]).
  rewrite !le_bytes_le_val by (rewrite !bytes_cons; auto with duck). done.
Qed.

Lemma htons_range x : is_u16 (ducknet_htons x).
Proof. apply u16_range. Qed.
Lemma htonl_range x : is_u32 (ducknet_htonl x).
Proof. apply u32_range. Qed.
#[export] Hint Resolve htons_range htonl_range : duck.

Lemma htonl_involutive x : is_u32 x -> ducknet_htonl (ducknet_htonl x) = x.
Proof.
  intros Hx. destruct (u32_le_bytes x Hx) as (b0 & b1 & b2 & b3 & H0 & H1 & H2 & H3 & ->).
  by rewrite !htonl_bytes.
Qed.

(** A mask of one byte. *)
Lemma byte_mask_bit k p : 0 <= k -> Z.testbit (Z.shiftl (Z.ones 8) (8 * k)) p = (8 * k <=? p) && (p <? 8 * k + 8).
Proof.
  intros Hk. destruct (Z.leb_spec (8 * k) p); cbn [andb].
  - rewrite Z.shiftl_spec_high, Z.testbit_ones_nonneg by lia. destruct (Z.ltb_spec (p - 8 * k) 8), (Z.ltb_spec p (8 * k + 8)); lia.
  - destruct (Z.ltb_spec p 0); [by apply Z.testbit_neg_r|]. by rewrite Z.shiftl_spec_low by lia.
Qed.

(** The bit [j] of byte [k] comes from byte [7 - k]. *)
Lemma htonll_bit x k j : 0 <= k < 8 -> 0 <= j < 8 ->
  Z.testbit (ducknet_htonll x) (8 * k + j) = Z.testbit x (8 * (7 - k) + j).
Proof.
  intros Hk Hj. unfold ducknet_htonll, u64. change 18446744073709551616 with (2 ^ 64).
  rewrite Z.mod_pow2_bits_low by lia.
  change 0xff00000000000000 with (Z.shiftl (Z.ones 8) (8 * 7)). change 0x00ff000000000000 with (Z.shiftl (Z.ones 8) (8 * 6)).
  change 0x0000ff0000000000 with (Z.shiftl (Z.ones 8) (8 * 5)). change 0x000000ff00000000 with (Z.shiftl (Z.ones 8) (8 * 4)).
  change 0x00000000ff000000 with (Z.shiftl (Z.ones 8) (8 * 3)). change 0x0000000000ff0000 with (Z.shiftl (Z.ones 8) (8 * 2)).
  change 0x000000000000ff00 with (Z.shiftl (Z.ones 8) (8 * 1)). change 0x00000000000000ff with (Z.shiftl (Z.ones 8) (8 * 0)).
  rewrite !Z.lor_spec, !Z.shiftr_spec, !Z.shiftl_spec, !Z.land_spec, !byte_mask_bit by lia.
  assert (k = 0 \/ k = 1 \/ k = 2 \/ k = 3 \/ k = 4 \/ k = 5 \/ k = 6 \/ k = 7) as [->|[->|[->|[->|[->|[->|[->| ->]]]]]]] by lia;
    repeat match goal with
    | |- context [?a <=? ?b] => (replace (a <=? b) with true by lia) || (replace (a <=? b) with false by lia)
    | |- context [?a <? ?b] => (replace (a <? b) with true by lia) || (replace (a <? b) with false by lia)
    end; rewrite ?andb_false_r, ?andb_true_r, ?orb_false_r; cbn [orb andb]; f_equal; lia.
Qed.

Lemma htonll_range x : is_u64 (ducknet_htonll x).
Proof. apply u64_range. Qed.
Lemma htonll_involutive x : is_u64 x -> ducknet_htonll (ducknet_htonll x) = x.
Proof.
  intros Hx. apply Z.bits_inj'. intros i Hi. destruct (Z.lt_ge_cases i 64).
  - pose proof (Z.div_mod i 8 ltac:(lia)) as E. pose proof (Z.mod_pos_bound i 8 ltac:(lia)).
    assert (0 <= i / 8 < 8) by (split; [apply Z.div_pos; lia|apply Z.div_lt_upper_bound; lia]).
    rewrite E, !htonll_bit by lia. f_equal. lia.
  - by rewrite (testbit_high x 64), (testbit_high (ducknet_htonll _) 64) by (lia || apply htonll_range || done).
Qed.

(** ** Lemmas: time *)

Lemma residue_product y v d :
  0 <= y < d -> 0 <= v < d -> d <= 4294967296 -> is_u64 (y * v).
Proof.
  intros Hy Hv Hd. unfold is_u64.
  assert (y * v <= 4294967295 * 4294967295) by (apply Z.mul_le_mono_nonneg; lia). nia.
Qed.

(** [mul_div] never overflows on the way when the divisor is below 2^32: the
    result is the exact quotient, reduced once at the end. *)
Lemma mul_div_exact a b d :
  is_u64 a -> is_u64 b -> 0 < d <= 2 ^ 32 -> mul_div a b d = u64 (a * b / d).
Proof.
  intros Ha Hb Hd. unfold mul_div, is_u64 in *.
  pose proof (Z.mod_pos_bound a d ltac:(lia)) as Hy.
  pose proof (Z.mod_pos_bound b d ltac:(lia)) as Hv.
  rewrite (u64_small (a mod d * (b mod d))) by (apply (residue_product _ _ d); lia).
  autorewrite with word. f_equal.
  pose proof (Z.div_mod a d ltac:(lia)) as Ea. pose proof (Z.div_mod b d ltac:(lia)) as Eb.
  set (x := a / d) in *. set (y := a mod d) in *. set (u := b / d) in *. set (v := b mod d) in *.
  clearbody x y u v. subst a b.
  replace ((d * x + y) * (d * u + v)) with ((x * u * d + x * v + y * u) * d + y * v) by ring.
  rewrite Z.div_add_l by lia. ring.
Qed.

(** ** Lemmas: the checksum *)

(** The unbounded sum of the 16-bit words of a message, the odd byte last. *)
Fixpoint words_sum (a : list Z) : Z :=
  match a with
  | b0 :: b1 :: rest => b0 + 256 * b1 + words_sum rest
  | [b] => b
  | [] => 0
  end.

(** Induction two bytes at a time. *)
Lemma words_ind (P : list Z -> Prop) :
  P [] -> (forall b, P [b]) -> (forall b0 b1 l, P l -> P (b0 :: b1 :: l)) -> forall l, P l.
Proof.
  intros H0 H1 H2 l. enough (P l /\ forall b, P (b :: l)) by intuition.
  induction l as [|b l [IH1 IH2]]; auto.
Qed.

Lemma words_sum_bounds a : bytes a -> 0 <= words_sum a <= 65535 * ((zlen a + 1) / 2).
Proof.
  unfold zlen. induction a as [|b|b0 b1 l IH] using words_ind; intros Ha;
    rewrite ?bytes_cons in Ha; unfold is_u8 in Ha; cbn [words_sum length];
    [done | change ((Z.of_nat 1 + 1) / 2) with 1; lia |].
  destruct IH as [IH1 IH2]; [tauto|].
  replace (Z.of_nat (S (S (length l))) + 1) with (Z.of_nat (length l) + 1 + 1 * 2) by lia.
  rewrite Z.div_add by lia. lia.
Qed.

Lemma words_sum_app a b :
  Z.even (zlen a) = true -> words_sum (a ++ b) = words_sum a + words_sum b.
Proof.
  unfold zlen. induction a as [|x|x y l IH] using words_ind; intros He;
    [done|done|]. cbn [app words_sum]. rewrite IH; [lia|].
  cbn [length] in He. rewrite !Nat2Z.inj_succ, Z.even_succ_succ in He. done.
Qed.

Lemma checksum_loop_spec fuel a sum :
  (length a <= fuel)%nat -> is_u32 sum ->
  let '(a', count', sum') := checksum_loop fuel a (zlen a) sum in
  (if count' =? 0 then sum' else u32 (sum' + zget 0 a' 0)) = u32 (sum + words_sum a).
Proof.
  revert a sum. induction fuel as [|fuel IH]; intros a sum Hf Hs.
  - destruct a; [|cbn in Hf; lia]. change (sum = u32 (sum + 0)). by rewrite Z.add_0_r, u32_small.
  - unfold zlen. cbn [checksum_loop]. destruct a as [|b0 [|b1 rest]].
    + change (sum = u32 (sum + 0)). by rewrite Z.add_0_r, u32_small.
    + done.
    + replace (1 <? Z.of_nat (length (b0 :: b1 :: rest))) with true
        by (symmetry; apply Z.ltb_lt; cbn [length]; lia).
      change (zdrop 2 (b0 :: b1 :: rest)) with rest.
      replace (Z.of_nat (length (b0 :: b1 :: rest)) - 2) with (zlen rest)
        by (unfold zlen; cbn [length]; lia).
      specialize (IH rest (u32 (sum + get16 (b0 :: b1 :: rest) 0))).
      destruct (checksum_loop _ _ _ _) as [[a' c'] s'].
      rewrite IH by (try apply u32_range; cbn [length] in Hf; lia).
      rewrite u32_add_l. f_equal.
      change (get16 (b0 :: b1 :: rest) 0) with (b0 + 256 * (b1 + 256 * 0)).
      cbn [words_sum]. lia.
Qed.

Lemma checksum_sum_words a : ducknet_checksum_sum a (zlen a) = u32 (words_sum a).
Proof.
  unfold ducknet_checksum_sum.
  pose proof (checksum_loop_spec (Z.to_nat (zlen a)) a 0) as H.
  destruct (checksum_loop _ _ _ _) as [[a' c'] s']. rewrite H; [done| |done].
  unfold zlen. lia.
Qed.

(** One fold of the carries: congruent modulo 65535, and positive when the sum is. *)
Lemma fold_carry s :
  is_u32 s ->
  Z.land s 0xffff + Z.shiftr s 16 = s mod 65536 + s / 65536 /\
  (s mod 65536 + s / 65536) mod 65535 = s mod 65535.
Proof.
  intros Hs. change (Z.land s 0xffff) with (Z.land s (Z.ones 16)). rewrite Z.land_ones, shiftr_div by lia.
  split; [done|]. unfold is_u32 in Hs. Z.to_euclidean_division_equations. lia.
Qed.

(** The loop exits within [carry_fuel] rounds with the one's-complement sum. *)
Lemma carry_loop_spec s :
  is_u32 s ->
  let r := carry_loop carry_fuel s in
  0 <= r <= 65535 /\ r mod 65535 = s mod 65535 /\ (r = 0 <-> s = 0) /\ Z.shiftr r 16 = 0.
Proof.
  assert (Hstep : forall s, is_u32 s ->
    carry_loop 1 s = if s / 65536 =? 0 then s else s mod 65536 + s / 65536).
  { intros z Hz. cbn [carry_loop]. destruct (fold_carry z Hz) as [-> _].
    rewrite shiftr_div by lia. change (2 ^ 16) with 65536. destruct (_ =? _); [done|].
    apply u32_small. unfold is_u32 in *. Z.to_euclidean_division_equations. lia. }
  assert (Hsplit : forall n z, is_u32 z ->
    carry_loop (S n) z = carry_loop n (carry_loop 1 z)).
  { intros n z Hz. cbn [carry_loop]. destruct (Z.eqb_spec (Z.shiftr z 16) 0) as [E|E]; [|done].
    destruct n; [done|]. cbn [carry_loop]. by rewrite E. }
  intros Hs. unfold carry_fuel, is_u32 in *.
  assert (H1 : 0 <= carry_loop 1 s <= 131070 /\ carry_loop 1 s mod 65535 = s mod 65535 /\
    (carry_loop 1 s = 0 <-> s = 0)).
  { rewrite Hstep by done. destruct (Z.eqb_spec (s / 65536) 0);
      Z.to_euclidean_division_equations; lia. }
  rewrite Hsplit by done. set (s1 := carry_loop 1 s) in *.
  assert (H2 : 0 <= carry_loop 1 s1 <= 65535 /\ carry_loop 1 s1 mod 65535 = s1 mod 65535 /\
    (carry_loop 1 s1 = 0 <-> s1 = 0)).
  { rewrite Hstep by (unfold is_u32; lia). destruct (Z.eqb_spec (s1 / 65536) 0);
      Z.to_euclidean_division_equations; lia. }
  rewrite Hsplit by (unfold is_u32; lia). set (s2 := carry_loop 1 s1) in *.
  assert (Hd : s2 / 65536 = 0) by (apply Z.div_small; lia).
  rewrite Hstep, Hd by (unfold is_u32; lia). cbn [Z.eqb].
  rewrite shiftr_div by lia. change (2 ^ 16) with 65536. intuition lia.
Qed.

(** The checksum of a message whose words do not overflow the accumulator. *)
Lemma checksum_spec a start :
  bytes a -> 0 <= start -> start + words_sum a < 2 ^ 32 ->
  exists r, ducknet_checksum a (zlen a) start = 65535 - r /\ 0 <= r <= 65535 /\
    r mod 65535 = (start + words_sum a) mod 65535 /\ (r = 0 <-> start + words_sum a = 0).
Proof.
  intros Ha Hst Hw. pose proof (words_sum_bounds a Ha).
  unfold ducknet_checksum. rewrite checksum_sum_words, u32_add_r.
  rewrite u32_small by (unfold is_u32; lia).
  destruct (carry_loop_spec (start + words_sum a)) as (Hr & Hm & Hz & _);
    [unfold is_u32; lia|].
  exists (carry_loop carry_fuel (start + words_sum a)). split; [|done].
  unfold Z.lnot. set (r := carry_loop _ _) in *. word_lia.
Qed.

(** Filling the checksum field of a message makes the message verify: the
    checksum over the filled message, from the same start, is zero. *)
Lemma checksum_fill pre post start :
  bytes pre -> bytes post -> Z.even (zlen pre) = true ->
  0 <= start <= 2 ^ 20 -> zlen (pre ++ [0; 0] ++ post) <= 65536 ->
  let c := ducknet_checksum (pre ++ [0; 0] ++ post) (zlen (pre ++ [0; 0] ++ post)) start in
  let m := pre ++ le_bytes 2 c ++ post in
  ducknet_checksum m (zlen m) start = 0.
Proof.
  intros Hpre Hpost He Hst Hlen c m.
  set (m0 := pre ++ [0; 0] ++ post) in *.
  assert (Hm0 : bytes m0) by (unfold m0; rewrite !bytes_app; split; [done|split; [bytes_lit|done]]).
  pose proof (words_sum_bounds m0 Hm0) as Hb.
  assert (Hb' : words_sum m0 <= 65535 * 32768)
    by (pose proof (zlen_nonneg m0); Z.to_euclidean_division_equations; nia).
  destruct (checksum_spec m0 start) as (r & Hc & Hr & Hmod & Hz); [done|lia|lia|].
  fold c in Hc. clearbody c.
  assert (Hw : words_sum m = words_sum m0 + c).
  { unfold m, m0. rewrite !words_sum_app by done. cbn [app le_bytes words_sum].
    Z.to_euclidean_division_equations. lia. }
  assert (Hm : bytes m) by (unfold m; rewrite !bytes_app; auto using bytes_le_bytes).
  destruct (checksum_spec m start) as (r' & -> & Hr' & Hmod' & Hz'); [done|lia|lia|].
  Z.to_euclidean_division_equations. lia.
Qed.

(** A message verifies once its own checksum is stored in it: for a header or a
    datagram of at most 64 KiB with a 16-bit field at an even offset, filling
    the field with [ducknet_checksum] of the message with that field zero gives
    a message whose checksum, from the same initial sum, is zero. *)
Theorem checksum_verifies pre post start :
  bytes pre -> bytes post -> Z.even (zlen pre) = true ->
  0 <= start <= 2 ^ 20 -> zlen (pre ++ [0; 0] ++ post) <= 65536 ->
  let c := ducknet_checksum (pre ++ [0; 0] ++ post) (zlen (pre ++ [0; 0] ++ post)) start in
  let m := pre ++ le_bytes 2 c ++ post in
  ducknet_checksum m (zlen m) start = 0.
Proof. apply checksum_fill. Qed.
Lemma checksum_verifies_witness :
  let c := ducknet_checksum [0x45; 0; 1; 7; 0; 0; 3; 4; 5] 9 100 in
  ducknet_checksum ([0x45; 0; 1; 7] ++ le_bytes 2 c ++ [3; 4; 5]) 9 100 = 0.
Proof. 
  apply (checksum_verifies [0x45; 0; 1; 7] [3; 4; 5] 100); [bytes_lit|bytes_lit|done|lia|done].
Defined.

Lemma checksum_range a count start : is_u16 (ducknet_checksum a count start).
Proof. apply u16_range. Qed.
#[export] Hint Resolve checksum_range : duck.

End DucknetUtils.
