(* ===== verification/Net.v ===== *)
(** * Net: the packed headers and the global state of the ducknet stack

    [ducknet/inc/*.h] (the packed structs) and the statics of
    [ducknet/lib/*.cpp].  A packed struct in a buffer is the bytes [encode_*]
    gives; the pointer cast that reads one is [decode_*]. *)
From S2P Require Import Prelude DucknetUtils.

Module Net.
Import DucknetUtils.

(** ** Headers *)

(** [DucknetMACAddress]: six bytes; [DucknetIPv4Address]: its [addr], 32 bits. *)
Definition is_mac (m : list Z) : Prop := length m = 6%nat /\ bytes m.

Record EtherHeader := mk_ether { eth_dst : list Z; eth_src : list Z; ethertype : Z }.
Definition sizeof_ether : Z := 14.
Definition encode_ether (h : EtherHeader) : list Z :=
  eth_dst h ++ eth_src h ++ le_bytes 2 (ethertype h).
Definition decode_ether (p : list Z) : EtherHeader :=
  mk_ether (read_at 0 6 p) (read_at 6 6 p) (get16 p 12).

Record ARPHeader := mk_arp { htype : Z; ptype : Z; hlen : Z; plen : Z; op : Z }.
Definition sizeof_arp : Z := 8.
Definition encode_arp (h : ARPHeader) : list Z :=
  le_bytes 2 (htype h) ++ le_bytes 2 (ptype h) ++ [hlen h; plen h] ++ le_bytes 2 (op h).
Definition decode_arp (p : list Z) : ARPHeader :=
  mk_arp (get16 p 0) (get16 p 2) (zget 0 p 4) (zget 0 p 5) (get16 p 6).

(** The ARP payload for Ethernet and IPv4 ([Payload] of [arp.cpp]). *)
Record ARPPayload := mk_arp_payload { sha : list Z; spa : Z; tha : list Z; tpa : Z }.
Definition sizeof_arp_payload : Z := 20.
Definition encode_arp_payload (p : ARPPayload) : list Z :=
  sha p ++ le_bytes 4 (spa p) ++ tha p ++ le_bytes 4 (tpa p).
Definition decode_arp_payload (p : list Z) : ARPPayload :=
  mk_arp_payload (read_at 0 6 p) (get32 p 6) (read_at 10 6 p) (get32 p 16).

(** The first byte holds two 4-bit fields, [version] in the low nibble. *)
Record IPv4Header := mk_ipv4 {
  version : Z; ihl : Z; tos : Z; length16 : Z; id : Z; flags : Z;
  ttl : Z; protocol : Z; checksum : Z; src : Z; dst : Z }.
Definition sizeof_ipv4 : Z := 20.
Definition encode_ipv4 (h : IPv4Header) : list Z :=
  [version h + 16 * ihl h; tos h] ++ le_bytes 2 (length16 h) ++ le_bytes 2 (id h) ++
  le_bytes 2 (flags h) ++ [ttl h; protocol h] ++ le_bytes 2 (checksum h) ++
  le_bytes 4 (src h) ++ le_bytes 4 (dst h).
Definition decode_ipv4 (p : list Z) : IPv4Header :=
  mk_ipv4 (zget 0 p 0 mod 16) (zget 0 p 0 / 16) (zget 0 p 1) (get16 p 2) (get16 p 4)
    (get16 p 6) (zget 0 p 8) (zget 0 p 9) (get16 p 10) (get32 p 12) (get32 p 16).

Record ICMPHeader := mk_icmp { icmp_type : Z; code : Z; icmp_checksum : Z; icmp_rest : Z }.
Definition sizeof_icmp : Z := 8.
Definition encode_icmp (h : ICMPHeader) : list Z :=
  [icmp_type h; code h] ++ le_bytes 2 (icmp_checksum h) ++ le_bytes 4 (icmp_rest h).
Definition decode_icmp (p : list Z) : ICMPHeader :=
  mk_icmp (zget 0 p 0) (zget 0 p 1) (get16 p 2) (get32 p 4).

Record UDPHeader := mk_udp { sport : Z; dport : Z; udp_length : Z; udp_checksum : Z }.
Definition sizeof_udp : Z := 8.
Definition encode_udp (h : UDPHeader) : list Z :=
  le_bytes 2 (sport h) ++ le_bytes 2 (dport h) ++ le_bytes 2 (udp_length h) ++
  le_bytes 2 (udp_checksum h).
Definition decode_udp (p : list Z) : UDPHeader :=
  mk_udp (get16 p 0) (get16 p 2) (get16 p 4) (get16 p 6).

(** ** Conversions between network and host order, field by field *)

Definition ether_hton (h : EtherHeader) : EtherHeader :=
  mk_ether (eth_dst h) (eth_src h) (ducknet_htons (ethertype h)).

Definition arp_hton (h : ARPHeader) : ARPHeader :=
  mk_arp (ducknet_htons (htype h)) (ducknet_htons (ptype h)) (hlen h) (plen h)
    (ducknet_htons (op h)).

(** [version] and [ihl] are swapped: they share a byte, high nibble first on the wire. *)
Definition ipv4_hton (h : IPv4Header) : IPv4Header :=
  mk_ipv4 (ihl h) (version h) (tos h) (ducknet_htons (length16 h)) (ducknet_htons (id h))
    (ducknet_htons (flags h)) (ttl h) (protocol h) (checksum h)
    (ducknet_htonl (src h)) (ducknet_htonl (dst h)).

Definition udp_hton (h : UDPHeader) : UDPHeader :=
  mk_udp (ducknet_htons (sport h)) (ducknet_htons (dport h)) (ducknet_htons (udp_length h))
    (udp_checksum h).

(** [ducknet_icmp_hton] does nothing. *)
Definition icmp_hton (h : ICMPHeader) : ICMPHeader := h.

(** ** Constants *)

Definition DUCKNET_ETHERTYPE_IPv4 : Z := 0x0800.
Definition DUCKNET_ETHERTYPE_ARP : Z := 0x0806.
Definition DUCKNET_HTYPE_ETHERNET : Z := 0x1.
Definition DUCKNET_PTYPE_IPv4 : Z := 0x0800.
Definition DUCKNET_ARP_REQUEST : Z := 1.
Definition DUCKNET_ARP_REPLY : Z := 2.
Definition DUCKNET_IPv4_ICMP : Z := 1.
Definition DUCKNET_IPv4_UDP : Z := 17.
Definition DUCKNET_IPv4_FLAGS_DF : Z := 0x4000.
Definition DUCKNET_ICMP_ECHO_REPLY : Z := 0.
Definition DUCKNET_ICMP_ECHO_REQUEST : Z := 8.
Definition MAX_MTU : Z := 1500.
Definition ducknet_ether_broadcast_addr : list Z := [255; 255; 255; 255; 255; 255].

(** ** Well-formed headers: every field at its width *)

Definition wf_ether (h : EtherHeader) : Prop :=
  is_mac (eth_dst h) /\ is_mac (eth_src h) /\ is_u16 (ethertype h).
Definition wf_ipv4 (h : IPv4Header) : Prop :=
  0 <= version h < 16 /\ 0 <= ihl h < 16 /\ is_u8 (tos h) /\ is_u16 (length16 h) /\
  is_u16 (id h) /\ is_u16 (flags h) /\ is_u8 (ttl h) /\ is_u8 (protocol h) /\
  is_u16 (checksum h) /\ is_u32 (src h) /\ is_u32 (dst h).
Definition wf_udp (h : UDPHeader) : Prop :=
  is_u16 (sport h) /\ is_u16 (dport h) /\ is_u16 (udp_length h) /\ is_u16 (udp_checksum h).
Definition wf_icmp (h : ICMPHeader) : Prop :=
  is_u8 (icmp_type h) /\ is_u8 (code h) /\ is_u16 (icmp_checksum h) /\ is_u32 (icmp_rest h).
Definition wf_arp (h : ARPHeader) : Prop :=
  is_u16 (htype h) /\ is_u16 (ptype h) /\ is_u8 (hlen h) /\ is_u8 (plen h) /\ is_u16 (op h).
Definition wf_arp_payload (p : ARPPayload) : Prop :=
  is_mac (sha p) /\ is_u32 (spa p) /\ is_mac (tha p) /\ is_u32 (tpa p).

(** ** Lemmas: reading back what was encoded *)

Lemma get16_le x rest : is_u16 x -> get16 (le_bytes 2 x ++ rest) 0 = x.
Proof.
  intros Hx. unfold get16, read_at. change (zdrop 0 ?l) with l.
  change (ztake 2 (le_bytes 2 x ++ rest)) with (le_bytes 2 x).
  rewrite le_val_le_bytes. exact (Z.mod_small _ _ Hx).
Qed.
Lemma get32_le x rest : is_u32 x -> get32 (le_bytes 4 x ++ rest) 0 = x.
Proof.
  intros Hx. unfold get32, read_at. change (zdrop 0 ?l) with l.
  change (ztake 4 (le_bytes 4 x ++ rest)) with (le_bytes 4 x).
  rewrite le_val_le_bytes. exact (Z.mod_small _ _ Hx).
Qed.

Lemma is_mac_dest m : is_mac m -> exists a b c d e f, m = [a; b; c; d; e; f].
Proof.
  intros [Hl _]. destruct m as [|a [|b [|c [|d [|e [|f [|]]]]]]]; try discriminate Hl.
  by exists a, b, c, d, e, f.
Qed.

(** Step over one byte of a buffer read at an offset. *)
Lemma le2_eq x : is_u16 x -> x mod 256 + 256 * (x / 256 mod 256 + 256 * 0) = x.
Proof. unfold is_u16. intros. Z.to_euclidean_division_equations. lia. Qed.
Lemma le4_eq x : is_u32 x ->
  x mod 256 + 256 * (x / 256 mod 256 + 256 * (x / 256 / 256 mod 256 +
    256 * (x / 256 / 256 / 256 mod 256 + 256 * 0))) = x.
Proof. unfold is_u32. intros. Z.to_euclidean_division_equations. lia. Qed.

(** Evaluate a struct access on an explicit byte list. *)
Ltac struct_read :=
  unfold get16, get32, read_at, ztake, zdrop, zget; eval_to_nat;
  cbn -[Z.add Z.mul Z.div Z.modulo];
  rewrite ?le2_eq, ?le4_eq by (assumption || tauto).

Lemma decode_encode_ether h rest : wf_ether h -> decode_ether (encode_ether h ++ rest) = h.
Proof.
  destruct h as [d s t]. intros ((a0&a1&a2&a3&a4&a5&E)%is_mac_dest & Hs & Ht).
  apply is_mac_dest in Hs as (b0&b1&b2&b3&b4&b5&E'). cbn in *. subst.
  unfold decode_ether, encode_ether. struct_read. done.
Qed.

Lemma decode_encode_arp h rest : wf_arp h -> decode_arp (encode_arp h ++ rest) = h.
Proof.
  destruct h as [a b c d e]. unfold wf_arp. cbn. intros H.
  unfold decode_arp, encode_arp. struct_read. done.
Qed.

Lemma decode_encode_arp_payload p rest :
  wf_arp_payload p -> decode_arp_payload (encode_arp_payload p ++ rest) = p.
Proof.
  destruct p as [a b c d]. intros ((a0&a1&a2&a3&a4&a5&E)%is_mac_dest & Hb & Hc & Hd).
  apply is_mac_dest in Hc as (b0&b1&b2&b3&b4&b5&E'). cbn in *. subst.
  unfold decode_arp_payload, encode_arp_payload. struct_read. done.
Qed.

Lemma decode_encode_ipv4 h rest : wf_ipv4 h -> decode_ipv4 (encode_ipv4 h ++ rest) = h.
Proof.
  destruct h as [v i a b c d e f g s t]. unfold wf_ipv4. cbn. intros H.
  unfold decode_ipv4, encode_ipv4. struct_read.
  f_equal; Z.to_euclidean_division_equations; lia.
Qed.

Lemma decode_encode_icmp h rest : wf_icmp h -> decode_icmp (encode_icmp h ++ rest) = h.
Proof.
  destruct h as [a b c d]. unfold wf_icmp. cbn. intros H.
  unfold decode_icmp, encode_icmp. struct_read. done.
Qed.

Lemma decode_encode_udp h rest : wf_udp h -> decode_udp (encode_udp h ++ rest) = h.
Proof.
  destruct h as [a b c d]. unfold wf_udp. cbn. intros H.
  unfold decode_udp, encode_udp. struct_read. done.
Qed.

End Net.
