(* ===== verification/Phy.v ===== *)
(** * Phy: the state of the stack and its lowest layer

    The statics of every file of [ducknet/lib/] in one record [net], one
    sub-record per file, over a world [W]: the state of the network driver and
    of the application behind the function pointers of [DucknetConfig].  Then
    [ducknet/lib/phy.cpp] and the frame builder of [ducknet/lib/ether.cpp]. *)
From S2P Require Import Prelude DucknetUtils Net.

Module Phy.
Import DucknetUtils Net.

Record arp_entry := mk_arp_entry { ae_ip : Z; ae_mac : list Z; ae_expire_time : Z }.
Record arp_query_entry := mk_arp_query { aq_ip : Z; aq_expire_time : Z }.

(** The arrays [arp_table], [arp_query_table] up to [n_arp_entries], [n_arp_queries]. *)
Record arp_state := mk_arp_state {
  arp_table : list arp_entry; arp_query_table : list arp_query_entry;
  arp_last_idle_time : Z; arp_idle_delay : Z; arp_cnt : Z }.

Record tosend_slot := mk_slot { dst_ip : Z; expire_time : Z; pkt_len : Z; pkt : list Z }.
Record ipv4_state := mk_ipv4_state {
  tosend_table : list tosend_slot; tosend_free : list Z;
  ipv4_last_idle_time : Z; ipv4_idle_delay : Z; ipv4_cnt : Z }.

Record phy_state := mk_phy_state {
  flushed : bool; last_flush_time : Z; flush_delay : Z; flush_cnt : Z }.

Section Phy.
Context {W : Type}.

(** The function pointers of [DucknetPhyConfig]; a null pointer is [None].  A
    driver's [send] gets the frame, [recv] returns the bytes it stored and its
    return value. *)
Record PhyConfig := mk_phy_config {
  send : option (list Z -> W -> W * Z);
  recv : option (W -> W * list Z * Z);
  flush : option (W -> W * Z);
  phy_packet_handle : option (list Z -> Z -> W -> W * list Z * Z);
  send_packet_handle : option (list Z -> Z -> W -> W * Z) }.

(** [recv_buf] is the static [pkt] of [ducknet_step]: what the driver stored there.  The
    layers convert the headers in it in place, which nothing reads later. *)
Record net := mk_net {
  world : W;
  currenttime : Z; tsc_freq : Z;
  sendbuf : list Z;
  mac : list Z; MTU : Z; ip : Z;
  phy : phy_state; arp : arp_state; ipv4 : ipv4_state;
  udp_buf : list Z;
  recv_buf : list Z }.

Definition with_world (n : net) (w : W) : net :=
  mk_net w (currenttime n) (tsc_freq n) (sendbuf n) (mac n) (MTU n) (ip n)
    (phy n) (arp n) (ipv4 n) (udp_buf n) (recv_buf n).
Definition with_time (n : net) (t : Z) : net :=
  mk_net (world n) t (tsc_freq n) (sendbuf n) (mac n) (MTU n) (ip n)
    (phy n) (arp n) (ipv4 n) (udp_buf n) (recv_buf n).
Definition with_sendbuf (n : net) (b : list Z) : net :=
  mk_net (world n) (currenttime n) (tsc_freq n) b (mac n) (MTU n) (ip n)
    (phy n) (arp n) (ipv4 n) (udp_buf n) (recv_buf n).
Definition with_phy (n : net) (p : phy_state) : net :=
  mk_net (world n) (currenttime n) (tsc_freq n) (sendbuf n) (mac n) (MTU n) (ip n)
    p (arp n) (ipv4 n) (udp_buf n) (recv_buf n).
Definition with_arp (n : net) (a : arp_state) : net :=
  mk_net (world n) (currenttime n) (tsc_freq n) (sendbuf n) (mac n) (MTU n) (ip n)
    (phy n) a (ipv4 n) (udp_buf n) (recv_buf n).
Definition with_ipv4 (n : net) (v : ipv4_state) : net :=
  mk_net (world n) (currenttime n) (tsc_freq n) (sendbuf n) (mac n) (MTU n) (ip n)
    (phy n) (arp n) v (udp_buf n) (recv_buf n).
Definition with_udp_buf (n : net) (b : list Z) : net :=
  mk_net (world n) (currenttime n) (tsc_freq n) (sendbuf n) (mac n) (MTU n) (ip n)
    (phy n) (arp n) (ipv4 n) b (recv_buf n).
Definition with_recv_buf (n : net) (b : list Z) : net :=
  mk_net (world n) (currenttime n) (tsc_freq n) (sendbuf n) (mac n) (MTU n) (ip n)
    (phy n) (arp n) (ipv4 n) (udp_buf n) b.

Definition set_flushed (n : net) (b : bool) : net :=
  with_phy n (mk_phy_state b (last_flush_time (phy n)) (flush_delay (phy n)) (flush_cnt (phy n))).

Variable conf : PhyConfig.

(** [if (h && (r = h (a, len) < 0)) return r;]: [<] binds tighter than [=], so
    [r] is the truth value of the comparison. *)
Definition ducknet_phy_send (n : net) (a : list Z) : net * Z :=
  let '(w, refused) :=
    match send_packet_handle conf with
    | None => (world n, 0)
    | Some h => let '(w, ret) := h a (zlen a) (world n) in (w, if ret <? 0 then 1 else 0)
    end in
  let n := with_world n w in
  if refused =? 0 then
    let n := set_flushed n false in
    match send conf with
    | None => (n, -1)
    | Some s => let '(w, ret) := s a (world n) in (with_world n w, ret)
    end
  else (n, refused).

Definition ducknet_phy_recv (n : net) : net * list Z * Z :=
  match recv conf with
  | None => (n, [], -1)
  | Some rc => let '(w, pkt, len) := rc (world n) in (with_world n w, pkt, len)
  end.

Definition ducknet_phy_flush (n : net) : net * Z :=
  if flushed (phy n) then (n, 0)
  else
    let '(n, r) :=
      match flush conf with
      | None => (n, -1)
      | Some f => let '(w, ret) := f (world n) in (with_world n w, ret)
      end in
    (if r =? 0 then set_flushed n true else n, r).

Definition ducknet_phy_idle (n : net) : net * Z :=
  let cnt := flush_cnt (phy n) + 1 in
  let p := phy n in
  let n := with_phy n (mk_phy_state (flushed p) (last_flush_time p) (flush_delay p) cnt) in
  if (128 <=? cnt) || (flush_delay p <? u64 (currenttime n - last_flush_time p)) then
    let '(n, _) := ducknet_phy_flush n in
    let p := phy n in
    (with_phy n (mk_phy_state (flushed p) (currenttime n) (flush_delay p) 0), 0)
  else (n, 0).

(** [ducknet_phy_init] after the utilities: the delay is 0.1 ms of ticks. *)
Definition idle_delay_of (tsc_freq : Z) : Z := u64 (tsc_freq * 100) / 1000 / 1000.
Definition phy_init (currenttime tsc_freq flush_cnt : Z) : phy_state :=
  mk_phy_state false currenttime (idle_delay_of tsc_freq) flush_cnt.

(** ** [ducknet_ether_send]

    [sendbuf] is a static of [MAX_MTU + 64] bytes; the header and the payload
    overwrite its first [len + 14] bytes, which are the frame. *)
Definition ducknet_ether_send (n : net) (dst : list Z) (ethertype : Z)
    (payload : list Z) (len : Z) : net * Z :=
  if len <? 0 then (n, -1)
  else if MTU n <? len then (n, -1)
  else
    let hdr := mk_ether dst (mac n) (ducknet_htons ethertype) in
    let buf := write_at 0 (encode_ether hdr) (sendbuf n) in
    let buf := write_at sizeof_ether (ztake len payload) buf in
    ducknet_phy_send (with_sendbuf n buf) (ztake (len + sizeof_ether) buf).

(** ** Lemmas *)

(** Consecutive writes from the start of a buffer leave exactly what they wrote. *)
Lemma write_at_append (done_ b rest : list Z) :
  (length b <= length rest)%nat ->
  write_at (zlen done_) b (done_ ++ rest) = (done_ ++ b) ++ drop (length b) rest.
Proof.
  intros Hl. unfold write_at, ztake, zdrop, zlen.
  rewrite take_app_length' by lia. rewrite <- app_assoc. do 2 f_equal.
  rewrite drop_app_ge by lia. f_equal. lia.
Qed.

Lemma write_at_0 (b buf : list Z) :
  (length b <= length buf)%nat -> write_at 0 b buf = b ++ drop (length b) buf.
Proof. intros. apply (write_at_append [] b buf). done. Qed.

Lemma ztake_app_exact (a b : list Z) n : n = zlen a -> ztake n (a ++ b) = a.
Proof. intros ->. unfold ztake, zlen. by rewrite take_app_length' by lia. Qed.

Lemma length_encode_ether h : wf_ether h -> length (encode_ether h) = 14%nat.
Proof.
  intros ([Hd _] & [Hs _] & _). unfold encode_ether.
  rewrite !length_app, length_le_bytes. lia.
Qed.

(** Two or three parts written one after the other, then cut at their total length. *)
Lemma build2 (a b buf : list Z) n :
  n = zlen a + zlen b -> n <= zlen buf ->
  ztake n (write_at (zlen a) b (write_at 0 a buf)) = a ++ b.
Proof.
  unfold zlen. intros -> Hl. rewrite write_at_0 by lia.
  change (Z.of_nat (length a)) with (zlen a).
  rewrite write_at_append by (rewrite length_drop; lia).
  apply ztake_app_exact. unfold zlen. rewrite length_app. lia.
Qed.
Lemma build3 (a b c buf : list Z) n :
  n = zlen a + zlen b + zlen c -> n <= zlen buf ->
  ztake n (write_at (zlen a + zlen b) c (write_at (zlen a) b (write_at 0 a buf))) = a ++ b ++ c.
Proof.
  unfold zlen. intros -> Hl. rewrite write_at_0 by lia.
  change (Z.of_nat (length a)) with (zlen a).
  rewrite write_at_append by (rewrite length_drop; lia).
  change (Z.of_nat (length b)) with (zlen b). rewrite <- zlen_app.
  rewrite write_at_append by (rewrite !length_drop; lia).
  rewrite app_assoc. apply ztake_app_exact. unfold zlen. rewrite !length_app. lia.
Qed.

(** The part of the state that sending a frame leaves alone. *)
Definition same_stack (n n' : net) : Prop :=
  currenttime n' = currenttime n /\ tsc_freq n' = tsc_freq n /\ zlen (sendbuf n') = zlen (sendbuf n) /\
  mac n' = mac n /\ MTU n' = MTU n /\ ip n' = ip n /\ ipv4 n' = ipv4 n /\ udp_buf n' = udp_buf n /\
  arp_table (arp n') = arp_table (arp n) /\ recv_buf n' = recv_buf n.

Lemma same_stack_refl n : same_stack n n.
Proof. done. Qed.
Lemma same_stack_trans n1 n2 n3 : same_stack n1 n2 -> same_stack n2 n3 -> same_stack n1 n3.
Proof. unfold same_stack. intuition congruence. Qed.

(** Nothing but the phy flag and the world changes in a send. *)
Lemma phy_send_frame n a :
  let n' := fst (ducknet_phy_send n a) in same_stack n n' /\ arp n' = arp n.
Proof.
  unfold ducknet_phy_send. cbn zeta.
  destruct (send_packet_handle conf) as [h|]; [destruct (h _ _ _) as [w r]|];
    repeat first [progress cbn | case_match]; done.
Qed.

(** When the [send_packet_handle] hook refuses a frame with a negative code,
    [ducknet_phy_send] keeps the frame from the driver but returns 1, not the
    hook's code: the comparison is evaluated before the assignment. *)
Theorem phy_send_refused n a h w ret :
  send_packet_handle conf = Some h -> h a (zlen a) (world n) = (w, ret) -> ret < 0 ->
  ducknet_phy_send n a = (with_world n w, 1).
Proof.
  intros Hh Ha Hret. unfold ducknet_phy_send. rewrite Hh, Ha.
  by destruct (Z.ltb_spec ret 0); [|lia].
Qed.

End Phy.
Arguments PhyConfig : clear implicits.
Arguments net : clear implicits.

(** ** A concrete stack

    The world is the list of the frames handed to the driver, last first; the
    driver accepts everything and receives nothing.  The theorems' instances
    are computed on it. *)
Definition wire : Type := list (list Z).
Definition recorder : PhyConfig wire :=
  mk_phy_config (Some (λ a w, (a :: w, 0))) (Some (λ w, (w, [], 0))) (Some (λ w, (w, 0)))
    None None.
Definition demo_mac : list Z := [2; 0; 0; 0; 0; 1].
Definition demo_net (t : list arp_entry) : net wire :=
  mk_net [] 5000 1000000 (replicate 1564 0) demo_mac 1500 0x0a000002
    (phy_init 5000 1000000 0) (mk_arp_state t [] 5000 100 0) (mk_ipv4_state [] [] 5000 100 0) [] [].

Lemma phy_send_refused_witness :
  ducknet_phy_send (mk_phy_config (Some (λ a w, (a :: w, 0))) None None None
    (Some (λ _ _ w, (w, -5)))) (demo_net []) [1; 2; 3] = (demo_net [], 1).
Proof. eapply (phy_send_refused _ (demo_net []) [1; 2; 3]); [reflexivity|reflexivity|lia]. Defined.

End Phy.
