(* ===== verification/Arp.v ===== *)
(** * Arp: the ARP cache ([ducknet/lib/arp.cpp])

    The cache of resolved addresses and the table of pending queries are kept
    by increasing IP and searched by bisection. *)
From Stdlib Require Import Sorting.Sorted.
From stdpp Require Import gmap.
From S2P Require Import Prelude DucknetUtils Net Phy.

Module Arp.
Import DucknetUtils Net Phy.

Definition ARP_TABLE_SIZE : Z := 100.
Definition ARP_EXPIRE_TIMEOUT_MS : Z := 30000.
Definition ARP_QUERY_TIMEOUT_MS : Z := 1000.

Definition arp_init (currenttime tsc_freq cnt : Z) : arp_state :=
  mk_arp_state [] [] currenttime (idle_delay_of tsc_freq) cnt.

(** The bisection that [update], [lookup] and [query] share, on the [ip]
    column of a table: [while (l < r) { mid = (l + r) >> 1; ... }]. *)
Fixpoint search (fuel : nat) (keys : list Z) (key l r : Z) : Z :=
  match fuel with
  | O => l
  | S fuel =>
      if l <? r then
        let mid := Z.shiftr (l + r) 1 in
        if zget 0 keys mid <? key then search fuel keys key (mid + 1) r
        else search fuel keys key l mid
      else l
  end.
Definition bisect (keys : list Z) (key : Z) : Z :=
  search (length keys) keys key 0 (zlen keys - 1).

(** [memmove (t + (l + 1), t + l, ...)], then the assignment of slot [l]. *)
Definition insert_at {A} (l : Z) (x : A) (t : list A) : list A := ztake l t ++ x :: zdrop l t.

Definition no_entry : arp_entry := mk_arp_entry 0 [] 0.
Definition no_query : arp_query_entry := mk_arp_query 0 0.

Section Arp.
Context {W : Type}.
Variable conf : PhyConfig W.
Abbreviation net := (net W).

Definition with_arp_table (n : net) (t : list arp_entry) : net :=
  with_arp n (mk_arp_state t (arp_query_table (arp n)) (arp_last_idle_time (arp n))
                (arp_idle_delay (arp n)) (arp_cnt (arp n))).
Definition with_query_table (n : net) (t : list arp_query_entry) : net :=
  with_arp n (mk_arp_state (arp_table (arp n)) t (arp_last_idle_time (arp n))
                (arp_idle_delay (arp n)) (arp_cnt (arp n))).

Definition ducknet_arp_send (n : net) (dst : list Z) (op : Z) (payload : list Z) (len : Z)
    : net * Z :=
  if len <? 0 then (n, -1)
  else if MTU n <? len + sizeof_arp then (n, -1)
  else
    let eth_hdr := mk_ether dst (mac n) (ducknet_htons DUCKNET_ETHERTYPE_ARP) in
    let arp_hdr := mk_arp (ducknet_htons DUCKNET_HTYPE_ETHERNET)
      (ducknet_htons DUCKNET_PTYPE_IPv4) 6 4 (ducknet_htons op) in
    let buf := write_at 0 (encode_ether eth_hdr) (sendbuf n) in
    let buf := write_at sizeof_ether (encode_arp arp_hdr) buf in
    let buf := write_at (sizeof_ether + sizeof_arp) (ztake len payload) buf in
    ducknet_phy_send conf (with_sendbuf n buf) (ztake (len + sizeof_arp + sizeof_ether) buf).

Definition ducknet_arp_update (n : net) (ip : Z) (mac : list Z) : net * Z :=
  let t := arp_table (arp n) in
  let l := bisect (map ae_ip t) ip in
  let e := mk_arp_entry ip mac
    (ducknet_time_add_ms (tsc_freq n) (currenttime n) ARP_EXPIRE_TIMEOUT_MS) in
  if (zlen t <=? l) || negb (ae_ip (zget no_entry t l) =? ip) then
    if zlen t =? ARP_TABLE_SIZE then (n, -1)
    else (with_arp_table n (insert_at l e t), 0)
  else (with_arp_table n (zset t l e), 0).

(** [None] is the return value -1, [Some mac] the return value 0. *)
Definition ducknet_arp_lookup (n : net) (ip : Z) : option (list Z) :=
  let t := arp_table (arp n) in
  let l := bisect (map ae_ip t) ip in
  if (zlen t <=? l) || negb (ae_ip (zget no_entry t l) =? ip) then None
  else Some (ae_mac (zget no_entry t l)).

Definition ducknet_arp_query (n : net) (ip : Z) : net * Z :=
  let t := arp_query_table (arp n) in
  let l := bisect (map aq_ip t) ip in
  if (zlen t <=? l) || negb (aq_ip (zget no_query t l) =? ip) then
    if zlen t =? ARP_TABLE_SIZE then (n, -1)
    else
      let q := mk_arp_query ip
        (ducknet_time_add_ms (tsc_freq n) (currenttime n) ARP_QUERY_TIMEOUT_MS) in
      let n := with_query_table n (insert_at l q t) in
      let payload := mk_arp_payload (mac n) (ducknet_htonl (Phy.ip n)) (replicate 6 0)
        (ducknet_htonl ip) in
      ducknet_arp_send n ducknet_ether_broadcast_addr DUCKNET_ARP_REQUEST
        (encode_arp_payload payload) sizeof_arp_payload
  else (n, 0).

(** The two compaction loops keep, in order, the entries that are not past
    their expiry time. *)
Definition expire_entries (now : Z) (t : list arp_entry) : list arp_entry :=
  List.filter (λ e, negb (ae_expire_time e <? now)) t.
Definition expire_queries (now : Z) (t : list arp_query_entry) : list arp_query_entry :=
  List.filter (λ e, negb (aq_expire_time e <? now)) t.

Definition ducknet_arp_idle (n : net) : net * Z :=
  let a := arp n in
  let cnt := arp_cnt a + 1 in
  if (cnt <? 128) && (u64 (currenttime n - arp_last_idle_time a) <=? arp_idle_delay a) then
    (with_arp n (mk_arp_state (arp_table a) (arp_query_table a) (arp_last_idle_time a)
                   (arp_idle_delay a) cnt), 0)
  else
    (with_arp n (mk_arp_state (expire_entries (currenttime n) (arp_table a))
                   (expire_queries (currenttime n) (arp_query_table a))
                   (currenttime n) (arp_idle_delay a) 0), 0).

(** A hook of the configuration: it gets the header in host order and the
    content, may write both and may call back into the stack. *)
Definition hook (H : Type) : Type := net -> H -> list Z -> Z -> net * H * list Z * Z.

Definition ducknet_arp_packet_handle (packet_handle : option (hook ARPHeader))
    (n : net) (pkt : list Z) (len : Z) : net * Z :=
  if len <? sizeof_arp then (n, -1)
  else
    let hdr := arp_hton (decode_arp pkt) in
    let content := zdrop sizeof_arp pkt in
    let '(n, hdr, content, r) :=
      match packet_handle with
      | Some h => h n hdr content (len - sizeof_arp)
      | None => (n, hdr, content, 0)
      end in
    if r <? 0 then (n, r)
    else if (htype hdr =? DUCKNET_HTYPE_ETHERNET) && (ptype hdr =? DUCKNET_PTYPE_IPv4) then
      if negb (hlen hdr =? 6) then (n, -1)
      else if negb (plen hdr =? 4) then (n, -1)
      else if len - sizeof_arp <? sizeof_arp_payload then (n, -1)
      else
        let p := decode_arp_payload content in
        let p := mk_arp_payload (sha p) (ducknet_htonl (spa p)) (tha p) (ducknet_htonl (tpa p)) in
        if op hdr =? DUCKNET_ARP_REQUEST then
          if tpa p =? Phy.ip n then
            let p2 := mk_arp_payload (mac n) (ducknet_htonl (tpa p)) (sha p)
              (ducknet_htonl (spa p)) in
            let '(n, _) := ducknet_arp_send n (sha p) DUCKNET_ARP_REPLY
              (encode_arp_payload p2) sizeof_arp_payload in
            (n, 0)
          else (n, -1)
        else if op hdr =? DUCKNET_ARP_REPLY then
          let '(n, _) := ducknet_arp_update n (spa p) (sha p) in (n, 0)
        else (n, -1)
    else (n, -1).

(** ** The bisection

    On a table split at [key] the loop finds the split point, except that it
    never looks at the last entry: [r] starts at [n - 1]. *)

Lemma search_partition fuel keys key l r p :
  0 <= l <= p -> p <= r -> r - l <= Z.of_nat fuel ->
  (forall i, l <= i < p -> zget 0 keys i < key) ->
  (forall i, p <= i < r -> key <= zget 0 keys i) ->
  search fuel keys key l r = p.
Proof.
  revert l r. induction fuel as [|fuel IH]; intros l r Hl Hr Hf Hlow Hhigh; cbn [search].
  - lia.
  - destruct (Z.ltb_spec l r); [|lia]. rewrite shiftr_div by lia. change (2 ^ 1) with 2.
    assert (l <= (l + r) / 2 < r) by (Z.to_euclidean_division_equations; lia).
    set (mid := (l + r) / 2) in *. destruct (Z.ltb_spec (zget 0 keys mid) key) as [Hm|Hm].
    + assert (mid < p) by (destruct (Z.lt_ge_cases mid p); [done|specialize (Hhigh mid); lia]).
      apply IH; [lia..|intros; apply Hlow; lia|done].
    + assert (p <= mid) by (destruct (Z.lt_ge_cases mid p); [specialize (Hlow mid)|]; lia).
      apply IH; [lia..|done|intros; apply Hhigh; lia].
Qed.

Lemma search_ge fuel keys key l r : 0 <= l -> l <= search fuel keys key l r.
Proof.
  revert l r. induction fuel as [|fuel IH]; intros l r Hl; cbn [search]; [lia|].
  destruct (Z.ltb_spec l r); [|lia]. rewrite shiftr_div by lia. change (2 ^ 1) with 2.
  assert (l <= (l + r) / 2) by (Z.to_euclidean_division_equations; lia).
  destruct (_ <? key); [|by apply IH]. etransitivity; [|apply IH]; lia.
Qed.
Lemma bisect_nonneg keys key : 0 <= bisect keys key.
Proof. by apply search_ge. Qed.

Lemma zget_Forall (P : Z -> Prop) l i : Forall P l -> 0 <= i < zlen l -> P (zget 0 l i).
Proof.
  intros HP Hi. apply (proj1 (Forall_forall _ _) HP), nth_In. unfold zlen in Hi. lia.
Qed.

Lemma bisect_split a b key :
  Forall (λ k, k < key) a -> Forall (λ k, key <= k) b ->
  bisect (a ++ b) key = Z.max 0 (Z.min (zlen a) (zlen a + zlen b - 1)).
Proof.
  intros Ha Hb. pose proof (zlen_nonneg a). pose proof (zlen_nonneg b).
  assert (Ea : forall i, 0 <= i < zlen a -> zget 0 (a ++ b) i < key).
  { intros i Hi. rewrite zget_app_l by lia. by apply (zget_Forall (λ k, k < key)). }
  assert (Eb : forall i, zlen a <= i < zlen a + zlen b -> key <= zget 0 (a ++ b) i).
  { intros i Hi. rewrite zget_app_r by lia. apply (zget_Forall (λ k, key <= k)); [done|lia]. }
  unfold bisect. rewrite zlen_app. destruct (Z.eq_dec (zlen a + zlen b) 0) as [E|E].
  - replace (length (a ++ b)) with O by (unfold zlen in *; rewrite length_app; lia). cbn. lia.
  - apply search_partition; [lia..| |intros; apply Ea; lia|intros; apply Eb; lia].
    unfold zlen in *. rewrite length_app. lia.
Qed.

(** A sorted table splits at any key. *)
Lemma sorted_split {A} (f : A -> Z) t key :
  StronglySorted Z.lt (map f t) ->
  exists a b, t = a ++ b /\ Forall (λ k, k < key) (map f a) /\ Forall (λ k, key <= k) (map f b).
Proof.
  induction t as [|x t IH]; cbn [map]; intros Hs.
  - exists [], []. repeat split; constructor.
  - apply StronglySorted_inv in Hs as [Hs Hx].
    destruct (Z.lt_ge_cases (f x) key) as [Hk|Hk].
    + destruct (IH Hs) as (a & b & -> & Ha & Hb). exists (x :: a), b.
      repeat split; [|done]. cbn [map]. by apply Forall_cons_iff.
    + exists [], (x :: t). repeat split; [constructor|].
      cbn [map]. apply Forall_cons_iff. split; [done|]. revert Hx. apply Forall_impl. lia.
Qed.

Lemma sorted_app a b (k : Z) :
  StronglySorted Z.lt a -> StronglySorted Z.lt b ->
  Forall (λ x, x < k) a -> Forall (λ x, k <= x) b -> StronglySorted Z.lt (a ++ b).
Proof.
  induction a as [|x a IH]; cbn; intros Ha Hb Hka Hkb; [done|].
  apply StronglySorted_inv in Ha as [Ha Hx]. apply Forall_cons_iff in Hka as [Hk Hka].
  constructor; [by apply IH|]. apply Forall_app. split; [done|].
  revert Hkb. apply Forall_impl. lia.
Qed.

Lemma sorted_app_inv (a b : list Z) :
  StronglySorted Z.lt (a ++ b) -> StronglySorted Z.lt a /\ StronglySorted Z.lt b.
Proof.
  induction a as [|x a IH]; cbn; intros Hs; [by split; [constructor|]|].
  apply StronglySorted_inv in Hs as [Hs Hx]. apply Forall_app in Hx as [Hx _].
  destruct (IH Hs). split; [by constructor|done].
Qed.

(** ** The table as a finite map *)

Definition sorted_table (t : list arp_entry) : Prop := StronglySorted Z.lt (map ae_ip t).

Definition arp_map (t : list arp_entry) : gmap Z (list Z) :=
  list_to_map (map (λ e, (ae_ip e, ae_mac e)) t).

Lemma arp_map_app a b : arp_map (a ++ b) = arp_map a ∪ arp_map b.
Proof. unfold arp_map. by rewrite map_app, list_to_map_app. Qed.

Lemma arp_map_cons e t : arp_map (e :: t) = <[ae_ip e := ae_mac e]> (arp_map t).
Proof. done. Qed.

Lemma arp_map_None t ip : Forall (λ k, k <> ip) (map ae_ip t) -> arp_map t !! ip = None.
Proof.
  intros H. apply not_elem_of_list_to_map_1. rewrite <- list_fmap_compose.
  intros Hin%list_elem_of_In. by apply (proj1 (Forall_forall _ _) H) in Hin.
Qed.

Lemma Forall_ne_lt l (ip : Z) : Forall (λ k, k < ip) l -> Forall (λ k, k <> ip) l.
Proof. apply Forall_impl. lia. Qed.

(** The entry the code looks at, when some address is not below [ip]. *)
Lemma table_at (a b : list arp_entry) e : zget no_entry (a ++ e :: b) (zlen a) = e.
Proof. rewrite zget_app_r by lia. by rewrite Z.sub_diag. Qed.

Lemma insert_at_app {A} (a b : list A) x : insert_at (zlen a) x (a ++ b) = a ++ x :: b.
Proof.
  unfold insert_at, ztake, zdrop, zlen.
  by rewrite take_app_length', drop_app_length' by lia.
Qed.
Lemma zset_app {A} (a b : list A) e x : zset (a ++ e :: b) (zlen a) x = a ++ x :: b.
Proof. unfold zset, zlen. rewrite insert_app_r_alt by lia. by rewrite Nat2Z.id, Nat.sub_diag. Qed.

Lemma map_zlen {A B} (f : A -> B) l : zlen (map f l) = zlen l.
Proof. unfold zlen. by rewrite length_map. Qed.

(** Where the bisection stops on a table with an entry that is not below [ip]. *)
Lemma bisect_at a e b ip :
  Forall (λ k, k < ip) (map ae_ip a) -> Forall (λ k, ip <= k) (map ae_ip (e :: b)) ->
  bisect (map ae_ip (a ++ e :: b)) ip = zlen a.
Proof.
  intros. rewrite map_app, (bisect_split _ _ ip) by done. rewrite !map_zlen.
  pose proof (zlen_nonneg a). unfold zlen. cbn [length]. lia.
Qed.

Lemma not_past_end {A} (a b : list A) e : (zlen (a ++ e :: b) <=? zlen a) = false.
Proof. apply Z.leb_gt. unfold zlen. rewrite length_app. cbn [length]. lia. Qed.

Lemma arp_lookup_at (n : net) a e b ip :
  arp_table (arp n) = a ++ e :: b ->
  Forall (λ k, k < ip) (map ae_ip a) -> Forall (λ k, ip <= k) (map ae_ip (e :: b)) ->
  ducknet_arp_lookup n ip = if ae_ip e =? ip then Some (ae_mac e) else None.
Proof.
  intros Ht Ha Hb. unfold ducknet_arp_lookup. rewrite Ht.
  rewrite bisect_at, not_past_end, !table_at by done. cbn [orb].
  by destruct (ae_ip e =? ip).
Qed.

Lemma arp_map_middle a e b ip :
  Forall (λ k, k < ip) (map ae_ip a) -> Forall (λ k, ip < k) (map ae_ip b) ->
  arp_map (a ++ e :: b) !! ip = if ae_ip e =? ip then Some (ae_mac e) else None.
Proof.
  intros Ha Hb. rewrite arp_map_app, lookup_union_r by (by apply arp_map_None, Forall_ne_lt).
  change (arp_map (e :: b)) with (<[ae_ip e := ae_mac e]> (arp_map b)).
  destruct (Z.eqb_spec (ae_ip e) ip) as [->|Hne]; [apply lookup_insert_eq|].
  rewrite lookup_insert_ne by done. apply arp_map_None. revert Hb. apply Forall_impl. lia.
Qed.

(** The tail of a sorted table past an entry that is not below [ip]. *)
Lemma sorted_tail a e b ip :
  sorted_table (a ++ e :: b) -> ip <= ae_ip e -> Forall (λ k, ip < k) (map ae_ip b).
Proof.
  unfold sorted_table. rewrite map_app. intros [_ Hs]%sorted_app_inv Hip.
  apply StronglySorted_inv in Hs as [_ Hs]. revert Hs. apply Forall_impl. lia.
Qed.

Lemma arp_lookup_map (n : net) ip :
  sorted_table (arp_table (arp n)) ->
  ducknet_arp_lookup n ip = arp_map (arp_table (arp n)) !! ip.
Proof.
  intros Hs. destruct (sorted_split ae_ip _ ip Hs) as (a & b & Ht & Ha & Hb).
  destruct b as [|e b].
  - rewrite app_nil_r in Ht. rewrite Ht. rewrite (arp_map_None a) by (by apply Forall_ne_lt).
    unfold ducknet_arp_lookup. rewrite Ht. destruct a as [|x a _] using rev_ind; [done|].
    rewrite map_app in Ha. apply Forall_app in Ha as [Ha Hx].
    assert (Hb' : bisect (map ae_ip (a ++ [x])) ip = zlen a).
    { rewrite <- (app_nil_r (map ae_ip (a ++ [x]))), (bisect_split _ _ ip);
        [|by rewrite map_app, Forall_app|constructor].
      rewrite map_zlen, zlen_app. pose proof (zlen_nonneg a). unfold zlen. cbn [length]. lia. }
    rewrite Hb', not_past_end, table_at. cbn [orb].
    apply Forall_cons_iff in Hx as [Hx _]. by destruct (Z.eqb_spec (ae_ip x) ip); [lia|].
  - rewrite (arp_lookup_at n a e b) by done. rewrite Ht, arp_map_middle; [done..|].
    apply (sorted_tail a e b); [by rewrite <- Ht|]. by apply Forall_cons_iff in Hb as [Hb _].
Qed.

(** C35: On a table sorted by address, [ducknet_arp_lookup] is the lookup of the finite map
    the table stands for: it finds every address that is stored and no other. *)
Theorem arp_lookup_is_map_lookup (n : net) ip :
  sorted_table (arp_table (arp n)) ->
  ducknet_arp_lookup n ip = arp_map (arp_table (arp n)) !! ip.
Proof. apply arp_lookup_map. Qed.

Lemma sorted_NoDup l : StronglySorted Z.lt l -> base.NoDup l.
Proof.
  induction 1 as [|x l Hs IH Hx]; constructor; [|done].
  intros Hin%list_elem_of_In. apply (proj1 (Forall_forall _ _) Hx) in Hin. lia.
Qed.

Lemma arp_map_Some t ip m :
  sorted_table t ->
  arp_map t !! ip = Some m <-> exists e, In e t /\ ae_ip e = ip /\ ae_mac e = m.
Proof.
  intros Hs. unfold arp_map. rewrite <- elem_of_list_to_map.
  - rewrite list_elem_of_In, in_map_iff. split.
    + intros (e & [= <- <-] & Hin). eauto.
    + intros (e & Hin & <- & <-). eauto.
  - rewrite <- list_fmap_compose. by apply sorted_NoDup.
Qed.

Lemma sorted_filter f t : sorted_table t -> sorted_table (List.filter f t).
Proof.
  unfold sorted_table. induction t as [|e t IH]; cbn [map List.filter]; intros Hs; [done|].
  apply StronglySorted_inv in Hs as [Hs He]. destruct (f e); [|by apply IH].
  cbn [map]. constructor; [by apply IH|]. apply List.Forall_forall. intros k Hk.
  apply in_map_iff in Hk as (x & <- & Hx%filter_In). apply (proj1 (Forall_forall _ _) He).
  by apply in_map, Hx.
Qed.

(** What [update] stores for an address: the entry expires in 30 s. *)
Definition fresh_entry (n : net) (ip : Z) (mac : list Z) : arp_entry :=
  mk_arp_entry ip mac (ducknet_time_add_ms (tsc_freq n) (currenttime n) ARP_EXPIRE_TIMEOUT_MS).

Lemma arp_update_at (n : net) a e b ip mac :
  arp_table (arp n) = a ++ e :: b ->
  Forall (λ k, k < ip) (map ae_ip a) -> Forall (λ k, ip <= k) (map ae_ip (e :: b)) ->
  ducknet_arp_update n ip mac =
    if ae_ip e =? ip then (with_arp_table n (a ++ fresh_entry n ip mac :: b), 0)
    else if zlen (a ++ e :: b) =? ARP_TABLE_SIZE then (n, -1)
    else (with_arp_table n (a ++ fresh_entry n ip mac :: e :: b), 0).
Proof.
  intros Ht Ha Hb. unfold ducknet_arp_update. rewrite Ht.
  rewrite bisect_at, not_past_end, !table_at by done. cbn [orb].
  rewrite zset_app, insert_at_app. by destruct (ae_ip e =? ip).
Qed.

(** C34: When some stored address is not below [ip], [ducknet_arp_update] either replaces or
    inserts the entry (the table stays sorted and its map is the old one with
    [ip] bound to [mac]), or refuses because the address is new and the table
    is full, and then changes nothing. *)
Theorem arp_update_is_map_insert (n : net) ip mac :
  sorted_table (arp_table (arp n)) ->
  Exists (λ e, ip <= ae_ip e) (arp_table (arp n)) ->
  let t := arp_table (arp n) in
  let '(n', ret) := ducknet_arp_update n ip mac in
  let t' := arp_table (arp n') in
  (ret = 0 /\ sorted_table t' /\ arp_map t' = <[ip := mac]> (arp_map t) /\
     In (fresh_entry n ip mac) t') \/
  (ret = -1 /\ n' = n /\ zlen t = ARP_TABLE_SIZE /\ arp_map t !! ip = None).
Proof.
  intros Hs He. cbn zeta. destruct (sorted_split ae_ip _ ip Hs) as (a & b & Ht & Ha & Hb).
  destruct b as [|e b].
  { exfalso. rewrite app_nil_r in Ht. rewrite Ht in He.
    apply List.Exists_exists in He as (x & Hx & Hge).
    apply (in_map ae_ip), (proj1 (Forall_forall _ _) Ha) in Hx. cbn in Hx. lia. }
  rewrite (arp_update_at n a e b) by done. rewrite Ht in Hs |- *.
  assert (Hge : ip <= ae_ip e) by (by apply Forall_cons_iff in Hb as [Hb _]).
  pose proof (sorted_tail a e b ip Hs Hge) as Hb'.
  unfold sorted_table in Hs. rewrite map_app in Hs. apply sorted_app_inv in Hs as [Hsa Hsb].
  assert (Hnone : arp_map a !! ip = None) by (by apply arp_map_None, Forall_ne_lt).
  destruct (Z.eqb_spec (ae_ip e) ip) as [E|E];
    [|destruct (Z.eqb_spec (zlen (a ++ e :: b)) ARP_TABLE_SIZE)].
  - left. cbn [with_arp_table with_arp arp arp_table]. repeat split; [| |apply in_elt].
    + unfold sorted_table. rewrite map_app. apply (sorted_app _ _ ip); [done| |done|].
      * by rewrite <- E.
      * apply Forall_cons_iff. split; [done|]. by apply Forall_cons_iff in Hb as [_ Hb].
    + rewrite !arp_map_app, insert_union_r by done. f_equal.
      rewrite !arp_map_cons. cbn [fresh_entry ae_ip ae_mac]. by rewrite E, insert_insert_eq.
  - right. split; [done|]. split; [done|]. split; [done|]. rewrite (arp_map_middle a e b) by assumption.
    by rewrite (proj2 (Z.eqb_neq _ _) E).
  - left. cbn [with_arp_table with_arp arp arp_table]. repeat split; [| |apply in_elt].
    + unfold sorted_table. rewrite map_app. apply (sorted_app _ _ ip); [done| |done|].
      * constructor; [done|]. apply Forall_cons_iff. split; [cbn; lia|]. done.
      * by apply Forall_cons_iff.
    + rewrite !arp_map_app, insert_union_r by done. done.
Qed.

(** C40: The code's bisection never considers the last slot: adding an address above
    every stored one puts it before the last entry, and the host that was last
    can be looked up before the update and not after it. *)
Theorem arp_update_loses_last (n : net) t e ip mac :
  arp_table (arp n) = t ++ [e] -> sorted_table (t ++ [e]) -> ae_ip e < ip ->
  zlen (t ++ [e]) < ARP_TABLE_SIZE ->
  let '(n', ret) := ducknet_arp_update n ip mac in
  ret = 0 /\ arp_table (arp n') = t ++ [fresh_entry n ip mac; e] /\
  ducknet_arp_lookup n (ae_ip e) = Some (ae_mac e) /\
  ducknet_arp_lookup n' (ae_ip e) = None.
Proof.
  intros Ht Hs Hip Hfull.
  assert (Hlt : Forall (λ k, k < ae_ip e) (map ae_ip t)).
  { clear -Hs. unfold sorted_table in Hs. rewrite map_app in Hs.
    induction t as [|x t IH]; cbn in *; [constructor|].
    apply StronglySorted_inv in Hs as [Hs Hx]. apply Forall_app in Hx as [_ Hx].
    apply Forall_cons_iff. split; [by apply Forall_cons_iff in Hx as [Hx _]|by apply IH]. }
  assert (Hb : bisect (map ae_ip (t ++ [e])) ip = zlen t).
  { rewrite <- (app_nil_r (map ae_ip (t ++ [e]))), (bisect_split _ _ ip); [| |constructor].
    - rewrite map_zlen, zlen_app. pose proof (zlen_nonneg t). unfold zlen. cbn [length]. lia.
    - rewrite map_app. apply Forall_app. split; [|repeat constructor; done].
      revert Hlt. apply Forall_impl. lia. }
  assert (Hu : ducknet_arp_update n ip mac =
    (with_arp_table n (t ++ fresh_entry n ip mac :: [e]), 0)).
  { unfold ducknet_arp_update. rewrite Ht, Hb, not_past_end, table_at, insert_at_app. cbn [orb].
    destruct (Z.eqb_spec (ae_ip e) ip); [lia|]. cbn [negb].
    destruct (Z.eqb_spec (zlen (t ++ [e])) ARP_TABLE_SIZE); [lia|done]. }
  rewrite Hu. repeat split.
  - rewrite (arp_lookup_at n t e []); [by rewrite Z.eqb_refl|done..|repeat constructor; lia].
  - rewrite (arp_lookup_at _ t (fresh_entry n ip mac) [e]); [|done..|].
    + cbn. destruct (Z.eqb_spec ip (ae_ip e)); [lia|done].
    + repeat constructor; cbn; lia.
Qed.

(** ** Frames *)

Definition arp_frame (dst src : list Z) (op : Z) (payload : list Z) : list Z :=
  encode_ether (mk_ether dst src (ducknet_htons DUCKNET_ETHERTYPE_ARP)) ++
  encode_arp (mk_arp (ducknet_htons DUCKNET_HTYPE_ETHERNET)
    (ducknet_htons DUCKNET_PTYPE_IPv4) 6 4 (ducknet_htons op)) ++ payload.

Lemma arp_send_frame (n : net) dst op payload :
  is_mac dst -> is_mac (mac n) -> zlen payload + sizeof_arp <= MTU n ->
  MTU n + sizeof_ether <= zlen (sendbuf n) ->
  exists buf, zlen buf = zlen (sendbuf n) /\
    ducknet_arp_send n dst op payload (zlen payload) =
      ducknet_phy_send conf (with_sendbuf n buf) (arp_frame dst (mac n) op payload).
Proof.
  intros [Hd _] [Hm _] Hmtu Hbuf. pose proof (zlen_nonneg payload) as Hp.
  unfold ducknet_arp_send, arp_frame.
  destruct (Z.ltb_spec (zlen payload) 0); [lia|].
  destruct (Z.ltb_spec (MTU n) (zlen payload + sizeof_arp)); [lia|].
  set (eh := encode_ether _). set (ah := encode_arp _).
  assert (He : zlen eh = sizeof_ether).
  { unfold zlen, eh, encode_ether. rewrite !length_app, length_le_bytes. cbn [eth_dst eth_src]. rewrite Hd, Hm. done. }
  assert (Ha : zlen ah = sizeof_arp) by done. clearbody eh ah.
  rewrite (ztake_all _ payload) by lia. rewrite <- He, <- Ha.
  eexists. split; [|rewrite (build3 eh ah payload) by (unfold sizeof_ether, sizeof_arp in *; lia); done].
  unfold sizeof_ether, sizeof_arp in *. rewrite zlen_write_at; rewrite ?zlen_write_at; rewrite ?zlen_write_at; try lia.
Qed.

(** Sending a query changes nothing the senders of IPv4 packets look at. *)
Lemma arp_query_frame (n : net) ip :
  is_mac (mac n) -> MTU n + sizeof_ether <= zlen (sendbuf n) ->
  sizeof_arp + sizeof_arp_payload <= MTU n -> same_stack n (fst (ducknet_arp_query n ip)).
Proof.
  intros Hm Hbuf Hmtu. unfold ducknet_arp_query. destruct (_ || _); [|done].
  destruct (_ =? _); [done|]. set (n1 := with_query_table n _).
  set (p := encode_arp_payload _).
  assert (Hp : zlen p = sizeof_arp_payload).
  { destruct Hm as [Hm _]. unfold zlen, p, encode_arp_payload.
    rewrite !length_app, !length_le_bytes. cbn [Net.sha Net.tha n1 with_query_table with_arp mac].
    rewrite Hm. done. }
  destruct (arp_send_frame n1 ducknet_ether_broadcast_addr DUCKNET_ARP_REQUEST p)
    as (buf & Hb & E).
  { split; [done|]. unfold ducknet_ether_broadcast_addr. bytes_lit. }
  { done. }
  { rewrite Hp. unfold sizeof_arp, sizeof_arp_payload in *. cbn. lia. }
  { done. }
  rewrite <- Hp, E. eapply same_stack_trans; [|apply phy_send_frame].
  unfold same_stack. cbn. rewrite Hb. done.
Qed.

(** The request on the wire. *)
Definition request (sha tha : list Z) (spa tpa : Z) : list Z :=
  encode_arp (arp_hton (mk_arp DUCKNET_HTYPE_ETHERNET DUCKNET_PTYPE_IPv4 6 4 DUCKNET_ARP_REQUEST)) ++
  encode_arp_payload (mk_arp_payload sha (ducknet_htonl spa) tha (ducknet_htonl tpa)).

(** A request for our address is answered, to the sender of the request, by
    the reply that binds our address to our MAC; whatever follows the 28 bytes
    of the request (Ethernet padding) is ignored. *)
Theorem arp_request_is_answered (n : net) sha tha spa padding :
  is_mac sha -> is_mac tha -> is_u32 spa -> is_mac (mac n) -> is_u32 (Phy.ip n) ->
  sizeof_arp + sizeof_arp_payload <= MTU n -> MTU n + sizeof_ether <= zlen (sendbuf n) ->
  exists buf, zlen buf = zlen (sendbuf n) /\
    let pkt := request sha tha spa (Phy.ip n) ++ padding in
    ducknet_arp_packet_handle None n pkt (zlen pkt) =
      (fst (ducknet_phy_send conf (with_sendbuf n buf)
         (arp_frame sha (mac n) DUCKNET_ARP_REPLY (encode_arp_payload
            (mk_arp_payload (mac n) (ducknet_htonl (Phy.ip n)) sha (ducknet_htonl spa))))), 0).
Proof.
  intros Hs Ht Hspa Hm Hip Hmtu Hbuf.
  set (p2 := encode_arp_payload (mk_arp_payload (mac n) _ sha _)).
  assert (Hp2 : zlen p2 = sizeof_arp_payload).
  { destruct Hs as [Hs _], Hm as [Hm _]. unfold zlen, p2, encode_arp_payload.
    rewrite !length_app, !length_le_bytes. cbn [Net.sha Net.tha]. rewrite Hs, Hm. done. }
  destruct (arp_send_frame n sha DUCKNET_ARP_REPLY p2) as (buf & Hb & E); [done..|rewrite Hp2; unfold sizeof_arp_payload, sizeof_arp in *; lia|done|].
  exists buf. split; [done|]. cbn zeta. unfold request. rewrite <- app_assoc.
  set (hdr := mk_arp _ _ _ _ _). set (p := mk_arp_payload sha _ tha _).
  assert (Hl : sizeof_arp + sizeof_arp_payload <=
      zlen (encode_arp (arp_hton hdr) ++ encode_arp_payload p ++ padding)).
  { rewrite !zlen_app. pose proof (zlen_nonneg padding).
    change (zlen (encode_arp (arp_hton hdr))) with 8.
    replace (zlen (encode_arp_payload p)) with 20; [unfold sizeof_arp, sizeof_arp_payload; lia|].
    destruct Hs as [Hs _], Ht as [Ht _]. unfold zlen, p, encode_arp_payload.
    rewrite !length_app, !length_le_bytes. cbn [Net.sha Net.tha]. rewrite Hs, Ht. done. }
  unfold ducknet_arp_packet_handle. set (len := zlen (encode_arp _ ++ _)) in *. clearbody len.
  unfold sizeof_arp, sizeof_arp_payload in Hl.
  destruct (Z.ltb_spec len sizeof_arp) as [Hlt|_]; [unfold sizeof_arp in Hlt; lia|].
  rewrite decode_encode_arp by (vm_compute; intuition discriminate).
  change (arp_hton (arp_hton hdr)) with hdr. cbn zeta.
  change (zdrop sizeof_arp _) with (encode_arp_payload p ++ padding).
  change (0 <? 0) with false.
  change ((htype hdr =? DUCKNET_HTYPE_ETHERNET) && (ptype hdr =? DUCKNET_PTYPE_IPv4)) with true.
  change (hlen hdr =? 6) with true. change (plen hdr =? 4) with true.
  change (op hdr =? DUCKNET_ARP_REQUEST) with true. cbn [negb].
  destruct (Z.ltb_spec (len - sizeof_arp) sizeof_arp_payload) as [Hlt|_];
    [unfold sizeof_arp, sizeof_arp_payload in Hlt; lia|].
  rewrite decode_encode_arp_payload
    by (split; [done|split; [apply htonl_range|split; [done|apply htonl_range]]]).
  cbn [Net.sha Net.spa Net.tha Net.tpa p]. rewrite (htonl_involutive spa), (htonl_involutive (Phy.ip n)) by done. rewrite Z.eqb_refl.
  fold p2. rewrite <- Hp2, E.
  by destruct (ducknet_phy_send _ _ _).
Qed.

(** When the sweep runs, it drops exactly the entries whose expiry time has
    passed: afterwards an address resolves if and only if it did before with an
    entry that has not expired.  When it does not run, the tables are unchanged. *)
Theorem arp_idle_sweeps (n : net) :
  sorted_table (arp_table (arp n)) -> 0 <= arp_cnt (arp n) ->
  let n' := fst (ducknet_arp_idle n) in
  let t := arp_table (arp n) in let t' := arp_table (arp n') in
  sorted_table t' /\
  (arp_cnt (arp n') = 0 -> forall ip m, ducknet_arp_lookup n' ip = Some m <->
     exists e, In e t /\ ae_ip e = ip /\ ae_mac e = m /\ currenttime n <= ae_expire_time e) /\
  (arp_cnt (arp n') <> 0 -> t' = t).
Proof.
  intros Hs Hc. unfold ducknet_arp_idle.
  destruct (_ && _); cbn [fst with_arp arp arp_table arp_cnt].
  - split; [done|]. split; [lia|done].
  - split; [by apply sorted_filter|]. split; [|done]. intros _ ip m.
    rewrite arp_lookup_map, arp_map_Some by (by apply sorted_filter).
    cbn [with_arp arp arp_table]. unfold expire_entries. setoid_rewrite filter_In.
    split; intros (e & H1 & H2); exists e;
      destruct (Z.ltb_spec (ae_expire_time e) (currenttime n)); cbn [negb] in *;
      intuition (lia || discriminate).
Qed.

End Arp.

(** ** Instances *)

Definition demo_table : list arp_entry :=
  [mk_arp_entry 5 [1;1;1;1;1;1] 9000; mk_arp_entry 7 [2;2;2;2;2;2] 100].

Lemma demo_sorted : sorted_table demo_table.
Proof. repeat constructor. Qed.

Lemma arp_lookup_witness :
  ducknet_arp_lookup (demo_net demo_table) 5 = arp_map demo_table !! 5.
Proof. apply (arp_lookup_is_map_lookup (demo_net demo_table) 5), demo_sorted. Defined.

Lemma arp_update_witness :
  let n' := fst (ducknet_arp_update (demo_net demo_table) 6 [3;3;3;3;3;3]) in
  ducknet_arp_lookup n' 6 = Some [3;3;3;3;3;3] /\ sorted_table (arp_table (arp n')).
Proof.
  destruct (arp_update_is_map_insert (demo_net demo_table) 6 [3;3;3;3;3;3])
    as [(_ & Hs & _ & _)|(H & _)]; [apply demo_sorted| | |discriminate H].
  - apply List.Exists_exists. exists (mk_arp_entry 7 [2;2;2;2;2;2] 100). cbn. split; [tauto|lia].
  - split; [reflexivity|exact Hs].
Defined.

Lemma arp_update_loses_last_witness :
  ducknet_arp_lookup (demo_net demo_table) 7 = Some [2;2;2;2;2;2] /\
  ducknet_arp_lookup (fst (ducknet_arp_update (demo_net demo_table) 9 [4;4;4;4;4;4])) 7 = None.
Proof.
  destruct (arp_update_loses_last (demo_net demo_table) [mk_arp_entry 5 [1;1;1;1;1;1] 9000]
    (mk_arp_entry 7 [2;2;2;2;2;2] 100) 9 [4;4;4;4;4;4]) as (_ & _ & H1 & H2);
    [reflexivity|apply demo_sorted|reflexivity|reflexivity|].
  split; [exact H1|exact H2].
Defined.

Lemma arp_request_is_answered_witness :
  exists buf, zlen buf = 1564 /\
    let pkt := request [9;9;9;9;9;9] [0;0;0;0;0;0] 0x0a000001 0x0a000002 ++ replicate 18 0 in
    ducknet_arp_packet_handle recorder None (demo_net []) pkt (zlen pkt) =
      (fst (ducknet_phy_send recorder (with_sendbuf (demo_net []) buf)
         (arp_frame [9;9;9;9;9;9] demo_mac DUCKNET_ARP_REPLY (encode_arp_payload
            (mk_arp_payload demo_mac (ducknet_htonl 0x0a000002) [9;9;9;9;9;9]
               (ducknet_htonl 0x0a000001))))), 0).
Proof.
  apply (arp_request_is_answered recorder (demo_net []) [9;9;9;9;9;9] [0;0;0;0;0;0] 0x0a000001
           (replicate 18 0));
    first [ split; [reflexivity | repeat constructor; vm_compute; discriminate]
          | vm_compute; intuition discriminate ].
Defined.

Lemma arp_idle_sweeps_witness :
  sorted_table (arp_table (arp (fst (ducknet_arp_idle (demo_net demo_table))))).
Proof. apply (arp_idle_sweeps (demo_net demo_table)); [apply demo_sorted|cbn; lia]. Defined.

End Arp.
