(* ===== verification/Ipv4.v ===== *)
(** * Ipv4: sending and queueing of IPv4 packets ([ducknet/lib/ipv4.cpp])

    A packet to a host with a known MAC address leaves at once, built in the
    shared send buffer; any other waits in a slot of [tosend_table] while an
    ARP query is out, and [ducknet_ipv4_idle] sends it or drops it. *)
From S2P Require Import Prelude DucknetUtils Net Phy Arp.

Module Ipv4.
Import DucknetUtils Net Phy Arp.

Definition TOSEND_TABLE_SIZE : Z := 64.
Definition TOSEND_TIMEOUT_MS : Z := 5000.

(** [tosend_free]: a bit per slot in two 32-bit words, set when the slot is free. *)
Definition slot_bit (i : Z) : Z := Z.shiftl 1 (Z.land i 31).
Definition is_free (fr : list Z) (i : Z) : bool :=
  negb (Z.land (zget 0 fr (Z.shiftr i 5)) (slot_bit i) =? 0).
Definition mark_free (fr : list Z) (i : Z) : list Z :=
  zset fr (Z.shiftr i 5) (Z.lor (zget 0 fr (Z.shiftr i 5)) (slot_bit i)).
Definition mark_used (fr : list Z) (i : Z) : list Z :=
  zset fr (Z.shiftr i 5) (Z.land (zget 0 fr (Z.shiftr i 5)) (u32 (Z.lnot (slot_bit i)))).

(** [ducknet_ipv4_init]: [tosend_table] and [cnt] are statics that it leaves. *)
Definition ipv4_init (currenttime tsc_freq cnt : Z) (table : list tosend_slot) : ipv4_state :=
  mk_ipv4_state table
    (fold_left mark_free (seqZ 0 TOSEND_TABLE_SIZE) (replicate 2 0))
    currenttime (idle_delay_of tsc_freq) cnt.

(** [for (int i = 0; ; i++)]: a set bit of a 32-bit word ends it. *)
Fixpoint lower_bit_loop (fuel : nat) (x i : Z) : Z :=
  match fuel with
  | O => i
  | S fuel => if negb (Z.land (Z.shiftr x i) 1 =? 0) then i else lower_bit_loop fuel x (i + 1)
  end.
Definition get_lower_bit_index (x : Z) : Z := lower_bit_loop 32 x 0.

Fixpoint find_free_loop (fr : list Z) (i : Z) : Z :=
  match fr with
  | [] => -1
  | w :: fr =>
      if negb (w =? 0) then Z.lor (Z.shiftl i 5) (get_lower_bit_index w)
      else find_free_loop fr (i + 1)
  end.
Definition find_tosend_free (fr : list Z) : Z := find_free_loop fr 0.

Section Ipv4.
Context {W : Type}.
Variable conf : PhyConfig W.
Abbreviation net := (net W).

(** The header as [ipv4_build_packet] fills it in, in host order. *)
Definition build_header (n : net) (dst protocol len : Z) : IPv4Header :=
  mk_ipv4 4 5 0 (u16 (len + sizeof_ipv4)) 2333 0 233 protocol 0 (Phy.ip n) dst.

Definition set_checksum (h : IPv4Header) (c : Z) : IPv4Header :=
  mk_ipv4 (version h) (ihl h) (tos h) (length16 h) (id h) (flags h) (ttl h) (protocol h) c
    (src h) (Net.dst h).

(** [None] is the return value -1; the buffer is then untouched. *)
Definition ipv4_build_packet (n : net) (pkt : list Z) (dst protocol : Z) (payload : list Z)
    (len : Z) : option (list Z) :=
  if len <? 0 then None
  else if MTU n <? len + sizeof_ipv4 then None
  else
    let pkt := write_at 6 (mac n) pkt in
    let pkt := write_at 12 (le_bytes 2 (ducknet_htons DUCKNET_ETHERTYPE_IPv4)) pkt in
    let hdr := ipv4_hton (build_header n dst protocol len) in
    let hdr := set_checksum hdr (ducknet_checksum (encode_ipv4 hdr) sizeof_ipv4 0) in
    let pkt := write_at sizeof_ether (encode_ipv4 hdr) pkt in
    Some (write_at (sizeof_ether + sizeof_ipv4) (ztake len payload) pkt).

Definition with_tosend (n : net) (table : list tosend_slot) (fr : list Z) : net :=
  let v := ipv4 n in
  with_ipv4 n (mk_ipv4_state table fr (ipv4_last_idle_time v) (ipv4_idle_delay v) (ipv4_cnt v)).

Definition no_slot : tosend_slot := mk_slot 0 0 0 [].

Definition ducknet_ipv4_send (n : net) (dst protocol : Z) (payload : list Z) (len : Z)
    : net * Z :=
  match ducknet_arp_lookup n dst with
  | Some dst_mac =>
      match ipv4_build_packet n (sendbuf n) dst protocol payload len with
      | None => (n, -1)
      | Some buf =>
          let buf := write_at 0 dst_mac buf in
          ducknet_phy_send conf (with_sendbuf n buf)
            (ztake (len + sizeof_ipv4 + sizeof_ether) buf)
      end
  | None =>
      let '(n, _) := ducknet_arp_query conf n dst in
      let v := ipv4 n in
      let id := find_tosend_free (tosend_free v) in
      if id =? -1 then (n, -1)
      else
        match ipv4_build_packet n (pkt (zget no_slot (tosend_table v) id)) dst protocol payload len
        with
        | None => (n, -1)
        | Some buf =>
            let slot := mk_slot dst
              (ducknet_time_add_ms (tsc_freq n) (currenttime n) TOSEND_TIMEOUT_MS)
              (len + sizeof_ipv4 + sizeof_ether) buf in
            (with_tosend n (zset (tosend_table v) id slot) (mark_used (tosend_free v) id), 0)
        end
  end.

(** One round of the loop of [ducknet_ipv4_idle]. *)
Definition idle_slot (n : net) (i : Z) : net :=
  let v := ipv4 n in
  let slot := zget no_slot (tosend_table v) i in
  if is_free (tosend_free v) i then n
  else if expire_time slot <? currenttime n then
    with_tosend n (tosend_table v) (mark_free (tosend_free v) i)
  else
    match ducknet_arp_lookup n (dst_ip slot) with
    | Some dst_mac =>
        let buf := write_at 0 dst_mac (pkt slot) in
        let slot := mk_slot (dst_ip slot) (expire_time slot) (pkt_len slot) buf in
        let n := with_tosend n (zset (tosend_table v) i slot) (mark_free (tosend_free v) i) in
        fst (ducknet_phy_send conf n (ztake (pkt_len slot) buf))
    | None => fst (ducknet_arp_query conf n (dst_ip slot))
    end.

Definition ducknet_ipv4_idle (n : net) : net * Z :=
  let v := ipv4 n in
  let cnt := ipv4_cnt v + 1 in
  if (cnt <? 1024) && (u64 (currenttime n - ipv4_last_idle_time v) <=? ipv4_idle_delay v) then
    (with_ipv4 n (mk_ipv4_state (tosend_table v) (tosend_free v) (ipv4_last_idle_time v)
                    (ipv4_idle_delay v) cnt), 0)
  else
    let n := with_ipv4 n (mk_ipv4_state (tosend_table v) (tosend_free v) (currenttime n)
                            (ipv4_idle_delay v) 0) in
    (fold_left idle_slot (seqZ 0 TOSEND_TABLE_SIZE) n, 0).

End Ipv4.

(** ** [ducknet_parse_ipv4]

    The characters of the string, without the terminating zero. *)
Definition count_dots (s : list Z) : Z := zlen (List.filter (λ c, c =? 46) s).

Fixpoint parse_loop (s a : list Z) (idx : Z) (has_num : bool) : option (list Z) :=
  match s with
  | [] => Some a
  | c :: s =>
      if c =? 46 then
        if has_num then parse_loop s a (idx + 1) false else None
      else if (c <? 48) || (57 <? c) then None
      else
        let v := zget 0 a idx * 10 + c - 48 in
        if 255 <? v then None else parse_loop s (zset a idx (u8 v)) idx true
  end.

Definition ducknet_parse_ipv4 (s : list Z) : option Z :=
  if negb (count_dots s =? 3) then None
  else
    match parse_loop s [0; 0; 0; 0] 0 false with
    | None => None
    | Some a => Some (le_val [zget 0 a 3; zget 0 a 2; zget 0 a 1; zget 0 a 0])
    end.

(** ** Lemmas: parsing *)

(** The value of one field, digit by digit, while it stays in a byte. *)
Fixpoint field_val (acc : Z) (f : list Z) : option Z :=
  match f with
  | [] => Some acc
  | c :: f =>
      if (c <? 48) || (57 <? c) then None
      else if 255 <? acc * 10 + c - 48 then None else field_val (acc * 10 + c - 48) f
  end.

Definition nonempty (f : list Z) : bool := match f with [] => false | _ => true end.
Definition no_dot (f : list Z) : Prop := Forall (λ c, c <> 46) f.

(** The number a field of digits denotes. *)
Definition decimal (f : list Z) : Z := fold_left (λ acc c, acc * 10 + (c - 48)) f 0.

Lemma decimal_mono f acc :
  Forall (λ c, 48 <= c <= 57) f -> 0 <= acc ->
  acc <= fold_left (λ acc c, acc * 10 + (c - 48)) f acc.
Proof.
  revert acc. induction f as [|c f IH]; intros acc Hf Ha; cbn; [lia|].
  apply Forall_cons_iff in Hf as [Hc Hf].
  etransitivity; [|apply IH; [done|lia]]. lia.
Qed.

Lemma field_val_spec_gen f acc v :
  0 <= acc <= 255 ->
  field_val acc f = Some v <->
    Forall (λ c, 48 <= c <= 57) f /\ v <= 255 /\ fold_left (λ acc c, acc * 10 + (c - 48)) f acc = v.
Proof.
  revert acc. induction f as [|c f IH]; intros acc Ha; cbn [field_val fold_left].
  - split; [intros [= ->]; repeat split; [constructor|lia]|intros (_ & _ & ->); done].
  - destruct (Z.ltb_spec c 48), (Z.ltb_spec 57 c); cbn [orb];
      try (split; [discriminate|intros (H1%Forall_cons_iff & _); lia]).
    destruct (Z.ltb_spec 255 (acc * 10 + c - 48)).
    + split; [discriminate|]. intros ([Hc Hf]%Forall_cons_iff & Hv & E).
      pose proof (decimal_mono f (acc * 10 + (c - 48)) Hf). lia.
    + rewrite IH, Forall_cons_iff by lia. rewrite <- Z.add_sub_assoc. intuition.
Qed.

Lemma field_val_spec f v :
  field_val 0 f = Some v <-> Forall (λ c, 48 <= c <= 57) f /\ v <= 255 /\ decimal f = v.
Proof. apply field_val_spec_gen. lia. Qed.

Lemma field_val_range f acc v : 0 <= acc <= 255 -> field_val acc f = Some v -> 0 <= v <= 255.
Proof.
  intros Ha Hv. apply field_val_spec_gen in Hv as (Hf & Hle & <-); [|done].
  pose proof (decimal_mono f acc Hf). lia.
Qed.

(** The loop over one field, up to the dot or the end of the string. *)
Lemma parse_field f s a idx h :
  no_dot f -> 0 <= idx < zlen a -> 0 <= zget 0 a idx <= 255 ->
  parse_loop (f ++ s) a idx h =
    match field_val (zget 0 a idx) f with
    | None => None
    | Some v => parse_loop s (zset a idx v) idx (h || nonempty f)
    end.
Proof.
  revert a h. induction f as [|c f IH]; intros a h Hf Hi Ha; cbn [app field_val nonempty].
  - rewrite orb_false_r. by rewrite zset_zget_id.
  - apply Forall_cons_iff in Hf as [Hc Hf]. cbn [parse_loop].
    destruct (Z.eqb_spec c 46); [done|].
    destruct (Z.ltb_spec c 48), (Z.ltb_spec 57 c); cbn [orb]; try done.
    destruct (Z.ltb_spec 255 (zget 0 a idx * 10 + c - 48)); [done|].
    rewrite u8_small by (unfold is_u8; lia).
    rewrite IH by (rewrite ?zlen_zset, ?zget_zset_eq by lia; lia || done).
    rewrite zget_zset_eq by lia. destruct (field_val _ f) as [v|]; [|done].
    f_equal; [|by rewrite orb_true_r]. unfold zset. apply list_insert_insert_eq.
Qed.

(** The loop over four fields. *)
Lemma parse_ipv4_fields f0 f1 f2 f3 :
  no_dot f0 -> no_dot f1 -> no_dot f2 -> no_dot f3 ->
  ducknet_parse_ipv4 (f0 ++ 46 :: f1 ++ 46 :: f2 ++ 46 :: f3) =
    if nonempty f0 && nonempty f1 && nonempty f2 then
      match field_val 0 f0, field_val 0 f1, field_val 0 f2, field_val 0 f3 with
      | Some a, Some b, Some c, Some d => Some (le_val [d; c; b; a])
      | _, _, _, _ => None
      end
    else None.
Proof.
  intros H0 H1 H2 H3. unfold ducknet_parse_ipv4.
  assert (Hd : forall f, no_dot f -> List.filter (λ c, c =? 46) f = []).
  { induction f as [|c f IH]; intros Hf; [done|]. apply Forall_cons_iff in Hf as [Hc Hf].
    cbn. destruct (Z.eqb_spec c 46); [done|by apply IH]. }
  assert (Hn : count_dots (f0 ++ 46 :: f1 ++ 46 :: f2 ++ 46 :: f3) = 3).
  { unfold count_dots. rewrite !List.filter_app. cbn [List.filter]. rewrite !Z.eqb_refl.
    rewrite !List.filter_app. cbn [List.filter]. rewrite !Z.eqb_refl.
    rewrite !List.filter_app. cbn [List.filter]. rewrite !Z.eqb_refl. by rewrite !Hd. }
  rewrite Hn. cbn [Z.eqb Pos.eqb negb].
  rewrite parse_field by (done || vm_compute; intuition discriminate).
  change (zget 0 [0; 0; 0; 0] 0) with 0. destruct (field_val 0 f0) as [a|] eqn:E0;
    [|by destruct (_ && _)].
  cbn [orb parse_loop]. change (46 =? 46) with true. cbn iota.
  destruct (nonempty f0); cbn [andb]; [|done].
  change (zset [0; 0; 0; 0] 0 a) with [a; 0; 0; 0]. change (0 + 1) with 1.
  rewrite parse_field by (done || vm_compute; intuition discriminate).
  change (zget 0 [a; 0; 0; 0] 1) with 0. destruct (field_val 0 f1) as [b|] eqn:E1;
    [|by destruct (_ && _)].
  cbn [orb parse_loop]. change (46 =? 46) with true. cbn iota.
  destruct (nonempty f1); cbn [andb]; [|done].
  change (zset [a; 0; 0; 0] 1 b) with [a; b; 0; 0]. change (1 + 1) with 2.
  rewrite parse_field by (done || vm_compute; intuition discriminate).
  change (zget 0 [a; b; 0; 0] 2) with 0. destruct (field_val 0 f2) as [c|] eqn:E2;
    [|by destruct (nonempty f2)].
  cbn [orb parse_loop]. change (46 =? 46) with true. cbn iota.
  destruct (nonempty f2); [|done].
  change (zset [a; b; 0; 0] 2 c) with [a; b; c; 0]. change (2 + 1) with 3.
  rewrite <- (app_nil_r f3) at 1.
  rewrite parse_field by (done || vm_compute; intuition discriminate).
  change (zget 0 [a; b; c; 0] 3) with 0. by destruct (field_val 0 f3).
Qed.

Lemma no_dot_split s :
  {f & {s' | s = f ++ 46 :: s' /\ no_dot f}} + {no_dot s}.
Proof.
  induction s as [|c s [(f & s' & E & Hf)|Hs]]; [right; constructor| |];
    destruct (Z.eq_dec c 46) as [->|Hc];
    try (left; exists [], s; split; [done|constructor]).
  - left. exists (c :: f), s'. split; [by rewrite E|]. by apply Forall_cons_iff.
  - right. by apply Forall_cons_iff.
Qed.

Lemma count_dots_cons f s :
  no_dot f -> count_dots (f ++ 46 :: s) = count_dots s + 1.
Proof.
  intros Hf. unfold count_dots. induction f as [|c f IH]; cbn [app List.filter].
  - rewrite Z.eqb_refl. unfold zlen. cbn [length]. lia.
  - apply Forall_cons_iff in Hf as [Hc Hf]. destruct (Z.eqb_spec c 46); [done|by apply IH].
Qed.
Lemma count_dots_none f : no_dot f -> count_dots f = 0.
Proof.
  unfold count_dots. induction f as [|c f IH]; intros Hf; [done|].
  apply Forall_cons_iff in Hf as [Hc Hf]. cbn [List.filter].
  destruct (Z.eqb_spec c 46); [done|by apply IH].
Qed.

(** Three dots cut a string into four fields. *)
Lemma three_dots s :
  count_dots s = 3 -> exists f0 f1 f2 f3,
    s = f0 ++ 46 :: f1 ++ 46 :: f2 ++ 46 :: f3 /\ no_dot f0 /\ no_dot f1 /\ no_dot f2 /\ no_dot f3.
Proof.
  intros H. destruct (no_dot_split s) as [(f0 & s1 & -> & H0)|Hs];
    [|rewrite count_dots_none in H by done; lia]. rewrite count_dots_cons in H by done.
  destruct (no_dot_split s1) as [(f1 & s2 & -> & H1)|Hs];
    [|rewrite count_dots_none in H by done; lia]. rewrite count_dots_cons in H by done.
  destruct (no_dot_split s2) as [(f2 & s3 & -> & H2)|Hs];
    [|rewrite count_dots_none in H by done; lia]. rewrite count_dots_cons in H by done.
  destruct (no_dot_split s3) as [(f3 & s4 & -> & H3)|Hs].
  - rewrite count_dots_cons in H by done. pose proof (zlen_nonneg (List.filter (λ c, c =? 46) s4)).
    unfold count_dots in H. lia.
  - by exists f0, f1, f2, s3.
Qed.

(** A decimal field as the parser takes it: digits only, at most 255. *)
Definition octet (f : list Z) (v : Z) : Prop :=
  Forall (λ c, 48 <= c <= 57) f /\ decimal f = v /\ v <= 255.

Lemma octet_field_val f v : octet f v <-> field_val 0 f = Some v.
Proof. rewrite field_val_spec. unfold octet. tauto. Qed.
Lemma octet_no_dot f v : octet f v -> no_dot f.
Proof. intros [H _]. revert H. apply Forall_impl. lia. Qed.

(** [ducknet_parse_ipv4] accepts exactly the strings of four dot-separated decimal
    fields of value at most 255, of which the first three are not empty, and
    returns the address whose bytes are the fields, most significant first. *)
Theorem parse_ipv4_exact s addr :
  ducknet_parse_ipv4 s = Some addr <->
  exists f0 f1 f2 f3 a b c d,
    s = f0 ++ 46 :: f1 ++ 46 :: f2 ++ 46 :: f3 /\ f0 <> [] /\ f1 <> [] /\ f2 <> [] /\
    octet f0 a /\ octet f1 b /\ octet f2 c /\ octet f3 d /\
    addr = 16777216 * a + 65536 * b + 256 * c + d.
Proof.
  split.
  - intros H. destruct (Z.eq_dec (count_dots s) 3) as [Hc|Hc].
    + apply three_dots in Hc as (f0 & f1 & f2 & f3 & -> & H0 & H1 & H2 & H3).
      rewrite parse_ipv4_fields in H by done.
      destruct (nonempty f0) eqn:N0, (nonempty f1) eqn:N1, (nonempty f2) eqn:N2; try done.
      cbn [andb] in H.
      destruct (field_val 0 f0) as [a|] eqn:E0, (field_val 0 f1) as [b|] eqn:E1,
        (field_val 0 f2) as [c|] eqn:E2, (field_val 0 f3) as [d|] eqn:E3; try done.
      injection H as <-. rewrite <- octet_field_val in E0, E1, E2, E3.
      exists f0, f1, f2, f3, a, b, c, d. cbn [le_val].
      split; [done|]. do 3 (split; [by intros ->|]). do 4 (split; [done|]). lia.
    + unfold ducknet_parse_ipv4 in H. by destruct (Z.eqb_spec (count_dots s) 3).
  - intros (f0 & f1 & f2 & f3 & a & b & c & d & -> & N0 & N1 & N2 & O0 & O1 & O2 & O3 & ->).
    rewrite parse_ipv4_fields by (by eapply octet_no_dot).
    destruct f0, f1, f2; try done. cbn [nonempty andb].
    apply octet_field_val in O0 as ->, O1 as ->, O2 as ->, O3 as ->.
    cbn [le_val]. f_equal. lia.
Qed.

(** An address that stops after the third dot is accepted, with a last byte of
    zero, although a field left empty anywhere else is refused. *)
Theorem parse_ipv4_trailing_dot f0 f1 f2 a b c :
  f0 <> [] -> f1 <> [] -> f2 <> [] -> octet f0 a -> octet f1 b -> octet f2 c ->
  ducknet_parse_ipv4 (f0 ++ 46 :: f1 ++ 46 :: f2 ++ [46]) =
    Some (16777216 * a + 65536 * b + 256 * c) /\
  ducknet_parse_ipv4 (46 :: f0 ++ 46 :: f1 ++ 46 :: f2) = None.
Proof.
  intros N0 N1 N2 O0 O1 O2. split.
  - rewrite (parse_ipv4_fields f0 f1 f2 []) by (try constructor; by eapply octet_no_dot).
    destruct f0, f1, f2; try done. cbn [nonempty andb].
    apply octet_field_val in O0 as ->, O1 as ->, O2 as ->. cbn [field_val le_val]. f_equal. lia.
  - change (46 :: ?l) with ([] ++ 46 :: l) at 1.
    rewrite (parse_ipv4_fields [] f0 f1 f2) by (try constructor; by eapply octet_no_dot). done.
Qed.
Lemma parse_ipv4_trailing_dot_witness :
  ducknet_parse_ipv4 [49; 46; 50; 46; 51; 46] = Some (16777216 * 1 + 65536 * 2 + 256 * 3) /\
  ducknet_parse_ipv4 [46; 49; 46; 50; 46; 51] = None.
Proof.
  apply (parse_ipv4_trailing_dot [49] [50] [51] 1 2 3); try discriminate;
    (split; [repeat constructor; discriminate|split; [reflexivity|discriminate]]).
Defined.

(** ** Lemmas: the bitmap of free slots *)

Definition wf_free (fr : list Z) : Prop := exists w0 w1, fr = [w0; w1] /\ is_u32 w0 /\ is_u32 w1.

Lemma lower_bit_loop_spec fuel x i :
  0 <= i -> (exists j, i <= j < i + Z.of_nat fuel /\ Z.testbit x j = true) ->
  let r := lower_bit_loop fuel x i in
  i <= r < i + Z.of_nat fuel /\ Z.testbit x r = true /\
  forall j, i <= j < r -> Z.testbit x j = false.
Proof.
  revert i. induction fuel as [|fuel IH]; intros i Hi (j & Hj & Hb); [lia|]. cbn zeta.
  cbn [lower_bit_loop].
  assert (Hbit : Z.land (Z.shiftr x i) 1 = Z.b2z (Z.testbit x i)).
  { change 1 with (Z.ones 1). rewrite Z.land_ones by lia. change (2 ^ 1) with 2.
    rewrite <- Z.bit0_mod, Z.shiftr_spec by lia. done. }
  rewrite Hbit. destruct (Z.testbit x i) eqn:Hxi; cbn [Z.b2z Z.eqb negb].
  - repeat split; [lia|lia|done|intros; lia].
  - assert (j <> i) by congruence.
    destruct (IH (i + 1)) as (Hr & Hrb & Hlow); [lia|exists j; split; [lia|done]|].
    split; [lia|]. split; [done|]. intros k Hk.
    destruct (Z.eq_dec k i) as [->|]; [done|]. apply Hlow. lia.
Qed.

Lemma get_lower_bit_index_spec x :
  is_u32 x -> x <> 0 ->
  let r := get_lower_bit_index x in
  0 <= r < 32 /\ Z.testbit x r = true /\ forall j, 0 <= j < r -> Z.testbit x j = false.
Proof.
  intros Hx Hn. apply (lower_bit_loop_spec 32 x 0); [lia|].
  exists (Z.log2 x). unfold is_u32 in Hx. split.
  - split; [apply Z.log2_nonneg|]. apply Z.log2_lt_pow2; [lia|]. change (2 ^ (0 + 32)) with 4294967296. lia.
  - apply Z.bit_log2. lia.
Qed.

Lemma slot_bit_pow i : 0 <= i -> slot_bit i = 2 ^ (i mod 32).
Proof.
  intros. unfold slot_bit. change 31 with (Z.ones 5). rewrite Z.land_ones by lia.
  rewrite Z.shiftl_mul_pow2 by (apply Z.mod_pos_bound; lia). change (2 ^ 5) with 32. lia.
Qed.

(** The bit tests and updates of the source are those of bit [i mod 32] of word [i / 32]. *)
Lemma is_free_testbit fr i :
  0 <= i -> is_free fr i = Z.testbit (zget 0 fr (i / 32)) (i mod 32).
Proof.
  intros. unfold is_free. rewrite slot_bit_pow, shiftr_div by lia. change (2 ^ 5) with 32.
  pose proof (Z.mod_pos_bound i 32 ltac:(lia)). apply land_bit. lia.
Qed.

Lemma slot_index_cases i j :
  0 <= i < 64 -> 0 <= j < 64 ->
  (j =? i) = (i / 32 =? j / 32) && (i mod 32 =? j mod 32).
Proof.
  intros. destruct (Z.eqb_spec j i), (Z.eqb_spec (i / 32) (j / 32)),
    (Z.eqb_spec (i mod 32) (j mod 32)); try done; Z.to_euclidean_division_equations; lia.
Qed.

(** [mark_used], [mark_free] change the state of one slot. *)
Lemma is_free_mark fr i j :
  wf_free fr -> 0 <= i < 64 -> 0 <= j < 64 ->
  is_free (mark_used fr i) j = (if j =? i then false else is_free fr j) /\
  is_free (mark_free fr i) j = (if j =? i then true else is_free fr j).
Proof.
  intros (w0 & w1 & -> & Hw0 & Hw1) Hi Hj. rewrite !is_free_testbit by lia.
  unfold mark_used, mark_free. rewrite slot_bit_pow, shiftr_div by lia. change (2 ^ 5) with 32.
  rewrite (slot_index_cases i j) by done.
  assert (0 <= i / 32 < zlen [w0; w1])
    by (change (zlen [w0; w1]) with 2; Z.to_euclidean_division_equations; lia).
  assert (0 <= j / 32) by (Z.to_euclidean_division_equations; lia).
  pose proof (Z.mod_pos_bound i 32 ltac:(lia)). pose proof (Z.mod_pos_bound j 32 ltac:(lia)).
  destruct (Z.eqb_spec (i / 32) (j / 32)) as [E|E]; cbn [andb].
  - rewrite <- E, !zget_zset_eq by done. unfold u32.
    change 4294967296 with (2 ^ 32).
    rewrite Z.lor_spec, Z.land_spec, Z.mod_pow2_bits_low, Z.lnot_spec, Z.pow2_bits_eqb by lia.
    destruct (i mod 32 =? j mod 32); cbn [negb]; rewrite ?andb_false_r, ?andb_true_r,
      ?orb_true_r, ?orb_false_r; done.
  - rewrite !zget_zset_ne by lia. done.
Qed.

Lemma wf_free_mark fr i :
  wf_free fr -> 0 <= i < 64 -> wf_free (mark_used fr i) /\ wf_free (mark_free fr i).
Proof.
  intros (w0 & w1 & -> & Hw0 & Hw1) Hi. unfold mark_used, mark_free.
  rewrite slot_bit_pow, shiftr_div by lia. change (2 ^ 5) with 32.
  pose proof (Z.mod_pos_bound i 32 ltac:(lia)) as Hm.
  assert (Hp : is_u32 (2 ^ (i mod 32))).
  { unfold is_u32. split; [lia|]. change 4294967296 with (2 ^ 32). apply Z.pow_lt_mono_r; lia. }
  unfold wf_free, is_u32 in *. change 4294967296 with (2 ^ 32) in *.
  assert (Hn : forall k, 0 <= zget 0 [w0; w1] k < 2 ^ 32).
  { intros k. unfold zget. destruct (Z.to_nat k) as [|[|[|]]]; cbn [nth]; lia. }
  assert (Hset : forall k w, (k = 0 \/ k = 1) -> 0 <= w < 2 ^ 32 ->
    exists v0 v1, zset [w0; w1] k w = [v0; v1] /\ 0 <= v0 < 2 ^ 32 /\ 0 <= v1 < 2 ^ 32).
  { intros k w [-> | ->] Hw; [exists w, w1|exists w0, w]; done. }
  assert (i / 32 = 0 \/ i / 32 = 1) by (Z.to_euclidean_division_equations; lia).
  split; apply Hset; [done|apply land_bound; [lia|apply Hn]|done|apply lor_bound; [lia|apply Hn|done]].
Qed.

(** A slot number the search returns is free, below 64 and the lowest; it
    returns -1 only when every slot is taken. *)
Lemma find_tosend_free_spec fr :
  wf_free fr ->
  let r := find_tosend_free fr in
  (r = -1 /\ forall i, 0 <= i < 64 -> is_free fr i = false) \/
  (0 <= r < 64 /\ is_free fr r = true /\ forall i, 0 <= i < r -> is_free fr i = false).
Proof.
  intros (w0 & w1 & -> & Hw0 & Hw1). unfold find_tosend_free. cbn [find_free_loop].
  assert (Hw : forall k i, k * 32 <= i < (k + 1) * 32 -> 0 <= k ->
    is_free [w0; w1] i = Z.testbit (zget 0 [w0; w1] k) (i - k * 32)).
  { intros k i Hi Hk. rewrite is_free_testbit by lia.
    f_equal; [f_equal|]; Z.to_euclidean_division_equations; lia. }
  pose proof (Hw 0) as W0. pose proof (Hw 1) as W1. clear Hw.
  change (zget 0 [w0; w1] 0) with w0 in W0. change (zget 0 [w0; w1] 1) with w1 in W1.
  change (0 + 1) with 1. change (Z.shiftl 0 5) with 0. change (Z.shiftl 1 5) with 32.
  destruct (Z.eqb_spec w0 0) as [->|N0]; cbn [negb].
  - assert (L : forall i, 0 <= i < 32 -> is_free [0; w1] i = false).
    { intros i Hi. rewrite W0 by lia. apply Z.testbit_0_l. }
    destruct (Z.eqb_spec w1 0) as [->|N1]; cbn [negb].
    + left. split; [done|]. intros i Hi. destruct (Z.lt_ge_cases i 32); [apply L; lia|].
      rewrite W1 by lia. apply Z.testbit_0_l.
    + right. destruct (get_lower_bit_index_spec w1 Hw1 N1) as (Hr & Hb & Hlow).
      rewrite (lor_add_r 5) by done. split; [lia|]. split.
      * rewrite W1 by lia. rewrite <- Hb. f_equal. lia.
      * intros i Hi. destruct (Z.lt_ge_cases i 32); [apply L; lia|]. rewrite W1 by lia.
        apply Hlow. lia.
  - right. destruct (get_lower_bit_index_spec w0 Hw0 N0) as (Hr & Hb & Hlow).
    rewrite Z.lor_0_l. split; [lia|]. split.
    + rewrite W0 by lia. rewrite <- Hb. f_equal. lia.
    + intros i Hi. rewrite W0 by lia. apply Hlow. lia.
Qed.

(** ** Lemmas: packets *)

Section Frames.
Context {W : Type}.
Variable conf : PhyConfig W.
Abbreviation net := (net W).

(** The 20 bytes on the wire, and the frame around them. *)
Definition header_of (n : net) (dst protocol len : Z) : IPv4Header :=
  let hdr := ipv4_hton (build_header n dst protocol len) in
  set_checksum hdr (ducknet_checksum (encode_ipv4 hdr) sizeof_ipv4 0).
Definition ipv4_frame (n : net) (dst_mac : list Z) (dst protocol : Z) (payload : list Z) : list Z :=
  encode_ether (mk_ether dst_mac (mac n) (ducknet_htons DUCKNET_ETHERTYPE_IPv4)) ++
  encode_ipv4 (header_of n dst protocol (zlen payload)) ++ payload.

(** Writing the parts in the order of the source, the destination last. *)
Lemma build_packet_frame (n : net) pkt dst protocol payload :
  is_mac (mac n) -> zlen payload + sizeof_ipv4 <= MTU n -> MTU n + sizeof_ether <= zlen pkt ->
  exists buf, ipv4_build_packet n pkt dst protocol payload (zlen payload) = Some buf /\
    zlen buf = zlen pkt /\
    forall d, is_mac d ->
      ztake (zlen payload + sizeof_ipv4 + sizeof_ether) (write_at 0 d buf) =
        ipv4_frame n d dst protocol payload.
Proof.
  intros [Hm _] Hmtu Hbuf. pose proof (zlen_nonneg payload). unfold sizeof_ipv4, sizeof_ether in *.
  unfold ipv4_build_packet. unfold sizeof_ipv4 at 1.
  destruct (Z.ltb_spec (zlen payload) 0); [lia|].
  destruct (Z.ltb_spec (MTU n) (zlen payload + 20)); [lia|].
  rewrite (ztake_all _ payload) by lia. fold (header_of n dst protocol (zlen payload)).
  change sizeof_ether with 14. change (14 + sizeof_ipv4) with 34.
  set (h := encode_ipv4 _). set (ty := le_bytes 2 _).
  assert (Hh : zlen h = 20) by done. assert (Hty : zlen ty = 2) by done.
  assert (Hm' : zlen (mac n) = 6) by (unfold zlen; rewrite Hm; done).
  destruct (split_at 6 pkt) as (p0 & q & -> & L0); [lia|]. rewrite !zlen_app in Hbuf.
  destruct (split_at 6 q) as (p1 & q1 & -> & L1); [lia|]. rewrite !zlen_app in Hbuf.
  destruct (split_at 2 q1) as (p2 & q2 & -> & L2); [lia|]. rewrite !zlen_app in Hbuf.
  destruct (split_at 20 q2) as (p3 & q3 & -> & L3); [lia|]. rewrite !zlen_app in Hbuf.
  destruct (split_at (zlen payload) q3) as (p4 & rest & -> & L4); [lia|].
  rewrite (write_at_mid 6 p0) by lia.
  rewrite (app_assoc p0), (write_at_mid 12) by (rewrite ?zlen_app; lia).
  rewrite (app_assoc (p0 ++ _)), (write_at_mid 14) by (rewrite ?zlen_app; lia).
  rewrite (app_assoc ((p0 ++ _) ++ _)), (write_at_mid 34) by (rewrite ?zlen_app; lia).
  eexists. split; [done|]. split; [rewrite !zlen_app; lia|]. intros d [Hd _].
  assert (Hd' : zlen d = 6) by (unfold zlen; rewrite Hd; done).
  rewrite <- !app_assoc, <- (app_nil_l (p0 ++ _)), (write_at_mid 0 []) by (done || lia).
  unfold ipv4_frame, encode_ether. cbn [eth_dst eth_src Net.ethertype app].
  rewrite <- !app_assoc. fold ty h.
  replace (d ++ mac n ++ ty ++ h ++ payload ++ rest)
    with ((d ++ mac n ++ ty ++ h ++ payload) ++ rest) by (by rewrite <- !app_assoc).
  apply ztake_app_exact. rewrite !zlen_app. lia.
Qed.

Lemma header_words (h : IPv4Header) c :
  exists pre post, encode_ipv4 (set_checksum h c) = pre ++ le_bytes 2 c ++ post /\
    zlen pre = 10 /\ (wf_ipv4 h -> bytes pre /\ bytes post) /\
    forall c', encode_ipv4 (set_checksum h c') = pre ++ le_bytes 2 c' ++ post.
Proof.
  exists ([version h + 16 * ihl h; tos h] ++ le_bytes 2 (length16 h) ++ le_bytes 2 (id h) ++
    le_bytes 2 (Net.flags h) ++ [ttl h; Net.protocol h]),
    (le_bytes 4 (src h) ++ le_bytes 4 (Net.dst h)).
  split; [done|]. split; [done|]. split; [|done].
  intros (H0 & H1 & H2 & H3 & H4 & H5 & H6 & H7 & _). split; rewrite !bytes_app.
  - conj_split; auto with duck;
      rewrite !bytes_cons; unfold is_u8 in *; intuition (lia || apply bytes_nil).
  - split; auto with duck.
Qed.

Lemma wf_build_header (n : net) dst protocol len :
  is_u32 (Phy.ip n) -> is_u32 dst -> is_u8 protocol ->
  wf_ipv4 (ipv4_hton (build_header n dst protocol len)).
Proof.
  intros. unfold ipv4_hton, build_header, wf_ipv4. cbn [version ihl tos length16 id Net.flags ttl
    Net.protocol checksum src Net.dst].
  conj_split; auto with duck; unfold is_u8, is_u16; lia.
Qed.

(** Every IPv4 header the stack builds verifies: the checksum of its 20 bytes is
    zero. *)
Theorem built_header_verifies (n : net) dst protocol len :
  is_u32 (Phy.ip n) -> is_u32 dst -> is_u8 protocol ->
  ducknet_checksum (encode_ipv4 (header_of n dst protocol len)) sizeof_ipv4 0 = 0.
Proof.
  intros Hip Hdst Hp. unfold header_of. cbn zeta.
  set (h := ipv4_hton _).
  destruct (header_words h (ducknet_checksum (encode_ipv4 h) sizeof_ipv4 0))
    as (pre & post & E & Hl & Hb & Hc). rewrite E.
  assert (E0 : encode_ipv4 h = pre ++ [0; 0] ++ post) by exact (Hc 0).
  destruct Hb as [Hb1 Hb2]; [by apply wf_build_header|].
  assert (Hz : zlen (pre ++ [0; 0] ++ post) = sizeof_ipv4) by (rewrite <- E0; done).
  pose proof (checksum_fill pre post 0 Hb1 Hb2) as Hf. rewrite Hl in Hf.
  specialize (Hf eq_refl ltac:(lia)). rewrite Hz in Hf. specialize (Hf ltac:(unfold sizeof_ipv4; lia)).
  cbn zeta in Hf. rewrite <- E0 in Hf. etransitivity; [|exact Hf]. f_equal.
  rewrite <- Hz, !zlen_app, zlen_le_bytes. done.
Qed.

(** A host whose MAC address is known is sent the frame at once. *)
Lemma ipv4_send_known (n : net) dst protocol payload m :
  ducknet_arp_lookup n dst = Some m -> is_mac m -> is_mac (mac n) ->
  zlen payload + sizeof_ipv4 <= MTU n -> MTU n + sizeof_ether <= zlen (sendbuf n) ->
  exists buf, zlen buf = zlen (sendbuf n) /\
    ducknet_ipv4_send conf n dst protocol payload (zlen payload) =
      ducknet_phy_send conf (with_sendbuf n buf) (ipv4_frame n m dst protocol payload).
Proof.
  intros Hl Hm Hmac Hmtu Hbuf. unfold ducknet_ipv4_send. rewrite Hl.
  destruct (build_packet_frame n (sendbuf n) dst protocol payload) as (buf & E & Hz & Hf);
    [done..|]. rewrite E. exists (write_at 0 m buf). split.
  - destruct Hm as [Hm _]. rewrite zlen_write_at; [done|lia|]. unfold zlen at 1. rewrite Hm.
    pose proof (zlen_nonneg payload). unfold sizeof_ipv4, sizeof_ether in *. lia.
  - by rewrite Hf.
Qed.

Lemma same_stack_frame (n n' : net) m dst protocol payload :
  same_stack n n' -> ipv4_frame n' m dst protocol payload = ipv4_frame n m dst protocol payload.
Proof.
  unfold same_stack, ipv4_frame, header_of, build_header.
  intros (_ & _ & _ & -> & _ & -> & _). done.
Qed.

Lemma same_stack_lookup (n n' : net) dst :
  same_stack n n' -> ducknet_arp_lookup n' dst = ducknet_arp_lookup n dst.
Proof. unfold same_stack, ducknet_arp_lookup. intros (_&_&_&_&_&_&_&_& -> & _). done. Qed.

(** The slots, their buffers and the bitmap have the sizes of the source. *)
Definition wf_tosend (v : ipv4_state) : Prop :=
  zlen (tosend_table v) = TOSEND_TABLE_SIZE /\
  Forall (λ s, zlen (pkt s) = MAX_MTU + 64) (tosend_table v) /\ wf_free (tosend_free v).

Lemma wf_slot v i :
  wf_tosend v -> 0 <= i < 64 -> zlen (pkt (zget no_slot (tosend_table v) i)) = MAX_MTU + 64.
Proof.
  intros (Hl & Hp & _) Hi. apply (proj1 (Forall_forall _ _) Hp), nth_In.
  unfold zlen, TOSEND_TABLE_SIZE in *. lia.
Qed.

(** Queueing: the lowest free slot takes the packet. *)
Lemma ipv4_send_unknown (n : net) dst protocol payload :
  ducknet_arp_lookup n dst = None -> wf_tosend (ipv4 n) -> is_mac (mac n) -> MTU n = 1500 ->
  zlen (sendbuf n) = MAX_MTU + 64 -> zlen payload + sizeof_ipv4 <= MTU n ->
  find_tosend_free (tosend_free (ipv4 n)) <> -1 ->
  exists n' id buf,
    ducknet_ipv4_send conf n dst protocol payload (zlen payload) = (n', 0) /\
    0 <= id < 64 /\ is_free (tosend_free (ipv4 n)) id = true /\
    tosend_free (ipv4 n') = mark_used (tosend_free (ipv4 n)) id /\
    tosend_table (ipv4 n') = zset (tosend_table (ipv4 n)) id
      (mk_slot dst (ducknet_time_add_ms (tsc_freq n) (currenttime n) TOSEND_TIMEOUT_MS)
         (zlen payload + sizeof_ipv4 + sizeof_ether) buf) /\
    zlen buf = MAX_MTU + 64 /\
    forall d, is_mac d -> ztake (zlen payload + sizeof_ipv4 + sizeof_ether) (write_at 0 d buf) =
      ipv4_frame n d dst protocol payload.
Proof.
  intros Hl Hwf Hm Hmtu Hsb Hp Hfree. unfold ducknet_ipv4_send. rewrite Hl.
  pose proof (arp_query_frame conf n dst Hm) as Hs.
  destruct (ducknet_arp_query conf n dst) as [n1 r]. cbn [fst] in Hs.
  specialize (Hs ltac:(rewrite Hsb, Hmtu; done) ltac:(rewrite Hmtu; done)).
  pose proof Hs as (Ht & Hf & _ & Hm1 & Hmtu1 & _ & Hv & _). rewrite Hv.
  set (id := find_tosend_free _) in *. destruct (Z.eqb_spec id (-1)); [done|].
  pose proof Hwf as (_ & _ & Hwfree).
  destruct (find_tosend_free_spec _ Hwfree) as [[E _]|(Hid & Hidf & _)]; [done|]. fold id in Hid, Hidf.
  destruct (build_packet_frame n1 (pkt (zget no_slot (tosend_table (ipv4 n)) id)) dst protocol payload)
    as (buf & E & Hz & Hframe); [by rewrite Hm1|by rewrite Hmtu1| |].
  { rewrite (wf_slot _ id Hwf Hid), Hmtu1, Hmtu. done. }
  rewrite E. eexists _, id, buf. split; [reflexivity|]. cbn [with_tosend with_ipv4 ipv4 tosend_free
    tosend_table]. rewrite Ht, Hf. rewrite (wf_slot _ id Hwf Hid) in Hz.
  conj_split; try done; try lia. intros d Hd. rewrite Hframe by done. by apply same_stack_frame.
Qed.

(** C36: A packet to a host whose address is not resolved yet is not lost: it goes to
    a free slot of the queue (with an ARP query), and when the idle loop comes to
    that slot, at any later state in which the slot is untouched, the host is
    resolved and the 5 s have not passed, it sends exactly the frame that would
    have been sent at once, with the resolved MAC address, and frees the slot. *)
Theorem queued_packet_is_sent (n : net) dst protocol payload :
  ducknet_arp_lookup n dst = None -> wf_tosend (ipv4 n) -> is_mac (mac n) -> MTU n = 1500 ->
  zlen (sendbuf n) = MAX_MTU + 64 -> zlen payload + sizeof_ipv4 <= MTU n ->
  find_tosend_free (tosend_free (ipv4 n)) <> -1 ->
  exists n' id,
    ducknet_ipv4_send conf n dst protocol payload (zlen payload) = (n', 0) /\
    0 <= id < 64 /\ is_free (tosend_free (ipv4 n)) id = true /\
    is_free (tosend_free (ipv4 n')) id = false /\
    forall n2 m,
      tosend_free (ipv4 n2) = tosend_free (ipv4 n') ->
      zget no_slot (tosend_table (ipv4 n2)) id = zget no_slot (tosend_table (ipv4 n')) id ->
      currenttime n2 <= ducknet_time_add_ms (tsc_freq n) (currenttime n) TOSEND_TIMEOUT_MS ->
      ducknet_arp_lookup n2 dst = Some m -> is_mac m ->
      exists n3, is_free (tosend_free (ipv4 n3)) id = true /\ world n3 = world n2 /\
        idle_slot conf n2 id =
          fst (ducknet_phy_send conf n3 (ipv4_frame n m dst protocol payload)).
Proof.
  intros Hl Hwf Hm Hmtu Hsb Hp Hfree.
  destruct (ipv4_send_unknown n dst protocol payload) as
    (n' & id & buf & E & Hid & Hidf & Hfr & Htab & Hz & Hframe); [done..|].
  exists n', id. pose proof Hwf as (Hlen & _ & Hwfree). split; [done|]. split; [done|]. split; [done|].
  destruct (is_free_mark _ id id Hwfree Hid Hid) as [Hused _]. rewrite Z.eqb_refl in Hused.
  rewrite Hfr. split; [done|]. intros n2 m Hfr2 Hslot Htime Hl2 Hmac.
  rewrite Htab, zget_zset_eq in Hslot by (unfold TOSEND_TABLE_SIZE in Hlen; lia).
  destruct (wf_free_mark _ id Hwfree Hid) as [Hwf' _].
  destruct (is_free_mark _ id id Hwf' Hid Hid) as [_ Hnow]. rewrite Z.eqb_refl in Hnow.
  unfold idle_slot. rewrite Hslot, Hfr2, Hused. cbn [expire_time dst_ip pkt pkt_len].
  destruct (Z.ltb_spec (ducknet_time_add_ms (tsc_freq n) (currenttime n) TOSEND_TIMEOUT_MS)
    (currenttime n2)); [lia|].
  rewrite Hl2, Hframe by done. eexists. split; [|split; [|reflexivity]]; done.
Qed.

End Frames.

(** ** Instances *)

Definition demo_ipv4 : ipv4_state := ipv4_init 5000 1000000 0 (replicate 64 (mk_slot 0 0 0 (replicate 1564 0))).

Lemma built_header_verifies_witness :
  ducknet_checksum (encode_ipv4 (header_of (demo_net []) 0xc0a80001 17 300)) 20 0 = 0.
Proof. apply (built_header_verifies (demo_net []) 0xc0a80001 17 300); vm_compute; intuition discriminate. Defined.

Lemma queued_packet_is_sent_witness :
  let n := with_ipv4 (demo_net []) demo_ipv4 in
  exists n' id, ducknet_ipv4_send recorder n 0xc0a80001 17 [1; 2; 3] 3 = (n', 0) /\
    is_free (tosend_free (ipv4 n')) id = false.
Proof.
  destruct (queued_packet_is_sent recorder (with_ipv4 (demo_net []) demo_ipv4) 0xc0a80001 17 [1; 2; 3])
    as (n' & id & H1 & _ & _ & H2 & _);
    [reflexivity| | |reflexivity|reflexivity|vm_compute; discriminate|vm_compute; discriminate|].
  - split; [reflexivity|]. split; [apply Forall_replicate; reflexivity|].
    exists 0xffffffff, 0xffffffff. vm_compute. intuition discriminate.
  - split; [reflexivity|]. cbn. unfold demo_mac. bytes_lit.
  - exists n', id. split; [exact H1|exact H2].
Defined.

End Ipv4.
