(* ===== verification/Transport.v ===== *)
(** * Transport: ICMP and UDP ([ducknet/lib/icmp.cpp], [ducknet/lib/udp.cpp]) *)
From S2P Require Import Prelude DucknetUtils Net Phy Arp Ipv4.

Module Transport.
Import DucknetUtils Net Phy Arp Ipv4.

Section Transport.
Context {W : Type}.
Variable conf : PhyConfig W.
Abbreviation net := (net W).

(** The hooks of ICMP and UDP also get the addresses of the IPv4 header. *)
Definition ip_hook (H : Type) : Type := net -> Z -> Z -> H -> list Z -> Z -> net * H * list Z * Z.

Definition ducknet_icmp_packet_handle (packet_handle : option (ip_hook ICMPHeader))
    (n : net) (src dst : Z) (pkt : list Z) (len : Z) : net * Z :=
  if len <? sizeof_icmp then (n, -1)
  else
    let hdr := icmp_hton (decode_icmp pkt) in
    let content := zdrop sizeof_icmp pkt in
    let '(n, hdr, content, r) :=
      match packet_handle with
      | Some h => h n src dst hdr content (len - sizeof_icmp)
      | None => (n, hdr, content, 0)
      end in
    if r <? 0 then (n, r)
    else if icmp_type hdr =? DUCKNET_ICMP_ECHO_REQUEST then
      if negb (code hdr =? 0) then (n, -1)
      else
        let reply := mk_icmp DUCKNET_ICMP_ECHO_REPLY (code hdr) 0 (icmp_rest hdr) in
        let msg := ztake len (encode_icmp reply ++ content) in
        let reply := mk_icmp DUCKNET_ICMP_ECHO_REPLY (code hdr) (ducknet_checksum msg len 0)
          (icmp_rest hdr) in
        let '(n, _) := ducknet_ipv4_send conf n src DUCKNET_IPv4_ICMP
          (ztake len (encode_icmp reply ++ content)) len in
        (n, 0)
    else (n, -1).

(** The pseudo header of the UDP checksum. *)
Definition udp_pseudo_header (src dst udp_len : Z) : list Z :=
  le_bytes 4 (ducknet_htonl src) ++ le_bytes 4 (ducknet_htonl dst) ++
  [0; DUCKNET_IPv4_UDP] ++ le_bytes 2 (ducknet_htons (u16 udp_len)).

Definition ducknet_udp_send (n : net) (dst dport sport : Z) (payload : list Z) (len : Z) : net * Z :=
  if len <? 0 then (n, -1)
  else if MTU n <? len + sizeof_udp + sizeof_ipv4 then (n, -1)
  else
    let hdr := udp_hton (mk_udp sport dport (u16 (len + sizeof_udp)) 0) in
    let buf := write_at 0 (encode_udp hdr) (udp_buf n) in
    let buf := write_at sizeof_udp (ztake len payload) buf in
    let udp_len := len + sizeof_udp in
    let tmp_sum := ducknet_checksum_sum (udp_pseudo_header (Phy.ip n) dst udp_len) 12 in
    let buf := write_at 6 (le_bytes 2 (ducknet_checksum (ztake udp_len buf) udp_len tmp_sum)) buf in
    ducknet_ipv4_send conf (with_udp_buf n buf) dst DUCKNET_IPv4_UDP (ztake udp_len buf) udp_len.

Definition ducknet_udp_packet_handle (packet_handle : option (ip_hook UDPHeader))
    (n : net) (src dst : Z) (pkt : list Z) (len : Z) : net * Z :=
  if len <? sizeof_udp then (n, -1)
  else
    let hdr := udp_hton (decode_udp pkt) in
    let content := zdrop sizeof_udp pkt in
    let '(n, hdr, content, r) :=
      match packet_handle with
      | Some h => h n src dst hdr content (len - sizeof_udp)
      | None => (n, hdr, content, 0)
      end in
    if r <? 0 then (n, r) else (n, 0).

(** ** Datagrams *)

Definition pseudo_sum (src dst udp_len : Z) : Z :=
  ducknet_checksum_sum (udp_pseudo_header src dst udp_len) 12.

(** The header of a datagram and the datagram [ducknet_udp_send] hands to IPv4. *)
Definition udp_header (dport sport len c : Z) : UDPHeader :=
  mk_udp (ducknet_htons sport) (ducknet_htons dport) (ducknet_htons (u16 (len + sizeof_udp))) c.
Definition udp_sum (src dst dport sport : Z) (payload : list Z) : Z :=
  let msg := encode_udp (udp_header dport sport (zlen payload) 0) ++ payload in
  ducknet_checksum msg (zlen msg) (pseudo_sum src dst (zlen payload + sizeof_udp)).
Definition udp_datagram (src dst dport sport : Z) (payload : list Z) : list Z :=
  encode_udp (udp_header dport sport (zlen payload) (udp_sum src dst dport sport payload)) ++ payload.

Lemma zlen_encode_udp h : zlen (encode_udp h) = 8.
Proof. done. Qed.

Lemma zlen_udp_datagram src dst dport sport payload :
  zlen (udp_datagram src dst dport sport payload) = zlen payload + sizeof_udp.
Proof. unfold udp_datagram. rewrite zlen_app, zlen_encode_udp. unfold sizeof_udp. lia. Qed.

Lemma udp_build buf src dst dport sport payload :
  zlen payload + sizeof_udp <= zlen buf ->
  let len := zlen payload in let udp_len := len + sizeof_udp in
  let b := write_at 0 (encode_udp (udp_header dport sport len 0)) buf in
  let b := write_at sizeof_udp payload b in
  ztake udp_len b = encode_udp (udp_header dport sport len 0) ++ payload /\
  zlen (write_at 6 (le_bytes 2 (udp_sum src dst dport sport payload)) b) = zlen buf /\
  ztake udp_len (write_at 6 (le_bytes 2 (udp_sum src dst dport sport payload)) b) =
    udp_datagram src dst dport sport payload.
Proof.
  intros Hbuf. cbn zeta. unfold sizeof_udp in *. pose proof (zlen_nonneg payload).
  set (h := encode_udp (udp_header _ _ _ 0)). assert (Hh : zlen h = 8) by done.
  destruct (split_at 8 buf) as (p0 & q & -> & L0); [lia|]. rewrite zlen_app in Hbuf.
  destruct (split_at (zlen payload) q) as (p1 & rest & -> & L1); [lia|].
  rewrite <- (app_nil_l (p0 ++ _)), (write_at_mid 0 []) by (done || lia). cbn [app].
  rewrite (write_at_mid 8 h) by lia.
  set (c := udp_sum _ _ _ _ _).
  assert (Hsplit : forall c', encode_udp (udp_header dport sport (zlen payload) c') =
    ztake 6 h ++ le_bytes 2 c') by done.
  assert (Eh : h = ztake 6 h ++ le_bytes 2 0) by apply (Hsplit 0).
  assert (Hw : write_at 6 (le_bytes 2 c) (h ++ payload ++ rest) =
    encode_udp (udp_header dport sport (zlen payload) c) ++ payload ++ rest).
  { rewrite Hsplit. rewrite Eh at 1. rewrite <- !app_assoc. by rewrite (write_at_mid 6). }
  rewrite Hw. split; [|split].
  - rewrite app_assoc. apply ztake_app_exact. rewrite zlen_app. lia.
  - rewrite !zlen_app, zlen_encode_udp. lia.
  - rewrite app_assoc. apply ztake_app_exact. by rewrite zlen_udp_datagram.
Qed.

Lemma udp_send_is_ipv4_send (n : net) dst dport sport payload :
  zlen payload + sizeof_udp + sizeof_ipv4 <= MTU n -> MTU n <= zlen (udp_buf n) ->
  exists b, zlen b = zlen (udp_buf n) /\
    ducknet_udp_send n dst dport sport payload (zlen payload) =
      let d := udp_datagram (Phy.ip n) dst dport sport payload in
      ducknet_ipv4_send conf (with_udp_buf n b) dst DUCKNET_IPv4_UDP d (zlen d).
Proof.
  intros Hmtu Hbuf. pose proof (zlen_nonneg payload). cbn zeta. unfold sizeof_ipv4 in Hmtu.
  rewrite zlen_udp_datagram.
  destruct (udp_build (udp_buf n) (Phy.ip n) dst dport sport payload) as (E1 & E2 & E3);
    [lia|].
  unfold ducknet_udp_send. destruct (Z.ltb_spec (zlen payload) 0); [lia|].
  destruct (Z.ltb_spec (MTU n) (zlen payload + sizeof_udp + sizeof_ipv4));
    [unfold sizeof_ipv4 in *; lia|].
  rewrite (ztake_all _ payload) by lia. cbn zeta.
  change (udp_hton (mk_udp sport dport (u16 (zlen payload + sizeof_udp)) 0))
    with (udp_header dport sport (zlen payload) 0).
  rewrite E1.
  assert (Es : ducknet_checksum (encode_udp (udp_header dport sport (zlen payload) 0) ++ payload)
      (zlen payload + sizeof_udp)
      (ducknet_checksum_sum (udp_pseudo_header (Phy.ip n) dst (zlen payload + sizeof_udp)) 12) =
    udp_sum (Phy.ip n) dst dport sport payload).
  { unfold udp_sum, pseudo_sum. cbn zeta. f_equal.
    rewrite zlen_app, zlen_encode_udp. unfold sizeof_udp. lia. }
  rewrite Es, E3.
  eexists. split; [exact E2|done].
Qed.

Lemma pseudo_sum_bound src dst udp_len : 0 <= pseudo_sum src dst udp_len <= 2 ^ 20.
Proof.
  unfold pseudo_sum. set (ph := udp_pseudo_header src dst udp_len).
  assert (Hl : zlen ph = 12) by done.
  assert (Hb : bytes ph).
  { unfold ph, udp_pseudo_header. rewrite !bytes_app.
    conj_split; auto with duck. unfold DUCKNET_IPv4_UDP. bytes_lit. }
  rewrite <- Hl, checksum_sum_words. pose proof (words_sum_bounds ph Hb) as H. rewrite Hl in H.
  change (65535 * ((12 + 1) / 2)) with 393210 in H. rewrite u32_small by (unfold is_u32; lia). lia.
Qed.

(** The checksum of every UDP datagram the stack sends verifies at the receiver:
    over the pseudo header and the datagram, the checksum is zero. *)
Theorem udp_datagram_verifies src dst dport sport payload :
  bytes payload -> zlen payload + sizeof_udp <= 65536 ->
  let d := udp_datagram src dst dport sport payload in
  ducknet_checksum d (zlen d) (pseudo_sum src dst (zlen d)) = 0.
Proof.
  intros Hb Hl d. unfold d at 3. rewrite zlen_udp_datagram.
  set (start := pseudo_sum _ _ _).
  set (pre := le_bytes 2 (ducknet_htons sport) ++ le_bytes 2 (ducknet_htons dport) ++
    le_bytes 2 (ducknet_htons (u16 (zlen payload + sizeof_udp)))).
  assert (E : forall c, encode_udp (udp_header dport sport (zlen payload) c) ++ payload =
    pre ++ le_bytes 2 c ++ payload) by (intros; unfold pre; rewrite <- !app_assoc; done).
  assert (Hd : d = pre ++ le_bytes 2 (udp_sum src dst dport sport payload) ++ payload) by apply E.
  rewrite Hd. unfold udp_sum. cbn zeta. rewrite E.
  change (le_bytes 2 0) with [0; 0].
  apply (checksum_fill pre payload start); [|done|done|apply pseudo_sum_bound|].
  - unfold pre. rewrite !bytes_app. auto with duck.
  - rewrite !zlen_app. change (zlen pre) with 6. change (zlen [0; 0]) with 2.
    unfold sizeof_udp in Hl. lia.
Qed.

(** ** Echo *)

Definition icmp_sum (type rest : Z) (data : list Z) : Z :=
  let msg := encode_icmp (mk_icmp type 0 0 rest) ++ data in ducknet_checksum msg (zlen msg) 0.
Definition icmp_message (type rest : Z) (data : list Z) : list Z :=
  encode_icmp (mk_icmp type 0 (icmp_sum type rest data) rest) ++ data.

Lemma icmp_message_verifies type rest data :
  is_u8 type -> bytes data -> zlen data + sizeof_icmp <= 65536 ->
  ducknet_checksum (icmp_message type rest data) (zlen (icmp_message type rest data)) 0 = 0.
Proof.
  intros Ht Hd Hl. unfold icmp_message, icmp_sum. cbn zeta.
  assert (E : forall c, encode_icmp (mk_icmp type 0 c rest) ++ data =
    [type; 0] ++ le_bytes 2 c ++ (le_bytes 4 rest ++ data)) by done.
  rewrite !E. change (le_bytes 2 0) with [0; 0].
  apply (checksum_fill [type; 0] (le_bytes 4 rest ++ data) 0); [| |done|lia|].
  - rewrite !bytes_cons. conj_split; [done|unfold is_u8; lia|apply bytes_nil].
  - rewrite bytes_app. auto with duck.
  - rewrite !zlen_app, zlen_le_bytes. change (zlen [type; 0]) with 2. change (zlen [0; 0]) with 2.
    unfold sizeof_icmp in Hl. lia.
Qed.

(** An ICMP echo request from a host whose MAC address is known is answered, to that
    host, with one IPv4 frame: an echo reply with the identifier, the sequence
    number and the data of the request, whose checksum verifies. *)
Theorem icmp_echo_is_answered (n : net) src dst c rest data padding m :
  is_u16 c -> is_u32 rest -> bytes data ->
  ducknet_arp_lookup n src = Some m -> is_mac m -> is_mac (mac n) ->
  zlen data + sizeof_icmp + sizeof_ipv4 <= MTU n <= 1500 ->
  MTU n + sizeof_ether <= zlen (sendbuf n) ->
  let request := encode_icmp (mk_icmp DUCKNET_ICMP_ECHO_REQUEST 0 c rest) ++ data in
  let reply := icmp_message DUCKNET_ICMP_ECHO_REPLY rest data in
  ducknet_checksum reply (zlen reply) 0 = 0 /\
  exists buf,
    ducknet_icmp_packet_handle None n src dst (request ++ padding) (zlen request) =
      (fst (ducknet_phy_send conf (with_sendbuf n buf)
         (ipv4_frame n m src DUCKNET_IPv4_ICMP reply)), 0).
Proof.
  intros Hc Hr Hd Hl Hm Hmac Hmtu Hbuf request reply. unfold sizeof_icmp, sizeof_ipv4 in Hmtu.
  split; [apply icmp_message_verifies; [unfold is_u8, DUCKNET_ICMP_ECHO_REPLY; lia|done|
    unfold sizeof_icmp; lia]|].
  assert (Hzr : zlen request = zlen data + 8).
  { unfold request. rewrite zlen_app. change (zlen (encode_icmp _)) with 8. lia. }
  assert (Hzp : zlen reply = zlen data + 8).
  { unfold reply, icmp_message. rewrite zlen_app. change (zlen (encode_icmp _)) with 8. lia. }
  pose proof (zlen_nonneg data).
  destruct (ipv4_send_known conf n src DUCKNET_IPv4_ICMP reply m) as (buf & Hb & E);
    [done..|unfold sizeof_ipv4; lia|done|].
  exists buf. unfold ducknet_icmp_packet_handle.
  destruct (Z.ltb_spec (zlen request) sizeof_icmp); [unfold sizeof_icmp in *; lia|].
  unfold request. rewrite <- app_assoc, decode_encode_icmp
    by (unfold wf_icmp; cbn [icmp_type code icmp_checksum icmp_rest]; conj_split; auto;
        unfold is_u8, DUCKNET_ICMP_ECHO_REQUEST; lia).
  unfold icmp_hton. cbn zeta. change (zdrop sizeof_icmp _) with (data ++ padding).
  cbn [icmp_type code icmp_rest]. change (0 <? 0) with false.
  change (DUCKNET_ICMP_ECHO_REQUEST =? DUCKNET_ICMP_ECHO_REQUEST) with true.
  change (0 =? 0) with true. cbn [negb]. fold request. rewrite Hzr.
  assert (Hcut : forall h, zlen h = 8 -> ztake (zlen data + 8) (h ++ data ++ padding) = h ++ data).
  { intros h Hh. rewrite app_assoc. apply ztake_app_exact. rewrite zlen_app. lia. }
  rewrite !Hcut by done.
  assert (Es : ducknet_checksum (encode_icmp (mk_icmp DUCKNET_ICMP_ECHO_REPLY 0 0 rest) ++ data)
      (zlen data + 8) 0 = icmp_sum DUCKNET_ICMP_ECHO_REPLY rest data).
  { unfold icmp_sum. cbn zeta. f_equal. rewrite zlen_app. change (zlen (encode_icmp _)) with 8. lia. }
  rewrite Es. fold (icmp_message DUCKNET_ICMP_ECHO_REPLY rest data). fold reply. rewrite <- Hzp, E.
  by destruct (ducknet_phy_send _ _ _).
Qed.

End Transport.

Lemma udp_datagram_verifies_witness :
  let d := udp_datagram 0x0a000002 0xc0a80001 2333 8000 [1; 2; 3] in
  ducknet_checksum d 11 (pseudo_sum 0x0a000002 0xc0a80001 11) = 0.
Proof.
  apply (udp_datagram_verifies 0x0a000002 0xc0a80001 2333 8000 [1; 2; 3]); [bytes_lit|].
  vm_compute. discriminate.
Defined.

Lemma icmp_echo_is_answered_witness :
  let n := demo_net [mk_arp_entry 5 [1;1;1;1;1;1] 9000; mk_arp_entry 7 [2;2;2;2;2;2] 100] in
  exists buf, ducknet_icmp_packet_handle recorder None n 5 0x0a000002
      ((encode_icmp (mk_icmp 8 0 77 1234) ++ [1; 2; 3]) ++ [0]) 11 =
    (fst (ducknet_phy_send recorder (with_sendbuf n buf)
       (ipv4_frame n [1;1;1;1;1;1] 5 1 (icmp_message 0 1234 [1; 2; 3]))), 0).
Proof.
  destruct (icmp_echo_is_answered recorder
    (demo_net [mk_arp_entry 5 [1;1;1;1;1;1] 9000; mk_arp_entry 7 [2;2;2;2;2;2] 100])
    5 0x0a000002 77 1234 [1; 2; 3] [0] [1;1;1;1;1;1]) as (_ & buf & E);
    [unfold is_u16; lia|unfold is_u32; lia|bytes_lit|reflexivity|split; [reflexivity|bytes_lit]|
     split; [reflexivity|unfold demo_net, demo_mac; cbn; bytes_lit]|
     vm_compute; intuition discriminate|vm_compute; discriminate|].
  exists buf. exact E.
Defined.

End Transport.
