(* ===== verification/Ducknet.v ===== *)
(** * Ducknet: the receive path and the main loop

    The dispatch of received frames ([ether.cpp], the second half of
    [ipv4.cpp], [phy.cpp]) and [ducknet/lib/ducknet.cpp]. *)
From stdpp Require Import gmap.
From S2P Require Import Prelude DucknetUtils Net Phy Arp Ipv4 Transport.

Module Ducknet.
Import DucknetUtils Net Phy Arp Ipv4 Transport.

(** [is_equal] on MAC addresses: a 32-bit and a 16-bit comparison. *)
Definition is_equal (a b : list Z) : bool := (get32 a 0 =? get32 b 0) && (get16 a 4 =? get16 b 4).

Section Ducknet.
Context {W : Type}.
Abbreviation net := (net W).

(** [DucknetConfig]: the parameters and the hooks of every layer. *)
Record DucknetConfig := mk_config {
  conf_tsc_freq : Z;
  conf_phy : PhyConfig W;
  conf_mac : list Z;
  ether_hook : option (hook (W := W) EtherHeader);
  arp_hook : option (hook (W := W) ARPHeader);
  conf_ip : Z;
  ipv4_hook : option (hook (W := W) IPv4Header);
  icmp_hook : option (ip_hook (W := W) ICMPHeader);
  udp_hook : option (ip_hook (W := W) UDPHeader);
  idle_hook : option (net -> net * Z) }.

Variable conf : DucknetConfig.
(** The processor's time stamp counter, as [ducknet_gettime] reads it. *)
Variable gettime : W -> W * Z.

Definition ducknet_ipv4_packet_handle (n : net) (pkt : list Z) (len : Z) : net * Z :=
  if len <? sizeof_ipv4 then (n, -1)
  else
    let hdr := ipv4_hton (decode_ipv4 pkt) in
    let content := zdrop sizeof_ipv4 pkt in
    let '(n, hdr, content, r) :=
      match ipv4_hook conf with
      | Some h => h n hdr content (len - sizeof_ipv4)
      | None => (n, hdr, content, 0)
      end in
    if r <? 0 then (n, r)
    else if negb (version hdr =? 4) then (n, -1)
    else if negb (ihl hdr =? 5) then (n, -1)
    else if len <? length16 hdr then (n, -1)
    else if negb (Z.land (Net.flags hdr) (Z.lnot DUCKNET_IPv4_FLAGS_DF) =? 0) then (n, -1)
    else if negb ((u32 (Z.lnot (Net.dst hdr)) =? 0) || (Net.dst hdr =? Phy.ip n)) then (n, -1)
    else
      let content_len := length16 hdr - sizeof_ipv4 in
      if Net.protocol hdr =? DUCKNET_IPv4_ICMP then
        ducknet_icmp_packet_handle (conf_phy conf) (icmp_hook conf) n (src hdr) (Net.dst hdr)
          content content_len
      else if Net.protocol hdr =? DUCKNET_IPv4_UDP then
        ducknet_udp_packet_handle (udp_hook conf) n (src hdr) (Net.dst hdr) content content_len
      else (n, -1).

Definition ducknet_ether_packet_handle (n : net) (pkt : list Z) (len : Z) : net * Z :=
  if len <? sizeof_ether then (n, -1)
  else
    let hdr := ether_hton (decode_ether pkt) in
    let content := zdrop sizeof_ether pkt in
    let '(n, hdr, content, r) :=
      match ether_hook conf with
      | Some h => h n hdr content (len - sizeof_ether)
      | None => (n, hdr, content, 0)
      end in
    if r <? 0 then (n, r)
    else if negb (is_equal (eth_dst hdr) (mac n)) &&
            negb (is_equal (eth_dst hdr) ducknet_ether_broadcast_addr) then (n, -1)
    else
      let content_len := len - sizeof_ether in
      if Net.ethertype hdr =? DUCKNET_ETHERTYPE_ARP then
        ducknet_arp_packet_handle (conf_phy conf) (arp_hook conf) n content content_len
      else if Net.ethertype hdr =? DUCKNET_ETHERTYPE_IPv4 then
        ducknet_ipv4_packet_handle n content content_len
      else (n, -1).

Definition ducknet_phy_packet_handle (n : net) (pkt : list Z) (len : Z) : net * Z :=
  match phy_packet_handle (conf_phy conf) with
  | Some h =>
      let '(w, pkt, r) := h pkt len (world n) in
      if r <? 0 then (with_world n w, r)
      else ducknet_ether_packet_handle (with_world n w) pkt len
  | None => ducknet_ether_packet_handle n pkt len
  end.

Definition ducknet_packet_handle := ducknet_phy_packet_handle.
Definition ducknet_flush (n : net) : net * Z := ducknet_phy_flush (conf_phy conf) n.

Definition ducknet_utils_init (n : net) : net * Z :=
  if conf_tsc_freq conf =? 0 then (n, -1)
  else
    let '(w, t) := gettime (world n) in
    (mk_net w t (conf_tsc_freq conf) (sendbuf n) (mac n) (MTU n) (Phy.ip n) (phy n) (arp n) (ipv4 n)
       (udp_buf n) (recv_buf n), 0).

(** The statics with no initialiser here keep the values of [n]. *)
Definition ducknet_init (n : net) : net * Z :=
  let '(n, r) := ducknet_utils_init n in
  if r <? 0 then (n, r)
  else
    let t := currenttime n in
    let f := tsc_freq n in
    (mk_net (world n) t f (sendbuf n) (conf_mac conf) 1500 (conf_ip conf)
       (phy_init t f (flush_cnt (phy n)))
       (arp_init t f (arp_cnt (arp n)))
       (ipv4_init t f (ipv4_cnt (ipv4 n)) (tosend_table (ipv4 n)))
       (udp_buf n) (recv_buf n), 0).

Definition ducknet_utils_idle (n : net) : net * Z :=
  let '(w, t) := gettime (world n) in (with_time (with_world n w) t, 0).
Definition ducknet_ether_idle (n : net) : net * Z := (n, 0).
Definition ducknet_icmp_idle (n : net) : net * Z := (n, 0).
Definition ducknet_udp_idle (n : net) : net * Z := (n, 0).

(** [if ((r = f()) < 0) return r;] between the idle functions of the layers. *)
Fixpoint chain (fs : list (net -> net * Z)) (n : net) : net * Z :=
  match fs with
  | [] => (n, 0)
  | f :: fs => let '(n, r) := f n in if r <? 0 then (n, r) else chain fs n
  end.
Definition ducknet_idle : net -> net * Z :=
  chain [ducknet_utils_idle; ducknet_phy_idle (conf_phy conf); ducknet_ether_idle;
         ducknet_arp_idle; ducknet_ipv4_idle (conf_phy conf); ducknet_icmp_idle; ducknet_udp_idle].

(** The driver stores into the static [pkt] and does not know its size: more bytes than it
    has make [recv_buf] longer. *)
Definition ducknet_step (n : net) : net * Z :=
  let '(n, r) := ducknet_idle n in
  if r <? 0 then (n, r)
  else
    let '(n, pkt, len) := ducknet_phy_recv (conf_phy conf) n in
    let n := with_recv_buf n (write_at 0 pkt (recv_buf n)) in
    let n := if 0 <=? len then fst (ducknet_packet_handle n pkt len) else n in
    match idle_hook conf with
    | Some idle => let '(n, r) := idle n in if r <? 0 then (n, r) else (n, 0)
    | None => (n, 0)
    end.

(** [while (1)]: [None] when [fuel] steps did not end it. *)
Fixpoint ducknet_mainloop (fuel : nat) (n : net) : option (net * Z) :=
  match fuel with
  | O => None
  | S fuel => let '(n, r) := ducknet_step n in if r <? 0 then Some (n, r) else ducknet_mainloop fuel n
  end.

(** ** Addresses *)

Lemma is_equal_spec a b : is_mac a -> is_mac b -> is_equal a b = true <-> a = b.
Proof.
  intros Ha Hb. unfold is_equal, get32, get16. split; [|by intros ->; rewrite !Z.eqb_refl].
  intros [H1%Z.eqb_eq H2%Z.eqb_eq]%andb_prop.
  pose proof (proj2 Ha) as Ba. pose proof (proj2 Hb) as Bb.
  apply is_mac_dest in Ha as (a0 & a1 & a2 & a3 & a4 & a5 & ->).
  apply is_mac_dest in Hb as (b0 & b1 & b2 & b3 & b4 & b5 & ->).
  rewrite !bytes_cons in Ba, Bb. unfold is_u8 in *.
  change (a0 + 256 * (a1 + 256 * (a2 + 256 * (a3 + 256 * 0))) =
    b0 + 256 * (b1 + 256 * (b2 + 256 * (b3 + 256 * 0)))) in H1.
  change (a4 + 256 * (a5 + 256 * 0) = b4 + 256 * (b5 + 256 * 0)) in H2.
  assert (a0 = b0 /\ a1 = b1 /\ a2 = b2 /\ a3 = b3 /\ a4 = b4 /\ a5 = b5) by lia.
  intuition congruence.
Qed.

(** Without hooks, a frame addressed to neither our MAC address nor the
    broadcast address is dropped, whatever it contains, and changes nothing. *)
Theorem other_frames_are_dropped (n : net) pkt len :
  phy_packet_handle (conf_phy conf) = None -> ether_hook conf = None ->
  bytes pkt -> sizeof_ether <= zlen pkt -> is_mac (mac n) ->
  read_at 0 6 pkt <> mac n -> read_at 0 6 pkt <> ducknet_ether_broadcast_addr ->
  ducknet_packet_handle n pkt len = (n, -1).
Proof.
  intros Hp He Hb Hl Hm Hne Hnb. unfold ducknet_packet_handle, ducknet_phy_packet_handle.
  rewrite Hp. unfold ducknet_ether_packet_handle. rewrite He.
  destruct (len <? sizeof_ether); [done|]. change (0 <? 0) with false. cbn zeta iota.
  change (eth_dst (ether_hton (decode_ether pkt))) with (read_at 0 6 pkt).
  assert (Hd : is_mac (read_at 0 6 pkt)).
  { split; [|auto with duck]. unfold sizeof_ether, zlen in Hl. unfold read_at, ztake, zdrop.
    rewrite length_take, length_drop. lia. }
  destruct (is_equal (read_at 0 6 pkt) (mac n)) eqn:E1; [by apply is_equal_spec in E1|].
  destruct (is_equal (read_at 0 6 pkt) ducknet_ether_broadcast_addr) eqn:E2; [|done].
  apply is_equal_spec in E2; [done|done|].
  split; [done|]. unfold ducknet_ether_broadcast_addr. bytes_lit.
Qed.

(** ** Receiving an IPv4 frame of the stack's own making *)

Lemma recv_ether_ipv4 (n : net) d s content padding :
  ether_hook conf = None -> is_mac d -> is_mac s -> d = mac n ->
  let f := encode_ether (mk_ether d s (ducknet_htons DUCKNET_ETHERTYPE_IPv4)) ++ content ++ padding in
  ducknet_ether_packet_handle n f (zlen f) =
    ducknet_ipv4_packet_handle n (content ++ padding) (zlen (content ++ padding)).
Proof.
  intros He Hd Hs Hmac. cbn zeta. unfold ducknet_ether_packet_handle. rewrite He.
  set (h := mk_ether _ _ _).
  assert (Hwf : wf_ether h) by (split; [done|split; [done|apply htons_range]]).
  pose proof (length_encode_ether h Hwf) as Hlen.
  assert (Hz : zlen (encode_ether h ++ content ++ padding) = zlen (content ++ padding) + 14).
  { rewrite zlen_app. unfold zlen at 1. rewrite Hlen. lia. }
  rewrite Hz. pose proof (zlen_nonneg (content ++ padding)). unfold sizeof_ether.
  destruct (Z.ltb_spec (zlen (content ++ padding) + 14) 14); [lia|].
  rewrite decode_encode_ether by done. cbn zeta. change (0 <? 0) with false. cbn iota.
  change (eth_dst (ether_hton h)) with d.
  destruct (is_equal d (mac n)) eqn:E; [|by rewrite (proj2 (is_equal_spec d (mac n) Hd ltac:(by rewrite <- Hmac)) Hmac) in E].
  cbn [negb andb]. change (Net.ethertype (ether_hton h)) with DUCKNET_ETHERTYPE_IPv4.
  change (DUCKNET_ETHERTYPE_IPv4 =? DUCKNET_ETHERTYPE_ARP) with false. rewrite Z.eqb_refl.
  replace (zlen (content ++ padding) + 14 - 14) with (zlen (content ++ padding)) by lia.
  f_equal. unfold zdrop. rewrite drop_app_length' by (by rewrite Hlen). done.
Qed.

(** The header a receiver decodes is the one the sender filled in. *)
Lemma recv_header {W1} (n1 : Phy.net W1) dst protocol (payload rest : list Z) :
  is_u32 (Phy.ip n1) -> is_u32 dst -> is_u8 protocol -> zlen payload + sizeof_ipv4 <= 1500 ->
  exists c, ipv4_hton (decode_ipv4 (encode_ipv4 (header_of n1 dst protocol (zlen payload)) ++ rest)) =
    mk_ipv4 4 5 0 (zlen payload + sizeof_ipv4) 2333 0 233 protocol c (Phy.ip n1) dst.
Proof.
  intros Hip Hdst Hp Hl. pose proof (zlen_nonneg payload). unfold sizeof_ipv4 in Hl.
  assert (Hu : is_u16 (zlen payload + sizeof_ipv4)) by (unfold is_u16, sizeof_ipv4; lia).
  rewrite decode_encode_ipv4.
  - eexists. unfold header_of, set_checksum, ipv4_hton, build_header. cbn [version ihl tos length16
      id Net.flags ttl Net.protocol checksum src Net.dst].
    rewrite (u16_small (zlen payload + sizeof_ipv4)) by done.
    rewrite !htons_involutive, !htonl_involutive by (done || unfold is_u16; lia). done.
  - pose proof (wf_build_header n1 dst protocol (zlen payload) Hip Hdst Hp) as Hwf.
    unfold header_of, set_checksum, wf_ipv4 in *. cbn [version ihl tos length16
      id Net.flags ttl Net.protocol checksum src Net.dst] in *.
    intuition (auto with duck).
Qed.

Lemma recv_ipv4 {W1} (n1 : Phy.net W1) (n : net) protocol (payload padding : list Z) :
  ipv4_hook conf = None -> is_u32 (Phy.ip n1) -> is_u32 (Phy.ip n) -> is_u8 protocol ->
  zlen payload + sizeof_ipv4 <= 1500 ->
  let f := encode_ipv4 (header_of n1 (Phy.ip n) protocol (zlen payload)) ++ payload ++ padding in
  ducknet_ipv4_packet_handle n f (zlen f) =
    if protocol =? DUCKNET_IPv4_ICMP then
      ducknet_icmp_packet_handle (conf_phy conf) (icmp_hook conf) n (Phy.ip n1) (Phy.ip n)
        (payload ++ padding) (zlen payload)
    else if protocol =? DUCKNET_IPv4_UDP then
      ducknet_udp_packet_handle (udp_hook conf) n (Phy.ip n1) (Phy.ip n)
        (payload ++ padding) (zlen payload)
    else (n, -1).
Proof.
  intros Hh Hip1 Hip Hp Hl. cbn zeta. unfold ducknet_ipv4_packet_handle. rewrite Hh.
  destruct (recv_header n1 (Phy.ip n) protocol payload (payload ++ padding)) as (c & E); [done..|].
  rewrite E. cbn zeta. pose proof (zlen_nonneg payload). pose proof (zlen_nonneg padding).
  set (f := _ ++ payload ++ padding).
  assert (Hz : zlen f = zlen payload + 20 + zlen padding).
  { unfold f. rewrite !zlen_app. change (zlen (encode_ipv4 _)) with 20. lia. }
  change (zdrop sizeof_ipv4 f) with (payload ++ padding).
  cbn [version ihl length16 Net.flags Net.protocol src Net.dst].
  destruct (Z.ltb_spec (zlen f) sizeof_ipv4); [unfold sizeof_ipv4 in *; lia|].
  change (0 <? 0) with false. change (4 =? 4) with true. change (5 =? 5) with true. cbn [negb].
  destruct (Z.ltb_spec (zlen f) (zlen payload + sizeof_ipv4)); [unfold sizeof_ipv4 in *; lia|].
  change (Z.land 0 _ =? 0) with true. cbn [negb]. rewrite Z.eqb_refl, orb_true_r. cbn [negb].
  by rewrite Z.add_simpl_r.
Qed.

(** ** The main loop *)

(** No layer's idle function fails. *)
Lemma idle_returns_0 n : snd (ducknet_idle n) = 0.
Proof.
  unfold ducknet_idle. cbn [chain]. unfold ducknet_utils_idle.
  destruct (gettime (world n)) as [w t]. change (0 <? 0) with false.
  set (n0 := with_time _ _). clearbody n0.
  assert (Hp : forall m, snd (ducknet_phy_idle (conf_phy conf) m) = 0).
  { intros m. unfold ducknet_phy_idle. destruct (_ || _); [|done].
    by destruct (ducknet_phy_flush _ _). }
  specialize (Hp n0). destruct (ducknet_phy_idle _ n0) as [n1 r1]. cbn [snd] in Hp. subst r1.
  cbn [Z.ltb Z.compare ducknet_ether_idle].
  assert (Ha : forall m : net, snd (ducknet_arp_idle m) = 0)
    by (intros m; unfold ducknet_arp_idle; by destruct (_ && _)).
  specialize (Ha n1). destruct (ducknet_arp_idle n1) as [n2 r2]. cbn [snd] in Ha. subst r2.
  cbn [Z.ltb Z.compare].
  assert (Hi : forall m, snd (ducknet_ipv4_idle (conf_phy conf) m) = 0)
    by (intros m; unfold ducknet_ipv4_idle; by destruct (_ && _)).
  specialize (Hi n2). destruct (ducknet_ipv4_idle _ n2) as [n3 r3]. cbn [snd] in Hi. by subst r3.
Qed.

(** One step up to the user's idle hook. *)
Definition before_hook (n : net) : net :=
  let '(n, pkt, len) := ducknet_phy_recv (conf_phy conf) (fst (ducknet_idle n)) in
  let n := with_recv_buf n (write_at 0 pkt (recv_buf n)) in
  if 0 <=? len then fst (ducknet_packet_handle n pkt len) else n.

Lemma step_cases n :
  ducknet_step n = match idle_hook conf with
    | Some idle => let '(n', r) := idle (before_hook n) in if r <? 0 then (n', r) else (n', 0)
    | None => (before_hook n, 0)
    end.
Proof.
  unfold ducknet_step, before_hook. pose proof (idle_returns_0 n) as H.
  destruct (ducknet_idle n) as [n1 r]. cbn [snd] in H. subst r. change (0 <? 0) with false. cbn [fst].
  by destruct (ducknet_phy_recv _ n1) as [[n2 pkt] len].
Qed.

(** [k] steps that all return a non-negative value. *)
Fixpoint steps_ok (k : nat) (n n' : net) : Prop :=
  match k with
  | O => n = n'
  | S k => exists n1 r, ducknet_step n = (n1, r) /\ 0 <= r /\ steps_ok k n1 n'
  end.

(** The main loop ends for one reason only: the user's idle hook returned a
    negative value, which becomes the result.  It ends with [(n', r)] within
    some number of steps if and only if, after some number of steps that did
    not fail, the hook returned [(n', r)] with [r] negative; in particular it
    never ends without a hook. *)
Theorem mainloop_ends_on_idle_hook n n' r :
  (exists fuel, ducknet_mainloop fuel n = Some (n', r)) <->
  (exists k nk idle, steps_ok k n nk /\ idle_hook conf = Some idle /\
     idle (before_hook nk) = (n', r) /\ r < 0).
Proof.
  split.
  - intros [fuel H]. revert n H. induction fuel as [|fuel IH]; intros n H; [done|].
    cbn [ducknet_mainloop] in H. destruct (ducknet_step n) as [n1 r1] eqn:E.
    destruct (Z.ltb_spec r1 0).
    + injection H as <- <-. exists O, n. rewrite step_cases in E.
      destruct (idle_hook conf) as [idle|]; [|injection E as <- <-; lia].
      exists idle. destruct (idle (before_hook n)) as [n2 r2] eqn:E2.
      destruct (Z.ltb_spec r2 0); injection E as <- <-; [done|lia].
    + destruct (IH n1 H) as (k & nk & idle & Hk & Hrest). exists (S k), nk, idle.
      split; [|done]. exists n1, r1. done.
  - intros (k & nk & idle & Hk & Hi & E & Hr). exists (S k). revert n Hk.
    induction k as [|k IH]; intros n Hk; cbn [steps_ok] in Hk; cbn [ducknet_mainloop].
    + subst nk. rewrite step_cases, Hi, E. destruct (Z.ltb_spec r 0); [|lia].
      by destruct (Z.ltb_spec r 0); [|lia].
    + destruct Hk as (n1 & r1 & -> & Hr1 & Hk). destruct (Z.ltb_spec r1 0); [lia|].
      by apply IH.
Qed.

End Ducknet.
Arguments DucknetConfig : clear implicits.

(** The frame of a datagram from [n1]. *)
Definition udp_frame {W} (n1 : net W) (m : list Z) (dst dport sport : Z) (payload : list Z) : list Z :=
  ipv4_frame n1 m dst DUCKNET_IPv4_UDP (udp_datagram (Phy.ip n1) dst dport sport payload).

(** What the sender puts on the wire is what the receiver's handler of UDP gets. *)
Lemma udp_delivery {W1 W2} (conf1 : PhyConfig W1) (conf2 : DucknetConfig W2)
    (n1 : net W1) (n2 : net W2) dport sport payload padding h :
  is_mac (mac n1) -> is_mac (mac n2) -> is_u32 (Phy.ip n1) -> is_u32 (Phy.ip n2) ->
  is_u16 dport -> is_u16 sport ->
  MTU n1 = 1500 -> zlen (sendbuf n1) = MAX_MTU + 64 -> zlen (udp_buf n1) = MAX_MTU + 64 ->
  zlen payload + sizeof_udp + sizeof_ipv4 <= 1500 ->
  ducknet_arp_lookup n1 (Phy.ip n2) = Some (mac n2) ->
  ether_hook conf2 = None -> ipv4_hook conf2 = None ->
  udp_hook conf2 = Some h ->
  let f := udp_frame n1 (mac n2) (Phy.ip n2) dport sport payload in
  exists b1 b2 c,
    ducknet_udp_send conf1 n1 (Phy.ip n2) dport sport payload (zlen payload) =
      ducknet_phy_send conf1 (with_sendbuf (with_udp_buf n1 b1) b2) f /\
    ducknet_ether_packet_handle conf2 n2 (f ++ padding) (zlen (f ++ padding)) =
      (let '(n', _, _, r) := h n2 (Phy.ip n1) (Phy.ip n2)
         (mk_udp sport dport (zlen payload + sizeof_udp) c) (payload ++ padding) (zlen payload) in
       if r <? 0 then (n', r) else (n', 0)).
Proof.
  intros Hm1 Hm2 Hi1 Hi2 Hdp Hsp Hmtu Hsb Hub Hlen Hl Heh Hih Huh f.
  pose proof (zlen_nonneg payload).
  set (d := udp_datagram (Phy.ip n1) (Phy.ip n2) dport sport payload).
  assert (Hzd : zlen d = zlen payload + 8) by apply zlen_udp_datagram.
  unfold sizeof_udp, sizeof_ipv4 in Hlen.
  destruct (udp_send_is_ipv4_send conf1 n1 (Phy.ip n2) dport sport payload) as (b1 & Hb1 & E1);
    [unfold sizeof_udp, sizeof_ipv4; lia|rewrite Hmtu, Hub; done|].
  fold d in E1. cbn zeta in E1.
  destruct (ipv4_send_known conf1 (with_udp_buf n1 b1) (Phy.ip n2) DUCKNET_IPv4_UDP d (mac n2))
    as (b2 & Hb2 & E2); [done..|cbn [MTU with_udp_buf]; rewrite Hzd, Hmtu; unfold sizeof_ipv4; lia|
     cbn [MTU sendbuf with_udp_buf]; rewrite Hmtu, Hsb; done|].
  exists b1, b2,
    (udp_sum (Phy.ip n1) (Phy.ip n2) dport sport payload).
  split; [by rewrite E1, E2|].
  unfold f, udp_frame, ipv4_frame. fold d. rewrite <- !app_assoc.
  pose proof (recv_ether_ipv4 conf2 n2 (mac n2) (mac n1)
    (encode_ipv4 (header_of n1 (Phy.ip n2) DUCKNET_IPv4_UDP (zlen d)) ++ d) padding) as E3.
  cbn zeta in E3. rewrite <- !app_assoc in E3. rewrite E3 by done. clear E1 E2 E3.
  rewrite (recv_ipv4 conf2 n1 n2 DUCKNET_IPv4_UDP d padding) by
    (done || unfold is_u8, DUCKNET_IPv4_UDP, sizeof_ipv4; lia).
  change (DUCKNET_IPv4_UDP =? DUCKNET_IPv4_ICMP) with false. rewrite Z.eqb_refl, Huh.
  unfold ducknet_udp_packet_handle.
  destruct (Z.ltb_spec (zlen d) sizeof_udp); [unfold sizeof_udp in *; lia|].
  unfold d at 1 2, udp_datagram. rewrite <- app_assoc.
  change (zdrop sizeof_udp _) with (payload ++ padding).
  assert (Hu : is_u16 (zlen payload + sizeof_udp)) by (unfold is_u16, sizeof_udp; lia).
  rewrite decode_encode_udp.
  - unfold udp_header, udp_hton. cbn [Net.sport Net.dport udp_length udp_checksum].
    rewrite (u16_small _ Hu), !htons_involutive by done.
    by replace (zlen d - sizeof_udp) with (zlen payload) by (unfold sizeof_udp; lia).
  - unfold wf_udp, udp_header. cbn [Net.sport Net.dport udp_length udp_checksum].
    conj_split; try apply htons_range. apply checksum_range.
Qed.

(** C12: UDP from end to end.  A datagram sent by one stack to the address of another whose MAC
    address it knows leaves the sender as one frame; when that frame, with any
    padding, reaches the other stack, its UDP handler is called exactly with
    the sender's and its own address, the ports, the length and the payload,
    and its return value decides the result. *)
Theorem udp_end_to_end {W1 W2} (conf1 : PhyConfig W1) (conf2 : DucknetConfig W2)
    (n1 : net W1) (n2 : net W2) dport sport payload padding h :
  is_mac (mac n1) -> is_mac (mac n2) -> is_u32 (Phy.ip n1) -> is_u32 (Phy.ip n2) ->
  is_u16 dport -> is_u16 sport ->
  MTU n1 = 1500 -> zlen (sendbuf n1) = MAX_MTU + 64 -> zlen (udp_buf n1) = MAX_MTU + 64 ->
  zlen payload + sizeof_udp + sizeof_ipv4 <= 1500 ->
  ducknet_arp_lookup n1 (Phy.ip n2) = Some (mac n2) ->
  phy_packet_handle (conf_phy conf2) = None -> ether_hook conf2 = None -> ipv4_hook conf2 = None ->
  udp_hook conf2 = Some h ->
  exists b1 b2 f c,
    ducknet_udp_send conf1 n1 (Phy.ip n2) dport sport payload (zlen payload) =
      ducknet_phy_send conf1 (with_sendbuf (with_udp_buf n1 b1) b2) f /\
    ducknet_packet_handle conf2 n2 (f ++ padding) (zlen (f ++ padding)) =
      (let '(n', _, _, r) := h n2 (Phy.ip n1) (Phy.ip n2)
         (mk_udp sport dport (zlen payload + sizeof_udp) c) (payload ++ padding) (zlen payload) in
       if r <? 0 then (n', r) else (n', 0)).
Proof.
  intros. destruct (udp_delivery conf1 conf2 n1 n2 dport sport payload padding h) as (b1 & b2 & c & E1 & E2);
    [done..|].
  exists b1, b2, (udp_frame n1 (mac n2) (Phy.ip n2) dport sport payload), c. split; [done|]. rewrite <- E2. unfold ducknet_packet_handle, ducknet_phy_packet_handle.
  by replace (phy_packet_handle (conf_phy conf2)) with (@None (list Z -> Z -> W2 -> W2 * list Z * Z)).
Qed.

(** ** Instances *)

Definition quiet_conf (h : option (ip_hook (W := wire) UDPHeader)) : DucknetConfig wire :=
  mk_config 1000000 recorder demo_mac None None 0x0a000002 None None h None.

Lemma other_frames_are_dropped_witness :
  ducknet_packet_handle (quiet_conf None) (demo_net []) (replicate 60 7) 60 = (demo_net [], -1).
Proof.
  apply (other_frames_are_dropped (quiet_conf None) (demo_net []) (replicate 60 7) 60);
    [reflexivity|reflexivity|by apply bytesb_bytes|vm_compute; discriminate| |
     vm_compute; discriminate|vm_compute; discriminate].
  split; [reflexivity|]. cbn. unfold demo_mac. bytes_lit.
Defined.

(** The receiver's handler records the payload it is given. *)
Definition record_payload : ip_hook (W := wire) UDPHeader :=
  λ n _ _ hdr c len, (with_world n (ztake len c :: world n), hdr, c, 0).
Definition sender : net wire :=
  mk_net [] 5000 1000000 (replicate 1564 0) [2;0;0;0;0;9] 1500 0x0a000009
    (phy_init 5000 1000000 0) (mk_arp_state [mk_arp_entry 0x0a000002 demo_mac 9000] [] 5000 100 0)
    (mk_ipv4_state [] [] 5000 100 0) (replicate 1564 0) (replicate 1564 0).

Lemma udp_end_to_end_witness :
  exists f b1 b2,
    ducknet_udp_send recorder sender 0x0a000002 53 2333 [1; 2; 3] 3 =
      ducknet_phy_send recorder (with_sendbuf (with_udp_buf sender b1) b2) f /\
    ducknet_packet_handle (quiet_conf (Some record_payload)) (demo_net []) (f ++ [0; 0]) (zlen (f ++ [0; 0]))
      = (with_world (demo_net []) [[1; 2; 3]], 0).
Proof.
  destruct (udp_end_to_end recorder (quiet_conf (Some record_payload)) sender (demo_net [])
    53 2333 [1; 2; 3] [0; 0] record_payload) as (b1 & b2 & f & c & H1 & H2);
    [split; [reflexivity|cbn; unfold demo_mac; bytes_lit]|
     split; [reflexivity|cbn; unfold demo_mac; bytes_lit]|
     unfold is_u32; cbn; lia|unfold is_u32; cbn; lia|unfold is_u16; lia|unfold is_u16; lia|
     reflexivity|reflexivity|reflexivity|vm_compute; discriminate|reflexivity|reflexivity|reflexivity|
     reflexivity|reflexivity|].
  exists f, b1, b2. split; [exact H1|exact H2].
Defined.

End Ducknet.
