(* ===== verification/NetInvariant.v ===== *)
(** * NetInvariant: memory safety of the stack

    Every buffer of the stack keeps its size through every operation (a write
    past the end of a buffer would make the list longer), and the tables stay
    within their bounds. *)
From S2P Require Import Prelude DucknetUtils Net Phy Arp Ipv4 Transport Ducknet.

Module NetInvariant.
Import DucknetUtils Net Phy Arp Ipv4 Transport Ducknet.

Section Invariant.
Context {W : Type}.
Abbreviation net := (net W).

Definition wf_net (n : net) : Prop :=
  is_mac (mac n) /\ MTU n = 1500 /\
  zlen (sendbuf n) = MAX_MTU + 64 /\ zlen (udp_buf n) = MAX_MTU + 64 /\ zlen (recv_buf n) = MAX_MTU + 64 /\
  zlen (arp_table (arp n)) <= ARP_TABLE_SIZE /\
  zlen (arp_query_table (arp n)) <= ARP_TABLE_SIZE /\
  Forall (λ e, is_mac (ae_mac e)) (arp_table (arp n)) /\
  wf_tosend (ipv4 n).

(** The invariant looks at nothing else. *)
Lemma wf_net_ext (n n' : net) :
  mac n' = mac n -> MTU n' = MTU n -> zlen (sendbuf n') = zlen (sendbuf n) ->
  zlen (udp_buf n') = zlen (udp_buf n) -> zlen (recv_buf n') = zlen (recv_buf n) -> arp_table (arp n') = arp_table (arp n) ->
  arp_query_table (arp n') = arp_query_table (arp n) ->
  tosend_table (ipv4 n') = tosend_table (ipv4 n) -> tosend_free (ipv4 n') = tosend_free (ipv4 n) ->
  wf_net n -> wf_net n'.
Proof. unfold wf_net, wf_tosend. by intros -> -> -> -> -> -> -> -> ->. Qed.

Lemma wf_phy_send conf (n : net) a : wf_net n -> wf_net (fst (ducknet_phy_send conf n a)).
Proof.
  destruct (phy_send_frame conf n a) as [(_ & _ & Hs & Hm & Hmtu & _ & Hv & Hu & _ & Hrb) Ha].
  apply wf_net_ext; rewrite ?Hs, ?Hu, ?Hv, ?Ha, ?Hrb; done.
Qed.

Lemma zlen_write_fit off (src dst : list Z) m :
  0 <= off -> zlen src <= m -> off + m <= zlen dst -> zlen (write_at off src dst) = zlen dst.
Proof. intros. apply zlen_write_at; lia. Qed.

Lemma wf_sendbuf (n : net) buf : wf_net n -> zlen buf = zlen (sendbuf n) -> wf_net (with_sendbuf n buf).
Proof. intros Hn Hb. by apply (wf_net_ext n). Qed.

Lemma wf_arp_send conf (n : net) d op payload len :
  is_mac d -> wf_net n -> wf_net (fst (ducknet_arp_send conf n d op payload len)).
Proof.
  intros [Hd _] Hn. unfold ducknet_arp_send.
  destruct (Z.ltb_spec len 0); [done|]. destruct (Z.ltb_spec (MTU n) (len + sizeof_arp)); [done|].
  apply wf_phy_send, wf_sendbuf; [done|].
  destruct Hn as ([Hm _] & Hmtu & Hsb & _). rewrite Hmtu in *. unfold sizeof_arp in *.
  set (eh := encode_ether _). assert (He : zlen eh = 14).
  { unfold eh, encode_ether, zlen. rewrite !length_app, length_le_bytes.
    cbn [eth_dst eth_src]. rewrite Hd, Hm. done. }
  pose proof (zlen_ztake_le len payload ltac:(lia)) as Ht.
  assert (E1 : zlen (write_at 0 eh (sendbuf n)) = 1564)
    by (rewrite (zlen_write_fit _ _ _ 14); rewrite ?Hsb; unfold MAX_MTU; lia).
  set (ah := encode_arp _). assert (Ha : zlen ah = 8) by done.
  assert (E2 : zlen (write_at sizeof_ether ah (write_at 0 eh (sendbuf n))) = 1564)
    by (rewrite (zlen_write_fit _ _ _ 8); rewrite ?E1; unfold sizeof_ether; lia).
  rewrite (zlen_write_fit _ _ _ len); rewrite ?E2, ?Hsb; unfold sizeof_ether; lia || done.
Qed.

Lemma Forall_insert_at {A} (P : A -> Prop) l x t : P x -> Forall P t -> Forall P (insert_at l x t).
Proof.
  intros. unfold insert_at, ztake, zdrop. apply Forall_app. split; [by apply Forall_take|].
  apply Forall_cons_iff. split; [done|by apply Forall_drop].
Qed.
Lemma zlen_insert_at {A} l (x : A) t : zlen (insert_at l x t) = zlen t + 1.
Proof.
  unfold insert_at, ztake, zdrop, zlen. rewrite length_app. cbn [length].
  rewrite length_take, length_drop. lia.
Qed.
Lemma Forall_zset {A} (P : A -> Prop) l i x : P x -> Forall P l -> Forall P (zset l i x).
Proof. intros. unfold zset. by apply Forall_insert. Qed.

Lemma wf_arp_update (n : net) ip m : is_mac m -> wf_net n -> wf_net (fst (ducknet_arp_update n ip m)).
Proof.
  intros Hm Hn. pose proof Hn as (H1 & H2 & H3 & H4 & H4' & H5 & H6 & H7 & H8). unfold ducknet_arp_update.
  destruct (_ || _); [destruct (Z.eqb_spec (zlen (arp_table (arp n))) ARP_TABLE_SIZE); [done|]|];
    unfold wf_net; cbn [fst with_arp_table with_arp mac MTU sendbuf udp_buf recv_buf arp ipv4 arp_table
      arp_query_table]; conj_split; try done.
  - rewrite zlen_insert_at. lia.
  - by apply Forall_insert_at.
  - by rewrite zlen_zset.
  - by apply Forall_zset.
Qed.

Lemma wf_arp_query conf (n : net) ip : wf_net n -> wf_net (fst (ducknet_arp_query conf n ip)).
Proof.
  intros Hn. pose proof Hn as (H1 & H2 & H3 & H4 & H4' & H5 & H6 & H7 & H8). unfold ducknet_arp_query.
  destruct (_ || _); [|done].
  destruct (Z.eqb_spec (zlen (arp_query_table (arp n))) ARP_TABLE_SIZE); [done|].
  apply wf_arp_send; [split; [done|unfold ducknet_ether_broadcast_addr; bytes_lit]|].
  unfold wf_net. cbn [with_query_table with_arp mac MTU sendbuf udp_buf recv_buf arp ipv4 arp_table
      arp_query_table]. conj_split; try done. rewrite zlen_insert_at. lia.
Qed.

Lemma zlen_filter_le {A} (f : A -> bool) l : zlen (List.filter f l) <= zlen l.
Proof. unfold zlen. induction l as [|x l IH]; cbn; [lia|]. destruct (f x); cbn; lia. Qed.

Lemma wf_arp_idle (n : net) : wf_net n -> wf_net (fst (ducknet_arp_idle n)).
Proof.
  intros Hn. pose proof Hn as (H1 & H2 & H3 & H4 & H4' & H5 & H6 & H7 & H8). unfold ducknet_arp_idle.
  destruct (_ && _); [by apply (wf_net_ext n)|].
  unfold wf_net. cbn [fst with_arp mac MTU sendbuf udp_buf recv_buf arp ipv4 arp_table arp_query_table].
  conj_split; try done.
  - etransitivity; [apply zlen_filter_le|done].
  - etransitivity; [apply zlen_filter_le|done].
  - unfold expire_entries. apply List.Forall_forall. intros e [He _]%filter_In.
    by apply (proj1 (Forall_forall _ _) H7).
Qed.

Lemma wf_lookup (n : net) ip m : wf_net n -> ducknet_arp_lookup n ip = Some m -> is_mac m.
Proof.
  intros (_ & _ & _ & _ & _ & _ & _ & Hm & _). unfold ducknet_arp_lookup.
  pose proof (bisect_nonneg (map ae_ip (arp_table (arp n))) ip).
  set (l := bisect _ _) in *. destruct (Z.leb_spec (zlen (arp_table (arp n))) l) as [|Hl]; [done|].
  cbn [orb]. destruct (negb _); [done|]. intros [= <-].
  apply (proj1 (Forall_forall _ _) Hm), nth_In. unfold zlen in Hl. lia.
Qed.

(** Building a packet fits the 1564 bytes of its buffer. *)
Lemma build_packet_fits (n : net) p dst protocol payload len buf :
  wf_net n -> zlen p = MAX_MTU + 64 ->
  ipv4_build_packet n p dst protocol payload len = Some buf ->
  zlen buf = MAX_MTU + 64 /\ 0 <= len <= 1480.
Proof.
  intros ([Hm _] & Hmtu & _) Hp. unfold ipv4_build_packet.
  destruct (Z.ltb_spec len 0); [done|]. destruct (Z.ltb_spec (MTU n) (len + sizeof_ipv4)); [done|].
  rewrite Hmtu in *. unfold sizeof_ipv4 in *. intros [= <-]. split; [|lia].
  assert (Hm' : zlen (mac n) = 6) by (unfold zlen; by rewrite Hm).
  pose proof (zlen_ztake_le len payload ltac:(lia)) as Ht. unfold MAX_MTU in *.
  assert (E1 : zlen (write_at 6 (mac n) p) = 1564) by (rewrite (zlen_write_fit _ _ _ 6); lia).
  set (p1 := write_at 6 (mac n) p) in *.
  assert (E2 : zlen (write_at 12 (le_bytes 2 (ducknet_htons DUCKNET_ETHERTYPE_IPv4)) p1) = 1564)
    by (rewrite (zlen_write_fit _ _ _ 2), E1; rewrite ?zlen_le_bytes; lia).
  set (p2 := write_at 12 _ p1) in *. set (h := encode_ipv4 _).
  assert (Hh : zlen h = 20) by done.
  assert (E3 : zlen (write_at sizeof_ether h p2) = 1564)
    by (rewrite (zlen_write_fit _ _ _ 20), E2; unfold sizeof_ether; lia).
  rewrite (zlen_write_fit _ _ _ len); rewrite ?E3; unfold sizeof_ether; lia.
Qed.

Lemma zlen_write_mac m buf : is_mac m -> zlen buf = MAX_MTU + 64 ->
  zlen (write_at 0 m buf) = MAX_MTU + 64.
Proof.
  intros [Hm _] Hb. rewrite (zlen_write_fit _ _ _ 6); [done|lia| |rewrite Hb; done].
  unfold zlen. by rewrite Hm.
Qed.

Lemma wf_set_slot (n : net) i slot fr :
  wf_net n -> 0 <= i < 64 -> zlen (pkt slot) = MAX_MTU + 64 -> wf_free fr ->
  wf_net (with_tosend n (zset (tosend_table (ipv4 n)) i slot) fr).
Proof.
  intros (H1 & H2 & H3 & H4 & H4' & H5 & H6 & H7 & (H8 & H9 & H10)) Hi Hs Hfr.
  unfold wf_net, wf_tosend. cbn [with_tosend with_ipv4 mac MTU sendbuf udp_buf recv_buf arp ipv4 tosend_table
    tosend_free]. conj_split; try done; [by rewrite zlen_zset|by apply Forall_zset].
Qed.

Lemma wf_ipv4_send conf (n : net) dst protocol payload len :
  wf_net n -> wf_net (fst (ducknet_ipv4_send conf n dst protocol payload len)).
Proof.
  intros Hn. unfold ducknet_ipv4_send. destruct (ducknet_arp_lookup n dst) as [m|] eqn:El.
  - destruct (ipv4_build_packet _ _ _ _ _ _) as [buf|] eqn:E; [|done].
    pose proof Hn as (_ & _ & H3 & _).
    apply build_packet_fits in E as [Hb _]; [|done..].
    apply wf_phy_send, wf_sendbuf; [done|]. rewrite H3.
    apply zlen_write_mac; [by eapply wf_lookup|done].
  - pose proof (wf_arp_query conf n dst Hn) as Hq.
    destruct (ducknet_arp_query conf n dst) as [n1 r]. cbn [fst] in Hq. clear Hn El.
    pose proof Hq as (_ & _ & _ & _ & _ & _ & _ & _ & Ht). pose proof Ht as (_ & _ & Hfr).
    destruct (Z.eqb_spec (find_tosend_free (tosend_free (ipv4 n1))) (-1)); [done|].
    destruct (find_tosend_free_spec _ Hfr) as [[? _]|(Hid & _)]; [done|].
    destruct (ipv4_build_packet _ _ _ _ _ _) as [buf|] eqn:E; [|done].
    apply build_packet_fits in E as [Hb _]; [|done|by apply wf_slot].
    apply wf_set_slot; [done|done|done|]. by apply wf_free_mark.
Qed.

Lemma wf_idle_slot conf (n : net) i : 0 <= i < 64 -> wf_net n -> wf_net (idle_slot conf n i).
Proof.
  intros Hi Hn. pose proof Hn as (_ & _ & _ & _ & _ & _ & _ & _ & Ht). pose proof Ht as (_ & _ & Hfr).
  unfold idle_slot. destruct (is_free _ _); [done|]. destruct (_ <? _).
  - rewrite <- (zset_zget_id no_slot (tosend_table (ipv4 n)) i)
      by (destruct Ht as (Hl & _); unfold TOSEND_TABLE_SIZE in Hl; lia).
    apply wf_set_slot; [done|done|by apply wf_slot|by apply wf_free_mark].
  - destruct (ducknet_arp_lookup _ _) as [m|] eqn:E.
    + apply wf_phy_send, wf_set_slot; [done|done| |by apply wf_free_mark].
      cbn [pkt]. apply zlen_write_mac; [by eapply wf_lookup|by apply wf_slot].
    + by apply wf_arp_query.
Qed.

Lemma wf_ipv4_idle conf (n : net) : wf_net n -> wf_net (fst (ducknet_ipv4_idle conf n)).
Proof.
  intros Hn. unfold ducknet_ipv4_idle. destruct (_ && _); [by apply (wf_net_ext n)|]. cbn [fst].
  set (n0 := with_ipv4 n _). assert (Hn0 : wf_net n0) by (by apply (wf_net_ext n)). clearbody n0.
  assert (Hr : Forall (λ i, 0 <= i < 64) (seqZ 0 TOSEND_TABLE_SIZE)).
  { apply List.Forall_forall. intros i Hi%list_elem_of_In%elem_of_seqZ.
    unfold TOSEND_TABLE_SIZE in Hi. lia. }
  revert n0 Hn0 Hr. induction (seqZ 0 TOSEND_TABLE_SIZE) as [|i idx IH]; intros n0 Hn0 Hr; [done|].
  apply Forall_cons_iff in Hr as [Hi Hr]. cbn [fold_left]. apply IH; [|done]. by apply wf_idle_slot.
Qed.

Lemma wf_udp_send conf (n : net) dst dport sport payload len :
  wf_net n -> wf_net (fst (ducknet_udp_send conf n dst dport sport payload len)).
Proof.
  intros Hn. pose proof Hn as (_ & Hmtu & _ & Hu & _). unfold ducknet_udp_send.
  destruct (Z.ltb_spec len 0); [done|].
  destruct (Z.ltb_spec (MTU n) (len + sizeof_udp + sizeof_ipv4)); [done|].
  apply wf_ipv4_send. apply (wf_net_ext n); try done. cbn [with_udp_buf udp_buf].
  rewrite Hmtu in *. unfold sizeof_udp, sizeof_ipv4, MAX_MTU in *.
  pose proof (zlen_ztake_le len payload ltac:(lia)) as Ht.
  set (h := encode_udp _). assert (Hh : zlen h = 8) by done.
  assert (E1 : zlen (write_at 0 h (udp_buf n)) = 1564) by (rewrite (zlen_write_fit _ _ _ 8); lia).
  assert (E2 : zlen (write_at 8 (ztake len payload) (write_at 0 h (udp_buf n))) = 1564)
    by (rewrite (zlen_write_fit _ _ _ len); lia).
  rewrite (zlen_write_fit _ _ _ 2); rewrite ?E2, ?zlen_le_bytes; lia.
Qed.

(** ** The receive path *)

(** What a hook of the application must respect: the stack's own state, and the
    buffer it is shown. *)
Definition hook_ok {H} (h : hook (W := W) H) : Prop :=
  forall n hdr c len, wf_net n -> bytes c ->
    let '(n', _, c', _) := h n hdr c len in wf_net n' /\ bytes c' /\ zlen c' = zlen c.
Definition ip_hook_ok {H} (h : ip_hook (W := W) H) : Prop :=
  forall n src dst hdr c len, wf_net n -> bytes c ->
    let '(n', _, c', _) := h n src dst hdr c len in wf_net n' /\ bytes c' /\ zlen c' = zlen c.
Definition opt {A} (P : A -> Prop) (o : option A) : Prop :=
  match o with Some x => P x | None => True end.

(** A hook that may be absent leaves a well-formed state and buffer. *)
Lemma run_hook {H} (o : option (hook (W := W) H)) n hdr c len :
  opt hook_ok o -> wf_net n -> bytes c ->
  let '(n', _, c', _) := match o with Some h => h n hdr c len | None => (n, hdr, c, 0) end in
  wf_net n' /\ bytes c' /\ zlen c' = zlen c.
Proof. destruct o as [h|]; cbn; intros Ho Hn Hc; [by apply Ho|done]. Qed.
Lemma run_ip_hook {H} (o : option (ip_hook (W := W) H)) n src dst hdr c len :
  opt ip_hook_ok o -> wf_net n -> bytes c ->
  let '(n', _, c', _) := match o with Some h => h n src dst hdr c len | None => (n, hdr, c, 0) end in
  wf_net n' /\ bytes c' /\ zlen c' = zlen c.
Proof. destruct o as [h|]; cbn; intros Ho Hn Hc; [by apply Ho|done]. Qed.

Lemma is_mac_read off (c : list Z) : 0 <= off -> bytes c -> off + 6 <= zlen c -> is_mac (read_at off 6 c).
Proof.
  intros Ho Hc Hl. split; [|auto with duck]. unfold read_at, ztake, zdrop, zlen in *.
  rewrite length_take, length_drop. lia.
Qed.

Lemma zlen_zdrop_ge {A} k (l : list A) : 0 <= k -> zlen l - k <= zlen (zdrop k l).
Proof. unfold zlen, zdrop. rewrite length_drop. lia. Qed.

Lemma wf_arp_packet conf o (n : net) pkt len :
  opt hook_ok o -> wf_net n -> bytes pkt -> len <= zlen pkt ->
  wf_net (fst (ducknet_arp_packet_handle conf o n pkt len)).
Proof.
  intros Ho Hn Hp Hl. unfold ducknet_arp_packet_handle. destruct (_ <? _); [done|].
  pose proof (run_hook o n (arp_hton (decode_arp pkt)) (zdrop sizeof_arp pkt) (len - sizeof_arp) Ho Hn
    ltac:(auto with duck)) as Hr. cbn zeta.
  destruct (match o with Some _ => _ | None => _ end) as [[[n1 hdr] c] r].
  destruct Hr as (Hn1 & Hc & Hz). destruct (r <? 0); [done|]. destruct (_ && _); [|done].
  destruct (negb _); [done|]. destruct (negb _); [done|].
  destruct (Z.ltb_spec (len - sizeof_arp) sizeof_arp_payload); [done|].
  pose proof (zlen_zdrop_ge sizeof_arp pkt ltac:(done)) as Hd.
  assert (Hm : is_mac (read_at 0 6 c)).
  { apply is_mac_read; [lia|done|]. unfold sizeof_arp_payload in *. lia. }
  destruct (op hdr =? DUCKNET_ARP_REQUEST).
  - destruct (_ =? _); [|done].
    pose proof (wf_arp_send conf n1 (read_at 0 6 c) DUCKNET_ARP_REPLY) as Hs.
    cbn [sha decode_arp_payload].
    match goal with |- context [ducknet_arp_send ?a ?b ?c' ?d ?e ?f] =>
      specialize (Hs e f Hm Hn1); destruct (ducknet_arp_send a b c' d e f) end. done.
  - destruct (op hdr =? DUCKNET_ARP_REPLY); [|done]. cbn [sha spa decode_arp_payload].
    match goal with |- context [ducknet_arp_update ?a ?b ?m] =>
      pose proof (wf_arp_update a b m Hm Hn1) as Hs; destruct (ducknet_arp_update a b m) end. done.
Qed.

Lemma wf_icmp_packet conf o (n : net) src dst pkt len :
  opt ip_hook_ok o -> wf_net n -> bytes pkt ->
  wf_net (fst (ducknet_icmp_packet_handle conf o n src dst pkt len)).
Proof.
  intros Ho Hn Hp. unfold ducknet_icmp_packet_handle. destruct (_ <? _); [done|].
  pose proof (run_ip_hook o n src dst (icmp_hton (decode_icmp pkt)) (zdrop sizeof_icmp pkt)
    (len - sizeof_icmp) Ho Hn ltac:(auto with duck)) as Hr. cbn zeta.
  destruct (match o with Some _ => _ | None => _ end) as [[[n1 hdr] c] r].
  destruct Hr as (Hn1 & Hc & Hz). destruct (r <? 0); [done|]. destruct (_ =? _); [|done].
  destruct (negb _); [done|].
  match goal with |- context [ducknet_ipv4_send ?a ?b ?c' ?d ?e ?f] =>
    pose proof (wf_ipv4_send a b c' d e f Hn1) as Hs; destruct (ducknet_ipv4_send a b c' d e f) end.
  done.
Qed.

Lemma wf_udp_packet o (n : net) src dst pkt len :
  opt ip_hook_ok o -> wf_net n -> bytes pkt ->
  wf_net (fst (ducknet_udp_packet_handle o n src dst pkt len)).
Proof.
  intros Ho Hn Hp. unfold ducknet_udp_packet_handle. destruct (_ <? _); [done|].
  pose proof (run_ip_hook o n src dst (udp_hton (decode_udp pkt)) (zdrop sizeof_udp pkt)
    (len - sizeof_udp) Ho Hn ltac:(auto with duck)) as Hr. cbn zeta.
  destruct (match o with Some _ => _ | None => _ end) as [[[n1 hdr] c] r].
  by destruct Hr as (Hn1 & Hc & Hz), (r <? 0).
Qed.

Variable conf : DucknetConfig W.
Variable gettime : W -> W * Z.

(** The hooks respect the stack; the driver's [recv] stores bytes, no more than the 1564 the
    buffer it is given has, and returns no more than it stored. *)
Definition driver_ok (p : PhyConfig W) : Prop :=
  opt (λ rc, forall w, let '(_, pkt, len) := rc w in bytes pkt /\ len <= zlen pkt <= MAX_MTU + 64) (recv p) /\
  opt (λ h, forall pkt len w, bytes pkt ->
         let '(_, pkt', _) := h pkt len w in bytes pkt' /\ zlen pkt' = zlen pkt) (phy_packet_handle p).
Definition conf_ok : Prop :=
  driver_ok (conf_phy conf) /\ is_mac (conf_mac conf) /\
  opt hook_ok (ether_hook conf) /\ opt hook_ok (arp_hook conf) /\ opt hook_ok (ipv4_hook conf) /\
  opt ip_hook_ok (icmp_hook conf) /\ opt ip_hook_ok (udp_hook conf) /\
  opt (λ idle, forall n, wf_net n -> wf_net (fst (idle n))) (idle_hook conf).

Hypothesis Hconf : conf_ok.

Lemma wf_ipv4_packet (n : net) pkt len :
  wf_net n -> bytes pkt -> wf_net (fst (ducknet_ipv4_packet_handle conf n pkt len)).
Proof.
  destruct Hconf as (_ & _ & _ & _ & Ho & Hicmp & Hudp & _).
  intros Hn Hp. unfold ducknet_ipv4_packet_handle. destruct (_ <? _); [done|].
  pose proof (run_hook (ipv4_hook conf) n (ipv4_hton (decode_ipv4 pkt)) (zdrop sizeof_ipv4 pkt)
    (len - sizeof_ipv4) Ho Hn ltac:(auto with duck)) as Hr. cbn zeta.
  destruct (match ipv4_hook conf with Some _ => _ | None => _ end) as [[[n1 hdr] c] r].
  destruct Hr as (Hn1 & Hc & Hz). destruct (r <? 0); [done|].
  repeat (destruct (negb _); [done|]). destruct (len <? _); [done|].
  repeat (destruct (negb _); [done|]).
  destruct (_ =? _); [by apply wf_icmp_packet|]. destruct (_ =? _); [by apply wf_udp_packet|done].
Qed.

Lemma wf_packet (n : net) pkt len :
  wf_net n -> bytes pkt -> len <= zlen pkt -> wf_net (fst (ducknet_packet_handle conf n pkt len)).
Proof.
  destruct Hconf as ((_ & Hph) & _ & Ho & Harp & _).
  assert (He : forall n pkt, wf_net n -> bytes pkt -> len <= zlen pkt ->
    wf_net (fst (ducknet_ether_packet_handle conf n pkt len))).
  { clear n pkt. intros n pkt Hn Hp Hl. unfold ducknet_ether_packet_handle. destruct (_ <? _); [done|].
    pose proof (run_hook (ether_hook conf) n (ether_hton (decode_ether pkt)) (zdrop sizeof_ether pkt)
      (len - sizeof_ether) Ho Hn ltac:(auto with duck)) as Hr. cbn zeta.
    destruct (match ether_hook conf with Some _ => _ | None => _ end) as [[[n1 hdr] c] r].
    destruct Hr as (Hn1 & Hc & Hz). destruct (r <? 0); [done|]. destruct (_ && _); [done|].
    pose proof (zlen_zdrop_ge sizeof_ether pkt ltac:(done)) as Hd.
    destruct (_ =? _); [apply wf_arp_packet; try done; lia|].
    destruct (_ =? _); [by apply wf_ipv4_packet|done]. }
  intros Hn Hp Hl. unfold ducknet_packet_handle, ducknet_phy_packet_handle.
  destruct (phy_packet_handle (conf_phy conf)) as [h|]; [|by apply He].
  cbn [opt] in Hph. specialize (Hph pkt len (world n) Hp). destruct (h pkt len (world n)) as [[w p] r].
  destruct Hph as [Hp' Hz]. destruct (r <? 0); [by apply (wf_net_ext n)|].
  apply He; [by apply (wf_net_ext n)|done|lia].
Qed.

Lemma wf_phy_idle (n : net) : wf_net n -> wf_net (fst (ducknet_phy_idle (conf_phy conf) n)).
Proof.
  intros Hn. unfold ducknet_phy_idle, ducknet_phy_flush.
  repeat (case_match; simplify_eq; try done; try by apply (wf_net_ext n)).
Qed.

Lemma wf_idle (n : net) : wf_net n -> wf_net (fst (ducknet_idle conf gettime n)).
Proof.
  intros Hn. unfold ducknet_idle.
  assert (Hc : forall fs, (forall f, In f fs -> forall m, wf_net m -> wf_net (fst (f m))) ->
    forall m, wf_net m -> wf_net (fst (chain fs m))).
  { induction fs as [|f fs IH]; intros Hf m Hm; [done|]. cbn [chain].
    pose proof (Hf f (or_introl eq_refl) m Hm) as Hfm. destruct (f m) as [m1 r]. cbn [fst] in Hfm.
    destruct (r <? 0); [done|]. apply IH; [|done]. intros g Hg. apply Hf. by right. }
  apply Hc; [|done]. clear n Hn Hc. intros f Hin m Hm. cbn [In] in Hin.
  destruct Hin as [<-|[<-|[<-|[<-|[<-|[<-|[<-|[]]]]]]]]; try done.
  - unfold ducknet_utils_idle. destruct (gettime (world m)). by apply (wf_net_ext m).
  - by apply wf_phy_idle.
  - by apply wf_arp_idle.
  - by apply wf_ipv4_idle.
Qed.

Lemma wf_step (n : net) : wf_net n -> wf_net (fst (ducknet_step conf gettime n)).
Proof.
  intros Hn. rewrite step_cases. destruct Hconf as ((Hrc & _) & _ & _ & _ & _ & _ & _ & Hidle).
  assert (Hb : wf_net (before_hook conf gettime n)).
  { unfold before_hook, ducknet_phy_recv. pose proof (wf_idle n Hn) as Hi.
    set (n1 := fst (ducknet_idle conf gettime n)) in *. clearbody n1.
    destruct (recv (conf_phy conf)) as [rc|]; cbn [opt] in Hrc.
    2: { cbv zeta. change (0 <=? -1) with false. cbn iota. by apply (wf_net_ext n1). }
    specialize (Hrc (world n1)). destruct (rc (world n1)) as [[w pkt] len]. destruct Hrc as (Hp & Hl & Hfit).
    cbv zeta. set (n2 := with_recv_buf _ _). assert (Hn2 : wf_net n2).
    { apply (wf_net_ext n1); try done. cbn. rewrite (zlen_write_fit _ _ _ (zlen pkt)); [done|done|done|].
      destruct Hi as (_ & _ & _ & _ & -> & _). done. }
    destruct (0 <=? len); [by apply wf_packet|done]. }
  destruct (idle_hook conf) as [idle|]; [|done]. cbn [opt] in Hidle.
  specialize (Hidle _ Hb). destruct (idle _) as [n2 r]. by destruct (r <? 0).
Qed.

(** ** Reachable states: what an application can call, in any order *)
Inductive call :=
| C_step
| C_flush
| C_packet (pkt : list Z) (len : Z)
| C_udp_send (dst dport sport : Z) (payload : list Z) (len : Z)
| C_ipv4_send (dst protocol : Z) (payload : list Z) (len : Z)
| C_arp_query (ip : Z).

Definition call_ok (c : call) : Prop :=
  match c with C_packet pkt len => bytes pkt /\ len <= zlen pkt | _ => True end.

Definition do_call (c : call) (n : net) : net :=
  fst match c with
  | C_step => ducknet_step conf gettime n
  | C_flush => ducknet_flush conf n
  | C_packet pkt len => ducknet_packet_handle conf n pkt len
  | C_udp_send dst dport sport payload len => ducknet_udp_send (conf_phy conf) n dst dport sport payload len
  | C_ipv4_send dst protocol payload len => ducknet_ipv4_send (conf_phy conf) n dst protocol payload len
  | C_arp_query ip => ducknet_arp_query (conf_phy conf) n ip
  end.

Inductive reachable (n0 : net) : net -> Prop :=
| R_init : reachable n0 (fst (ducknet_init conf gettime n0))
| R_call n c : reachable n0 n -> call_ok c -> reachable n0 (do_call c n).

(** The statics at program start: the buffers have their declared sizes. *)
Definition start_ok (n0 : net) : Prop :=
  zlen (sendbuf n0) = MAX_MTU + 64 /\ zlen (udp_buf n0) = MAX_MTU + 64 /\ zlen (recv_buf n0) = MAX_MTU + 64 /\
  zlen (tosend_table (ipv4 n0)) = TOSEND_TABLE_SIZE /\
  Forall (λ s, zlen (pkt s) = MAX_MTU + 64) (tosend_table (ipv4 n0)).

Lemma wf_init (n0 : net) :
  start_ok n0 -> conf_tsc_freq conf <> 0 -> wf_net (fst (ducknet_init conf gettime n0)).
Proof.
  intros (H1 & H2 & H2' & H3 & H4) Hf. unfold ducknet_init, ducknet_utils_init.
  destruct (Z.eqb_spec (conf_tsc_freq conf) 0); [done|]. destruct (gettime (world n0)) as [w t].
  destruct Hconf as (_ & Hm & _). unfold wf_net, wf_tosend.
  cbn [fst mac MTU sendbuf udp_buf recv_buf arp ipv4 arp_table arp_query_table tosend_table tosend_free
    arp_init ipv4_init]. conj_split; try done.
  unfold wf_free. exists 0xffffffff, 0xffffffff. split; [reflexivity|unfold is_u32; lia].
Qed.

End Invariant.

(** C15: Memory safety of the stack.  From a successful initialisation, after any
    sequence of calls of the application and of received frames of any content,
    every buffer still has its declared size, so that no write left its buffer; the
    two ARP tables hold at most 100 entries; the slot bitmap stays within its two
    words.  The driver must not hand out more bytes than the 1564 of the static buffer
    a step receives into: one that does writes past its end ([long_frame_overflows]). *)
Theorem reachable_wf {W} (conf : DucknetConfig W) gettime n0 n :
  conf_ok conf -> start_ok n0 -> conf_tsc_freq conf <> 0 ->
  reachable conf gettime n0 n -> wf_net n.
Proof.
  intros Hconf H0 Hf. induction 1 as [|n c Hr IH Hc]; [by apply wf_init|].
  destruct c; cbn in Hc; unfold do_call.
  - by apply wf_step.
  - unfold ducknet_flush, ducknet_phy_flush.
    repeat (case_match; simplify_eq; try done; try by apply (wf_net_ext n)).
  - destruct Hc; by apply wf_packet.
  - by apply wf_udp_send.
  - by apply wf_ipv4_send.
  - by apply wf_arp_query.
Qed.

(** ** Instances *)

Definition demo_start : net wire :=
  mk_net [] 0 0 (replicate 1564 0) (replicate 6 0) 0 0 (mk_phy_state false 0 0 0)
    (mk_arp_state [] [] 0 0 0)
    (mk_ipv4_state (replicate 64 (mk_slot 0 0 0 (replicate 1564 0))) (replicate 2 0) 0 0 0)
    (replicate 1564 0) (replicate 1564 0).
Definition demo_conf : DucknetConfig wire :=
  mk_config 1000000 recorder demo_mac None None 0x0a000002 None None None None.
Definition demo_clock (w : wire) : wire * Z := (w, 5000).

(** A driver that hands out a frame of [k] bytes, as the receive function of e1000 can up to
    2048 (a frame is as long as its descriptor says). *)
Definition long_driver (k : Z) : PhyConfig wire :=
  mk_phy_config (send recorder) (Some (λ w, (w, replicate (Z.to_nat k) 1, k))) None None None.
Definition long_conf (k : Z) : DucknetConfig wire :=
  mk_config 1000000 (long_driver k) demo_mac None None 0x0a000002 None None None None.
Definition after_long_frame (k : Z) : net wire :=
  do_call (long_conf k) demo_clock C_step (fst (ducknet_init (long_conf k) demo_clock demo_start)).

(** The static buffer a step receives into has 1564 bytes, and nobody tells the driver: a
    frame of 1564 bytes fits, one of 1565 is written past the end, and one of the 2048
    bytes of a receive buffer of e1000 leaves 484 bytes behind it. *)
Theorem long_frame_overflows :
  wf_net (after_long_frame 1564) /\ not (wf_net (after_long_frame 1565)) /\
  zlen (recv_buf (after_long_frame 2048)) = MAX_MTU + 64 + 484.
Proof.
  split; [|split].
  - apply (wf_step (W := wire)); [|apply wf_init].
    + split; [split; [|exact I]|].
      * cbn. intros w. split; [apply Forall_replicate; unfold is_u8; lia|split; [reflexivity|discriminate]].
      * split; [|repeat split; exact I]. split; [reflexivity|]. cbn. unfold demo_mac. bytes_lit.
    + split; [split; [|exact I]|].
      * cbn. intros w. split; [apply Forall_replicate; unfold is_u8; lia|split; [reflexivity|discriminate]].
      * split; [|repeat split; exact I]. split; [reflexivity|]. cbn. unfold demo_mac. bytes_lit.
    + do 4 (split; [reflexivity|]). apply Forall_replicate. reflexivity.
    + discriminate.
  - intros (_ & _ & _ & _ & H & _). revert H. vm_compute. discriminate.
  - vm_compute. reflexivity.
Qed.

Lemma reachable_wf_witness :
  wf_net (do_call demo_conf demo_clock (C_udp_send 7 53 53 [1; 2] 2)
    (fst (ducknet_init demo_conf demo_clock demo_start))).
Proof.
  apply (reachable_wf demo_conf demo_clock demo_start).
  - split; [split; [|exact I]|].
    + cbn. intros w. split; [apply bytes_nil|split; [reflexivity|discriminate]].
    + split; [|repeat split; exact I]. split; [reflexivity|]. cbn. unfold demo_mac. bytes_lit.
  - do 4 (split; [reflexivity|]).
    apply Forall_replicate. reflexivity.
  - discriminate.
  - apply R_call; [apply R_init|exact I].
Defined.

End NetInvariant.
