(* ===== verification/Nic.v ===== *)
(** * Nic: what a network driver promises

    The abstract network card the drivers of [lib/] implement: two queues of
    frames.  [announced] are the frames the card knows of and may put on the wire,
    [pending] those the driver keeps until the next flush, [inbox] those that came
    in and were not yet handed out.  A driver refines it when every step of the
    driver and of its card is a step of the queues ([refines]); the first-in
    first-out theorem is then proved once ([refined_fifo]).  The second part is
    what the three drivers share: the arithmetic of ring buffers. *)
From S2P Require Import Prelude.

Module Nic.

Definition frame : Type := list Z.

Record nic := mk_nic { announced : list frame; pending : list frame; inbox : list frame }.
Definition outbox (s : nic) : list frame := announced s ++ pending s.

(** The calls of the driver with what they return, and the steps of the card. *)
Inductive action :=
  | Send (f : frame) (r : Z)
  | Flush
  | Receive (r : option frame)
  | Transmit (f : frame)                 (* the card puts a frame on the wire *)
  | Deliver (f : frame).                 (* a frame has come in *)

Section Spec.
(** The longest frame the driver sends, how many frames fit in its ring, the longest
    frame it hands out, and whether it drops a longer one or keeps it forever. *)
Variable max_len capacity max_recv : Z.
Variable drops : bool.

Inductive step : nic -> action -> nic -> Prop :=
  | step_send f s : zlen f <= max_len -> zlen (outbox s) < capacity ->
      step s (Send f 0) (mk_nic (announced s) (pending s ++ [f]) (inbox s))
  | step_send_flush f s : zlen f <= max_len -> zlen (outbox s) < capacity ->
      step s (Send f 0) (mk_nic (outbox s ++ [f]) [] (inbox s))
  | step_refuse f s : max_len < zlen f \/ capacity <= zlen (outbox s) -> step s (Send f (-1)) s
  | step_flush s : step s Flush (mk_nic (outbox s) [] (inbox s))
  | step_transmit f fs s : announced s = f :: fs ->
      step s (Transmit f) (mk_nic fs (pending s) (inbox s))
  | step_deliver f s : step s (Deliver f) (mk_nic (announced s) (pending s) (inbox s ++ [f]))
  | step_receive f fs s : inbox s = f :: fs -> zlen f <= max_recv ->
      step s (Receive (Some f)) (mk_nic (announced s) (pending s) fs)
  | step_receive_none s : inbox s = [] -> step s (Receive None) s
  | step_too_long f fs s : inbox s = f :: fs -> max_recv < zlen f ->
      step s (Receive None) (if drops then mk_nic (announced s) (pending s) fs else s).

(** A driver with its card, and what relates it to the queues. *)
Section Refinement.
Context {S : Type} (cstep : S -> action -> S -> Prop) (R : S -> nic -> Prop).

Record refines : Prop := {
  simulates : forall s a act s', R s a -> cstep s act s' -> exists a', step a act a' /\ R s' a';
  transmits : forall s a f fs, R s a -> announced a = f :: fs -> exists s', cstep s (Transmit f) s' }.
End Refinement.

Section Traces.
Context {S : Type} (st : S -> action -> S -> Prop).
Inductive steps : S -> list action -> S -> Prop :=
  | steps_nil s : steps s [] s
  | steps_cons s act s1 tr s2 : st s act s1 -> steps s1 tr s2 -> steps s (act :: tr) s2.
End Traces.

(** A run that is computed: the functions of a driver and moves of its card, on the
    actions of a trace, as long as they have the results it names. *)
Section Play.
Context {S : Type} (send : frame -> S -> S * Z) (flush : S -> S * Z) (receive : S -> S * list Z * Z).
Context (moves : S -> action -> option S) (st : S -> action -> S -> Prop).

Definition play_one (s : S) (a : action) : option S :=
  match a with
  | Send f r => let '(s', r') := send f s in if r' =? r then Some s' else None
  | Flush => let '(s', r) := flush s in if r =? 0 then Some s' else None
  | Receive o => let '(s', bs, len) := receive s in
      if bool_decide (o = if len <? 0 then None else Some bs) then Some s' else None
  | _ => moves s a
  end.
Fixpoint play (s : S) (tr : list action) : option S :=
  match tr with
  | [] => Some s
  | a :: tr => match play_one s a with Some s => play s tr | None => None end
  end.

Hypothesis Hsend : forall s f s' r, send f s = (s', r) -> st s (Send f r) s'.
Hypothesis Hflush : forall s s', flush s = (s', 0) -> st s Flush s'.
Hypothesis Hreceive : forall s s' bs len, receive s = (s', bs, len) -> st s (Receive (if len <? 0 then None else Some bs)) s'.
Hypothesis Hmoves : forall s a s', moves s a = Some s' -> st s a s'.
Lemma play_steps tr s s' : play s tr = Some s' -> steps st s tr s'.
Proof.
  revert s. induction tr as [|a tr IH]; intros s; cbn [play]; [intros [= <-]; constructor|].
  destruct (play_one s a) as [s1|] eqn:E; [|done]. intros H. apply (steps_cons _ _ _ s1); [|by apply IH]. revert E.
  destruct a as [f r| |o|f|f]; cbn [play_one]; [| | |apply Hmoves..].
  - destruct (send f s) as [s2 r2] eqn:E. destruct (Z.eqb_spec r2 r) as [->|]; [|done]. intros [= <-]. by apply Hsend.
  - destruct (flush s) as [s2 r2] eqn:E. destruct (Z.eqb_spec r2 0) as [->|]; [|done]. intros [= <-]. by apply Hflush.
  - destruct (receive s) as [[s2 bs] len] eqn:E. case_bool_decide as Ho; [|done]. intros [= <-]. subst o. by apply Hreceive.
Qed.
End Play.

(** The frames of a trace: accepted by [send], put on the wire, come in, handed out. *)
Definition accepted (tr : list action) : list frame :=
  tr ≫= λ a, match a with Send f r => if r =? 0 then [f] else [] | _ => [] end.
Definition transmitted (tr : list action) : list frame :=
  tr ≫= λ a, match a with Transmit f => [f] | _ => [] end.
Definition delivered (tr : list action) : list frame :=
  tr ≫= λ a, match a with Deliver f => [f] | _ => [] end.
Definition received (tr : list action) : list frame :=
  tr ≫= λ a, match a with Receive (Some f) => [f] | _ => [] end.

(** The frames the driver can hand out. *)
Definition short (fs : list frame) : list frame := filter (λ f, zlen f <= max_recv) fs.

Lemma short_keep f fs : zlen f <= max_recv -> short (f :: fs) = f :: short fs.
Proof. intros. unfold short. by rewrite filter_cons_True. Qed.
Lemma short_drop f fs : max_recv < zlen f -> short (f :: fs) = short fs.
Proof. intros. unfold short. rewrite filter_cons_False; [done|lia]. Qed.

Lemma fifo s tr s' : steps step s tr s' ->
  outbox s ++ accepted tr = transmitted tr ++ outbox s' /\
  short (inbox s ++ delivered tr) = received tr ++ short (inbox s') /\
  (drops = false -> inbox s ++ delivered tr = received tr ++ inbox s').
Proof.
  induction 1 as [s|s act s1 tr s2 Hst _ (IH1 & IH2 & IH3)]; [by rewrite !app_nil_r|].
  revert IH1 IH2 IH3. unfold accepted, transmitted, delivered, received. cbn [mbind list_bind].
  fold (accepted tr) (transmitted tr) (delivered tr) (received tr).
  destruct Hst as [f s ? ?|f s ? ?|f s ?|s|f fs s Ea|f s|f fs s Ei Hl|s Ei|f fs s Ei Hl]; unfold outbox in *;
    cbn [announced pending inbox Z.eqb app]; intros IH1 IH2 IH3.
  - conj_split; [|done..]. by rewrite <- IH1, <- !app_assoc.
  - conj_split; [|done..]. rewrite <- IH1, app_nil_r. by rewrite <- !app_assoc.
  - done.
  - conj_split; [|done..]. by rewrite <- IH1, app_nil_r.
  - conj_split; [|done..]. rewrite Ea. cbn [app]. by rewrite <- IH1.
  - conj_split; [done| |]; [by rewrite <- IH2, <- app_assoc|].
    intros D. by rewrite <- (IH3 D), <- app_assoc.
  - conj_split; [done| |]; rewrite Ei; cbn [app].
    + rewrite short_keep by done. by rewrite IH2.
    + intros D. by rewrite (IH3 D).
  - done.
  - destruct drops; cbn [announced pending inbox] in *; [|done]. conj_split; [done| |done].
    rewrite Ei. cbn [app]. by rewrite short_drop.
Qed.

Lemma step_send_inv s f r s' : step s (Send f r) s' ->
  r = 0 /\ zlen f <= max_len /\ zlen (outbox s) < capacity \/
  r = -1 /\ (max_len < zlen f \/ capacity <= zlen (outbox s)).
Proof. inversion 1; subst; auto. Qed.

Lemma received_short s tr s' : steps step s tr s' -> Forall (λ f, zlen f <= max_recv) (received tr).
Proof.
  induction 1 as [s|s act s1 tr s2 Hst _ IH]; [constructor|]. unfold received in *. cbn [mbind list_bind].
  destruct Hst; cbn [app]; try done. by constructor.
Qed.
Lemma delivered_app tr1 tr2 : delivered (tr1 ++ tr2) = delivered tr1 ++ delivered tr2.
Proof. apply bind_app. Qed.

(** Everything that was announced can be put on the wire, in order. *)
Lemma transmit_all fs ps ins :
  steps step (mk_nic fs ps ins) (Transmit <$> fs) (mk_nic [] ps ins).
Proof.
  induction fs as [|f fs IH]; cbn [fmap list_fmap]; [constructor|].
  econstructor; [by apply (step_transmit f fs (mk_nic (f :: fs) ps ins))|done].
Qed.

Section Consequences.
Context {S : Type} {cstep : S -> action -> S -> Prop} {R : S -> nic -> Prop}.
Hypothesis Href : refines cstep R.

Lemma trace_refines s a tr s' : R s a -> steps cstep s tr s' ->
  exists a', steps step a tr a' /\ R s' a'.
Proof.
  intros HR Ht. revert a HR. induction Ht as [s|s act s1 tr s2 Hst _ IH]; intros a HR.
  { exists a. split; [constructor|done]. }
  destruct (simulates _ _ Href _ _ _ _ HR Hst) as (a1 & Ha & HR1).
  destruct (IH a1 HR1) as (a2 & Ht & HR2). exists a2. split; [by econstructor|done].
Qed.

Lemma refined_fifo s a tr s' : R s a -> steps cstep s tr s' ->
  exists a', R s' a' /\ outbox a ++ accepted tr = transmitted tr ++ outbox a' /\
    short (inbox a ++ delivered tr) = received tr ++ short (inbox a') /\
    (drops = false -> inbox a ++ delivered tr = received tr ++ inbox a') /\
    Forall (λ f, zlen f <= max_recv) (received tr).
Proof.
  intros HR Ht. destruct (trace_refines _ _ _ _ HR Ht) as (a' & Ha & HR'). exists a'.
  split; [done|]. destruct (fifo _ _ _ Ha) as (H1 & H2 & H3). conj_split; [done..|]. by apply received_short in Ha.
Qed.

Lemma refined_drain s a : R s a -> exists s', steps cstep s (Transmit <$> announced a) s' /\
  R s' (mk_nic [] (pending a) (inbox a)).
Proof.
  destruct a as [fs ps ins]. cbn [announced pending inbox]. revert s.
  induction fs as [|f fs IH]; intros s HR; cbn [fmap list_fmap].
  { exists s. split; [constructor|done]. }
  destruct (transmits _ _ Href _ _ _ _ HR eq_refl) as [s1 Hs1].
  destruct (simulates _ _ Href _ _ _ _ HR Hs1) as (a1 & Ha1 & HR1).
  inversion Ha1 as [| | | |f' fs' s0 E| | | |]; subst. cbn in E. injection E as <-.
  destruct (IH s1 HR1) as (s2 & Ht & HR2). exists s2. split; [by econstructor|done].
Qed.
End Consequences.
End Spec.

(** ** The interface

    What a driver with its card, as a transition system, owes its clients. *)
Class Driver {S : Type} (cstep : S -> action -> S -> Prop) : Type := {
  capacity : Z; max_recv : Z; drops_long : bool;
  represents : S -> nic -> Prop;
  driver_refinement : refines 1500 capacity max_recv drops_long cstep represents;
  capacity_bound : forall s a, represents s a -> zlen (outbox a) <= capacity }.

(** Whatever is called and whatever the card does: what was accepted is on the wire or
    waits, in order; what came in and can be handed out was or waits, in order. *)
Lemma driver_is_a_queue {S : Type} (cstep : S -> action -> S -> Prop) `{D : !Driver cstep} s tr s' :
  represents s (mk_nic [] [] []) -> steps cstep s tr s' -> exists out ins,
    accepted tr = transmitted tr ++ out /\
    short max_recv (delivered tr) = received tr ++ short max_recv ins /\
    zlen out <= capacity /\ Forall (λ f, zlen f <= max_recv) (received tr).
Proof.
  intros HR Ht. destruct (refined_fifo _ _ _ _ driver_refinement _ _ _ _ HR Ht) as (a & HRa & Ho & Hi & _ & Hs).
  exists (outbox a), (inbox a). conj_split; [done|done| |done]. exact (capacity_bound _ _ HRa).
Qed.

(** ** Rings

    [ring n lo slot fs]: the frames [fs] are in consecutive slots of a ring of [n],
    the first one in slot [lo mod n]. *)
Definition ring (n lo : Z) (slot : Z -> frame -> Prop) (fs : list frame) : Prop :=
  forall i f, fs !! i = Some f -> slot ((lo + Z.of_nat i) mod n) f.

Lemma mod_apart n a b : 0 < n -> a < b < a + n -> a mod n <> b mod n.
Proof.
  intros Hn Hab E. assert (Hd : (b - a) mod n = 0).
  { rewrite Zminus_mod, E, Z.sub_diag. apply Z.mod_0_l. lia. }
  rewrite Z.mod_small in Hd by lia. lia.
Qed.
Lemma mod_next n a : 0 < n -> (a mod n + 1) mod n = (a + 1) mod n.
Proof. intros. apply Zplus_mod_idemp_l. Qed.

Lemma ring_nil n lo slot : ring n lo slot [].
Proof. intros i f H. done. Qed.

(** A step that keeps the slots of a ring keeps the ring. *)
Lemma ring_keep n lo (slot slot' : Z -> frame -> Prop) fs :
  (forall k f, lo <= k < lo + zlen fs -> slot (k mod n) f -> slot' (k mod n) f) ->
  ring n lo slot fs -> ring n lo slot' fs.
Proof.
  intros H Hr i f Hi. apply H; [|by apply Hr].
  apply lookup_lt_Some in Hi. unfold zlen. lia.
Qed.

Lemma ring_push n lo slot fs f :
  ring n lo slot fs -> slot ((lo + zlen fs) mod n) f -> ring n lo slot (fs ++ [f]).
Proof.
  intros Hr Hf i g Hi. apply lookup_app_Some in Hi as [Hi|[Hl Hi]]; [by apply Hr|].
  destruct (i - length fs)%nat as [|j] eqn:Ej; [|done]. injection Hi as <-.
  replace (Z.of_nat i) with (zlen fs) by (unfold zlen; lia). done.
Qed.

Lemma ring_pop n lo slot f fs :
  ring n lo slot (f :: fs) -> slot (lo mod n) f /\ ring n (lo + 1) slot fs.
Proof.
  intros Hr. split; [rewrite <- (Z.add_0_r lo); by apply (Hr 0%nat)|].
  intros i g Hi. replace (lo + 1 + Z.of_nat i) with (lo + Z.of_nat (S i)) by lia. by apply Hr.
Qed.

(** The buffers of a ring: [size] bytes each, one after the other. *)
Lemma buffers_apart base size i j m :
  0 <= size -> i <> j -> 0 <= m <= size ->
  base + i * size + m <= base + j * size \/ base + j * size + size <= base + i * size.
Proof. intros. destruct (Z.lt_ge_cases i j); [left|right]; nia. Qed.

(** ** The rings of the Intel cards

    256 slots; the card has a head register that it moves, the driver a tail
    register that it writes from time to time.  All indices are counts of frames
    modulo 256. *)
Lemma mod256 k : 0 <= k mod 256 < 256.
Proof. apply Z.mod_pos_bound. lia. Qed.
Lemma next_index k : u32 (k mod 256 + 1) mod 256 = (k + 1) mod 256.
Proof. pose proof (mod256 k). rewrite u32_small by (unfold is_u32; lia). apply mod_next. lia. Qed.
Lemma same_index a b : a mod 256 = b mod 256 -> a <= b <= a + 255 -> a = b.
Proof.
  intros E H. destruct (Z.eq_dec a b) as [|Hn]; [done|].
  destruct (mod_apart 256 a b); [lia|lia|done].
Qed.

(** [h] frames were put on the wire; the driver knows of [c] of them. *)
Record tx_ring (TDH TDT tail head tail_real : Z) (slot : Z -> frame -> Prop)
    (ann pend : list frame) (h c : Z) : Prop := {
  t_tdh : TDH = h mod 256; t_tdt : TDT = (h + zlen ann) mod 256;
  t_tail : tail = (h + zlen (ann ++ pend)) mod 256; t_head : head = c mod 256;
  t_real : tail_real = (h + zlen ann) mod 256;
  t_c : c <= h; t_room : h + zlen (ann ++ pend) <= c + 255;
  t_ring : ring 256 h slot (ann ++ pend) }.

Section Transmit.
Context {TDH TDT tail head tail_real : Z} {slot : Z -> frame -> Prop} {ann pend : list frame} {h c : Z}.
Hypothesis Ht : tx_ring TDH TDT tail head tail_real slot ann pend h c.

Lemma tx_full : (u32 (tail + 1) mod 256 =? head) = true <-> h + zlen (ann ++ pend) = c + 255.
Proof.
  destruct Ht. subst. rewrite next_index, Z.eqb_eq. pose proof (zlen_nonneg (ann ++ pend)). split.
  - intros E. destruct (Z.eq_dec (h + zlen (ann ++ pend)) (c + 255)) as [|Hn]; [done|].
    apply eq_sym, same_index in E; lia.
  - intros ->. replace (c + 255 + 1) with (c + 1 * 256) by lia. by rewrite Z_mod_plus_full.
Qed.

Lemma tx_reread : tx_ring TDH TDT tail TDH tail_real slot ann pend h h.
Proof. destruct Ht. constructor; try done; lia. Qed.

Lemma tx_push slot' f :
  h + zlen (ann ++ pend) < c + 255 ->
  (forall k g, 0 <= k < 256 -> k <> tail -> slot k g -> slot' k g) -> slot' tail f ->
  tx_ring TDH TDT (u32 (tail + 1) mod 256) head tail_real slot' ann (pend ++ [f]) h c.
Proof.
  intros Hroom Hkeep Hnew. destruct Ht. subst.
  assert (Hz : zlen (ann ++ pend ++ [f]) = zlen (ann ++ pend) + 1) by (rewrite app_assoc; apply zlen_app).
  constructor; try done; [rewrite next_index, Hz; f_equal; lia|lia|]. rewrite app_assoc.
  apply ring_push; [|done]. revert t_ring0. apply ring_keep. intros k g Hk. apply Hkeep; [apply mod256|].
  apply mod_apart; lia.
Qed.

Lemma tx_flush : tx_ring TDH tail tail head tail slot (ann ++ pend) [] h c.
Proof. destruct Ht. constructor; rewrite ?app_nil_r; done. Qed.

Lemma tx_keep (slot' : Z -> frame -> Prop) :
  (forall k g, 0 <= k < 256 -> slot k g -> slot' k g) ->
  tx_ring TDH TDT tail head tail_real slot' ann pend h c.
Proof.
  intros Hk. destruct Ht. constructor; try done. revert t_ring0. apply ring_keep.
  intros k g _. apply Hk, mod256.
Qed.

(** When the driver has told the card everything, nothing is pending. *)
Lemma tx_no_pending : tail = tail_real -> pend = [].
Proof.
  destruct Ht. subst. intros E. apply eq_sym, same_index in E.
  - rewrite zlen_app in E. destruct pend; [done|]. rewrite zlen_cons in E. pose proof (zlen_nonneg l). lia.
  - rewrite zlen_app in *. pose proof (zlen_nonneg pend). pose proof (zlen_nonneg ann). lia.
Qed.

Lemma tx_busy : TDH <> TDT <-> exists f fs, ann = f :: fs.
Proof.
  destruct Ht. subst. split.
  - destruct ann as [|f fs]; [|by eauto]. unfold zlen. cbn. by rewrite Z.add_0_r.
  - intros (f & fs & ->). apply mod_apart; [lia|].
    rewrite zlen_app, zlen_cons in *. pose proof (zlen_nonneg fs). pose proof (zlen_nonneg pend). lia.
Qed.
End Transmit.

Lemma tx_first {TDH TDT tail head real slot f fs pend h c} :
  tx_ring TDH TDT tail head real slot (f :: fs) pend h c -> 0 <= TDH < 256 /\ slot TDH f.
Proof.
  intros []. subst. split; [apply mod256|]. by apply (ring_pop 256 h slot f (fs ++ pend)).
Qed.
(** The card may write to the slot it has sent. *)
Lemma tx_pop {TDH TDT tail head real} {slot : Z -> frame -> Prop} {f fs pend h c} (slot' : Z -> frame -> Prop) :
  tx_ring TDH TDT tail head real slot (f :: fs) pend h c ->
  (forall k g, 0 <= k < 256 -> k <> TDH -> slot k g -> slot' k g) ->
  tx_ring ((TDH + 1) mod 256) TDT tail head real slot' fs pend (h + 1) c.
Proof.
  intros [] Hkeep. subst. cbn [app] in *. rewrite !zlen_cons in *. pose proof (zlen_nonneg (fs ++ pend)).
  constructor; rewrite ?mod_next by lia; try done; try lia; try (f_equal; lia).
  apply ring_pop in t_ring0 as [_ Hr]. revert Hr. apply ring_keep.
  intros k g Hk. apply Hkeep; [apply mod256|]. apply not_eq_sym, mod_apart; lia.
Qed.

(** [r] frames were handed out; the card knows that [q] of them were. *)
Record rx_ring (RDH RDT next : Z) (slot : Z -> frame -> Prop) (free : Z -> Prop)
    (ins : list frame) (r q : Z) : Prop := {
  x_next : next = r mod 256; x_rdh : RDH = (r + zlen ins) mod 256; x_rdt : RDT = (q - 1) mod 256;
  x_q : q <= r; x_room : r + zlen ins <= q + 255;
  x_ring : ring 256 r slot ins;
  x_free : forall k, r + zlen ins <= k < r + 256 -> free (k mod 256) }.

Section Receive.
Context {RDH RDT next : Z} {slot : Z -> frame -> Prop} {free : Z -> Prop} {ins : list frame} {r q : Z}.
Hypothesis Hr : rx_ring RDH RDT next slot free ins r q.

Lemma rx_tell : rx_ring RDH ((r - 1) mod 256) next slot free ins r r.
Proof. destruct Hr. constructor; try done; lia. Qed.

Lemma rx_keep (slot' : Z -> frame -> Prop) (free' : Z -> Prop) :
  (forall k g, 0 <= k < 256 -> slot k g -> slot' k g) -> (forall k, 0 <= k < 256 -> free k -> free' k) ->
  rx_ring RDH RDT next slot' free' ins r q.
Proof.
  intros Hk Hf. destruct Hr. constructor; try done.
  - revert x_ring0. apply ring_keep. intros k g _. apply Hk, mod256.
  - intros k H. by apply Hf; [apply mod256|apply x_free0].
Qed.

Lemma rx_empty : ins = [] -> free next.
Proof. destruct Hr. intros ->. subst. apply x_free0. unfold zlen. cbn. lia. Qed.

Lemma rx_next_free : 0 <= RDH < 256 /\ free RDH.
Proof. destruct Hr. subst. split; [apply mod256|]. apply x_free0. pose proof (zlen_nonneg ins). lia. Qed.

Lemma rx_deliver slot' free' f :
  RDH <> RDT ->
  (forall k g, 0 <= k < 256 -> k <> RDH -> slot k g -> slot' k g) ->
  (forall k, 0 <= k < 256 -> k <> RDH -> free k -> free' k) -> slot' RDH f ->
  rx_ring ((RDH + 1) mod 256) RDT next slot' free' (ins ++ [f]) r q.
Proof.
  intros Hne Hkeep Hfree Hnew. destruct Hr. subst. pose proof (zlen_nonneg ins).
  assert (Hroom : r + zlen ins < q + 255).
  { destruct (Z.eq_dec (r + zlen ins) (q + 255)) as [E|]; [|lia]. destruct Hne. rewrite E.
    replace (q + 255) with (q - 1 + 1 * 256) by lia. apply Z_mod_plus_full. }
  constructor; rewrite ?zlen_app, ?zlen_one; rewrite ?mod_next by lia; try done; try lia; try (f_equal; lia).
  - apply ring_push; [|done]. revert x_ring0. apply ring_keep. intros k g Hk. apply Hkeep; [apply mod256|].
    apply mod_apart; lia.
  - intros k Hk. apply Hfree; [apply mod256| |apply x_free0; lia].
    apply not_eq_sym, mod_apart; lia.
Qed.
End Receive.

Lemma rx_first {RDH RDT next slot free f fs r q} :
  rx_ring RDH RDT next slot free (f :: fs) r q -> 0 <= next < 256 /\ slot next f.
Proof. intros []. subst. split; [apply mod256|]. by apply (ring_pop 256 r slot f fs). Qed.
Lemma rx_pop {RDH RDT next slot free f fs r q} slot' (free' : Z -> Prop) :
  rx_ring RDH RDT next slot free (f :: fs) r q ->
  (forall k g, 0 <= k < 256 -> k <> next -> slot k g -> slot' k g) ->
  (forall k, 0 <= k < 256 -> k <> next -> free k -> free' k) -> free' next ->
  rx_ring RDH RDT ((next + 1) mod 256) slot' free' fs (r + 1) q.
Proof.
  intros [] Hkeep Hfree Hnew. subst. rewrite zlen_cons in *. pose proof (zlen_nonneg fs).
  constructor; rewrite ?mod_next by lia; try done; try lia; try (f_equal; lia).
  - apply ring_pop in x_ring0 as [_ Hr]. revert Hr. apply ring_keep. intros k g Hk. apply Hkeep; [apply mod256|].
    apply not_eq_sym, mod_apart; lia.
  - intros k Hk. destruct (Z.eq_dec k (r + 256)) as [->|].
    + replace (r + 256) with (r + 1 * 256) by lia. by rewrite Z_mod_plus_full.
    + apply Hfree; [apply mod256| |apply x_free0; lia]. apply not_eq_sym, mod_apart; lia.
Qed.

(** ** Rings with an owner bit

    [first] is the index of the side that takes frames, [next] of the side that
    puts them; every slot holds a frame or is free. *)
Record own_ring (n first next : Z) (slot : Z -> frame -> Prop) (free : Z -> Prop) (fs : list frame) (k : Z) : Prop := {
  o_first : first = k mod n; o_next : next = (k + zlen fs) mod n; o_room : zlen fs <= n;
  o_ring : ring n k slot fs;
  o_free : forall j, k + zlen fs <= j < k + n -> free (j mod n) }.

Section Owner.
Context {n first next : Z} {slot : Z -> frame -> Prop} {free : Z -> Prop} {fs : list frame} {k : Z}.
Hypothesis Hn : 0 < n.
Hypothesis Ho : own_ring n first next slot free fs k.

Lemma own_range : 0 <= first < n /\ 0 <= next < n.
Proof. destruct Ho. subst. split; by apply Z.mod_pos_bound. Qed.

Lemma own_keep (slot' : Z -> frame -> Prop) (free' : Z -> Prop) :
  (forall j g, 0 <= j < n -> slot j g -> slot' j g) -> (forall j, 0 <= j < n -> free j -> free' j) ->
  own_ring n first next slot' free' fs k.
Proof.
  intros Hk Hf. destruct Ho. constructor; try done.
  - revert o_ring0. apply ring_keep. intros j g _. apply Hk. by apply Z.mod_pos_bound.
  - intros j H. by apply Hf; [apply Z.mod_pos_bound|apply o_free0].
Qed.

(** The slot to put in is free unless the ring is full, and then it holds a frame. *)
Lemma own_next : zlen fs < n -> free next.
Proof. destruct Ho. intros. subst. apply o_free0. lia. Qed.
Lemma own_full : zlen fs = n -> exists f, slot next f.
Proof.
  destruct Ho as [_ H _ Hr _]. intros E. rewrite H, E. clear H. destruct fs as [|f l]; [unfold zlen in E; cbn in E; lia|]. exists f.
  replace (k + n) with (k + 1 * n) by lia. rewrite Z_mod_plus_full.
  rewrite <- (Z.add_0_r k). by apply (Hr 0%nat).
Qed.

Lemma own_push (slot' : Z -> frame -> Prop) (free' : Z -> Prop) f :
  zlen fs < n ->
  (forall j g, 0 <= j < n -> j <> next -> slot j g -> slot' j g) ->
  (forall j, 0 <= j < n -> j <> next -> free j -> free' j) -> slot' next f ->
  own_ring n first ((next + 1) mod n) slot' free' (fs ++ [f]) k.
Proof.
  intros Hroom Hkeep Hfree Hnew. destruct Ho. subst. pose proof (zlen_nonneg fs).
  constructor; rewrite ?zlen_app, ?zlen_one; rewrite ?mod_next by lia; try done; try lia; try (f_equal; lia).
  - apply ring_push; [|done]. revert o_ring0. apply ring_keep. intros j g Hj. apply Hkeep; [by apply Z.mod_pos_bound|].
    apply mod_apart; lia.
  - intros j Hj. apply Hfree; [by apply Z.mod_pos_bound| |apply o_free0; lia]. apply not_eq_sym, mod_apart; lia.
Qed.
End Owner.

Lemma own_empty {n first next slot free k} : 0 < n -> own_ring n first next slot free [] k -> free first.
Proof. intros Hn []. subst. apply o_free0. unfold zlen. cbn. lia. Qed.
Lemma own_first {n first next slot free f fs k} :
  own_ring n first next slot free (f :: fs) k -> slot first f.
Proof. intros []. subst. by apply (ring_pop n k slot f fs). Qed.
Lemma own_pop {n first next slot free f fs k} (slot' : Z -> frame -> Prop) (free' : Z -> Prop) :
  0 < n -> own_ring n first next slot free (f :: fs) k ->
  (forall j g, 0 <= j < n -> j <> first -> slot j g -> slot' j g) ->
  (forall j, 0 <= j < n -> j <> first -> free j -> free' j) -> free' first ->
  own_ring n ((first + 1) mod n) next slot' free' fs (k + 1).
Proof.
  intros Hn [] Hkeep Hfree Hnew. subst. rewrite zlen_cons in *. pose proof (zlen_nonneg fs).
  constructor; rewrite ?mod_next by lia; try done; try lia; try (f_equal; lia).
  - apply ring_pop in o_ring0 as [_ Hr]. revert Hr. apply ring_keep. intros j g Hj. apply Hkeep; [by apply Z.mod_pos_bound|].
    apply not_eq_sym, mod_apart; lia.
  - intros j Hj. destruct (Z.eq_dec j (k + n)) as [->|].
    + replace (k + n) with (k + 1 * n) by lia. by rewrite Z_mod_plus_full.
    + apply Hfree; [by apply Z.mod_pos_bound| |apply o_free0; lia]. apply not_eq_sym, mod_apart; lia.
Qed.

End Nic.
