(* ===== verification/Memory.v ===== *)
(** * Memory: page tables, page flags and virtual memory ([lib/memory.cpp])

    The physical memory the page tables live in is a function from the address
    of an aligned 64-bit word to its value; the statics of the file are the
    record [state].  The first-level entries that [get_P1] reaches through the
    recursive mapping are [P1], by page number, next to the bytes of user
    memory.  A failed [assert] is [None]. *)
From stdpp Require Import gmap.
From S2P Require Import Prelude Utils.

Module Memory.
Import Utils.

Definition PAGE_SIZE : Z := 4096.
Definition HUGE_PAGE_SIZE : Z := 2097152.
Definition P3_PAGE_SIZE : Z := 1073741824.
Definition MAX_MEMORY_SIZE : Z := 511 * 1073741824.
Definition MAX_N_HUGE_PAGES : Z := MAX_MEMORY_SIZE / HUGE_PAGE_SIZE.
Definition kernel_break : Z := 4194304.

Definition PTE_PRESENT : Z := 1.
Definition PTE_WRITABLE : Z := 2.
Definition PTE_USER : Z := 4.
Definition PTE_WRITE_THROUGH : Z := 8.
Definition PTE_CACHE_DISABLE : Z := 16.
Definition PTE_ACCESSED : Z := 32.
Definition PTE_DIRTY : Z := 64.
Definition PTE_HUGE : Z := 128.
Definition PTE_NO_EXECUTE : Z := 9223372036854775808.
Definition PTE_DUCK_WRITTEN : Z := 512.

(** [((a << 1) >> 10) << 9]. *)
Definition clear_page_flags (a : Z) : Z :=
  u64 (Z.shiftl (Z.shiftr (u64 (Z.shiftl a 1)) 10) 9).

(** [a & ~m]. *)
Definition clear_bits (a m : Z) : Z := Z.ldiff a m.

(** ** Indices of a virtual address and the recursively mapped entries *)

Definition P4_index (vaddr : Z) : Z := Z.land (Z.shiftr vaddr 39) (PAGE_SIZE / 8 - 1).
Definition P3_index (vaddr : Z) : Z := Z.land (Z.shiftr vaddr 30) (PAGE_SIZE / 8 - 1).
Definition P2_index (vaddr : Z) : Z := Z.land (Z.shiftr vaddr 21) (PAGE_SIZE / 8 - 1).
Definition P1_index (vaddr : Z) : Z := Z.land (Z.shiftr vaddr 12) (PAGE_SIZE / 8 - 1).

(** The addresses [get_P1] ... [get_P4] dereference. *)
Definition get_P1_addr (vaddr : Z) : Z :=
  Z.lor (Z.land (Z.shiftr vaddr 9) (u64 (-8))) (u64 (- Z.shiftl 1 39)).
Definition get_P2_addr (vaddr : Z) : Z :=
  Z.lor (Z.land (Z.shiftr vaddr 18) (u64 (-8))) (u64 (- Z.shiftl 1 30)).
Definition get_P3_addr (vaddr : Z) : Z :=
  Z.lor (Z.land (Z.shiftr vaddr 27) (u64 (-8))) (u64 (- Z.shiftl 1 21)).
Definition get_P4_addr (vaddr : Z) : Z :=
  Z.lor (Z.land (Z.shiftr vaddr 36) (u64 (-8))) (u64 (- Z.shiftl 1 12)).

(** The entry a virtual address has among those at the top 512 GiB. *)
Definition P1_slot (vaddr : Z) : Z := Z.shiftr vaddr 12 mod 2 ^ 36.

(** ** State *)

Record state := mk_state {
  huge_page_map : gset Z;          (* the indices whose [bool] is true *)
  n_huge_pages : Z;
  next_page_table_address : Z;
  page_table_break : Z;
  vaddr_break : Z;
  phys : Z -> Z;
  P1 : Z -> Z;
  user_mem : Z -> Z }.

Definition with_phys (s : state) (f : Z -> Z) : state :=
  mk_state (huge_page_map s) (n_huge_pages s) (next_page_table_address s) (page_table_break s)
    (vaddr_break s) f (P1 s) (user_mem s).
Definition with_next (s : state) (a : Z) : state :=
  mk_state (huge_page_map s) (n_huge_pages s) a (page_table_break s)
    (vaddr_break s) (phys s) (P1 s) (user_mem s).
Definition with_vaddr_break (s : state) (a : Z) : state :=
  mk_state (huge_page_map s) (n_huge_pages s) (next_page_table_address s) (page_table_break s)
    a (phys s) (P1 s) (user_mem s).
Definition with_P1 (s : state) (f : Z -> Z) : state :=
  mk_state (huge_page_map s) (n_huge_pages s) (next_page_table_address s) (page_table_break s)
    (vaddr_break s) (phys s) f (user_mem s).
Definition with_user_mem (s : state) (f : Z -> Z) : state :=
  mk_state (huge_page_map s) (n_huge_pages s) (next_page_table_address s) (page_table_break s)
    (vaddr_break s) (phys s) (P1 s) f.

Definition upd (f : Z -> Z) (a v : Z) : Z -> Z := λ x, if x =? a then v else f x.
(** [memset (start, 0, size)] on a memory indexed by address. *)
Definition zero_range (f : Z -> Z) (start size : Z) : Z -> Z :=
  λ x, if (start <=? x) && (x <? start + size) then 0 else f x.

(** ** Available memory *)

Definition register_available_huge_page (addr : Z) (s : state) : option state :=
  if negb (addr mod HUGE_PAGE_SIZE =? 0) then None
  else if negb (addr <? MAX_MEMORY_SIZE) then None
  else if addr <? kernel_break then Some s
  else
    let page_num := u32 (addr / HUGE_PAGE_SIZE) in
    if bool_decide (page_num ∈ huge_page_map s) then Some s
    else Some (mk_state ({[page_num]} ∪ huge_page_map s) (u64 (n_huge_pages s + 1))
                 (next_page_table_address s) (page_table_break s) (vaddr_break s)
                 (phys s) (P1 s) (user_mem s)).

(** ** The page table allocator *)

(** [while (!huge_page_map[next / HUGE_PAGE_SIZE]) next += HUGE_PAGE_SIZE;],
    [None] when it leaves the array. *)
Fixpoint find_huge_page (fuel : nat) (m : gset Z) (next : Z) : option Z :=
  match fuel with
  | O => None
  | S fuel =>
      if MAX_N_HUGE_PAGES <=? next / HUGE_PAGE_SIZE then None
      else if bool_decide (next / HUGE_PAGE_SIZE ∈ m) then Some next
      else find_huge_page fuel m (u64 (next + HUGE_PAGE_SIZE))
  end.

Definition page_table_alloc (s : state) : option (state * Z) :=
  match find_huge_page (Z.to_nat (MAX_N_HUGE_PAGES + 1)) (huge_page_map s)
          (next_page_table_address s) with
  | None => None
  | Some ret =>
      let next := u64 (ret + PAGE_SIZE) in
      if next <=? page_table_break s then Some (with_next s next, ret) else None
  end.

Definition page_table_alloc_zeroed (s : state) : option (state * Z) :=
  match page_table_alloc s with
  | None => None
  | Some (s, ret) => Some (with_phys s (zero_range (phys s) ret PAGE_SIZE), ret)
  end.

(** [PTE (table, index)]: the word at [table | (index * 8)]. *)
Definition PTE_addr (table index : Z) : Z := Z.lor table (u64 (index * 8)).
Definition PTE (s : state) (table index : Z) : Z := phys s (PTE_addr table index).
Definition set_PTE (s : state) (table index v : Z) : state :=
  with_phys s (upd (phys s) (PTE_addr table index) v).

Definition PTE_create (s : state) (table index creation_flags : Z) : option (state * Z) :=
  if PTE s table index =? 0 then
    match page_table_alloc_zeroed s with
    | None => None
    | Some (s, a) =>
        let v := Z.lor a creation_flags in
        Some (set_PTE s table index v, v)
    end
  else Some (s, PTE s table index).

Definition KERNEL_FLAGS : Z := Z.lor (Z.lor (Z.lor PTE_PRESENT PTE_WRITABLE) PTE_DIRTY) PTE_ACCESSED.

(** ** Initialisation *)

Definition page_table_size (n_huge_pages : Z) : Z :=
  let size := PAGE_SIZE * 4 in
  let size := u64 (size + u64 (n_huge_pages * PAGE_SIZE)) in
  let size := u64 (size + round_up (u64 (n_huge_pages * 8)) PAGE_SIZE) in
  let size := u64 (size + PAGE_SIZE * 2) in
  round_up size HUGE_PAGE_SIZE.

(** The loop over [i < n_huge_pages]; [None] when it ends without a [break]. *)
Fixpoint break_loop (m : gset Z) (size cur_size : Z) (is_ : list Z) : option Z :=
  match is_ with
  | [] => None
  | i :: is_ =>
      if negb (bool_decide (i ∈ m)) then break_loop m size cur_size is_
      else
        let cur_size := u64 (cur_size + HUGE_PAGE_SIZE) in
        if size <=? cur_size then Some (u64 ((i + 1) * HUGE_PAGE_SIZE))
        else break_loop m size cur_size is_
  end.

Definition init_page_table_break (s : state) : state :=
  match break_loop (huge_page_map s) (page_table_size (n_huge_pages s)) 0
          (seqZ 0 (n_huge_pages s)) with
  | None => s
  | Some b => mk_state (huge_page_map s) (n_huge_pages s) (next_page_table_address s) b
                (vaddr_break s) (phys s) (P1 s) (user_mem s)
  end.

(** [let? p := e in f]: go on with [f] when [e] did not fail. *)
Definition obind {A B} (o : option A) (f : A -> option B) : option B :=
  match o with Some x => f x | None => None end.
Notation "'let?' p ':=' e 'in' f" := (obind e (fun p => f))
  (at level 10, p pattern, e at level 200, f at level 200).

(** A loop whose body may fail. *)
Fixpoint fold_opt {A} (f : state -> A -> option state) (s : state) (l : list A) : option state :=
  match l with
  | [] => Some s
  | x :: l => match f s x with None => None | Some s => fold_opt f s l end
  end.

Definition init_empty_kernel_page_table (s : state) : option (state * Z) :=
  let? (s, P4) := page_table_alloc_zeroed s in
  let? (s, P3_high) := page_table_alloc_zeroed s in
  let? (s, P3_low) := page_table_alloc_zeroed s in
  let? (s, P2_low) := page_table_alloc_zeroed s in
  let s := set_PTE s P4 511 (Z.lor P4 KERNEL_FLAGS) in
  let s := set_PTE s P4 510 (Z.lor P3_high KERNEL_FLAGS) in
  let s := fold_left (λ s i, set_PTE s P3_high i
             (Z.lor (Z.lor (u64 (i * P3_PAGE_SIZE)) KERNEL_FLAGS) PTE_HUGE))
             (seqZ 0 (PAGE_SIZE / 8)) s in
  let s := set_PTE s P4 0 (Z.lor (Z.lor P3_low KERNEL_FLAGS) PTE_USER) in
  let s := set_PTE s P3_low 0 (Z.lor (Z.lor P2_low KERNEL_FLAGS) PTE_USER) in
  let? s := fold_opt (λ s i,
      let? (s, P1) := page_table_alloc_zeroed s in
      let s := set_PTE s P2_low i (Z.lor P1 KERNEL_FLAGS) in
      Some (fold_left (λ s j, set_PTE s P1 j
              (Z.lor (u64 (i * HUGE_PAGE_SIZE + j * PAGE_SIZE)) KERNEL_FLAGS))
              (seqZ 0 (PAGE_SIZE / 8)) s))
    s (seqZ 0 (kernel_break / HUGE_PAGE_SIZE)) in
  Some (s, P4).

Definition USER_FLAGS : Z :=
  Z.lor (Z.lor (Z.lor (Z.lor PTE_PRESENT PTE_WRITABLE) PTE_USER) PTE_ACCESSED) PTE_DIRTY.

(** One round of the loop over the huge pages of user memory: [i], [vaddr]. *)
Definition map_user_huge_page (P4 : Z) (s : state) (i vaddr : Z) : option state :=
  let paddr := u64 (i * HUGE_PAGE_SIZE) in
  let? (s, e4) := PTE_create s P4 (P4_index vaddr) USER_FLAGS in
  let P3 := clear_page_flags e4 in
  let? (s, e3) := PTE_create s P3 (P3_index vaddr) USER_FLAGS in
  let P2 := clear_page_flags e3 in
  let? (s, e2) := PTE_create s P2 (P2_index vaddr) USER_FLAGS in
  let P1 := clear_page_flags e2 in
  Some (fold_left (λ s j,
    let s := set_PTE s P1 j (Z.lor (u64 (paddr + j * PAGE_SIZE)) USER_FLAGS) in
    let s := set_PTE s P1 j (clear_bits (PTE s P1 j) PTE_USER) in
    set_PTE s P1 j (Z.lor (PTE s P1 j) PTE_DUCK_WRITTEN)) (seqZ 0 (PAGE_SIZE / 8)) s).

Fixpoint map_user_pages (P4 : Z) (s : state) (vaddr : Z) (is_ : list Z) : option (state * Z) :=
  match is_ with
  | [] => Some (s, vaddr)
  | i :: is_ =>
      if negb (bool_decide (i ∈ huge_page_map s)) then map_user_pages P4 s vaddr is_
      else
        match map_user_huge_page P4 s i vaddr with
        | None => None
        | Some s => map_user_pages P4 s (u64 (vaddr + HUGE_PAGE_SIZE)) is_
        end
  end.

Definition init_page_table_4k (s : state) : option (state * Z) :=
  let? (s, P4) := init_empty_kernel_page_table s in
  let first := page_table_break s / HUGE_PAGE_SIZE in
  let? (s, vaddr) := map_user_pages P4 s kernel_break (seqZ first (MAX_N_HUGE_PAGES - first)) in
  Some (with_vaddr_break s vaddr, P4).

(** [init]: the value loaded into CR3 comes with the state. *)
Definition init (ebss : Z) (s : state) : option (state * Z) :=
  if ebss <=? kernel_break then init_page_table_4k (init_page_table_break s) else None.

(** ** Loops over the pages of a range *)

(** [while (start != end) { f (start); start += PAGE_SIZE; }] *)
Fixpoint page_loop (fuel : nat) (f : Z -> state -> state) (start end_ : Z) (s : state)
    : option state :=
  if start =? end_ then Some s
  else match fuel with
       | O => None
       | S fuel => page_loop fuel f (u64 (start + PAGE_SIZE)) end_ (f start s)
       end.

(** Rounds until [start] comes round to [end_]. *)
Definition rounds (start end_ : Z) : nat := Z.to_nat (u64 (end_ - start) / PAGE_SIZE).

(** The two assertions and the loop. *)
Definition for_pages (f : Z -> state -> state) (start end_ : Z) (s : state) : option state :=
  if negb (start mod PAGE_SIZE =? 0) then None
  else if negb (end_ mod PAGE_SIZE =? 0) then None
  else page_loop (rounds start end_) f start end_ s.

(** [P1 = g (P1)] on the page of [start]. *)
Definition update_P1 (g : Z -> Z) (start : Z) (s : state) : state :=
  with_P1 s (upd (P1 s) (P1_slot start) (g (P1 s (P1_slot start)))).

Definition flags_user_writable (e : Z) : Z :=
  Z.lor (Z.lor (Z.lor (Z.lor (clear_page_flags e) PTE_PRESENT) PTE_USER) PTE_WRITABLE) PTE_NO_EXECUTE.
Definition flags_user_readonly (e : Z) : Z :=
  Z.lor (Z.lor (Z.lor (clear_page_flags e) PTE_PRESENT) PTE_USER) PTE_NO_EXECUTE.
Definition flags_user_executable (e : Z) : Z :=
  Z.lor (Z.lor (clear_page_flags e) PTE_PRESENT) PTE_USER.
Definition flags_kernel (e : Z) : Z :=
  Z.lor (Z.lor (clear_page_flags e) PTE_PRESENT) PTE_WRITABLE.

Definition set_page_flags_user_writable := for_pages (update_P1 flags_user_writable).
Definition set_page_flags_user_readonly := for_pages (update_P1 flags_user_readonly).
Definition set_page_flags_user_executable := for_pages (update_P1 flags_user_executable).
Definition set_page_flags_kernel := for_pages (update_P1 flags_kernel).
Definition add_page_flags_writable := for_pages (update_P1 (λ e, Z.lor e PTE_WRITABLE)).
Definition add_page_flags_executable := for_pages (update_P1 (λ e, clear_bits e PTE_NO_EXECUTE)).
Definition clear_access_and_dirty_flags :=
  for_pages (update_P1 (λ e, clear_bits e (Z.lor PTE_ACCESSED PTE_DIRTY))).
Definition set_duck_written_by_dirty :=
  for_pages (update_P1 (λ e, Z.lor e (if negb (Z.land e PTE_DIRTY =? 0) then PTE_DUCK_WRITTEN else 0))).
Definition set_duck_written := for_pages (update_P1 (λ e, Z.lor e PTE_DUCK_WRITTEN)).

Definition clear_duck_written_page (start : Z) (s : state) : state :=
  if negb (Z.land (P1 s (P1_slot start)) PTE_DUCK_WRITTEN =? 0) then
    let s := with_user_mem s (zero_range (user_mem s) start PAGE_SIZE) in
    update_P1 (λ e, clear_bits e (Z.lor PTE_DIRTY PTE_DUCK_WRITTEN)) start s
  else s.
Definition clear_duck_written_pages := for_pages clear_duck_written_page.

(** The counters run the same loop and leave the pages alone. *)
Fixpoint count_loop (fuel : nat) (flag : Z) (start end_ ret : Z) (s : state) : option Z :=
  if start =? end_ then Some ret
  else match fuel with
       | O => None
       | S fuel =>
           count_loop fuel flag (u64 (start + PAGE_SIZE)) end_
             (u64 (ret + if negb (Z.land (P1 s (P1_slot start)) flag =? 0) then 1 else 0)) s
       end.
Definition count_pages (flag start end_ : Z) (s : state) : option Z :=
  if negb (start mod PAGE_SIZE =? 0) then None
  else if negb (end_ mod PAGE_SIZE =? 0) then None
  else count_loop (rounds start end_) flag start end_ 0 s.
Definition count_dirty_pages := count_pages PTE_DIRTY.
Definition count_accessed_pages := count_pages PTE_ACCESSED.

Fixpoint map_region_loop (fuel : nat) (start end_ src : Z) (s : state) : option state :=
  if start =? end_ then Some s
  else match fuel with
       | O => None
       | S fuel =>
           let e := Z.lor (Z.lor (Z.lor (Z.lor src PTE_PRESENT) PTE_WRITABLE)
                             PTE_CACHE_DISABLE) PTE_WRITE_THROUGH in
           map_region_loop fuel (u64 (start + PAGE_SIZE)) end_ (u64 (src + PAGE_SIZE))
             (update_P1 (λ _, e) start s)
       end.
Definition map_region_cache_disabled (start end_ src_addr : Z) (s : state) : option state :=
  if negb (start mod PAGE_SIZE =? 0) then None
  else if negb (end_ mod PAGE_SIZE =? 0) then None
  else if negb (src_addr mod PAGE_SIZE =? 0) then None
  else map_region_loop (rounds start end_) start end_ src_addr s.

(** ** Virtual memory *)

Definition get_kernel_break : Z := kernel_break.
Definition get_vaddr_break (s : state) : Z := vaddr_break s.

(** [NULL] is [None] inside. *)
Definition allocate_virtual_memory (size : Z) (s : state) : state * option Z :=
  let size := round_up size HUGE_PAGE_SIZE in
  if u64 (vaddr_break s - kernel_break) <? size then (s, None)
  else
    let s := with_vaddr_break s (u64 (vaddr_break s - size)) in
    (s, Some (vaddr_break s)).

Definition can_allocate_virtual_memory (size : Z) (s : state) : bool :=
  round_up size HUGE_PAGE_SIZE <=? u64 (vaddr_break s - kernel_break).

Definition user_writable_check (addr : Z) (s : state) : bool :=
  if addr <? kernel_break then false
  else if vaddr_break s <=? addr then false
  else
    let flags := Z.lor PTE_USER PTE_WRITABLE in
    Z.land (P1 s (P1_slot addr)) flags =? flags.

(** ** Lemmas: the recursive mapping *)

Lemma land_ones_9 x : Z.land x (PAGE_SIZE / 8 - 1) = x mod 512.
Proof. change (PAGE_SIZE / 8 - 1) with (Z.ones 9). by rewrite Z.land_ones. Qed.

Lemma land_minus_8 x : is_u64 x -> Z.land x (u64 (-8)) = x / 8 * 8.
Proof.
  intros Hx. change (u64 (-8)) with (Z.shiftl (Z.ones 61) 3). rewrite land_field by lia.
  change (2 ^ 3) with 8. rewrite (Z.mod_small (x / 8)); [done|].
  unfold is_u64 in Hx. change (2 ^ 61) with 2305843009213693952. word_lia.
Qed.

(** [x | (ones above n)] keeps the low [n] bits of [x]. *)
Lemma lor_high_ones n x :
  0 <= n <= 64 -> is_u64 x -> Z.lor x (2 ^ 64 - 2 ^ n) = 2 ^ 64 - 2 ^ n + x mod 2 ^ n.
Proof.
  intros Hn Hx.
  assert (E : 2 ^ 64 - 2 ^ n = Z.shiftl (Z.ones (64 - n)) n).
  { rewrite Z.shiftl_mul_pow2, Z.ones_equiv by lia. unfold Z.pred.
    rewrite Z.mul_add_distr_r, <- Z.pow_add_r by lia. replace (64 - n + n) with 64 by lia. lia. }
  rewrite Z.add_comm, <- (lor_add n (x mod 2 ^ n)).
  - apply Z.bits_inj'. intros i Hi. rewrite !Z.lor_spec, E, Z.shiftl_spec by lia.
    destruct (Z.lt_ge_cases i n).
    + by rewrite Z.mod_pow2_bits_low by lia.
    + rewrite Z.mod_pow2_bits_high by lia. rewrite Z.testbit_ones_nonneg by lia.
      destruct (Z.ltb_spec (i - n) (64 - n)); [apply orb_true_r|].
      by rewrite (testbit_high x 64) by (done || lia).
  - lia.
  - apply Z.mod_pos_bound. lia.
  - rewrite E, Z.shiftl_mul_pow2 by lia. apply Z.mod_mul. lia.
Qed.

Lemma get_P1_addr_slot v : is_u64 v -> get_P1_addr v = 2 ^ 64 - 2 ^ 39 + 8 * P1_slot v.
Proof.
  intros Hv. unfold get_P1_addr, P1_slot. rewrite !shiftr_div by lia.
  change (u64 (- Z.shiftl 1 39)) with (2 ^ 64 - 2 ^ 39).
  assert (H9 : is_u64 (v / 2 ^ 9)) by (change (2 ^ 9) with 512; word_lia).
  rewrite land_minus_8, lor_high_ones by (lia || done || word_lia).
  f_equal. change (2 ^ 9) with 512. change (2 ^ 12) with 4096. change (2 ^ 39) with (68719476736 * 8).
  change (2 ^ 36) with 68719476736.
  rewrite Z.mul_mod_distr_r, Z.div_div by lia. change (512 * 8) with 4096. lia.
Qed.

(** The four levels of the processor's page walk (no huge pages): the entry of
    each level holds in bits 12 to 51 the address of the next table. *)
Definition frame (e : Z) : Z := Z.land e (Z.shiftl (Z.ones 40) 12).
Definition walk_P3 (ph : Z -> Z) (cr3 v : Z) : Z := frame (ph (cr3 + 8 * P4_index v)).
Definition walk_P2 (ph : Z -> Z) (cr3 v : Z) : Z := frame (ph (walk_P3 ph cr3 v + 8 * P3_index v)).
Definition walk_P1 (ph : Z -> Z) (cr3 v : Z) : Z := frame (ph (walk_P2 ph cr3 v + 8 * P2_index v)).
Definition walk (ph : Z -> Z) (cr3 v : Z) : Z :=
  frame (ph (walk_P1 ph cr3 v + 8 * P1_index v)) + v mod PAGE_SIZE.

Lemma recursive_indices v :
  is_u64 v ->
  P4_index (get_P1_addr v) = 511 /\ P3_index (get_P1_addr v) = P4_index v /\
  P2_index (get_P1_addr v) = P3_index v /\ P1_index (get_P1_addr v) = P2_index v /\
  get_P1_addr v mod PAGE_SIZE = 8 * P1_index v.
Proof.
  intros Hv. rewrite get_P1_addr_slot by done.
  unfold P4_index, P3_index, P2_index, P1_index, P1_slot. rewrite !land_ones_9, !shiftr_div by lia.
  unfold PAGE_SIZE. change (2 ^ 39) with 549755813888. change (2 ^ 30) with 1073741824.
  change (2 ^ 21) with 2097152. change (2 ^ 12) with 4096. change (2 ^ 36) with 68719476736.
  change (2 ^ 64) with 18446744073709551616. unfold is_u64 in Hv.
  conj_split; Z.to_euclidean_division_equations; lia.
Qed.

(** The recursive mapping works: when entry 511 of the top table points back to the
    table, the address [get_P1] dereferences for a virtual address translates to
    the physical location of that address's own first-level entry. *)
Theorem recursive_mapping ph cr3 v :
  is_u64 v -> frame (ph (cr3 + 8 * 511)) = cr3 ->
  walk ph cr3 (get_P1_addr v) = walk_P1 ph cr3 v + 8 * P1_index v.
Proof.
  intros Hv Hrec. destruct (recursive_indices v Hv) as (H4 & H3 & H2 & H1 & H0).
  unfold walk. rewrite H0. f_equal. rewrite H1. unfold walk_P1 at 1, walk_P2, walk_P3.
  rewrite H4, H3, H2, Hrec. done.
Qed.
Lemma recursive_mapping_witness :
  let ph := λ a, if a =? 4096 + 8 * 511 then 4096 + 3 else a * 512 in
  walk ph 4096 (get_P1_addr 0x7123456789) = walk_P1 ph 4096 0x7123456789 + 8 * P1_index 0x7123456789.
Proof.
  apply (recursive_mapping (λ a, if a =? 4096 + 8 * 511 then 4096 + 3 else a * 512) 4096 0x7123456789);
    [unfold is_u64; lia|reflexivity].
Defined.

(** ** Lemmas: the loops *)

(** A loop over any aligned range ends, even one that wraps around. *)
Lemma page_loop_ends n f start end_ s :
  is_u64 start -> is_u64 end_ -> u64 (end_ - start) = PAGE_SIZE * Z.of_nat n ->
  exists s', page_loop n f start end_ s = Some s'.
Proof.
  unfold PAGE_SIZE. revert start s. induction n as [|n IH]; intros start s Hs He Hn; cbn [page_loop].
  - destruct (Z.eqb_spec start end_); [eauto|]. exfalso. word_lia.
  - destruct (Z.eqb_spec start end_); [eauto|]. apply IH; [auto with duck|done|].
    rewrite u64_sub_r. unfold PAGE_SIZE. word_lia.
Qed.

Lemma for_pages_ends f start end_ s :
  is_u64 start -> is_u64 end_ -> start mod PAGE_SIZE = 0 -> end_ mod PAGE_SIZE = 0 ->
  exists s', for_pages f start end_ s = Some s'.
Proof.
  intros Hs He Hms Hme. unfold for_pages. rewrite Hms, Hme. cbn [Z.eqb negb].
  apply page_loop_ends; [done|done|]. unfold rounds, PAGE_SIZE in *. word_lia.
Qed.

Fixpoint page_list (start : Z) (n : nat) : list Z :=
  match n with O => [] | S n => start :: page_list (start + PAGE_SIZE) n end.

Lemma page_loop_fold n f start s :
  0 <= start -> start + PAGE_SIZE * Z.of_nat n < 2 ^ 64 ->
  page_loop n f start (start + PAGE_SIZE * Z.of_nat n) s =
    Some (fold_left (λ s a, f a s) (page_list start n) s).
Proof.
  unfold PAGE_SIZE. revert start s. induction n as [|n IH]; intros start s Hs Hn;
    cbn [page_loop page_list fold_left].
  - by rewrite Z.mul_0_r, Z.add_0_r, Z.eqb_refl.
  - destruct (Z.eqb_spec start (start + 4096 * Z.of_nat (S n))); [lia|].
    unfold PAGE_SIZE. rewrite u64_small by (unfold is_u64; lia).
    replace (start + 4096 * Z.of_nat (S n)) with (start + 4096 + 4096 * Z.of_nat n) by lia.
    apply IH; lia.
Qed.

(** A range of user pages. *)
Definition page_range (start end_ : Z) : Prop :=
  0 <= start <= end_ /\ end_ <= 2 ^ 47 /\ start mod PAGE_SIZE = 0 /\ end_ mod PAGE_SIZE = 0.
Definition in_range (start end_ p : Z) : bool :=
  (start <=? PAGE_SIZE * p) && (PAGE_SIZE * p <? end_).

Lemma for_pages_fold f start end_ s :
  page_range start end_ ->
  for_pages f start end_ s =
    Some (fold_left (λ s a, f a s) (page_list start (Z.to_nat ((end_ - start) / PAGE_SIZE))) s).
Proof.
  intros (H1 & H2 & H3 & H4). unfold for_pages. rewrite H3, H4. cbn [Z.eqb negb].
  unfold rounds. rewrite u64_small by (unfold is_u64; lia).
  rewrite <- page_loop_fold by (unfold PAGE_SIZE in *; Z.to_euclidean_division_equations; lia).
  f_equal. unfold PAGE_SIZE in *. Z.to_euclidean_division_equations. lia.
Qed.

Lemma P1_slot_small v : 0 <= v < 2 ^ 48 -> P1_slot v = v / PAGE_SIZE.
Proof.
  intros Hv. unfold P1_slot, PAGE_SIZE. rewrite shiftr_div by lia. change (2 ^ 12) with 4096.
  change (2 ^ 36) with 68719476736. apply Z.mod_small. Z.to_euclidean_division_equations. lia.
Qed.

(** Mapping a device: page after page of it, uncached. *)
Definition device_entry (src : Z) : Z :=
  Z.lor (Z.lor (Z.lor (Z.lor src PTE_PRESENT) PTE_WRITABLE) PTE_CACHE_DISABLE) PTE_WRITE_THROUGH.
Lemma map_region_loop_spec n start src s :
  0 <= start -> start mod PAGE_SIZE = 0 -> start + PAGE_SIZE * Z.of_nat n <= 2 ^ 47 ->
  0 <= src -> src + PAGE_SIZE * Z.of_nat n <= 2 ^ 63 ->
  exists s', map_region_loop n start (start + PAGE_SIZE * Z.of_nat n) src s = Some s' /\ user_mem s' = user_mem s /\
    vaddr_break s' = vaddr_break s /\
    forall p, P1 s' p = if in_range start (start + PAGE_SIZE * Z.of_nat n) p
      then device_entry (src + (PAGE_SIZE * p - start)) else P1 s p.
Proof.
  unfold in_range, PAGE_SIZE. revert start src s.
  induction n as [|n IH]; intros start src s H0 Hm Hn Hs0 Hs; cbn [map_region_loop].
  { rewrite Z.mul_0_r, Z.add_0_r, Z.eqb_refl. exists s. conj_split; try done. intros p.
    destruct (Z.leb_spec start (4096 * p)), (Z.ltb_spec (4096 * p) start); cbn [andb]; try done. lia. }
  destruct (Z.eqb_spec start (start + 4096 * Z.of_nat (S n))); [lia|]. unfold PAGE_SIZE.
  rewrite !u64_small by (unfold is_u64; lia).
  replace (start + 4096 * Z.of_nat (S n)) with (start + 4096 + 4096 * Z.of_nat n) by lia. fold (device_entry src).
  destruct (IH (start + 4096) (src + 4096) (update_P1 (λ _, device_entry src) start s)) as (s' & E & Hu & Hv & Hp);
    [lia|Z.to_euclidean_division_equations; lia|lia|lia|lia|].
  exists s'. conj_split; [done|by rewrite Hu|by rewrite Hv|]. intros p. rewrite Hp. unfold update_P1. cbn [P1 with_P1].
  rewrite P1_slot_small by lia. unfold upd, PAGE_SIZE. clear IH E Hu Hv Hp.
  destruct (Z.leb_spec (start + 4096) (4096 * p)), (Z.ltb_spec (4096 * p) (start + 4096 + 4096 * Z.of_nat n)),
    (Z.leb_spec start (4096 * p)), (Z.eqb_spec p (start / 4096)); cbn [andb]; try done;
    try (exfalso; Z.to_euclidean_division_equations; lia); f_equal; try lia.
  Z.to_euclidean_division_equations; lia.
Qed.

Lemma map_region_spec start size src s :
  0 <= start -> start mod PAGE_SIZE = 0 -> 0 <= size -> size mod PAGE_SIZE = 0 -> start + size <= 2 ^ 47 ->
  is_u32 src -> src mod PAGE_SIZE = 0 ->
  exists s', map_region_cache_disabled start (start + size) src s = Some s' /\ user_mem s' = user_mem s /\
    vaddr_break s' = vaddr_break s /\
    forall p, P1 s' p = if in_range start (start + size) p then device_entry (src + (PAGE_SIZE * p - start)) else P1 s p.
Proof.
  intros H0 Hm Hs0 Hsm Htop Hsrc Hsrcm. unfold map_region_cache_disabled.
  assert ((start + size) mod PAGE_SIZE = 0) as -> by (unfold PAGE_SIZE in *; Z.to_euclidean_division_equations; lia).
  rewrite Hm, Hsrcm. cbn [Z.eqb negb]. unfold rounds. replace (start + size - start) with size by lia.
  rewrite u64_small by (unfold is_u64; lia). unfold is_u32 in Hsrc.
  destruct (map_region_loop_spec (Z.to_nat (size / PAGE_SIZE)) start src s) as (s' & E & H); try done; try lia;
    try (unfold PAGE_SIZE in *; Z.to_euclidean_division_equations; lia).
  replace (PAGE_SIZE * Z.of_nat (Z.to_nat (size / PAGE_SIZE))) with size in *
    by (unfold PAGE_SIZE in *; Z.to_euclidean_division_equations; lia).
  by exists s'.
Qed.

(** The pages of the list get [g] applied once; nothing else changes. *)
Lemma fold_update_P1 g n start s p :
  0 <= start -> start mod PAGE_SIZE = 0 -> start + PAGE_SIZE * Z.of_nat n <= 2 ^ 47 ->
  let s' := fold_left (λ s a, update_P1 g a s) (page_list start n) s in
  P1 s' p = (if in_range start (start + PAGE_SIZE * Z.of_nat n) p then g (P1 s p) else P1 s p) /\
  user_mem s' = user_mem s /\ vaddr_break s' = vaddr_break s.
Proof.
  unfold in_range, PAGE_SIZE. revert start s.
  induction n as [|n IH]; intros start s H0 Hm Hn; cbn [page_list fold_left].
  - destruct (Z.leb_spec start (4096 * p)), (Z.ltb_spec (4096 * p) (start + 4096 * Z.of_nat 0));
      cbn [andb]; try done. lia.
  - unfold PAGE_SIZE. destruct (IH (start + 4096) (update_P1 g start s)) as (E1 & E2 & E3);
      [lia|Z.to_euclidean_division_equations; lia|lia|].
    rewrite E1, E2, E3. unfold update_P1. cbn [P1 with_P1 user_mem vaddr_break]. split; [|done].
    rewrite P1_slot_small by lia. unfold upd, PAGE_SIZE. clear IH E1 E2 E3.
    destruct (Z.eqb_spec p (start / 4096)) as [->|Hne].
    + replace (4096 * (start / 4096)) with start by (Z.to_euclidean_division_equations; lia).
      destruct (Z.leb_spec (start + 4096) start); [lia|]. cbn [andb].
      destruct (Z.leb_spec start start), (Z.ltb_spec start (start + 4096 * Z.of_nat (S n)));
        cbn [andb]; try lia; done.
    + assert (4096 * p <> start) by (Z.to_euclidean_division_equations; lia).
      replace (start + 4096 + 4096 * Z.of_nat n) with (start + 4096 * Z.of_nat (S n)) by lia.
      destruct (Z.leb_spec (start + 4096) (4096 * p)), (Z.leb_spec start (4096 * p)); cbn [andb];
        try done; exfalso; Z.to_euclidean_division_equations; lia.
Qed.

Lemma for_pages_update g start end_ s :
  page_range start end_ ->
  exists s', for_pages (update_P1 g) start end_ s = Some s' /\
    (forall p, P1 s' p = if in_range start end_ p then g (P1 s p) else P1 s p) /\
    user_mem s' = user_mem s /\ vaddr_break s' = vaddr_break s.
Proof.
  intros Hr. pose proof Hr as (H1 & H2 & H3 & H4). eexists. split; [by apply for_pages_fold|].
  set (n := Z.to_nat _). assert (En : end_ = start + PAGE_SIZE * Z.of_nat n)
    by (subst n; unfold PAGE_SIZE in *; Z.to_euclidean_division_equations; lia).
  pose proof (fold_update_P1 g n start s) as Hf. rewrite <- En in Hf.
  split; [intros p; by apply Hf; try lia|]. apply (Hf 0); lia || done.
Qed.

(** ** Lemmas: the flags *)

Lemma clear_page_flags_spec a i :
  is_u64 a -> 0 <= i ->
  Z.testbit (clear_page_flags a) i = (9 <=? i) && (i <? 63) && Z.testbit a i.
Proof.
  intros Ha Hi. unfold clear_page_flags, u64. change 18446744073709551616 with (2 ^ 64).
  destruct (Z.lt_ge_cases i 64) as [H|H].
  - rewrite Z.mod_pow2_bits_low by lia. rewrite Z.shiftl_spec by lia.
    destruct (Z.leb_spec 9 i); cbn [andb]; [|apply Z.testbit_neg_r; lia].
    rewrite Z.shiftr_spec by lia. destruct (Z.ltb_spec i 63); cbn [andb].
    + rewrite Z.mod_pow2_bits_low, Z.shiftl_spec by lia. f_equal. lia.
    + apply Z.mod_pow2_bits_high. lia.
  - rewrite Z.mod_pow2_bits_high by lia. destruct (Z.ltb_spec i 63); [lia|].
    by rewrite andb_false_r.
Qed.

(** Setting one bit. *)
Lemma testbit_lor_flag e f i : 0 <= i -> 0 <= f -> Z.testbit (Z.lor e (2 ^ f)) i = Z.testbit e i || (f =? i).
Proof. intros. by rewrite Z.lor_spec, Z.pow2_bits_eqb by done. Qed.

Ltac flag_bits :=
  change PTE_PRESENT with (2 ^ 0); change PTE_WRITABLE with (2 ^ 1); change PTE_USER with (2 ^ 2);
  change PTE_NO_EXECUTE with (2 ^ 63); rewrite ?testbit_lor_flag by lia;
  rewrite ?clear_page_flags_spec by (done || lia).

(** What the processor sees of an entry. *)
Definition user_ok (e : Z) : bool := Z.testbit e 0 && Z.testbit e 2.
Definition writable (e : Z) : bool := Z.testbit e 1.
Definition executable (e : Z) : bool := negb (Z.testbit e 63).
(** Bits 9 to 62: the address of the page and the bits the system owns. *)
Definition same_page (e e' : Z) : Prop := forall i, 9 <= i < 63 -> Z.testbit e' i = Z.testbit e i.

Lemma flags_meaning e :
  is_u64 e ->
  (let e' := flags_user_writable e in
   same_page e e' /\ user_ok e' = true /\ writable e' = true /\ executable e' = false) /\
  (let e' := flags_user_readonly e in
   same_page e e' /\ user_ok e' = true /\ writable e' = false /\ executable e' = false) /\
  (let e' := flags_user_executable e in
   same_page e e' /\ user_ok e' = true /\ writable e' = false /\ executable e' = true) /\
  (let e' := flags_kernel e in
   same_page e e' /\ user_ok e' = false /\ writable e' = true).
Proof.
  intros He. unfold flags_user_writable, flags_user_readonly, flags_user_executable, flags_kernel,
    user_ok, writable, executable, same_page. cbn zeta.
  conj_split; flag_bits; try done; intros i Hi; flag_bits;
    repeat match goal with |- context [?a =? i] => destruct (Z.eqb_spec a i); [lia|] end;
    rewrite ?orb_false_r; destruct (Z.leb_spec 9 i), (Z.ltb_spec i 63); cbn [andb]; done || lia.
Qed.

Lemma lor_u64 a b : is_u64 a -> is_u64 b -> is_u64 (Z.lor a b).
Proof. intros Ha Hb. apply (lor_bound 64); done. Qed.
Lemma clear_bits_u64 a b : is_u64 a -> is_u64 (clear_bits a b).
Proof.
  intros Ha. apply (bits_bound 64); [done|]. intros i Hi. unfold clear_bits.
  by rewrite Z.ldiff_spec, (testbit_high a 64) by (done || lia).
Qed.
Lemma flags_u64 e :
  is_u64 (flags_user_writable e) /\ is_u64 (flags_user_readonly e) /\
  is_u64 (flags_user_executable e) /\ is_u64 (flags_kernel e).
Proof.
  conj_split; repeat (apply lor_u64; [|by vm_compute; intuition discriminate]); apply u64_range.
Qed.

(** The four [set_page_flags_*] calls give every page of the range exactly the
    rights of their name (user pages are never writable and executable at once),
    keep each page's address and system bits, leave all other pages alone, and
    always end. *)
Theorem set_page_flags_rights start end_ s :
  page_range start end_ -> (forall p, is_u64 (P1 s p)) ->
  let others s' := forall p, in_range start end_ p = false -> P1 s' p = P1 s p in
  let all s' (R : Z -> Prop) := forall p, in_range start end_ p = true ->
    same_page (P1 s p) (P1 s' p) /\ R (P1 s' p) in
  (exists s', set_page_flags_user_writable start end_ s = Some s' /\ others s' /\
     all s' (λ e, user_ok e = true /\ writable e = true /\ executable e = false)) /\
  (exists s', set_page_flags_user_readonly start end_ s = Some s' /\ others s' /\
     all s' (λ e, user_ok e = true /\ writable e = false /\ executable e = false)) /\
  (exists s', set_page_flags_user_executable start end_ s = Some s' /\ others s' /\
     all s' (λ e, user_ok e = true /\ writable e = false /\ executable e = true)) /\
  (exists s', set_page_flags_kernel start end_ s = Some s' /\ others s' /\
     all s' (λ e, user_ok e = false /\ writable e = true)).
Proof.
  intros Hr Hu others all.
  assert (G : forall g (R : Z -> Prop),
    (forall e, is_u64 e -> same_page e (g e) /\ R (g e)) ->
    exists s', for_pages (update_P1 g) start end_ s = Some s' /\ others s' /\ all s' R).
  { intros g R Hg. destruct (for_pages_update g start end_ s Hr) as (s' & E & Hp & _).
    exists s'. split; [done|]. split; intros p Hin; rewrite Hp, Hin; [done|]. by apply Hg. }
  conj_split; apply G; intros e He; destruct (flags_meaning e He) as (F1 & F2 & F3 & F4);
    [apply F1|apply F2|apply F3|apply F4].
Qed.

(** ** Lemmas: clearing what a run has written *)

Definition duck_written (e : Z) : bool := Z.testbit e 9.
Definition dirty (e : Z) : bool := Z.testbit e 6.
Definition clear_written (e : Z) : Z := clear_bits e (Z.lor PTE_DIRTY PTE_DUCK_WRITTEN).

Lemma in_range_cons start n p :
  start mod PAGE_SIZE = 0 ->
  in_range start (start + PAGE_SIZE * Z.of_nat (S n)) p =
    (p =? start / PAGE_SIZE) || in_range (start + PAGE_SIZE) (start + PAGE_SIZE + PAGE_SIZE * Z.of_nat n) p.
Proof.
  unfold in_range, PAGE_SIZE. intros Hm.
  replace (start + 4096 + 4096 * Z.of_nat n) with (start + 4096 * Z.of_nat (S n)) by lia.
  destruct (Z.eqb_spec p (start / 4096)), (Z.leb_spec start (4096 * p)),
    (Z.leb_spec (start + 4096) (4096 * p)), (Z.ltb_spec (4096 * p) (start + 4096 * Z.of_nat (S n)));
    cbn [andb orb]; try done; exfalso; Z.to_euclidean_division_equations; lia.
Qed.

Lemma fold_clear_written n start s p x :
  0 <= start -> start mod PAGE_SIZE = 0 -> start + PAGE_SIZE * Z.of_nat n <= 2 ^ 47 ->
  let s' := fold_left (λ s a, clear_duck_written_page a s) (page_list start n) s in
  let inside p := in_range start (start + PAGE_SIZE * Z.of_nat n) p && duck_written (P1 s p) in
  P1 s' p = (if inside p then clear_written (P1 s p) else P1 s p) /\
  user_mem s' x = (if inside (x / PAGE_SIZE) then 0 else user_mem s x).
Proof.
  revert start s. induction n as [|n IH]; intros start s H0 Hm Hn; cbn [page_list fold_left].
  - assert (E : forall q, in_range start (start + PAGE_SIZE * Z.of_nat 0) q = false).
    { intros q. unfold in_range. destruct (Z.leb_spec start (PAGE_SIZE * q)),
        (Z.ltb_spec (PAGE_SIZE * q) (start + PAGE_SIZE * Z.of_nat 0)); cbn [andb]; try done; lia. }
    cbn zeta. by rewrite !E.
  - cbn zeta. rewrite !in_range_cons by done. set (s1 := clear_duck_written_page start s).
    destruct (IH (start + PAGE_SIZE) s1) as [E1 E2]; [unfold PAGE_SIZE; lia| |unfold PAGE_SIZE in *; lia|].
    { unfold PAGE_SIZE in *. Z.to_euclidean_division_equations; lia. }
    rewrite E1, E2. clear IH E1 E2.
    set (e := P1 s (start / PAGE_SIZE)).
    assert (Hrange : in_range (start + PAGE_SIZE) (start + PAGE_SIZE + PAGE_SIZE * Z.of_nat n) (start / PAGE_SIZE) = false).
    { unfold in_range, PAGE_SIZE in *. destruct (Z.leb_spec (start + 4096) (4096 * (start / 4096))); [|done].
      exfalso. Z.to_euclidean_division_equations; lia. }
    assert (Hs1 : (forall q, P1 s1 q = if (q =? start / PAGE_SIZE) && duck_written e then clear_written e else P1 s q) /\
      (forall y, user_mem s1 y = if (y / PAGE_SIZE =? start / PAGE_SIZE) && duck_written e then 0 else user_mem s y)).
    { unfold s1, clear_duck_written_page. rewrite P1_slot_small by (unfold PAGE_SIZE in *; lia). fold e.
      change PTE_DUCK_WRITTEN with (2 ^ 9) at 1 3. rewrite land_bit by lia. fold (duck_written e).
      destruct (duck_written e); [|split; intros q; by rewrite andb_false_r].
      cbn [update_P1 with_P1 with_user_mem P1 user_mem]. unfold upd, zero_range.
      rewrite P1_slot_small by (unfold PAGE_SIZE in *; lia). fold e. split; intros q; rewrite andb_true_r; [done|].
      unfold PAGE_SIZE in *.
      destruct (Z.leb_spec start q), (Z.ltb_spec q (start + 4096)), (Z.eqb_spec (q / 4096) (start / 4096));
        cbn [andb]; try done; exfalso; Z.to_euclidean_division_equations; lia. }
    destruct Hs1 as [Hp Hu]. rewrite !Hp, Hu. split.
    + destruct (Z.eqb_spec p (start / PAGE_SIZE)) as [->|]; cbn [andb orb]; [|done].
      rewrite Hrange. cbn [andb]. fold e. done.
    + destruct (Z.eqb_spec (x / PAGE_SIZE) (start / PAGE_SIZE)) as [->|]; cbn [andb orb]; [|done].
      rewrite Hrange. cbn [andb]. fold e. done.
Qed.

Lemma mark_dirty_bits e :
  let e' := Z.lor e (if negb (Z.land e PTE_DIRTY =? 0) then PTE_DUCK_WRITTEN else 0) in
  duck_written e' = dirty e || duck_written e.
Proof.
  cbn zeta. change PTE_DIRTY with (2 ^ 6). rewrite land_bit by lia. unfold duck_written, dirty.
  destruct (Z.testbit e 6); cbn [orb].
  - change PTE_DUCK_WRITTEN with (2 ^ 9). rewrite testbit_lor_flag by lia. apply orb_true_r.
  - by rewrite Z.lor_0_r.
Qed.

(** C32: Nothing a contestant's program wrote survives into the next run: after the pages
    are marked by their dirty bits and the marked pages are cleared, every byte
    of a page of the range that was dirty, or marked before, is zero; every other
    byte and every other page keeps its content. *)
Theorem dirty_pages_are_cleared start end_ s :
  page_range start end_ ->
  exists s1 s2, set_duck_written_by_dirty start end_ s = Some s1 /\
    clear_duck_written_pages start end_ s1 = Some s2 /\
    forall x, let p := x / PAGE_SIZE in
      user_mem s2 x =
        if in_range start end_ p && (dirty (P1 s p) || duck_written (P1 s p)) then 0
        else user_mem s x.
Proof.
  intros Hr. destruct (for_pages_update (λ e, Z.lor e (if negb (Z.land e PTE_DIRTY =? 0)
    then PTE_DUCK_WRITTEN else 0)) start end_ s Hr) as (s1 & E1 & Hp & Hu & _).
  exists s1. eexists. split; [exact E1|]. split; [by apply for_pages_fold|]. intros x. cbn zeta.
  pose proof Hr as (H1 & H2 & H3 & H4). set (n := Z.to_nat _).
  assert (En : end_ = start + PAGE_SIZE * Z.of_nat n)
    by (subst n; unfold PAGE_SIZE in *; Z.to_euclidean_division_equations; lia).
  destruct (fold_clear_written n start s1 0 x) as [_ E2]; [lia|done|lia|].
  rewrite E2, <- En, Hp, Hu. destruct (in_range start end_ (x / PAGE_SIZE)); cbn [andb]; [|done].
  by rewrite mark_dirty_bits.
Qed.

(** ** Lemmas: allocation *)

Definition valid_break (s : state) : Prop := kernel_break <= vaddr_break s < 2 ^ 63.

(** Virtual memory is handed out in disjoint pieces: an allocation either fails
    (and changes nothing, exactly when [can_allocate_virtual_memory] says so) or
    returns a 2 MiB-aligned region that holds the size asked for, lies in the
    user's part of memory, and is cut off from what later allocations and user
    programs can use. *)
Theorem allocate_is_disjoint size s :
  valid_break s -> vaddr_break s mod HUGE_PAGE_SIZE = 0 -> 0 <= size <= 2 ^ 63 ->
  let '(s', r) := allocate_virtual_memory size s in
  can_allocate_virtual_memory size s = match r with Some _ => true | None => false end /\
  match r with
  | None => s' = s /\ vaddr_break s - kernel_break < size + HUGE_PAGE_SIZE
  | Some a =>
      vaddr_break s' = a /\ a mod HUGE_PAGE_SIZE = 0 /\ kernel_break <= a /\
      a + size <= vaddr_break s /\ valid_break s' /\ P1 s' = P1 s /\ user_mem s' = user_mem s
  end.
Proof.
  intros (Hk & Hv) Hm Hs. unfold allocate_virtual_memory, can_allocate_virtual_memory, valid_break.
  destruct (round_up_no_wrap size HUGE_PAGE_SIZE) as (_ & Hb & Hr & _);
    [unfold is_u64; lia|done|unfold HUGE_PAGE_SIZE; lia|].
  set (sz := round_up size HUGE_PAGE_SIZE) in *.
  rewrite u64_small by (unfold is_u64, kernel_break in *; lia).
  destruct (Z.ltb_spec (vaddr_break s - kernel_break) sz), (Z.leb_spec sz (vaddr_break s - kernel_break));
    try lia; cbn [vaddr_break with_vaddr_break P1 user_mem].
  - split; [done|]. split; [done|lia].
  - rewrite u64_small by (unfold is_u64, kernel_break in *; lia).
    unfold HUGE_PAGE_SIZE, kernel_break in *. conj_split; try done; try lia.
    Z.to_euclidean_division_equations; lia.
Qed.

(** Registration counts each page once. *)
Definition pages_counted (s : state) : Prop := n_huge_pages s = Z.of_nat (size (huge_page_map s)).

Lemma register_counts addr s s' :
  pages_counted s -> Z.of_nat (size (huge_page_map s)) < 2 ^ 32 -> 0 <= addr ->
  register_available_huge_page addr s = Some s' -> pages_counted s'.
Proof.
  unfold pages_counted. intros Hc Hb Ha. unfold register_available_huge_page.
  destruct (negb _); [done|]. destruct (negb _); [done|]. destruct (_ <? _); [congruence|].
  destruct (bool_decide_reflect (u32 (addr / HUGE_PAGE_SIZE) ∈ huge_page_map s)); [congruence|].
  intros [= <-]. cbn. rewrite size_union by set_solver. rewrite size_singleton, Hc.
  rewrite u64_small by (unfold is_u64; lia). lia.
Qed.

Lemma find_huge_page_spec fuel m next r :
  is_u64 next -> find_huge_page fuel m next = Some r ->
  is_u64 r /\ r / HUGE_PAGE_SIZE ∈ m /\ r / HUGE_PAGE_SIZE < MAX_N_HUGE_PAGES /\ next <= r /\
  r mod PAGE_SIZE = next mod PAGE_SIZE.
Proof.
  revert next. induction fuel as [|fuel IH]; intros next Hn; cbn [find_huge_page]; [done|].
  destruct (Z.leb_spec MAX_N_HUGE_PAGES (next / HUGE_PAGE_SIZE)) as [|Hlt]; [done|].
  destruct (bool_decide_reflect (next / HUGE_PAGE_SIZE ∈ m)).
  - intros [= <-]. done.
  - change MAX_N_HUGE_PAGES with 261632 in Hlt. unfold HUGE_PAGE_SIZE, PAGE_SIZE, is_u64 in *.
    rewrite u64_small by (unfold is_u64; Z.to_euclidean_division_equations; lia).
    intros (H1 & H2 & H3 & H4 & H5)%IH; [|Z.to_euclidean_division_equations; lia].
    conj_split; try done; Z.to_euclidean_division_equations; lia.
Qed.

(** Page tables never overlap: every table the allocator returns is page-aligned,
    lies in a registered huge page below [page_table_break], and starts at or
    after the end of all tables returned before it. *)
Theorem page_tables_are_disjoint s s' a :
  is_u64 (next_page_table_address s) -> next_page_table_address s mod PAGE_SIZE = 0 ->
  page_table_alloc s = Some (s', a) ->
  a mod PAGE_SIZE = 0 /\ next_page_table_address s <= a /\
  next_page_table_address s' = a + PAGE_SIZE /\ a + PAGE_SIZE <= page_table_break s /\
  (forall x, a <= x < a + PAGE_SIZE -> x / HUGE_PAGE_SIZE ∈ huge_page_map s) /\
  page_table_break s' = page_table_break s /\ huge_page_map s' = huge_page_map s.
Proof.
  intros Hn Hm. unfold page_table_alloc.
  destruct (find_huge_page _ _ _) as [r|] eqn:E; [|done].
  apply find_huge_page_spec in E as (H1 & H2 & H3 & H4 & H5); [|done].
  change MAX_N_HUGE_PAGES with 261632 in H3. rewrite Hm in H5.
  unfold HUGE_PAGE_SIZE, PAGE_SIZE in *.
  rewrite u64_small by (unfold is_u64 in *; Z.to_euclidean_division_equations; lia).
  destruct (Z.leb_spec (r + 4096) (page_table_break s)); [|done]. intros [= <- <-].
  cbn [with_next next_page_table_address page_table_break huge_page_map].
  conj_split; try done. intros x Hx.
  replace (x / 2097152) with (r / 2097152); [done|]. Z.to_euclidean_division_equations; lia.
Qed.

(** The search for [page_table_break] stops at page number [n_huge_pages], the
    number of pages, instead of the size of the map: when every available page
    has a larger number (memory above a hole, or very little of it),
    [page_table_break] is never set and the first page table cannot be allocated. *)
Theorem page_table_break_missed s :
  (forall i, i ∈ huge_page_map s -> n_huge_pages s <= i) -> page_table_break s = 0 ->
  is_u64 (next_page_table_address s) ->
  init_page_table_break s = s /\ page_table_alloc (init_page_table_break s) = None.
Proof.
  intros Hm Hb Hn. assert (E : init_page_table_break s = s).
  { unfold init_page_table_break.
    assert (Hl : forall l cur, Forall (λ i, i < n_huge_pages s) l ->
      break_loop (huge_page_map s) (page_table_size (n_huge_pages s)) cur l = None).
    { induction l as [|i l IH]; intros cur Hl; [done|]. apply Forall_cons_iff in Hl as [Hi Hl].
      cbn [break_loop]. destruct (bool_decide_reflect (i ∈ huge_page_map s)) as [Hin|]; cbn [negb].
      - apply Hm in Hin. lia.
      - by apply IH. }
    rewrite Hl; [done|]. apply List.Forall_forall. intros i Hi%list_elem_of_In%elem_of_seqZ. lia. }
  split; [done|]. rewrite E. unfold page_table_alloc.
  destruct (find_huge_page _ _ _) as [r|] eqn:Er; [|done].
  apply find_huge_page_spec in Er as (H1 & H2 & H3 & H4 & _); [|done].
  change MAX_N_HUGE_PAGES with 261632 in H3. unfold HUGE_PAGE_SIZE, PAGE_SIZE in *.
  rewrite u64_small by (unfold is_u64 in *; Z.to_euclidean_division_equations; lia).
  rewrite Hb. unfold is_u64 in H1. destruct (Z.leb_spec (r + 4096) 0); [lia|done].
Qed.

(** ** Instances *)

Definition demo_state : state :=
  mk_state {[ 5; 6 ]} 2 kernel_break 0 0x40000000 (λ _, 0) (λ p, p * 4096 + 0x47) (λ x, x mod 256).

Lemma demo_range : page_range 0x600000 0x603000.
Proof. vm_compute. intuition discriminate. Qed.

Lemma set_page_flags_rights_witness :
  let s := mk_state ∅ 0 0 0 0 (λ _, 0) (λ _, 0x6ff) (λ _, 0) in
  exists s', set_page_flags_user_executable 0x600000 0x603000 s = Some s'.
Proof.
  destruct (set_page_flags_rights 0x600000 0x603000 (mk_state ∅ 0 0 0 0 (λ _, 0) (λ _, 0x6ff) (λ _, 0)))
    as (_ & _ & (s' & E & _) & _); [apply demo_range|intros p; unfold is_u64; cbn; lia|].
  exists s'. exact E.
Defined.

Lemma dirty_pages_are_cleared_witness :
  exists s1 s2, set_duck_written_by_dirty 0x600000 0x603000 demo_state = Some s1 /\
    clear_duck_written_pages 0x600000 0x603000 s1 = Some s2.
Proof.
  destruct (dirty_pages_are_cleared 0x600000 0x603000 demo_state demo_range) as (s1 & s2 & E1 & E2 & _).
  exists s1, s2. split; [exact E1|exact E2].
Defined.

Lemma allocate_is_disjoint_witness :
  let '(s', r) := allocate_virtual_memory 3000000 demo_state in
  can_allocate_virtual_memory 3000000 demo_state = match r with Some _ => true | None => false end.
Proof.
  pose proof (allocate_is_disjoint 3000000 demo_state) as H.
  destruct (allocate_virtual_memory 3000000 demo_state) as [s' r]. apply H.
  - split; [vm_compute; discriminate|reflexivity].
  - reflexivity.
  - split; vm_compute; discriminate.
Defined.

Lemma page_tables_are_disjoint_witness :
  let s := mk_state {[ 5; 6 ]} 2 kernel_break 0xc00000 0 (λ _, 0) (λ _, 0) (λ _, 0) in
  exists s', page_table_alloc s = Some (s', 0xa00000) /\ next_page_table_address s' = 0xa01000.
Proof.
  set (s := mk_state _ _ _ _ _ _ _ _). exists (with_next s 0xa01000). split; [reflexivity|].
  apply (page_tables_are_disjoint s (with_next s 0xa01000) 0xa00000);
    [vm_compute; intuition discriminate|reflexivity|reflexivity].
Defined.

Lemma page_table_break_missed_witness : page_table_alloc (init_page_table_break demo_state) = None.
Proof.
  apply (page_table_break_missed demo_state); [|reflexivity|vm_compute; intuition discriminate].
  intros i Hi. cbn in *. assert (i = 5 \/ i = 6) as [-> | ->] by set_solver; discriminate.
Defined.

End Memory.

(** ** DMA buffers ([lib/dma.cpp])

    A bump allocator in a static buffer at address [dma_buffer]. *)
Module DMA.
Import Utils.

Definition DMA_BUFFER_SIZE : Z := 1280 * 1024.

Definition init (dma_buffer : Z) : Z := dma_buffer.

(** The new [dma_buffer_ptr] and the pointer returned ([None] for null). *)
Definition alloc (dma_buffer dma_buffer_ptr size : Z) : Z * option Z :=
  let size := round_up size Memory.PAGE_SIZE in
  if dma_buffer + DMA_BUFFER_SIZE <? u64 (dma_buffer_ptr + size) then (dma_buffer_ptr, None)
  else (u64 (dma_buffer_ptr + size), Some dma_buffer_ptr).

(** What an allocation of a few pages returns. *)
Lemma alloc_pages base ptr size q p o :
  round_up size Memory.PAGE_SIZE = q -> 0 <= q <= 2 ^ 20 ->
  0 <= base -> base <= ptr <= base + DMA_BUFFER_SIZE -> base + DMA_BUFFER_SIZE <= 2 ^ 32 ->
  alloc base ptr size = (p, o) ->
  (o = None /\ p = ptr /\ base + DMA_BUFFER_SIZE < ptr + q) \/
  (o = Some ptr /\ p = ptr + q /\ p <= base + DMA_BUFFER_SIZE).
Proof.
  intros Hq Hq2 H1 H2 H3. unfold alloc. rewrite Hq. unfold DMA_BUFFER_SIZE in *.
  rewrite u64_small by (unfold is_u64; lia).
  destruct (Z.ltb_spec (base + 1280 * 1024) (ptr + q)); intros [= <- <-]; [left|right]; conj_split; try done; lia.
Qed.

(** The half megabyte of buffers a network driver asks for. *)
Lemma alloc_half_mega base ptr size p o :
  0 <= base -> base <= ptr <= base + DMA_BUFFER_SIZE -> base + DMA_BUFFER_SIZE <= 2 ^ 32 -> size = 524288 ->
  alloc base ptr size = (p, o) ->
  (o = None /\ p = ptr /\ base + DMA_BUFFER_SIZE < ptr + 524288) \/
  (o = Some ptr /\ p = ptr + 524288 /\ p <= base + DMA_BUFFER_SIZE).
Proof. intros H1 H2 H3 ->. by apply alloc_pages. Qed.

(** A DMA allocation returns a page-aligned region inside the static buffer, after all
    earlier ones, or null without changing anything when it does not fit. *)
Theorem dma_alloc_in_buffer base ptr size :
  is_u64 base -> base + 2 ^ 32 < 2 ^ 64 -> base mod Memory.PAGE_SIZE = 0 ->
  base <= ptr <= base + DMA_BUFFER_SIZE -> ptr mod Memory.PAGE_SIZE = 0 -> 0 <= size <= 2 ^ 31 ->
  let '(ptr', r) := alloc base ptr size in
  match r with
  | None => ptr' = ptr /\ base + DMA_BUFFER_SIZE < ptr + size + Memory.PAGE_SIZE
  | Some a => a = ptr /\ a mod Memory.PAGE_SIZE = 0 /\ a + size <= ptr' /\
      ptr' mod Memory.PAGE_SIZE = 0 /\ base <= ptr' <= base + DMA_BUFFER_SIZE
  end.
Proof.
  intros Hb Hl Hbm Hp Hpm Hs. unfold alloc.
  destruct (round_up_no_wrap size Memory.PAGE_SIZE) as (_ & Hr & Hrm & _);
    [unfold is_u64; lia|done|unfold Memory.PAGE_SIZE; lia|].
  set (sz := round_up size Memory.PAGE_SIZE) in *.
  unfold DMA_BUFFER_SIZE, Memory.PAGE_SIZE, is_u64 in *.
  rewrite u64_small by (unfold is_u64; lia).
  destruct (Z.ltb_spec (base + 1280 * 1024) (ptr + sz)).
  - split; [done|lia].
  - conj_split; try done; try lia. Z.to_euclidean_division_equations; lia.
Qed.
Lemma dma_alloc_in_buffer_witness : alloc 0x200000 0x201000 5000 = (0x203000, Some 0x201000).
Proof.
  pose proof (dma_alloc_in_buffer 0x200000 0x201000 5000) as H. vm_compute in H.
  destruct H as (_ & _ & _ & _ & _); try reflexivity; intuition discriminate.
Defined.

End DMA.
