(* ===== verification/PageTables.v ===== *)
(** * PageTables: what [Memory::init] builds ([lib/memory.cpp])

    The allocator of page tables as a list of free frames, the tables as a map
    from table and index to entry, and the address space that the tables made
    by [init] give: the kernel's memory at its own addresses, the user memory
    behind it, huge page after huge page, and nothing of it in the tables. *)
From stdpp Require Import gmap list.
From S2P Require Import Prelude Utils.
From S2P Require Import Memory.

Module PageTables.
Local Open Scope Z_scope.
Import Memory.

#[local] Abbreviation HP := HUGE_PAGE_SIZE.

(** ** The frames of the allocator *)

(** The frames from [next] on that lie in an available huge page below [brk]. *)
Definition frames (m : gset Z) (brk next : Z) : list Z :=
  filter (λ a, a / HP ∈ m) ((λ k, next + k * PAGE_SIZE) <$> seqZ 0 ((brk - next) / PAGE_SIZE)).

(** [next] is where the allocator can be: in a page it has begun, or at the start of one. *)
Record position (m : gset Z) (brk next : Z) : Prop := {
  pos_range : 0 <= next <= brk; pos_brk : brk <= MAX_MEMORY_SIZE;
  pos_aligned : next mod PAGE_SIZE = 0; pos_end : brk mod HP = 0;
  pos_begun : next / HP ∈ m \/ next mod HP = 0 }.

Lemma frames_end m brk : frames m brk brk = [].
Proof. unfold frames. by rewrite Z.sub_diag. Qed.

Lemma seqZ_shift k n : seqZ (k + 1) n = (λ i, i + 1) <$> seqZ k n.
Proof.
  unfold seqZ. rewrite <- list_fmap_compose. apply list_fmap_ext. intros i x _. cbn. lia.
Qed.

Lemma frames_step m brk next : next mod PAGE_SIZE = 0 -> brk mod PAGE_SIZE = 0 -> next < brk ->
  frames m brk next =
    (if bool_decide (next / HP ∈ m) then [next] else []) ++ frames m brk (next + PAGE_SIZE).
Proof.
  intros Hn Hb Hlt. unfold frames, PAGE_SIZE in *.
  replace ((brk - next) / 4096) with (Z.succ ((brk - (next + 4096)) / 4096)) by (Z.to_euclidean_division_equations; lia).
  rewrite seqZ_cons by (Z.to_euclidean_division_equations; lia). rewrite Z.pred_succ.
  change (Z.succ 0) with (0 + 1). rewrite seqZ_shift. cbn [fmap list_fmap].
  rewrite <- list_fmap_compose. rewrite filter_cons. rewrite Z.mul_0_l, Z.add_0_r.
  assert (E : ((λ k, next + k * 4096) ∘ (λ i, i + 1)) <$> seqZ 0 ((brk - (next + 4096)) / 4096) =
    (λ k, next + 4096 + k * 4096) <$> seqZ 0 ((brk - (next + 4096)) / 4096)).
  { apply list_fmap_ext. intros i x _. cbn. lia. }
  rewrite E. by destruct (decide (next / HP ∈ m)), (bool_decide_reflect (next / HP ∈ m)).
Qed.

(** A huge page that is not available has no frames. *)
Lemma frames_skip_part m brk next k : brk mod PAGE_SIZE = 0 -> next mod HP = 0 -> next + HP <= brk -> next / HP ∉ m ->
  Z.of_nat k <= 512 -> frames m brk next = frames m brk (next + Z.of_nat k * PAGE_SIZE).
Proof.
  intros Hb Hn Hlt Hm. unfold HUGE_PAGE_SIZE, PAGE_SIZE in *.
  induction k as [|k IH]; intros Hk; [f_equal; lia|]. rewrite IH by lia.
  rewrite frames_step by (unfold PAGE_SIZE; Z.to_euclidean_division_equations; lia).
  unfold HUGE_PAGE_SIZE, PAGE_SIZE. rewrite bool_decide_eq_false_2.
  - cbn [app]. f_equal. lia.
  - by replace ((next + Z.of_nat k * 4096) / 2097152) with (next / 2097152) by (Z.to_euclidean_division_equations; lia).
Qed.
Lemma frames_skip m brk next : brk mod PAGE_SIZE = 0 -> next mod HP = 0 -> next + HP <= brk -> next / HP ∉ m ->
  frames m brk next = frames m brk (next + HP).
Proof. intros Hb Hn Hlt Hm. rewrite (frames_skip_part m brk next 512) by done. done. Qed.

Lemma position_lt m brk next a rest : position m brk next -> frames m brk next = a :: rest -> next < brk.
Proof.
  intros [[H1 H2] _ _ _ _] Hf. destruct (Z.eq_dec next brk) as [->|]; [by rewrite frames_end in Hf|lia].
Qed.
Lemma position_brk m brk next : position m brk next -> brk mod PAGE_SIZE = 0.
Proof. intros []. unfold HUGE_PAGE_SIZE, PAGE_SIZE in *. Z.to_euclidean_division_equations; lia. Qed.

Lemma aligned_lt k a b : 0 < k -> a mod k = 0 -> b mod k = 0 -> a < b -> a + k <= b.
Proof.
  intros Hk Ha Hb Hlt. apply Zmod_divides in Ha as [x ->]; [|lia]. apply Zmod_divides in Hb as [y ->]; [|lia].
  assert (x < y) by nia. nia.
Qed.
Lemma add_huge_aligned a : a mod PAGE_SIZE = 0 -> (a + HP) mod PAGE_SIZE = 0.
Proof. unfold PAGE_SIZE, HUGE_PAGE_SIZE. intros. Z.to_euclidean_division_equations; lia. Qed.
Lemma add_page_aligned a : a mod PAGE_SIZE = 0 -> (a + PAGE_SIZE) mod PAGE_SIZE = 0.
Proof. unfold PAGE_SIZE. intros. Z.to_euclidean_division_equations; lia. Qed.
Lemma same_huge a : a mod PAGE_SIZE = 0 -> (a + PAGE_SIZE) mod HP <> 0 -> (a + PAGE_SIZE) / HP = a / HP.
Proof. unfold PAGE_SIZE, HUGE_PAGE_SIZE. intros. Z.to_euclidean_division_equations; lia. Qed.

(** The search of [page_table_alloc] ends at the first free frame. *)
Lemma find_frame m brk a rest fuel : forall next, position m brk next -> frames m brk next = a :: rest ->
  brk - next <= Z.of_nat fuel * HP -> 
  find_huge_page (S fuel) m next = Some a /\ next <= a < brk /\ a / HP ∈ m /\ a mod PAGE_SIZE = 0 /\
  frames m brk (a + PAGE_SIZE) = rest.
Proof.
  induction fuel as [|fuel IH]; intros next Hp Hf Hfuel; pose proof (position_lt _ _ _ _ _ Hp Hf) as Hlt;
    pose proof (position_brk _ _ _ Hp) as Hb; [lia|].
  destruct Hp as [Hr Hmax Ha He Hg]. change MAX_MEMORY_SIZE with 548682072064 in Hmax.
  assert (Hn : next / HP < MAX_N_HUGE_PAGES)
    by (change MAX_N_HUGE_PAGES with 261632; unfold HUGE_PAGE_SIZE in *; apply Z.div_lt_upper_bound; lia).
  cbn [find_huge_page]. destruct (Z.leb_spec MAX_N_HUGE_PAGES (next / HP)); [lia|].
  destruct (bool_decide_reflect (next / HP ∈ m)) as [Hin|Hout].
  - rewrite frames_step, bool_decide_eq_true_2 in Hf by done. injection Hf as <- Hf. done.
  - destruct Hg as [|Hz]; [done|].
    assert (Hle : next + HP <= brk) by (by apply aligned_lt).
    rewrite u64_small by (unfold is_u64, HUGE_PAGE_SIZE in *; lia).
    rewrite frames_skip in Hf by done. destruct (IH (next + HP)) as (E & Hx & Hrest); [|done|lia|].
    + split; try done; try (unfold HUGE_PAGE_SIZE in *; lia); [|right].
      * by apply add_huge_aligned.
      * by rewrite <- Zplus_mod_idemp_r, Z_mod_same_full, Z.add_0_r.
    + rewrite <- E. split; [done|]. split; [unfold HUGE_PAGE_SIZE in *; lia|done].
Qed.

(** Where a state of the allocator stands, and the frames it has left. *)
Definition standing (s : state) : Prop := position (huge_page_map s) (page_table_break s) (next_page_table_address s).
Definition free (s : state) : list Z := frames (huge_page_map s) (page_table_break s) (next_page_table_address s).

Lemma alloc_frame s a rest : standing s -> free s = a :: rest ->
  page_table_alloc s = Some (with_next s (a + PAGE_SIZE), a) /\
  standing (with_next s (a + PAGE_SIZE)) /\ free (with_next s (a + PAGE_SIZE)) = rest /\
  next_page_table_address s <= a /\ a + PAGE_SIZE <= page_table_break s /\ a mod PAGE_SIZE = 0.
Proof.
  unfold standing, free. intros Hp Hf. pose proof (position_brk _ _ _ Hp) as Hb. pose proof Hp as [Hr Hmax _ He _].
  destruct (find_frame _ _ _ _ (Z.to_nat MAX_N_HUGE_PAGES) _ Hp Hf) as (E & Ha & Hin & Hal & Hrest).
  { change MAX_MEMORY_SIZE with 548682072064 in Hmax. rewrite Z2Nat.id by done.
    change MAX_N_HUGE_PAGES with 261632. unfold HUGE_PAGE_SIZE. lia. }
  unfold page_table_alloc. replace (Z.to_nat (MAX_N_HUGE_PAGES + 1)) with (S (Z.to_nat MAX_N_HUGE_PAGES)).
  2: { rewrite Z2Nat.inj_add by done. lia. }
  rewrite E. change MAX_MEMORY_SIZE with 548682072064 in Hmax.
  rewrite u64_small by (unfold is_u64, PAGE_SIZE; lia).
  assert (Hle : a + PAGE_SIZE <= page_table_break s) by (apply aligned_lt; done || lia).
  destruct (Z.leb_spec (a + PAGE_SIZE) (page_table_break s)); [|lia].
  split; [done|]. split; [|split; [done|by destruct Ha]].
  cbn [with_next huge_page_map page_table_break next_page_table_address].
  split; try done; [unfold PAGE_SIZE in *; lia|by apply add_page_aligned|].
  destruct (Z.eq_dec ((a + PAGE_SIZE) mod HP) 0) as [|Hne]; [by right|left]. by rewrite same_huge.
Qed.

(** ** Entries *)

(** A table the size of a page, an index in it, the entry there. *)
Definition table (t : Z) : Prop := t mod PAGE_SIZE = 0 /\ 0 <= t < MAX_MEMORY_SIZE.
Definition index (i : Z) : Prop := 0 <= i < 512.
Definition entry (s : state) (t i : Z) : Z := phys s (t + 8 * i).

Lemma table_bits t i : table t -> 0 <= i < 12 \/ 39 <= i -> Z.testbit t i = false.
Proof.
  intros [Ha Hr] [Hi|Hi]; [by apply (testbit_low t 12)|apply (testbit_high t 39); [|lia]].
  change MAX_MEMORY_SIZE with 548682072064 in Hr. change (2 ^ 39) with 549755813888. lia.
Qed.

Lemma PTE_addr_table t i : table t -> index i -> PTE_addr t i = t + 8 * i.
Proof.
  unfold index. intros [Ha _] Hi. unfold PTE_addr. rewrite u64_small by (unfold is_u64; lia).
  rewrite (lor_add_r 12) by (change (2 ^ 12) with 4096; try lia; apply Ha). lia.
Qed.
Lemma PTE_entry s t i : table t -> index i -> PTE s t i = entry s t i.
Proof. intros. unfold PTE. by rewrite PTE_addr_table. Qed.
Lemma table_disjoint t t' i i' : table t -> table t' -> index i -> index i' -> t + 8 * i = t' + 8 * i' -> t = t' /\ i = i'.
Proof.
  unfold index. intros [[x ->]%Zmod_divides _] [[y ->]%Zmod_divides _] Hi Hi' E; unfold PAGE_SIZE in *; try done.
  assert (x = y) by lia. subst y. lia.
Qed.
Lemma entry_set s t i v t' i' : table t -> index i -> table t' -> index i' ->
  entry (set_PTE s t i v) t' i' = if (t' =? t) && (i' =? i) then v else entry s t' i'.
Proof.
  intros Ht Hi Ht' Hi'. unfold entry, set_PTE, upd. cbn [phys with_phys]. rewrite PTE_addr_table by done.
  destruct (Z.eqb_spec (t' + 8 * i') (t + 8 * i)) as [E|Hne].
  - apply table_disjoint in E as [-> ->]; try done. by rewrite !Z.eqb_refl.
  - destruct (Z.eqb_spec t' t) as [->|]; cbn [andb]; [|done]. destruct (Z.eqb_spec i' i) as [->|]; [lia|done].
Qed.

(** What the operations on page tables leave as it is. *)
Record kept (s s' : state) : Prop := {
  kept_map : huge_page_map s' = huge_page_map s; kept_n : n_huge_pages s' = n_huge_pages s;
  kept_brk : page_table_break s' = page_table_break s; kept_vaddr : vaddr_break s' = vaddr_break s;
  kept_P1 : P1 s' = P1 s; kept_mem : user_mem s' = user_mem s }.
#[export] Instance kept_pre : PreOrder kept.
Proof. split; [done|]. intros ??? [] []. split; congruence. Qed.

Lemma kept_phys s s' f : kept s s' -> kept s (with_phys s' f).
Proof. intros []. by split. Qed.

(** A table in use: it ends before the next one begins, in an available huge page. *)
Definition used (s : state) (t : Z) : Prop :=
  table t /\ t + PAGE_SIZE <= next_page_table_address s /\ t / HP ∈ huge_page_map s.

Lemma alloc_table s a rest : standing s -> free s = a :: rest ->
  exists s', page_table_alloc_zeroed s = Some (s', a) /\ kept s s' /\ standing s' /\ free s' = rest /\
    next_page_table_address s' = a + PAGE_SIZE /\ next_page_table_address s <= a /\ used s' a /\
    (forall i, index i -> entry s' a i = 0) /\
    (forall t i, table t -> index i -> t <> a -> entry s' t i = entry s t i).
Proof.
  intros Hs Hf. destruct (alloc_frame s a rest Hs Hf) as (E & Hs' & Hf' & Hn & Hb & Ha).
  unfold page_table_alloc_zeroed. rewrite E. eexists. split; [reflexivity|].
  assert (Ht : table a).
  { split; [done|]. destruct Hs. unfold PAGE_SIZE in *. lia. }
  split; [done|]. split; [exact Hs'|]. split; [exact Hf'|]. split; [done|]. split; [done|].
  split.
  { split; [done|split; [cbn; lia|cbn]]. assert (Hi : a ∈ free s) by (rewrite Hf; left). by apply list_elem_of_filter in Hi as []. }
  unfold entry. cbn [with_phys phys with_next]. unfold zero_range, index.
  split; [intros i Hi|intros t i Ht' Hi Hne].
  - unfold PAGE_SIZE. destruct (Z.leb_spec a (a + 8 * i)), (Z.ltb_spec (a + 8 * i) (a + 4096)); cbn [andb]; lia.
  - destruct (Z.leb_spec a (t + 8 * i)), (Z.ltb_spec (t + 8 * i) (a + PAGE_SIZE)); cbn [andb]; try done.
    destruct Ht as [Hta _], Ht' as [Htb _]. exfalso.
    destruct (Z.lt_total t a) as [Hlt|[->|Hlt]]; [|done|]; apply (aligned_lt PAGE_SIZE) in Hlt; try done;
      unfold PAGE_SIZE in *; lia.
Qed.

(** *** Flags *)

(** The address in an entry, for the code and for the processor. *)
Lemma entry_of_table t f : table t -> 0 <= f < 2 ^ 9 -> clear_page_flags (Z.lor t f) = t.
Proof.
  intros Ht Hf. assert (Hu : is_u64 (Z.lor t f)).
  { apply lor_u64; unfold is_u64; [|change (2 ^ 9) with 512 in Hf; lia]. destruct Ht as [_ Hr]. change MAX_MEMORY_SIZE with 548682072064 in Hr. lia. }
  apply Z.bits_inj'. intros i Hi. rewrite clear_page_flags_spec, Z.lor_spec by done.
  destruct (Z.leb_spec 9 i); cbn [andb]; [|symmetry; apply table_bits; [done|lia]].
  rewrite (testbit_high f 9), orb_false_r by lia. destruct (Z.ltb_spec i 63); cbn [andb]; [done|].
  symmetry. apply table_bits; [done|lia].
Qed.
Lemma frame_of_table t f : table t -> 0 <= f < 2 ^ 12 -> frame (Z.lor t f) = t.
Proof.
  intros Ht Hf. apply Z.bits_inj'. intros i Hi. unfold frame. rewrite Z.land_spec, Z.lor_spec.
  destruct (Z.lt_ge_cases i 12).
  - rewrite Z.shiftl_spec_low, andb_false_r by lia. symmetry. apply table_bits; [done|lia].
  - rewrite (testbit_high f 12), orb_false_r by lia. rewrite Z.shiftl_spec by lia.
    destruct (Z.lt_ge_cases i 52).
    + rewrite Z.ones_spec_low by lia. apply andb_true_r.
    + rewrite Z.ones_spec_high, andb_false_r by lia. symmetry. apply table_bits; [done|lia].
Qed.
Lemma flag_of_table t f i : table t -> 0 <= i < 12 -> Z.testbit (Z.lor t f) i = Z.testbit f i.
Proof. intros Ht Hi. rewrite Z.lor_spec, (table_bits t) by (done || lia). done. Qed.
Lemma entry_present t f : Z.testbit f 0 = true -> Z.lor t f <> 0.
Proof. intros Hf E. apply (f_equal (λ x, Z.testbit x 0)) in E. rewrite Z.lor_spec, Hf, orb_true_r in E. done. Qed.

(** What the three assignments leave in the entry of a page of user memory. *)
Definition leaf_flags : Z := Z.lor (Z.lor (Z.lor (Z.lor PTE_PRESENT PTE_WRITABLE) PTE_ACCESSED) PTE_DIRTY) PTE_DUCK_WRITTEN.
Lemma user_leaf p : p mod PAGE_SIZE = 0 ->
  Z.lor (clear_bits (Z.lor p USER_FLAGS) PTE_USER) PTE_DUCK_WRITTEN = Z.lor p leaf_flags.
Proof.
  intros Hp. apply Z.bits_inj'. intros i Hi. unfold clear_bits. rewrite !Z.lor_spec, Z.ldiff_spec, Z.lor_spec.
  destruct (Z.lt_ge_cases i 12) as [Hlt|Hge].
  - rewrite (testbit_low p 12) by (done || lia).
    assert (i ∈ seqZ 0 12) as Hin by (apply elem_of_seqZ; lia).
    assert (HA : Forall (λ i, (false || Z.testbit USER_FLAGS i) && negb (Z.testbit PTE_USER i) || Z.testbit PTE_DUCK_WRITTEN i =
      false || Z.testbit leaf_flags i) (seqZ 0 12)) by (repeat constructor).
    apply list_elem_of_In in Hin. exact (proj1 (Forall_forall _ _) HA i Hin).
  - rewrite !(testbit_high USER_FLAGS 12), !(testbit_high PTE_USER 12), !(testbit_high PTE_DUCK_WRITTEN 12),
      !(testbit_high leaf_flags 12) by ((split; [done|reflexivity]) || lia).
    by rewrite !orb_false_r, andb_true_r.
Qed.

(** ** The tables of an address space *)

(** What a table is for: the top, the mirror of physical memory, the first half of the
    address space, gigabyte [g], huge page [h] of it. *)
Inductive role := R4 | R3_high | R3 | R2 (g : Z) | R1 (h : Z).
#[export] Instance role_eq_dec : EqDecision role.
Proof. solve_decision. Defined.

(** The roles that have a table, when [ng] gigabytes and [n] huge pages have one. *)
Definition valid (ng n : Z) (r : role) : Prop :=
  match r with R2 g => 0 <= g < ng | R1 h => 0 <= h < n | _ => True end.

(** The entry of page [j] of huge page [h]; [us] are the huge pages of user memory. *)
Definition leaf (us : list Z) (h j : Z) : Z :=
  if h <? 2 then Z.lor (h * HP + j * PAGE_SIZE) KERNEL_FLAGS
  else Z.lor (zget 0 us (h - 2) * HP + j * PAGE_SIZE) leaf_flags.
Definition P2_flags (h : Z) : Z := if h <? 2 then KERNEL_FLAGS else USER_FLAGS.

(** What the tables hold, when they are at [T]. *)
Definition content (T : role -> Z) (us : list Z) (ng n : Z) (r : role) (i : Z) : Z :=
  match r with
  | R4 => if i =? 511 then Z.lor (T R4) KERNEL_FLAGS else if i =? 510 then Z.lor (T R3_high) KERNEL_FLAGS
          else if i =? 0 then Z.lor (T R3) USER_FLAGS else 0
  | R3_high => Z.lor (Z.lor (i * P3_PAGE_SIZE) KERNEL_FLAGS) PTE_HUGE
  | R3 => if i <? ng then Z.lor (T (R2 i)) USER_FLAGS else 0
  | R2 g => if 512 * g + i <? n then Z.lor (T (R1 (512 * g + i))) (P2_flags (512 * g + i)) else 0
  | R1 h => leaf us h i
  end.

Record built (s : state) (T : role -> Z) (ng n : Z) (us : list Z) : Prop := {
  built_used : forall r, valid ng n r -> used s (T r);
  built_inj : forall r r', valid ng n r -> valid ng n r' -> T r = T r' -> r = r';
  built_entry : forall r i, valid ng n r -> index i -> entry s (T r) i = content T us ng n r i }.

Definition place (T : role -> Z) (r : role) (a : Z) : role -> Z := λ x, if decide (x = r) then a else T x.
Lemma place_eq T r a : place T r a r = a.
Proof. unfold place. by rewrite decide_True. Qed.
Lemma place_ne T r a x : x <> r -> place T r a x = T x.
Proof. intros. unfold place. by rewrite decide_False. Qed.

Lemma used_fresh s t a : used s t -> next_page_table_address s <= a -> t <> a.
Proof. intros (_ & Hu & _) Ha ->. unfold PAGE_SIZE in *. lia. Qed.

(** A new table gets a role. *)
Lemma add_role s s' T ng n us a r ng' n' us' :
  built s T ng n us -> huge_page_map s' = huge_page_map s ->
  next_page_table_address s <= a -> next_page_table_address s <= next_page_table_address s' ->
  used s' a -> ~ valid ng n r -> (forall x, valid ng' n' x -> x = r \/ x <> r /\ valid ng n x) ->
  (forall x i, valid ng n x -> index i -> entry s' (T x) i = content (place T r a) us' ng' n' x i) ->
  (forall i, index i -> entry s' a i = content (place T r a) us' ng' n' r i) ->
  built s' (place T r a) ng' n' us'.
Proof.
  intros [Hu Hi He] Hm Ha Hn Hua Hr Hv Hold Hnew. split.
  - intros x [->|[Hne Hx]]%Hv; [by rewrite place_eq|]. rewrite place_ne by done. destruct (Hu x Hx) as (Ht & Hl & Hin).
    split; [done|split; [lia|by rewrite Hm]].
  - intros x y [->|[Hx Vx]]%Hv [->|[Hy Vy]]%Hv; rewrite ?place_eq, ?place_ne by done; auto.
    + intros E. exfalso. apply (used_fresh s (T y) a); auto.
    + intros E. exfalso. apply (used_fresh s (T x) a); auto.
  - intros x i [->|[Hne Hx]]%Hv Hix; [rewrite place_eq; auto|]. rewrite place_ne by done. auto.
Qed.

(** A new table for a gigabyte. *)
Lemma add_P2 s T ng n us a rest : built s T ng n us -> 0 <= ng < 512 -> n <= 512 * ng -> standing s -> free s = a :: rest ->
  exists s', PTE_create s (T R3) ng USER_FLAGS = Some (s', Z.lor a USER_FLAGS) /\ kept s s' /\ standing s' /\ free s' = rest /\
    built s' (place T (R2 ng) a) (ng + 1) n us.
Proof.
  intros HB Hng Hn Hs Hf. destruct (alloc_table s a rest Hs Hf) as (s1 & E & Hk & Hs1 & Hf1 & Hn1 & Ha & Hu & Hz & He).
  pose proof HB as [Hused Hinj Hent]. destruct (Hused R3 I) as [H3 _]. unfold PTE_create. rewrite PTE_entry by done.
  rewrite (Hent R3) by done. cbn [content]. destruct (Z.ltb_spec ng ng); [lia|]. cbn [Z.eqb]. rewrite E.
  eexists. split; [reflexivity|]. split; [by destruct Hk|]. split; [exact Hs1|]. split; [exact Hf1|].
  assert (Htab : forall x, valid ng n x -> table (T x)) by (intros x Hx; apply (Hused x Hx)).
  assert (Hfresh : forall x, valid ng n x -> T x <> a) by (intros x Hx; by apply (used_fresh s); [apply Hused|]).
  destruct Hu as [Hta Hua]. apply (add_role s _ T ng n us); try done; [by apply Hk|..].
  - unfold PAGE_SIZE in *. cbn. lia.
  - cbn. lia.
  - intros x Hx. destruct (decide (x = R2 ng)) as [->|Hne]; [by left|right]. split; [done|].
    destruct x; cbn in *; try done. destruct (Z.eq_dec g ng) as [->|]; [done|lia].
  - intros x i Hx Hi. rewrite entry_set by auto. rewrite He, (Hent x) by auto. destruct (Z.eqb_spec (T x) (T R3)) as [Ex|Nx].
    + apply Hinj in Ex as ->; [|done..]. cbn [andb content]. destruct (Z.eqb_spec i ng) as [->|].
      * destruct (Z.ltb_spec ng (ng + 1)); [|lia]. by rewrite place_eq.
      * destruct (Z.ltb_spec i ng), (Z.ltb_spec i (ng + 1)); try lia. rewrite place_ne; [done|]. congruence.
    + cbn [andb]. by destruct x.
  - intros i Hi. rewrite entry_set by done. destruct (Z.eqb_spec a (T R3)) as [E3|]; [by destruct (Hfresh R3 I)|].
    cbn [andb content]. rewrite Hz by done. destruct (Z.ltb_spec (512 * ng + i) n); [unfold index in *; lia|done].
Qed.

(** A loop that writes entry [j] of a table in round [j]. *)
Definition writes (F : state -> Z -> state) (t : Z) (v : Z -> Z) : Prop := forall s j, index j ->
  exists f, F s j = with_phys s f /\ forall t' i, table t' -> index i ->
    entry (F s j) t' i = if (t' =? t) && (i =? j) then v j else entry s t' i.

Lemma fill_spec F t v s : writes F t v ->
  exists f, fold_left F (seqZ 0 512) s = with_phys s f /\ forall t' i, table t' -> index i ->
    entry (fold_left F (seqZ 0 512) s) t' i = if t' =? t then v i else entry s t' i.
Proof.
  intros HF.
  enough (exists f, fold_left F (seqZ 0 512) s = with_phys s f /\ forall t' i, table t' -> index i ->
    entry (fold_left F (seqZ 0 512) s) t' i = if (t' =? t) && (i <? 0 + 512) then v i else entry s t' i) as (f & E & He).
  { exists f. split; [done|]. intros t' i Ht Hi. rewrite He by done. unfold index in Hi.
    destruct (Z.ltb_spec i (0 + 512)); [|lia]. by rewrite andb_true_r. }
  apply (fold_seqZ_ind (λ k s', exists f, s' = with_phys s f /\ forall t' i, table t' -> index i ->
    entry s' t' i = if (t' =? t) && (i <? k) then v i else entry s t' i) F 0 512); [lia| |].
  - exists (phys s). split; [by destruct s|]. intros t' i _ Hi. unfold index in Hi.
    destruct (Z.ltb_spec i 0); [lia|]. by rewrite andb_false_r.
  - intros j s' Hj (f & E & He). destruct (HF s' j) as (f' & E' & He'); [unfold index; lia|].
    exists f'. split; [by rewrite E', E|]. intros t' i Ht Hi. rewrite He', He by done.
    destruct (t' =? t); cbn [andb]; [|done].
    destruct (Z.eqb_spec i j) as [Hij|], (Z.ltb_spec i j), (Z.ltb_spec i (j + 1)); try lia; try done; by rewrite Hij.
Qed.

(** A new table for a huge page, from its allocation to its last entry. *)
Lemma add_P1 s T ng n us a rest us' F :
  built s T ng n us -> 0 <= n < 512 * ng -> standing s -> free s = a :: rest ->
  writes F a (leaf us' n) -> (forall h j, 0 <= h < n -> leaf us' h j = leaf us h j) ->
  exists s1, page_table_alloc_zeroed s = Some (s1, a) /\
  entry s (T (R2 (n / 512))) (n mod 512) = 0 /\ table (T (R2 (n / 512))) /\ index (n mod 512) /\ table a /\
  let s3 := fold_left F (seqZ 0 512) (set_PTE s1 (T (R2 (n / 512))) (n mod 512) (Z.lor a (P2_flags n))) in
  kept s s3 /\ standing s3 /\ free s3 = rest /\ built s3 (place T (R1 n) a) ng (n + 1) us'.
Proof.
  intros HB Hn Hs Hf HF Hleaf.
  destruct (alloc_table s a rest Hs Hf) as (s1 & E & Hk & Hs1 & Hf1 & Hn1 & Ha & [Hta Hua] & Hz & He).
  exists s1. split; [done|]. pose proof HB as [Hused Hinj Hent].
  assert (Hg : 0 <= n / 512 < ng) by (Z.to_euclidean_division_equations; lia).
  assert (Hi : index (n mod 512)) by (unfold index; Z.to_euclidean_division_equations; lia).
  assert (Hdiv : 512 * (n / 512) + n mod 512 = n) by (symmetry; apply Z.div_mod; lia).
  assert (Htab : forall x, valid ng n x -> table (T x)) by (intros x Hx; apply (Hused x Hx)).
  assert (Hfresh : forall x, valid ng n x -> T x <> a) by (intros x Hx; by apply (used_fresh s); [apply Hused|]).
  pose proof (Htab (R2 (n / 512)) Hg) as Ht2.
  split. { rewrite (Hent (R2 (n / 512))) by done. cbn [content]. rewrite Hdiv. destruct (Z.ltb_spec n n); [lia|done]. }
  split; [done|]. split; [done|]. split; [done|]. cbn zeta.
  set (s2 := set_PTE _ _ _ _). destruct (fill_spec F a (leaf us' n) s2 HF) as (f & E3 & He3). rewrite E3 in He3 |- *.
  clear E3 HF.
  split; [by destruct Hk|]. split; [exact Hs1|]. split; [exact Hf1|].
  assert (He2 : forall t i, table t -> index i -> t <> a -> entry (with_phys s2 f) t i =
    if (t =? T (R2 (n / 512))) && (i =? n mod 512) then Z.lor a (P2_flags n) else entry s t i).
  { intros t i Ht Hix Hne. rewrite He3 by done. destruct (Z.eqb_spec t a); [done|].
    unfold s2. rewrite entry_set by done. by rewrite He. }
  apply (add_role s _ T ng n us); try done; [by apply Hk|..].
  - unfold PAGE_SIZE in *. cbn. lia.
  - cbn. lia.
  - intros x Hx. destruct (decide (x = R1 n)) as [->|Hne]; [by left|right]. split; [done|].
    destruct x; cbn in *; try done. destruct (Z.eq_dec h n) as [->|]; [done|lia].
  - intros x i Hx Hix. rewrite He2, (Hent x) by auto. destruct (Z.eqb_spec (T x) (T (R2 (n / 512)))) as [Ex|Nx].
    + apply Hinj in Ex as ->; [|done..]. cbn [andb content]. destruct (Z.eqb_spec i (n mod 512)) as [->|].
      * rewrite Hdiv. destruct (Z.ltb_spec n (n + 1)); [|lia]. by rewrite place_eq.
      * destruct (Z.ltb_spec (512 * (n / 512) + i) n), (Z.ltb_spec (512 * (n / 512) + i) (n + 1)); try lia.
        rewrite place_ne; [done|]. intros [=]. lia.
    + cbn [andb]. destruct x as [| | |g|h]; cbn [content]; try done; [|symmetry; by apply Hleaf].
      assert (g <> n / 512) by congruence. unfold index in Hi, Hix.
      destruct (Z.ltb_spec (512 * g + i) n), (Z.ltb_spec (512 * g + i) (n + 1)); try lia.
      rewrite place_ne; [done|]. intros [=]. lia.
  - intros i Hix. rewrite He3 by done. by rewrite Z.eqb_refl.
Qed.

(** ** The pages of user memory *)

Lemma indices n : 0 <= n < 2 ^ 18 ->
  P4_index (n * HP) = 0 /\ P3_index (n * HP) = n / 512 /\ P2_index (n * HP) = n mod 512.
Proof.
  intros Hn. unfold P4_index, P3_index, P2_index. rewrite !land_ones_9, !shiftr_div by lia. unfold HUGE_PAGE_SIZE.
  change (2 ^ 39) with (262144 * 2097152). change (2 ^ 30) with (512 * 2097152). change (2 ^ 21) with 2097152.
  change (2 ^ 18) with 262144 in Hn. rewrite !Z.div_mul_cancel_r, Z.div_mul by lia.
  rewrite (Z.div_small n 262144) by lia. split; [done|]. split; [|done].
  apply Z.mod_small. split; [apply Z.div_pos; lia|apply Z.div_lt_upper_bound; lia].
Qed.

(** The three assignments to an entry of user memory. *)
Definition user_body (paddr t : Z) (s : state) (j : Z) : state :=
  let s := set_PTE s t j (Z.lor (u64 (paddr + j * PAGE_SIZE)) USER_FLAGS) in
  let s := set_PTE s t j (clear_bits (PTE s t j) PTE_USER) in
  set_PTE s t j (Z.lor (PTE s t j) PTE_DUCK_WRITTEN).
Lemma user_writes i t v : table t -> 0 <= i < MAX_N_HUGE_PAGES ->
  (forall j, index j -> v j = Z.lor (i * HP + j * PAGE_SIZE) leaf_flags) -> writes (user_body (i * HP) t) t v.
Proof.
  intros Ht Hi Hv s j Hj. rewrite Hv by done. change MAX_N_HUGE_PAGES with 261632 in Hi.
  eexists. split; [reflexivity|]. intros t' k Ht' Hk. unfold user_body.
  rewrite u64_small by (unfold is_u64, index, HUGE_PAGE_SIZE, PAGE_SIZE in *; lia).
  rewrite !PTE_entry, !entry_set by done. destruct ((t' =? t) && (k =? j)); [|done].
  rewrite !Z.eqb_refl. cbn [andb]. apply user_leaf. unfold HUGE_PAGE_SIZE, PAGE_SIZE.
  Z.to_euclidean_division_equations; lia.
Qed.

Lemma leaf_app us i h j : 2 <= h -> h < 2 + zlen us -> leaf (us ++ [i]) h j = leaf us h j.
Proof. intros H1 H2. unfold leaf. destruct (Z.ltb_spec h 2); [lia|]. by rewrite zget_app_l by lia. Qed.

(** The gigabytes that have a table for [n] huge pages. *)
Definition gigabytes (n : Z) : Z := (n + 511) / 512.

(** The table of the gigabyte, old or new. *)
Lemma ensure_P2 s T n us : built s T (gigabytes n) n us -> 0 < n < 2 ^ 18 -> standing s ->
  (if n mod 512 =? 0 then 1 else 0) <= zlen (free s) ->
  exists s' T' e, PTE_create s (T R3) (n / 512) USER_FLAGS = Some (s', e) /\ clear_page_flags e = T' (R2 (n / 512)) /\
    kept s s' /\ standing s' /\ free s' = zdrop (if n mod 512 =? 0 then 1 else 0) (free s) /\
    built s' T' (gigabytes (n + 1)) n us /\ T' R4 = T R4 /\ T' R3 = T R3.
Proof.
  intros HB Hn Hs Hf. change (2 ^ 18) with 262144 in Hn. pose proof HB as [Hused Hinj Hent].
  destruct (Z.eqb_spec (n mod 512) 0) as [Hz|Hz].
  - assert (E1 : gigabytes (n + 1) = gigabytes n + 1 /\ n / 512 = gigabytes n /\ gigabytes n < 512)
      by (unfold gigabytes; Z.to_euclidean_division_equations; lia). destruct E1 as (-> & -> & Hlt).
    destruct (free s) as [|a rest] eqn:Ef; [done|].
    destruct (add_P2 s T (gigabytes n) n us a rest) as (s' & E & Hk & Hs' & Hf' & HB'); try done.
    { unfold gigabytes in *. Z.to_euclidean_division_equations; lia. }
    { unfold gigabytes in *. Z.to_euclidean_division_equations; lia. }
    exists s', (place T (R2 (gigabytes n)) a), (Z.lor a USER_FLAGS). split; [done|].
    split. { rewrite place_eq. apply entry_of_table; [|done].
      destruct (built_used _ _ _ _ _ HB' (R2 (gigabytes n))) as [Ht _]; [|by rewrite place_eq in Ht].
      cbn. unfold gigabytes in *. Z.to_euclidean_division_equations; lia. }
    by rewrite !place_ne.
  - assert (E1 : gigabytes (n + 1) = gigabytes n /\ 0 <= n / 512 < gigabytes n /\ index (n / 512))
      by (unfold gigabytes, index; Z.to_euclidean_division_equations; lia). destruct E1 as (-> & Hg & Hi).
    destruct (Hused R3 I) as [Ht3 _]. destruct (Hused (R2 (n / 512)) Hg) as [Ht2 _].
    exists s, T, (Z.lor (T (R2 (n / 512))) USER_FLAGS). unfold PTE_create. rewrite PTE_entry, (Hent R3) by done.
    cbn [content]. destruct (Z.ltb_spec (n / 512) (gigabytes n)); [|lia].
    destruct (Z.eqb_spec (Z.lor (T (R2 (n / 512))) USER_FLAGS) 0) as [E0|_]; [by apply entry_present in E0|].
    split; [done|]. split; [by apply entry_of_table|]. done.
Qed.

(** What one round takes of the free frames. *)
Definition cost (n : Z) : Z := if n mod 512 =? 0 then 2 else 1.

Lemma map_page s T us i : let n := 2 + zlen us in
  built s T (gigabytes n) n us -> n < 2 ^ 18 -> standing s -> cost n <= zlen (free s) -> 0 <= i < MAX_N_HUGE_PAGES ->
  exists s' T', map_user_huge_page (T R4) s i (n * HP) = Some s' /\ kept s s' /\ standing s' /\
    free s' = zdrop (cost n) (free s) /\ built s' T' (gigabytes (n + 1)) (n + 1) (us ++ [i]) /\ T' R4 = T R4.
Proof.
  intros n HB Hlt Hs Hf Hi. pose proof (zlen_nonneg us) as Hus. assert (Hn : 0 < n < 2 ^ 18) by lia.
  destruct (indices n) as (I4 & I3 & I2); [lia|]. unfold cost in *.
  destruct (ensure_P2 s T n us HB Hn Hs) as (s1 & T1 & e & E1 & Ec & Hk1 & Hs1 & Hf1 & HB1 & E4 & E3);
    [by destruct (n mod 512 =? 0); lia|].
  assert (Hcost : exists a, free s1 = a :: zdrop (if n mod 512 =? 0 then 2 else 1) (free s)).
  { rewrite Hf1. destruct (n mod 512 =? 0).
    - destruct (free s) as [|x [|y l]]; [unfold zlen in Hf; cbn in Hf; lia..|]. by exists y.
    - destruct (free s) as [|x l]; [unfold zlen in Hf; cbn in Hf; lia|]. by exists x. }
  destruct Hcost as (a & Ha).
  assert (Hlen : n = 2 + zlen us) by done. clearbody n. change (2 ^ 18) with 262144 in *.
  assert (Hta : table a).
  { destruct (alloc_table s1 a _ Hs1 Ha) as (? & _ & _ & _ & _ & _ & _ & [Ht _] & _). exact Ht. }
  destruct (add_P1 s1 T1 (gigabytes (n + 1)) n us a (zdrop (if n mod 512 =? 0 then 2 else 1) (free s)) (us ++ [i]) (user_body (i * HP) a) HB1)
    as (s2 & E2 & Hz & Ht2 & Hi2 & _ & Hk3 & Hs3 & Hf3 & HB3); try done.
  { unfold gigabytes. Z.to_euclidean_division_equations; lia. }
  { apply user_writes; [done..|]. intros j Hj. unfold leaf. destruct (Z.ltb_spec n 2); [lia|].
    rewrite zget_app_r by lia. by replace (n - 2 - zlen us) with 0 by lia. }
  { intros h j Hh. unfold leaf. destruct (Z.ltb_spec h 2); [done|]. by rewrite zget_app_l by lia. }
  destruct (built_used _ _ _ _ _ HB R4 I) as [Ht4 _]. destruct (built_used _ _ _ _ _ HB R3 I) as [Ht3 _].
  unfold map_user_huge_page. rewrite I4, I3, I2.
  rewrite u64_small by (change MAX_N_HUGE_PAGES with 261632 in Hi; unfold is_u64, HUGE_PAGE_SIZE; lia).
  unfold PTE_create at 1. rewrite PTE_entry, (built_entry _ _ _ _ _ HB R4) by (assumption || by split || exact I). cbn [content Z.eqb].
  destruct (Z.eqb_spec (Z.lor (T R3) USER_FLAGS) 0) as [E0|_]; [exfalso; revert E0; by apply entry_present|]. cbn [obind].
  rewrite entry_of_table, E1 by (assumption || by split). cbn [obind]. rewrite Ec. unfold PTE_create.
  rewrite PTE_entry, Hz, E2 by done. cbn [Z.eqb obind]. rewrite entry_of_table by (assumption || by split).
  exists (fold_left (user_body (i * HP) a) (seqZ 0 512) (set_PTE s2 (T1 (R2 (n / 512))) (n mod 512) (Z.lor a (P2_flags n)))),
    (place T1 (R1 n) a).
  split. { unfold P2_flags. destruct (Z.ltb_spec n 2); [lia|]. with_strategy opaque [seqZ fold_left] reflexivity. }
  split; [by transitivity s1|]. split; [done|]. split; [done|]. split; [done|]. by rewrite place_ne, E4.
Qed.

(** The whole loop: the available pages of [l], in order. *)
Lemma map_pages m l : forall s T us, let n := 2 + zlen us in let users := filter (λ i, i ∈ m) l in
  huge_page_map s = m -> built s T (gigabytes n) n us -> n + zlen users <= 2 ^ 18 -> standing s ->
  zlen users + gigabytes (n + zlen users) - gigabytes n <= zlen (free s) -> Forall (λ i, 0 <= i < MAX_N_HUGE_PAGES) l ->
  exists s' T', map_user_pages (T R4) s (n * HP) l = Some (s', (n + zlen users) * HP) /\ kept s s' /\
    standing s' /\ built s' T' (gigabytes (n + zlen users)) (n + zlen users) (us ++ users) /\ T' R4 = T R4.
Proof.
  induction l as [|i l IH]; intros s T us n users Hm HB Hmax Hs Hf Hl.
  { unfold users. change (zlen (filter (λ i, i ∈ m) [])) with 0. rewrite Z.add_0_r, app_nil_r. cbn [map_user_pages].
    by exists s, T. }
  apply Forall_cons_iff in Hl as [Hi Hl]. cbn [map_user_pages]. unfold users in *. rewrite filter_cons in *.
  rewrite Hm. destruct (bool_decide_reflect (i ∈ m)) as [Hin|Hout]; cbn [negb]; [|rewrite decide_False in * by done; by apply IH].
  rewrite decide_True in * by done. rewrite zlen_cons in *. set (k := zlen (filter _ l)) in *.
  assert (Hk : 0 <= k) by apply zlen_nonneg. pose proof (zlen_nonneg us) as Hus.
  assert (Hc : cost n = 1 + gigabytes (n + 1) - gigabytes n)
    by (unfold cost, gigabytes; destruct (Z.eqb_spec (n mod 512) 0); Z.to_euclidean_division_equations; lia).
  assert (Hmono : gigabytes (n + 1) <= gigabytes (n + (1 + k)))
    by (unfold gigabytes; apply Z.div_le_mono; lia).
  change (2 ^ 18) with 262144 in *.
  destruct (map_page s T us i) as (s1 & T1 & E & Hk1 & Hs1 & Hf1 & HB1 & E4); try done; try (fold n; lia).
  fold n in E, Hf1, HB1. rewrite E. assert (Hn : 2 + zlen (us ++ [i]) = n + 1) by (rewrite zlen_app; unfold n, zlen; cbn; lia).
  rewrite u64_small by (unfold is_u64, HUGE_PAGE_SIZE; lia). replace (n * HP + HP) with ((n + 1) * HP) by lia.
  destruct (IH s1 T1 (us ++ [i])) as (s2 & T2 & E2 & Hk2 & Hu2 & HB2 & E4'); rewrite ?Hn; try done.
  - by rewrite (kept_map _ _ Hk1).
  - fold k. lia.
  - fold k. assert (0 <= cost n) by (unfold cost; destruct (_ =? _); lia). rewrite Hf1, zlen_zdrop by lia.
    replace (n + 1 + k) with (n + (1 + k)) by lia. lia.
  - rewrite Hn in *. fold k in E2, HB2. replace (n + 1 + k) with (n + (1 + k)) in * by lia.
    rewrite E4 in *. exists s2, T2. split; [done|]. split; [by transitivity s1|]. split; [done|].
    split; [|congruence]. by rewrite <- app_assoc in HB2.
Qed.

(** ** The tables of the kernel *)

Lemma four_tables s a b c d rest : standing s -> free s = a :: b :: c :: d :: rest ->
  exists s1 s2 s3 s4, page_table_alloc_zeroed s = Some (s1, a) /\ page_table_alloc_zeroed s1 = Some (s2, b) /\
    page_table_alloc_zeroed s2 = Some (s3, c) /\ page_table_alloc_zeroed s3 = Some (s4, d) /\
    kept s s4 /\ standing s4 /\ free s4 = rest /\ a < b /\ b < c /\ c < d /\
    Forall (λ t, used s4 t /\ forall i, index i -> entry s4 t i = 0) [a; b; c; d].
Proof.
  intros Hs Hf. destruct (alloc_table s a _ Hs Hf) as (s1 & E1 & K1 & S1 & F1 & N1 & A1 & U1 & Z1 & H1).
  destruct (alloc_table s1 b _ S1 F1) as (s2 & E2 & K2 & S2 & F2 & N2 & A2 & U2 & Z2 & H2).
  destruct (alloc_table s2 c _ S2 F2) as (s3 & E3 & K3 & S3 & F3 & N3 & A3 & U3 & Z3 & H3).
  destruct (alloc_table s3 d _ S3 F3) as (s4 & E4 & K4 & S4 & F4 & N4 & A4 & U4 & Z4 & H4).
  exists s1, s2, s3, s4. do 4 (split; [assumption|]). unfold PAGE_SIZE in *.
  split; [by transitivity s3; [transitivity s2; [transitivity s1|]|]|]. do 2 (split; [assumption|]).
  do 3 (split; [lia|]). destruct U1 as (T1 & _ & V1), U2 as (T2 & _ & V2), U3 as (T3 & _ & V3), U4 as (T4 & _ & V4).
  rewrite (kept_map _ _ K2) in V2. unfold used, PAGE_SIZE.
  rewrite (kept_map _ _ K4), (kept_map _ _ K3), (kept_map _ _ K2) in *. repeat apply List.Forall_cons; try apply List.Forall_nil;
    (split; [split; [done|split; [lia|assumption]]|]); intros i Hi.
  - rewrite H4, H3, H2 by (done || lia). auto.
  - rewrite H4, H3 by (done || lia). auto.
  - rewrite H4 by (done || lia). auto.
  - auto.
Qed.

(** The loop over the mirror of physical memory, and over the kernel's own pages. *)
Definition mirror_body (t : Z) (s : state) (i : Z) : state :=
  set_PTE s t i (Z.lor (Z.lor (u64 (i * P3_PAGE_SIZE)) KERNEL_FLAGS) PTE_HUGE).
Lemma mirror_writes t : table t ->
  writes (mirror_body t) t (λ i, Z.lor (Z.lor (i * P3_PAGE_SIZE) KERNEL_FLAGS) PTE_HUGE).
Proof.
  intros Ht s j Hj. eexists. split; [reflexivity|]. intros t' i Ht' Hi. unfold mirror_body. rewrite entry_set by done.
  by rewrite u64_small by (unfold is_u64, index, P3_PAGE_SIZE in *; lia).
Qed.
Definition kernel_body (h t : Z) (s : state) (j : Z) : state :=
  set_PTE s t j (Z.lor (u64 (h * HP + j * PAGE_SIZE)) KERNEL_FLAGS).
Lemma kernel_writes h t us : table t -> 0 <= h < 2 -> writes (kernel_body h t) t (leaf us h).
Proof.
  intros Ht Hh s j Hj. eexists. split; [reflexivity|]. intros t' i Ht' Hi. unfold kernel_body. rewrite entry_set by done.
  unfold leaf. destruct (Z.ltb_spec h 2); [|lia].
  by rewrite u64_small by (unfold is_u64, index, HUGE_PAGE_SIZE, PAGE_SIZE in *; lia).
Qed.

(** The first assignments, on four empty tables. *)
Definition top_tables (a b c d : Z) (s : state) : state :=
  let s := set_PTE s a 511 (Z.lor a KERNEL_FLAGS) in
  let s := set_PTE s a 510 (Z.lor b KERNEL_FLAGS) in
  let s := fold_left (mirror_body b) (seqZ 0 512) s in
  let s := set_PTE s a 0 (Z.lor (Z.lor c KERNEL_FLAGS) PTE_USER) in
  set_PTE s c 0 (Z.lor (Z.lor d KERNEL_FLAGS) PTE_USER).
Definition first_places (a b c d : Z) (r : role) : Z :=
  match r with R4 => a | R3_high => b | R3 => c | _ => d end.

Lemma lor_user x : Z.lor (Z.lor x KERNEL_FLAGS) PTE_USER = Z.lor x USER_FLAGS.
Proof. by rewrite <- Z.lor_assoc. Qed.

Lemma top_built s a b c d : a < b -> b < c -> c < d ->
  Forall (λ t, used s t /\ forall i, index i -> entry s t i = 0) [a; b; c; d] ->
  (exists f, top_tables a b c d s = with_phys s f) /\ built (top_tables a b c d s) (first_places a b c d) 1 0 [].
Proof.
  intros Hab Hbc Hcd Hf. rewrite !Forall_cons_iff in Hf.
  destruct Hf as ([[Ta Ua] Za] & [[Tb Ub] Zb] & [[Tc Uc] Zc] & [[Td Ud] Zd] & _).
  assert (I0 : index 0) by (unfold index; lia). assert (I511 : index 511) by (unfold index; lia).
  assert (I510 : index 510) by (unfold index; lia).
  unfold top_tables. set (s2 := set_PTE (set_PTE s a 511 _) a 510 _).
  destruct (fill_spec _ b _ s2 (mirror_writes b Tb)) as (f & -> & He).
  split; [by eexists|]. rewrite !lor_user.
  assert (Hent : forall t i, table t -> index i ->
    entry (set_PTE (set_PTE (with_phys s2 f) a 0 (Z.lor c USER_FLAGS)) c 0 (Z.lor d USER_FLAGS)) t i =
    if (t =? c) && (i =? 0) then Z.lor d USER_FLAGS else if (t =? a) && (i =? 0) then Z.lor c USER_FLAGS
    else if t =? b then Z.lor (Z.lor (i * P3_PAGE_SIZE) KERNEL_FLAGS) PTE_HUGE
    else if (t =? a) && (i =? 510) then Z.lor b KERNEL_FLAGS else if (t =? a) && (i =? 511) then Z.lor a KERNEL_FLAGS
    else entry s t i).
  { intros t i Ht Hi. rewrite !entry_set, He by done. unfold s2. by rewrite !entry_set by done. }
  split.
  - intros [| | |g|h] Hr; cbn in *; try (by split); lia.
  - intros [| | |g|h] [| | |g'|h'] Hr Hr'; cbn in *; intros; try done; try lia. f_equal. lia.
  - intros r i Hr Hi. rewrite Hent; [|by destruct r|done].
    destruct r as [| | |g|h]; cbn [content first_places] in *; unfold valid in Hr.
    all: repeat match goal with |- context [?x =? ?y] => destruct (Z.eqb_spec x y); subst; try lia; cbn [andb] end.
    all: try done; try (by rewrite ?Za, ?Zb, ?Zc, ?Zd by done).
    + unfold index in Hi. destruct (Z.ltb_spec i 1); [lia|by apply Zc].
    + unfold index in Hi. destruct (Z.ltb_spec (512 * g + i) 0); [lia|by apply Zd].
Qed.

(** The two huge pages of the kernel. *)
Definition kernel_round (d : Z) (s : state) (h : Z) : option state :=
  let? (s, P1) := page_table_alloc_zeroed s in
  let s := set_PTE s d h (Z.lor P1 KERNEL_FLAGS) in
  Some (fold_left (kernel_body h P1) (seqZ 0 512) s).

Lemma kernel_page s T h a rest : built s T 1 h [] -> 0 <= h < 2 -> standing s -> free s = a :: rest ->
  exists s', kernel_round (T (R2 0)) s h = Some s' /\ kept s s' /\ standing s' /\ free s' = rest /\
    built s' (place T (R1 h) a) 1 (h + 1) [].
Proof.
  intros HB Hh Hs Hf. assert (Hta : table a).
  { destruct (alloc_table s a _ Hs Hf) as (? & _ & _ & _ & _ & _ & _ & [Ht _] & _). exact Ht. }
  destruct (add_P1 s T 1 h [] a rest [] (kernel_body h a) HB) as (s1 & E & _ & _ & _ & _ & Hrest); try assumption; [lia| |done|].
  { by apply kernel_writes. }
  rewrite (Z.div_small h 512), (Z.mod_small h 512) in Hrest by lia.
  unfold P2_flags in Hrest. destruct (Z.ltb_spec h 2); [|lia].
  unfold kernel_round. rewrite E. cbn [obind]. eexists. split; [reflexivity|exact Hrest].
Qed.

Lemma kernel_tables s a b c d p q rest : standing s -> free s = a :: b :: c :: d :: p :: q :: rest ->
  exists s' T, init_empty_kernel_page_table s = Some (s', T R4) /\ kept s s' /\ standing s' /\ free s' = rest /\
    built s' T 1 2 [].
Proof.
  intros Hs Hf. destruct (four_tables s a b c d _ Hs Hf) as (s1 & s2 & s3 & s4 & E1 & E2 & E3 & E4 & K & S4 & F4 & Hab & Hbc & Hcd & HF).
  destruct (top_built s4 a b c d Hab Hbc Hcd HF) as ((f & Ef) & HB).
  assert (S5 : standing (top_tables a b c d s4)) by (by rewrite Ef).
  assert (F5 : free (top_tables a b c d s4) = p :: q :: rest) by (by rewrite Ef).
  assert (K5 : kept s (top_tables a b c d s4)) by (rewrite Ef; by apply kept_phys).
  destruct (kernel_page _ _ 0 p _ HB ltac:(lia) S5 F5) as (s6 & E6 & K6 & S6 & F6 & HB6).
  destruct (kernel_page _ _ 1 q _ HB6 ltac:(lia) S6 F6) as (s7 & E7 & K7 & S7 & F7 & HB7).
  rewrite place_ne in E7 by done. cbn [first_places] in E6, E7.
  exists s7, (place (place (first_places a b c d) (R1 0) p) (R1 1) q). split; [|split; [|split; [exact S7|split; [exact F7|exact HB7]]]].
  - unfold init_empty_kernel_page_table. rewrite E1. cbn [obind]. rewrite E2. cbn [obind]. rewrite E3. cbn [obind].
    rewrite E4. cbn [obind]. transitivity (let? s := fold_opt (kernel_round d) (top_tables a b c d s4) [0; 1] in Some (s, a)); [reflexivity|].
    cbn [fold_opt]. by rewrite E6, E7.
  - transitivity (top_tables a b c d s4); [exact K5|]. transitivity s6; [exact K6|exact K7].
Qed.

(** ** Enough frames *)

(** The available huge pages from [a] on, [len] numbers. *)
Definition available (m : gset Z) (a len : Z) : list Z := filter (λ i, i ∈ m) (seqZ a len).

Lemma available_cons m a len : 0 < len ->
  available m a len = (if bool_decide (a ∈ m) then [a] else []) ++ available m (a + 1) (len - 1).
Proof.
  intros Hl. unfold available. rewrite seqZ_cons by lia. rewrite filter_cons.
  by destruct (decide (a ∈ m)), (bool_decide_reflect (a ∈ m)).
Qed.
Lemma available_nonpos m a len : len <= 0 -> available m a len = [].
Proof. intros. unfold available. by rewrite seqZ_nil. Qed.

(** The search for the limit stops behind enough available pages. *)
Lemma break_loop_spec m size b k : forall a cur, 0 <= a -> a + Z.of_nat k <= MAX_N_HUGE_PAGES -> 0 <= cur <= a * HP ->
  break_loop m size cur (seqZ a (Z.of_nat k)) = Some b ->
  exists c, a < c <= a + Z.of_nat k /\ b = c * HP /\ size <= cur + zlen (available m a (c - a)) * HP.
Proof.
  change MAX_N_HUGE_PAGES with 261632.
  induction k as [|k IH]; intros a cur Ha Hk Hc; [by rewrite seqZ_nil|].
  rewrite seqZ_cons by lia. replace (Z.pred (Z.of_nat (S k))) with (Z.of_nat k) by lia. cbn [break_loop].
  unfold HUGE_PAGE_SIZE in *. change (Z.succ a) with (a + 1).
  destruct (bool_decide_reflect (a ∈ m)) as [Hin|Hout]; cbn [negb].
  - rewrite u64_small by (unfold is_u64; lia). destruct (Z.leb_spec size (cur + 2097152)).
    + rewrite u64_small by (unfold is_u64; lia). intros [= <-]. exists (a + 1). split; [lia|]. split; [done|].
      rewrite available_cons, bool_decide_eq_true_2 by (done || lia). rewrite zlen_app. change (zlen [a]) with 1.
      pose proof (zlen_nonneg (available m (a + 1) (a + 1 - a - 1))). lia.
    + intros (c & Hc1 & -> & Hs)%IH; [|lia..]. exists c. split; [lia|]. split; [done|].
      rewrite available_cons, bool_decide_eq_true_2 by (done || lia). rewrite zlen_app. change (zlen [a]) with 1.
      replace (c - a - 1) with (c - (a + 1)) by lia. lia.
  - intros (c & Hc1 & -> & Hs)%IH; [|lia..]. exists c. split; [lia|]. split; [done|].
    rewrite available_cons, bool_decide_eq_false_2 by (done || lia). cbn [app].
    replace (c - a - 1) with (c - (a + 1)) by lia. lia.
Qed.

(** An available huge page has 512 frames. *)
Lemma frames_take_part m brk next k : brk mod PAGE_SIZE = 0 -> next mod HP = 0 -> next + HP <= brk -> next / HP ∈ m ->
  Z.of_nat k <= 512 -> zlen (frames m brk next) = Z.of_nat k + zlen (frames m brk (next + Z.of_nat k * PAGE_SIZE)).
Proof.
  intros Hb Hn Hlt Hm. unfold HUGE_PAGE_SIZE, PAGE_SIZE in *.
  induction k as [|k IH]; intros Hk; [rewrite Z.add_0_l; do 2 f_equal; lia|]. rewrite IH by lia.
  rewrite frames_step by (unfold PAGE_SIZE; Z.to_euclidean_division_equations; lia).
  unfold HUGE_PAGE_SIZE, PAGE_SIZE. rewrite bool_decide_eq_true_2.
  - rewrite zlen_app. change (zlen [next + Z.of_nat k * 4096]) with 1.
    replace (next + Z.of_nat (S k) * 4096) with (next + Z.of_nat k * 4096 + 4096) by lia. lia.
  - by replace ((next + Z.of_nat k * 4096) / 2097152) with (next / 2097152) by (Z.to_euclidean_division_equations; lia).
Qed.
Lemma frames_count m k : forall c, 0 <= c ->
  zlen (frames m ((c + Z.of_nat k) * HP) (c * HP)) = 512 * zlen (available m c (Z.of_nat k)).
Proof.
  induction k as [|k IH]; intros c Hc; [by rewrite Z.add_0_r, frames_end, available_nonpos|].
  rewrite available_cons by lia. rewrite zlen_app.
  replace (Z.of_nat (S k) - 1) with (Z.of_nat k) by lia. specialize (IH (c + 1) ltac:(lia)).
  replace (c + Z.of_nat (S k)) with (c + 1 + Z.of_nat k) by lia.
  assert (H1 : ((c + 1 + Z.of_nat k) * HP) mod PAGE_SIZE = 0)
    by (unfold HUGE_PAGE_SIZE, PAGE_SIZE; Z.to_euclidean_division_equations; lia).
  assert (H2 : (c * HP) mod HP = 0) by (apply Z_mod_mult). assert (H3 : c * HP / HP = c) by (by apply Z.div_mul).
  assert (H4 : c * HP + HP <= (c + 1 + Z.of_nat k) * HP) by (unfold HUGE_PAGE_SIZE; lia).
  destruct (bool_decide_reflect (c ∈ m)) as [Hin|Hout].
  - rewrite (frames_take_part _ _ _ 512) by (done || by rewrite H3).
    replace (c * HP + Z.of_nat 512 * PAGE_SIZE) with ((c + 1) * HP) by (unfold HUGE_PAGE_SIZE, PAGE_SIZE; lia).
    rewrite IH. change (zlen [c]) with 1. lia.
  - rewrite frames_skip by (done || by rewrite H3). replace (c * HP + HP) with ((c + 1) * HP) by lia.
    rewrite IH. change (zlen (@nil Z)) with 0. lia.
Qed.

(** ** [init] *)

(** The statics of the boot: whole pages behind the kernel are available, and counted. *)
Record boot (s : state) : Prop := {
  boot_pages : forall i, i ∈ huge_page_map s -> kernel_break / HP <= i < MAX_N_HUGE_PAGES;
  boot_counted : pages_counted s; boot_next : next_page_table_address s = kernel_break }.
(** The limit of the page tables that [init_page_table_break] finds. *)
Definition limit (s : state) : option Z :=
  break_loop (huge_page_map s) (page_table_size (n_huge_pages s)) 0 (seqZ 0 (n_huge_pages s)).
(** The huge pages behind it. *)
Definition user_pages (s : state) (brk : Z) : list Z :=
  available (huge_page_map s) (brk / HP) (MAX_N_HUGE_PAGES - brk / HP).

Lemma available_NoDup m a len : NoDup (available m a len).
Proof. apply list.NoDup_filter, NoDup_seqZ. Qed.
Lemma available_elem m a len i : i ∈ available m a len <-> i ∈ m /\ a <= i < a + len.
Proof. unfold available. by rewrite list_elem_of_filter, elem_of_seqZ. Qed.
Lemma available_size m a len : zlen (available m a len) <= Z.of_nat (size m).
Proof.
  unfold zlen. rewrite <- (size_list_to_set (C := gset Z)) by apply available_NoDup.
  apply inj_le, subseteq_size. intros i. rewrite elem_of_list_to_set, available_elem. by intros [].
Qed.
Lemma available_range m a len : zlen (available m a len) <= Z.max 0 len.
Proof.
  unfold available, zlen. etransitivity; [apply inj_le, length_filter|]. rewrite length_seqZ. lia.
Qed.

Lemma available_none m a len : (forall i, i ∈ m -> ~ a <= i < a + len) -> available m a len = [].
Proof. intros H. apply elem_of_nil_inv. intros i [Hi Hr]%available_elem. by apply (H i). Qed.

Lemma page_table_size_ge n : 0 <= n <= MAX_N_HUGE_PAGES ->
  PAGE_SIZE * (6 + n + (n + 511) / 512) <= page_table_size n.
Proof.
  change MAX_N_HUGE_PAGES with 261632. intros Hn. unfold page_table_size, Utils.round_up, PAGE_SIZE, HUGE_PAGE_SIZE.
  set (x := u64 (u64 (u64 (4096 * 4 + u64 (n * 4096)) + u64 (u64 (u64 (n * 8) + 4096 - 1) / 4096 * 4096)) + 4096 * 2)).
  assert (Ex : x = 4096 * (6 + n + (n + 511) / 512)).
  { unfold x. rewrite (u64_small (n * 8)) by (unfold is_u64; lia).
    replace ((n * 8 + 4096 - 1)) with (n * 8 + 4095) by lia.
    assert (Hq : 0 <= (n * 8 + 4095) / 4096 <= 2048 /\ (n * 8 + 4095) / 4096 = (n + 511) / 512)
      by (Z.to_euclidean_division_equations; lia). destruct Hq as [Hq Hq'].
    rewrite (u64_small (n * 8 + 4095)), <- Hq' by (unfold is_u64; lia). clear Hq'.
    generalize dependent ((n * 8 + 4095) / 4096). intros q Hq.
    rewrite (u64_small (n * 4096)), (u64_small (q * 4096)) by (unfold is_u64; lia).
    rewrite (u64_small (4096 * 4 + n * 4096)) by (unfold is_u64; lia).
    rewrite (u64_small (4096 * 4 + n * 4096 + q * 4096)) by (unfold is_u64; lia).
    rewrite u64_small by (unfold is_u64; lia). lia. }
  clearbody x. subst x.
  assert (0 <= (n + 511) / 512 <= 512) by (Z.to_euclidean_division_equations; lia).
  change (u64 (u64 (4096 * (6 + n + (n + 511) / 512) + 2097152 - 1) / 2097152 * 2097152)) with
    (Utils.round_up (4096 * (6 + n + (n + 511) / 512)) 2097152).
  destruct (Utils.round_up_no_wrap (4096 * (6 + n + (n + 511) / 512)) 2097152) as (_ & Hr & _);
    [unfold is_u64; lia|lia|change (2 ^ 64) with 18446744073709551616; lia|apply Hr].
Qed.

Lemma enough_frames s brk : boot s -> limit s = Some brk ->
  let u := zlen (user_pages s brk) in
  6 + u + gigabytes (2 + u) - gigabytes 2 <= zlen (frames (huge_page_map s) brk kernel_break) /\
  kernel_break < brk <= MAX_MEMORY_SIZE /\ brk mod HP = 0 /\ 2 + u < 2 ^ 18.
Proof.
  intros [Hp Hc Hn] Hl. unfold limit, pages_counted in *. set (n := n_huge_pages s) in *. set (m := huge_page_map s) in *.
  assert (Hmax : n <= MAX_N_HUGE_PAGES).
  { rewrite Hc. assert (m ⊆ list_to_set (seqZ 0 MAX_N_HUGE_PAGES)) as Hsub%subseteq_size.
    { intros i Hi. rewrite elem_of_list_to_set, elem_of_seqZ. specialize (Hp i Hi).
      change (kernel_break / HP) with 2 in Hp. lia. }
    rewrite size_list_to_set, length_seqZ in Hsub by apply NoDup_seqZ.
    apply inj_le in Hsub. rewrite Z2Nat.id in Hsub by done. exact Hsub. }
  assert (0 <= n) by lia. pose proof (page_table_size_ge n ltac:(lia)) as Hsize.
  clearbody n. destruct (Z_of_nat_complete n) as (n0 & ->); [lia|]. rewrite Nat2Z.inj_iff in Hc.
  destruct (break_loop_spec m (page_table_size (Z.of_nat n0)) brk n0 0 0) as (k & Hk & -> & Hs); [lia|lia|lia|done|].
  rewrite Z.add_0_l, Z.sub_0_r in Hs. rewrite Z.add_0_l in Hk. unfold user_pages. fold m. rewrite Z.div_mul by done.
  pose proof (available_size m k (MAX_N_HUGE_PAGES - k)) as Hu. rewrite <- Hc in Hu.
  pose proof (available_range m k (MAX_N_HUGE_PAGES - k)) as Hu'. set (u := zlen (available m k (MAX_N_HUGE_PAGES - k))) in *. cbn zeta.
  assert (Hk2 : 2 < k /\ zlen (available m 0 k) = zlen (available m 2 (k - 2))).
  { assert (H01 : (0 ∉ m) /\ (1 ∉ m)) by (split; intros Hi; specialize (Hp _ Hi); by destruct Hp). destruct H01 as [H0 H1].
    assert (E0 : available m 0 k = available m 1 (k - 1))
      by (rewrite available_cons by lia; by rewrite bool_decide_eq_false_2).
    assert (0 <= (Z.of_nat n0 + 511) / 512) by (apply Z.div_pos; lia). unfold PAGE_SIZE in Hsize. rewrite E0 in Hs |- *.
    destruct (Z.eq_dec k 1) as [->|]; [rewrite available_nonpos in Hs by lia; change (zlen []) with 0 in Hs; lia|].
    assert (E1 : available m 1 (k - 1) = available m 2 (k - 2)).
    { rewrite available_cons by lia. rewrite bool_decide_eq_false_2 by done. cbn [app]. f_equal. lia. }
    rewrite E1 in Hs |- *. split; [|done].
    destruct (Z.le_gt_cases k 2); [|lia]. rewrite available_nonpos in Hs by lia. change (zlen []) with 0 in Hs. lia. }
  destruct Hk2 as [Hk2 Eav]. rewrite Eav in Hs.
  pose proof (frames_count m (Z.to_nat (k - 2)) 2 ltac:(lia)) as Hfr. rewrite Z2Nat.id in Hfr by lia.
  replace (2 + (k - 2)) with k in Hfr by lia. change (2 * HP) with kernel_break in Hfr. rewrite Hfr.
  change MAX_N_HUGE_PAGES with 261632 in *. change (2 ^ 18) with 262144. change MAX_MEMORY_SIZE with (261632 * HP).
  change kernel_break with (2 * HP). unfold gigabytes. unfold HUGE_PAGE_SIZE, PAGE_SIZE in *.
  clearbody u. clear Hl Hfr Eav. generalize dependent (zlen (available m 2 (k - 2))). intros a Hs.
  split; [|split; [lia|split; [apply Z_mod_mult|lia]]]. clear Hu' Hk Hk2 Hp. Z.to_euclidean_division_equations. lia.
Qed.

(** [init] succeeds, and its tables are complete. *)
Lemma page_tables_complete ebss s brk : boot s -> ebss <= kernel_break -> limit s = Some brk ->
  let us := user_pages s brk in let n := 2 + zlen us in
  exists s' T, init ebss s = Some (s', T R4) /\ vaddr_break s' = n * HP /\ page_table_break s' = brk /\ standing s' /\
    huge_page_map s' = huge_page_map s /\ user_mem s' = user_mem s /\ built s' T (gigabytes n) n us.
Proof.
  intros Hb He Hl us n. destruct (enough_frames s brk Hb Hl) as (Hf & Hbrk & Hal & Hn). fold us in Hf, Hn.
  unfold init. destruct (Z.leb_spec ebss kernel_break); [|lia]. unfold init_page_table_break. unfold limit in Hl. rewrite Hl.
  set (s0 := mk_state _ _ _ brk _ _ _ _).
  assert (S0 : standing s0).
  { unfold standing, s0. cbn. rewrite (boot_next _ Hb). split; try done; [|lia|by right]. split; [done|lia]. }
  assert (F0 : free s0 = frames (huge_page_map s) brk kernel_break).
  { unfold free, s0. cbn. by rewrite (boot_next _ Hb). }
  rewrite <- F0 in Hf. change (gigabytes 2) with 1 in Hf. pose proof (zlen_nonneg us) as Hus.
  assert (Hg : 1 <= gigabytes (2 + zlen us)) by (unfold gigabytes; Z.to_euclidean_division_equations; lia).
  destruct (free s0) as [|a [|b [|c [|d [|p [|q rest]]]]]] eqn:Ef; try (unfold zlen at 3 in Hf; cbn in Hf; lia).
  rewrite !zlen_cons in Hf.
  destruct (kernel_tables s0 a b c d p q rest S0 Ef) as (s1 & T & E1 & K1 & S1 & F1 & B1).
  assert (Hm1 : huge_page_map s1 = huge_page_map s) by apply K1.
  assert (Eus : filter (λ i, i ∈ huge_page_map s) (seqZ (brk / HP) (MAX_N_HUGE_PAGES - brk / HP)) = us) by done.
  destruct (map_pages (huge_page_map s) (seqZ (brk / HP) (MAX_N_HUGE_PAGES - brk / HP)) s1 T []) as (s2 & T2 & E2 & K2 & S2 & B2 & E4);
    try done; rewrite ?Eus.
  - change (zlen []) with 0. lia.
  - change (zlen []) with 0. rewrite F1. change (gigabytes (2 + 0)) with 1. rewrite Z.add_0_r. lia.
  - apply List.Forall_forall. intros i Hi%list_elem_of_In%elem_of_seqZ. unfold kernel_break in Hbrk.
    assert (0 <= brk / HP) by (apply Z.div_pos; done || lia). lia.
  - rewrite Eus in E2, B2. change (zlen []) with 0 in E2, B2. rewrite Z.add_0_r in E2, B2. cbn [app] in B2.
    exists (with_vaddr_break s2 (n * HP)), T2. unfold init_page_table_4k. rewrite E1. cbn [obind].
    assert (Hpb : page_table_break s1 = brk) by apply K1. rewrite Hpb.
    change kernel_break with (2 * HP). fold HP. rewrite E2. cbn [obind]. fold n. rewrite E4.
    split; [done|]. split; [done|]. cbn [with_vaddr_break page_table_break huge_page_map user_mem].
    split; [by rewrite (kept_brk _ _ K2)|]. split; [exact S2|].
    split; [by rewrite (kept_map _ _ K2)|]. split; [by rewrite (kept_mem _ _ K2), (kept_mem _ _ K1)|].
    destruct B2 as [U I C]. split; [exact U|exact I|exact C].
Qed.
(** ** The address space *)

(** What the processor finds for a virtual address: where it is in physical memory, if
    programs in user mode may use it, if it may be written, and the last entry it read.
    [None] is a page fault; a set bit 7 in the third level ends the walk there. *)
Record access := mk_access { at_address : Z; by_user : bool; to_write : bool; last_entry : Z }.
Definition present (e : Z) : bool := Z.testbit e 0.
Definition rights (a : Z) (es : list Z) (e : Z) : access :=
  mk_access a (forallb user_ok es) (forallb writable es) e.
Definition mmu (ph : Z -> Z) (cr3 v : Z) : option access :=
  let e4 := ph (cr3 + 8 * P4_index v) in
  if negb (present e4) then None else
  let e3 := ph (frame e4 + 8 * P3_index v) in
  if negb (present e3) then None else
  if Z.testbit e3 7 then Some (rights (frame e3 + v mod 2 ^ 30) [e4; e3] e3) else
  let e2 := ph (frame e3 + 8 * P2_index v) in
  if negb (present e2) then None else
  let e1 := ph (frame e2 + 8 * P1_index v) in
  if negb (present e1) then None else Some (rights (frame e1 + v mod PAGE_SIZE) [e4; e3; e2; e1] e1).

(** The kernel at its own addresses, then the huge pages [us] one after the other. *)
Definition translate (us : list Z) (v : Z) : Z :=
  if v <? kernel_break then v else zget 0 us ((v - kernel_break) / HP) * HP + v mod HP.

Lemma address_indices v : 0 <= v < 2 ^ 39 ->
  P4_index v = 0 /\ P3_index v = v / HP / 512 /\ P2_index v = v / HP mod 512 /\ P1_index v = v / PAGE_SIZE mod 512.
Proof.
  intros Hv. unfold P4_index, P3_index, P2_index, P1_index. rewrite !land_ones_9, !shiftr_div by lia.
  unfold HUGE_PAGE_SIZE, PAGE_SIZE. rewrite Z.div_small by done. split; [done|]. split; [|done].
  rewrite Z.div_div by lia. change (2 ^ 30) with (2097152 * 512). apply Z.mod_small.
  change (2 ^ 39) with 549755813888 in Hv. Z.to_euclidean_division_equations. lia.
Qed.

(** The page an entry of user or kernel memory points to. *)
Definition page (us : list Z) (h j : Z) : Z := (if h <? 2 then h else zget 0 us (h - 2)) * HP + j * PAGE_SIZE.
Lemma page_table us h j : Forall (λ i, 0 <= i < MAX_N_HUGE_PAGES) us -> 0 <= h < 2 + zlen us -> 0 <= j < 512 -> table (page us h j).
Proof.
  intros Hus Hh Hj. unfold page. assert (Hi : 0 <= (if h <? 2 then h else zget 0 us (h - 2)) < MAX_N_HUGE_PAGES).
  { destruct (Z.ltb_spec h 2); [change MAX_N_HUGE_PAGES with 261632; lia|].
    apply (proj1 (Forall_forall _ us) Hus). unfold zget, zlen in *. apply nth_In. lia. }
  generalize dependent (if h <? 2 then h else zget 0 us (h - 2)). intros i Hi. change MAX_N_HUGE_PAGES with 261632 in Hi.
  split; [|change MAX_MEMORY_SIZE with 548682072064; unfold HUGE_PAGE_SIZE, PAGE_SIZE; lia].
  replace (i * HP + j * PAGE_SIZE) with ((i * 512 + j) * PAGE_SIZE) by (unfold HUGE_PAGE_SIZE, PAGE_SIZE; lia).
  by apply Z_mod_mult.
Qed.
Definition page_flags (h : Z) : Z := if h <? 2 then KERNEL_FLAGS else leaf_flags.
Lemma leaf_page us h j : leaf us h j = Z.lor (page us h j) (page_flags h).
Proof. unfold leaf, page, page_flags. by destruct (h <? 2). Qed.
Lemma page_flags_bits h : 0 <= page_flags h < 2 ^ 12 /\ Z.testbit (page_flags h) 0 = true /\
  Z.testbit (page_flags h) 1 = true /\ Z.testbit (page_flags h) 2 = false /\ Z.testbit (page_flags h) 9 = negb (h <? 2).
Proof. unfold page_flags. by destruct (h <? 2). Qed.

Lemma translate_page us v : 0 <= v -> translate us v = page us (v / HP) (v / PAGE_SIZE mod 512) + v mod PAGE_SIZE.
Proof.
  intros Hv. unfold translate, page. unfold kernel_break, HUGE_PAGE_SIZE, PAGE_SIZE.
  assert (E : (v - 4194304) / 2097152 = v / 2097152 - 2) by (Z.to_euclidean_division_equations; lia). rewrite E.
  assert (E2 : v mod 2097152 = v / 4096 mod 512 * 4096 + v mod 4096) by (Z.to_euclidean_division_equations; lia).
  destruct (Z.ltb_spec v 4194304), (Z.ltb_spec (v / 2097152) 2); try (exfalso; Z.to_euclidean_division_equations; lia); [|lia].
  rewrite <- Z.add_assoc, <- E2. rewrite Z.mul_comm. by apply Z.div_mod.
Qed.

(** The walk with tables that are [built], below and above their end. *)
Section walks.
Context (s : state) (T : role -> Z) (us : list Z).
#[local] Abbreviation n := (2 + zlen us).
Hypothesis HB : built s T (gigabytes n) n us.
Hypothesis Hus : Forall (λ i, 0 <= i < MAX_N_HUGE_PAGES) us.

Lemma built_table r : valid (gigabytes n) n r -> table (T r).
Proof using HB. intros Hr. apply (built_used _ _ _ _ _ HB r Hr). Qed.
Lemma built_at r i : valid (gigabytes n) n r -> index i -> phys s (T r + 8 * i) = content T us (gigabytes n) n r i.
Proof using HB. apply (built_entry _ _ _ _ _ HB). Qed.

Ltac tables := first [by apply built_table | done | lia | by (split; [done|reflexivity])].

Lemma first_half : phys s (T R4 + 8 * 0) = Z.lor (T R3) USER_FLAGS.
Proof using HB. rewrite built_at by (done || (unfold index; lia)). reflexivity. Qed.

Lemma gigabyte_of h : 0 <= h < n -> 0 <= h / 512 < gigabytes n.
Proof. unfold gigabytes. intros. Z.to_euclidean_division_equations. lia. Qed.

(** An address that is mapped goes through the tables of its gigabyte and its huge page. *)
Lemma walk_mapped v : 0 <= v < n * HP -> v < 2 ^ 39 -> let h := v / HP in let j := v / PAGE_SIZE mod 512 in
  phys s (T R3 + 8 * P3_index v) = Z.lor (T (R2 (h / 512))) USER_FLAGS /\
  phys s (T (R2 (h / 512)) + 8 * P2_index v) = Z.lor (T (R1 h)) (P2_flags h) /\
  phys s (T (R1 h) + 8 * P1_index v) = Z.lor (page us h j) (page_flags h) /\
  valid (gigabytes n) n (R2 (h / 512)) /\ valid (gigabytes n) n (R1 h) /\ table (page us h j).
Proof using HB Hus.
  intros Hv Hm h j. destruct (address_indices v) as (_ & -> & -> & ->); [lia|]. fold h j.
  assert (Hh : 0 <= h < n) by (unfold h, HUGE_PAGE_SIZE in *; split; [apply Z.div_pos|apply Z.div_lt_upper_bound]; lia).
  pose proof (gigabyte_of h Hh) as Hg.
  assert (Hj : 0 <= j < 512) by (apply Z.mod_pos_bound; lia).
  assert (Hi : index (h mod 512)) by (apply Z.mod_pos_bound; lia).
  assert (H3 : index (h / 512)).
  { unfold index. split; [apply Hg|]. apply Z.div_lt_upper_bound; [lia|]. apply Z.div_lt_upper_bound; [done|].
    change (HP * (512 * 512)) with (2 ^ 39). lia. }
  assert (E : 512 * (h / 512) + h mod 512 = h) by (symmetry; by apply Z.div_mod).
  rewrite !built_at by done. cbn [content]. rewrite E, leaf_page.
  destruct (Z.ltb_spec (h / 512) (gigabytes n)); [|lia]. destruct (Z.ltb_spec h n); [|lia].
  do 5 (split; [done|]). by apply page_table.
Qed.

Lemma mmu_mapped v : 0 <= v < n * HP -> v < 2 ^ 39 ->
  mmu (phys s) (T R4) v =
    Some (mk_access (translate us v) false true (leaf us (v / HP) (v / PAGE_SIZE mod 512))).
Proof using HB Hus.
  intros Hv Hm. destruct (walk_mapped v Hv Hm) as (E3 & E2 & E1 & V2 & V1 & Tp).
  destruct (address_indices v) as (I4 & _); [lia|]. destruct (page_flags_bits (v / HP)) as (Hf & B0 & B1 & B2 & _).
  rewrite translate_page, leaf_page by lia. set (h := v / HP) in *. set (j := v / PAGE_SIZE mod 512) in *.
  unfold mmu. rewrite I4, first_half. rewrite frame_of_table by tables.
  rewrite E3, frame_of_table by tables.
  assert (F2 : 0 <= P2_flags h < 2 ^ 12 /\ Z.testbit (P2_flags h) 0 = true /\ Z.testbit (P2_flags h) 1 = true)
    by (unfold P2_flags; by destruct (h <? 2)). destruct F2 as (F2 & P0 & P1).
  rewrite E2, frame_of_table by tables. rewrite E1, frame_of_table by done.
  unfold present, rights, user_ok, writable. cbn [forallb].
  rewrite !(flag_of_table (T R3)), !(flag_of_table (T (R2 (h / 512)))), !(flag_of_table (T (R1 h))), !(flag_of_table (page us h j))
    by tables.
  rewrite B0, B1, B2, P0, P1. cbn. by rewrite !andb_false_r.
Qed.

(** Behind the last huge page nothing of the first half is mapped. *)
Lemma mmu_unmapped v : n * HP <= v < 2 ^ 39 -> mmu (phys s) (T R4) v = None.
Proof using HB.
  intros Hv. pose proof (zlen_nonneg us) as Hu. destruct (address_indices v) as (I4 & I3 & I2 & _); [unfold HUGE_PAGE_SIZE in Hv; lia|].
  set (h := v / HP) in *. assert (Hh : n <= h) by (apply Z.div_le_lower_bound; [done|lia]).
  assert (H3 : index (h / 512)).
  { unfold index. split; [apply Z.div_pos; lia|]. apply Z.div_lt_upper_bound; [lia|]. apply Z.div_lt_upper_bound; [done|].
    change (HP * (512 * 512)) with (2 ^ 39). lia. }
  unfold mmu. rewrite I4, I3, I2, first_half. rewrite frame_of_table by tables.
  unfold present. rewrite flag_of_table by tables.
  change (Z.testbit USER_FLAGS 0) with true. cbn [negb].
  rewrite built_at by done. cbn [content]. destruct (Z.ltb_spec (h / 512) (gigabytes n)) as [Hg|]; [|done].
  assert (V2 : valid (gigabytes n) n (R2 (h / 512))) by (split; [apply H3|done]).
  rewrite !flag_of_table by tables. change (Z.testbit USER_FLAGS 0) with true.
  change (Z.testbit USER_FLAGS 7) with false. cbn [negb].
  rewrite frame_of_table by tables.
  rewrite built_at by (done || (apply Z.mod_pos_bound; lia)). cbn [content].
  replace (512 * (h / 512) + h mod 512) with h by (by apply Z.div_mod). destruct (Z.ltb_spec h n); [lia|done].
Qed.
(** Nor is anything behind it in the entries of the top table between the first and the mirror's. *)
Lemma mmu_no_entry v : 0 < P4_index v < 510 -> mmu (phys s) (T R4) v = None.
Proof using HB.
  intros Hv. unfold mmu. assert (Hi : index (P4_index v)) by (unfold index; lia).
  rewrite built_at by done. cbn [content]. destruct (Z.eqb_spec (P4_index v) 511), (Z.eqb_spec (P4_index v) 510),
    (Z.eqb_spec (P4_index v) 0); lia || done.
Qed.
(** All of the memory that the map of huge pages can hold is at the entry 510. *)
Definition mirror : Z := 2 ^ 64 - 2 ^ 40.
Lemma top_index v : 2 ^ 39 <= v < 2 ^ 47 \/ 2 ^ 64 - 2 ^ 47 <= v < mirror -> 0 < P4_index v < 510.
Proof.
  unfold P4_index, mirror. intros Hv. change (PAGE_SIZE / 8 - 1) with (Z.ones 9). rewrite Z.land_ones, Z.shiftr_div_pow2 by done.
  change (2 ^ 39) with 549755813888 in *. change (2 ^ 47) with 140737488355328 in *. change (2 ^ 40) with 1099511627776 in *.
  change (2 ^ 64) with 18446744073709551616 in *. change (2 ^ 9) with 512. Z.to_euclidean_division_equations; lia.
Qed.
Lemma mirror_indices p : 0 <= p < MAX_MEMORY_SIZE ->
  P4_index (mirror + p) = 510 /\ P3_index (mirror + p) = p / 2 ^ 30 /\ (mirror + p) mod 2 ^ 30 = p mod 2 ^ 30.
Proof.
  intros Hp. change MAX_MEMORY_SIZE with 548682072064 in Hp. unfold P4_index, P3_index. rewrite !land_ones_9, !shiftr_div by lia.
  change mirror with (2 ^ 25 * 2 ^ 39 - 2 * 2 ^ 39). change (2 ^ 39) with 549755813888. change (2 ^ 30) with 1073741824.
  change (2 ^ 25) with 33554432. split; [|split]; Z.to_euclidean_division_equations; lia.
Qed.
Lemma mmu_mirror p : 0 <= p < MAX_MEMORY_SIZE ->
  exists e, mmu (phys s) (T R4) (mirror + p) = Some (mk_access p false true e).
Proof using HB.
  intros Hp. destruct (mirror_indices p Hp) as (I4 & I3 & Em). set (g := p / 2 ^ 30) in *.
  assert (Hg : 0 <= g < 511).
  { change MAX_MEMORY_SIZE with (511 * 2 ^ 30) in Hp. split; [apply Z.div_pos|apply Z.div_lt_upper_bound]; lia. }
  assert (Tg : table (g * P3_PAGE_SIZE)).
  { split; [|change MAX_MEMORY_SIZE with (511 * P3_PAGE_SIZE); unfold P3_PAGE_SIZE; lia].
    change P3_PAGE_SIZE with (262144 * PAGE_SIZE). rewrite Z.mul_assoc. by apply Z_mod_mult. }
  unfold mmu. rewrite I4, I3, Em. rewrite built_at by (done || (unfold index; lia)). cbn [content].
  destruct (Z.eqb_spec 510 511); [done|]. destruct (Z.eqb_spec 510 510); [|done].
  rewrite frame_of_table by tables. rewrite built_at by (done || (unfold index; lia)). cbn [content].
  rewrite <- Z.lor_assoc. unfold present, rights, user_ok, writable. cbn [forallb].
  rewrite !(flag_of_table (T R3_high)), !(flag_of_table (g * P3_PAGE_SIZE)), frame_of_table by tables.
  exists (Z.lor (g * P3_PAGE_SIZE) (Z.lor KERNEL_FLAGS PTE_HUGE)). cbn -[Z.div Z.modulo Z.pow Z.mul Z.lor P3_PAGE_SIZE].
  f_equal. f_equal. change P3_PAGE_SIZE with (2 ^ 30). rewrite Z.mul_comm. symmetry. by apply Z.div_mod.
Qed.

(** Entry 511 of the top is the top, so the entries of a page are at the address [get_P1] gives. *)
Lemma recursive : frame (phys s (T R4 + 8 * 511)) = T R4.
Proof using HB. rewrite built_at by (done || (unfold index; lia)). by apply frame_of_table; tables. Qed.
End walks.

(** The tables that the walk of a mapped address reads. *)
Definition walk_tables (ph : Z -> Z) (cr3 v : Z) : list Z := [cr3; walk_P3 ph cr3 v; walk_P2 ph cr3 v; walk_P1 ph cr3 v].
Lemma walk_tables_mapped s T us v : let n := 2 + zlen us in built s T (gigabytes n) n us ->
  Forall (λ i, 0 <= i < MAX_N_HUGE_PAGES) us -> 0 <= v < n * HP -> v < 2 ^ 39 ->
  walk_tables (phys s) (T R4) v = [T R4; T R3; T (R2 (v / HP / 512)); T (R1 (v / HP))] /\
  Forall (used s) (walk_tables (phys s) (T R4) v).
Proof.
  intros n HB Hus Hv Hm. destruct (walk_mapped s T us HB Hus v Hv Hm) as (E3 & E2 & _ & V2 & V1 & _).
  destruct (address_indices v) as (I4 & _); [lia|].
  assert (Hf : forall r f, valid (gigabytes n) n r -> 0 <= f < 2 ^ 12 -> frame (Z.lor (T r) f) = T r)
    by (intros; apply frame_of_table; [by apply (built_used _ _ _ _ _ HB)|done]).
  assert (E : walk_tables (phys s) (T R4) v = [T R4; T R3; T (R2 (v / HP / 512)); T (R1 (v / HP))]).
  { assert (W3 : walk_P3 (phys s) (T R4) v = T R3).
    { unfold walk_P3. rewrite I4, (first_half s T us HB). by apply Hf. }
    assert (W2 : walk_P2 (phys s) (T R4) v = T (R2 (v / HP / 512))).
    { unfold walk_P2. rewrite W3, E3. by apply Hf. }
    unfold walk_tables, walk_P1. rewrite W3, W2, E2, Hf; [done|done|].
    unfold P2_flags. by destruct (v / HP <? 2). }
  split; [done|]. rewrite E. repeat (apply List.Forall_cons; [by apply (built_used _ _ _ _ _ HB)|]). apply List.Forall_nil.
Qed.

(** *** Where user memory is *)

Lemma user_huge (us : list Z) v : kernel_break <= v < (2 + zlen us) * HP -> 0 <= (v - kernel_break) / HP < zlen us.
Proof. unfold kernel_break, HUGE_PAGE_SIZE. intros. split; [apply Z.div_pos; lia|apply Z.div_lt_upper_bound; lia]. Qed.

Lemma translate_user us v : kernel_break <= v < (2 + zlen us) * HP ->
  us !! Z.to_nat ((v - kernel_break) / HP) = Some (translate us v / HP) /\ translate us v mod HP = v mod HP.
Proof.
  intros Hv. pose proof (user_huge us v Hv) as Hh. unfold translate. destruct (Z.ltb_spec v kernel_break); [lia|].
  rewrite Z.div_add_l, (Z.div_small (v mod HP)), Z.add_0_r by (done || by apply Z.mod_pos_bound).
  split; [|by rewrite Z.add_comm, Z_mod_plus_full, Z.mod_mod].
  unfold zget, zlen in *. destruct (nth_lookup_or_length us (Z.to_nat ((v - kernel_break) / HP)) 0) as [E|]; [exact E|lia].
Qed.

(** No two addresses of user memory are the same byte. *)
Lemma translate_inj us v v' : NoDup us -> kernel_break <= v < (2 + zlen us) * HP -> kernel_break <= v' < (2 + zlen us) * HP ->
  translate us v = translate us v' -> v = v'.
Proof.
  intros Hus Hv Hv' E. destruct (translate_user us v Hv) as [L M], (translate_user us v' Hv') as [L' M'].
  rewrite E in L, M. pose proof (NoDup_lookup _ _ _ _ Hus L L') as Ei.
  pose proof (user_huge us v Hv). pose proof (user_huge us v' Hv'). apply Z2Nat.inj in Ei; [|lia..].
  assert (Em : v mod HP = v' mod HP) by congruence. clear -Ei Em.
  unfold kernel_break, HUGE_PAGE_SIZE in *. Z.to_euclidean_division_equations. lia.
Qed.

(** Every byte of the huge pages is there. *)
Lemma translate_surj us p : 0 <= p -> p / HP ∈ us -> exists v, kernel_break <= v < (2 + zlen us) * HP /\ translate us v = p.
Proof.
  intros Hp (k & Hk)%list_elem_of_lookup. exists (kernel_break + Z.of_nat k * HP + p mod HP).
  pose proof (lookup_lt_Some _ _ _ Hk) as Hlt. assert (Hm : 0 <= p mod HP < HP) by (by apply Z.mod_pos_bound).
  assert (Hv : kernel_break <= kernel_break + Z.of_nat k * HP + p mod HP < (2 + zlen us) * HP)
    by (unfold zlen, kernel_break, HUGE_PAGE_SIZE in *; lia).
  split; [done|]. unfold translate. destruct (Z.ltb_spec (kernel_break + Z.of_nat k * HP + p mod HP) kernel_break); [lia|].
  replace (kernel_break + Z.of_nat k * HP + p mod HP - kernel_break) with (Z.of_nat k * HP + p mod HP) by lia.
  rewrite Z.div_add_l, (Z.div_small (p mod HP)), Z.add_0_r by done. unfold zget. rewrite Nat2Z.id, (nth_lookup_Some _ _ _ _ Hk).
  change kernel_break with (2 * HP). rewrite <- Z.mul_add_distr_r, (Z.add_comm (_ * HP) (p mod HP)), Z_mod_plus_full, Z.mod_mod by done.
  rewrite Z.mul_comm. symmetry. by apply Z.div_mod.
Qed.

(** ** [init] *)

(** What [init] leaves: its tables, their place, and what they map. *)
Lemma init_maps ebss s brk : boot s -> ebss <= kernel_break -> limit s = Some brk ->
  let us := user_pages s brk in let n := 2 + zlen us in
  exists s' T, init ebss s = Some (s', T R4) /\ vaddr_break s' = n * HP /\ n * HP < 2 ^ 39 /\ page_table_break s' = brk /\
    user_mem s' = user_mem s /\ built s' T (gigabytes n) n us /\ Forall (λ i, 0 <= i < MAX_N_HUGE_PAGES) us /\
    (forall t, used s' t -> kernel_break <= t /\ t + PAGE_SIZE <= brk).
Proof.
  intros Hb He Hl us n. destruct (enough_frames s brk Hb Hl) as (_ & Hbrk & _ & Hn). fold us in Hn.
  destruct (page_tables_complete ebss s brk Hb He Hl) as (s' & T & E & Ev & Ek & Hs & Hm & Hmem & HB). exists s', T. fold us n in Ev, HB.
  do 2 (split; [done|]). split.
  { change (2 ^ 39) with (2 ^ 18 * HP). apply Z.mul_lt_mono_pos_r; [done|lia]. }
  do 3 (split; [done|]). split.
  - apply List.Forall_forall. intros i Hi%list_elem_of_In%available_elem. unfold kernel_break in Hbrk.
    assert (0 <= brk / HP) by (apply Z.div_pos; done || lia). lia.
  - intros t (_ & Ht & Hp). rewrite Hm in Hp. apply (boot_pages _ Hb) in Hp. split.
    + change kernel_break with (2 * HP) in *. rewrite Z.div_mul in Hp by done. destruct Hp as [Hp _].
      pose proof (Z.mul_div_le t HP eq_refl). unfold HUGE_PAGE_SIZE in *. lia.
    + rewrite <- Ek. destruct (pos_range _ _ _ Hs). lia.
Qed.

(** C7: [Memory::init] builds the address space it is meant to build.  On a machine whose
    available huge pages behind the kernel are registered, and when the search for a limit
    of the page tables finds one, it returns a top table from which the processor finds:
    the kernel's four megabytes at their own addresses; behind them, up to
    [vaddr_break], the available huge pages behind the limit one after the other; nothing else
    in the first half of the address space, and nothing in the second below the mirror; all
    of physical memory in the mirror at the entry 510; and the top itself at the entry 511.  All of it is writable and none of it is open to user mode, and no
    byte of user memory was changed. *)
Theorem init_builds_the_address_space ebss s brk : boot s -> ebss <= kernel_break -> limit s = Some brk ->
  let us := user_pages s brk in
  exists s' cr3, init ebss s = Some (s', cr3) /\
    vaddr_break s' = kernel_break + zlen us * HP /\ page_table_break s' = brk /\ user_mem s' = user_mem s /\
    (forall v, 0 <= v < vaddr_break s' -> mmu (phys s') cr3 v =
       Some (mk_access (translate us v) false true (leaf us (v / HP) (v / PAGE_SIZE mod 512)))) /\
    (forall v, vaddr_break s' <= v < 2 ^ 47 \/ 2 ^ 64 - 2 ^ 47 <= v < mirror -> mmu (phys s') cr3 v = None) /\
    (forall p, 0 <= p < MAX_MEMORY_SIZE ->
       exists e, mmu (phys s') cr3 (mirror + p) = Some (mk_access p false true e)) /\
    frame (phys s' (cr3 + 8 * 511)) = cr3.
Proof.
  intros Hb He Hl us. destruct (init_maps ebss s brk Hb He Hl) as (s' & T & E & Ev & H39 & Ek & Hmem & HB & Hus & _).
  exists s', (T R4). split; [done|]. fold us in Ev, HB, Hus, H39. split; [rewrite Ev; change kernel_break with (2 * HP); lia|].
  do 2 (split; [done|]). rewrite Ev. split; [|split; [|split]].
  - intros v Hv. apply mmu_mapped; [done|done|done|lia].
  - intros v Hv. assert (0 < 2 + zlen us) by (pose proof (zlen_nonneg us); lia).
    destruct (Z.lt_ge_cases v (2 ^ 39)) as [Hlo|Hhi].
    + apply (mmu_unmapped _ _ us); [done|]. destruct Hv as [?|[Htop _]]; [lia|exfalso; clear -Htop Hlo; lia].
    + apply (mmu_no_entry _ _ us); [done|]. apply top_index. destruct Hv as [[_ ?]|?]; [by left|by right].
  - intros p Hp. by apply (mmu_mirror _ _ us).
  - by apply (recursive _ _ us).
Qed.

(** C6: The address space keeps user memory apart.  After [Memory::init] every address
    from the kernel's end to [vaddr_break] is marked as written and is a byte of an
    available huge page behind the limit of the page tables, so it is neither the kernel's
    nor in a table; two of them are never the same byte; every byte of those huge
    pages is one of them; and every table that the walk of an address reads, the
    kernel's addresses included, lies between the kernel's end and the limit. *)
Theorem init_isolates_user_memory ebss s brk : boot s -> ebss <= kernel_break -> limit s = Some brk ->
  exists s' cr3, init ebss s = Some (s', cr3) /\
    let user v := kernel_break <= v < vaddr_break s' in
    let at_ v := at_address <$> mmu (phys s') cr3 v in
    (forall v, user v -> exists p, at_ v = Some p /\ brk <= p /\ p / HP ∈ huge_page_map s) /\
    (forall v x, user v -> mmu (phys s') cr3 v = Some x -> duck_written (last_entry x) = true) /\
    (forall v v', user v -> user v' -> at_ v = at_ v' -> v = v') /\
    (forall p, brk <= p -> p / HP ∈ huge_page_map s -> exists v, user v /\ at_ v = Some p) /\
    (forall v, 0 <= v < vaddr_break s' ->
       Forall (λ t, kernel_break <= t /\ t + PAGE_SIZE <= brk) (walk_tables (phys s') cr3 v)).
Proof.
  intros Hb He Hl. destruct (init_maps ebss s brk Hb He Hl) as (s' & T & E & Ev & H39 & Ek & Hmem & HB & Hus & Hused).
  destruct (enough_frames s brk Hb Hl) as (_ & Hbrk & Hal & _). exists s', (T R4). split; [done|]. cbn zeta. rewrite Ev.
  set (us := user_pages s brk) in *.
  assert (Hmmu : forall v, 0 <= v < (2 + zlen us) * HP -> mmu (phys s') (T R4) v =
    Some (mk_access (translate us v) false true (leaf us (v / HP) (v / PAGE_SIZE mod 512))))
    by (intros; apply mmu_mapped; [done|done|done|lia]).
  assert (Hkb : 0 <= kernel_break) by done. assert (Hbk : brk = HP * (brk / HP)) by (apply Z_div_exact_full_2; done).
  split; [|split; [|split; [|split]]].
  - intros v Hv. rewrite Hmmu by lia. exists (translate us v). split; [done|].
    destruct (translate_user us v Hv) as [L%list_elem_of_lookup_2 _]. apply available_elem in L as [Hin Hr].
    split; [|done]. pose proof (Z.mul_div_le (translate us v) HP eq_refl). unfold HUGE_PAGE_SIZE in *. lia.
  - intros v x Hv. rewrite Hmmu by lia. intros [= <-]. cbn [last_entry]. unfold duck_written.
    assert (2 <= v / HP) by (apply Z.div_le_lower_bound; [done|change (HP * 2) with kernel_break; lia]).
    destruct (walk_mapped s' T us HB Hus v) as (_ & _ & _ & _ & _ & Tp); [lia..|]. rewrite leaf_page, flag_of_table by (done || lia).
    destruct (page_flags_bits (v / HP)) as (_ & _ & _ & _ & ->). destruct (Z.ltb_spec (v / HP) 2); [lia|done].
  - intros v v' Hv Hv'. rewrite !Hmmu by lia. intros [= Eq]. by apply (translate_inj us); [apply available_NoDup|..].
  - intros p Hp Hin. destruct (translate_surj us p) as (v & Hv & Et); [lia| |].
    + apply available_elem. split; [done|]. split; [by apply Z.div_le_mono|].
      destruct (boot_pages _ Hb _ Hin). lia.
    + exists v. split; [done|]. rewrite Hmmu by lia. cbn. by rewrite Et.
  - intros v Hv. destruct (walk_tables_mapped s' T us v HB Hus Hv) as [_ Hf]; [lia|].
    eapply List.Forall_impl; [exact Hused|exact Hf].
Qed.

(** *** Instances *)

(** Three huge pages: the first has the tables, the others are user memory. *)
Definition boot_state : state :=
  mk_state {[ 2; 4; 5 ]} 3 kernel_break 0 0 (λ _, 0) (λ _, 0) (λ x, x mod 256).
Lemma boot_state_boot : boot boot_state.
Proof.
  split; [|reflexivity|reflexivity]. intros i. unfold boot_state. cbn [huge_page_map]. rewrite !elem_of_union, !elem_of_singleton.
  change (kernel_break / HP) with 2. change MAX_N_HUGE_PAGES with 261632. lia.
Qed.
Lemma boot_state_limit : limit boot_state = Some 0x600000.
Proof. vm_compute. reflexivity. Qed.

Lemma boot_state_users : user_pages boot_state 0x600000 = [4; 5].
Proof.
  unfold user_pages, boot_state. cbn [huge_page_map]. change (0x600000 / HP) with 3. change MAX_N_HUGE_PAGES with 261632.
  do 3 (rewrite available_cons by lia).
  rewrite available_none; [vm_compute; reflexivity|]. intros i. rewrite !elem_of_union, !elem_of_singleton. lia.
Qed.

Lemma init_builds_the_address_space_witness :
  exists s' cr3, init 0x180000 boot_state = Some (s', cr3) /\
    vaddr_break s' = 0x800000 /\ page_table_break s' = 0x600000.
Proof.
  destruct (init_builds_the_address_space 0x180000 boot_state 0x600000) as (s' & cr3 & E & Ev & Ek & _);
    [exact boot_state_boot|unfold kernel_break; lia|exact boot_state_limit|].
  exists s', cr3. split; [exact E|]. split; [|exact Ek]. rewrite Ev, boot_state_users. reflexivity.
Defined.

Lemma init_isolates_user_memory_witness :
  exists s' cr3 v, init 0x180000 boot_state = Some (s', cr3) /\ kernel_break <= v /\
    at_address <$> mmu (phys s') cr3 v = Some 0xa00007.
Proof.
  destruct (init_isolates_user_memory 0x180000 boot_state 0x600000) as (s' & cr3 & E & _ & _ & _ & Hs & _);
    [exact boot_state_boot|unfold kernel_break; lia|exact boot_state_limit|].
  destruct (Hs 0xa00007) as (v & Hv & Ev); [lia|change (0xa00007 / HP) with 5; cbn [boot_state huge_page_map]; set_solver|].
  exists s', cr3, v. split; [exact E|]. split; [apply Hv|exact Ev].
Defined.
End PageTables.
