(* ===== verification/E1000.v ===== *)
(** * E1000: the driver of the Intel e1000 cards ([lib/e1000.cpp])

    The registers of the card are a function from offsets to words; the frames are
    in memory the card reads and writes by itself.  The driver is modelled first,
    then the card as its manual describes it (a step relation), and then the two
    together are shown to be the queues of Nic.  A call of the driver is one step;
    the card moves between calls and during delays. *)
From S2P Require Import Prelude Utils Memory Nic.

Module E1000.
Import Nic.
Abbreviation PAGE_SIZE := Memory.PAGE_SIZE.

Record TransDesc := mk_trans {
  td_addr : Z; td_length : Z; td_cso : Z; td_cmd : Z; td_status : Z; td_css : Z; td_special : Z }.
Record RecvDesc := mk_recv {
  rd_addr : Z; rd_length : Z; rd_chksum : Z; rd_status : Z; rd_errors : Z; rd_special : Z }.
Definition no_trans : TransDesc := mk_trans 0 0 0 0 0 0 0.
Definition no_recv : RecvDesc := mk_recv 0 0 0 0 0 0.

Definition TQ_FLUSH_COUNT : Z := 32.
Definition RQ_FLUSH_COUNT : Z := 128.
Definition RQ_DESC_PAGE_COUNT : Z := 1.
Definition TQSIZE : Z := PAGE_SIZE / 16.
Definition RQSIZE : Z := PAGE_SIZE * RQ_DESC_PAGE_COUNT / 16.

(** [regs_e1000e]: the offsets of the registers. *)
Definition STATUS : Z := 0x8.
Definition ICR : Z := 0xc0.
Definition IMS : Z := 0xd0.
Definition IMC : Z := 0xd8.
Definition RAL : Z := 0x5400.
Definition RAH : Z := 0x5404.
Definition TCTL : Z := 0x400.
Definition TIPG : Z := 0x410.
Definition TDBAL : Z := 0x3800.
Definition TDBAH : Z := 0x3804.
Definition TDLEN : Z := 0x3808.
Definition TDH : Z := 0x3810.
Definition TDT : Z := 0x3818.
Definition TXDCTL : Z := 0x3828.
Definition RCTL : Z := 0x100.
Definition RDBAL : Z := 0x2800.
Definition RDBAH : Z := 0x2804.
Definition RDLEN : Z := 0x2808.
Definition RDH : Z := 0x2810.
Definition RDT : Z := 0x2818.
Definition RXDCTL : Z := 0x2828.

(** [e1000_tdt], [e1000_tdh], [e1000_tdt_real] and the same for the receive ring. *)
Record indices := mk_indices { tail : Z; head : Z; tail_real : Z }.

(** The statics of the file, with the registers and the memory shared with the card. *)
Record state := mk_state {
  regs : Z -> Z; mem : Z -> Z;
  tq : list TransDesc; rq : list RecvDesc;
  tq_buf : Z; rq_buf : Z; tq_addrs : list Z; rq_addrs : list Z;
  tx : indices; rx : indices; dma_buffer_ptr : Z }.

Definition with_regs (s : state) (r : Z -> Z) : state :=
  mk_state r (mem s) (tq s) (rq s) (tq_buf s) (rq_buf s) (tq_addrs s) (rq_addrs s) (tx s) (rx s) (dma_buffer_ptr s).
Definition with_mem (s : state) (m : Z -> Z) : state :=
  mk_state (regs s) m (tq s) (rq s) (tq_buf s) (rq_buf s) (tq_addrs s) (rq_addrs s) (tx s) (rx s) (dma_buffer_ptr s).
Definition with_tq (s : state) (q : list TransDesc) : state :=
  mk_state (regs s) (mem s) q (rq s) (tq_buf s) (rq_buf s) (tq_addrs s) (rq_addrs s) (tx s) (rx s) (dma_buffer_ptr s).
Definition with_rq (s : state) (q : list RecvDesc) : state :=
  mk_state (regs s) (mem s) (tq s) q (tq_buf s) (rq_buf s) (tq_addrs s) (rq_addrs s) (tx s) (rx s) (dma_buffer_ptr s).
Definition with_tx (s : state) (i : indices) : state :=
  mk_state (regs s) (mem s) (tq s) (rq s) (tq_buf s) (rq_buf s) (tq_addrs s) (rq_addrs s) i (rx s) (dma_buffer_ptr s).
Definition with_rx (s : state) (i : indices) : state :=
  mk_state (regs s) (mem s) (tq s) (rq s) (tq_buf s) (rq_buf s) (tq_addrs s) (rq_addrs s) (tx s) i (dma_buffer_ptr s).

Definition READ32 (reg : Z) (s : state) : Z := regs s reg.
Definition WRITE32 (reg val : Z) (s : state) : state :=
  with_regs s (λ x, if x =? reg then u32 val else regs s x).

Section Driver.
(** The addresses of the static arrays; what the card does to its registers
    during a delay of so many microseconds. *)
Variable tq_pa rq_pa dma_buffer : Z.
Variable hw : Z -> (Z -> Z) -> Z -> Z.

Definition microdelay (us : Z) (s : state) : state := with_regs s (hw us (regs s)).

(** [while (1) { if (READ32(STATUS) & 0x2) break; microdelay(100000); }] *)
Fixpoint wait_link (fuel : nat) (s : state) : option state :=
  if negb (Z.land (READ32 STATUS s) 0x2 =? 0) then Some s
  else match fuel with
       | O => None
       | S fuel => wait_link fuel (microdelay 100000 s)
       end.

(** [for (unsigned i = 0x5200; i < maxMTA; i += 4) e1000[i] = 0;] *)
Definition clear_MTA (maxMTA : Z) (s : state) : state :=
  fold_left (λ s k, WRITE32 (0x5200 + 4 * k) 0 s) (seqZ 0 ((maxMTA - 0x5200 + 3) / 4)) s.

(** The words of the MAC address: [x |= (uint32_t) mac[k + i] << (i * 8)] for [i < n]. *)
Definition mac_word (mac : list Z) (k : Z) (n : Z) : Z :=
  fold_left (λ x i, Z.lor x (u32 (Z.shiftl (zget 0 mac (k + i)) (i * 8)))) (seqZ 0 n) 0.

Definition alloc_buffers (s : state) : state * bool :=
  let '(p, tb) := DMA.alloc dma_buffer (dma_buffer_ptr s) (TQSIZE / 2 * PAGE_SIZE) in
  let '(p, rb) := DMA.alloc dma_buffer p (RQSIZE / 2 * PAGE_SIZE) in
  let b (o : option Z) := default 0 o in
  (mk_state (regs s) (mem s) (tq s) (rq s) (b tb) (b rb) (tq_addrs s) (rq_addrs s) (tx s) (rx s) p,
   bool_decide (is_Some tb) && bool_decide (is_Some rb)).

Definition fill_addresses (s : state) : state :=
  let ta := (λ i, u64 (tq_buf s + i * PAGE_SIZE / 2)) <$> seqZ 0 TQSIZE in
  let ra := (λ i, u64 (rq_buf s + i * PAGE_SIZE / 2)) <$> seqZ 0 RQSIZE in
  mk_state (regs s) (mem s) (tq s)
    (zip_with (λ d a, mk_recv (u32 a) (rd_length d) (rd_chksum d) (rd_status d) (rd_errors d) (rd_special d))
       (rq s) ra)
    (tq_buf s) (rq_buf s) ta ra (tx s) (rx s) (dma_buffer_ptr s).

(** [if (false)] branches of the reset are left out; reading [ICR] has no result. *)
Definition reset (s : state) : state :=
  let s := WRITE32 TCTL 0 s in
  let s := WRITE32 RCTL 0 s in
  let s := WRITE32 IMC 0xffffffff s in
  let s := microdelay 1 s in
  let s := WRITE32 IMC 0xffffffff s in
  microdelay 10000 s.

Definition init_transmit (s : state) : state :=
  let s := WRITE32 TDBAL (u32 tq_pa) s in
  let s := WRITE32 TDBAH 0 s in
  let s := WRITE32 TDLEN (TQSIZE * 16) s in
  let s := WRITE32 TDH 0 s in
  let s := WRITE32 TDT 0 s in
  let s := with_tx s (mk_indices 0 0 0) in
  let s := WRITE32 TXDCTL 0 s in
  let s := WRITE32 TCTL (Z.lor (Z.lor (Z.lor (Z.lor (Z.shiftl 1 1) (Z.shiftl 1 3)) (Z.shiftl 0x10 4))
    (Z.shiftl 0x40 12)) (Z.shiftl 1 28)) s in
  let s := WRITE32 TXDCTL (Z.lor (Z.lor (Z.lor (Z.shiftl 1 25) (Z.shiftl 3 16)) (Z.shiftl 4 8)) 3) s in
  WRITE32 TIPG 0x00602006 s.

Definition init_receive (s : state) : state :=
  let s := WRITE32 RDBAL (u32 rq_pa) s in
  let s := WRITE32 RDBAH 0 s in
  let s := WRITE32 RDLEN (RQSIZE * 16) s in
  let s := WRITE32 RDH 0 s in
  let s := WRITE32 RDT (RQSIZE - 1) s in
  let s := with_rx s (mk_indices (RQSIZE - 1) 0 (RQSIZE - 1)) in
  let s := WRITE32 RXDCTL 0 s in
  let s := WRITE32 RCTL (Z.lor (Z.lor (Z.lor (Z.lor (Z.shiftl 1 1) (Z.shiftl 1 15)) (Z.shiftl 0 16))
    (Z.shiftl 0 25)) (Z.shiftl 1 26)) s in
  WRITE32 RXDCTL (Z.lor (Z.lor (Z.lor (Z.shiftl 1 25) (Z.shiftl 3 16)) (Z.shiftl 4 8)) 3) s.

Definition e1000_init (fuel : nat) (maxMTA : Z) (mac : list Z) (s : state) : option (state * Z) :=
  let '(s, ok) := alloc_buffers s in
  if negb ok then Some (s, -1)
  else
    let s := reset (fill_addresses s) in
    match wait_link fuel s with
    | None => None
    | Some s =>
        let RAL_val := mac_word mac 0 4 in
        let RAH_val := mac_word mac 4 2 in
        let s := WRITE32 RAL RAL_val s in
        let s := WRITE32 RAH (Z.lor RAH_val (Z.shiftl 1 31)) s in
        let s := clear_MTA maxMTA s in
        let s := WRITE32 IMC 0xffffffff s in
        let s := WRITE32 IMS 0 s in
        Some (init_receive (init_transmit s), 0)
    end.

(** ** Sending and receiving *)

Definition trans_desc (pa cnt : Z) : TransDesc :=
  let cmd := u8 (Z.land 0 (Z.lnot (Z.shiftl 1 5))) in
  let cmd := u8 (Z.lor cmd (Z.lor (Z.shiftl 1 3) (Z.shiftl 1 0))) in
  let cmd := u8 (Z.lor cmd (Z.shiftl 1 1)) in
  mk_trans (u32 pa) (u16 cnt) 0 cmd 0 0 0.

Definition send (buf : list Z) (cnt : Z) (s : state) : state * Z :=
  if (cnt <? 0) || (1500 <? cnt) then (s, -1)
  else
    let full (s : state) := u32 (tail (tx s) + 1) mod TQSIZE =? head (tx s) in
    let s := if full s then with_tx s (mk_indices (tail (tx s)) (READ32 TDH s) (tail_real (tx s))) else s in
    if full s then (s, -1)
    else
      let tdt := tail (tx s) in
      let va := zget 0 (tq_addrs s) tdt in
      let s := with_mem s (write_bytes (mem s) va (ztake cnt buf)) in
      let s := with_tq s (zset (tq s) tdt (trans_desc va cnt)) in
      let tdt := u32 (tdt + 1) mod TQSIZE in
      let s := with_tx s (mk_indices tdt (head (tx s)) (tail_real (tx s))) in
      if tdt mod TQ_FLUSH_COUNT =? 0 then
        (with_tx (WRITE32 TDT tdt s) (mk_indices tdt (head (tx s)) tdt), 0)
      else (s, 0).

Definition flush (s : state) : state * Z :=
  let i := tx s in
  if negb (tail i =? tail_real i) then
    (with_tx (WRITE32 TDT (tail i) s) (mk_indices (tail i) (head i) (tail i)), 0)
  else (s, 0).

Definition clear_bit0 (z : Z) : Z := u8 (Z.land z (Z.lnot 1)).

(** Also returns the bytes stored in the buffer of the caller. *)
Definition receive (s : state) : state * list Z * Z :=
  let idx := u32 (tail (rx s) + 1) mod RQSIZE in
  let rd := zget no_recv (rq s) idx in
  if Z.land (rd_status rd) 1 =? 0 then (s, [], -1)
  else
    let len := rd_length rd in
    if len <? 0 then (s, [], -1)
    else
      let len := if PAGE_SIZE / 2 <? len then PAGE_SIZE / 2 else len in
      let bs := read_bytes (mem s) (zget 0 (rq_addrs s) idx) len in
      let rd := mk_recv (rd_addr rd) (rd_length rd) (rd_chksum rd) (clear_bit0 (rd_status rd))
        (rd_errors rd) (rd_special rd) in
      let s := with_rq s (zset (rq s) idx rd) in
      let s := with_rx s (mk_indices idx (head (rx s)) (tail_real (rx s))) in
      if idx mod RQ_FLUSH_COUNT =? 0 then
        (with_rx (WRITE32 RDT idx s) (mk_indices idx (head (rx s)) idx), bs, len)
      else (s, bs, len).

End Driver.

(** ** The card

    What the manual says of the two rings: the card owns the descriptors from the
    head register up to the tail register, works on the one at the head, and moves
    the head on.  It is a ring of [TDLEN / 16] descriptors at [TDBAL], used when
    the unit is enabled.  The card reports in the status of a descriptor.  A frame
    that comes in is at most 2048 bytes ([BSIZE]). *)
Definition set_status (d : TransDesc) (st : Z) : TransDesc :=
  mk_trans (td_addr d) (td_length d) (td_cso d) (td_cmd d) st (td_css d) (td_special d).

Section Card.
Variable tq_pa rq_pa : Z.

Inductive card : state -> action -> state -> Prop :=
  | card_transmit s f st :
      Z.testbit (regs s TCTL) 1 = true -> regs s TDBAL = tq_pa -> regs s TDBAH = 0 ->
      regs s TDH <> regs s TDT ->
      f = (let d := zget no_trans (tq s) (regs s TDH) in read_bytes (mem s) (td_addr d) (td_length d)) ->
      card s (Transmit f)
        (WRITE32 TDH ((regs s TDH + 1) mod (regs s TDLEN / 16))
          (with_tq s (zset (tq s) (regs s TDH) (set_status (zget no_trans (tq s) (regs s TDH)) st))))
  | card_deliver s f d :
      Z.testbit (regs s RCTL) 1 = true -> regs s RDBAL = rq_pa -> regs s RDBAH = 0 ->
      regs s RDH <> regs s RDT -> zlen f <= 2048 ->
      rd_addr d = rd_addr (zget no_recv (rq s) (regs s RDH)) -> rd_length d = zlen f ->
      Z.testbit (rd_status d) 0 = true ->
      card s (Deliver f)
        (WRITE32 RDH ((regs s RDH + 1) mod (regs s RDLEN / 16))
          (with_rq (with_mem s (write_bytes (mem s) (rd_addr d) f)) (zset (rq s) (regs s RDH) d))).

Inductive step : state -> action -> state -> Prop :=
  | call_send s f s' r : send f (zlen f) s = (s', r) -> step s (Send f r) s'
  | call_flush s s' : flush s = (s', 0) -> step s Flush s'
  | call_receive s s' bs len : receive s = (s', bs, len) ->
      step s (Receive (if len <? 0 then None else Some bs)) s'
  | card_moves s act s' : card s act s' -> step s act s'.

(** Moves of the card that are computed: it reports a frame as sent, or as come in whole. *)
Definition moves (s : state) (act : action) : option state :=
  let at_base a reg := (regs s reg =? a) && (regs s (reg + 4) =? 0) in
  match act with
  | Transmit f =>
      let d := zget no_trans (tq s) (regs s TDH) in
      if Z.testbit (regs s TCTL) 1 && at_base tq_pa TDBAL && negb (regs s TDH =? regs s TDT) &&
        bool_decide (f = read_bytes (mem s) (td_addr d) (td_length d))
      then Some (WRITE32 TDH ((regs s TDH + 1) mod (regs s TDLEN / 16))
        (with_tq s (zset (tq s) (regs s TDH) (set_status d 1)))) else None
  | Deliver f =>
      let d := mk_recv (rd_addr (zget no_recv (rq s) (regs s RDH))) (zlen f) 0 1 0 0 in
      if Z.testbit (regs s RCTL) 1 && at_base rq_pa RDBAL && negb (regs s RDH =? regs s RDT) && (zlen f <=? 2048)
      then Some (WRITE32 RDH ((regs s RDH + 1) mod (regs s RDLEN / 16))
        (with_rq (with_mem s (write_bytes (mem s) (rd_addr d) f)) (zset (rq s) (regs s RDH) d))) else None
  | _ => None
  end.
Lemma e1000_moves s act s' : moves s act = Some s' -> step s act s'.
Proof.
  intros H. apply card_moves. revert H. destruct act; try done; cbn [moves]; case_match; try done; intros [= <-]; bool_props.
  - by apply card_transmit.
  - by apply (card_deliver s f (mk_recv (rd_addr (zget no_recv (rq s) (regs s RDH))) (zlen f) 0 1 0 0)).
Qed.
Lemma e1000_plays s tr s' :
  play (λ f, send f (zlen f)) flush receive moves s tr = Some s' -> steps step s tr s'.
Proof. apply play_steps; [apply call_send|apply call_flush|apply call_receive|apply e1000_moves]. Qed.

(** ** The invariant *)

(** What [e1000_init] sets up and nothing changes later. *)
Record ready (s : state) : Prop := {
  r_tq : zlen (tq s) = 256; r_rq : zlen (rq s) = 256;
  r_ta : forall k, 0 <= k < 256 -> zget 0 (tq_addrs s) k = tq_buf s + k * 2048;
  r_ra : forall k, 0 <= k < 256 -> zget 0 (rq_addrs s) k = rq_buf s + k * 2048;
  r_rd : forall k, 0 <= k < 256 -> rd_addr (zget no_recv (rq s) k) = rq_buf s + k * 2048;
  r_tb : 0 <= tq_buf s /\ tq_buf s + 524288 <= rq_buf s; r_rb : rq_buf s + 524288 <= 2 ^ 32;
  r_tctl : Z.testbit (regs s TCTL) 1 = true; r_rctl : Z.testbit (regs s RCTL) 1 = true;
  r_tdb : regs s TDBAL = tq_pa /\ regs s TDBAH = 0; r_rdb : regs s RDBAL = rq_pa /\ regs s RDBAH = 0;
  r_len : regs s TDLEN = 4096 /\ regs s RDLEN = 4096 }.

(** Slot [k] of the ring holds the frame [f]. *)
Definition tx_slot (s : state) (k : Z) (f : frame) : Prop :=
  let d := zget no_trans (tq s) k in
  td_addr d = tq_buf s + k * 2048 /\ td_length d = zlen f /\ zlen f <= 2048 /\
  read_bytes (mem s) (td_addr d) (zlen f) = f.
Definition rx_slot (s : state) (k : Z) (f : frame) : Prop :=
  let d := zget no_recv (rq s) k in
  rd_length d = zlen f /\ zlen f <= 2048 /\ Z.testbit (rd_status d) 0 = true /\
  read_bytes (mem s) (rq_buf s + k * 2048) (zlen f) = f.

(** The registers and the statics are the two rings of Nic. *)
Definition tx_related (s : state) (ann pend : list frame) : Prop := exists h c,
  tx_ring (regs s TDH) (regs s TDT) (tail (tx s)) (head (tx s)) (tail_real (tx s)) (tx_slot s) ann pend h c.
Definition rx_free (s : state) (k : Z) : Prop := Z.testbit (rd_status (zget no_recv (rq s) k)) 0 = false.
Definition rx_related (s : state) (ins : list frame) : Prop := exists r q,
  tail (rx s) = (r - 1) mod 256 /\
  rx_ring (regs s RDH) (regs s RDT) (u32 (tail (rx s) + 1) mod 256) (rx_slot s) (rx_free s) ins r q.
Definition related (s : state) (a : nic) : Prop :=
  ready s /\ tx_related s (announced a) (pending a) /\ rx_related s (inbox a).

(** ** The driver refines the queues *)

Lemma trans_desc_eq pa cnt : is_u32 pa -> is_u16 cnt -> trans_desc pa cnt = mk_trans pa cnt 0 11 0 0 0.
Proof. intros. unfold trans_desc. by rewrite u32_small, u16_small. Qed.

(** What a step must leave alone for the other direction of traffic. *)
Lemma e1000_tx_frame s s' ann pend :
  regs s' TDH = regs s TDH -> regs s' TDT = regs s TDT -> tx s' = tx s -> tq s' = tq s -> tq_buf s' = tq_buf s ->
  (forall x, tq_buf s <= x < tq_buf s + 524288 -> mem s' x = mem s x) ->
  tx_related s ann pend -> tx_related s' ann pend.
Proof.
  intros E1 E2 E3 E4 E5 Hm (h & c & Ht). exists h, c. rewrite E1, E2, E3. apply (tx_keep Ht).
  intros k g Hk (H1 & H2 & H3 & H4). unfold tx_slot. rewrite E4, E5. conj_split; try done.
  rewrite <- H4 at 2. apply read_bytes_ext. intros x Hx. apply Hm. lia.
Qed.
Lemma e1000_rx_frame s s' ins :
  regs s' RDH = regs s RDH -> regs s' RDT = regs s RDT -> rx s' = rx s -> rq s' = rq s -> rq_buf s' = rq_buf s ->
  (forall x, rq_buf s <= x < rq_buf s + 524288 -> mem s' x = mem s x) ->
  rx_related s ins -> rx_related s' ins.
Proof.
  intros E1 E2 E3 E4 E5 Hm (r & q & Hn & Hr). exists r, q. rewrite E1, E2, E3. split; [done|].
  apply (rx_keep Hr).
  - intros k g Hk (H1 & H2 & H3 & H4). unfold rx_slot. rewrite E4, E5. conj_split; try done.
    rewrite <- H4 at 2. apply read_bytes_ext. intros x Hx. apply Hm. lia.
  - intros k Hk. unfold rx_free. by rewrite E4.
Qed.

Definition reread (s : state) : state := with_tx s (mk_indices (tail (tx s)) (READ32 TDH s) (tail_real (tx s))).
Definition put_frame (s : state) (f : frame) : state :=
  let k := tail (tx s) in
  let va := zget 0 (tq_addrs s) k in
  let s := with_tq (with_mem s (write_bytes (mem s) va f)) (zset (tq s) k (trans_desc va (zlen f))) in
  with_tx s (mk_indices (u32 (k + 1) mod TQSIZE) (head (tx s)) (tail_real (tx s))).
Definition tell_card (s : state) : state :=
  with_tx (WRITE32 TDT (tail (tx s)) s) (mk_indices (tail (tx s)) (head (tx s)) (tail (tx s))).
Definition is_full (s : state) : bool := u32 (tail (tx s) + 1) mod TQSIZE =? head (tx s).

Lemma e1000_send_cases f s :
  send f (zlen f) s =
    if 1500 <? zlen f then (s, -1)
    else let s := if is_full s then reread s else s in
      if is_full s then (s, -1)
      else let s := put_frame s f in
        if tail (tx s) mod TQ_FLUSH_COUNT =? 0 then (tell_card s, 0) else (s, 0).
Proof.
  unfold send. pose proof (zlen_nonneg f).
  destruct (Z.ltb_spec (zlen f) 0); [lia|]. cbn [orb]. destruct (1500 <? zlen f); [done|].
  fold (is_full s). destruct (is_full s); fold (reread s);
    match goal with |- context [if u32 _ mod _ =? head (tx ?t) then _ else _] => fold (is_full t); destruct (is_full t) end;
    rewrite ?ztake_zlen; done.
Qed.

Lemma e1000_put_frame_related s ann pend f :
  ready s -> tx_related s ann pend -> zlen f <= 1500 -> is_full s = false ->
  ready (put_frame s f) /\ tx_related (put_frame s f) ann (pend ++ [f]) /\
  (forall ins, rx_related s ins -> rx_related (put_frame s f) ins) /\ zlen (ann ++ pend) < 255.
Proof.
  intros Hs (h & c & Ht) Hf Hfull. destruct Hs. pose proof (zlen_nonneg f).
  assert (Hroom : h + zlen (ann ++ pend) < c + 255).
  { pose proof (t_room _ _ _ _ _ _ _ _ _ _ Ht). destruct (Z.eq_dec (h + zlen (ann ++ pend)) (c + 255)) as [E|]; [|lia].
    apply (tx_full Ht) in E. unfold is_full in Hfull. by change TQSIZE with 256 in Hfull; rewrite E in Hfull. }
  assert (Hk : 0 <= tail (tx s) < 256) by (rewrite (t_tail _ _ _ _ _ _ _ _ _ _ Ht); apply mod256).
  set (k := tail (tx s)) in *.
  assert (Hva : zget 0 (tq_addrs s) k = tq_buf s + k * 2048) by by apply r_ta0.
  assert (Hu : is_u32 (tq_buf s + k * 2048)) by (unfold is_u32; lia).
  assert (Hd : trans_desc (tq_buf s + k * 2048) (zlen f) = mk_trans (tq_buf s + k * 2048) (zlen f) 0 11 0 0 0)
    by (apply trans_desc_eq; [done|unfold is_u16; lia]).
  unfold put_frame. fold k. rewrite Hva, Hd. conj_split.
  - constructor; cbn [tq rq tq_addrs rq_addrs regs tq_buf rq_buf with_tx with_tq with_mem];
      rewrite ?zlen_zset; try done.
  - exists h, c. change TQSIZE with 256. cbn [tq rq tq_addrs rq_addrs regs tq_buf rq_buf with_tx with_tq with_mem tx tail
      head tail_real]. fold k.
    apply (tx_push Ht); [done| |].
    + fold k. intros j g Hj Hne (A1 & A2 & A3 & A4). unfold tx_slot.
      cbn [tq mem tq_buf with_tx with_tq with_mem]. rewrite zget_zset_ne by lia. conj_split; try done.
      rewrite A1 in *. rewrite read_write_outside; [done|].
      destruct (Z.lt_ge_cases j k); [left|right]; nia.
    + unfold tx_slot. cbn [tq mem tq_buf with_tx with_tq with_mem]. fold k. rewrite zget_zset_eq by (unfold zlen in *; lia).
      cbn [td_addr td_length]. conj_split; try done; [lia|]. apply read_write_bytes.
  - intros ins. apply e1000_rx_frame; try done. cbn [mem with_tx with_tq with_mem rq_buf]. intros x Hx.
    apply write_bytes_outside. lia.
  - pose proof (t_c _ _ _ _ _ _ _ _ _ _ Ht). lia.
Qed.

Lemma e1000_reread_related s ann pend : ready s -> tx_related s ann pend ->
  ready (reread s) /\ tx_related (reread s) ann pend /\ (forall ins, rx_related s ins -> rx_related (reread s) ins) /\
  (is_full (reread s) = true <-> zlen (ann ++ pend) = 255).
Proof.
  intros Hs (h & c & Ht). apply tx_reread in Ht as Ht'. conj_split.
  - by destruct Hs.
  - by exists h, h.
  - intros ins. by apply e1000_rx_frame.
  - unfold is_full. change TQSIZE with 256. cbn. rewrite (tx_full Ht'). lia.
Qed.

Lemma tell_card_related s ann pend : ready s -> tx_related s ann pend ->
  ready (tell_card s) /\ tx_related (tell_card s) (ann ++ pend) [] /\
  (forall ins, rx_related s ins -> rx_related (tell_card s) ins).
Proof.
  intros Hs (h & c & Ht). conj_split.
  - by destruct Hs.
  - exists h, c. pose proof (mod256 (h + zlen (ann ++ pend))). unfold tell_card.
    cbn [regs with_tx WRITE32 with_regs tx tail head tail_real].
    change (TDH =? TDT) with false. change (TDT =? TDT) with true. cbv iota.
    rewrite u32_small by (rewrite (t_tail _ _ _ _ _ _ _ _ _ _ Ht); unfold is_u32; lia).
    by apply (tx_flush Ht).
  - intros ins. by apply e1000_rx_frame.
Qed.

(** Nothing left to do for the tail already told to the card. *)
Lemma e1000_send_refines s a f s' r :
  related s a -> send f (zlen f) s = (s', r) ->
  exists a', Nic.step 1500 255 2048 false a (Send f r) a' /\ related s' a'.
Proof.
  destruct a as [ann pend ins]. intros (Hs & Ht & Hr). cbn [announced pending inbox] in *.
  rewrite e1000_send_cases. destruct (Z.ltb_spec 1500 (zlen f)) as [Hl|Hl].
  { intros [= <- <-]. exists (mk_nic ann pend ins). split; [apply step_refuse; by left|done]. }
  destruct (e1000_reread_related _ _ _ Hs Ht) as (Rs & Rt & Rr & Rf).
  set (s1 := if is_full s then reread s else s).
  assert (H1 : ready s1 /\ tx_related s1 ann pend /\ rx_related s1 ins /\
    (is_full s1 = true -> zlen (ann ++ pend) = 255)).
  { subst s1. destruct (is_full s) eqn:E; conj_split; try done; try (by apply Rr); try (by intros ?%Rf); by rewrite E. }
  clearbody s1. destruct H1 as (Hs1 & Ht1 & Hr1 & Hf1). cbv zeta.
  destruct (is_full s1) eqn:E.
  { intros [= <- <-]. exists (mk_nic ann pend ins). split; [|done]. apply step_refuse. right.
    unfold outbox. cbn. by rewrite Hf1. }
  destruct (e1000_put_frame_related _ _ _ _ Hs1 Ht1 Hl E) as (Ps & Pt & Pr & Proom). specialize (Pr _ Hr1).
  destruct (_ =? 0).
  - intros [= <- <-]. destruct (tell_card_related _ _ _ Ps Pt) as (Ts & Tt & Tr).
    eexists. split; [by apply step_send_flush|]. split; [done|]. cbn [announced pending inbox].
    unfold outbox. cbn [announced pending]. rewrite <- app_assoc. split; [done|]. by apply Tr.
  - intros [= <- <-]. eexists. split; [by apply step_send|]. done.
Qed.

Lemma e1000_flush_refines s a : related s a ->
  exists s', flush s = (s', 0) /\ related s' (mk_nic (outbox a) [] (inbox a)).
Proof.
  destruct a as [ann pend ins]. intros (Hs & Ht & Hr). cbn [announced pending inbox] in *.
  unfold flush, outbox. cbn [announced pending]. destruct (Z.eqb_spec (tail (tx s)) (tail_real (tx s))) as [E|E]; cbn [negb].
  - exists s. split; [done|]. destruct Ht as (h & c & Ht). pose proof (tx_no_pending Ht E) as ->.
    rewrite app_nil_r. split; [done|]. split; [by exists h, c|done].
  - fold (tell_card s). eexists. split; [done|]. destruct (tell_card_related _ _ _ Hs Ht) as (Ts & Tt & Tr).
    split; [done|]. split; [done|]. by apply Tr.
Qed.

Lemma land_1 z : (Z.land z 1 =? 0) = negb (Z.testbit z 0).
Proof. pose proof (land_bit z 0 ltac:(lia)) as H. change (2 ^ 0) with 1 in H. rewrite <- H. by rewrite negb_involutive. Qed.
Lemma clear_bit0_off z : Z.testbit (clear_bit0 z) 0 = false.
Proof.
  unfold clear_bit0, u8. change 256 with (2 ^ 8). rewrite Z.mod_pow2_bits_low by lia.
  rewrite Z.land_spec, Z.lnot_spec by lia. change (Z.testbit 1 0) with true. apply andb_false_r.
Qed.

Definition take_slot (s : state) (idx : Z) : state :=
  let rd := zget no_recv (rq s) idx in
  let s := with_rq s (zset (rq s) idx (mk_recv (rd_addr rd) (rd_length rd) (rd_chksum rd)
    (clear_bit0 (rd_status rd)) (rd_errors rd) (rd_special rd))) in
  with_rx s (mk_indices idx (head (rx s)) (tail_real (rx s))).

Lemma e1000_take_slot_related s f fs :
  ready s -> rx_related s (f :: fs) -> let idx := u32 (tail (rx s) + 1) mod RQSIZE in
  0 <= idx < 256 /\ rx_slot s idx f /\ ready (take_slot s idx) /\ rx_related (take_slot s idx) fs /\
  (forall ann pend, tx_related s ann pend -> tx_related (take_slot s idx) ann pend).
Proof.
  intros Hs (r & q & Hn & Hr) idx. change RQSIZE with 256 in idx. fold idx in Hr.
  destruct (rx_first Hr) as [Hidx Hf]. destruct Hs. conj_split; try done; try lia.
  - constructor; cbn [tq rq tq_addrs rq_addrs regs tq_buf rq_buf with_rx with_rq take_slot];
      rewrite ?zlen_zset; try done.
    intros k Hk. destruct (Z.eq_dec k idx) as [->|Hne].
    + rewrite zget_zset_eq by lia. cbn [rd_addr]. by apply r_rd0.
    + rewrite zget_zset_ne by lia. by apply r_rd0.
  - exists (r + 1), q. unfold take_slot. cbn [tq rq regs with_rx with_rq rx tail].
    assert (Ei : idx = r mod 256) by apply (x_next _ _ _ _ _ _ _ _ Hr).
    split; [rewrite Ei; f_equal; lia|].
    replace (u32 (idx + 1) mod 256) with ((idx + 1) mod 256)
      by (rewrite u32_small; [done|unfold is_u32; lia]).
    apply (rx_pop _ _ Hr).
    + intros k g Hk Hne (A1 & A2 & A3 & A4). unfold rx_slot. cbn [rq mem rq_buf with_rx with_rq].
      rewrite zget_zset_ne by lia. done.
    + intros k Hk Hne. unfold rx_free. cbn [rq with_rx with_rq]. by rewrite zget_zset_ne by lia.
    + unfold rx_free. cbn [rq with_rx with_rq]. rewrite zget_zset_eq by lia. apply clear_bit0_off.
Qed.

Definition tell_rx (s : state) : state :=
  with_rx (WRITE32 RDT (tail (rx s)) s) (mk_indices (tail (rx s)) (head (rx s)) (tail (rx s))).
Lemma e1000_tell_rx_related s ins : ready s -> rx_related s ins ->
  ready (tell_rx s) /\ rx_related (tell_rx s) ins /\
  (forall ann pend, tx_related s ann pend -> tx_related (tell_rx s) ann pend).
Proof.
  intros Hs (r & q & Hn & Hr). conj_split.
  - by destruct Hs.
  - exists r, r. unfold tell_rx. cbn [regs with_rx WRITE32 with_regs rx tail]. split; [done|].
    change (RDH =? RDT) with false. change (RDT =? RDT) with true. cbv iota.
    rewrite Hn at 1. pose proof (mod256 (r - 1)). rewrite u32_small by (unfold is_u32; lia).
    by apply (rx_tell Hr).
  - intros ann pend. by apply e1000_tx_frame.
Qed.

Lemma e1000_receive_cases s : let idx := u32 (tail (rx s) + 1) mod RQSIZE in
  let rd := zget no_recv (rq s) idx in
  receive s =
    if negb (Z.testbit (rd_status rd) 0) || (rd_length rd <? 0) then (s, [], -1)
    else
      let len := if 2048 <? rd_length rd then 2048 else rd_length rd in
      let s' := take_slot s idx in
      (if idx mod RQ_FLUSH_COUNT =? 0 then tell_rx s' else s',
       read_bytes (mem s) (zget 0 (rq_addrs s) idx) len, len).
Proof.
  cbv zeta. unfold receive. rewrite land_1. destruct (negb _); [done|]. cbn [orb].
  destruct (rd_length _ <? 0); [done|]. by destruct (_ mod RQ_FLUSH_COUNT =? 0).
Qed.

Lemma e1000_receive_refines s a s' bs len :
  related s a -> receive s = (s', bs, len) ->
  exists a', Nic.step 1500 255 2048 false a (Receive (if len <? 0 then None else Some bs)) a' /\ related s' a'.
Proof.
  destruct a as [ann pend ins]. intros (Hs & Ht & Hr). cbn [announced pending inbox] in *.
  rewrite e1000_receive_cases. set (idx := u32 (tail (rx s) + 1) mod RQSIZE).
  destruct ins as [|f fs].
  - destruct Hr as (r & q & Hn & Hr). pose proof (rx_empty Hr eq_refl) as He.
    change RQSIZE with 256 in idx. fold idx in He. unfold rx_free in He. rewrite He. cbn [negb orb].
    intros [= <- <- <-]. exists (mk_nic ann pend []). split; [by apply step_receive_none|].
    split; [done|]. split; [done|]. by exists r, q.
  - destruct (e1000_take_slot_related _ _ _ Hs Hr) as (Hidx & (F1 & F2 & F3 & F4) & Ps & Pr & Pt).
    fold idx in Hidx, F1, F2, F3, F4, Ps, Pr, Pt. rewrite F3, F1. cbn [negb orb]. cbv zeta.
    pose proof (zlen_nonneg f). destruct (Z.ltb_spec (zlen f) 0); [lia|].
    destruct (Z.ltb_spec 2048 (zlen f)); [lia|]. rewrite (r_ra _ Hs) by done. rewrite F4.
    destruct (e1000_tell_rx_related _ _ Ps Pr) as (Ts & Tr & Tt).
    intros [= <- <- <-]. destruct (Z.ltb_spec (zlen f) 0); [lia|].
    exists (mk_nic ann pend fs). split; [by apply step_receive|].
    destruct (_ =? 0); (split; [done|]); split; cbn [announced pending inbox]; auto.
Qed.

Lemma e1000_card_refines s a act s' : related s a -> card s act s' ->
  exists a', Nic.step 1500 255 2048 false a act a' /\ related s' a'.
Proof.
  destruct a as [ann pend ins]. intros (Hs & Ht & Hr) Hc. cbn [announced pending inbox] in *.
  destruct Hc as [s f st Hen Hb1 Hb2 Hne Hf|s f d Hen Hb1 Hb2 Hne Hl Hd1 Hd2 Hd3].
  - destruct Ht as (h & c & Ht). apply (tx_busy Ht) in Hne as (f0 & fs & ->).
    destruct (tx_first Ht) as (Hk & S1 & S2 & S3 & S4). cbv zeta in Hf. rewrite S2, S4 in Hf. subst f0.
    exists (mk_nic fs pend ins). split; [by apply step_transmit|].
    destruct (r_len _ Hs) as [-> _]. change (4096 / 16) with 256. split; [|split].
    + destruct Hs. constructor; cbn [regs WRITE32 with_regs tq rq tq_addrs rq_addrs tq_buf rq_buf with_tq];
        rewrite ?zlen_zset; done.
    + exists (h + 1), c. cbn [regs WRITE32 with_regs tx tail head tail_real announced pending with_tq].
      change (TDH =? TDH) with true. change (TDT =? TDH) with false. cbv iota.
      pose proof (mod256 (regs s TDH + 1)). rewrite u32_small by (unfold is_u32; lia). apply (tx_pop _ Ht).
      intros k g Hk2 Hne (A1 & A2 & A3 & A4). unfold tx_slot. cbn [tq mem tq_buf WRITE32 with_regs with_tq].
      rewrite zget_zset_ne by lia. done.
    + revert Hr. by apply e1000_rx_frame.
  - destruct Hr as (r & q & Hn & Hr). pose proof (mod256 (r + zlen ins)) as Hk.
    rewrite <- (x_rdh _ _ _ _ _ _ _ _ Hr) in Hk. set (k := regs s RDH) in *.
    assert (Ha : rd_addr d = rq_buf s + k * 2048) by (rewrite Hd1; by apply Hs). rewrite Ha.
    exists (mk_nic ann pend (ins ++ [f])). split; [by apply step_deliver|].
    destruct (r_len _ Hs) as [_ ->]. change (4096 / 16) with 256. pose proof (zlen_nonneg f). split; [|split].
    + destruct Hs. constructor; cbn [regs WRITE32 with_regs tq rq tq_addrs rq_addrs tq_buf rq_buf with_rq with_mem];
        rewrite ?zlen_zset; try done.
      intros j Hj. destruct (Z.eq_dec j k) as [->|]; [by rewrite zget_zset_eq by lia|].
      rewrite zget_zset_ne by lia. by apply r_rd0.
    + revert Ht. apply e1000_tx_frame; try done. cbn [mem WRITE32 with_regs with_rq with_mem]. intros x Hx.
      apply write_bytes_outside. destruct Hs. lia.
    + exists r, q. cbn [regs WRITE32 with_regs rx with_rq with_mem inbox]. split; [done|].
      change (RDH =? RDH) with true. change (RDT =? RDH) with false. cbv iota.
      pose proof (mod256 (k + 1)). rewrite u32_small by (unfold is_u32; lia).
      apply (rx_deliver Hr); [done| | |].
      * intros j g Hj Hjk (A1 & A2 & A3 & A4). unfold rx_slot.
        cbn [rq mem rq_buf WRITE32 with_regs with_rq with_mem]. fold k. rewrite zget_zset_ne by lia. conj_split; try done.
        rewrite <- A4 at 2. apply read_write_outside. destruct (Z.lt_ge_cases j k); [left|right]; nia.
      * intros j Hj Hjk. unfold rx_free. cbn [rq WRITE32 with_regs with_rq with_mem]. fold k. by rewrite zget_zset_ne by lia.
      * unfold rx_slot. cbn [rq mem rq_buf WRITE32 with_regs with_rq with_mem]. fold k.
        rewrite zget_zset_eq by (rewrite (r_rq _ Hs); lia). conj_split; try done. apply read_write_bytes.
Qed.

Lemma e1000_driver_refines : refines 1500 255 2048 false step related.
Proof.
  constructor.
  - intros s a act s' HR Hst. destruct Hst as [s f s' r E|s s' E|s s' bs len E|s act s' E].
    + by apply (e1000_send_refines _ _ _ _ _ HR).
    + destruct (e1000_flush_refines _ _ HR) as (s2 & E2 & HR2). rewrite E in E2. injection E2 as <-.
      eexists. split; [apply step_flush|done].
    + by apply (e1000_receive_refines _ _ _ _ _ HR).
    + by apply (e1000_card_refines _ _ _ _ HR).
  - intros s [ann pend ins] f fs (Hs & (h & c & Ht) & Hr) Ea. cbn [announced pending inbox] in *. subst ann.
    destruct (tx_first Ht) as (Hk & S1 & S2 & S3 & S4). eexists. apply card_moves, (card_transmit _ _ 1); try apply Hs.
    + apply (tx_busy Ht). by eauto.
    + cbv zeta. by rewrite S2, S4.
Qed.

#[export] Instance e1000_driver : Driver step.
Proof.
  refine {| capacity := 255; max_recv := 2048; drops_long := false; represents := related;
    driver_refinement := e1000_driver_refines |}.
  intros s a (_ & (h & c & []) & _). unfold outbox. lia.
Defined.

End Card.

(** ** Initialisation *)

Section Init.
Variable tq_pa rq_pa dma_buffer : Z.
Variable hw : Z -> (Z -> Z) -> Z -> Z.

(** The statics at boot, with a DMA buffer below 4 GiB. *)
Record boot (s : state) : Prop := {
  b_tq : tq s = replicate 256 no_trans; b_rq : rq s = replicate 256 no_recv;
  b_tp : 0 <= tq_pa < 2 ^ 32; b_rp : 0 <= rq_pa < 2 ^ 32;
  b_base : 0 <= dma_buffer; b_top : dma_buffer + DMA.DMA_BUFFER_SIZE <= 2 ^ 32;
  b_ptr : dma_buffer <= dma_buffer_ptr s <= dma_buffer + DMA.DMA_BUFFER_SIZE }.

Lemma wait_link_keeps fuel s s' : wait_link hw fuel s = Some s' -> exists r, s' = with_regs s r.
Proof.
  revert s. induction fuel as [|fuel IH]; intros s; cbn [wait_link]; destruct (negb _); try done.
  - intros [= <-]. exists (regs s). by destruct s.
  - intros [= <-]. exists (regs s). by destruct s.
  - intros H. apply IH in H as [r ->]. by exists r.
Qed.
Lemma clear_MTA_keeps m s : exists r, clear_MTA m s = with_regs s r.
Proof.
  unfold clear_MTA. generalize (seqZ 0 ((m - 0x5200 + 3) / 4)). intros l. revert s.
  induction l as [|k l IH]; intros s; cbn [fold_left]; [exists (regs s); by destruct s|].
  destruct (IH (WRITE32 (0x5200 + 4 * k) 0 s)) as [r ->]. by exists r.
Qed.

(** Initialisation only fails for want of DMA memory, which is never exceeded. *)
Lemma e1000_init_fails fuel maxMTA mac s s' r :
  boot s -> e1000_init tq_pa rq_pa dma_buffer hw fuel maxMTA mac s = Some (s', r) ->
  r = 0 \/ r = -1 /\ dma_buffer <= dma_buffer_ptr s' <= dma_buffer + DMA.DMA_BUFFER_SIZE.
Proof.
  intros []. unfold e1000_init. destruct (alloc_buffers dma_buffer s) as [s1 ok] eqn:Ea. destruct ok; cbn [negb].
  - destruct (wait_link _ _ _); [|done]. cbv zeta. intros [= _ <-]. by left.
  - intros [= <- <-]. right. split; [done|]. revert Ea. unfold alloc_buffers.
    change TQSIZE with 256. change RQSIZE with 256.
    destruct (DMA.alloc dma_buffer (dma_buffer_ptr s) _) as [p o] eqn:E1.
    destruct (DMA.alloc dma_buffer p _) as [p2 o2] eqn:E2. intros [= <- _]. cbn [dma_buffer_ptr].
    apply DMA.alloc_half_mega in E1 as [(-> & -> & H1)|(-> & -> & H1)]; try done;
      apply DMA.alloc_half_mega in E2 as [(-> & -> & H2)|(-> & -> & H2)]; try done; lia.
Qed.

Lemma e1000_init_succeeds fuel maxMTA mac s s' r :
  boot s -> dma_buffer_ptr s = dma_buffer ->
  e1000_init tq_pa rq_pa dma_buffer hw fuel maxMTA mac s = Some (s', r) -> r = 0.
Proof.
  intros [] Hp. unfold e1000_init. destruct (alloc_buffers dma_buffer s) as [s1 ok] eqn:Ea. destruct ok; cbn [negb].
  - destruct (wait_link _ _ _); [|done]. cbv zeta. by intros [= _ <-].
  - exfalso. revert Ea. unfold alloc_buffers. change TQSIZE with 256. change RQSIZE with 256. unfold DMA.DMA_BUFFER_SIZE in *.
    destruct (DMA.alloc dma_buffer (dma_buffer_ptr s) _) as [p o] eqn:E1.
    destruct (DMA.alloc dma_buffer p _) as [p2 o2] eqn:E2.
    apply DMA.alloc_half_mega in E1 as [(-> & -> & H1)|(-> & -> & H1)]; unfold DMA.DMA_BUFFER_SIZE in *; try done; try lia.
    by apply DMA.alloc_half_mega in E2 as [(-> & -> & H2)|(-> & -> & H2)]; unfold DMA.DMA_BUFFER_SIZE in *; try done; try lia.
Qed.

(** The state after initialisation, but for registers of no importance. *)
Lemma e1000_init_state fuel maxMTA mac s s' :
  e1000_init tq_pa rq_pa dma_buffer hw fuel maxMTA mac s = Some (s', 0) ->
  exists s1 r, alloc_buffers dma_buffer s = (s1, true) /\
    s' = init_receive rq_pa (init_transmit tq_pa (with_regs (fill_addresses s1) r)).
Proof.
  unfold e1000_init. destruct (alloc_buffers dma_buffer s) as [s1 []]; [|done]. cbn [negb].
  destruct (wait_link hw fuel (reset hw (fill_addresses s1))) as [s2|] eqn:Ew; [|done].
  apply wait_link_keeps in Ew as [r ->]. cbv zeta.
  match goal with |- context [clear_MTA maxMTA ?t] => destruct (clear_MTA_keeps maxMTA t) as [r' ->] end.
  intros [= <-]. exists s1. eexists. split; [done|]. reflexivity.
Qed.

Lemma addresses b k : 0 <= b -> b + 524288 <= 2 ^ 32 -> 0 <= k < 256 ->
  zget 0 ((λ i, u64 (b + i * PAGE_SIZE / 2)) <$> seqZ 0 256) k = b + k * 2048.
Proof.
  intros Hb Ht Hk. unfold zget. rewrite nth_lookup, list_lookup_fmap, lookup_seqZ_lt by lia.
  cbn [fmap option_fmap option_map default]. rewrite Z2Nat.id, Z.add_0_l by lia. unfold Memory.PAGE_SIZE.
  replace (k * 4096 / 2) with (k * 2048) by (replace (k * 4096) with (k * 2048 * 2) by lia; by rewrite Z.div_mul).
  cbn [from_option id]. apply u64_small. unfold is_u64. lia.
Qed.

(** Read a register that was written to. *)
Lemma regs_write_eq reg v s : regs (WRITE32 reg v s) reg = u32 v.
Proof. cbn. by rewrite Z.eqb_refl. Qed.
Lemma regs_write_ne reg reg' v s : (reg' =? reg) = false -> regs (WRITE32 reg v s) reg' = regs s reg'.
Proof. cbn. by intros ->. Qed.
Lemma regs_with_tx s i : regs (with_tx s i) = regs s.
Proof. done. Qed.
Lemma regs_with_rx s i : regs (with_rx s i) = regs s.
Proof. done. Qed.
Ltac read_reg :=
  unfold init_receive, init_transmit; cbv zeta;
  repeat lazymatch goal with
  | |- context [regs (WRITE32 ?r ?v ?s) ?r] => rewrite (regs_write_eq r v s)
  | |- context [regs (WRITE32 ?r ?v ?s) ?r'] => rewrite (regs_write_ne r r' v s) by reflexivity
  | |- context [regs (with_tx ?s ?i) _] => rewrite (regs_with_tx s i)
  | |- context [regs (with_rx ?s ?i) _] => rewrite (regs_with_rx s i)
  end; try reflexivity.

Lemma recv_at (l : list RecvDesc) (ra : list Z) k :
  length l = 256%nat -> length ra = 256%nat -> 0 <= k < 256 ->
  zget no_recv (zip_with (λ d a, mk_recv (u32 a) (rd_length d) (rd_chksum d) (rd_status d) (rd_errors d)
    (rd_special d)) l ra) k =
  (let d := zget no_recv l k in
   mk_recv (u32 (zget 0 ra k)) (rd_length d) (rd_chksum d) (rd_status d) (rd_errors d) (rd_special d)).
Proof.
  intros Hl Hr Hk. unfold zget. rewrite !nth_lookup, lookup_zip_with.
  destruct (lookup_lt_is_Some_2 l (Z.to_nat k)) as [d ->]; [lia|].
  destruct (lookup_lt_is_Some_2 ra (Z.to_nat k)) as [a ->]; [lia|]. done.
Qed.

(** The state after the allocation of the buffers at [b]. *)
Definition allocated (s : state) (b : Z) : state :=
  mk_state (regs s) (mem s) (tq s) (rq s) b (b + 524288) (tq_addrs s) (rq_addrs s) (tx s) (rx s) (b + 1048576).
Definition initialised (s : state) (b : Z) (r : Z -> Z) : state :=
  init_receive rq_pa (init_transmit tq_pa (with_regs (fill_addresses (allocated s b)) r)).

(** Writing registers and indices changes nothing else. *)
Definition same_statics (s s' : state) : Prop :=
  tq s' = tq s /\ rq s' = rq s /\ tq_buf s' = tq_buf s /\ rq_buf s' = rq_buf s /\
  tq_addrs s' = tq_addrs s /\ rq_addrs s' = rq_addrs s.
Lemma e1000_same_write s s' reg v : same_statics s s' -> same_statics s (WRITE32 reg v s').
Proof. done. Qed.
Lemma same_tx s s' i : same_statics s s' -> same_statics s (with_tx s' i).
Proof. done. Qed.
Lemma same_rx s s' i : same_statics s s' -> same_statics s (with_rx s' i).
Proof. done. Qed.
Lemma initialised_same s b r : same_statics (fill_addresses (allocated s b)) (initialised s b r).
Proof.
  unfold initialised, init_receive, init_transmit. cbv zeta.
  repeat lazymatch goal with
    | |- same_statics _ (WRITE32 _ _ _) => simple apply e1000_same_write
    | |- same_statics _ (with_tx _ _) => simple apply same_tx
    | |- same_statics _ (with_rx _ _) => simple apply same_rx
    end.
  by conj_split.
Qed.

Lemma initialised_statics s b r :
  tq (initialised s b r) = tq s /\ tq_buf (initialised s b r) = b /\ rq_buf (initialised s b r) = b + 524288 /\
  tq_addrs (initialised s b r) = (λ i, u64 (b + i * PAGE_SIZE / 2)) <$> seqZ 0 256 /\
  rq_addrs (initialised s b r) = (λ i, u64 (b + 524288 + i * PAGE_SIZE / 2)) <$> seqZ 0 256 /\
  rq (initialised s b r) = zip_with (λ d a, mk_recv (u32 a) (rd_length d) (rd_chksum d) (rd_status d) (rd_errors d)
    (rd_special d)) (rq s) ((λ i, u64 (b + 524288 + i * PAGE_SIZE / 2)) <$> seqZ 0 256).
Proof.
  destruct (initialised_same s b r) as (-> & -> & -> & -> & -> & ->).
  unfold fill_addresses, allocated. cbn [tq rq tq_addrs rq_addrs tq_buf rq_buf].
  change TQSIZE with 256. change RQSIZE with 256. conj_split; reflexivity.
Qed.

Lemma initialised_recv s b r k :
  boot s -> 0 <= b -> b + 1048576 <= 2 ^ 32 -> 0 <= k < 256 ->
  zget no_recv (rq (initialised s b r)) k = mk_recv (b + 524288 + k * 2048) 0 0 0 0 0.
Proof.
  intros [] Hb Ht Hk. destruct (initialised_statics s b r) as (_ & _ & _ & _ & _ & ->).
  rewrite recv_at by (rewrite ?b_rq0, ?length_replicate, ?length_fmap, ?length_seqZ; lia).
  rewrite addresses by lia. rewrite u32_small by (unfold is_u32; lia). rewrite b_rq0. unfold zget.
  by rewrite nth_lookup, lookup_replicate_2 by lia.
Qed.

Lemma initialised_ready s b r :
  boot s -> 0 <= b -> b + 1048576 <= 2 ^ 32 -> ready tq_pa rq_pa (initialised s b r).
Proof.
  intros Hboot Hb Ht. pose proof (initialised_recv s b r) as Hrd.
  destruct (initialised_statics s b r) as (E1 & E2 & E3 & E4 & E5 & E6). pose proof Hboot as [].
  assert (Hu : forall a, 0 <= a < 2 ^ 32 -> u32 (u32 a) = a).
  { intros a Ha. rewrite (u32_small (u32 a)) by apply u32_range. apply u32_small. unfold is_u32. lia. }
  constructor.
  - by rewrite E1, b_tq0.
  - rewrite E6. unfold zlen. rewrite length_zip_with, length_fmap, length_seqZ, b_rq0, length_replicate. lia.
  - intros k Hk. rewrite E4, E2. apply addresses; lia.
  - intros k Hk. rewrite E5, E3. apply addresses; lia.
  - intros k Hk. rewrite E3. rewrite Hrd by done. done.
  - rewrite E2, E3. lia.
  - rewrite E3. lia.
  - unfold initialised. by read_reg.
  - unfold initialised. by read_reg.
  - split; unfold initialised; [|by read_reg]. transitivity (u32 (u32 tq_pa)); [by read_reg|by apply Hu].
  - split; unfold initialised; [|by read_reg]. transitivity (u32 (u32 rq_pa)); [by read_reg|by apply Hu].
  - split; unfold initialised; by read_reg.
Qed.

(** After a successful initialisation the card and the driver are two empty queues. *)
Lemma e1000_init_related fuel maxMTA mac s s' :
  boot s -> e1000_init tq_pa rq_pa dma_buffer hw fuel maxMTA mac s = Some (s', 0) ->
  related tq_pa rq_pa s' (mk_nic [] [] []).
Proof.
  intros Hboot (s1 & r & Ea & ->)%e1000_init_state. pose proof Hboot as []. unfold alloc_buffers in Ea.
  change TQSIZE with 256 in Ea. change RQSIZE with 256 in Ea. unfold DMA.DMA_BUFFER_SIZE in *.
  destruct (DMA.alloc dma_buffer (dma_buffer_ptr s) _) as [p o] eqn:E1.
  destruct (DMA.alloc dma_buffer p _) as [p2 o2] eqn:E2.
  apply DMA.alloc_half_mega in E1 as [(-> & -> & H1)|(-> & -> & H1)]; unfold DMA.DMA_BUFFER_SIZE in *; try reflexivity; try lia.
  { injection Ea as <- E. discriminate E. }
  apply DMA.alloc_half_mega in E2 as [(-> & -> & H2)|(-> & -> & H2)]; unfold DMA.DMA_BUFFER_SIZE in *; try reflexivity; try lia.
  { injection Ea as <- E. discriminate E. }
  injection Ea as <-. set (b := dma_buffer_ptr s) in *. unfold DMA.DMA_BUFFER_SIZE in *. cbn [default].
  replace (b + 524288 + 524288) with (b + 1048576) by lia. fold (allocated s b). fold (initialised s b r).
  split; [by apply initialised_ready; [|lia|lia]|]. split.
  - exists 0, 0. unfold initialised. constructor; try (by read_reg); by cbn.
  - exists 0, 0. split; [reflexivity|]. constructor; try (by unfold initialised; read_reg); try (by cbn).
    intros k Hk. unfold rx_free. rewrite initialised_recv; [done|done|lia|lia|apply mod256].
Qed.

Lemma wait_link_ends fuel s k :
  (k <= fuel)%nat -> Z.land (Nat.iter k (hw 100000) (regs s) STATUS) 0x2 <> 0 ->
  exists s', wait_link hw fuel s = Some s'.
Proof.
  revert fuel s. induction k as [|k IH]; intros fuel s Hk Hup.
  - exists s. unfold READ32. destruct fuel; cbn [wait_link]; unfold READ32;
      (destruct (Z.eqb_spec (Z.land (regs s STATUS) 2) 0); [done|done]).
  - destruct fuel as [|fuel]; [lia|]. cbn [wait_link]. destruct (negb _); [by exists s|].
    apply IH; [lia|]. rewrite Nat.iter_succ_r in Hup. exact Hup.
Qed.

(** The link comes up after at most [fuel] delays. *)
Definition link_comes_up (fuel : nat) : Prop :=
  forall r, exists k, (k <= fuel)%nat /\ Z.land (Nat.iter k (hw 100000) r STATUS) 0x2 <> 0.

Lemma e1000_init_ends fuel maxMTA mac s :
  boot s -> dma_buffer_ptr s = dma_buffer -> link_comes_up fuel ->
  exists s', e1000_init tq_pa rq_pa dma_buffer hw fuel maxMTA mac s = Some (s', 0).
Proof.
  intros [] Hp Hup. unfold e1000_init, alloc_buffers. change TQSIZE with 256. change RQSIZE with 256.
  unfold DMA.DMA_BUFFER_SIZE in *.
  destruct (DMA.alloc dma_buffer (dma_buffer_ptr s) _) as [p o] eqn:E1.
  destruct (DMA.alloc dma_buffer p _) as [p2 o2] eqn:E2.
  apply DMA.alloc_half_mega in E1 as [(-> & -> & H1)|(-> & -> & H1)]; unfold DMA.DMA_BUFFER_SIZE in *; try reflexivity; try lia.
  apply DMA.alloc_half_mega in E2 as [(-> & -> & H2)|(-> & -> & H2)]; unfold DMA.DMA_BUFFER_SIZE in *; try reflexivity; try lia.
  cbn [bool_decide is_Some andb negb]. rewrite !bool_decide_true by done. cbn [andb negb].
  match goal with |- context [wait_link hw fuel ?t] => destruct (Hup (regs t)) as (k & Hk & Hlink);
    destruct (wait_link_ends fuel t k Hk Hlink) as [s' ->] end.
  by eexists.
Qed.

(** The driver and the card together are a first-in first-out channel.  When the link
    comes up, initialisation succeeds; and then, whatever calls are made and
    whatever the card does in whichever order: the frames on the wire are those
    that [send] accepted, in order, each once and unchanged; the frames [receive]
    hands out are those that came in, in order, each once and unchanged; at most
    255 frames wait to be sent, [send] refuses a frame exactly when 255 wait or it
    has more than 1500 bytes; and after a flush the card can send all that wait. *)
Theorem e1000_is_a_queue fuel maxMTA mac s :
  boot s -> dma_buffer_ptr s = dma_buffer -> link_comes_up fuel ->
  exists s0, e1000_init tq_pa rq_pa dma_buffer hw fuel maxMTA mac s = Some (s0, 0) /\
    forall tr s1, steps (step tq_pa rq_pa) s0 tr s1 -> exists out ins,
      accepted tr = transmitted tr ++ out /\ delivered tr = received tr ++ ins /\ zlen out <= 255 /\
      (forall f, snd (send f (zlen f) s1) = if (zlen f <=? 1500) && (zlen out <? 255) then 0 else -1) /\
      exists s2, steps (step tq_pa rq_pa) s1 (Flush :: (Transmit <$> out)) s2.
Proof.
  intros Hboot Hp Hup. destruct (e1000_init_ends fuel maxMTA mac s Hboot Hp Hup) as [s0 E]. exists s0. split; [done|].
  intros tr s1 Ht. pose proof (e1000_init_related _ _ _ _ _ Hboot E) as HR.
  destruct (refined_fifo 1500 255 2048 false (e1000_driver_refines tq_pa rq_pa) _ _ _ _ HR Ht) as (a & HRa & Ho & _ & Hi & _). specialize (Hi eq_refl).
  exists (outbox a), (inbox a). conj_split; [done|done| | |].
  - destruct HRa as (_ & (h & c & []) & _). unfold outbox. lia.
  - intros f. destruct (send f (zlen f) s1) as [s' r] eqn:Es. cbn [snd].
    destruct (e1000_send_refines _ _ _ _ _ _ _ HRa Es) as (a' & Hst & _).
    apply step_send_inv in Hst.
    destruct (Z.leb_spec (zlen f) 1500), (Z.ltb_spec (zlen (outbox a)) 255); cbn [andb]; lia.
  - destruct (e1000_flush_refines _ _ _ _ HRa) as (s' & Ef & HRf).
    destruct (refined_drain 1500 255 2048 false (e1000_driver_refines tq_pa rq_pa) _ _ HRf) as (s2 & Hd & _).
    exists s2. econstructor; [by apply call_flush|done].
Qed.

End Init.

(** ** Witnesses *)

Definition demo_boot : state :=
  mk_state (λ _, 0) (λ _, 0) (replicate 256 no_trans) (replicate 256 no_recv) 0 0 [] []
    (mk_indices 0 0 0) (mk_indices 0 0 0) 0x400000.
Definition demo_hw (us : Z) (r : Z -> Z) (x : Z) : Z := if x =? STATUS then 0x80080783 else r x.

Lemma e1000_is_a_queue_witness :
  exists s0, e1000_init 0x300000 0x301000 0x400000 demo_hw 1 0x5280 [82; 84; 0; 18; 52; 86] demo_boot = Some (s0, 0) /\
    exists s2, steps (step 0x300000 0x301000) s0 [Flush] s2.
Proof.
  destruct (e1000_is_a_queue 0x300000 0x301000 0x400000 demo_hw 1 0x5280 [82; 84; 0; 18; 52; 86] demo_boot)
    as (s0 & E & H).
  - constructor; unfold DMA.DMA_BUFFER_SIZE; cbn; try lia; reflexivity.
  - reflexivity.
  - intros r. exists 1%nat. split; [lia|discriminate].
  - exists s0. split; [exact E|]. destruct (H [] s0 (steps_nil _ s0)) as (out & ins & Ho & _ & _ & _ & s2 & H2).
    cbn in Ho. subst out. exists s2. exact H2.
Defined.

(** Two frames sent and flushed are put on the wire in order by the card. *)
Example e1000_demo_trace :
  let frames := [[1; 2; 3]; [4; 5]] in
  match e1000_init 0x300000 0x301000 0x400000 demo_hw 1 0x5280 [82; 84; 0; 18; 52; 86] demo_boot with
  | Some (s, _) =>
      let s := fst (send [1; 2; 3] 3 s) in let s := fst (send [4; 5] 2 s) in let s := fst (flush s) in
      let wire k := let d := zget no_trans (tq s) k in read_bytes (mem s) (td_addr d) (td_length d) in
      [wire 0; wire 1] = frames /\ regs s TDT = 2
  | None => False
  end.
Proof. vm_compute. split; reflexivity. Qed.

End E1000.
