(* ===== verification/I211.v ===== *)
(** * I211: the driver of the Intel I211 and I225 cards ([lib/i211.cpp])

    Modelled like E1000; the descriptors are two 64-bit words the driver and the
    card read in different formats, and a write to a register may do anything to
    the other registers ([hw_write]), as the reset bits and semaphores do. *)
From S2P Require Import Prelude Utils Memory Nic.

Module I211.
Import Nic.
Abbreviation PAGE_SIZE := Memory.PAGE_SIZE.

(** [regs_i211] *)
Definition CTRL : Z := 0x0000.
Definition STATUS : Z := 0x0008.
Definition CTRL_EXT : Z := 0x0018.
Definition RCTL : Z := 0x00100.
Definition TCTL : Z := 0x00400.
Definition EIMC : Z := 0x1528.
Definition RXPBSIZE : Z := 0x2404.
Definition TXPBSIZE : Z := 0x3404.
Definition RFCTL : Z := 0x5008.
Definition MTA : Z := 0x5200.
Definition RAL : Z := 0x5400.
Definition RAH : Z := 0x5404.
Definition MRQC : Z := 0x5818.
Definition SWSM : Z := 0x5B50.
Definition SW_FW_SYNC : Z := 0x5B5C.
Definition UTA : Z := 0xA000.
Definition SRRCTL : Z := 0xC00C.
Definition RDBAL : Z := 0xC000.
Definition RDBAH : Z := 0xC004.
Definition RDLEN : Z := 0xC008.
Definition RDH : Z := 0xC010.
Definition RDT : Z := 0xC018.
Definition RXDCTL : Z := 0xC028.
Definition TDBAL : Z := 0xE000.
Definition TDBAH : Z := 0xE004.
Definition TDLEN : Z := 0xE008.
Definition TDH : Z := 0xE010.
Definition TDT : Z := 0xE018.
Definition TXDCTL : Z := 0xE028.

(** [RecvDesc] and [TransDesc] are unions of 16 bytes: two words.  As a receive
    descriptor to read: [packet_addr], [header_addr]; written back by the card: 64
    bits of no use, [status_error] (32), [packet_length] (16), [padding2] (16).  As a
    transmit descriptor: [packet_addr], [cmd_type_len] (32), [paylen_status] (32). *)
Record Desc := mk_desc { w0 : Z; w1 : Z }.
Definition no_desc : Desc := mk_desc 0 0.
Definition packet_length (d : Desc) : Z := u16 (Z.shiftr (w1 d) 32).
Definition trans_desc (addr cmd_type_len paylen_status : Z) : Desc :=
  mk_desc addr (Z.lor cmd_type_len (Z.shiftl paylen_status 32)).

Definition BUFFER_SIZE : Z := 2048.
Definition RQSIZE : Z := PAGE_SIZE / 16.
Definition TQSIZE : Z := PAGE_SIZE / 16.
Definition RQ_FLUSH_COUNT : Z := 32.
Definition TQ_FLUSH_COUNT : Z := 32.

Record i211_states := mk_states { rdt : Z; next_rx_idx : Z; tdh : Z; tdt : Z; next_tx_idx : Z }.

Record state := mk_state {
  regs : Z -> Z; mem : Z -> Z; rq : list Desc; tq : list Desc; rq_buf : Z; tq_buf : Z;
  st : i211_states; dma_buffer_ptr : Z }.

Definition with_regs (s : state) (r : Z -> Z) : state :=
  mk_state r (mem s) (rq s) (tq s) (rq_buf s) (tq_buf s) (st s) (dma_buffer_ptr s).
Definition with_mem (s : state) (m : Z -> Z) : state :=
  mk_state (regs s) m (rq s) (tq s) (rq_buf s) (tq_buf s) (st s) (dma_buffer_ptr s).
Definition with_rq (s : state) (q : list Desc) : state :=
  mk_state (regs s) (mem s) q (tq s) (rq_buf s) (tq_buf s) (st s) (dma_buffer_ptr s).
Definition with_tq (s : state) (q : list Desc) : state :=
  mk_state (regs s) (mem s) (rq s) q (rq_buf s) (tq_buf s) (st s) (dma_buffer_ptr s).
Definition with_st (s : state) (t : i211_states) : state :=
  mk_state (regs s) (mem s) (rq s) (tq s) (rq_buf s) (tq_buf s) t (dma_buffer_ptr s).
Definition with_rq_buf (s : state) (p b : Z) : state :=
  mk_state (regs s) (mem s) (rq s) (tq s) b (tq_buf s) (st s) p.
Definition with_tq_buf (s : state) (p b : Z) : state :=
  mk_state (regs s) (mem s) (rq s) (tq s) (rq_buf s) b (st s) p.

Definition bit (k : Z) : Z := Z.shiftl 1 k.
(** [~x] on 32 bits. *)
Definition not32 (x : Z) : Z := u32 (Z.lnot x).
Definition is_set (x m : Z) : bool := negb (Z.land x m =? 0).

Section Driver.
(** The addresses of the static arrays; the registers after a write of a value to
    one of them, and after a delay of so many microseconds. *)
Variable rq_pa tq_pa header_buf dma_buffer : Z.
Variable hw_write : Z -> Z -> (Z -> Z) -> Z -> Z.
Variable hw : Z -> (Z -> Z) -> Z -> Z.

Definition READ32 (reg : Z) (s : state) : Z := regs s reg.
Definition WRITE32 (reg val : Z) (s : state) : state := with_regs s (hw_write reg (u32 val) (regs s)).
Definition microdelay (us : Z) (s : state) : state := with_regs s (hw us (regs s)).

Definition prepare_rx_descriptor (idx : Z) (s : state) : state :=
  with_rq s (zset (rq s) idx (mk_desc (u64 (rq_buf s + idx * BUFFER_SIZE)) header_buf)).

Definition prepare_tx_descriptor (idx len : Z) (s : state) : state :=
  let cmd_type_len := 0 in
  let cmd_type_len := Z.lor cmd_type_len len in
  let cmd_type_len := Z.lor cmd_type_len (Z.shiftl 3 20) in
  let cmd_type_len := Z.lor cmd_type_len (Z.shiftl (Z.lor (Z.lor (bit 5) (bit 1)) (bit 0)) 24) in
  let paylen_status := u32 (Z.shiftl len (46 - 32)) in
  with_tq s (zset (tq s) idx (trans_desc (u64 (tq_buf s + idx * BUFFER_SIZE)) cmd_type_len paylen_status)).

(** The [goto start] loops; [fuel] bounds the rounds. *)
Fixpoint i211_phy_take_ownership (fuel : nat) (s : state) : option state :=
  match fuel with
  | O => None
  | S fuel =>
      let s := WRITE32 SWSM (Z.lor (READ32 SWSM s) (bit 1)) s in
      if negb (is_set (READ32 SWSM s) (bit 1)) then i211_phy_take_ownership fuel s
      else
        let need_try_again := is_set (READ32 SW_FW_SYNC s) (bit 17) in
        let s := if need_try_again then s
                 else WRITE32 SW_FW_SYNC (Z.lor (READ32 SW_FW_SYNC s) (bit 1)) s in
        let s := WRITE32 SWSM (Z.land (READ32 SWSM s) (not32 (bit 1))) s in
        if need_try_again then i211_phy_take_ownership fuel (microdelay 1 s) else Some s
  end.

Fixpoint i211_phy_release_ownership (fuel : nat) (s : state) : option state :=
  match fuel with
  | O => None
  | S fuel =>
      let s := WRITE32 SWSM (Z.lor (READ32 SWSM s) (bit 1)) s in
      if negb (is_set (READ32 SWSM s) (bit 1)) then i211_phy_release_ownership fuel s
      else
        let s := WRITE32 SW_FW_SYNC (Z.land (READ32 SW_FW_SYNC s) (not32 (bit 1))) s in
        Some (WRITE32 SWSM (Z.land (READ32 SWSM s) (not32 (bit 1))) s)
  end.

Definition i211_phy_configure (s : state) : state := s.

(** [while (1) { if (READ32(reg) & mask) break; microdelay(us); }] *)
Fixpoint poll (fuel : nat) (reg mask us : Z) (s : state) : option state :=
  if is_set (READ32 reg s) mask then Some s
  else match fuel with O => None | S fuel => poll fuel reg mask us (microdelay us s) end.

Definition i211_init_rx_queue (fuel : nat) (s : state) : option (state * bool) :=
  let s := WRITE32 RXDCTL 0 s in
  let '(p, b) := DMA.alloc dma_buffer (dma_buffer_ptr s) (RQSIZE * BUFFER_SIZE) in
  match b with
  | None => Some (with_rq_buf s p 0, false)
  | Some b =>
      let s := with_rq_buf s p b in
      let s := fold_left (λ s i, prepare_rx_descriptor i s) (seqZ 0 RQSIZE) s in
      let s := WRITE32 RDBAL (u32 rq_pa) s in
      let s := WRITE32 RDBAH 0 s in
      let s := WRITE32 RDLEN (RQSIZE * 16) s in
      let srrctl := READ32 SRRCTL s in
      let srrctl := Z.land srrctl (not32 (Z.shiftl 0x7f 0)) in
      let srrctl := Z.land srrctl (not32 (Z.shiftl 0x3f 8)) in
      let srrctl := Z.land srrctl (not32 (Z.shiftl 0x7 25)) in
      let srrctl := Z.lor srrctl (Z.lor (Z.lor (Z.shiftl 2 0) (Z.shiftl 1 8)) (Z.shiftl 1 25)) in
      let s := WRITE32 SRRCTL srrctl s in
      let s := WRITE32 RDH 0 s in
      let s := WRITE32 RDT 0 s in
      let s := WRITE32 RXDCTL (Z.lor (Z.lor (Z.lor (Z.shiftl 8 0) (Z.shiftl 8 8)) (Z.shiftl 4 16)) (bit 25)) s in
      match poll fuel RXDCTL (bit 25) 1000 s with
      | None => None
      | Some s =>
          let s := WRITE32 RDT (RQSIZE - 1) s in
          let t := st s in
          let s := with_st s (mk_states (RQSIZE - 1) 0 (tdh t) (tdt t) (next_tx_idx t)) in
          Some (WRITE32 MRQC 0 s, true)
      end
  end.

Definition clear_status (d : Desc) : Desc := mk_desc (w0 d) (u32 (w1 d)).
Definition i211_init_tx_queue (fuel : nat) (s : state) : option (state * bool) :=
  let s := WRITE32 TXDCTL 0 s in
  let '(p, b) := DMA.alloc dma_buffer (dma_buffer_ptr s) (TQSIZE * BUFFER_SIZE) in
  match b with
  | None => Some (with_tq_buf s p 0, false)
  | Some b =>
      let s := with_tq_buf s p b in
      let s := with_tq s (clear_status <$> tq s) in
      let s := WRITE32 TDBAL (u32 tq_pa) s in
      let s := WRITE32 TDBAH 0 s in
      let s := WRITE32 TDLEN (TQSIZE * 16) s in
      let s := WRITE32 TXDCTL (bit 16) s in
      let s := WRITE32 TDH 0 s in
      let s := WRITE32 TDT 0 s in
      let s := WRITE32 TXDCTL (Z.lor (READ32 TXDCTL s) (bit 25)) s in
      match poll fuel TXDCTL (bit 25) 1000 s with
      | None => None
      | Some s => let t := st s in Some (with_st s (mk_states (rdt t) (next_rx_idx t) 0 0 0), true)
      end
  end.

Definition MASTER_DISABLE_TIMEOUT : nat := 800.
Fixpoint disable_loop (n : nat) (s : state) : state * bool :=
  match n with
  | O => (s, false)
  | S n => if negb (is_set (READ32 STATUS s) (bit 19)) then (s, true) else disable_loop n (microdelay 2500 s)
  end.
Definition i211_disable_pcie_master (s : state) : state * bool :=
  disable_loop MASTER_DISABLE_TIMEOUT (WRITE32 CTRL (Z.lor (READ32 CTRL s) (bit 2)) s).

(** [for (int i = a; i < b; i++) WRITE32(reg + i * k, 0);] *)
Definition clear_regs (reg k a b : Z) (s : state) : state :=
  fold_left (λ s i, WRITE32 (reg + i * k) 0 s) (seqZ a (b - a)) s.
Definition clear_addresses (s : state) : state :=
  fold_left (λ s i, WRITE32 (RAH + i * 8) 0 (WRITE32 (RAL + i * 8) 0 s)) (seqZ 1 15) s.

Definition i211_reset (fuel : nat) (s : state) : option (state * bool) :=
  let '(s, ok) := i211_disable_pcie_master s in
  if negb ok then Some (s, false)
  else
    let s := WRITE32 EIMC 0xFFFFFFFF s in
    let s := WRITE32 CTRL (Z.lor (Z.lor (READ32 CTRL s) (bit 26)) (bit 29)) s in
    let s := microdelay (3000 + 500) s in
    if negb (is_set (READ32 STATUS s) (bit 21)) then Some (s, false)
    else
      let s := WRITE32 EIMC 0xFFFFFFFF s in
      let s := WRITE32 CTRL_EXT (Z.lor (READ32 CTRL_EXT s) (bit 28)) s in
      match i211_phy_take_ownership fuel s with
      | None => None
      | Some s =>
          let s := WRITE32 CTRL (Z.lor (READ32 CTRL s) (bit 31)) s in
          let s := microdelay (100 + 500) s in
          let s := WRITE32 CTRL (Z.land (READ32 CTRL s) (not32 (bit 31))) s in
          match i211_phy_release_ownership fuel s with
          | None => None
          | Some s =>
              match i211_phy_take_ownership fuel s with
              | None => None
              | Some s =>
                  match i211_phy_release_ownership fuel (i211_phy_configure s) with
                  | None => None
                  | Some s => Some (s, true)
                  end
              end
          end
      end.

Definition i211_configure (fuel : nat) (mac : list Z) (is_i225 : bool) (s : state) : option state :=
  let s := WRITE32 CTRL (Z.land (Z.land (READ32 CTRL s) (not32 (bit 11))) (not32 (bit 12))) s in
  let s := WRITE32 CTRL (Z.lor (READ32 CTRL s) (bit 6)) s in
  match poll fuel STATUS (bit 1) 100000 s with
  | None => None
  | Some s =>
      let s := WRITE32 RCTL 0 s in
      let m k := zget 0 mac k in
      let s := WRITE32 RAL (Z.lor (Z.lor (Z.lor (m 0) (Z.shiftl (m 1) 8)) (Z.shiftl (m 2) 16)) (Z.shiftl (m 3) 24)) s in
      let s := WRITE32 RAH (Z.lor (Z.lor (m 4) (Z.shiftl (m 5) 8)) (bit 31)) s in
      let s := clear_addresses s in
      let s := clear_regs MTA 4 0 128 s in
      let s := if is_i225 then clear_regs UTA 4 0 128 s else s in
      Some (if is_i225 then WRITE32 TXPBSIZE 0x04000014 (WRITE32 RXPBSIZE 0x000000A2 s) else s)
  end.

Definition i211_init (fuel : nat) (mac : list Z) (is_i225 : bool) (s : state) : option (state * bool) :=
  match i211_reset fuel s with
  | None => None
  | Some (s, false) => Some (s, false)
  | Some (s, true) =>
      match i211_configure fuel mac is_i225 s with
      | None => None
      | Some s =>
          match i211_init_rx_queue fuel s with
          | None => None
          | Some (s, false) => Some (s, false)
          | Some (s, true) =>
              let s := WRITE32 RCTL (Z.lor (Z.lor (bit 1) (bit 15)) (bit 26)) s in
              let s := WRITE32 RFCTL (Z.lor (READ32 RFCTL s) 0x00010000) s in
              let s := WRITE32 TCTL 0 s in
              match i211_init_tx_queue fuel s with
              | None => None
              | Some (s, false) => Some (s, false)
              | Some (s, true) => Some (WRITE32 TCTL (Z.lor (bit 1) (bit 3)) s, true)
              end
          end
      end
  end.

(** ** Sending and receiving *)

Definition i211_flush_tx (s : state) : state :=
  let t := st s in
  if tdt t =? next_tx_idx t then s
  else WRITE32 TDT (next_tx_idx t) (with_st s (mk_states (rdt t) (next_rx_idx t) (tdh t) (next_tx_idx t) (next_tx_idx t))).

Definition is_full (s : state) : bool := u32 (next_tx_idx (st s) + 1) mod TQSIZE =? tdh (st s).

Definition send (buf : list Z) (len : Z) (s : state) : state * Z :=
  if (len <? 0) || (1500 <? len) then (s, -1)
  else
    let idx := next_tx_idx (st s) in
    let s :=
      if is_full s then
        let t := st s in with_st s (mk_states (rdt t) (next_rx_idx t) (READ32 TDH s) (tdt t) (next_tx_idx t))
      else s in
    if is_full s then (s, -1)
    else
      let s := with_mem s (write_bytes (mem s) (tq_buf s + idx * BUFFER_SIZE) (ztake len buf)) in
      let s := prepare_tx_descriptor idx len s in
      let t := st s in
      let next := u32 (next_tx_idx t + 1) mod TQSIZE in
      let s := with_st s (mk_states (rdt t) (next_rx_idx t) (tdh t) (tdt t) next) in
      (if next mod TQ_FLUSH_COUNT =? 0 then i211_flush_tx s else s, 0).

(** Also returns the bytes stored in the buffer of the caller. *)
Definition receive (s : state) : state * list Z * Z :=
  let idx := next_rx_idx (st s) in
  let length := packet_length (zget no_desc (rq s) idx) in
  if length =? 0 then (s, [], -1)
  else if 1500 <? length then (s, [], -1)
  else
    let bs := read_bytes (mem s) (rq_buf s + idx * BUFFER_SIZE) length in
    let s := prepare_rx_descriptor idx s in
    let t := st s in
    let next := u32 (next_rx_idx t + 1) mod RQSIZE in
    let r := u32 (rdt t + 1) mod RQSIZE in
    let s := with_st s (mk_states r next (tdh t) (tdt t) (next_tx_idx t)) in
    (if r mod RQ_FLUSH_COUNT =? 0 then WRITE32 RDT r s else s, bs, length).

Definition flush (s : state) : state * Z := (i211_flush_tx s, 0).

End Driver.
(** ** The card

    As for E1000, with the descriptors of this card: the length of a frame to send
    is in the low 16 bits of the second word.  A frame that comes in has at least
    one byte and at most 2048.  After the reset, the registers of the rings keep
    what is written to them. *)
Definition ring_reg (x : Z) : bool :=
  existsb (Z.eqb x) [RCTL; TCTL; RDBAL; RDBAH; RDLEN; RDH; RDT; TDBAL; TDBAH; TDLEN; TDH; TDT].

Section Card.
Variable rq_pa tq_pa header_buf : Z.
Variable hw_write : Z -> Z -> (Z -> Z) -> Z -> Z.
Hypothesis Hwrite : forall reg v r x,
  ring_reg x = true -> reg <> CTRL -> hw_write reg v r x = if x =? reg then v else r x.
Hypothesis Hheader : 0 <= header_buf < 2 ^ 32.
Abbreviation send := (send hw_write).
Abbreviation receive := (receive header_buf hw_write).
Abbreviation flush := (flush hw_write).
Abbreviation WRITE32 := (WRITE32 hw_write).
Abbreviation i211_flush_tx := (i211_flush_tx hw_write).

Definition set_reg (reg v : Z) (s : state) : state := with_regs s (λ x, if x =? reg then v else regs s x).

Inductive card : state -> action -> state -> Prop :=
  | card_transmit s f d' :
      Z.testbit (regs s TCTL) 1 = true -> regs s TDBAL = tq_pa -> regs s TDBAH = 0 ->
      regs s TDH <> regs s TDT ->
      f = (let d := zget no_desc (tq s) (regs s TDH) in read_bytes (mem s) (w0 d) (u16 (w1 d))) ->
      card s (Transmit f)
        (set_reg TDH ((regs s TDH + 1) mod (regs s TDLEN / 16)) (with_tq s (zset (tq s) (regs s TDH) d')))
  | card_deliver s f d' :
      Z.testbit (regs s RCTL) 1 = true -> regs s RDBAL = rq_pa -> regs s RDBAH = 0 ->
      regs s RDH <> regs s RDT -> 0 < zlen f <= 2048 -> packet_length d' = zlen f ->
      card s (Deliver f)
        (set_reg RDH ((regs s RDH + 1) mod (regs s RDLEN / 16))
          (with_rq (with_mem s (write_bytes (mem s) (w0 (zget no_desc (rq s) (regs s RDH))) f))
            (zset (rq s) (regs s RDH) d'))).

Inductive step : state -> action -> state -> Prop :=
  | call_send s f s' r : send f (zlen f) s = (s', r) -> step s (Send f r) s'
  | call_flush s s' : flush s = (s', 0) -> step s Flush s'
  | call_receive s s' bs len : receive s = (s', bs, len) ->
      step s (Receive (if len <? 0 then None else Some bs)) s'
  | card_moves s act s' : card s act s' -> step s act s'.

(** Moves of the card that are computed: it leaves the descriptor of a frame it has sent
    as it is, and writes the length of one that has come in. *)
Definition moves (s : state) (act : action) : option state :=
  let at_base a reg := (regs s reg =? a) && (regs s (reg + 4) =? 0) in
  match act with
  | Transmit f =>
      let d := zget no_desc (tq s) (regs s TDH) in
      if Z.testbit (regs s TCTL) 1 && at_base tq_pa TDBAL && negb (regs s TDH =? regs s TDT) &&
        bool_decide (f = read_bytes (mem s) (w0 d) (u16 (w1 d)))
      then Some (set_reg TDH ((regs s TDH + 1) mod (regs s TDLEN / 16)) (with_tq s (zset (tq s) (regs s TDH) d))) else None
  | Deliver f =>
      let d := mk_desc 0 (Z.shiftl (zlen f) 32) in
      if Z.testbit (regs s RCTL) 1 && at_base rq_pa RDBAL && negb (regs s RDH =? regs s RDT) &&
        (0 <? zlen f) && (zlen f <=? 2048) && (packet_length d =? zlen f)
      then Some (set_reg RDH ((regs s RDH + 1) mod (regs s RDLEN / 16))
        (with_rq (with_mem s (write_bytes (mem s) (w0 (zget no_desc (rq s) (regs s RDH))) f))
          (zset (rq s) (regs s RDH) d))) else None
  | _ => None
  end.
Lemma i211_moves s act s' : moves s act = Some s' -> step s act s'.
Proof.
  intros H. apply card_moves. revert H. destruct act; try done; cbn [moves]; case_match; try done; intros [= <-]; bool_props.
  - by apply card_transmit.
  - by apply (card_deliver s f (mk_desc 0 (Z.shiftl (zlen f) 32))).
Qed.
Lemma i211_plays s tr s' : play (λ f, send f (zlen f)) flush receive moves s tr = Some s' -> steps step s tr s'.
Proof. apply play_steps; [apply call_send|apply call_flush|apply call_receive|apply i211_moves]. Qed.

(** ** The invariant *)

Record ready (s : state) : Prop := {
  r_rq : zlen (rq s) = 256; r_tq : zlen (tq s) = 256;
  r_rb : 0 <= rq_buf s /\ rq_buf s + 524288 <= tq_buf s; r_tb : tq_buf s + 524288 <= 2 ^ 32;
  r_tctl : Z.testbit (regs s TCTL) 1 = true; r_rctl : Z.testbit (regs s RCTL) 1 = true;
  r_tdb : regs s TDBAL = tq_pa /\ regs s TDBAH = 0; r_rdb : regs s RDBAL = rq_pa /\ regs s RDBAH = 0;
  r_len : regs s TDLEN = 4096 /\ regs s RDLEN = 4096 }.

Definition tx_slot (s : state) (k : Z) (f : frame) : Prop :=
  let d := zget no_desc (tq s) k in
  w0 d = tq_buf s + k * 2048 /\ u16 (w1 d) = zlen f /\ zlen f <= 2048 /\
  read_bytes (mem s) (w0 d) (zlen f) = f.
Definition rx_slot (s : state) (k : Z) (f : frame) : Prop :=
  packet_length (zget no_desc (rq s) k) = zlen f /\ 0 < zlen f <= 2048 /\
  read_bytes (mem s) (rq_buf s + k * 2048) (zlen f) = f.
Definition rx_free (s : state) (k : Z) : Prop :=
  let d := zget no_desc (rq s) k in w0 d = rq_buf s + k * 2048 /\ packet_length d = 0.

Definition tx_related (s : state) (ann pend : list frame) : Prop := exists h c,
  tx_ring (regs s TDH) (regs s TDT) (next_tx_idx (st s)) (tdh (st s)) (tdt (st s)) (tx_slot s) ann pend h c.
Definition rx_related (s : state) (ins : list frame) : Prop := exists r q,
  rdt (st s) = (r - 1) mod 256 /\
  rx_ring (regs s RDH) (regs s RDT) (next_rx_idx (st s)) (rx_slot s) (rx_free s) ins r q.
Definition related (s : state) (a : nic) : Prop :=
  ready s /\ tx_related s (announced a) (pending a) /\ rx_related s (inbox a).

(** What one direction of traffic needs of a step of the other. *)
Lemma i211_tx_frame s s' ann pend :
  regs s' TDH = regs s TDH -> regs s' TDT = regs s TDT -> next_tx_idx (st s') = next_tx_idx (st s) ->
  tdh (st s') = tdh (st s) -> tdt (st s') = tdt (st s) -> tq s' = tq s -> tq_buf s' = tq_buf s ->
  (forall x, tq_buf s <= x < tq_buf s + 524288 -> mem s' x = mem s x) ->
  tx_related s ann pend -> tx_related s' ann pend.
Proof.
  intros E1 E2 E3 E3' E3'' E4 E5 Hm (h & c & Ht). exists h, c. rewrite E1, E2, E3, E3', E3''. apply (tx_keep Ht).
  intros k g Hk (H1 & H2 & H3 & H4). unfold tx_slot. rewrite E4, E5. conj_split; try done.
  rewrite <- H4 at 2. apply read_bytes_ext. intros x Hx. apply Hm. lia.
Qed.
Lemma i211_rx_frame s s' ins :
  regs s' RDH = regs s RDH -> regs s' RDT = regs s RDT -> rdt (st s') = rdt (st s) ->
  next_rx_idx (st s') = next_rx_idx (st s) -> rq s' = rq s -> rq_buf s' = rq_buf s ->
  (forall x, rq_buf s <= x < rq_buf s + 524288 -> mem s' x = mem s x) ->
  rx_related s ins -> rx_related s' ins.
Proof.
  intros E1 E2 E3 E3' E4 E5 Hm (r & q & Hn & Hr). exists r, q. rewrite E1, E2, E3, E3'. split; [done|].
  apply (rx_keep Hr).
  - intros k g Hk (H1 & H2 & H3). unfold rx_slot. rewrite E4, E5. conj_split; try done; try lia.
    rewrite <- H3 at 2. apply read_bytes_ext. intros x Hx. apply Hm. lia.
  - intros k Hk. unfold rx_free. by rewrite E4, E5.
Qed.

Lemma regs_write reg v s x : ring_reg x = true -> reg <> CTRL ->
  regs (WRITE32 reg v s) x = if x =? reg then u32 v else regs s x.
Proof. intros. by apply Hwrite. Qed.

(** A state that differs in no register of the rings but [TDT] (or [RDT]). *)
Lemma ready_write reg v s : reg = TDT \/ reg = RDT -> ready s -> ready (WRITE32 reg v s).
Proof.
  intros Hreg []. assert (Hne : reg <> CTRL) by (destruct Hreg as [-> | ->]; discriminate).
  constructor; try done; rewrite !regs_write by done; by destruct Hreg as [-> | ->].
Qed.

(** ** The driver refines the queues *)

(** The length in the descriptor is the length of the frame. *)
Lemma desc_length len addr : 0 <= len <= 1500 ->
  u16 (w1 (trans_desc addr (Z.lor (Z.lor (Z.lor 0 len) (Z.shiftl 3 20))
    (Z.shiftl (Z.lor (Z.lor (bit 5) (bit 1)) (bit 0)) 24)) (u32 (Z.shiftl len (46 - 32))))) = len.
Proof.
  intros Hl. cbn [w1 trans_desc]. unfold u16. change 65536 with (2 ^ 16). rewrite <- Z.land_ones by lia.
  rewrite !Z.land_lor_distr_l, Z.lor_0_l. rewrite !Z.land_ones by lia. rewrite (Z.mod_small len) by lia.
  replace (Z.shiftl 3 20 mod 2 ^ 16) with 0 by reflexivity.
  replace (Z.shiftl (Z.lor (Z.lor (bit 5) (bit 1)) (bit 0)) 24 mod 2 ^ 16) with 0 by reflexivity.
  rewrite Z.shiftl_mul_pow2 by lia. change (2 ^ 32) with (2 ^ 16 * 2 ^ 16).
  rewrite Z.mul_assoc, Z_mod_mult. by rewrite !Z.lor_0_r.
Qed.

Definition reread (s : state) : state :=
  let t := st s in with_st s (mk_states (rdt t) (next_rx_idx t) (regs s TDH) (tdt t) (next_tx_idx t)).
Definition put_frame (s : state) (f : frame) : state :=
  let k := next_tx_idx (st s) in
  let s := prepare_tx_descriptor k (zlen f) (with_mem s (write_bytes (mem s) (tq_buf s + k * BUFFER_SIZE) f)) in
  let t := st s in
  with_st s (mk_states (rdt t) (next_rx_idx t) (tdh t) (tdt t) (u32 (k + 1) mod TQSIZE)).

Lemma i211_send_cases f s :
  send f (zlen f) s =
    if 1500 <? zlen f then (s, -1)
    else let s := if is_full s then reread s else s in
      if is_full s then (s, -1)
      else let s := put_frame s f in
        (if next_tx_idx (st s) mod TQ_FLUSH_COUNT =? 0 then i211_flush_tx s else s, 0).
Proof.
  unfold I211.send. pose proof (zlen_nonneg f).
  destruct (Z.ltb_spec (zlen f) 0); [lia|]. cbn [orb]. destruct (1500 <? zlen f); [done|].
  unfold READ32. fold (reread s). rewrite ztake_zlen. unfold put_frame. by destruct (is_full s).
Qed.

Lemma i211_put_frame_related s ann pend f :
  ready s -> tx_related s ann pend -> zlen f <= 1500 -> is_full s = false ->
  ready (put_frame s f) /\ tx_related (put_frame s f) ann (pend ++ [f]) /\
  (forall ins, rx_related s ins -> rx_related (put_frame s f) ins) /\ zlen (ann ++ pend) < 255.
Proof.
  intros Hs (h & c & Ht) Hf Hfull. destruct Hs. pose proof (zlen_nonneg f).
  assert (Hroom : h + zlen (ann ++ pend) < c + 255).
  { pose proof (t_room _ _ _ _ _ _ _ _ _ _ Ht). destruct (Z.eq_dec (h + zlen (ann ++ pend)) (c + 255)) as [E|]; [|lia].
    apply (tx_full Ht) in E. unfold is_full in Hfull. by change TQSIZE with 256 in Hfull; rewrite E in Hfull. }
  assert (Hk : 0 <= next_tx_idx (st s) < 256) by (rewrite (t_tail _ _ _ _ _ _ _ _ _ _ Ht); apply mod256).
  set (k := next_tx_idx (st s)) in *.
  assert (Hva : u64 (tq_buf s + k * 2048) = tq_buf s + k * 2048) by (apply u64_small; unfold is_u64; lia).
  unfold put_frame, prepare_tx_descriptor. fold k. change BUFFER_SIZE with 2048. change TQSIZE with 256.
  cbn [tq_buf with_mem]. rewrite Hva. conj_split.
  - constructor; cbn [tq rq regs tq_buf rq_buf with_st with_tq with_mem]; rewrite ?zlen_zset; try done.
  - exists h, c. cbn [tq regs tq_buf with_st with_tq with_mem st next_tx_idx tdh tdt].
    apply (tx_push Ht); [done| |].
    + fold k. intros j g Hj Hne (A1 & A2 & A3 & A4). unfold tx_slot.
      cbn [tq mem tq_buf with_st with_tq with_mem]. rewrite zget_zset_ne by lia. conj_split; try done.
      rewrite A1 in *. rewrite read_write_outside; [done|].
      destruct (Z.lt_ge_cases j k); [left|right]; nia.
    + fold k. unfold tx_slot. cbn [tq mem tq_buf with_st with_tq with_mem]. rewrite zget_zset_eq by lia.
      rewrite desc_length by lia. cbn [w0 trans_desc]. conj_split; try done; [lia|]. apply read_write_bytes.
  - intros ins. apply i211_rx_frame; try done. cbn [mem with_st with_tq with_mem rq_buf]. intros x Hx.
    apply write_bytes_outside. lia.
  - pose proof (t_c _ _ _ _ _ _ _ _ _ _ Ht). lia.
Qed.

Lemma i211_reread_related s ann pend : ready s -> tx_related s ann pend ->
  ready (reread s) /\ tx_related (reread s) ann pend /\ (forall ins, rx_related s ins -> rx_related (reread s) ins) /\
  (is_full (reread s) = true -> zlen (ann ++ pend) = 255).
Proof.
  intros Hs (h & c & Ht). apply tx_reread in Ht as Ht'. conj_split.
  - by destruct Hs.
  - by exists h, h.
  - intros ins. by apply i211_rx_frame.
  - unfold is_full. change TQSIZE with 256. cbn. rewrite (tx_full Ht'). lia.
Qed.

Lemma flush_related s ann pend : ready s -> tx_related s ann pend ->
  ready (i211_flush_tx s) /\ tx_related (i211_flush_tx s) (ann ++ pend) [] /\
  (forall ins, rx_related s ins -> rx_related (i211_flush_tx s) ins).
Proof.
  intros Hs (h & c & Ht). unfold I211.i211_flush_tx.
  destruct (Z.eqb_spec (tdt (st s)) (next_tx_idx (st s))) as [E|E].
  - pose proof (tx_no_pending Ht (eq_sym E)) as ->. rewrite app_nil_r. split; [done|]. split; [by exists h, c|done].
  - conj_split.
    + apply ready_write; [by left|]. by destruct Hs.
    + exists h, c. rewrite !regs_write by done. change (TDH =? TDT) with false. change (TDT =? TDT) with true. cbv iota.
      pose proof (mod256 (h + zlen (ann ++ pend))).
      rewrite u32_small by (rewrite (t_tail _ _ _ _ _ _ _ _ _ _ Ht); unfold is_u32; lia).
      by apply (tx_flush Ht).
    + intros ins. apply i211_rx_frame; try done; by rewrite regs_write.
Qed.

Lemma i211_send_refines s a f s' r :
  related s a -> send f (zlen f) s = (s', r) ->
  exists a', Nic.step 1500 255 1500 false a (Send f r) a' /\ related s' a'.
Proof.
  destruct a as [ann pend ins]. intros (Hs & Ht & Hr). cbn [announced pending inbox] in *.
  rewrite i211_send_cases. destruct (Z.ltb_spec 1500 (zlen f)) as [Hl|Hl].
  { intros [= <- <-]. exists (mk_nic ann pend ins). split; [apply step_refuse; by left|done]. }
  destruct (i211_reread_related _ _ _ Hs Ht) as (Rs & Rt & Rr & Rf).
  set (s1 := if is_full s then reread s else s).
  assert (H1 : ready s1 /\ tx_related s1 ann pend /\ rx_related s1 ins /\
    (is_full s1 = true -> zlen (ann ++ pend) = 255)).
  { subst s1. destruct (is_full s) eqn:E; conj_split; auto. by rewrite E. }
  clearbody s1. destruct H1 as (Hs1 & Ht1 & Hr1 & Hf1). cbv zeta.
  destruct (is_full s1) eqn:E.
  { intros [= <- <-]. exists (mk_nic ann pend ins). split; [|done]. apply step_refuse. right.
    unfold outbox. cbn. by rewrite Hf1. }
  destruct (i211_put_frame_related _ _ _ _ Hs1 Ht1 Hl E) as (Ps & Pt & Pr & Proom). specialize (Pr _ Hr1).
  destruct (_ =? 0).
  - intros [= <- <-]. destruct (flush_related _ _ _ Ps Pt) as (Ts & Tt & Tr).
    eexists. split; [by apply step_send_flush|]. split; [done|]. cbn [announced pending inbox].
    unfold outbox. cbn [announced pending]. rewrite <- app_assoc. split; [done|]. by apply Tr.
  - intros [= <- <-]. eexists. split; [by apply step_send|]. done.
Qed.

Lemma i211_flush_refines s a : related s a -> related (i211_flush_tx s) (mk_nic (outbox a) [] (inbox a)).
Proof.
  destruct a as [ann pend ins]. intros (Hs & Ht & Hr). cbn [announced pending inbox] in *.
  destruct (flush_related _ _ _ Hs Ht) as (Ts & Tt & Tr). split; [done|]. split; [done|]. by apply Tr.
Qed.

Definition take_slot (s : state) : state :=
  let idx := next_rx_idx (st s) in
  let s := prepare_rx_descriptor header_buf idx s in
  let t := st s in
  with_st s (mk_states (u32 (rdt t + 1) mod RQSIZE) (u32 (idx + 1) mod RQSIZE) (tdh t) (tdt t) (next_tx_idx t)).

Lemma i211_receive_cases s : let d := zget no_desc (rq s) (next_rx_idx (st s)) in
  receive s =
    if (packet_length d =? 0) || (1500 <? packet_length d) then (s, [], -1)
    else
      let s' := take_slot s in
      (if rdt (st s') mod RQ_FLUSH_COUNT =? 0 then WRITE32 RDT (rdt (st s')) s' else s',
       read_bytes (mem s) (rq_buf s + next_rx_idx (st s) * BUFFER_SIZE) (packet_length d), packet_length d).
Proof.
  cbv zeta. unfold I211.receive. destruct (packet_length _ =? 0); [done|]. by destruct (1500 <? _).
Qed.

Lemma i211_take_slot_related s f fs :
  ready s -> rx_related s (f :: fs) ->
  ready (take_slot s) /\ rx_related (take_slot s) fs /\
  (forall ann pend, tx_related s ann pend -> tx_related (take_slot s) ann pend).
Proof.
  intros Hs (r & q & Hn & Hr). destruct (rx_first Hr) as [Hk _]. destruct Hs. set (k := next_rx_idx (st s)) in *.
  assert (Hva : u64 (rq_buf s + k * BUFFER_SIZE) = rq_buf s + k * 2048)
    by (change BUFFER_SIZE with 2048; apply u64_small; unfold is_u64; lia).
  unfold take_slot, prepare_rx_descriptor. fold k. rewrite Hva. change RQSIZE with 256. conj_split.
  - constructor; cbn [tq rq regs tq_buf rq_buf with_st with_rq]; rewrite ?zlen_zset; done.
  - exists (r + 1), q. cbn [rq regs rq_buf with_st with_rq st rdt next_rx_idx].
    assert (Ek : k = r mod 256) by apply (x_next _ _ _ _ _ _ _ _ Hr).
    split; [rewrite Hn, next_index; f_equal; lia|].
    replace (u32 (k + 1) mod 256) with ((k + 1) mod 256) by (rewrite u32_small; [done|unfold is_u32; lia]).
    apply (rx_pop _ _ Hr); fold k.
    + intros j g Hj Hne (A1 & A2 & A3). unfold rx_slot. cbn [rq mem rq_buf with_st with_rq].
      rewrite zget_zset_ne by lia. done.
    + intros j Hj Hne. unfold rx_free. cbn [rq rq_buf with_st with_rq]. by rewrite zget_zset_ne by lia.
    + unfold rx_free. cbn [rq rq_buf with_st with_rq]. rewrite zget_zset_eq by lia. cbn [w0]. split; [done|].
      unfold packet_length. cbn [w1]. rewrite Z.shiftr_div_pow2 by lia. by rewrite Z.div_small by lia.
  - intros ann pend. by apply i211_tx_frame.
Qed.

Lemma i211_tell_rx_related s ins : ready s -> rx_related s ins -> let s' := WRITE32 RDT (rdt (st s)) s in
  ready s' /\ rx_related s' ins /\ (forall ann pend, tx_related s ann pend -> tx_related s' ann pend).
Proof.
  intros Hs (r & q & Hn & Hr) s'. conj_split.
  - apply ready_write; [by right|done].
  - exists r, r. unfold s'. rewrite !regs_write by done. change (RDH =? RDT) with false. change (RDT =? RDT) with true.
    cbv iota. split; [done|]. rewrite Hn. pose proof (mod256 (r - 1)). rewrite u32_small by (unfold is_u32; lia).
    by apply (rx_tell Hr).
  - intros ann pend. apply i211_tx_frame; try done; unfold s'; by rewrite regs_write.
Qed.

Lemma i211_receive_refines s a s' bs len :
  related s a -> receive s = (s', bs, len) ->
  exists a', Nic.step 1500 255 1500 false a (Receive (if len <? 0 then None else Some bs)) a' /\ related s' a'.
Proof.
  destruct a as [ann pend ins]. intros (Hs & Ht & Hr). cbn [announced pending inbox] in *.
  rewrite i211_receive_cases. destruct ins as [|f fs].
  - destruct Hr as (r & q & Hn & Hr). destruct (rx_empty Hr eq_refl) as [_ ->]. cbn [Z.eqb orb].
    intros [= <- <- <-]. exists (mk_nic ann pend []). split; [by apply step_receive_none|].
    split; [done|]. split; [done|]. by exists r, q.
  - destruct (i211_take_slot_related _ _ _ Hs Hr) as (Ps & Pr & Pt).
    assert (Hf : rx_slot s (next_rx_idx (st s)) f) by (destruct Hr as (r & q & _ & Hr); apply (rx_first Hr)).
    destruct Hf as (F1 & F2 & F3). rewrite F1. cbv zeta. destruct (Z.eqb_spec (zlen f) 0); [lia|]. cbn [orb].
    destruct (Z.ltb_spec 1500 (zlen f)) as [Hlong|Hshort].
    { intros [= <- <- <-]. exists (mk_nic ann pend (f :: fs)). split; [|done].
      by apply (step_too_long 1500 255 1500 false f fs (mk_nic ann pend (f :: fs))). }
    change BUFFER_SIZE with 2048. rewrite F3. destruct (i211_tell_rx_related _ _ Ps Pr) as (Ts & Tr & Tt).
    intros [= <- <- <-]. destruct (Z.ltb_spec (zlen f) 0); [lia|].
    exists (mk_nic ann pend fs). split; [by apply step_receive|].
    destruct (_ =? 0); (split; [done|]); split; cbn [announced pending inbox]; auto.
Qed.

Lemma i211_card_refines s a act s' : related s a -> card s act s' ->
  exists a', Nic.step 1500 255 1500 false a act a' /\ related s' a'.
Proof.
  destruct a as [ann pend ins]. intros (Hs & Ht & Hr) Hc. cbn [announced pending inbox] in *.
  destruct Hc as [s f d' Hen Hb1 Hb2 Hne Hf|s f d' Hen Hb1 Hb2 Hne Hl Hd].
  - destruct Ht as (h & c & Ht). apply (tx_busy Ht) in Hne as (f0 & fs & ->).
    destruct (tx_first Ht) as (Hk & S1 & S2 & S3 & S4). cbv zeta in Hf. rewrite S2, S4 in Hf. subst f0.
    exists (mk_nic fs pend ins). split; [by apply step_transmit|].
    destruct (r_len _ Hs) as [-> _]. change (4096 / 16) with 256. split; [|split].
    + destruct Hs. constructor; cbn [regs set_reg with_regs tq rq tq_buf rq_buf with_tq]; rewrite ?zlen_zset; done.
    + exists (h + 1), c. cbn [regs set_reg with_regs st announced pending with_tq].
      change (TDH =? TDH) with true. change (TDT =? TDH) with false. cbv iota. apply (tx_pop _ Ht).
      intros k g Hk2 Hne (A1 & A2 & A3 & A4). unfold tx_slot. cbn [tq mem tq_buf set_reg with_regs with_tq].
      rewrite zget_zset_ne by lia. done.
    + revert Hr. by apply i211_rx_frame.
  - destruct Hr as (r & q & Hn & Hr). destruct (rx_next_free Hr) as (Hk & Ha & _).
    set (k := regs s RDH) in *. rewrite Ha.
    exists (mk_nic ann pend (ins ++ [f])). split; [by apply step_deliver|].
    destruct (r_len _ Hs) as [_ ->]. change (4096 / 16) with 256. pose proof (r_rq _ Hs). split; [|split].
    + destruct Hs. constructor; cbn [regs set_reg with_regs tq rq tq_buf rq_buf with_rq with_mem]; rewrite ?zlen_zset; done.
    + revert Ht. apply i211_tx_frame; try done. cbn [mem set_reg with_regs with_rq with_mem]. intros x Hx.
      apply write_bytes_outside. destruct Hs. lia.
    + exists r, q. cbn [regs set_reg with_regs st with_rq with_mem inbox]. split; [done|].
      change (RDH =? RDH) with true. change (RDT =? RDH) with false. cbv iota.
      apply (rx_deliver Hr); [done| | |]; fold k.
      * intros j g Hj Hjk (A1 & A2 & A3). unfold rx_slot.
        cbn [rq mem rq_buf set_reg with_regs with_rq with_mem]. rewrite zget_zset_ne by lia. conj_split; try done; try lia.
        rewrite <- A3 at 2. apply read_write_outside. destruct (Z.lt_ge_cases j k); [left|right]; nia.
      * intros j Hj Hjk. unfold rx_free. cbn [rq rq_buf set_reg with_regs with_rq with_mem]. by rewrite zget_zset_ne by lia.
      * unfold rx_slot. cbn [rq mem rq_buf set_reg with_regs with_rq with_mem].
        rewrite zget_zset_eq by lia. conj_split; try done; try lia. apply read_write_bytes.
Qed.

Lemma i211_driver_refines : refines 1500 255 1500 false step related.
Proof.
  constructor.
  - intros s a act s' HR Hst. destruct Hst as [s f s' r E|s s' E|s s' bs len E|s act s' E].
    + by apply (i211_send_refines _ _ _ _ _ HR).
    + injection E as <-. eexists. split; [apply step_flush|by apply i211_flush_refines].
    + by apply (i211_receive_refines _ _ _ _ _ HR).
    + by apply (i211_card_refines _ _ _ _ HR).
  - intros s [ann pend ins] f fs (Hs & (h & c & Ht) & Hr) Ea. cbn [announced pending inbox] in *. subst ann.
    destruct (tx_first Ht) as (Hk & S1 & S2 & S3 & S4). eexists. apply card_moves, (card_transmit _ _ no_desc); try apply Hs.
    + apply (tx_busy Ht). by eauto.
    + cbv zeta. by rewrite S2, S4.
Qed.

Definition i211_driver : Driver step.
Proof.
  refine {| capacity := 255; max_recv := 1500; drops_long := false; represents := related;
    driver_refinement := i211_driver_refines |}.
  intros s a (_ & (h & c & []) & _). unfold outbox. lia.
Defined.

End Card.
(** ** Initialisation *)

Section Init.
Variable rq_pa tq_pa header_buf dma_buffer : Z.
Variable hw_write : Z -> Z -> (Z -> Z) -> Z -> Z.
Variable hw : Z -> (Z -> Z) -> Z -> Z.
Hypothesis Hwrite : forall reg v r x,
  ring_reg x = true -> reg <> CTRL -> hw_write reg v r x = if x =? reg then v else r x.
Hypothesis Hdelay : forall us r x, ring_reg x = true -> hw us r x = r x.
Hypothesis Hheader : 0 <= header_buf < 2 ^ 32.
Hypothesis Hpa : 0 <= rq_pa < 2 ^ 32 /\ 0 <= tq_pa < 2 ^ 32.
Hypothesis Hbase : 0 <= dma_buffer /\ dma_buffer + DMA.DMA_BUFFER_SIZE <= 2 ^ 32.

(** Steps that only touch registers. *)
Definition regs_only (s s' : state) : Prop := exists r, s' = with_regs s r.
Lemma i211_regs_only_refl s : regs_only s s.
Proof. exists (regs s). by destruct s. Qed.
Lemma regs_only_write s s' reg v : regs_only s s' -> regs_only s (WRITE32 hw_write reg v s').
Proof. intros [r ->]. by eexists. Qed.
Lemma i211_regs_only_delay s s' us : regs_only s s' -> regs_only s (microdelay hw us s').
Proof. intros [r ->]. by eexists. Qed.
Lemma regs_only_fold {A} (f : state -> A -> state) l s s' :
  (forall s' x, regs_only s s' -> regs_only s (f s' x)) -> regs_only s s' -> regs_only s (fold_left f l s').
Proof. intros Hf. revert s'. induction l as [|x l IH]; intros s' H; cbn [fold_left]; [done|]. by apply IH, Hf. Qed.
Lemma regs_only_poll fuel reg mask us s s' s2 :
  regs_only s s' -> poll hw fuel reg mask us s' = Some s2 -> regs_only s s2.
Proof.
  revert s'. induction fuel as [|fuel IH]; intros s' H; cbn [poll]; destruct (is_set _ _); try done;
    try (by intros [= <-]). apply IH. by apply i211_regs_only_delay.
Qed.
Lemma regs_only_take fuel s s' s2 :
  regs_only s s' -> i211_phy_take_ownership hw_write hw fuel s' = Some s2 -> regs_only s s2.
Proof.
  revert s'. induction fuel as [|fuel IH]; intros s' H; cbn [i211_phy_take_ownership]; [done|].
  cbv zeta. destruct (negb _); [apply IH; by apply regs_only_write|].
  destruct (is_set (READ32 SW_FW_SYNC _) _); [apply IH; by apply i211_regs_only_delay, regs_only_write, regs_only_write|].
  intros [= <-]. by do 3 apply regs_only_write.
Qed.
Lemma regs_only_release fuel s s' s2 :
  regs_only s s' -> i211_phy_release_ownership hw_write fuel s' = Some s2 -> regs_only s s2.
Proof.
  revert s'. induction fuel as [|fuel IH]; intros s' H; cbn [i211_phy_release_ownership]; [done|].
  cbv zeta. destruct (negb _); [apply IH; by apply regs_only_write|].
  intros [= <-]. by do 3 apply regs_only_write.
Qed.
Lemma regs_only_disable n s s' s2 ok :
  regs_only s s' -> disable_loop hw n s' = (s2, ok) -> regs_only s s2.
Proof.
  revert s'. induction n as [|n IH]; intros s' H; cbn [disable_loop]; [by intros [= <- <-]|].
  destruct (negb _); [by intros [= <- <-]|]. apply IH. by apply i211_regs_only_delay.
Qed.

Lemma regs_only_reset fuel s s2 ok : i211_reset hw_write hw fuel s = Some (s2, ok) -> regs_only s s2.
Proof.
  unfold i211_reset. destruct (i211_disable_pcie_master hw_write hw s) as [s1 ok1] eqn:E1.
  apply (regs_only_disable _ s) in E1; [|apply regs_only_write, i211_regs_only_refl].
  destruct (negb ok1); [by intros [= <- <-]|]. cbv zeta.
  destruct (negb _); [intros [= <- <-]; by repeat first [apply regs_only_write|apply i211_regs_only_delay]|].
  destruct (i211_phy_take_ownership _ _ _ _) as [s3|] eqn:E3; [|done].
  apply (regs_only_take _ s) in E3; [|by repeat first [apply regs_only_write|apply i211_regs_only_delay]].
  destruct (i211_phy_release_ownership _ _ _) as [s4|] eqn:E4; [|done].
  apply (regs_only_release _ s) in E4; [|by repeat first [apply regs_only_write|apply i211_regs_only_delay]].
  destruct (i211_phy_take_ownership _ _ fuel s4) as [s5|] eqn:E5; [|done]. apply (regs_only_take _ s) in E5; [|done].
  destruct (i211_phy_release_ownership _ _ _) as [s6|] eqn:E6; [|done]. apply (regs_only_release _ s) in E6; [|done].
  by intros [= <- _].
Qed.

Lemma regs_only_configure fuel mac b s s2 : i211_configure hw_write hw fuel mac b s = Some s2 -> regs_only s s2.
Proof.
  unfold i211_configure. cbv zeta. destruct (poll _ _ _ _ _ _) as [s1|] eqn:E1; [|done].
  apply (regs_only_poll _ _ _ _ s) in E1; [|by apply regs_only_write, regs_only_write, i211_regs_only_refl].
  assert (Hc : forall reg s', regs_only s s' -> regs_only s (clear_regs hw_write reg 4 0 128 s')).
  { intros reg s' H. apply regs_only_fold; [|done]. intros. by apply regs_only_write. }
  assert (Ha : forall s', regs_only s s' -> regs_only s (clear_addresses hw_write s')).
  { intros s' H. apply regs_only_fold; [|done]. intros. by apply regs_only_write, regs_only_write. }
  destruct b; intros [= <-].
  - do 2 apply regs_only_write. apply Hc, Hc, Ha. by do 3 apply regs_only_write.
  - apply Hc, Ha. by do 3 apply regs_only_write.
Qed.

(** Steps that keep everything but registers. *)
Definition same_statics (s s' : state) : Prop :=
  rq s' = rq s /\ tq s' = tq s /\ rq_buf s' = rq_buf s /\ tq_buf s' = tq_buf s /\ st s' = st s /\
  dma_buffer_ptr s' = dma_buffer_ptr s.
Lemma i211_same_write s s' reg v : same_statics s s' -> same_statics s (WRITE32 hw_write reg v s').
Proof. done. Qed.
Lemma same_regs s r : same_statics s (with_regs s r).
Proof. done. Qed.
Lemma same_refl s : same_statics s s.
Proof. done. Qed.
Ltac same_statics :=
  repeat lazymatch goal with |- same_statics _ (WRITE32 _ _ _ _) => simple apply i211_same_write end;
  first [simple apply same_refl | simple apply same_regs].

(** Waiting does not change the registers of the rings. *)
Lemma poll_ring s0 fuel reg mask us s s' : same_statics s0 s -> poll hw fuel reg mask us s = Some s' ->
  same_statics s0 s' /\ forall x, ring_reg x = true -> regs s' x = regs s x.
Proof.
  revert s. induction fuel as [|fuel IH]; intros s Hs; cbn [poll]; destruct (is_set _ _); try done;
    try (by intros [= <-]).
  intros H. apply IH in H as [H1 Hr]; [|done]. split; [done|]. intros x Hx. rewrite Hr by done.
  cbn. by apply Hdelay.
Qed.

(** Filling the ring. *)
Lemma fill_rq l s :
  let s' := fold_left (λ s i, prepare_rx_descriptor header_buf i s) l s in
  (forall i, i ∈ l -> 0 <= i < zlen (rq s)) ->
  regs s' = regs s /\ mem s' = mem s /\ tq s' = tq s /\ rq_buf s' = rq_buf s /\ tq_buf s' = tq_buf s /\ st s' = st s /\
  dma_buffer_ptr s' = dma_buffer_ptr s /\ zlen (rq s') = zlen (rq s) /\
  forall k, 0 <= k -> zget no_desc (rq s') k =
    if decide (k ∈ l) then mk_desc (u64 (rq_buf s + k * BUFFER_SIZE)) header_buf else zget no_desc (rq s) k.
Proof.
  revert s. induction l as [|i l IH]; intros s; cbn [fold_left]; intros Hl.
  { by conj_split. }
  destruct (IH (prepare_rx_descriptor header_buf i s)) as (H1 & H2 & H3 & H4 & H5 & H6 & H7 & H8 & H9).
  { intros j Hj. cbn [rq prepare_rx_descriptor with_rq]. rewrite zlen_zset. apply Hl. by right. }
  cbn [rq regs mem tq rq_buf tq_buf st dma_buffer_ptr prepare_rx_descriptor with_rq] in *. rewrite zlen_zset in H8.
  conj_split; try done. intros k Hk. rewrite H9 by done.
  assert (Hi : 0 <= i < zlen (rq s)) by (apply Hl; by left).
  destruct (decide (k ∈ l)) as [Hin|Hin]; [rewrite decide_True by (by right); done|].
  destruct (Z.eq_dec k i) as [->|Hne].
  - rewrite decide_True by (by left). by apply zget_zset_eq.
  - rewrite decide_False by (by intros [->|]%elem_of_cons). by apply zget_zset_ne; lia.
Qed.

(** The registers of the rings after a chain of writes. *)
Lemma i211_ring_write_eq reg v s : ring_reg reg = true -> reg <> CTRL -> regs (WRITE32 hw_write reg v s) reg = u32 v.
Proof. intros. unfold WRITE32. cbn. by rewrite Hwrite, Z.eqb_refl. Qed.
Lemma i211_ring_write_ne reg reg' v s : ring_reg reg' = true -> reg <> CTRL -> (reg' =? reg) = false ->
  regs (WRITE32 hw_write reg v s) reg' = regs s reg'.
Proof. intros ? ? H. unfold WRITE32. cbn. by rewrite Hwrite, H. Qed.
Lemma regs_with_st s i : regs (with_st s i) = regs s.
Proof. done. Qed.
Lemma regs_with_regs s r : regs (with_regs s r) = r.
Proof. done. Qed.
Lemma regs_with_tq s q : regs (with_tq s q) = regs s.
Proof. done. Qed.
Ltac read_reg :=
  repeat lazymatch goal with
  | |- context [regs (WRITE32 _ ?r ?v ?s) ?r] => rewrite (i211_ring_write_eq r v s) by done
  | |- context [regs (WRITE32 _ ?r ?v ?s) ?r'] => rewrite (i211_ring_write_ne r r' v s) by done
  | |- context [regs (with_st ?s ?i) _] => rewrite (regs_with_st s i)
  | |- context [regs (with_regs ?s ?r) _] => rewrite (regs_with_regs s r)
  | |- context [regs (with_tq ?s ?q) _] => rewrite (regs_with_tq s q)
  end.

Lemma u32_u32 a : 0 <= a < 2 ^ 32 -> u32 (u32 a) = a.
Proof. intros Ha. rewrite (u32_small (u32 a)) by apply u32_range. apply u32_small. unfold is_u32. lia. Qed.

Lemma rx_queue_spec fuel s s' :
  zlen (rq s) = 256 -> dma_buffer <= dma_buffer_ptr s <= dma_buffer + DMA.DMA_BUFFER_SIZE ->
  i211_init_rx_queue rq_pa header_buf dma_buffer hw_write hw fuel s = Some (s', true) ->
  let b := dma_buffer_ptr s in
  b + 524288 <= dma_buffer + DMA.DMA_BUFFER_SIZE /\ rq_buf s' = b /\ dma_buffer_ptr s' = b + 524288 /\
  tq s' = tq s /\ rdt (st s') = 255 /\ next_rx_idx (st s') = 0 /\ zlen (rq s') = 256 /\
  (forall k, 0 <= k < 256 -> zget no_desc (rq s') k = mk_desc (b + k * 2048) header_buf) /\
  regs s' RDBAL = rq_pa /\ regs s' RDBAH = 0 /\ regs s' RDLEN = 4096 /\ regs s' RDH = 0 /\ regs s' RDT = 255.
Proof.
  intros Hz Hp. unfold i211_init_rx_queue. cbv zeta.
  change (dma_buffer_ptr (WRITE32 hw_write RXDCTL 0 s)) with (dma_buffer_ptr s).
  destruct (DMA.alloc _ _ _) as [p o] eqn:Ea.
  apply DMA.alloc_half_mega in Ea as [(-> & _)|(-> & -> & Htop)]; try done; try lia.
  set (b := dma_buffer_ptr s) in *. set (s1 := with_rq_buf _ (b + 524288) b).
  assert (H1 : forall i, i ∈ seqZ 0 RQSIZE -> 0 <= i < zlen (rq s1)).
  { intros i Hi%elem_of_seqZ. change (rq s1) with (rq s). change RQSIZE with 256 in Hi. lia. }
  destruct (fill_rq (seqZ 0 RQSIZE) s1 H1) as (F1 & F2 & F3 & F4 & F5 & F6 & F7 & F8 & F9).
  set (s2 := fold_left _ _ s1) in *. clearbody s2.
  assert (Hq : forall k, 0 <= k < 256 -> zget no_desc (rq s2) k = mk_desc (b + k * 2048) header_buf).
  { intros k Hk. rewrite F9 by lia. rewrite decide_True by (apply elem_of_seqZ; change RQSIZE with 256; lia).
    change (rq_buf s1) with b. change BUFFER_SIZE with 2048. unfold DMA.DMA_BUFFER_SIZE in *.
    rewrite u64_small; [done|unfold is_u64; lia]. }
  destruct (poll _ _ _ _ _ _) as [s3|] eqn:Ep; [|done].
  apply (poll_ring s2) in Ep as ((P1 & P2 & P3 & P4 & P5 & P6) & Hr); [|same_statics].
  assert (H3 : regs s3 RDBAL = rq_pa /\ regs s3 RDBAH = 0 /\ regs s3 RDLEN = 4096 /\ regs s3 RDH = 0).
  { rewrite !Hr by done. conj_split; read_reg; try reflexivity. apply u32_u32, Hpa. }
  clear Hr. destruct H3 as (R1 & R2 & R3 & R4). intros [= <-].
  change (rq_buf _) with (rq_buf s3) at 1. rewrite P3, F4. conj_split; try done; try (read_reg; done).
  - change (dma_buffer_ptr s3 = b + 524288). by rewrite P6, F7.
  - change (tq s3 = tq s). by rewrite P2, F3.
  - change (zlen (rq s3) = 256). by rewrite P1, F8.
  - intros k Hk. change (zget no_desc (rq s3) k = mk_desc (b + k * 2048) header_buf). rewrite P1. by apply Hq.
Qed.

(** The ring of the other direction is left alone. *)
Lemma tx_queue_spec fuel s s' :
  zlen (tq s) = 256 -> dma_buffer <= dma_buffer_ptr s <= dma_buffer + DMA.DMA_BUFFER_SIZE ->
  i211_init_tx_queue tq_pa dma_buffer hw_write hw fuel s = Some (s', true) ->
  let b := dma_buffer_ptr s in
  b + 524288 <= dma_buffer + DMA.DMA_BUFFER_SIZE /\ tq_buf s' = b /\ zlen (tq s') = 256 /\
  rq s' = rq s /\ rq_buf s' = rq_buf s /\
  st s' = mk_states (rdt (st s)) (next_rx_idx (st s)) 0 0 0 /\
  regs s' TDBAL = tq_pa /\ regs s' TDBAH = 0 /\ regs s' TDLEN = 4096 /\ regs s' TDH = 0 /\ regs s' TDT = 0 /\
  forall x, x ∈ [RCTL; RDBAL; RDBAH; RDLEN; RDH; RDT] -> regs s' x = regs s x.
Proof.
  intros Hz Hp. unfold i211_init_tx_queue. cbv zeta.
  change (dma_buffer_ptr (WRITE32 hw_write TXDCTL 0 s)) with (dma_buffer_ptr s).
  destruct (DMA.alloc _ _ _) as [p o] eqn:Ea.
  apply DMA.alloc_half_mega in Ea as [(-> & _)|(-> & -> & Htop)]; try done; try lia.
  set (b := dma_buffer_ptr s) in *. set (s2 := with_tq _ _).
  destruct (poll _ _ _ _ _ _) as [s3|] eqn:Ep; [|done].
  apply (poll_ring s2) in Ep as ((P1 & P2 & P3 & P4 & P5 & P6) & Hr); [|same_statics].
  assert (H2 : forall x, ring_reg x = true -> regs s2 x = regs s x).
  { intros x Hx. change (regs (WRITE32 hw_write TXDCTL 0 s) x = regs s x). rewrite i211_ring_write_ne; [done|done|done|].
    apply existsb_exists in Hx as (y & Hy & ->%Z.eqb_eq). cbn in Hy.
    by repeat (destruct Hy as [<-|Hy]; [done|]). }
  assert (H3 : regs s3 TDBAL = tq_pa /\ regs s3 TDBAH = 0 /\ regs s3 TDLEN = 4096 /\ regs s3 TDH = 0 /\ regs s3 TDT = 0).
  { rewrite !Hr by done. conj_split; read_reg; try reflexivity. apply u32_u32, Hpa. }
  assert (Hkeep : forall x, x ∈ [RCTL; RDBAL; RDBAH; RDLEN; RDH; RDT] -> regs s3 x = regs s x).
  { intros x Hx. assert (E : x = RCTL \/ x = RDBAL \/ x = RDBAH \/ x = RDLEN \/ x = RDH \/ x = RDT)
      by (rewrite !elem_of_cons, elem_of_nil in Hx; tauto).
    destruct E as [->|[->|[->|[->|[->| ->]]]]]; rewrite Hr by done; read_reg; by apply H2. }
  clear Hr. destruct H3 as (R1 & R2 & R3 & R4 & R5). intros [= <-].
  change (rq (with_st s3 _)) with (rq s3). change (rq_buf (with_st s3 _)) with (rq_buf s3).
  change (tq (with_st s3 _)) with (tq s3). change (tq_buf (with_st s3 _)) with (tq_buf s3).
  rewrite P1, P2, P3, P4. conj_split; try done.
  - change (zlen (clear_status <$> tq s) = 256). unfold zlen. by rewrite length_fmap.
  - cbn [st with_st]. by rewrite P5.
Qed.

(** The statics at boot. *)
Record boot (s : state) : Prop := {
  b_rq : zlen (rq s) = 256; b_tq : zlen (tq s) = 256; b_ptr : dma_buffer <= dma_buffer_ptr s <= dma_buffer + DMA.DMA_BUFFER_SIZE }.

Lemma i211_init_related fuel mac b s s' :
  boot s -> i211_init rq_pa tq_pa header_buf dma_buffer hw_write hw fuel mac b s = Some (s', true) ->
  related rq_pa tq_pa s' (mk_nic [] [] []).
Proof.
  intros []. unfold i211_init.
  destruct (i211_reset _ _ _ _) as [[s1 []]|] eqn:E1; try done. apply regs_only_reset in E1 as [r1 ->].
  destruct (i211_configure _ _ _ _ _ _) as [s2|] eqn:E2; [|done]. apply regs_only_configure in E2 as [r2 ->].
  destruct (i211_init_rx_queue _ _ _ _ _ _ _) as [[s3 []]|] eqn:E3; try done.
  apply rx_queue_spec in E3 as (T1 & R1 & R2 & R3 & R4 & R5 & R6 & R7 & R8 & R9 & R10 & R11 & R12);
    [|done|done].
  cbn [dma_buffer_ptr tq with_regs] in *. cbv zeta.
  destruct (i211_init_tx_queue _ _ _ _ _ _) as [[s4 []]|] eqn:E4; try done.
  apply tx_queue_spec in E4 as (U1 & U2 & U3 & U4 & U5 & U6 & U7 & U8 & U9 & U10 & U11 & U12);
    cbn [tq rq rq_buf st dma_buffer_ptr WRITE32 with_regs] in *;
    [|by rewrite R3|rewrite R2; unfold DMA.DMA_BUFFER_SIZE in *; lia].
  intros [= <-]. unfold DMA.DMA_BUFFER_SIZE in *.
  assert (Hx : forall x, x ∈ [RDBAL; RDBAH; RDLEN; RDH; RDT] -> regs s4 x = regs s3 x).
  { intros x Hx. rewrite U12 by (by right). rewrite !elem_of_cons, elem_of_nil in Hx.
    destruct Hx as [->|[->|[->|[->|[->|[]]]]]]; by read_reg. }
  assert (Hc : regs s4 RCTL = 0x4008002) by (rewrite U12 by (by left); by read_reg).
  assert (In : forall x, existsb (Z.eqb x) [RDBAL; RDBAH; RDLEN; RDH; RDT] = true -> regs s4 x = regs s3 x).
  { intros x (y & Hy & ->%Z.eqb_eq)%existsb_exists. apply Hx. by apply list_elem_of_In. }
  split; [|split].
  - constructor; cbn [tq rq tq_buf rq_buf WRITE32 with_regs]; try lia; try (read_reg; rewrite ?In by done; done).
    + by rewrite U4.
    + read_reg. by rewrite Hc.
    + split; read_reg; [done|]. by rewrite In.
  - exists 0, 0. cbn [st WRITE32 with_regs announced pending]. rewrite U6. constructor; read_reg; try done; try (by cbn).
  - exists 0, 0. cbn [st WRITE32 with_regs inbox]. rewrite U6. cbn [rdt next_rx_idx]. rewrite R4, R5.
    split; [done|]. constructor; read_reg; rewrite ?In by done; try done; try (by cbn).
    intros k Hk. pose proof (mod256 k) as Hk2. unfold rx_free. cbn [rq rq_buf WRITE32 with_regs]. rewrite U4, U5, R7, R1 by done.
    cbn [w0]. split; [done|]. unfold packet_length. cbn [w1]. rewrite Z.shiftr_div_pow2 by lia. by rewrite Z.div_small by lia.
Qed.

(** Whatever the outcome, the DMA buffer is not exceeded. *)
Lemma init_dma fuel mac b s s' ok :
  boot s -> i211_init rq_pa tq_pa header_buf dma_buffer hw_write hw fuel mac b s = Some (s', ok) ->
  dma_buffer <= dma_buffer_ptr s' <= dma_buffer + DMA.DMA_BUFFER_SIZE.
Proof.
  intros []. unfold i211_init.
  destruct (i211_reset _ _ _ _) as [[s1 ok1]|] eqn:E1; [|done]. apply regs_only_reset in E1 as [r1 ->].
  destruct ok1; [|by intros [= <- <-]].
  destruct (i211_configure _ _ _ _ _ _) as [s2|] eqn:E2; [|done]. apply regs_only_configure in E2 as [r2 ->].
  assert (Hrx : forall s3 ok3, i211_init_rx_queue rq_pa header_buf dma_buffer hw_write hw fuel
    (with_regs (with_regs s r1) r2) = Some (s3, ok3) ->
    dma_buffer <= dma_buffer_ptr s3 <= dma_buffer + DMA.DMA_BUFFER_SIZE /\ zlen (tq s3) = 256).
  { intros s3 [] E3.
    - apply rx_queue_spec in E3 as (T1 & _ & -> & -> & _); [|done|done]. cbn [dma_buffer_ptr tq with_regs] in *. lia.
    - revert E3. unfold i211_init_rx_queue. cbv zeta.
      change (dma_buffer_ptr (WRITE32 hw_write RXDCTL 0 _)) with (dma_buffer_ptr s).
      destruct (DMA.alloc _ _ _) as [p o] eqn:Ea.
      apply DMA.alloc_half_mega in Ea as [(-> & -> & _)|(-> & _)]; try done; try lia; [by intros [= <-]|].
      by destruct (poll _ _ _ _ _ _). }
  destruct (i211_init_rx_queue _ _ _ _ _ _ _) as [[s3 ok3]|]; [|done]. specialize (Hrx _ _ eq_refl) as [Hp Hq].
  destruct ok3; [|by intros [= <- <-]]. cbv zeta. set (s4 := WRITE32 hw_write TCTL _ _).
  assert (Htx : forall s5 ok5, i211_init_tx_queue tq_pa dma_buffer hw_write hw fuel s4 = Some (s5, ok5) ->
    dma_buffer <= dma_buffer_ptr s5 <= dma_buffer + DMA.DMA_BUFFER_SIZE).
  { intros s5 ok5. unfold i211_init_tx_queue. cbv zeta.
    change (dma_buffer_ptr (WRITE32 hw_write TXDCTL 0 s4)) with (dma_buffer_ptr s3).
    destruct (DMA.alloc _ _ _) as [p o] eqn:Ea.
    apply DMA.alloc_half_mega in Ea as [(-> & -> & _)|(-> & -> & H)]; try done; try lia; [by intros [= <- <-]|].
    destruct (poll _ _ _ _ _ _) as [s6|] eqn:Ep; [|done].
    match type of Ep with poll _ _ _ _ _ ?t = _ => apply (poll_ring t) in Ep as ((_ & _ & _ & _ & _ & P6) & _); [|apply same_refl] end.
    intros [= <- <-]. change (dma_buffer <= dma_buffer_ptr s6 <= dma_buffer + DMA.DMA_BUFFER_SIZE). rewrite P6.
    change (dma_buffer <= dma_buffer_ptr s3 + 524288 <= dma_buffer + DMA.DMA_BUFFER_SIZE). lia. }
  destruct (i211_init_tx_queue _ _ _ _ _ _) as [[s5 ok5]|]; [|done]. specialize (Htx _ _ eq_refl).
  destruct ok5; by intros [= <- <-].
Qed.

Abbreviation init := (i211_init rq_pa tq_pa header_buf dma_buffer hw_write hw).
Abbreviation step := (step rq_pa tq_pa header_buf hw_write).

(** The driver and the card together are a first-in first-out channel.  After a
    successful initialisation, whatever calls are made and whatever the card does:
    the frames on the wire are those that [send] accepted, in order, each once and
    unchanged; the frames handed out are those that came in, in order, each once and
    unchanged, and have at most 1500 bytes; [send] refuses a frame exactly when 255
    wait or it has more than 1500 bytes; after a flush the card can send all that
    wait. *)
Theorem i211_is_a_queue fuel mac b s s0 tr s1 :
  boot s -> init fuel mac b s = Some (s0, true) -> steps step s0 tr s1 -> exists out ins,
    accepted tr = transmitted tr ++ out /\ delivered tr = received tr ++ ins /\ zlen out <= 255 /\
    Forall (λ f, zlen f <= 1500) (received tr) /\
    (forall f, snd (send hw_write f (zlen f) s1) = if (zlen f <=? 1500) && (zlen out <? 255) then 0 else -1) /\
    exists s2, steps step s1 (Flush :: (Transmit <$> out)) s2.
Proof.
  intros Hboot E Ht. pose proof (i211_init_related _ _ _ _ _ Hboot E) as HR.
  pose proof (i211_driver_refines rq_pa tq_pa header_buf hw_write Hwrite Hheader) as Href.
  destruct (refined_fifo 1500 255 1500 false Href _ _ _ _ HR Ht) as (a & HRa & Ho & _ & Hi & Hshort).
  specialize (Hi eq_refl). exists (outbox a), (inbox a). conj_split; [done|done| |done| |].
  - destruct HRa as (_ & (h & c & []) & _). unfold outbox. lia.
  - intros f. destruct (send hw_write f (zlen f) s1) as [s' r] eqn:Es. cbn [snd].
    destruct (i211_send_refines _ _ _ Hwrite _ _ _ _ _ HRa Es) as (a' & Hst & _). apply step_send_inv in Hst.
    destruct (Z.leb_spec (zlen f) 1500), (Z.ltb_spec (zlen (outbox a)) 255); cbn [andb]; lia.
  - pose proof (i211_flush_refines _ _ _ Hwrite _ _ HRa) as HRf.
    destruct (refined_drain 1500 255 1500 false Href _ _ HRf) as (s2 & Hd & _).
    exists s2. econstructor; [by apply call_flush|done].
Qed.

(** C38: One long frame blocks the receiver.  After a frame of more than 1500 bytes has
    come in, only frames that came in before it are ever handed out. *)
Theorem i211_long_frame_blocks fuel mac b s s0 tr1 f tr2 s1 :
  boot s -> init fuel mac b s = Some (s0, true) -> steps step s0 (tr1 ++ Deliver f :: tr2) s1 -> 1500 < zlen f ->
  exists rest, delivered tr1 = received (tr1 ++ Deliver f :: tr2) ++ rest.
Proof.
  intros Hboot E Ht Hl. pose proof (i211_init_related _ _ _ _ _ Hboot E) as HR.
  pose proof (i211_driver_refines rq_pa tq_pa header_buf hw_write Hwrite Hheader) as Href.
  destruct (refined_fifo 1500 255 1500 false Href _ _ _ _ HR Ht) as (a & HRa & _ & _ & Hi & Hshort).
  specialize (Hi eq_refl). rewrite delivered_app in Hi. cbn [inbox app] in Hi.
  change (delivered (Deliver f :: tr2)) with (f :: delivered tr2) in Hi.
  apply app_eq_inv in Hi as [(k & Hk & _)|(k & Hk & Hf)]; [by exists k|].
  destruct k as [|g k]; [exists []; by rewrite app_nil_r in *|]. injection Hf as <- _.
  rewrite Hk in Hshort. apply Forall_app in Hshort as [_ Hs]. apply Forall_cons_iff in Hs as [Hs _]. lia.
Qed.

End Init.

(** ** Witnesses *)

(** A card whose registers are plain memory, with the link up. *)
Definition demo_write (reg v : Z) (r : Z -> Z) (x : Z) : Z := if x =? reg then v else r x.
Definition demo_delay (us : Z) (r : Z -> Z) : Z -> Z := r.
Definition demo_boot : state :=
  mk_state (λ x, if x =? STATUS then 0x200002 else 0) (λ _, 0) (replicate 256 no_desc) (replicate 256 no_desc)
    0 0 (mk_states 0 0 0 0 0) 0x400000.
Definition demo_state : state :=
  match i211_init 0x300000 0x301000 0x302000 0x400000 demo_write demo_delay 1 [82; 84; 0; 18; 52; 86] false demo_boot with
  | Some (s, _) => s | None => demo_boot end.
Lemma i211_demo_init :
  i211_init 0x300000 0x301000 0x302000 0x400000 demo_write demo_delay 1 [82; 84; 0; 18; 52; 86] false demo_boot =
  Some (demo_state, true).
Proof.
  unfold demo_state. assert (H : match i211_init 0x300000 0x301000 0x302000 0x400000 demo_write demo_delay 1
    [82; 84; 0; 18; 52; 86] false demo_boot with Some (_, b) => b | None => false end = true) by (vm_compute; reflexivity).
  destruct (i211_init _ _ _ _ _ _ _ _ _ _) as [[s []]|]; [reflexivity|discriminate..].
Qed.
Lemma demo_is_boot : boot 0x400000 demo_boot.
Proof. constructor; [reflexivity|reflexivity|]. unfold demo_boot, DMA.DMA_BUFFER_SIZE. cbn [dma_buffer_ptr]. lia. Qed.
Lemma i211_demo_write_law reg v r x : ring_reg x = true -> reg <> CTRL -> demo_write reg v r x = if x =? reg then v else r x.
Proof. done. Qed.

Lemma i211_is_a_queue_witness : exists out ins,
  [] = transmitted [] ++ out /\ [] = received [] ++ ins /\ zlen out <= 255.
Proof.
  destruct (i211_is_a_queue 0x300000 0x301000 0x302000 0x400000 demo_write demo_delay i211_demo_write_law
    ltac:(done) ltac:(lia) ltac:(lia) ltac:(unfold DMA.DMA_BUFFER_SIZE; lia) 1 [82; 84; 0; 18; 52; 86] false
    demo_boot demo_state [] demo_state demo_is_boot i211_demo_init (steps_nil _ _)) as (out & ins & H1 & H2 & H3 & _).
  exists out, ins. split; [exact H1|]. split; [exact H2|exact H3].
Defined.

Definition demo_long : frame := replicate 1501 7.
Lemma demo_delivery : exists s1,
  steps (step 0x300000 0x301000 0x302000 demo_write) demo_state [Deliver demo_long] s1.
Proof.
  eexists. econstructor; [|constructor]. apply card_moves.
  apply (card_deliver _ _ demo_state demo_long (mk_desc 0 (Z.shiftl 1501 32))); vm_compute; try reflexivity;
    try discriminate. split; [reflexivity|discriminate].
Qed.
Lemma i211_long_frame_blocks_witness : exists s1 rest,
  steps (step 0x300000 0x301000 0x302000 demo_write) demo_state [Deliver demo_long] s1 /\
  [] = received [Deliver demo_long] ++ rest.
Proof.
  destruct demo_delivery as [s1 Hs].
  destruct (i211_long_frame_blocks 0x300000 0x301000 0x302000 0x400000 demo_write demo_delay i211_demo_write_law
    ltac:(done) ltac:(lia) ltac:(lia) ltac:(unfold DMA.DMA_BUFFER_SIZE; lia) 1 [82; 84; 0; 18; 52; 86] false
    demo_boot demo_state [] demo_long [] s1 demo_is_boot i211_demo_init Hs ltac:(vm_compute; reflexivity)) as [rest H].
  exists s1, rest. split; [exact Hs|exact H].
Defined.

End I211.
