(* ===== verification/Realtek.v ===== *)
(** * Realtek: the driver of the RTL8111/8168 cards ([lib/realtek.cpp])

    Each descriptor has a bit that says whether the card owns it; there are no head
    and tail registers.  The registers are a function from offsets to values (no
    two accesses of different width overlap), a write may change any of them. *)
From S2P Require Import Prelude Utils Memory Nic.

Module Realtek.
Import Nic.
Abbreviation PAGE_SIZE := Memory.PAGE_SIZE.

Definition RTL_CR : Z := 0x37.
Definition RTL_CR_RST : Z := Z.shiftl 1 4.
Definition RTL_RESET_MAX_WAIT_MS : nat := 100.
Definition RTL_CR_TE : Z := Z.shiftl 1 2.
Definition RTL_CR_RE : Z := Z.shiftl 1 3.
Definition RTL_RMS : Z := 0xda.
Definition RTL_RX_MAX_LEN : Z := 1536.
Definition RTL_CPCR : Z := 0xe0.
Definition RTL_CPCR_MULRW : Z := Z.shiftl 1 3.
Definition RTL_CPCR_CPRX : Z := Z.shiftl 1 1.
Definition RTL_CPCR_CPTX : Z := Z.shiftl 1 0.
Definition RTL_CPCR_DAC : Z := Z.shiftl 1 4.
Definition RTL_CPCR_VLAN : Z := Z.shiftl 1 6.
Definition RTL_IDR0 : Z := 0x00.
Definition RTL_PHYAR : Z := 0x60.
Definition RTL_PHYAR_FLAG : Z := Z.shiftl 1 31.
Definition RTL_PHYAR_VALUE (flag reg data : Z) : Z := Z.lor (Z.lor flag (Z.shiftl reg 16)) data.
Definition RTL_PHYAR_DATA (value : Z) : Z := Z.land value 0xffff.
Definition RTL_MII_MAX_WAIT_US : nat := 500.
Definition RTL_PHYSTATUS : Z := 0x6c.
Definition MII_BMCR : Z := 0x00.
Definition MII_BMCR_RESET : Z := Z.shiftl 1 15.
Definition MII_BMCR_ANENABLE : Z := Z.shiftl 1 12.
Definition MII_BMCR_ANRESTART : Z := Z.shiftl 1 9.
Definition MII_RESET_MAX_WAIT_MS : nat := 500.
Definition MII_CTRL1000 : Z := 0x09.
Definition MII_CTRL1000_ADV_1000FULL : Z := Z.shiftl 1 9.
Definition MII_CTRL1000_ADV_1000HALF : Z := Z.shiftl 1 8.
Definition MII_MMD_DATA : Z := 0x0e.
Definition RTL_TNPDS : Z := 0x20.
Definition RTL_RDSAR : Z := 0xe4.
Definition RTL_MAR0 : Z := 0x08.
Definition RTL_MAR4 : Z := 0x0c.
Definition RTL_TCR : Z := 0x40.
Definition RTL_TCR_MXDMA_MASK : Z := Z.shiftl 0x7 8.
Definition RTL_TCR_MXDMA_DEFAULT : Z := Z.shiftl 0x7 8.
Definition TX_NOCRC : Z := Z.shiftl 1 16.
Definition RTL_RCR : Z := 0x44.
Definition RTL_RCR_STOP_WORKING : Z := Z.shiftl 1 24.
Definition RTL_RCR_RXFTH_MASK : Z := Z.shiftl 0x7 13.
Definition RTL_RCR_RXFTH_DEFAULT : Z := Z.shiftl 0x7 13.
Definition RTL_RCR_RBLEN_MASK : Z := Z.shiftl 0x3 11.
Definition RTL_RCR_RBLEN_DEFAULT : Z := Z.shiftl 0x0 11.
Definition RTL_RCR_MXDMA_MASK : Z := Z.shiftl 0x7 8.
Definition RTL_RCR_MXDMA_DEFAULT : Z := Z.shiftl 0x7 8.
Definition RTL_RCR_WRAP : Z := Z.shiftl 1 7.
Definition RTL_RCR_AB : Z := Z.shiftl 1 3.
Definition RTL_RCR_AM : Z := Z.shiftl 1 2.
Definition RTL_RCR_APM : Z := Z.shiftl 1 1.
Definition RTL_RCR_AAP : Z := Z.shiftl 1 0.
Definition RTL_TPOLL : Z := 0x38.
Definition RTL_TPOLL_NPQ : Z := Z.shiftl 1 6.
Definition RTL_ISR : Z := 0x3e.

Record Descriptor := mk_desc { length : Z; flags : Z; reserved : Z; address : Z }.
Definition no_desc : Descriptor := mk_desc 0 0 0 0.
Definition RTL_DESC_FLAG_OWN : Z := Z.shiftl 1 15.
Definition RTL_DESC_FLAG_EOR : Z := Z.shiftl 1 14.
Definition RTL_DESC_FLAG_FS : Z := Z.shiftl 1 13.
Definition RTL_DESC_FLAG_LS : Z := Z.shiftl 1 12.
Definition RTL_DESC_LENGTH_MASK : Z := 0x3fff.
Definition N_RX_DESC : Z := 128.
Definition N_TX_DESC : Z := 128.
Definition BUFFER_SIZE : Z := RTL_RX_MAX_LEN.

(** The statics: the arrays with their addresses, the buffers, the next slots. *)
Record state := mk_state {
  regs : Z -> Z; mem : Z -> Z;
  rx_desc : list Descriptor; tx_desc : list Descriptor; rx_desc_pa : Z; tx_desc_pa : Z;
  rx_buffer : Z; tx_buffer : Z; rx_idx : Z; tx_idx : Z; dma_buffer_ptr : Z }.

Definition with_regs (s : state) (r : Z -> Z) : state :=
  mk_state r (mem s) (rx_desc s) (tx_desc s) (rx_desc_pa s) (tx_desc_pa s) (rx_buffer s) (tx_buffer s)
    (rx_idx s) (tx_idx s) (dma_buffer_ptr s).
Definition with_mem (s : state) (m : Z -> Z) : state :=
  mk_state (regs s) m (rx_desc s) (tx_desc s) (rx_desc_pa s) (tx_desc_pa s) (rx_buffer s) (tx_buffer s)
    (rx_idx s) (tx_idx s) (dma_buffer_ptr s).
Definition with_rx_desc (s : state) (q : list Descriptor) : state :=
  mk_state (regs s) (mem s) q (tx_desc s) (rx_desc_pa s) (tx_desc_pa s) (rx_buffer s) (tx_buffer s)
    (rx_idx s) (tx_idx s) (dma_buffer_ptr s).
Definition with_tx_desc (s : state) (q : list Descriptor) : state :=
  mk_state (regs s) (mem s) (rx_desc s) q (rx_desc_pa s) (tx_desc_pa s) (rx_buffer s) (tx_buffer s)
    (rx_idx s) (tx_idx s) (dma_buffer_ptr s).
Definition with_idx (s : state) (rx tx : Z) : state :=
  mk_state (regs s) (mem s) (rx_desc s) (tx_desc s) (rx_desc_pa s) (tx_desc_pa s) (rx_buffer s) (tx_buffer s)
    rx tx (dma_buffer_ptr s).

Definition is_set (x m : Z) : bool := negb (Z.land x m =? 0).

Section Driver.
Variable dma_buffer : Z.
Variable hw_write : Z -> Z -> (Z -> Z) -> Z -> Z.
Variable hw : Z -> (Z -> Z) -> Z -> Z.

(** [_debug] is false. *)
Definition READ (reg : Z) (s : state) : Z := regs s reg.
Definition WRITE8 (reg val : Z) (s : state) : state := with_regs s (hw_write reg (u8 val) (regs s)).
Definition WRITE16 (reg val : Z) (s : state) : state := with_regs s (hw_write reg (u16 val) (regs s)).
Definition WRITE32 (reg val : Z) (s : state) : state := with_regs s (hw_write reg (u32 val) (regs s)).
Definition microdelay (us : Z) (s : state) : state := with_regs s (hw us (regs s)).

(** [for (i < n) { value = READ32(RTL_PHYAR); if (done value) return value; microdelay(1); }] *)
Fixpoint phyar_wait (n : nat) (done : Z -> bool) (s : state) : state * option Z :=
  match n with
  | O => (s, None)
  | S n =>
      let value := READ RTL_PHYAR s in
      if done value then (s, Some value) else phyar_wait n done (microdelay 1 s)
  end.

Definition rtl_mii_read (reg : Z) (s : state) : state * option Z :=
  let s := WRITE32 RTL_PHYAR (RTL_PHYAR_VALUE 0 reg 0) s in
  let '(s, v) := phyar_wait RTL_MII_MAX_WAIT_US (λ value, is_set value RTL_PHYAR_FLAG) s in
  (s, match v with Some value => Some (u16 (RTL_PHYAR_DATA value)) | None => None end).
Definition rtl_mii_write (reg data : Z) (s : state) : state * bool :=
  let s := WRITE32 RTL_PHYAR (RTL_PHYAR_VALUE RTL_PHYAR_FLAG reg data) s in
  let '(s, v) := phyar_wait RTL_MII_MAX_WAIT_US (λ value, negb (is_set value RTL_PHYAR_FLAG)) s in
  (s, match v with Some _ => true | None => false end).

Fixpoint mii_reset_loop (n : nat) (s : state) : state * bool :=
  match n with
  | O => (s, false)
  | S n =>
      let '(s, r) := rtl_mii_read MII_BMCR s in
      match r with
      | None => (s, false)
      | Some bmcr =>
          if is_set bmcr MII_BMCR_RESET then mii_reset_loop n (microdelay 1000 s)
          else rtl_mii_write MII_BMCR (Z.lor bmcr (Z.lor MII_BMCR_ANENABLE MII_BMCR_ANRESTART)) s
      end
  end.
Definition rtl_mii_reset (s : state) : state * bool :=
  let '(s, ok) := rtl_mii_write MII_BMCR (Z.lor MII_BMCR_RESET MII_BMCR_ANENABLE) s in
  if negb ok then (s, false) else mii_reset_loop MII_RESET_MAX_WAIT_MS s.

Definition rtl_phy_speed (s : state) : state * bool :=
  let '(s, r) := rtl_mii_read MII_CTRL1000 s in
  match r with
  | None => (s, false)
  | Some ctrl1000 =>
      rtl_mii_write MII_CTRL1000 (Z.lor ctrl1000 (Z.lor MII_CTRL1000_ADV_1000FULL MII_CTRL1000_ADV_1000HALF)) s
  end.

Definition rtl_mii_restart (s : state) : state * bool :=
  let '(s, r) := rtl_mii_read MII_BMCR s in
  match r with
  | None => (s, false)
  | Some bmcr => rtl_mii_write MII_BMCR (Z.lor bmcr (Z.lor MII_BMCR_ANENABLE MII_BMCR_ANRESTART)) s
  end.

Definition prepare_rx_descriptor (i : Z) (s : state) : state :=
  let a := u64 (rx_buffer s + i * BUFFER_SIZE) in
  let s := with_mem s (write_bytes (mem s) (rx_buffer s + i * BUFFER_SIZE) (replicate 233 0)) in
  let fl := RTL_DESC_FLAG_OWN in
  let fl := if i + 1 =? N_RX_DESC then Z.lor fl RTL_DESC_FLAG_EOR else fl in
  with_rx_desc s (zset (rx_desc s) i (mk_desc BUFFER_SIZE fl 0 a)).

Definition prepare_tx_descriptor (i len : Z) (s : state) : state :=
  let fl := Z.lor (Z.lor RTL_DESC_FLAG_OWN RTL_DESC_FLAG_FS) RTL_DESC_FLAG_LS in
  let fl := if i + 1 =? N_TX_DESC then Z.lor fl RTL_DESC_FLAG_EOR else fl in
  with_tx_desc s (zset (tx_desc s) i (mk_desc (u16 len) fl 0 (u64 (tx_buffer s + i * BUFFER_SIZE)))).

(** ** Initialisation *)

(** 1. The rings; false when the DMA buffer is full. *)
Definition init_ring (s : state) : state * bool :=
  let '(p, rd) := DMA.alloc dma_buffer (dma_buffer_ptr s) (N_RX_DESC * 16) in
  let fail p a b c d := (mk_state (regs s) (mem s) (rx_desc s) (tx_desc s) a b c d (rx_idx s) (tx_idx s) p, false) in
  match rd with
  | None => fail p 0 (tx_desc_pa s) (rx_buffer s) (tx_buffer s)
  | Some rd =>
      let '(p, td) := DMA.alloc dma_buffer p (N_TX_DESC * 16) in
      match td with
      | None => fail p rd 0 (rx_buffer s) (tx_buffer s)
      | Some td =>
          let '(p, rb) := DMA.alloc dma_buffer p (N_RX_DESC * BUFFER_SIZE) in
          match rb with
          | None => fail p rd td 0 (tx_buffer s)
          | Some rb =>
              let '(p, tb) := DMA.alloc dma_buffer p (N_TX_DESC * BUFFER_SIZE) in
              match tb with
              | None => fail p rd td rb 0
              | Some tb =>
                  (mk_state (regs s) (mem s) (replicate 128 no_desc) (replicate 128 no_desc) rd td rb tb 0 0 p, true)
              end
          end
      end
  end.

(** [for (i < n) { if (!(READ8(RTL_CR) & RTL_CR_RST)) break; microdelay(1000); }] *)
Fixpoint reset_wait (n : nat) (s : state) : state :=
  match n with
  | O => s
  | S n => if negb (is_set (READ RTL_CR s) RTL_CR_RST) then s else reset_wait n (microdelay 1000 s)
  end.

(** 2. and 3. *)
Definition rtl_reset (mac : list Z) (s : state) : state * bool :=
  let s := WRITE8 RTL_CR RTL_CR_RST s in
  let s := reset_wait RTL_RESET_MAX_WAIT_MS s in
  if is_set (READ RTL_CR s) RTL_CR_RST then (s, false)
  else
    let s := WRITE16 RTL_RMS RTL_RX_MAX_LEN s in
    if negb (READ RTL_RMS s =? RTL_RX_MAX_LEN) then (s, false)
    else
      let cpcr := READ RTL_CPCR s in
      let cpcr := Z.lor cpcr (Z.lor (Z.lor RTL_CPCR_MULRW RTL_CPCR_CPRX) RTL_CPCR_CPTX) in
      let cpcr := Z.lor cpcr RTL_CPCR_DAC in
      let cpcr := Z.land cpcr (Z.lnot RTL_CPCR_VLAN) in
      let s := WRITE16 RTL_CPCR cpcr s in
      (fold_left (λ s i, WRITE8 (RTL_IDR0 + i) (zget 0 mac i) s) (seqZ 0 6) s, true).

(** 4. *)
Definition phy_reset (s : state) : state * bool :=
  let '(s, ok) := rtl_mii_reset s in
  if negb ok then (s, false)
  else
    let '(s, _) := rtl_phy_speed s in
    let '(s, _) := rtl_mii_write MII_MMD_DATA 0 s in
    rtl_mii_restart s.

(** 5. [while (1) { if (READ8(RTL_PHYSTATUS) & (1 << 1)) break; microdelay(1000); }] *)
Fixpoint wait_link (fuel : nat) (s : state) : option state :=
  if is_set (READ RTL_PHYSTATUS s) (Z.shiftl 1 1) then Some s
  else match fuel with O => None | S fuel => wait_link fuel (microdelay 1000 s) end.

(** 6. to 11. *)
Definition not32 (x : Z) : Z := u32 (Z.lnot x).
Definition start_card (s : state) : state :=
  let s := WRITE32 RTL_RDSAR (u32 (rx_desc_pa s)) s in
  let s := WRITE32 (RTL_RDSAR + 4) (u32 (Z.shiftr (rx_desc_pa s) 32)) s in
  let s := WRITE32 RTL_TNPDS (u32 (tx_desc_pa s)) s in
  let s := WRITE32 (RTL_TNPDS + 4) (u32 (Z.shiftr (tx_desc_pa s) 32)) s in
  let s := WRITE32 RTL_MAR0 0xffffffff s in
  let s := WRITE32 RTL_MAR4 0xffffffff s in
  let s := WRITE8 RTL_CR (Z.lor RTL_CR_TE RTL_CR_RE) s in
  let rcr := READ RTL_RCR s in
  let rcr := Z.land rcr (not32 (Z.lor (Z.lor (Z.lor RTL_RCR_STOP_WORKING RTL_RCR_RXFTH_MASK) RTL_RCR_RBLEN_MASK)
    RTL_RCR_MXDMA_MASK)) in
  let rcr := Z.lor rcr (Z.lor (Z.lor (Z.lor (Z.lor (Z.lor (Z.lor (Z.lor RTL_RCR_RXFTH_DEFAULT RTL_RCR_RBLEN_DEFAULT)
    RTL_RCR_MXDMA_DEFAULT) RTL_RCR_WRAP) RTL_RCR_AB) RTL_RCR_AM) RTL_RCR_APM) RTL_RCR_AAP) in
  let s := WRITE32 RTL_RCR rcr s in
  let tcr := READ RTL_TCR s in
  let tcr := Z.land tcr (not32 RTL_TCR_MXDMA_MASK) in
  let tcr := Z.lor tcr RTL_TCR_MXDMA_DEFAULT in
  let tcr := Z.land tcr (not32 TX_NOCRC) in
  WRITE32 RTL_TCR tcr s.
Definition fill_ring (s : state) : state := fold_left (λ s i, prepare_rx_descriptor i s) (seqZ 0 N_RX_DESC) s.

Definition rtl_init (fuel : nat) (mac : list Z) (s : state) : option (state * bool) :=
  let '(s, ok) := init_ring s in
  if negb ok then Some (s, false) else
  let '(s, ok) := rtl_reset mac s in
  if negb ok then Some (s, false) else
  let '(s, ok) := phy_reset s in
  if negb ok then Some (s, false) else
  match wait_link fuel s with
  | None => None
  | Some s => Some (fill_ring (start_card s), true)
  end.

(** ** Sending and receiving *)

Definition send (buf : list Z) (len : Z) (s : state) : state * Z :=
  if (len <? 0) || (1500 <? len) then (s, -1)
  else if is_set (flags (zget no_desc (tx_desc s) (tx_idx s))) RTL_DESC_FLAG_OWN then (s, -1)
  else
    let idx := tx_idx s in
    let s := with_idx s (rx_idx s) ((idx + 1) mod N_TX_DESC) in
    let s := with_mem s (write_bytes (mem s) (tx_buffer s + idx * BUFFER_SIZE) (ztake len buf)) in
    let s := prepare_tx_descriptor idx len s in
    (WRITE8 RTL_TPOLL RTL_TPOLL_NPQ s, 0).

(** Also returns the bytes stored in the buffer of the caller. *)
Definition receive (s : state) : state * list Z * Z :=
  let isr := READ RTL_ISR s in
  let s := WRITE16 RTL_ISR isr s in
  if is_set (flags (zget no_desc (rx_desc s) (rx_idx s))) RTL_DESC_FLAG_OWN then (s, [], -1)
  else
    let idx := rx_idx s in
    let s := with_idx s ((idx + 1) mod N_RX_DESC) (tx_idx s) in
    let d := zget no_desc (rx_desc s) idx in
    let len := Z.land (length d) RTL_DESC_LENGTH_MASK in
    if is_set (flags d) (Z.shiftl 1 5) then (prepare_rx_descriptor idx s, [], -1)
    else if 1500 <? len then (prepare_rx_descriptor idx s, [], -1)
    else
      let bs := read_bytes (mem s) (rx_buffer s + idx * BUFFER_SIZE) len in
      (prepare_rx_descriptor idx s, bs, len).

Definition flush (s : state) : state * Z := (s, 0).

End Driver.
(** ** The card

    It goes through both rings in order, from the first descriptor after a reset,
    wraps around at the descriptor with [EOR], and works on a descriptor when it
    owns it; for sending it must have been told by [TPOLL].  It gives a
    descriptor back by clearing [OWN].  A frame that comes in has at most
    [RTL_RX_MAX_LEN] bytes; frames with errors are left out. *)
Definition ring_reg (x : Z) : bool :=
  existsb (Z.eqb x) [RTL_CR; RTL_TPOLL; RTL_TNPDS; RTL_TNPDS + 4; RTL_RDSAR; RTL_RDSAR + 4].

Record machine := mk_machine { drv : state; card_tx : Z; card_rx : Z }.

Section Card.
Variable hw_write : Z -> Z -> (Z -> Z) -> Z -> Z.
Hypothesis Hwrite : forall reg v r x,
  ring_reg x = true -> ~ (reg = RTL_CR /\ is_set v RTL_CR_RST = true) ->
  hw_write reg v r x = if x =? reg then v else r x.
Abbreviation send := (send hw_write).
Abbreviation receive := (receive hw_write).

Definition owned (d : Descriptor) : bool := Z.testbit (flags d) 15.
Definition next_slot (i : Z) (d : Descriptor) : Z := if Z.testbit (flags d) 14 then 0 else i + 1.
Definition ring_at (s : state) (reg pa : Z) : Prop := regs s reg + regs s (reg + 4) * 2 ^ 32 = pa.

(** The card resets [NPQ] when it is [idle]: the next descriptor is not its own. *)
Definition poll_done (idle : bool) (s : state) : state :=
  if idle then with_regs s (λ x, if x =? RTL_TPOLL then Z.clearbit (regs s x) 6 else regs s x) else s.

Inductive card : machine -> action -> machine -> Prop :=
  | card_transmit s i j f d' (idle : bool) :
      let d := zget no_desc (tx_desc s) i in
      Z.testbit (regs s RTL_CR) 2 = true -> Z.testbit (regs s RTL_TPOLL) 6 = true ->
      ring_at s RTL_TNPDS (tx_desc_pa s) -> owned d = true ->
      f = read_bytes (mem s) (address d) (length d) -> owned d' = false ->
      (idle = true -> owned (zget no_desc (zset (tx_desc s) i d') (next_slot i d)) = false) ->
      card (mk_machine s i j) (Transmit f)
        (mk_machine (poll_done idle (with_tx_desc s (zset (tx_desc s) i d'))) (next_slot i d) j)
  | card_deliver s i j f d' :
      let d := zget no_desc (rx_desc s) j in
      Z.testbit (regs s RTL_CR) 3 = true -> ring_at s RTL_RDSAR (rx_desc_pa s) -> owned d = true ->
      zlen f <= RTL_RX_MAX_LEN -> owned d' = false -> Z.testbit (flags d') 5 = false ->
      Z.land (length d') RTL_DESC_LENGTH_MASK = zlen f ->
      card (mk_machine s i j) (Deliver f)
        (mk_machine (with_rx_desc (with_mem s (write_bytes (mem s) (address d) f)) (zset (rx_desc s) j d'))
          i (next_slot j d)).

Inductive step : machine -> action -> machine -> Prop :=
  | call_send s i j f s' r : send f (zlen f) s = (s', r) ->
      step (mk_machine s i j) (Send f r) (mk_machine s' i j)
  | call_flush m s' : flush (drv m) = (s', 0) -> step m Flush (mk_machine s' (card_tx m) (card_rx m))
  | call_receive s i j s' bs len : receive s = (s', bs, len) ->
      step (mk_machine s i j) (Receive (if len <? 0 then None else Some bs)) (mk_machine s' i j)
  | card_moves m act m' : card m act m' -> step m act m'.

(** Moves of the card that are computed: it clears the owner of a descriptor, and is idle
    when it does not own the next. *)
Definition moves (m : machine) (act : action) : option machine :=
  let '(mk_machine s i j) := m in
  let at_base a reg := regs s reg + regs s (reg + 4) * 2 ^ 32 =? a in
  match act with
  | Transmit f =>
      let d := zget no_desc (tx_desc s) i in
      let s' := with_tx_desc s (zset (tx_desc s) i (mk_desc (length d) 0 0 (address d))) in
      if Z.testbit (regs s RTL_CR) 2 && Z.testbit (regs s RTL_TPOLL) 6 && at_base (tx_desc_pa s) RTL_TNPDS && owned d &&
        bool_decide (f = read_bytes (mem s) (address d) (length d))
      then Some (mk_machine (poll_done (negb (owned (zget no_desc (tx_desc s') (next_slot i d)))) s') (next_slot i d) j)
      else None
  | Deliver f =>
      let d := zget no_desc (rx_desc s) j in
      if Z.testbit (regs s RTL_CR) 3 && at_base (rx_desc_pa s) RTL_RDSAR && owned d && (zlen f <=? RTL_RX_MAX_LEN) &&
        (Z.land (zlen f) RTL_DESC_LENGTH_MASK =? zlen f)
      then Some (mk_machine (with_rx_desc (with_mem s (write_bytes (mem s) (address d) f))
        (zset (rx_desc s) j (mk_desc (zlen f) 0 0 (address d)))) i (next_slot j d)) else None
  | _ => None
  end.
Lemma rtl_moves m act m' : moves m act = Some m' -> step m act m'.
Proof.
  intros H. apply card_moves. revert H. destruct m as [s i j], act; try done; cbn [moves]; case_match; try done;
    intros [= <-]; bool_props.
  - apply card_transmit; try done. intros Ho. by apply negb_true_iff.
  - by apply card_deliver.
Qed.
Definition on_drv {A} (f : state -> state * A) (m : machine) : machine * A :=
  let '(s, r) := f (drv m) in (mk_machine s (card_tx m) (card_rx m), r).
Lemma rtl_plays m tr m' :
  play (λ f, on_drv (send f (zlen f))) (on_drv flush)
    (λ m, let '(s, bs, len) := receive (drv m) in (mk_machine s (card_tx m) (card_rx m), bs, len)) moves m tr = Some m' ->
  steps step m tr m'.
Proof.
  apply play_steps; [| | |apply rtl_moves]; intros [s i j].
  - intros f m1 r. unfold on_drv. cbn [drv card_tx card_rx]. destruct (send _ _ _) as [s' r'] eqn:E. intros [= <- <-]. by apply call_send.
  - intros m1. unfold on_drv. cbn [drv card_tx card_rx]. intros [= <-]. by apply (call_flush (mk_machine s i j)).
  - intros m1 bs len. cbn [drv card_tx card_rx]. destruct (receive _) as [[s' b'] l'] eqn:E. intros [= <- <- <-]. by apply call_receive.
Qed.

(** ** The invariant *)

Record ready (s : state) : Prop := {
  r_rx : zlen (rx_desc s) = 128; r_tx : zlen (tx_desc s) = 128;
  r_rb : 0 <= rx_buffer s /\ rx_buffer s + 196608 <= tx_buffer s; r_tb : tx_buffer s + 196608 <= 2 ^ 32;
  r_cr : Z.testbit (regs s RTL_CR) 2 = true /\ Z.testbit (regs s RTL_CR) 3 = true;
  r_rings : ring_at s RTL_TNPDS (tx_desc_pa s) /\ ring_at s RTL_RDSAR (rx_desc_pa s) }.

Definition last_slot (k : Z) (d : Descriptor) : Prop := Z.testbit (flags d) 14 = (k =? 127).
Definition tx_slot (s : state) (k : Z) (f : frame) : Prop :=
  let d := zget no_desc (tx_desc s) k in
  owned d = true /\ last_slot k d /\ address d = tx_buffer s + k * 1536 /\ length d = zlen f /\ zlen f <= 1536 /\
  read_bytes (mem s) (address d) (zlen f) = f.
Definition tx_free (s : state) (k : Z) : Prop := owned (zget no_desc (tx_desc s) k) = false.
Definition rx_slot (s : state) (k : Z) (f : frame) : Prop :=
  let d := zget no_desc (rx_desc s) k in
  owned d = false /\ Z.testbit (flags d) 5 = false /\ Z.land (length d) RTL_DESC_LENGTH_MASK = zlen f /\ zlen f <= 1536 /\
  read_bytes (mem s) (rx_buffer s + k * 1536) (zlen f) = f.
Definition rx_free (s : state) (k : Z) : Prop :=
  let d := zget no_desc (rx_desc s) k in
  owned d = true /\ last_slot k d /\ address d = rx_buffer s + k * 1536.

(** Frames are announced as soon as they are accepted. *)
Definition related (m : machine) (a : nic) : Prop :=
  let s := drv m in
  ready s /\ pending a = [] /\ (announced a <> [] -> Z.testbit (regs s RTL_TPOLL) 6 = true) /\
  (exists h, own_ring 128 (card_tx m) (tx_idx s) (tx_slot s) (tx_free s) (announced a) h) /\
  (exists r, own_ring 128 (rx_idx s) (card_rx m) (rx_slot s) (rx_free s) (inbox a) r).

(** ** The driver refines the queues *)

Lemma is_set_bit x k : 0 <= k -> is_set x (Z.shiftl 1 k) = Z.testbit x k.
Proof. intros. unfold is_set. rewrite Z.shiftl_1_l. by apply land_bit. Qed.

Lemma pos128 : 0 < 128.
Proof. done. Qed.

(** What one direction of traffic needs of a step of the other. *)
Lemma rtl_tx_frame s s' n nx fs :
  tx_desc s' = tx_desc s -> tx_buffer s' = tx_buffer s ->
  (forall x, tx_buffer s <= x < tx_buffer s + 196608 -> mem s' x = mem s x) ->
  (exists h, own_ring 128 n nx (tx_slot s) (tx_free s) fs h) ->
  exists h, own_ring 128 n nx (tx_slot s') (tx_free s') fs h.
Proof.
  intros E1 E2 Hm [h H]. exists h. apply (own_keep pos128 H); intros j.
  - intros g Hj (H1 & H2 & H3 & H4 & H5 & H6). unfold tx_slot. rewrite E1, E2. conj_split; try done.
    rewrite <- H6 at 2. apply read_bytes_ext. intros x Hx. apply Hm. lia.
  - intros _. unfold tx_free. by rewrite E1.
Qed.
Lemma rtl_rx_frame s s' n nx fs :
  rx_desc s' = rx_desc s -> rx_buffer s' = rx_buffer s ->
  (forall x, rx_buffer s <= x < rx_buffer s + 196608 -> mem s' x = mem s x) ->
  (exists r, own_ring 128 n nx (rx_slot s) (rx_free s) fs r) ->
  exists r, own_ring 128 n nx (rx_slot s') (rx_free s') fs r.
Proof.
  intros E1 E2 Hm [r H]. exists r. apply (own_keep pos128 H); intros j.
  - intros g Hj (H1 & H2 & H3 & H4 & H5). unfold rx_slot. rewrite E1, E2. conj_split; try done.
    rewrite <- H5 at 2. apply read_bytes_ext. intros x Hx. apply Hm. lia.
  - intros _. unfold rx_free. by rewrite E1, E2.
Qed.

Lemma ready_regs s s' :
  (forall x, ring_reg x = true -> x <> RTL_TPOLL -> regs s' x = regs s x) ->
  zlen (rx_desc s') = zlen (rx_desc s) -> zlen (tx_desc s') = zlen (tx_desc s) ->
  rx_buffer s' = rx_buffer s -> tx_buffer s' = tx_buffer s ->
  rx_desc_pa s' = rx_desc_pa s -> tx_desc_pa s' = tx_desc_pa s -> ready s -> ready s'.
Proof.
  intros Hr E1 E2 E3 E4 E5 E6 []. unfold ring_at in *.
  constructor; unfold ring_at; rewrite ?E1, ?E2, ?E3, ?E4, ?E5, ?E6, ?Hr by done; done.
Qed.

Lemma next_slot_mod k d : 0 <= k < 128 -> last_slot k d -> next_slot k d = (k + 1) mod 128.
Proof.
  intros Hk E. unfold next_slot. rewrite E. destruct (Z.eqb_spec k 127) as [->|]; [done|].
  rewrite Z.mod_small; lia.
Qed.

Lemma tx_flags k :
  let fl := Z.lor (Z.lor RTL_DESC_FLAG_OWN RTL_DESC_FLAG_FS) RTL_DESC_FLAG_LS in
  let fl := if k + 1 =? N_TX_DESC then Z.lor fl RTL_DESC_FLAG_EOR else fl in
  Z.testbit fl 15 = true /\ Z.testbit fl 14 = (k =? 127).
Proof.
  unfold N_TX_DESC. destruct (Z.eqb_spec (k + 1) 128) as [|], (Z.eqb_spec k 127); try lia; by split.
Qed.
Lemma rx_flags k :
  let fl := RTL_DESC_FLAG_OWN in
  let fl := if k + 1 =? N_RX_DESC then Z.lor fl RTL_DESC_FLAG_EOR else fl in
  Z.testbit fl 15 = true /\ Z.testbit fl 14 = (k =? 127).
Proof.
  unfold N_RX_DESC. destruct (Z.eqb_spec (k + 1) 128) as [|], (Z.eqb_spec k 127); try lia; by split.
Qed.

Definition put_frame (s : state) (f : frame) : state :=
  let idx := tx_idx s in
  let s := with_idx s (rx_idx s) ((idx + 1) mod N_TX_DESC) in
  prepare_tx_descriptor idx (zlen f) (with_mem s (write_bytes (mem s) (tx_buffer s + idx * BUFFER_SIZE) f)).

Lemma rtl_send_cases f s :
  send f (zlen f) s =
    if (1500 <? zlen f) || owned (zget no_desc (tx_desc s) (tx_idx s)) then (s, -1)
    else (WRITE8 hw_write RTL_TPOLL RTL_TPOLL_NPQ (put_frame s f), 0).
Proof.
  unfold Realtek.send, RTL_DESC_FLAG_OWN. rewrite is_set_bit by lia. fold (owned (zget no_desc (tx_desc s) (tx_idx s))).
  pose proof (zlen_nonneg f). destruct (Z.ltb_spec (zlen f) 0); [lia|]. cbn [orb].
  destruct (1500 <? zlen f); [done|]. cbn [orb]. rewrite ztake_zlen.
  by destruct (owned (zget no_desc (tx_desc s) (tx_idx s))).
Qed.

Lemma rtl_put_frame_related s h fs f k :
  ready s -> own_ring 128 h (tx_idx s) (tx_slot s) (tx_free s) fs k -> zlen f <= 1500 ->
  owned (zget no_desc (tx_desc s) (tx_idx s)) = false ->
  ready (put_frame s f) /\ zlen fs < 128 /\
  own_ring 128 h (tx_idx (put_frame s f)) (tx_slot (put_frame s f)) (tx_free (put_frame s f)) (fs ++ [f]) k /\
  (forall n nx ins, (exists r, own_ring 128 n nx (rx_slot s) (rx_free s) ins r) ->
    exists r, own_ring 128 n nx (rx_slot (put_frame s f)) (rx_free (put_frame s f)) ins r).
Proof.
  intros Hs Ho Hf Hfree. pose proof (zlen_nonneg f). destruct (own_range pos128 Ho) as [_ Hk].
  assert (Hroom : zlen fs < 128).
  { pose proof (o_room _ _ _ _ _ _ _ Ho). destruct (Z.eq_dec (zlen fs) 128) as [E|]; [|lia].
    destruct (own_full pos128 Ho E) as [g [Hg _]]. congruence. }
  assert (Hs' := Hs). destruct Hs'. unfold put_frame. set (i := tx_idx s) in *. unfold prepare_tx_descriptor.
  change BUFFER_SIZE with 1536.
  destruct (tx_flags i) as [F1 F2]. revert F1 F2. cbv zeta. set (fl := if i + 1 =? N_TX_DESC then _ else _). intros F1 F2. change N_TX_DESC with 128.
  assert (Ha : u64 (tx_buffer s + i * 1536) = tx_buffer s + i * 1536) by (apply u64_small; unfold is_u64; lia).
  cbn [tx_buffer with_mem with_idx tx_idx rx_idx]. rewrite Ha. rewrite (u16_small (zlen f)) by (unfold is_u16; lia).
  conj_split.
  - revert Hs. apply ready_regs; try done. cbn [tx_desc with_tx_desc with_mem with_idx]. by rewrite zlen_zset.
  - done.
  - cbn [tx_idx with_idx with_mem with_tx_desc]. apply (own_push pos128 Ho); fold i.
    + done.
    + intros j g Hj Hne (A1 & A2 & A3 & A4 & A5 & A6). unfold tx_slot.
      cbn [tx_desc mem tx_buffer with_idx with_tx_desc with_mem]. rewrite zget_zset_ne by lia. conj_split; try done.
      rewrite A3 in *. rewrite read_write_outside; [done|].
      destruct (Z.lt_ge_cases j i); [left|right]; nia.
    + intros j Hj Hne Hfr. unfold tx_free. cbn [tx_desc with_idx with_tx_desc with_mem]. by rewrite zget_zset_ne by lia.
    + unfold tx_slot. cbn [tx_desc mem tx_buffer with_idx with_tx_desc with_mem]. rewrite zget_zset_eq by lia.
      conj_split; try done; [cbn; lia|]. apply read_write_bytes.
  - intros n nx ins. apply rtl_rx_frame; try done. cbn [mem with_idx with_tx_desc with_mem]. intros x Hx.
    apply write_bytes_outside. lia.
Qed.

(** Giving a slot back to the card: the frames left are those after it. *)
Lemma prepare_rx_related s n f fs k :
  ready s -> own_ring 128 (rx_idx s) n (rx_slot s) (rx_free s) (f :: fs) k ->
  let s' := prepare_rx_descriptor (rx_idx s) (with_idx s ((rx_idx s + 1) mod N_RX_DESC) (tx_idx s)) in
  ready s' /\ own_ring 128 (rx_idx s') n (rx_slot s') (rx_free s') fs (k + 1) /\
  (forall h nx out, (exists q, own_ring 128 h nx (tx_slot s) (tx_free s) out q) ->
    exists q, own_ring 128 h nx (tx_slot s') (tx_free s') out q).
Proof.
  intros Hs Ho. destruct (own_range pos128 Ho) as [Hk _].
  assert (Hs' := Hs). destruct Hs'. unfold prepare_rx_descriptor. set (i := rx_idx s) in *.
  change BUFFER_SIZE with 1536.
  destruct (rx_flags i) as [F1 F2]. revert F1 F2. cbv zeta. set (fl := if i + 1 =? N_RX_DESC then _ else _). intros F1 F2.
  change N_RX_DESC with 128.
  assert (Ha : u64 (rx_buffer s + i * 1536) = rx_buffer s + i * 1536) by (apply u64_small; unfold is_u64; lia).
  cbn [rx_buffer with_mem with_idx]. rewrite Ha. set (zs := replicate 233 0). assert (Hz : zlen zs = 233) by done.
  conj_split.
  - revert Hs. apply ready_regs; try done. cbn [rx_desc with_rx_desc with_mem with_idx]. by rewrite zlen_zset.
  - cbn [rx_idx with_idx with_mem with_rx_desc]. apply (own_pop _ _ pos128 Ho); fold i.
    + intros j g Hj Hne (A1 & A2 & A3 & A4 & A5). unfold rx_slot.
      cbn [rx_desc mem rx_buffer with_idx with_rx_desc with_mem]. rewrite zget_zset_ne by lia. conj_split; try done.
      rewrite read_write_outside; [done|]. destruct (Z.lt_ge_cases j i); [left|right]; nia.
    + intros j Hj Hne Hfr. unfold rx_free. cbn [rx_desc rx_buffer with_idx with_rx_desc with_mem].
      by rewrite zget_zset_ne by lia.
    + unfold rx_free. cbn [rx_desc rx_buffer with_idx with_rx_desc with_mem]. rewrite zget_zset_eq by lia.
      by conj_split.
  - intros h nx out. apply rtl_tx_frame; try done. cbn [mem with_idx with_rx_desc with_mem]. intros x Hx.
    apply write_bytes_outside. lia.
Qed.

Lemma regs_write8 s reg v x : ring_reg x = true -> reg <> RTL_CR ->
  regs (WRITE8 hw_write reg v s) x = if x =? reg then u8 v else regs s x.
Proof. intros. apply Hwrite; [done|]. by intros []. Qed.

Lemma rtl_send_refines s i j a f s' r :
  related (mk_machine s i j) a -> send f (zlen f) s = (s', r) ->
  exists a', Nic.step 1500 128 1500 true a (Send f r) a' /\ related (mk_machine s' i j) a'.
Proof.
  destruct a as [ann pend ins]. intros (Hs & Hp & Hb & [h Ht] & Hr). cbn [announced pending inbox drv card_tx card_rx] in *.
  subst pend. rewrite rtl_send_cases. destruct (Z.ltb_spec 1500 (zlen f)) as [Hl|Hl].
  { intros [= <- <-]. exists (mk_nic ann [] ins). split; [apply step_refuse; by left|]. unfold related. conj_split; try done. by exists h. }
  cbn [orb]. destruct (owned _) eqn:Eo.
  { intros [= <- <-]. exists (mk_nic ann [] ins). split.
    - apply step_refuse. right. unfold outbox. cbn [announced pending]. rewrite app_nil_r.
      destruct (Z.lt_ge_cases (zlen ann) 128) as [H|]; [|done]. pose proof (own_next Ht H) as H2. unfold tx_free in H2. congruence.
    - unfold related. conj_split; try done. by exists h. }
  destruct (rtl_put_frame_related _ _ _ _ _ Hs Ht Hl Eo) as (Ps & Pn & Pt & Pr). intros [= <- <-].
  exists (mk_nic (ann ++ [f]) [] ins). split.
  { generalize (step_send_flush 1500 128 1500 true f (mk_nic ann [] ins)). unfold outbox.
    cbn [announced pending inbox]. rewrite !app_nil_r. auto. }
  unfold related. conj_split; cbn [announced pending inbox drv card_tx card_rx].
  - revert Ps. apply ready_regs; try done. intros x Hx Hne. rewrite regs_write8 by done. by apply Z.eqb_neq in Hne as ->.
  - done.
  - intros _. by rewrite regs_write8.
  - by exists h.
  - by apply Pr.
Qed.

Definition ack (s : state) : state := WRITE16 hw_write RTL_ISR (READ RTL_ISR s) s.
Definition take_slot (s : state) : state :=
  prepare_rx_descriptor (rx_idx s) (with_idx s ((rx_idx s + 1) mod N_RX_DESC) (tx_idx s)).

Lemma rtl_receive_cases s :
  let d := zget no_desc (rx_desc s) (rx_idx s) in
  let len := Z.land (length d) RTL_DESC_LENGTH_MASK in
  receive s =
    if owned d then (ack s, [], -1)
    else if Z.testbit (flags d) 5 then (take_slot (ack s), [], -1)
    else if 1500 <? len then (take_slot (ack s), [], -1)
    else (take_slot (ack s), read_bytes (mem s) (rx_buffer s + rx_idx s * 1536) len, len).
Proof.
  cbv zeta. unfold Realtek.receive, RTL_DESC_FLAG_OWN. rewrite !is_set_bit by lia.
  cbn [rx_desc rx_idx WRITE16 with_regs flags]. fold (owned (zget no_desc (rx_desc s) (rx_idx s))). done.
Qed.

Lemma ack_related s i j a : related (mk_machine s i j) a -> related (mk_machine (ack s) i j) a.
Proof.
  assert (Hreg : forall x, ring_reg x = true -> regs (ack s) x = regs s x).
  { intros x Hx. unfold ack, WRITE16. cbn [regs with_regs]. rewrite Hwrite; [|done|by intros []].
    destruct (Z.eqb_spec x RTL_ISR) as [->|]; done. }
  intros (Hs & Hp & Hb & Ht & Hr). unfold related. conj_split; try done; cbn [drv].
  - revert Hs. apply ready_regs; try done. intros x Hx _. by apply Hreg.
  - intros H. rewrite Hreg by done. by apply Hb.
Qed.

Lemma rtl_receive_refines s i j a s' bs len :
  related (mk_machine s i j) a -> receive s = (s', bs, len) ->
  exists a', Nic.step 1500 128 1500 true a (Receive (if len <? 0 then None else Some bs)) a' /\
    related (mk_machine s' i j) a'.
Proof.
  intros HR. apply ack_related in HR as HR1. revert HR HR1.
  destruct a as [ann pend ins]. intros HR. rewrite rtl_receive_cases. destruct ins as [|f fs]; intros HR1.
  - destruct HR as (_ & _ & _ & _ & [r Hr]). cbn [inbox drv card_rx] in Hr. destruct (own_empty pos128 Hr) as [-> _].
    intros [= <- <- <-]. exists (mk_nic ann pend []). split; [by apply step_receive_none|done].
  - destruct HR1 as (Hs1 & Hp & Hb & Ht1 & [r Hr1]). destruct HR as (_ & _ & _ & _ & [r' Hr]).
    cbn [announced pending inbox drv card_rx card_tx] in *.
    destruct (own_first Hr) as (F1 & F2 & F3 & F4 & F5). rewrite F1, F2, F3. clear F1 F2 F3.
    destruct (prepare_rx_related _ _ _ _ _ Hs1 Hr1) as (Ps & Pr & Pt). fold (take_slot (ack s)) in Ps, Pr, Pt.
    assert (HT : related (mk_machine (take_slot (ack s)) i j) (mk_nic ann pend fs)).
    { split; [done|]. split; [done|]. split; [done|]. split; [by apply Pt|]. by exists (r + 1). }
    destruct (Z.ltb_spec 1500 (zlen f)) as [Hlong|Hshort].
    + intros [= <- <- <-]. exists (mk_nic ann pend fs). split; [|done].
      by apply (step_too_long 1500 128 1500 true f fs (mk_nic ann pend (f :: fs))).
    + rewrite F5. intros [= <- <- <-]. pose proof (zlen_nonneg f). destruct (Z.ltb_spec (zlen f) 0); [lia|].
      exists (mk_nic ann pend fs). split; [by apply step_receive|done].
Qed.

Lemma poll_done_ready idle s : ready s -> ready (poll_done idle s).
Proof.
  apply ready_regs; try by destruct idle. intros x _ Hne%Z.eqb_neq. destruct idle; cbn; by rewrite ?Hne.
Qed.

Lemma transmit_refines s i j a f d' idle :
  related (mk_machine s i j) a -> let d := zget no_desc (tx_desc s) i in
  owned d = true -> f = read_bytes (mem s) (address d) (length d) -> owned d' = false ->
  (idle = true -> owned (zget no_desc (zset (tx_desc s) i d') (next_slot i d)) = false) ->
  exists a', Nic.step 1500 128 1500 true a (Transmit f) a' /\
    related (mk_machine (poll_done idle (with_tx_desc s (zset (tx_desc s) i d'))) (next_slot i d) j) a'.
Proof.
  destruct a as [ann pend ins]. intros (Hs & Hp & Hb & [h Ht] & Hr) d Hown Hf Hd' Hidle.
  cbn [announced pending inbox drv card_tx card_rx] in *. subst pend.
  destruct ann as [|f0 fs]; [pose proof (own_empty pos128 Ht) as H; unfold tx_free in H; fold d in H; congruence|].
  destruct (own_first Ht) as (_ & S2 & S3 & S4 & S5 & S6). fold d in S2, S3, S4, S6. rewrite S4, S6 in Hf. subst f0.
  destruct (own_range pos128 Ht) as [Hi _]. assert (Hs1 := Hs). destruct Hs1. rewrite next_slot_mod in * by done.
  set (s1 := with_tx_desc s _).
  assert (Hring : own_ring 128 ((i + 1) mod 128) (tx_idx s) (tx_slot s1) (tx_free s1) fs (h + 1)).
  { apply (own_pop _ _ pos128 Ht).
    - intros k g Hk2 Hne (A1 & A2 & A3 & A4 & A5 & A6). unfold tx_slot, s1. cbn [tx_desc mem tx_buffer with_tx_desc].
      by rewrite zget_zset_ne by lia.
    - intros k Hk2 Hne. unfold tx_free, s1. cbn [tx_desc with_tx_desc]. by rewrite zget_zset_ne by lia.
    - unfold tx_free, s1. cbn [tx_desc with_tx_desc]. by rewrite zget_zset_eq by lia. }
  exists (mk_nic fs [] ins). split; [by apply step_transmit|].
  unfold related. cbn [announced pending inbox drv card_tx card_rx]. conj_split.
  - apply poll_done_ready. revert Hs. apply ready_regs; try done. cbn. by rewrite zlen_zset.
  - done.
  - intros Hfs. destruct fs as [|g fs]; [done|]. destruct (own_first Hring) as (G1 & _). destruct idle; [|by apply Hb].
    specialize (Hidle eq_refl). cbn [tx_desc with_tx_desc s1] in G1. congruence.
  - exists (h + 1). by destruct idle.
  - destruct Hr as [r Hr]. exists r. by destruct idle.
Qed.

Lemma deliver_refines s i j a f d' :
  related (mk_machine s i j) a -> let d := zget no_desc (rx_desc s) j in
  owned d = true -> zlen f <= RTL_RX_MAX_LEN -> owned d' = false -> Z.testbit (flags d') 5 = false ->
  Z.land (length d') RTL_DESC_LENGTH_MASK = zlen f ->
  exists a', Nic.step 1500 128 1500 true a (Deliver f) a' /\
    related (mk_machine (with_rx_desc (with_mem s (write_bytes (mem s) (address d) f)) (zset (rx_desc s) j d'))
      i (next_slot j d)) a'.
Proof.
  destruct a as [ann pend ins]. intros (Hs & Hp & Hb & Ht & [r Hr]) d Hown Hl D1 D2 D3.
  cbn [announced pending inbox drv card_tx card_rx] in *. subst pend. change RTL_RX_MAX_LEN with 1536 in Hl.
  destruct (own_range pos128 Hr) as [_ Hj]. pose proof (o_room _ _ _ _ _ _ _ Hr) as Hroom.
  assert (Hlt : zlen ins < 128).
  { destruct (Z.eq_dec (zlen ins) 128) as [E|]; [|lia]. destruct (own_full pos128 Hr E) as [g (Hg & _)].
    fold d in Hg. congruence. }
  destruct (own_next Hr Hlt) as (_ & S2 & S3). fold d in S2, S3. rewrite S3, next_slot_mod by done.
  exists (mk_nic ann [] (ins ++ [f])). split; [by apply step_deliver|]. assert (Hs' := Hs). destruct Hs'.
  unfold related. cbn [announced pending inbox drv card_tx card_rx]. conj_split.
  - revert Hs. apply ready_regs; try done. cbn. by rewrite zlen_zset.
  - done.
  - done.
  - revert Ht. apply rtl_tx_frame; try done. cbn [mem with_rx_desc with_mem]. intros x Hx. apply write_bytes_outside. lia.
  - exists r. cbn [rx_idx with_rx_desc with_mem]. apply (own_push pos128 Hr); [done| | |].
    + intros k g Hk2 Hne (A1 & A2 & A3 & A4 & A5). unfold rx_slot. cbn [rx_desc mem rx_buffer with_rx_desc with_mem].
      rewrite zget_zset_ne by lia. conj_split; try done. rewrite <- A5 at 2. apply read_write_outside.
      destruct (Z.lt_ge_cases k j); [left|right]; nia.
    + intros k Hk2 Hne. unfold rx_free. cbn [rx_desc rx_buffer with_rx_desc with_mem]. by rewrite zget_zset_ne by lia.
    + unfold rx_slot. cbn [rx_desc mem rx_buffer with_rx_desc with_mem]. rewrite zget_zset_eq by lia.
      conj_split; try done. apply read_write_bytes.
Qed.

Lemma rtl_driver_refines : refines 1500 128 1500 true step related.
Proof.
  constructor.
  - intros m a act m' HR Hst. destruct Hst as [s i j f s' r E|m s' E|s i j s' bs len E|m act m' E].
    + by apply (rtl_send_refines _ _ _ _ _ _ _ HR).
    + injection E as <-. exists (mk_nic (outbox a) [] (inbox a)). split; [apply step_flush|].
      destruct m as [s i j], a as [ann pend ins], HR as (Hs & Hp & HR). cbn in Hp. subst pend.
      unfold outbox. cbn. by rewrite app_nil_r.
    + by apply (rtl_receive_refines _ _ _ _ _ _ _ HR).
    + destruct E as [s i j f d' idle d _ _ _ Ho Hf Hd Hi|s i j f d' d _ _ Ho Hl H1 H2 H3].
      * by apply transmit_refines.
      * by apply deliver_refines.
  - intros [s i j] [ann pend ins] f fs (Hs & Hp & Hb & [h Ht] & Hr) Ea.
    cbn [announced pending inbox drv card_tx card_rx] in *. subst ann.
    destruct (own_first Ht) as (S1 & S2 & S3 & S4 & S5 & S6). eexists.
    apply card_moves, (card_transmit s i j f no_desc false); try apply Hs; try done.
    + by apply Hb.
    + by rewrite S4, S6.
Qed.

Definition realtek_driver : Driver step.
Proof.
  refine {| capacity := 128; max_recv := 1500; drops_long := true; represents := related;
    driver_refinement := rtl_driver_refines |}.
  intros s a (_ & Hp & _ & [h []] & _). unfold outbox. by rewrite Hp, app_nil_r.
Defined.

End Card.
(** ** Initialisation *)

Section Init.
Variable dma_buffer : Z.
Variable hw_write : Z -> Z -> (Z -> Z) -> Z -> Z.
Variable hw : Z -> (Z -> Z) -> Z -> Z.
Hypothesis Hwrite : forall reg v r x,
  ring_reg x = true -> ~ (reg = RTL_CR /\ is_set v RTL_CR_RST = true) ->
  hw_write reg v r x = if x =? reg then v else r x.
Hypothesis Hbase : 0 <= dma_buffer /\ dma_buffer + DMA.DMA_BUFFER_SIZE <= 2 ^ 32.

(** Steps that only touch registers. *)
Definition regs_only (s s' : state) : Prop := exists r, s' = with_regs s r.
Lemma rtl_regs_only_refl s : regs_only s s.
Proof. exists (regs s). by destruct s. Qed.
Lemma regs_only_write8 s s' reg v : regs_only s s' -> regs_only s (WRITE8 hw_write reg v s').
Proof. intros [r ->]. by eexists. Qed.
Lemma regs_only_write16 s s' reg v : regs_only s s' -> regs_only s (WRITE16 hw_write reg v s').
Proof. intros [r ->]. by eexists. Qed.
Lemma regs_only_write32 s s' reg v : regs_only s s' -> regs_only s (WRITE32 hw_write reg v s').
Proof. intros [r ->]. by eexists. Qed.
Lemma rtl_regs_only_delay s s' us : regs_only s s' -> regs_only s (microdelay hw us s').
Proof. intros [r ->]. by eexists. Qed.

Lemma regs_only_phyar n done s s' s2 v : regs_only s s' -> phyar_wait hw n done s' = (s2, v) -> regs_only s s2.
Proof.
  revert s'. induction n as [|n IH]; intros s' H; cbn [phyar_wait]; [by intros [= <- <-]|].
  cbv zeta. destruct (done _); [by intros [= <- <-]|]. by apply IH, rtl_regs_only_delay.
Qed.
Lemma regs_only_mii_read s s' reg s2 v : regs_only s s' -> rtl_mii_read hw_write hw reg s' = (s2, v) -> regs_only s s2.
Proof.
  intros H. unfold rtl_mii_read. cbv zeta. destruct (phyar_wait _ _ _ _) as [s1 o] eqn:E.
  intros [= <- _]. by apply (regs_only_phyar _ _ s) in E; [|apply regs_only_write32].
Qed.
Lemma regs_only_mii_write s s' reg d s2 v :
  regs_only s s' -> rtl_mii_write hw_write hw reg d s' = (s2, v) -> regs_only s s2.
Proof.
  intros H. unfold rtl_mii_write. cbv zeta. destruct (phyar_wait _ _ _ _) as [s1 o] eqn:E.
  intros [= <- _]. by apply (regs_only_phyar _ _ s) in E; [|apply regs_only_write32].
Qed.
Lemma regs_only_mii_reset n s s' s2 v : regs_only s s' -> mii_reset_loop hw_write hw n s' = (s2, v) -> regs_only s s2.
Proof.
  revert s'. induction n as [|n IH]; intros s' H; cbn [mii_reset_loop]; [by intros [= <- <-]|].
  destruct (rtl_mii_read _ _ _ _) as [s1 [bmcr|]] eqn:E; apply (regs_only_mii_read s) in E; try done; [|by intros [= <- <-]].
  destruct (is_set _ _); [by apply IH, rtl_regs_only_delay|]. by apply regs_only_mii_write.
Qed.
Lemma regs_only_phy_reset s s' s2 v : regs_only s s' -> phy_reset hw_write hw s' = (s2, v) -> regs_only s s2.
Proof.
  intros H. unfold phy_reset, rtl_mii_reset.
  destruct (rtl_mii_write _ _ _ _ s') as [s1 ok] eqn:E1. apply (regs_only_mii_write s) in E1; [|done].
  assert (Hr : forall s3 ok2, (if negb ok then (s1, false) else mii_reset_loop hw_write hw MII_RESET_MAX_WAIT_MS s1) =
    (s3, ok2) -> regs_only s s3).
  { intros s3 ok2. destruct (negb ok); [by intros [= <- <-]|]. by apply regs_only_mii_reset. }
  destruct (if negb ok then _ else _) as [s3 ok2]. specialize (Hr _ _ eq_refl).
  destruct (negb ok2); [by intros [= <- <-]|].
  unfold rtl_phy_speed. destruct (rtl_mii_read _ _ MII_CTRL1000 s3) as [s4 o] eqn:E4.
  apply (regs_only_mii_read s) in E4; [|done].
  destruct (match o with Some _ => _ | None => _ end) as [s5 b5] eqn:E5.
  assert (H5 : regs_only s s5).
  { destruct o; [by apply (regs_only_mii_write s) in E5|]. by injection E5 as <- <-. }
  destruct (rtl_mii_write _ _ MII_MMD_DATA 0 s5) as [s6 b6] eqn:E6. apply (regs_only_mii_write s) in E6; [|done].
  unfold rtl_mii_restart. destruct (rtl_mii_read _ _ MII_BMCR s6) as [s7 [bmcr|]] eqn:E7;
    apply (regs_only_mii_read s) in E7; try done; [by apply regs_only_mii_write|by intros [= <- <-]].
Qed.
Lemma regs_only_reset_wait n s s' : regs_only s s' -> regs_only s (reset_wait hw n s').
Proof.
  revert s'. induction n as [|n IH]; intros s' H; cbn [reset_wait]; [done|].
  destruct (negb _); [done|]. by apply IH, rtl_regs_only_delay.
Qed.
Lemma regs_only_rtl_reset mac s s2 v : rtl_reset hw_write hw mac s = (s2, v) -> regs_only s s2.
Proof.
  unfold rtl_reset. cbv zeta.
  pose proof (regs_only_reset_wait RTL_RESET_MAX_WAIT_MS s _
    (regs_only_write8 s s RTL_CR RTL_CR_RST (rtl_regs_only_refl s))) as H.
  set (s1 := reset_wait _ _ _) in *. clearbody s1.
  destruct (is_set _ _); [by intros [= <- <-]|]. destruct (negb _); [intros [= <- <-]; by apply regs_only_write16|].
  set (w := λ s i, WRITE8 hw_write (RTL_IDR0 + i) (zget 0 mac i) s).
  assert (Hw : forall l s', regs_only s s' -> regs_only s (fold_left w l s')).
  { induction l as [|x l IH]; intros s' Hs; cbn [fold_left]; [done|]. by apply IH, regs_only_write8. }
  generalize (seqZ 0 6). intros l [= <- <-]. by apply Hw, regs_only_write16, regs_only_write16.
Qed.
Lemma regs_only_link fuel s s' s2 : regs_only s s' -> wait_link hw fuel s' = Some s2 -> regs_only s s2.
Proof.
  revert s'. induction fuel as [|fuel IH]; intros s' H; cbn [wait_link]; destruct (is_set _ _); try done;
    try (by intros [= <-]). apply IH. by apply rtl_regs_only_delay.
Qed.

(** The registers of the rings after a chain of writes. *)
Lemma rtl_ring_write_eq reg v s : ring_reg reg = true -> reg <> RTL_CR -> regs (WRITE32 hw_write reg v s) reg = u32 v.
Proof. intros. unfold WRITE32. cbn. rewrite Hwrite; [by rewrite Z.eqb_refl|done|by intros []]. Qed.
Lemma rtl_ring_write_ne reg reg' v s : ring_reg reg' = true -> reg <> RTL_CR -> (reg' =? reg) = false ->
  regs (WRITE32 hw_write reg v s) reg' = regs s reg'.
Proof. intros ? ? H. unfold WRITE32. cbn. rewrite Hwrite; [by rewrite H|done|by intros []]. Qed.
Lemma enable_write_eq s : regs (WRITE8 hw_write RTL_CR (Z.lor RTL_CR_TE RTL_CR_RE) s) RTL_CR = 12.
Proof. unfold WRITE8. cbn [regs with_regs]. rewrite Hwrite; [done|done|by intros []]. Qed.
Lemma enable_write_ne s x : ring_reg x = true -> (x =? RTL_CR) = false ->
  regs (WRITE8 hw_write RTL_CR (Z.lor RTL_CR_TE RTL_CR_RE) s) x = regs s x.
Proof. intros ? H. unfold WRITE8. cbn [regs with_regs]. rewrite Hwrite; [by rewrite H|done|by intros []]. Qed.
Ltac read_reg :=
  repeat lazymatch goal with
  | |- context [regs (WRITE32 _ ?r ?v ?s) ?r] => rewrite (rtl_ring_write_eq r v s) by done
  | |- context [regs (WRITE32 _ ?r ?v ?s) ?r'] => rewrite (rtl_ring_write_ne r r' v s) by done
  | |- context [regs (WRITE8 _ _ _ ?s) RTL_CR] => rewrite (enable_write_eq s)
  | |- context [regs (WRITE8 _ _ _ ?s) ?r'] => rewrite (enable_write_ne s r') by done
  end.

(** What the last writes do: the masks of [RCR] and [TCR] concern no ring. *)
Lemma start_card_split s : exists rcr tcr,
  start_card hw_write s = WRITE32 hw_write RTL_TCR tcr (WRITE32 hw_write RTL_RCR rcr
    (WRITE8 hw_write RTL_CR (Z.lor RTL_CR_TE RTL_CR_RE)
      (WRITE32 hw_write RTL_MAR4 0xffffffff (WRITE32 hw_write RTL_MAR0 0xffffffff
        (WRITE32 hw_write (RTL_TNPDS + 4) (u32 (Z.shiftr (tx_desc_pa s) 32))
          (WRITE32 hw_write RTL_TNPDS (u32 (tx_desc_pa s))
            (WRITE32 hw_write (RTL_RDSAR + 4) (u32 (Z.shiftr (rx_desc_pa s) 32))
              (WRITE32 hw_write RTL_RDSAR (u32 (rx_desc_pa s)) s)))))))).
Proof. do 2 eexists. unfold start_card. cbv zeta. reflexivity. Qed.

Lemma split_address a : 0 <= a < 2 ^ 32 -> u32 (u32 a) + u32 (u32 (Z.shiftr a 32)) * 2 ^ 32 = a.
Proof.
  intros Ha. rewrite Z.shiftr_div_pow2 by lia. rewrite Z.div_small by lia.
  rewrite (u32_small (u32 a)) by apply u32_range. rewrite (u32_small a) by (unfold is_u32; lia).
  change (u32 (u32 0)) with 0. lia.
Qed.

Lemma start_card_spec s : 0 <= rx_desc_pa s < 2 ^ 32 -> 0 <= tx_desc_pa s < 2 ^ 32 ->
  regs_only s (start_card hw_write s) /\ regs (start_card hw_write s) RTL_CR = 12 /\
  ring_at (start_card hw_write s) RTL_TNPDS (tx_desc_pa s) /\ ring_at (start_card hw_write s) RTL_RDSAR (rx_desc_pa s).
Proof.
  intros Hr Ht. destruct (start_card_split s) as (rcr & tcr & ->). unfold ring_at. conj_split.
  - do 2 apply regs_only_write32. apply regs_only_write8. do 6 apply regs_only_write32. apply rtl_regs_only_refl.
  - read_reg. done.
  - read_reg. by apply split_address.
  - read_reg. by apply split_address.
Qed.

(** Filling the ring. *)
Lemma fill_rx l s :
  let s' := fold_left (λ s i, prepare_rx_descriptor i s) l s in
  (forall i, i ∈ l -> 0 <= i < zlen (rx_desc s)) ->
  (exists m q, s' = with_rx_desc (with_mem s m) q /\ zlen q = zlen (rx_desc s)) /\
  forall k, k ∈ l -> rx_buffer s + k * BUFFER_SIZE < 2 ^ 64 -> 0 <= rx_buffer s -> rx_free s' k.
Proof.
  revert s. induction l as [|i l IH] using rev_ind; intros s; [intros s' _; split; [|by intros k ?%elem_of_nil]|].
  { exists (mem s), (rx_desc s). by destruct s. }
  rewrite fold_left_app. cbn [fold_left]. intros Hl.
  destruct (IH s) as ((m & q & E & Hq) & Hfree); [intros j Hj; apply Hl, elem_of_app; by left|].
  set (s1 := fold_left _ l s) in *. clearbody s1. subst s1.
  assert (Hi : 0 <= i < zlen (rx_desc s)) by (apply Hl, elem_of_app; right; by left).
  split.
  - unfold prepare_rx_descriptor. cbn [rx_buffer rx_desc mem with_rx_desc with_mem].
    do 2 eexists. split; [reflexivity|]. by rewrite zlen_zset.
  - intros k Hk Htop H0. destruct (rx_flags i) as [F1 F2]. unfold prepare_rx_descriptor, rx_free in *.
    cbn [rx_buffer rx_desc mem with_rx_desc with_mem] in *.
    destruct (Z.eq_dec k i) as [->|Hne].
    + rewrite zget_zset_eq by lia. conj_split; [done|done|]. cbn [address]. rewrite u64_small; [done|].
      unfold is_u64. change BUFFER_SIZE with 1536 in *. lia.
    + assert (Hkl : k ∈ l) by (apply elem_of_app in Hk as [|Hk%list_elem_of_singleton]; done).
      assert (0 <= k) by (apply Hl, elem_of_app; by left). rewrite zget_zset_ne by lia. by apply Hfree.
Qed.

Lemma init_ring_spec s s' :
  dma_buffer <= dma_buffer_ptr s <= dma_buffer + DMA.DMA_BUFFER_SIZE -> init_ring dma_buffer s = (s', true) ->
  0 <= rx_desc_pa s' < 2 ^ 32 /\ 0 <= tx_desc_pa s' < 2 ^ 32 /\
  0 <= rx_buffer s' /\ rx_buffer s' + 196608 <= tx_buffer s' /\ tx_buffer s' + 196608 <= 2 ^ 32 /\
  rx_desc s' = replicate 128 no_desc /\ tx_desc s' = replicate 128 no_desc /\ rx_idx s' = 0 /\ tx_idx s' = 0.
Proof.
  intros Hp. unfold init_ring. unfold DMA.DMA_BUFFER_SIZE in *.
  destruct (DMA.alloc dma_buffer (dma_buffer_ptr s) _) as [p1 o1] eqn:E1.
  apply (DMA.alloc_pages _ _ _ 4096) in E1 as [(-> & _)|(-> & -> & H1)]; unfold DMA.DMA_BUFFER_SIZE in *; try done; try lia.
  destruct (DMA.alloc _ _ (N_TX_DESC * 16)) as [p2 o2] eqn:E2.
  apply (DMA.alloc_pages _ _ _ 4096) in E2 as [(-> & _)|(-> & -> & H2)]; unfold DMA.DMA_BUFFER_SIZE in *; try done; try lia.
  destruct (DMA.alloc _ _ (N_RX_DESC * BUFFER_SIZE)) as [p3 o3] eqn:E3.
  apply (DMA.alloc_pages _ _ _ 196608) in E3 as [(-> & _)|(-> & -> & H3)]; unfold DMA.DMA_BUFFER_SIZE in *; try done; try lia.
  destruct (DMA.alloc _ _ (N_TX_DESC * BUFFER_SIZE)) as [p4 o4] eqn:E4.
  apply (DMA.alloc_pages _ _ _ 196608) in E4 as [(-> & _)|(-> & -> & H4)]; unfold DMA.DMA_BUFFER_SIZE in *; try done; try lia.
  intros [= <-]. cbn [rx_desc_pa tx_desc_pa rx_buffer tx_buffer rx_desc tx_desc rx_idx tx_idx]. conj_split; try done; lia.
Qed.

Lemma rtl_init_related fuel mac s s' :
  dma_buffer <= dma_buffer_ptr s <= dma_buffer + DMA.DMA_BUFFER_SIZE -> rtl_init dma_buffer hw_write hw fuel mac s = Some (s', true) ->
  related (mk_machine s' 0 0) (mk_nic [] [] []).
Proof.
  intros Hp. unfold rtl_init. destruct (init_ring _ _) as [s1 []] eqn:E1; [|done].
  apply init_ring_spec in E1 as (I1 & I2 & I3 & I4 & I5 & I6 & I7 & I8 & I9); [|done]. cbn [negb].
  destruct (rtl_reset _ _ _ _) as [s2 []] eqn:E2; [|done]. apply regs_only_rtl_reset in E2 as [r2 ->]. cbn [negb].
  destruct (phy_reset _ _ _) as [s3 []] eqn:E3; [|done].
  apply (regs_only_phy_reset s1) in E3 as [r3 ->]; [|by eexists]. cbn [negb].
  destruct (wait_link _ _ _) as [s4|] eqn:E4; [|done]. apply (regs_only_link _ s1) in E4 as [r4 ->]; [|by eexists].
  destruct (start_card_spec (with_regs s1 r4) I1 I2) as ([r5 E5] & C1 & C2 & C3).
  set (s5 := start_card _ _) in *. clearbody s5. intros [= <-]. unfold fill_ring.
  destruct (fill_rx (seqZ 0 N_RX_DESC) s5) as ((m & q & E & Hq) & Hfree).
  { intros i Hi%elem_of_seqZ. rewrite E5. cbn [rx_desc with_regs]. rewrite I6. done. }
  assert (Hf : forall k, 0 <= k < 128 -> rx_free (fold_left (λ s i, prepare_rx_descriptor i s) (seqZ 0 N_RX_DESC) s5) k).
  { intros k Hk. apply Hfree; rewrite ?E5; cbn [rx_buffer with_regs]; change BUFFER_SIZE with 1536; try lia.
    apply elem_of_seqZ. change N_RX_DESC with 128. lia. }
  clear Hfree. set (s6 := fold_left _ _ s5) in *. clearbody s6. rewrite E5 in C1, C2, C3, Hq. rewrite E5 in E. clear E5 s5.
  unfold related. cbn [announced pending inbox drv card_tx card_rx]. conj_split; try done.
  - rewrite E. constructor; cbn [rx_desc tx_desc rx_buffer tx_buffer regs with_rx_desc with_mem with_regs]; try lia.
    + rewrite Hq. cbn [rx_desc with_regs]. by rewrite I6.
    + by rewrite I7.
    + cbn [regs with_regs] in C1. by rewrite C1.
    + by split.
  - exists 0. assert (Hfr : forall k, 0 <= k < 128 -> tx_free s6 k).
    { intros k Hk. unfold tx_free. rewrite E. cbn [tx_desc with_rx_desc with_mem with_regs]. rewrite I7.
      by rewrite zget_replicate. }
    constructor; try done.
    + rewrite E. cbn [tx_idx with_rx_desc with_mem with_regs]. by rewrite I9.
    + intros j Hj. by apply Hfr, Z.mod_pos_bound.
  - exists 0. constructor; try done.
    + rewrite E. cbn [rx_idx with_rx_desc with_mem with_regs]. by rewrite I8.
    + intros j Hj. by apply Hf, Z.mod_pos_bound.
Qed.

Abbreviation init := (rtl_init dma_buffer hw_write hw).
Abbreviation step := (step hw_write).

(** The driver and the card together are a first-in first-out channel.  After a
    successful initialisation, whatever calls are made and whatever the card does:
    the frames on the wire are those that [send] accepted, in order, each once and
    unchanged; of the frames that come in, those of at most 1500 bytes are handed
    out, in order, each once and unchanged, and longer ones are dropped; [send]
    refuses a frame exactly when 128 wait or it has more than 1500 bytes; the card
    can send all that wait without another call. *)
Theorem realtek_is_a_queue fuel mac s s0 tr s1 j1 k1 :
  dma_buffer <= dma_buffer_ptr s <= dma_buffer + DMA.DMA_BUFFER_SIZE -> init fuel mac s = Some (s0, true) ->
  steps step (mk_machine s0 0 0) tr (mk_machine s1 j1 k1) -> exists out ins,
    accepted tr = transmitted tr ++ out /\
    filter (λ f, zlen f <= 1500) (delivered tr) = received tr ++ filter (λ f, zlen f <= 1500) ins /\
    zlen out <= 128 /\ zlen ins <= 128 /\
    (forall f, snd (send hw_write f (zlen f) s1) = if (zlen f <=? 1500) && (zlen out <? 128) then 0 else -1) /\
    exists m2, steps step (mk_machine s1 j1 k1) (Transmit <$> out) m2.
Proof.
  intros Hboot E Ht. pose proof (rtl_init_related _ _ _ _ Hboot E) as HR.
  pose proof (rtl_driver_refines hw_write Hwrite) as Href.
  destruct (refined_fifo 1500 128 1500 true Href _ _ _ _ HR Ht) as (a & HRa & Ho & Hi & _ & _).
  assert (Hout : outbox a = announced a) by (destruct HRa as (_ & Hp & _); unfold outbox; by rewrite Hp, app_nil_r).
  exists (outbox a), (inbox a). conj_split; [done|done| | | |].
  - destruct HRa as (_ & _ & _ & [h []] & _). by rewrite Hout.
  - destruct HRa as (_ & _ & _ & _ & [h []]). done.
  - intros f. destruct (send hw_write f (zlen f) s1) as [s' r] eqn:Es. cbn [snd].
    destruct (rtl_send_refines _ Hwrite _ _ _ _ _ _ _ HRa Es) as (a' & Hst & _). apply step_send_inv in Hst.
    destruct (Z.leb_spec (zlen f) 1500), (Z.ltb_spec (zlen (outbox a)) 128); cbn [andb]; lia.
  - rewrite Hout. destruct a as [ann pend ins]. pose proof HRa as (_ & Hp & _). cbn in Hp. subst pend.
    destruct (refined_drain 1500 128 1500 true Href _ (mk_nic ann [] ins) HRa) as (s2 & Hd & _). by exists s2.
Qed.

End Init.

(** ** Witness *)

(** A card whose registers are plain memory, with the link up; it resets at once and
    answers each request to the PHY. *)
Definition demo_write (reg v : Z) (r : Z -> Z) (x : Z) : Z :=
  if x =? reg then
    if reg =? RTL_CR then Z.clearbit v 4 else if reg =? RTL_PHYAR then Z.lxor v RTL_PHYAR_FLAG else v
  else r x.
Definition demo_delay (us : Z) (r : Z -> Z) : Z -> Z := r.
Definition demo_boot : state :=
  mk_state (λ x, if x =? RTL_PHYSTATUS then 2 else 0) (λ _, 0) [] [] 0 0 0 0 0 0 0x400000.
Definition demo_state : state :=
  match rtl_init 0x400000 demo_write demo_delay 1 [82; 84; 0; 18; 52; 86] demo_boot with
  | Some (s, _) => s | None => demo_boot end.
Lemma rtl_demo_init :
  rtl_init 0x400000 demo_write demo_delay 1 [82; 84; 0; 18; 52; 86] demo_boot = Some (demo_state, true).
Proof.
  unfold demo_state. assert (H : match rtl_init 0x400000 demo_write demo_delay 1 [82; 84; 0; 18; 52; 86] demo_boot
    with Some (_, b) => b | None => false end = true) by (vm_compute; reflexivity).
  destruct (rtl_init _ _ _ _ _ _) as [[s []]|]; [reflexivity|discriminate..].
Qed.
Lemma rtl_demo_write_law reg v r x :
  ring_reg x = true -> ~ (reg = RTL_CR /\ is_set v RTL_CR_RST = true) ->
  demo_write reg v r x = if x =? reg then v else r x.
Proof.
  intros Hx Hn. unfold demo_write. destruct (Z.eqb_spec x reg) as [->|]; [|done].
  destruct (Z.eqb_spec reg RTL_CR) as [->|].
  - destruct (is_set v RTL_CR_RST) eqn:E; [by destruct Hn|]. unfold RTL_CR_RST in E. rewrite is_set_bit in E by lia.
    apply Z.bits_inj'. intros n Hn0. destruct (Z.eq_dec n 4) as [->|]; [|by rewrite Z.clearbit_neq].
    by rewrite Z.clearbit_eq.
  - destruct (Z.eqb_spec reg RTL_PHYAR) as [->|]; [|done]. by vm_compute in Hx.
Qed.

Lemma realtek_is_a_queue_witness : exists out ins : list frame,
  [] = transmitted [] ++ out /\ zlen out <= 128 /\ zlen ins <= 128.
Proof.
  destruct (realtek_is_a_queue 0x400000 demo_write demo_delay rtl_demo_write_law
    ltac:(unfold DMA.DMA_BUFFER_SIZE; lia) 1 [82; 84; 0; 18; 52; 86]
    demo_boot demo_state [] demo_state 0 0 ltac:(unfold demo_boot, DMA.DMA_BUFFER_SIZE; cbn [dma_buffer_ptr]; lia) rtl_demo_init (steps_nil _ _)) as (out & ins & H1 & H2 & H3 & H4 & _).
  exists out, ins. split; [exact H1|]. split; [exact H3|exact H4].
Defined.

(** Two frames sent, one of them put on the wire, a frame and a too long one received. *)
Example rtl_demo_trace :
  let s := demo_state in
  let '(s, r1) := send demo_write [1; 2; 3] 3 s in
  let '(s, r2) := send demo_write [4; 5] 2 s in
  let d := zget no_desc (tx_desc s) 0 in
  let wire := read_bytes (mem s) (address d) (length d) in
  let s := with_rx_desc (with_mem s (write_bytes (mem s) (address (zget no_desc (rx_desc s) 0)) [7; 8; 9]))
    (zset (rx_desc s) 0 (mk_desc 3 0 0 0)) in
  let s := with_rx_desc s (zset (rx_desc s) 1 (mk_desc 1501 0 0 0)) in
  let '(s, b1, l1) := receive demo_write s in
  let '(s, b2, l2) := receive demo_write s in
  let '(s, b3, l3) := receive demo_write s in
  ([r1; r2], tx_idx s, wire, (b1, l1), (b2, l2), (b3, l3), rx_idx s) =
  ([0; 0], 2, [1; 2; 3], ([7; 8; 9], 3), ([], -1), ([], -1), 2).
Proof. vm_compute. reflexivity. Qed.

End Realtek.
