(* ===== verification/Pci.v ===== *)
(** * Pci: the PCI bus ([lib/pci.cpp])

    Configuration space is reached through the address port [0xcf8] and the data
    port [0xcfc].  It is a function from addresses (the words written to the
    address port) to 32-bit words, which the driver reads and writes one word or one
    byte at a time; what a write does is up to the devices ([hw_write],
    [hw_write_byte]).  Every operation is in a state monad that fails with a failed
    assertion or out of fuel.  Log messages are left out. *)
From S2P Require Import Prelude Utils Memory.
From stdpp Require Import list.

Module Pci.
Import Utils.Utils.
Local Open Scope Z_scope.

(** ** Registers ([inc/pcireg.h]) *)

Definition PCI_ID_REG : Z := 0x00.
Definition PCI_VENDOR (id : Z) : Z := Z.land (Z.shiftr id 0) 0xffff.
Definition PCI_PRODUCT (id : Z) : Z := Z.land (Z.shiftr id 16) 0xffff.
Definition PCI_COMMAND_STATUS_REG : Z := 0x04.
Definition PCI_COMMAND_IO_ENABLE : Z := 0x00000001.
Definition PCI_COMMAND_MEM_ENABLE : Z := 0x00000002.
Definition PCI_COMMAND_MASTER_ENABLE : Z := 0x00000004.
Definition PCI_CLASS_REG : Z := 0x08.
Definition PCI_CLASS (cr : Z) : Z := Z.land (Z.shiftr cr 24) 0xff.
Definition PCI_SUBCLASS (cr : Z) : Z := Z.land (Z.shiftr cr 16) 0xff.
Definition PCI_CLASS_BRIDGE : Z := 0x06.
Definition PCI_SUBCLASS_BRIDGE_PCI : Z := 0x04.
Definition PCI_BHLC_REG : Z := 0x0c.
Definition PCI_HDRTYPE (bhlcr : Z) : Z := Z.land (Z.shiftr bhlcr 16) 0xff.
Definition PCI_HDRTYPE_TYPE (bhlcr : Z) : Z := Z.land (PCI_HDRTYPE bhlcr) 0x7f.
Definition PCI_HDRTYPE_MULTIFN (bhlcr : Z) : bool := negb (Z.land (PCI_HDRTYPE bhlcr) 0x80 =? 0).
Definition PCI_MAPREG_START : Z := 0x10.
Definition PCI_MAPREG_END : Z := 0x28.
Definition PCI_MAPREG_TYPE (mr : Z) : Z := Z.land mr 0x00000001.
Definition PCI_MAPREG_TYPE_MEM : Z := 0x00000000.
Definition PCI_MAPREG_MEM_TYPE (mr : Z) : Z := Z.land mr 0x00000006.
Definition PCI_MAPREG_MEM_TYPE_64BIT : Z := 0x00000004.
Definition PCI_MAPREG_MEM_ADDR (mr : Z) : Z := Z.land mr 0xfffffff0.
Definition PCI_MAPREG_MEM_SIZE (mr : Z) : Z := Z.land (PCI_MAPREG_MEM_ADDR mr) (u32 (- PCI_MAPREG_MEM_ADDR mr)).
Definition PCI_MAPREG_IO_ADDR (mr : Z) : Z := Z.land mr 0xfffffffc.
Definition PCI_MAPREG_IO_SIZE (mr : Z) : Z := Z.land (PCI_MAPREG_IO_ADDR mr) (u32 (- PCI_MAPREG_IO_ADDR mr)).
Definition PCI_MAPREG_NUM (offset : Z) : Z := u32 (offset - PCI_MAPREG_START) / 4.
Definition PCI_INTERRUPT_REG : Z := 0x3c.
Definition PCI_INTERRUPT_LINE (icr : Z) : Z := Z.land (Z.shiftr icr 0) 0xff.
Definition PCI_BRIDGE_BUS_REG : Z := 0x18.
Definition PCI_BRIDGE_BUS_SECONDARY_SHIFT : Z := 8.
Definition PCI_BRIDGE_STATIO_REG : Z := 0x1C.
Definition PCI_BRIDGE_IO_32BITS (reg : Z) : bool := Z.land reg 0xf =? 1.
Definition PCI_LATENCY_TIMER : Z := 0x0d.

(** ** Data *)

(** [Bus *bus] is only used for the number of the bus. *)
Record Func := mk_func {
  busno : Z; dev : Z; func : Z; dev_id : Z; dev_class : Z;
  reg_base : list Z; reg_size : list Z; reg_is_io : list bool; irq_line : Z }.
Definition with_reg (f : Func) (n base size : Z) (io : bool) : Func :=
  mk_func (busno f) (dev f) (func f) (dev_id f) (dev_class f) (zset (reg_base f) n base) (zset (reg_size f) n size)
    (zset (reg_is_io f) n io) (irq_line f).

Definition space : Type := Z -> Z.
Definition MAX_N_PCI_DEVICES : Z := 128.

(** The ports, and the devices stored so far. *)
Record state := mk_state { cfg : space; conf_addr : Z; stored_pci_devices : list Func }.
Definition n_stored_pci_devices (s : state) : Z := zlen (stored_pci_devices s).

Definition M (A : Type) : Type := state -> option (state * A).
Definition ret {A} (a : A) : M A := λ s, Some (s, a).
Definition fail {A} : M A := λ _, None.
Definition bind {A B} (m : M A) (k : A -> M B) : M B :=
  λ s, match m s with Some (s, a) => k a s | None => None end.

Declare Scope pci_scope.
Delimit Scope pci_scope with pci.
Notation "x <- m ;; k" := (bind m (λ x, k)) (at level 100, m at next level, right associativity) : pci_scope.
Notation "m ;;; k" := (bind m (λ _, k)) (at level 100, right associativity) : pci_scope.
Local Open Scope pci_scope.

Section Driver.
Variable hw_write : Z -> Z -> space -> space.
(** Address, byte in the word, value. *)
Variable hw_write_byte : Z -> Z -> Z -> space -> space.

Definition outl_addr (v : Z) : M unit := λ s, Some (mk_state (cfg s) v (stored_pci_devices s), tt).
Definition inl_data : M Z := λ s, Some (s, cfg s (conf_addr s)).
Definition outl_data (v : Z) : M unit := λ s,
  Some (mk_state (hw_write (conf_addr s) v (cfg s)) (conf_addr s) (stored_pci_devices s), tt).
Definition inb_data (k : Z) : M Z := λ s, Some (s, u8 (Z.shiftr (cfg s (conf_addr s)) (8 * k))).
Definition outb_data (k v : Z) : M unit := λ s,
  Some (mk_state (hw_write_byte (conf_addr s) k v (cfg s)) (conf_addr s) (stored_pci_devices s), tt).

Definition address (bus dev func offset : Z) : Z :=
  Z.lor (Z.lor (Z.lor (Z.lor (u32 (Z.shiftl 1 31)) (Z.shiftl bus 16)) (Z.shiftl dev 11)) (Z.shiftl func 8)) offset.
Definition pci_conf1_set_addr (bus dev func offset : Z) : M unit :=
  if negb (bus <? 256) then fail
  else if negb (dev <? 32) then fail
  else if negb (func <? 8) then fail
  else if negb (offset <? 256) then fail
  else if negb (Z.land offset 0x3 =? 0) then fail
  else outl_addr (address bus dev func offset).

Definition pci_conf_read (f : Func) (off : Z) : M Z :=
  pci_conf1_set_addr (busno f) (dev f) (func f) off;;; inl_data.
Definition pci_conf_write (f : Func) (off v : Z) : M unit :=
  pci_conf1_set_addr (busno f) (dev f) (func f) off;;; outl_data v.
Definition pci_conf_read_byte (f : Func) (off : Z) : M Z :=
  pci_conf1_set_addr (busno f) (dev f) (func f) (Z.land off (Z.lnot 3));;; inb_data (Z.land off 3).
Definition pci_conf_write_byte (f : Func) (off v : Z) : M unit :=
  pci_conf1_set_addr (busno f) (dev f) (func f) (Z.land off (Z.lnot 3));;; outb_data (Z.land off 3) v.

(** ** Enabling a function *)

(** What the loop finds in a base address register that reads [oldv] and, with all
    ones written to it, [rv]: base, size, whether it is an I/O region. *)
Definition region (oldv rv : Z) : Z * Z * bool :=
  if PCI_MAPREG_TYPE rv =? PCI_MAPREG_TYPE_MEM then (PCI_MAPREG_MEM_ADDR oldv, PCI_MAPREG_MEM_SIZE rv, false)
  else (PCI_MAPREG_IO_ADDR oldv, PCI_MAPREG_IO_SIZE rv, true).
Definition bar_width (rv : Z) : Z :=
  if (PCI_MAPREG_TYPE rv =? PCI_MAPREG_TYPE_MEM) && (PCI_MAPREG_MEM_TYPE rv =? PCI_MAPREG_MEM_TYPE_64BIT) then 8 else 4.

Fixpoint probe_bars (n : nat) (bar : Z) (f : Func) : M Func :=
  if bar <? PCI_MAPREG_END then
    match n with
    | O => fail
    | S n =>
        oldv <- pci_conf_read f bar;;
        pci_conf_write f bar 0xffffffff;;;
        rv <- pci_conf_read f bar;;
        if rv =? 0 then probe_bars n (bar + 4) f
        else
          let '(base, size, io) := region oldv rv in
          pci_conf_write f bar oldv;;;
          probe_bars n (bar + bar_width rv) (with_reg f (PCI_MAPREG_NUM bar) base size io)
    end
  else ret f.

(** The function with the regions filled in. *)
Definition pci_func_enable (f : Func) : M Func :=
  pci_conf_write f PCI_COMMAND_STATUS_REG
    (Z.lor (Z.lor PCI_COMMAND_IO_ENABLE PCI_COMMAND_MEM_ENABLE) PCI_COMMAND_MASTER_ENABLE);;;
  lat <- pci_conf_read_byte f PCI_LATENCY_TIMER;;
  (if lat <? 32 then pci_conf_write_byte f PCI_LATENCY_TIMER 32 else ret tt);;;
  probe_bars 6 PCI_MAPREG_START f.

Definition push_stored (f : Func) : M unit := λ s,
  Some (mk_state (cfg s) (conf_addr s) (stored_pci_devices s ++ [f]), tt).
Definition pci_store (pcif : Func) : M (Func * Z) := λ s,
  if n_stored_pci_devices s <? MAX_N_PCI_DEVICES then
    (f <- pci_func_enable pcif;; push_stored f;;; ret (f, 0)) s
  else ret (pcif, -1) s.

(** ** The scan *)

Record Driver := mk_driver { key1 : Z; key2 : Z; attachfn : Func -> M (Func * Z) }.
Fixpoint pci_attach_match (k1 k2 : Z) (list : list Driver) (pcif : Func) : M Z :=
  match list with
  | [] => ret 0
  | d :: list =>
      if (key1 d =? k1) && (key2 d =? k2) then
        fr <- attachfn d pcif;;
        if 0 <? snd fr then ret (snd fr) else pci_attach_match k1 k2 list (fst fr)
      else pci_attach_match k1 k2 list pcif
  end.

Definition pci_attach_vendor : list Driver :=
  (λ k, mk_driver (fst k) (snd k) pci_store) <$>
  [(0x8086, 0x15a3); (0x8086, 0x10d3); (0x8086, 0x153a); (0x8086, 0x100e); (0x8086, 0x15bc); (0x8086, 0x15b8);
   (0x8086, 0x0d55); (0x8086, 0x15fa); (0x8086, 0x1539); (0x8086, 0x15f3); (0x8086, 0x46d1); (0x10ec, 0x8168);
   (0x8086, 0x1a1c)].

Section Scan.
(** The scan of a bus, which a bridge calls for the bus behind it. *)
Variable scan_bus : Z -> M Z.

Definition pci_bridge_attach (pcif : Func) : M (Func * Z) :=
  ioreg <- pci_conf_read pcif PCI_BRIDGE_STATIO_REG;;
  busreg <- pci_conf_read pcif PCI_BRIDGE_BUS_REG;;
  if PCI_BRIDGE_IO_32BITS ioreg then ret (pcif, 0)
  else
    scan_bus (Z.land (Z.shiftr busreg PCI_BRIDGE_BUS_SECONDARY_SHIFT) 0xff);;; ret (pcif, 1).

Definition pci_attach_class : list Driver :=
  [mk_driver PCI_CLASS_BRIDGE PCI_SUBCLASS_BRIDGE_PCI pci_bridge_attach].

Definition pci_attach (f : Func) : M Z :=
  r <- pci_attach_match (PCI_CLASS (dev_class f)) (PCI_SUBCLASS (dev_class f)) pci_attach_class f;;
  if negb (r =? 0) then ret 1
  else
    r <- pci_attach_match (PCI_VENDOR (dev_id f)) (PCI_PRODUCT (dev_id f)) pci_attach_vendor f;;
    ret (if negb (r =? 0) then 1 else 0).

Definition blank (bus d k : Z) : Func := mk_func bus d k 0 0 (replicate 6 0) (replicate 6 0) (replicate 6 false) 0.
Definition scan_func (bus d k : Z) : M unit :=
  let f := blank bus d k in
  id <- pci_conf_read f PCI_ID_REG;;
  if PCI_VENDOR id =? 0xffff then ret tt
  else
    intr <- pci_conf_read f PCI_INTERRUPT_REG;;
    class <- pci_conf_read f PCI_CLASS_REG;;
    pci_attach (mk_func bus d k id class (reg_base f) (reg_size f) (reg_is_io f) (PCI_INTERRUPT_LINE intr));;;
    ret tt.
Fixpoint scan_funcs (bus d : Z) (ks : list Z) : M unit :=
  match ks with
  | [] => ret tt
  | k :: ks => scan_func bus d k;;; scan_funcs bus d ks
  end.
Fixpoint scan_devs (bus : Z) (ds : list Z) (totaldev : Z) : M Z :=
  match ds with
  | [] => ret totaldev
  | d :: ds =>
      bhlc <- pci_conf_read (blank bus d 0) PCI_BHLC_REG;;
      if 1 <? PCI_HDRTYPE_TYPE bhlc then scan_devs bus ds totaldev
      else
        scan_funcs bus d (seqZ 0 (if PCI_HDRTYPE_MULTIFN bhlc then 8 else 1));;;
        scan_devs bus ds (totaldev + 1)
  end.
End Scan.

(** [fuel] bounds the depth of nested bridges. *)
Fixpoint pci_scan_bus (fuel : nat) (bus : Z) : M Z :=
  match fuel with
  | O => fail
  | S fuel => scan_devs (pci_scan_bus fuel) bus (seqZ 0 32) 0
  end.

Definition init (fuel : nat) : M Z := pci_scan_bus fuel 0.

End Driver.

(** ** For the drivers *)

Definition is_device (k1 k2 : Z) (f : Func) : bool := (PCI_VENDOR (dev_id f) =? k1) && (PCI_PRODUCT (dev_id f) =? k2).

(** The loops over the stored devices: the first with these keys whose region [bar]
    is (not) an I/O region. *)
Fixpoint find_stored (k1 k2 bar : Z) (io : bool) (l : list Func) : option Func :=
  match l with
  | [] => None
  | f :: l =>
      if is_device k1 k2 f && eqb (zget false (reg_is_io f) bar) io then Some f else find_stored k1 k2 bar io l
  end.

(** None is a failed assertion in [Memory]; the answer is the length mapped, or -1. *)
Definition map_device (k1 k2 base maxlen bar : Z) (l : list Func) (m : Memory.state) : option (Memory.state * Z) :=
  match find_stored k1 k2 bar false l with
  | None => Some (m, u64 (-1))
  | Some f =>
      let maxlen := Z.min (zget 0 (reg_size f) bar) maxlen in
      let end_ := u64 (base + round_up maxlen Memory.PAGE_SIZE) in
      match Memory.map_region_cache_disabled base end_ (zget 0 (reg_base f) bar) m with
      | None => None
      | Some m => Some (m, maxlen)
      end
  end.

Definition get_device_reg_base (k1 k2 bar : Z) (l : list Func) : Z :=
  match find_stored k1 k2 bar true l with None => u64 (-1) | Some f => zget 0 (reg_base f) bar end.

(** ** What the devices promise

    [writable] says which bits of a base address register can be written; the others
    are read-only.  A write changes the register it goes to and nothing else; one to
    the latency timer leaves the header type alone. *)
Record config_space (hw_write : Z -> Z -> space -> space) (hw_write_byte : Z -> Z -> Z -> space -> space)
    (writable : Z -> Z) : Prop := {
  writable_range : forall a, is_u32 (writable a);
  write_bar : forall a v c a', 0x10 <= a mod 256 < 0x28 ->
    hw_write a v c a' = if a' =? a then Z.lor (Z.land v (writable a)) (Z.land (c a) (Z.lnot (writable a))) else c a';
  write_command : forall a v c a', a mod 256 = 4 -> a' <> a -> hw_write a v c a' = c a';
  write_latency : forall a v c a', a mod 256 = 12 -> a' <> a -> hw_write_byte a 1 v c a' = c a';
  latency_type : forall a v c, a mod 256 = 12 -> PCI_HDRTYPE (hw_write_byte a 1 v c a) = PCI_HDRTYPE (c a);
  write_range : forall a v c, (forall x, is_u32 (c x)) -> forall x, is_u32 (hw_write a v c x);
  write_byte_range : forall a k v c, (forall x, is_u32 (c x)) -> forall x, is_u32 (hw_write_byte a k v c x) }.

Definition space_ok (c : space) : Prop := forall x, is_u32 (c x).
(** Everything but the command register and the latency timer. *)
Definition fixed (c c' : space) : Prop := forall a,
  (a mod 256 <> 4 -> a mod 256 <> 12 -> c' a = c a) /\ (a mod 256 = 12 -> PCI_HDRTYPE (c' a) = PCI_HDRTYPE (c a)).

(** ** What the scan is to find, as a function of the configuration space *)

Section Spec.
Variable writable : Z -> Z.
Variable c : space.

(** What reads back after all ones are written. *)
Definition ones (a : Z) : Z := Z.lor (writable a) (Z.land (c a) (Z.lnot (writable a))).

Fixpoint regions (n : nat) (bar : Z) (f : Func) : Func :=
  if bar <? PCI_MAPREG_END then
    match n with
    | O => f
    | S n =>
        let a := address (busno f) (dev f) (func f) bar in
        if ones a =? 0 then regions n (bar + 4) f
        else
          let '(base, size, io) := region (c a) (ones a) in
          regions n (bar + bar_width (ones a)) (with_reg f (PCI_MAPREG_NUM bar) base size io)
    end
  else f.

Definition keys : list (Z * Z) := (λ d, (key1 d, key2 d)) <$> pci_attach_vendor (λ _ _ c, c) (λ _ _ _ c, c).
Definition wanted (id : Z) : bool := existsb (λ k, (k.1 =? PCI_VENDOR id) && (k.2 =? PCI_PRODUCT id)) keys.
Definition read_func (b d k : Z) : Func :=
  mk_func b d k (c (address b d k PCI_ID_REG)) (c (address b d k PCI_CLASS_REG))
    (replicate 6 0) (replicate 6 0) (replicate 6 false) (PCI_INTERRUPT_LINE (c (address b d k PCI_INTERRUPT_REG))).
Definition is_bridge (b d k : Z) : bool :=
  let class := c (address b d k PCI_CLASS_REG) in
  (PCI_CLASS_BRIDGE =? PCI_CLASS class) && (PCI_SUBCLASS_BRIDGE_PCI =? PCI_SUBCLASS class) &&
  negb (PCI_BRIDGE_IO_32BITS (c (address b d k PCI_BRIDGE_STATIO_REG))).
Definition secondary (b d k : Z) : Z :=
  Z.land (Z.shiftr (c (address b d k PCI_BRIDGE_BUS_REG)) PCI_BRIDGE_BUS_SECONDARY_SHIFT) 0xff.
Definition header (b d : Z) : Z := c (address b d 0 PCI_BHLC_REG).

Definition visit_func (visit : Z -> list Func) (b d k : Z) : list Func :=
  let id := c (address b d k PCI_ID_REG) in
  if PCI_VENDOR id =? 0xffff then []
  else if is_bridge b d k then visit (secondary b d k)
  else if wanted id then [regions 6 PCI_MAPREG_START (read_func b d k)]
  else [].
Definition visit_dev (visit : Z -> list Func) (b d : Z) : list Func :=
  if 1 <? PCI_HDRTYPE_TYPE (header b d) then []
  else seqZ 0 (if PCI_HDRTYPE_MULTIFN (header b d) then 8 else 1) ≫= visit_func visit b d.
(** The functions the drivers want, in the order of the bus, those behind a bridge in
    its place. *)
Fixpoint visit (fuel : nat) (b : Z) : list Func :=
  match fuel with O => [] | S fuel => seqZ 0 32 ≫= visit_dev (visit fuel) b end.
Definition present (b : Z) : list Z := filter (λ d, PCI_HDRTYPE_TYPE (header b d) <= 1) (seqZ 0 32).
End Spec.

(** ** Lemmas *)

Lemma mod_lor x y n : 0 <= n -> Z.lor x y mod 2 ^ n = Z.lor (x mod 2 ^ n) (y mod 2 ^ n).
Proof. intros. rewrite <- !Z.land_ones by done. apply Z.land_lor_distr_l. Qed.
Lemma shiftl_mod x k n : 0 <= n <= k -> Z.shiftl x k mod 2 ^ n = 0.
Proof.
  intros. rewrite Z.shiftl_mul_pow2 by lia. replace k with (k - n + n) by lia. rewrite Z.pow_add_r by lia.
  rewrite Z.mul_assoc. apply Z_mod_mult.
Qed.
(** The offset can be read off an address. *)
Lemma address_mod b d k off : 0 <= off < 256 -> address b d k off mod 256 = off.
Proof.
  intros Ho. unfold address. change 256 with (2 ^ 8). rewrite !mod_lor by lia. rewrite !shiftl_mod by lia.
  change (u32 (Z.shiftl 1 31) mod 2 ^ 8) with 0. rewrite !Z.lor_0_l. by apply Z.mod_small.
Qed.

Lemma address_sum b d k off : 0 <= b < 256 -> 0 <= d < 32 -> 0 <= k < 8 -> 0 <= off < 256 ->
  address b d k off = 2147483648 + b * 65536 + d * 2048 + k * 256 + off.
Proof.
  intros Hb Hd Hk Ho. unfold address. change (u32 (Z.shiftl 1 31)) with (1 * 2 ^ 31). rewrite !Z.shiftl_mul_pow2 by lia.
  rewrite (lor_add_r 31 _ (b * 2 ^ 16)) by (lia || apply Z_mod_mult).
  rewrite (lor_add_r 16 _ (d * 2 ^ 11)); [|lia|lia|Z.to_euclidean_division_equations; lia].
  rewrite (lor_add_r 11 _ (k * 2 ^ 8)); [|lia|lia|Z.to_euclidean_division_equations; lia].
  rewrite (lor_add_r 8 _ off); [|lia|lia|Z.to_euclidean_division_equations; lia]. lia.
Qed.

(** All ones and then the old value leave a register as it was. *)
Lemma restore_bar w v : is_u32 w -> is_u32 v ->
  Z.lor (Z.land 0xffffffff w) (Z.land v (Z.lnot w)) = Z.lor w (Z.land v (Z.lnot w)) /\
  Z.lor (Z.land v w) (Z.land (Z.lor w (Z.land v (Z.lnot w))) (Z.lnot w)) = v.
Proof.
  intros Hw Hv. split.
  - rewrite Z.land_comm. change 0xffffffff with (Z.ones 32). rewrite Z.land_ones by lia. by rewrite Z.mod_small.
  - apply Z.bits_inj'. intros n Hn. rewrite !Z.lor_spec, !Z.land_spec, !Z.lor_spec, !Z.land_spec, !Z.lnot_spec by done.
    by destruct (Z.testbit v n), (Z.testbit w n).
Qed.

Lemma fixed_refl c : fixed c c.
Proof. done. Qed.
Lemma fixed_trans c1 c2 c3 : fixed c1 c2 -> fixed c2 c3 -> fixed c1 c3.
Proof.
  intros H1 H2 a. destruct (H1 a) as [A1 A2], (H2 a) as [B1 B2]. split.
  - intros. by rewrite B1, A1.
  - intros. by rewrite B2, A2.
Qed.
Lemma fixed_ext c1 c2 : (forall a, c2 a = c1 a) -> fixed c1 c2.
Proof. intros H a. by rewrite H. Qed.

Section Proofs.
Context {hw_write : Z -> Z -> space -> space} {hw_write_byte : Z -> Z -> Z -> space -> space} {writable : Z -> Z}.
Hypothesis Hhw : config_space hw_write hw_write_byte writable.

Definition valid (f : Func) : Prop := 0 <= busno f < 256 /\ 0 <= dev f < 32 /\ 0 <= func f < 8.
Definition addr_of (f : Func) (off : Z) : Z := address (busno f) (dev f) (func f) off.
Definition pointing (s : state) (a : Z) : state := mk_state (cfg s) a (stored_pci_devices s).

(** No assertion fails. *)
Lemma set_addr_eq f off s : valid f -> 0 <= off < 256 -> off mod 4 = 0 ->
  pci_conf1_set_addr (busno f) (dev f) (func f) off s = Some (pointing s (addr_of f off), tt).
Proof.
  intros (H1 & H2 & H3) Ho Hm. unfold pci_conf1_set_addr.
  assert (E : Z.land off 3 = 0) by (change 3 with (Z.ones 2); by rewrite Z.land_ones by lia). rewrite E.
  destruct (Z.ltb_spec (busno f) 256); [|lia]. destruct (Z.ltb_spec (dev f) 32); [|lia].
  destruct (Z.ltb_spec (func f) 8); [|lia]. destruct (Z.ltb_spec off 256); [|lia]. done.
Qed.
Lemma read_eq {B} f off (k : Z -> M B) s : valid f -> 0 <= off < 256 -> off mod 4 = 0 ->
  bind (pci_conf_read f off) k s = k (cfg s (addr_of f off)) (pointing s (addr_of f off)).
Proof. intros. unfold pci_conf_read, bind. by rewrite set_addr_eq. Qed.
Lemma write_eq {B} f off v (k : unit -> M B) s : valid f -> 0 <= off < 256 -> off mod 4 = 0 ->
  bind (pci_conf_write hw_write f off v) k s =
    k tt (mk_state (hw_write (addr_of f off) v (cfg s)) (addr_of f off) (stored_pci_devices s)).
Proof. intros. unfold pci_conf_write, bind. by rewrite set_addr_eq. Qed.

Lemma regions_ext c c' n bar f : space_ok c -> (forall a, 0x10 <= a mod 256 < 0x28 -> c' a = c a) -> 0x10 <= bar ->
  regions writable c' n bar f = regions writable c n bar f.
Proof.
  intros Hok Hc. revert bar f. induction n as [|n IH]; intros bar f Hb; cbn [regions]; [done|].
  destruct (Z.ltb_spec bar PCI_MAPREG_END) as [Hlt|]; [|done]. unfold PCI_MAPREG_END in Hlt. cbv zeta.
  unfold ones. rewrite Hc by (rewrite address_mod; lia). destruct (_ =? 0); [apply IH; lia|].
  destruct (region _ _) as [[base size] io]. apply IH. unfold bar_width. destruct (_ && _); lia.
Qed.

(** The registers are as before, and the regions are those of the specification. *)
Lemma probe_spec n bar f s :
  space_ok (cfg s) -> valid f -> 0x10 <= bar -> bar mod 4 = 0 -> PCI_MAPREG_END <= bar + 4 * Z.of_nat n ->
  exists s', probe_bars hw_write n bar f s = Some (s', regions writable (cfg s) n bar f) /\
    (forall a, cfg s' a = cfg s a) /\ stored_pci_devices s' = stored_pci_devices s.
Proof.
  revert bar f s. induction n as [|n IH]; intros bar f s Hok Hf Hb Hm Hn; cbn [probe_bars regions].
  { destruct (Z.ltb_spec bar PCI_MAPREG_END); [lia|]. by exists s. }
  destruct (Z.ltb_spec bar PCI_MAPREG_END) as [Hlt|]; [|by exists s]. unfold PCI_MAPREG_END in *.
  rewrite read_eq, write_eq, read_eq by (done || lia). cbn [cfg pointing stored_pci_devices]. set (a := addr_of f bar).
  assert (Ha : 0x10 <= a mod 256 < 0x28) by (unfold a, addr_of; rewrite address_mod; lia).
  destruct (restore_bar (writable a) (cfg s a)) as [E1 E2]; [apply Hhw|apply Hok|].
  assert (Eo : hw_write a 0xffffffff (cfg s) a = ones writable (cfg s) a)
    by (rewrite (write_bar _ _ _ Hhw), Z.eqb_refl by done; done).
  rewrite Eo. change (address (busno f) (dev f) (func f) bar) with a.
  destruct (Z.eqb_spec (ones writable (cfg s) a) 0) as [Ez|Enz].
  - set (s1 := mk_state _ _ _).
    assert (Hs1 : forall x, cfg s1 x = cfg s x).
    { intros x. cbn. rewrite (write_bar _ _ _ Hhw) by done. destruct (Z.eqb_spec x a) as [->|]; [|done].
      rewrite E1. unfold ones in Ez. apply Z.lor_eq_0_iff in Ez as [Ew Er]. rewrite Ew in *. cbn [Z.lor].
      rewrite Er. by rewrite <- E2, Er, Z.land_0_r. }
    destruct (IH (bar + 4) f s1) as (s' & E & Hc & Hs); try done; try lia.
    + intros x. rewrite Hs1. apply Hok.
    + Z.to_euclidean_division_equations; lia.
    + exists s'. split; [etransitivity; [exact E|]; f_equal; f_equal; apply regions_ext; [done|intros; apply Hs1|lia]|].
      split; [|done]. intros x. by rewrite Hc.
  - destruct (region _ _) as [[base size] io]. rewrite write_eq by (done || lia). fold a. cbn [cfg stored_pci_devices].
    set (s1 := mk_state _ _ _).
    assert (Hs1 : forall x, cfg s1 x = cfg s x).
    { intros x. cbn. rewrite (write_bar _ _ _ Hhw) by done. rewrite Eo.
      destruct (Z.eqb_spec x a) as [->|Hne]; [exact E2|].
      rewrite (write_bar _ _ _ Hhw) by done. by apply Z.eqb_neq in Hne as ->. }
    set (w := bar_width _). assert (Hw : w = 4 \/ w = 8) by (unfold w, bar_width; destruct (_ && _); auto).
    destruct (IH (bar + w) (with_reg f (PCI_MAPREG_NUM bar) base size io) s1) as (s' & E & Hc & Hs); try done; try lia.
    + intros x. rewrite Hs1. apply Hok.
    + destruct Hw as [-> | ->]; Z.to_euclidean_division_equations; lia.
    + exists s'. split; [etransitivity; [exact E|]; f_equal; f_equal; apply regions_ext; [done|intros; apply Hs1|lia]|].
      split; [|done]. intros x. by rewrite Hc.
Qed.

Lemma latency_spec f s : space_ok (cfg s) -> valid f -> exists s',
  bind (pci_conf_read_byte f PCI_LATENCY_TIMER) (λ lat,
    if lat <? 32 then pci_conf_write_byte hw_write_byte f PCI_LATENCY_TIMER 32 else ret tt) s = Some (s', tt) /\
  fixed (cfg s) (cfg s') /\ space_ok (cfg s') /\ stored_pci_devices s' = stored_pci_devices s.
Proof.
  intros Hok Hf. unfold pci_conf_read_byte, pci_conf_write_byte, PCI_LATENCY_TIMER, bind.
  change (Z.land 13 (Z.lnot 3)) with 12. change (Z.land 13 3) with 1.
  rewrite set_addr_eq by (done || lia). cbn [inb_data].
  destruct (_ <? 32); [|by eexists]. rewrite set_addr_eq by (done || lia). eexists. split; [reflexivity|].
  cbn [cfg stored_pci_devices pointing conf_addr]. set (a := addr_of f 12).
  assert (Ha : a mod 256 = 12) by (unfold a, addr_of; by rewrite address_mod).
  split; [|split; [exact (write_byte_range _ _ _ Hhw _ _ _ _ Hok)|done]]. intros x. split.
  - intros _ Hx. apply (write_latency _ _ _ Hhw); [done|]. by intros ->.
  - intros Hx. destruct (Z.eq_dec x a) as [->|Hne]; [by apply (latency_type _ _ _ Hhw)|].
    by rewrite (write_latency _ _ _ Hhw).
Qed.

Lemma enable_spec f s : space_ok (cfg s) -> valid f -> exists s',
  pci_func_enable hw_write hw_write_byte f s = Some (s', regions writable (cfg s) 6 PCI_MAPREG_START f) /\
  fixed (cfg s) (cfg s') /\ space_ok (cfg s') /\ stored_pci_devices s' = stored_pci_devices s.
Proof.
  intros Hok Hf. unfold pci_func_enable, PCI_COMMAND_STATUS_REG. rewrite write_eq by (done || lia).
  set (s1 := mk_state _ _ _). set (a := addr_of f 4) in *.
  assert (Ha : a mod 256 = 4) by (unfold a, addr_of; by rewrite address_mod).
  assert (H1 : fixed (cfg s) (cfg s1)).
  { intros x. split; [intros Hx _|intros Hx]; cbn; rewrite (write_command _ _ _ Hhw); try done; intros ->; lia. }
  assert (Hok1 : space_ok (cfg s1)) by exact (write_range _ _ _ Hhw _ _ _ Hok).
  destruct (latency_spec f s1 Hok1 Hf) as (s2 & E2 & H2 & Hok2 & Hs2).
  destruct (probe_spec 6 PCI_MAPREG_START f s2) as (s3 & E3 & H3 & Hs3); try done.
  exists s3. split.
  - revert E2. unfold bind. destruct (pci_conf_read_byte _ _ s1) as [[s1' lat]|]; [|done]. intros E2. rewrite E2, E3.
    f_equal. f_equal. apply regions_ext; [done| |done].
    intros x Hx. destruct (fixed_trans _ _ _ H1 H2 x) as [Hx1 _]. apply Hx1; lia.
  - split; [|split].
    + apply (fixed_trans _ (cfg s1)); [done|]. apply (fixed_trans _ (cfg s2)); [done|]. by apply fixed_ext.
    + intros x. rewrite H3. apply Hok2.
    + by rewrite Hs3, Hs2.
Qed.

(** *** What a computation adds to the stored devices

    [m] never fails, keeps the fixed part of the space [c0], adds [new] to the stored
    devices, as far as there is room, and answers as [Q] says. *)
Section Adds.
Variable c0 : space.

Record good (s : state) : Prop := {
  g_fixed : fixed c0 (cfg s); g_ok : space_ok (cfg s); g_room : zlen (stored_pci_devices s) <= 128 }.
Definition adds {A} (m : M A) (new : list Func) (Q : A -> Prop) : Prop :=
  forall s, good s -> exists s' r, m s = Some (s', r) /\ good s' /\ Q r /\
    stored_pci_devices s' = take 128 (stored_pci_devices s ++ new).

Lemma take_store (l new new' : list Func) :
  take 128 (take 128 (l ++ new) ++ new') = take 128 (l ++ new ++ new').
Proof.
  rewrite app_assoc. generalize (l ++ new). intros k. rewrite take_app, take_take, Nat.min_id, length_take.
  rewrite take_app. f_equal. destruct (Nat.le_gt_cases 128 (length k)); [|f_equal; lia].
  by replace (128 - length k)%nat with 0%nat by lia; replace (128 - Nat.min 128 (length k))%nat with 0%nat by lia.
Qed.

Lemma adds_ret {A} (a : A) (Q : A -> Prop) : Q a -> adds (ret a) [] Q.
Proof.
  intros HQ s Hs. exists s, a. conj_split; try done. rewrite app_nil_r, take_ge; [done|].
  pose proof (g_room _ Hs). unfold zlen in *. lia.
Qed.
Lemma adds_bind {A B} (m : M A) (k : A -> M B) new new' Q Q' :
  adds m new Q -> (forall a, Q a -> adds (k a) new' Q') -> adds (bind m k) (new ++ new') Q'.
Proof.
  intros Hm Hk s Hs. destruct (Hm s Hs) as (s1 & a & E1 & H1 & Ha & S1).
  destruct (Hk a Ha s1 H1) as (s2 & b & E2 & H2 & Hb & S2). exists s2, b. unfold bind. rewrite E1.
  conj_split; try done. by rewrite S2, S1, take_store.
Qed.
Lemma adds_weaken {A} (m : M A) new (Q Q' : A -> Prop) : adds m new Q -> (forall a, Q a -> Q' a) -> adds m new Q'.
Proof. intros Hm HQ s Hs. destruct (Hm s Hs) as (s' & a & ? & ? & ? & ?). exists s', a. auto. Qed.

Lemma good_pointing s a : good s -> good (pointing s a).
Proof. by intros []. Qed.
Lemma adds_read {B} f off (k : Z -> M B) new Q :
  valid f -> 0 <= off < 256 -> off mod 4 = 0 -> off <> 4 -> off <> 12 ->
  adds (k (c0 (addr_of f off))) new Q -> adds (bind (pci_conf_read f off) k) new Q.
Proof.
  intros Hf Ho Hm H4 H12 Hk s Hs. rewrite read_eq by done.
  destruct (g_fixed _ Hs (addr_of f off)) as [-> _]; [|unfold addr_of; by rewrite address_mod..].
  destruct (Hk _ (good_pointing s (addr_of f off) Hs)) as (s' & r & E & H). by exists s', r.
Qed.
Lemma adds_header {B} f (k : Z -> M B) new Q :
  valid f -> (forall h, PCI_HDRTYPE h = PCI_HDRTYPE (c0 (addr_of f PCI_BHLC_REG)) -> adds (k h) new Q) ->
  adds (bind (pci_conf_read f PCI_BHLC_REG) k) new Q.
Proof.
  intros Hf Hk s Hs. rewrite read_eq by (done || (unfold PCI_BHLC_REG; lia)).
  destruct (g_fixed _ Hs (addr_of f PCI_BHLC_REG)) as [_ Ht]. unfold addr_of in Ht at 1.
  specialize (Ht (address_mod _ _ _ PCI_BHLC_REG ltac:(unfold PCI_BHLC_REG; lia))).
  destruct (Hk _ Ht _ (good_pointing s (addr_of f PCI_BHLC_REG) Hs)) as (s' & r & E & H). by exists s', r.
Qed.

Lemma adds_store f : valid f ->
  adds (pci_store hw_write hw_write_byte f) [regions writable c0 6 PCI_MAPREG_START f] (λ r, (0 <? snd r) = false).
Proof.
  intros Hf s Hs. unfold pci_store, n_stored_pci_devices, MAX_N_PCI_DEVICES.
  destruct Hs as [H1 H2 H3].
  assert (E : regions writable (cfg s) 6 PCI_MAPREG_START f = regions writable c0 6 PCI_MAPREG_START f).
  { symmetry. apply regions_ext; [done| |done]. intros a Ha. symmetry. apply H1; lia. }
  destruct (Z.ltb_spec (zlen (stored_pci_devices s)) 128) as [Hlt|Hge].
  - destruct (enable_spec f s H2 Hf) as (s1 & E1 & F1 & O1 & S1). unfold bind. rewrite E1, E.
    do 2 eexists. split; [reflexivity|]. unfold zlen in *. conj_split; [|done|].
    + constructor; cbn [cfg stored_pci_devices]; [by apply (fixed_trans _ (cfg s))|done|].
      rewrite S1. unfold zlen. rewrite length_app. cbn. lia.
    + cbn [stored_pci_devices]. rewrite S1, take_ge; [done|]. rewrite length_app. cbn. lia.
  - exists s. eexists. split; [reflexivity|]. conj_split; [done|done|]. unfold zlen in *.
    assert (Hl : length (stored_pci_devices s) = 128%nat) by lia.
    rewrite take_app_le by lia. rewrite take_ge; [done|lia].
Qed.

Lemma adds_match ks v p f : NoDup ks -> valid f ->
  adds (pci_attach_match v p ((λ k, mk_driver (fst k) (snd k) (pci_store hw_write hw_write_byte)) <$> ks) f)
    (if existsb (λ k, (k.1 =? v) && (k.2 =? p)) ks then [regions writable c0 6 PCI_MAPREG_START f] else [])
    (λ r, r = 0).
Proof.
  assert (Hno : forall ks f, existsb (λ k, (k.1 =? v) && (k.2 =? p)) ks = false ->
    adds (pci_attach_match v p ((λ k, mk_driver (fst k) (snd k) (pci_store hw_write hw_write_byte)) <$> ks) f) []
      (λ r, r = 0)).
  { clear ks f. induction ks as [|k ks IH]; intros f; cbn; [by intros; apply adds_ret|].
    intros [-> H]%orb_false_iff. by apply IH. }
  induction 1 as [|k ks Hk _ IH]; intros Hf; [by apply Hno|]. cbn.
  destruct ((k.1 =? v) && (k.2 =? p)) eqn:E; [|by apply IH]. cbn [orb].
  apply (adds_bind _ _ [_] [] (λ r, (0 <? snd r) = false)); [by apply adds_store|].
  intros [f' r] Hr. cbn [snd fst] in *. rewrite Hr. apply Hno.
  apply andb_true_iff in E as [E1%Z.eqb_eq E2%Z.eqb_eq]. apply not_true_is_false.
  intros (k' & Hin & [E3%Z.eqb_eq E4%Z.eqb_eq]%andb_true_iff)%existsb_exists. apply Hk.
  replace k with k'; [by apply list_elem_of_In|]. destruct k, k'. cbn in *. congruence.
Qed.

(** Behind every bridge is a bus with a higher number. *)
Hypothesis Hup : forall b d k, 0 <= b < 256 -> 0 <= d < 32 -> 0 <= k < 8 ->
  is_bridge c0 b d k = true -> b < secondary c0 b d k.

Lemma secondary_range b d k : 0 <= secondary c0 b d k < 256.
Proof. unfold secondary. change 0xff with (Z.ones 8). rewrite Z.land_ones by lia. by apply Z.mod_pos_bound. Qed.

Section Bus.
Variable scan : Z -> M Z.
Variable found : Z -> list Func.
Variable b : Z.
Hypothesis Hb : 0 <= b < 256.
Hypothesis Hscan : forall b', b < b' < 256 -> adds (scan b') (found b') (λ _, True).

Lemma keys_nodup : NoDup keys.
Proof. apply (bool_decide_unpack _). by vm_compute. Qed.

Lemma adds_attach d k : 0 <= d < 32 -> 0 <= k < 8 ->
  adds (pci_attach hw_write hw_write_byte scan (read_func c0 b d k))
    (if is_bridge c0 b d k then found (secondary c0 b d k)
     else if wanted (c0 (address b d k PCI_ID_REG)) then [regions writable c0 6 PCI_MAPREG_START (read_func c0 b d k)]
     else []) (λ _, True).
Proof.
  intros Hd Hk. set (f := read_func c0 b d k). assert (Hf : valid f) by done.
  assert (Hvendor : adds (bind (pci_attach_match (PCI_VENDOR (dev_id f)) (PCI_PRODUCT (dev_id f))
      (pci_attach_vendor hw_write hw_write_byte) f) (λ r, ret (if negb (r =? 0) then 1 else 0)))
    (if wanted (c0 (address b d k PCI_ID_REG)) then [regions writable c0 6 PCI_MAPREG_START f] else []) (λ _, True)).
  { rewrite <- (app_nil_r (if wanted _ then _ else _)).
    apply (adds_bind _ _ _ _ (λ r, r = 0)); [|intros; by apply adds_ret]. by apply (adds_match _ _ _ f keys_nodup). }
  pose proof (Hup b d k Hb Hd Hk) as Hgo. unfold pci_attach.
  cbn [pci_attach_match pci_attach_class key1 key2 attachfn]. unfold is_bridge in *. cbv zeta in Hgo.
  change (c0 (address b d k PCI_CLASS_REG)) with (dev_class f) in *.
  destruct ((PCI_CLASS_BRIDGE =? PCI_CLASS (dev_class f)) && (PCI_SUBCLASS_BRIDGE_PCI =? PCI_SUBCLASS (dev_class f)));
    cbn [andb] in *; [|by apply (adds_bind _ _ [] _ (λ r, r = 0)); [apply adds_ret|intros r ->]].
  set (io := PCI_BRIDGE_IO_32BITS _) in *.
  assert (Hbridge : adds (pci_bridge_attach scan f) (if io then [] else found (secondary c0 b d k))
    (λ r, r = (f, if io then 0 else 1))).
  { unfold pci_bridge_attach. apply adds_read; [done..|]. apply adds_read; [done..|].
    change (PCI_BRIDGE_IO_32BITS _) with io. destruct io; [by apply adds_ret|].
    rewrite <- (app_nil_r (found _)). apply (adds_bind _ _ _ _ (λ _, True)); [|intros; by apply adds_ret].
    apply Hscan. pose proof (secondary_range b d k). specialize (Hgo eq_refl). lia. }
  destruct io; cbn [negb].
  - apply (adds_bind _ _ [] _ (λ r, r = 0)); [|by intros r ->].
    apply (adds_bind _ _ [] [] _ _ Hbridge). intros r ->. by apply adds_ret.
  - rewrite <- (app_nil_r (found _)). apply (adds_bind _ _ _ _ (λ r, r = 1)); [|by intros r ->; apply adds_ret].
    rewrite <- (app_nil_r (found _)). apply (adds_bind _ _ _ [] _ _ Hbridge). intros r ->. by apply adds_ret.
Qed.

Lemma adds_func d k : 0 <= d < 32 -> 0 <= k < 8 ->
  adds (scan_func hw_write hw_write_byte scan b d k) (visit_func writable c0 found b d k) (λ _, True).
Proof.
  intros Hd Hk. unfold scan_func, visit_func. cbv zeta. apply adds_read; [done..|].
  change (addr_of (blank b d k) PCI_ID_REG) with (address b d k PCI_ID_REG).
  destruct (_ =? 0xffff); [by apply adds_ret|]. apply adds_read; [done..|]. apply adds_read; [done..|].
  match goal with |- adds _ ?l _ => rewrite <- (app_nil_r l) end.
  apply (adds_bind _ _ _ [] (λ _, True)); [by apply adds_attach|intros; by apply adds_ret].
Qed.

Lemma adds_funcs d ks : 0 <= d < 32 -> Forall (λ k, 0 <= k < 8) ks ->
  adds (scan_funcs hw_write hw_write_byte scan b d ks) (ks ≫= visit_func writable c0 found b d) (λ _, True).
Proof.
  intros Hd. induction 1 as [|k ks Hk _ IH]; cbn; [by apply adds_ret|].
  apply (adds_bind _ _ _ _ (λ _, True)); [by apply adds_func|done].
Qed.

Lemma adds_devs ds total : Forall (λ d, 0 <= d < 32) ds ->
  adds (scan_devs hw_write hw_write_byte scan b ds total) (ds ≫= visit_dev writable c0 found b)
    (λ r, r = total + zlen (filter (λ d, PCI_HDRTYPE_TYPE (header c0 b d) <= 1) ds)).
Proof.
  intros H. revert total. induction H as [|d ds Hd _ IH]; intros total; cbn [scan_devs mbind list_bind].
  { apply adds_ret. unfold zlen. cbn. lia. }
  apply adds_header; [done|]. intros h Hh. change (addr_of (blank b d 0) PCI_BHLC_REG) with (address b d 0 PCI_BHLC_REG) in Hh.
  fold (header c0 b d) in Hh. unfold visit_dev at 1.
  assert (PCI_HDRTYPE_TYPE h = PCI_HDRTYPE_TYPE (header c0 b d)) as -> by (unfold PCI_HDRTYPE_TYPE; by rewrite Hh).
  assert (PCI_HDRTYPE_MULTIFN h = PCI_HDRTYPE_MULTIFN (header c0 b d)) as ->
    by (unfold PCI_HDRTYPE_MULTIFN; by rewrite Hh).
  destruct (Z.ltb_spec 1 (PCI_HDRTYPE_TYPE (header c0 b d))).
  - rewrite filter_cons_False by lia. apply IH.
  - rewrite filter_cons_True by lia. apply (adds_bind _ _ _ _ (λ _, True)).
    + apply adds_funcs; [done|]. apply Forall_forall. intros k Hk%elem_of_seqZ. destruct (PCI_HDRTYPE_MULTIFN _); lia.
    + intros _ _. apply (adds_weaken _ _ _ _ (IH (total + 1))). intros r ->. rewrite zlen_cons. lia.
Qed.
End Bus.

Lemma adds_bus fuel b : 0 <= b < 256 -> (Z.to_nat (256 - b) <= fuel)%nat ->
  adds (pci_scan_bus hw_write hw_write_byte fuel b) (visit writable c0 fuel b) (λ r, r = zlen (present c0 b)).
Proof.
  revert b. induction fuel as [|fuel IH]; intros b Hb Hf; [lia|]. cbn [pci_scan_bus visit].
  apply (adds_devs (pci_scan_bus hw_write hw_write_byte fuel) (visit writable c0 fuel) b Hb).
  - intros b' Hb'. eapply adds_weaken; [apply IH; lia|done].
  - apply Forall_forall. intros d Hd%elem_of_seqZ. lia.
Qed.

(** More fuel than that changes nothing. *)
Lemma visit_fuel n m b : 0 <= b < 256 -> (Z.to_nat (256 - b) <= n)%nat -> (Z.to_nat (256 - b) <= m)%nat ->
  visit writable c0 n b = visit writable c0 m b.
Proof.
  revert m b. induction n as [|n IH]; intros [|m] b Hb Hn Hm; try lia. cbn [visit].
  apply Forall_bind_ext, Forall_forall. intros d Hd%elem_of_seqZ. unfold visit_dev. destruct (1 <? _); [done|].
  apply Forall_bind_ext, Forall_forall. intros k Hk%elem_of_seqZ. unfold visit_func. cbv zeta. destruct (_ =? 0xffff); [done|].
  destruct (is_bridge c0 b d k) eqn:E; [|done]. pose proof (secondary_range b d k).
  apply Hup in E; [apply IH; lia|done|lia|]. destruct (PCI_HDRTYPE_MULTIFN _); lia.
Qed.

End Adds.
Definition bridges_go_up (c : space) : Prop := forall b d k,
  0 <= b < 256 -> 0 <= d < 32 -> 0 <= k < 8 -> is_bridge c b d k = true -> b < secondary c b d k.

Lemma init_scans fuel s : (256 <= fuel)%nat ->
  space_ok (cfg s) -> stored_pci_devices s = [] -> bridges_go_up (cfg s) ->
  exists s', init hw_write hw_write_byte fuel s = Some (s', zlen (present (cfg s) 0)) /\
    stored_pci_devices s' = take 128 (visit writable (cfg s) 256 0) /\ fixed (cfg s) (cfg s').
Proof.
  intros Hf Hok Hs Hup.
  destruct (adds_bus (cfg s) Hup fuel 0 ltac:(lia) ltac:(lia) s) as (s' & r & E & Hg & -> & Hst).
  { constructor; [apply fixed_refl|done|]. rewrite Hs. unfold zlen. cbn. lia. }
  exists s'. conj_split; [exact E| |by apply Hg]. rewrite Hst, Hs. cbn [app]. f_equal. apply visit_fuel; done || lia.
Qed.

(** C20: The scan ends and finds every device.  When each bridge leads to a bus with a
    higher number, fuel for 256 nested buses is enough: no assertion fails, every
    function the table asks for is stored once, in bus order, those behind a bridge
    in its place, the first 128 of them, with the base, size and kind of its regions;
    and after it all base address registers are what they were. *)
Theorem pci_init_finds_all fuel s : (256 <= fuel)%nat ->
  space_ok (cfg s) -> stored_pci_devices s = [] -> bridges_go_up (cfg s) ->
  exists s', init hw_write hw_write_byte fuel s = Some (s', zlen (present (cfg s) 0)) /\
    stored_pci_devices s' = take 128 (visit writable (cfg s) 256 0) /\ fixed (cfg s) (cfg s').
Proof. exact (init_scans fuel s). Qed.

End Proofs.

(** ** What is stored of a region has 32 bits *)

Section Ranges.
Variable writable : Z -> Z.
Variable c : space.
Hypothesis Hw : forall a, is_u32 (writable a).
Hypothesis Hc : space_ok c.
Definition regions_u32 (f : Func) : Prop := Forall is_u32 (reg_base f) /\ Forall is_u32 (reg_size f).

Lemma land_u32 a b : is_u32 a -> is_u32 (Z.land a b).
Proof. intros Ha. apply (land_bound 32); [done|exact Ha]. Qed.
Lemma ones_u32 a : is_u32 (ones writable c a).
Proof.
  unfold ones. assert (H := Hw a). assert (H2 := land_u32 (c a) (Z.lnot (writable a)) (Hc a)).
  set (x := writable a) in *. set (y := Z.land (c a) _) in *. clearbody x y. unfold is_u32 in *. change 4294967296 with (2 ^ 32) in *.
  split; [apply Z.lor_nonneg; lia|]. destruct (Z.eq_dec (Z.lor x y) 0) as [E|E]; [by rewrite E|].
  apply Z.log2_lt_pow2; [pose proof (proj2 (Z.lor_nonneg x y)); lia|]. rewrite Z.log2_lor by lia. apply Z.max_lub_lt.
  - destruct (Z.eq_dec x 0) as [->|]; [done|]. apply Z.log2_lt_pow2; lia.
  - destruct (Z.eq_dec y 0) as [->|]; [done|]. apply Z.log2_lt_pow2; lia.
Qed.
Lemma region_u32 o r : is_u32 o -> is_u32 r -> let '(base, size, _) := region o r in is_u32 base /\ is_u32 size.
Proof.
  intros Ho Hr. unfold region, PCI_MAPREG_MEM_ADDR, PCI_MAPREG_MEM_SIZE, PCI_MAPREG_IO_ADDR, PCI_MAPREG_IO_SIZE.
  destruct (_ =? _); split; by repeat apply land_u32.
Qed.
Lemma zset_u32 l i x : Forall is_u32 l -> is_u32 x -> Forall is_u32 (zset l i x).
Proof. intros Hl Hx. unfold zset. by apply Forall_insert. Qed.
Lemma regions_range n bar f : regions_u32 f -> regions_u32 (regions writable c n bar f).
Proof.
  revert bar f. induction n as [|n IH]; intros bar f Hf; cbn [regions]; destruct (bar <? _); try done.
  cbv zeta. destruct (_ =? 0); [by apply IH|].
  match goal with |- context [region ?o ?r] => pose proof (region_u32 o r (Hc _) (ones_u32 _)) as H; destruct (region o r) as [[base size] io] end.
  apply IH. destruct H as [H1 H2], Hf as [F1 F2]. split; cbn; by apply zset_u32.
Qed.
Lemma visit_range n : forall b f, f ∈ visit writable c n b -> regions_u32 f.
Proof.
  induction n as [|n IH]; intros b f; cbn [visit]; [by intros ?%elem_of_nil|].
  intros (d & Hd & _)%list_elem_of_bind. unfold visit_dev in Hd. destruct (1 <? _); [by apply elem_of_nil in Hd|].
  apply list_elem_of_bind in Hd as (k & Hk & _). unfold visit_func in Hk. cbv zeta in Hk.
  destruct (_ =? 0xffff); [by apply elem_of_nil in Hk|]. destruct (is_bridge _ _ _ _); [by apply IH in Hk|].
  destruct (wanted _); [|by apply elem_of_nil in Hk]. apply list_elem_of_singleton in Hk as ->.
  apply regions_range. split; cbn; by repeat constructor.
Qed.
End Ranges.

(** ** Regions *)

(** The writable bits of a register of [2 ^ k] bytes are the high ones. *)
Definition size_mask (k : Z) : Z := 2 ^ 32 - 2 ^ k.

Lemma size_mask_bits k n : 0 <= k <= 32 -> 0 <= n -> Z.testbit (size_mask k) n = (k <=? n) && (n <? 32).
Proof.
  intros Hk Hn. unfold size_mask. replace (2 ^ 32 - 2 ^ k) with (Z.shiftl (Z.ones (32 - k)) k).
  - rewrite Z.shiftl_spec by done. destruct (Z.leb_spec k n); cbn [andb].
    + rewrite Z.testbit_ones by lia. destruct (Z.ltb_spec (n - k) (32 - k)), (Z.ltb_spec n 32), (Z.leb_spec 0 (n - k)); lia.
    + apply Z.testbit_neg_r. lia.
  - rewrite Z.shiftl_mul_pow2 by lia. rewrite Z.ones_equiv. replace 32 with (32 - k + k) at 2 by lia.
    rewrite Z.pow_add_r by lia. nia.
Qed.

(** The mask of the sizes that fit in 32 bits, and what is left of a value below it. *)
Lemma ones_split w k low : w = size_mask k -> 0 <= k < 32 -> 0 <= low < 2 ^ k ->
  forall v, is_u32 v -> v mod 2 ^ k = low -> Z.lor w (Z.land v (Z.lnot w)) = 2 ^ 32 - 2 ^ k + low.
Proof.
  intros -> Hk Hlow v Hv Hvl. assert (E : Z.land v (Z.lnot (size_mask k)) = low).
  { rewrite <- Hvl, <- Z.land_ones by lia. apply Z.bits_inj'. intros n Hn. rewrite !Z.land_spec, Z.lnot_spec by done.
    rewrite size_mask_bits by lia. rewrite Z.testbit_ones by lia.
    destruct (Z.ltb_spec n 32) as [H|H].
    - destruct (Z.leb_spec k n), (Z.ltb_spec n k), (Z.leb_spec 0 n); try lia; cbn [negb andb]; done.
    - rewrite (testbit_high v 32); [done|unfold is_u32 in Hv; lia|lia]. }
  rewrite E. apply (lor_add_r k); [lia|done|]. unfold size_mask.
  replace (2 ^ 32) with (2 ^ (32 - k) * 2 ^ k) by (rewrite <- Z.pow_add_r by lia; f_equal; lia).
  rewrite <- Z.mul_pred_l. apply Z_mod_mult.
Qed.

(** [x & -x] of a power of two and the ones above it is that power. *)
Lemma lowest_bit k : 0 <= k < 32 -> Z.land (size_mask k) (u32 (- size_mask k)) = 2 ^ k.
Proof.
  intros Hk. assert (0 < 2 ^ k < 2 ^ 32) by (split; [lia|apply Z.pow_lt_mono_r; lia]).
  replace (u32 (- size_mask k)) with (2 ^ k) by (unfold size_mask, u32; Z.to_euclidean_division_equations; lia).
  apply Z.bits_inj'. intros n Hn. rewrite Z.land_spec, size_mask_bits by lia. rewrite Z.pow2_bits_eqb by lia.
  destruct (Z.eqb_spec k n), (Z.leb_spec k n), (Z.ltb_spec n 32); cbn [andb]; lia.
Qed.

(** Clearing the low bits. *)
Lemma land_high v j : 0 <= j <= 32 -> is_u32 v -> Z.land v (size_mask j) = v - v mod 2 ^ j.
Proof.
  intros Hj Hv. rewrite <- (Z.land_ones v j) by lia.
  rewrite Z.sub_nocarry_ldiff.
  - apply Z.bits_inj'. intros n Hn. rewrite Z.land_spec, Z.ldiff_spec, Z.land_spec, size_mask_bits by lia.
    rewrite Z.testbit_ones by lia. destruct (Z.ltb_spec n 32) as [H|H].
    + destruct (Z.testbit v n), (Z.leb_spec j n), (Z.leb_spec 0 n), (Z.ltb_spec n j); try lia; done.
    + rewrite (testbit_high v 32); [done|unfold is_u32 in Hv; lia|lia].
  - apply Z.bits_inj'. intros n Hn. rewrite Z.ldiff_spec, Z.land_spec, Z.bits_0.
    by destruct (Z.testbit v n), (Z.testbit (Z.ones j) n).
Qed.
Lemma region_size k j t : 0 <= j <= k -> k < 32 -> 0 <= t < 2 ^ j ->
  let rv := 2 ^ 32 - 2 ^ k + t in
  Z.land rv (size_mask j) = size_mask k /\ rv mod 2 ^ j = t.
Proof.
  intros Hj Hk Ht rv. assert (0 < 2 ^ j <= 2 ^ k) by (split; [lia|apply Z.pow_le_mono_r; lia]).
  assert (2 ^ k < 2 ^ 32) by (apply Z.pow_lt_mono_r; lia).
  assert (Hm : rv mod 2 ^ j = t).
  { unfold rv. replace (2 ^ 32) with (2 ^ (32 - j) * 2 ^ j) by (rewrite <- Z.pow_add_r by lia; f_equal; lia).
    replace (2 ^ k) with (2 ^ (k - j) * 2 ^ j) by (rewrite <- Z.pow_add_r by lia; f_equal; lia).
    rewrite <- Z.mul_sub_distr_r, Z.add_comm, Z_mod_plus_full. by apply Z.mod_small. }
  split; [|done]. rewrite land_high by (unfold rv, is_u32; lia). rewrite Hm. unfold rv, size_mask. lia.
Qed.

Lemma low_bits v k j t : 0 <= j <= k -> v mod 2 ^ k = t -> t < 2 ^ j -> v mod 2 ^ j = t.
Proof.
  intros Hj Hv Ht. assert (0 <= t) by (subst; apply Z.mod_pos_bound, Z.pow_pos_nonneg; lia).
  rewrite <- (Z.mod_mod_divide v (2 ^ k)), Hv; [by apply Z.mod_small|].
  exists (2 ^ (k - j)). rewrite <- Z.pow_add_r by lia. f_equal. lia.
Qed.

(** What the probe finds is the region.  A register that decodes [2 ^ k] bytes, its
    bits below [k] read-only and all zero but for the type [t], gives the base
    address, which is aligned, the size [2 ^ k], and whether it is an I/O region. *)
Theorem region_correct writable c a k t :
  writable a = size_mask k -> k < 32 -> is_u32 (c a) -> c a mod 2 ^ k = t ->
  (4 <= k /\ t < 16 /\ Z.even t = true \/ 2 <= k /\ t < 4 /\ Z.odd t = true) ->
  region (c a) (ones writable c a) = (c a - t, 2 ^ k, Z.odd t) /\
  (c a - t) mod 2 ^ k = 0 /\ 0 <= c a - t /\ c a - t + 2 ^ k <= 2 ^ 32.
Proof.
  intros Hw Hk Hv Ht Hkind. assert (Hk0 : 2 <= k) by lia. assert (0 <= t < 2 ^ k) by (subst; apply Z.mod_pos_bound; lia).
  assert (Hpos : 2 <= 2 ^ k) by (change 2 with (2 ^ 1) at 1; apply Z.pow_le_mono_r; lia).
  unfold ones. rewrite (ones_split _ k t Hw) by (done || lia). set (rv := 2 ^ 32 - 2 ^ k + t).
  assert (Hbase : (c a - t) mod 2 ^ k = 0) by (rewrite <- Ht; rewrite Zminus_mod_idemp_r, Z.sub_diag; done).
  assert (Htype : PCI_MAPREG_TYPE rv = if Z.odd t then 1 else 0).
  { unfold PCI_MAPREG_TYPE. change (Z.land rv 1) with (Z.land rv (Z.ones 1)). rewrite Z.land_ones by lia. change (2 ^ 1) with 2.
    rewrite <- (Zmod_odd t). unfold rv. replace (2 ^ 32 - 2 ^ k + t) with (t + (2 ^ 31 - 2 ^ (k - 1)) * 2); [apply Z_mod_plus_full|].
    replace k with (k - 1 + 1) at 2 by lia. rewrite Z.pow_add_r by lia. lia. }
  split.
  - unfold region. rewrite Htype. destruct Hkind as [(H4 & H16 & He)|(H2 & H3 & Ho)].
    + rewrite <- Z.negb_even, He. cbn [negb]. change (0 =? PCI_MAPREG_TYPE_MEM) with true. cbv iota.
      unfold PCI_MAPREG_MEM_SIZE, PCI_MAPREG_MEM_ADDR. change 0xfffffff0 with (size_mask 4).
      destruct (region_size k 4 t) as [Er _]; [lia..|]. fold rv in Er. rewrite Er. rewrite lowest_bit by lia. rewrite land_high by (done || lia).
      by rewrite (low_bits _ k 4 t) by (done || lia).
    + rewrite Ho. change (1 =? PCI_MAPREG_TYPE_MEM) with false. cbv iota.
      unfold PCI_MAPREG_IO_SIZE, PCI_MAPREG_IO_ADDR. change 0xfffffffc with (size_mask 2).
      destruct (region_size k 2 t) as [Er _]; [lia..|]. fold rv in Er. rewrite Er. rewrite lowest_bit by lia. rewrite land_high by (done || lia).
      by rewrite (low_bits _ k 2 t) by (done || lia).
  - split; [done|]. unfold is_u32 in Hv. split; [rewrite <- Ht; pose proof (Z.mod_le (c a) (2 ^ k)); lia|].
    assert (2 ^ 32 = 2 ^ (32 - k) * 2 ^ k) by (rewrite <- Z.pow_add_r by lia; f_equal; lia).
    apply Z.mod_divide in Hbase as [q Hq]; [|lia]. rewrite Hq. set (A := 2 ^ (32 - k)) in *. set (B := 2 ^ k) in *.
    assert (q < A) by (apply (Zmult_gt_0_lt_reg_r _ _ B); lia). nia.
Qed.

(** ** The devices of the drivers *)

Lemma find_stored_spec k1 k2 bar io l :
  find_stored k1 k2 bar io l = None <->
  forall f, f ∈ l -> ~ (is_device k1 k2 f = true /\ zget false (reg_is_io f) bar = io).
Proof.
  induction l as [|f l IH]; cbn [find_stored]; [split; [intros _ f H; by apply elem_of_nil in H|done]|].
  destruct (is_device k1 k2 f) eqn:E1; cbn [andb].
  - destruct (eqb _ io) eqn:E2.
    + apply eqb_prop in E2. split; [done|]. intros H. destruct (H f); [by left|done].
    + rewrite IH. split; intros H g.
      * intros [-> |Hg]%elem_of_cons [Hd Hio]; [rewrite Hio in E2; by destruct io|]. by apply (H g Hg).
      * intros Hg. apply H. by right.
  - rewrite IH. split; intros H g; [|intros Hg; apply H; by right].
    intros [-> |Hg]%elem_of_cons [Hd Hio]; [congruence|]. by apply (H g Hg).
Qed.
Lemma find_stored_found k1 k2 bar io l f : find_stored k1 k2 bar io l = Some f ->
  f ∈ l /\ is_device k1 k2 f = true /\ zget false (reg_is_io f) bar = io.
Proof.
  induction l as [|g l IH]; cbn [find_stored]; [done|]. destruct (_ && _) eqn:E.
  - intros [= <-]. apply andb_true_iff in E as [E1 E2%eqb_prop]. conj_split; [by left|done|done].
  - intros (H1 & H2)%IH. split; [by right|done].
Qed.

(** A driver gets its device: with no such device stored the answer is -1 and the page
    table is left alone; otherwise the pages from [base] on show the registers of the
    first one, uncached, as many bytes as both asked for and there, and no other page
    of the table changes. *)
Theorem map_device_correct k1 k2 base maxlen bar l m :
  0 <= base -> base mod Memory.PAGE_SIZE = 0 -> 0 <= maxlen -> base + maxlen + Memory.PAGE_SIZE <= 2 ^ 47 ->
  (forall f, f ∈ l -> is_u32 (zget 0 (reg_base f) bar) /\ is_u32 (zget 0 (reg_size f) bar) /\
    (zget false (reg_is_io f) bar = false -> zget 0 (reg_base f) bar mod Memory.PAGE_SIZE = 0)) ->
  exists m' r, map_device k1 k2 base maxlen bar l m = Some (m', r) /\
    (r = u64 (-1) /\ m' = m /\
       (forall f, f ∈ l -> ~ (is_device k1 k2 f = true /\ zget false (reg_is_io f) bar = false)) \/
     exists f, f ∈ l /\ is_device k1 k2 f = true /\ zget false (reg_is_io f) bar = false /\
       r = Z.min (zget 0 (reg_size f) bar) maxlen /\ Memory.user_mem m' = Memory.user_mem m /\
       forall p, Memory.P1 m' p = if (base <=? Memory.PAGE_SIZE * p) && (Memory.PAGE_SIZE * p <? base + r)
         then Memory.device_entry (zget 0 (reg_base f) bar + (Memory.PAGE_SIZE * p - base)) else Memory.P1 m p).
Proof.
  intros Hb Hbm Hl Htop Hall. unfold map_device. destruct (find_stored k1 k2 bar false l) as [f|] eqn:E.
  - apply find_stored_found in E as (H1 & H2 & H3). destruct (Hall f H1) as (B1 & B2 & B3). specialize (B3 H3).
    set (len := Z.min _ maxlen). assert (Hlen : 0 <= len <= maxlen) by (unfold is_u32 in *; lia).
    unfold Memory.PAGE_SIZE in Htop. destruct (round_up_no_wrap len Memory.PAGE_SIZE) as (_ & R2 & R3 & R4);
      [unfold is_u64, Memory.PAGE_SIZE; lia..|].
    set (ru := round_up len Memory.PAGE_SIZE) in *. clearbody ru. unfold Memory.PAGE_SIZE in R2.
    rewrite u64_small by (unfold is_u64; lia).
    destruct (Memory.map_region_spec base ru (zget 0 (reg_base f) bar) m)
      as (m' & Em & Hu & _ & Hp); try done; try lia.
    rewrite Em. exists m', len. split; [done|]. right. exists f. conj_split; try done.
    intros p. rewrite Hp. unfold Memory.in_range. clear Hp Em. unfold Memory.PAGE_SIZE in *.
    clearbody len.
    replace (4096 * p <? base + ru) with (4096 * p <? base + len); [done|].
    destruct (Z.ltb_spec (4096 * p) (base + len)), (Z.ltb_spec (4096 * p) (base + ru)); try lia.
    clear B1 B2 B3. Z.to_euclidean_division_equations; lia.
  - exists m, (u64 (-1)). split; [done|]. left. conj_split; [done|done|]. by apply find_stored_spec.
Qed.

(** ** Witnesses *)

(** A bridge on bus 0 with an e1000 card behind it, on bus 1: 128 KB of registers at
    0xfebc0000 and 64 I/O ports at 0xc000. *)
Definition demo_words : list (Z * Z) :=
  [(address 0 1 0 0x00, 0x12348086); (address 0 1 0 0x08, 0x06040000); (address 0 1 0 0x0c, 0x00010000);
   (address 0 1 0 0x18, 0x00010100); (address 0 1 0 0x1c, 0); (address 0 1 0 0x3c, 0);
   (address 1 2 0 0x00, 0x100e8086); (address 1 2 0 0x08, 0x02000003); (address 1 2 0 0x0c, 0);
   (address 1 2 0 0x10, 0xfebc0000); (address 1 2 0 0x14, 0xc001); (address 1 2 0 0x18, 0); (address 1 2 0 0x1c, 0);
   (address 1 2 0 0x20, 0); (address 1 2 0 0x24, 0); (address 1 2 0 0x3c, 0x0000010b)].
Fixpoint demo_lookup (l : list (Z * Z)) (x : Z) : Z :=
  match l with [] => 0xffffffff | (a, v) :: l => if x =? a then v else demo_lookup l x end.
Definition demo_space : space := demo_lookup demo_words.
Definition demo_writable (a : Z) : Z :=
  if a =? address 1 2 0 0x10 then size_mask 17 else if a =? address 1 2 0 0x14 then size_mask 6 else 0.
Definition demo_write (a v : Z) (c : space) (x : Z) : Z :=
  if x =? a then
    if (0x10 <=? a mod 256) && (a mod 256 <? 0x28)
    then Z.lor (Z.land v (demo_writable a)) (Z.land (c a) (Z.lnot (demo_writable a)))
    else u32 v
  else c x.
Definition demo_write_byte (a k v : Z) (c : space) : space := c.
Definition demo_state : state := mk_state demo_space 0 [].

Lemma demo_writable_range a : is_u32 (demo_writable a).
Proof. unfold demo_writable, is_u32. by repeat destruct (_ =? _). Qed.
Lemma demo_config : config_space demo_write demo_write_byte demo_writable.
Proof.
  constructor; try done.
  - apply demo_writable_range.
  - intros a v c x Ha. unfold demo_write. destruct (x =? a); [|done].
    destruct (Z.leb_spec 0x10 (a mod 256)), (Z.ltb_spec (a mod 256) 0x28); by (done || lia).
  - intros a v c x _ Hx. unfold demo_write. by apply Z.eqb_neq in Hx as ->.
  - intros a v c Hc x. unfold demo_write. destruct (x =? a); [|apply Hc]. destruct (_ && _); [|apply u32_range].
    pose proof (demo_writable_range a) as Hw. specialize (Hc a). unfold is_u32 in *. change 4294967296 with (2 ^ 32) in *.
    apply lor_bound; [lia| |].
    + rewrite Z.land_comm. by apply land_bound.
    + by apply land_bound.
Qed.
Lemma demo_space_ok : space_ok demo_space.
Proof.
  intros x. unfold demo_space, is_u32.
  assert (H : forallb (λ p, (0 <=? p.2) && (p.2 <? 4294967296)) demo_words = true) by by vm_compute.
  revert H. generalize demo_words. induction l as [|[a v] l IH]; cbn [forallb demo_lookup snd]; [lia|].
  intros [H1 H2]%andb_true_iff. destruct (x =? a); [lia|auto].
Qed.
Lemma demo_bridges : bridges_go_up demo_space.
Proof.
  intros b d k Hb Hd Hk. assert (Hcase : b = 0 /\ d = 1 /\ k = 0 \/ b = 1 /\ d = 2 /\ k = 0 \/
    demo_space (address b d k PCI_CLASS_REG) = 0xffffffff).
  { unfold demo_space, demo_words, PCI_CLASS_REG. rewrite !address_sum by lia. cbn [demo_lookup].
    repeat match goal with |- context [?x =? ?y] =>
      destruct (Z.eqb_spec x y) as [E|_]; [first [exfalso; lia|left; lia|right; left; lia]|] end. auto. }
  destruct Hcase as [(-> & -> & ->)|[(-> & -> & ->)|E]]; [by vm_compute..|].
  unfold is_bridge. cbv zeta. rewrite E. by change (PCI_CLASS_BRIDGE =? PCI_CLASS 0xffffffff) with false.
Qed.

Definition demo_device : Func :=
  mk_func 1 2 0 0x100e8086 0x02000003 [0xfebc0000; 0xc000; 0; 0; 0; 0] [0x20000; 64; 0; 0; 0; 0]
    [false; true; false; false; false; false] 0x0b.

Lemma pci_init_finds_all_witness : exists s',
  init demo_write demo_write_byte 256 demo_state = Some (s', 1) /\ stored_pci_devices s' = [demo_device].
Proof.
  destruct (pci_init_finds_all demo_config 256 demo_state (le_n 256) demo_space_ok eq_refl demo_bridges)
    as (s' & E & H & _).
  exists s'. split; [exact E|]. rewrite H. vm_compute. reflexivity.
Defined.

Lemma region_correct_witness :
  region 0xfebc0000 (ones (λ _, size_mask 17) (λ _, 0xfebc0000) 0) = (0xfebc0000, 2 ^ 17, false) /\
  0xfebc0000 mod 2 ^ 17 = 0.
Proof.
  destruct (region_correct (λ _, size_mask 17) (λ _, 0xfebc0000) 0 17 0) as (E & H & _);
    [reflexivity|lia|unfold is_u32; lia|reflexivity|left; split; [lia|split; [lia|reflexivity]]|].
  split; [exact E|exact H].
Defined.

Definition demo_memory : Memory.state := Memory.mk_state ∅ 0 0 0 0 (λ _, 0) (λ _, 0) (λ _, 0).
Lemma map_device_correct_witness :
  exists m', map_device 0x8086 0x100e 0x400000 0x10000 0 [demo_device] demo_memory = Some (m', 0x10000).
Proof.
  destruct (map_device_correct 0x8086 0x100e 0x400000 0x10000 0 [demo_device] demo_memory) as (m' & r & E & H);
    [lia|reflexivity|lia|unfold Memory.PAGE_SIZE; lia| |].
  - intros f Hf. apply list_elem_of_singleton in Hf as ->.
    split; [unfold is_u32; vm_compute; split; discriminate || reflexivity|].
    split; [unfold is_u32; vm_compute; split; discriminate || reflexivity|reflexivity].
  - exists m'. rewrite E. destruct H as [(_ & _ & H)|(f & Hf & _ & _ & -> & _)].
    + destruct (H demo_device); [by apply list_elem_of_singleton|split; reflexivity].
    + apply list_elem_of_singleton in Hf as ->. reflexivity.
Defined.

End Pci.
