(* ===== verification/NetworkDriver.v ===== *)
(** * NetworkDriver: choosing the driver ([lib/network_driver.cpp])

    The addresses on the command line, the [init] functions of the three drivers
    (the device on the PCI bus, mapped, then initialised) and the one that runs from
    then on.  The three function pointers [send], [receive] and [flush] are always set
    together: [active] says to which driver's functions. *)
From Stdlib Require Import String.
From S2P Require Import Prelude Utils LibC Memory Nic E1000 I211 Realtek Pci.
From stdpp Require Import list.

Module NetworkDriver.
Import LibC Nic.
Local Open Scope Z_scope.

(** ** The command line *)

Definition MAX_LEN : Z := 256.
Definition bytes_of (vs : list value) : list Z := vs ≫= λ v, match v with VNum z => [z] | VStr _ => [] end.

(** None outside: an argument that does not fit in its buffer on the stack. *)
Definition read_ip_mac (cmdline : list Z) : option (option (list Z * list Z)) :=
  let words := sscanf cmdline " ip = %s mac = %s " in
  if existsb (λ v, match v with VStr w => MAX_LEN <=? zlen w | VNum _ => false end) words then None
  else Some
    match words with
    | [VStr ip_str; VStr mac_str] =>
        let ip := sscanf ip_str "%hhu.%hhu.%hhu.%hhu" in
        if negb (zlen ip =? 4) then None
        else
          let mac := sscanf mac_str "%hhx:%hhx:%hhx:%hhx:%hhx:%hhx" in
          if negb (zlen mac =? 6) then None else Some (bytes_of ip, bytes_of mac)
    | _ => None
    end.

Definition default_ip : list Z := [10; 0; 2; 123].
Definition default_mac : list Z := [0x52; 0x54; 0x00; 0x12; 0x34; 0x56].

(** ** The statics of the drivers

    Each driver keeps its own; the pointer into the DMA buffer is one for all. *)
Record statics := mk_statics {
  e1000 : E1000.state; i211 : I211.state; rtl : Realtek.state; memory : Memory.state; dma_buffer_ptr : Z }.

Inductive active := Standalone | Uses_e1000 | Uses_i211 | Uses_realtek.

(** [for (i = 0; args[i].key1; i++) { r = PCI::map_device(...); if (r != -1ull) ... }]:
    the entry whose device was mapped. *)
Fixpoint first_mapped {A} (keys : A -> Z * Z) (bar : A -> Z) (dev len : Z) (devs : list Pci.Func) (options : list A)
    (m : Memory.state) : option (Memory.state * option A) :=
  match options with
  | [] => Some (m, None)
  | o :: options =>
      match Pci.map_device (keys o).1 (keys o).2 dev len (bar o) devs m with
      | None => None
      | Some (m, r) =>
          if negb (r =? u64 (-1)) then Some (m, Some o) else first_mapped keys bar dev len devs options m
      end
  end.

Definition e1000_options : list (Z * Z * Z) :=
  [(0x8086, 0x15a3, 0x5280); (0x8086, 0x100e, 0x5400); (0x8086, 0x10d3, 0x5280); (0x8086, 0x153a, 0x5280);
   (0x8086, 0x15bc, 0x5400); (0x8086, 0x15b8, 0x5400); (0x8086, 0x0d55, 0x5400); (0x8086, 0x15fa, 0x5400);
   (0x8086, 0x1a1c, 0x5400)].
Definition i211_options : list (Z * Z * bool) := [(0x8086, 0x1539, false); (0x8086, 0x15f3, true)].
Definition rtl_options : list (Z * Z * Z) := [(0x10ec, 0x8168, 2)].

Section Init.
(** The static arrays the devices are mapped on, and those the cards are given. *)
Variable e1000_dev i211_dev rtl_dev : Z.
Variable e1000_tq e1000_rq i211_rq i211_tq i211_header dma_buffer : Z.
(** What the cards do to their registers, by themselves and when one is written. *)
Variable e1000_hw : Z -> (Z -> Z) -> Z -> Z.
Variable i211_hw_write : Z -> Z -> (Z -> Z) -> Z -> Z.
Variable i211_hw : Z -> (Z -> Z) -> Z -> Z.
Variable rtl_hw_write : Z -> Z -> (Z -> Z) -> Z -> Z.
Variable rtl_hw : Z -> (Z -> Z) -> Z -> Z.
Variable devs : list Pci.Func.

Definition e1000_at (s : statics) : E1000.state :=
  let e := e1000 s in
  E1000.mk_state (E1000.regs e) (E1000.mem e) (E1000.tq e) (E1000.rq e) (E1000.tq_buf e) (E1000.rq_buf e)
    (E1000.tq_addrs e) (E1000.rq_addrs e) (E1000.tx e) (E1000.rx e) (dma_buffer_ptr s).
Definition i211_at (s : statics) : I211.state :=
  let e := i211 s in
  I211.mk_state (I211.regs e) (I211.mem e) (I211.rq e) (I211.tq e) (I211.rq_buf e) (I211.tq_buf e) (I211.st e)
    (dma_buffer_ptr s).
Definition rtl_at (s : statics) : Realtek.state :=
  let e := rtl s in
  Realtek.mk_state (Realtek.regs e) (Realtek.mem e) (Realtek.rx_desc e) (Realtek.tx_desc e) (Realtek.rx_desc_pa e)
    (Realtek.tx_desc_pa e) (Realtek.rx_buffer e) (Realtek.tx_buffer e) (Realtek.rx_idx e) (Realtek.tx_idx e)
    (dma_buffer_ptr s).

(** [_init] and [init] of [lib/e1000.cpp]. *)
Definition e1000_init_ (fuel : nat) (mac : list Z) (s : statics) : option (statics * Z) :=
  match first_mapped (λ o, o.1) (λ _, 0) e1000_dev 0x10000 devs e1000_options (memory s) with
  | None => None
  | Some (m, None) => Some (mk_statics (e1000 s) (i211 s) (rtl s) m (dma_buffer_ptr s), -1)
  | Some (m, Some o) =>
      match E1000.e1000_init e1000_tq e1000_rq dma_buffer e1000_hw fuel o.2 mac (e1000_at s) with
      | None => None
      | Some (e, r) => Some (mk_statics e (i211 s) (rtl s) m (E1000.dma_buffer_ptr e), r)
      end
  end.
Definition e1000_init (fuel : nat) (mac : list Z) (s : statics) : option (statics * bool) :=
  match e1000_init_ fuel mac s with
  | None => None
  | Some (s, r) => Some (s, if r <? 0 then false else true)
  end.

Definition i211_init (fuel : nat) (mac : list Z) (s : statics) : option (statics * bool) :=
  match first_mapped (λ o, o.1) (λ _, 0) i211_dev 0x13000 devs i211_options (memory s) with
  | None => None
  | Some (m, None) => Some (mk_statics (e1000 s) (i211 s) (rtl s) m (dma_buffer_ptr s), false)
  | Some (m, Some o) =>
      match I211.i211_init i211_rq i211_tq i211_header dma_buffer i211_hw_write i211_hw fuel mac o.2 (i211_at s) with
      | None => None
      | Some (e, ok) => Some (mk_statics (e1000 s) e (rtl s) m (I211.dma_buffer_ptr e), ok)
      end
  end.

Definition rtl_init (fuel : nat) (mac : list Z) (s : statics) : option (statics * bool) :=
  match first_mapped (λ o, o.1) (λ o, o.2) rtl_dev 0x1000 devs rtl_options (memory s) with
  | None => None
  | Some (m, None) => Some (mk_statics (e1000 s) (i211 s) (rtl s) m (dma_buffer_ptr s), false)
  | Some (m, Some _) =>
      match Realtek.rtl_init dma_buffer rtl_hw_write rtl_hw fuel mac (rtl_at s) with
      | None => None
      | Some (e, ok) => Some (mk_statics (e1000 s) (i211 s) e m (Realtek.dma_buffer_ptr e), ok)
      end
  end.

(** The statics, the addresses, and whose functions are called from now on. *)
Definition init (fuel : nat) (cmdline : list Z) (s : statics) : option (statics * (list Z * list Z) * active) :=
  match read_ip_mac cmdline with
  | None => None
  | Some r =>
      let '(ip, mac) := match r with Some a => a | None => (default_ip, default_mac) end in
      match e1000_init fuel mac s with
      | None => None
      | Some (s, true) => Some (s, (ip, mac), Uses_e1000)
      | Some (s, false) =>
          match i211_init fuel mac s with
          | None => None
          | Some (s, true) => Some (s, (ip, mac), Uses_i211)
          | Some (s, false) =>
              match rtl_init fuel mac s with
              | None => None
              | Some (s, true) => Some (s, (ip, mac), Uses_realtek)
              | Some (s, false) => Some (s, (ip, mac), Standalone)
              end
          end
      end
  end.

(** The driver that runs, with its card. *)
Inductive running :=
  | On_e1000 (s : E1000.state) | On_i211 (s : I211.state) | On_realtek (m : Realtek.machine).
Definition start (a : active) (s : statics) : option running :=
  match a with
  | Standalone => None
  | Uses_e1000 => Some (On_e1000 (e1000 s))
  | Uses_i211 => Some (On_i211 (i211 s))
  | Uses_realtek => Some (On_realtek (Realtek.mk_machine (rtl s) 0 0))
  end.
Inductive step : running -> action -> running -> Prop :=
  | step_e1000 s act s' : E1000.step e1000_tq e1000_rq s act s' -> step (On_e1000 s) act (On_e1000 s')
  | step_i211 s act s' : I211.step i211_rq i211_tq i211_header i211_hw_write s act s' -> step (On_i211 s) act (On_i211 s')
  | step_realtek m act m' : Realtek.step rtl_hw_write m act m' -> step (On_realtek m) act (On_realtek m').

End Init.

(** ** Lemmas: the command line *)

(** What [read_ip_mac] reads. *)
Definition print_ip (a b c d : Z) : list Z := print_lu a ++ 46 :: print_lu b ++ 46 :: print_lu c ++ 46 :: print_lu d.
Definition print_mac (a b c d e f : Z) : list Z :=
  print_hex2 a ++ 58 :: print_hex2 b ++ 58 :: print_hex2 c ++ 58 :: print_hex2 d ++ 58 :: print_hex2 e ++ 58 :: print_hex2 f.
Definition arguments (ip mac : list Z) : list Z := str "ip=" ++ ip ++ str " mac=" ++ mac.

Definition plain (c : Z) : Prop := is_space c = false /\ c <> 0.
Lemma scan_word_plain w l : Forall plain w -> (match l with c :: _ => is_space c = true | [] => True end) ->
  scan_word (w ++ l) = (w, l).
Proof.
  intros Hw Hl. induction Hw as [|c w [Hc _] _ IH]; cbn [app scan_word].
  - destruct l as [|c l]; [done|]. cbn [scan_word]. by rewrite Hl.
  - by rewrite Hc, IH.
Qed.
Lemma c_string_plain w : Forall plain w -> c_string w = w.
Proof. intros H. apply c_string_id, (Forall_impl _ _ _ H). by intros c []. Qed.

Lemma u8_u64 b : is_u8 b -> is_u64 b.
Proof. unfold is_u8, is_u64. lia. Qed.
Lemma print_lu_plain b : is_u8 b -> Forall plain (print_lu b).
Proof. intros Hb. apply (Forall_impl _ _ _ (print_lu_digits b (u8_u64 b Hb))). intros c. apply digit_plain. Qed.
Lemma print_hex2_plain b : is_u8 b -> Forall plain (print_hex2 b).
Proof.
  unfold is_u8. intros Hb.
  destruct (digit_char_xdigit (b / 16)) as (_ & _ & A3 & A4); [Z.to_euclidean_division_equations; lia|].
  destruct (digit_char_xdigit (b mod 16)) as (_ & _ & B3 & B4); [Z.to_euclidean_division_equations; lia|].
  constructor; [split; [done|lia]|]. constructor; [split; [done|lia]|constructor].
Qed.
Lemma print_lu_short b : is_u8 b -> zlen (print_lu b) <= 3.
Proof.
  unfold is_u8, print_lu. intros Hb. change 64%nat with (S (S (S 61))). generalize 61%nat. intros n. cbn [digits].
  destruct (b / 10 =? 0); [unfold zlen; cbn; lia|]. destruct (b / 10 / 10 =? 0); [unfold zlen; cbn; lia|].
  replace (b / 10 / 10 / 10) with 0 by (Z.to_euclidean_division_equations; lia). unfold zlen. cbn. lia.
Qed.

Lemma scan_hhu b l : is_u8 b -> ends_number l -> exists v, scan_lu (print_lu b ++ l) = Some (v, l) /\ u8 v = b.
Proof. intros Hb Hl. exists b. split; [apply scan_print_lu; [by apply u8_u64|done]|by apply u8_small]. Qed.

Lemma plain_dot l : Forall plain l -> Forall plain (46 :: l).
Proof. by constructor. Qed.
Lemma plain_colon l : Forall plain l -> Forall plain (58 :: l).
Proof. by constructor. Qed.
Ltac plain := repeat first [apply plain_dot | apply plain_colon | apply Forall_app; split | by apply print_lu_plain | by apply print_hex2_plain].
Ltac small := rewrite ?zlen_app, ?zlen_cons, ?zlen_app, ?zlen_cons, ?zlen_app, ?zlen_cons, ?zlen_app, ?zlen_cons, ?zlen_app, ?zlen_cons, ?zlen_app, ?zlen_cons.

Lemma read_ip a b c d : is_u8 a -> is_u8 b -> is_u8 c -> is_u8 d ->
  sscanf (print_ip a b c d) "%hhu.%hhu.%hhu.%hhu" = [VNum a; VNum b; VNum c; VNum d].
Proof.
  intros Ha Hb Hc Hd. unfold sscanf. rewrite c_string_plain by (unfold print_ip; plain). unfold print_ip.
  change (fmt "%hhu.%hhu.%hhu.%hhu") with [Hhu; Lit 46; Hhu; Lit 46; Hhu; Lit 46; Hhu]. cbn [scan].
  rewrite scan_print_lu by (by apply u8_u64 || done). rewrite Z.eqb_refl.
  rewrite scan_print_lu by (by apply u8_u64 || done). rewrite Z.eqb_refl.
  rewrite scan_print_lu by (by apply u8_u64 || done). rewrite Z.eqb_refl.
  rewrite <- (app_nil_r (print_lu d)), scan_print_lu by (by apply u8_u64 || done).
  by rewrite !u8_small.
Qed.
Lemma read_mac a b c d e f : is_u8 a -> is_u8 b -> is_u8 c -> is_u8 d -> is_u8 e -> is_u8 f ->
  sscanf (print_mac a b c d e f) "%hhx:%hhx:%hhx:%hhx:%hhx:%hhx" = [VNum a; VNum b; VNum c; VNum d; VNum e; VNum f].
Proof.
  intros Ha Hb Hc Hd He Hf. unfold sscanf. rewrite c_string_plain by (unfold print_mac; plain). unfold print_mac.
  change (fmt "%hhx:%hhx:%hhx:%hhx:%hhx:%hhx") with
    [Hhx; Lit 58; Hhx; Lit 58; Hhx; Lit 58; Hhx; Lit 58; Hhx; Lit 58; Hhx]. cbn [scan].
  do 5 (rewrite scan_print_hex2 by done; rewrite Z.eqb_refl).
  rewrite <- (app_nil_r (print_hex2 f)), scan_print_hex2 by done. by rewrite !u8_small.
Qed.

Lemma skip_space_plain w l : Forall plain w -> w <> [] -> skip_space (w ++ l) = w ++ l.
Proof. intros [|x w' [Hx _] _]; [done|]. cbn. by rewrite Hx. Qed.
Lemma scan_string_plain f w l : Forall plain w -> w <> [] -> (match l with c :: _ => is_space c = true | [] => True end) ->
  scan (S_ :: f) (w ++ l) = VStr w :: scan f l.
Proof.
  intros Hw Hn Hl. cbn [scan]. rewrite skip_space_plain, scan_word_plain by done. by destruct w.
Qed.
Lemma scan_arguments ip mac : Forall plain ip -> ip <> [] -> Forall plain mac -> mac <> [] ->
  sscanf (arguments ip mac) " ip = %s mac = %s " = [VStr ip; VStr mac].
Proof.
  intros Pip Nip Pmac Nmac. unfold sscanf, arguments. rewrite c_string_id.
  - change (str "ip=") with [105; 112; 61]. change (str " mac=") with [32; 109; 97; 99; 61].
    change (fmt " ip = %s mac = %s ") with
      ([Space 32; Lit 105; Lit 112; Space 32; Lit 61; Space 32] ++ S_ :: [Space 32; Lit 109; Lit 97; Lit 99; Space 32; Lit 61;
       Space 32] ++ S_ :: [Space 32]).
    transitivity (scan (S_ :: [Space 32; Lit 109; Lit 97; Lit 99; Space 32; Lit 61; Space 32] ++ S_ :: [Space 32])
      (ip ++ [32; 109; 97; 99; 61] ++ mac)).
    { cbn -[scan_word]. by rewrite !skip_space_plain. }
    rewrite scan_string_plain by done. f_equal.
    transitivity (scan (S_ :: [Space 32]) (mac ++ [])); [|by rewrite scan_string_plain].
    rewrite app_nil_r. cbn [app]. pose proof (skip_space_plain mac [] Pmac Nmac) as Hs. rewrite app_nil_r in Hs.
    cbn -[scan_word]. by rewrite !Hs.
  - assert (Hn : forall l, Forall plain l -> Forall (λ c, c <> 0) l) by (intros l Hl; apply (Forall_impl _ _ _ Hl); by intros ? []).
    rewrite !Forall_app. split_and!; [by repeat constructor|by apply Hn|by repeat constructor|by apply Hn].
Qed.

(** The addresses on the command line are read as they are written, in the usual
    notation, whatever they are. *)
Theorem read_ip_mac_roundtrip a b c d m0 m1 m2 m3 m4 m5 :
  is_u8 a -> is_u8 b -> is_u8 c -> is_u8 d ->
  is_u8 m0 -> is_u8 m1 -> is_u8 m2 -> is_u8 m3 -> is_u8 m4 -> is_u8 m5 ->
  read_ip_mac (arguments (print_ip a b c d) (print_mac m0 m1 m2 m3 m4 m5)) =
    Some (Some ([a; b; c; d], [m0; m1; m2; m3; m4; m5])).
Proof.
  intros Ha Hb Hc Hd H0 H1 H2 H3 H4 H5. set (ip := print_ip a b c d). set (mac := print_mac m0 m1 m2 m3 m4 m5).
  assert (Pip : Forall plain ip) by (unfold ip, print_ip; plain).
  assert (Pmac : Forall plain mac) by (unfold mac, print_mac; plain).
  assert (Hip : ip <> []).
  { destruct (print_lu_nonempty a) as (x & k & E). unfold ip, print_ip. by rewrite E. }
  pose proof (scan_arguments ip mac Pip Hip Pmac ltac:(done)) as E.
  unfold read_ip_mac. rewrite E. cbn [existsb].
  assert (L1 : zlen ip <= 15).
  { pose proof (print_lu_short a Ha). pose proof (print_lu_short b Hb). pose proof (print_lu_short c Hc).
    pose proof (print_lu_short d Hd). unfold ip, print_ip. small. lia. }
  assert (L2 : zlen mac = 17) by done.
  unfold MAX_LEN. destruct (Z.leb_spec 256 (zlen ip)); [lia|]. destruct (Z.leb_spec 256 (zlen mac)); [lia|]. cbn [orb].
  unfold ip, mac. rewrite read_ip, read_mac by done. done.
Qed.

Lemma read_ip_mac_roundtrip_witness :
  read_ip_mac (str "ip=192.168.1.20 mac=52:54:00:12:34:56") =
    Some (Some ([192; 168; 1; 20], [0x52; 0x54; 0; 0x12; 0x34; 0x56])).
Proof.
  exact (read_ip_mac_roundtrip 192 168 1 20 0x52 0x54 0 0x12 0x34 0x56 ltac:(unfold is_u8; lia) ltac:(unfold is_u8; lia)
    ltac:(unfold is_u8; lia) ltac:(unfold is_u8; lia) ltac:(unfold is_u8; lia) ltac:(unfold is_u8; lia)
    ltac:(unfold is_u8; lia) ltac:(unfold is_u8; lia) ltac:(unfold is_u8; lia) ltac:(unfold is_u8; lia)).
Defined.

(** ** Whichever driver runs *)

Section Runs.
Variable e1000_dev i211_dev rtl_dev e1000_tq e1000_rq i211_rq i211_tq i211_header dma_buffer : Z.
Variable e1000_hw : Z -> (Z -> Z) -> Z -> Z.
Variable i211_hw_write : Z -> Z -> (Z -> Z) -> Z -> Z.
Variable i211_hw : Z -> (Z -> Z) -> Z -> Z.
Variable rtl_hw_write : Z -> Z -> (Z -> Z) -> Z -> Z.
Variable rtl_hw : Z -> (Z -> Z) -> Z -> Z.
Variable devs : list Pci.Func.
Hypothesis Hi211 : forall reg v r x,
  I211.ring_reg x = true -> reg <> I211.CTRL -> i211_hw_write reg v r x = if x =? reg then v else r x.
Hypothesis Hdelay : forall us r x, I211.ring_reg x = true -> i211_hw us r x = r x.
Hypothesis Hrtl : forall reg v r x,
  Realtek.ring_reg x = true -> ~ (reg = Realtek.RTL_CR /\ Realtek.is_set v Realtek.RTL_CR_RST = true) ->
  rtl_hw_write reg v r x = if x =? reg then v else r x.
Hypothesis Hheader : 0 <= i211_header < 2 ^ 32.
Hypothesis Hpa : 0 <= i211_rq < 2 ^ 32 /\ 0 <= i211_tq < 2 ^ 32.
Hypothesis Hpa' : 0 <= e1000_tq < 2 ^ 32 /\ 0 <= e1000_rq < 2 ^ 32.
Hypothesis Hbase : 0 <= dma_buffer /\ dma_buffer + DMA.DMA_BUFFER_SIZE <= 2 ^ 32.

Definition dma_ok (p : Z) : Prop := dma_buffer <= p <= dma_buffer + DMA.DMA_BUFFER_SIZE.
(** The statics at boot. *)
Record boot (s : statics) : Prop := {
  boot_tq : E1000.tq (e1000 s) = replicate 256 E1000.no_trans; boot_rq : E1000.rq (e1000 s) = replicate 256 E1000.no_recv;
  boot_i211 : zlen (I211.rq (i211 s)) = 256 /\ zlen (I211.tq (i211 s)) = 256; boot_ptr : dma_ok (dma_buffer_ptr s) }.

Abbreviation e1000_init := (e1000_init e1000_dev e1000_tq e1000_rq dma_buffer e1000_hw devs).
Abbreviation i211_init := (i211_init i211_dev i211_rq i211_tq i211_header dma_buffer i211_hw_write i211_hw devs).
Abbreviation rtl_init := (rtl_init rtl_dev dma_buffer rtl_hw_write rtl_hw devs).
Abbreviation step := (step e1000_tq e1000_rq i211_rq i211_tq i211_header i211_hw_write rtl_hw_write).

Lemma e1000_boot s : boot s -> E1000.boot e1000_tq e1000_rq dma_buffer (e1000_at s).
Proof. intros []. constructor; try done; apply Hpa' || apply Hbase. Qed.

(** What the initialisation of the first driver leaves to the others. *)
(** What an initialisation that fails leaves to the next driver. *)
Definition left_alone (s s' : statics) : Prop := i211 s' = i211 s /\ dma_ok (dma_buffer_ptr s').

Lemma e1000_init_spec fuel mac s s' ok : boot s -> e1000_init fuel mac s = Some (s', ok) ->
  if ok then E1000.related e1000_tq e1000_rq (e1000 s') (mk_nic [] [] []) else left_alone s s'.
Proof.
  intros Hs. pose proof (boot_ptr s Hs) as Hp. unfold NetworkDriver.e1000_init, e1000_init_.
  destruct (first_mapped _ _ _ _ _ _ _) as [[m [o|]]|]; [| |done].
  - destruct (E1000.e1000_init _ _ _ _ _ _ _ _) as [[e r]|] eqn:E; [|done]. pose proof (e1000_boot s Hs) as Hb.
    destruct (E1000.e1000_init_fails _ _ _ _ _ _ _ _ _ _ Hb E) as [-> |[-> Hd]].
    + intros [= <- <-]. cbn [e1000]. exact (E1000.e1000_init_related _ _ _ _ _ _ _ _ _ Hb E).
    + intros [= <- <-]. by split.
  - intros [= <- <-]. by split.
Qed.

Lemma i211_init_spec fuel mac s s' ok :
  zlen (I211.rq (i211 s)) = 256 -> zlen (I211.tq (i211 s)) = 256 -> dma_ok (dma_buffer_ptr s) ->
  i211_init fuel mac s = Some (s', ok) ->
  if ok then I211.related i211_rq i211_tq (i211 s') (mk_nic [] [] []) else dma_ok (dma_buffer_ptr s').
Proof.
  intros Hr Ht Hp. unfold NetworkDriver.i211_init.
  destruct (first_mapped _ _ _ _ _ _ _) as [[m [o|]]|]; [| |done]; [|by intros [= <- <-]].
  destruct (I211.i211_init _ _ _ _ _ _ _ _ _ _) as [[e r]|] eqn:E; [|done]. intros [= <- <-]. cbn [i211].
  assert (Hb : I211.boot dma_buffer (i211_at s)) by by constructor. destruct r.
  - exact (I211.i211_init_related _ _ _ _ _ _ Hi211 Hdelay Hheader Hpa Hbase _ _ _ _ _ Hb E).
  - exact (I211.init_dma _ _ _ _ _ _ Hi211 Hdelay Hpa Hbase _ _ _ _ _ _ Hb E).
Qed.

Lemma rtl_init_spec fuel mac s s' : dma_ok (dma_buffer_ptr s) -> rtl_init fuel mac s = Some (s', true) ->
  Realtek.related (Realtek.mk_machine (rtl s') 0 0) (mk_nic [] [] []).
Proof.
  intros Hp. unfold NetworkDriver.rtl_init.
  destruct (first_mapped _ _ _ _ _ _ _) as [[m [o|]]|]; [|done|done].
  destruct (Realtek.rtl_init _ _ _ _ _ _) as [[e r]|] eqn:E; [|done]. intros [= <- ->]. cbn [rtl].
  exact (Realtek.rtl_init_related _ _ _ Hrtl Hbase _ _ (rtl_at s) _ Hp E).
Qed.

(** *** The running driver, through the interface *)

Definition capacity_of (r : running) : Z := match r with On_realtek _ => 128 | _ => 255 end.
Definition longest_of (r : running) : Z := match r with On_e1000 _ => 2048 | _ => 1500 end.
Definition starts (r : running) : Prop :=
  match r with
  | On_e1000 s => E1000.related e1000_tq e1000_rq s (mk_nic [] [] [])
  | On_i211 s => I211.related i211_rq i211_tq s (mk_nic [] [] [])
  | On_realtek m => Realtek.related m (mk_nic [] [] [])
  end.

Lemma init_starts fuel cmdline s s' addr a r :
  boot s -> init e1000_dev i211_dev rtl_dev e1000_tq e1000_rq i211_rq i211_tq i211_header dma_buffer e1000_hw
    i211_hw_write i211_hw rtl_hw_write rtl_hw devs fuel cmdline s = Some (s', addr, a) ->
  start a s' = Some r -> starts r.
Proof.
  intros Hs. unfold init. destruct (read_ip_mac cmdline) as [o|]; [|done].
  destruct (match o with Some _ => _ | None => _ end) as [ip mac].
  destruct (e1000_init fuel mac s) as [[s1 ok1]|] eqn:E1; [|done].
  apply (e1000_init_spec _ _ _ _ _ Hs) in E1. destruct ok1; [by intros [= <- _ <-] [= <-]|]. destruct E1 as [A1 A2].
  destruct (i211_init fuel mac s1) as [[s2 ok2]|] eqn:E2; [|done].
  apply i211_init_spec in E2; [|rewrite A1; apply (boot_i211 s Hs)|rewrite A1; apply (boot_i211 s Hs)|done].
  destruct ok2; [by intros [= <- _ <-] [= <-]|].
  destruct (rtl_init fuel mac s2) as [[s3 ok3]|] eqn:E3; [|done]. destruct ok3; [|by intros [= <- _ <-]].
  apply rtl_init_spec in E3; [|done]. by intros [= <- _ <-] [= <-].
Qed.

(** A run of the whole is a run of the driver. *)
Lemma steps_running r tr r' : steps step r tr r' ->
  match r, r' with
  | On_e1000 s, On_e1000 s' => steps (E1000.step e1000_tq e1000_rq) s tr s'
  | On_i211 s, On_i211 s' => steps (I211.step i211_rq i211_tq i211_header i211_hw_write) s tr s'
  | On_realtek m, On_realtek m' => steps (Realtek.step rtl_hw_write) m tr m'
  | _, _ => False
  end.
Proof.
  induction 1 as [r|r act r1 tr r2 Hst _ IH]; [destruct r; constructor|].
  destruct Hst, r2; try done; by econstructor.
Qed.

(** C10: The network works whichever card the machine has.  After [init] has chosen a driver,
    through the three function pointers and whatever the card does: the frames on the
    wire are those that [send] accepted, in order, each once and unchanged, at most 255
    of them (128 for Realtek) waiting; the frames handed out are those that came in,
    in order, each once and unchanged, but for those longer than the driver can take. *)
Theorem network_is_a_queue fuel cmdline s s' addr a r tr r' :
  boot s -> init e1000_dev i211_dev rtl_dev e1000_tq e1000_rq i211_rq i211_tq i211_header dma_buffer e1000_hw
    i211_hw_write i211_hw rtl_hw_write rtl_hw devs fuel cmdline s = Some (s', addr, a) ->
  start a s' = Some r -> steps step r tr r' -> exists out ins,
    accepted tr = transmitted tr ++ out /\
    filter (λ f, zlen f <= longest_of r) (delivered tr) = received tr ++ filter (λ f, zlen f <= longest_of r) ins /\
    zlen out <= capacity_of r /\ Forall (λ f, zlen f <= longest_of r) (received tr).
Proof.
  intros Hs Hi Hr Ht. pose proof (init_starts _ _ _ _ _ _ _ Hs Hi Hr) as Hq. apply steps_running in Ht.
  destruct r as [e|e|m], r' as [e'|e'|m']; try done.
  - exact (driver_is_a_queue _ (D := E1000.e1000_driver e1000_tq e1000_rq) e tr e' Hq Ht).
  - exact (driver_is_a_queue _ (D := I211.i211_driver _ _ _ _ Hi211 Hheader) e tr e' Hq Ht).
  - exact (driver_is_a_queue _ (D := Realtek.realtek_driver _ Hrtl) m tr m' Hq Ht).
Qed.

(** A run that is computed. *)
Definition play_running (r : running) (tr : list action) : option running :=
  match r with
  | On_e1000 s => On_e1000 <$> play (λ f, E1000.send f (zlen f)) E1000.flush E1000.receive (E1000.moves e1000_tq e1000_rq) s tr
  | On_i211 s => On_i211 <$> play (λ f, I211.send i211_hw_write f (zlen f)) (I211.flush i211_hw_write)
      (I211.receive i211_header i211_hw_write) (I211.moves i211_rq i211_tq) s tr
  | On_realtek m => On_realtek <$> play (λ f, Realtek.on_drv (Realtek.send rtl_hw_write f (zlen f))) (Realtek.on_drv Realtek.flush)
      (λ m, let '(s, bs, len) := Realtek.receive rtl_hw_write (Realtek.drv m) in
        (Realtek.mk_machine s (Realtek.card_tx m) (Realtek.card_rx m), bs, len)) Realtek.moves m tr
  end.
Lemma lift_steps {T} (st : T -> action -> T -> Prop) (f : T -> running) s tr s' :
  (forall s act s', st s act s' -> step (f s) act (f s')) -> steps st s tr s' -> steps step (f s) tr (f s').
Proof. intros Hf. induction 1; [constructor|]. econstructor; [by apply Hf|done]. Qed.
Lemma play_running_steps r tr r' : play_running r tr = Some r' -> steps step r tr r'.
Proof.
  destruct r as [s|s|m]; cbn [play_running]; intros H; apply fmap_Some in H as (x & H & ->).
  - eapply lift_steps; [|by apply E1000.e1000_plays]. by constructor.
  - eapply lift_steps; [|by apply I211.i211_plays]. by constructor.
  - eapply lift_steps; [|by apply Realtek.rtl_plays]. by constructor.
Qed.

(** *** Which driver runs *)

Lemma first_mapped_spec {A} (keys : A -> Z * Z) bar dev len options m m' o :
  0 <= len < 2 ^ 63 -> first_mapped keys bar dev len devs options m = Some (m', o) ->
  match o with
  | Some x => x ∈ options /\ exists f, Pci.find_stored (keys x).1 (keys x).2 (bar x) false devs = Some f
  | None => forall x, x ∈ options -> Pci.find_stored (keys x).1 (keys x).2 (bar x) false devs = None
  end.
Proof.
  intros Hl. revert m. induction options as [|x options IH]; intros m; cbn [first_mapped].
  { intros [= _ <-] y Hy. by apply elem_of_nil in Hy. }
  unfold Pci.map_device. destruct (Pci.find_stored (keys x).1 (keys x).2 (bar x) false devs) as [f|] eqn:E.
  - destruct (Memory.map_region_cache_disabled _ _ _ _) as [m1|]; [|done].
    assert (Hne : (Z.min (zget 0 (Pci.reg_size f) (bar x)) len =? u64 (-1)) = false).
    { apply Z.eqb_neq. change (u64 (-1)) with (2 ^ 64 - 1). lia. }
    rewrite Hne. intros [= _ <-]. split; [by left|]. by exists f.
  - rewrite Z.eqb_refl. cbn [negb]. intros H. apply IH in H. destruct o as [y|].
    + destruct H as [Hy H]. split; [by right|done].
    + intros y [-> |Hy]%elem_of_cons; [done|by apply H].
Qed.

(** The first driver is chosen exactly when one of its devices is on the bus with its
    registers in memory; the addresses are those of the command line, or the
    defaults when they cannot be read. *)
Theorem init_selects fuel cmdline s s' addr a :
  boot s -> dma_buffer_ptr s = dma_buffer ->
  init e1000_dev i211_dev rtl_dev e1000_tq e1000_rq i211_rq i211_tq i211_header dma_buffer e1000_hw
    i211_hw_write i211_hw rtl_hw_write rtl_hw devs fuel cmdline s = Some (s', addr, a) ->
  (a = Uses_e1000 <-> exists o f, o ∈ e1000_options /\ Pci.find_stored o.1.1 o.1.2 0 false devs = Some f) /\
  exists r, read_ip_mac cmdline = Some r /\ addr = default (default_ip, default_mac) r.
Proof.
  intros Hs Hp. unfold init. destruct (read_ip_mac cmdline) as [o|]; [|done].
  replace (match o with Some a => a | None => (default_ip, default_mac) end)
    with (default (default_ip, default_mac) o) by by destruct o.
  destruct (default (default_ip, default_mac) o) as [ip mac] eqn:Ed. intros H.
  assert (Hrun : forall s1 ok, e1000_init fuel mac s = Some (s1, ok) ->
    ok = true <-> exists o f, o ∈ e1000_options /\ Pci.find_stored o.1.1 o.1.2 0 false devs = Some f).
  { intros s1 ok. unfold NetworkDriver.e1000_init, e1000_init_.
    destruct (first_mapped _ _ _ _ _ _ _) as [[m [x|]]|] eqn:Ef; [| |done]; apply first_mapped_spec in Ef; try lia.
    - destruct Ef as (Hx & f & Hf).
      destruct (E1000.e1000_init _ _ _ _ _ _ _ _) as [[e r]|] eqn:E; [|done].
      rewrite (E1000.e1000_init_succeeds _ _ _ _ _ _ _ _ _ _ (e1000_boot s Hs) Hp E). intros [= _ <-].
      split; [intros _; by exists x, f|done].
    - intros [= _ <-]. split; [done|]. intros (x & f & Hx & Hf). by rewrite (Ef x Hx) in Hf. }
  destruct (e1000_init fuel mac s) as [[s1 ok]|]; [|done]. destruct (Hrun _ _ eq_refl) as [Hr1 Hr2].
  assert (Ha : addr = (ip, mac) /\ (a = Uses_e1000 <-> ok = true)).
  { revert H. clear Hr1 Hr2 Hrun. destruct ok; [by intros [= _ <- <-]|].
    destruct (i211_init fuel mac s1) as [[s2 []]|]; [intros [= _ <- <-]; done| |done].
    destruct (rtl_init fuel mac s2) as [[s3 []]|]; [| |done]; by intros [= _ <- <-]. }
  destruct Ha as [-> ->]. split; [by split|]. by exists o.
Qed.

End Runs.

(** *** Witnesses: the machine of [Pci], with an e1000 card *)

Definition demo_statics : statics :=
  mk_statics E1000.demo_boot I211.demo_boot Realtek.demo_boot Pci.demo_memory 0x400000.
Definition demo_cmdline : list Z := str "ip=10.0.2.15 mac=52:54:00:12:34:56".
Abbreviation demo_init := (init 0x500000 0x510000 0x530000 0x300000 0x301000 0x302000 0x303000 0x304000 0x400000
  E1000.demo_hw I211.demo_write I211.demo_delay Realtek.demo_write Realtek.demo_delay).
Definition demo_run (devs : list Pci.Func) : statics * (list Z * list Z) * active :=
  match demo_init devs 1 demo_cmdline demo_statics with Some x => x | None => (demo_statics, ([], []), Standalone) end.
(** The machine of [Pci], and machines with an I211 or a Realtek card instead of its e1000. *)
Definition demo_i211 : Pci.Func :=
  Pci.mk_func 1 2 0 0x15398086 0x02000003 [0xfebc0000; 0xc000; 0; 0; 0; 0] [0x20000; 64; 0; 0; 0; 0]
    [false; true; false; false; false; false] 0x0b.
Definition demo_rtl : Pci.Func :=
  Pci.mk_func 1 2 0 0x816810ec 0x02000003 [0xc000; 0; 0xfebc0000; 0; 0; 0] [256; 0; 0x1000; 0; 0; 0]
    [true; false; false; false; false; false] 0x0b.
Definition is_demo (f : Pci.Func) : Prop := f ∈ [Pci.demo_device; demo_i211; demo_rtl].
Lemma is_demo_e1000 : is_demo Pci.demo_device.
Proof. by left. Qed.
Lemma is_demo_i211 : is_demo demo_i211.
Proof. right. by left. Qed.
Lemma is_demo_rtl : is_demo demo_rtl.
Proof. right. right. by left. Qed.
Lemma demo_run_eq f : is_demo f -> demo_init [f] 1 demo_cmdline demo_statics = Some (demo_run [f]).
Proof.
  intros Hf. unfold demo_run. assert (H : match demo_init [f] 1 demo_cmdline demo_statics with Some _ => true | None => false end = true).
  { unfold is_demo in Hf. rewrite !elem_of_cons, elem_of_nil in Hf. destruct Hf as [-> |[-> |[-> |[]]]]; vm_compute; reflexivity. }
  by destruct (demo_init [f] 1 demo_cmdline demo_statics).
Qed.
Lemma demo_run_driver :
  (demo_run [Pci.demo_device]).2 = Uses_e1000 /\ (demo_run [demo_i211]).2 = Uses_i211 /\ (demo_run [demo_rtl]).2 = Uses_realtek /\
  (demo_run [Pci.demo_device]).1.2 = ([10; 0; 2; 15], [0x52; 0x54; 0; 0x12; 0x34; 0x56]).
Proof. split; [|split; [|split]]; vm_compute; reflexivity. Qed.
Lemma demo_statics_boot : boot 0x400000 demo_statics.
Proof.
  constructor; [reflexivity|reflexivity|split; reflexivity|]. unfold dma_ok, DMA.DMA_BUFFER_SIZE, demo_statics.
  cbn [dma_buffer_ptr]. lia.
Qed.

(** Three frames given to [send], the last too long; one of the others is on the wire.  Three
    frames come in, the second too long for two of the drivers; [read] are the results of
    three calls of [receive]. *)
Definition demo_long : frame := replicate 1501 7.
Definition demo_trace (read : list (option frame)) : list action :=
  [Send [1; 2; 3] 0; Send [4; 5] 0; Send demo_long (-1); Flush; Transmit [1; 2; 3];
   Deliver [7; 8; 9]; Deliver demo_long; Deliver [6]] ++ map Receive read.
Definition demo_running (f : Pci.Func) : option running := start (demo_run [f]).2 (demo_run [f]).1.1.
Definition demo_ends (f : Pci.Func) (read : list (option frame)) : bool :=
  match demo_running f with
  | Some r =>
      match play_running 0x300000 0x301000 0x302000 0x303000 0x304000 I211.demo_write Realtek.demo_write r (demo_trace read) with
      | Some _ => true
      | None => false
      end
  | None => false
  end.
Lemma demo_ends_e1000 : demo_ends Pci.demo_device [Some [7; 8; 9]; Some demo_long; Some [6]] = true.
Proof. vm_compute. reflexivity. Qed.
Lemma demo_ends_i211 : demo_ends demo_i211 [Some [7; 8; 9]; None; None] = true.
Proof. vm_compute. reflexivity. Qed.
Lemma demo_ends_rtl : demo_ends demo_rtl [Some [7; 8; 9]; None; Some [6]] = true.
Proof. vm_compute. reflexivity. Qed.

Lemma demo_longest f a r : (demo_run [f]).2 = a -> demo_running f = Some r ->
  longest_of r = match a with Uses_e1000 => 2048 | _ => 1500 end.
Proof. unfold demo_running. intros ->. by destruct a; intros [= <-]. Qed.

(** The trace on the machine with the card [f]: one frame is sent and one waits, and of the
    frames [ins] that are not too long, those of [outs] are handed out. *)
Definition demo_queue (f : Pci.Func) (read : list (option frame)) (ins outs : list frame) : Prop :=
  exists r r' sent rest, demo_running f = Some r /\
    steps (step 0x300000 0x301000 0x302000 0x303000 0x304000 I211.demo_write Realtek.demo_write) r (demo_trace read) r' /\
    [[1; 2; 3]; [4; 5]] = [[1; 2; 3]] ++ sent /\ ins = outs ++ rest /\ zlen sent <= capacity_of r.
Lemma network_is_a_queue_witness :
  demo_queue Pci.demo_device [Some [7; 8; 9]; Some demo_long; Some [6]] [[7; 8; 9]; demo_long; [6]] [[7; 8; 9]; demo_long; [6]] /\
  demo_queue demo_i211 [Some [7; 8; 9]; None; None] [[7; 8; 9]; [6]] [[7; 8; 9]] /\
  demo_queue demo_rtl [Some [7; 8; 9]; None; Some [6]] [[7; 8; 9]; [6]] [[7; 8; 9]; [6]].
Proof.
  assert (H : forall f read ins outs, is_demo f -> demo_ends f read = true -> received (demo_trace read) = outs ->
    accepted (demo_trace read) = [[1; 2; 3]; [4; 5]] /\ transmitted (demo_trace read) = [[1; 2; 3]] /\
      delivered (demo_trace read) = [[7; 8; 9]; demo_long; [6]] ->
    (forall r, demo_running f = Some r -> filter (λ g, zlen g <= longest_of r) [[7; 8; 9]; demo_long; [6]] = ins) ->
    demo_queue f read ins outs).
  { intros f read ins outs Hf He <- (Ha & Ht & Hd) Hr. revert He. unfold demo_ends. destruct (demo_running f) as [r|] eqn:Er; [|done].
    destruct (play_running _ _ _ _ _ _ _ _ _) as [r'|] eqn:Ep; [|done]. intros _. apply play_running_steps in Ep.
    rewrite <- (Hr r eq_refl). pose proof (demo_run_eq f Hf) as E. unfold demo_running in Er.
    destruct (demo_run [f]) as [[s' addr] a] eqn:Ed.
    destruct (network_is_a_queue 0x500000 0x510000 0x530000 0x300000 0x301000 0x302000 0x303000 0x304000 0x400000
      E1000.demo_hw I211.demo_write I211.demo_delay Realtek.demo_write Realtek.demo_delay [f]
      I211.i211_demo_write_law ltac:(done) Realtek.rtl_demo_write_law ltac:(lia) ltac:(lia) ltac:(lia)
      ltac:(unfold DMA.DMA_BUFFER_SIZE; lia) 1 demo_cmdline demo_statics s' addr a r (demo_trace read)
      r' demo_statics_boot E Er Ep) as (sent & rest & H1 & H2 & H3 & _).
    exists r, r', sent, (filter (λ g, zlen g <= longest_of r) rest).
    split; [unfold demo_running; by rewrite Ed|]. split; [exact Ep|].
    rewrite Ha, Ht in H1. rewrite Hd in H2. split; [exact H1|]. split; [exact H2|exact H3]. }
  destruct demo_run_driver as (E1 & E2 & E3 & _). split; [|split].
  - apply (H _ _ _ _ is_demo_e1000 demo_ends_e1000 eq_refl (conj eq_refl (conj eq_refl eq_refl))).
    intros r Hr. rewrite (demo_longest _ _ _ E1 Hr). vm_compute. reflexivity.
  - apply (H _ _ _ _ is_demo_i211 demo_ends_i211 eq_refl (conj eq_refl (conj eq_refl eq_refl))).
    intros r Hr. rewrite (demo_longest _ _ _ E2 Hr). vm_compute. reflexivity.
  - apply (H _ _ _ _ is_demo_rtl demo_ends_rtl eq_refl (conj eq_refl (conj eq_refl eq_refl))).
    intros r Hr. rewrite (demo_longest _ _ _ E3 Hr). vm_compute. reflexivity.
Defined.

Lemma init_selects_witness : (demo_run [Pci.demo_device]).2 = Uses_e1000.
Proof.
  apply (init_selects 0x500000 0x510000 0x530000 0x300000 0x301000 0x302000 0x303000 0x304000 0x400000
    E1000.demo_hw I211.demo_write I211.demo_delay Realtek.demo_write Realtek.demo_delay [Pci.demo_device]
    ltac:(lia) ltac:(unfold DMA.DMA_BUFFER_SIZE; lia) 1 demo_cmdline demo_statics (demo_run [Pci.demo_device]).1.1 (demo_run [Pci.demo_device]).1.2 (demo_run [Pci.demo_device]).2
    demo_statics_boot eq_refl).
  - rewrite demo_run_eq by by left. by destruct (demo_run _) as [[s' addr] a].
  - exists (0x8086, 0x100e, 0x5400), Pci.demo_device. split; [|reflexivity]. right. left.
Defined.

End NetworkDriver.
