(* ===== verification/Elf.v ===== *)
(** * Elf: loading a contestant's program ([lib/elf.cpp], [inc/elf.hpp], [inc/abi.hpp])

    The two loaders are a sequence of checks that may return [false] and leave
    memory alone, then a sequence of writes to page flags and user memory.  The
    image is a list of at least [len] bytes.  [None] is a failed assertion of
    the memory manager, [Some (s, None)] the return value [false]. *)
From S2P Require Import Prelude Utils Timer Memory.

Module Elf.
Import Utils Memory.

(** ** Data *)

Record AppConfig := mk_config {
  memory_hard_limit : Z;
  stdin_ptr : list Z; stdin_size : Z;
  stdout_max_size : Z; stderr_max_size : Z;
  IB_ptr : list Z; IB_size : Z;
  OB_ptr : list Z; OB_size : Z; OB_need_clear : bool }.

Record DuckInfo := mk_duckinfo {
  di_abi_version : Z; di_stdin_ptr : Z; di_stdin_size : Z;
  di_stdout_ptr : Z; di_stdout_limit : Z; di_stdout_size : Z;
  di_stderr_ptr : Z; di_stderr_limit : Z; di_stderr_size : Z;
  di_IB_ptr : Z; di_IB_limit : Z; di_OB_ptr : Z; di_OB_limit : Z; di_tsc_frequency : Z }.

(** [DuckInfo_t] is 14 packed 64-bit fields, [DuckInfo32_t] 13 of 32 bits and one of 64. *)
Definition duckinfo_fields (d : DuckInfo) : list Z :=
  [di_abi_version d; di_stdin_ptr d; di_stdin_size d; di_stdout_ptr d; di_stdout_limit d;
   di_stdout_size d; di_stderr_ptr d; di_stderr_limit d; di_stderr_size d; di_IB_ptr d;
   di_IB_limit d; di_OB_ptr d; di_OB_limit d].
Definition encode_duckinfo (d : DuckInfo) : list Z :=
  (duckinfo_fields d ≫= le_bytes 8) ++ le_bytes 8 (di_tsc_frequency d).
Definition encode_duckinfo32 (d : DuckInfo) : list Z :=
  (duckinfo_fields d ≫= le_bytes 4) ++ le_bytes 8 (di_tsc_frequency d).

Record App := mk_app {
  entry : Z; rsp : Z; start_addr : Z; break_addr : Z;
  special_region_start_addr : Z; special_region_break_addr : Z;
  stdin_start_addr : Z; stdin_break_addr : Z;
  duckinfo_orig : DuckInfo; duckinfo_ptr : Z; duckinfo32_ptr : Z }.

Record Ehdr := mk_ehdr { e_entry : Z; e_phoff : Z; e_phentsize : Z; e_phnum : Z }.
Record Phdr := mk_phdr {
  p_type : Z; p_flags : Z; p_offset : Z; p_vaddr : Z; p_filesz : Z; p_memsz : Z; p_align : Z }.

Definition PT_LOAD : Z := 1.
Definition PF_X : Z := 1.
Definition PF_W : Z := 2.

(** ** Headers *)

Definition check_ident (buf : list Z) (ei_class : Z) : bool :=
  (zget 0 buf 0 =? 127) && (zget 0 buf 1 =? 69) && (zget 0 buf 2 =? 76) && (zget 0 buf 3 =? 70) &&
  (zget 0 buf 4 =? ei_class) && (zget 0 buf 5 =? 1) && (zget 0 buf 6 =? 1) &&
  ((zget 0 buf 7 =? 0) || (zget 0 buf 7 =? 3)).

Definition decode_ehdr64 (buf : list Z) : Ehdr :=
  mk_ehdr (get64 buf 24) (get64 buf 32) (get16 buf 54) (get16 buf 56).
Definition decode_ehdr32 (buf : list Z) : Ehdr :=
  mk_ehdr (get32 buf 24) (get32 buf 28) (get16 buf 42) (get16 buf 44).

Definition decode_phdr64 (buf : list Z) (off : Z) : Phdr :=
  mk_phdr (get32 buf off) (get32 buf (off + 4)) (get64 buf (off + 8)) (get64 buf (off + 16))
    (get64 buf (off + 32)) (get64 buf (off + 40)) (get64 buf (off + 48)).
Definition decode_phdr32 (buf : list Z) (off : Z) : Phdr :=
  mk_phdr (get32 buf off) (get32 buf (off + 24)) (get32 buf (off + 4)) (get32 buf (off + 8))
    (get32 buf (off + 16)) (get32 buf (off + 20)) (get32 buf (off + 28)).

(** What distinguishes the two loaders in the checks they share. *)
Record elf_class := mk_class {
  ei_class : Z; machine : Z; sizeof_ehdr : Z; sizeof_phdr : Z;
  decode_ehdr : list Z -> Ehdr; decode_phdr : list Z -> Z -> Phdr;
  align_ok : Z -> bool; load_vaddr_start : Z }.
Definition class64 : elf_class :=
  mk_class 2 62 64 56 decode_ehdr64 decode_phdr64
    (λ a, (a =? PAGE_SIZE) || (a =? HUGE_PAGE_SIZE)) 0x400000.
Definition class32 : elf_class :=
  mk_class 1 3 52 32 decode_ehdr32 decode_phdr32 (λ a, a =? PAGE_SIZE) 0x8048000.

Definition read_ehdr (c : elf_class) (buf : list Z) (len : Z) : option Ehdr :=
  if len <? sizeof_ehdr c then None
  else if negb (check_ident buf (ei_class c)) then None
  else if negb (get16 buf 16 =? 2) then None
  else if negb (get16 buf 18 =? machine c) then None
  else if negb (get32 buf 20 =? 1) then None
  else
    let h := decode_ehdr c buf in
    if len <=? e_phoff h then None
    else if len <=? e_phentsize h then None
    else if len <=? e_phnum h then None
    else Some h.

(** The offset of program header [i]. *)
Definition phdr_off (h : Ehdr) (i : Z) : Z := u64 (e_phoff h + u64 (i * e_phentsize h)).
Definition phdr_at (c : elf_class) (buf : list Z) (h : Ehdr) (i : Z) : Phdr :=
  decode_phdr c buf (phdr_off h i).

(** The body of the first loop for a [PT_LOAD] header. *)
Definition check_segment (c : elf_class) (len : Z) (p : Phdr) : bool :=
  negb (negb (p_filesz p =? 0) && ((len <? p_offset p) || (len <? u64 (p_offset p + p_filesz p)))) &&
  align_ok c (p_align p) &&
  negb (p_memsz p <? p_filesz p) &&
  negb (u64 (p_vaddr p + p_memsz p) <? p_vaddr p).

(** The first loop: [None] is [return false], else [min_vaddr], [max_vaddr]. *)
Fixpoint scan (c : elf_class) (buf : list Z) (len : Z) (h : Ehdr) (is_ : list Z) (mn mx : Z)
    : option (Z * Z) :=
  match is_ with
  | [] => Some (mn, mx)
  | i :: is_ =>
      if len <? u64 (phdr_off h i + sizeof_phdr c) then None
      else
        let p := phdr_at c buf h i in
        if negb (p_type p =? PT_LOAD) then scan c buf len h is_ mn mx
        else if check_segment c len p then
          scan c buf len h is_ (Z.min mn (p_vaddr p)) (Z.max mx (u64 (p_vaddr p + p_memsz p)))
        else None
  end.

(** ** Layout *)

(** A region [vaddr, break) of the special region. *)
Definition region : Type := Z * Z.
Definition alloc_region (size curr : Z) : option region :=
  let alloc_size := round_up size PAGE_SIZE in
  if alloc_size <? size then None
  else
    let b := u64 (curr + alloc_size) in
    if b <? curr then None else Some (curr, b).
(** The two regions of exactly one page. *)
Definition alloc_page (curr : Z) : option region :=
  let b := u64 (curr + PAGE_SIZE) in if b <? curr then None else Some (curr, b).

Record layout := mk_layout {
  load_break : Z; l_stdin : region; l_stdout : region; l_stderr : region; l_IB : region;
  l_OB : region; l_image : region; l_random : region; special_break : Z }.

(** From the bounds of the program to the limit of its memory. *)
Definition program_break (c : elf_class) (cfg : AppConfig) (vbreak mn mx : Z) : option Z :=
  let mn := round_down mn PAGE_SIZE in
  let mx := round_up mx PAGE_SIZE in
  if mn <? kernel_break then None
  else if (mx <=? mn) || (vbreak <? mx) then None
  else
    let memory_limit := round_up (memory_hard_limit cfg) PAGE_SIZE in
    let memory_needed := u64 (mx - mn) in
    if memory_limit <? memory_needed then None
    else if memory_limit <? u64 (memory_needed + PAGE_SIZE) then None
    else if negb (mn =? load_vaddr_start c) then None
    else
      let load_vaddr_break := u64 (load_vaddr_start c + memory_limit) in
      if load_vaddr_break <? load_vaddr_start c then None
      else if vbreak <? load_vaddr_break then None
      else Some load_vaddr_break.

Definition layout64 (cfg : AppConfig) (vbreak lbreak : Z) : option layout :=
  let? stdin := alloc_region (stdin_size cfg) lbreak in
  let? stdout := alloc_region (stdout_max_size cfg) (snd stdin) in
  let? stderr := alloc_region (stderr_max_size cfg) (snd stdout) in
  let? IB := alloc_region (IB_size cfg) (snd stderr) in
  let? OB := alloc_region (OB_size cfg) (snd IB) in
  let? image := alloc_page (snd OB) in
  let? random := alloc_page (snd image) in
  if snd random <? lbreak then None
  else if vbreak <? snd random then None
  else Some (mk_layout lbreak stdin stdout stderr IB OB image random (snd random)).

(** In the 32-bit loader the image page comes after the bounds were checked, and
    there is no page of random bytes. *)
Definition layout32 (cfg : AppConfig) (vbreak lbreak : Z) : option layout :=
  let? stdin := alloc_region (stdin_size cfg) lbreak in
  let? stdout := alloc_region (stdout_max_size cfg) (snd stdin) in
  let? stderr := alloc_region (stderr_max_size cfg) (snd stdout) in
  let? IB := alloc_region (IB_size cfg) (snd stderr) in
  let? OB := alloc_region (OB_size cfg) (snd IB) in
  let special_region_break := snd OB in
  if special_region_break <? lbreak then None
  else if vbreak <? special_region_break then None
  else
    let? image := alloc_page (snd OB) in
    if Z.shiftl 1 32 <? load_vaddr_start class32 then None
    else if Z.shiftl 1 32 <? special_region_break then None
    else Some (mk_layout lbreak stdin stdout stderr IB OB image (0, 0) special_region_break).

(** ** Memory *)

Definition copy_in (a : Z) (bs : list Z) (s : state) : state :=
  with_user_mem s (write_bytes (user_mem s) a bs).

Definition set_up_flags (start special_region_break : Z) (s : state) : option state :=
  let? s := set_page_flags_kernel get_kernel_break start s in
  let? s := set_page_flags_user_writable start special_region_break s in
  let? s := set_page_flags_kernel special_region_break (get_vaddr_break s) s in
  clear_duck_written_pages start special_region_break s.

(** The body of the loading loop. *)
Definition load_segment (c : elf_class) (buf : list Z) (h : Ehdr) (s : state) (i : Z) : option state :=
  let p := phdr_at c buf h i in
  if negb (p_type p =? PT_LOAD) then Some s
  else if negb (p_filesz p =? 0) then
    let s := copy_in (p_vaddr p) (read_at (p_offset p) (p_filesz p) buf) s in
    set_duck_written (round_down (p_vaddr p) PAGE_SIZE)
      (round_up (u64 (p_vaddr p + p_filesz p)) PAGE_SIZE) s
  else Some s.

(** A buffer of the judger made readable: stdin and IB, then the ELF image. *)
Definition load_readonly (r : region) (content : list Z) (s : state) : option state :=
  let s := copy_in (fst r) content s in
  let? s := set_duck_written (fst r) (snd r) s in
  set_page_flags_user_readonly (fst r) (snd r) s.

Definition load_OB (cfg : AppConfig) (r : region) (s : state) : option state :=
  if OB_need_clear cfg then Some s
  else
    let? s := set_duck_written (fst r) (u64 (fst r + round_up (OB_size cfg) PAGE_SIZE)) s in
    Some (copy_in (fst r) (ztake (OB_size cfg) (OB_ptr cfg)) s).

(** The body of the last loop. *)
Definition flag_segment (c : elf_class) (buf : list Z) (h : Ehdr) (s : state) (i : Z) : option state :=
  let p := phdr_at c buf h i in
  if negb (p_type p =? PT_LOAD) then Some s
  else
    let start := round_down (p_vaddr p) PAGE_SIZE in
    let end_ := round_up (u64 (p_vaddr p + p_memsz p)) PAGE_SIZE in
    let? s := set_page_flags_user_readonly start end_ s in
    let? s := (if negb (Z.land (p_flags p) PF_X =? 0) then add_page_flags_executable start end_ s
               else Some s) in
    if negb (Z.land (p_flags p) PF_W =? 0) then add_page_flags_writable start end_ s else Some s.

(** ** The initial stack *)

(** [pushq], [pushl], [push]: the stack pointer and the memory. *)
Definition push (bs : list Z) (st : Z * (Z -> Z)) : Z * (Z -> Z) :=
  let '(rsp, m) := st in
  let rsp := u64 (rsp - zlen bs) in
  (rsp, write_bytes m rsp bs).
Definition pushq (st : Z * (Z -> Z)) (val : Z) : Z * (Z -> Z) := push (le_bytes 8 val) st.
Definition pushl (st : Z * (Z -> Z)) (val : Z) : Z * (Z -> Z) := push (le_bytes 4 val) st.

(** The realignment after the pushes. *)
Definition align16 (auxv_end : Z) (st : Z * (Z -> Z)) : Z * (Z -> Z) :=
  let '(rsp, m) := st in
  if negb (rsp mod 16 =? 0) then
    let new_rsp := round_down rsp 16 in
    (new_rsp, write_bytes m new_rsp (read_bytes m rsp (u64 (auxv_end - rsp))))
  else (rsp, m).

Definition AT_DUCK : Z := 0x6b637564.
Definition auxv64 (h : Ehdr) (duckinfo_ptr image random : Z) : list Z :=
  [0; PAGE_SIZE; 6; duckinfo_ptr; AT_DUCK;
   image; 7; u64 (image + e_phoff h); 3; e_entry h; 9; e_phentsize h; 4; e_phnum h; 5;
   0xbfebfbff; 16; 0x2; 16; 1000; 11; 1000; 12; 1000; 13; 1000; 14; 0; 23; random; 25;
   0; 0; 0].

(** The final stack pointer, the address of [duckinfo] and the memory. *)
Definition stack64 (h : Ehdr) (l : layout) (d : DuckInfo) (m : Z -> Z) : Z * Z * (Z -> Z) :=
  let st := push (encode_duckinfo d) (load_break l, m) in
  let duckinfo_ptr := fst st in
  let st := fold_left pushq (auxv64 h duckinfo_ptr (fst (l_image l)) (fst (l_random l))) st in
  let '(rsp, m) := align16 duckinfo_ptr st in
  (rsp, duckinfo_ptr, m).

(** The 32-bit vector mixes [pushl] and, for the ELF entries, [pushq]. *)
Definition stack32 (h : Ehdr) (l : layout) (d : DuckInfo) (m : Z -> Z) : Z * Z * (Z -> Z) :=
  let st := push (encode_duckinfo32 d) (load_break l, m) in
  let duckinfo_ptr := fst st in
  let image := fst (l_image l) in
  let st := fold_left pushl [0; PAGE_SIZE; 6; duckinfo_ptr; AT_DUCK] st in
  let st := fold_left pushq [image; 7; u64 (image + e_phoff h); 3; e_entry h; 9;
                             e_phentsize h; 4; e_phnum h; 5] st in
  let st := fold_left pushl [0; 0; 0] st in
  let '(rsp, m) := align16 duckinfo_ptr st in
  (rsp, duckinfo_ptr, m).

(** ** The loaders *)

Definition make_duckinfo (cfg : AppConfig) (l : layout) (tsc_freq : Z) : DuckInfo :=
  mk_duckinfo 40 (fst (l_stdin l)) (stdin_size cfg) (fst (l_stdout l)) (stdout_max_size cfg) 0
    (fst (l_stderr l)) (stderr_max_size cfg) 0 (fst (l_IB l)) (IB_size cfg) (fst (l_OB l))
    (OB_size cfg) tsc_freq.

Definition plan64 (buf : list Z) (len : Z) (cfg : AppConfig) (vbreak : Z) : option (Ehdr * layout) :=
  let? h := read_ehdr class64 buf len in
  let? (mn, mx) := scan class64 buf len h (seqZ 0 (e_phnum h)) (u64 (-1)) 0 in
  let? lbreak := program_break class64 cfg vbreak mn mx in
  let? l := layout64 cfg vbreak lbreak in
  Some (h, l).

Definition plan32 (buf : list Z) (len : Z) (cfg : AppConfig) (vbreak : Z) : option (Ehdr * layout) :=
  let? h := read_ehdr class32 buf len in
  let? (mn, mx) := scan class32 buf len h (seqZ 0 (e_phnum h)) (u64 (-1)) 0 in
  let? lbreak := program_break class32 cfg vbreak mn mx in
  let? l := layout32 cfg vbreak lbreak in
  Some (h, l).

(** Everything after the checks. *)
Definition do_load64 (buf : list Z) (len : Z) (cfg : AppConfig) (tsc_freq : Z) (h : Ehdr)
    (l : layout) (s : state) : option (state * App) :=
  let start := load_vaddr_start class64 in
  let? s := set_up_flags start (special_break l) s in
  let? s := fold_opt (load_segment class64 buf h) s (seqZ 0 (e_phnum h)) in
  let? s := load_readonly (l_stdin l) (ztake (stdin_size cfg) (stdin_ptr cfg)) s in
  let? s := load_readonly (l_IB l) (ztake (IB_size cfg) (IB_ptr cfg)) s in
  let? s := load_OB cfg (l_OB l) s in
  let? s := load_readonly (l_image l) (ztake (Z.min len PAGE_SIZE) buf) s in
  let? s := load_readonly (l_random l) (le_bytes 8 0xf44c01c8 ++ le_bytes 8 0x22b64652) s in
  let d := make_duckinfo cfg l tsc_freq in
  let '(rsp, duckinfo_ptr, m) := stack64 h l d (user_mem s) in
  let s := with_user_mem s m in
  let? s := set_duck_written (u64 (load_break l - PAGE_SIZE)) (load_break l) s in
  let? s := fold_opt (flag_segment class64 buf h) s (seqZ 0 (e_phnum h)) in
  let? s := clear_access_and_dirty_flags start (special_break l) s in
  Some (s, mk_app (e_entry h) rsp start (load_break l) (load_break l) (special_break l)
             (fst (l_stdin l)) (snd (l_stdin l)) d duckinfo_ptr 0).

Definition do_load32 (buf : list Z) (len : Z) (cfg : AppConfig) (tsc_freq : Z) (h : Ehdr)
    (l : layout) (s : state) : option (state * App) :=
  let start := load_vaddr_start class32 in
  let? s := set_up_flags start (special_break l) s in
  let? s := fold_opt (load_segment class32 buf h) s (seqZ 0 (e_phnum h)) in
  let? s := load_readonly (l_stdin l) (ztake (stdin_size cfg) (stdin_ptr cfg)) s in
  let? s := load_readonly (l_IB l) (ztake (IB_size cfg) (IB_ptr cfg)) s in
  let? s := load_OB cfg (l_OB l) s in
  let? s := load_readonly (l_image l) (ztake (Z.min len PAGE_SIZE) buf) s in
  let d := make_duckinfo cfg l tsc_freq in
  let '(rsp, duckinfo_ptr, m) := stack32 h l d (user_mem s) in
  let s := with_user_mem s m in
  let? s := set_duck_written (u64 (load_break l - PAGE_SIZE)) (load_break l) s in
  let? s := fold_opt (flag_segment class32 buf h) s (seqZ 0 (e_phnum h)) in
  let? s := clear_access_and_dirty_flags start (special_break l) s in
  Some (s, mk_app (e_entry h) rsp start (load_break l) (load_break l) (special_break l)
             (fst (l_stdin l)) (snd (l_stdin l)) d 0 duckinfo_ptr).

Definition load_elf64 (buf : list Z) (len : Z) (cfg : AppConfig) (tsc_freq : Z) (s : state)
    : option (state * option App) :=
  match plan64 buf len cfg (get_vaddr_break s) with
  | None => Some (s, None)
  | Some (h, l) =>
      let? (s, app) := do_load64 buf len cfg tsc_freq h l s in
      Some (s, Some app)
  end.

Definition load_elf32 (buf : list Z) (len : Z) (cfg : AppConfig) (tsc_freq : Z) (s : state)
    : option (state * option App) :=
  match plan32 buf len cfg (get_vaddr_break s) with
  | None => Some (s, None)
  | Some (h, l) =>
      let? (s, app) := do_load32 buf len cfg tsc_freq h l s in
      Some (s, Some app)
  end.

Definition load (buf : list Z) (len : Z) (cfg : AppConfig) (tsc_freq : Z) (s : state)
    : option (state * option App) :=
  if len <? sizeof_ehdr class32 then Some (s, None)
  else
    let cls := zget 0 buf 4 in
    if cls =? ei_class class64 then load_elf64 buf len cfg tsc_freq s
    else if cls =? ei_class class32 then load_elf32 buf len cfg tsc_freq s
    else Some (s, None).

(** ** [run]: the result of a run, after the program has trapped *)

(** What the trap and the performance counters report. *)
Record Outcome := mk_outcome {
  o_time_tsc : Z; o_trap_num : Z; o_return_code : Z;
  o_count_inst : Z; o_clk_thread : Z; o_clk_ref_tsc : Z; o_trap_epc : Z; o_trap_cr2 : Z }.

Record RunResult := mk_result {
  count_inst : Z; clk_thread : Z; clk_ref_tsc : Z; time_tsc : Z;
  time_ns : Z; time_ns_ref_tsc : Z; time_ns_real : Z;
  memory_bytes : Z; memory_kb : Z; memory_kb_accessed : Z;
  trap_num : Z; return_code : Z; trap_epc : Z; trap_cr2 : Z;
  stdout_ptr : Z; stdout_size : Z; stderr_ptr : Z; stderr_size : Z; r_OB_ptr : Z }.

(** A little-endian integer in user memory. *)
Definition read_mem (m : Z -> Z) (a n : Z) : Z := le_val (read_bytes m a n).

(** The fields [stdout_size], [stderr_size] of the program's own [DuckInfo]. *)
Definition reported_stdout (app : App) (m : Z -> Z) : Z :=
  if negb (duckinfo_ptr app =? 0) then read_mem m (duckinfo_ptr app + 40) 8
  else read_mem m (duckinfo32_ptr app + 20) 4.
Definition reported_stderr (app : App) (m : Z -> Z) : Z :=
  if negb (duckinfo_ptr app =? 0) then read_mem m (duckinfo_ptr app + 64) 8
  else read_mem m (duckinfo32_ptr app + 32) 4.

Definition run (t : Timer.state) (app : App) (o : Outcome) (s : state) : option (state * RunResult) :=
  let? s := set_duck_written_by_dirty (start_addr app) (special_region_break_addr app) s in
  let? dirty := count_dirty_pages (start_addr app) (special_region_break_addr app) s in
  let? accessed := count_accessed_pages (start_addr app) (special_region_break_addr app) s in
  let? in_stdin := count_accessed_pages (stdin_start_addr app) (stdin_break_addr app) s in
  let memory_bytes := u64 (PAGE_SIZE * dirty) in
  let temp_pages := u64 (accessed - in_stdin) in
  let d := duckinfo_orig app in
  Some (s, mk_result (o_count_inst o) (o_clk_thread o) (o_clk_ref_tsc o) (o_time_tsc o)
    (Timer.clk_to_ns t (o_clk_thread o)) (Timer.tsc_to_ns t (o_clk_ref_tsc o))
    (Timer.tsc_to_ns t (o_time_tsc o))
    memory_bytes (memory_bytes / 1024) (u64 (PAGE_SIZE * temp_pages) / 1024)
    (o_trap_num o) (o_return_code o) (o_trap_epc o) (o_trap_cr2 o)
    (di_stdout_ptr d) (Z.min (di_stdout_limit d) (reported_stdout app (user_mem s)))
    (di_stderr_ptr d) (Z.min (di_stderr_limit d) (reported_stderr app (user_mem s)))
    (di_OB_ptr d)).

(** ** Lemmas: the checks *)

#[local] Opaque for_pages.

Definition is_class (c : elf_class) : Prop := c = class64 \/ c = class32.

Lemma ehdr_range c buf len h :
  is_class c -> bytes buf -> 0 <= len < 2 ^ 32 -> read_ehdr c buf len = Some h ->
  0 <= e_phoff h < len /\ 0 <= e_phentsize h < 65536 /\ 0 <= e_phnum h < 65536 /\ is_u64 (e_entry h).
Proof.
  intros Hc Hb Hl. unfold read_ehdr.
  destruct (_ <? _); [done|]. do 4 (destruct (negb _); [done|]).
  destruct (Z.leb_spec len (e_phoff (decode_ehdr c buf))); [done|].
  destruct (Z.leb_spec len (e_phentsize (decode_ehdr c buf))); [done|].
  destruct (Z.leb_spec len (e_phnum (decode_ehdr c buf))); [done|]. intros [= <-].
  destruct Hc as [-> | ->]; cbn [decode_ehdr class64 class32 decode_ehdr64 decode_ehdr32 e_phoff
    e_phentsize e_phnum e_entry] in *.
  - pose proof (get64_range buf 32 Hb). pose proof (get16_range buf 54 Hb).
    pose proof (get16_range buf 56 Hb). pose proof (get64_range buf 24 Hb). unfold is_u16, is_u64 in *. lia.
  - pose proof (get32_range buf 28 Hb). pose proof (get16_range buf 42 Hb).
    pose proof (get16_range buf 44 Hb). pose proof (get32_range buf 24 Hb).
    unfold is_u16, is_u32, is_u64 in *. lia.
Qed.

Definition wf_phdr (p : Phdr) : Prop :=
  is_u64 (p_offset p) /\ is_u64 (p_vaddr p) /\ is_u64 (p_filesz p) /\ is_u64 (p_memsz p).

Lemma wf_phdr_at c buf h i : is_class c -> bytes buf -> wf_phdr (phdr_at c buf h i).
Proof.
  intros Hc Hb. unfold wf_phdr, phdr_at.
  assert (H32 : forall off, is_u64 (get32 buf off))
    by (intros off; pose proof (get32_range buf off Hb); unfold is_u32, is_u64 in *; lia).
  destruct Hc as [-> | ->]; cbn; conj_split; auto with duck.
Qed.

Lemma scan_spec c buf len h l mn mx mn' mx' :
  scan c buf len h l mn mx = Some (mn', mx') ->
  mn' <= mn /\ mx <= mx' /\
  forall i, In i l ->
    u64 (phdr_off h i + sizeof_phdr c) <= len /\
    let p := phdr_at c buf h i in
    (p_type p = PT_LOAD ->
     check_segment c len p = true /\ mn' <= p_vaddr p /\ u64 (p_vaddr p + p_memsz p) <= mx').
Proof.
  revert mn mx. induction l as [|i l IH]; intros mn mx; cbn [scan].
  - intros [= <- <-]. split; [lia|]. split; [lia|]. intros i [].
  - destruct (Z.ltb_spec len (u64 (phdr_off h i + sizeof_phdr c))); [done|].
    destruct (Z.eqb_spec (p_type (phdr_at c buf h i)) PT_LOAD) as [Ht|Ht]; cbn [negb].
    + destruct (check_segment c len (phdr_at c buf h i)) eqn:Hck; [|done].
      intros (H1 & H2 & H3)%IH. split; [lia|]. split; [lia|].
      intros j [<-|Hj]; [|by apply H3]. split; [lia|]. intros _. split; [done|lia].
    + intros (H1 & H2 & H3)%IH. split; [lia|]. split; [lia|].
      intros j [<-|Hj]; [|by apply H3]. split; [lia|]. done.
Qed.

(** What the loader needs of a segment: read inside the file, written below the
    last page under [lbreak] and from the load address on. *)
Definition segment_fits (c : elf_class) (len lbreak : Z) (p : Phdr) : Prop :=
  load_vaddr_start c <= p_vaddr p /\ 0 <= p_filesz p <= p_memsz p /\
  p_vaddr p + p_memsz p <= lbreak - PAGE_SIZE /\
  (p_filesz p <> 0 -> 0 <= p_offset p /\ p_offset p + p_filesz p <= len).

Definition vbreak_ok (vbreak : Z) : Prop :=
  kernel_break <= vbreak <= 2 ^ 46 /\ vbreak mod PAGE_SIZE = 0.

Lemma round_up_page x : 0 <= x < 2 ^ 63 ->
  round_up x PAGE_SIZE mod PAGE_SIZE = 0 /\ x <= round_up x PAGE_SIZE < x + PAGE_SIZE.
Proof.
  intros Hx. destruct (round_up_no_wrap x PAGE_SIZE) as (_ & Hb & Hm & _);
    [unfold is_u64; lia|done|unfold PAGE_SIZE; lia|]. done.
Qed.
Lemma round_down_page x : 0 <= x < 2 ^ 64 ->
  round_down x PAGE_SIZE mod PAGE_SIZE = 0 /\ round_down x PAGE_SIZE <= x < round_down x PAGE_SIZE + PAGE_SIZE.
Proof.
  intros Hx. destruct (round_down_spec x PAGE_SIZE) as (_ & Hb & Hm & _);
    [unfold is_u64; lia|done|]. done.
Qed.

(** A rounded value is a wrap to zero or a true rounding. *)
Lemma round_up_cases x : is_u64 x ->
  round_up x PAGE_SIZE = 0 \/
  (x <= round_up x PAGE_SIZE < x + PAGE_SIZE /\ round_up x PAGE_SIZE mod PAGE_SIZE = 0).
Proof.
  intros Hx. destruct (Z.lt_ge_cases (x + PAGE_SIZE - 1) (2 ^ 64)).
  - right. by destruct (round_up_no_wrap x PAGE_SIZE) as (_ & Hb & Hm & _).
  - left. by apply round_up_wrap.
Qed.

Lemma program_break_spec c cfg vbreak mn mx lb :
  is_class c -> vbreak_ok vbreak -> is_u64 mn -> is_u64 mx -> is_u64 (memory_hard_limit cfg) ->
  program_break c cfg vbreak mn mx = Some lb ->
  load_vaddr_start c <= mn /\ mx <= round_up mx PAGE_SIZE <= lb - PAGE_SIZE /\ lb <= vbreak /\
  lb mod PAGE_SIZE = 0 /\ round_up mx PAGE_SIZE mod PAGE_SIZE = 0.
Proof.
  intros Hc (Hv & Hvm) Hmn Hmx Hlim. unfold program_break. cbn zeta.
  destruct (round_down_page mn) as [Hdm Hd]; [done|].
  set (mn' := round_down mn PAGE_SIZE) in *.
  pose proof (round_up_cases mx Hmx) as Hu. set (mx' := round_up mx PAGE_SIZE) in *.
  pose proof (round_up_cases _ Hlim) as Hml. set (ml := round_up (memory_hard_limit cfg) PAGE_SIZE) in *.
  destruct (Z.ltb_spec mn' kernel_break); [done|].
  destruct (Z.leb_spec mx' mn'); [done|]. cbn [orb]. destruct (Z.ltb_spec vbreak mx'); [done|].
  unfold kernel_break, PAGE_SIZE in *.
  rewrite (u64_small (mx' - mn')) by (unfold is_u64; lia).
  rewrite (u64_small (mx' - mn' + 4096)) by (unfold is_u64; lia).
  destruct (Z.ltb_spec ml (mx' - mn')); [done|]. destruct (Z.ltb_spec ml (mx' - mn' + 4096)); [done|].
  destruct (Z.eqb_spec mn' (load_vaddr_start c)); cbn [negb]; [|done].
  assert (Hls : load_vaddr_start c mod 4096 = 0 /\ 0 < load_vaddr_start c < 2 ^ 28)
    by (destruct Hc as [-> | ->]; vm_compute; intuition discriminate).
  assert (Hmlu : is_u64 ml) by apply round_up_range. unfold is_u64 in *.
  destruct (Z.ltb_spec (u64 (load_vaddr_start c + ml)) (load_vaddr_start c)) as [|Hw]; [done|].
  destruct (Z.ltb_spec vbreak (u64 (load_vaddr_start c + ml))) as [|Hb]; [done|]. intros [= <-].
  assert (E : u64 (load_vaddr_start c + ml) = load_vaddr_start c + ml) by word_lia.
  rewrite E in *. destruct Hml as [?|[_ Hmlm]]; [lia|].
  conj_split; try lia. destruct Hls as [Hls _]. Z.to_euclidean_division_equations; lia.
Qed.

Lemma scan_range c buf len h l mn mx mn' mx' :
  is_class c -> bytes buf -> is_u64 mn -> is_u64 mx ->
  scan c buf len h l mn mx = Some (mn', mx') -> is_u64 mn' /\ is_u64 mx'.
Proof.
  intros Hc Hb. revert mn mx. induction l as [|i l IH]; intros mn mx Hmn Hmx; cbn [scan].
  - by intros [= <- <-].
  - destruct (_ <? _); [done|]. destruct (negb _); [by apply IH|].
    destruct (check_segment _ _ _); [|done].
    destruct (wf_phdr_at c buf h i Hc Hb) as (_ & Hv & _). apply IH.
    + unfold is_u64 in *. lia.
    + pose proof (u64_range (p_vaddr (phdr_at c buf h i) + p_memsz (phdr_at c buf h i))).
      unfold is_u64 in *. lia.
Qed.

Lemma segment_fits_of_checks c buf len cfg vbreak h mn mx lb i :
  is_class c -> bytes buf -> 0 <= len < 2 ^ 32 -> vbreak_ok vbreak -> is_u64 (memory_hard_limit cfg) ->
  read_ehdr c buf len = Some h ->
  scan c buf len h (seqZ 0 (e_phnum h)) (u64 (-1)) 0 = Some (mn, mx) ->
  program_break c cfg vbreak mn mx = Some lb ->
  0 <= i < e_phnum h ->
  (0 <= phdr_off h i /\ phdr_off h i + sizeof_phdr c <= len) /\
  (p_type (phdr_at c buf h i) = PT_LOAD -> segment_fits c len lb (phdr_at c buf h i)).
Proof.
  intros Hc Hb Hlen Hv Hlim Hh Hs Hp Hi.
  pose proof (ehdr_range c buf len h Hc Hb Hlen Hh) as (He1 & He2 & He3 & _).
  destruct (scan_range _ _ _ _ _ _ _ _ _ Hc Hb (u64_range (-1)) is_u64_0 Hs) as [Hmn Hmx].
  apply scan_spec in Hs as (_ & _ & Hseg).
  destruct (Hseg i) as [Hoff Hload]; [by apply list_elem_of_In, elem_of_seqZ; lia|].
  destruct (program_break_spec c cfg vbreak mn mx lb Hc Hv Hmn Hmx Hlim Hp) as (Hlo & Hhi & Hlb & _).
  destruct Hv as [Hv _].
  assert (Hsz : 0 < sizeof_phdr c < 64) by (destruct Hc as [-> | ->]; vm_compute; intuition discriminate).
  assert (0 <= i * e_phentsize h < 65536 * 65536) by nia.
  assert (Ho : phdr_off h i = e_phoff h + i * e_phentsize h).
  { unfold phdr_off. rewrite (u64_small (i * _)) by (unfold is_u64; lia).
    apply u64_small. unfold is_u64. lia. }
  rewrite Ho in *. rewrite u64_small in Hoff by (unfold is_u64; lia).
  split; [lia|]. intros Ht. destruct (Hload Ht) as (Hck & Hmin & Hmax). clear Hseg Hload.
  destruct (wf_phdr_at c buf h i Hc Hb) as (Hpo & Hpv & Hpf & Hpm).
  set (p := phdr_at c buf h i) in *. clearbody p. unfold is_u64, segment_fits in *.
  assert (Hls : 0 < load_vaddr_start c < 2 ^ 28)
    by (destruct Hc as [-> | ->]; vm_compute; intuition discriminate).
  unfold check_segment in Hck. rewrite !andb_true_iff, !negb_true_iff in Hck.
  destruct Hck as [[[Hfile _] Hsize] Hover].
  apply Z.ltb_ge in Hsize, Hover.
  assert (Hnow : u64 (p_vaddr p + p_memsz p) = p_vaddr p + p_memsz p) by word_lia.
  rewrite Hnow in *. conj_split; try lia.
  destruct (Z.eqb_spec (p_filesz p) 0) as [|Hf]; [done|]. cbn [negb andb] in Hfile.
  apply orb_false_iff in Hfile as [Hf1%Z.ltb_ge Hf2%Z.ltb_ge].
  intros _. rewrite u64_small in Hf2 by (unfold is_u64, PAGE_SIZE in *; lia). lia.
Qed.

(** ** Lemmas: the layout *)

(** A region of pages from [curr] that holds [size] bytes. *)
Definition region_at (curr size : Z) (r : region) : Prop :=
  fst r = curr /\ curr + size <= snd r < curr + size + PAGE_SIZE /\ snd r mod PAGE_SIZE = 0.

Lemma alloc_region_spec size curr r :
  is_u64 size -> 0 <= curr < 2 ^ 64 -> curr mod PAGE_SIZE = 0 -> alloc_region size curr = Some r ->
  region_at curr size r /\ snd r < 2 ^ 64.
Proof.
  intros Hs Hc Hm. unfold alloc_region. cbn zeta.
  pose proof (round_up_cases size Hs) as Hu. pose proof (round_up_range size PAGE_SIZE) as Hr.
  set (a := round_up size PAGE_SIZE) in *. destruct (Z.ltb_spec a size); [done|].
  destruct (Z.ltb_spec (u64 (curr + a)) curr) as [|Hw]; [done|]. intros [= <-].
  assert (E : u64 (curr + a) = curr + a) by word_lia. unfold region_at. cbn [fst snd]. rewrite E.
  pose proof (u64_range (curr + a)) as Hur. rewrite E in Hur. unfold is_u64, PAGE_SIZE in *.
  assert (Ha : size <= a < size + 4096 /\ a mod 4096 = 0)
    by (destruct Hu as [-> | ?]; [split; [lia|done]|done]).
  conj_split; try lia. Z.to_euclidean_division_equations; lia.
Qed.

Lemma alloc_page_spec curr r :
  0 <= curr < 2 ^ 64 -> curr mod PAGE_SIZE = 0 -> alloc_page curr = Some r ->
  r = (curr, curr + PAGE_SIZE) /\ curr + PAGE_SIZE < 2 ^ 64.
Proof.
  intros Hc Hm. unfold alloc_page. cbn zeta.
  destruct (Z.ltb_spec (u64 (curr + PAGE_SIZE)) curr); [done|]. intros [= <-].
  unfold PAGE_SIZE in *. assert (E : u64 (curr + 4096) = curr + 4096) by word_lia.
  rewrite E. pose proof (u64_range (curr + 4096)) as Hr. rewrite E in Hr. unfold is_u64 in Hr.
  split; [done|lia].
Qed.

(** The sizes of a configuration are 64-bit values. *)
Definition wf_config (cfg : AppConfig) : Prop :=
  is_u64 (memory_hard_limit cfg) /\ is_u64 (stdin_size cfg) /\ is_u64 (stdout_max_size cfg) /\
  is_u64 (stderr_max_size cfg) /\ is_u64 (IB_size cfg) /\ is_u64 (OB_size cfg).

(** Consecutive regions from [lbreak] to [special_break]. *)
Definition layout_ok (cfg : AppConfig) (lbreak : Z) (l : layout) : Prop :=
  load_break l = lbreak /\
  region_at lbreak (stdin_size cfg) (l_stdin l) /\
  region_at (snd (l_stdin l)) (stdout_max_size cfg) (l_stdout l) /\
  region_at (snd (l_stdout l)) (stderr_max_size cfg) (l_stderr l) /\
  region_at (snd (l_stderr l)) (IB_size cfg) (l_IB l) /\
  region_at (snd (l_IB l)) (OB_size cfg) (l_OB l) /\
  l_image l = (snd (l_OB l), snd (l_OB l) + PAGE_SIZE).

Lemma five_regions cfg lbreak a b c d e :
  wf_config cfg -> 0 <= lbreak < 2 ^ 64 -> lbreak mod PAGE_SIZE = 0 ->
  alloc_region (stdin_size cfg) lbreak = Some a ->
  alloc_region (stdout_max_size cfg) (snd a) = Some b ->
  alloc_region (stderr_max_size cfg) (snd b) = Some c ->
  alloc_region (IB_size cfg) (snd c) = Some d ->
  alloc_region (OB_size cfg) (snd d) = Some e ->
  region_at lbreak (stdin_size cfg) a /\ region_at (snd a) (stdout_max_size cfg) b /\
  region_at (snd b) (stderr_max_size cfg) c /\ region_at (snd c) (IB_size cfg) d /\
  region_at (snd d) (OB_size cfg) e /\ lbreak <= snd e < 2 ^ 64 /\ snd e mod PAGE_SIZE = 0.
Proof.
  intros (_ & H1 & H2 & H3 & H4 & H5) Hl Hm Ha Hb Hc Hd He.
  apply alloc_region_spec in Ha as [Ra ?]; [|done..].
  apply alloc_region_spec in Hb as [Rb ?]; [|done|unfold region_at, is_u64 in *; lia|by apply Ra].
  apply alloc_region_spec in Hc as [Rc ?]; [|done|unfold region_at, is_u64 in *; lia|by apply Rb].
  apply alloc_region_spec in Hd as [Rd ?]; [|done|unfold region_at, is_u64 in *; lia|by apply Rc].
  apply alloc_region_spec in He as [Re ?]; [|done|unfold region_at, is_u64 in *; lia|by apply Rd].
  conj_split; try done; [unfold region_at, is_u64 in *; lia|by apply Re].
Qed.

Lemma layout64_spec cfg vbreak lbreak l :
  wf_config cfg -> 0 <= lbreak < 2 ^ 64 -> lbreak mod PAGE_SIZE = 0 ->
  layout64 cfg vbreak lbreak = Some l ->
  layout_ok cfg lbreak l /\ l_random l = (snd (l_image l), snd (l_image l) + PAGE_SIZE) /\
  special_break l = snd (l_random l) /\ special_break l <= vbreak /\
  special_break l mod PAGE_SIZE = 0 /\ lbreak <= special_break l.
Proof.
  intros Hc Hl Hm. unfold layout64, obind.
  destruct (alloc_region (stdin_size cfg) lbreak) as [a|] eqn:Ea; [|done].
  destruct (alloc_region (stdout_max_size cfg) (snd a)) as [b|] eqn:Eb; [|done].
  destruct (alloc_region (stderr_max_size cfg) (snd b)) as [c|] eqn:Ec; [|done].
  destruct (alloc_region (IB_size cfg) (snd c)) as [d|] eqn:Ed; [|done].
  destruct (alloc_region (OB_size cfg) (snd d)) as [e|] eqn:Ee; [|done].
  destruct (five_regions cfg lbreak a b c d e) as (R1 & R2 & R3 & R4 & R5 & Hb & Hbm); [done..|].
  destruct (alloc_page (snd e)) as [im|] eqn:Ei; [|done].
  apply alloc_page_spec in Ei as [-> Hi]; [|lia|done]. cbn [snd].
  destruct (alloc_page (snd e + PAGE_SIZE)) as [rn|] eqn:Er; [|done].
  apply alloc_page_spec in Er as [-> Hr]; [|unfold PAGE_SIZE in *; lia|
    unfold PAGE_SIZE in *; Z.to_euclidean_division_equations; lia]. cbn [snd].
  destruct (Z.ltb_spec (snd e + PAGE_SIZE + PAGE_SIZE) lbreak); [done|].
  destruct (Z.ltb_spec vbreak (snd e + PAGE_SIZE + PAGE_SIZE)); [done|]. intros [= <-].
  unfold layout_ok. cbn [load_break l_stdin l_stdout l_stderr l_IB l_OB l_image l_random special_break fst snd].
  conj_split; try done. unfold PAGE_SIZE in *. Z.to_euclidean_division_equations; lia.
Qed.

Lemma layout32_spec cfg vbreak lbreak l :
  wf_config cfg -> 0 <= lbreak < 2 ^ 64 -> lbreak mod PAGE_SIZE = 0 ->
  layout32 cfg vbreak lbreak = Some l ->
  layout_ok cfg lbreak l /\ special_break l = snd (l_OB l) /\ special_break l <= vbreak /\
  special_break l <= 2 ^ 32 /\ special_break l mod PAGE_SIZE = 0 /\ lbreak <= special_break l.
Proof.
  intros Hc Hl Hm. unfold layout32, obind.
  destruct (alloc_region (stdin_size cfg) lbreak) as [a|] eqn:Ea; [|done].
  destruct (alloc_region (stdout_max_size cfg) (snd a)) as [b|] eqn:Eb; [|done].
  destruct (alloc_region (stderr_max_size cfg) (snd b)) as [c|] eqn:Ec; [|done].
  destruct (alloc_region (IB_size cfg) (snd c)) as [d|] eqn:Ed; [|done].
  destruct (alloc_region (OB_size cfg) (snd d)) as [e|] eqn:Ee; [|done].
  destruct (five_regions cfg lbreak a b c d e) as (R1 & R2 & R3 & R4 & R5 & Hb & Hbm); [done..|].
  cbn zeta. destruct (Z.ltb_spec (snd e) lbreak); [done|]. destruct (Z.ltb_spec vbreak (snd e)); [done|].
  destruct (alloc_page (snd e)) as [im|] eqn:Ei; [|done].
  apply alloc_page_spec in Ei as [-> Hi]; [|lia|done].
  destruct (Z.ltb_spec (Z.shiftl 1 32) (load_vaddr_start class32)); [done|].
  destruct (Z.ltb_spec (Z.shiftl 1 32) (snd e)) as [|H32]; [done|]. intros [= <-].
  unfold layout_ok. cbn [load_break l_stdin l_stdout l_stderr l_IB l_OB l_image l_random special_break fst snd].
  change (Z.shiftl 1 32) with (2 ^ 32) in H32. conj_split; done.
Qed.

(** What the checks of the loaders establish. *)
Definition plan_ok (c : elf_class) (buf : list Z) (len : Z) (cfg : AppConfig) (h : Ehdr) (l : layout) : Prop :=
  load_vaddr_start c + PAGE_SIZE <= load_break l /\ load_break l mod PAGE_SIZE = 0 /\
  layout_ok cfg (load_break l) l /\
  (forall i, 0 <= i < e_phnum h ->
     (0 <= phdr_off h i /\ phdr_off h i + sizeof_phdr c <= len) /\
     (p_type (phdr_at c buf h i) = PT_LOAD -> segment_fits c len (load_break l) (phdr_at c buf h i))).

Lemma plan_common c buf len cfg vbreak h mn mx lb :
  is_class c -> bytes buf -> 0 <= len < 2 ^ 32 -> vbreak_ok vbreak -> wf_config cfg ->
  read_ehdr c buf len = Some h ->
  scan c buf len h (seqZ 0 (e_phnum h)) (u64 (-1)) 0 = Some (mn, mx) ->
  program_break c cfg vbreak mn mx = Some lb ->
  load_vaddr_start c + PAGE_SIZE <= lb /\ lb <= vbreak /\ lb mod PAGE_SIZE = 0 /\ 0 <= lb < 2 ^ 64.
Proof.
  intros Hc Hb Hlen Hv Hcfg Hh Hs Hp. pose proof Hcfg as (Hlim & _).
  destruct (scan_range _ _ _ _ _ _ _ _ _ Hc Hb (u64_range (-1)) is_u64_0 Hs) as [Hmn Hmx].
  destruct (program_break_spec c cfg vbreak mn mx lb Hc Hv Hmn Hmx Hlim Hp) as (H1 & H2 & H3 & H4 & H5).
  assert (Hls : 0 < load_vaddr_start c) by (destruct Hc as [-> | ->]; done).
  unfold program_break in Hp. cbn zeta in Hp.
  destruct (_ <? kernel_break); [done|].
  destruct (Z.leb_spec (round_up mx PAGE_SIZE) (round_down mn PAGE_SIZE)); [done|]. cbn [orb] in Hp.
  destruct (vbreak <? _); [done|]. destruct (_ <? _); [done|]. destruct (_ <? _); [done|].
  destruct (Z.eqb_spec (round_down mn PAGE_SIZE) (load_vaddr_start c)); cbn [negb] in Hp; [|done].
  destruct Hv as [[? ?] _]. unfold is_u64, PAGE_SIZE in *. lia.
Qed.

Lemma plan64_ok buf len cfg vbreak h l :
  bytes buf -> 0 <= len < 2 ^ 32 -> vbreak_ok vbreak -> wf_config cfg ->
  plan64 buf len cfg vbreak = Some (h, l) ->
  plan_ok class64 buf len cfg h l /\ l_random l = (snd (l_image l), snd (l_image l) + PAGE_SIZE) /\
  special_break l = snd (l_random l) /\ special_break l <= vbreak /\ special_break l mod PAGE_SIZE = 0.
Proof.
  intros Hb Hlen Hv Hc.
  unfold plan64, obind. destruct (read_ehdr class64 buf len) as [h'|] eqn:Eh; [|done].
  destruct (scan _ _ _ _ _ _ _) as [[mn mx]|] eqn:Es; [|done].
  destruct (program_break _ _ _ _ _) as [lb|] eqn:Ep; [|done].
  destruct (layout64 cfg vbreak lb) as [l'|] eqn:El; [|done]. intros [= -> ->].
  assert (Hcl : is_class class64) by by left.
  destruct (plan_common _ _ _ _ _ _ _ _ _ Hcl Hb Hlen Hv Hc Eh Es Ep) as (H1 & H2 & H3 & H4).
  apply layout64_spec in El as (Hl & Hr & Hs & Hsv & Hsm & _); [|done..].
  split; [|done]. pose proof Hl as (Hlb & _). subst lb. unfold plan_ok. conj_split; try done.
  intros i Hi. apply (segment_fits_of_checks class64 buf len cfg vbreak h mn mx); try done. apply Hc.
Qed.

Lemma plan32_ok buf len cfg vbreak h l :
  bytes buf -> 0 <= len < 2 ^ 32 -> vbreak_ok vbreak -> wf_config cfg ->
  plan32 buf len cfg vbreak = Some (h, l) ->
  plan_ok class32 buf len cfg h l /\ special_break l = snd (l_OB l) /\ special_break l <= vbreak /\
  special_break l <= 2 ^ 32 /\ special_break l mod PAGE_SIZE = 0.
Proof.
  intros Hb Hlen Hv Hc.
  unfold plan32, obind. destruct (read_ehdr class32 buf len) as [h'|] eqn:Eh; [|done].
  destruct (scan _ _ _ _ _ _ _) as [[mn mx]|] eqn:Es; [|done].
  destruct (program_break _ _ _ _ _) as [lb|] eqn:Ep; [|done].
  destruct (layout32 cfg vbreak lb) as [l'|] eqn:El; [|done]. intros [= -> ->].
  assert (Hcl : is_class class32) by by right.
  destruct (plan_common _ _ _ _ _ _ _ _ _ Hcl Hb Hlen Hv Hc Eh Es Ep) as (H1 & H2 & H3 & H4).
  apply layout32_spec in El as (Hl & Hs & Hsv & Hs32 & Hsm & _); [|done..].
  split; [|done]. pose proof Hl as (Hlb & _). subst lb. unfold plan_ok. conj_split; try done.
  intros i Hi. apply (segment_fits_of_checks class32 buf len cfg vbreak h mn mx); try done. apply Hc.
Qed.

(** C25: The checks of both loaders are enough.  When they pass, every program header
    lies inside the file; every segment is read from inside the file and stays
    between the load address and the page reserved for the stack, whatever the
    64-bit fields of the file say (no sum wraps around); the regions for stdin,
    stdout, stderr, the two buffers and the header image follow each other,
    page-aligned, large enough and disjoint. *)
Theorem elf_checks_suffice buf len cfg vbreak h l :
  bytes buf -> 0 <= len < 2 ^ 32 -> vbreak_ok vbreak -> wf_config cfg ->
  (plan64 buf len cfg vbreak = Some (h, l) ->
     plan_ok class64 buf len cfg h l /\ special_break l <= vbreak) /\
  (plan32 buf len cfg vbreak = Some (h, l) ->
     plan_ok class32 buf len cfg h l /\ special_break l <= vbreak /\ special_break l <= 2 ^ 32).
Proof.
  intros Hb Hlen Hv Hc. split; intros Hp.
  - by destruct (plan64_ok buf len cfg vbreak h l) as (H1 & _ & _ & H2 & _).
  - by destruct (plan32_ok buf len cfg vbreak h l) as (H1 & _ & H2 & H3 & _).
Qed.

(** ** Lemmas: page rights through a load *)

(** The pages of user memory that a program can reach are those of [lo, hi). *)
Definition user_inv (lo hi : Z) (s : state) : Prop :=
  (forall p, is_u64 (P1 s p)) /\
  (forall p, kernel_break <= PAGE_SIZE * p < vaddr_break s -> user_ok (P1 s p) = in_range lo hi p).

(** An update of entries that keeps pages of the user reachable. *)
Definition keeps_user (g : Z -> Z) : Prop :=
  forall e, is_u64 e -> is_u64 (g e) /\ (user_ok e = true -> user_ok (g e) = true).

Lemma in_range_sub a b lo hi p : lo <= a -> b <= hi -> in_range a b p = true -> in_range lo hi p = true.
Proof. unfold in_range. intros Ha Hb. rewrite !andb_true_iff, !Z.leb_le, !Z.ltb_lt. lia. Qed.

Lemma keep_user g a b lo hi s :
  keeps_user g -> page_range a b -> lo <= a -> b <= hi -> user_inv lo hi s ->
  exists s', for_pages (update_P1 g) a b s = Some s' /\ user_inv lo hi s' /\
    vaddr_break s' = vaddr_break s.
Proof.
  intros Hg Hr Ha Hb (Hu & Hi). destruct (for_pages_update g a b s Hr) as (s' & E & Hp & _ & Hv).
  exists s'. split; [done|]. split; [|done]. split.
  - intros p. rewrite Hp. destruct (in_range a b p); [by apply Hg|done].
  - intros p. rewrite Hv, Hp. intros Hin. rewrite <- Hi by done.
    destruct (in_range a b p) eqn:Ei; [|done].
    assert (Ho : user_ok (P1 s p) = true) by (rewrite Hi by done; by apply (in_range_sub a b)).
    rewrite Ho. by apply Hg.
Qed.

Lemma testbit_clear e m i : 0 <= i -> Z.testbit (clear_bits e m) i = Z.testbit e i && negb (Z.testbit m i).
Proof. intros. unfold clear_bits. apply Z.ldiff_spec. Qed.

Lemma keeps_user_flags :
  keeps_user flags_user_writable /\ keeps_user flags_user_readonly /\
  keeps_user (λ e, Z.lor e PTE_DUCK_WRITTEN) /\ keeps_user (λ e, clear_bits e PTE_NO_EXECUTE) /\
  keeps_user (λ e, Z.lor e PTE_WRITABLE) /\
  keeps_user (λ e, clear_bits e (Z.lor PTE_ACCESSED PTE_DIRTY)).
Proof.
  assert (Hlor : forall f, is_u64 f -> keeps_user (λ e, Z.lor e f)).
  { intros f Hf e He. split; [by apply lor_u64|]. unfold user_ok. rewrite !andb_true_iff, !Z.lor_spec.
    intros [-> ->]. done. }
  assert (Hclr : forall f, Z.testbit f 0 = false -> Z.testbit f 2 = false ->
    keeps_user (λ e, clear_bits e f)).
  { intros f F0 F2 e He. split; [by apply clear_bits_u64|]. unfold user_ok.
    rewrite !andb_true_iff, !testbit_clear, F0, F2 by lia. intros [-> ->]. done. }
  conj_split; try (apply Hlor; vm_compute; intuition discriminate); try (by apply Hclr).
  - intros e He. split; [apply flags_u64|]. intros _. by apply flags_meaning.
  - intros e He. split; [apply flags_u64|]. intros _. by apply flags_meaning.
Qed.

Lemma copy_in_inv lo hi a bs s : user_inv lo hi s -> user_inv lo hi (copy_in a bs s).
Proof. done. Qed.

Lemma fold_opt_inv {A} (P : state -> Prop) (f : A -> state -> option state) l s :
  P s -> (forall x s, In x l -> P s -> exists s', f x s = Some s' /\ P s') ->
  exists s', fold_opt (λ s x, f x s) s l = Some s' /\ P s'.
Proof.
  revert s. induction l as [|x l IH]; intros s Hs Hf; cbn [fold_opt]; [eauto|].
  destruct (Hf x s) as (s1 & E & H1); [by left|done|]. rewrite E. apply IH; [done|].
  intros y s2 Hy. apply Hf. by right.
Qed.

Lemma round_up_le x b : 0 <= x <= b -> b <= 2 ^ 47 -> b mod PAGE_SIZE = 0 -> round_up x PAGE_SIZE <= b.
Proof.
  intros Hx Hb Hm. destruct (round_up_page x) as [Hr Hu]; [lia|]. unfold PAGE_SIZE in *.
  Z.to_euclidean_division_equations; lia.
Qed.

(** The pages of a byte range inside [lo, hi). *)
Lemma pages_of a n lo hi :
  lo <= a -> 0 <= n -> a + n <= hi -> 0 <= lo -> hi <= 2 ^ 46 -> lo mod PAGE_SIZE = 0 -> hi mod PAGE_SIZE = 0 ->
  let start := round_down a PAGE_SIZE in let end_ := round_up (u64 (a + n)) PAGE_SIZE in
  page_range start end_ /\ lo <= start /\ end_ <= hi.
Proof.
  intros Ha Hn Hh Hlo Hhi Hml Hmh. cbn zeta. rewrite u64_small by (unfold is_u64; lia).
  destruct (round_down_page a) as [Hd1 Hd2]; [lia|]. destruct (round_up_page (a + n)) as [Hu1 Hu2]; [lia|].
  pose proof (round_up_le (a + n) hi ltac:(lia) ltac:(lia) Hmh).
  unfold page_range, PAGE_SIZE in *. conj_split; try lia; Z.to_euclidean_division_equations; lia.
Qed.

Section Load.
Variables (c : elf_class) (buf : list Z) (len : Z) (h : Ehdr) (lo hi lbreak : Z).
Hypothesis Hlo : lo = load_vaddr_start c.
Hypothesis Hlo0 : kernel_break <= lo /\ lo mod PAGE_SIZE = 0.
Hypothesis Hlb : lo + PAGE_SIZE <= lbreak <= hi /\ lbreak mod PAGE_SIZE = 0.
Hypothesis Hhi : hi <= 2 ^ 46 /\ hi mod PAGE_SIZE = 0.
Hypothesis Hseg : forall i, 0 <= i < e_phnum h ->
  p_type (phdr_at c buf h i) = PT_LOAD -> segment_fits c len lbreak (phdr_at c buf h i).

Lemma load_segments_inv s :
  user_inv lo hi s ->
  exists s', fold_opt (load_segment c buf h) s (seqZ 0 (e_phnum h)) = Some s' /\
    (user_inv lo hi s' /\ vaddr_break s' = vaddr_break s).
Proof.
  intros Hs. apply (fold_opt_inv (λ s', user_inv lo hi s' /\ vaddr_break s' = vaddr_break s)
    (λ i s, load_segment c buf h s i)); [done|].
  intros i s1 Hi%list_elem_of_In%elem_of_seqZ [H1 Hv1]. unfold load_segment.
  destruct (Z.eqb_spec (p_type (phdr_at c buf h i)) PT_LOAD) as [Ht|]; cbn [negb]; [|eauto].
  destruct (Z.eqb_spec (p_filesz (phdr_at c buf h i)) 0); cbn [negb]; [eauto|].
  destruct (Hseg i ltac:(lia) Ht) as (G1 & G2 & G3 & _). set (p := phdr_at c buf h i) in *.
  destruct (pages_of (p_vaddr p) (p_filesz p) lo hi) as (R1 & R2 & R3);
    [lia|lia|unfold PAGE_SIZE in *; lia|unfold kernel_break in *; lia|lia|apply Hlo0|apply Hhi|].
  set (a := round_down _ _) in *. set (b := round_up _ _) in *. clearbody a b.
  destruct (keep_user (λ e, Z.lor e PTE_DUCK_WRITTEN) a b lo hi
    (copy_in (p_vaddr p) (read_at (p_offset p) (p_filesz p) buf) s1)) as (s2 & E & I2 & V2);
    [apply keeps_user_flags|exact R1|exact R2|exact R3|exact H1|].
  exists s2. split; [exact E|]. split; [done|]. rewrite V2. exact Hv1.
Qed.

Lemma flag_segments_inv s :
  user_inv lo hi s ->
  exists s', fold_opt (flag_segment c buf h) s (seqZ 0 (e_phnum h)) = Some s' /\
    (user_inv lo hi s' /\ vaddr_break s' = vaddr_break s).
Proof.
  intros Hs. apply (fold_opt_inv (λ s', user_inv lo hi s' /\ vaddr_break s' = vaddr_break s)
    (λ i s, flag_segment c buf h s i)); [done|].
  intros i s1 Hi%list_elem_of_In%elem_of_seqZ [H1 Hv1]. unfold flag_segment.
  destruct (Z.eqb_spec (p_type (phdr_at c buf h i)) PT_LOAD) as [Ht|]; cbn [negb]; [|eauto].
  destruct (Hseg i ltac:(lia) Ht) as (G1 & G2 & G3 & _). set (p := phdr_at c buf h i) in *. cbn zeta.
  destruct (pages_of (p_vaddr p) (p_memsz p) lo hi) as (R1 & R2 & R3);
    [lia|lia|unfold PAGE_SIZE in *; lia|unfold kernel_break in *; lia|lia|apply Hlo0|apply Hhi|].
  set (a := round_down _ _) in *. set (b := round_up _ _) in *. clearbody a b.
  pose proof keeps_user_flags as (_ & K2 & _ & K4 & K5 & _).
  destruct (keep_user _ a b lo hi s1 K2 R1 R2 R3 H1) as (s2 & E2 & I2 & V2).
  unfold set_page_flags_user_readonly. rewrite E2. cbn [obind].
  assert (Hx : exists s3, (if negb (Z.land (p_flags p) PF_X =? 0) then add_page_flags_executable a b s2
      else Some s2) = Some s3 /\ user_inv lo hi s3 /\ vaddr_break s3 = vaddr_break s2).
  { destruct (negb _); [|eauto]. apply (keep_user _ a b lo hi s2 K4); done. }
  destruct Hx as (s3 & E3 & I3 & V3). rewrite E3. cbn [obind].
  destruct (negb (Z.land (p_flags p) PF_W =? 0)); [|exists s3; split; [reflexivity|split; [assumption|congruence]]].
  destruct (keep_user _ a b lo hi s3 K5 R1 R2 R3 I3) as (s4 & E4 & I4 & V4).
  exists s4. split; [exact E4|]. split; [done|congruence].
Qed.

Lemma load_readonly_inv r content s :
  page_range (fst r) (snd r) -> lo <= fst r -> snd r <= hi -> user_inv lo hi s ->
  exists s', load_readonly r content s = Some s' /\ user_inv lo hi s' /\ vaddr_break s' = vaddr_break s.
Proof.
  intros R1 R2 R3 Hs. pose proof keeps_user_flags as (_ & K2 & K3 & _).
  unfold load_readonly. destruct (keep_user _ _ _ lo hi (copy_in (fst r) content s) K3 R1 R2 R3 Hs)
    as (s1 & E1 & I1 & V1). unfold set_duck_written. rewrite E1. cbn [obind].
  destruct (keep_user _ _ _ lo hi s1 K2 R1 R2 R3 I1) as (s2 & E2 & I2 & V2).
  exists s2. split; [exact E2|]. split; [done|]. rewrite V2. exact V1.
Qed.

Lemma duck_written_inv a b s :
  page_range a b -> lo <= a -> b <= hi -> user_inv lo hi s ->
  exists s', set_duck_written a b s = Some s' /\ user_inv lo hi s' /\ vaddr_break s' = vaddr_break s.
Proof. intros R1 R2 R3 Hs. by apply keep_user; [apply keeps_user_flags|..]. Qed.

End Load.

(** Clearing written pages does not touch rights. *)
Lemma clear_written_inv lo hi s :
  page_range lo hi -> user_inv lo hi s ->
  exists s', clear_duck_written_pages lo hi s = Some s' /\ user_inv lo hi s' /\
    vaddr_break s' = vaddr_break s.
Proof.
  intros Hr (Hu & Hi). unfold clear_duck_written_pages. rewrite for_pages_fold by done.
  eexists. split; [reflexivity|]. set (n := Z.to_nat _). pose proof Hr as (H1 & H2 & H3 & H4).
  assert (En : hi = lo + PAGE_SIZE * Z.of_nat n)
    by (subst n; unfold PAGE_SIZE in *; Z.to_euclidean_division_equations; lia).
  assert (Hp : forall p, P1 (fold_left (λ s a, clear_duck_written_page a s) (page_list lo n) s) p =
    (if in_range lo hi p && duck_written (P1 s p) then clear_written (P1 s p) else P1 s p)).
  { intros p. rewrite En. apply (fold_clear_written n lo s p 0); [lia|done|lia]. }
  assert (Hv : vaddr_break (fold_left (λ s a, clear_duck_written_page a s) (page_list lo n) s) = vaddr_break s).
  { clear. generalize lo. revert s. induction n as [|n IH]; intros s a; [done|].
    cbn [page_list fold_left]. rewrite IH. unfold clear_duck_written_page. by destruct (negb _). }
  split; [|done]. split.
  - intros p. rewrite Hp. destruct (_ && _); [by apply clear_bits_u64|done].
  - intros p. rewrite Hv, Hp. intros Hin. rewrite <- Hi by done. destruct (_ && _); [|done].
    unfold user_ok, clear_written. rewrite !testbit_clear by lia.
    change (Z.testbit (Z.lor PTE_DIRTY PTE_DUCK_WRITTEN) 0) with false.
    change (Z.testbit (Z.lor PTE_DIRTY PTE_DUCK_WRITTEN) 2) with false. by rewrite !andb_true_r.
Qed.

(** The rights that [set_up_flags] gives, whatever they were before. *)
Lemma set_up_flags_inv lo hi s :
  kernel_break <= lo -> lo mod PAGE_SIZE = 0 -> page_range lo hi -> hi <= vaddr_break s ->
  vbreak_ok (vaddr_break s) -> (forall p, is_u64 (P1 s p)) ->
  exists s', set_up_flags lo hi s = Some s' /\ user_inv lo hi s' /\ vaddr_break s' = vaddr_break s.
Proof.
  intros Hk Hm Hr Hh [Hv Hvm] Hu. pose proof Hr as (R1 & R2 & R3 & R4).
  assert (Rk : page_range get_kernel_break lo).
  { unfold page_range, get_kernel_break, kernel_break in *. conj_split; try done; lia. }
  assert (Rh : page_range hi (vaddr_break s)) by (unfold page_range; conj_split; try done; lia).
  unfold set_up_flags, set_page_flags_kernel, set_page_flags_user_writable.
  destruct (for_pages_update flags_kernel _ _ s Rk) as (s1 & E1 & P1' & _ & V1).
  rewrite E1. cbn [obind].
  destruct (for_pages_update flags_user_writable _ _ s1 Hr) as (s2 & E2 & P2' & _ & V2).
  rewrite E2. cbn [obind]. unfold get_vaddr_break. rewrite V2, V1.
  destruct (for_pages_update flags_kernel _ _ s2 Rh) as (s3 & E3 & P3' & _ & V3).
  rewrite E3. cbn [obind].
  assert (I3 : user_inv lo hi s3).
  { split.
    - intros p. rewrite P3', P2', P1'. repeat case_match; try apply flags_u64; apply Hu.
    - intros p. rewrite V3, V2, V1, P3', P2', P1'. intros Hp.
      set (e := P1 s p). assert (He : is_u64 e) by apply Hu. clearbody e.
      pose proof (flags_meaning e He) as (_ & _ & _ & (_ & Fk & _)).
      unfold in_range, get_kernel_break in *.
      destruct (Z.leb_spec hi (PAGE_SIZE * p)), (Z.ltb_spec (PAGE_SIZE * p) (vaddr_break s)),
        (Z.leb_spec lo (PAGE_SIZE * p)), (Z.ltb_spec (PAGE_SIZE * p) hi),
        (Z.leb_spec kernel_break (PAGE_SIZE * p)), (Z.ltb_spec (PAGE_SIZE * p) lo); cbn [andb];
        try lia; try (apply flags_meaning; auto; apply flags_u64); done. }
  destruct (clear_written_inv lo hi s3 Hr I3) as (s4 & E4 & I4 & V4).
  exists s4. split; [exact E4|]. split; [done|congruence].
Qed.

Lemma round_up_unique x y :
  0 <= x < 2 ^ 63 -> x <= y < x + PAGE_SIZE -> y mod PAGE_SIZE = 0 -> round_up x PAGE_SIZE = y.
Proof.
  intros Hx Hy Hm. destruct (round_up_page x Hx) as [Hr Hu]. unfold PAGE_SIZE in *.
  Z.to_euclidean_division_equations; lia.
Qed.

Lemma region_range curr size r :
  region_at curr size r -> 0 <= size -> 0 <= curr -> curr mod PAGE_SIZE = 0 -> snd r <= 2 ^ 46 ->
  page_range (fst r) (snd r) /\ u64 (fst r + round_up size PAGE_SIZE) = snd r.
Proof.
  intros (-> & Hb & Hm) Hs Hc Hcm Hhi.
  assert (E : round_up size PAGE_SIZE = snd r - curr).
  { apply round_up_unique; [unfold PAGE_SIZE in *; lia|lia|].
    unfold PAGE_SIZE in *. Z.to_euclidean_division_equations; lia. }
  split; [unfold page_range; conj_split; try done; lia|].
  rewrite E. replace (curr + (snd r - curr)) with (snd r) by lia.
  apply u64_small. unfold is_u64, PAGE_SIZE in *. lia.
Qed.

(** All the regions are page ranges between [lbreak] and [hi]. *)
Lemma layout_ranges cfg l :
  wf_config cfg -> layout_ok cfg (load_break l) l -> 0 <= load_break l ->
  load_break l mod PAGE_SIZE = 0 -> snd (l_image l) <= 2 ^ 46 ->
  (page_range (fst (l_stdin l)) (snd (l_stdin l)) /\ fst (l_stdin l) = load_break l) /\
  (page_range (fst (l_IB l)) (snd (l_IB l)) /\ load_break l <= fst (l_IB l)) /\
  (page_range (fst (l_OB l)) (snd (l_OB l)) /\ load_break l <= fst (l_OB l) /\
   u64 (fst (l_OB l) + round_up (OB_size cfg) PAGE_SIZE) = snd (l_OB l)) /\
  (page_range (fst (l_image l)) (snd (l_image l)) /\ fst (l_image l) = snd (l_OB l)) /\
  snd (l_stdin l) <= snd (l_OB l) /\ snd (l_IB l) <= snd (l_OB l) /\
  snd (l_OB l) <= snd (l_image l).
Proof.
  intros (_ & S1 & S2 & S3 & S4 & S5) (_ & R1 & R2 & R3 & R4 & R5 & Ei) Hl Hm Hhi.
  rewrite Ei in *. cbn [fst snd] in *. unfold is_u64 in *.
  pose proof R1 as (F1 & B1 & M1). pose proof R2 as (F2 & B2 & M2). pose proof R3 as (F3 & B3 & M3).
  pose proof R4 as (F4 & B4 & M4). pose proof R5 as (F5 & B5 & M5). unfold PAGE_SIZE in Hhi.
  destruct (region_range _ _ _ R1) as [G1 _]; [lia|lia|done|lia|].
  destruct (region_range _ _ _ R4) as [G4 _]; [lia|lia|done|lia|].
  destruct (region_range _ _ _ R5) as [G5 E5]; [lia|lia|done|lia|].
  conj_split; try done; try lia; unfold page_range, PAGE_SIZE in *; conj_split; try lia;
    Z.to_euclidean_division_equations; lia.
Qed.

Lemma load_OB_inv cfg l lo hi s :
  page_range (fst (l_OB l)) (snd (l_OB l)) ->
  u64 (fst (l_OB l) + round_up (OB_size cfg) PAGE_SIZE) = snd (l_OB l) ->
  lo <= fst (l_OB l) -> snd (l_OB l) <= hi -> user_inv lo hi s ->
  exists s', load_OB cfg (l_OB l) s = Some s' /\ user_inv lo hi s' /\ vaddr_break s' = vaddr_break s.
Proof.
  intros R E H1 H2 Hs. unfold load_OB. destruct (OB_need_clear cfg); [eauto|]. rewrite E.
  destruct (duck_written_inv lo hi _ _ s R H1 H2 Hs) as (s1 & E1 & I1 & V1).
  rewrite E1. cbn [obind]. eexists. split; [reflexivity|]. by split.
Qed.

(** The last operations of a load: the stack page, the segments, the measuring flags. *)
Lemma finish_inv c buf len h lo hi hi2 lbreak m s :
  lo = load_vaddr_start c -> kernel_break <= lo /\ lo mod PAGE_SIZE = 0 ->
  lo + PAGE_SIZE <= lbreak <= hi /\ lbreak mod PAGE_SIZE = 0 ->
  hi <= 2 ^ 46 /\ hi mod PAGE_SIZE = 0 -> lo <= hi2 <= hi /\ hi2 mod PAGE_SIZE = 0 ->
  (forall i, 0 <= i < e_phnum h ->
    p_type (phdr_at c buf h i) = PT_LOAD -> segment_fits c len lbreak (phdr_at c buf h i)) ->
  user_inv lo hi s ->
  exists s1 s2 s3, set_duck_written (u64 (lbreak - PAGE_SIZE)) lbreak (with_user_mem s m) = Some s1 /\
    fold_opt (flag_segment c buf h) s1 (seqZ 0 (e_phnum h)) = Some s2 /\
    clear_access_and_dirty_flags lo hi2 s2 = Some s3 /\
    user_inv lo hi s3 /\ vaddr_break s3 = vaddr_break s.
Proof.
  intros Hlo Hk Hlb Hhi Hh2 Hseg Hs. unfold kernel_break in *.
  rewrite u64_small by (unfold is_u64, PAGE_SIZE in *; lia).
  destruct (duck_written_inv lo hi (lbreak - PAGE_SIZE) lbreak (with_user_mem s m))
    as (s1 & E1 & I1 & V1); [|lia|lia|done|].
  { unfold page_range, PAGE_SIZE in *. conj_split; try lia. Z.to_euclidean_division_equations; lia. }
  destruct (flag_segments_inv c buf len h lo hi lbreak Hlo Hk Hlb Hhi Hseg s1 I1) as (s2 & E2 & I2 & V2).
  destruct (keep_user (λ e, clear_bits e (Z.lor PTE_ACCESSED PTE_DIRTY)) lo hi2 lo hi s2)
    as (s3 & E3 & I3 & V3); [apply keeps_user_flags| |lia|lia|done|].
  { unfold page_range, PAGE_SIZE in *. conj_split; try lia; try apply Hk; apply Hh2. }
  exists s1, s2, s3. split; [done|]. split; [done|]. split; [exact E3|]. split; [done|].
  rewrite V3, V2. exact V1.
Qed.

(** What the run of a loaded program works with: page ranges, one inside the other. *)
Definition app_ok (app : App) : Prop :=
  page_range (start_addr app) (special_region_break_addr app) /\
  page_range (stdin_start_addr app) (stdin_break_addr app) /\
  start_addr app <= stdin_start_addr app /\ stdin_break_addr app <= special_region_break_addr app.

Lemma load64_loads buf len cfg tsc_freq s :
  bytes buf -> 0 <= len < 2 ^ 32 -> wf_config cfg -> vbreak_ok (vaddr_break s) ->
  (forall p, is_u64 (P1 s p)) ->
  match load_elf64 buf len cfg tsc_freq s with
  | None => False
  | Some (s', None) => s' = s
  | Some (s', Some app) =>
      0x400000 < special_region_break_addr app <= vaddr_break s /\ vaddr_break s' = vaddr_break s /\
      user_inv 0x400000 (special_region_break_addr app) s' /\ app_ok app
  end.
Proof.
  intros Hb Hlen Hc Hv Hu. unfold load_elf64.
  destruct (plan64 buf len cfg (get_vaddr_break s)) as [[h l]|] eqn:Ep; [|done].
  destruct (plan64_ok buf len cfg _ h l Hb Hlen Hv Hc Ep) as ((P1' & P2' & P3' & P4') & Er & Es & Hsb & Hsm).
  unfold get_vaddr_break in Hsb. pose proof Hv as [[_ Hv46] _].
  pose proof P3' as (_ & _ & _ & _ & _ & _ & Eim).
  assert (Himg : snd (l_image l) + PAGE_SIZE = special_break l) by (rewrite Es, Er; done).
  destruct (layout_ranges cfg l Hc P3') as ((Q1 & Q1') & (Q2 & Q2') & (Q3 & Q3' & Q3'') & (Q4 & Q4') & Q5 & Q6 & Q7);
    [unfold load_vaddr_start, class64, PAGE_SIZE in *; lia|done|unfold PAGE_SIZE in *; lia|].
  change (load_vaddr_start class64) with 0x400000 in *.
  set (lo := 0x400000) in *. set (hi := special_break l) in *.
  assert (Hhi : hi <= 2 ^ 46 /\ hi mod PAGE_SIZE = 0) by (split; [lia|done]).
  assert (Hlo : kernel_break <= lo /\ lo mod PAGE_SIZE = 0) by done.
  assert (Hlb : lo + PAGE_SIZE <= load_break l <= hi /\ load_break l mod PAGE_SIZE = 0)
    by (split; [unfold page_range in *; unfold PAGE_SIZE in *; lia|done]).
  assert (Hseg : forall i, 0 <= i < e_phnum h -> p_type (phdr_at class64 buf h i) = PT_LOAD ->
    segment_fits class64 len (load_break l) (phdr_at class64 buf h i)) by (intros i Hi; by apply P4').
  unfold do_load64. change (load_vaddr_start class64) with lo. cbn zeta. fold hi.
  destruct (set_up_flags_inv lo hi s) as (s1 & E1 & I1 & V1); [apply Hlo|done| |done|done|done|].
  { unfold page_range, PAGE_SIZE in *. conj_split; try done; unfold lo in *; lia. }
  rewrite E1. cbn [obind].
  destruct (load_segments_inv class64 buf len h lo hi (load_break l) eq_refl Hlo Hlb Hhi Hseg s1 I1)
    as (s2 & E2 & I2 & V2). rewrite E2. cbn [obind].
  unfold PAGE_SIZE in Himg, Hlb.
  destruct (load_readonly_inv lo hi (l_stdin l) (ztake (stdin_size cfg) (stdin_ptr cfg)) s2 Q1)
    as (s3 & E3 & I3 & V3); [lia|lia|done|]. rewrite E3. cbn [obind].
  destruct (load_readonly_inv lo hi (l_IB l) (ztake (IB_size cfg) (IB_ptr cfg)) s3 Q2)
    as (s4 & E4 & I4 & V4); [lia|lia|done|]. rewrite E4. cbn [obind].
  destruct (load_OB_inv cfg l lo hi s4 Q3 Q3'') as (s5 & E5 & I5 & V5); [lia|lia|done|].
  rewrite E5. cbn [obind].
  destruct (load_readonly_inv lo hi (l_image l) (ztake (Z.min len PAGE_SIZE) buf) s5 Q4)
    as (s6 & E6 & I6 & V6); [unfold page_range in *; lia|lia|done|]. rewrite E6. cbn [obind].
  destruct (load_readonly_inv lo hi (l_random l) (le_bytes 8 0xf44c01c8 ++ le_bytes 8 0x22b64652) s6)
    as (s7 & E7 & I7 & V7).
  { rewrite Er. cbn [fst snd]. unfold page_range, PAGE_SIZE in *. conj_split; try lia;
      Z.to_euclidean_division_equations; lia. }
  { rewrite Er. cbn [fst snd]. unfold page_range in *; lia. }
  { by rewrite <- Es. }
  { done. }
  rewrite E7. cbn [obind]. destruct (stack64 _ _ _ _) as [[rsp dip] m].
  destruct (finish_inv class64 buf len h lo hi hi (load_break l) m s7) as (s8 & s9 & s10 & E8 & E9 & E10 & I10 & V10);
    [done..|split; [lia|done]|done|done|]. rewrite E8. cbn [obind]. rewrite E9. cbn [obind]. rewrite E10. cbn [obind].
  cbn [special_region_break_addr]. fold hi.
  assert (Hvb : vaddr_break s10 = vaddr_break s) by congruence.
  split; [unfold lo; lia|]. split; [done|]. split; [exact I10|].
  unfold app_ok. cbn. fold lo hi. unfold page_range, PAGE_SIZE in *. conj_split; try done; try lia.
Qed.

(** C1: Isolation.  Loading a 64-bit program never trips an assertion, changes nothing
    when it refuses the file, and otherwise leaves exactly the pages from the load
    address to the end of the special region within reach of the program, whatever
    the file contains and whatever the previous program left behind. *)
Theorem load64_isolates buf len cfg tsc_freq s :
  bytes buf -> 0 <= len < 2 ^ 32 -> wf_config cfg -> vbreak_ok (vaddr_break s) ->
  (forall p, is_u64 (P1 s p)) ->
  match load_elf64 buf len cfg tsc_freq s with
  | None => False
  | Some (s', None) => s' = s
  | Some (s', Some app) =>
      0x400000 < special_region_break_addr app <= vaddr_break s /\ vaddr_break s' = vaddr_break s /\
      forall p, kernel_break <= PAGE_SIZE * p < vaddr_break s ->
        user_ok (P1 s' p) = in_range 0x400000 (special_region_break_addr app) p
  end.
Proof.
  intros Hb Hlen Hc Hv Hu. pose proof (load64_loads buf len cfg tsc_freq s Hb Hlen Hc Hv Hu) as H.
  destruct (load_elf64 _ _ _ _ _) as [[s' [app|]]|]; [|done|done].
  destruct H as (Hb' & Ev & [_ Hi] & _). split; [done|]. split; [done|]. intros p Hp. apply Hi. by rewrite Ev.
Qed.

(** ** A small program *)

(** One [PT_LOAD] segment that is the whole 130-byte file. *)
Definition demo_elf : list Z :=
  [127; 69; 76; 70; 2; 1; 1; 0; 0; 0; 0; 0; 0; 0; 0; 0] ++
  le_bytes 2 2 ++ le_bytes 2 62 ++ le_bytes 4 1 ++ le_bytes 8 0x400078 ++ le_bytes 8 64 ++
  le_bytes 8 0 ++ le_bytes 4 0 ++ le_bytes 2 64 ++ le_bytes 2 56 ++ le_bytes 2 1 ++ le_bytes 6 0 ++
  le_bytes 4 1 ++ le_bytes 4 5 ++ le_bytes 8 0 ++ le_bytes 8 0x400000 ++ le_bytes 8 0 ++
  le_bytes 8 130 ++ le_bytes 8 130 ++ le_bytes 8 4096 ++ [0x31; 0xc0] ++ repeat 0x90 8.
Definition demo_config : AppConfig :=
  mk_config 8192 [104; 105] 2 100 100 [] 0 [] 0 true.
Definition demo_memory : state :=
  mk_state ∅ 0 0 0 0x420000 (λ _, 0) (λ _, 0x6ff) (λ _, 0).
Definition demo_layout : layout :=
  mk_layout 0x402000 (0x402000, 0x403000) (0x403000, 0x404000) (0x404000, 0x405000)
    (0x405000, 0x405000) (0x405000, 0x405000) (0x405000, 0x406000) (0x406000, 0x407000) 0x407000.
Definition demo_ehdr : Ehdr := mk_ehdr 0x400078 64 56 1.

Lemma demo_plan : plan64 demo_elf 130 demo_config 0x420000 = Some (demo_ehdr, demo_layout).
Proof. reflexivity. Qed.
Lemma demo_ok : bytes demo_elf /\ wf_config demo_config /\ vbreak_ok 0x420000.
Proof.
  split; [by apply bytesb_bytes|]. split; [|split; vm_compute; intuition discriminate].
  unfold wf_config, is_u64. cbn. lia.
Qed.
Lemma load_elf64_planned buf len cfg f s h l s' :
  plan64 buf len cfg (get_vaddr_break s) = Some (h, l) -> load_elf64 buf len cfg f s <> Some (s', None).
Proof.
  unfold load_elf64. intros ->. destruct (do_load64 _ _ _ _ _ _ _) as [[s1 app]|]; cbn [obind]; congruence.
Qed.

Lemma elf_checks_suffice_witness :
  plan_ok class64 demo_elf 130 demo_config demo_ehdr demo_layout /\ 0x407000 <= 0x420000.
Proof.
  apply (elf_checks_suffice demo_elf 130 demo_config 0x420000 demo_ehdr demo_layout);
    [apply demo_ok|lia|apply demo_ok|apply demo_ok|apply demo_plan].
Defined.

Lemma load64_isolates_witness :
  exists s' app, load_elf64 demo_elf 130 demo_config 1000 demo_memory = Some (s', Some app) /\
    0x400000 < special_region_break_addr app <= 0x420000.
Proof.
  pose proof (load64_isolates demo_elf 130 demo_config 1000 demo_memory (proj1 demo_ok)
    ltac:(lia) (proj1 (proj2 demo_ok)) (proj2 (proj2 demo_ok))
    ltac:(intros p; unfold is_u64; cbn; lia)) as H.
  destruct (load_elf64 demo_elf 130 demo_config 1000 demo_memory) as [[s' [app|]]|] eqn:E; [|exfalso..].
  - exists s', app. split; [reflexivity|]. apply H.
  - exact (load_elf64_planned demo_elf 130 demo_config 1000 demo_memory _ _ s' demo_plan E).
  - exact H.
Defined.

End Elf.
