(* ===== verification/ElfRun.v ===== *)
(** * ElfRun: what a loaded program starts with and what its run reports
    ([lib/elf.cpp])

    The initial stack of both loaders, the page of the ELF image in the 32-bit
    one, and the sizes of the program's output.  The definitions are those of
    [Elf]. *)
From S2P Require Import Prelude Utils Timer Memory Elf.

Module ElfRun.
Import Utils Memory Elf.

#[local] Opaque for_pages.

(** ** Lemmas: pushes *)

Lemma zlen_encode d : zlen (encode_duckinfo d) = 112 /\ zlen (encode_duckinfo32 d) = 60.
Proof. split; reflexivity. Qed.

Lemma push_step bs r m : is_u64 r -> zlen bs <= r ->
  push bs (r, m) = (r - zlen bs, write_bytes m (r - zlen bs) bs).
Proof.
  intros Hr Hl. unfold push. pose proof (zlen_nonneg bs).
  by rewrite u64_small by (unfold is_u64 in *; lia).
Qed.

(** A sequence of pushes of [k]-byte words: the last one is at the lowest address. *)
Lemma push_words k ws r m :
  is_u64 r -> Z.of_nat k * zlen ws <= r ->
  let st := fold_left (λ st w, push (le_bytes k w) st) ws (r, m) in
  fst st = r - Z.of_nat k * zlen ws /\
  read_bytes (snd st) (fst st) (Z.of_nat k * zlen ws) = (rev ws ≫= le_bytes k) /\
  (forall x, x < fst st \/ r <= x -> snd st x = m x).
Proof.
  revert r m. induction ws as [|w ws IH]; intros r m Hr Hl.
  { change (zlen []) with 0 in *. rewrite Z.mul_0_r in *. cbn. split; [lia|]. split; [done|]. done. }
  assert (Ez : zlen (w :: ws) = zlen ws + 1) by (unfold zlen; cbn [length]; lia).
  pose proof (zlen_nonneg ws). rewrite Ez in *. cbn [fold_left].
  rewrite push_step by (rewrite ?zlen_le_bytes; done || nia). rewrite zlen_le_bytes.
  destruct (IH (r - Z.of_nat k) (write_bytes m (r - Z.of_nat k) (le_bytes k w))) as (F & R & O);
    [unfold is_u64 in *; nia|nia|].
  cbn zeta in F, R, O. set (st := fold_left _ ws _) in *. clearbody st. split; [rewrite F; lia|]. split.
  - assert (El : Z.of_nat (k * length ws) = Z.of_nat k * zlen ws) by (unfold zlen; lia).
    replace (Z.of_nat k * (zlen ws + 1)) with (Z.of_nat (k * length ws) + Z.of_nat k) by lia.
    rewrite read_bytes_app, El. rewrite R. rewrite F. cbn [rev]. rewrite bind_app. f_equal.
    replace (r - Z.of_nat k - Z.of_nat k * zlen ws + Z.of_nat k * zlen ws) with (r - Z.of_nat k) by lia.
    cbn [mbind list_bind]. rewrite app_nil_r.
    transitivity (read_bytes (write_bytes m (r - Z.of_nat k) (le_bytes k w)) (r - Z.of_nat k) (zlen (le_bytes k w)));
      [rewrite zlen_le_bytes|by rewrite read_write_bytes].
    apply read_bytes_ext. intros x Hx. apply O. lia.
  - intros x Hx. rewrite O by nia. apply write_bytes_outside. rewrite zlen_le_bytes. nia.
Qed.

(** ** The initial stacks *)

(** The auxiliary vector of the ABI, as type and value. *)
Definition auxv_pairs (h : Ehdr) (image random duckinfo_ptr : Z) : list (Z * Z) :=
  [(25, random); (23, 0); (14, 1000); (13, 1000); (12, 1000); (11, 1000); (16, 2); (16, 0xbfebfbff);
   (5, e_phnum h); (4, e_phentsize h); (9, e_entry h); (3, u64 (image + e_phoff h)); (7, image);
   (AT_DUCK, duckinfo_ptr); (6, PAGE_SIZE)].
Definition initial_words (auxv : list (Z * Z)) : list Z :=
  [0; 0; 0] ++ (auxv ≫= λ '(t, v), [t; v]) ++ [0].

(** The pushes of the 64-bit loader. *)
Lemma stack64_spec h l d m :
  4096 <= load_break l < 2 ^ 63 -> load_break l mod PAGE_SIZE = 0 ->
  let '(rsp, dip, m') := stack64 h l d m in
  rsp = load_break l - 384 /\ dip = load_break l - 112 /\
  read_bytes m' rsp 272 = (rev (auxv64 h dip (fst (l_image l)) (fst (l_random l))) ≫= le_bytes 8) /\
  read_bytes m' dip 112 = encode_duckinfo d /\
  forall x, x < rsp \/ load_break l <= x -> m' x = m x.
Proof.
  intros Hl Hm. unfold stack64. cbn zeta. set (lb := load_break l) in *.
  rewrite push_step by (rewrite ?(proj1 (zlen_encode d)); unfold is_u64; lia).
  change (zlen (encode_duckinfo d)) with 112. cbn [fst].
  set (ws := auxv64 _ _ _ _). set (m1 := write_bytes m _ _).
  destruct (push_words 8 ws (lb - 112) m1) as (F & R & O);
    [unfold is_u64; lia|change (zlen ws) with 34; lia|].
  change (fold_left (λ st w, push (le_bytes 8 w) st) ws (lb - 112, m1))
    with (fold_left pushq ws (lb - 112, m1)) in F, R, O. change (zlen ws) with 34 in *. cbn zeta in F, R, O.
  set (st := fold_left pushq ws _) in *. clearbody st. destruct st as [rsp m2]. cbn [fst snd] in *.
  assert (Ha : rsp mod 16 = 0).
  { rewrite F. unfold PAGE_SIZE in Hm. Z.to_euclidean_division_equations; lia. }
  unfold align16. rewrite Ha. cbn [Z.eqb negb]. conj_split; [lia|done|exact R| |].
  - rewrite (read_bytes_ext m2 m1) by (intros x Hx; apply O; lia). unfold m1.
    change 112 with (zlen (encode_duckinfo d)) at 3. apply read_write_bytes.
  - intros x Hx. rewrite O by lia. apply write_bytes_outside. change (zlen (encode_duckinfo d)) with 112. lia.
Qed.

(** The initial stack of a 64-bit program is the one its ABI asks for.  The stack
    pointer is 16-byte aligned and 384 bytes under the end of the program's memory;
    from it upwards stand, as 64-bit words, the argument count 0, the empty argument
    and environment lists, fifteen auxiliary entries and their terminator, then the
    [DuckInfo] that the entry [AT_DUCK] points to; no other byte of memory changes. *)
Theorem initial_stack64 h l d m :
  4096 <= load_break l < 2 ^ 63 -> load_break l mod PAGE_SIZE = 0 ->
  let '(rsp, dip, m') := stack64 h l d m in
  rsp = load_break l - 384 /\ rsp mod 16 = 0 /\ dip = rsp + 272 /\
  read_bytes m' rsp 272 =
    (initial_words (auxv_pairs h (fst (l_image l)) (fst (l_random l)) dip) ≫= le_bytes 8) /\
  read_bytes m' dip 112 = encode_duckinfo d /\
  forall x, x < rsp \/ load_break l <= x -> m' x = m x.
Proof.
  intros Hl Hm. pose proof (stack64_spec h l d m Hl Hm) as H. destruct (stack64 h l d m) as [[rsp dip] m'].
  destruct H as (-> & -> & R & D & O). conj_split; [done| |lia|exact R|done|exact O].
  unfold PAGE_SIZE in Hm. Z.to_euclidean_division_equations; lia.
Qed.

Lemma read_bytes_split m a x b y :
  0 <= x -> 0 <= y -> b = a + x -> read_bytes m a (x + y) = read_bytes m a x ++ read_bytes m b y.
Proof.
  intros Hx Hy ->. pose proof (read_bytes_app m a (Z.to_nat x) (Z.to_nat y)) as H.
  by rewrite !Z2Nat.id in H by done.
Qed.

(** The three runs of pushes of the 32-bit loader. *)
Lemma pushes32 w1 w2 w3 a m :
  zlen w1 = 5 -> zlen w2 = 10 -> zlen w3 = 3 -> is_u64 a -> 112 <= a ->
  let '(r, m') := fold_left pushl w3 (fold_left pushq w2 (fold_left pushl w1 (a, m))) in
  r = a - 112 /\
  read_bytes m' r 112 = (rev w3 ≫= le_bytes 4) ++ (rev w2 ≫= le_bytes 8) ++ (rev w1 ≫= le_bytes 4) /\
  forall x, x < r \/ a <= x -> m' x = m x.
Proof.
  intros L1 L2 L3 Ha Hl.
  destruct (push_words 4 w1 a m) as (F1 & R1 & O1); [done|lia|].
  change (λ st w, push (le_bytes 4 w) st) with pushl in F1, R1, O1. rewrite L1 in *.
  destruct (fold_left pushl w1 (a, m)) as [r1 m1]. cbn [fst snd] in F1, R1, O1.
  destruct (push_words 8 w2 r1 m1) as (F2 & R2 & O2); [unfold is_u64 in *; lia|lia|].
  change (λ st w, push (le_bytes 8 w) st) with pushq in F2, R2, O2. rewrite L2 in *.
  destruct (fold_left pushq w2 (r1, m1)) as [r2 m2]. cbn [fst snd] in F2, R2, O2.
  destruct (push_words 4 w3 r2 m2) as (F3 & R3 & O3); [unfold is_u64 in *; lia|lia|].
  change (λ st w, push (le_bytes 4 w) st) with pushl in F3, R3, O3. rewrite L3 in *.
  destruct (fold_left pushl w3 (r2, m2)) as [r3 m3]. cbn [fst snd] in F3, R3, O3.
  split; [lia|]. split; [|intros x Hx; by rewrite O3, O2, O1 by lia].
  rewrite <- R1, <- R2, <- R3. replace 112 with (12 + (80 + 20)) by done.
  rewrite (read_bytes_split m3 r3 12 r2), (read_bytes_split m3 r2 80 r1) by lia.
  do 2 f_equal; apply read_bytes_ext; intros x Hx; [apply O3; lia|]. by rewrite O3, O2 by lia.
Qed.

(** The realignment by four bytes. *)
Lemma align16_by_4 lb m :
  4096 <= lb < 2 ^ 63 -> lb mod PAGE_SIZE = 0 ->
  align16 (lb - 60) (lb - 172, m) = (lb - 176, write_bytes m (lb - 176) (read_bytes m (lb - 172) 112)).
Proof.
  intros Hl Hm. unfold align16, PAGE_SIZE in *.
  assert (Ha : (lb - 172) mod 16 = 4) by (Z.to_euclidean_division_equations; lia).
  assert (Hd : round_down (lb - 172) 16 = lb - 176).
  { unfold round_down. rewrite u64_small by (unfold is_u64; Z.to_euclidean_division_equations; lia).
    Z.to_euclidean_division_equations; lia. }
  rewrite Ha, Hd. cbn [Z.eqb negb]. rewrite u64_small by (unfold is_u64; lia). do 3 f_equal. lia.
Qed.

(** A word read out of a longer piece. *)
Lemma read_mem_in m a n b k :
  0 <= k -> a <= b -> b + k <= a + n -> read_mem m b k = le_val (read_at (b - a) k (read_bytes m a n)).
Proof.
  intros Hk Ha Hb. unfold read_mem. f_equal.
  replace n with ((b - a) + (k + (a + n - b - k))) by lia.
  rewrite (read_bytes_split m a (b - a) b), (read_bytes_split m b k (b + k)) by lia.
  unfold read_at, ztake, zdrop. rewrite drop_app_length', take_app_length'; [done|..];
    unfold read_bytes; rewrite length_fmap, length_seqZ; lia.
Qed.

(** The pushes of the 32-bit loader, realigned. *)
Lemma stack32_spec h l d m :
  4096 <= load_break l < 2 ^ 63 -> load_break l mod PAGE_SIZE = 0 ->
  let '(rsp, dip, m') := stack32 h l d m in
  rsp = load_break l - 176 /\ dip = load_break l - 60 /\
  read_bytes m' rsp 112 =
    ([0; 0; 0] ≫= le_bytes 4) ++
    ([5; e_phnum h; 4; e_phentsize h; 9; e_entry h; 3; u64 (fst (l_image l) + e_phoff h); 7;
      fst (l_image l)] ≫= le_bytes 8) ++
    ([AT_DUCK; dip; 6; PAGE_SIZE; 0] ≫= le_bytes 4) /\
  read_bytes m' dip 60 = encode_duckinfo32 d /\
  forall x, x < rsp \/ load_break l <= x -> m' x = m x.
Proof.
  intros Hl Hm. unfold stack32. cbn zeta. set (lb := load_break l) in *.
  rewrite push_step by (rewrite ?(proj2 (zlen_encode d)); unfold is_u64; lia).
  change (zlen (encode_duckinfo32 d)) with 60. cbn [fst].
  set (m1 := write_bytes m _ _).
  match goal with |- context [fold_left pushl ?w3 (fold_left pushq ?w2 (fold_left pushl ?w1 ?st))] =>
    pose proof (pushes32 w1 w2 w3 (lb - 60) m1 eq_refl eq_refl eq_refl
      ltac:(unfold is_u64; lia) ltac:(lia)) as H;
    destruct (fold_left pushl w3 (fold_left pushq w2 (fold_left pushl w1 st))) as [r m2]
  end.
  destruct H as (F & R & O). replace r with (lb - 172) in * by lia. rewrite align16_by_4, R by done.
  set (ws := _ ++ _ ++ _) in *. set (m3 := write_bytes m2 _ _).
  conj_split; try done.
  - apply read_write_bytes.
  - rewrite (read_bytes_ext m3 m1).
    + change 60 with (zlen (encode_duckinfo32 d)) at 2. apply read_write_bytes.
    + intros x Hx. unfold m3. rewrite write_bytes_outside by (change (zlen ws) with 112; lia). apply O. lia.
  - intros x Hx. unfold m3. rewrite write_bytes_outside by (change (zlen ws) with 112; lia).
    rewrite O by lia. apply write_bytes_outside. change (zlen (encode_duckinfo32 d)) with 60. lia.
Qed.

(** The initial stack of a 32-bit program is aligned and holds the program's
    [DuckInfo], but its auxiliary vector cannot be read by the 32-bit ABI: the ELF
    entries are pushed as 64-bit words, so the word after the type [AT_PHNUM] is 0
    whatever the number of program headers. *)
Theorem initial_stack32 h l d m :
  4096 <= load_break l < 2 ^ 63 -> load_break l mod PAGE_SIZE = 0 ->
  let '(rsp, dip, m') := stack32 h l d m in
  rsp = load_break l - 176 /\ rsp mod 16 = 0 /\ dip = load_break l - 60 /\
  read_bytes m' rsp 112 =
    ([0; 0; 0] ≫= le_bytes 4) ++
    ([5; e_phnum h; 4; e_phentsize h; 9; e_entry h; 3; u64 (fst (l_image l) + e_phoff h); 7;
      fst (l_image l)] ≫= le_bytes 8) ++
    ([AT_DUCK; dip; 6; PAGE_SIZE; 0] ≫= le_bytes 4) /\
  read_mem m' (rsp + 12) 4 = 5 /\ read_mem m' (rsp + 16) 4 = 0 /\
  read_bytes m' dip 60 = encode_duckinfo32 d /\
  forall x, x < rsp \/ load_break l <= x -> m' x = m x.
Proof.
  intros Hl Hm. pose proof (stack32_spec h l d m Hl Hm) as H. destruct (stack32 h l d m) as [[rsp dip] m'].
  destruct H as (-> & -> & R & D & O). set (lb := load_break l) in *. set (ws := _ ++ _ ++ _) in *.
  conj_split; try done.
  - unfold PAGE_SIZE in Hm. Z.to_euclidean_division_equations; lia.
  - rewrite (read_mem_in m' (lb - 176) 112), R by lia.
    replace (lb - 176 + 12 - (lb - 176)) with 12 by lia. reflexivity.
  - rewrite (read_mem_in m' (lb - 176) 112), R by lia.
    replace (lb - 176 + 16 - (lb - 176)) with 16 by lia. reflexivity.
Qed.

(** ** The report of a run *)

(** The pages of a range with a bit set in their entry. *)
Definition has_flag (flag : Z) (s : state) (p : Z) : bool := negb (Z.land (P1 s p) flag =? 0).
Definition pages_with (flag start end_ : Z) (s : state) : list Z :=
  List.filter (has_flag flag s) (seqZ (start / PAGE_SIZE) ((end_ - start) / PAGE_SIZE)).

Lemma count_loop_spec flag n start ret s :
  0 <= start -> start mod PAGE_SIZE = 0 -> start + PAGE_SIZE * Z.of_nat n < 2 ^ 48 ->
  0 <= ret -> ret + Z.of_nat n < 2 ^ 63 ->
  count_loop n flag start (start + PAGE_SIZE * Z.of_nat n) ret s =
    Some (ret + zlen (List.filter (has_flag flag s) (seqZ (start / PAGE_SIZE) (Z.of_nat n)))).
Proof.
  unfold PAGE_SIZE. revert start ret. induction n as [|n IH]; intros start ret H0 Hm Hn Hr Hb.
  { cbn [count_loop]. rewrite Z.mul_0_r, Z.add_0_r, Z.eqb_refl. cbn. by rewrite Z.add_0_r. }
  cbn [count_loop]. destruct (Z.eqb_spec start (start + 4096 * Z.of_nat (S n))); [lia|].
  unfold PAGE_SIZE at 1. rewrite (u64_small (start + 4096)) by (unfold is_u64; lia).
  rewrite P1_slot_small by lia. fold (has_flag flag s (start / PAGE_SIZE)). unfold PAGE_SIZE.
  replace (start + 4096 * Z.of_nat (S n)) with (start + 4096 + 4096 * Z.of_nat n) by lia.
  rewrite Nat2Z.inj_succ, seqZ_cons by lia. cbn [List.filter].
  replace (Z.succ (start / 4096)) with ((start + 4096) / 4096) by (Z.to_euclidean_division_equations; lia).
  replace (Z.pred (Z.succ (Z.of_nat n))) with (Z.of_nat n) by lia.
  set (b := if has_flag flag s (start / 4096) then 1 else 0).
  assert (Hb1 : 0 <= b <= 1) by (subst b; destruct (has_flag _ _ _); lia).
  rewrite (u64_small (ret + b)) by (unfold is_u64; lia).
  rewrite IH; [|lia|Z.to_euclidean_division_equations; lia|lia|lia|lia].
  f_equal. subst b. destruct (has_flag _ _ _); unfold zlen; cbn [length]; lia.
Qed.

Lemma count_pages_spec flag a b s :
  page_range a b -> count_pages flag a b s = Some (zlen (pages_with flag a b s)).
Proof.
  intros (H1 & H2 & H3 & H4). unfold count_pages. rewrite H3, H4. cbn [Z.eqb negb].
  unfold rounds, pages_with. rewrite u64_small by (unfold is_u64; lia).
  assert (Hn : 0 <= (b - a) / PAGE_SIZE < 2 ^ 47)
    by (unfold PAGE_SIZE in *; Z.to_euclidean_division_equations; lia).
  assert (En : b = a + PAGE_SIZE * Z.of_nat (Z.to_nat ((b - a) / PAGE_SIZE)))
    by (rewrite Z2Nat.id by lia; unfold PAGE_SIZE in *; Z.to_euclidean_division_equations; lia).
  rewrite En at 2. rewrite count_loop_spec by (unfold PAGE_SIZE in *; lia || done).
  by rewrite Z2Nat.id by lia.
Qed.

Lemma pages_with_split flag a b c d s :
  page_range a d -> page_range b c -> a <= b -> c <= d ->
  zlen (pages_with flag a d s) =
    zlen (pages_with flag a b s) + zlen (pages_with flag b c s) + zlen (pages_with flag c d s).
Proof.
  intros Ha Hb H1 H2. unfold page_range, pages_with, PAGE_SIZE in *.
  replace ((d - a) / 4096) with ((b - a) / 4096 + ((c - b) / 4096 + (d - c) / 4096))
    by (Z.to_euclidean_division_equations; lia).
  rewrite !seqZ_app by (Z.to_euclidean_division_equations; lia).
  rewrite !List.filter_app. unfold zlen. rewrite !length_app.
  replace (a / 4096 + (b - a) / 4096) with (b / 4096) by (Z.to_euclidean_division_equations; lia).
  replace (b / 4096 + (c - b) / 4096) with (c / 4096) by (Z.to_euclidean_division_equations; lia). lia.
Qed.

Lemma pages_with_ext flag a b s s' :
  (forall p, has_flag flag s' p = has_flag flag s p) -> pages_with flag a b s' = pages_with flag a b s.
Proof. intros H. by apply List.filter_ext. Qed.

Lemma pages_with_bound flag a b s :
  page_range a b -> 0 <= zlen (pages_with flag a b s) <= (b - a) / PAGE_SIZE.
Proof.
  intros (H1 & H2 & H3 & H4). unfold pages_with, zlen. split; [lia|].
  pose proof (List.filter_length_le (has_flag flag s) (seqZ (a / PAGE_SIZE) ((b - a) / PAGE_SIZE))) as H.
  rewrite length_seqZ in H. unfold PAGE_SIZE in *. Z.to_euclidean_division_equations; lia.
Qed.

(** A run reports, and changes flags of pages only. *)
Lemma run_reports t app o s :
  app_ok app ->
  exists s' r, run t app o s = Some (s', r) /\
    (vaddr_break s' = vaddr_break s /\ user_mem s' = user_mem s /\
     ((forall p, is_u64 (P1 s p)) -> forall p, is_u64 (P1 s' p))) /\
    stdout_size r <= di_stdout_limit (duckinfo_orig app) /\
    stderr_size r <= di_stderr_limit (duckinfo_orig app) /\
    memory_bytes r = PAGE_SIZE * zlen (pages_with PTE_DIRTY (start_addr app) (special_region_break_addr app) s) /\
    memory_bytes r <= special_region_break_addr app - start_addr app /\
    memory_kb_accessed r = 4 *
      (zlen (pages_with PTE_ACCESSED (start_addr app) (stdin_start_addr app) s) +
       zlen (pages_with PTE_ACCESSED (stdin_break_addr app) (special_region_break_addr app) s)).
Proof.
  intros (R1 & R2 & Ha & Hb). unfold run.
  destruct (for_pages_update (λ e, Z.lor e (if negb (Z.land e PTE_DIRTY =? 0)
    then PTE_DUCK_WRITTEN else 0)) _ _ s R1) as (s1 & E1 & Hp & Hm & Hv).
  unfold set_duck_written_by_dirty. rewrite E1. cbn [obind].
  assert (Hf : forall k, 0 <= k -> k <> 9 -> forall p, has_flag (2 ^ k) s1 p = has_flag (2 ^ k) s p).
  { intros k Hk Hk9 p. unfold has_flag. rewrite Hp. destruct (in_range _ _ _); [|done].
    rewrite !land_bit by done. destruct (negb _); [|by rewrite Z.lor_0_r].
    change PTE_DUCK_WRITTEN with (2 ^ 9). rewrite testbit_lor_flag by lia.
    destruct (Z.eqb_spec 9 k); [lia|]. apply orb_false_r. }
  unfold count_dirty_pages, count_accessed_pages. rewrite !count_pages_spec by done. cbn [obind].
  rewrite (pages_with_ext PTE_DIRTY _ _ s s1 (Hf 6 ltac:(lia) ltac:(lia))).
  rewrite !(pages_with_ext PTE_ACCESSED _ _ s s1 (Hf 5 ltac:(lia) ltac:(lia))).
  pose proof (pages_with_bound PTE_DIRTY _ _ s R1) as Bd.
  pose proof (pages_with_bound PTE_ACCESSED _ _ s R1) as Ba.
  rewrite (pages_with_split PTE_ACCESSED _ _ _ _ s R1 R2 Ha Hb) in *.
  set (x := zlen (pages_with PTE_ACCESSED (start_addr app) _ s)) in *.
  set (y := zlen (pages_with PTE_ACCESSED _ (special_region_break_addr app) s)) in *.
  set (z := zlen (pages_with PTE_ACCESSED (stdin_start_addr app) _ s)) in *.
  set (d := zlen (pages_with PTE_DIRTY _ _ s)) in *.
  assert (0 <= x /\ 0 <= y /\ 0 <= z) by (subst x y z; unfold zlen; lia).
  destruct R1 as (R11 & R12 & _). unfold PAGE_SIZE in *.
  assert (0 <= d < 2 ^ 47 /\ x + z + y < 2 ^ 47 /\ 4096 * d <= special_region_break_addr app - start_addr app)
    by (Z.to_euclidean_division_equations; lia).
  eexists _, _. split; [reflexivity|]. split.
  { split; [done|]. split; [done|]. intros Hu p. rewrite Hp. destruct (in_range _ _ _); [|done].
    apply lor_u64; [done|]. by destruct (negb _). }
  cbn [stdout_size stderr_size memory_bytes memory_kb_accessed].
  rewrite (u64_small (x + z + y - z)), !u64_small by (unfold is_u64; lia).
  conj_split; try lia. Z.to_euclidean_division_equations; lia.
Qed.

(** C27: The report of a run cannot be forged.  Whatever the program left in memory,
    the sizes reported for stdout and stderr stay within the limits set when it was
    loaded; the memory it used is the number of its dirty pages, and the memory it
    touched the number of accessed pages outside its standard input; no counter
    wraps around and no assertion fails. *)
Theorem run_measures t app o s :
  page_range (start_addr app) (special_region_break_addr app) ->
  page_range (stdin_start_addr app) (stdin_break_addr app) ->
  start_addr app <= stdin_start_addr app -> stdin_break_addr app <= special_region_break_addr app ->
  exists s' r, run t app o s = Some (s', r) /\
    stdout_size r <= di_stdout_limit (duckinfo_orig app) /\
    stderr_size r <= di_stderr_limit (duckinfo_orig app) /\
    memory_bytes r = PAGE_SIZE * zlen (pages_with PTE_DIRTY (start_addr app) (special_region_break_addr app) s) /\
    memory_bytes r <= special_region_break_addr app - start_addr app /\
    memory_kb_accessed r = 4 *
      (zlen (pages_with PTE_ACCESSED (start_addr app) (stdin_start_addr app) s) +
       zlen (pages_with PTE_ACCESSED (stdin_break_addr app) (special_region_break_addr app) s)).
Proof.
  intros R1 R2 Ha Hb. destruct (run_reports t app o s) as (s' & r & E & _ & H); [by split|by exists s', r].
Qed.

(** ** The image page of the 32-bit loader *)

(** Making one more page readable extends the reach by that page. *)
Lemma load_readonly_next lo hi content s :
  lo mod PAGE_SIZE = 0 -> kernel_break <= lo <= hi -> hi + PAGE_SIZE <= 2 ^ 46 -> hi mod PAGE_SIZE = 0 ->
  user_inv lo hi s ->
  exists s', load_readonly (hi, hi + PAGE_SIZE) content s = Some s' /\
    user_inv lo (hi + PAGE_SIZE) s' /\ vaddr_break s' = vaddr_break s.
Proof.
  intros Hm Hl Hh Hhm (Hu & Hi). unfold load_readonly, set_duck_written, set_page_flags_user_readonly.
  cbn [fst snd]. assert (R : page_range hi (hi + PAGE_SIZE)).
  { unfold page_range, PAGE_SIZE, kernel_break in *. conj_split; try lia. Z.to_euclidean_division_equations; lia. }
  destruct (for_pages_update (λ e, Z.lor e PTE_DUCK_WRITTEN) _ _ (copy_in hi content s) R) as (s1 & E1 & P1' & _ & V1).
  rewrite E1. cbn [obind].
  destruct (for_pages_update flags_user_readonly _ _ s1 R) as (s2 & E2 & P2' & _ & V2).
  exists s2. split; [exact E2|]. split; [|rewrite V2; exact V1].
  pose proof keeps_user_flags as (_ & K2 & K3 & _).
  split; intros p; rewrite P2', P1'; change (P1 (copy_in hi content s)) with (P1 s).
  - destruct (in_range _ _ _); [|done]. by apply K2, K3.
  - rewrite V2, V1. change (vaddr_break (copy_in hi content s)) with (vaddr_break s). intros Hp.
    destruct (in_range hi (hi + PAGE_SIZE) p) eqn:Ei.
    + destruct (flags_meaning (Z.lor (P1 s p) PTE_DUCK_WRITTEN)) as (_ & (_ & -> & _) & _); [by apply K3|].
      symmetry. unfold in_range in *. lia.
    + rewrite Hi by done. unfold in_range in *.
      unfold PAGE_SIZE in *. destruct (Z.leb_spec lo (4096 * p)); [|done]. cbn [andb].
      clear -Ei Hhm. Z.to_euclidean_division_equations; lia.
Qed.

Lemma load32_loads buf len cfg tsc_freq s h l :
  bytes buf -> 0 <= len < 2 ^ 32 -> wf_config cfg -> vbreak_ok (vaddr_break s) ->
  (forall p, is_u64 (P1 s p)) -> plan32 buf len cfg (vaddr_break s) = Some (h, l) ->
  exists s' app, load_elf32 buf len cfg tsc_freq s = Some (s', Some app) /\ vaddr_break s' = vaddr_break s /\
    special_region_break_addr app = special_break l /\ l_image l = (special_break l, special_break l + PAGE_SIZE) /\
    user_inv 0x8048000 (special_break l + PAGE_SIZE) s' /\ app_ok app.
Proof.
  intros Hb Hlen Hc Hv Hu Ep. unfold load_elf32, get_vaddr_break. rewrite Ep.
  destruct (plan32_ok buf len cfg _ h l Hb Hlen Hv Hc Ep) as ((P1' & P2' & P3' & P4') & Es & Hsb & Hs32 & Hsm).
  pose proof Hv as [[_ Hv46] _]. pose proof P3' as (_ & _ & _ & _ & _ & _ & Eim).
  rewrite <- Es in Eim.
  destruct (layout_ranges cfg l Hc P3') as ((Q1 & Q1') & (Q2 & Q2') & (Q3 & Q3' & Q3'') & _ & Q5 & Q6 & Q7);
    [unfold load_vaddr_start, class32, PAGE_SIZE in *; lia|done|rewrite Eim; cbn [snd]; clear -Hs32; unfold PAGE_SIZE; lia|].
  unfold do_load32. cbn zeta. change (load_vaddr_start class32) with 0x8048000 in *.
  set (hi := special_break l) in *.
  assert (Hhi : hi <= 2 ^ 46 /\ hi mod PAGE_SIZE = 0) by (split; [lia|done]).
  assert (Hlo : kernel_break <= 0x8048000 /\ 0x8048000 mod PAGE_SIZE = 0) by done.
  assert (Hlb : 0x8048000 + PAGE_SIZE <= load_break l <= hi /\ load_break l mod PAGE_SIZE = 0)
    by (split; [unfold page_range in *; unfold PAGE_SIZE in *; lia|done]).
  assert (Hseg : forall i, 0 <= i < e_phnum h -> p_type (phdr_at class32 buf h i) = PT_LOAD ->
    segment_fits class32 len (load_break l) (phdr_at class32 buf h i)) by (intros i Hi; by apply P4').
  destruct (set_up_flags_inv 0x8048000 hi s) as (s1 & E1 & I1 & V1); [apply Hlo|done| |lia|done|done|].
  { unfold page_range, PAGE_SIZE in *. conj_split; try done; lia. }
  rewrite E1. cbn [obind].
  destruct (load_segments_inv class32 buf len h 0x8048000 hi (load_break l) eq_refl Hlo Hlb Hhi Hseg s1 I1)
    as (s2 & E2 & I2 & V2). rewrite E2. cbn [obind]. unfold PAGE_SIZE in Hlb.
  destruct (load_readonly_inv 0x8048000 hi (l_stdin l) (ztake (stdin_size cfg) (stdin_ptr cfg)) s2 Q1)
    as (s3 & E3 & I3 & V3); [lia|lia|done|]. rewrite E3. cbn [obind].
  destruct (load_readonly_inv 0x8048000 hi (l_IB l) (ztake (IB_size cfg) (IB_ptr cfg)) s3 Q2)
    as (s4 & E4 & I4 & V4); [lia|lia|done|]. rewrite E4. cbn [obind].
  destruct (load_OB_inv cfg l 0x8048000 hi s4 Q3 Q3'') as (s5 & E5 & I5 & V5); [lia|lia|done|].
  rewrite E5. cbn [obind]. rewrite Eim.
  destruct (load_readonly_next 0x8048000 hi (ztake (Z.min len PAGE_SIZE) buf) s5)
    as (s6 & E6 & I6 & V6); [done|unfold kernel_break; lia|lia|done|done|].
  rewrite E6. cbn [obind]. destruct (stack32 _ _ _ _) as [[rsp dip] m].
  destruct (finish_inv class32 buf len h 0x8048000 (hi + PAGE_SIZE) hi (load_break l) m s6)
    as (s8 & s9 & s10 & E8 & E9 & E10 & I10 & V10); [done|done| | | |done|done|].
  { unfold PAGE_SIZE in *. split; [lia|done]. }
  { split; [unfold PAGE_SIZE in *; lia|]. clear -Hhi. destruct Hhi as [_ Hhi]. unfold PAGE_SIZE in *.
    Z.to_euclidean_division_equations; lia. }
  { split; [unfold PAGE_SIZE in *; lia|apply Hhi]. }
  rewrite E8. cbn [obind]. rewrite E9. cbn [obind]. rewrite E10. cbn [obind].
  assert (Hvb : vaddr_break s10 = vaddr_break s) by congruence.
  eexists _, _. split; [reflexivity|]. split; [done|]. cbn [special_region_break_addr]. split; [done|]. split; [done|].
  split; [exact I10|]. unfold app_ok. cbn [start_addr special_region_break_addr stdin_start_addr stdin_break_addr].
  clear -Q1 Q1' Q5 Es Hlb Hhi Hlo. destruct Hhi as [Hh1 Hh2]. unfold page_range, PAGE_SIZE in *.
  conj_split; try lia; try done; apply Q1.
Qed.

(** The 32-bit loader hands out one page more than it checked for.  The page of
    the ELF image is placed after the limits were tested, so a program reaches the
    page after the special region it was loaded with, and nothing else. *)
Theorem load32_image_page buf len cfg tsc_freq s h l :
  bytes buf -> 0 <= len < 2 ^ 32 -> wf_config cfg -> vbreak_ok (vaddr_break s) ->
  (forall p, is_u64 (P1 s p)) ->
  plan32 buf len cfg (vaddr_break s) = Some (h, l) -> special_break l + PAGE_SIZE <= vaddr_break s ->
  exists s' app, load_elf32 buf len cfg tsc_freq s = Some (s', Some app) /\
    special_region_break_addr app = special_break l /\ l_image l = (special_break l, special_break l + PAGE_SIZE) /\
    forall p, kernel_break <= PAGE_SIZE * p < vaddr_break s ->
      user_ok (P1 s' p) = in_range 0x8048000 (special_break l + PAGE_SIZE) p.
Proof.
  intros Hb Hlen Hc Hv Hu Ep _.
  destruct (load32_loads buf len cfg tsc_freq s h l Hb Hlen Hc Hv Hu Ep) as (s' & app & E & Ev & Es & Ei & [_ Hi] & _).
  exists s', app. do 3 (split; [done|]). intros p Hp. apply Hi. by rewrite Ev.
Qed.

(** ** Witnesses *)

Lemma initial_stack64_witness :
  let '(rsp, dip, m) := stack64 demo_ehdr demo_layout (make_duckinfo demo_config demo_layout 1000) (λ _, 0) in
  rsp = 0x401e80 /\ rsp mod 16 = 0 /\ dip = 0x401f90.
Proof.
  pose proof (initial_stack64 demo_ehdr demo_layout (make_duckinfo demo_config demo_layout 1000) (λ _, 0)
    ltac:(cbn; lia) eq_refl) as H.
  destruct (stack64 _ _ _ _) as [[rsp dip] m]. destruct H as (-> & H1 & -> & _).
  split; [reflexivity|]. split; [exact H1|reflexivity].
Defined.

Lemma initial_stack32_witness :
  let '(rsp, dip, m) := stack32 demo_ehdr demo_layout (make_duckinfo demo_config demo_layout 1000) (λ _, 0) in
  read_mem m (rsp + 12) 4 = 5 /\ read_mem m (rsp + 16) 4 = 0.
Proof.
  pose proof (initial_stack32 demo_ehdr demo_layout (make_duckinfo demo_config demo_layout 1000) (λ _, 0)
    ltac:(cbn; lia) eq_refl) as H.
  destruct (stack32 _ _ _ _) as [[rsp dip] m]. destruct H as (_ & _ & _ & _ & H1 & H2 & _).
  split; [exact H1|exact H2].
Defined.

Definition demo_app : App :=
  mk_app 0x400078 0x401e80 0x400000 0x402000 0x402000 0x407000 0x402000 0x403000
    (make_duckinfo demo_config demo_layout 1000) 0x401f90 0.
Definition demo_outcome : Outcome := mk_outcome 10 255 0 5 10 10 0 0.
Definition demo_timer : Timer.state := Timer.mk_state 1000000000 0 1000000000 1000000000.
Lemma run_measures_witness :
  exists s' r, run demo_timer demo_app demo_outcome demo_memory = Some (s', r) /\ stdout_size r <= 100.
Proof.
  destruct (run_measures demo_timer demo_app demo_outcome demo_memory) as (s' & r & E & H & _);
    [vm_compute; intuition discriminate..|].
  exists s', r. split; [exact E|exact H].
Defined.

(** The small program for the 32-bit loader. *)
Definition demo_elf32 : list Z :=
  [127; 69; 76; 70; 1; 1; 1; 0; 0; 0; 0; 0; 0; 0; 0; 0] ++
  le_bytes 2 2 ++ le_bytes 2 3 ++ le_bytes 4 1 ++ le_bytes 4 0x8048054 ++ le_bytes 4 52 ++
  le_bytes 4 0 ++ le_bytes 4 0 ++ le_bytes 2 52 ++ le_bytes 2 32 ++ le_bytes 2 1 ++ le_bytes 6 0 ++
  le_bytes 4 1 ++ le_bytes 4 0 ++ le_bytes 4 0x8048000 ++ le_bytes 4 0 ++ le_bytes 4 90 ++
  le_bytes 4 90 ++ le_bytes 4 5 ++ le_bytes 4 4096 ++ repeat 0x90 6.
Definition demo_memory32 : state :=
  mk_state ∅ 0 0 0 0x8100000 (λ _, 0) (λ _, 0x6ff) (λ _, 0).
Definition demo_layout32 : layout :=
  mk_layout 0x804a000 (0x804a000, 0x804b000) (0x804b000, 0x804c000) (0x804c000, 0x804d000)
    (0x804d000, 0x804d000) (0x804d000, 0x804d000) (0x804d000, 0x804e000) (0, 0) 0x804d000.

Lemma load32_image_page_witness :
  exists s' app, load_elf32 demo_elf32 90 demo_config 1000 demo_memory32 = Some (s', Some app) /\
    special_region_break_addr app = 0x804d000 /\ user_ok (P1 s' 0x804d) = true.
Proof.
  destruct (load32_image_page demo_elf32 90 demo_config 1000 demo_memory32 (mk_ehdr 0x8048054 52 32 1)
    demo_layout32) as (s' & app & E & H1 & _ & H2).
  - by apply bytesb_bytes.
  - lia.
  - apply demo_ok.
  - split; vm_compute; intuition discriminate.
  - intros p. unfold is_u64. cbn. lia.
  - reflexivity.
  - vm_compute. discriminate.
  - exists s', app. split; [exact E|]. split; [exact H1|].
    rewrite H2 by (vm_compute; intuition discriminate). reflexivity.
Defined.

End ElfRun.
