(* ===== verification/UserLib.v ===== *)
(** * UserLib: the system calls of a judged program ([user_lib/], [user_lib32/])

    The library linked into a program answers most system calls itself, from the
    [DuckInfo] the kernel left on the stack: it hands out standard input piece by
    piece and collects standard output in a region of the program's own memory.
    [Lib] is what [duck64_syscall_handler.cpp] and [duck32_syscall_handler.cpp]
    have in common, with the size [w] of a word in bytes; [Lib64] and [Lib32] are
    the two handlers. *)
From S2P Require Import Prelude Utils Memory Timer Elf.
From stdpp Require Import list.

Module UserLib.
Local Open Scope Z_scope.

(** The memory of the program and the statics of the file; [fs_base] is the
    register, [mmap_p] is only used by the 64-bit library. *)
Record state := mk_state {
  mem : Z -> Z; inited : bool; duckinfo : Z; stdout_max_size : Z; stderr_max_size : Z; stdin_curr_pos : Z;
  tsc_frequency : Z; heap_brk : Z; mmap_p : Z; fs_base : Z }.

Definition with_mem (s : state) (m : Z -> Z) : state :=
  mk_state m (inited s) (duckinfo s) (stdout_max_size s) (stderr_max_size s) (stdin_curr_pos s) (tsc_frequency s)
    (heap_brk s) (mmap_p s) (fs_base s).
Definition with_pos (s : state) (p : Z) : state :=
  mk_state (mem s) (inited s) (duckinfo s) (stdout_max_size s) (stderr_max_size s) p (tsc_frequency s)
    (heap_brk s) (mmap_p s) (fs_base s).
Definition with_brk (s : state) (b : Z) : state :=
  mk_state (mem s) (inited s) (duckinfo s) (stdout_max_size s) (stderr_max_size s) (stdin_curr_pos s) (tsc_frequency s)
    b (mmap_p s) (fs_base s).
Definition with_mmap (s : state) (p : Z) : state :=
  mk_state (mem s) (inited s) (duckinfo s) (stdout_max_size s) (stderr_max_size s) (stdin_curr_pos s) (tsc_frequency s)
    (heap_brk s) p (fs_base s).
Definition with_fs (s : state) (b : Z) : state :=
  mk_state (mem s) (inited s) (duckinfo s) (stdout_max_size s) (stderr_max_size s) (stdin_curr_pos s) (tsc_frequency s)
    (heap_brk s) (mmap_p s) b.

(** What a system call does: return a value, or trap to the kernel for good. *)
Inductive outcome := Return (r : Z) | Exit (code : Z) | Abort (sig : Z).

Definition load (m : Z -> Z) (a n : Z) : Z := le_val (read_bytes m a n).

Module Lib.
Section Lib.
(** The size of a word; the end of the program; [getauxval]. *)
Variable w : Z.
Variable _end page_size at_duck : Z.

Definition uw (z : Z) : Z := z mod 2 ^ (8 * w).

(** The words of [DuckInfo], in order. *)
Definition abi_version := 0.
Definition stdin_ptr := 1.
Definition stdin_size := 2.
Definition stdout_ptr := 3.
Definition stdout_limit := 4.
Definition stdout_size := 5.
Definition stderr_ptr := 6.
Definition stderr_limit := 7.
Definition stderr_size := 8.
Definition field (s : state) (i : Z) : Z := load (mem s) (duckinfo s + w * i) w.
Definition set_field (i v : Z) (s : state) : state :=
  with_mem s (write_bytes (mem s) (duckinfo s + w * i) (le_bytes (Z.to_nat w) v)).
Definition tsc_field (s : state) : Z := load (mem s) (duckinfo s + w * 13) 8.

Definition init (s : state) : state :=
  let s := mk_state (mem s) true at_duck (stdout_max_size s) (stderr_max_size s) 0 (tsc_frequency s) (heap_brk s)
    (mmap_p s) (fs_base s) in
  let out := field s stdout_limit in
  let s := set_field stdout_size 0 s in
  let err := field s stderr_limit in
  let s := set_field stderr_size 0 s in
  mk_state (mem s) true at_duck out err 0 (tsc_field s)
    (uw (uw (uw (_end + page_size - 1) / page_size) * page_size)) (mmap_p s) (fs_base s).

Definition duck_read (fd buf len : Z) (s : state) : state * Z :=
  if fd =? 0 then
    let available_len := uw (field s stdin_size - stdin_curr_pos s) in
    let actual_len := Z.min len available_len in
    let src := uw (field s stdin_ptr + stdin_curr_pos s) in
    let s := with_mem s (write_bytes (mem s) buf (read_bytes (mem s) src actual_len)) in
    (with_pos s (uw (stdin_curr_pos s + actual_len)), actual_len)
  else (s, 0).

(** The two branches of [duck_write]: append to the region of standard output or
    standard error what fits; the number of bytes stored. *)
Definition append (max ptr size buf len : Z) (s : state) : state * Z :=
  let available_len := uw (max - field s size) in
  let actual_len := Z.min len available_len in
  let dst := uw (field s ptr + field s size) in
  let s := with_mem s (write_bytes (mem s) dst (read_bytes (mem s) buf actual_len)) in
  (set_field size (uw (field s size + actual_len)) s, actual_len).

(** [readv] and [writev]: [cnt] rounds, stopped by a short one. *)
Fixpoint for_iov (f : Z -> Z -> state -> state * Z) (n : nat) (iov ret : Z) (s : state) : state * Z :=
  match n with
  | O => (s, ret)
  | S n =>
      let '(s, tmp) := f (load (mem s) iov w) (load (mem s) (iov + w) w) s in
      let iov_len := load (mem s) (iov + w) w in
      let ret := if tmp <=? iov_len then uw (ret + tmp) else ret in
      if negb (tmp =? iov_len) then (s, ret) else for_iov f n (iov + 2 * w) ret s
  end.
Definition duck_readv (fd iov cnt : Z) (s : state) : state * Z :=
  for_iov (duck_read fd) (Z.to_nat cnt) iov 0 s.

Definition duck_brk (addr : Z) (s : state) : state * Z :=
  if addr =? 0 then (s, heap_brk s)
  else
    let s := if heap_brk s <? addr then with_brk s addr else s in
    (s, heap_brk s).

End Lib.
End Lib.
Import Lib.

Definition CLOCK_PROCESS_CPUTIME_ID : Z := 2.
(** The time in seconds and nanoseconds; None is a division by zero. *)
Definition duck_time (f t : Z) : option (Z * Z) :=
  if f =? 0 then None else Some (t / f, u64 (t mod f * 1000000000) / f).
(** Both libraries store two 64-bit words. *)
Definition duck_clock_get_time (clk_id tp now : Z) (s : state) : option (state * Z) :=
  if clk_id =? CLOCK_PROCESS_CPUTIME_ID then
    match duck_time (tsc_frequency s) now with
    | None => None
    | Some (sec, nsec) =>
        Some (with_mem s (write_bytes (write_bytes (mem s) tp (le_bytes 8 sec)) (tp + 8) (le_bytes 8 nsec)), 0)
    end
  else Some (s, -1).

(** What [fstat] stores; [struct stat] is the C library's. *)
Record stat := mk_stat { st_mode : Z; st_size : Z; st_blksize : Z; st_blocks : Z }.
Definition no_stat : stat := mk_stat 0 0 0 0.
Definition S_IFREG : Z := 0x8000.

Module Lib64.
Section Lib64.
Variable _end page_size at_duck : Z.
Variable store_stat : Z -> stat -> (Z -> Z) -> Z -> Z.
Abbreviation w := 8.

Definition duck_write (fd buf len : Z) (s : state) : state * Z :=
  if fd =? 1 then (fst (append w (stdout_max_size s) stdout_ptr stdout_size buf len s), len)
  else if fd =? 2 then (fst (append w (stderr_max_size s) stderr_ptr stderr_size buf len s), len)
  else (s, 0).
Definition duck_writev (fd iov cnt : Z) (s : state) : state * Z :=
  for_iov w (duck_write fd) (Z.to_nat cnt) iov 0 s.

Definition regular (size : Z) : stat := mk_stat (Z.lor S_IFREG 436) size 4096 (u64 (size + 4095) / 4096).
Definition duck_fstat (fd st : Z) (s : state) : state * Z :=
  let s := with_mem s (store_stat st no_stat (mem s)) in
  if fd =? 0 then (with_mem s (store_stat st (regular (field w s stdin_size)) (mem s)), 0)
  else if fd =? 1 then (with_mem s (store_stat st (regular (field w s stdout_size)) (mem s)), 0)
  else (s, -1).

Definition ARCH_SET_FS : Z := 0x1002.
Definition duck_arch_prctl (code addr : Z) (s : state) : state * Z :=
  if code =? ARCH_SET_FS then (with_fs s addr, 0) else (s, -1).

Definition MMAP_POOL_SIZE : Z := Z.shiftl 10240 10.
Definition duck_mmap_temp (size : Z) (s : state) : state * Z :=
  let size := Z.land (u64 (size + 4095)) (u64 (-4096)) in
  let p := mmap_p s in
  (with_mmap s (u64 (p + size)), p).

(** [strncpy] pads with zeros. *)
Definition strncpy_safe (dest : Z) (src : list Z) (n : Z) (m : Z -> Z) : Z -> Z :=
  if 0 <? n then write_bytes m dest (ztake (n - 1) (src ++ replicate (Z.to_nat (n - 1)) 0) ++ [0]) else m.

(** The bytes before the first null, None when there is none in [fuel] bytes. *)
Fixpoint strlen (fuel : nat) (m : Z -> Z) (a : Z) : option Z :=
  match fuel with
  | O => None
  | S fuel => if m a =? 0 then Some 0 else match strlen fuel m (a + 1) with Some n => Some (1 + n) | None => None end
  end.

Definition main_exe : list Z := [47; 116; 109; 112; 47; 109; 97; 105; 110; 46; 101; 120; 101].
Definition duck_readlink (fuel : nat) (path buf bufsiz : Z) (s : state) : option (state * Z) :=
  let s := with_mem s (strncpy_safe buf main_exe (u64 bufsiz) (mem s)) in
  match strlen fuel (mem s) path with Some n => Some (s, n) | None => None end.

(** The fields of [struct utsname] have 65 bytes each. *)
Definition JudgeDuck : list Z := [74; 117; 100; 103; 101; 68; 117; 99; 107].
Definition duck_uname (buf : Z) (s : state) : state * Z :=
  let m := mem s in
  let m := strncpy_safe buf JudgeDuck 65 m in
  let m := strncpy_safe (buf + 65) [100; 117; 99; 107] 65 m in
  let m := strncpy_safe (buf + 130) [53; 46; 49; 49; 46; 48] 65 m in
  let m := strncpy_safe (buf + 195) [100; 117; 99; 107; 45; 50; 48; 50; 49; 48; 57; 48; 49] 65 m in
  let m := strncpy_safe (buf + 260) [120; 56; 54; 95; 54; 52] 65 m in
  (with_mem s m, 0).

Definition duck_getpid : Z := 1234.
Definition duck_gettid : Z := 1234.

(** The call numbers of Linux on x86-64. *)
Definition SYS_read := 0.
Definition SYS_write := 1.
Definition SYS_fstat := 5.
Definition SYS_poll := 7.
Definition SYS_mmap := 9.
Definition SYS_mprotect := 10.
Definition SYS_munmap := 11.
Definition SYS_brk := 12.
Definition SYS_rt_sigaction := 13.
Definition SYS_rt_sigprocmask := 14.
Definition SYS_ioctl := 16.
Definition SYS_readv := 19.
Definition SYS_writev := 20.
Definition SYS_getpid := 39.
Definition SYS_exit := 60.
Definition SYS_uname := 63.
Definition SYS_readlink := 89.
Definition SYS_sigaltstack := 131.
Definition SYS_arch_prctl := 158.
Definition SYS_gettid := 186.
Definition SYS_tkill := 200.
Definition SYS_set_tid_address := 218.
Definition SYS_clock_gettime := 228.
Definition SYS_exit_group := 231.
Definition SYS_tgkill := 234.

Definition returns (r : state * Z) : option (state * outcome) := Some (fst r, Return (u64 (snd r))).
Definition returns_opt (r : option (state * Z)) : option (state * outcome) :=
  match r with Some r => returns r | None => None end.
Definition stops (s : state) (o : outcome) : option (state * outcome) := Some (s, o).

(** [now] is what [rdtsc] reads, [fuel] bounds the length of a path.  None is a
    fault: a division by zero, or a path without end. *)
Definition duck64_syscall_handler (now : Z) (fuel : nat) (a1 a2 a3 n : Z) (s : state) : option (state * outcome) :=
  let s := if negb (inited s) then init w _end page_size at_duck s else s in
  if n =? SYS_brk then returns (duck_brk a1 s)
  else if n =? SYS_clock_gettime then returns_opt (duck_clock_get_time (s32 a1) a2 now s)
  else if n =? SYS_read then returns (duck_read w (s32 a1) a2 (u64 (s32 a3)) s)
  else if n =? SYS_readv then returns (duck_readv w (s32 a1) a2 (s32 a3) s)
  else if n =? SYS_write then returns (duck_write (s32 a1) a2 a3 s)
  else if n =? SYS_writev then returns (duck_writev (s32 a1) a2 (s32 a3) s)
  else if n =? SYS_exit then stops s (Exit (s32 a1))
  else if n =? SYS_exit_group then stops s (Exit (s32 a1))
  else if n =? SYS_arch_prctl then returns (duck_arch_prctl (s32 a1) a2 s)
  else if n =? SYS_ioctl then returns (s, 0)
  else if n =? SYS_fstat then returns (duck_fstat (s32 a1) a2 s)
  else if n =? SYS_mmap then returns (duck_mmap_temp a2 s)
  else if n =? SYS_rt_sigprocmask then returns (s, 0)
  else if n =? SYS_rt_sigaction then returns (s, 0)
  else if n =? SYS_sigaltstack then returns (s, 0)
  else if n =? SYS_set_tid_address then returns (s, 12345)
  else if n =? SYS_tkill then stops s (Abort (s32 a3))
  else if n =? SYS_mprotect then returns (s, 0)
  else if n =? SYS_munmap then returns (s, 0)
  else if n =? SYS_poll then returns (s, 0)
  else if n =? SYS_uname then returns (duck_uname a1 s)
  else if n =? SYS_readlink then returns_opt (duck_readlink fuel a1 a2 (s32 a3) s)
  else if n =? SYS_getpid then returns (s, duck_getpid)
  else if n =? SYS_gettid then returns (s, duck_gettid)
  else if n =? SYS_tgkill then stops s (Abort (s32 a3))
  else returns (s, -1).
End Lib64.
End Lib64.

Module Lib32.
Section Lib32.
Variable _end page_size at_duck : Z.
Variable store_stat : Z -> stat -> (Z -> Z) -> Z -> Z.
(** The kernel's answer to [set_thread_area]. *)
Variable set_thread_area : Z -> Z.
Abbreviation w := 4.

(** With words of four bytes. *)
Definition init (s : state) : state := Lib.init w _end page_size at_duck s.
Definition duck_read (fd buf len : Z) (s : state) : state * Z := Lib.duck_read w fd buf len s.
Definition duck_readv (fd iov cnt : Z) (s : state) : state * Z := for_iov w (duck_read fd) (Z.to_nat cnt) iov 0 s.
Definition duck_brk (addr : Z) (s : state) : state * Z := Lib.duck_brk addr s.
Definition duck_clock_get_time_64 (clk_id tp now : Z) (s : state) : option (state * Z) :=
  duck_clock_get_time clk_id tp now s.

(** Unlike the 64-bit library, this one tells how much was stored. *)
Definition duck_write (fd buf len : Z) (s : state) : state * Z :=
  if fd =? 1 then append w (stdout_max_size s) stdout_ptr stdout_size buf len s
  else if fd =? 2 then append w (stderr_max_size s) stderr_ptr stderr_size buf len s
  else (s, 0).
Definition duck_writev (fd iov cnt : Z) (s : state) : state * Z :=
  for_iov w (duck_write fd) (Z.to_nat cnt) iov 0 s.

Definition regular (size : Z) : stat := mk_stat (Z.lor S_IFREG 420) size 4096 (u32 (size + 4095) / 4096).
Definition duck_fstat (fd st : Z) (s : state) : state * Z :=
  let s := with_mem s (store_stat st no_stat (mem s)) in
  if fd =? 0 then (with_mem s (store_stat st (regular (field w s stdin_size)) (mem s)), 0)
  else if fd =? 1 then (with_mem s (store_stat st (regular (field w s stdout_size)) (mem s)), 0)
  else (s, -1).

(** The call numbers of Linux on i386. *)
Definition SYS_exit := 1.
Definition SYS_read := 3.
Definition SYS_write := 4.
Definition SYS_brk := 45.
Definition SYS_ioctl := 54.
Definition SYS_fstat := 108.
Definition SYS_readv := 145.
Definition SYS_writev := 146.
Definition SYS_set_thread_area := 243.
Definition SYS_exit_group := 252.
Definition SYS_clock_gettime64 := 403.

Definition returns (r : state * Z) : option (state * outcome) := Some (fst r, Return (u32 (snd r))).

Definition duck32_syscall_handler (now : Z) (a1 a2 a3 n : Z) (s : state) : option (state * outcome) :=
  let s := if negb (inited s) then init s else s in
  if n =? SYS_brk then returns (duck_brk a1 s)
  else if n =? SYS_clock_gettime64 then
    match duck_clock_get_time_64 (s32 a1) a2 now s with Some r => returns r | None => None end
  else if n =? SYS_read then returns (duck_read (s32 a1) a2 (u32 (s32 a3)) s)
  else if n =? SYS_readv then returns (duck_readv (s32 a1) a2 (s32 a3) s)
  else if n =? SYS_write then returns (duck_write (s32 a1) a2 a3 s)
  else if n =? SYS_writev then returns (duck_writev (s32 a1) a2 (s32 a3) s)
  else if n =? SYS_exit then Some (s, Exit (s32 a1))
  else if n =? SYS_exit_group then Some (s, Exit (s32 a1))
  else if n =? SYS_set_thread_area then returns (s, set_thread_area a1)
  else if n =? SYS_ioctl then returns (s, 0)
  else if n =? SYS_fstat then returns (duck_fstat (s32 a1) a2 s)
  else returns (s, -1).
End Lib32.
End Lib32.

(** ** Lemmas: memory *)

Lemma bytes_read m a n : (forall x, is_u8 (m x)) -> bytes (read_bytes m a n).
Proof. intros H. apply Forall_fmap, Forall_forall. intros x _. apply H. Qed.
Lemma load_ext m m' a n : (forall x, a <= x < a + n -> m' x = m x) -> load m' a n = load m a n.
Proof. intros H. unfold load. f_equal. apply read_bytes_ext. intros x Hx. by apply H. Qed.
Lemma load_write m a k v : 0 <= k -> load (write_bytes m a (le_bytes (Z.to_nat k) v)) a k = v mod 256 ^ k.
Proof.
  intros Hk. unfold load. replace k with (zlen (le_bytes (Z.to_nat k) v)) at 2 by (rewrite zlen_le_bytes; lia).
  rewrite read_write_bytes, le_val_le_bytes. by rewrite Z2Nat.id by lia.
Qed.
Lemma load_outside m a bs b n : b + n <= a \/ a + zlen bs <= b -> load (write_bytes m a bs) b n = load m b n.
Proof. intros H. unfold load. by rewrite read_write_outside. Qed.

Lemma read_bytes_cut m a n k : 0 <= k <= n -> ztake k (read_bytes m a n) = read_bytes m a k.
Proof.
  intros Hk. replace n with (Z.of_nat (Z.to_nat k) + Z.of_nat (Z.to_nat (n - k))) by lia.
  rewrite read_bytes_app. unfold ztake. rewrite Z2Nat.id by lia.
  rewrite take_app_length'; [done|]. unfold read_bytes. by rewrite length_fmap, length_seqZ.
Qed.
Lemma read_bytes_join m a i j : 0 <= i -> 0 <= j -> read_bytes m a (i + j) = read_bytes m a i ++ read_bytes m (a + i) j.
Proof.
  intros Hi Hj. replace (i + j) with (Z.of_nat (Z.to_nat i) + Z.of_nat (Z.to_nat j)) by lia.
  rewrite read_bytes_app. by rewrite !Z2Nat.id by lia.
Qed.
Lemma ztake_app_le {A} n (l k : list A) : 0 <= n <= zlen l -> ztake n (l ++ k) = ztake n l.
Proof. intros. unfold ztake, zlen in *. apply take_app_le. lia. Qed.
Lemma ztake_app_ge {A} n (l k : list A) : zlen l <= n -> ztake n (l ++ k) = l ++ ztake (n - zlen l) k.
Proof.
  intros. unfold ztake, zlen in *. rewrite take_app_ge by lia. f_equal. f_equal. lia.
Qed.

(** ** What the library keeps true *)

(** Where things are in the memory of the program, and what is on standard input. *)
Record places := mk_places {
  info : Z; in_ptr : Z; input : list Z; out_ptr : Z; out_limit : Z; err_ptr : Z; err_limit : Z }.

Section Library.
Variable w : Z.
Hypothesis Hw : w = 4 \/ w = 8.
Variable L : places.

Definition inside (a n x : Z) : Prop := a <= x < a + n.
Definition apart (a n b k : Z) : Prop := a + n <= b \/ b + k <= a.
Definition fits (a n : Z) : Prop := 0 <= a /\ 0 <= n /\ a + n < 2 ^ (8 * w).
Definition info_size : Z := 13 * w + 8.

Record disjoint : Prop := {
  d_info : fits (info L) info_size; d_in : fits (in_ptr L) (zlen (input L));
  d_out : fits (out_ptr L) (out_limit L); d_err : fits (err_ptr L) (err_limit L);
  d_info_in : apart (info L) info_size (in_ptr L) (zlen (input L));
  d_info_out : apart (info L) info_size (out_ptr L) (out_limit L);
  d_info_err : apart (info L) info_size (err_ptr L) (err_limit L);
  d_in_out : apart (in_ptr L) (zlen (input L)) (out_ptr L) (out_limit L);
  d_in_err : apart (in_ptr L) (zlen (input L)) (err_ptr L) (err_limit L);
  d_out_err : apart (out_ptr L) (out_limit L) (err_ptr L) (err_limit L) }.
Hypothesis Hd : disjoint.

(** What only the library writes, and only in its own way. *)
Definition protected (x : Z) : Prop :=
  inside (info L) info_size x \/ inside (in_ptr L) (zlen (input L)) x \/
  inside (out_ptr L) (out_limit L) x \/ inside (err_ptr L) (err_limit L) x.
Definition untouched (m m' : Z -> Z) : Prop := forall x, protected x -> m' x = m x.

(** A region that collects what was written to it, as far as there is room. *)
Record collects (s : state) (max : Z) (ptr size : Z) (a limit : Z) (data : list Z) : Prop := {
  c_max : max = limit; c_ptr : field w s ptr = a; c_size : field w s size = Z.min limit (zlen data);
  c_data : read_bytes (mem s) a (Z.min limit (zlen data)) = ztake limit data }.

Record holds (s : state) (out err got : list Z) : Prop := {
  h_inited : inited s = true; h_info : duckinfo s = info L;
  h_out : collects s (stdout_max_size s) stdout_ptr stdout_size (out_ptr L) (out_limit L) out;
  h_err : collects s (stderr_max_size s) stderr_ptr stderr_size (err_ptr L) (err_limit L) err;
  h_in : field w s stdin_ptr = in_ptr L /\ field w s stdin_size = zlen (input L) /\
    read_bytes (mem s) (in_ptr L) (zlen (input L)) = input L;
  h_got : zlen got <= zlen (input L) /\ got = ztake (zlen got) (input L) /\ stdin_curr_pos s = zlen got }.

Lemma uw_small z : 0 <= z < 2 ^ (8 * w) -> uw w z = z.
Proof. apply Z.mod_small. Qed.
Lemma word_size : 256 ^ w = 2 ^ (8 * w).
Proof. by destruct Hw as [-> | ->]. Qed.

Lemma field_ext s s' i : duckinfo s' = duckinfo s -> 0 <= i <= 12 ->
  (forall x, inside (duckinfo s) info_size x -> mem s' x = mem s x) -> field w s' i = field w s i.
Proof.
  intros E Hi Hm. unfold field. rewrite E. apply load_ext. intros x Hx. apply Hm. unfold inside, info_size.
  destruct Hw as [-> | ->]; lia.
Qed.
Lemma field_set_eq s i v : 0 <= v < 2 ^ (8 * w) -> field w (set_field w i v s) i = v.
Proof.
  intros Hv. unfold field, set_field. cbn [mem duckinfo with_mem]. rewrite load_write by lia. rewrite word_size.
  by apply Z.mod_small.
Qed.
Lemma field_set_ne s i j v : i <> j -> field w (set_field w i v s) j = field w s j.
Proof.
  intros Hij. unfold field, set_field. cbn [mem duckinfo with_mem]. apply load_outside.
  rewrite zlen_le_bytes. destruct Hw as [-> | ->]; lia.
Qed.
Lemma set_field_outside s i v x : 0 <= i <= 12 -> ~ inside (duckinfo s) info_size x -> mem (set_field w i v s) x = mem s x.
Proof.
  intros Hi Hx. apply write_bytes_outside. rewrite zlen_le_bytes. unfold inside, info_size in Hx.
  destruct Hw as [-> | ->]; lia.
Qed.

(** Steps that leave the region and the words alone. *)
Lemma collects_keep s s' max ptr size a limit data :
  collects s max ptr size a limit data -> field w s' ptr = field w s ptr -> field w s' size = field w s size ->
  (forall x, inside a limit x -> mem s' x = mem s x) -> collects s' max ptr size a limit data.
Proof.
  intros [] E1 E2 Hm. constructor; [done|by rewrite E1|by rewrite E2|]. rewrite <- c_data0. apply read_bytes_ext.
  intros x Hx. apply Hm. unfold inside. lia.
Qed.

Lemma holds_untouched s m out err got : untouched (mem s) m -> holds s out err got -> holds (with_mem s m) out err got.
Proof.
  intros Hu [H1 H2 H3 H4 H5 H6].
  assert (Hf : forall i, 0 <= i <= 12 -> field w (with_mem s m) i = field w s i).
  { intros i Hi. apply field_ext; [done|done|]. intros x Hx. apply Hu. left. by rewrite <- H2. }
  constructor; try done.
  - apply (collects_keep s); [done|by apply Hf..|]. intros x Hx. apply Hu. unfold protected. auto.
  - apply (collects_keep s); [done|by apply Hf..|]. intros x Hx. apply Hu. unfold protected. auto.
  - rewrite !Hf by done. destruct H5 as (A & B & C). conj_split; [done|done|]. rewrite <- C at 2. apply read_bytes_ext.
    intros x Hx. apply Hu. right. left. done.
Qed.

(** What fits is appended; the other words and regions stay as they are. *)
Lemma append_spec s max ptr size a limit data buf len :
  duckinfo s = info L -> collects s max ptr size a limit data ->
  0 <= ptr <= 12 -> 0 <= size <= 12 -> ptr <> size -> fits a limit -> apart (info L) info_size a limit ->
  0 <= len < 2 ^ (8 * w) ->
  exists m, append w max ptr size buf len s = (with_mem s m, Z.min len (limit - Z.min limit (zlen data))) /\
    collects (with_mem s m) max ptr size a limit (data ++ read_bytes (mem s) buf len) /\
    (forall i, 0 <= i <= 12 -> i <> size -> field w (with_mem s m) i = field w s i) /\
    (forall x, ~ inside a limit x -> ~ inside (info L) info_size x -> m x = mem s x).
Proof.
  intros Hi [Hm Hp Hsz Hdata] Hptr Hsize Hne [Ha0 [Hl0 Ha1]] Hap Hlen. subst max. pose proof (zlen_nonneg data) as Hz.
  unfold append. rewrite Hp, Hsz. set (k := Z.min limit (zlen data)) in *. assert (Hk : 0 <= k <= limit) by lia.
  rewrite (uw_small (limit - k)), (uw_small (a + k)) by lia. set (n := Z.min len (limit - k)). assert (Hn : 0 <= n <= limit - k) by lia.
  set (piece := read_bytes (mem s) buf n). assert (Hpl : zlen piece = n) by (apply zlen_read_bytes; lia).
  set (m1 := write_bytes (mem s) (a + k) piece).
  assert (Hm1 : forall x, ~ inside a limit x -> m1 x = mem s x).
  { intros x Hx. apply write_bytes_outside. unfold inside in Hx. lia. }
  assert (Hf1 : forall i, 0 <= i <= 12 -> field w (with_mem s m1) i = field w s i).
  { intros i Hi2. apply field_ext; [done|done|]. intros x Hx. apply Hm1. rewrite Hi in Hx. unfold inside, apart in *. lia. }
  assert (Hf2 : field w (with_mem s m1) size = k) by by rewrite Hf1.
  rewrite Hf2, (uw_small (k + n)) by lia.
  exists (mem (set_field w size (k + n) (with_mem s m1))). split; [done|].
  assert (Hm2 : forall x, ~ inside (info L) info_size x -> mem (set_field w size (k + n) (with_mem s m1)) x = m1 x).
  { intros x Hx. rewrite set_field_outside by (done || (cbn [duckinfo with_mem]; by rewrite Hi)). done. }
  assert (Hfs : forall i, 0 <= i <= 12 -> i <> size ->
    field w (with_mem s (mem (set_field w size (k + n) (with_mem s m1)))) i = field w s i).
  { intros i Hi2 Hne2. change (field w (set_field w size (k + n) (with_mem s m1)) i = field w s i).
    rewrite field_set_ne by done. by apply Hf1. }
  split; [|split; [exact Hfs|]].
  - assert (Hlen2 : zlen (data ++ read_bytes (mem s) buf len) = zlen data + len) by (rewrite zlen_app, zlen_read_bytes by lia; lia).
    assert (Hmin : Z.min limit (zlen data + len) = k + n) by lia.
    constructor; [done|by rewrite Hfs| |]; rewrite Hlen2, Hmin.
    + change (field w (set_field w size (k + n) (with_mem s m1)) size = k + n). apply field_set_eq. lia.
    + cbn [mem with_mem]. rewrite (read_bytes_ext _ m1) by (intros x Hx; apply Hm2; unfold inside, apart in *; lia).
      rewrite read_bytes_join by lia. unfold m1 at 1 2. rewrite read_write_outside by lia. rewrite Hdata.
      rewrite <- Hpl at 1. rewrite read_write_bytes.
      destruct (Z.le_gt_cases (zlen data) limit) as [Hle|Hgt].
      * rewrite (ztake_all limit data) by lia. rewrite ztake_app_ge by lia. f_equal.
        replace k with (zlen data) in * by lia. destruct (Z.le_gt_cases len (limit - zlen data)).
        -- rewrite ztake_all by (rewrite zlen_read_bytes; lia). unfold piece. f_equal. lia.
        -- rewrite read_bytes_cut by lia. unfold piece. f_equal. lia.
      * rewrite ztake_app_le by lia. assert (n = 0) as Hn0 by lia. unfold piece. rewrite Hn0. by rewrite app_nil_r.
  - intros x Hx1 Hx2. by rewrite Hm2, Hm1.
Qed.

(** *** Reading *)

Definition next_input (got : list Z) (k : Z) : list Z := ztake k (zdrop (zlen got) (input L)).

Lemma ztake_next got k : zlen got <= zlen (input L) -> got = ztake (zlen got) (input L) ->
  0 <= k <= zlen (input L) - zlen got ->
  got ++ next_input got k = ztake (zlen got + k) (input L) /\ zlen (next_input got k) = k.
Proof.
  intros Hg Hgot Hk. pose proof (zlen_nonneg got). split; [|unfold next_input; rewrite zlen_ztake; rewrite ?zlen_zdrop; lia].
  rewrite Hgot at 1. unfold next_input, ztake, zdrop. rewrite Z2Nat.inj_add by lia. by rewrite take_take_drop.
Qed.

Lemma read_spec s buf len out err got : holds s out err got -> 0 <= len < 2 ^ (8 * w) ->
  let k := Z.min len (zlen (input L) - zlen got) in
  let m := write_bytes (mem s) buf (next_input got k) in
  duck_read w 0 buf len s = (with_pos (with_mem s m) (zlen got + k), k) /\ 0 <= k /\
  ((forall x, inside buf k x -> ~ protected x) -> holds (with_pos (with_mem s m) (zlen got + k)) out err (got ++ next_input got k)).
Proof.
  intros Hs Hlen k m. pose proof Hs as [_ _ _ _ (I1 & I2 & I3) (G1 & G2 & G3)]. pose proof (zlen_nonneg got) as G0.
  destruct (d_in Hd) as (Ha & _ & Ha2). assert (Hk : 0 <= k <= zlen (input L) - zlen got) by (unfold k; lia).
  destruct (ztake_next got k G1 G2 Hk) as [Hnext Hnl].
  assert (Hsrc : read_bytes (mem s) (in_ptr L + zlen got) k = next_input got k).
  { unfold next_input. rewrite <- I3 at 1. replace (zlen (input L)) with (zlen got + (zlen (input L) - zlen got)) at 1 by lia.
    rewrite read_bytes_join by lia.
    replace (zdrop (zlen got) (read_bytes (mem s) (in_ptr L) (zlen got) ++ _))
      with (read_bytes (mem s) (in_ptr L + zlen got) (zlen (input L) - zlen got)).
    - by rewrite read_bytes_cut by lia.
    - unfold zdrop. rewrite drop_app_length'; [done|]. unfold read_bytes. by rewrite length_fmap, length_seqZ. }
  split; [|split; [lia|]].
  - unfold duck_read. cbn [Z.eqb stdin_curr_pos with_mem]. rewrite I1, I2, G3. rewrite (uw_small (_ - _)) by lia. fold k.
    rewrite (uw_small (in_ptr L + zlen got)) by lia. rewrite (uw_small (zlen got + k)) by lia. by rewrite Hsrc.
  - intros Hbuf. assert (Hu : untouched (mem s) m).
    { intros x Hx. apply write_bytes_outside. rewrite Hnl.
      destruct (Z.lt_ge_cases x buf); [auto|]. destruct (Z.lt_ge_cases x (buf + k)); [|auto]. exfalso. by apply (Hbuf x). }
    pose proof (holds_untouched s m _ _ _ Hu Hs) as [K1 K2 K3 K4 K5 _].
    constructor; try done; [by apply (collects_keep (with_mem s m))..|].
    rewrite zlen_app, Hnl. split; [lia|]. split; [|done]. done.
Qed.

(** *** Writing *)

(** Where the library stores. *)
Definition owned (x : Z) : Prop :=
  inside (info L) info_size x \/ inside (out_ptr L) (out_limit L) x \/ inside (err_ptr L) (err_limit L) x.
Definition add (fd k : Z) (data more : list Z) : list Z := if fd =? k then data ++ more else data.
Definition full (fd : Z) (out err : list Z) : Prop :=
  fd = 1 /\ out_limit L <= zlen out \/ fd = 2 /\ err_limit L <= zlen err \/ fd <> 1 /\ fd <> 2.

(** What both libraries' [duck_write] do; they differ in the answer when there is no
    more room. *)
Definition write_law (write : Z -> Z -> Z -> state -> state * Z) : Prop := forall fd buf len s out err got,
  holds s out err got -> 0 <= len < 2 ^ (8 * w) ->
  exists m r, write fd buf len s = (with_mem s m, r) /\ 0 <= r <= len /\
    (forall x, ~ owned x -> m x = mem s x) /\
    let data := read_bytes (mem s) buf len in
    holds (with_mem s m) (add fd 1 out data) (add fd 2 err data) got /\
    (r = len \/ full fd (add fd 1 out data) (add fd 2 err data)).

Lemma append_holds s fd buf len out err got : holds s out err got -> 0 <= len < 2 ^ (8 * w) -> fd = 1 \/ fd = 2 ->
  let data := read_bytes (mem s) buf len in
  exists m r, (if fd =? 1 then append w (stdout_max_size s) stdout_ptr stdout_size buf len s
               else append w (stderr_max_size s) stderr_ptr stderr_size buf len s) = (with_mem s m, r) /\ 0 <= r <= len /\
    (forall x, ~ owned x -> m x = mem s x) /\
    holds (with_mem s m) (add fd 1 out data) (add fd 2 err data) got /\
    (r = len \/ full fd (add fd 1 out data) (add fd 2 err data)).
Proof.
  intros Hs Hlen Hfd data. pose proof Hs as [S1 S2 S3 S4 (I1 & I2 & I3) S6]. destruct Hd.
  pose proof (zlen_nonneg out). pose proof (zlen_nonneg err).
  assert (Hdata : zlen data = len) by (apply zlen_read_bytes; lia).
  destruct Hfd as [-> | ->]; cbn [Z.eqb Pos.eqb]; unfold add, full; cbn [Z.eqb Pos.eqb]; rewrite ?zlen_app, ?Hdata.
  - destruct (append_spec s _ _ _ _ _ _ buf len S2 S3) as (m & E & Hc & Hf & Hm); try done; try lia.
    exists m. eexists. split; [exact E|]. split; [unfold fits in *; lia|].
    split; [intros x Hx; apply Hm; unfold owned in Hx; tauto|]. split; [|unfold fits in *; lia].
    constructor; try done.
    + apply (collects_keep s); [done|by apply Hf..|]. intros x Hx. apply Hm; unfold inside, apart in *; lia.
    + rewrite !Hf by done. conj_split; [done|done|]. rewrite <- I3 at 2. apply read_bytes_ext. intros x Hx.
      apply Hm; unfold inside, apart in *; lia.
  - destruct (append_spec s _ _ _ _ _ _ buf len S2 S4) as (m & E & Hc & Hf & Hm); try done; try lia.
    exists m. eexists. split; [exact E|]. split; [unfold fits in *; lia|].
    split; [intros x Hx; apply Hm; unfold owned in Hx; tauto|]. split; [|unfold fits in *; lia].
    constructor; try done.
    + apply (collects_keep s); [done|by apply Hf..|]. intros x Hx. apply Hm; unfold inside, apart in *; lia.
    + rewrite !Hf by done. conj_split; [done|done|]. rewrite <- I3 at 2. apply read_bytes_ext. intros x Hx.
      apply Hm; unfold inside, apart in *; lia.
Qed.

(** Once a region is full, what else is written makes no difference. *)
Lemma collects_more s max ptr size a limit data more : 0 <= limit <= zlen data ->
  collects s max ptr size a limit data -> collects s max ptr size a limit (data ++ more).
Proof.
  intros Hl [E1 E2 E3 E4]. pose proof (zlen_nonneg more).
  assert (E : Z.min limit (zlen (data ++ more)) = Z.min limit (zlen data)) by (rewrite zlen_app; lia).
  constructor; [done|done|by rewrite E|]. rewrite E, E4. by rewrite ztake_app_le by lia.
Qed.
Lemma holds_more s fd out err got more : full fd out err -> holds s out err got ->
  holds s (add fd 1 out more) (add fd 2 err more) got.
Proof.
  intros Hf [H1 H2 H3 H4 H5 H6]. destruct Hd as [_ _ (_ & Ho & _) (_ & He & _) _ _ _ _ _ _]. unfold add.
  constructor; try done.
  - destruct (Z.eqb_spec fd 1) as [->|]; [|done]. apply collects_more; [|done]. unfold full in Hf. lia.
  - destruct (Z.eqb_spec fd 2) as [->|]; [|done]. apply collects_more; [|done]. unfold full in Hf. lia.
Qed.
Lemma full_more fd out err more : full fd out err -> full fd (add fd 1 out more) (add fd 2 err more).
Proof.
  unfold full, add. pose proof (zlen_nonneg more).
  intros [[-> H1]|[[-> H1]|H1]]; cbn [Z.eqb Pos.eqb]; rewrite ?zlen_app; lia.
Qed.

(** The pieces [writev] and [readv] are given. *)
Fixpoint iovecs (m : Z -> Z) (n : nat) (iov : Z) : list (Z * Z) :=
  match n with
  | O => []
  | S n => (load m iov w, load m (iov + w) w) :: iovecs m n (iov + 2 * w)
  end.
Definition gather (m : Z -> Z) (v : list (Z * Z)) : list Z := v ≫= λ p, read_bytes m p.1 p.2.
Definition total (v : list (Z * Z)) : Z := foldr (λ p t, p.2 + t) 0 v.

Lemma iovecs_ext m m' n iov : (forall x, inside iov (2 * w * Z.of_nat n) x -> m' x = m x) -> iovecs m' n iov = iovecs m n iov.
Proof.
  revert iov. induction n as [|n IH]; intros iov Hm; cbn [iovecs]; [done|].
  assert (Hwp : 0 < w) by (destruct Hw; lia).
  rewrite IH by (intros x Hx; apply Hm; unfold inside in *; lia). unfold inside in Hm.
  f_equal. f_equal; apply load_ext; intros x Hx; apply Hm; lia.
Qed.
Lemma gather_ext m m' v : (forall p x, p ∈ v -> inside p.1 p.2 x -> m' x = m x) -> gather m' v = gather m v.
Proof.
  intros H. apply Forall_bind_ext, Forall_forall. intros p Hp. apply read_bytes_ext. intros x Hx. by apply (H p).
Qed.
Lemma add_add fd k data x y : add fd k (add fd k data x) y = add fd k data (x ++ y).
Proof. unfold add. destruct (fd =? k); [by rewrite app_assoc|done]. Qed.
Lemma add_nil fd k data : add fd k data [] = data.
Proof. unfold add. destruct (fd =? k); [by rewrite app_nil_r|done]. Qed.

(** Lengths that make sense: their sum is no more than a word. *)
Definition lengths_ok (v : list (Z * Z)) : Prop := Forall (λ p, 0 <= p.2) v /\ total v < 2 ^ (8 * w).
Lemma total_nonneg v : Forall (λ p, 0 <= p.2) v -> 0 <= total v.
Proof. induction 1 as [|p v Hp _ IH]; cbn [total foldr]; [lia|]. fold (total v). lia. Qed.

(** [writev] collects all pieces, in order.  The pieces and their list are not where
    the library itself stores. *)
Lemma writev_spec write : write_law write -> forall n fd iov ret s out err got,
  holds s out err got -> let v := iovecs (mem s) n iov in
  (forall x, inside iov (2 * w * Z.of_nat n) x -> ~ owned x) ->
  (forall p x, p ∈ v -> inside p.1 p.2 x -> ~ owned x) -> lengths_ok v -> 0 <= ret -> ret + total v < 2 ^ (8 * w) ->
  exists m r, for_iov w (write fd) n iov ret s = (with_mem s m, r) /\
    (forall x, ~ owned x -> m x = mem s x) /\
    holds (with_mem s m) (add fd 1 out (gather (mem s) v)) (add fd 2 err (gather (mem s) v)) got /\
    (r = ret + total v \/ full fd (add fd 1 out (gather (mem s) v)) (add fd 2 err (gather (mem s) v))).
Proof.
  intros Hlaw. assert (Hwp : 0 < w) by (destruct Hw; lia).
  induction n as [|n IH]; intros fd iov ret s out err got Hs v Hiov Hbuf [Hl Ht] Hret Hsum.
  { exists (mem s), ret. unfold v. cbn [for_iov iovecs gather mbind list_bind total foldr].
    rewrite !add_nil. conj_split; [by destruct s|done|by destruct s|lia]. }
  unfold v in *. clear v. cbn [for_iov iovecs] in *. set (b := load (mem s) iov w) in *.
  set (len := load (mem s) (iov + w) w) in *. set (v := iovecs (mem s) n (iov + 2 * w)) in *.
  apply Forall_cons_iff in Hl as [Hlen Hl]. cbn [snd] in Hlen. pose proof (total_nonneg v Hl) as Htv.
  change (total ((b, len) :: v)) with (len + total v) in *.
  change (gather (mem s) ((b, len) :: v)) with (read_bytes (mem s) b len ++ gather (mem s) v).
  destruct (Hlaw fd b len s out err got Hs) as (m & r & -> & Hr & Hm & Hh & Hfull); [lia|]. cbv zeta in Hh, Hfull.
  set (data := read_bytes (mem s) b len) in *.
  assert (El : load (mem (with_mem s m)) (iov + w) w = len).
  { apply load_ext. intros x Hx. apply Hm, Hiov. unfold inside. lia. }
  rewrite El. destruct (Z.leb_spec r len); [|lia]. rewrite (uw_small (ret + r)) by lia.
  destruct (Z.eqb_spec r len) as [->|Hne]; cbn [negb].
  - assert (Ev : iovecs (mem (with_mem s m)) n (iov + 2 * w) = v).
    { apply iovecs_ext. intros x Hx. apply Hm, Hiov. unfold inside in *. lia. }
    assert (Eg : gather (mem (with_mem s m)) v = gather (mem s) v).
    { apply gather_ext. intros p x Hp Hx. apply Hm. apply (Hbuf p); [by right|done]. }
    destruct (IH fd (iov + 2 * w) (ret + len) (with_mem s m) _ _ _ Hh) as (m2 & r2 & E & Hm2 & Hh2 & Hf2);
      rewrite ?Ev; try lia.
    + intros x Hx. apply Hiov. unfold inside in *. lia.
    + intros p x Hp. apply Hbuf. by right.
    + split; [done|lia].
    + rewrite Ev, Eg in Hh2, Hf2. rewrite !add_add in Hh2, Hf2. exists m2, r2. rewrite E. conj_split; try done.
      * intros x Hx. rewrite Hm2 by done. by apply Hm.
      * destruct Hf2; [left; lia|by right].
  - destruct Hfull as [|Hfull]; [lia|]. exists m, (ret + r). rewrite <- !add_add. conj_split; try done.
    + by apply holds_more.
    + right. by apply full_more.
Qed.

(** [readv] hands out the next piece of the input in any case. *)
Lemma readv_spec n : forall iov ret s out err got,
  holds s out err got -> let v := iovecs (mem s) n iov in
  (forall x, inside iov (2 * w * Z.of_nat n) x -> ~ protected x) ->
  (forall p x, p ∈ v -> inside p.1 p.2 x -> ~ protected x /\ ~ inside iov (2 * w * Z.of_nat n) x) ->
  lengths_ok v -> 0 <= ret -> ret + total v < 2 ^ (8 * w) ->
  exists s' k, for_iov w (duck_read w 0) n iov ret s = (s', ret + k) /\
    k = Z.min (total v) (zlen (input L) - zlen got) /\ holds s' out err (got ++ next_input got k).
Proof.
  assert (Hwp : 0 < w) by (destruct Hw; lia).
  induction n as [|n IH]; intros iov ret s out err got Hs v Hiov Hbuf [Hl Ht] Hret Hsum.
  { exists s, 0. unfold v. cbn [for_iov iovecs total foldr]. pose proof (h_got _ _ _ _ Hs) as (G1 & G2 & _).
    conj_split; [f_equal; lia|lia|]. unfold next_input. change (ztake 0 _) with (@nil Z). by rewrite app_nil_r. }
  unfold v in *. clear v. cbn [for_iov iovecs] in *. set (b := load (mem s) iov w) in *.
  set (len := load (mem s) (iov + w) w) in *. set (v := iovecs (mem s) n (iov + 2 * w)) in *.
  apply Forall_cons_iff in Hl as [Hlen Hl]. cbn [snd] in Hlen. pose proof (total_nonneg v Hl) as Htv.
  change (total ((b, len) :: v)) with (len + total v) in *.
  pose proof (h_got _ _ _ _ Hs) as (G1 & G2 & _).
  destruct (read_spec s b len out err got Hs) as (E & Hk & Hh); [lia|]. set (k := Z.min len _) in *.
  rewrite E. clear E. set (s1 := with_pos _ _) in *.
  destruct (ztake_next got k G1 G2 ltac:(lia)) as [Hn1 Hn2].
  assert (Hmem : forall x, ~ inside b len x -> mem s1 x = mem s x).
  { intros x Hx. unfold s1. cbn [mem with_pos with_mem]. apply write_bytes_outside. rewrite Hn2. unfold inside in Hx. lia. }
  assert (Hh1 : holds s1 out err (got ++ next_input got k)).
  { apply Hh. intros x Hx. apply (Hbuf (b, len)); [by left|]. unfold inside in *. cbn [fst snd]. lia. }
  assert (Hout : forall x, inside iov (2 * w * Z.of_nat (S n)) x -> ~ inside b len x).
  { intros x Hx Hx2. apply (Hbuf (b, len) x); [by left|done|done]. }
  assert (El : load (mem s1) (iov + w) w = len).
  { apply load_ext. intros x Hx. apply Hmem, Hout. unfold inside. lia. }
  rewrite El. destruct (Z.leb_spec k len); [|lia]. rewrite (uw_small (ret + k)) by lia.
  destruct (Z.eqb_spec k len) as [Ek|Hne]; cbn [negb].
  - assert (Ev : iovecs (mem s1) n (iov + 2 * w) = v).
    { apply iovecs_ext. intros x Hx. apply Hmem, Hout. unfold inside in *. lia. }
    destruct (IH (iov + 2 * w) (ret + k) s1 _ _ _ Hh1) as (s2 & k2 & E2 & Hk2 & Hh2); rewrite ?Ev; try lia.
    + intros x Hx. apply Hiov. unfold inside in *. lia.
    + intros p x Hp Hx. destruct (Hbuf p x) as [B1 B2]; [by right|done|]. split; [done|]. intros Hx2. apply B2.
      unfold inside in *. lia.
    + split; [done|lia].
    + rewrite Ev in Hk2. exists s2, (k + k2). rewrite E2. rewrite zlen_app, Hn2 in Hk2. conj_split; [f_equal; lia|lia|].
      replace (got ++ next_input got (k + k2)) with ((got ++ next_input got k) ++ next_input (got ++ next_input got k) k2); [done|].
      rewrite (proj1 (ztake_next got (k + k2) G1 G2 ltac:(lia))).
      pose proof (h_got _ _ _ _ Hh1) as (A1 & A2 & _). rewrite zlen_app, Hn2 in A1.
      rewrite (proj1 (ztake_next (got ++ next_input got k) k2 ltac:(rewrite zlen_app; lia) A2 ltac:(rewrite zlen_app; lia))).
      rewrite zlen_app, Hn2. f_equal. lia.
  - exists s1, k. conj_split; [done|lia|done].
Qed.

(** *** The start *)

(** What the kernel left: the words of [DuckInfo] and the input. *)
Record boot (s : state) : Prop := {
  b_inited : inited s = false;
  b_words : forall i v, (i, v) ∈ [(stdin_ptr, in_ptr L); (stdin_size, zlen (input L)); (stdout_ptr, out_ptr L);
    (stdout_limit, out_limit L); (stderr_ptr, err_ptr L); (stderr_limit, err_limit L)] ->
    load (mem s) (info L + w * i) w = v;
  b_input : read_bytes (mem s) (in_ptr L) (zlen (input L)) = input L }.

Lemma init_holds _end page_size s : boot s -> holds (init w _end page_size (info L) s) [] [] [].
Proof.
  intros [_ Hb Hin]. pose proof Hd as [_ _ (_ & Ho & _) (_ & He & _) Hii _ _ _ _ _].
  assert (Hz : 0 < 2 ^ (8 * w)) by (destruct Hw as [-> | ->]; done).
  set (s0 := mk_state (mem s) true (info L) (stdout_max_size s) (stderr_max_size s) 0 (tsc_frequency s) (heap_brk s)
    (mmap_p s) (fs_base s)).
  assert (H0 : forall i v, (i, v) ∈ [(stdin_ptr, in_ptr L); (stdin_size, zlen (input L)); (stdout_ptr, out_ptr L);
    (stdout_limit, out_limit L); (stderr_ptr, err_ptr L); (stderr_limit, err_limit L)] -> field w s0 i = v) by exact Hb.
  set (s1 := set_field w stdout_size 0 s0). set (s2 := set_field w stderr_size 0 s1).
  assert (Hne : forall i, i <> stdout_size -> i <> stderr_size -> field w s2 i = field w s0 i).
  { intros i H1 H2. unfold s2, s1. by rewrite !field_set_ne by done. }
  assert (Hm : forall x, ~ inside (info L) info_size x -> mem s2 x = mem s x).
  { intros x Hx. unfold s2, s1. rewrite !set_field_outside by done. done. }
  set (s' := init w _end page_size (info L) s).
  assert (E1 : stdout_max_size s' = out_limit L).
  { change (field w s0 stdout_limit = out_limit L). apply H0. do 3 right. left. }
  assert (E2 : stderr_max_size s' = err_limit L).
  { change (field w s1 stderr_limit = err_limit L). unfold s1. rewrite field_set_ne by done. apply H0. do 5 right. left. }
  assert (Ef : forall i, field w s' i = field w s2 i) by done.
  assert (H5 : field w s' stdout_size = 0).
  { rewrite Ef. unfold s2. rewrite field_set_ne by done. apply field_set_eq. lia. }
  assert (H8 : field w s' stderr_size = 0) by (rewrite Ef; apply field_set_eq; lia).
  constructor; try done.
  - constructor; [done| | |].
    + rewrite Ef, Hne by done. apply H0. do 2 right. left.
    + rewrite H5. unfold zlen. cbn. lia.
    + rewrite Z.min_r by (unfold zlen; cbn; lia). unfold ztake. by rewrite take_nil.
  - constructor; [done| | |].
    + rewrite Ef, Hne by done. apply H0. do 4 right. left.
    + rewrite H8. unfold zlen. cbn. lia.
    + rewrite Z.min_r by (unfold zlen; cbn; lia). unfold ztake. by rewrite take_nil.
  - rewrite !Ef, !Hne by done. conj_split; [apply H0; left|apply H0; right; left|].
    rewrite <- Hin at 2. apply read_bytes_ext. intros x Hx. change (mem s' x) with (mem s2 x). apply Hm.
    unfold inside, apart in *. lia.
  - conj_split; [|done|done]. pose proof (zlen_nonneg (input L)). unfold zlen at 1. cbn. lia.
Qed.

(** *** The interface to the program

    [started]: the first call initialises the library. *)
Definition same_statics (s s' : state) : Prop :=
  inited s' = inited s /\ duckinfo s' = duckinfo s /\ stdout_max_size s' = stdout_max_size s /\
  stderr_max_size s' = stderr_max_size s /\ stdin_curr_pos s' = stdin_curr_pos s.

(** A handler of system calls; the first argument is what [rdtsc] reads and the bound
    on paths. *)
Class Handler (handler : Z * nat -> Z -> Z -> Z -> Z -> state -> option (state * outcome)) : Type := {
  lib_init : state -> state; sys_read : Z; sys_readv : Z; sys_write : Z; sys_writev : Z;
  lib_write : Z -> Z -> Z -> state -> state * Z;
  lib_init_holds : forall s, boot s -> holds (lib_init s) [] [] [];
  lib_write_law : write_law lib_write;
  on_start : forall e a1 a2 a3 n s, inited s = false -> handler e a1 a2 a3 n s = handler e a1 a2 a3 n (lib_init s);
  on_write : forall e a1 a2 a3 s, inited s = true ->
    handler e a1 a2 a3 sys_write s = Some (let p := lib_write (s32 a1) a2 a3 s in (p.1, Return (uw w p.2)));
  on_writev : forall e a1 a2 a3 s, inited s = true ->
    handler e a1 a2 a3 sys_writev s =
      Some (let p := for_iov w (lib_write (s32 a1)) (Z.to_nat (s32 a3)) a2 0 s in (p.1, Return (uw w p.2)));
  on_read : forall e a1 a2 a3 s, inited s = true ->
    handler e a1 a2 a3 sys_read s = Some (let p := duck_read w (s32 a1) a2 (uw w (s32 a3)) s in (p.1, Return (uw w p.2)));
  on_readv : forall e a1 a2 a3 s, inited s = true ->
    handler e a1 a2 a3 sys_readv s =
      Some (let p := for_iov w (duck_read w (s32 a1)) (Z.to_nat (s32 a3)) a2 0 s in (p.1, Return (uw w p.2)));
  on_other : forall e a1 a2 a3 n s s' r, inited s = true -> n ∉ [sys_read; sys_readv; sys_write; sys_writev] ->
    handler e a1 a2 a3 n s = Some (s', Return r) -> same_statics s s' }.

(** What a program does with standard output and input: bytes written to a file,
    bytes taken from the input. *)
Inductive event := Wrote (fd : Z) (data : list Z) | Took (k : Z).

Section Run.
Context (handler : Z * nat -> Z -> Z -> Z -> Z -> state -> option (state * outcome)) `{!Handler handler}.

Definition started (s : state) : state := if inited s then s else lib_init s.

(** The arguments of a call are the program's own: buffers it reads into and lists of
    buffers are not in the regions of the library. *)
Inductive polite (s : state) : Z -> Z -> Z -> Z -> state -> Z -> list event -> Prop :=
  | polite_write a1 a2 a3 s' r : 0 <= a3 < 2 ^ (8 * w) ->
      polite s a1 a2 a3 sys_write s' r [Wrote (s32 a1) (read_bytes (mem s) a2 a3)]
  | polite_writev a1 a2 a3 s' r :
      let n := Z.to_nat (s32 a3) in let v := iovecs (mem s) n a2 in
      (forall x, inside a2 (2 * w * Z.of_nat n) x -> ~ owned x) ->
      (forall p x, p ∈ v -> inside p.1 p.2 x -> ~ owned x) -> lengths_ok v ->
      polite s a1 a2 a3 sys_writev s' r [Wrote (s32 a1) (gather (mem s) v)]
  | polite_read a1 a2 a3 s' r : s32 a1 = 0 ->
      (forall x, inside a2 (uw w (s32 a3)) x -> ~ protected x) -> polite s a1 a2 a3 sys_read s' r [Took r]
  | polite_readv a1 a2 a3 s' r : s32 a1 = 0 ->
      let n := Z.to_nat (s32 a3) in let v := iovecs (mem s) n a2 in
      (forall x, inside a2 (2 * w * Z.of_nat n) x -> ~ protected x) ->
      (forall p x, p ∈ v -> inside p.1 p.2 x -> ~ protected x /\ ~ inside a2 (2 * w * Z.of_nat n) x) -> lengths_ok v ->
      polite s a1 a2 a3 sys_readv s' r [Took r]
  | polite_other a1 a2 a3 n s' r : n ∉ [sys_read; sys_readv; sys_write; sys_writev] ->
      untouched (mem s) (mem s') -> polite s a1 a2 a3 n s' r [].

Inductive run : state -> list event -> state -> Prop :=
  | run_end s : run s [] s
  | run_program s m tr s' : untouched (mem s) m -> run (with_mem s m) tr s' -> run s tr s'
  | run_call e s a1 a2 a3 n s1 r ev tr s' : handler e a1 a2 a3 n s = Some (s1, Return r) ->
      polite (started s) a1 a2 a3 n s1 r ev -> run s1 tr s' -> run s (ev ++ tr) s'.

Definition written (fd : Z) (tr : list event) : list Z :=
  tr ≫= λ e, match e with Wrote f data => if f =? fd then data else [] | Took _ => [] end.
Definition taken (tr : list event) : Z := foldr (λ e t, match e with Took k => k + t | Wrote _ _ => t end) 0 tr.

Lemma written_app fd tr1 tr2 : written fd (tr1 ++ tr2) = written fd tr1 ++ written fd tr2.
Proof. apply bind_app. Qed.
Lemma taken_app tr1 tr2 : taken (tr1 ++ tr2) = taken tr1 + taken tr2.
Proof. unfold taken. induction tr1 as [|[] tr1 IH]; cbn [app foldr]; lia. Qed.

Lemma call_holds e s a1 a2 a3 n s1 r ev out err got : holds s out err got ->
  handler e a1 a2 a3 n s = Some (s1, Return r) -> polite s a1 a2 a3 n s1 r ev ->
  exists k, holds s1 (out ++ written 1 ev) (err ++ written 2 ev) (got ++ next_input got k) /\ k = taken ev /\
    0 <= k <= zlen (input L) - zlen got.
Proof.
  intros Hs E Hp. pose proof (h_inited _ _ _ _ Hs) as Hi. pose proof (h_got _ _ _ _ Hs) as (G1 & G2 & _).
  assert (Hnil : got ++ next_input got 0 = got) by (unfold next_input; change (ztake 0 _) with (@nil Z); apply app_nil_r).
  assert (Hw2 : forall fd out data, out ++ written fd [Wrote (s32 a1) data] = add (s32 a1) fd out data).
  { intros fd l data. unfold written, add. cbn [mbind list_bind]. rewrite app_nil_r.
    destruct (s32 a1 =? fd); [done|apply app_nil_r]. }
  destruct Hp as [a1 a2 a3 s1 r H|a1 a2 a3 s1 r nn v H1 H2 H3|a1 a2 a3 s1 r H0 H|a1 a2 a3 s1 r H0 nn v H1 H2 H3|a1 a2 a3 n s1 r Hn Hu].
  - rewrite on_write in E by done. destruct (lib_write_law (s32 a1) a2 a3 s out err got Hs H) as (m & r' & Ew & _ & _ & Hh & _).
    rewrite Ew in E. injection E as <- _. exists 0. rewrite !Hw2, Hnil. conj_split; [exact Hh|done|lia|lia].
  - rewrite on_writev in E by done.
    destruct (writev_spec lib_write lib_write_law nn (s32 a1) a2 0 s out err got Hs H1 H2 H3) as (m & r' & Ew & _ & Hh & _);
      [lia|apply H3|]. fold nn in E. rewrite Ew in E. injection E as <- _.
    exists 0. rewrite !Hw2, Hnil. conj_split; [exact Hh|done|lia|lia].
  - rewrite on_read in E by done. rewrite H0 in E.
    assert (Hlen : 0 <= uw w (s32 a3) < 2 ^ (8 * w)) by (apply Z.mod_pos_bound; destruct Hw as [-> | ->]; done).
    destruct (read_spec s a2 _ out err got Hs Hlen) as (Er & Hk & Hh). rewrite Er in E. injection E as <- <-.
    set (k := Z.min _ _) in *. exists k. unfold written, taken. cbn [mbind list_bind foldr]. rewrite !app_nil_r.
    conj_split; [|rewrite uw_small by lia; lia|lia|lia]. apply Hh. intros x Hx. apply H. unfold inside in *. lia.
  - rewrite on_readv in E by done. rewrite H0 in E.
    destruct (readv_spec nn a2 0 s out err got Hs H1 H2 H3) as (s2 & k & Er & Hk & Hh); [lia|apply H3|].
    fold nn in E. rewrite Er in E. injection E as <- <-. exists k. unfold written, taken. cbn [mbind list_bind foldr].
    rewrite !app_nil_r. destruct H3 as [H3 H4]. pose proof (total_nonneg v H3). fold v in Hk.
    conj_split; [done| |lia|lia]. rewrite uw_small; [lia|]. fold v in Hk. lia.
  - apply on_other in E as (E1 & E2 & E3 & E4 & E5); [|done|done]. exists 0. rewrite Hnil. unfold written. cbn.
    rewrite !app_nil_r. conj_split; [|done|lia|lia].
    pose proof (holds_untouched s _ _ _ _ Hu Hs) as [K1 K2 K3 K4 K5 K6].
    assert (Hf : forall i, field w s1 i = field w (with_mem s (mem s1)) i) by (intros i; unfold field; by rewrite E2).
    constructor.
    + by rewrite E1.
    + by rewrite E2.
    + rewrite E3. by apply (collects_keep (with_mem s (mem s1))).
    + rewrite E4. by apply (collects_keep (with_mem s (mem s1))).
    + by rewrite !Hf.
    + by rewrite E5.
Qed.

Lemma run_holds s tr s' : run s tr s' -> forall out err got, holds s out err got ->
  exists k, holds s' (out ++ written 1 tr) (err ++ written 2 tr) (got ++ next_input got k) /\ k = taken tr /\
    0 <= k <= zlen (input L) - zlen got.
Proof.
  induction 1 as [s|s m tr s' Hu _ IH|e s a1 a2 a3 n s1 r ev tr s' E Hp _ IH]; intros out err got Hs.
  - pose proof (h_got _ _ _ _ Hs) as (G1 & G2 & _). exists 0. unfold next_input. change (ztake 0 _) with (@nil Z).
    rewrite !app_nil_r. conj_split; [done|done|lia|lia].
  - apply IH. by apply holds_untouched.
  - pose proof (h_got _ _ _ _ Hs) as (G1 & G2 & _). unfold started in Hp. rewrite (h_inited _ _ _ _ Hs) in Hp.
    destruct (call_holds _ _ _ _ _ _ _ _ _ _ _ _ Hs E Hp) as (k & Hh & Hk & Hk2).
    destruct (IH _ _ _ Hh) as (k2 & Hh2 & Hk3 & Hk4). destruct (ztake_next got k G1 G2 Hk2) as [N1 N2].
    rewrite zlen_app, N2 in Hk4. exists (k + k2). rewrite !written_app, taken_app, <- Hk, <- Hk3.
    rewrite !app_assoc. conj_split; [|done|lia|lia].
    replace (got ++ next_input got (k + k2)) with ((got ++ next_input got k) ++ next_input (got ++ next_input got k) k2); [done|].
    pose proof (h_got _ _ _ _ Hh) as (A1 & A2 & _). rewrite zlen_app, N2 in A1.
    rewrite (proj1 (ztake_next (got ++ next_input got k) k2 ltac:(rewrite zlen_app; lia) A2 ltac:(rewrite zlen_app; lia))).
    rewrite (proj1 (ztake_next got (k + k2) G1 G2 ltac:(lia))). rewrite zlen_app, N2. f_equal. lia.
Qed.

Lemma boot_untouched s m : untouched (mem s) m -> boot s -> boot (with_mem s m).
Proof.
  intros Hu [B1 B2 B3]. constructor; [done| |].
  - intros i v Hv. cbn [mem with_mem]. rewrite <- (B2 i v Hv). apply load_ext. intros x Hx. apply Hu. left.
    unfold inside, info_size. assert (0 <= i <= 7); [|destruct Hw as [-> | ->]; lia].
    do 6 (apply elem_of_cons in Hv as [[= -> _]|Hv]; [by split|]). by apply elem_of_nil in Hv.
  - cbn [mem with_mem]. rewrite <- B3 at 2. apply read_bytes_ext. intros x Hx. apply Hu. right. left. exact Hx.
Qed.

(** From the start, once a call was made. *)
Lemma run_from_boot s tr s' : run s tr s' -> boot s -> inited s' = true ->
  holds s' (written 1 tr) (written 2 tr) (ztake (taken tr) (input L)) /\ 0 <= taken tr <= zlen (input L).
Proof.
  induction 1 as [s|s m tr s' Hu _ IH|e s a1 a2 a3 n s1 r ev tr s' E Hp Hr _]; intros Hb Hi.
  - rewrite (b_inited _ Hb) in Hi. done.
  - apply IH; [by apply boot_untouched|done].
  - unfold started in Hp. rewrite (b_inited _ Hb) in Hp. rewrite (on_start _ _ _ _ _ _ (b_inited _ Hb)) in E.
    pose proof (lib_init_holds s Hb) as Hs.
    assert (Hrun : run (lib_init s) (ev ++ tr) s').
    { apply (run_call e _ a1 a2 a3 n s1 r); [done| |done]. unfold started. by rewrite (h_inited _ _ _ _ Hs). }
    destruct (run_holds _ _ _ Hrun _ _ _ Hs) as (k & Hh & -> & Hk). cbn [app] in Hh.
    change (zlen (@nil Z)) with 0 in Hk. split; [|lia].
    destruct (ztake_next [] (taken (ev ++ tr))) as [En _]; [apply zlen_nonneg|done|change (zlen (@nil Z)) with 0; lia|].
    cbn [app] in En. rewrite En in Hh. exact Hh.
Qed.

(** C19: The judge sees what the program wrote.  However the program mixes calls and its own
    computing, and however it cuts its output into pieces, once it has made a call
    the region of standard output holds the first bytes it wrote, in order, up to the
    limit, and [DuckInfo] says how many; so does that of standard error; and what it
    has taken from standard input is the beginning of the input, so that the next
    [read] stores the bytes that follow, as many as it asked for and are left. *)
Theorem output_and_input s tr s' : boot s -> run s tr s' -> inited s' = true ->
  let out := written 1 tr in let err := written 2 tr in
  load (mem s') (info L + w * stdout_size) w = Z.min (out_limit L) (zlen out) /\
  read_bytes (mem s') (out_ptr L) (Z.min (out_limit L) (zlen out)) = ztake (out_limit L) out /\
  load (mem s') (info L + w * stderr_size) w = Z.min (err_limit L) (zlen err) /\
  read_bytes (mem s') (err_ptr L) (Z.min (err_limit L) (zlen err)) = ztake (err_limit L) err /\
  0 <= taken tr <= zlen (input L) /\
  forall e a2 len, is_s32 len -> 0 <= len -> (forall x, inside a2 len x -> ~ protected x) ->
    let k := Z.min len (zlen (input L) - taken tr) in
    exists s2, handler e 0 a2 len sys_read s' = Some (s2, Return k) /\
      read_bytes (mem s2) a2 k = ztake k (zdrop (taken tr) (input L)).
Proof.
  intros Hb Hr Hi out err. destruct (run_from_boot _ _ _ Hr Hb Hi) as [Hs Ht].
  pose proof Hs as [S1 S2 [C1 C2 C3 C4] [D1 D2 D3 D4] _ (_ & _ & _)]. unfold field in C3, D3. rewrite S2 in C3, D3.
  conj_split; try done; try lia. intros e a2 len Hlen H0 Hbuf k.
  assert (Hw32 : 2 ^ 31 < 2 ^ (8 * w)) by (destruct Hw as [-> | ->]; done). unfold is_s32 in Hlen.
  assert (Eg : zlen (ztake (taken tr) (input L)) = taken tr) by by apply zlen_ztake.
  destruct (read_spec s' a2 len _ _ _ Hs) as (E & Hk & _); [lia|]. rewrite Eg in E, Hk. fold k in E, Hk.
  rewrite on_read by done. change (s32 0) with 0. rewrite (s32_small len) by (unfold is_s32; lia).
  rewrite (uw_small len) by lia. rewrite E. cbn [fst snd]. rewrite (uw_small k) by (unfold k; lia).
  eexists. split; [done|]. cbn [mem with_pos with_mem].
  assert (Hl : zlen (next_input (ztake (taken tr) (input L)) k) = k).
  { unfold next_input. rewrite Eg, zlen_ztake; rewrite ?zlen_zdrop; lia. }
  rewrite <- Hl at 2. rewrite read_write_bytes. unfold next_input. by rewrite Eg.
Qed.

End Run.
End Library.

(** ** The two libraries *)

Section Libraries.
Variable L : places.
Variable _end page_size : Z.
Variable store_stat : Z -> stat -> (Z -> Z) -> Z -> Z.

Lemma write64_law : disjoint 8 L -> write_law 8 L Lib64.duck_write.
Proof.
  intros Hd fd buf len s out err got Hs Hlen. unfold Lib64.duck_write.
  assert (Hdec : fd = 1 \/ fd = 2 \/ (fd <> 1 /\ fd <> 2)) by lia. destruct Hdec as [H|[H|H]].
  - destruct (append_holds 8 (or_intror eq_refl) L Hd s fd buf len _ _ _ Hs Hlen (or_introl H)) as (m & r & E & _ & Hm & Hh & _).
    subst fd. cbn [Z.eqb Pos.eqb] in *. rewrite E. exists m, len. conj_split; try done; try lia; by left.
  - destruct (append_holds 8 (or_intror eq_refl) L Hd s fd buf len _ _ _ Hs Hlen (or_intror H)) as (m & r & E & _ & Hm & Hh & _).
    subst fd. cbn [Z.eqb Pos.eqb] in *. rewrite E. exists m, len. conj_split; try done; try lia; by left.
  - destruct (Z.eqb_spec fd 1); [lia|]. destruct (Z.eqb_spec fd 2); [lia|]. exists (mem s), 0.
    unfold add, full. destruct (Z.eqb_spec fd 1); [lia|]. destruct (Z.eqb_spec fd 2); [lia|].
    conj_split; try done; try lia; by destruct s.
Qed.

Lemma write32_law : disjoint 4 L -> write_law 4 L Lib32.duck_write.
Proof.
  intros Hd fd buf len s out err got Hs Hlen. unfold Lib32.duck_write.
  assert (Hdec : fd = 1 \/ fd = 2 \/ (fd <> 1 /\ fd <> 2)) by lia. destruct Hdec as [H|[H|H]].
  - destruct (append_holds 4 (or_introl eq_refl) L Hd s fd buf len _ _ _ Hs Hlen (or_introl H)) as (m & r & E & H1).
    subst fd. cbn [Z.eqb Pos.eqb] in *. by exists m, r.
  - destruct (append_holds 4 (or_introl eq_refl) L Hd s fd buf len _ _ _ Hs Hlen (or_intror H)) as (m & r & E & H1).
    subst fd. cbn [Z.eqb Pos.eqb] in *. by exists m, r.
  - destruct (Z.eqb_spec fd 1); [lia|]. destruct (Z.eqb_spec fd 2); [lia|]. exists (mem s), 0.
    unfold add, full. destruct (Z.eqb_spec fd 1); [lia|]. destruct (Z.eqb_spec fd 2); [lia|].
    conj_split; try done; try lia; by destruct s.
Qed.

Abbreviation handler64 := (λ e a1 a2 a3 n s,
  Lib64.duck64_syscall_handler _end page_size (info L) store_stat (fst e) (snd e) a1 a2 a3 n s).
Abbreviation handler32 stl := (λ e a1 a2 a3 n s,
  Lib32.duck32_syscall_handler _end page_size (info L) store_stat stl (fst (e : Z * nat)) a1 a2 a3 n s).

Lemma brk_same a s : same_statics s (fst (duck_brk a s)).
Proof. unfold duck_brk. destruct (a =? 0); [done|]. by destruct (_ <? _). Qed.
Lemma clock_same id tp now s r : duck_clock_get_time id tp now s = Some r -> same_statics s (fst r).
Proof.
  unfold duck_clock_get_time. destruct (id =? _); [|by intros [= <-]].
  destruct (duck_time _ _) as [[sec nsec]|]; [by intros [= <-]|done].
Qed.

Lemma other64 e a1 a2 a3 n s s' r : inited s = true ->
  n ∉ [Lib64.SYS_read; Lib64.SYS_readv; Lib64.SYS_write; Lib64.SYS_writev] ->
  handler64 e a1 a2 a3 n s = Some (s', Return r) -> same_statics s s'.
Proof.
  intros Hi Hn. unfold Lib64.duck64_syscall_handler. rewrite Hi. cbn [negb].
  rewrite !not_elem_of_cons in Hn. destruct Hn as (N1 & N2 & N3 & N4 & _).
  apply Z.eqb_neq in N1 as ->, N2 as ->, N3 as ->, N4 as ->. unfold Lib64.returns, Lib64.stops, Lib64.returns_opt.
  destruct (_ =? _); [intros [= <- _]; apply brk_same|].
  destruct (_ =? _).
  { destruct (duck_clock_get_time _ _ _ _) as [p|] eqn:E; [|done]. intros [= <- _]. by apply clock_same in E. }
  do 2 (destruct (_ =? _); [done|]).
  destruct (_ =? _). { intros [= <- _]. unfold Lib64.duck_arch_prctl. by destruct (_ =? _). }
  destruct (_ =? _); [by intros [= <- _]|].
  destruct (_ =? _). { intros [= <- _]. unfold Lib64.duck_fstat. destruct (_ =? _); [done|]. by destruct (_ =? _). }
  destruct (_ =? _); [by intros [= <- _]|].
  do 4 (destruct (_ =? _); [by intros [= <- _]|]). destruct (_ =? _); [done|].
  do 4 (destruct (_ =? _); [by intros [= <- _]|]).
  destruct (_ =? _).
  { unfold Lib64.duck_readlink. destruct (Lib64.strlen _ _ _); [|done]. by intros [= <- _]. }
  do 2 (destruct (_ =? _); [by intros [= <- _]|]). destruct (_ =? _); [done|]. by intros [= <- _].
Qed.

Lemma other32 stl e a1 a2 a3 n s s' r : inited s = true ->
  n ∉ [Lib32.SYS_read; Lib32.SYS_readv; Lib32.SYS_write; Lib32.SYS_writev] ->
  handler32 stl e a1 a2 a3 n s = Some (s', Return r) -> same_statics s s'.
Proof.
  intros Hi Hn. unfold Lib32.duck32_syscall_handler. rewrite Hi. cbn [negb].
  rewrite !not_elem_of_cons in Hn. destruct Hn as (N1 & N2 & N3 & N4 & _).
  apply Z.eqb_neq in N1 as ->, N2 as ->, N3 as ->, N4 as ->. unfold Lib32.returns.
  destruct (_ =? _); [intros [= <- _]; apply brk_same|].
  destruct (_ =? _).
  { unfold Lib32.duck_clock_get_time_64. destruct (duck_clock_get_time _ _ _ _) as [p|] eqn:E; [|done]. intros [= <- _]. by apply clock_same in E. }
  do 2 (destruct (_ =? _); [done|]). do 2 (destruct (_ =? _); [by intros [= <- _]|]).
  destruct (_ =? _); [|by intros [= <- _]]. intros [= <- _]. unfold Lib32.duck_fstat.
  destruct (_ =? _); [done|]. by destruct (_ =? _).
Qed.

Definition library64 (Hd : disjoint 8 L) : Handler 8 L handler64.
Proof.
  refine {| lib_init := init 8 _end page_size (info L); sys_read := Lib64.SYS_read; sys_readv := Lib64.SYS_readv;
    sys_write := Lib64.SYS_write; sys_writev := Lib64.SYS_writev; lib_write := Lib64.duck_write;
    lib_write_law := write64_law Hd; on_other := other64 |}.
  - intros s. by apply init_holds; [right|].
  - intros e a1 a2 a3 n s Hi. unfold Lib64.duck64_syscall_handler. by rewrite Hi.
  - intros e a1 a2 a3 s Hi. unfold Lib64.duck64_syscall_handler. by rewrite Hi.
  - intros e a1 a2 a3 s Hi. unfold Lib64.duck64_syscall_handler. by rewrite Hi.
  - intros e a1 a2 a3 s Hi. unfold Lib64.duck64_syscall_handler. by rewrite Hi.
  - intros e a1 a2 a3 s Hi. unfold Lib64.duck64_syscall_handler. by rewrite Hi.
Defined.

Definition library32 stl (Hd : disjoint 4 L) : Handler 4 L (handler32 stl).
Proof.
  refine {| lib_init := init 4 _end page_size (info L); sys_read := Lib32.SYS_read; sys_readv := Lib32.SYS_readv;
    sys_write := Lib32.SYS_write; sys_writev := Lib32.SYS_writev; lib_write := Lib32.duck_write;
    lib_write_law := write32_law Hd; on_other := other32 stl |}.
  - intros s. by apply init_holds; [left|].
  - intros e a1 a2 a3 n s Hi. unfold Lib32.duck32_syscall_handler. by rewrite Hi.
  - intros e a1 a2 a3 s Hi. unfold Lib32.duck32_syscall_handler. by rewrite Hi.
  - intros e a1 a2 a3 s Hi. unfold Lib32.duck32_syscall_handler. by rewrite Hi.
  - intros e a1 a2 a3 s Hi. unfold Lib32.duck32_syscall_handler. by rewrite Hi.
  - intros e a1 a2 a3 s Hi. unfold Lib32.duck32_syscall_handler. by rewrite Hi.
Defined.

End Libraries.

(** ** The other calls *)

(** [clock_gettime]: seconds and nanoseconds of the counter, to the nanosecond. *)
Theorem clock_exact f t : 0 < f <= 18446744073 -> 0 <= t ->
  exists sec nsec, duck_time f t = Some (sec, nsec) /\ 0 <= sec /\ 0 <= nsec < 1000000000 /\
    sec * 1000000000 + nsec = t * 1000000000 / f.
Proof.
  intros Hf Ht. unfold duck_time. destruct (Z.eqb_spec f 0); [lia|].
  assert (Hm : 0 <= t mod f < f) by (apply Z.mod_pos_bound; lia).
  rewrite u64_small by (unfold is_u64; nia). eexists _, _. split; [reflexivity|].
  split; [apply Z.div_pos; lia|].
  assert (Hn : 0 <= t mod f * 1000000000 / f < 1000000000) by (split; [apply Z.div_pos; lia|apply Z.div_lt_upper_bound; lia]).
  split; [exact Hn|]. rewrite (Z.div_mod t f) at 3 by lia.
  replace ((f * (t / f) + t mod f) * 1000000000) with (t / f * 1000000000 * f + t mod f * 1000000000) by lia.
  by rewrite Z.div_add_l by lia.
Qed.

(** [mmap] hands out the pool one rounded request after the other and never looks at
    its end: after a request for all of it the next one gets the address past it. *)
Lemma mmap_has_no_end s pool size : mmap_p s = pool -> 0 <= pool < 2 ^ 63 ->
  let s1 := fst (Lib64.duck_mmap_temp Lib64.MMAP_POOL_SIZE s) in
  snd (Lib64.duck_mmap_temp size s1) = pool + Lib64.MMAP_POOL_SIZE.
Proof.
  intros <- Hp. cbn [fst snd Lib64.duck_mmap_temp]. unfold with_mmap. cbn [mmap_p].
  change (Z.land (u64 (Lib64.MMAP_POOL_SIZE + 4095)) (u64 (-4096))) with Lib64.MMAP_POOL_SIZE.
  apply u64_small. unfold is_u64. change Lib64.MMAP_POOL_SIZE with 10485760. lia.
Qed.

(** The heap grows and never shrinks. *)
Lemma brk_grows a s : snd (duck_brk a s) = heap_brk (fst (duck_brk a s)) /\
  heap_brk (fst (duck_brk a s)) = Z.max (heap_brk s) a \/ a = 0 /\ fst (duck_brk a s) = s.
Proof.
  unfold duck_brk. destruct (Z.eqb_spec a 0) as [->|]; [by right|]. left.
  destruct (Z.ltb_spec (heap_brk s) a); cbn; split; lia.
Qed.

(** ** A program under 32 bits that reads and writes *)

Definition demo_places : places := mk_places 0x1000 0x2000 [104; 105] 0x3000 4 0x4000 4.
Definition demo_memory : Z -> Z :=
  write_bytes (write_bytes (λ _, 0) 0x1000
    (([40; 0x2000; 2; 0x3000; 4; 0; 0x4000; 4; 0; 0; 0; 0; 0] ≫= le_bytes 4) ++ le_bytes 8 1000)) 0x2000 [104; 105].
Definition demo_start : state := mk_state demo_memory false 0 0 0 0 0 0 0 0.
Definition demo_handler : Z * nat -> Z -> Z -> Z -> Z -> state -> option (state * outcome) := λ e a1 a2 a3 n s,
  Lib32.duck32_syscall_handler 0x401000 4096 0x1000 (λ _ _ m, m) (λ _, 0) (fst e) a1 a2 a3 n s.
Lemma lib_demo_disjoint : disjoint 4 demo_places.
Proof. constructor; unfold fits, apart, info_size; cbn; change (zlen [104; 105]) with 2; lia. Qed.
#[export] Instance demo_library : Handler 4 demo_places demo_handler :=
  library32 demo_places 0x401000 4096 (λ _ _ m, m) (λ _, 0) lib_demo_disjoint.
Lemma demo_boot : boot 4 demo_places demo_start.
Proof.
  constructor; [done| |reflexivity]. intros i v Hv.
  do 6 (apply elem_of_cons in Hv as [[= -> ->]|Hv]; [reflexivity|]). by apply elem_of_nil in Hv.
Qed.

(** One byte is read, then written six times over. *)
Definition demo_state (a1 a2 a3 n : Z) (s : state) : state :=
  match demo_handler (0, O) a1 a2 a3 n s with Some (s, _) => s | None => s end.
Definition demo_one : state := demo_state 0 0x5000 1 3 demo_start.
Definition demo_program : state := with_mem demo_one (write_bytes (mem demo_one) 0x5000 [104; 104; 104; 104; 104; 104]).
Definition demo_write : state * Z := Lib32.duck_write 1 0x5000 6 demo_program.
Definition demo_two : state := demo_write.1.
Lemma lib_demo_run : run 4 demo_places demo_handler demo_start
  ([Took 1] ++ ([Wrote 1 [104; 104; 104; 104; 104; 104]] ++ [])) demo_two.
Proof.
  apply run_call with (e := (0, O)) (a1 := 0) (a2 := 0x5000) (a3 := 1) (n := 3) (s1 := demo_one) (r := 1); [reflexivity| |].
  - assert (Hx : forall x, inside 0x5000 (uw 4 (s32 1)) x -> ~ protected 4 demo_places x).
    { unfold protected, inside, info_size. cbn. change (zlen [104; 105]) with 2. change (uw 4 (s32 1)) with 1. lia. }
    exact (polite_read 4 demo_places demo_handler _ 0 0x5000 1 demo_one 1 eq_refl Hx).
  - apply run_program with (mem demo_program).
    { intros x Hx. apply write_bytes_outside. unfold protected, inside, info_size in Hx. cbn in Hx.
      change (zlen [104; 105]) with 2 in Hx. change (zlen [104; 104; 104; 104; 104; 104]) with 6. lia. }
    apply run_call with (e := (0, O)) (a1 := 1) (a2 := 0x5000) (a3 := 6) (n := 4) (s1 := demo_two) (r := uw 4 demo_write.2);
      [exact (on_write 4 demo_places (0, O) 1 0x5000 6 demo_program eq_refl)| |apply run_end].
    assert (E : read_bytes (mem (started 4 demo_places demo_handler demo_program)) 0x5000 6 =
      [104; 104; 104; 104; 104; 104]) by reflexivity.
    rewrite <- E. assert (H6 : 0 <= 6 < 2 ^ (8 * 4)) by done.
    exact (polite_write 4 demo_places demo_handler demo_program 1 0x5000 6 demo_two _ H6).
Qed.

Lemma output_and_input_witness :
  load (mem demo_two) 0x1014 4 = 4 /\ read_bytes (mem demo_two) 0x3000 4 = [104; 104; 104; 104] /\
  exists s, demo_handler (0, O) 0 0x6000 5 3 demo_two = Some (s, Return 1) /\ read_bytes (mem s) 0x6000 1 = [105].
Proof.
  destruct (output_and_input 4 (or_introl eq_refl) demo_places lib_demo_disjoint demo_handler demo_start _ demo_two demo_boot
    lib_demo_run eq_refl) as (H1 & H2 & _ & _ & _ & H3).
  split; [exact H1|]. split; [exact H2|].
  apply (H3 (0, O) 0x6000 5); [unfold is_s32; lia|lia|].
  unfold protected, inside, info_size. cbn. change (zlen [104; 105]) with 2. lia.
Defined.

Lemma clock_exact_witness : exists sec nsec, duck_time 3000000000 10000000001 = Some (sec, nsec) /\
  sec * 1000000000 + nsec = 3333333333.
Proof.
  destruct (clock_exact 3000000000 10000000001) as (sec & nsec & E & _ & _ & H); [lia|lia|].
  exists sec, nsec. split; [exact E|exact H].
Defined.

End UserLib.
