(* ===== verification/UserRun.v ===== *)
(** * UserRun: a judged program from the loader to the report

    [Elf] loads a program, the library of [UserLib] answers its system calls, [Elf.run]
    reads what it reported.  Here they are put together: what the program finds as its
    input is what was in the judger's buffer, and what the judger reports as its
    output is what the program wrote. *)
From S2P Require Import Prelude Utils Timer Memory Elf ElfRun UserLib.
From stdpp Require Import list.

Module UserRun.
Import Utils Memory Elf ElfRun.
Local Open Scope Z_scope.

#[local] Opaque for_pages.

(** ** Lemmas: the words of [DuckInfo] *)

Lemma zlen_bind_le n vs : zlen (vs ≫= le_bytes n) = Z.of_nat n * zlen vs.
Proof.
  induction vs as [|v vs IH]; [unfold zlen; cbn; lia|]. cbn [mbind list_bind]. rewrite zlen_app, zlen_le_bytes, zlen_cons.
  change (list_bind _ _ (le_bytes n) vs) with (vs ≫= le_bytes n). lia.
Qed.

(** The word number [i] of consecutive words. *)
Lemma load_word_at n vs rest m a i v :
  read_bytes m a (Z.of_nat n * zlen vs + zlen rest) = (vs ≫= le_bytes n) ++ rest -> vs !! i = Some v ->
  UserLib.load m (a + Z.of_nat n * Z.of_nat i) (Z.of_nat n) = v mod 256 ^ Z.of_nat n.
Proof.
  revert a i. induction vs as [|v0 vs IH]; intros a i Hm Hi; [done|]. cbn [mbind list_bind] in Hm.
  change (list_bind _ _ (le_bytes n) vs) with (vs ≫= le_bytes n) in Hm.
  pose proof (zlen_nonneg vs). pose proof (zlen_nonneg rest). rewrite zlen_cons in Hm.
  replace (Z.of_nat n * (1 + zlen vs) + zlen rest) with (Z.of_nat n + (Z.of_nat n * zlen vs + zlen rest)) in Hm by lia.
  rewrite UserLib.read_bytes_join in Hm by lia. rewrite <- app_assoc in Hm. apply app_inj_1 in Hm as [H1 H2].
  - destruct i as [|i]; cbn in Hi.
    + injection Hi as ->. rewrite Z.mul_0_r, Z.add_0_r. unfold UserLib.load. by rewrite H1, le_val_le_bytes.
    + replace (a + Z.of_nat n * Z.of_nat (S i)) with (a + Z.of_nat n + Z.of_nat n * Z.of_nat i) by lia. by apply IH.
  - apply Nat2Z.inj. change (zlen (read_bytes m a (Z.of_nat n)) = zlen (le_bytes n v0)).
    rewrite zlen_read_bytes, zlen_le_bytes; lia.
Qed.

Definition encode (n : nat) (d : DuckInfo) : list Z :=
  (duckinfo_fields d ≫= le_bytes n) ++ le_bytes 8 (di_tsc_frequency d).

Definition places_of (d : DuckInfo) (info : Z) (input : list Z) : UserLib.places :=
  UserLib.mk_places info (di_stdin_ptr d) input (di_stdout_ptr d) (di_stdout_limit d)
    (di_stderr_ptr d) (di_stderr_limit d).

(** What the kernel writes is what the library reads. *)
Lemma kernel_duckinfo_boots n d info input s :
  Z.of_nat n = 4 \/ Z.of_nat n = 8 -> UserLib.disjoint (Z.of_nat n) (places_of d info input) ->
  di_stdin_size d = zlen input -> UserLib.inited s = false ->
  read_bytes (UserLib.mem s) info (13 * Z.of_nat n + 8) = encode n d ->
  read_bytes (UserLib.mem s) (di_stdin_ptr d) (zlen input) = input ->
  UserLib.boot (Z.of_nat n) (places_of d info input) s.
Proof.
  intros Hn [_ (I1 & I2 & I3) (O1 & O2 & O3) (E1 & E2 & E3) _ _ _ _ _ _] Hsize Hi Hinfo Hin. constructor; [done| |done].
  intros i v Hv. cbn [UserLib.info UserLib.in_ptr UserLib.input UserLib.out_ptr UserLib.out_limit UserLib.err_ptr
    UserLib.err_limit places_of] in *.
  assert (Hp : 256 ^ Z.of_nat n = 2 ^ (8 * Z.of_nat n)) by (destruct Hn as [-> | ->]; done).
  assert (Hw : forall (j : nat) v, duckinfo_fields d !! j = Some v -> 0 <= v < 2 ^ (8 * Z.of_nat n) ->
    UserLib.load (UserLib.mem s) (info + Z.of_nat n * Z.of_nat j) (Z.of_nat n) = v).
  { intros j v' Hj Hv'. rewrite (load_word_at n (duckinfo_fields d) (le_bytes 8 (di_tsc_frequency d)) _ _ j v').
    - rewrite Hp. by apply Z.mod_small.
    - rewrite zlen_le_bytes. change (zlen (duckinfo_fields d)) with 13.
      replace (Z.of_nat n * 13 + Z.of_nat 8) with (13 * Z.of_nat n + 8) by lia. done.
    - done. }
  pose proof (zlen_nonneg input).
  do 6 (apply elem_of_cons in Hv as [[= -> ->]|Hv];
    [(apply (Hw 1%nat) || apply (Hw 2%nat) || apply (Hw 3%nat) || apply (Hw 4%nat) || apply (Hw 6%nat) || apply (Hw 7%nat));
      [by rewrite <- ?Hsize|lia]|]).
  by apply elem_of_nil in Hv.
Qed.

(** ** Lemmas: what loading does to the bytes of memory *)

Lemma page_loop_mem g fuel a b s s' : page_loop fuel (update_P1 g) a b s = Some s' -> user_mem s' = user_mem s.
Proof.
  revert a s. induction fuel as [|fuel IH]; intros a s; cbn [page_loop]; (destruct (a =? b); [by intros [= <-]|]); [done|].
  intros H. by rewrite (IH _ _ H).
Qed.
Lemma for_pages_mem g a b s s' : for_pages (update_P1 g) a b s = Some s' -> user_mem s' = user_mem s.
Proof.
  with_strategy transparent [for_pages] unfold for_pages. do 2 (destruct (negb _); [done|]). apply page_loop_mem.
Qed.
Lemma load_readonly_mem r c s s' : load_readonly r c s = Some s' -> user_mem s' = write_bytes (user_mem s) (fst r) c.
Proof.
  unfold load_readonly, set_duck_written, set_page_flags_user_readonly, obind.
  destruct (for_pages _ _ _ _) as [s1|] eqn:E; [|done]. intros H. apply for_pages_mem in H, E. by rewrite H, E.
Qed.
Lemma load_OB_mem cfg r s s' x : load_OB cfg r s = Some s' -> x < fst r -> user_mem s' x = user_mem s x.
Proof.
  unfold load_OB, set_duck_written, obind. destruct (OB_need_clear cfg); [by intros [= <-]|].
  destruct (for_pages _ _ _ _) as [s1|] eqn:E; [|done]. intros [= <-] Hx. apply for_pages_mem in E. rewrite <- E.
  apply write_bytes_outside. lia.
Qed.
Lemma flag_segments_mem c buf h l s s' : fold_opt (flag_segment c buf h) s l = Some s' -> user_mem s' = user_mem s.
Proof.
  revert s. induction l as [|i l IH]; intros s; cbn [fold_opt]; [by intros [= <-]|].
  destruct (flag_segment c buf h s i) as [s1|] eqn:E; cbn [obind]; [|done]. intros H. rewrite (IH _ H). clear H IH.
  unfold flag_segment, set_page_flags_user_readonly, add_page_flags_executable, add_page_flags_writable in E.
  destruct (negb (p_type _ =? _)); [by injection E as <-|]. unfold obind in E.
  destruct (for_pages _ _ _ s) as [s2|] eqn:E2; [|done]. apply for_pages_mem in E2. rewrite <- E2.
  destruct (negb (Z.land _ PF_X =? 0)).
  - destruct (for_pages _ _ _ s2) as [s3|] eqn:E3; [|done]. apply for_pages_mem in E3. rewrite <- E3.
    destruct (negb _); [by apply for_pages_mem in E|by injection E as <-].
  - destruct (negb _); [by apply for_pages_mem in E|by injection E as <-].
Qed.

(** The end of a load: the stack, then only page rights. *)
Lemma finish_mem c buf h a b lo hi n m s s1 s2 s3 :
  set_duck_written a b (with_user_mem s m) = Some s1 -> fold_opt (flag_segment c buf h) s1 n = Some s2 ->
  clear_access_and_dirty_flags lo hi s2 = Some s3 -> user_mem s3 = m.
Proof.
  intros H1%for_pages_mem H2%flag_segments_mem H3%for_pages_mem. by rewrite H3, H2, H1.
Qed.

(** The input survives the pages loaded after it. *)
Lemma input_survives r1 r2 (c1 c2 : list Z) cfg r3 s s2 s3 s4 :
  load_readonly r1 c1 s = Some s2 -> load_readonly r2 c2 s2 = Some s3 -> load_OB cfg r3 s3 = Some s4 ->
  fst r1 + zlen c1 <= fst r2 -> fst r1 + zlen c1 <= fst r3 ->
  read_bytes (user_mem s4) (fst r1) (zlen c1) = c1.
Proof.
  intros H1%load_readonly_mem H2%load_readonly_mem H3 L1 L2.
  rewrite (read_bytes_ext _ (user_mem s2)).
  - rewrite H1. apply read_write_bytes.
  - intros x Hx. rewrite (load_OB_mem _ _ _ _ _ H3) by lia. rewrite H2. apply write_bytes_outside. lia.
Qed.

(** ** What a loaded program starts with *)

(** With words of [n] bytes: the regions, the [DuckInfo] at [dip] and the input. *)
Record loaded (n : nat) (cfg : AppConfig) (tsc_freq : Z) (l : layout) (app : App) (dip : Z) (m : Z -> Z) : Prop := {
  ld_layout : layout_ok cfg (load_break l) l;
  ld_break : 4096 <= load_break l /\ load_break l mod PAGE_SIZE = 0 /\ snd (l_image l) <= 2 ^ 47;
  ld_end : snd (l_stderr l) <= special_region_break_addr app;
  ld_orig : duckinfo_orig app = make_duckinfo cfg l tsc_freq;
  ld_start : stdin_start_addr app = fst (l_stdin l);
  ld_dip : dip = load_break l - (13 * Z.of_nat n + 8);
  ld_duckinfo : read_bytes m dip (13 * Z.of_nat n + 8) = encode n (make_duckinfo cfg l tsc_freq);
  ld_stdin : read_bytes m (fst (l_stdin l)) (stdin_size cfg) = stdin_ptr cfg }.

Section Loaded.
Variables (buf : list Z) (len : Z) (cfg : AppConfig) (tsc_freq : Z) (s s' : state) (app : App).
Hypothesis (Hb : bytes buf) (Hlen : 0 <= len < 2 ^ 32) (Hc : wf_config cfg) (Hv : vbreak_ok (vaddr_break s)).
Hypothesis Hstdin : zlen (stdin_ptr cfg) = stdin_size cfg.

Lemma whole_input : ztake (stdin_size cfg) (stdin_ptr cfg) = stdin_ptr cfg.
Proof. apply ztake_all. lia. Qed.

Lemma load_elf64_loaded : load_elf64 buf len cfg tsc_freq s = Some (s', Some app) ->
  exists l, loaded 8 cfg tsc_freq l app (duckinfo_ptr app) (user_mem s').
Proof.
  unfold load_elf64. destruct (plan64 buf len cfg (get_vaddr_break s)) as [[h l]|] eqn:Ep; [|done].
  destruct (plan64_ok buf len cfg _ h l Hb Hlen Hv Hc Ep) as ((P1' & P2' & P3' & _) & Er & Es & Hsb & _).
  unfold get_vaddr_break in Hsb. pose proof Hv as [[_ Hv46] _]. pose proof P3' as (_ & _ & _ & _ & _ & _ & Eim).
  destruct Hc as (_ & C1 & C2 & C3 & C4 & C5). unfold is_u64 in *.
  pose proof P3' as (_ & (F1 & B1 & M1) & (F2 & B2 & M2) & (F3 & B3 & M3) & (F4 & B4 & M4) & (F5 & B5 & M5) & _).
  rewrite Eim in Er. cbn [snd] in Er. rewrite Er in Es. cbn [snd] in Es.
  assert (Hlo : 0x400000 + 4096 <= load_break l) by exact P1'. unfold PAGE_SIZE in Es.
  pose proof (stack64_spec h l (make_duckinfo cfg l tsc_freq)) as Hst.
  unfold do_load64, obind. destruct (set_up_flags _ _ s) as [s1|]; [|done].
  destruct (fold_opt (load_segment _ _ _) s1 _) as [s2|]; [|done].
  destruct (load_readonly (l_stdin l) _ s2) as [s3|] eqn:E3; [|done].
  destruct (load_readonly (l_IB l) _ s3) as [s4|] eqn:E4; [|done].
  destruct (load_OB cfg (l_OB l) s4) as [s5|] eqn:E5; [|done].
  destruct (load_readonly (l_image l) _ s5) as [s6|] eqn:E6; [|done].
  destruct (load_readonly (l_random l) _ s6) as [s7|] eqn:E7; [|done].
  specialize (Hst (user_mem s7) ltac:(lia) P2'). destruct (stack64 _ _ _ _) as [[rsp dip] m].
  destruct Hst as (_ & Hdip & _ & Hinfo & Hout).
  destruct (set_duck_written _ _ _) as [s8|] eqn:E8; [|done].
  destruct (fold_opt (flag_segment _ _ _) s8 _) as [s9|] eqn:E9; [|done].
  destruct (clear_access_and_dirty_flags _ _ s9) as [s10|] eqn:E10; [|done].
  intros [= <- <-]. exists l. cbn [duckinfo_ptr]. rewrite (finish_mem _ _ _ _ _ _ _ _ _ _ _ _ _ E8 E9 E10).
  rewrite whole_input in E3. constructor; [done| | |done|done|done|done|].
  - rewrite Eim. cbn [snd]. unfold PAGE_SIZE in *. conj_split; [lia|done|lia].
  - cbn [special_region_break_addr]. lia.
  - rewrite <- Hstdin. rewrite (read_bytes_ext _ (user_mem s5)); [apply (input_survives _ _ _ _ _ _ _ _ _ _ E3 E4 E5); lia|].
    intros x Hx. rewrite Hout by lia. apply load_readonly_mem in E6, E7. rewrite E7, Er. cbn [fst].
    rewrite write_bytes_outside by (unfold PAGE_SIZE; lia). rewrite E6, Eim. apply write_bytes_outside. cbn [fst]. lia.
Qed.

Lemma load_elf32_loaded : load_elf32 buf len cfg tsc_freq s = Some (s', Some app) ->
  exists l, loaded 4 cfg tsc_freq l app (duckinfo32_ptr app) (user_mem s') /\ duckinfo_ptr app = 0.
Proof.
  unfold load_elf32. destruct (plan32 buf len cfg (get_vaddr_break s)) as [[h l]|] eqn:Ep; [|done].
  destruct (plan32_ok buf len cfg _ h l Hb Hlen Hv Hc Ep) as ((P1' & P2' & P3' & _) & Es & Hsb & _).
  unfold get_vaddr_break in Hsb. pose proof Hv as [[_ Hv46] _]. pose proof P3' as (_ & _ & _ & _ & _ & _ & Eim).
  destruct Hc as (_ & C1 & C2 & C3 & C4 & C5). unfold is_u64 in *.
  pose proof P3' as (_ & (F1 & B1 & M1) & (F2 & B2 & M2) & (F3 & B3 & M3) & (F4 & B4 & M4) & (F5 & B5 & M5) & _).
  assert (Hlo : 4096 <= load_break l) by (assert (4096 <= load_vaddr_start class32) by done; unfold PAGE_SIZE in P1'; lia).
  pose proof (stack32_spec h l (make_duckinfo cfg l tsc_freq)) as Hst.
  unfold do_load32, obind. destruct (set_up_flags _ _ s) as [s1|]; [|done].
  destruct (fold_opt (load_segment _ _ _) s1 _) as [s2|]; [|done].
  destruct (load_readonly (l_stdin l) _ s2) as [s3|] eqn:E3; [|done].
  destruct (load_readonly (l_IB l) _ s3) as [s4|] eqn:E4; [|done].
  destruct (load_OB cfg (l_OB l) s4) as [s5|] eqn:E5; [|done].
  destruct (load_readonly (l_image l) _ s5) as [s6|] eqn:E6; [|done].
  specialize (Hst (user_mem s6) ltac:(lia) P2'). destruct (stack32 _ _ _ _) as [[rsp dip] m].
  destruct Hst as (_ & Hdip & _ & Hinfo & Hout).
  destruct (set_duck_written _ _ _) as [s8|] eqn:E8; [|done].
  destruct (fold_opt (flag_segment _ _ _) s8 _) as [s9|] eqn:E9; [|done].
  destruct (clear_access_and_dirty_flags _ _ s9) as [s10|] eqn:E10; [|done].
  intros [= <- <-]. exists l. split; [|done]. cbn [duckinfo32_ptr]. rewrite (finish_mem _ _ _ _ _ _ _ _ _ _ _ _ _ E8 E9 E10).
  rewrite whole_input in E3. constructor; [done| | |done|done|done|done|].
  - rewrite Eim. cbn [snd]. unfold PAGE_SIZE in *. conj_split; [lia|done|lia].
  - cbn [special_region_break_addr]. lia.
  - rewrite <- Hstdin. rewrite (read_bytes_ext _ (user_mem s5)); [apply (input_survives _ _ _ _ _ _ _ _ _ _ E3 E4 E5); lia|].
    intros x Hx. rewrite Hout by lia. apply load_readonly_mem in E6. rewrite E6, Eim. apply write_bytes_outside. cbn [fst]. lia.
Qed.
End Loaded.

(** ** From the buffer of the judger to its report *)

Lemma loaded_disjoint n cfg f l app dip m :
  loaded n cfg f l app dip m -> wf_config cfg -> zlen (stdin_ptr cfg) = stdin_size cfg ->
  (n = 8%nat \/ n = 4%nat /\ special_region_break_addr app < 2 ^ 32) ->
  UserLib.disjoint (Z.of_nat n) (places_of (duckinfo_orig app) dip (stdin_ptr cfg)).
Proof.
  intros [Hl (H1 & H2 & H3) He Ho _ Hd _ _] (_ & C1 & C2 & C3 & C4 & C5) Hs Hn. rewrite Ho. unfold is_u64 in *.
  destruct Hl as (_ & (F1 & B1 & _) & (F2 & B2 & _) & (F3 & B3 & _) & (F4 & B4 & _) & (F5 & B5 & _) & Ei).
  rewrite Ei in H3. cbn [snd] in H3. unfold PAGE_SIZE in *.
  assert (Hend : snd (l_stderr l) < 2 ^ (8 * Z.of_nat n)).
  { destruct Hn as [-> | [-> Hn]]; [change (2 ^ (8 * Z.of_nat 8)) with (2 ^ 64)|change (2 ^ (8 * Z.of_nat 4)) with (2 ^ 32)]; lia. }
  assert (Hn8 : 60 <= 13 * Z.of_nat n + 8 <= 112) by (destruct Hn as [-> | [-> _]]; lia). clear Hn.
  constructor; unfold UserLib.fits, UserLib.apart, UserLib.info_size;
    cbn [places_of make_duckinfo di_stdin_ptr di_stdout_ptr di_stdout_limit di_stderr_ptr di_stderr_limit
      UserLib.info UserLib.in_ptr UserLib.input UserLib.out_ptr UserLib.out_limit UserLib.err_ptr UserLib.err_limit]; lia.
Qed.

(** The size in the program's own [DuckInfo] and the region, as the judger reads them. *)
Lemma reported n L u out err got app m :
  n = 8%nat /\ duckinfo_ptr app = UserLib.info L /\ UserLib.info L <> 0 \/
  n = 4%nat /\ duckinfo_ptr app = 0 /\ duckinfo32_ptr app = UserLib.info L ->
  m = UserLib.mem u -> UserLib.holds (Z.of_nat n) L u out err got ->
  reported_stdout app m = Z.min (UserLib.out_limit L) (zlen out) /\
  reported_stderr app m = Z.min (UserLib.err_limit L) (zlen err).
Proof.
  intros Hn -> [_ Hi [_ _ Ho _] [_ _ He _] _ _]. unfold UserLib.Lib.field in Ho, He. rewrite Hi in Ho, He.
  unfold reported_stdout, reported_stderr.
  destruct Hn as [(-> & -> & Hz)|(-> & -> & ->)].
  - rewrite (proj2 (Z.eqb_neq _ _) Hz). exact (conj Ho He).
  - exact (conj Ho He).
Qed.

Lemma report t app o s s' r : run t app o s = Some (s', r) ->
  let d := duckinfo_orig app in
  user_mem s' = user_mem s /\
  stdout_ptr r = di_stdout_ptr d /\ stdout_size r = Z.min (di_stdout_limit d) (reported_stdout app (user_mem s)) /\
  stderr_ptr r = di_stderr_ptr d /\ stderr_size r = Z.min (di_stderr_limit d) (reported_stderr app (user_mem s)).
Proof.
  unfold run, set_duck_written_by_dirty, obind. destruct (for_pages _ _ _ s) as [s1|] eqn:E; [|done].
  apply for_pages_mem in E. destruct (count_dirty_pages _ _ _); [|done].
  destruct (count_accessed_pages _ _ _); [|done]. destruct (count_accessed_pages _ _ _); [|done].
  intros [= <- <-]. cbn [stdout_ptr stdout_size stderr_ptr stderr_size]. by rewrite E.
Qed.

(** What loading and the library say together. *)
Lemma heard n l cfg tsc_freq app dip
    (handler : Z * nat -> Z -> Z -> Z -> Z -> UserLib.state -> option (UserLib.state * UserLib.outcome))
    (Hh : UserLib.Handler (Z.of_nat n) (places_of (duckinfo_orig app) dip (stdin_ptr cfg)) handler) u tr u' :
  loaded n cfg tsc_freq l app dip (UserLib.mem u) -> wf_config cfg -> zlen (stdin_ptr cfg) = stdin_size cfg ->
  n = 8%nat \/ n = 4%nat /\ special_region_break_addr app < 2 ^ 32 ->
  UserLib.inited u = false ->
  UserLib.run (Z.of_nat n) (places_of (duckinfo_orig app) dip (stdin_ptr cfg)) handler u tr u' -> UserLib.inited u' = true ->
  UserLib.holds (Z.of_nat n) (places_of (duckinfo_orig app) dip (stdin_ptr cfg)) u'
    (UserLib.written 1 tr) (UserLib.written 2 tr) (ztake (UserLib.taken tr) (stdin_ptr cfg)).
Proof.
  intros Hl Hc Hs Hn Hi Hr Hi'. pose proof (loaded_disjoint n cfg _ l app dip _ Hl Hc Hs Hn) as Hd.
  assert (Hw : Z.of_nat n = 4 \/ Z.of_nat n = 8) by (destruct Hn as [-> | [-> _]]; [by right|by left]).
  destruct (UserLib.run_from_boot (Z.of_nat n) Hw _ Hd handler u tr u' Hr) as [H _]; [|done|exact H].
  destruct Hl as [_ _ _ Ho _ _ Hinfo Hin]. rewrite Ho in Hd |- *.
  apply kernel_duckinfo_boots; try done; cbn [di_stdin_ptr make_duckinfo]. by rewrite Hs.
Qed.

(** C2: The judger gets what the program wrote.  Load a program, let it run with the
    library however it likes, then make the report: if the program made a system call
    at all, the reported standard output is the first bytes it wrote, in order, up to the limit
    of the task, at the reported place and with the reported size, and the
    same for standard error; and the input the program was given is the one in the
    judger's buffer. *)
Theorem judger_gets_output n buf len cfg tsc_freq s0 s1 app dip
    (handler : Z * nat -> Z -> Z -> Z -> Z -> UserLib.state -> option (UserLib.state * UserLib.outcome))
    (Hh : UserLib.Handler (Z.of_nat n) (places_of (duckinfo_orig app) dip (stdin_ptr cfg)) handler) u tr u' t o s2 s3 r :
  bytes buf -> 0 <= len < 2 ^ 32 -> wf_config cfg -> vbreak_ok (vaddr_break s0) ->
  zlen (stdin_ptr cfg) = stdin_size cfg ->
  n = 8%nat /\ load_elf64 buf len cfg tsc_freq s0 = Some (s1, Some app) /\ dip = duckinfo_ptr app \/
  n = 4%nat /\ load_elf32 buf len cfg tsc_freq s0 = Some (s1, Some app) /\ dip = duckinfo32_ptr app /\
    special_region_break_addr app < 2 ^ 32 ->
  UserLib.inited u = false -> UserLib.mem u = user_mem s1 ->
  UserLib.run (Z.of_nat n) (places_of (duckinfo_orig app) dip (stdin_ptr cfg)) handler u tr u' -> UserLib.inited u' = true ->
  user_mem s2 = UserLib.mem u' -> run t app o s2 = Some (s3, r) ->
  stdout_size r = Z.min (stdout_max_size cfg) (zlen (UserLib.written 1 tr)) /\
  read_bytes (user_mem s3) (stdout_ptr r) (stdout_size r) = ztake (stdout_max_size cfg) (UserLib.written 1 tr) /\
  stderr_size r = Z.min (stderr_max_size cfg) (zlen (UserLib.written 2 tr)) /\
  read_bytes (user_mem s3) (stderr_ptr r) (stderr_size r) = ztake (stderr_max_size cfg) (UserLib.written 2 tr) /\
  read_bytes (user_mem s1) (stdin_start_addr app) (stdin_size cfg) = stdin_ptr cfg.
Proof.
  intros Hb Hlen Hc Hv Hs Hcase Hi Hm Hr Hi' Hm2 Hrep.
  assert (Hl : exists l, loaded n cfg tsc_freq l app dip (user_mem s1) /\
    (n = 8%nat /\ duckinfo_ptr app = dip \/ n = 4%nat /\ duckinfo_ptr app = 0 /\ duckinfo32_ptr app = dip) /\
    (n = 8%nat \/ n = 4%nat /\ special_region_break_addr app < 2 ^ 32)).
  { destruct Hcase as [(-> & E & ->)|(-> & E & -> & H32)].
    - apply load_elf64_loaded in E as [l Hl]; [|done..]. exists l. auto.
    - apply load_elf32_loaded in E as (l & Hl & H0); [|done..]. exists l. auto 6. }
  destruct Hl as (l & Hl & Hd & Hn). rewrite <- Hm in Hl.
  pose proof (heard n l cfg tsc_freq app dip handler Hh u tr u' Hl Hc Hs Hn Hi Hr Hi') as Hh'.
  destruct Hl as [_ (Hl1 & _) _ Ho Hst Hdip _ Hin]. rewrite Hm in Hin.
  destruct (report _ _ _ _ _ _ Hrep) as (R1 & R2 & R3 & R4 & R5). rewrite R1, R2, R4, R3, R5, Hm2.
  assert (Hz : dip <> 0) by (destruct Hn as [-> | [-> _]]; lia).
  destruct (reported n (places_of (duckinfo_orig app) dip (stdin_ptr cfg)) u' _ _ _ app _ ltac:(cbn; tauto) eq_refl Hh') as [-> ->].
  destruct Hh' as [_ _ [_ _ _ D1] [_ _ _ D2] _ _]. rewrite Ho in *.
  cbn [places_of make_duckinfo di_stdout_limit di_stderr_limit di_stdout_ptr di_stderr_ptr UserLib.out_limit
    UserLib.err_limit UserLib.out_ptr UserLib.err_ptr] in *.
  rewrite !Z.min_assoc, !Z.min_id. rewrite Hst. conj_split; done.
Qed.

(** ** A program that writes five bytes *)

Definition demo_loaded : option (state * option App) := load_elf64 demo_elf 130 demo_config 1000 demo_memory.
Definition demo_started : state := match demo_loaded with Some (s, _) => s | None => demo_memory end.
Definition demo_64 : App :=
  mk_app 0x400078 0x401e80 0x400000 0x402000 0x402000 0x407000 0x402000 0x403000
    (make_duckinfo demo_config demo_layout 1000) 0x401f90 0.
Definition demo_places : UserLib.places := places_of (duckinfo_orig demo_64) 0x401f90 (stdin_ptr demo_config).
Definition demo_lib : UserLib.state := UserLib.mk_state (user_mem demo_started) false 0 0 0 0 0 0 0 0.
Definition demo_hello : list Z := [104; 101; 108; 108; 111].
(** The program puts its text into its own data, then writes it. *)
Definition demo_text : Z -> Z := write_bytes (user_mem demo_started) 0x401000 demo_hello.

Lemma demo_load : demo_loaded = Some (demo_started, Some demo_64).
Proof.
  assert (H : match demo_loaded with Some (_, a) => a | None => None end = Some demo_64) by (vm_compute; reflexivity).
  unfold demo_started. destruct demo_loaded as [[s a]|]; [|done]. by rewrite H.
Qed.
Lemma demo_disjoint : UserLib.disjoint 8 demo_places.
Proof. constructor; unfold UserLib.fits, UserLib.apart, UserLib.info_size; cbn; change (zlen [104; 105]) with 2; lia. Qed.
Definition demo_handler : Z * nat -> Z -> Z -> Z -> Z -> UserLib.state -> option (UserLib.state * UserLib.outcome) :=
  λ e a1 a2 a3 n s, UserLib.Lib64.duck64_syscall_handler 0x401000 4096 0x401f90 (λ _ _ m, m) (fst e) (snd e) a1 a2 a3 n s.
#[export] Instance demo_library : UserLib.Handler (Z.of_nat 8) demo_places demo_handler :=
  UserLib.library64 demo_places 0x401000 4096 (λ _ _ m, m) demo_disjoint.

Definition demo_after : UserLib.state :=
  match demo_handler (0, O) 1 0x401000 5 1 (UserLib.with_mem demo_lib demo_text) with
  | Some (s, _) => s
  | None => demo_lib
  end.
Lemma demo_call : demo_handler (0, O) 1 0x401000 5 1 (UserLib.with_mem demo_lib demo_text) =
  Some (demo_after, UserLib.Return 5).
Proof. reflexivity. Qed.
Lemma demo_run : UserLib.run (Z.of_nat 8) demo_places demo_handler demo_lib
  ([UserLib.Wrote 1 demo_hello] ++ []) demo_after.
Proof.
  apply UserLib.run_program with demo_text.
  - intros x Hx. apply write_bytes_outside. unfold UserLib.protected, UserLib.inside, UserLib.info_size in Hx.
    cbn in Hx. change (zlen [104; 105]) with 2 in Hx. change (zlen demo_hello) with 5. lia.
  - apply UserLib.run_call with (e := (0, O)) (a1 := 1) (a2 := 0x401000) (a3 := 5) (n := 1) (s1 := demo_after) (r := 5);
      [exact demo_call| |apply UserLib.run_end].
    assert (E : read_bytes (UserLib.mem (UserLib.started (Z.of_nat 8) demo_places demo_handler
      (UserLib.with_mem demo_lib demo_text))) 0x401000 5 = demo_hello) by reflexivity.
    rewrite <- E. assert (H5 : 0 <= 5 < 2 ^ (8 * Z.of_nat 8)) by (split; done).
    exact (UserLib.polite_write (Z.of_nat 8) demo_places demo_handler _ 1 0x401000 5 demo_after 5 H5).
Qed.

Definition demo_end : state := with_user_mem demo_started (UserLib.mem demo_after).
Lemma demo_report : exists s r, run demo_timer demo_64 demo_outcome demo_end = Some (s, r).
Proof.
  assert (H : match run demo_timer demo_64 demo_outcome demo_end with Some _ => true | None => false end = true)
    by reflexivity.
  destruct (run _ _ _ _) as [[s r]|]; [by exists s, r|done].
Qed.

Lemma judger_gets_output_witness : exists s r, run demo_timer demo_64 demo_outcome demo_end = Some (s, r) /\
  stdout_size r = 5 /\ read_bytes (user_mem s) (stdout_ptr r) (stdout_size r) = demo_hello.
Proof.
  destruct demo_report as (s & r & E). exists s, r. split; [exact E|].
  destruct (judger_gets_output 8 demo_elf 130 demo_config 1000 demo_memory demo_started demo_64 0x401f90 demo_handler
    demo_library demo_lib _ demo_after demo_timer demo_outcome demo_end s r
    (proj1 demo_ok) ltac:(lia) (proj1 (proj2 demo_ok)) (proj2 (proj2 demo_ok)) eq_refl
    (or_introl (conj eq_refl (conj demo_load eq_refl))) eq_refl eq_refl demo_run eq_refl eq_refl E) as (H1 & H2 & _).
  split; [exact H1|exact H2].
Defined.
End UserRun.
