(* ===== verification/KernelCalls.v ===== *)
(** * KernelCalls: the system calls of the kernel itself

    [kern/duck64_syscall_handler.cpp]: what the kernel's own C library asks for.  Output
    goes to the screens, the serial line and the log; the heap is a static buffer. *)
From S2P Require Import Prelude SysLog.
From S2P Require Import Console.
From S2P Require Import UserLib.
From stdpp Require Import list.

Module KernelCalls.
Local Open Scope Z_scope.
Import Console.

Record state := mk_state {
  screens : Writer.screens; serial : Serial.state; log : SysLog.state; mem : Z -> Z; heap_brk : Z; fs_base : Z }.
Definition with_mem (s : state) (m : Z -> Z) : state :=
  mk_state (screens s) (serial s) (log s) m (heap_brk s) (fs_base s).
Definition with_brk (s : state) (b : Z) : state := mk_state (screens s) (serial s) (log s) (mem s) b (fs_base s).
Definition with_fs (s : state) (b : Z) : state := mk_state (screens s) (serial s) (log s) (mem s) (heap_brk s) b.

Definition KERNEL_HEAP_SIZE : Z := Z.shiftl 256 10.

Section Calls.
(** The status of the serial line, the address of [heap], and [struct stat]. *)
Variables (port_value : Z -> Z) (heap : Z) (store_stat : Z -> UserLib.stat -> (Z -> Z) -> Z -> Z).

Definition deliver (buf : list Z) (s : state) : state :=
  let scr := Writer.write_buf buf (screens s) in
  let ser := Serial.write_buf port_value buf (serial s) in
  let lg := fold_left SysLog.putchar buf (log s) in
  mk_state scr ser lg (mem s) (heap_brk s) (fs_base s).
Definition duck_write (fd buf len : Z) (s : state) : state * Z :=
  if negb (fd =? 1) && negb (fd =? 2) then (s, 0)
  else (deliver (read_bytes (mem s) buf len) s, len).

(** A 64-bit word of memory. *)
Definition word (m : Z -> Z) (a : Z) : Z := le_val (read_bytes m a 8).
Fixpoint writev_loop (n : nat) (fd iov ret : Z) (s : state) : state * Z :=
  match n with
  | O => (s, ret)
  | S n =>
      let '(s, tmp) := duck_write fd (word (mem s) iov) (word (mem s) (iov + 8)) s in
      let iov_len := word (mem s) (iov + 8) in
      let ret := if tmp <=? iov_len then u64 (ret + tmp) else ret in
      if negb (tmp =? iov_len) then (s, ret) else writev_loop n fd (iov + 16) ret s
  end.
Definition duck_writev (fd iov cnt : Z) (s : state) : state * Z := writev_loop (Z.to_nat cnt) fd iov 0 s.

Definition regular (size : Z) : UserLib.stat :=
  UserLib.mk_stat (Z.lor UserLib.S_IFREG 420) size 4096 (u64 (size + 4095) / 4096).
Definition duck_fstat (fd st : Z) (s : state) : state * Z :=
  let s := with_mem s (store_stat st UserLib.no_stat (mem s)) in
  if fd =? 0 then (with_mem s (store_stat st (regular 0) (mem s)), 0)
  else if fd =? 1 then (with_mem s (store_stat st (regular 4096) (mem s)), 0)
  else (s, -1).

Definition duck_brk (addr : Z) (s : state) : state * Z :=
  if addr =? 0 then (s, heap_brk s)
  else
    let s := if (heap_brk s <? addr) && (addr <=? heap + KERNEL_HEAP_SIZE) then with_brk s addr else s in
    (s, heap_brk s).

Definition duck_arch_prctl (code addr : Z) (s : state) : state * Z :=
  if code =? UserLib.Lib64.ARCH_SET_FS then (with_fs s addr, 0) else (s, -1).

(** The answer as a register. *)
Definition duck64_syscall_handler (a1 a2 a3 n : Z) (s : state) : state * Z :=
  let '(s, r) :=
    if n =? UserLib.Lib64.SYS_brk then duck_brk a1 s
    else if n =? UserLib.Lib64.SYS_arch_prctl then duck_arch_prctl (s32 a1) a2 s
    else if n =? UserLib.Lib64.SYS_write then duck_write (s32 a1) a2 a3 s
    else if n =? UserLib.Lib64.SYS_writev then duck_writev (s32 a1) a2 (s32 a3) s
    else if n =? UserLib.Lib64.SYS_ioctl then (s, 0)
    else if n =? UserLib.Lib64.SYS_fstat then duck_fstat (s32 a1) a2 s
    else (s, -1) in
  (s, u64 r).

(** ** Sequences of calls *)

(** The parts [writev] is given. *)
Fixpoint parts (n : nat) (iov : Z) (m : Z -> Z) : list (list Z) :=
  match n with
  | O => []
  | S n => read_bytes m (word m iov) (word m (iov + 8)) :: parts n (iov + 16) m
  end.

(** What a call prints. *)
Definition printed (a1 a2 a3 n : Z) (s : state) : list Z :=
  if (s32 a1 =? 1) || (s32 a1 =? 2) then
    if n =? UserLib.Lib64.SYS_write then read_bytes (mem s) a2 a3
    else if n =? UserLib.Lib64.SYS_writev then concat (parts (Z.to_nat (s32 a3)) a2 (mem s))
    else []
  else [].

(** Calls one after the other, with what they print together. *)
Fixpoint run (l : list (Z * Z * Z * Z)) (s : state) : state * list Z :=
  match l with
  | [] => (s, [])
  | (a1, a2, a3, n) :: l =>
      let '(s', text) := run l (fst (duck64_syscall_handler a1 a2 a3 n s)) in
      (s', printed a1 a2 a3 n s ++ text)
  end.

(** ** Lemmas *)

Lemma deliver_app a b s : deliver (a ++ b) s = deliver b (deliver a s).
Proof.
  unfold deliver, Writer.write_buf, Serial.write_buf. rewrite !fold_left_app. reflexivity.
Qed.
Lemma deliver_nil s : deliver [] s = s.
Proof. by destruct s. Qed.

#[local] Opaque deliver.

Lemma word_range m a : (forall x, is_u8 (m x)) -> is_u64 (word m a).
Proof.
  intros Hm. unfold word, is_u64. change 18446744073709551616 with (256 ^ 8).
  apply (le_val_range (read_bytes m a 8)). apply Forall_fmap, Forall_forall. intros x _. apply Hm.
Qed.

(** [writev] prints what its parts are together, and answers their length. *)
Lemma writev_prints n fd iov ret s : (forall x, is_u8 (mem s x)) -> fd = 1 \/ fd = 2 -> is_u64 ret ->
  writev_loop n fd iov ret s = (deliver (concat (parts n iov (mem s))) s, u64 (ret + zlen (concat (parts n iov (mem s))))).
Proof.
  intros Hm Hfd. revert iov ret s Hm. induction n as [|n IH]; intros iov ret s Hm Hr; cbn [writev_loop parts concat].
  { change (zlen []) with 0. by rewrite deliver_nil, Z.add_0_r, u64_small. }
  unfold duck_write. replace (negb (fd =? 1) && negb (fd =? 2)) with false by (destruct Hfd as [-> | ->]; done).
  set (m := mem s) in *. set (part := read_bytes m (word m iov) (word m (iov + 8))).
  assert (Em : mem (deliver part s) = m) by done. rewrite Em. rewrite Z.leb_refl, Z.eqb_refl. cbn [negb].
  pose proof (word_range m (iov + 8) Hm) as Hw. unfold is_u64 in Hw.
  assert (Ep : zlen part = word m (iov + 8)) by (apply zlen_read_bytes; lia).
  rewrite IH by (rewrite ?Em; done || apply u64_range). rewrite Em, deliver_app, u64_add_l, zlen_app, Ep.
  do 2 f_equal. lia.
Qed.
Lemma writev_refused n fd iov s : fd <> 1 -> fd <> 2 -> writev_loop n fd iov 0 s = (s, 0).
Proof.
  intros H1 H2. revert iov. induction n as [|n IH]; intros iov; [done|]. cbn [writev_loop].
  unfold duck_write. rewrite (proj2 (Z.eqb_neq _ _) H1), (proj2 (Z.eqb_neq _ _) H2). cbn [negb andb].
  destruct (0 <=? _); (destruct (negb _); [done|apply IH]).
Qed.

Definition consoles (s : state) : Writer.screens * Serial.state * SysLog.state := (screens s, serial s, log s).
#[local] Transparent deliver.
Lemma deliver_consoles b s s' : consoles s = consoles s' -> consoles (deliver b s) = consoles (deliver b s').
Proof. unfold consoles, deliver. cbn [screens serial log]. by intros [= -> -> ->]. Qed.
Lemma deliver_keeps b s : mem (deliver b s) = mem s /\ heap_brk (deliver b s) = heap_brk s.
Proof. done. Qed.
#[local] Opaque deliver.

(** The first and the second file of output. *)
Lemma output_fd fd : (fd =? 1) || (fd =? 2) = true -> fd = 1 \/ fd = 2.
Proof. zbool; auto. Qed.
Lemma no_output_fd fd : (fd =? 1) || (fd =? 2) = false -> fd <> 1 /\ fd <> 2.
Proof. zbool; auto. Qed.

Definition proper (s : state) : Prop :=
  (forall x, is_u8 (mem s x)) /\ heap <= heap_brk s <= heap + KERNEL_HEAP_SIZE.

Section Proper.
Hypothesis Hstat : forall st v m, (forall x, is_u8 (m x)) -> forall x, is_u8 (store_stat st v m x).

(** One call: what it prints, and the heap. *)
Lemma call_spec a1 a2 a3 n s : proper s -> let s' := fst (duck64_syscall_handler a1 a2 a3 n s) in
  proper s' /\ consoles s' = consoles (deliver (printed a1 a2 a3 n s) s) /\ heap_brk s <= heap_brk s'.
Proof.
  intros Hp. pose proof Hp as [Hm Hb]. cbn zeta. unfold duck64_syscall_handler, printed.
  assert (Hno : forall X : Prop, X -> (if (s32 a1 =? 1) || (s32 a1 =? 2) then @nil Z else []) = [] /\ X)
    by (intros X HX; split; [by destruct (_ || _)|exact HX]).
  destruct (Z.eqb_spec n UserLib.Lib64.SYS_brk) as [->|N1].
  { change (UserLib.Lib64.SYS_brk =? UserLib.Lib64.SYS_write) with false.
    change (UserLib.Lib64.SYS_brk =? UserLib.Lib64.SYS_writev) with false. cbv iota.
    rewrite (proj1 (Hno True I)), deliver_nil. unfold duck_brk. destruct (a1 =? 0); [split; [exact Hp|split; [done|cbn; lia]]|].
    destruct (Z.ltb_spec (heap_brk s) a1), (Z.leb_spec a1 (heap + KERNEL_HEAP_SIZE)); cbn [andb];
      (split; [split; [exact Hm|cbn; lia]|split; [done|cbn; lia]]). }
  destruct (Z.eqb_spec n UserLib.Lib64.SYS_arch_prctl) as [->|N2].
  { change (UserLib.Lib64.SYS_arch_prctl =? UserLib.Lib64.SYS_write) with false.
    change (UserLib.Lib64.SYS_arch_prctl =? UserLib.Lib64.SYS_writev) with false. cbv iota.
    rewrite (proj1 (Hno True I)), deliver_nil. unfold duck_arch_prctl.
    destruct (_ =? UserLib.Lib64.ARCH_SET_FS); (split; [exact Hp|split; [done|cbn; lia]]). }
  destruct (Z.eqb_spec n UserLib.Lib64.SYS_write) as [->|N3].
  { unfold duck_write. destruct ((s32 a1 =? 1) || (s32 a1 =? 2)) eqn:E.
    - rewrite <- negb_orb, E. cbn [negb fst]. destruct (deliver_keeps (read_bytes (mem s) a2 a3) s) as [K1 K2].
      unfold proper. rewrite K1, K2. split; [exact Hp|split; [done|lia]].
    - rewrite <- negb_orb, E, deliver_nil. cbn [negb fst]. split; [exact Hp|split; [done|lia]]. }
  destruct (Z.eqb_spec n UserLib.Lib64.SYS_writev) as [->|N4].
  { unfold duck_writev. destruct ((s32 a1 =? 1) || (s32 a1 =? 2)) eqn:E.
    - rewrite writev_prints by (done || by apply output_fd). cbn [fst].
      destruct (deliver_keeps (concat (parts (Z.to_nat (s32 a3)) a2 (mem s))) s) as [K1 K2].
      unfold proper. rewrite K1, K2. split; [exact Hp|split; [done|lia]].
    - apply no_output_fd in E as [E1 E2]. rewrite writev_refused, deliver_nil by done. split; [exact Hp|split; [done|cbn; lia]]. }
  rewrite (proj1 (Hno True I)), deliver_nil.
  destruct (_ =? UserLib.Lib64.SYS_ioctl); [split; [exact Hp|split; [done|cbn; lia]]|].
  destruct (_ =? UserLib.Lib64.SYS_fstat); [|split; [exact Hp|split; [done|cbn; lia]]].
  unfold duck_fstat. destruct (_ =? 0); [|destruct (_ =? 1)];
    (split; [split; [cbn; intros x; auto|exact Hb]|split; [done|cbn; lia]]).
Qed.

Lemma run_spec l s : proper s -> let '(s', text) := run l s in
  proper s' /\ consoles s' = consoles (deliver text s) /\ heap_brk s <= heap_brk s'.
Proof.
  revert s. induction l as [|[[[a1 a2] a3] n] l IH]; intros s Hp; cbn [run]; [rewrite deliver_nil; by split|].
  destruct (call_spec a1 a2 a3 n s Hp) as (P1 & C1 & B1). cbn zeta in *.
  specialize (IH _ P1). destruct (run l _) as [s' text]. destruct IH as (P2 & C2 & B2).
  split; [done|]. split; [|lia]. rewrite C2, deliver_app. by apply deliver_consoles.
Qed.

(** The four places where output can be read, after a text. *)
Record reads_on (rest : Z -> Z) (fb0 : FrameBuffer.state) (p : paper) (q : option paper) (s : state) (text : list Z)
    (s' : state) : Prop := {
  on_vga : vga_shows (Writer.vga (screens s'))
    (type_text VGA.BUFFER_WIDTH true p (VGA.color (Writer.vga (screens s))) (u8 <$> text));
  on_fb : fb_state rest fb0 (Writer.fb (screens s'))
    ((λ q, type_text FrameBuffer.N_COLS false q (VGA.color (Writer.vga (screens s))) (u8 <$> text)) <$> q);
  on_serial : Serial.outs (serial s') = Serial.outs (serial s) ++ ((λ c, (0x3F8, u8 c)) <$> text);
  on_log : SysLog.log_of (log s') = SysLog.lastn (Z.to_nat (SysLog.MAX_LOG_LEN - 1)) (SysLog.log_of (log s) ++ text) }.

#[local] Transparent deliver.
Lemma deliver_reads rest fb0 p q s text : vga_shows (Writer.vga (screens s)) p -> fb_state rest fb0 (Writer.fb (screens s)) q ->
  SysLog.wf (log s) -> reads_on rest fb0 p q s text (deliver text s).
Proof.
  intros Hv Hf Hl. destruct (screens_text rest fb0 text (screens s) p q Hv Hf) as (H1 & H2 & _).
  constructor; [exact H1|exact H2|apply serial_sends|by apply SysLog.log_of_run].
Qed.
#[local] Opaque deliver.

(** C14: Output reaches every console.  After any calls of the C library, whatever they are and
    whatever their arguments, the text screen shows, as a window of 25 lines
    on an endless sheet, what was typed before and then exactly the bytes given to write
    and writev for standard output and error, in order, wrapped at 80 columns; the frame
    buffer, if it is on, shows the same wrapped at 100 columns in a window of 50, pixel by
    pixel; the serial line has sent the same bytes; and the log ends with them. *)
Theorem output_reaches_every_console rest fb0 p q l s :
  proper s -> vga_shows (Writer.vga (screens s)) p -> fb_state rest fb0 (Writer.fb (screens s)) q -> SysLog.wf (log s) ->
  let '(s', text) := run l s in reads_on rest fb0 p q s text s'.
Proof.
  intros Hp Hv Hf Hl. pose proof (run_spec l s Hp) as H. destruct (run l s) as [s' text].
  destruct H as (_ & [= E1 E2 E3] & _). destruct (deliver_reads rest fb0 p q s text Hv Hf Hl) as [R1 R2 R3 R4].
  constructor; by rewrite ?E1, ?E2, ?E3.
Qed.

(** The heap of the kernel stays in its buffer.  Whatever the calls, its break never
    moves down and never leaves the buffer of 256 KiB; a request is granted
    exactly when it lies above the break and in the buffer, and the answer
    is always the break in force. *)
Theorem heap_stays_in_buffer l a1 a2 a3 s : proper s -> is_u64 a1 -> heap + KERNEL_HEAP_SIZE < 2 ^ 64 -> 0 < heap ->
  let s1 := fst (run l s) in
  let '(s2, r) := duck64_syscall_handler a1 a2 a3 UserLib.Lib64.SYS_brk s1 in
  heap <= heap_brk s1 <= heap + KERNEL_HEAP_SIZE /\ heap_brk s <= heap_brk s1 /\
  r = heap_brk s2 /\
  heap_brk s2 = if decide (heap_brk s1 < a1 <= heap + KERNEL_HEAP_SIZE) then a1 else heap_brk s1.
Proof.
  intros Hp Ha Hh H0. pose proof (run_spec l s Hp) as H. destruct (run l s) as [s1 text]. cbn [fst].
  destruct H as ([_ Hb] & _ & Hle). unfold duck64_syscall_handler. rewrite Z.eqb_refl. unfold duck_brk.
  destruct (Z.eqb_spec a1 0) as [->|N].
  - conj_split; try lia; [apply u64_small; unfold is_u64; lia|]. rewrite decide_False by lia. done.
  - destruct (Z.ltb_spec (heap_brk s1) a1), (Z.leb_spec a1 (heap + KERNEL_HEAP_SIZE)); cbn [andb heap_brk with_brk];
      (conj_split; [lia|lia|lia|apply u64_small; unfold is_u64 in *; lia|]).
    1: by rewrite decide_True by lia.
    all: by rewrite decide_False by lia.
Qed.

End Proper.
End Calls.

(** ** A program that prints and asks for memory *)

Definition demo_mem : Z -> Z := write_bytes (write_bytes (λ _, 0) 0x1000 [72; 105; 10]) 0x2000
  (le_bytes 8 0x1000 ++ le_bytes 8 2 ++ le_bytes 8 0x1002 ++ le_bytes 8 1).
Definition demo : state :=
  mk_state (Writer.mk_screens (VGA.the_writer (λ _ _, no_cell)) (FrameBuffer.boot (λ _, 0)))
    (Serial.mk_state [] 0 false) (SysLog.init SysLog.boot) demo_mem 0x600000 0.
Definition demo_stat : Z -> UserLib.stat -> (Z -> Z) -> Z -> Z := λ _ _ m, m.
(** write, writev of two parts, write to no file, brk. *)
Definition demo_calls : list (Z * Z * Z * Z) :=
  [(1, 0x1000, 3, 1); (2, 0x2000, 2, 20); (7, 0x1000, 3, 1); (0x610000, 0, 0, 12)].

Lemma demo_proper : proper 0x600000 demo.
Proof.
  split; [|split; done]. intros x. cbn [mem demo]. unfold demo_mem, write_bytes. destruct (_ && _).
  - apply zget_byte. by repeat constructor.
  - destruct (_ && _); [|done]. apply zget_byte. by repeat constructor.
Qed.
Lemma demo_stat_ok : forall st v m, (forall x, is_u8 (m x)) -> forall x, is_u8 (demo_stat st v m x).
Proof. auto. Qed.
Lemma demo_prints : snd (run (λ _, 0x20) 0x600000 demo_stat demo_calls demo) = [72; 105; 10; 72; 105; 10].
Proof. vm_compute. reflexivity. Qed.

Lemma output_reaches_every_console_witness : exists s', fst (run (λ _, 0x20) 0x600000 demo_stat demo_calls demo) = s' /\
  VGA.chars (Writer.vga (screens s')) 23 1 = mk_cell 105 7 /\
  Serial.outs (serial s') = (λ c, (0x3F8, c)) <$> [72; 105; 10; 72; 105; 10].
Proof.
  pose proof (output_reaches_every_console (λ _, 0x20) 0x600000 demo_stat demo_stat_ok (λ _, 0) (FrameBuffer.boot (λ _, 0))
    (found (λ _ _, no_cell)) None demo_calls demo demo_proper (the_writer_shows _) (conj eq_refl eq_refl) SysLog.wf_boot) as H.
  pose proof demo_prints as E. destruct (run _ _ _ demo_calls demo) as [s' text]. cbn [snd] in E. subst text.
  destruct H as [[C _ _ _] _ R _]. exists s'. split; [reflexivity|]. split; [|rewrite R; reflexivity].
  rewrite C by done. vm_compute. reflexivity.
Defined.

Lemma heap_stays_in_buffer_witness :
  heap_brk (fst (run (λ _, 0x20) 0x600000 demo_stat demo_calls demo)) <= 0x600000 + KERNEL_HEAP_SIZE.
Proof.
  pose proof (heap_stays_in_buffer (λ _, 0x20) 0x600000 demo_stat demo_stat_ok demo_calls 0x700000 0 0 demo demo_proper
    ltac:(unfold is_u64; lia) ltac:(done) ltac:(done)) as H.
  cbn zeta in H. destruct (duck64_syscall_handler _ _ _ _ _ _ _ _) as [s2 r]. exact (proj2 (proj1 H)).
Defined.

End KernelCalls.
