(* ===== verification/Logger.v ===== *)
(** * Logger: messages in colour ([lib/logger.cpp], [inc/logger.hpp])

    A logger is an object whose life is one line of output: made, it sets the colour of
    the writer and prints a prefix; destroyed, it flushes, sets the colour back and ends
    the line.  Standard output is the C library's: what is printed waits in a buffer, of
    which the library passes on as much as it likes, in the writer's colour. *)
From S2P Require Import Prelude.
From S2P Require Import Console.
From stdpp Require Import list.

Module Logger.
Local Open Scope Z_scope.
Import Console.

Inductive LogLevel := LL_FATAL | LL_ERROR | LL_WARN | LL_INFO | LL_DEBUG.
Definition rank (l : LogLevel) : Z :=
  match l with LL_FATAL => 0 | LL_ERROR => 1 | LL_WARN => 2 | LL_INFO => 3 | LL_DEBUG => 4 end.

(** The characters of the names. *)
Definition F := 70.
Definition E := 69.
Definition I := 73.
Definition W := 87.
Definition D := 68.
Definition get_prefix (name : Z) : list Z :=
  if name =? F then [70; 65; 84; 65; 76]
  else if name =? E then [69; 82; 82; 79; 82]
  else if name =? I then [73; 78; 70; 79]
  else if name =? W then [87; 65; 82; 78]
  else if name =? D then [68; 69; 66; 85; 71]
  else [117; 110; 107; 110; 111; 119; 110].

(** The statics, the colour of the writer, the buffer of standard output, and what
    came out, each byte with its colour. *)
Record state := mk_state {
  log_level : LogLevel; logger_in_use : bool; logger_saved_colorcode : Z; color_code : Z;
  pending : list Z; shown : list cell }.
Definition with_color (s : state) (c : Z) : state :=
  mk_state (log_level s) (logger_in_use s) (logger_saved_colorcode s) c (pending s) (shown s).
Definition with_use (s : state) (b : bool) (c : Z) : state :=
  mk_state (log_level s) b c (color_code s) (pending s) (shown s).
Definition set_log_level (l : LogLevel) (s : state) : state :=
  mk_state l (logger_in_use s) (logger_saved_colorcode s) (color_code s) (pending s) (shown s).
Definition init (s : state) : state := set_log_level LL_DEBUG s.

(** [k] bytes of the buffer go out. *)
Definition pass_on (k : nat) (s : state) : state :=
  mk_state (log_level s) (logger_in_use s) (logger_saved_colorcode s) (color_code s)
    (drop k (pending s)) (shown s ++ ((λ b, mk_cell b (color_code s)) <$> take k (pending s))).
Definition fflush (s : state) : state := pass_on (length (pending s)) s.

Record TimedLogger := mk_logger { name : Z; mute : bool; saved_colorcode : Z }.

Section Output.
(** How much the C library passes on when so much is in its buffer. *)
Variable passes : list Z -> nat.
Definition print (text : list Z) (s : state) : state :=
  let s := mk_state (log_level s) (logger_in_use s) (logger_saved_colorcode s) (color_code s)
             (pending s ++ text) (shown s) in
  pass_on (passes (pending s)) s.

(** [stamp] is the time as it is printed. *)
Definition make (colorcode name : Z) (mute : bool) (stamp : list Z) (s : state) : TimedLogger * state :=
  let saved := color_code s in
  if mute then (mk_logger name mute saved, s)
  else
    let '(saved, s) :=
      if negb (logger_in_use s) then (saved, with_use (with_color s colorcode) true saved)
      else (logger_saved_colorcode s, s) in
    let s := print stamp s in
    (mk_logger name mute saved, print ([91] ++ get_prefix name ++ [93; 32]) s).

Definition destroy (l : TimedLogger) (s : state) : state :=
  if mute l then s
  else
    let s := fflush s in
    let s := if logger_in_use s then with_use (with_color s (saved_colorcode l)) false (logger_saved_colorcode s) else s in
    print [10] s.

Definition get_logger (colorcode : Z) (level : LogLevel) (name : Z) (stamp : list Z) (s : state) : TimedLogger * state :=
  make colorcode name (rank (log_level s) <? rank level) stamp s.

(** The five kinds, and their colours. *)
Definition color_of (l : LogLevel) : Z :=
  match l with
  | LL_FATAL => VGA.generate VGA.White VGA.LightRed
  | LL_ERROR => VGA.generate VGA.LightRed VGA.Black
  | LL_WARN => VGA.generate VGA.Yellow VGA.Black
  | LL_INFO => VGA.generate VGA.Green VGA.Black
  | LL_DEBUG => VGA.generate VGA.DarkGray VGA.Black
  end.
Definition name_of (l : LogLevel) : Z :=
  match l with LL_FATAL => F | LL_ERROR => E | LL_WARN => W | LL_INFO => I | LL_DEBUG => D end.
(** [LFATAL ()] and its like. *)
Definition logger (l : LogLevel) (stamp : list Z) (s : state) : TimedLogger * state :=
  get_logger (color_of l) l (name_of l) stamp s.
(** [LFATAL (fmt, ...)] and its like; [text] is what [vprintf] makes of its arguments. *)
Definition message (l : LogLevel) (stamp text : list Z) (s : state) : state :=
  if rank (log_level s) <? rank l then s
  else
    let '(logger, s) := logger l stamp s in
    destroy logger (print text s).

(** [FunctionLoggerGuard]: what its two ends print. *)
Definition start : list Z := [32; 115; 116; 97; 114; 116].
Definition finished : list Z := [32; 100; 111; 110; 101].
Definition say (l : LogLevel) (stamp text : list Z) (s : state) : state :=
  let '(logger, s) := logger l stamp s in
  destroy logger (if negb (mute logger) then print text s else s).
Definition guard_enter (l : LogLevel) (func : list Z) (log_enter log_ret : bool) (stamp : list Z) (s : state) : state :=
  if log_enter then say l stamp (func ++ (if log_ret then start else [])) s else s.
Definition guard_leave (l : LogLevel) (func : list Z) (log_ret : bool) (stamp : list Z) (s : state) : state :=
  if log_ret then say l stamp (func ++ finished) s else s.

(** ** What a message looks like *)

Definition in_color (c : Z) (text : list Z) : list cell := (λ b, mk_cell b c) <$> text.

(** Between messages: no logger is alive. *)
Definition idle (s : state) : Prop := logger_in_use s = false.

(** Everything that was printed, seen or not, when what waits will come out in [c]. *)
Definition output (c : Z) (s : state) : list cell := shown s ++ in_color c (pending s).

Lemma in_color_app c a b : in_color c (a ++ b) = in_color c a ++ in_color c b.
Proof. apply fmap_app. Qed.

(** Statics that printing leaves alone. *)
Definition same (s s' : state) : Prop :=
  log_level s' = log_level s /\ logger_in_use s' = logger_in_use s /\
  logger_saved_colorcode s' = logger_saved_colorcode s /\ color_code s' = color_code s.

Lemma print_spec text s : same s (print text s) /\ output (color_code s) (print text s) =
  output (color_code s) s ++ in_color (color_code s) text.
Proof.
  split; [done|]. unfold output, print, pass_on. cbn [shown pending color_code]. set (p := pending s ++ text).
  rewrite <- app_assoc. fold (in_color (color_code s) (take (passes p) p)). rewrite <- in_color_app, take_drop.
  unfold p. by rewrite in_color_app, app_assoc.
Qed.

Lemma fflush_spec s : same s (fflush s) /\ pending (fflush s) = [] /\ shown (fflush s) = output (color_code s) s.
Proof.
  unfold fflush, pass_on. cbn [pending shown]. rewrite drop_all, take_ge by done. done.
Qed.

(** A logger's line, from a state where none is alive and nothing waits. *)
Lemma line_spec l stamp text s : idle s -> pending s = [] -> rank l <= rank (log_level s) ->
  let '(lg, s1) := logger l stamp s in
  let s' := destroy lg (print text s1) in
  mute lg = false /\ idle s' /\ log_level s' = log_level s /\ color_code s' = color_code s /\
  output (color_code s) s' =
    shown s ++ in_color (color_of l) (stamp ++ [91] ++ get_prefix (name_of l) ++ [93; 32] ++ text) ++ in_color (color_code s) [10].
Proof.
  intros Hi Hp Hl. unfold logger, get_logger, make. destruct (Z.ltb_spec (rank (log_level s)) (rank l)); [lia|].
  rewrite Hi. cbn [negb]. set (s0 := with_use (with_color s (color_of l)) true (color_code s)).
  destruct (print_spec stamp s0) as [(A1 & A2 & A3 & A4) O1]. set (s1 := print stamp s0) in *.
  destruct (print_spec ([91] ++ get_prefix (name_of l) ++ [93; 32]) s1) as [(B1 & B2 & B3 & B4) O2].
  set (s2 := print _ s1) in *. destruct (print_spec text s2) as [(C1 & C2 & C3 & C4) O3]. set (s3 := print text s2) in *.
  unfold destroy. cbn [mute saved_colorcode]. destruct (fflush_spec s3) as [(D1 & D2 & D3 & D4) [Hf Hs]].
  set (s4 := fflush s3) in *. rewrite D2, C2, B2, A2. change (logger_in_use s0) with true. cbv iota.
  set (s5 := with_use _ false _). destruct (print_spec [10] s5) as [(E1 & E2 & E3 & E4) O4]. set (s6 := print [10] s5) in *.
  assert (Ec : color_code s5 = color_code s) by done. rewrite Ec in *.
  split; [done|]. split; [exact E2|]. split; [rewrite E1; change (log_level s5) with (log_level s4); by rewrite D1, C1, B1, A1|].
  split; [exact E4|]. rewrite O4. unfold output at 1. change (pending s5) with (pending s4). change (shown s5) with (shown s4).
  rewrite Hf, Hs, C4, B4, A4 in *. change (color_code s0) with (color_of l) in *. rewrite O3, O2, O1. unfold output.
  change (pending s0) with (pending s). change (shown s0) with (shown s). rewrite Hp. unfold in_color.
  rewrite !fmap_nil, !app_nil_r, <- !app_assoc, !fmap_app, <- !app_assoc. done.
Qed.

(** A message appears in the colour of its level, or not at all.  When no logger is
    alive and nothing waits to come out, a message above the log level changes
    nothing; another comes out as one line: time, name of its level, text, all in the colour
    of the level however the C library buffers, then the end of the line in the colour
    there was before; afterwards that colour is back and no logger is
    alive.  The same holds for the two ends of a traced function. *)
Theorem message_is_colored l stamp text func s : idle s -> pending s = [] ->
  (rank (log_level s) < rank l ->
     message l stamp text s = s /\ guard_enter l func true true stamp s = s /\ guard_leave l func true stamp s = s) /\
  (rank l <= rank (log_level s) ->
     let line body s' := idle s' /\ log_level s' = log_level s /\ color_code s' = color_code s /\
       output (color_code s) s' =
         shown s ++ in_color (color_of l) (stamp ++ [91] ++ get_prefix (name_of l) ++ [93; 32] ++ body) ++
         in_color (color_code s) [10] in
     line text (message l stamp text s) /\ line (func ++ start) (guard_enter l func true true stamp s) /\
     line (func ++ finished) (guard_leave l func true stamp s)).
Proof.
  intros Hi Hp. split.
  - intros Hl. unfold message, guard_enter, guard_leave, say, logger, get_logger, make.
    destruct (Z.ltb_spec (rank (log_level s)) (rank l)); [|lia]. done.
  - intros Hl line. unfold message, guard_enter, guard_leave, say.
    destruct (Z.ltb_spec (rank (log_level s)) (rank l)); [lia|].
    pose proof (line_spec l stamp text s Hi Hp Hl) as H1. pose proof (line_spec l stamp (func ++ start) s Hi Hp Hl) as H2.
    pose proof (line_spec l stamp (func ++ finished) s Hi Hp Hl) as H3.
    destruct (logger l stamp s) as [lg s1]. destruct H1 as [_ H1], H2 as [Hm H2], H3 as [_ H3].
    rewrite Hm. cbn [negb]. by conj_split.
Qed.

End Output.

(** ** A library that passes on whole lines *)

Definition demo_passes (p : list Z) : nat := if existsb (Z.eqb 10) p then length p else 0%nat.
Definition demo : state := mk_state LL_INFO false 0 7 [] [].

Lemma message_is_colored_witness :
  message demo_passes LL_DEBUG [91; 49; 93] [104; 105] demo = demo /\
  output 7 (message demo_passes LL_WARN [91; 49; 93] [104; 105] demo) =
    in_color 14 [91; 49; 93; 91; 87; 65; 82; 78; 93; 32; 104; 105] ++ in_color 7 [10].
Proof.
  split.
  - apply (message_is_colored demo_passes LL_DEBUG [91; 49; 93] [104; 105] [] demo); done.
  - destruct (message_is_colored demo_passes LL_WARN [91; 49; 93] [104; 105] [] demo) as [_ H]; [done|done|].
    destruct H as ((_ & _ & _ & H) & _); [done|exact H].
Defined.

End Logger.
