(* ===== verification/Boot.v ===== *)
(** * Boot: what the machine says about itself

    [lib/multiboot2_loader.cpp]: the tags of the boot loader; [lib/acpi.cpp]: the ACPI
    tables; [lib/pic.cpp]: the two 8259 interrupt controllers.  The tables are read in
    physical memory, a function of the address. *)
From S2P Require Import Prelude Utils.
From S2P Require Import Memory.
From S2P Require Import Console.
From stdpp Require Import list gmap.

Module Boot.
Local Open Scope Z_scope.

Definition u8_at (m : Z -> Z) (a : Z) : Z := le_val (read_bytes m a 1).
Definition u32_at (m : Z -> Z) (a : Z) : Z := le_val (read_bytes m a 4).
Definition u64_at (m : Z -> Z) (a : Z) : Z := le_val (read_bytes m a 8).

(** ** Tags of the boot loader ([lib/multiboot2_loader.cpp]) *)

Module Multiboot.
Definition TAG_TYPE_END : Z := 0.
Definition TAG_TYPE_CMDLINE : Z := 1.
Definition TAG_TYPE_MMAP : Z := 6.
Definition HEADER_TAG_EFI_BS : Z := 7.
Definition TAG_TYPE_FRAMEBUFFER : Z := 8.
Definition TAG_TYPE_ACPI_OLD : Z := 14.
Definition TAG_TYPE_ACPI_NEW : Z := 15.
Definition MEMORY_AVAILABLE : Z := 1.
Definition FRAMEBUFFER_TYPE_RGB : Z := 1.
Definition MAX_LENGTH : Z := 256.

Record state := mk_state {
  memory : Memory.state; command_line : list Z; rsdp_addr : Z; framebuffer : Console.FrameBuffer.state }.
Definition with_memory (s : state) (m : Memory.state) : state :=
  mk_state m (command_line s) (rsdp_addr s) (framebuffer s).
Definition with_command_line (s : state) (c : list Z) : state :=
  mk_state (memory s) c (rsdp_addr s) (framebuffer s).
Definition set_rsdp_addr (addr : Z) (s : state) : state :=
  mk_state (memory s) (command_line s) addr (framebuffer s).
Definition with_framebuffer (s : state) (f : Console.FrameBuffer.state) : state :=
  mk_state (memory s) (command_line s) (rsdp_addr s) f.

(** [strncpy]: up to the zero, then zeros. *)
Fixpoint strncpy (m : Z -> Z) (src : Z) (n : nat) : list Z :=
  match n with
  | O => []
  | S n => if m src =? 0 then replicate (S n) 0 else m src :: strncpy m (src + 1) n
  end.

Section Load.
(** The memory of the boot loader, the end of the kernel's image, and a bound for
    the rounds of the inner loops. *)
Variables (m : Z -> Z) (ebss : Z) (rounds : nat).

(** The pages from [va] to [end_]; None is a failed assertion, or a loop that goes on. *)
Fixpoint register_loop (fuel : nat) (va end_ : Z) (s : Memory.state) : option Memory.state :=
  match fuel with
  | O => None
  | S fuel =>
      if va <? end_ then
        match Memory.register_available_huge_page va s with
        | None => None
        | Some s => register_loop fuel (u64 (va + Memory.HUGE_PAGE_SIZE)) end_ s
        end
      else Some s
  end.
Definition load_entry (e : Z) (s : Memory.state) : option Memory.state :=
  if u32_at m (e + 16) =? MEMORY_AVAILABLE then
    let start := Utils.round_up (u64_at m e) Memory.HUGE_PAGE_SIZE in
    let end_ := Utils.round_down (u64 (u64_at m e + u64_at m (e + 8))) Memory.HUGE_PAGE_SIZE in
    let start := if start <? ebss then Utils.round_up ebss Memory.HUGE_PAGE_SIZE else start in
    register_loop rounds start end_ s
  else Some s.
Fixpoint mmap_loop (fuel : nat) (e last entry_size : Z) (s : Memory.state) : option Memory.state :=
  match fuel with
  | O => None
  | S fuel =>
      if e =? last then Some s
      else
        match load_entry e s with
        | None => None
        | Some s => mmap_loop fuel (u64 (e + entry_size)) last entry_size s
        end
  end.
Definition load_mmap (mmap : Z) (s : Memory.state) : option Memory.state :=
  mmap_loop rounds (mmap + 16) (u64 (mmap + u32_at m (mmap + 4))) (u32_at m (mmap + 8)) s.

(** 800 by 600, 32 bits. *)
Definition supported (tag : Z) : bool :=
  (u32_at m (tag + 20) =? 800) && (u32_at m (tag + 24) =? 600) && (u8_at m (tag + 28) =? 32) &&
  (u32_at m (tag + 16) =? 800 * 4) && negb (u64_at m (tag + 8) =? 0) &&
  (u8_at m (tag + 29) =? FRAMEBUFFER_TYPE_RGB) && (u64_at m (tag + 8) <? 128 * 0x100000000).

(** The [switch]. *)
Definition load_tag (tag : Z) (s : state) : option state :=
  let type := u32_at m tag in
  if type =? TAG_TYPE_MMAP then
    match load_mmap tag (memory s) with Some mem => Some (with_memory s mem) | None => None end
  else if type =? TAG_TYPE_CMDLINE then
    Some (with_command_line s (strncpy m (tag + 8) (Z.to_nat (MAX_LENGTH - 1)) ++ zdrop (MAX_LENGTH - 1) (command_line s)))
  else if type =? TAG_TYPE_ACPI_OLD then Some (set_rsdp_addr (tag + 8) s)
  else if type =? TAG_TYPE_ACPI_NEW then Some (set_rsdp_addr (tag + 8) s)
  else if type =? HEADER_TAG_EFI_BS then Some s
  else if type =? TAG_TYPE_FRAMEBUFFER then
    if supported tag
    then Some (with_framebuffer s (Console.FrameBuffer.set_framebuffer_addr (u64_at m (tag + 8)) (framebuffer s)))
    else Some s
  else Some s.
Definition next_tag (tag : Z) : Z := u64 (tag + 8 * (u32 (u32_at m (tag + 4) + 7) / 8)).
Fixpoint load_loop (fuel : nat) (tag : Z) (s : state) : option state :=
  match fuel with
  | O => None
  | S fuel =>
      if u32_at m tag =? TAG_TYPE_END then Some s
      else
        match load_tag tag s with
        | None => None
        | Some s => load_loop fuel (next_tag tag) s
        end
  end.
Definition load (fuel : nat) (multiboot_addr : Z) (s : state) : option state :=
  load_loop fuel (multiboot_addr + 8) s.
End Load.
End Multiboot.

(** ** ACPI tables ([lib/acpi.cpp]) *)

Module ACPI.
(** The offsets of the fields read. *)
Definition RSDP_rsdt_addr_phys : Z := 16.
Definition HEADER_length : Z := 4.
Definition sizeof_RSDT : Z := 36.
Definition MADT_lapic_addr_phys : Z := 36.
Definition FADT_SMI_CommandPort : Z := 48.
Definition FADT_ACPI_Enable : Z := 52.
Definition FADT_PM1aControlBlock : Z := 64.
Definition APIC : list Z := [65; 80; 73; 67].
Definition FACP : list Z := [70; 65; 67; 80].

(** What [init] does in the end: it goes on with the table of the APIC and what it wrote
    to the ports, restarts the machine, fails its assertion, or never ends. *)
Inductive result := found (madt : Z) (outs : list (Z * Z)) | no_rsdp | no_madt | waits.

Section Init.
Variable m : Z -> Z.
(** [readings]: what the control port holds, reading after reading. *)
Fixpoint wait_enabled (readings : list Z) : bool :=
  match readings with
  | [] => false
  | v :: readings => if Z.land v 1 =? 0 then wait_enabled readings else true
  end.
Definition switch_to_acpi_mode (fadt : Z) (readings : list Z) : option (list (Z * Z)) :=
  if u32_at m (fadt + FADT_SMI_CommandPort) =? 0 then Some []
  else if u8_at m (fadt + FADT_ACPI_Enable) =? 0 then Some []
  else if wait_enabled readings then
    Some [(u32_at m (fadt + FADT_SMI_CommandPort), u8_at m (fadt + FADT_ACPI_Enable))]
  else None.

(** One round of the loop: [madt] and [fadt]. *)
Definition look (rsdt : Z) (t : Z * Z) (i : Z) : Z * Z :=
  let hdr := u32_at m (rsdt + sizeof_RSDT + 4 * i) in
  if bool_decide (read_bytes m hdr 4 = APIC) then (hdr, snd t)
  else if bool_decide (read_bytes m hdr 4 = FACP) then (fst t, hdr)
  else t.
Definition init (rsdp_addr : Z) (readings : list Z) : result :=
  if rsdp_addr =? 0 then no_rsdp
  else
    let rsdt := u32_at m (rsdp_addr + RSDP_rsdt_addr_phys) in
    let count := s32 (u64 (u32_at m (rsdt + HEADER_length) - sizeof_RSDT) / 4) in
    let '(madt, fadt) := fold_left (look rsdt) (seqZ 0 count) (0, 0) in
    if madt =? 0 then no_madt
    else if negb (fadt =? 0) then
      match switch_to_acpi_mode fadt readings with Some outs => found madt outs | None => waits end
    else found madt [].
Definition get_lapic_addr (madt : Z) : Z := u32_at m (madt + MADT_lapic_addr_phys).
End Init.
End ACPI.

(** ** The interrupt controllers ([lib/pic.cpp]) *)

Module PIC.
Definition IO_PIC1 : Z := 0x20.
Definition IO_PIC2 : Z := 0xA0.
Definition IRQ_SLAVE : Z := 2.
Definition IRQ_OFFSET : Z := 32.

Record state := mk_state { mask_8259A : Z; did_init : bool; outs : list (Z * Z) }.
Definition outb (port v : Z) (s : state) : state := mk_state (mask_8259A s) (did_init s) (outs s ++ [(port, u8 v)]).
Definition boot : state := mk_state (Z.land 0xFFFF (Z.lnot (Z.shiftl 1 IRQ_SLAVE))) false [].

Definition set_mask_8259A (mask : Z) (s : state) : state :=
  let s := mk_state mask (did_init s) (outs s) in
  if negb (did_init s) then s
  else outb (IO_PIC2 + 1) (Z.shiftr mask 8) (outb (IO_PIC1 + 1) mask s).
Definition eoi (s : state) : state := outb IO_PIC2 0x20 (outb IO_PIC1 0x20 s).
Definition enable (irq : Z) (s : state) : state :=
  set_mask_8259A (u16 (Z.land (mask_8259A s) (Z.lnot (Z.shiftl 1 irq)))) s.
Definition disable (irq : Z) (s : state) : state :=
  set_mask_8259A (u16 (Z.lor (mask_8259A s) (Z.shiftl 1 irq))) s.
Definition init (s : state) : state :=
  let s := mk_state (mask_8259A s) true (outs s) in
  let s := outb (IO_PIC2 + 1) 0xFF (outb (IO_PIC1 + 1) 0xFF s) in
  let s := outb IO_PIC1 0x11 s in
  let s := outb (IO_PIC1 + 1) IRQ_OFFSET s in
  let s := outb (IO_PIC1 + 1) (Z.shiftl 1 IRQ_SLAVE) s in
  let s := outb (IO_PIC1 + 1) 0x3 s in
  let s := outb IO_PIC2 0x11 s in
  let s := outb (IO_PIC2 + 1) (IRQ_OFFSET + 8) s in
  let s := outb (IO_PIC2 + 1) IRQ_SLAVE s in
  let s := outb (IO_PIC2 + 1) 0x01 s in
  let s := outb IO_PIC1 0x0a (outb IO_PIC1 0x68 s) in
  let s := outb IO_PIC2 0x0a (outb IO_PIC2 0x68 s) in
  if negb (mask_8259A s =? 0xFFFF) then set_mask_8259A (mask_8259A s) s else s.
End PIC.

(** ** The memory the kernel takes *)

Section Pages.
Variables (m : Z -> Z) (ebss : Z) (rounds : nat).
Hypothesis Hm : forall a, is_u8 (m a).
Hypothesis Hebss : 0 <= ebss < 2 ^ 62.
Hypothesis Hrounds : Memory.MAX_N_HUGE_PAGES < Z.of_nat rounds.

#[local] Notation "'HP'" := Memory.HUGE_PAGE_SIZE.
#[local] Notation "'pages' s" := (Memory.huge_page_map s) (at level 10, s at level 9).

Lemma u32_at_range a : is_u32 (u32_at m a).
Proof.
  unfold is_u32, u32_at. change 4294967296 with (256 ^ 4). apply (le_val_range (read_bytes m a 4)).
  apply Forall_fmap, Forall_forall. intros x _. apply Hm.
Qed.
Lemma u64_at_range a : is_u64 (u64_at m a).
Proof.
  unfold is_u64, u64_at. change 18446744073709551616 with (256 ^ 8). apply (le_val_range (read_bytes m a 8)).
  apply Forall_fmap, Forall_forall. intros x _. apply Hm.
Qed.

Lemma register_spec va s : va mod HP = 0 -> 0 <= va < Memory.MAX_MEMORY_SIZE -> exists s',
  Memory.register_available_huge_page va s = Some s' /\
  forall i, i ∈ pages s' <-> i ∈ pages s \/ HP * i = va /\ Memory.kernel_break <= va.
Proof.
  intros Ha Hr. unfold Memory.register_available_huge_page. rewrite Ha. change (0 =? 0) with true. cbn [negb].
  rewrite (proj2 (Z.ltb_lt _ _) (proj2 Hr)). cbn [negb].
  assert (Hi : forall i, HP * i = va <-> i = va / HP) by (unfold Memory.HUGE_PAGE_SIZE in *; intros; Z.to_euclidean_division_equations; lia).
  assert (Hn : u32 (va / HP) = va / HP).
  { apply u32_small. unfold is_u32, Memory.HUGE_PAGE_SIZE, Memory.MAX_MEMORY_SIZE in *. Z.to_euclidean_division_equations; lia. }
  rewrite Hn. destruct (Z.ltb_spec va Memory.kernel_break).
  { eexists. split; [reflexivity|]. intros i. split; [by left|]. intros [|[_ ?]]; [done|lia]. }
  destruct (bool_decide_reflect (va / HP ∈ pages s)) as [Hin|Hin]; (eexists; split; [reflexivity|]); intros i.
  - split; [by left|]. intros [|[E _]]; [done|]. apply Hi in E. by subst.
  - cbn [Memory.huge_page_map]. rewrite elem_of_union, elem_of_singleton, Hi. tauto.
Qed.

Lemma register_loop_spec fuel start end_ s : start mod HP = 0 -> end_ mod HP = 0 -> 0 <= start ->
  end_ <= Memory.MAX_MEMORY_SIZE -> end_ - start < HP * Z.of_nat fuel -> (0 < fuel)%nat -> exists s',
  Multiboot.register_loop fuel start end_ s = Some s' /\
  forall i, i ∈ pages s' <-> i ∈ pages s \/ start <= HP * i < end_ /\ Memory.kernel_break <= HP * i.
Proof.
  intros H1 H2 H3 H4. revert start s H1 H3. induction fuel as [|fuel IH]; intros start s H1 H3 Hf H0; [lia|].
  cbn [Multiboot.register_loop]. destruct (Z.ltb_spec start end_) as [Hl|Hl].
  2:{ exists s. split; [done|]. intros i. split; [by left|]. intros [|[? _]]; [done|lia]. }
  destruct (register_spec start s H1 ltac:(lia)) as (s1 & -> & P1).
  assert (Hn : u64 (start + HP) = start + HP).
  { apply u64_small. unfold is_u64, Memory.HUGE_PAGE_SIZE, Memory.MAX_MEMORY_SIZE in *. lia. }
  rewrite Hn. assert (Hs : start + HP <= end_) by (unfold Memory.HUGE_PAGE_SIZE in *; Z.to_euclidean_division_equations; lia).
  destruct (IH (start + HP) s1) as (s2 & -> & P2); [|unfold Memory.HUGE_PAGE_SIZE in *; lia..| |].
  { unfold Memory.HUGE_PAGE_SIZE in *. Z.to_euclidean_division_equations; lia. }
  { unfold Memory.HUGE_PAGE_SIZE in *. destruct fuel; lia. }
  exists s2. split; [done|]. intros i. rewrite P2, P1. unfold Memory.HUGE_PAGE_SIZE in *. split.
  - intros [[|[]]|[]]; [by left|right; lia|right; lia].
  - intros [|[? ?]]; [by left; left|]. destruct (Z.eq_dec (2097152 * i) start); [left; right; lia|right].
    split; [|done]. Z.to_euclidean_division_equations; lia.
Qed.

(** A whole page of available memory behind the kernel. *)
Definition covers (e i : Z) : Prop :=
  u32_at m (e + 16) = Multiboot.MEMORY_AVAILABLE /\ u64_at m e <= HP * i /\
  HP * (i + 1) <= u64_at m e + u64_at m (e + 8) /\ ebss <= HP * i /\ Memory.kernel_break <= HP * i.
(** Available memory is not above what the kernel can map. *)
Definition good_entry (e : Z) : Prop :=
  u32_at m (e + 16) = Multiboot.MEMORY_AVAILABLE -> u64_at m e + u64_at m (e + 8) <= Memory.MAX_MEMORY_SIZE.

Lemma load_entry_spec e s : good_entry e -> exists s', Multiboot.load_entry m ebss rounds e s = Some s' /\
  forall i, i ∈ pages s' <-> i ∈ pages s \/ covers e i.
Proof.
  intros Hg. unfold Multiboot.load_entry, covers. destruct (Z.eqb_spec (u32_at m (e + 16)) Multiboot.MEMORY_AVAILABLE) as [E|E].
  2:{ exists s. split; [done|]. intros i. tauto. }
  specialize (Hg E). pose proof (u64_at_range e) as Ha. pose proof (u64_at_range (e + 8)) as Hl.
  set (a := u64_at m e) in *. set (l := u64_at m (e + 8)) in *. clearbody a l.
  assert (Hmax : Memory.MAX_MEMORY_SIZE < 2 ^ 62) by done.
  assert (Hpos : 0 <= Memory.MAX_N_HUGE_PAGES) by done. unfold is_u64 in Ha, Hl.
  destruct (Utils.round_up_no_wrap a HP) as (U1 & U2 & U3 & U4); [unfold is_u64; lia|done|unfold Memory.HUGE_PAGE_SIZE; lia|].
  destruct (Utils.round_up_no_wrap ebss HP) as (V1 & V2 & V3 & V4); [unfold is_u64; lia|done|unfold Memory.HUGE_PAGE_SIZE; lia|].
  assert (W : Utils.round_down (u64 (a + l)) HP = (a + l) / HP * HP).
  { unfold Utils.round_down. rewrite (u64_small (a + l)) by (unfold is_u64; lia). apply u64_small.
    unfold is_u64, Memory.HUGE_PAGE_SIZE in *. Z.to_euclidean_division_equations; lia. }
  rewrite W. set (start := if Utils.round_up a HP <? ebss then _ else _).
  assert (Hs : start mod HP = 0 /\ 0 <= start /\ forall i, start <= HP * i <-> a <= HP * i /\ ebss <= HP * i).
  { subst start. destruct (Z.ltb_spec (Utils.round_up a HP) ebss); (split; [done|split; [lia|]]); intros i;
      unfold Memory.HUGE_PAGE_SIZE in *; Z.to_euclidean_division_equations; lia. }
  destruct Hs as (S1 & S2 & S3). clearbody start.
  destruct (register_loop_spec rounds start ((a + l) / HP * HP) s) as (s' & -> & P); [done|by apply Z.mod_mul|done| | |lia|].
  { unfold Memory.HUGE_PAGE_SIZE in *. Z.to_euclidean_division_equations; lia. }
  { assert (Memory.MAX_MEMORY_SIZE = 2097152 * Memory.MAX_N_HUGE_PAGES) by done. change HP with 2097152 in *.
    pose proof (Z.mul_div_le (a + l) 2097152 ltac:(lia)). lia. }
  exists s'. split; [done|]. intros i. rewrite P. specialize (S3 i).
  assert (HP * i < (a + l) / HP * HP <-> HP * (i + 1) <= a + l)
    by (unfold Memory.HUGE_PAGE_SIZE in *; Z.to_euclidean_division_equations; lia).
  tauto.
Qed.

(** A tag of [n] entries. *)
Definition entry (tag k : Z) : Z := tag + 16 + k * u32_at m (tag + 8).
Record good_mmap (tag n : Z) : Prop := {
  gm_size : u32_at m (tag + 4) = 16 + n * u32_at m (tag + 8);
  gm_entry : 0 < u32_at m (tag + 8);
  gm_count : 0 <= n < Z.of_nat rounds;
  gm_fits : 0 <= tag /\ tag + u32_at m (tag + 4) < 2 ^ 64;
  gm_good : forall k, 0 <= k < n -> good_entry (entry tag k) }.

Lemma mmap_loop_spec fuel tag n k s : good_mmap tag n -> 0 <= k <= n -> n - k < Z.of_nat fuel -> exists s',
  Multiboot.mmap_loop m ebss rounds fuel (entry tag k) (tag + u32_at m (tag + 4)) (u32_at m (tag + 8)) s = Some s' /\
  forall i, i ∈ pages s' <-> i ∈ pages s \/ exists k', k <= k' < n /\ covers (entry tag k') i.
Proof.
  intros [G1 G2 G3 G4 G5]. revert k s. induction fuel as [|fuel IH]; intros k s Hk Hf; [lia|]. cbn [Multiboot.mmap_loop].
  unfold entry at 1. destruct (Z.eqb_spec (tag + 16 + k * u32_at m (tag + 8)) (tag + u32_at m (tag + 4))) as [E|E].
  - assert (k = n) as -> by nia. exists s. split; [done|]. intros i. split; [by left|].
    intros [|(k' & ? & _)]; [done|lia].
  - assert (Hkn : k < n) by (destruct (Z.eq_dec k n) as [->|]; [|lia]; lia).
    destruct (load_entry_spec (entry tag k) s (G5 k ltac:(lia))) as (s1 & -> & P1).
    assert (Hn : u64 (entry tag k + u32_at m (tag + 8)) = entry tag (k + 1)).
    { unfold entry. rewrite u64_small by (unfold is_u64; nia). lia. }
    rewrite Hn. destruct (IH (k + 1) s1 ltac:(lia) ltac:(lia)) as (s2 & -> & P2). exists s2. split; [done|].
    intros i. rewrite P2, P1. split.
    + intros [[|]|(k' & ? & ?)]; [by left|right; exists k; split; [lia|done]|right; exists k'; split; [lia|done]].
    + intros [|(k' & ? & ?)]; [by left; left|]. destruct (Z.eq_dec k' k) as [->|]; [by left; right|].
      right. exists k'. split; [lia|done].
Qed.

(** ** The list of tags *)

(** [l] are the tags found from [tag] on. *)
Fixpoint chain (tag : Z) (l : list Z) : Prop :=
  match l with
  | [] => u32_at m tag = Multiboot.TAG_TYPE_END
  | a :: l => a = tag /\ u32_at m tag <> Multiboot.TAG_TYPE_END /\ chain (Multiboot.next_tag m tag) l
  end.
Definition good_tag (t : Z) : Prop := u32_at m t = Multiboot.TAG_TYPE_MMAP -> exists n, good_mmap t n.
Definition is_acpi (t : Z) : bool :=
  (u32_at m t =? Multiboot.TAG_TYPE_ACPI_OLD) || (u32_at m t =? Multiboot.TAG_TYPE_ACPI_NEW).
Definition is_screen (t : Z) : bool := (u32_at m t =? Multiboot.TAG_TYPE_FRAMEBUFFER) && Multiboot.supported m t.
Definition is_command (t : Z) : bool := u32_at m t =? Multiboot.TAG_TYPE_CMDLINE.
(** The memory a list of tags gives. *)
Definition gives (l : list Z) (i : Z) : Prop :=
  exists t k, t ∈ l /\ u32_at m t = Multiboot.TAG_TYPE_MMAP /\ 0 <= k /\
    16 + (k + 1) * u32_at m (t + 8) <= u32_at m (t + 4) /\ covers (entry t k) i.
(** The last tag of a kind. *)
Definition last_of (p : Z -> bool) (l : list Z) : option Z :=
  fold_left (λ o t, if p t then Some t else o) l None.

Lemma last_of_cons p t l : last_of p (t :: l) =
  match last_of p l with Some t' => Some t' | None => if p t then Some t else None end.
Proof.
  unfold last_of. cbn [fold_left]. generalize (if p t then Some t else None). clear t.
  induction l as [|t l IH]; intros o; [done|]. cbn [fold_left]. destruct (p t); [|apply IH].
  rewrite IH. by destruct (fold_left _ l None).
Qed.

Record loaded (l : list Z) (s s' : Multiboot.state) : Prop := {
  ld_pages : forall i, i ∈ pages (Multiboot.memory s') <-> i ∈ pages (Multiboot.memory s) \/ gives l i;
  ld_acpi : Multiboot.rsdp_addr s' = match last_of is_acpi l with Some t => t + 8 | None => Multiboot.rsdp_addr s end;
  ld_command : zlen (Multiboot.command_line s) = 256 -> Multiboot.command_line s' =
    match last_of is_command l with
    | Some t => Multiboot.strncpy m (t + 8) 255 ++ [zget 0 (Multiboot.command_line s) 255]
    | None => Multiboot.command_line s
    end;
  ld_screen : Multiboot.framebuffer s' =
    match last_of is_screen l with
    | Some t => Console.FrameBuffer.set_framebuffer_addr (u64_at m (t + 8)) (Multiboot.framebuffer s)
    | None => Multiboot.framebuffer s
    end }.

Lemma zlen_strncpy a n : zlen (Multiboot.strncpy m a n) = Z.of_nat n.
Proof.
  unfold zlen. f_equal. revert a. induction n as [|n IH]; intros a; [done|]. cbn [Multiboot.strncpy].
  destruct (_ =? 0); [apply length_replicate|]. cbn [length]. by rewrite IH.
Qed.
Lemma drop_255 (c : list Z) : zlen c = 256 -> zdrop 255 c = [zget 0 c 255].
Proof.
  intros Hc. unfold zdrop, zget, zlen in *. change (Z.to_nat 255) with 255%nat.
  destruct (drop 255 c) as [|x r] eqn:E; [apply (f_equal length) in E; rewrite length_drop in E; cbn in E; lia|].
  assert (Hr : r = []). { apply nil_length_inv. apply (f_equal length) in E. rewrite length_drop in E. cbn in E. lia. }
  subst r. f_equal. rewrite nth_lookup, <- (Nat.add_0_r 255), <- lookup_drop, E. done.
Qed.

Lemma load_tag_spec t s : good_tag t -> u32_at m t <> Multiboot.TAG_TYPE_END -> exists s',
  Multiboot.load_tag m ebss rounds t s = Some s' /\
  (forall i, i ∈ pages (Multiboot.memory s') <-> i ∈ pages (Multiboot.memory s) \/ gives [t] i) /\
  Multiboot.rsdp_addr s' = (if is_acpi t then t + 8 else Multiboot.rsdp_addr s) /\
  Multiboot.command_line s' = (if is_command t
    then Multiboot.strncpy m (t + 8) 255 ++ zdrop 255 (Multiboot.command_line s) else Multiboot.command_line s) /\
  Multiboot.framebuffer s' = (if is_screen t
    then Console.FrameBuffer.set_framebuffer_addr (u64_at m (t + 8)) (Multiboot.framebuffer s)
    else Multiboot.framebuffer s).
Proof.
  intros Hg _. unfold Multiboot.load_tag, is_acpi, is_command, is_screen, gives.
  assert (Hno : u32_at m t <> Multiboot.TAG_TYPE_MMAP -> forall (P : Prop) i, P <-> P \/ exists t' k, t' ∈ [t] /\
    u32_at m t' = Multiboot.TAG_TYPE_MMAP /\ 0 <= k /\ 16 + (k + 1) * u32_at m (t' + 8) <= u32_at m (t' + 4) /\ covers (entry t' k) i).
  { intros Hn P i. split; [by left|]. intros [|(t' & k & Ht & E & _)]; [done|].
    apply list_elem_of_singleton in Ht. by subst. }
  destruct (Z.eqb_spec (u32_at m t) Multiboot.TAG_TYPE_MMAP) as [E|E].
  - rewrite E in *. destruct (Hg E) as [n Hn]. unfold Multiboot.load_mmap.
    pose proof (mmap_loop_spec rounds t n 0 (Multiboot.memory s) Hn) as H. pose proof Hn as [G1 G2 G3 G4 G5].
    rewrite u64_small by (unfold is_u64; pose proof (u32_at_range (t + 4)) as R; unfold is_u32 in R; lia).
    destruct H as (mem & Em & P); [lia|lia|]. unfold entry at 1 in Em. rewrite Z.mul_0_l, Z.add_0_r in Em. rewrite Em.
    eexists. split; [reflexivity|]. cbn [Multiboot.memory Multiboot.with_memory].
    conj_split; [|done|done|done]. intros i. rewrite P. split; (intros [|H]; [by left|right]).
    + destruct H as (k & Hk & C). exists t, k. split; [by apply list_elem_of_singleton|]. split; [done|]. split; [lia|].
      split; [nia|done].
    + destruct H as (t' & k & Ht & _ & Hk & Hs & C). apply list_elem_of_singleton in Ht. subst t'.
      exists k. split; [nia|done].
  - specialize (Hno E). destruct (Z.eqb_spec (u32_at m t) Multiboot.TAG_TYPE_CMDLINE) as [->|E1].
    { eexists. split; [reflexivity|]. by conj_split. }
    destruct (Z.eqb_spec (u32_at m t) Multiboot.TAG_TYPE_ACPI_OLD) as [->|E2].
    { eexists. split; [reflexivity|]. by conj_split. }
    destruct (Z.eqb_spec (u32_at m t) Multiboot.TAG_TYPE_ACPI_NEW) as [->|E3].
    { eexists. split; [reflexivity|]. by conj_split. }
    destruct (Z.eqb_spec (u32_at m t) Multiboot.HEADER_TAG_EFI_BS) as [->|E4].
    { eexists. split; [reflexivity|]. by conj_split. }
    destruct (Z.eqb_spec (u32_at m t) Multiboot.TAG_TYPE_FRAMEBUFFER) as [E5|E5]; cbn [orb andb].
    2:{ eexists. split; [reflexivity|]. by conj_split. }
    destruct (Multiboot.supported m t); (eexists; split; [reflexivity|]; by conj_split).
Qed.

Lemma chain_loaded l fuel multiboot_addr s :
  chain (multiboot_addr + 8) l -> Forall good_tag l -> (length l < fuel)%nat ->
  zlen (Multiboot.command_line s) = 256 ->
  exists s', Multiboot.load m ebss rounds fuel multiboot_addr s = Some s' /\ loaded l s s'.
Proof.
  unfold Multiboot.load. generalize (multiboot_addr + 8). intros tag Hc Hg. revert tag fuel s Hc.
  induction Hg as [|t l Ht Hg IH]; intros tag fuel s Hc Hf H256; (destruct fuel as [|fuel]; [cbn in Hf; lia|]);
    cbn [Multiboot.load_loop chain] in *.
  { rewrite Hc, Z.eqb_refl. exists s. split; [done|]. constructor; try done. intros i. split; [by left|].
    intros [|(t & k & Hin & _)]; [done|]. by apply not_elem_of_nil in Hin. }
  destruct Hc as (<- & Hne & Hc). rewrite (proj2 (Z.eqb_neq _ _) Hne).
  destruct (load_tag_spec t s Ht Hne) as (s1 & -> & P1 & A1 & C1 & F1).
  assert (H1 : zlen (Multiboot.command_line s1) = 256).
  { rewrite C1. destruct (is_command t); [|done]. by rewrite zlen_app, zlen_strncpy, drop_255. }
  destruct (IH (Multiboot.next_tag m t) fuel s1 Hc ltac:(cbn in Hf; lia) H1) as (s2 & -> & [P2 A2 C2 F2]).
  exists s2. split; [done|]. constructor.
  - intros i. rewrite P2, P1. unfold gives. split.
    + intros [[|(t' & k & Hin & H)]|(t' & k & Hin & H)]; [by left| |].
      * apply list_elem_of_singleton in Hin. right. exists t', k. split; [subst; apply list_elem_of_here|done].
      * right. exists t', k. split; [by apply list_elem_of_further|done].
    + intros [|(t' & k & Hin & H)]; [by left; left|]. apply elem_of_cons in Hin as [->|Hin].
      * left. right. exists t, k. split; [by apply list_elem_of_singleton|done].
      * right. by exists t', k.
  - rewrite A2, A1, last_of_cons. by destruct (last_of is_acpi l); [|destruct (is_acpi t)].
  - intros _. rewrite C2, C1, last_of_cons by done. destruct (last_of is_command l) as [t'|] eqn:El.
    + do 2 f_equal. destruct (is_command t); [|done]. rewrite drop_255 by done.
      by rewrite Console.zget_snoc by (by rewrite zlen_strncpy).
    + destruct (is_command t); [by rewrite drop_255|done].
  - rewrite F2, F1, last_of_cons. by destruct (last_of is_screen l), (is_screen t).
Qed.

(** ** What a boot loader writes *)

(** A region of the memory map: where it begins, how long it is, of what type, and what
    follows in its entry. *)
Record region := mk_region { r_base : Z; r_length : Z; r_type : Z; r_rest : list Z }.
Inductive content :=
| Memory_map (entry_size version : Z) (regions : list region)
| Other (type : Z) (body : list Z).
(** A tag and the bytes up to the next multiple of eight. *)
Record tag := mk_tag { t_content : content; t_padding : list Z }.

Definition write_region (r : region) : list Z :=
  le_bytes 8 (r_base r) ++ le_bytes 8 (r_length r) ++ le_bytes 4 (r_type r) ++ r_rest r.
Definition tag_type (t : tag) : Z := match t_content t with Memory_map _ _ _ => Multiboot.TAG_TYPE_MMAP | Other type _ => type end.
Definition tag_body (t : tag) : list Z :=
  match t_content t with
  | Memory_map es v rs => le_bytes 4 es ++ le_bytes 4 v ++ (rs ≫= write_region)
  | Other _ body => body
  end.
Definition write_tag (t : tag) : list Z :=
  le_bytes 4 (tag_type t) ++ le_bytes 4 (8 + zlen (tag_body t)) ++ tag_body t ++ t_padding t.
Definition write_tags (ts : list tag) : list Z :=
  (ts ≫= write_tag) ++ le_bytes 4 Multiboot.TAG_TYPE_END ++ le_bytes 4 8.

(** What the kernel can map of a region that is called available. *)
Definition good_region (es : Z) (r : region) : Prop :=
  is_u64 (r_base r) /\ is_u64 (r_length r) /\ is_u32 (r_type r) /\ 20 + zlen (r_rest r) = es /\
  (r_type r = Multiboot.MEMORY_AVAILABLE -> r_base r + r_length r <= Memory.MAX_MEMORY_SIZE).
Definition good_content (c : content) : Prop :=
  match c with
  | Memory_map es v rs => is_u32 es /\ 0 < es /\ List.Forall (good_region es) rs /\ zlen rs < Z.of_nat rounds
  | Other type _ => is_u32 type /\ type <> Multiboot.TAG_TYPE_END /\ type <> Multiboot.TAG_TYPE_MMAP
  end.
Definition good (t : tag) : Prop :=
  good_content (t_content t) /\ zlen (tag_body t) < 2 ^ 32 - 16 /\ zlen (t_padding t) = (- zlen (tag_body t)) mod 8.

(** The addresses of tags written one behind the other. *)
Fixpoint addresses (a : Z) (ts : list tag) : list Z :=
  match ts with [] => [] | t :: ts => a :: addresses (a + zlen (write_tag t)) ts end.

(** Memory holds these bytes at [a]. *)
Definition holds (a : Z) (bs : list Z) : Prop := read_bytes m a (zlen bs) = bs.
Lemma holds_app a x y : holds a (x ++ y) <-> holds a x /\ holds (a + zlen x) y.
Proof.
  unfold holds. rewrite zlen_app. unfold zlen. rewrite read_bytes_app. split; [|by intros [-> ->]].
  intros E. apply app_inj_1 in E; [done|]. unfold read_bytes. rewrite length_fmap, length_seqZ. lia.
Qed.
Lemma holds_le n a z : holds a (le_bytes n z) -> 0 <= z < 256 ^ Z.of_nat n -> le_val (read_bytes m a (Z.of_nat n)) = z.
Proof. unfold holds. rewrite zlen_le_bytes. intros -> Hz. rewrite le_val_le_bytes. by apply Z.mod_small. Qed.
Lemma holds_u32 a z : holds a (le_bytes 4 z) -> is_u32 z -> u32_at m a = z.
Proof. intros H Hz. apply (holds_le 4 a z H). unfold is_u32 in Hz. change (256 ^ Z.of_nat 4) with 4294967296. lia. Qed.
Lemma holds_u64 a z : holds a (le_bytes 8 z) -> is_u64 z -> u64_at m a = z.
Proof. intros H Hz. apply (holds_le 8 a z H). unfold is_u64 in Hz. change (256 ^ Z.of_nat 8) with 18446744073709551616. lia. Qed.

(** The head of a tag, and where the next one begins. *)
Lemma tag_head a t : good t -> holds a (write_tag t) -> 0 <= a -> a + zlen (write_tag t) < 2 ^ 64 ->
  u32_at m a = tag_type t /\ u32_at m (a + 4) = 8 + zlen (tag_body t) /\ holds (a + 8) (tag_body t) /\
  Multiboot.next_tag m a = a + zlen (write_tag t).
Proof.
  intros (Hc & Hl & Hp) H Ha Hb. pose proof (zlen_nonneg (tag_body t)) as Hn.
  unfold write_tag in H. apply holds_app in H as [H1 H]. apply holds_app in H as [H2 H]. apply holds_app in H as [H3 _].
  rewrite zlen_le_bytes in H2, H3. rewrite zlen_le_bytes in H3. rewrite <- Z.add_assoc in H3.
  assert (Ht : is_u32 (tag_type t)) by (unfold tag_type; destruct (t_content t); [done|apply Hc]).
  apply holds_u32 in H1; [|done]. apply holds_u32 in H2; [|unfold is_u32; lia]. change (Z.of_nat 4) with 4 in H2, H3.
  split; [done|]. split; [done|]. split; [done|]. unfold Multiboot.next_tag. rewrite H2.
  rewrite u32_small by (unfold is_u32; lia). revert Hb. unfold write_tag. rewrite !zlen_app, !zlen_le_bytes, Hp. intros Hb.
  rewrite u64_small; unfold is_u64; Z.to_euclidean_division_equations; lia.
Qed.

Lemma zlen_regions es rs : List.Forall (good_region es) rs -> zlen (rs ≫= write_region) = zlen rs * es.
Proof.
  induction 1 as [|r rs (_ & _ & _ & Hr & _) _ IH]; [done|]. change ((r :: rs) ≫= write_region) with (write_region r ++ (rs ≫= write_region)).
  rewrite zlen_app, IH. unfold write_region. rewrite !zlen_app, !zlen_le_bytes. unfold zlen in *. cbn [length]. lia.
Qed.
Lemma region_held es rs a k r : List.Forall (good_region es) rs -> holds a (rs ≫= write_region) -> rs !! k = Some r ->
  holds (a + Z.of_nat k * es) (write_region r).
Proof.
  intros Hrs. revert a k. induction Hrs as [|x rs Hx Hrs IH]; intros a k H Hk; [done|].
  change ((x :: rs) ≫= write_region) with (write_region x ++ (rs ≫= write_region)) in H.
  apply holds_app in H as [H1 H2]. destruct k as [|k]; cbn in Hk.
  - injection Hk as <-. by rewrite Z.mul_0_l, Z.add_0_r.
  - assert (Hz : zlen (write_region x) = es).
    { destruct Hx as (_ & _ & _ & <- & _). unfold write_region. rewrite !zlen_app, !zlen_le_bytes. lia. }
    rewrite Hz in H2. replace (a + Z.of_nat (S k) * es) with (a + es + Z.of_nat k * es) by lia. by apply IH.
Qed.

(** The memory map of a boot loader can be read to its end. *)
Lemma good_memory_map a t : good t -> holds a (write_tag t) -> 0 <= a -> a + zlen (write_tag t) < 2 ^ 64 -> good_tag a.
Proof.
  intros Hg H Ha Hb. destruct (tag_head a t Hg H Ha Hb) as (E1 & E2 & H3 & _). unfold good_tag. rewrite E1.
  destruct Hg as (Hc & Hl & Hp). unfold tag_type in *. intros Em.
  destruct (t_content t) as [es v rs|type body] eqn:Et; [|by destruct Hc as (_ & _ & ?)]. destruct Hc as (Hes & Hpos & Hrs & Hcount).
  assert (Eb : tag_body t = le_bytes 4 es ++ le_bytes 4 v ++ (rs ≫= write_region)) by (unfold tag_body; by rewrite Et).
  rewrite Eb in E2, H3. rewrite !zlen_app, !zlen_le_bytes, (zlen_regions es) in E2 by done. change (Z.of_nat 4) with 4 in E2.
  apply holds_app in H3 as [H3 H4]. apply holds_app in H4 as [_ H4]. rewrite !zlen_le_bytes in H4. change (Z.of_nat 4) with 4 in H4.
  apply holds_u32 in H3; [|done]. replace (a + 8 + 4 + 4) with (a + 16) in H4 by lia.
  assert (Hz : zlen (write_tag t) = 8 + (8 + zlen rs * es) + zlen (t_padding t)).
  { unfold write_tag. rewrite Eb, !zlen_app, !zlen_le_bytes, (zlen_regions es) by done. lia. }
  pose proof (zlen_nonneg (t_padding t)) as Hpad. pose proof (zlen_nonneg rs) as Hrn.
  exists (zlen rs). constructor; rewrite ?E2, ?H3; try lia. intros k Hk.
  destruct (lookup_lt_is_Some_2 rs (Z.to_nat k)) as [r Hr]; [unfold zlen in Hk; lia|].
  pose proof (region_held es rs (a + 16) (Z.to_nat k) r Hrs H4 Hr) as Hw. rewrite Z2Nat.id in Hw by lia.
  assert (Hgr : good_region es r) by by apply (Forall_lookup_1 _ _ _ _ Hrs Hr).
  destruct Hgr as (R1 & R2 & R3 & _ & R5). unfold write_region in Hw.
  apply holds_app in Hw as [W1 Hw]. apply holds_app in Hw as [W2 Hw]. apply holds_app in Hw as [W3 _].
  rewrite zlen_le_bytes in W2. rewrite !zlen_le_bytes in W3. change (Z.of_nat 8) with 8 in W2, W3.
  apply holds_u64 in W1; [|done]. apply holds_u64 in W2; [|done]. apply holds_u32 in W3; [|done].
  unfold good_entry, entry. rewrite H3. replace (a + 16 + k * es + 16) with (a + 16 + k * es + 8 + 8) by lia.
  by rewrite W1, W2, W3.
Qed.

(** Tags that are written in memory are found there, and can be read. *)
Lemma tags_found ts : List.Forall good ts -> forall a, 0 <= a -> a + zlen (write_tags ts) < 2 ^ 64 -> holds a (write_tags ts) ->
  chain a (addresses a ts) /\ Forall good_tag (addresses a ts).
Proof.
  induction 1 as [|t ts Ht _ IH]; intros a Ha Hb H.
  - split; [|by constructor]. change (write_tags []) with (le_bytes 4 Multiboot.TAG_TYPE_END ++ le_bytes 4 8) in H.
    apply holds_app in H as [H _]. by apply holds_u32 in H.
  - unfold write_tags in *. change ((t :: ts) ≫= write_tag) with (write_tag t ++ (ts ≫= write_tag)) in *.
    rewrite <- app_assoc in Hb, H. rewrite zlen_app in Hb. apply holds_app in H as [H1 H2].
    pose proof (zlen_nonneg (write_tag t)) as Hn.
    match type of Hb with a + (_ + zlen ?x) < _ => pose proof (zlen_nonneg x) as Hn2 end.
    destruct (IH (a + zlen (write_tag t)) ltac:(lia) ltac:(lia) H2) as [C G].
    destruct (tag_head a t Ht H1 Ha ltac:(lia)) as (E1 & _ & _ & En). cbn [addresses chain]. split.
    + split; [done|]. rewrite E1, En. split; [|done]. destruct Ht as (Hc & _). unfold tag_type. destruct (t_content t); [done|apply Hc].
    + constructor; [|done]. apply (good_memory_map a t Ht H1 Ha). lia.
Qed.
Lemma length_addresses a ts : length (addresses a ts) = length ts.
Proof. revert a. induction ts as [|t ts IH]; intros a; cbn; [done|]. by rewrite IH. Qed.

Lemma information_loaded ts fuel multiboot_addr s : let a := multiboot_addr + 8 in
  List.Forall good ts -> 0 <= a -> a + zlen (write_tags ts) < 2 ^ 64 -> holds a (write_tags ts) ->
  (length ts < fuel)%nat -> zlen (Multiboot.command_line s) = 256 ->
  exists s', Multiboot.load m ebss rounds fuel multiboot_addr s = Some s' /\ loaded (addresses a ts) s s'.
Proof.
  intros a Hts Ha Hb H Hf Hc. destruct (tags_found ts Hts a Ha Hb H) as [C G].
  by apply chain_loaded; [| |rewrite length_addresses|].
Qed.

(** C31: What the boot loader says is taken, all of it and nothing else.  Let memory hold
    a list of tags as the Multiboot2 specification writes them, of any types, in any order
    and of any content, followed by the end tag; a memory map must have whole entries, and
    what it calls available must lie below the 511 GiB the kernel can map.  Then the walk
    over the tags ends after as many rounds as there are tags, no assertion fails, and the
    pages of 2 MiB the kernel may use are those it had and exactly those that lie as a
    whole in an available region, behind the image of the kernel and its own region;
    the ACPI tables, the command line (its first 255 bytes, followed by zeros) and the
    frame buffer are those of the last tag that gives one. *)
Theorem boot_information_is_taken ts fuel multiboot_addr s : let a := multiboot_addr + 8 in
  List.Forall good ts -> 0 <= a -> a + zlen (write_tags ts) < 2 ^ 64 -> holds a (write_tags ts) ->
  (length ts < fuel)%nat -> zlen (Multiboot.command_line s) = 256 ->
  exists s', Multiboot.load m ebss rounds fuel multiboot_addr s = Some s' /\ loaded (addresses a ts) s s'.
Proof. exact (information_loaded ts fuel multiboot_addr s). Qed.

End Pages.

(** ** The table of the interrupt controller *)

Section Tables.
Variable m : Z -> Z.
Definition signed (sig : list Z) (t : Z) : bool := bool_decide (read_bytes m t 4 = sig).
(** The tables the root table lists. *)
Definition tables (rsdt n : Z) : list Z := (λ i, u32_at m (rsdt + ACPI.sizeof_RSDT + 4 * i)) <$> seqZ 0 n.
Definition from_last (o : option Z) : Z := default 0 o.

Lemma look_all rsdt l t : fold_left (ACPI.look m rsdt) l t =
  (match last_of (signed ACPI.APIC) ((λ i, u32_at m (rsdt + ACPI.sizeof_RSDT + 4 * i)) <$> l) with Some a => a | None => fst t end,
   match last_of (signed ACPI.FACP) ((λ i, u32_at m (rsdt + ACPI.sizeof_RSDT + 4 * i)) <$> l) with Some a => a | None => snd t end).
Proof.
  revert t. induction l as [|i l IH]; intros t; [by destruct t|]. cbn [fold_left fmap list_fmap].
  rewrite IH, !last_of_cons. unfold ACPI.look. set (hdr := u32_at m (rsdt + ACPI.sizeof_RSDT + 4 * i)).
  unfold signed. destruct (bool_decide_reflect (read_bytes m hdr 4 = ACPI.APIC)) as [E|E];
    destruct (bool_decide_reflect (read_bytes m hdr 4 = ACPI.FACP)) as [E2|E2]; cbn [fst snd];
    [by rewrite E in E2|..]; by destruct (last_of _ _), (last_of _ _).
Qed.

Lemma wait_enabled_spec pre v rest : Forall (λ v, Z.land v 1 = 0) pre -> Z.land v 1 <> 0 ->
  ACPI.wait_enabled (pre ++ v :: rest) = true.
Proof.
  intros Hp Hv. induction Hp as [|x pre Hx _ IH]; cbn [app ACPI.wait_enabled]; [by rewrite (proj2 (Z.eqb_neq _ _) Hv)|].
  by rewrite Hx.
Qed.

(** The search of the ACPI tables.  With [n] tables listed, none of them at address
    zero, the last one signed "APIC" is taken; without one the assertion fails.  The
    machine is switched to ACPI mode exactly when a table signed "FACP" names a port and a
    command for it: the command is written to the port once, and the kernel waits for
    the first reading with the lowest bit set. *)
Theorem apic_table_is_found rsdp rsdt n readings :
  rsdp <> 0 -> rsdt = u32_at m (rsdp + ACPI.RSDP_rsdt_addr_phys) -> 0 <= n < 2 ^ 29 ->
  u32_at m (rsdt + ACPI.HEADER_length) = ACPI.sizeof_RSDT + 4 * n -> Forall (λ t, t <> 0) (tables rsdt n) ->
  let smi f := u32_at m (f + ACPI.FADT_SMI_CommandPort) in let command f := u8_at m (f + ACPI.FADT_ACPI_Enable) in
  match last_of (signed ACPI.APIC) (tables rsdt n), last_of (signed ACPI.FACP) (tables rsdt n) with
  | None, _ => ACPI.init m rsdp readings = ACPI.no_madt
  | Some t, None => ACPI.init m rsdp readings = ACPI.found t []
  | Some t, Some f =>
      (smi f = 0 \/ command f = 0 -> ACPI.init m rsdp readings = ACPI.found t []) /\
      (smi f <> 0 -> command f <> 0 -> forall pre v rest, readings = pre ++ v :: rest ->
         Forall (λ v, Z.land v 1 = 0) pre -> Z.land v 1 <> 0 ->
         ACPI.init m rsdp readings = ACPI.found t [(smi f, command f)])
  end.
Proof.
  intros Hr -> Hn Hl Hz. cbn zeta. unfold ACPI.init. rewrite (proj2 (Z.eqb_neq _ _) Hr).
  set (rsdt := u32_at m (rsdp + _)) in *.
  assert (Hc : s32 (u64 (u32_at m (rsdt + ACPI.HEADER_length) - ACPI.sizeof_RSDT) / 4) = n).
  { rewrite Hl. replace (ACPI.sizeof_RSDT + 4 * n - ACPI.sizeof_RSDT) with (n * 4) by lia.
    rewrite u64_small, Z.div_mul by (unfold is_u64; lia). apply s32_small. unfold is_s32. lia. }
  rewrite Hc, look_all. fold (tables rsdt n). cbn [fst snd].
  assert (Hin : forall sig t, last_of (signed sig) (tables rsdt n) = Some t -> t <> 0).
  { intros sig. generalize dependent (tables rsdt n). intros l Hl0. induction Hl0 as [|x l Hx _ IH]; intros t; [done|].
    rewrite last_of_cons. destruct (last_of (signed sig) l) as [t'|]; [intros [= <-]; by apply IH|].
    destruct (signed sig x); [|done]. by intros [= <-]. }
  destruct (last_of (signed ACPI.APIC) _) as [t|] eqn:Et; [|done].
  rewrite (proj2 (Z.eqb_neq t 0)) by (by apply Hin in Et).
  destruct (last_of (signed ACPI.FACP) _) as [f|] eqn:Ef; [|done].
  rewrite (proj2 (Z.eqb_neq f 0)) by (by apply Hin in Ef). cbn [negb]. unfold ACPI.switch_to_acpi_mode. split.
  - intros [-> | E]; [done|]. destruct (_ =? 0); [done|]. by rewrite E.
  - intros E1 E2 pre v rest -> Hp Hv. rewrite (proj2 (Z.eqb_neq _ _) E1), (proj2 (Z.eqb_neq _ _) E2).
    by rewrite wait_enabled_spec.
Qed.
End Tables.

(** ** The masks of the controllers *)

(** Calls after the set-up. *)
Inductive call := Enable (irq : Z) | Disable (irq : Z) | Eoi.
Definition perform (s : PIC.state) (c : call) : PIC.state :=
  match c with Enable irq => PIC.enable irq s | Disable irq => PIC.disable irq s | Eoi => PIC.eoi s end.
Definition valid (c : call) : Prop := match c with Enable irq | Disable irq => 0 <= irq < 16 | Eoi => True end.
(** Whether interrupt [i] is let through: at first that of the slave alone. *)
Definition lets_through (l : list call) (i : Z) : bool :=
  fold_left (λ b c, match c with
    | Enable irq => if irq =? i then true else b
    | Disable irq => if irq =? i then false else b
    | Eoi => b
    end) l (i =? PIC.IRQ_SLAVE).
(** What a controller has in its mask: the last write to its second port. *)
Definition last_write (port : Z) (outs : list (Z * Z)) : Z :=
  fold_left (λ v o, if fst o =? port then snd o else v) outs 0.

Lemma last_write_snoc port outs o : last_write port (outs ++ [o]) = if fst o =? port then snd o else last_write port outs.
Proof. unfold last_write. by rewrite fold_left_app. Qed.

Record masks (l : list call) (s : PIC.state) : Prop := {
  mk_init : PIC.did_init s = true;
  mk_mask : is_u16 (PIC.mask_8259A s) /\ forall i, 0 <= i < 16 -> Z.testbit (PIC.mask_8259A s) i = negb (lets_through l i);
  mk_ports : last_write (PIC.IO_PIC1 + 1) (PIC.outs s) = u8 (PIC.mask_8259A s) /\
    last_write (PIC.IO_PIC2 + 1) (PIC.outs s) = u8 (Z.shiftr (PIC.mask_8259A s) 8) }.

Lemma set_mask_spec l s mask : PIC.did_init s = true -> is_u16 mask ->
  (forall i, 0 <= i < 16 -> Z.testbit mask i = negb (lets_through l i)) -> masks l (PIC.set_mask_8259A mask s).
Proof.
  intros Hi Hm Hb. unfold PIC.set_mask_8259A. cbn [PIC.did_init]. rewrite Hi. cbn [negb].
  constructor; [done|by split|]. cbn [PIC.outb PIC.outs PIC.mask_8259A]. rewrite !last_write_snoc. done.
Qed.
Lemma perform_masks l s c : valid c -> masks l s -> masks (l ++ [c]) (perform s c).
Proof.
  intros Hv [Hi [Hm Hb] Hp].
  assert (Hbit : forall x i, 0 <= i < 16 -> Z.testbit (u16 x) i = Z.testbit x i).
  { intros x i Hx. unfold u16. change 65536 with (2 ^ 16). apply Z.mod_pow2_bits_low. lia. }
  assert (Hone : forall irq i, 0 <= irq -> 0 <= i -> Z.testbit (Z.shiftl 1 irq) i = (irq =? i)).
  { intros irq i H1 H2. rewrite Z.shiftl_1_l. by apply Z.pow2_bits_eqb. }
  destruct c as [irq|irq|]; cbn [perform valid] in *.
  - apply set_mask_spec; [done|apply u16_range|]. intros i Hx. rewrite Hbit, Z.land_spec, Z.lnot_spec, Hone, Hb by lia.
    unfold lets_through. rewrite fold_left_app. cbn [fold_left]. destruct (irq =? i); [apply andb_false_r|apply andb_true_r].
  - apply set_mask_spec; [done|apply u16_range|]. intros i Hx. rewrite Hbit, Z.lor_spec, Hone, Hb by lia.
    unfold lets_through. rewrite fold_left_app. cbn [fold_left]. destruct (irq =? i); [apply orb_true_r|apply orb_false_r].
  - constructor; [exact Hi| |].
    + split; [exact Hm|]. intros i Hx. rewrite Hb by done. unfold lets_through. by rewrite fold_left_app.
    + cbn [PIC.eoi PIC.outb PIC.outs PIC.mask_8259A]. rewrite !last_write_snoc. exact Hp.
Qed.

(** Interrupts are masked as asked.  After the set-up and any calls, the two
    controllers hold the mask of the kernel in two halves, and let an interrupt through
    exactly when the last call about it enabled it; the line of the slave is open
    from the start. *)
Theorem interrupts_are_masked l : Forall valid l -> let s := fold_left perform l (PIC.init PIC.boot) in
  forall i, 0 <= i < 16 ->
    Z.testbit (if i <? 8 then last_write 0x21 (PIC.outs s) else last_write 0xA1 (PIC.outs s)) (i mod 8) =
    negb (lets_through l i).
Proof.
  intros Hl. cbn zeta. assert (H : masks l (fold_left perform l (PIC.init PIC.boot))).
  { change l with ([] ++ l) at 1. assert (H0 : masks [] (PIC.init PIC.boot)).
    { constructor; [done| |done]. split; [done|]. intros i Hi.
      assert (Hc : forallb (λ i, Bool.eqb (Z.testbit (PIC.mask_8259A (PIC.init PIC.boot)) i) (negb (lets_through [] i))) (seqZ 0 16) = true)
        by reflexivity.
      rewrite forallb_forall in Hc. apply eqb_prop, Hc, list_elem_of_In, elem_of_seqZ. lia. }
    generalize dependent (PIC.init PIC.boot). generalize (@nil call) as pre.
    induction Hl as [|c l Hc _ IH]; intros pre s Hs; [by rewrite app_nil_r|]. cbn [fold_left].
    change (c :: l) with ([c] ++ l). rewrite app_assoc. by apply IH, perform_masks. }
  destruct H as [_ [_ Hb] [P1 P2]]. intros i Hi. change (PIC.IO_PIC1 + 1) with 0x21 in P1. change (PIC.IO_PIC2 + 1) with 0xA1 in P2.
  rewrite P1, P2, <- Hb by done. unfold u8. change 256 with (2 ^ 8). destruct (Z.ltb_spec i 8).
  - rewrite Z.mod_pow2_bits_low by (pose proof (Z.mod_pos_bound i 8); lia). by rewrite Z.mod_small by lia.
  - pose proof (Z.mod_pos_bound i 8 ltac:(lia)). rewrite Z.mod_pow2_bits_low, Z.shiftr_spec by lia.
    f_equal. Z.to_euclidean_division_equations; lia.
Qed.

(** ** A small machine *)

(** Two regions of memory, then a command line. *)
Definition demo_written : list tag :=
  [mk_tag (Memory_map 24 0 [mk_region 0 0x9fc00 1 (replicate 4 0); mk_region 0x100000 0x1ff00000 1 (replicate 4 0)]) [];
   mk_tag (Other 1 [97; 98; 0]) (replicate 5 0)].
Definition demo_tags : list Z := write_tags demo_written.
Definition demo_info : Z -> Z := write_bytes (λ _, 0) 0x9008 demo_tags.
Definition demo : Multiboot.state :=
  Multiboot.mk_state (Memory.mk_state ∅ 0 0 0 0 (λ _, 0) (λ _, 0) (λ _, 0)) (replicate 256 0) 0
    (Console.FrameBuffer.boot (λ _, 0)).

Lemma demo_bytes a : is_u8 (demo_info a).
Proof.
  unfold demo_info, write_bytes. destruct (_ && _); [|done]. apply zget_byte.
  apply bytesb_bytes. by vm_compute.
Qed.
Lemma demo_good : List.Forall (good (Z.to_nat 300000)) demo_written.
Proof.
  repeat apply List.Forall_cons; [..|apply List.Forall_nil]; (split; [|split; vm_compute; reflexivity]).
  - split; [unfold is_u32; lia|]. split; [reflexivity|]. split; [|vm_compute; reflexivity].
    repeat apply List.Forall_cons; [..|apply List.Forall_nil]; unfold good_region, is_u64, is_u32; cbn [r_base r_length r_type];
      conj_split; try lia; try reflexivity; by vm_compute.
  - split; [unfold is_u32; lia|]. by split.
Qed.
Lemma demo_holds : holds demo_info 0x9008 (write_tags demo_written).
Proof. by vm_compute. Qed.

Lemma boot_information_is_taken_witness : exists s',
  Multiboot.load demo_info 0x350000 (Z.to_nat 300000) 10 0x9000 demo = Some s' /\
  2 ∈ Memory.huge_page_map (Multiboot.memory s') /\
  Multiboot.command_line s' = [97; 98] ++ replicate 254 0.
Proof.
  destruct (boot_information_is_taken demo_info 0x350000 (Z.to_nat 300000) demo_bytes ltac:(lia) ltac:(by vm_compute)
    demo_written 10 0x9000 demo demo_good) as (s' & E & [P _ C _]); [lia|vm_compute; reflexivity|exact demo_holds|cbn; lia|reflexivity|].
  - exists s'. split; [exact E|]. split; [|rewrite C by reflexivity; reflexivity].
    apply P. right. exists 0x9008, 1. split; [apply list_elem_of_here|]. split; [reflexivity|]. split; [lia|].
    split; [vm_compute; discriminate|]. unfold covers. split; [reflexivity|].
    repeat split; vm_compute; discriminate.
Defined.

Definition demo_acpi : Z -> Z :=
  write_bytes (write_bytes (write_bytes (write_bytes (write_bytes (λ _, 0) 0x1010 (le_bytes 4 0x2000))
    0x2004 (le_bytes 4 44)) 0x2024 (le_bytes 4 0x3000 ++ le_bytes 4 0x4000)) 0x3000 ACPI.APIC)
    0x4000 (ACPI.FACP ++ replicate 44 0 ++ le_bytes 4 0xb2 ++ [0xa0]).

Lemma apic_table_is_found_witness : ACPI.init demo_acpi 0x1000 [0; 2; 3] = ACPI.found 0x3000 [(0xb2, 0xa0)].
Proof.
  pose proof (apic_table_is_found demo_acpi 0x1000 0x2000 2 [0; 2; 3]) as H.
  assert (E1 : last_of (signed demo_acpi ACPI.APIC) (tables demo_acpi 0x2000 2) = Some 0x3000) by (vm_compute; reflexivity).
  assert (E2 : last_of (signed demo_acpi ACPI.FACP) (tables demo_acpi 0x2000 2) = Some 0x4000) by (vm_compute; reflexivity).
  cbv zeta in H. rewrite E1, E2 in H. destruct H as [_ H]; [done|reflexivity|lia|reflexivity| |].
  - repeat apply Forall_cons_2; [vm_compute; discriminate|vm_compute; discriminate|apply Forall_nil_2].
  - apply (H ltac:(by vm_compute) ltac:(by vm_compute) [0; 2] 3 []); [reflexivity|by repeat constructor|done].
Defined.

Lemma interrupts_are_masked_witness :
  let s := fold_left perform [Enable 4; Disable 2; Enable 14; Eoi] (PIC.init PIC.boot) in
  Z.testbit (last_write 0x21 (PIC.outs s)) 4 = false /\ Z.testbit (last_write 0x21 (PIC.outs s)) 2 = true /\
  Z.testbit (last_write 0xA1 (PIC.outs s)) 6 = false.
Proof.
  pose proof (interrupts_are_masked [Enable 4; Disable 2; Enable 14; Eoi]) as H. cbv zeta in *.
  assert (Hv : Forall valid [Enable 4; Disable 2; Enable 14; Eoi]) by (repeat apply Forall_cons_2; try apply Forall_nil_2; cbn; lia || done).
  specialize (H Hv). split; [exact (H 4 ltac:(lia))|]. split; [exact (H 2 ltac:(lia))|exact (H 14 ltac:(lia))].
Defined.

End Boot.
