(* ===== verification/Trap.v ===== *)
(** * Trap: running a program in user mode ([kern/trap.cpp])

    The descriptor tables, the frames, the handler of traps and what a run reports.
    The code that pushes and pops frames is assembly ([kern/trap_entry.S]): a frame
    is an argument, what is done with it is the outcome of the handler; the parts of
    that code that count timer interrupts and read the time-stamp counter are
    modelled, since the time limit and the measured time depend on them. *)
From S2P Require Import Prelude Utils Timer Memory.
From stdpp Require Import list.

Module Trap.
Local Open Scope Z_scope.

(** ** Frames *)

Record PushRegs := mk_regs {
  rcx : Z; rbx : Z; rbp : Z; rsi : Z; rdi : Z; r8 : Z; r9 : Z; r10 : Z; r11 : Z; r12 : Z; r13 : Z; r14 : Z; r15 : Z;
  tsc : Z; rax : Z; rdx : Z }.
Record Trapframe := mk_frame {
  fxstate : list Z; tf_fsbase : Z; tf_regs : PushRegs; tf_num : Z; tf_errorcode : Z;
  tf_rip : Z; tf_cs : Z; tf_rflags : Z; tf_rsp : Z; tf_ss : Z }.

Definition regs_tsc (v : Z) (r : PushRegs) : PushRegs :=
  mk_regs (rcx r) (rbx r) (rbp r) (rsi r) (rdi r) (r8 r) (r9 r) (r10 r) (r11 r) (r12 r) (r13 r) (r14 r) (r15 r)
    v (rax r) (rdx r).
Definition regs_rax (v : Z) (r : PushRegs) : PushRegs :=
  mk_regs (rcx r) (rbx r) (rbp r) (rsi r) (rdi r) (r8 r) (r9 r) (r10 r) (r11 r) (r12 r) (r13 r) (r14 r) (r15 r)
    (tsc r) v (rdx r).
Definition with_regs (f : PushRegs -> PushRegs) (t : Trapframe) : Trapframe :=
  mk_frame (fxstate t) (tf_fsbase t) (f (tf_regs t)) (tf_num t) (tf_errorcode t) (tf_rip t) (tf_cs t) (tf_rflags t)
    (tf_rsp t) (tf_ss t).
Definition with_rflags (v : Z) (t : Trapframe) : Trapframe :=
  mk_frame (fxstate t) (tf_fsbase t) (tf_regs t) (tf_num t) (tf_errorcode t) (tf_rip t) (tf_cs t) v (tf_rsp t) (tf_ss t).
Definition with_ss (v : Z) (t : Trapframe) : Trapframe :=
  mk_frame (fxstate t) (tf_fsbase t) (tf_regs t) (tf_num t) (tf_errorcode t) (tf_rip t) (tf_cs t) (tf_rflags t)
    (tf_rsp t) v.
(** [memset (&tf, 0, sizeof(tf))]. *)
Definition no_regs : PushRegs := mk_regs 0 0 0 0 0 0 0 0 0 0 0 0 0 0 0 0.
Definition no_frame : Trapframe := mk_frame (replicate 512 0) 0 no_regs 0 0 0 0 0 0 0.

(** ** Descriptor tables *)

Record InterruptDescriptor := mk_idt {
  ptr_low : Z; selector : Z; ist : Z; options : Z; ptr_mid : Z; ptr_high : Z; reserved : Z }.
Definition no_gate : InterruptDescriptor := mk_idt 0 0 0 0 0 0 0.
Definition with_options (v : Z) (d : InterruptDescriptor) : InterruptDescriptor :=
  mk_idt (ptr_low d) (selector d) (ist d) v (ptr_mid d) (ptr_high d) (reserved d).
Definition with_ist (v : Z) (d : InterruptDescriptor) : InterruptDescriptor :=
  mk_idt (ptr_low d) (selector d) v (options d) (ptr_mid d) (ptr_high d) (reserved d).

Record TaskState := mk_task { ts_rsp0 : Z; ts_ist : list Z; IOPB_offset : Z }.
Definition sizeof_TaskState : Z := 112.

Definition GDT_KERNEL_CS : Z := 8.
Definition GDT_KERNEL_SS : Z := 16.
Definition GDT_USER32_CS : Z := 24.
Definition GDT_USER_SS : Z := 32.
Definition GDT_USER_CS : Z := 40.
Definition GDT_USER32_SS : Z := 48.
Definition GDT_USER32_TLS : Z := 56.
Definition GDT_ESPFIX_SS : Z := 64.
Definition GDT_KERNEL32_CS : Z := 72.
Definition GDT_TSS : Z := 80.

Definition bit (k : Z) : Z := Z.shiftl 1 k.
Notation "a .| b" := (Z.lor a b) (at level 50, left associativity).

Section Tables.
(** The address of [task_state]. *)
Variable task_state_addr : Z.
Definition initial_gdt : list Z :=
  [0;
   bit 43 .| bit 44 .| bit 47 .| bit 53;
   bit 44 .| bit 47 .| bit 41;
   0x00cffa000000ffff;
   bit 44 .| bit 47 .| bit 41 .| Z.shiftl 3 45;
   bit 43 .| bit 44 .| bit 47 .| bit 53 .| Z.shiftl 3 45;
   0x00cff2000000ffff;
   0;
   0;
   0x00cf9a000000ffff;
   (sizeof_TaskState - 1) .| Z.shiftl (Z.land task_state_addr 0xffffff) 16 .| Z.shiftl 9 40 .| Z.shiftl 0 45 .|
     bit 47 .| bit 53 .| u64 (Z.shiftl (Z.shiftr task_state_addr 24) 56);
   Z.shiftr task_state_addr 32].
End Tables.

Definition STACK_SIZE : Z := 4096.
Definition TRAP_IRQ : Z := 32.
Definition TRAP_RUN_USER : Z := 233.
Definition TRAP_RUN_USER32 : Z := 234.
Definition TRAP_ABORT : Z := 253.
Definition TRAP_INVALID_SYSCALL : Z := 254.
Definition TRAP_SYSCALL : Z := 255.
Definition TRAP_SYSCALL32 : Z := 128.
Definition IRQ_TIMER : Z := 0.
Definition DUCK_sys_exit : Z := 60.
Definition DUCK_sys_exit_32 : Z := 1.
Definition DUCK_sys_set_thread_area : Z := 243.
(** Linux's numbers. *)
Definition SYS_tkill : Z := 200.
Definition EINVAL : Z := 22.
Definition EFAULT : Z := 14.

(** ** The machine

    The statics of the file, the APIC, and of the processor: the counter's
    adjustment, the data segment registers, and the registers that [init] sets. *)
Record state := mk_state {
  gdt : list Z; idt : list InterruptDescriptor; task_state : TaskState;
  tf_run_user : Trapframe; tf_from_user : Trapframe; tf_to_user : Trapframe;
  user_time_limit_ns : Z; trap_epc : Z; trap_cr2 : Z; espfix_new_kernel_rsp : Z; syscall_stack : Z;
  lapic : LAPIC.state; tsc_adjust : Z; data_segments : Z; msr : Z -> Z }.

Definition with_gdt (g : list Z) (s : state) : state :=
  mk_state g (idt s) (task_state s) (tf_run_user s) (tf_from_user s) (tf_to_user s) (user_time_limit_ns s) (trap_epc s)
    (trap_cr2 s) (espfix_new_kernel_rsp s) (syscall_stack s) (lapic s) (tsc_adjust s) (data_segments s) (msr s).
Definition with_idt (i : list InterruptDescriptor) (s : state) : state :=
  mk_state (gdt s) i (task_state s) (tf_run_user s) (tf_from_user s) (tf_to_user s) (user_time_limit_ns s) (trap_epc s)
    (trap_cr2 s) (espfix_new_kernel_rsp s) (syscall_stack s) (lapic s) (tsc_adjust s) (data_segments s) (msr s).
Definition with_task (t : TaskState) (stack : Z) (m : Z -> Z) (s : state) : state :=
  mk_state (gdt s) (idt s) t (tf_run_user s) (tf_from_user s) (tf_to_user s) (user_time_limit_ns s) (trap_epc s)
    (trap_cr2 s) (espfix_new_kernel_rsp s) stack (lapic s) (tsc_adjust s) (data_segments s) m.
Definition with_frames (run from : Trapframe) (epc cr2 : Z) (s : state) : state :=
  mk_state (gdt s) (idt s) (task_state s) run from (tf_to_user s) (user_time_limit_ns s) epc
    cr2 (espfix_new_kernel_rsp s) (syscall_stack s) (lapic s) (tsc_adjust s) (data_segments s) (msr s).
Definition with_to_user (t : Trapframe) (limit : Z) (s : state) : state :=
  mk_state (gdt s) (idt s) (task_state s) (tf_run_user s) (tf_from_user s) t limit (trap_epc s)
    (trap_cr2 s) (espfix_new_kernel_rsp s) (syscall_stack s) (lapic s) (tsc_adjust s) (data_segments s) (msr s).
Definition with_espfix (r : Z) (s : state) : state :=
  mk_state (gdt s) (idt s) (task_state s) (tf_run_user s) (tf_from_user s) (tf_to_user s) (user_time_limit_ns s) (trap_epc s)
    (trap_cr2 s) r (syscall_stack s) (lapic s) (tsc_adjust s) (data_segments s) (msr s).
Definition with_lapic (l : LAPIC.state) (s : state) : state :=
  mk_state (gdt s) (idt s) (task_state s) (tf_run_user s) (tf_from_user s) (tf_to_user s) (user_time_limit_ns s) (trap_epc s)
    (trap_cr2 s) (espfix_new_kernel_rsp s) (syscall_stack s) l (tsc_adjust s) (data_segments s) (msr s).
Definition with_adjust (a : Z) (s : state) : state :=
  mk_state (gdt s) (idt s) (task_state s) (tf_run_user s) (tf_from_user s) (tf_to_user s) (user_time_limit_ns s) (trap_epc s)
    (trap_cr2 s) (espfix_new_kernel_rsp s) (syscall_stack s) (lapic s) a (data_segments s) (msr s).
Definition with_segments (d : Z) (s : state) : state :=
  mk_state (gdt s) (idt s) (task_state s) (tf_run_user s) (tf_from_user s) (tf_to_user s) (user_time_limit_ns s) (trap_epc s)
    (trap_cr2 s) (espfix_new_kernel_rsp s) (syscall_stack s) (lapic s) (tsc_adjust s) d (msr s).

(** What the handler does in the end: go back to a frame, start the program, answer
    its system call, or start the machine anew. *)
Inductive next := trap_return (tf : Trapframe) | syscall_return | syscall_return_32 | trap_0x80_return (tf : Trapframe) | reboot.

(** The counter at the true time [c]; [wrmsr] of 0 to it moves the adjustment. *)
Definition rdtsc (c : Z) (s : state) : Z := u64 (c + tsc_adjust s).
Definition reset_tsc (c : Z) (s : state) : state := with_adjust (u64 (- c)) s.

Section Trap.
(** The entry points, as addresses: [__traps], [__trap_0x80_entry], [__syscall_entry];
    the interrupt stacks and the address of [task_state]; the clock frequencies. *)
Variables (traps : list Z) (trap_0x80_entry syscall_entry interrupt_stack : Z) (tm : Timer.state).

Definition set_idt (id addr : Z) (s : state) : state :=
  with_idt (zset (idt s) id
    (mk_idt (u16 addr) GDT_KERNEL_CS 0 (Z.shiftl 14 0 .| bit 7) (u16 (Z.shiftr addr 16)) (u32 (Z.shiftr addr 32)) 0)) s.
Definition set_options (id v : Z) (s : state) : state :=
  with_idt (zset (idt s) id (with_options (u8 v) (zget no_gate (idt s) id))) s.

(** The time limit, in interrupts of half a millisecond. *)
Definition timer_count (limit : Z) : Z :=
  let timer_cnt := limit / 500000 in u64 (timer_cnt + timer_cnt / 100 + 20).

(** None is a failed assertion of the timer. *)
Definition enter_user (tf : Trapframe) (num : Z) (s : state) : option (state * next) :=
  let s := with_frames tf (tf_from_user s) (trap_epc s) (trap_cr2 s) s in
  let s := with_gdt (zset (gdt s) (GDT_USER32_TLS / 8) 0) s in
  let s :=
    if num =? TRAP_RUN_USER32 then
      let s := with_segments (GDT_USER32_SS .| 3) s in
      let s := set_idt 0x80 trap_0x80_entry s in
      set_options 0x80 (options (zget no_gate (idt s) 0x80) .| Z.shiftl 3 5) s
    else
      let s := with_segments 0 s in
      set_idt 0x80 (zget 0 traps 0x80) s in
  let s' :=
    if negb (user_time_limit_ns s =? 0) then
      match LAPIC.timer_periodic_ns tm 500000 (timer_count (user_time_limit_ns s)) (lapic s) with
      | Some l => Some (with_lapic l s)
      | None => None
      end
    else Some s in
  match s' with
  | Some s => Some (s, if num =? TRAP_RUN_USER then syscall_return else syscall_return_32)
  | None => None
  end.

Definition stop_timer (s : state) : state := with_lapic (LAPIC.timer_disable (LAPIC.eoi (lapic s))) s.

(** [cr2] is what the register holds. *)
Definition trap_handler (tf : Trapframe) (cr2 : Z) (s : state) : option (state * next) :=
  let tf := with_regs (λ r, regs_tsc (u64 (tsc r - tsc_adjust s)) r) tf in
  let s := with_adjust 0 s in
  let num := s32 (tf_num tf) in
  if negb (Z.land (tf_cs tf) 3 =? 0) then
    let s := stop_timer s in
    let from := tf in
    let tf := with_regs (regs_rax (u64 num)) (tf_run_user s) in
    let tsc_subtract := tsc (tf_regs (tf_to_user s)) in
    let tf := with_regs (regs_tsc (u64 (tsc (tf_regs from) - tsc_subtract))) tf in
    let s := with_frames tf from (tf_rip from) cr2 s in
    Some (s, trap_return tf)
  else if num =? TRAP_IRQ + IRQ_TIMER then
    Some (stop_timer s, trap_return (with_rflags (Z.land (tf_rflags tf) (Z.lnot 0x200)) tf))
  else if (num =? TRAP_RUN_USER) || (num =? TRAP_RUN_USER32) then enter_user tf num s
  else Some (s, reboot).

Definition prepare_espfix (orig_rsp new_rsp : Z) (s : state) : state :=
  let base_addr := u64 (Z.shiftl (u64 (Z.shiftr orig_rsp 16 - Z.shiftr new_rsp 16)) 16) in
  let base_addr := u32 base_addr in
  let tmp := 0xffff in
  let tmp := tmp .| Z.shiftl (Z.land base_addr 0xffffff) 16 in
  let tmp := tmp .| u64 (Z.shiftl (Z.shiftr base_addr 24) 56) in
  let tmp := tmp .| 0x00cf920000000000 in
  let s := with_gdt (zset (gdt s) (GDT_ESPFIX_SS / 8) tmp) s in
  with_espfix (u32 (orig_rsp - base_addr)) s.

(** [user_desc] in the memory of the program: three words and, the structure being packed,
    one byte for the seven bits of flags, which are not looked at. *)
Definition sizeof_user_desc : Z := 13.
Definition word_at (m : Memory.state) (a : Z) : Z := le_val (read_bytes (Memory.user_mem m) a 4).
Definition tls_descriptor (base_addr limit : Z) : Z :=
  let tmp := Z.land limit 0xffff in
  let tmp := tmp .| Z.shiftl (Z.land base_addr 0xffffff) 16 in
  let tmp := tmp .| u64 (Z.shiftl (Z.shiftr base_addr 24) 56) in
  tmp .| 0x00cff20000000000.

Definition set_thread_area (desc : Z) (m : Memory.state) (s : state) : Memory.state * state * Z :=
  if negb (Memory.user_writable_check desc m) then (m, s, u64 (- EFAULT))
  else if negb (Memory.user_writable_check (u64 (desc + sizeof_user_desc - 1)) m) then (m, s, u64 (- EFAULT))
  else
    let entry_number := word_at m desc in
    if negb (entry_number =? u32 (-1)) && negb (entry_number =? GDT_USER32_TLS / 8) then (m, s, u64 (- EINVAL))
    else
      let s := with_gdt (zset (gdt s) (GDT_USER32_TLS / 8) (tls_descriptor (word_at m (desc + 4)) (word_at m (desc + 8)))) s in
      let m := Memory.with_user_mem m (write_bytes (Memory.user_mem m) desc (le_bytes 4 (GDT_USER32_TLS / 8))) in
      (m, s, 0).

(** [rip_addr] is the address of [tf->tf_rip], [m] the memory. *)
Definition trap_0x80_handler (tf : Trapframe) (rip_addr cr2 : Z) (m : Memory.state) (s : state)
    : option (Memory.state * state * next) :=
  let syscall_num := s32 (u32 (rax (tf_regs tf))) in
  if syscall_num =? DUCK_sys_set_thread_area then
    let desc := u32 (rbx (tf_regs tf)) in
    let s := prepare_espfix rip_addr (tf_rsp tf) s in
    let '(m, s, ret) := set_thread_area desc m s in
    let tf := with_ss (GDT_USER32_SS .| 3) (with_regs (regs_rax ret) tf) in
    Some (m, s, trap_0x80_return tf)
  else
    match trap_handler tf cr2 s with
    | Some (s, n) => Some (m, s, n)
    | None => None
    end.

(** ** [init] *)

Definition Efer : Z := 0xC0000080.
Definition Star : Z := 0xC0000081.
Definition LStar : Z := 0xC0000082.
Definition CStar : Z := 0xC0000083.
Definition SFMask : Z := 0xC0000084.
Definition TSC_ADJUST : Z := 0x3b.
Definition wrmsr (r v : Z) (m : Z -> Z) : Z -> Z := λ x, if x =? r then v else m x.

Definition init (s : state) : state :=
  let s := fold_left (λ s i, set_idt i (zget 0 traps i) s) (seqZ 0 256) s in
  let s := set_options 3 (options (zget no_gate (idt s) 3) .| Z.shiftl 3 5) s in
  let s := with_idt (zset (idt s) TRAP_RUN_USER (with_ist 7 (zget no_gate (idt s) TRAP_RUN_USER))) s in
  let rsp0 := u64 (interrupt_stack + STACK_SIZE) in
  let ists := fold_left (λ l i, zset l i (u64 (interrupt_stack + i * STACK_SIZE + STACK_SIZE))) (seqZ 1 7)
    (ts_ist (task_state s)) in
  let m := msr s in
  let m := wrmsr Efer (m Efer .| 1) m in
  let m := wrmsr LStar syscall_entry m in
  let m := wrmsr CStar syscall_entry m in
  let m := wrmsr Star (Z.shiftl GDT_KERNEL_CS 32 .| Z.shiftl GDT_USER32_CS 48) m in
  let m := wrmsr SFMask 0x200 m in
  with_task (mk_task rsp0 ists (u16 sizeof_TaskState)) rsp0 m s.

(** ** Runs *)

Definition make_trapframe (rflags rip rsp : Z) : Trapframe :=
  mk_frame (fxstate no_frame) 0 no_regs 0 0 rip (GDT_USER_CS .| 3) (Z.land rflags (Z.lnot 0x8d5) .| 0x200) rsp
    (GDT_USER_SS .| 3).
Definition make_trapframe_32 (rflags eip esp : Z) : Trapframe :=
  mk_frame (fxstate no_frame) 0 no_regs 0 0 eip (GDT_USER32_CS .| 3) (Z.land rflags (Z.lnot 0x8d5) .| 0x200) esp
    (GDT_USER32_SS .| 3).

(** [syscall_return_record_tsc]: the time [c] goes into the frame, then the counter is
    set to zero, at the time [c']. *)
Definition record_tsc (c c' : Z) (s : state) : state :=
  reset_tsc c' (with_to_user (with_regs (regs_tsc (rdtsc c s)) (tf_to_user s)) (user_time_limit_ns s) s).

(** The interrupt of the timer, as long as the program runs: count down, and trap
    when the count is used up. *)
Definition timer_interrupt (s : state) : state * bool :=
  let cnt := u64 (LAPIC.lapic_timer_cnt (lapic s) - 1) in
  if cnt =? 0 then (s, true)
  else (with_lapic (LAPIC.eoi (LAPIC.mk_state (LAPIC.writes (lapic s)) cnt)) s, false).

(** A trap of the program: the frame, where it is, [cr2], and the memory the program
    has made. *)
Record event := mk_event { ev_tf : Trapframe; ev_rip_addr : Z; ev_cr2 : Z; ev_mem : Memory.state }.

(** The traps of a 32-bit program until one goes back to the kernel; None is a
    program that never does. *)
Fixpoint traps32 (l : list event) (s : state) : option (Memory.state * state * Trapframe) :=
  match l with
  | [] => None
  | e :: l =>
      let r :=
        if s32 (tf_num (ev_tf e)) =? TRAP_SYSCALL32 then
          trap_0x80_handler (ev_tf e) (ev_rip_addr e) (ev_cr2 e) (ev_mem e) s
        else match trap_handler (ev_tf e) (ev_cr2 e) s with Some (s, n) => Some (ev_mem e, s, n) | None => None end in
      match r with
      | Some (m, s, trap_return tf) => Some (m, s, tf)
      | Some (_, s, trap_0x80_return _) => traps32 l s
      | _ => None
      end
  end.

(** What [run_user_64] gives back; the return code may stay unassigned. *)
Definition export_64 (s : state) (tf : Trapframe) : Z * Z * option Z :=
  let time := tsc (tf_regs (tf_run_user s)) in
  let trap_num := u8 (rax (tf_regs tf)) in
  let from := tf_regs (tf_from_user s) in
  if trap_num =? TRAP_SYSCALL then
    let syscall_num := s32 (rax from) in
    if syscall_num =? SYS_tkill then (time, TRAP_ABORT, None)
    else if negb (syscall_num =? DUCK_sys_exit) then (time, TRAP_INVALID_SYSCALL, Some 0)
    else (time, trap_num, Some (s32 (u32 (rdi from))))
  else (time, trap_num, Some 0).

Definition export_32 (s : state) (tf : Trapframe) : Z * Z * option Z :=
  let time := tsc (tf_regs (tf_run_user s)) in
  let trap_num := u8 (rax (tf_regs tf)) in
  let from := tf_regs (tf_from_user s) in
  if trap_num =? TRAP_SYSCALL32 then
    let trap_num := TRAP_SYSCALL in
    let syscall_num := s32 (u32 (rax from)) in
    if negb (syscall_num =? DUCK_sys_exit_32) then (time, TRAP_INVALID_SYSCALL, Some 0)
    else (time, trap_num, Some (s32 (u32 (rbx from))))
  else if trap_num =? TRAP_SYSCALL then (time, TRAP_INVALID_SYSCALL, Some 0)
  else (time, trap_num, Some 0).

(** [kf] is the frame of the kernel's own [int], [e] the trap of the program, [c] and
    [c'] the times of the start. *)
Definition run_user_64 (rflags entry rsp limit : Z) (kf : Trapframe) (c c' : Z) (e : event) (s : state)
    : option (state * (Z * Z * option Z)) :=
  let s := with_to_user (make_trapframe rflags entry rsp) limit s in
  match trap_handler kf 0 s with
  | Some (s, syscall_return) =>
      let s := record_tsc c c' s in
      match trap_handler (ev_tf e) (ev_cr2 e) s with
      | Some (s, trap_return tf) => Some (s, export_64 s tf)
      | _ => None
      end
  | _ => None
  end.

Definition run_user_32 (rflags entry esp limit : Z) (kf : Trapframe) (c c' : Z) (l : list event) (s : state)
    : option (Memory.state * state * (Z * Z * option Z)) :=
  let s := with_to_user (make_trapframe_32 rflags entry esp) limit s in
  match trap_handler kf 0 s with
  | Some (s, syscall_return_32) =>
      let s := record_tsc c c' s in
      match traps32 l s with
      | Some (m, s, tf) => Some (m, s, export_32 s tf)
      | None => None
      end
  | _ => None
  end.

End Trap.

(** ** Descriptors as the processor reads them *)

Definition field (w k n : Z) : Z := Z.land (Z.shiftr w k) (Z.ones n).
Record segment := mk_segment {
  seg_base : Z; seg_limit : Z; seg_type : Z; seg_code_or_data : bool; seg_dpl : Z; seg_present : bool;
  seg_long : bool; seg_32bit : bool; seg_in_pages : bool }.
Definition decode (w : Z) : segment :=
  mk_segment (field w 16 24 + field w 56 8 * 2 ^ 24) (field w 0 16 + field w 48 4 * 2 ^ 16) (field w 40 4)
    (Z.testbit w 44) (field w 45 2) (Z.testbit w 47) (Z.testbit w 53) (Z.testbit w 54) (Z.testbit w 55).
(** The base of a system descriptor of two words. *)
Definition system_base (lo hi : Z) : Z := seg_base (decode lo) + field hi 0 32 * 2 ^ 32.

Definition gate_address (d : InterruptDescriptor) : Z := ptr_low d + ptr_mid d * 2 ^ 16 + ptr_high d * 2 ^ 32.
Definition gate_dpl (d : InterruptDescriptor) : Z := field (options d) 5 2.
(** A present interrupt gate, which turns interrupts off. *)
Definition is_gate (d : InterruptDescriptor) : Prop := Z.land (options d) 0x9f = 0x8e /\ selector d = GDT_KERNEL_CS.

Lemma field_spec w k n : 0 <= k -> 0 <= n -> field w k n = w / 2 ^ k mod 2 ^ n.
Proof. intros Hk Hn. unfold field. by rewrite Z.land_ones, Z.shiftr_div_pow2. Qed.

(** A descriptor whose words 40 to 55 are [f]. *)
Lemma descriptor_sum base lim f : is_u32 base -> 0 <= lim < 65536 -> 0 <= f < 65536 ->
  lim .| Z.shiftl (Z.land base 0xffffff) 16 .| u64 (Z.shiftl (Z.shiftr base 24) 56) .| Z.shiftl f 40 =
  lim + (base mod 2 ^ 24) * 2 ^ 16 + f * 2 ^ 40 + base / 2 ^ 24 * 2 ^ 56.
Proof.
  intros Hb Hl Hf. unfold is_u32 in Hb. change 0xffffff with (Z.ones 24).
  rewrite Z.land_ones, !Z.shiftl_mul_pow2, Z.shiftr_div_pow2 by lia.
  assert (Hm : 0 <= base mod 2 ^ 24 < 2 ^ 24) by (apply Z.mod_pos_bound; lia).
  assert (Hd : 0 <= base / 2 ^ 24 < 256) by (split; [apply Z.div_pos; lia|apply Z.div_lt_upper_bound; lia]).
  set (b := base mod 2 ^ 24) in *. set (h := base / 2 ^ 24) in *. clearbody b h.
  rewrite u64_small by (unfold is_u64; lia).
  rewrite (lor_add 16 lim) by (lia || (rewrite Z.mod_mul; lia)).
  rewrite (lor_add 56 (lim + b * 2 ^ 16) (h * 2 ^ 56)) by (lia || (rewrite Z.mod_mul; lia)).
  rewrite (Z.lor_comm _ (f * 2 ^ 40)).
  replace (f * 2 ^ 40 .| (lim + b * 2 ^ 16 + h * 2 ^ 56))
    with ((lim + b * 2 ^ 16) .| (f * 2 ^ 40 .| h * 2 ^ 56)).
  - rewrite (lor_add 56 (f * 2 ^ 40)) by (lia || (rewrite Z.mod_mul; lia)).
    rewrite (lor_add 40) by (lia || (replace (f * 2 ^ 40 + h * 2 ^ 56) with ((f + h * 2 ^ 16) * 2 ^ 40) by lia; rewrite Z.mod_mul; lia)).
    lia.
  - rewrite <- (lor_add 56 (lim + b * 2 ^ 16) (h * 2 ^ 56)) by (lia || (rewrite Z.mod_mul; lia)).
    by rewrite !Z.lor_assoc, (Z.lor_comm (f * 2 ^ 40)).
Qed.

Lemma decode_sum base lim f : is_u32 base -> 0 <= lim < 65536 -> 0 <= f < 65536 ->
  decode (lim + (base mod 2 ^ 24) * 2 ^ 16 + f * 2 ^ 40 + base / 2 ^ 24 * 2 ^ 56) =
  mk_segment base (lim + f / 2 ^ 8 mod 16 * 2 ^ 16) (f mod 16) (Z.testbit f 4) (f / 2 ^ 5 mod 4) (Z.testbit f 7)
    (Z.testbit f 13) (Z.testbit f 14) (Z.testbit f 15).
Proof.
  intros Hb Hl Hf. unfold is_u32 in Hb. unfold decode. rewrite !field_spec by lia.
  assert (Hm : 0 <= base mod 2 ^ 24 < 2 ^ 24) by (apply Z.mod_pos_bound; lia).
  assert (Hd : 0 <= base / 2 ^ 24 < 256) by (split; [apply Z.div_pos; lia|apply Z.div_lt_upper_bound; lia]).
  pose proof (Z.div_mod base (2 ^ 24) ltac:(lia)) as Eb.
  set (b := base mod 2 ^ 24) in *. set (h := base / 2 ^ 24) in *. clearbody b h.
  set (w := lim + b * 2 ^ 16 + f * 2 ^ 40 + h * 2 ^ 56).
  assert (Ht : forall k, 0 <= k < 16 -> Z.testbit w (40 + k) = Z.testbit f k).
  { intros k Hk. assert (Ew : w / 2 ^ 40 = f + h * 2 ^ 16) by (subst w; Z.to_euclidean_division_equations; lia).
    replace (40 + k) with (k + 40) by lia. rewrite <- Z.shiftr_spec, Z.shiftr_div_pow2, Ew by lia.
    rewrite <- (Z.mod_pow2_bits_low (f + h * 2 ^ 16) 16) by lia. f_equal. rewrite Z.mod_add by lia. by apply Z.mod_small. }
  rewrite (Ht 4 ltac:(lia) : Z.testbit w 44 = _), (Ht 7 ltac:(lia) : Z.testbit w 47 = _),
    (Ht 13 ltac:(lia) : Z.testbit w 53 = _), (Ht 14 ltac:(lia) : Z.testbit w 54 = _),
    (Ht 15 ltac:(lia) : Z.testbit w 55 = _).
  f_equal; subst w; Z.to_euclidean_division_equations; lia.
Qed.

Definition null_segment : segment := mk_segment 0 0 0 false 0 false false false false.
(** 64-bit code and flat 32-bit segments for the privilege level [dpl]. *)
Definition code64 (dpl : Z) : segment := mk_segment 0 0 8 true dpl true true false false.
Definition data64 (dpl : Z) : segment := mk_segment 0 0 2 true dpl true false false false.
Definition flat32 (base type dpl : Z) : segment := mk_segment base 0xfffff type true dpl true false true true.

Lemma tls_sum base limit : is_u32 base -> tls_descriptor base limit =
  limit mod 65536 + (base mod 2 ^ 24) * 2 ^ 16 + 0xcff2 * 2 ^ 40 + base / 2 ^ 24 * 2 ^ 56.
Proof.
  intros Hb. unfold tls_descriptor. change 0x00cff20000000000 with (Z.shiftl 0xcff2 40).
  change 0xffff with (Z.ones 16). rewrite (Z.land_ones limit) by lia.
  apply descriptor_sum; [done|by apply Z.mod_pos_bound|lia].
Qed.

Lemma decode_tls base limit : is_u32 base -> decode (tls_descriptor base limit) =
  mk_segment base (0xf0000 + limit mod 65536) 2 true 3 true false true true.
Proof.
  intros Hb. rewrite tls_sum, decode_sum by (done || (apply Z.mod_pos_bound; lia) || lia).
  change (0xcff2 / 2 ^ 8 mod 16 * 2 ^ 16) with 0xf0000. by rewrite Z.add_comm.
Qed.

Lemma decode_espfix base : is_u32 base ->
  decode (0xffff .| Z.shiftl (Z.land base 0xffffff) 16 .| u64 (Z.shiftl (Z.shiftr base 24) 56) .| 0x00cf920000000000) =
  flat32 base 2 0.
Proof.
  intros Hb. change 0x00cf920000000000 with (Z.shiftl 0xcf92 40).
  rewrite descriptor_sum, decode_sum by (done || lia). done.
Qed.

(** The two words of the task state give its whole address. *)
Lemma decode_task addr : is_u64 addr ->
  let lo := zget 0 (initial_gdt addr) (GDT_TSS / 8) in
  decode lo = mk_segment (addr mod 2 ^ 32) 111 9 false 0 true true false false /\
  system_base lo (zget 0 (initial_gdt addr) (GDT_TSS / 8 + 1)) = addr.
Proof.
  intros Ha. unfold is_u64 in Ha. pose proof (Z.mod_pos_bound addr (2 ^ 32) ltac:(lia)) as Hb.
  set (b := addr mod 2 ^ 32) in *. assert (Hu : is_u32 b) by (unfold is_u32; lia).
  assert (E : zget 0 (initial_gdt addr) (GDT_TSS / 8) =
    111 + (b mod 2 ^ 24) * 2 ^ 16 + 0x2089 * 2 ^ 40 + b / 2 ^ 24 * 2 ^ 56).
  { rewrite <- descriptor_sum by (done || lia).
    change (zget 0 (initial_gdt addr) (GDT_TSS / 8)) with
      (111 .| Z.shiftl (Z.land addr 0xffffff) 16 .| Z.shiftl 9 40 .| 0 .| bit 47 .| bit 53 .|
       u64 (Z.shiftl (Z.shiftr addr 24) 56)).
    change 0xffffff with (Z.ones 24). rewrite !Z.land_ones by lia.
    assert (E1 : b mod 2 ^ 24 = addr mod 2 ^ 24).
    { subst b. change (2 ^ 32) with (2 ^ 24 * 2 ^ 8). rewrite Z.rem_mul_r by lia.
      rewrite Z.mul_comm, Z.mod_add by lia. apply Z.mod_mod. lia. }
    assert (E2 : u64 (Z.shiftl (Z.shiftr b 24) 56) = u64 (Z.shiftl (Z.shiftr addr 24) 56)).
    { unfold u64. rewrite !Z.shiftl_mul_pow2, !Z.shiftr_div_pow2 by lia. subst b.
      Z.to_euclidean_division_equations; lia. }
    rewrite E1, E2. rewrite <- !Z.lor_assoc. do 2 f_equal.
    rewrite (Z.lor_comm _ (Z.shiftl 0x2089 40)), !Z.lor_assoc. reflexivity. }
  cbn zeta. rewrite E. assert (Ed : decode (111 + b mod 2 ^ 24 * 2 ^ 16 + 0x2089 * 2 ^ 40 + b / 2 ^ 24 * 2 ^ 56) =
    mk_segment b 111 9 false 0 true true false false) by (rewrite decode_sum by (done || lia); reflexivity).
  split; [exact Ed|]. unfold system_base. rewrite Ed. cbn [seg_base].
  change (zget 0 (initial_gdt addr) (GDT_TSS / 8 + 1)) with (Z.shiftr addr 32).
  rewrite field_spec, Z.shiftr_div_pow2 by lia. subst b. Z.to_euclidean_division_equations; lia.
Qed.

(** The descriptor tables say what they should.  Read as the processor reads them: the
    kernel and the user have a code and a data segment of 64 bits each, the user flat
    ones of 32 bits besides, each with its privilege level; the task state is found at
    its address; and what [set_thread_area] installs is a writable 32-bit data segment of the
    user at the base asked for.  Of its limit only the low 16 bits count: the segment
    always reaches more than 3.75 GB. *)
Theorem descriptors_are_right addr base limit : is_u64 addr -> is_u32 base ->
  decode <$> take 10 (initial_gdt addr) =
    [null_segment; code64 0; data64 0; flat32 0 10 3; data64 3; code64 3; flat32 0 2 3; null_segment; null_segment;
     flat32 0 10 0] /\
  (let lo := zget 0 (initial_gdt addr) (GDT_TSS / 8) in let hi := zget 0 (initial_gdt addr) (GDT_TSS / 8 + 1) in
   system_base lo hi = addr /\ seg_limit (decode lo) = sizeof_TaskState - 1 /\ seg_dpl (decode lo) = 0) /\
  decode (tls_descriptor base limit) = mk_segment base (0xf0000 + limit mod 65536) 2 true 3 true false true true.
Proof.
  intros Ha Hb. split; [reflexivity|]. split; [|by apply decode_tls].
  destruct (decode_task addr Ha) as [E1 E2]. cbn zeta in *. rewrite E1. split; [exact E2|done].
Qed.

(** ** The tables in every reachable state *)

Section Tables.
Variables (traps : list Z) (trap_0x80_entry syscall_entry interrupt_stack addr : Z) (tm : Timer.state).
Hypothesis Htraps : zlen traps = 256 /\ Forall is_u64 traps.
Hypothesis Hentry : is_u64 trap_0x80_entry.

(** A gate to [a] that code of privilege [dpl] and lower may call. *)
Definition gate_ok (a dpl stack : Z) (d : InterruptDescriptor) : Prop :=
  gate_address d = a /\ is_gate d /\ gate_dpl d = dpl /\ ist d = stack.

(** [user80]: whether system call 0x80 is open to the user. *)
Record tables (user80 : bool) (s : state) : Prop := {
  tb_gates : zlen (idt s) = 256 /\ forall i, 0 <= i < 256 ->
    gate_ok (if (i =? 0x80) && user80 then trap_0x80_entry else zget 0 traps i)
      (if (i =? 3) || (i =? 0x80) && user80 then 3 else 0) (if i =? TRAP_RUN_USER then 7 else 0)
      (zget no_gate (idt s) i);
  tb_segments : zlen (gdt s) = 12 /\ forall k, 0 <= k < 12 -> k <> GDT_USER32_TLS / 8 -> k <> GDT_ESPFIX_SS / 8 ->
    zget 0 (gdt s) k = zget 0 (initial_gdt addr) k;
  tb_tls : zget 0 (gdt s) (GDT_USER32_TLS / 8) = 0 \/
    exists base limit, is_u32 base /\ zget 0 (gdt s) (GDT_USER32_TLS / 8) = tls_descriptor base limit;
  tb_espfix : zget 0 (gdt s) (GDT_ESPFIX_SS / 8) = 0 \/
    exists base, decode (zget 0 (gdt s) (GDT_ESPFIX_SS / 8)) = flat32 base 2 0 }.

Lemma gate_split_address a : is_u64 a -> u16 a + u16 (Z.shiftr a 16) * 2 ^ 16 + u32 (Z.shiftr a 32) * 2 ^ 32 = a.
Proof.
  unfold is_u64, u16, u32. intros Ha. rewrite !Z.shiftr_div_pow2 by lia. Z.to_euclidean_division_equations; lia.
Qed.
Lemma set_idt_gate id a s : 0 <= id < zlen (idt s) -> is_u64 a ->
  gate_ok a 0 0 (zget no_gate (idt (set_idt id a s)) id).
Proof.
  intros Hid Ha. unfold set_idt. cbn [idt with_idt]. rewrite zget_zset_eq by done.
  split; [by apply gate_split_address|]. by split.
Qed.
Lemma set_idt_other id a s i : 0 <= id -> 0 <= i -> i <> id ->
  zget no_gate (idt (set_idt id a s)) i = zget no_gate (idt s) i.
Proof. intros. unfold set_idt. cbn [idt with_idt]. by rewrite zget_zset_ne by lia. Qed.
Lemma zlen_set_idt id a s : zlen (idt (set_idt id a s)) = zlen (idt s).
Proof. apply zlen_zset. Qed.

(** Opening a gate to the user. *)
Lemma open_gate d a stack : options d = 0x8e -> gate_ok a 0 stack d ->
  gate_ok a 3 stack (with_options (u8 (options d .| Z.shiftl 3 5)) d).
Proof. intros E (H1 & [_ H2] & _ & H3). rewrite E. by split. Qed.

Lemma traps_u64 i : is_u64 (zget 0 traps i).
Proof.
  destruct Htraps as [_ Hl]. unfold zget. destruct (Nat.lt_ge_cases (Z.to_nat i) (length traps)) as [Hi|Hi].
  - rewrite Forall_forall in Hl. apply Hl, list_elem_of_In, nth_In, Hi.
  - rewrite nth_overflow by done. unfold is_u64. lia.
Qed.

Lemma init_gates n s : (n <= 256)%nat -> zlen (idt s) = 256 ->
  let s' := fold_left (λ s i, set_idt i (zget 0 traps i) s) (seqZ 0 (Z.of_nat n)) s in
  zlen (idt s') = 256 /\ gdt s' = gdt s /\ forall i, 0 <= i < Z.of_nat n ->
    gate_ok (zget 0 traps i) 0 0 (zget no_gate (idt s') i) /\ options (zget no_gate (idt s') i) = 0x8e.
Proof.
  intros Hn Hs. induction n as [|n IH]; [split; [done|split; [done|lia]]|].
  rewrite seqZ_S, fold_left_app. cbn [fold_left Z.add].
  destruct IH as (H1 & H2 & H3); [lia|]. set (s1 := fold_left _ _ _) in *. cbn zeta.
  rewrite zlen_set_idt. split; [done|]. split; [exact H2|]. intros i Hi.
  destruct (Z.eq_dec i (Z.of_nat n)) as [->|Hne].
  - split; [apply set_idt_gate; [lia|apply traps_u64]|]. unfold set_idt. cbn [idt with_idt].
    by rewrite zget_zset_eq by lia.
  - rewrite set_idt_other by lia. apply H3. lia.
Qed.

Lemma init_tables s : zlen (idt s) = 256 -> gdt s = initial_gdt addr ->
  tables false (init traps syscall_entry interrupt_stack s).
Proof.
  intros Hs Hg. destruct (init_gates 256 s ltac:(lia) Hs) as (H1 & H2 & H3). cbn zeta in *. unfold init. cbn zeta.
  change (Z.of_nat 256) with 256 in *. set (s1 := fold_left _ _ s) in *. clearbody s1.
  set (s2 := set_options 3 _ s1).
  assert (L2 : zlen (idt s2) = 256) by (unfold s2, set_options; cbn [idt with_idt]; by rewrite zlen_zset).
  constructor; cbn [idt gdt with_task with_idt].
  - rewrite zlen_zset. split; [exact L2|]. intros i Hi. destruct (H3 i Hi) as [Hg1 Ho]. rewrite andb_false_r, orb_false_r.
    destruct (Z.eqb_spec i TRAP_RUN_USER) as [->|Hn].
    + rewrite zget_zset_eq by (unfold TRAP_RUN_USER; lia).
      assert (E : zget no_gate (idt s2) TRAP_RUN_USER = zget no_gate (idt s1) TRAP_RUN_USER).
      { unfold s2, set_options. cbn [idt with_idt]. rewrite zget_zset_ne; [done|lia|unfold TRAP_RUN_USER; lia|done]. }
      rewrite E. destruct Hg1 as (A & B & C & _). by split.
    + rewrite zget_zset_ne by (unfold TRAP_RUN_USER in *; lia). unfold s2, set_options. cbn [idt with_idt].
      destruct (Z.eqb_spec i 3) as [->|Hn3].
      * rewrite zget_zset_eq by lia. by apply open_gate.
      * by rewrite zget_zset_ne by lia.
  - unfold s2, set_options. cbn [gdt with_idt]. rewrite H2, Hg. by split.
  - left. unfold s2, set_options. cbn [gdt with_idt]. by rewrite H2, Hg.
  - left. unfold s2, set_options. cbn [gdt with_idt]. by rewrite H2, Hg.
Qed.

(** Steps that leave the two tables alone. *)
Lemma same_tables b s s' : gdt s' = gdt s -> idt s' = idt s -> tables b s -> tables b s'.
Proof. intros Eg Ei []. constructor; rewrite ?Eg, ?Ei; done. Qed.

Lemma enter_user_tables b tf num s s' n : tables b s -> enter_user traps trap_0x80_entry tm tf num s = Some (s', n) ->
  tables (num =? TRAP_RUN_USER32) s' /\
  n = (if num =? TRAP_RUN_USER then syscall_return else syscall_return_32).
Proof.
  intros [[T1 T2] [T3 T4] _ T5] E. unfold enter_user in E. cbn zeta in E.
  set (s1 := with_frames _ _ _ _ s) in *. set (s2 := with_gdt _ s1) in *.
  set (s3 := if num =? TRAP_RUN_USER32 then _ else _) in *.
  assert (H3 : tables (num =? TRAP_RUN_USER32) s3).
  { assert (Hg : gdt s3 = zset (gdt s) (GDT_USER32_TLS / 8) 0) by (unfold s3; by destruct (num =? TRAP_RUN_USER32)).
    constructor.
    - unfold s3. destruct (Z.eqb_spec num TRAP_RUN_USER32) as [->|Hn].
      + set (s4 := set_idt 0x80 _ _). unfold set_options. cbn [idt with_idt]. rewrite zlen_zset.
        split; [unfold s4; by rewrite zlen_set_idt|]. intros i Hi.
        destruct (Z.eqb_spec i 0x80) as [->|Hn]; cbn [andb orb].
        * rewrite zget_zset_eq by (unfold s4; rewrite zlen_set_idt; change (0 <= 0x80 < zlen (idt s)); lia).
          rewrite orb_true_r. apply open_gate.
          -- unfold s4, set_idt. cbn [idt with_idt]. rewrite zget_zset_eq by (change (0 <= 0x80 < zlen (idt s)); lia). done.
          -- apply set_idt_gate; [change (0 <= 0x80 < zlen (idt s)); lia|exact Hentry].
        * rewrite zget_zset_ne by lia. unfold s4. rewrite set_idt_other by lia. specialize (T2 i Hi).
          rewrite (proj2 (Z.eqb_neq i 0x80) Hn) in T2. exact T2.
      + rewrite zlen_set_idt. split; [exact T1|]. intros i Hi. rewrite andb_false_r, orb_false_r.
        destruct (Z.eqb_spec i 0x80) as [->|Hn2].
        * change (0x80 =? 3) with false. change (0x80 =? TRAP_RUN_USER) with false.
          apply set_idt_gate; [change (0 <= 0x80 < zlen (idt s)); lia|apply traps_u64].
        * rewrite set_idt_other by lia. specialize (T2 i Hi).
          rewrite (proj2 (Z.eqb_neq i 0x80) Hn2) in T2. cbn [andb] in T2. rewrite orb_false_r in T2. exact T2.
    - rewrite Hg, zlen_zset. split; [done|]. intros k Hk K1 K2. rewrite zget_zset_ne; [by apply T4|done|lia|auto].
    - rewrite Hg. left. apply zget_zset_eq. by rewrite T3.
    - rewrite Hg. by rewrite zget_zset_ne. }
  clearbody s3. destruct (negb _).
  - destruct (LAPIC.timer_periodic_ns _ _ _ _) as [l|]; [|done]. injection E as <- <-. split; [|done].
    by apply (same_tables _ s3).
  - injection E as <- <-. by split.
Qed.

(** Which programs' tables are in force after an outcome. *)
Definition open_after (b : bool) (n : next) : bool :=
  match n with syscall_return => false | syscall_return_32 => true | _ => b end.

Lemma trap_handler_tables b tf cr2 s s' n : tables b s ->
  trap_handler traps trap_0x80_entry tm tf cr2 s = Some (s', n) -> tables (open_after b n) s'.
Proof.
  intros Hs. unfold trap_handler. cbn zeta. set (tf1 := with_regs _ tf). destruct (negb _).
  { intros [= <- <-]. by apply (same_tables _ s). }
  destruct (_ =? TRAP_IRQ + IRQ_TIMER). { intros [= <- <-]. by apply (same_tables _ s). }
  destruct (Z.eqb_spec (s32 (tf_num tf1)) TRAP_RUN_USER) as [E1|N1].
  - cbn [orb]. intros H. apply (enter_user_tables b) in H as [H ->]; [|by apply (same_tables _ s)].
    rewrite E1 in *. exact H.
  - destruct (Z.eqb_spec (s32 (tf_num tf1)) TRAP_RUN_USER32) as [E2|N2]; cbn [orb].
    + intros H. apply (enter_user_tables b) in H as [H ->]; [|by apply (same_tables _ s)].
      rewrite E2 in *. exact H.
    + intros [= <- <-]. by apply (same_tables _ s).
Qed.

Lemma prepare_espfix_base orig new : exists base, is_u32 base /\ u32 (u64 (Z.shiftl (u64 (Z.shiftr orig 16 - Z.shiftr new 16)) 16)) = base.
Proof. eexists. split; [apply u32_range|done]. Qed.

Lemma trap_0x80_tables b tf a cr2 m s m' s' n : tables b s ->
  (forall x, is_u8 (Memory.user_mem m x)) ->
  trap_0x80_handler traps trap_0x80_entry tm tf a cr2 m s = Some (m', s', n) -> tables (open_after b n) s'.
Proof.
  intros Hs Hm. unfold trap_0x80_handler. destruct (_ =? _).
  - set (s1 := prepare_espfix _ _ s). assert (H1 : tables b s1).
    { destruct Hs as [T1 [T2 T3] T4 T5]. unfold s1, prepare_espfix. cbn zeta.
      destruct (prepare_espfix_base a (tf_rsp tf)) as (base & Hb & ->).
      constructor; cbn [idt gdt with_gdt with_espfix]; [done| | |].
      - rewrite zlen_zset. split; [done|]. intros k Hk K1 K2. rewrite zget_zset_ne; [by apply T3|done|lia|auto].
      - by rewrite zget_zset_ne.
      - right. exists base. rewrite zget_zset_eq by (by rewrite T2). by apply decode_espfix. }
    clearbody s1. unfold set_thread_area. set (desc := u32 _).
    do 2 (destruct (negb (Memory.user_writable_check _ m)); [intros [= <- <- <-]; exact H1|]).
    destruct (_ && _); [intros [= <- <- <-]; exact H1|]. intros [= <- <- <-].
    destruct H1 as [T1 [T2 T3] T4 T5]. constructor; cbn [idt gdt with_gdt]; [done| | |].
    + rewrite zlen_zset. split; [done|]. intros k Hk K1 K2. rewrite zget_zset_ne; [by apply T3|done|lia|auto].
    + right. exists (word_at m (desc + 4)), (word_at m (desc + 8)). split.
      * unfold word_at, is_u32. change 4294967296 with (256 ^ 4).
        apply (le_val_range (read_bytes (Memory.user_mem m) (desc + 4) 4)).
        apply Forall_fmap, Forall_forall. intros x _. apply Hm.
      * rewrite zget_zset_eq by (by rewrite T2). done.
    + by rewrite zget_zset_ne.
  - destruct (trap_handler _ _ _ _ _ _) as [[s1 n1]|] eqn:E; [|done]. intros [= <- <- <-].
    by apply (trap_handler_tables b) in E.
Qed.

(** What can happen: the set-up, then traps of any kind with any frame, interrupts of
    the timer, starts of programs. *)
Inductive reachable : bool -> state -> Prop :=
  | reach_init s : zlen (idt s) = 256 -> gdt s = initial_gdt addr ->
      reachable false (init traps syscall_entry interrupt_stack s)
  | reach_trap b s tf cr2 s' n : reachable b s -> trap_handler traps trap_0x80_entry tm tf cr2 s = Some (s', n) ->
      reachable (open_after b n) s'
  | reach_0x80 b s tf a cr2 m m' s' n : reachable b s -> (forall x, is_u8 (Memory.user_mem m x)) ->
      trap_0x80_handler traps trap_0x80_entry tm tf a cr2 m s = Some (m', s', n) -> reachable (open_after b n) s'
  | reach_timer b s : reachable b s -> reachable b (fst (timer_interrupt s))
  | reach_prepare b s tf limit : reachable b s -> reachable b (with_to_user tf limit s)
  | reach_start b s c c' : reachable b s -> reachable b (record_tsc c c' s).

(** C9: The user can enter the kernel only through the doors made for it.  In every state
    reached after the set-up, whatever traps happened with whatever frames and
    whatever programs asked for, all 256 gates are present interrupt gates to
    their own entry points in the kernel's segment; user code may call vector 3 and,
    exactly while the last program started is a 32-bit one, 0x80, and no other; and the
    segments are those of the set-up but for two: the one the user asked for, which has
    the user's privilege, and the one that hides the kernel's stack, which has the
    kernel's. *)
Theorem doors_stay_closed b s : reachable b s -> tables b s.
Proof.
  induction 1 as [s H1 H2|b s tf cr2 s' n _ IH E|b s tf a cr2 m m' s' n _ IH Hm E|b s _ IH|b s tf limit _ IH|b s c c' _ IH].
  - by apply init_tables.
  - by apply (trap_handler_tables b) in E.
  - by apply (trap_0x80_tables b) in E.
  - unfold timer_interrupt. destruct (_ =? 0); [done|]. by apply (same_tables _ s).
  - by apply (same_tables _ s).
  - by apply (same_tables _ s).
Qed.

End Tables.

(** ** What a run reports *)

Section Runs.
Variables (traps : list Z) (trap_0x80_entry : Z) (tm : Timer.state).
Hypothesis Htm : is_u32 (Timer.ext_freq tm).

(** The writes to the APIC when a program starts. *)
Definition timer_writes (limit : Z) : list (Z * Z) :=
  if limit =? 0 then [] else [(LAPIC.TIMER, u32 (LAPIC.PERIODIC .| (LAPIC.IRQ_OFFSET + LAPIC.IRQ_TIMER)));
    (LAPIC.TICR, u32 (LAPIC.ticks tm 500000))].

(** The start: [int] by the kernel. *)
Lemma start_spec kf num cr2 s : s32 (tf_num kf) = num -> num = TRAP_RUN_USER \/ num = TRAP_RUN_USER32 ->
  Z.land (tf_cs kf) 3 = 0 -> exists s', trap_handler traps trap_0x80_entry tm kf cr2 s =
    Some (s', if num =? TRAP_RUN_USER then syscall_return else syscall_return_32) /\
    tf_run_user s' = with_regs (λ r, regs_tsc (u64 (tsc r - tsc_adjust s)) r) kf /\
    tf_to_user s' = tf_to_user s /\ tsc_adjust s' = 0 /\ user_time_limit_ns s' = user_time_limit_ns s /\
    LAPIC.writes (lapic s') = LAPIC.writes (lapic s) ++ timer_writes (user_time_limit_ns s) /\
    (user_time_limit_ns s <> 0 -> LAPIC.lapic_timer_cnt (lapic s') = timer_count (user_time_limit_ns s)).
Proof.
  intros Hn Hnum Hcs. unfold trap_handler. cbn zeta. set (tf := with_regs _ kf).
  change (tf_cs tf) with (tf_cs kf). change (tf_num tf) with (tf_num kf). rewrite Hn, Hcs. cbn [Z.eqb negb].
  assert (Hb : (num =? TRAP_RUN_USER) || (num =? TRAP_RUN_USER32) = true) by (destruct Hnum as [-> | ->]; done).
  assert (Ht : (num =? TRAP_IRQ + IRQ_TIMER) = false) by (destruct Hnum as [-> | ->]; done). rewrite Ht, Hb.
  unfold enter_user. cbn zeta. set (s1 := with_gdt _ _). set (s2 := if num =? TRAP_RUN_USER32 then _ else _).
  assert (E : tf_run_user s2 = tf /\ tf_to_user s2 = tf_to_user s /\ tsc_adjust s2 = 0 /\
    user_time_limit_ns s2 = user_time_limit_ns s /\ lapic s2 = lapic s) by (unfold s2; by destruct (num =? TRAP_RUN_USER32)).
  destruct E as (E1 & E2 & E3 & E4 & E5). clearbody s2. rewrite E4, E5. unfold timer_writes.
  destruct (Z.eqb_spec (user_time_limit_ns s) 0) as [H0|H0]; cbn [negb].
  - eexists. split; [reflexivity|]. rewrite app_nil_r, E5. by conj_split.
  - unfold LAPIC.timer_periodic_ns. pose proof (LAPIC.ticks_small tm 500000 ltac:(lia) Htm) as Hk.
    rewrite (proj2 (Z.ltb_lt _ _) Hk). eexists. split; [reflexivity|].
    unfold LAPIC.lapicw. cbn [lapic with_lapic LAPIC.writes LAPIC.lapic_timer_cnt tf_run_user tf_to_user tsc_adjust
      user_time_limit_ns]. rewrite <- app_assoc. by conj_split.
Qed.

(** A trap from user code. *)
Lemma user_trap_spec tf cr2 s : Z.land (tf_cs tf) 3 <> 0 -> exists s' ret,
  trap_handler traps trap_0x80_entry tm tf cr2 s = Some (s', trap_return ret) /\
  tf_regs ret = regs_tsc (u64 (u64 (tsc (tf_regs tf) - tsc_adjust s) - tsc (tf_regs (tf_to_user s))))
    (regs_rax (u64 (s32 (tf_num tf))) (tf_regs (tf_run_user s))) /\
  tf_rip ret = tf_rip (tf_run_user s) /\ tf_cs ret = tf_cs (tf_run_user s) /\ tf_rsp ret = tf_rsp (tf_run_user s) /\
  tf_rflags ret = tf_rflags (tf_run_user s) /\ tf_run_user s' = ret /\
  tf_from_user s' = with_regs (λ r, regs_tsc (u64 (tsc r - tsc_adjust s)) r) tf /\
  trap_epc s' = tf_rip tf /\ trap_cr2 s' = cr2 /\ tsc_adjust s' = 0 /\
  LAPIC.writes (lapic s') = LAPIC.writes (lapic s) ++ [(LAPIC.EOI, 0); (LAPIC.TICR, u32 (-1))].
Proof.
  intros Hcs. unfold trap_handler. cbn zeta. change (tf_cs (with_regs _ tf)) with (tf_cs tf).
  rewrite (proj2 (Z.eqb_neq _ _) Hcs). cbn [negb]. eexists _, _. split; [reflexivity|].
  cbn [lapic with_frames stop_timer with_lapic LAPIC.timer_disable LAPIC.eoi LAPIC.lapicw LAPIC.writes].
  rewrite <- app_assoc. by conj_split.
Qed.

Lemma measured c c' c1 : u64 (u64 (u64 (c1 - c') - u64 (- c')) - u64 (c + 0)) = u64 (c1 - c).
Proof.
  rewrite u64_sub_l, u64_sub_r.
  replace (u64 (c1 - c') - u64 (- c') - (c + 0)) with (u64 (c1 - c') - (u64 (- c') + c)) by lia.
  rewrite u64_sub_l. replace (c1 - c' - (u64 (- c') + c)) with (c1 - c' - c - u64 (- c')) by lia.
  rewrite u64_sub_r. f_equal. lia.
Qed.

(** What the caller of the kernel's [int] gets back: its registers and its stack, with
    the number of the trap in [rax]. *)
Definition kernel_resumes (kf ret : Trapframe) (num : Z) : Prop :=
  tf_rip ret = tf_rip kf /\ tf_cs ret = tf_cs kf /\ tf_rsp ret = tf_rsp kf /\ tf_rflags ret = tf_rflags kf /\
  exists t, tf_regs ret = regs_tsc t (regs_rax num (tf_regs kf)).

(** What the calls in the middle of a run leave alone. *)
Definition same_run (s s' : state) : Prop :=
  tf_run_user s' = tf_run_user s /\ tf_to_user s' = tf_to_user s /\ tsc_adjust s' = tsc_adjust s /\ lapic s' = lapic s.

(** A run from the kernel's [int] to the trap that ends it. *)
Lemma run_core num kf c c' tf cr2 s1 c1 :
  s32 (tf_num kf) = num -> num = TRAP_RUN_USER \/ num = TRAP_RUN_USER32 -> Z.land (tf_cs kf) 3 = 0 ->
  Z.land (tf_cs tf) 3 <> 0 -> 0 <= tf_num tf < 256 -> tsc (tf_regs tf) = u64 (c1 - c') ->
  exists s2, trap_handler traps trap_0x80_entry tm kf 0 s1 =
      Some (s2, if num =? TRAP_RUN_USER then syscall_return else syscall_return_32) /\
  forall s3, same_run (record_tsc c c' s2) s3 -> exists s4 ret,
    trap_handler traps trap_0x80_entry tm tf cr2 s3 = Some (s4, trap_return ret) /\
    rax (tf_regs ret) = tf_num tf /\ tsc (tf_regs (tf_run_user s4)) = u64 (c1 - c) /\
    (exists t, tf_from_user s4 = with_regs (regs_tsc t) tf) /\ kernel_resumes kf (tf_run_user s4) (tf_num tf) /\
    trap_epc s4 = tf_rip tf /\ trap_cr2 s4 = cr2 /\ tsc_adjust s4 = 0 /\
    LAPIC.writes (lapic s4) = LAPIC.writes (lapic s1) ++ timer_writes (user_time_limit_ns s1) ++
      [(LAPIC.EOI, 0); (LAPIC.TICR, u32 (-1))].
Proof.
  intros Hk Hnum Hkc Huc Hr Htsc. destruct (start_spec kf _ 0 s1 Hk Hnum Hkc) as (s2 & E2 & R2 & U2 & A2 & L2 & W2 & _).
  exists s2. split; [exact E2|]. intros s3 (S1 & S2 & S3 & S4).
  destruct (user_trap_spec tf cr2 s3 Huc) as (s4 & ret & E4 & G & P1 & P2 & P3 & P4 & R4 & F4 & Q1 & Q2 & Q3 & Q4).
  rewrite S1, S2, S3 in *. rewrite S4 in Q4. change (lapic (record_tsc c c' s2)) with (lapic s2) in Q4.
  change (tsc_adjust (record_tsc c c' s2)) with (u64 (- c')) in *.
  change (tf_run_user (record_tsc c c' s2)) with (tf_run_user s2) in *.
  change (tf_to_user (record_tsc c c' s2)) with (with_regs (regs_tsc (rdtsc c s2)) (tf_to_user s2)) in G.
  cbn [tf_regs with_regs regs_tsc tsc] in G. unfold rdtsc in G. rewrite A2, Htsc, measured in G.
  assert (Hs32 : s32 (tf_num tf) = tf_num tf) by (apply s32_small; unfold is_s32; lia).
  rewrite Hs32, (u64_small (tf_num tf)) in G by (unfold is_u64; lia).
  exists s4, ret. rewrite R4, G, F4, Q4, W2, <- app_assoc. unfold kernel_resumes. rewrite P1, P2, P3, P4, G, R2.
  conj_split; try done; [by eexists|by exists (u64 (c1 - c))].
Qed.

Lemma s32_u32 x : s32 (u32 x) = s32 x.
Proof. unfold s32, u32. word_lia. Qed.

Lemma export_64_spec s ret time num : tsc (tf_regs (tf_run_user s)) = time -> rax (tf_regs ret) = num -> 0 <= num < 256 ->
  exists trap_num return_code, export_64 s ret = (time, trap_num, return_code) /\
    let call := s32 (rax (tf_regs (tf_from_user s))) in
    (num <> TRAP_SYSCALL -> trap_num = num /\ return_code = Some 0) /\
    (num = TRAP_SYSCALL -> call = DUCK_sys_exit ->
      trap_num = TRAP_SYSCALL /\ return_code = Some (s32 (rdi (tf_regs (tf_from_user s))))) /\
    (num = TRAP_SYSCALL -> call = SYS_tkill -> trap_num = TRAP_ABORT /\ return_code = None) /\
    (num = TRAP_SYSCALL -> call <> DUCK_sys_exit -> call <> SYS_tkill ->
      trap_num = TRAP_INVALID_SYSCALL /\ return_code = Some 0).
Proof.
  intros <- <- Hn. unfold export_64. cbn zeta. rewrite (Z.mod_small _ _ Hn : u8 _ = _).
  set (call := s32 _). set (num := rax _) in *. rewrite s32_u32.
  destruct (Z.eqb_spec num TRAP_SYSCALL) as [En|En];
    [destruct (Z.eqb_spec call SYS_tkill) as [Ec|Ec]; [|destruct (Z.eqb_spec call DUCK_sys_exit) as [Ex|Ex]]|];
    cbn [negb]; eexists _, _; (split; [reflexivity|]); conj_split; intros; try done;
    unfold TRAP_SYSCALL, DUCK_sys_exit, SYS_tkill in *; split; congruence || lia.
Qed.

Lemma export_32_spec s ret time num : tsc (tf_regs (tf_run_user s)) = time -> rax (tf_regs ret) = num -> 0 <= num < 256 ->
  exists trap_num return_code, export_32 s ret = (time, trap_num, Some return_code) /\
    let call := s32 (rax (tf_regs (tf_from_user s))) in
    (num <> TRAP_SYSCALL32 -> num <> TRAP_SYSCALL -> trap_num = num /\ return_code = 0) /\
    (num = TRAP_SYSCALL32 -> call = DUCK_sys_exit_32 ->
      trap_num = TRAP_SYSCALL /\ return_code = s32 (rbx (tf_regs (tf_from_user s)))) /\
    (num = TRAP_SYSCALL32 /\ call <> DUCK_sys_exit_32 \/ num = TRAP_SYSCALL ->
      trap_num = TRAP_INVALID_SYSCALL /\ return_code = 0).
Proof.
  intros <- <- Hn. unfold export_32. cbn zeta. rewrite (Z.mod_small _ _ Hn : u8 _ = _). rewrite !s32_u32.
  set (call := s32 (rax _)). set (num := rax _) in *.
  destruct (Z.eqb_spec num TRAP_SYSCALL32) as [En|En];
    [destruct (Z.eqb_spec call DUCK_sys_exit_32) as [Ex|Ex]|destruct (Z.eqb_spec num TRAP_SYSCALL) as [Es|Es]];
    cbn [negb]; eexists _, _; (split; [reflexivity|]); conj_split; intros; try done;
    unfold TRAP_SYSCALL32, TRAP_SYSCALL, DUCK_sys_exit_32 in *; split; congruence || lia.
Qed.

(** A run of a 64-bit program reports what happened.  The program stops with the trap
    [num]; its exit call ends with 255 and its code, a number of 32 bits; an
    abort ends with 253; any other system call ends with 254; any other trap with its own
    number.  The time is that between the start and the trap, although the program sees a
    counter that began at zero.  The kernel goes on where it was, the timer, which was
    set when there was a limit, is off, and the counter is the kernel's again. *)
Theorem run_64_reports rflags entry rsp limit kf c c' e s c1 :
  s32 (tf_num kf) = TRAP_RUN_USER -> Z.land (tf_cs kf) 3 = 0 ->
  Z.land (tf_cs (ev_tf e)) 3 <> 0 -> 0 <= tf_num (ev_tf e) < 256 -> tsc (tf_regs (ev_tf e)) = u64 (c1 - c') ->
  exists s' trap_num return_code,
    run_user_64 traps trap_0x80_entry tm rflags entry rsp limit kf c c' e s =
      Some (s', (u64 (c1 - c), trap_num, return_code)) /\
    (let num := tf_num (ev_tf e) in let call := s32 (rax (tf_regs (ev_tf e))) in
     (num <> TRAP_SYSCALL -> trap_num = num /\ return_code = Some 0) /\
     (num = TRAP_SYSCALL -> call = DUCK_sys_exit ->
        trap_num = TRAP_SYSCALL /\ return_code = Some (s32 (rdi (tf_regs (ev_tf e))))) /\
     (num = TRAP_SYSCALL -> call = SYS_tkill -> trap_num = TRAP_ABORT /\ return_code = None) /\
     (num = TRAP_SYSCALL -> call <> DUCK_sys_exit -> call <> SYS_tkill ->
        trap_num = TRAP_INVALID_SYSCALL /\ return_code = Some 0)) /\
    kernel_resumes kf (tf_run_user s') (tf_num (ev_tf e)) /\
    trap_epc s' = tf_rip (ev_tf e) /\ trap_cr2 s' = ev_cr2 e /\ tsc_adjust s' = 0 /\
    LAPIC.writes (lapic s') = LAPIC.writes (lapic s) ++ timer_writes limit ++ [(LAPIC.EOI, 0); (LAPIC.TICR, u32 (-1))].
Proof.
  intros Hk Hkc Huc Hnum Htsc. unfold run_user_64. cbn zeta.
  destruct (run_core _ kf c c' (ev_tf e) (ev_cr2 e) (with_to_user (make_trapframe rflags entry rsp) limit s) c1 Hk
    (or_introl eq_refl) Hkc Huc Hnum Htsc) as (s2 & -> & H). cbn [Z.eqb Pos.eqb TRAP_RUN_USER].
  destruct (H (record_tsc c c' s2)) as (s4 & ret & -> & X1 & X2 & (u & F) & X); [by conj_split|].
  destruct (export_64_spec s4 ret _ _ X2 X1 Hnum) as (trap_num & return_code & -> & Hx).
  rewrite F in Hx. exists s4, trap_num, return_code. split; [done|]. by split.
Qed.

(** *** 32-bit programs *)

Definition asks_for_area (e : event) : Prop :=
  tf_num (ev_tf e) = TRAP_SYSCALL32 /\ s32 (rax (tf_regs (ev_tf e))) = DUCK_sys_set_thread_area.

Lemma set_thread_area_same desc m s : same_run s (set_thread_area desc m s).1.2.
Proof. unfold set_thread_area. do 2 (destruct (negb _); [done|]). by destruct (_ && _). Qed.

Lemma area_call e s : asks_for_area e -> exists m s' tf,
  trap_0x80_handler traps trap_0x80_entry tm (ev_tf e) (ev_rip_addr e) (ev_cr2 e) (ev_mem e) s =
    Some (m, s', trap_0x80_return tf) /\ same_run s s'.
Proof.
  intros [_ Hc]. unfold trap_0x80_handler. rewrite s32_u32, Hc, Z.eqb_refl. set (s1 := prepare_espfix _ _ s).
  pose proof (set_thread_area_same (u32 (rbx (tf_regs (ev_tf e)))) (ev_mem e) s1) as H.
  destruct (set_thread_area _ _ s1) as [[m s2] ret]. eexists _, _, _. split; [reflexivity|]. exact H.
Qed.

Lemma traps32_area pre l s : Forall asks_for_area pre -> exists s',
  traps32 traps trap_0x80_entry tm (pre ++ l) s = traps32 traps trap_0x80_entry tm l s' /\ same_run s s'.
Proof.
  intros H. revert s. induction H as [|e pre He _ IH]; intros s; [by exists s|]. cbn [app traps32].
  pose proof He as [Hn _]. rewrite Hn. change (s32 TRAP_SYSCALL32 =? TRAP_SYSCALL32) with true. cbv iota.
  destruct (area_call e s He) as (m & s1 & tf & -> & A1 & A2 & A3 & A4). destruct (IH s1) as (s2 & E & B1 & B2 & B3 & B4).
  exists s2. split; [exact E|]. unfold same_run. rewrite B1, B2, B3, B4. by conj_split.
Qed.

(** The last trap, by whichever door. *)
Lemma last_trap e s : ~ asks_for_area e -> 0 <= tf_num (ev_tf e) < 256 ->
  traps32 traps trap_0x80_entry tm [e] s =
  match trap_handler traps trap_0x80_entry tm (ev_tf e) (ev_cr2 e) s with
  | Some (s', trap_return tf) => Some (ev_mem e, s', tf)
  | _ => None
  end.
Proof.
  intros Hn Hr. cbn [traps32]. rewrite s32_small by (unfold is_s32; lia).
  destruct (Z.eqb_spec (tf_num (ev_tf e)) TRAP_SYSCALL32) as [E|_].
  - unfold trap_0x80_handler. rewrite s32_u32. destruct (Z.eqb_spec (s32 (rax (tf_regs (ev_tf e)))) DUCK_sys_set_thread_area) as [E2|_];
      [by destruct Hn|].
    destruct (trap_handler _ _ _ _ _ s) as [[s' []]|]; done.
  - destruct (trap_handler _ _ _ _ _ s) as [[s' []]|]; done.
Qed.

(** The same for a run of a 32-bit program, which may ask for segments of its own as
    often as it likes before it stops: its exit call, through 0x80, ends with
    255 and its code; any other system call, and any use of the 64-bit door, with 254;
    any other trap with its own number. *)
Theorem run_32_reports rflags entry esp limit kf c c' pre e s c1 :
  s32 (tf_num kf) = TRAP_RUN_USER32 -> Z.land (tf_cs kf) 3 = 0 -> Forall asks_for_area pre -> ~ asks_for_area e ->
  Z.land (tf_cs (ev_tf e)) 3 <> 0 -> 0 <= tf_num (ev_tf e) < 256 -> tsc (tf_regs (ev_tf e)) = u64 (c1 - c') ->
  exists s' trap_num return_code,
    run_user_32 traps trap_0x80_entry tm rflags entry esp limit kf c c' (pre ++ [e]) s =
      Some (ev_mem e, s', (u64 (c1 - c), trap_num, Some return_code)) /\
    (let num := tf_num (ev_tf e) in let call := s32 (rax (tf_regs (ev_tf e))) in
     (num <> TRAP_SYSCALL32 -> num <> TRAP_SYSCALL -> trap_num = num /\ return_code = 0) /\
     (num = TRAP_SYSCALL32 -> call = DUCK_sys_exit_32 ->
        trap_num = TRAP_SYSCALL /\ return_code = s32 (rbx (tf_regs (ev_tf e)))) /\
     (num = TRAP_SYSCALL32 /\ call <> DUCK_sys_exit_32 \/ num = TRAP_SYSCALL ->
        trap_num = TRAP_INVALID_SYSCALL /\ return_code = 0)) /\
    kernel_resumes kf (tf_run_user s') (tf_num (ev_tf e)) /\
    trap_epc s' = tf_rip (ev_tf e) /\ trap_cr2 s' = ev_cr2 e /\ tsc_adjust s' = 0 /\
    LAPIC.writes (lapic s') = LAPIC.writes (lapic s) ++ timer_writes limit ++ [(LAPIC.EOI, 0); (LAPIC.TICR, u32 (-1))].
Proof.
  intros Hk Hkc Hpre He Huc Hnum Htsc. unfold run_user_32. cbn zeta.
  destruct (run_core _ kf c c' (ev_tf e) (ev_cr2 e) (with_to_user (make_trapframe_32 rflags entry esp) limit s) c1 Hk
    (or_intror eq_refl) Hkc Huc Hnum Htsc) as (s2 & -> & H). cbn [Z.eqb Pos.eqb TRAP_RUN_USER TRAP_RUN_USER32].
  destruct (traps32_area pre [e] (record_tsc c c' s2) Hpre) as (s3 & -> & S). rewrite last_trap by done.
  destruct (H s3 S) as (s4 & ret & -> & X1 & X2 & (u & F) & X).
  destruct (export_32_spec s4 ret _ _ X2 X1 Hnum) as (trap_num & return_code & -> & Hx).
  rewrite F in Hx. exists s4, trap_num, return_code. split; [done|]. by split.
Qed.

End Runs.

(** ** The segment a 32-bit program asks for *)

Lemma writable_between a b m x : 0 <= a -> a <= x <= b -> b < 2 ^ 48 -> b < a + Memory.PAGE_SIZE ->
  Memory.user_writable_check a m = true -> Memory.user_writable_check b m = true ->
  Memory.user_writable_check x m = true.
Proof.
  intros Ha Hx Hb Hp. unfold Memory.user_writable_check.
  destruct (Z.ltb_spec a Memory.kernel_break); [done|]. destruct (Z.leb_spec (Memory.vaddr_break m) a); [done|].
  destruct (Z.ltb_spec b Memory.kernel_break); [done|]. destruct (Z.leb_spec (Memory.vaddr_break m) b); [done|].
  destruct (Z.ltb_spec x Memory.kernel_break); [lia|]. destruct (Z.leb_spec (Memory.vaddr_break m) x); [lia|].
  rewrite !Memory.P1_slot_small by lia. unfold Memory.PAGE_SIZE in *.
  assert (E : x / 4096 = a / 4096 \/ x / 4096 = b / 4096) by (clear - Hx Hp; Z.to_euclidean_division_equations; lia).
  by destruct E as [-> | ->].
Qed.

(** C16: A program gets its segment only through memory it may write.  Whatever address it
    gives, the kernel changes at most the four bytes of the entry's number, and
    only if the 13 bytes of the descriptor lie in pages between the break of the kernel and the break
    of the virtual addresses that are the user's to write; otherwise it answers -EFAULT
    or -EINVAL and nothing changes.  On success the segment is the one
    described, and the program finds its number. *)
Theorem thread_area_is_checked desc m s m' s' ret : is_u32 desc -> zlen (gdt s) = 12 ->
  set_thread_area desc m s = (m', s', ret) ->
  (forall x, Memory.user_mem m' x <> Memory.user_mem m x ->
    desc <= x < desc + 4 /\ Memory.user_writable_check x m = true) /\
  m' = Memory.with_user_mem m (Memory.user_mem m') /\
  (ret = 0 /\ (forall x, desc <= x < desc + 13 -> Memory.user_writable_check x m = true) /\
      (word_at m desc = u32 (-1) \/ word_at m desc = 7) /\ word_at m' desc = 7 /\
      zget 0 (gdt s') 7 = tls_descriptor (word_at m (desc + 4)) (word_at m (desc + 8)) \/
   ret = u64 (- EFAULT) /\ m' = m /\ s' = s /\
      ~ (forall x, desc <= x < desc + 13 -> Memory.user_writable_check x m = true) \/
   ret = u64 (- EINVAL) /\ m' = m /\ s' = s /\ word_at m desc <> u32 (-1) /\ word_at m desc <> 7).
Proof.
  unfold is_u32, set_thread_area. intros Hd Hg.
  rewrite (u64_small (desc + sizeof_user_desc - 1)) by (unfold is_u64, sizeof_user_desc; lia).
  change (desc + sizeof_user_desc - 1) with (desc + 13 - 1). replace (desc + 13 - 1) with (desc + 12) by lia.
  assert (Hm : m = Memory.with_user_mem m (Memory.user_mem m)) by (by destruct m).
  destruct (Memory.user_writable_check desc m) eqn:E1; cbn [negb].
  2:{ intros [= <- <- <-]. conj_split; [done|done|]. right. left. conj_split; try done.
      intros H. by rewrite H in E1 by lia. }
  destruct (Memory.user_writable_check (desc + 12) m) eqn:E2; cbn [negb].
  2:{ intros [= <- <- <-]. conj_split; [done|done|]. right. left. conj_split; try done.
      intros H. by rewrite H in E2 by lia. }
  assert (Hw : forall x, desc <= x < desc + 13 -> Memory.user_writable_check x m = true).
  { intros x Hx. apply (writable_between desc (desc + 12)); (done || unfold Memory.PAGE_SIZE; lia). }
  change (GDT_USER32_TLS / 8) with 7.
  destruct (Z.eqb_spec (word_at m desc) (u32 (-1))) as [En|En];
    [|destruct (Z.eqb_spec (word_at m desc) 7) as [Es|Es]]; cbn [negb andb]; intros [= <- <- <-].
  3:{ conj_split; [done|done|]. right. right. conj_split; done. }
  all: cbn [Memory.user_mem Memory.with_user_mem gdt with_gdt]; conj_split; [|done|].
  1,3: intros x Hx; assert (desc <= x < desc + 4) as Hx4 by
      (destruct (decide (desc <= x < desc + 4)) as [|Hn]; [done|]; destruct Hx; apply write_bytes_outside;
       match goal with |- context [zlen ?l] => change (zlen l) with 4 end; lia); split; [done|]; apply Hw; lia.
  all: left; rewrite zget_zset_eq by lia; conj_split; (done || auto).
  all: unfold word_at; cbn [Memory.user_mem Memory.with_user_mem].
  all: by change (le_val (read_bytes (write_bytes (Memory.user_mem m) desc (le_bytes 4 7)) desc (zlen (le_bytes 4 7))) = 7);
    rewrite read_write_bytes.
Qed.

(** C39: The way back to a 32-bit program hides the kernel's stack: the segment made for it
    together with the stack pointer left in it reach the frame, although the upper half of that
    pointer, which the processor leaves to the program, is the program's own. *)
Theorem espfix_hides_stack orig new s : is_u64 orig -> is_u64 new -> zlen (gdt s) = 12 ->
  let s' := prepare_espfix orig new s in
  exists base, decode (zget 0 (gdt s') (GDT_ESPFIX_SS / 8)) = flat32 base 2 0 /\
    u32 (base + espfix_new_kernel_rsp s') = u32 orig /\
    espfix_new_kernel_rsp s' / 2 ^ 16 = new / 2 ^ 16 mod 2 ^ 16 /\
    espfix_new_kernel_rsp s' mod 2 ^ 16 = orig mod 2 ^ 16.
Proof.
  intros Ho Hn Hg. unfold is_u64 in *. unfold prepare_espfix. cbn zeta. cbn [gdt with_gdt with_espfix espfix_new_kernel_rsp].
  set (base := u32 (u64 _)). exists base. change (GDT_ESPFIX_SS / 8) with 8. rewrite zget_zset_eq by lia.
  split; [apply decode_espfix, u32_range|].
  assert (E : base = ((orig / 2 ^ 16 - new / 2 ^ 16) * 2 ^ 16) mod 2 ^ 32).
  { subst base. rewrite !Z.shiftr_div_pow2, Z.shiftl_mul_pow2 by lia. unfold u32, u64.
    Z.to_euclidean_division_equations. lia. }
  rewrite E. clear base E. unfold u32. Z.to_euclidean_division_equations. lia.
Qed.

(** ** The time limit *)

(** [k] interrupts of the timer, none of which stops the program. *)
Fixpoint interrupts (k : nat) (s : state) : option state :=
  match k with
  | O => Some s
  | S k => let '(s, trap) := timer_interrupt s in if trap then None else interrupts k s
  end.

Lemma interrupts_count k s : 0 < LAPIC.lapic_timer_cnt (lapic s) < 2 ^ 64 ->
  (interrupts k s <> None <-> Z.of_nat k < LAPIC.lapic_timer_cnt (lapic s)).
Proof.
  revert s. induction k as [|k IH]; intros s Hc; cbn [interrupts]; [split; [lia|done]|].
  unfold timer_interrupt. rewrite u64_small by (unfold is_u64; lia).
  destruct (Z.eqb_spec (LAPIC.lapic_timer_cnt (lapic s) - 1) 0) as [E|E]; [split; [done|lia]|].
  rewrite IH by (cbn; lia). cbn. lia.
Qed.

(** C17: A program with a time limit runs until the interrupt of the number set for
    it, and no longer: interrupts come every half millisecond, and the last one
    lies between 8.99 and 10 milliseconds after the limit and its hundredth part. *)
Theorem time_limit_is_kept traps trap_0x80_entry tm kf s : is_u32 (Timer.ext_freq tm) ->
  s32 (tf_num kf) = TRAP_RUN_USER \/ s32 (tf_num kf) = TRAP_RUN_USER32 -> Z.land (tf_cs kf) 3 = 0 ->
  is_u64 (user_time_limit_ns s) -> user_time_limit_ns s <> 0 ->
  let limit := user_time_limit_ns s in let last := timer_count limit in
  (exists s' n, trap_handler traps trap_0x80_entry tm kf 0 s = Some (s', n) /\
     forall k, interrupts k s' <> None <-> Z.of_nat k < last) /\
  limit + limit / 100 + 8990000 < 500000 * last <= limit + limit / 100 + 10000000.
Proof.
  intros Htm Hnum Hcs Hu Hl. cbn zeta. set (limit := user_time_limit_ns s) in *. unfold is_u64 in Hu.
  assert (Hc : 20 <= timer_count limit < 2 ^ 64 /\
    limit + limit / 100 + 8990000 < 500000 * timer_count limit <= limit + limit / 100 + 10000000).
  { unfold timer_count. rewrite u64_small by (unfold is_u64; Z.to_euclidean_division_equations; lia).
    Z.to_euclidean_division_equations. lia. }
  destruct Hc as [Hc Hb]. split; [|exact Hb].
  destruct (start_spec traps trap_0x80_entry tm Htm kf _ 0 s eq_refl Hnum Hcs) as (s' & E & _ & _ & _ & _ & _ & Hn).
  eexists _, _. split; [exact E|]. intros k.
  rewrite interrupts_count; rewrite (Hn Hl); fold limit; [done|lia].
Qed.

(** ** A machine *)

Definition demo_tm : Timer.state := Timer.mk_state 3600000000 0 100000000 3600000000.
Definition demo_traps : list Z := replicate 256 0x201000.
Definition demo_addr : Z := 0x300000.
Definition demo_boot : state :=
  mk_state (initial_gdt demo_addr) (replicate 256 no_gate) (mk_task 0 (replicate 8 0) 0) no_frame no_frame no_frame
    0 0 0 0 0 (LAPIC.mk_state [] 0) 0 0 (λ _, 0).
Definition demo_init : state := init demo_traps 0x203000 0x310000 demo_boot.
(** The kernel's [int], a program's exit calls and its request for a segment. *)
Definition demo_kernel (num : Z) : Trapframe := mk_frame [] 0 no_regs num 0 0x200100 GDT_KERNEL_CS 2 0x30ff00 GDT_KERNEL_SS.
Definition demo_frame (cs num a di b t : Z) : Trapframe :=
  mk_frame [] 0 (mk_regs 0 b 0 0 di 0 0 0 0 0 0 0 0 t a 0) num 0 0x400100 cs 0x202 0x7fff00 (GDT_USER_SS .| 3).
(** Every page is the user's; all bytes are 255. *)
Definition demo_memory : Memory.state := Memory.mk_state ∅ 0 0 0 0x800000 (λ _, 0) (λ _, 7) (λ _, 255).
Definition demo_exit : event := mk_event (demo_frame 43 255 60 3 0 (u64 (9000 - 1010))) 0 0 demo_memory.
Definition demo_exit_32 : event := mk_event (demo_frame 27 128 1 0 3 (u64 (9000 - 1010))) 0 0 demo_memory.
Definition demo_area : event := mk_event (demo_frame 27 128 243 0 0x500000 700) 0x310f50 0 demo_memory.

Lemma descriptors_are_right_witness : system_base (zget 0 (initial_gdt demo_addr) 10) (zget 0 (initial_gdt demo_addr) 11) = demo_addr /\
  decode (tls_descriptor 0x12345678 0xfffff) = mk_segment 0x12345678 0xfffff 2 true 3 true false true true.
Proof.
  destruct (descriptors_are_right demo_addr 0x12345678 0xfffff) as (_ & (E & _) & E2);
    [unfold is_u64, demo_addr; lia|unfold is_u32; lia|]. split; [exact E|exact E2].
Defined.

Lemma demo_traps_ok : zlen demo_traps = 256 /\ Forall is_u64 demo_traps.
Proof. split; [reflexivity|]. unfold demo_traps. apply Forall_replicate. unfold is_u64. lia. Qed.

Lemma doors_stay_closed_witness : exists s,
  trap_handler demo_traps 0x202000 demo_tm (demo_kernel TRAP_RUN_USER32) 0 demo_init = Some (s, syscall_return_32) /\
  tables demo_traps 0x202000 demo_addr true s.
Proof.
  destruct (start_spec demo_traps 0x202000 demo_tm ltac:(unfold is_u32; cbn; lia) (demo_kernel TRAP_RUN_USER32)
    TRAP_RUN_USER32 0 demo_init eq_refl (or_intror eq_refl) eq_refl) as (s & E & _).
  exists s. split; [exact E|].
  apply (doors_stay_closed demo_traps 0x202000 0x203000 0x310000 demo_addr demo_tm demo_traps_ok
    ltac:(unfold is_u64; lia) true s).
  apply (reach_trap demo_traps 0x202000 0x203000 0x310000 demo_addr demo_tm false demo_init
    (demo_kernel TRAP_RUN_USER32) 0 s syscall_return_32);
    [by apply reach_init|exact E].
Defined.

Lemma run_64_reports_witness : exists s, run_user_64 demo_traps 0x202000 demo_tm 0x246 0x400000 0x7fff00 1000000000
    (demo_kernel TRAP_RUN_USER) 1000 1010 demo_exit demo_init = Some (s, (8000, TRAP_SYSCALL, Some 3)).
Proof.
  destruct (run_64_reports demo_traps 0x202000 demo_tm ltac:(unfold is_u32; cbn; lia) 0x246 0x400000 0x7fff00 1000000000
    (demo_kernel TRAP_RUN_USER) 1000 1010 demo_exit demo_init 9000) as (s & n & r & E & (_ & H & _) & _);
    [done|done|done|cbn; lia|done|]. exists s. rewrite E. destruct (H eq_refl eq_refl) as [-> ->]. reflexivity.
Defined.

Lemma run_32_reports_witness : exists s, run_user_32 demo_traps 0x202000 demo_tm 0x246 0x400000 0x7fff00 0
    (demo_kernel TRAP_RUN_USER32) 1000 1010 [demo_area; demo_exit_32] demo_init =
  Some (demo_memory, s, (8000, TRAP_SYSCALL, Some 3)).
Proof.
  destruct (run_32_reports demo_traps 0x202000 demo_tm ltac:(unfold is_u32; cbn; lia) 0x246 0x400000 0x7fff00 0
    (demo_kernel TRAP_RUN_USER32) 1000 1010 [demo_area] demo_exit_32 demo_init 9000) as (s & n & r & E & (_ & H & _) & _);
    [done|done|by repeat constructor|by intros [_ ?]|done|cbn; lia|done|].
  exists s. cbn [app] in E. rewrite E. destruct (H eq_refl eq_refl) as [-> ->]. reflexivity.
Defined.

Lemma thread_area_is_checked_witness : exists m s,
  set_thread_area 0x500000 demo_memory demo_init = (m, s, 0) /\ word_at m 0x500000 = 7 /\
  Memory.user_writable_check 0x500003 demo_memory = true.
Proof.
  destruct (set_thread_area 0x500000 demo_memory demo_init) as [[m s] ret] eqn:E.
  destruct (thread_area_is_checked 0x500000 demo_memory demo_init m s ret) as (_ & _ & H);
    [unfold is_u32; lia|reflexivity|exact E|].
  exists m, s. destruct H as [(-> & Hw & _ & H7 & _)|[(_ & _ & _ & H)|(_ & _ & _ & H & _)]].
  - split; [reflexivity|]. split; [exact H7|]. apply Hw. lia.
  - exfalso. apply H. intros x Hx. unfold Memory.user_writable_check.
    change (Memory.vaddr_break demo_memory) with 0x800000. change Memory.kernel_break with 0x400000.
    destruct (Z.ltb_spec x 0x400000); [lia|]. destruct (Z.leb_spec 0x800000 x); [lia|]. reflexivity.
  - by exfalso; apply H.
Defined.

Lemma espfix_hides_stack_witness :
  espfix_new_kernel_rsp (prepare_espfix 0x310f50 0xabcd1234 demo_init) / 2 ^ 16 = 0xabcd.
Proof.
  destruct (espfix_hides_stack 0x310f50 0xabcd1234 demo_init) as (base & _ & _ & E & _);
    [unfold is_u64; lia|unfold is_u64; lia|reflexivity|exact E].
Defined.

(** A second is 2,040 interrupts. *)
Lemma time_limit_is_kept_witness : exists s' n,
  trap_handler demo_traps 0x202000 demo_tm (demo_kernel TRAP_RUN_USER) 0 (with_to_user no_frame 1000000000 demo_init) =
    Some (s', n) /\ interrupts 2039 s' <> None /\ interrupts 2040 s' = None.
Proof.
  destruct (time_limit_is_kept demo_traps 0x202000 demo_tm (demo_kernel TRAP_RUN_USER)
    (with_to_user no_frame 1000000000 demo_init)) as ((s' & n & E & H) & _);
    [unfold is_u32; cbn; lia|by left|done|unfold is_u64; cbn; lia|done|].
  exists s', n. split; [exact E|].
  change (timer_count (user_time_limit_ns (with_to_user no_frame 1000000000 demo_init))) with 2040 in H. split.
  - apply H. lia.
  - destruct (interrupts 2040 s') eqn:Ei; [|done]. exfalso.
    assert (Hn : interrupts 2040 s' <> None) by (by rewrite Ei). apply H in Hn. lia.
Defined.

End Trap.
