(* ===== verification/DuckCache.v ===== *)
(** * DuckCache: the content-addressed caches of the judger
    ([kern/duck_cache.cpp], [inc/duck_cache.hpp])

    A cache maps a 256-bit digest to a block of bytes.  The bytes are kept in
    pages whose first word links to the next page; the digests in a sorted array.
    A page is its link and its 4088 bytes; the three parallel arrays (hash,
    digest, metadata) are one array of records of their entries.  [std::sort] is a
    parameter, since it may order equal keys as it likes. *)
From Stdlib Require Import String.
From stdpp Require Import gmap sorting.
From S2P Require Import Prelude Utils LibC Memory.

Module DuckCache.
Import Utils.

(** ** Data *)

Definition PAGE_SIZE : Z := Memory.PAGE_SIZE.
Definition ONE_PAGE_CONTENT_SIZE : Z := PAGE_SIZE - 8.

(** The four words of a digest. *)
Definition Digest256 : Type := list Z.

Record Metadata := mk_metadata { last_used_tsc : Z; start_addr : Z; len : Z }.
Record Obj := mk_obj { obj_hash : Z; obj_digest : Digest256; obj_metadata : Metadata }.

Record state := mk_state {
  cache_size : Z;
  n_max_objects : Z;
  n_cur_objects : Z;
  free_list_addr : Z;
  n_free_pages : Z;
  n_total_pages : Z;
  objs : list Obj;               (* the arrays, [n_max_objects] entries *)
  next : Z -> Z;                 (* the first word of a page *)
  content : Z -> list Z }.       (* its other bytes *)

Definition with_objs (s : state) (n : Z) (l : list Obj) : state :=
  mk_state (cache_size s) (n_max_objects s) n (free_list_addr s) (n_free_pages s)
    (n_total_pages s) l (next s) (content s).
Definition with_free (s : state) (a n : Z) : state :=
  mk_state (cache_size s) (n_max_objects s) (n_cur_objects s) a n
    (n_total_pages s) (objs s) (next s) (content s).
Definition with_pages (s : state) (f : Z -> Z) (c : Z -> list Z) : state :=
  mk_state (cache_size s) (n_max_objects s) (n_cur_objects s) (free_list_addr s) (n_free_pages s)
    (n_total_pages s) (objs s) f c.

Definition upd {A} (f : Z -> A) (a : Z) (v : A) : Z -> A := λ x, if x =? a then v else f x.

Definition no_obj : Obj := mk_obj 0 [0; 0; 0; 0] (mk_metadata 0 0 0).
(** Entry [i] of the arrays, and its metadata overwritten. *)
Definition obj_at (s : state) (i : Z) : Obj := zget no_obj (objs s) i.
Definition set_metadata (o : Obj) (m : Metadata) : Obj := mk_obj (obj_hash o) (obj_digest o) m.

(** ** Digests *)

Definition hex_val (c : Z) : option Z :=
  if (48 <=? c) && (c <=? 57) then Some (c - 48)
  else if (97 <=? c) && (c <=? 102) then Some (c - 97 + 10)
  else if (65 <=? c) && (c <=? 70) then Some (c - 65 + 10)
  else None.

(** The inner loop: 16 digits, least significant first. *)
Fixpoint word_from_hex (n : nat) (i : Z) (hex : list Z) (sum : Z) : option Z :=
  match n with
  | O => Some sum
  | S n =>
      match hex_val (zget 0 hex i) with
      | None => None
      | Some val => word_from_hex n (i + 1) hex (Z.lor sum (u64 (Z.shiftl val (i * 4))))
      end
  end.
Definition digest_from_hex (hex : list Z) : option Digest256 :=
  match word_from_hex 16 0 (zdrop 0 hex) 0, word_from_hex 16 0 (zdrop 16 hex) 0,
        word_from_hex 16 0 (zdrop 32 hex) 0, word_from_hex 16 0 (zdrop 48 hex) 0 with
  | Some a, Some b, Some c, Some d => Some [a; b; c; d]
  | _, _, _, _ => None
  end.

Fixpoint cmp_digest (a b : Digest256) : Z :=
  match a, b with
  | x :: a, y :: b => if x <? y then -1 else if y <? x then 1 else cmp_digest a b
  | _, _ => 0
  end.

(** ** Initialisation *)

(** [for (; cache + PAGE_SIZE < cache_end; cache += PAGE_SIZE) ...; last page]. *)
Fixpoint link_pages (fuel : nat) (cache cache_end : Z) (f : Z -> Z) (n_pages : Z) : (Z -> Z) * Z :=
  match fuel with
  | O => (upd f cache 0, n_pages + 1)
  | S fuel =>
      if cache + PAGE_SIZE <? cache_end then
        link_pages fuel (cache + PAGE_SIZE) cache_end (upd f cache (cache + PAGE_SIZE)) (n_pages + 1)
      else (upd f cache 0, n_pages + 1)
  end.

(** Where the pages start: after the four arrays. *)
Definition pages_start (n_max_objects cache : Z) : Z :=
  cache + round_up (n_max_objects * 8) PAGE_SIZE + round_up (n_max_objects * 32) PAGE_SIZE +
    round_up (n_max_objects * 24) PAGE_SIZE + round_up (n_max_objects * 8) PAGE_SIZE.

(** [None] is the reboot, [Some (m, None)] the value [false].  The arrays and pages
    hold what the memory holds. *)
Definition init (mem : list Obj * (Z -> Z) * (Z -> list Z)) (n_max_objects cache_size : Z)
    (m : Memory.state) : option (Memory.state * option state) :=
  let '(l, f, c) := mem in
  match Memory.allocate_virtual_memory cache_size m with
  | (m, None) => Some (m, None)
  | (m, Some base) =>
      let cache_end := base + cache_size in
      let cache := pages_start n_max_objects base in
      if cache_end <=? cache + PAGE_SIZE then None
      else
        let '(f, n_pages) := link_pages (Z.to_nat (cache_size / PAGE_SIZE)) cache cache_end f 0 in
        Some (m, Some (mk_state cache_size n_max_objects 0 cache n_pages n_pages l f c))
  end.

(** ** Lookup *)

(** [std::lower_bound], [std::upper_bound] on a sorted array. *)
Fixpoint lower_bound (l : list Z) (x : Z) : Z :=
  match l with y :: l => if y <? x then 1 + lower_bound l x else 0 | [] => 0 end.
Fixpoint upper_bound (l : list Z) (x : Z) : Z :=
  match l with y :: l => if y <=? x then 1 + upper_bound l x else 0 | [] => 0 end.

Fixpoint find_loop (l : list Obj) (idx : Z) (digest : Digest256) : Z * bool :=
  match l with
  | [] => (idx, false)
  | o :: l =>
      let r := cmp_digest (obj_digest o) digest in
      if 0 <=? r then (idx, r =? 0) else find_loop l (idx + 1) digest
  end.

(** The first [n_cur_objects] entries. *)
Definition live (s : state) : list Obj := ztake (n_cur_objects s) (objs s).

Definition find (s : state) (digest : Digest256) : Z * bool :=
  if n_cur_objects s =? 0 then (0, false)
  else
    let hash := zget 0 digest 0 in
    let hashes := obj_hash <$> live s in
    let idx1 := lower_bound hashes hash in
    let idx2 := idx1 + upper_bound (zdrop idx1 hashes) hash in
    find_loop (read_at idx1 (idx2 - idx1) (live s)) idx1 digest.

(** ** Load *)

(** The bytes of the pages from [addr]; [None] is a loop that does not end. *)
Fixpoint load_loop (fuel : nat) (s : state) (addr cur_len required_len : Z) : option (list Z) :=
  if cur_len <? required_len then
    match fuel with
    | O => None
    | S fuel =>
        match load_loop fuel s (next s addr) (u64 (cur_len + ONE_PAGE_CONTENT_SIZE)) required_len with
        | None => None
        | Some bs => Some (ztake (Z.min (required_len - cur_len) ONE_PAGE_CONTENT_SIZE) (content s addr) ++ bs)
        end
    end
  else Some [].

Definition loop_fuel (len : Z) : nat := Z.to_nat (len / ONE_PAGE_CONTENT_SIZE + 1).

(** [now] is what the clock says.  The bytes, when there are some, go to [dst]. *)
Definition load (s : state) (now : Z) (digest : Digest256) (required_len : Z)
    : option (state * option (list Z)) :=
  let '(idx, found) := find s digest in
  if negb found then Some (s, None)
  else
    let o := obj_at s idx in
    let m := obj_metadata o in
    if negb (len m =? required_len) then Some (s, None)
    else
      let s := with_objs s (n_cur_objects s)
        (zset (objs s) idx (set_metadata o (mk_metadata now (start_addr m) (len m)))) in
      match load_loop (loop_fuel required_len) s (start_addr m) 0 required_len with
      | None => None
      | Some bs => Some (s, Some bs)
      end.

(** ** Store *)

Definition pages_needed (len : Z) : Z :=
  Z.max (u64 (len + ONE_PAGE_CONTENT_SIZE - 1) / ONE_PAGE_CONTENT_SIZE) 1.

(** [n] links from [addr]. *)
Fixpoint follow (f : Z -> Z) (n : nat) (addr : Z) : Z :=
  match n with O => addr | S n => follow f n (f addr) end.

Definition not_enough (s : state) (n_need_pages n_removed_pages n_removed_objects : Z) : bool :=
  (n_free_pages s + n_removed_pages <? n_need_pages) ||
  (n_max_objects s + n_removed_objects <? n_cur_objects s + 1).

(** The body of the removal loop: the entry is invalidated, its pages go to the
    front of the free list. *)
Definition remove_object (s : state) (id : Z) : state * Z :=
  let o := obj_at s id in
  let m := obj_metadata o in
  let n_pages := pages_needed (len m) in
  let last := follow (next s) (Z.to_nat (n_pages - 1)) (start_addr m) in
  let s := with_objs s (n_cur_objects s)
    (zset (objs s) id (set_metadata o (mk_metadata 0 (start_addr m) (len m)))) in
  let s := with_pages s (upd (next s) last (free_list_addr s)) (content s) in
  (with_free s (start_addr m) (n_free_pages s), n_pages).

Fixpoint remove_loop (ids : list Z) (s : state) (n_need_pages n_removed_pages n_removed_objects : Z)
    : state * Z * Z :=
  match ids with
  | [] => (s, n_removed_pages, n_removed_objects)
  | id :: ids =>
      let '(s, n_pages) := remove_object s id in
      let n_removed_objects := n_removed_objects + 1 in
      let n_removed_pages := n_removed_pages + n_pages in
      if not_enough s n_need_pages n_removed_pages n_removed_objects then
        remove_loop ids s n_need_pages n_removed_pages n_removed_objects
      else (s, n_removed_pages, n_removed_objects)
  end.

(** The entries that are still valid move to the front. *)
Definition valid (o : Obj) : bool := negb (last_used_tsc (obj_metadata o) =? 0).
Definition defrag (s : state) : state :=
  with_objs s (n_cur_objects s) (write_at 0 (List.filter valid (live s)) (objs s)).

Section Store.
Variable sort : (Z -> Z) -> list Z -> list Z.   (* [std::sort] by a key *)

(** Removal of the least recently used objects. *)
Definition make_room (s : state) (n_need_pages : Z) : state :=
  let ids := seqZ 0 (n_cur_objects s) in
  let ids := sort (λ i, last_used_tsc (obj_metadata (obj_at s i))) ids in
  let '(s, n_removed_pages, n_removed_objects) := remove_loop ids s n_need_pages 0 0 in
  let s := defrag s in
  let s := with_objs s (n_cur_objects s - n_removed_objects) (objs s) in
  with_free s (free_list_addr s) (n_free_pages s + n_removed_pages).

(** The contents go to the pages of the free list; the result is where it goes on. *)
Fixpoint store_loop (fuel : nat) (s : state) (addr : Z) (src : list Z) (cur_len len : Z)
    : option (state * Z) :=
  if cur_len <? len then
    match fuel with
    | O => None
    | S fuel =>
        let chunk := ztake (Z.min (len - cur_len) ONE_PAGE_CONTENT_SIZE) src in
        let s := with_pages s (next s) (upd (content s) addr (write_at 0 chunk (content s addr))) in
        store_loop fuel s (next s addr) (zdrop ONE_PAGE_CONTENT_SIZE src)
          (u64 (cur_len + ONE_PAGE_CONTENT_SIZE)) len
    end
  else Some (s, addr).

(** The arrays from [idx] on move by one, and the object is written at [idx]. *)
Definition insert_object (s : state) (idx now : Z) (digest : Digest256) (len : Z) : state :=
  let l := write_at (idx + 1) (read_at idx (n_cur_objects s - idx) (objs s)) (objs s) in
  with_objs s (n_cur_objects s + 1)
    (zset l idx (mk_obj (zget 0 digest 0) digest (mk_metadata now (free_list_addr s) len))).

(** The object enters the arrays and its contents the pages. *)
Definition place_object (s : state) (idx now : Z) (digest : Digest256) (src : list Z) (len n_need_pages : Z)
    : option (state * bool) :=
  let s := insert_object s idx now digest len in
  match store_loop (loop_fuel len) s (free_list_addr s) src 0 len with
  | None => None
  | Some (s, addr) =>
      let addr := if len =? 0 then next s addr else addr in
      Some (with_free s addr (n_free_pages s - n_need_pages), true)
  end.

(** [None] is a failed assertion or a loop that does not end. *)
Definition store (s : state) (now : Z) (digest : Digest256) (src : list Z) (len : Z)
    : option (state * bool) :=
  let '(idx, found) := find s digest in
  if found then Some (s, true)
  else
    let n_need_pages := pages_needed len in
    if n_total_pages s <? n_need_pages then Some (s, false)
    else if not_enough s n_need_pages 0 0 then
      let s := make_room s n_need_pages in
      let '(idx, found) := find s digest in
      if found then None else place_object s idx now digest src len n_need_pages
    else place_object s idx now digest src len n_need_pages.

End Store.

Definition info (s : state) : list Z :=
  LibC.sprintf (LibC.fmt "size %lu, n_objects %lu / %lu, n_pages %lu / %lu"%string)
    [LibC.VNum (cache_size s); LibC.VNum (n_cur_objects s); LibC.VNum (n_max_objects s);
     LibC.VNum (u64 (n_total_pages s - n_free_pages s)); LibC.VNum (n_total_pages s)].

End DuckCache.
