(* ===== verification/CacheSpec.v ===== *)
(** * CacheSpec: a cache is a finite map from digests to bytes

    The representation invariant of [DuckCache] (sorted digests, disjoint chains of
    pages), and the refinement of lookup, store and eviction to operations on a
    finite map. *)
From S2P Require Import Prelude Utils Memory DuckCache.
From stdpp Require Import list gmap sorting.
#[local] Open Scope Z_scope.

Module CacheSpec.
Import Utils DuckCache.

(** ** The order of digests *)

Lemma cmp_range a b : cmp_digest a b = -1 \/ cmp_digest a b = 0 \/ cmp_digest a b = 1.
Proof.
  revert b. induction a as [|x a IH]; intros [|y b]; cbn [cmp_digest]; try lia.
  destruct (x <? y); [lia|]. destruct (y <? x); [lia|apply IH].
Qed.

Lemma cmp_eq a b : length a = length b -> cmp_digest a b = 0 -> a = b.
Proof.
  revert b. induction a as [|x a IH]; intros [|y b]; cbn [cmp_digest length]; try done.
  intros Hl. destruct (Z.ltb_spec x y); [done|]. destruct (Z.ltb_spec y x); [done|].
  intros E. f_equal; [lia|]. apply IH; [lia|done].
Qed.
Lemma cmp_refl a : cmp_digest a a = 0.
Proof. induction a as [|x a IH]; cbn [cmp_digest]; [done|]. by rewrite Z.ltb_irrefl. Qed.

Lemma cmp_swap a b : cmp_digest b a = - cmp_digest a b.
Proof.
  revert b. induction a as [|x a IH]; intros [|y b]; cbn [cmp_digest]; try done.
  destruct (Z.ltb_spec x y), (Z.ltb_spec y x); try lia. apply IH.
Qed.

Lemma cmp_trans a b c :
  length a = length b -> cmp_digest a b = -1 -> cmp_digest b c = -1 -> cmp_digest a c = -1.
Proof.
  revert b c. induction a as [|x a IH]; intros [|y b] [|z c]; cbn [cmp_digest length]; try done.
  intros Hl. destruct (Z.ltb_spec x y), (Z.ltb_spec y z), (Z.ltb_spec x z); try lia; try done.
  - destruct (Z.ltb_spec y x), (Z.ltb_spec z y); try lia; try done.
  - destruct (Z.ltb_spec y x), (Z.ltb_spec z y); try lia; try done.
  - destruct (Z.ltb_spec y x), (Z.ltb_spec z y), (Z.ltb_spec z x); try lia; try done.
    apply IH. lia.
Qed.

(** The first word decides. *)
Lemma cmp_head a b : a <> [] -> b <> [] ->
  (zget 0 a 0 < zget 0 b 0 -> cmp_digest a b = -1) /\ (zget 0 b 0 < zget 0 a 0 -> cmp_digest a b = 1).
Proof.
  destruct a as [|x a], b as [|y b]; try done. intros _ _.
  change (zget 0 (x :: a) 0) with x. change (zget 0 (y :: b) 0) with y. cbn [cmp_digest].
  split; intros H; destruct (Z.ltb_spec x y); try lia. destruct (Z.ltb_spec y x); lia.
Qed.

(** ** Sorted entries *)

Definition before (o o' : Obj) : Prop := cmp_digest (obj_digest o) (obj_digest o') = -1.
Definition good_obj (o : Obj) : Prop :=
  length (obj_digest o) = 4%nat /\ obj_hash o = zget 0 (obj_digest o) 0 /\
  0 < last_used_tsc (obj_metadata o) /\ 0 <= len (obj_metadata o) < 2 ^ 62.

Lemma good_not_nil o : good_obj o -> obj_digest o <> [].
Proof. by intros (Hl & _) E; rewrite E in Hl. Qed.

Lemma before_hash o o' : good_obj o -> good_obj o' -> before o o' -> obj_hash o <= obj_hash o'.
Proof.
  intros G1 G2 H. apply Z.nlt_ge. intros Hlt.
  destruct (cmp_head (obj_digest o) (obj_digest o')) as [_ H']; [by apply good_not_nil..|].
  destruct G1 as (_ & E1 & _), G2 as (_ & E2 & _). rewrite E1, E2 in Hlt.
  unfold before in H. rewrite H' in H by done. done.
Qed.

Definition by_hash (l : list Obj) : Prop := StronglySorted Z.le (obj_hash <$> l).
Lemma sorted_by_hash l : Forall good_obj l -> StronglySorted before l -> by_hash l.
Proof.
  unfold by_hash. intros Hg Hs. induction Hs as [|o l Hs IH Hf]; [constructor|].
  apply Forall_cons_iff in Hg as [Hg Hgl]. cbn. constructor; [by apply IH|].
  rewrite Forall_fmap. apply List.Forall_forall. intros o' Ho'. cbn.
  apply before_hash; [done| |]; [by apply (proj1 (List.Forall_forall _ _) Hgl)|].
  by apply (proj1 (List.Forall_forall _ _) Hf).
Qed.

(** ** The lookup *)

(** [lower_bound] and [upper_bound] cut a sorted array. *)
Lemma lower_bound_split l x : StronglySorted Z.le (obj_hash <$> l) ->
  exists a b, l = a ++ b /\ zlen a = lower_bound (obj_hash <$> l) x /\
    Forall (λ o, obj_hash o < x) a /\ Forall (λ o, x <= obj_hash o) b.
Proof.
  induction l as [|o l IH]; cbn [fmap list_fmap lower_bound].
  { intros _. exists [], []. by repeat split. }
  intros [Hs Hf]%StronglySorted_inv. destruct (Z.ltb_spec (obj_hash o) x).
  - destruct (IH Hs) as (a & b & -> & <- & Ha & Hb). exists (o :: a), b. conj_split; [done| |by constructor|done].
    unfold zlen. cbn [length]. lia.
  - exists [], (o :: l). conj_split; [done..|]. constructor; [done|].
    rewrite Forall_fmap in Hf. revert Hf. apply List.Forall_impl. cbn. lia.
Qed.
Lemma upper_bound_split l x : StronglySorted Z.le (obj_hash <$> l) ->
  exists a b, l = a ++ b /\ zlen a = upper_bound (obj_hash <$> l) x /\
    Forall (λ o, obj_hash o <= x) a /\ Forall (λ o, x < obj_hash o) b.
Proof.
  induction l as [|o l IH]; cbn [fmap list_fmap upper_bound].
  { intros _. exists [], []. by repeat split. }
  intros [Hs Hf]%StronglySorted_inv. destruct (Z.leb_spec (obj_hash o) x).
  - destruct (IH Hs) as (a & b & -> & <- & Ha & Hb). exists (o :: a), b. conj_split; [done| |by constructor|done].
    unfold zlen. cbn [length]. lia.
  - exists [], (o :: l). conj_split; [done..|]. constructor; [done|].
    rewrite Forall_fmap in Hf. revert Hf. apply List.Forall_impl. cbn. lia.
Qed.

Lemma find_loop_skip a b i d :
  Forall (λ o, cmp_digest (obj_digest o) d = -1) a -> find_loop (a ++ b) i d = find_loop b (i + zlen a) d.
Proof.
  intros Ha. revert i. induction Ha as [|o a Ho _ IH]; intros i; cbn [app find_loop].
  - f_equal. unfold zlen. cbn. lia.
  - rewrite Ho. cbn [Z.leb Z.compare]. rewrite IH. f_equal. unfold zlen. cbn [length]. lia.
Qed.
Lemma find_loop_stop a b i d :
  Forall (λ o, cmp_digest (obj_digest o) d = 1) b -> find_loop (a ++ b) i d = find_loop a i d.
Proof.
  intros Hb. revert i. induction a as [|o a IH]; intros i; cbn [app find_loop].
  - destruct Hb as [|o b Ho _]; [done|]. cbn [find_loop]. by rewrite Ho.
  - by destruct (0 <=? _).
Qed.

(** The search by hash and then by digest is the search by digest. *)
Lemma find_is_find_loop s d :
  n_cur_objects s = zlen (live s) -> Forall good_obj (live s) -> by_hash (live s) -> length d = 4%nat ->
  find s d = find_loop (live s) 0 d.
Proof.
  intros Hn Hg Hs Hd. unfold find. rewrite Hn.
  destruct (Z.eqb_spec (zlen (live s)) 0) as [E|E].
  { destruct (live s); [done|]. unfold zlen in E. cbn in E. lia. }
  set (l := live s) in *. clearbody l. cbn zeta. set (h := zget 0 d 0).
  assert (Hdn : d <> []) by (intros ->; done).
  destruct (lower_bound_split l h Hs) as (a & bc & El & <- & Ha & Hbc).
  assert (Hsbc : StronglySorted Z.le (obj_hash <$> bc)).
  { unfold by_hash in Hs. rewrite El, fmap_app in Hs. by apply StronglySorted_app_1_r in Hs. }
  destruct (upper_bound_split bc h Hsbc) as (b & c & Ebc & Hb & Hbh & Hch).
  assert (Hz : zdrop (zlen a) (obj_hash <$> l) = obj_hash <$> bc).
  { rewrite El, fmap_app. unfold zdrop, zlen. rewrite Nat2Z.id.
    apply drop_app_length'. by rewrite length_fmap. }
  rewrite Hz, <- Hb. replace (zlen a + zlen b - zlen a) with (zlen b) by lia.
  rewrite El, Ebc in Hg |- *. apply Forall_app in Hg as [Hga [Hgb Hgc]%Forall_app].
  assert (Hr : read_at (zlen a) (zlen b) (a ++ b ++ c) = b).
  { unfold read_at, ztake, zdrop, zlen. rewrite !Nat2Z.id.
    rewrite drop_app_length. by rewrite take_app_length. }
  rewrite Hr, find_loop_skip, find_loop_stop; [done|..].
  - apply List.Forall_forall. intros o Ho.
    destruct (proj1 (List.Forall_forall _ _) Hgc o Ho) as (Ll & Lh & _).
    pose proof (proj1 (List.Forall_forall _ _) Hch o Ho) as Hlt. cbn in Hlt. rewrite Lh in Hlt.
    apply cmp_head; [by intros Eq; rewrite Eq in Ll|done|done].
  - apply List.Forall_forall. intros o Ho.
    destruct (proj1 (List.Forall_forall _ _) Hga o Ho) as (Ll & Lh & _).
    pose proof (proj1 (List.Forall_forall _ _) Ha o Ho) as Hlt. cbn in Hlt. rewrite Lh in Hlt.
    apply cmp_head; [by intros Eq; rewrite Eq in Ll|done|done].
Qed.

(** What the lookup finds: the place of the digest, and whether it is there. *)
Lemma find_loop_spec l i d :
  exists a b, l = a ++ b /\ fst (find_loop l i d) = i + zlen a /\
    Forall (λ o, cmp_digest (obj_digest o) d = -1) a /\
    match b with
    | [] => snd (find_loop l i d) = false
    | o :: _ => 0 <= cmp_digest (obj_digest o) d /\ snd (find_loop l i d) = (cmp_digest (obj_digest o) d =? 0)
    end.
Proof.
  revert i. induction l as [|o l IH]; intros i; cbn [find_loop].
  { exists [], []. conj_split; try done. cbn. unfold zlen. cbn. lia. }
  cbn zeta. destruct (Z.leb_spec 0 (cmp_digest (obj_digest o) d)) as [Hr|Hr].
  - exists [], (o :: l). conj_split; try done. cbn. unfold zlen. cbn. lia.
  - destruct (IH (i + 1)) as (a & b & -> & E1 & Ha & Hb). exists (o :: a), b.
    pose proof (cmp_range (obj_digest o) d). conj_split; [done| | |done].
    + rewrite E1. unfold zlen. cbn [length]. lia.
    + constructor; [lia|done].
Qed.

(** ** Chains of pages *)

(** The [n] pages from [a]. *)
Fixpoint walk (f : Z -> Z) (n : nat) (a : Z) : list Z :=
  match n with O => [] | S n => a :: walk f n (f a) end.

Lemma length_walk f n a : length (walk f n a) = n.
Proof. revert a. induction n as [|n IH]; intros a; cbn; [done|]. by rewrite IH. Qed.
Lemma walk_app f n m a : walk f (n + m) a = walk f n a ++ walk f m (follow f n a).
Proof. revert a. induction n as [|n IH]; intros a; cbn; [done|]. by rewrite IH. Qed.
Lemma walk_last f n a : walk f (S n) a = walk f n a ++ [follow f n a].
Proof. rewrite <- Nat.add_1_r, walk_app. done. Qed.
Lemma follow_last f n a : follow f (S n) a = f (follow f n a).
Proof. revert a. induction n as [|n IH]; intros a; [done|]. cbn [follow] in *. apply IH. Qed.
Lemma walk_ext f f' n a : (forall p, p ∈ walk f n a -> f' p = f p) ->
  walk f' n a = walk f n a /\ follow f' n a = follow f n a.
Proof.
  revert a. induction n as [|n IH]; intros a H; cbn [walk follow]; [done|].
  rewrite (H a) by (cbn; left). destruct (IH (f a)) as [-> ->]; [|done].
  intros p Hp. apply H. cbn. by right.
Qed.

(** Redirecting the last page of a chain appends another chain to it. *)
Lemma walk_redirect f n m a b :
  let f' := upd f (follow f n a) b in
  NoDup (walk f (S n) a) -> follow f n a ∉ walk f m b ->
  walk f' (S n + m) a = walk f (S n) a ++ walk f m b.
Proof.
  cbn zeta. set (last := follow f n a). rewrite walk_last. intros Hn Hm.
  apply NoDup_app in Hn as (_ & Hd & _).
  assert (Hlast : forall l : list Z, last ∉ l -> forall p, p ∈ l -> upd f last b p = f p).
  { intros l Hl p Hp. unfold upd. destruct (Z.eqb_spec p last) as [->|]; [done|done]. }
  assert (Hnl : last ∉ walk f n a) by (intros H; by apply (Hd _ H), list_elem_of_singleton).
  destruct (walk_ext f (upd f last b) n a (Hlast _ Hnl)) as [E1 E2].
  rewrite walk_app, walk_last, E1, E2, follow_last, E2. fold last. f_equal.
  replace (upd f last b last) with b by (unfold upd; by rewrite Z.eqb_refl).
  apply (walk_ext f (upd f last b)), Hlast, Hm.
Qed.

(** The pages of an object, of all objects, and the free ones. *)
Definition obj_npages (o : Obj) : nat := Z.to_nat (pages_needed (len (obj_metadata o))).
Definition obj_pages (f : Z -> Z) (o : Obj) : list Z :=
  walk f (obj_npages o) (start_addr (obj_metadata o)).
Definition all_pages (f : Z -> Z) (free : Z) (nfree : Z) (os : list Obj) : list Z :=
  walk f (Z.to_nat nfree) free ++ (os ≫= obj_pages f).
(** The bytes of an object. *)
Definition obj_bytes (f : Z -> Z) (c : Z -> list Z) (o : Obj) : list Z :=
  ztake (len (obj_metadata o)) (obj_pages f o ≫= c).

Lemma pages_needed_spec n : 0 <= n < 2 ^ 62 ->
  1 <= pages_needed n /\ n <= pages_needed n * ONE_PAGE_CONTENT_SIZE /\
  (0 < n -> (pages_needed n - 1) * ONE_PAGE_CONTENT_SIZE < n).
Proof.
  intros Hn. unfold pages_needed, ONE_PAGE_CONTENT_SIZE, PAGE_SIZE, Memory.PAGE_SIZE.
  rewrite u64_small by (unfold is_u64; lia). Z.to_euclidean_division_equations; lia.
Qed.

Lemma bind_ext {A B} (g h : A -> list B) l : (forall x, x ∈ l -> g x = h x) -> l ≫= g = l ≫= h.
Proof.
  induction l as [|x l IH]; intros H; [done|]. cbn [mbind list_bind].
  rewrite (H x) by left. f_equal. apply IH. intros y Hy. apply H. by right.
Qed.

(** Releasing an object: its pages go in front of the free ones. *)
Lemma release_pages f free nfree o os :
  0 <= nfree -> 1 <= pages_needed (len (obj_metadata o)) -> NoDup (all_pages f free nfree (o :: os)) ->
  let n := pages_needed (len (obj_metadata o)) in
  let start := start_addr (obj_metadata o) in
  let f' := upd f (follow f (Z.to_nat (n - 1)) start) free in
  (forall o', o' ∈ os -> obj_pages f' o' = obj_pages f o') /\
  all_pages f' start (nfree + n) os ≡ₚ all_pages f free nfree (o :: os).
Proof.
  cbn zeta. intros Hf Hn Hd. unfold all_pages in *. cbn [mbind list_bind] in *.
  set (n := pages_needed _) in *. set (start := start_addr _).
  assert (Eo : obj_pages f o = walk f (S (Z.to_nat (n - 1))) start).
  { unfold obj_pages, obj_npages. fold n. f_equal. lia. }
  set (k := Z.to_nat (n - 1)) in *. set (last := follow f k start).
  rewrite Eo in *. apply NoDup_app in Hd as (Hfree & Hfo & Hrest).
  apply NoDup_app in Hrest as (Ho & Hoo & Hos).
  assert (Hlast : last ∈ walk f (S k) start)
    by (rewrite walk_last; apply elem_of_app; right; by apply list_elem_of_singleton).
  assert (Hlf : last ∉ walk f (Z.to_nat nfree) free).
  { intros H. apply (Hfo _ H). apply elem_of_app. by left. }
  assert (Hother : forall o', o' ∈ os -> obj_pages (upd f last free) o' = obj_pages f o').
  { intros o' Ho'. apply walk_ext. intros p Hp. unfold upd.
    destruct (Z.eqb_spec p last) as [->|]; [|done]. exfalso. apply (Hoo _ Hlast).
    apply list_elem_of_bind. by exists o'. }
  split; [done|].
  replace (Z.to_nat (nfree + n)) with (S k + Z.to_nat nfree)%nat by lia.
  pose proof (walk_redirect f k (Z.to_nat nfree) start free) as Hw. cbn zeta in Hw. fold last in Hw.
  rewrite Hw by done. rewrite (bind_ext _ _ _ Hother).
  rewrite <- app_assoc. by rewrite (Permutation_app_swap_app (walk f (S k) start)).
Qed.

(** ** Reading and writing a chain *)

Definition full_page (c : Z -> list Z) (p : Z) : Prop := zlen (c p) = ONE_PAGE_CONTENT_SIZE.

Lemma load_loop_spec fuel s addr cur required :
  0 <= cur -> required < 2 ^ 62 -> cur <= required + ONE_PAGE_CONTENT_SIZE ->
  required - cur <= Z.of_nat fuel * ONE_PAGE_CONTENT_SIZE ->
  (forall p, p ∈ walk (next s) fuel addr -> full_page (content s) p) ->
  load_loop fuel s addr cur required =
    Some (ztake (required - cur) (walk (next s) fuel addr ≫= content s)).
Proof.
  unfold full_page, ONE_PAGE_CONTENT_SIZE, PAGE_SIZE, Memory.PAGE_SIZE.
  revert addr cur. induction fuel as [|fuel IH]; intros addr cur Hc Hr Hb Hf Hp; cbn [load_loop walk].
  - destruct (Z.ltb_spec cur required); [lia|]. cbn. unfold ztake. by rewrite take_nil.
  - destruct (Z.ltb_spec cur required).
    2: { unfold ztake. replace (Z.to_nat (required - cur)) with 0%nat by lia. by rewrite take_0. }
    cbn [mbind list_bind]. unfold ONE_PAGE_CONTENT_SIZE, PAGE_SIZE, Memory.PAGE_SIZE.
    rewrite u64_small by (unfold is_u64; lia).
    rewrite IH; [|lia|lia|lia|lia|intros p Hpp; apply Hp; cbn; by right].
    assert (Hl : zlen (content s addr) = 4096 - 8) by (apply Hp; cbn; left).
    f_equal. unfold ztake, zlen in *. rewrite take_app. f_equal.
    + destruct (Z.le_ge_cases (required - cur) (4096 - 8)).
      * by rewrite Z.min_l by lia.
      * rewrite Z.min_r by lia. rewrite !take_ge by lia. done.
    + f_equal. lia.
Qed.

(** The pages that [k] bytes take. *)
Definition chunks (k : Z) : nat := Z.to_nat ((k + ONE_PAGE_CONTENT_SIZE - 1) / ONE_PAGE_CONTENT_SIZE).

Lemma ztake_app_min (k : Z) (a b : list Z) :
  0 <= k -> ztake k (a ++ b) = ztake (Z.min k (zlen a)) a ++ ztake (k - zlen a) b.
Proof.
  intros Hk. unfold ztake, zlen. rewrite take_app. f_equal; [|f_equal; lia].
  destruct (Z.le_ge_cases k (Z.of_nat (length a))).
  - by rewrite Z.min_l by lia.
  - rewrite Z.min_r by lia. by rewrite !take_ge by lia.
Qed.

Lemma store_loop_spec fuel s addr src cur len :
  0 <= cur -> len < 2 ^ 62 -> cur <= len + ONE_PAGE_CONTENT_SIZE ->
  len - cur <= Z.of_nat fuel * ONE_PAGE_CONTENT_SIZE -> zlen src = Z.max 0 (len - cur) ->
  let n := chunks (Z.max 0 (len - cur)) in
  NoDup (walk (next s) n addr) ->
  (forall p, p ∈ walk (next s) n addr -> full_page (content s) p) ->
  exists c, store_loop fuel s addr src cur len = Some (with_pages s (next s) c, follow (next s) n addr) /\
    (forall p, p ∉ walk (next s) n addr -> c p = content s p) /\
    (forall p, p ∈ walk (next s) n addr -> full_page c p) /\
    ztake (Z.max 0 (len - cur)) (walk (next s) n addr ≫= c) = src.
Proof.
  revert s addr src cur. induction fuel as [|fuel IH]; intros s addr src cur Hc Hl Hb Hf Hs; cbn zeta.
  all: unfold full_page, ONE_PAGE_CONTENT_SIZE, PAGE_SIZE, Memory.PAGE_SIZE in *.
  all: assert (Hdone : len <= cur -> chunks (Z.max 0 (len - cur)) = 0%nat /\ src = [])
    by (intros H; rewrite Z.max_l in * by lia; split; [done|]; destruct src; [done|unfold zlen in Hs; cbn in Hs; lia]).
  { intros _ _. destruct Hdone as [-> ->]; [lia|]. exists (content s). cbn [store_loop].
    destruct (Z.ltb_spec cur len); [lia|]. conj_split; [by destruct s|done|by intros p ?%elem_of_nil|]. cbn. unfold ztake. by rewrite take_nil. }
  cbn [store_loop]. destruct (Z.ltb_spec cur len) as [Hlt|Hge].
  2: { intros _ _. destruct Hdone as [-> ->]; [lia|]. exists (content s).
       conj_split; [by destruct s|done|by intros p ?%elem_of_nil|]. cbn. unfold ztake. by rewrite take_nil. }
  clear Hdone. rewrite Z.max_r in * by lia.
  assert (En : chunks (len - cur) = S (chunks (Z.max 0 (len - (cur + 4088))))).
  { unfold chunks, ONE_PAGE_CONTENT_SIZE, PAGE_SIZE, Memory.PAGE_SIZE. clear IH.
    rewrite <- Z2Nat.inj_succ by (Z.to_euclidean_division_equations; lia). f_equal.
    destruct (Z.max_spec 0 (len - (cur + 4088))) as [[? ->]|[? ->]]; Z.to_euclidean_division_equations; lia. }
  rewrite En. set (n := chunks (Z.max 0 _)) in *. cbn [walk follow]. intros Hd Hp.
  apply NoDup_cons in Hd as [Hn Hd].
  unfold ONE_PAGE_CONTENT_SIZE, PAGE_SIZE, Memory.PAGE_SIZE.
  change (4096 - 8) with 4088 in *. rewrite u64_small by (unfold is_u64; lia).
  set (chunk := ztake (Z.min (len - cur) 4088) src).
  assert (Hfull : zlen (content s addr) = 4088) by (apply Hp; by left).
  assert (Hchunk : zlen chunk = Z.min (len - cur) 4088) by (apply zlen_ztake; lia).
  set (s1 := with_pages s (next s) (upd (content s) addr (write_at 0 chunk (content s addr)))).
  destruct (IH s1 (next s addr) (zdrop 4088 src) (cur + 4088)) as (c & E & Hout & Hin & Hbs); try lia.
  { destruct (Z.le_ge_cases 4088 (zlen src)); [rewrite zlen_zdrop by lia; lia|].
    unfold zdrop, zlen in *. rewrite drop_ge by lia. cbn. lia. }
  { exact Hd. }
  { intros p Hpp. unfold s1. cbn [content with_pages]. unfold upd. destruct (Z.eqb_spec p addr) as [->|].
    - by destruct Hn.
    - apply Hp. by right. }
  fold n in E, Hout, Hin, Hbs. cbn [next with_pages s1] in *.
  exists c. assert (Ha : c addr = write_at 0 chunk (content s addr)).
  { rewrite Hout by done. unfold s1. cbn [content with_pages]. unfold upd. by rewrite Z.eqb_refl. }
  assert (Hal : zlen (c addr) = 4088) by (rewrite Ha, zlen_write_at; lia).
  conj_split; [rewrite E; done| | |].
  - intros p Hnp. rewrite Hout by (intros H; apply Hnp; by right). unfold s1. cbn [content with_pages].
    unfold upd. destruct (Z.eqb_spec p addr) as [->|]; [|done]. destruct Hnp. by left.
  - intros p [->|Hpp]%elem_of_cons; [done|by apply Hin].
  - cbn [mbind list_bind]. rewrite ztake_app_min, Hal by lia.
    replace (ztake (len - cur - 4088) (walk (next s) n (next s addr) ≫= c)) with (zdrop 4088 src).
    2: { rewrite <- Hbs. unfold ztake. f_equal. lia. }
    rewrite Ha. assert (Er : ztake (Z.min (len - cur) 4088) (write_at 0 chunk (content s addr)) = chunk).
    { pose proof (read_write_at_eq 0 chunk (content s addr) ltac:(lia) ltac:(lia)) as H.
      unfold read_at in H. change (zdrop 0 ?l) with l in H. by rewrite Hchunk in H. }
    rewrite Er. unfold chunk, ztake, zdrop, zlen in *. destruct (Z.le_ge_cases (len - cur) 4088).
    + rewrite Z.min_l by lia. rewrite take_ge, drop_ge by lia. apply app_nil_r.
    + rewrite Z.min_r by lia. apply take_drop.
Qed.

End CacheSpec.
