(* ===== verification/CacheStore.v ===== *)
(** * CacheStore: load, store and eviction refine a finite map

    The invariant [wf] of a cache, the map [abs] it stands for, and the theorems
    that [load] is lookup, [store] is insertion after the removal of least
    recently used entries, and that [init] starts with the empty map. *)
From S2P Require Import Prelude Utils Memory DuckCache CacheSpec.
From stdpp Require Import list gmap sorting.
#[local] Open Scope Z_scope.

Module CacheStore.
Import Utils DuckCache CacheSpec.

(** ** The invariant *)

(** The free pages and those of the objects [os] are [total] different full pages. *)
Definition owned (f : Z -> Z) (c : Z -> list Z) (free nfree total : Z) (os : list Obj) : Prop :=
  0 <= nfree /\ NoDup (all_pages f free nfree os) /\ zlen (all_pages f free nfree os) = total /\
  (forall p, p ∈ all_pages f free nfree os -> full_page c p).

Record wf (s : state) : Prop := {
  wf_n : 0 <= n_cur_objects s <= n_max_objects s;
  wf_len : zlen (objs s) = n_max_objects s;
  wf_max : 1 <= n_max_objects s;
  wf_sorted : StronglySorted before (live s);
  wf_good : Forall good_obj (live s);
  wf_owned : owned (next s) (content s) (free_list_addr s) (n_free_pages s) (n_total_pages s) (live s) }.

(** The map from digests to bytes that a cache stands for. *)
Definition abs (s : state) : gmap (list Z) (list Z) :=
  list_to_map ((λ o, (obj_digest o, obj_bytes (next s) (content s) o)) <$> live s).

Lemma live_length s : wf s -> zlen (live s) = n_cur_objects s.
Proof. intros Hs. apply zlen_ztake. destruct Hs. lia. Qed.

Lemma live_at s i : 0 <= i < n_cur_objects s -> zlen (objs s) = n_max_objects s ->
  n_cur_objects s <= n_max_objects s -> live s !! Z.to_nat i = Some (obj_at s i).
Proof.
  intros Hi Hl Hn. unfold live, ztake, obj_at, zget, zlen in *.
  rewrite lookup_take_lt by lia.
  destruct (lookup_lt_is_Some_2 (objs s) (Z.to_nat i)) as [o Ho]; [lia|].
  by rewrite Ho, (nth_lookup_Some _ _ _ _ Ho).
Qed.

Lemma all_pages_perm f free nfree os os' :
  os ≡ₚ os' -> all_pages f free nfree os ≡ₚ all_pages f free nfree os'.
Proof. intros H. unfold all_pages. by rewrite H. Qed.
Lemma owned_perm f c free nfree total os f' free' nfree' os' :
  0 <= nfree' -> all_pages f' free' nfree' os' ≡ₚ all_pages f free nfree os ->
  owned f c free nfree total os -> owned f' c free' nfree' total os'.
Proof.
  intros Hn Hp (_ & Hd & Ht & Hf). unfold owned, zlen in *.
  conj_split; [done|by rewrite Hp|by rewrite Hp|]. intros p. rewrite Hp. apply Hf.
Qed.

(** ** Digests are keys *)

Lemma digest_nodup l : StronglySorted before l -> NoDup (obj_digest <$> l).
Proof.
  induction 1 as [|o l Hs IH Hf]; cbn; constructor; [|done].
  intros (o' & E & Ho')%list_elem_of_fmap. rewrite Forall_forall in Hf. specialize (Hf _ Ho').
  unfold before in Hf. rewrite <- E, cmp_refl in Hf. done.
Qed.

Lemma abs_lookup s d b : wf s ->
  abs s !! d = Some b <->
  exists o, o ∈ live s /\ obj_digest o = d /\ obj_bytes (next s) (content s) o = b.
Proof.
  intros Hs. unfold abs. rewrite <- elem_of_list_to_map.
  - rewrite list_elem_of_fmap. split.
    + intros (o & [= -> ->] & Ho). by exists o.
    + intros (o & Ho & <- & <-). by exists o.
  - rewrite <- list_fmap_compose. apply digest_nodup, Hs.
Qed.

(** What [find] tells. *)
Lemma find_spec s d : wf s -> length d = 4%nat ->
  let '(idx, found) := find s d in
  exists a b, live s = a ++ b /\ zlen a = idx /\
    (forall o, o ∈ a -> cmp_digest (obj_digest o) d = -1) /\
    if found then exists o b', b = o :: b' /\ obj_digest o = d
    else forall o, o ∈ b -> cmp_digest d (obj_digest o) = -1.
Proof.
  intros Hs Hd. rewrite find_is_find_loop; [|by rewrite live_length|apply Hs| |done].
  2: { apply sorted_by_hash; apply Hs. }
  destruct (find_loop_spec (live s) 0 d) as (a & b & El & Ei & Ha & Hb).
  destruct (find_loop (live s) 0 d) as [idx found]. cbn [fst snd] in *.
  exists a, b. conj_split; [done|lia|by apply Forall_forall|].
  destruct b as [|o b]; [by subst found; intros o ?%elem_of_nil|]. destruct Hb as [Hr ->].
  pose proof (wf_good s Hs) as Hg. pose proof (wf_sorted s Hs) as Hso. rewrite El in Hg, Hso.
  apply Forall_app in Hg as [_ [Hgo _]%Forall_cons]. apply StronglySorted_app_1_r in Hso.
  destruct (Z.eqb_spec (cmp_digest (obj_digest o) d) 0) as [E|E].
  - exists o, b. split; [done|]. apply cmp_eq; [|done]. rewrite Hd. apply Hgo.
  - pose proof (cmp_range (obj_digest o) d). pose proof (cmp_swap (obj_digest o) d).
    assert (Hdo : cmp_digest d (obj_digest o) = -1) by lia.
    intros o' [->|Ho']%elem_of_cons; [done|].
    apply StronglySorted_inv in Hso as [_ Hf]. rewrite Forall_forall in Hf.
    apply (cmp_trans d (obj_digest o)); [rewrite Hd; symmetry; apply Hgo|done|by apply Hf].
Qed.

Lemma find_found s d idx : wf s -> length d = 4%nat -> find s d = (idx, true) ->
  exists a o b, live s = a ++ o :: b /\ zlen a = idx /\ obj_digest o = d /\ obj_at s idx = o.
Proof.
  intros Hs Hd E. pose proof (find_spec s d Hs Hd) as H. rewrite E in H.
  destruct H as (a & b & El & Ei & _ & o & b' & -> & Ho). exists a, o, b'. conj_split; try done.
  pose proof (live_at s idx) as Hat. rewrite El in Hat.
  assert (Hlen : zlen (a ++ o :: b') = n_cur_objects s) by (rewrite <- El; by apply live_length).
  rewrite zlen_app in Hlen. unfold zlen in *. cbn [length] in Hlen.
  destruct Hs as [Hn Hl _ _ _ _]. rewrite lookup_app_r in Hat by lia.
  replace (Z.to_nat idx - length a)%nat with 0%nat in Hat by lia. cbn in Hat.
  assert (Some o = Some (obj_at s idx)) as [= ->] by (apply Hat; unfold zlen in *; lia). done.
Qed.

Lemma find_missing s d idx : wf s -> length d = 4%nat -> find s d = (idx, false) ->
  exists a b, live s = a ++ b /\ zlen a = idx /\ abs s !! d = None /\
    (forall o, o ∈ a -> cmp_digest (obj_digest o) d = -1) /\
    (forall o, o ∈ b -> cmp_digest d (obj_digest o) = -1).
Proof.
  intros Hs Hd E. pose proof (find_spec s d Hs Hd) as H. rewrite E in H.
  destruct H as (a & b & El & Ei & Ha & Hb). exists a, b. conj_split; try done.
  destruct (abs s !! d) as [bs|] eqn:Eb; [|done]. apply abs_lookup in Eb as (o & Ho & Eo & _); [|done].
  rewrite El in Ho. apply elem_of_app in Ho as [Ho|Ho].
  - apply Ha in Ho. by rewrite Eo, cmp_refl in Ho.
  - apply Hb in Ho. by rewrite Eo, cmp_refl in Ho.
Qed.

(** ** Load *)

Lemma live_zset s a o b x : zlen (live s) = n_cur_objects s -> live s = a ++ o :: b ->
  live (with_objs s (n_cur_objects s) (zset (objs s) (zlen a) x)) = a ++ x :: b.
Proof.
  intros Hl El. rewrite El in Hl. unfold zlen in Hl.
  rewrite length_app in Hl. cbn [length] in Hl. unfold live, ztake, zset, zlen in *.
  cbn [n_cur_objects objs with_objs]. rewrite Nat2Z.id. rewrite take_insert_lt by lia.
  rewrite El, insert_app_r_alt by lia. by rewrite Nat.sub_diag.
Qed.

Lemma load_loop_more fuel s addr cur required bs :
  load_loop fuel s addr cur required = Some bs -> load_loop (S fuel) s addr cur required = Some bs.
Proof.
  revert addr cur bs. induction fuel as [|fuel IH]; intros addr cur bs.
  - cbn [load_loop]. by destruct (cur <? required).
  - remember (S fuel) as n. cbn [load_loop]. subst n. intros H. cbn [load_loop] in H.
    destruct (cur <? required); [|done].
    destruct (load_loop fuel s (next s addr) _ required) as [bs'|] eqn:E; [|done].
    by rewrite (IH _ _ _ E).
Qed.
Lemma load_loop_fuel fuel fuel' s addr cur required bs :
  (fuel <= fuel')%nat -> load_loop fuel s addr cur required = Some bs ->
  load_loop fuel' s addr cur required = Some bs.
Proof. induction 1 as [|m _ IH]; [done|]. intros H. by apply load_loop_more, IH. Qed.

(** The bytes of an object are what the loop reads. *)
Lemma load_object s o : wf s -> o ∈ live s ->
  let m := obj_metadata o in
  load_loop (loop_fuel (len m)) s (start_addr m) 0 (len m) = Some (obj_bytes (next s) (content s) o) /\
  zlen (obj_bytes (next s) (content s) o) = len m.
Proof.
  intros Hs Ho. cbn zeta. pose proof (wf_good s Hs) as Hg. rewrite Forall_forall in Hg.
  destruct (Hg o Ho) as (_ & _ & _ & Hlen). destruct (pages_needed_spec _ Hlen) as (Hn1 & Hn2 & Hn3).
  pose proof (wf_owned s Hs) as (_ & _ & _ & Hfull).
  assert (Hp : forall p, p ∈ obj_pages (next s) o -> full_page (content s) p).
  { intros p Hp. apply Hfull, elem_of_app. right. apply list_elem_of_bind. by exists o. }
  unfold obj_bytes, obj_pages, obj_npages in *. set (n := len (obj_metadata o)) in *.
  set (k := pages_needed n) in *. split.
  - apply (load_loop_fuel (Z.to_nat k)).
    + unfold loop_fuel, ONE_PAGE_CONTENT_SIZE, PAGE_SIZE, Memory.PAGE_SIZE in *.
      destruct (Z.eq_dec n 0) as [E|E].
      * assert (Ek : k = 1) by (unfold k; by rewrite E). rewrite Ek, E. apply Nat.leb_le. reflexivity.
      * assert (k - 1 <= n / (4096 - 8)) by (clear -Hn3 Hlen E; Z.to_euclidean_division_equations; lia). lia.
    + rewrite load_loop_spec; [by rewrite Z.sub_0_r|lia|lia|
        unfold ONE_PAGE_CONTENT_SIZE, PAGE_SIZE, Memory.PAGE_SIZE; lia|lia|exact Hp].
  - rewrite zlen_ztake; [done|]. split; [lia|].
    assert (Hz : forall l, (forall p, p ∈ l -> full_page (content s) p) ->
      zlen (l ≫= content s) = ONE_PAGE_CONTENT_SIZE * zlen l).
    { clear. induction l as [|p l IH]; intros H; [done|]. cbn [mbind list_bind].
      rewrite zlen_app, IH by (intros q Hq; apply H; by right). rewrite (H p) by left.
      unfold zlen. cbn [length]. lia. }
    rewrite Hz by done. unfold zlen. rewrite length_walk. lia.
Qed.

(** Only the clock of an object changes. *)
Lemma wf_touch s a o b now : wf s -> live s = a ++ o :: b -> 0 < now ->
  let m := obj_metadata o in
  let s' := with_objs s (n_cur_objects s)
    (zset (objs s) (zlen a) (set_metadata o (mk_metadata now (start_addr m) (len m)))) in
  wf s' /\ abs s' = abs s.
Proof.
  intros Hs El Hnow. cbn zeta. set (o' := set_metadata _ _). set (s' := with_objs _ _ _).
  pose proof (live_zset s a o b o' (live_length s Hs) El) as El'. fold s' in El'. split.
  - destruct Hs as [H1 H2 H3 H4 H5 H6]. rewrite El in *. split; try done.
    + unfold s'. cbn. by rewrite zlen_zset.
    + rewrite El'. apply StronglySorted_app in H4 as (Hab & Ha & Hb).
      apply StronglySorted_app_2; [|done|].
      * intros x1 x2 Hx1 Hx2. apply elem_of_cons in Hx2 as [->|Hx2].
        -- apply (Hab x1 o Hx1). by left.
        -- apply (Hab x1 x2 Hx1). by right.
      * by apply StronglySorted_inv in Hb as [Hb Hf]; constructor.
    + rewrite El'. apply Forall_app in H5 as [Ha [Ho Hb]%Forall_cons]. apply Forall_app.
      split; [done|]. constructor; [|done]. by destruct Ho as (G1 & G2 & _ & G3).
    + rewrite El'. unfold owned, all_pages in *. by rewrite bind_app in *.
  - unfold abs. rewrite El', El. by rewrite !fmap_app.
Qed.

Lemma load_abs s now d n :
  wf s -> length d = 4%nat -> 0 < now ->
  exists s' r, load s now d n = Some (s', r) /\ wf s' /\ abs s' = abs s /\
    forall bs, r = Some bs <-> abs s !! d = Some bs /\ zlen bs = n.
Proof.
  intros Hs Hd Hnow. unfold load. destruct (find s d) as [idx found] eqn:Ef. destruct found; cbn [negb].
  2: { destruct (find_missing s d idx Hs Hd Ef) as (a & b & _ & _ & E & _).
       exists s, None. conj_split; try done. intros bs. rewrite E. split; [done|]. by intros [? _]. }
  destruct (find_found s d idx Hs Hd Ef) as (a & o & b & El & <- & Ed & Eat). cbn zeta. rewrite Eat.
  assert (Ho : o ∈ live s) by (rewrite El; apply elem_of_app; right; by left).
  destruct (load_object s o Hs Ho) as [Hload Hlen].
  assert (Eabs : abs s !! d = Some (obj_bytes (next s) (content s) o)) by (apply abs_lookup; [done|by exists o]).
  destruct (Z.eqb_spec (len (obj_metadata o)) n) as [<-|Hne]; cbn [negb].
  - set (m := obj_metadata o) in *. destruct (wf_touch s a o b now Hs El Hnow) as [Hs' Habs].
    fold m in Hs', Habs. set (s' := with_objs _ _ _) in *.
    assert (Hl : forall f addr c r, load_loop f s' addr c r = load_loop f s addr c r).
    { clear. subst s'. induction f as [|f IH]; intros addr c r; cbn [load_loop]; [done|]. by rewrite IH. }
    rewrite Hl, Hload. eexists _, _. conj_split; [reflexivity|done|done|].
    intros bs. rewrite Eabs. split; [intros [= <-]; done|]. by intros [[= ->] _].
  - exists s, None. conj_split; try done. intros bs. split; [done|]. rewrite Eabs. intros [[= <-] E]. lia.
Qed.

(** C26: Looking up a digest in a cache is looking it up in the map it stands for: the
    bytes come back exactly when they are stored and have the length asked for; the
    map stays the same, the copy loop ends, and the invariant is kept. *)
Theorem load_refines s now d n :
  wf s -> length d = 4%nat -> 0 < now ->
  exists s' r, load s now d n = Some (s', r) /\ wf s' /\ abs s' = abs s /\
    forall bs, r = Some bs <-> abs s !! d = Some bs /\ zlen bs = n.
Proof. apply load_abs. Qed.


(** ** Removal *)

Definition alive (s : state) : list Obj := List.filter valid (live s).
Definition npages_at (s : state) (id : Z) : Z := pages_needed (len (obj_metadata (obj_at s id))).
Fixpoint freed (s : state) (ids : list Z) : Z :=
  match ids with [] => 0 | id :: ids => npages_at s id + freed s ids end.

(** The state of the removal loop when the objects [ids] are left. *)
Record removing (s0 : state) (ids : list Z) (s : state) (rp ro : Z) : Prop := {
  r_fields : n_cur_objects s = n_cur_objects s0 /\ n_max_objects s = n_max_objects s0 /\
    n_free_pages s = n_free_pages s0 /\ n_total_pages s = n_total_pages s0 /\ content s = content s0;
  r_len : zlen (objs s) = n_max_objects s0;
  r_owned : 0 <= rp /\ owned (next s) (content s0) (free_list_addr s) (n_free_pages s0 + rp)
    (n_total_pages s0) (alive s);
  r_perm : alive s ≡ₚ obj_at s0 <$> ids;
  r_sorted : StronglySorted before (alive s);
  r_pages : forall o, o ∈ alive s -> obj_pages (next s) o = obj_pages (next s0) o;
  r_at : forall id, id ∈ ids -> 0 <= id < n_cur_objects s0 /\ obj_at s id = obj_at s0 id;
  r_nodup : NoDup ids;
  r_count : zlen (alive s) + ro = n_cur_objects s0 }.

Lemma good_valid o : good_obj o -> valid o = true.
Proof. intros (_ & _ & H & _). unfold valid. destruct (Z.eqb_spec (last_used_tsc (obj_metadata o)) 0); [lia|done]. Qed.

Lemma obj_at_live s id : wf s -> 0 <= id < n_cur_objects s -> obj_at s id ∈ live s.
Proof.
  intros Hs Hid. apply list_elem_of_lookup. exists (Z.to_nat id). destruct Hs. apply live_at; lia.
Qed.
Lemma obj_at_good s id : wf s -> 0 <= id < n_cur_objects s -> good_obj (obj_at s id).
Proof.
  intros Hs Hid. pose proof (wf_good s Hs) as Hg. rewrite Forall_forall in Hg.
  by apply Hg, obj_at_live.
Qed.

Lemma remove_object_step s0 id ids s rp ro :
  wf s0 -> removing s0 (id :: ids) s rp ro ->
  removing s0 ids (fst (remove_object s id)) (rp + npages_at s0 id) (ro + 1) /\
  snd (remove_object s id) = npages_at s0 id.
Proof.
  intros Hs0 [Hf Hl [Hrp Ho] Hp Hso Hpg Hat Hnd Hc]. destruct (Hat id) as [Hid Eid]; [by left|].
  destruct Hf as (F1 & F2 & F3 & F4 & F5). pose proof (wf_n s0 Hs0) as Hn0.
  unfold remove_object. rewrite Eid. cbn zeta. fold (npages_at s0 id). cbn [fst snd].
  pose proof (obj_at_good s0 id Hs0 Hid) as Hgood.
  set (o := obj_at s0 id) in *. set (o' := set_metadata o _).
  assert (Hlive : zlen (live s) = n_cur_objects s) by (apply zlen_ztake; lia).
  assert (Hlk : live s !! Z.to_nat id = Some o).
  { rewrite <- Eid. apply live_at; lia. }
  pose proof (take_drop_middle _ _ _ Hlk) as El. symmetry in El.
  set (a := take (Z.to_nat id) (live s)) in *. set (b := drop (S (Z.to_nat id)) (live s)) in *.
  assert (Ea : zlen a = id).
  { apply lookup_lt_Some in Hlk. subst a. unfold zlen. rewrite length_take. lia. }
  pose proof (live_zset s a o b o' Hlive El) as El'. rewrite Ea in El'.
  assert (Hvo : valid o = true) by by apply good_valid.
  assert (Ea1 : alive s = List.filter valid a ++ o :: List.filter valid b).
  { unfold alive. rewrite El, List.filter_app. cbn [List.filter]. by rewrite Hvo. }
  set (s1 := with_free _ _ _).
  assert (Ea2 : alive s1 = List.filter valid a ++ List.filter valid b).
  { unfold alive. change (live s1) with (live (with_objs s (n_cur_objects s) (zset (objs s) id o'))).
    rewrite El', List.filter_app. reflexivity. }
  assert (Hperm : o :: alive s1 ≡ₚ alive s) by (rewrite Ea1, Ea2; apply Permutation_middle).
  destruct (pages_needed_spec (len (obj_metadata o))) as (Hn1 & _); [apply Hgood|].
  pose proof Ho as (Hof & Hod & _).
  destruct (release_pages (next s) (free_list_addr s) (n_free_pages s0 + rp) o (alive s1)) as [Hkeep Hrel];
    [done|done|by rewrite (all_pages_perm _ _ _ _ _ Hperm)|].
  unfold npages_at. fold o. fold o in Hn1.
  split; [|done]. split.
  - done.
  - cbn. by rewrite zlen_zset.
  - split; [lia|]. cbn [next free_list_addr s1 with_free with_pages with_objs].
    eapply owned_perm; [lia| |exact Ho]. rewrite <- (all_pages_perm _ _ _ _ _ Hperm), <- Hrel.
    by rewrite Z.add_assoc.
  - apply (Permutation_cons_inv (a := o)). rewrite Hperm, Hp. done.
  - rewrite Ea2. rewrite Ea1 in Hso. apply StronglySorted_app in Hso as (Hab & Ha & Hb).
    apply StronglySorted_inv in Hb as [Hb _]. apply StronglySorted_app_2; [|done|done].
    intros x1 x2 Hx1 Hx2. apply Hab; [done|by right].
  - intros x Hx. cbn [next s1 with_free with_pages]. rewrite Hkeep by done.
    apply Hpg. rewrite <- Hperm. by right.
  - apply NoDup_cons in Hnd as [Hni _]. intros j Hj. destruct (Hat j) as [Hjn Ej]; [by right|].
    split; [done|]. unfold obj_at. cbn [objs s1 with_free with_pages with_objs].
    rewrite zget_zset_ne; [exact Ej|lia|lia|]. by intros ->.
  - by apply NoDup_cons in Hnd as [_ Hnd].
  - apply Permutation_length in Hperm. unfold zlen in *. cbn [length] in Hperm. lia.
Qed.

Lemma not_enough_same s0 ids s rp ro need p o :
  removing s0 ids s rp ro -> not_enough s need p o = not_enough s0 need p o.
Proof. intros [(F1 & F2 & F3 & _) _ _ _ _ _ _ _ _]. unfold not_enough. by rewrite F1, F2, F3. Qed.

(** The loop removes a shortest prefix that makes room, or everything. *)
Lemma remove_loop_spec s0 need ids s rp ro :
  wf s0 -> removing s0 ids s rp ro ->
  exists gone kept,
    let '(s', rp', ro') := remove_loop ids s need rp ro in
    ids = gone ++ kept /\ removing s0 kept s' rp' ro' /\ rp' = rp + freed s0 gone /\ ro' = ro + zlen gone /\
    (kept = [] \/ not_enough s0 need rp' ro' = false) /\ (ids <> [] -> gone <> []) /\
    forall t1 t2, gone = t1 ++ t2 -> t1 <> [] -> t2 <> [] ->
      not_enough s0 need (rp + freed s0 t1) (ro + zlen t1) = true.
Proof.
  intros Hs0. revert s rp ro. induction ids as [|id ids IH]; intros s rp ro Hr.
  { exists [], []. cbn [remove_loop freed app]. rewrite Z.add_0_r. change (zlen []) with 0.
    rewrite Z.add_0_r. conj_split; try done; [by left|]. intros t1 t2 E. by destruct t1. }
  cbn [remove_loop]. destruct (remove_object_step s0 id ids s rp ro Hs0 Hr) as [Hr1 En].
  destruct (remove_object s id) as [s1 np]. cbn [fst snd] in Hr1, En. subst np.
  rewrite (not_enough_same s0 ids s1 _ _ need _ _ Hr1).
  destruct (not_enough s0 need (rp + npages_at s0 id) (ro + 1)) eqn:Ene.
  - destruct (IH _ _ _ Hr1) as (gone & kept & Hx). exists (id :: gone), kept.
    destruct (remove_loop ids s1 need _ _) as [[s' rp'] ro']. destruct Hx as (E & H1 & H2 & H3 & H4 & _ & H6).
    conj_split; [by rewrite E|done|cbn [freed]; lia|unfold zlen in *; cbn [length]; lia|done|done|].
    intros [|x t1] t2 Et Hn1 Hn2; [done|]. injection Et as <- Et. cbn [freed].
    unfold zlen. cbn [length]. rewrite Nat2Z.inj_succ. destruct t1 as [|y t1].
    + cbn [freed length]. rewrite Z.add_0_r. exact Ene.
    + specialize (H6 (y :: t1) t2 Et ltac:(done) Hn2). unfold zlen in H6.
      replace (rp + (npages_at s0 id + freed s0 (y :: t1))) with (rp + npages_at s0 id + freed s0 (y :: t1)) by lia.
      replace (ro + Z.succ (Z.of_nat (length (y :: t1)))) with (ro + 1 + Z.of_nat (length (y :: t1))) by lia. done.
  - exists [id], ids. cbn [freed app]. change (zlen [id]) with 1. rewrite Z.add_0_r.
    conj_split; try done; [by right|]. intros [|x [|y t1]] t2 Et Hn1 Hn2; [done| |done].
    injection Et as <- Et. by destruct t2.
Qed.

Lemma live_seqZ s : wf s -> obj_at s <$> seqZ 0 (n_cur_objects s) = live s.
Proof.
  intros Hs. pose proof (live_length s Hs) as Hl. apply list_eq. intros i.
  destruct (decide (i < length (live s))%nat) as [Hi|Hi].
  - rewrite list_lookup_fmap, lookup_seqZ_lt by (unfold zlen in *; lia).
    pose proof (live_at s (Z.of_nat i)) as H. destruct Hs as [H1 H2 _ _ _ _].
    rewrite Nat2Z.id in H. rewrite H by (unfold zlen in *; lia). done.
  - rewrite !lookup_ge_None_2; [done|lia|]. rewrite length_fmap, length_seqZ. unfold zlen in *. lia.
Qed.

Lemma removing_start s ids : wf s -> ids ≡ₚ seqZ 0 (n_cur_objects s) -> removing s ids s 0 0.
Proof.
  intros Hs Hp. assert (Ha : alive s = live s).
  { unfold alive. pose proof (wf_good s Hs) as Hg. induction Hg as [|o l Ho _ IH]; [done|].
    cbn [List.filter]. by rewrite (good_valid o Ho), IH. }
  split.
  - done.
  - apply Hs.
  - rewrite Ha, Z.add_0_r. split; [lia|apply Hs].
  - by rewrite Ha, Hp, live_seqZ.
  - rewrite Ha. apply Hs.
  - done.
  - intros id Hid. rewrite Hp in Hid. by apply elem_of_seqZ in Hid.
  - rewrite Hp. apply NoDup_seqZ.
  - rewrite Ha, live_length by done. lia.
Qed.

Section Sorting.
Variable sort : (Z -> Z) -> list Z -> list Z.
Hypothesis sort_perm : forall key l, sort key l ≡ₚ l.
Hypothesis sort_sorted : forall key l, Sorted (λ i j, key i <= key j) (sort key l).

(** After the loop there is room. *)
Lemma removed_enough s kept s' rp ro need :
  wf s -> need <= n_total_pages s -> removing s kept s' rp ro ->
  kept = [] \/ not_enough s need rp ro = false -> not_enough s need rp ro = false.
Proof.
  intros Hs Hneed [F _ [Hrp (Hf & _ & Ht & _)] Hp _ _ _ _ Hc] [->|]; [|done].
  apply Permutation_nil_r in Hp. rewrite Hp in *. unfold all_pages in Ht. cbn in Ht.
  rewrite app_nil_r in Ht. unfold zlen in *. rewrite length_walk in Ht. cbn in Hc.
  pose proof (wf_max s Hs). unfold not_enough. apply orb_false_iff. split; apply Z.ltb_ge; lia.
Qed.

(** Making room keeps the invariant, removes nothing but a shortest prefix of the
    objects in the order of their last use, and leaves the other objects as they were. *)
Lemma make_room_spec s need :
  wf s -> need <= n_total_pages s ->
  let s' := make_room sort s need in
  let ids := sort (λ i, last_used_tsc (obj_metadata (obj_at s i))) (seqZ 0 (n_cur_objects s)) in
  wf s' /\ not_enough s' need 0 0 = false /\ n_total_pages s' = n_total_pages s /\
  n_max_objects s' = n_max_objects s /\ content s' = content s /\
  (forall o, o ∈ live s' -> o ∈ live s /\ obj_pages (next s') o = obj_pages (next s) o) /\
  exists gone kept, ids = gone ++ kept /\ live s' ≡ₚ obj_at s <$> kept /\
    forall t1 t2, gone = t1 ++ t2 -> t1 <> [] -> t2 <> [] ->
      not_enough s need (freed s t1) (zlen t1) = true.
Proof.
  intros Hs Hneed. cbn zeta. unfold make_room. cbn zeta. set (ids := sort _ _).
  assert (Hids : ids ≡ₚ seqZ 0 (n_cur_objects s)) by apply sort_perm. clearbody ids.
  destruct (remove_loop_spec s need ids s 0 0 Hs (removing_start s ids Hs Hids))
    as (gone & kept & H).
  destruct (remove_loop ids s need 0 0) as [[s1 rp] ro].
  destruct H as (Eids & Hr & _ & _ & Hstop & _ & Hmin).
  pose proof (removed_enough s kept s1 rp ro need Hs Hneed Hr Hstop) as Hen.
  destruct Hr as [(F1 & F2 & F3 & F4 & F5) Hl [Hrp Ho] Hp Hso Hpg Hat Hnd Hc].
  cbn zeta. cbn [n_cur_objects defrag with_objs objs].
  set (s' := with_free _ _ _). pose proof (wf_n s Hs) as Hn. pose proof (wf_max s Hs).
  assert (Hcur : n_cur_objects s1 - ro = zlen (alive s1)) by lia.
  assert (Hal : zlen (alive s1) <= n_max_objects s).
  { unfold alive. pose proof (List.filter_length_le valid (live s1)) as Hle.
    assert (zlen (live s1) = n_cur_objects s1) by (apply zlen_ztake; lia). unfold zlen in *. lia. }
  assert (Hlive : live s' = alive s1).
  { unfold live, s'. cbn [n_cur_objects objs with_free with_objs]. rewrite Hcur. fold (alive s1).
    pose proof (read_write_at_eq 0 (alive s1) (objs s1) ltac:(lia) ltac:(lia)) as E.
    exact E. }
  assert (Hsub : forall o, o ∈ live s' -> o ∈ live s).
  { intros o. rewrite Hlive, Hp. intros (id & -> & Hid)%list_elem_of_fmap.
    apply obj_at_live; [done|]. by apply Hat. }
  conj_split; try done.
  - split.
    + cbn. pose proof (zlen_nonneg (alive s1)). lia.
    + unfold s'. cbn [objs with_free with_objs]. rewrite zlen_write_at; [by cbn; lia|lia|].
      fold (alive s1). lia.
    + cbn. lia.
    + by rewrite Hlive.
    + apply Forall_forall. intros o Hoo. pose proof (wf_good s Hs) as Hg. rewrite Forall_forall in Hg.
      by apply Hg, Hsub.
    + rewrite Hlive. cbn. by rewrite F3, F4, F5.
  - unfold not_enough in *. cbn. apply orb_false_iff in Hen as [H1%Z.ltb_ge H2%Z.ltb_ge].
    apply orb_false_iff. split; apply Z.ltb_ge; lia.
  - intros o Hoo. split; [by apply Hsub|]. apply Hpg. by rewrite <- Hlive.
  - exists gone, kept. conj_split; [done|by rewrite Hlive|]. intros t1 t2 E1 E2 E3.
    rewrite <- (Z.add_0_l (freed s t1)), <- (Z.add_0_l (zlen t1)). by apply (Hmin t1 t2).
Qed.

(** ** Insertion *)

Lemma array_insert {A} (a b t : list A) (y x : A) :
  zset (write_at (zlen a + 1) b (a ++ b ++ y :: t)) (zlen a) x = a ++ x :: b ++ t.
Proof.
  assert (E : write_at (zlen a + 1) b (a ++ b ++ y :: t) = a ++ hd y (b ++ [y]) :: b ++ t).
  { unfold write_at, ztake, zdrop, zlen.
    replace (Z.to_nat (Z.of_nat (length a) + 1)) with (length (a ++ [hd y (b ++ [y])]))
      by (rewrite length_app; cbn; lia).
    replace (a ++ b ++ y :: t) with ((a ++ [hd y (b ++ [y])]) ++ tail (b ++ y :: t)) at 1
      by (destruct b; cbn; by rewrite <- app_assoc).
    rewrite take_app_length, <- app_assoc. cbn [app]. do 3 f_equal.
    replace (a ++ b ++ y :: t) with ((a ++ b ++ [y]) ++ t) by (by rewrite <- !app_assoc).
    apply drop_app_length'. rewrite !length_app. cbn. lia. }
  rewrite E. unfold zset, zlen. rewrite Nat2Z.id, insert_app_r_alt by lia.
  by rewrite Nat.sub_diag.
Qed.

Lemma insert_object_live s idx now d n a b :
  wf s -> live s = a ++ b -> zlen a = idx -> n_cur_objects s + 1 <= n_max_objects s ->
  let s' := insert_object s idx now d n in
  live s' = a ++ mk_obj (zget 0 d 0) d (mk_metadata now (free_list_addr s) n) :: b /\
  zlen (objs s') = n_max_objects s.
Proof.
  intros Hs El Ea Hn. cbn zeta. pose proof (live_length s Hs) as Hl. rewrite El, zlen_app in Hl.
  pose proof (wf_len s Hs) as Hlen. pose proof (wf_n s Hs).
  assert (Eo : objs s = (a ++ b) ++ zdrop (n_cur_objects s) (objs s))
    by (rewrite <- El; symmetry; apply take_drop).
  destruct (zdrop (n_cur_objects s) (objs s)) as [|y t] eqn:Et.
  { rewrite app_nil_r in Eo. rewrite Eo, zlen_app in Hlen. lia. }
  set (o := mk_obj _ _ _). assert (E : objs (insert_object s idx now d n) = a ++ o :: b ++ t).
  { unfold insert_object. cbn [objs with_objs]. fold o. rewrite <- Ea, Eo.
    replace (read_at (zlen a) (n_cur_objects s - zlen a) ((a ++ b) ++ y :: t)) with b.
    - rewrite <- app_assoc. apply array_insert.
    - rewrite <- app_assoc. unfold read_at, ztake, zdrop, zlen in *. rewrite Nat2Z.id, drop_app_length.
      symmetry. apply take_app_length'. lia. }
  split.
  - unfold live. rewrite E. cbn [n_cur_objects insert_object with_objs]. unfold ztake.
    replace (a ++ o :: b ++ t) with ((a ++ o :: b) ++ t) by (by rewrite <- app_assoc).
    apply take_app_length'. rewrite length_app. unfold zlen in Hl. cbn [length]. lia.
  - rewrite E. rewrite Eo in Hlen. unfold zlen in *. rewrite !length_app in *. cbn [length] in *.
    rewrite length_app. lia.
Qed.

(** The pages of a new object are the first of the free list. *)
Lemma take_free f nfree free k o a b :
  0 <= k <= nfree -> obj_pages f o = walk f (Z.to_nat k) free ->
  all_pages f (follow f (Z.to_nat k) free) (nfree - k) (a ++ o :: b) ≡ₚ all_pages f free nfree (a ++ b).
Proof.
  intros Hk Eo. unfold all_pages. rewrite !bind_app. cbn [mbind list_bind]. rewrite Eo.
  replace (Z.to_nat nfree) with (Z.to_nat k + Z.to_nat (nfree - k))%nat by lia.
  rewrite walk_app, <- app_assoc.
  set (y := walk f (Z.to_nat (nfree - k)) _). set (x := walk f (Z.to_nat k) free).
  rewrite (Permutation_app_swap_app (a ≫= obj_pages f) x).
  by rewrite (Permutation_app_swap_app y x).
Qed.

Lemma chunks_needed n : 0 <= n < 2 ^ 62 ->
  (n = 0 -> chunks n = 0%nat /\ pages_needed n = 1) /\ (0 < n -> chunks n = Z.to_nat (pages_needed n)).
Proof.
  intros Hn. split; [by intros ->|]. intros Hp.
  destruct (pages_needed_spec n Hn) as (H1 & H2 & H3). specialize (H3 Hp).
  unfold chunks, ONE_PAGE_CONTENT_SIZE, PAGE_SIZE, Memory.PAGE_SIZE in *. f_equal.
  Z.to_euclidean_division_equations; lia.
Qed.

(** Writing the bytes: the pages taken hold them, the others keep theirs. *)
Lemma write_pages s src : zlen src < 2 ^ 62 ->
  let k := Z.to_nat (pages_needed (zlen src)) in
  let pages := walk (next s) k (free_list_addr s) in
  NoDup pages -> (forall p, p ∈ pages -> full_page (content s) p) ->
  exists c addr, store_loop (loop_fuel (zlen src)) s (free_list_addr s) src 0 (zlen src) =
      Some (with_pages s (next s) c, addr) /\
    (if zlen src =? 0 then next s addr else addr) = follow (next s) k (free_list_addr s) /\
    (forall p, p ∉ pages -> c p = content s p) /\ (forall p, p ∈ pages -> full_page c p) /\
    ztake (zlen src) (pages ≫= c) = src.
Proof.
  intros Hlen. cbn zeta. pose proof (zlen_nonneg src) as H0. set (n := zlen src) in *. intros Hd Hf.
  destruct (chunks_needed n) as [C0 C1]; [lia|].
  assert (Hsub : forall p, p ∈ walk (next s) (chunks n) (free_list_addr s) ->
    p ∈ walk (next s) (Z.to_nat (pages_needed n)) (free_list_addr s)).
  { intros p. destruct (Z.eq_dec n 0) as [E|E]; [destruct (C0 E) as [-> _]; by intros ?%elem_of_nil|].
    by rewrite C1 by lia. }
  destruct (store_loop_spec (loop_fuel n) s (free_list_addr s) src 0 n) as (c & E & Hout & Hin & Hbs).
  - lia.
  - done.
  - unfold ONE_PAGE_CONTENT_SIZE, PAGE_SIZE, Memory.PAGE_SIZE. lia.
  - unfold loop_fuel, ONE_PAGE_CONTENT_SIZE, PAGE_SIZE, Memory.PAGE_SIZE.
    rewrite Z2Nat.id; clear -H0; Z.to_euclidean_division_equations; lia.
  - fold n. lia.
  - rewrite Z.sub_0_r, Z.max_r by lia. destruct (Z.eq_dec n 0) as [E|E].
    + destruct (C0 E) as [-> _]. constructor.
    + by rewrite C1 by lia.
  - rewrite Z.sub_0_r, Z.max_r by lia. intros p Hp. by apply Hf, Hsub.
  - rewrite Z.sub_0_r, Z.max_r in * by lia. eexists c, _. split; [exact E|].
    destruct (Z.eqb_spec n 0) as [E0|E0].
    + destruct (C0 E0) as [Ec Ek]. rewrite Ec, Ek in *. change (Z.to_nat 1) with 1%nat. conj_split.
      * done.
      * intros p _. apply Hout. by intros ?%elem_of_nil.
      * intros p Hp. unfold full_page. rewrite Hout by (by intros ?%elem_of_nil). by apply Hf.
      * rewrite E0 in *. rewrite <- Hbs. done.
    + rewrite C1 in * by lia. conj_split; done.
Qed.

(** The new object takes its pages from the front of the free list. *)
Lemma place_object_spec s idx now d src :
  wf s -> length d = 4%nat -> 0 < now -> zlen src < 2 ^ 62 ->
  not_enough s (pages_needed (zlen src)) 0 0 = false -> find s d = (idx, false) ->
  exists s', place_object s idx now d src (zlen src) (pages_needed (zlen src)) = Some (s', true) /\
    wf s' /\ abs s' = <[d := src]> (abs s).
Proof.
  intros Hs Hd Hnow Hlen Hen Ef.
  destruct (find_missing s d idx Hs Hd Ef) as (a & b & El & Ea & Eno & Ha & Hb).
  unfold not_enough in Hen. apply orb_false_iff in Hen as [Hfree%Z.ltb_ge Hmax%Z.ltb_ge].
  rewrite Z.add_0_r in *. pose proof (zlen_nonneg src) as H0.
  destruct (pages_needed_spec (zlen src)) as (Hk1 & _); [lia|]. set (k := pages_needed (zlen src)) in *.
  destruct (insert_object_live s idx now d (zlen src) a b Hs El Ea ltac:(lia)) as [El1 Hlen1].
  unfold place_object. set (s1 := insert_object s idx now d (zlen src)) in *. set (o := mk_obj _ _ _) in *.
  pose proof (wf_owned s Hs) as (Hnf & Hnd & Htot & Hfull). rewrite El in Hnd, Htot, Hfull.
  assert (Hob : obj_pages (next s) o = walk (next s) (Z.to_nat k) (free_list_addr s)) by reflexivity.
  pose proof (take_free (next s) (n_free_pages s) (free_list_addr s) k o a b ltac:(lia) Hob) as Hperm.
  set (addr := follow (next s) (Z.to_nat k) (free_list_addr s)) in *.
  assert (Hsub : forall p, p ∈ walk (next s) (Z.to_nat k) (free_list_addr s) ->
    p ∈ all_pages (next s) (free_list_addr s) (n_free_pages s) (a ++ b)).
  { intros p Hp. rewrite <- Hperm. apply elem_of_app. right. rewrite bind_app. apply elem_of_app. right.
    cbn [mbind list_bind]. rewrite Hob. apply elem_of_app. by left. }
  rewrite <- Hperm in Hnd. pose proof Hnd as Hnd'. unfold all_pages in Hnd'.
  rewrite bind_app in Hnd'. cbn [mbind list_bind] in Hnd'. rewrite Hob in Hnd'.
  apply NoDup_app in Hnd' as (_ & _ & Hnd'). apply NoDup_app in Hnd' as (_ & Hda & Hnd').
  apply NoDup_app in Hnd' as (Hndo & Hdb & _).
  destruct (write_pages s1 src Hlen Hndo) as (c & ad & E & Ead & Hout & Hin & Hbs);
    [intros p Hp; by apply Hfull, Hsub|].
  change (next s1) with (next s) in *. change (free_list_addr s1) with (free_list_addr s) in *.
  change (content s1) with (content s) in *. fold k addr in Ead, Hout, Hin, Hbs.
  rewrite E. change (next (with_pages s1 (next s) c)) with (next s). rewrite Ead.
  set (s' := with_free _ _ _). exists s'. split; [done|].
  assert (El' : live s' = a ++ o :: b) by exact El1.
  assert (Hgood : good_obj o) by (unfold good_obj; cbn; conj_split; try done; lia).
  assert (Hws : wf s').
  { destruct Hs as [H1 H2 H3 H4 H5 H6]. split; try done.
    - cbn. lia.
    - rewrite El'. rewrite El in H4. apply StronglySorted_app in H4 as (Hab & H4a & H4b).
      apply StronglySorted_app_2; [|done|].
      + intros x1 x2 Hx1 Hx2. apply elem_of_cons in Hx2 as [->|Hx2]; [by apply Ha|by apply Hab].
      + constructor; [done|]. apply Forall_forall. intros x Hx. by apply Hb.
    - rewrite El'. rewrite El in H5. apply Forall_app in H5 as [H5a H5b].
      apply Forall_app. split; [done|]. by constructor.
    - rewrite El'. cbn [next content free_list_addr n_free_pages n_total_pages s' with_free with_pages].
      change (n_free_pages s1) with (n_free_pages s). change (n_total_pages s1) with (n_total_pages s).
      unfold owned. conj_split; [lia|done| |].
      + unfold zlen in *. by rewrite Hperm.
      + intros p Hp. destruct (decide (p ∈ walk (next s) (Z.to_nat k) (free_list_addr s))) as [Hi|Hi].
        * by apply Hin.
        * unfold full_page. rewrite Hout by done. apply Hfull. by rewrite <- Hperm. }
  split; [done|]. apply map_eq. intros i. destruct (decide (i = d)) as [->|Hne].
  - rewrite lookup_insert_eq. apply abs_lookup; [done|]. exists o.
    conj_split; [rewrite El'; apply elem_of_app; right; by left|done|exact Hbs].
  - rewrite lookup_insert_ne by done. apply option_eq. intros bs. rewrite !abs_lookup by done.
    assert (Hsame : forall x, x ∈ a ++ b -> obj_bytes (next s) c x = obj_bytes (next s) (content s) x).
    { intros x Hx. unfold obj_bytes. f_equal. apply bind_ext. intros p Hp. apply Hout. intros Hpo.
      apply elem_of_app in Hx as [Hx|Hx].
      - apply (Hda p); [apply list_elem_of_bind; by exists x|]. apply elem_of_app. by left.
      - apply (Hdb p Hpo). apply list_elem_of_bind. by exists x. }
    rewrite El', El. change (next s') with (next s). change (content s') with c. split.
    + intros (x & Hx & <- & <-). exists x. rewrite elem_of_app, elem_of_cons in Hx.
      assert (x ∈ a ++ b).
      { apply elem_of_app. destruct Hx as [?|[->|?]]; [by left|by destruct Hne|by right]. }
      conj_split; [done|done|]. symmetry. by apply Hsame.
    + intros (x & Hx & <- & <-). exists x. conj_split; [|done|by apply Hsame].
      apply elem_of_app in Hx as [Hx|Hx]; apply elem_of_app; [by left|right; by right].
Qed.

(** A removal keeps, of the map, the bytes of the objects that stay. *)
Lemma make_room_abs s need d b :
  wf s -> need <= n_total_pages s -> abs (make_room sort s need) !! d = Some b -> abs s !! d = Some b.
Proof.
  intros Hs Hneed. destruct (make_room_spec s need Hs Hneed) as (Hs' & _ & _ & _ & Ec & Hsub & _).
  intros (o & Ho & Eo & Eb)%abs_lookup; [|done]. apply abs_lookup; [done|].
  destruct (Hsub o Ho) as [Hol Hop]. exists o. conj_split; [done..|].
  rewrite <- Eb. unfold obj_bytes. by rewrite Hop, Ec.
Qed.

(** What a store does, by cases. *)
Lemma store_cases s now d src :
  wf s -> length d = 4%nat -> 0 < now -> zlen src < 2 ^ 62 ->
  let need := pages_needed (zlen src) in
  let room := if not_enough s need 0 0 then make_room sort s need else s in
  (abs s !! d <> None /\ store sort s now d src (zlen src) = Some (s, true)) \/
  (abs s !! d = None /\ n_total_pages s < need /\ store sort s now d src (zlen src) = Some (s, false)) \/
  (abs s !! d = None /\ need <= n_total_pages s /\ wf room /\
   exists s', store sort s now d src (zlen src) = Some (s', true) /\ wf s' /\
     abs s' = <[d := src]> (abs room)).
Proof.
  intros Hs Hd Hnow Hlen. cbn zeta. unfold store. set (need := pages_needed (zlen src)).
  destruct (find s d) as [idx found] eqn:Ef. destruct found.
  { left. destruct (find_found s d idx Hs Hd Ef) as (a & o & b & El & _ & Ed & _). split; [|done].
    intros E. assert (E' : abs s !! d = Some (obj_bytes (next s) (content s) o)); [|congruence].
    apply abs_lookup; [done|]. exists o. conj_split; [|done|done].
    rewrite El. apply elem_of_app. right. by left. }
  right. destruct (find_missing s d idx Hs Hd Ef) as (_ & _ & _ & _ & Eno & _ & _). cbn zeta.
  destruct (Z.ltb_spec (n_total_pages s) need) as [Hbig|Hfit]; [by left|]. right.
  destruct (not_enough s need 0 0) eqn:Ene.
  - destruct (make_room_spec s need Hs Hfit) as (Hs' & Hen & _).
    assert (Eno' : abs (make_room sort s need) !! d = None).
    { destruct (abs (make_room sort s need) !! d) as [b|] eqn:E; [|done].
      apply make_room_abs in E; [congruence|done|done]. }
    destruct (find (make_room sort s need) d) as [idx' found] eqn:Ef'. destruct found.
    + destruct (find_found _ d idx' Hs' Hd Ef') as (a & o & b & El & _ & Ed & _). exfalso.
      assert (E' : abs (make_room sort s need) !! d = Some (obj_bytes (next (make_room sort s need))
        (content (make_room sort s need)) o)); [|congruence].
      apply abs_lookup; [done|]. exists o. conj_split; [|done|done].
      rewrite El. apply elem_of_app. right. by left.
    + destruct (place_object_spec (make_room sort s need) idx' now d src) as (s' & E & H1 & H2); try done.
      conj_split; [done|done|done|]. exists s'. done.
  - destruct (place_object_spec s idx now d src) as (s' & E & H1 & H2); try done.
    conj_split; [done|done|done|]. exists s'. done.
Qed.

Lemma store_abs s now d src :
  wf s -> length d = 4%nat -> 0 < now -> zlen src < 2 ^ 62 ->
  exists s' r, store sort s now d src (zlen src) = Some (s', r) /\ wf s' /\
    (r = false <-> abs s !! d = None /\ n_total_pages s < pages_needed (zlen src)) /\
    (r = false -> s' = s) /\
    (r = true -> abs s' !! d = Some (default src (abs s !! d))) /\
    (forall d' b, d' <> d -> abs s' !! d' = Some b -> abs s !! d' = Some b) /\
    (not_enough s (pages_needed (zlen src)) 0 0 = false -> forall d', d' <> d -> abs s' !! d' = abs s !! d').
Proof.
  intros Hs Hd Hnow Hlen. set (need := pages_needed (zlen src)).
  destruct (store_cases s now d src Hs Hd Hnow Hlen) as [[H1 E]|[(H1 & H2 & E)|(H1 & H2 & Hr & s' & E & Hs' & Ha)]].
  - exists s, true. conj_split; try done.
    + split; [done|]. intros [? _]. done.
    + intros _. by destruct (abs s !! d).
  - exists s, false. by conj_split.
  - exists s', true. fold need in H2, Ha. conj_split; try done.
    + split; [done|]. lia.
    + intros _. by rewrite Ha, lookup_insert_eq, H1.
    + intros d' b Hne. rewrite Ha, lookup_insert_ne by done.
      destruct (not_enough s need 0 0); [by apply make_room_abs|done].
    + intros Hen d' Hne. by rewrite Ha, Hen, lookup_insert_ne.
Qed.

(** C11: Storing is inserting into the map.  A block that is already there is left alone; one
    that could never fit is refused; otherwise the digest then maps to exactly
    the bytes given, no other digest gets new or different bytes, and nothing is
    lost unless pages or entries run out.  No assertion fails, every loop ends,
    and the invariant (sorted digests, disjoint page chains) is kept. *)
Theorem store_refines s now d src :
  wf s -> length d = 4%nat -> 0 < now -> zlen src < 2 ^ 62 ->
  exists s' r, store sort s now d src (zlen src) = Some (s', r) /\ wf s' /\
    (r = false <-> abs s !! d = None /\ n_total_pages s < pages_needed (zlen src)) /\
    (r = false -> s' = s) /\
    (r = true -> abs s' !! d = Some (default src (abs s !! d))) /\
    (forall d' b, d' <> d -> abs s' !! d' = Some b -> abs s !! d' = Some b) /\
    (not_enough s (pages_needed (zlen src)) 0 0 = false -> forall d', d' <> d -> abs s' !! d' = abs s !! d').
Proof. apply store_abs. Qed.

(** Entries of the arrays with the same digest are the same entry. *)
Lemma digest_inj s i j :
  wf s -> 0 <= i < n_cur_objects s -> 0 <= j < n_cur_objects s ->
  obj_digest (obj_at s i) = obj_digest (obj_at s j) -> i = j.
Proof.
  intros Hs Hi Hj E. pose proof (digest_nodup (live s) (wf_sorted s Hs)) as Hn.
  pose proof (wf_n s Hs). pose proof (wf_len s Hs).
  assert (Hat : forall k, 0 <= k < n_cur_objects s ->
    (obj_digest <$> live s) !! Z.to_nat k = Some (obj_digest (obj_at s k))).
  { intros k Hk. by rewrite list_lookup_fmap, live_at by lia. }
  apply Z2Nat.inj; [lia|lia|]. eapply NoDup_lookup; [exact Hn|by apply Hat|rewrite E; by apply Hat].
Qed.

(** C21: Eviction is least recently used.  When there is no room, the objects of the cache
    split into those removed and those kept: none of the removed was used after
    one of the kept, the kept ones keep their bytes, the removed ones are gone,
    and removing fewer would not have made room. *)
Theorem store_evicts_lru s now d src :
  wf s -> length d = 4%nat -> 0 < now -> zlen src < 2 ^ 62 ->
  abs s !! d = None -> pages_needed (zlen src) <= n_total_pages s ->
  exists s' gone kept, store sort s now d src (zlen src) = Some (s', true) /\
    (not_enough s (pages_needed (zlen src)) 0 0 = true -> gone ++ kept ≡ₚ seqZ 0 (n_cur_objects s) /\
     (forall i j, i ∈ gone -> j ∈ kept ->
       last_used_tsc (obj_metadata (obj_at s i)) <= last_used_tsc (obj_metadata (obj_at s j))) /\
     (forall j, j ∈ kept -> abs s' !! obj_digest (obj_at s j) = abs s !! obj_digest (obj_at s j)) /\
     (forall i, i ∈ gone -> abs s' !! obj_digest (obj_at s i) = None) /\
     (forall t1 t2, gone = t1 ++ t2 -> t1 <> [] -> t2 <> [] ->
       not_enough s (pages_needed (zlen src)) (freed s t1) (zlen t1) = true)).
Proof.
  intros Hs Hd Hnow Hlen Hno Hfit. set (need := pages_needed (zlen src)) in *.
  destruct (store_cases s now d src Hs Hd Hnow Hlen) as [[H1 _]|[(_ & H2 & _)|(_ & _ & Hr & s' & E & Hs' & Ha)]];
    [done|fold need in H2; lia|].
  destruct (make_room_spec s need Hs Hfit) as (_ & _ & _ & _ & Ec & Hsub & gone & kept & Ei & Hk & Hmin).
  exists s', gone, kept. split; [done|]. intros Hen. fold need in Hr, Ha. rewrite Hen in Hr, Ha.
  set (room := make_room sort s need) in *.
  assert (Hperm : gone ++ kept ≡ₚ seqZ 0 (n_cur_objects s)) by (rewrite <- Ei; apply sort_perm).
  assert (Hin : forall i, i ∈ gone ++ kept -> 0 <= i < n_cur_objects s)
    by (intros i Hi; rewrite Hperm in Hi; by apply elem_of_seqZ in Hi).
  assert (Habs : forall i, i ∈ gone ++ kept -> abs s !! obj_digest (obj_at s i) =
    Some (obj_bytes (next s) (content s) (obj_at s i)) /\ obj_digest (obj_at s i) <> d).
  { intros i Hi. assert (E1 : abs s !! obj_digest (obj_at s i) = Some (obj_bytes (next s) (content s) (obj_at s i))).
    { apply abs_lookup; [done|]. exists (obj_at s i). conj_split; [by apply obj_at_live, Hin|done..]. }
    split; [exact E1|]. intros Ed.
    by pose proof (eq_trans (eq_sym Hno) (eq_trans (f_equal (λ x, abs s !! x) (eq_sym Ed)) E1)). }
  conj_split; [done| | | |exact Hmin].
  - intros i j Hi Hj. pose proof (sort_sorted (λ i, last_used_tsc (obj_metadata (obj_at s i)))
      (seqZ 0 (n_cur_objects s))) as Hso. rewrite Ei in Hso.
    apply Sorted_StronglySorted in Hso; [|intros x y z ? ?; lia].
    by apply (StronglySorted_app_1_elem_of _ gone kept i j Hso).
  - intros j Hj. destruct (Habs j) as [E1 Hne]; [apply elem_of_app; by right|].
    rewrite Ha, lookup_insert_ne, E1 by done.
    assert (Ho : obj_at s j ∈ live room) by (rewrite Hk; apply list_elem_of_fmap; by exists j).
    apply abs_lookup; [done|]. exists (obj_at s j). conj_split; [done|done|].
    unfold obj_bytes. destruct (Hsub _ Ho) as [_ ->]. by rewrite Ec.
  - intros i Hi. destruct (Habs i) as [_ Hne]; [apply elem_of_app; by left|].
    rewrite Ha, lookup_insert_ne by done. destruct (abs room !! _) as [b|] eqn:Eb; [|done]. exfalso.
    apply abs_lookup in Eb as (o & Ho & Eo & _); [|done].
    rewrite Hk in Ho. apply list_elem_of_fmap in Ho as (j & -> & Hj).
    assert (j = i) as -> by (apply (digest_inj s); [done|apply Hin, elem_of_app; by right|
      apply Hin, elem_of_app; by left|done]).
    assert (Hnd : NoDup (gone ++ kept)) by (rewrite Hperm; apply NoDup_seqZ).
    apply NoDup_app in Hnd as (_ & Hnd & _). by apply (Hnd i).
Qed.

End Sorting.

(** ** The initial cache *)

Definition page_seq (a n : Z) : list Z := (λ i, a + PAGE_SIZE * i) <$> seqZ 0 n.

Lemma page_seq_cons a n : 0 < n -> page_seq a n = a :: page_seq (a + PAGE_SIZE) (n - 1).
Proof.
  intros Hn. unfold page_seq. rewrite seqZ_cons by done. cbn [fmap list_fmap]. f_equal; [lia|].
  change (Z.succ 0) with (0 + 1). rewrite <- (fmap_add_seqZ 1 0), <- list_fmap_compose. apply list_fmap_ext.
  intros i x _. cbn. lia.
Qed.

Lemma link_pages_spec fuel cache cache_end f n :
  cache_end <= cache + PAGE_SIZE * (Z.of_nat fuel + 1) ->
  let '(f', n') := link_pages fuel cache cache_end f n in
  n < n' /\ walk f' (Z.to_nat (n' - n)) cache = page_seq cache (n' - n) /\
  (forall p, p < cache -> f' p = f p) /\ (cache < cache_end -> cache + PAGE_SIZE * (n' - n - 1) < cache_end).
Proof.
  assert (Hlast : forall cache f n, cache_end <= cache + PAGE_SIZE ->
    n < n + 1 /\ walk (upd f cache 0) (Z.to_nat (n + 1 - n)) cache = page_seq cache (n + 1 - n) /\
    (forall p, p < cache -> upd f cache 0 p = f p) /\
    (cache < cache_end -> cache + PAGE_SIZE * (n + 1 - n - 1) < cache_end)).
  { clear. intros cache f n _. replace (n + 1 - n) with 1 by lia. conj_split; [lia| | |lia].
    - rewrite page_seq_cons by lia. done.
    - intros p Hp. unfold upd. by destruct (Z.eqb_spec p cache); [lia|]. }
  revert cache f n. induction fuel as [|fuel IH]; intros cache f n Hf; cbn [link_pages].
  { apply Hlast. lia. }
  destruct (Z.ltb_spec (cache + PAGE_SIZE) cache_end) as [Hlt|Hge]; [|by apply Hlast].
  specialize (IH (cache + PAGE_SIZE) (upd f cache (cache + PAGE_SIZE)) (n + 1) ltac:(lia)).
  destruct (link_pages _ _ _ _ _) as [f' n']. destruct IH as (H1 & H2 & H3 & H4).
  assert (0 < PAGE_SIZE) by done. conj_split; [lia| | |].
  - rewrite page_seq_cons by lia. replace (Z.to_nat (n' - n)) with (S (Z.to_nat (n' - (n + 1)))) by lia.
    cbn [walk]. rewrite H3 by lia. unfold upd. rewrite Z.eqb_refl, H2. do 2 f_equal. lia.
  - intros p Hp. rewrite H3 by lia. unfold upd. by destruct (Z.eqb_spec p cache); [lia|].
  - intros _. specialize (H4 Hlt). lia.
Qed.

Lemma link_pages_grows fuel cache cache_end f n : n < snd (link_pages fuel cache cache_end f n).
Proof.
  revert cache f n. induction fuel as [|fuel IH]; intros cache f n; cbn [link_pages snd]; [lia|].
  destruct (_ <? _); [|cbn [snd]; lia]. etransitivity; [|apply IH]. lia.
Qed.

(** A new cache is empty and well formed: its free list threads all the pages that
    fit between its arrays and the end of its memory. *)
Theorem init_empty l f c n_max_objects cache_size m m' s :
  zlen l = n_max_objects -> 1 <= n_max_objects -> 0 <= cache_size -> (forall p, full_page c p) ->
  init (l, f, c) n_max_objects cache_size m = Some (m', Some s) ->
  wf s /\ abs s = ∅ /\ exists base, Memory.allocate_virtual_memory cache_size m = (m', Some base) /\
    1 < n_total_pages s /\ n_free_pages s = n_total_pages s /\
    pages_start n_max_objects base + PAGE_SIZE * (n_total_pages s - 1) < base + cache_size /\
    walk (next s) (Z.to_nat (n_total_pages s)) (free_list_addr s) =
      page_seq (pages_start n_max_objects base) (n_total_pages s).
Proof.
  intros Hl Hn Hcs Hfull. unfold init.
  destruct (Memory.allocate_virtual_memory cache_size m) as [m1 [base|]] eqn:Ea; [|done].
  cbn zeta. set (cache := pages_start n_max_objects base).
  destruct (Z.leb_spec (base + cache_size) (cache + PAGE_SIZE)) as [|Hroom]; [done|].
  assert (Hcache : base <= cache).
  { unfold cache, pages_start.
    pose proof (round_up_range (n_max_objects * 8) PAGE_SIZE). pose proof (round_up_range (n_max_objects * 32) PAGE_SIZE).
    pose proof (round_up_range (n_max_objects * 24) PAGE_SIZE). unfold is_u64 in *. lia. }
  pose proof (link_pages_spec (Z.to_nat (cache_size / PAGE_SIZE)) cache (base + cache_size) f 0) as H.
  destruct (link_pages _ _ _ _ _) as [f' n'] eqn:El. destruct H as (H1 & H2 & _ & H4).
  { unfold PAGE_SIZE, Memory.PAGE_SIZE in *. rewrite Z2Nat.id by (apply Z.div_pos; lia).
    Z.to_euclidean_division_equations; lia. }
  rewrite Z.sub_0_r in *. intros [= <- <-].
  assert (Htwo : 1 < n').
  { clear -El Hroom Hcs Hcache. revert El. unfold PAGE_SIZE, Memory.PAGE_SIZE in *.
    destruct (Z.to_nat (cache_size / 4096)) as [|fuel] eqn:Ef.
    { exfalso. assert (cache_size < 4096) by (Z.to_euclidean_division_equations; lia). lia. }
    cbn [link_pages]. unfold PAGE_SIZE, Memory.PAGE_SIZE. destruct (Z.ltb_spec (cache + 4096) (base + cache_size)); [|lia].
    intros El. pose proof (link_pages_grows fuel (cache + 4096) (base + cache_size) (upd f cache (cache + 4096)) (0 + 1)) as Hg.
    rewrite El in Hg. cbn [snd] in Hg. lia. }
  conj_split; [|done|].
  - split; try done.
    + cbn. lia.
    + change (live _) with (@nil Obj). constructor.
    + change (live _) with (@nil Obj). unfold owned, all_pages. cbn. rewrite app_nil_r, H2. conj_split; [lia| | |done].
      * apply NoDup_fmap_2_strong; [|apply NoDup_seqZ]. unfold PAGE_SIZE, Memory.PAGE_SIZE. intros; lia.
      * unfold zlen, page_seq. rewrite length_fmap, length_seqZ. lia.
  - exists base. cbn. conj_split; try done. apply H4. unfold PAGE_SIZE, Memory.PAGE_SIZE in *. lia.
Qed.

(** ** A full cache of two objects *)

(** A concrete [std::sort]. *)
Definition by_key (key : Z -> Z) (i j : Z) : Prop := key i <= key j.
Instance by_key_dec key : RelDecision (by_key key) := λ i j, decide (key i <= key j).
Instance by_key_total key : Total (by_key key).
Proof. intros i j. unfold by_key. lia. Qed.
Definition demo_sort (key : Z -> Z) (l : list Z) : list Z := merge_sort (by_key key) l.
Lemma demo_sort_perm key l : demo_sort key l ≡ₚ l.
Proof. apply merge_sort_Permutation. Qed.
Lemma demo_sort_sorted key l : Sorted (λ i j, key i <= key j) (demo_sort key l).
Proof. unfold demo_sort. apply (Sorted_merge_sort (by_key key)). Qed.

Definition demo_page (p : Z) : list Z := p / 4096 :: repeat 0 4087.
Definition demo_objs : list Obj :=
  [mk_obj 1 [1; 2; 3; 4] (mk_metadata 9 0x1000 1); mk_obj 2 [2; 2; 3; 4] (mk_metadata 7 0x2000 1)].
Definition demo_cache : state := mk_state 0x10000 2 2 0 0 2 demo_objs (λ _, 0) demo_page.

Lemma demo_wf : wf demo_cache.
Proof.
  split; try done.
  - repeat constructor.
  - repeat constructor; cbn; lia.
  - change (live demo_cache) with demo_objs. unfold owned, all_pages.
    change (walk _ _ _ ++ _) with [0x1000; 0x2000]. conj_split; [done| |done|].
    + repeat constructor; [by intros ?%list_elem_of_singleton|by intros ?%elem_of_nil].
    + intros p _. unfold full_page, zlen. reflexivity.
Qed.

Lemma load_refines_witness :
  exists s', load demo_cache 10 [2; 2; 3; 4] 1 = Some (s', Some [2]).
Proof.
  destruct (load_refines demo_cache 10 [2; 2; 3; 4] 1 demo_wf eq_refl ltac:(lia)) as (s' & r & E & _ & _ & H).
  exists s'. assert (r = Some [2]) as <-; [apply H; split; reflexivity|exact E].
Defined.

Lemma store_refines_witness :
  exists s', store demo_sort demo_cache 10 [3; 0; 0; 0] [42] 1 = Some (s', true) /\
    abs s' !! ([3; 0; 0; 0] : list Z) = Some [42].
Proof.
  destruct (store_refines demo_sort demo_sort_perm demo_cache 10 [3; 0; 0; 0] [42] demo_wf eq_refl
    ltac:(lia) ltac:(vm_compute; reflexivity)) as (s' & r & E & _ & Hf & _ & Ht & _).
  assert (r = true) as ->.
  { destruct r; [done|]. destruct (proj1 Hf eq_refl) as [_ H]. exfalso. vm_compute in H. discriminate. }
  exists s'. split; [exact E|]. rewrite Ht by done. reflexivity.
Defined.

Lemma store_evicts_lru_witness :
  exists s' gone kept, store demo_sort demo_cache 10 [3; 0; 0; 0] [42] 1 = Some (s', true) /\
    gone ++ kept ≡ₚ [0; 1] /\
    (forall i, i ∈ gone -> abs s' !! obj_digest (obj_at demo_cache i) = None).
Proof.
  destruct (store_evicts_lru demo_sort demo_sort_perm demo_sort_sorted demo_cache 10 [3; 0; 0; 0] [42]
    demo_wf eq_refl ltac:(lia) ltac:(vm_compute; reflexivity) eq_refl ltac:(vm_compute; discriminate))
    as (s' & gone & kept & E & H).
  destruct (H eq_refl) as (H1 & _ & _ & H2 & _). exists s', gone, kept. split; [exact E|]. by split.
Defined.

Lemma init_empty_witness :
  exists m' s, init ([no_obj], (λ _, 0), demo_page) 1 0x10000
    (Memory.mk_state ∅ 0 0 0 0x800000 (λ _, 0) (λ _, 0) (λ _, 0)) = Some (m', Some s) /\
    wf s /\ n_total_pages s = 12.
Proof.
  eexists _, _. split; [reflexivity|]. split; [|reflexivity].
  eapply (init_empty [no_obj] (λ _, 0) demo_page 1 0x10000
    (Memory.mk_state ∅ 0 0 0 0x800000 (λ _, 0) (λ _, 0) (λ _, 0)));
    [reflexivity|lia|lia|intros p; reflexivity|reflexivity].
Defined.

End CacheStore.
