(* ===== verification/Judger.v ===== *)
(** * Judger: buffers, caches and the judge ([kern/judger.cpp], [inc/judger.hpp])

    The judge runs a program on parts of one large buffer, a function from offsets to
    bytes of which the first [buffer_size] count.  What lies behind them is not the
    buffer: unmapped addresses or, after a wrap, the memory of programs and the caches.
    An operation that copies bytes from there or to there has the result [None], as
    has one that fails an assertion or loads a program over the data cache.  What a
    program does when it runs, and what the processor counts meanwhile, is a
    parameter ([run_user]); so is the order in which [std::sort] puts equal keys. *)
From Stdlib Require Import String.
From S2P Require Import Prelude Utils LibC Timer Memory Elf DuckCache.

Module Judger.
Import Utils LibC Elf.

(** ** Data *)

Record JudgeStatistics := mk_statistics { st_n_judges : Z; st_total_time_ns : Z }.
Record BufferDesc := mk_desc { off : Z; blen : Z }.
Record JudgeRequest := mk_request {
  seq_num : Z; time_limit_ns : Z; memory_hard_limit_kb : Z;
  ELF : BufferDesc; stdin : BufferDesc; stdout : BufferDesc; stderr : BufferDesc;
  IB : BufferDesc; OB : BufferDesc; r_OB_need_clear : Z }.

Record JudgeResult := mk_result {
  error : option (list Z);
  j_count_inst : Z; j_clk_thread : Z; j_clk_ref_tsc : Z;
  j_time_ns : Z; j_time_ns_ref_tsc : Z; j_time_ns_real : Z; j_time_tsc : Z;
  j_memory_kb : Z; j_memory_kb_accessed : Z; j_stdout_size : Z; j_stderr_size : Z;
  j_return_code : Z; j_trap_num : Z; j_trap_epc : Z; j_trap_cr2 : Z;
  is_RE : bool; is_TLE : bool }.

Definition with_error (r : JudgeResult) (e : list Z) : JudgeResult :=
  mk_result (Some e) (j_count_inst r) (j_clk_thread r) (j_clk_ref_tsc r) (j_time_ns r)
    (j_time_ns_ref_tsc r) (j_time_ns_real r) (j_time_tsc r) (j_memory_kb r) (j_memory_kb_accessed r)
    (j_stdout_size r) (j_stderr_size r) (j_return_code r) (j_trap_num r) (j_trap_epc r) (j_trap_cr2 r)
    (is_RE r) (is_TLE r).

(** The statics of the file, and the memory of user programs. *)
Record state := mk_state {
  n_judges : Z; total_time_ns : Z;
  buffer : Z -> Z; buffer_size : Z;
  elf_cache : DuckCache.state; data_cache : DuckCache.state;
  judge_seq_num : Z; judge_result : JudgeResult; judge_result_cleared : bool;
  memory : Memory.state }.

Definition with_buffer (s : state) (b : Z -> Z) : state :=
  mk_state (n_judges s) (total_time_ns s) b (buffer_size s) (elf_cache s) (data_cache s)
    (judge_seq_num s) (judge_result s) (judge_result_cleared s) (memory s).
Definition with_caches (s : state) (e d : DuckCache.state) : state :=
  mk_state (n_judges s) (total_time_ns s) (buffer s) (buffer_size s) e d
    (judge_seq_num s) (judge_result s) (judge_result_cleared s) (memory s).
Definition with_result (s : state) (r : JudgeResult) : state :=
  mk_state (n_judges s) (total_time_ns s) (buffer s) (buffer_size s) (elf_cache s) (data_cache s)
    (judge_seq_num s) r (judge_result_cleared s) (memory s).
Definition with_memory (s : state) (m : Memory.state) : state :=
  mk_state (n_judges s) (total_time_ns s) (buffer s) (buffer_size s) (elf_cache s) (data_cache s)
    (judge_seq_num s) (judge_result s) (judge_result_cleared s) m.

Definition ELF_CACHE_N : Z := 1000.
Definition DATA_CACHE_N : Z := 100000.
Definition BUFFER_CACHE_SIZES : list (Z * Z * Z) :=
  [(3072, 256, 8192); (3072, 256, 6144); (3072, 256, 4096); (2048, 256, 4096); (2048, 256, 3072);
   (1536, 256, 3072); (1536, 256, 2048); (1536, 256, 1536); (1024, 256, 1536); (1024, 256, 1024);
   (512, 256, 1024); (512, 256, 512); (512, 256, 256); (0, 0, 0)].
Definition MAX_TIME_LIMIT_NS : Z := 500 * 1000000000.

(** ** Initialisation *)

Definition no_result : JudgeResult :=
  mk_result (Some (str "Not Judged")) 0 0 0 0 0 0 0 0 0 0 0 0 0 0 0 false false.

Definition clear_judge_result (s : state) : state :=
  if judge_result_cleared s then s
  else mk_state (n_judges s) (total_time_ns s) (buffer s) (buffer_size s) (elf_cache s) (data_cache s)
         (u64 (-1)) no_result true (memory s).

(** The search in the table, then the default when nothing fits. *)
Fixpoint pick_sizes (l : list (Z * Z * Z)) (m : Memory.state) : option (Z * Z * Z) :=
  match l with
  | [] => None
  | (b, e, d) :: l =>
      if b =? 0 then None
      else
        let buffer_size := Z.shiftl b 20 in
        let elf_cache_size := Z.shiftl e 20 in
        let data_cache_size := Z.shiftl d 20 in
        let run_program_size := Z.shiftl 3072 20 in
        let total_size := buffer_size + elf_cache_size + data_cache_size + run_program_size in
        if Memory.can_allocate_virtual_memory total_size m then
          Some (buffer_size, elf_cache_size, data_cache_size)
        else pick_sizes l m
  end.
Definition default_sizes : Z * Z * Z :=
  let '(b, e, d) := nth (length BUFFER_CACHE_SIZES - 2) BUFFER_CACHE_SIZES (0, 0, 0) in
  (Z.shiftl b 20, Z.shiftl e 20, Z.shiftl d 20).

(** What memory holds where the buffer and the two caches go. *)
Record init_memory := mk_init_memory {
  im_buffer : Z -> Z;
  im_elf : list DuckCache.Obj * (Z -> Z) * (Z -> list Z);
  im_data : list DuckCache.Obj * (Z -> Z) * (Z -> list Z) }.

(** [None] is [GG_reboot]. *)
Definition init (im : init_memory) (m : Memory.state) : option state :=
  let '(buffer_size, elf_cache_size, data_cache_size) :=
    match pick_sizes BUFFER_CACHE_SIZES m with Some t => t | None => default_sizes end in
  match Memory.allocate_virtual_memory buffer_size m with
  | (m, None) => None
  | (m, Some _) =>
      let buffer := Memory.zero_range (im_buffer im) 0 buffer_size in
      match DuckCache.init (im_elf im) ELF_CACHE_N elf_cache_size m with
      | Some (m, Some elf_cache) =>
          match DuckCache.init (im_data im) DATA_CACHE_N data_cache_size m with
          | Some (m, Some data_cache) =>
              Some (mk_state 0 0 buffer buffer_size elf_cache data_cache (u64 (-1)) no_result true m)
          | _ => None
          end
      | _ => None
      end
  end.

Definition get_statistics (s : state) : JudgeStatistics := mk_statistics (n_judges s) (total_time_ns s).

(** ** Buffer operations: the new state and what is returned *)

Definition query_buffer_size (s : state) : Z := buffer_size s.

Definition in_buffer (s : state) (off len : Z) : bool :=
  (off <? buffer_size s) && (len <=? u64 (buffer_size s - off)).

Definition clear_buffer (off len : Z) (s : state) : state * bool :=
  if in_buffer s off len then
    (clear_judge_result (with_buffer s (Memory.zero_range (buffer s) off len)), true)
  else (s, false).

(** The bytes copied to [data], or [None] for [false]. *)
Definition read_buffer (off len : Z) (s : state) : option (list Z) :=
  if in_buffer s off len then Some (read_bytes (buffer s) off len) else None.

Definition write_buffer (off : Z) (data : list Z) (len : Z) (s : state) : state * bool :=
  if in_buffer s off len then
    (clear_judge_result (with_buffer s (write_bytes (buffer s) off (ztake len data))), true)
  else (s, false).

Definition copy_buffer (dst_off src_off len : Z) (s : state) : state * bool :=
  let dst_in_range := in_buffer s dst_off len in
  let src_in_range := in_buffer s src_off len in
  let no_overlap := (u64 (dst_off + len) <=? src_off) || (u64 (src_off + len) <=? dst_off) in
  if dst_in_range && src_in_range && no_overlap then
    (clear_judge_result (with_buffer s
       (write_bytes (buffer s) dst_off (read_bytes (buffer s) src_off len))), true)
  else (s, false).

(** The result of [memcmp] and the return value. *)
Definition compare_buffer (off1 off2 len : Z) (s : state) : option bool :=
  if in_buffer s off1 len && in_buffer s off2 len then
    Some (list_eqb (read_bytes (buffer s) off1 len) (read_bytes (buffer s) off2 len))
  else None.

(** ** Caches *)

Section Judger.
Variable sort : (Z -> Z) -> list Z -> list Z.   (* [std::sort] by a key *)

(** The name picks the cache; [None] when it names none. *)
Definition pick_cache (cache_name : list Z) (s : state) : option (DuckCache.state * (DuckCache.state -> state)) :=
  if strcmp_eq cache_name (str "elf") then
    Some (elf_cache s, λ c, with_caches s c (data_cache s))
  else if strcmp_eq cache_name (str "data") then
    Some (data_cache s, λ c, with_caches s (elf_cache s) c)
  else None.

(** Copying [len] bytes from or to [buffer + off] touches nothing but the buffer. *)
Definition reaches_only_buffer (s : state) (off len : Z) : bool :=
  (len =? 0) || ((0 <=? off) && (off + len <=? buffer_size s)).

(** The bytes found are copied to [buffer + dst_off], which nobody compares with the size of
    the buffer. *)
Definition load_cache (now : Z) (cache_name : list Z) (dst_off dst_len : Z) (hex : list Z) (s : state)
    : option (state * bool) :=
  match DuckCache.digest_from_hex hex with
  | None => Some (s, false)
  | Some digest =>
      match pick_cache cache_name s with
      | None => Some (s, false)
      | Some (c, put) =>
          match DuckCache.load c now digest dst_len with
          | None => None
          | Some (c, None) => Some (put c, false)
          | Some (c, Some bs) =>
              let s := put c in
              if negb (reaches_only_buffer s dst_off dst_len) then None else
              Some (clear_judge_result (with_buffer s (write_bytes (buffer s) dst_off bs)), true)
          end
      end
  end.

(** A digest that is already there is not stored again: nothing is read then. *)
Definition store_cache (now : Z) (cache_name : list Z) (src_off src_len : Z) (hex : list Z) (s : state)
    : option (state * bool) :=
  match DuckCache.digest_from_hex hex with
  | None => Some (s, false)
  | Some digest =>
      match pick_cache cache_name s with
      | None => Some (s, false)
      | Some (c, put) =>
          match DuckCache.store sort c now digest (read_bytes (buffer s) src_off src_len) src_len with
          | None => None
          | Some (c', r) =>
              if r && negb (snd (DuckCache.find c digest)) && negb (reaches_only_buffer s src_off src_len) then None
              else Some (put c', r)
          end
      end
  end.

Definition get_cache_info (cache_name : list Z) (s : state) : list Z :=
  match pick_cache cache_name s with
  | Some (c, _) => DuckCache.info c
  | None => str "no-such-cache"
  end.

(** ** The judge *)

Variable run_user : App -> Z -> Memory.state -> Memory.state * Outcome.
Variable timer : Timer.state.

Definition can_not_load_elf (s : state) : state * JudgeResult :=
  let r := with_error (judge_result s) (str "Can't load ELF") in (with_result s r, r).
Definition invalid_time_limit (s : state) : state * JudgeResult :=
  let r := with_error (judge_result s) (str "Invalid time limit") in (with_result s r, r).

Definition is_valid_buffer (s : state) (b : BufferDesc) : bool := in_buffer s (off b) (blen b).
Definition check_overlap (b1 b2 : BufferDesc) : bool :=
  negb ((u64 (off b1 + blen b1) <=? off b2) || (u64 (off b2 + blen b2) <=? off b1)).
(** [seen] are the descriptors before the current one. *)
Fixpoint check_buffers_loop (s : state) (seen b : list BufferDesc) : bool :=
  match b with
  | [] => true
  | x :: b =>
      if negb (is_valid_buffer s x) then false
      else if existsb (check_overlap x) seen then false
      else check_buffers_loop s (seen ++ [x]) b
  end.
Definition check_buffers (s : state) (b : list BufferDesc) : bool := check_buffers_loop s [] b.

Definition request_buffers (req : JudgeRequest) : list BufferDesc :=
  [ELF req; stdin req; stdout req; stderr req; IB req; OB req].

(** The bytes of a part of the buffer. *)
Definition part (s : state) (b : BufferDesc) : list Z := read_bytes (buffer s) (off b) (blen b).

Definition elf_conf (req : JudgeRequest) (s : state) : AppConfig :=
  mk_config (u64 (memory_hard_limit_kb req * 1024)) (part s (stdin req)) (blen (stdin req))
    (blen (stdout req)) (blen (stderr req)) (part s (IB req)) (blen (IB req))
    (part s (OB req)) (blen (OB req)) (negb (r_OB_need_clear req =? 0)).

Definition TRAP_SYSCALL : Z := 255.
Definition TRAP_TIMER : Z := 32.

(** The result of a run, then the verdict. *)
Definition result_of (res : RunResult) : JudgeResult :=
  mk_result None (count_inst res) (clk_thread res) (clk_ref_tsc res) (time_ns res)
    (time_ns_ref_tsc res) (time_ns_real res) (time_tsc res) (memory_kb res) (memory_kb_accessed res)
    (stdout_size res) (stderr_size res) (return_code res) (trap_num res) (trap_epc res) (trap_cr2 res)
    (negb (trap_num res =? TRAP_SYSCALL)) (trap_num res =? TRAP_TIMER).
Definition verdict (limit : Z) (res : RunResult) : JudgeResult :=
  let r := result_of res in
  if (limit <? time_ns res) || is_TLE r then
    mk_result (error r) (j_count_inst r) (j_clk_thread r) (j_clk_ref_tsc r) limit
      (j_time_ns_ref_tsc r) (j_time_ns_real r) (j_time_tsc r) (j_memory_kb r) (j_memory_kb_accessed r)
      (j_stdout_size r) (j_stderr_size r) (j_return_code r) (j_trap_num r) (j_trap_epc r) (j_trap_cr2 r)
      false true
  else r.

(** [stdout], [stderr] and [OB] come back to the buffer. *)
Definition copy_results (req : JudgeRequest) (res : RunResult) (m : Z -> Z) (b : Z -> Z) : Z -> Z :=
  let b := write_bytes b (off (stdout req)) (read_bytes m (stdout_ptr res) (stdout_size res)) in
  let b := write_bytes b (off (stderr req)) (read_bytes m (stderr_ptr res) (stderr_size res)) in
  write_bytes b (off (OB req)) (read_bytes m (r_OB_ptr res) (blen (OB req))).

(** Where the memory of a loaded program ends.  The 32-bit loader puts the page with the
    ELF image behind the region whose end it compared with [vaddr_break]. *)
Definition load_end (file : list Z) (app : App) : Z :=
  if zget 0 file 4 =? ei_class class32 then special_region_break_addr app + Memory.PAGE_SIZE
  else special_region_break_addr app.

(** [None] is a failed assertion of the memory manager, or a program loaded past
    [vaddr_break], into the data cache. *)
Definition judge (req : JudgeRequest) (s : state) : option (state * JudgeResult) :=
  if seq_num req =? judge_seq_num s then Some (s, judge_result s)
  else
    let s := mk_state (u64 (n_judges s + 1)) (total_time_ns s) (buffer s) (buffer_size s)
      (elf_cache s) (data_cache s) (seq_num req) (judge_result s) false (memory s) in
    if u64 (memory_hard_limit_kb req * 1024) <? memory_hard_limit_kb req then Some (can_not_load_elf s)
    else if negb (check_buffers s (request_buffers req)) then Some (can_not_load_elf s)
    else if (time_limit_ns req =? 0) || (MAX_TIME_LIMIT_NS <? time_limit_ns req) then
      Some (invalid_time_limit s)
    else
      match load (part s (ELF req)) (u32 (blen (ELF req))) (elf_conf req s) (Timer.tsc_freq timer) (memory s) with
      | None => None
      | Some (m, None) => Some (can_not_load_elf (with_memory s m))
      | Some (m, Some app) =>
          if Memory.vaddr_break m <? load_end (part s (ELF req)) app then None else
          let '(m, o) := run_user app (time_limit_ns req) m in
          match run timer app o m with
          | None => None
          | Some (m, res) =>
              let r := verdict (time_limit_ns req) res in
              Some (mk_state (n_judges s) (u64 (total_time_ns s + j_time_ns r))
                      (copy_results req res (Memory.user_mem m) (buffer s)) (buffer_size s)
                      (elf_cache s) (data_cache s) (judge_seq_num s) r (judge_result_cleared s) m, r)
          end
      end.

End Judger.

End Judger.
