(* ===== verification/JudgerSpec.v ===== *)
(** * JudgerSpec: what the judge guarantees

    The buffer operations, the idempotence of requests, the verdict, the part of
    the buffer a judgement may change, and the caches seen from the buffer. *)
From Stdlib Require Import String.
From S2P Require Import Prelude Utils LibC Timer Memory Elf ElfRun DuckCache CacheSpec CacheStore Judger.
From stdpp Require Import list gmap sorting.
#[local] Open Scope Z_scope.

Module JudgerSpec.
Import Utils LibC Elf ElfRun Judger.

(** ** Buffer operations *)

Definition inside (off len x : Z) : Prop := off <= x < off + len.

Lemma in_buffer_spec s off len :
  buffer_size s < 2 ^ 63 -> is_u64 off -> is_u64 len ->
  in_buffer s off len = true <-> off < buffer_size s /\ off + len <= buffer_size s.
Proof.
  intros Hb Ho Hl. unfold in_buffer. rewrite andb_true_iff, Z.ltb_lt, Z.leb_le.
  split; intros [H1 H2]; split; try lia.
  - rewrite u64_small in H2 by (unfold is_u64 in *; lia). lia.
  - rewrite u64_small by (unfold is_u64 in *; lia). lia.
Qed.

Lemma clear_result_keeps s :
  buffer (clear_judge_result s) = buffer s /\ buffer_size (clear_judge_result s) = buffer_size s /\
  elf_cache (clear_judge_result s) = elf_cache s /\ data_cache (clear_judge_result s) = data_cache s.
Proof. unfold clear_judge_result. by destruct (judge_result_cleared s). Qed.

Lemma write_at_inside m a bs x : a <= x < a + zlen bs -> write_bytes m a bs x = zget 0 bs (x - a).
Proof. intros H. unfold write_bytes. destruct (Z.leb_spec a x), (Z.ltb_spec x (a + zlen bs)); lia || done. Qed.

Lemma read_at_offset m a n i : 0 <= i < n -> zget 0 (read_bytes m a n) i = m (a + i).
Proof.
  intros Hi. unfold zget, read_bytes.
  rewrite (nth_lookup_Some _ _ _ (m (a + i))); [done|].
  rewrite list_lookup_fmap, lookup_seqZ_lt by lia. cbn. by rewrite Z2Nat.id by lia.
Qed.

(** C22: The buffer operations stay in the buffer and do what they say.  Each refuses,
    and then changes nothing, exactly when a range it is given does not lie in the
    buffer (no sum of a hostile offset and length wraps around); otherwise the
    bytes of the range become zero, the data, or the bytes of the disjoint source
    range, and every other byte stays. *)
Theorem buffer_operations s off off2 len data :
  buffer_size s < 2 ^ 63 -> is_u64 off -> is_u64 off2 -> is_u64 len -> zlen data = len ->
  let fits o := o < buffer_size s /\ o + len <= buffer_size s in
  (let '(s', ok) := clear_buffer off len s in
   (ok = true <-> fits off) /\ (ok = false -> s' = s) /\
   (ok = true -> forall x, buffer s' x = if decide (inside off len x) then 0 else buffer s x)) /\
  (let '(s', ok) := write_buffer off data len s in
   (ok = true <-> fits off) /\ (ok = false -> s' = s) /\
   (ok = true -> forall x, buffer s' x = if decide (inside off len x) then zget 0 data (x - off) else buffer s x)) /\
  (let '(s', ok) := copy_buffer off off2 len s in
   (ok = true <-> fits off /\ fits off2 /\ (off + len <= off2 \/ off2 + len <= off)) /\ (ok = false -> s' = s) /\
   (ok = true -> forall x, buffer s' x =
      if decide (inside off len x) then buffer s (off2 + (x - off)) else buffer s x)) /\
  (forall bs, read_buffer off len s = Some bs <-> fits off /\ bs = read_bytes (buffer s) off len) /\
  (forall r, compare_buffer off off2 len s = Some r <->
     fits off /\ fits off2 /\ (r = true <-> read_bytes (buffer s) off len = read_bytes (buffer s) off2 len)).
Proof.
  intros Hb H1 H2 Hl Hd. cbn zeta.
  pose proof (in_buffer_spec s off len Hb H1 Hl) as F1. pose proof (in_buffer_spec s off2 len Hb H2 Hl) as F2.
  unfold is_u64 in *. unfold inside. conj_split.
  - unfold clear_buffer. destruct (in_buffer s off len); [|by rewrite <- F1].
    rewrite <- F1. conj_split; [done|done|]. intros _ x.
    destruct (clear_result_keeps (with_buffer s (Memory.zero_range (buffer s) off len))) as [-> _].
    cbn [buffer with_buffer]. unfold Memory.zero_range.
    by destruct (decide _), (Z.leb_spec off x), (Z.ltb_spec x (off + len)); try lia.
  - unfold write_buffer. destruct (in_buffer s off len); [|by rewrite <- F1].
    rewrite <- F1. conj_split; [done|done|]. intros _ x.
    destruct (clear_result_keeps (with_buffer s (write_bytes (buffer s) off (ztake len data)))) as [-> _].
    cbn [buffer with_buffer]. assert (E : ztake len data = data) by (unfold ztake, zlen in *; apply take_ge; lia).
    rewrite E. destruct (decide _); [apply write_at_inside|apply write_bytes_outside]; lia.
  - unfold copy_buffer. destruct (in_buffer s off len) eqn:E1; cbn [andb].
    2: { conj_split; [|done|done]. split; [done|]. by intros [F _]; apply F1 in F. }
    destruct (in_buffer s off2 len) eqn:E2; cbn [andb].
    2: { conj_split; [|done|done]. split; [done|]. by intros (_ & F & _); apply F2 in F. }
    destruct (proj1 F1 eq_refl) as [G1 G1'], (proj1 F2 eq_refl) as [G2 G2'].
    rewrite !u64_small by (unfold is_u64; lia).
    destruct (Z.leb_spec (off + len) off2), (Z.leb_spec (off2 + len) off); cbn [orb].
    4: { conj_split; [split; [done|lia]|done|done]. }
    all: conj_split; [split; [lia|done]|done|]; intros _ x;
      match goal with |- buffer (clear_judge_result ?s) x = _ => destruct (clear_result_keeps s) as [-> _] end;
      cbn [buffer with_buffer]; destruct (decide _) as [D|D];
      [rewrite write_at_inside, read_at_offset by (rewrite ?zlen_read_bytes; lia); done
      |apply write_bytes_outside; rewrite zlen_read_bytes; lia].
  - intros bs. unfold read_buffer. rewrite <- F1. destruct (in_buffer s off len).
    + split; [by intros [= <-]|by intros [_ ->]].
    + split; [done|by intros [? _]].
  - intros r. unfold compare_buffer. rewrite <- F1, <- F2.
    destruct (in_buffer s off len), (in_buffer s off2 len); cbn [andb];
      try (split; [done|by intros (? & ? & _)]).
    set (b := list_eqb _ _). assert (Hbe : b = true <-> read_bytes (buffer s) off len = read_bytes (buffer s) off2 len)
      by apply list_eqb_eq.
    split; [by intros [= <-]|]. intros (_ & _ & Hr). f_equal. apply eq_true_iff_eq. by rewrite Hbe, Hr.
Qed.

(** ** Requests *)

Section Judge.
Variable run_user : App -> Z -> Memory.state -> Memory.state * Outcome.
Variable timer : Timer.state.
Abbreviation judge := (judge run_user timer).

(** A judgement by cases: repeated, refused, or run. *)
Lemma judge_cases req s s' r :
  judge req s = Some (s', r) ->
  (seq_num req = judge_seq_num s /\ s' = s /\ r = judge_result s) \/
  (seq_num req <> judge_seq_num s /\ judge_seq_num s' = seq_num req /\ judge_result s' = r /\
   n_judges s' = u64 (n_judges s + 1) /\
   (buffer s' = buffer s \/
    exists m app o m' res,
      check_buffers s (request_buffers req) = true /\
      load (part s (ELF req)) (u32 (blen (ELF req))) (elf_conf req s) (Timer.tsc_freq timer) (memory s) = Some (m, Some app) /\
      run timer app o m' = Some (memory s', res) /\ r = verdict (time_limit_ns req) res /\
      buffer s' = copy_results req res (Memory.user_mem (memory s')) (buffer s))).
Proof.
  unfold Judger.judge. destruct (Z.eqb_spec (seq_num req) (judge_seq_num s)) as [E|E].
  { intros [= <- <-]. by left. }
  cbn zeta. intros H. right. split; [done|].
  destruct (_ <? _). { injection H as <- <-. cbn. conj_split; try done. by left. }
  match type of H with context [check_buffers ?s1 ?b] =>
    replace (check_buffers s1 b) with (check_buffers s (request_buffers req)) in H by done end.
  destruct (check_buffers s (request_buffers req)) eqn:Ec; cbn [negb] in H.
  2: { injection H as <- <-. cbn. conj_split; try done. by left. }
  destruct (_ || _). { injection H as <- <-. cbn. conj_split; try done. by left. }
  cbn [memory] in H.
  match type of H with context [load ?b ?l ?c ?f (memory s)] =>
    change (load b l c f (memory s)) with
      (load (part s (ELF req)) (u32 (blen (ELF req))) (elf_conf req s) (Timer.tsc_freq timer) (memory s)) in H end.
  destruct (load _ _ _ _ _) as [[m [app|]]|] eqn:El; [| |done].
  2: { injection H as <- <-. cbn. conj_split; try done. by left. }
  destruct (_ <? _); [done|].
  destruct (run_user app (time_limit_ns req) m) as [m' o].
  destruct (run timer app o m') as [[m'' res]|] eqn:Er; [|done]. injection H as <- <-.
  cbn. conj_split; try done. right. exists m, app, o, m', res. done.
Qed.

(** C28: A request is judged once.  Repeating the last request returns the same result
    and changes nothing, whatever the run was; a request with a new number counts
    one more judgement.  The number 2^64 - 1 is the exception: after the buffer has
    been changed it is taken for the last request and "Not Judged" comes back. *)
Theorem judge_once req s s' r :
  judge req s = Some (s', r) ->
  judge req s' = Some (s', r) /\
  n_judges s' = (if decide (seq_num req = judge_seq_num s) then n_judges s else u64 (n_judges s + 1)) /\
  forall req', seq_num req' = u64 (-1) ->
    let s2 := clear_judge_result s' in
    judge_result_cleared s' = false -> judge req' s2 = Some (s2, no_result).
Proof.
  intros H. apply judge_cases in H as [(E & -> & ->)|(E & E1 & E2 & E3 & _)].
  - split; [unfold Judger.judge; rewrite E, Z.eqb_refl; done|]. split; [by destruct (decide _)|].
    intros req' Er s2 Hc. unfold s2, clear_judge_result, Judger.judge. rewrite Hc. cbn. by rewrite Er.
  - split; [unfold Judger.judge; rewrite E1, Z.eqb_refl, E2; done|]. split; [by destruct (decide _)|].
    intros req' Er s2 Hc. unfold s2, clear_judge_result, Judger.judge. rewrite Hc. cbn. by rewrite Er.
Qed.

(** C37: The verdict is well defined: a result is never both a runtime error and a time
    limit excess, the time reported never exceeds the limit, a run within the limit
    that ended by the exit system call is neither, and everything else is one. *)
Theorem verdict_sound limit res :
  let r := verdict limit res in
  error r = None /\ j_time_ns r <= limit /\
  (is_TLE r = true -> j_time_ns r = limit) /\ (is_RE r && is_TLE r = false) /\
  (is_TLE r = true <-> limit < time_ns res \/ trap_num res = TRAP_TIMER) /\
  (is_RE r = false /\ is_TLE r = false <-> trap_num res = TRAP_SYSCALL /\ time_ns res <= limit) /\
  j_stdout_size r = stdout_size res /\ j_stderr_size r = stderr_size res.
Proof.
  cbn zeta. unfold verdict, result_of, TRAP_SYSCALL, TRAP_TIMER. cbn [is_TLE].
  destruct (Z.ltb_spec limit (time_ns res)), (Z.eqb_spec (trap_num res) 32), (Z.eqb_spec (trap_num res) 255);
    cbn; conj_split; try done; try lia; split; try done; try lia; intros; try (by left); try (by right);
    try (by split); lia.
Qed.

(** What a loaded program may write is limited by its request. *)
Lemma load_limits buf len cfg f s s' app :
  load buf len cfg f s = Some (s', Some app) ->
  di_stdout_limit (duckinfo_orig app) = stdout_max_size cfg /\
  di_stderr_limit (duckinfo_orig app) = stderr_max_size cfg.
Proof.
  unfold load. destruct (_ <? _); [done|]. cbn zeta.
  assert (H64 : forall h l a, do_load64 buf len cfg f h l s = Some (s', a) ->
    di_stdout_limit (duckinfo_orig a) = stdout_max_size cfg /\ di_stderr_limit (duckinfo_orig a) = stderr_max_size cfg).
  { intros h l a. unfold do_load64. cbn zeta. unfold Memory.obind.
    repeat (match goal with |- context [match ?o with Some _ => _ | None => None end] => destruct o; [|done] end).
    destruct (stack64 _ _ _ _) as [[rsp dip] m].
    repeat (match goal with |- context [match ?o with Some _ => _ | None => None end] => destruct o; [|done] end).
    by intros [= _ <-]. }
  assert (H32 : forall h l a, do_load32 buf len cfg f h l s = Some (s', a) ->
    di_stdout_limit (duckinfo_orig a) = stdout_max_size cfg /\ di_stderr_limit (duckinfo_orig a) = stderr_max_size cfg).
  { intros h l a. unfold do_load32. cbn zeta. unfold Memory.obind.
    repeat (match goal with |- context [match ?o with Some _ => _ | None => None end] => destruct o; [|done] end).
    destruct (stack32 _ _ _ _) as [[rsp dip] m].
    repeat (match goal with |- context [match ?o with Some _ => _ | None => None end] => destruct o; [|done] end).
    by intros [= _ <-]. }
  unfold load_elf64, load_elf32.
  destruct (_ =? ei_class class64).
  - destruct (plan64 _ _ _ _) as [[h l]|]; [|done]. destruct (do_load64 _ _ _ _ _ _ _) as [[s1 a]|] eqn:E; [|done].
    cbn [Memory.obind]. intros [= -> ->]. by apply (H64 h l).
  - destruct (_ =? ei_class class32); [|done].
    destruct (plan32 _ _ _ _) as [[h l]|]; [|done]. destruct (do_load32 _ _ _ _ _ _ _) as [[s1 a]|] eqn:E; [|done].
    cbn [Memory.obind]. intros [= -> ->]. by apply (H32 h l).
Qed.

Lemma run_limits app o m m' res : run timer app o m = Some (m', res) ->
  stdout_size res <= di_stdout_limit (duckinfo_orig app) /\ stderr_size res <= di_stderr_limit (duckinfo_orig app).
Proof.
  unfold run, Memory.obind. destruct (Memory.set_duck_written_by_dirty _ _ _); [|done].
  destruct (Memory.count_dirty_pages _ _ _); [|done]. destruct (Memory.count_accessed_pages _ _ _); [|done].
  destruct (Memory.count_accessed_pages _ _ _); [|done]. intros [= _ <-]. cbn [stdout_size stderr_size]. lia.
Qed.

(** Descriptors that pass the check lie in the buffer and are pairwise disjoint. *)
Definition desc_ok (b : BufferDesc) : Prop := is_u64 (off b) /\ is_u64 (blen b).
Definition in_range_of (s : state) (b : BufferDesc) : Prop :=
  off b < buffer_size s /\ off b + blen b <= buffer_size s.
Definition apart (a b : BufferDesc) : Prop := off a + blen a <= off b \/ off b + blen b <= off a.

Lemma check_buffers_spec s seen l :
  buffer_size s < 2 ^ 63 -> Forall desc_ok (seen ++ l) -> Forall (in_range_of s) seen ->
  check_buffers_loop s seen l = true ->
  Forall (in_range_of s) (seen ++ l) /\
  (forall i j a b, (i < j)%nat -> (length seen <= j)%nat ->
     (seen ++ l) !! i = Some a -> (seen ++ l) !! j = Some b -> apart a b).
Proof.
  intros Hb. revert seen. induction l as [|x l IH]; intros seen Hd Hs; cbn [check_buffers_loop].
  { intros _. rewrite app_nil_r. split; [done|]. intros i j a b _ Hj _ Hx%lookup_lt_Some. lia. }
  destruct (is_valid_buffer s x) eqn:Ev; cbn [negb]; [|done].
  destruct (existsb (check_overlap x) seen) eqn:Eo; [done|]. intros Hl.
  pose proof Hd as [_ [[Hx1 Hx2] _]%Forall_cons]%Forall_app.
  unfold is_valid_buffer in Ev. apply in_buffer_spec in Ev; [|done..].
  rewrite (cons_middle x seen l) in Hd |- *. rewrite app_assoc in Hd |- *.
  assert (Hs' : Forall (in_range_of s) (seen ++ [x])) by (apply Forall_app; split; [done|by constructor]).
  destruct (IH (seen ++ [x]) Hd Hs' Hl) as [R1 R2]. split; [done|].
  intros i j a b Hij Hj Ha Hbj. rewrite length_app in R2. cbn in R2.
  destruct (decide (j = length seen)) as [->|Hne]; [|apply (R2 i j); try done; lia].
  rewrite lookup_app_l in Hbj by (rewrite length_app; cbn; lia).
  rewrite list_lookup_middle in Hbj by done. injection Hbj as <-.
  rewrite lookup_app_l, lookup_app_l in Ha by (rewrite ?length_app; cbn; lia).
  assert (Hov : check_overlap x a = false).
  { destruct (check_overlap x a) eqn:E; [|done]. apply list_elem_of_lookup_2 in Ha.
    assert (Ht : existsb (check_overlap x) seen = true); [|congruence].
    apply existsb_exists. exists a. split; [by apply list_elem_of_In|done]. }
  assert (Hra : in_range_of s a /\ desc_ok a).
  { split; [by apply (Forall_lookup_1 _ _ _ _ Hs Ha)|].
    apply Forall_app in Hd as [[Hd _]%Forall_app _]. by apply (Forall_lookup_1 _ _ _ _ Hd Ha). }
  destruct Hra as [[A1 A2] [A3 A4]]. unfold check_overlap in Hov. unfold is_u64, apart, in_range_of in *.
  rewrite !u64_small in Hov by (unfold is_u64; lia). lia.
Qed.

(** C3: The judge confines a run to its own buffers.  Whatever the program is and does,
    a judgement changes no byte of the big buffer outside the parts the request
    names for stdout, stderr and OB; these parts then lie in the buffer and are
    disjoint from each other and from the parts for the ELF file, stdin and IB. *)
Theorem judge_stays_in_buffers req s s' r x :
  buffer_size s < 2 ^ 63 -> Forall desc_ok (request_buffers req) ->
  judge req s = Some (s', r) -> buffer s' x <> buffer s x ->
  (exists b, (b = stdout req \/ b = stderr req \/ b = OB req) /\ inside (off b) (blen b) x) /\
  0 <= x < buffer_size s /\
  forall i j a b, i <> j -> request_buffers req !! i = Some a -> request_buffers req !! j = Some b -> apart a b.
Proof.
  intros Hb Hd H Hx. apply judge_cases in H as [(_ & -> & _)|(_ & _ & _ & _ & [E|H])]; [done|by rewrite E in Hx|].
  destruct H as (m & app & o & m' & res & Hc & Hl & Hr & _ & Eb).
  destruct (check_buffers_spec s [] (request_buffers req) Hb Hd (Forall_nil_2 _) Hc) as [R1 R2].
  apply load_limits in Hl as [L1 L2]. apply run_limits in Hr as [S1 S2]. cbn in L1, L2.
  assert (Hin : exists b, (b = stdout req \/ b = stderr req \/ b = OB req) /\ inside (off b) (blen b) x).
  { rewrite Eb in Hx. unfold copy_results in Hx.
    pose proof (proj1 (Forall_forall _ _) Hd (OB req)) as [_ HO]; [unfold request_buffers; rewrite !elem_of_cons; tauto|].
    unfold inside. set (m2 := Memory.user_mem (memory s')) in *.
    assert (Hz : forall a n, zlen (read_bytes m2 a n) = Z.max 0 n).
    { intros a n. unfold zlen, read_bytes. rewrite length_fmap, length_seqZ. lia. }
    destruct (decide (off (OB req) <= x < off (OB req) + blen (OB req))) as [D|D]; [exists (OB req); tauto|].
    rewrite write_bytes_outside in Hx by (rewrite Hz; unfold is_u64 in HO; lia).
    destruct (decide (off (stderr req) <= x < off (stderr req) + blen (stderr req))) as [D2|D2];
      [exists (stderr req); tauto|].
    pose proof (proj1 (Forall_forall _ _) Hd (stderr req)) as [_ HE]; [unfold request_buffers; rewrite !elem_of_cons; tauto|].
    rewrite write_bytes_outside in Hx by (rewrite Hz; unfold is_u64 in HE; lia).
    destruct (decide (off (stdout req) <= x < off (stdout req) + blen (stdout req))) as [D3|D3];
      [exists (stdout req); tauto|].
    pose proof (proj1 (Forall_forall _ _) Hd (stdout req)) as [_ HS]; [unfold request_buffers; rewrite !elem_of_cons; tauto|].
    rewrite write_bytes_outside in Hx by (rewrite Hz; unfold is_u64 in HS; lia). done. }
  split; [done|]. split.
  - destruct Hin as (b & Hbb & Hi). unfold inside in Hi.
    assert (Hmem : b ∈ request_buffers req)
      by (unfold request_buffers; rewrite !elem_of_cons; destruct Hbb as [-> | [-> | ->]]; tauto).
    pose proof (proj1 (Forall_forall _ _) R1 b Hmem) as [B1 B2].
    pose proof (proj1 (Forall_forall _ _) Hd b Hmem) as [B3 B4]. unfold is_u64 in *. lia.
  - intros i j a b Hij Ha Hbj. destruct (Nat.lt_ge_cases i j) as [Hlt|Hge].
    + apply (R2 i j a b); [done|cbn; lia|done|done].
    + destruct (R2 j i b a) as [?|?]; [lia|cbn; lia|done|done|by right|by left].
Qed.

End Judge.

(** ** The caches *)

Definition cache_named (elf : bool) (s : state) : DuckCache.state := if elf then elf_cache s else data_cache s.
Definition cache_name (elf : bool) : list Z := str (if elf then "elf" else "data")%string.
Definition put_cache (elf : bool) (s : state) (c : DuckCache.state) : state :=
  if elf then with_caches s c (data_cache s) else with_caches s (elf_cache s) c.

Lemma pick_named elf s :
  pick_cache (cache_name elf) s = Some (cache_named elf s, put_cache elf s).
Proof. by destruct elf. Qed.
Lemma named_put elf s c : cache_named elf (put_cache elf s c) = c /\ buffer (put_cache elf s c) = buffer s.
Proof. by destruct elf. Qed.

Lemma digest_length hex d : DuckCache.digest_from_hex hex = Some d -> length d = 4%nat.
Proof.
  unfold DuckCache.digest_from_hex.
  generalize (DuckCache.word_from_hex 16 0 (zdrop 0 hex) 0) (DuckCache.word_from_hex 16 0 (zdrop 16 hex) 0)
    (DuckCache.word_from_hex 16 0 (zdrop 32 hex) 0) (DuckCache.word_from_hex 16 0 (zdrop 48 hex) 0).
  intros [a|] [b|] [c|] [e|]; try discriminate. by intros [= <-].
Qed.

Lemma put_cache_size elf s c : buffer_size (put_cache elf s c) = buffer_size s.
Proof. by destruct elf. Qed.
Lemma reaches_inside s off len : 0 <= off -> off + len <= buffer_size s -> reaches_only_buffer s off len = true.
Proof. intros. unfold reaches_only_buffer. lia. Qed.

(** C23: What is stored comes back.  After a part of the buffer has been stored under
    a digest, loading the digest copies the same bytes to any other place of the
    buffer, which may overlap the first, and changes nothing else.  Both places must
    lie in the buffer, which the code does not check ([cache_leaves_buffer]). *)
Theorem cache_round_trip sort elf now now2 src dst len hex (d : list Z) s :
  (forall key l, sort key l ≡ₚ l) ->
  CacheStore.wf (cache_named elf s) -> 0 < now -> 0 < now2 -> 0 <= len < 2 ^ 62 ->
  DuckCache.digest_from_hex hex = Some d -> CacheStore.abs (cache_named elf s) !! d = None ->
  DuckCache.pages_needed len <= DuckCache.n_total_pages (cache_named elf s) ->
  0 <= src -> src + len <= buffer_size s -> 0 <= dst -> dst + len <= buffer_size s ->
  exists s1 s2, store_cache sort now (cache_name elf) src len hex s = Some (s1, true) /\
    load_cache now2 (cache_name elf) dst len hex s1 = Some (s2, true) /\
    forall x, buffer s2 x = if decide (inside dst len x) then buffer s (src + (x - dst)) else buffer s x.
Proof.
  intros Hsort Hs Hn1 Hn2 Hlen Hd Hno Hfit Hsrc Hsrc2 Hdst Hdst2. unfold store_cache, load_cache. rewrite Hd, !pick_named.
  pose proof (digest_length _ _ Hd) as Hd4. set (bs := read_bytes (buffer s) src len).
  assert (Hbs : zlen bs = len) by (apply zlen_read_bytes; lia).
  destruct (CacheStore.store_abs sort Hsort (cache_named elf s) now d bs Hs Hd4 Hn1 ltac:(lia))
    as (c1 & r & E1 & Hc1 & Hf & _ & Ht & _). rewrite Hbs in E1, Hf. rewrite E1.
  assert (r = true) as -> by (destruct r; [done|]; destruct (proj1 Hf eq_refl); lia).
  specialize (Ht eq_refl). rewrite Hno in Ht. cbn in Ht. rewrite (reaches_inside s src len) by done. rewrite andb_false_r.
  exists (put_cache elf s c1). destruct (named_put elf s c1) as [En Eb]. rewrite pick_named, En.
  destruct (CacheStore.load_abs c1 now2 d len Hc1 Hd4 Hn2) as (c2 & r2 & E2 & _ & _ & Hr2). rewrite E2.
  assert (r2 = Some bs) as -> by by apply Hr2.
  rewrite reaches_inside by (rewrite ?put_cache_size; done). cbn [negb].
  eexists. split; [done|]. split; [done|]. intros x.
  match goal with |- buffer (clear_judge_result ?t) x = _ => destruct (clear_result_keeps t) as [-> _] end.
  cbn [buffer with_buffer]. destruct (named_put elf (put_cache elf s c1) c2) as [_ ->]. rewrite Eb.
  unfold inside. destruct (decide _) as [D|D].
  - rewrite write_at_inside by lia. apply read_at_offset. lia.
  - apply write_bytes_outside. lia.
Qed.

Lemma reaches_outside s off len : 0 < len -> off < 0 \/ buffer_size s < off + len -> reaches_only_buffer s off len = false.
Proof. intros. unfold reaches_only_buffer. lia. Qed.
Lemma find_cached c d bs : CacheStore.wf c -> length d = 4%nat -> CacheStore.abs c !! d = Some bs -> snd (DuckCache.find c d) = true.
Proof.
  intros Hw Hd Hin. destruct (DuckCache.find c d) as [idx []] eqn:E; [done|].
  destruct (CacheStore.find_missing c d idx Hw Hd E) as (_ & _ & _ & _ & Hno & _). congruence.
Qed.
Lemma find_uncached c d : CacheStore.wf c -> length d = 4%nat -> CacheStore.abs c !! d = None -> snd (DuckCache.find c d) = false.
Proof.
  intros Hw Hd Hno. destruct (DuckCache.find c d) as [idx []] eqn:E; [|done].
  destruct (CacheStore.find_found c d idx Hw Hd E) as (a & o & b & El & _ & Ed & _). exfalso.
  assert (Hin : CacheStore.abs c !! d = Some (CacheSpec.obj_bytes (DuckCache.next c) (DuckCache.content c) o)); [|congruence].
  apply CacheStore.abs_lookup; [done|]. exists o. split; [rewrite El; apply elem_of_app; right; by left|done].
Qed.

(** The caches do not check the buffer.  A range that does not lie in it is never refused:
    loading a digest that is there with this length, and storing one that is not, copy
    the bytes all the same, to and from whatever is behind the buffer. *)
Theorem cache_leaves_buffer sort elf now off len hex (d : list Z) s :
  (forall key l, sort key l ≡ₚ l) -> CacheStore.wf (cache_named elf s) -> 0 < now -> 0 < len < 2 ^ 62 ->
  DuckCache.digest_from_hex hex = Some d -> off < 0 \/ buffer_size s < off + len ->
  (forall bs, CacheStore.abs (cache_named elf s) !! d = Some bs -> zlen bs = len ->
     load_cache now (cache_name elf) off len hex s = None) /\
  (CacheStore.abs (cache_named elf s) !! d = None ->
   DuckCache.pages_needed len <= DuckCache.n_total_pages (cache_named elf s) ->
     store_cache sort now (cache_name elf) off len hex s = None).
Proof.
  intros Hsort Hs Hn Hl Hd Hout. unfold load_cache, store_cache. rewrite Hd, !pick_named.
  pose proof (digest_length _ _ Hd) as Hd4. split.
  - intros bs Hin Hz. destruct (CacheStore.load_abs (cache_named elf s) now d len Hs Hd4 Hn) as (c & r & -> & _ & _ & Hr).
    assert (r = Some bs) as -> by by apply Hr. by rewrite reaches_outside by (rewrite ?put_cache_size; lia || done).
  - intros Hno Hfit. pose proof (zlen_read_bytes (buffer s) off len ltac:(lia)) as Hz.
    destruct (CacheStore.store_abs sort Hsort (cache_named elf s) now d (read_bytes (buffer s) off len) Hs Hd4 Hn)
      as (c & r & E & _ & Hf & _); [lia|]. rewrite Hz in E, Hf. rewrite E.
    assert (r = true) as -> by (destruct r; [done|]; destruct (proj1 Hf eq_refl); lia).
    by rewrite find_uncached, reaches_outside by (lia || done).
Qed.

(** ** A judgement *)

(** A program that writes one byte to its stdout and exits, judged in a buffer of 1000
    bytes with its file at 0. *)
Definition demo_run (app : App) (limit : Z) (m : Memory.state) : Memory.state * Outcome :=
  let mem := write_bytes (Memory.user_mem m) (di_stdout_ptr (duckinfo_orig app)) [7] in
  let mem := write_bytes mem (duckinfo_ptr app + 40) (le_bytes 8 1) in
  (Memory.with_user_mem m mem, mk_outcome 10 TRAP_SYSCALL 0 5 10 10 0 0).
Definition demo_timer : Timer.state := Timer.mk_state 1000000000 0 1000000000 1000000000.
Definition demo_judger : state :=
  mk_state 0 0 (λ x, zget 0 demo_elf x) 1000 CacheStore.demo_cache CacheStore.demo_cache
    (u64 (-1)) no_result true demo_memory.
Definition demo_request : JudgeRequest :=
  mk_request 1 1000000000 8 (mk_desc 0 130) (mk_desc 200 2) (mk_desc 300 100) (mk_desc 400 100)
    (mk_desc 500 0) (mk_desc 501 0) 1.
Definition demo_data : list Z := [5; 6].

Lemma demo_judged : match judge demo_run demo_timer demo_request demo_judger with
  | Some (s', r) => buffer s' 300 | None => 0 end = 7.
Proof. vm_compute. reflexivity. Qed.
Lemma demo_descs : Forall desc_ok (request_buffers demo_request).
Proof. repeat (constructor; [split; unfold is_u64; cbn; lia|]). constructor. Qed.

Lemma buffer_operations_witness :
  let '(s', ok) := write_buffer 998 demo_data 2 demo_judger in ok = true /\ buffer s' 999 = 6.
Proof.
  destruct (buffer_operations demo_judger 998 0 2 demo_data) as (_ & H & _);
    [reflexivity|unfold is_u64; lia|unfold is_u64; lia|unfold is_u64; lia|reflexivity|].
  destruct (write_buffer 998 demo_data 2 demo_judger) as [s' ok]. destruct H as (H1 & _ & H2).
  assert (Hok : ok = true) by (apply H1; split; vm_compute; congruence).
  split; [exact Hok|]. rewrite (H2 Hok). reflexivity.
Defined.

Lemma judge_once_witness :
  exists s' r, judge demo_run demo_timer demo_request demo_judger = Some (s', r) /\
    judge demo_run demo_timer demo_request s' = Some (s', r).
Proof.
  pose proof demo_judged as Hev.
  destruct (judge demo_run demo_timer demo_request demo_judger) as [[s' r]|] eqn:E; [|discriminate].
  exists s', r. split; [reflexivity|]. exact (proj1 (judge_once demo_run demo_timer _ _ _ _ E)).
Defined.

Lemma judge_stays_in_buffers_witness :
  exists s' r, judge demo_run demo_timer demo_request demo_judger = Some (s', r) /\
    buffer s' 300 <> buffer demo_judger 300 /\
    exists b, (b = stdout demo_request \/ b = stderr demo_request \/ b = OB demo_request) /\
      inside (off b) (blen b) 300.
Proof.
  pose proof demo_judged as Hev.
  destruct (judge demo_run demo_timer demo_request demo_judger) as [[s' r]|] eqn:E; [|discriminate].
  assert (Hne : buffer s' 300 <> buffer demo_judger 300) by (rewrite Hev; discriminate).
  exists s', r. split; [reflexivity|]. split; [exact Hne|].
  apply (judge_stays_in_buffers demo_run demo_timer demo_request demo_judger s' r 300);
    [reflexivity|exact demo_descs|exact E|exact Hne].
Defined.

(** Twenty bytes at 990 of a buffer of 1000. *)
Lemma cache_leaves_buffer_witness :
  store_cache CacheStore.demo_sort 10 (str "elf") 990 20 (repeat 48 64) demo_judger = None.
Proof.
  refine (proj2 (cache_leaves_buffer CacheStore.demo_sort true 10 990 20 (repeat 48 64) [0; 0; 0; 0] demo_judger
    CacheStore.demo_sort_perm CacheStore.demo_wf _ _ eq_refl _) eq_refl _); [lia|lia|right; reflexivity|vm_compute; discriminate].
Defined.

Lemma cache_round_trip_witness :
  exists s1 s2, store_cache CacheStore.demo_sort 10 (str "elf") 0 4 (repeat 48 64) demo_judger = Some (s1, true) /\
    load_cache 11 (str "elf") 600 4 (repeat 48 64) s1 = Some (s2, true) /\ buffer s2 601 = 69.
Proof.
  destruct (cache_round_trip CacheStore.demo_sort true 10 11 0 600 4 (repeat 48 64) [0; 0; 0; 0] demo_judger)
    as (s1 & s2 & E1 & E2 & H).
  - exact CacheStore.demo_sort_perm.
  - exact CacheStore.demo_wf.
  - lia.
  - lia.
  - lia.
  - reflexivity.
  - reflexivity.
  - vm_compute. discriminate.
  - lia.
  - vm_compute. discriminate.
  - lia.
  - vm_compute. discriminate.
  - exists s1, s2. split; [exact E1|]. split; [exact E2|]. rewrite H. reflexivity.
Defined.

End JudgerSpec.
