(* ===== verification/JudgerInit.v ===== *)
(** * JudgerInit: the memory of the judger ([Judger::init] of [kern/judger.cpp])

    The buffer and the two caches come from the top of user memory; what is left
    below them is for programs.  The table of sizes as a search for the first row
    that leaves enough, and the state the judger starts in. *)
From S2P Require Import Prelude Utils Memory Elf DuckCache CacheSpec CacheStore Judger.
From stdpp Require Import gmap list.

Module JudgerInit.
Local Open Scope Z_scope.

#[local] Abbreviation HP := Memory.HUGE_PAGE_SIZE.

Definition mib (n : Z) : Z := Z.shiftl n 20.
(** The rows of the table, without the one that ends it. *)
Definition rows : list (Z * Z * Z) := take (length Judger.BUFFER_CACHE_SIZES - 1) Judger.BUFFER_CACHE_SIZES.
Definition row_total (r : Z * Z * Z) : Z := let '(b, e, d) := r in b + e + d.
(** The first row that leaves 3 GiB for programs, or the last one, in MiB. *)
Definition share (size : Z) : Z * Z * Z :=
  match List.find (λ r, mib (row_total r + 3072) <=? size) rows with
  | Some r => r
  | None => (512, 256, 256)
  end.

(** Whole huge pages below the top, and not all of the address space. *)
Record roomy (m : Memory.state) : Prop := {
  r_break : Memory.kernel_break <= Memory.vaddr_break m < 2 ^ 62;
  r_whole : Memory.vaddr_break m mod HP = 0 }.
Definition room (m : Memory.state) : Z := Memory.vaddr_break m - Memory.kernel_break.

Lemma round_up_whole n : 0 <= n < 2 ^ 62 -> n mod HP = 0 -> Utils.round_up n HP = n.
Proof. intros Hn Hm. apply Utils.round_up_multiple; unfold is_u64, Memory.HUGE_PAGE_SIZE in *; try done; lia. Qed.

Lemma allocate_whole size m : roomy m -> 0 <= size < 2 ^ 62 -> size mod HP = 0 ->
  Memory.allocate_virtual_memory size m =
    if room m <? size then (m, None)
    else (Memory.with_vaddr_break m (Memory.vaddr_break m - size), Some (Memory.vaddr_break m - size)).
Proof.
  intros [[Hb Hb'] Hw] Hs Hm. unfold Memory.allocate_virtual_memory, room. rewrite round_up_whole by done.
  rewrite u64_small by (unfold is_u64; unfold Memory.kernel_break in *; lia).
  destruct (Z.ltb_spec (Memory.vaddr_break m - Memory.kernel_break) size); [done|].
  rewrite u64_small by (unfold is_u64; unfold Memory.kernel_break in *; lia). done.
Qed.
Lemma can_allocate_whole size m : roomy m -> 0 <= size < 2 ^ 62 -> size mod HP = 0 ->
  Memory.can_allocate_virtual_memory size m = (size <=? room m).
Proof.
  intros [[Hb Hb'] Hw] Hs Hm. unfold Memory.can_allocate_virtual_memory, room. rewrite round_up_whole by done.
  by rewrite u64_small by (unfold is_u64; unfold Memory.kernel_break in *; lia).
Qed.
Lemma roomy_less m size : roomy m -> 0 <= size <= room m -> size mod HP = 0 ->
  roomy (Memory.with_vaddr_break m (Memory.vaddr_break m - size)).
Proof.
  unfold room. intros [[Hb Hb'] Hw] Hs Hm. split; cbn; [lia|].
  apply Z.mod_divide in Hm as [j ->]; [|done]. apply Z.mod_divide in Hw as [k ->]; [|done].
  rewrite <- Z.mul_sub_distr_r. by apply Z_mod_mult.
Qed.

(** A row of the table: a part for each, in whole huge pages. *)
Definition row_ok (r : Z * Z * Z) : Prop := let '(b, e, d) := r in
  (0 < b /\ mib b mod HP = 0) /\ (256 <= e /\ mib e mod HP = 0) /\ (256 <= d /\ mib d mod HP = 0) /\
  mib (b + e + d) = mib b + mib e + mib d /\ mib (b + e + d + 3072) = mib b + mib e + mib d + mib 3072 /\
  (mib b + mib e + mib d + mib 3072) mod HP = 0 /\ b + e + d <= 100000.
Lemma rows_ok : List.Forall row_ok rows.
Proof. repeat (apply List.Forall_cons; [vm_compute; intuition discriminate|]). apply List.Forall_nil. Qed.

Lemma pick_sizes_find m l : roomy m -> List.Forall row_ok l ->
  Judger.pick_sizes (l ++ [(0, 0, 0)]) m =
    (λ '(b, e, d), (mib b, mib e, mib d)) <$> List.find (λ r, mib (row_total r + 3072) <=? room m) l.
Proof.
  intros Hm. induction 1 as [|[[b e] d] l Hr _ IH]; [done|]. cbn [app Judger.pick_sizes List.find row_total].
  destruct Hr as ((Hb & _) & (He & _) & (Hd & _) & E1 & E2 & Hw & Hle).
  destruct (Z.eqb_spec b 0); [lia|]. fold (mib b) (mib e) (mib d) (mib 3072). rewrite E2.
  rewrite can_allocate_whole; [|done| |done].
  - destruct (_ <=? _); [done|exact IH].
  - rewrite <- E2. unfold mib. rewrite Z.shiftl_mul_pow2 by lia. change (2 ^ 20) with 1048576. lia.
Qed.

Lemma cache_comes_up l f c n size m : roomy m -> size mod HP = 0 -> mib 256 <= size <= room m ->
  n = Judger.ELF_CACHE_N \/ n = Judger.DATA_CACHE_N -> zlen l = n -> (forall p, CacheSpec.full_page c p) ->
  exists cache, DuckCache.init (l, f, c) n size m =
      Some (Memory.with_vaddr_break m (Memory.vaddr_break m - size), Some cache) /\
    CacheStore.wf cache /\ CacheStore.abs cache = ∅ /\ DuckCache.cache_size cache = size.
Proof.
  intros Hm Hw Hs Hn Hl Hc. pose proof Hm as [[Hb Hb'] _]. unfold room in Hs. change (mib 256) with 268435456 in Hs.
  unfold Memory.kernel_break in *.
  assert (E : exists cache, DuckCache.init (l, f, c) n size m =
      Some (Memory.with_vaddr_break m (Memory.vaddr_break m - size), Some cache) /\ DuckCache.cache_size cache = size).
  { unfold DuckCache.init. rewrite allocate_whole; [|done|lia|done]. unfold room, Memory.kernel_break.
    destruct (Z.ltb_spec (Memory.vaddr_break m - 4194304) size); [lia|].
    set (base := Memory.vaddr_break m - size). assert (Hp : DuckCache.pages_start n base + DuckCache.PAGE_SIZE < base + size).
    { unfold DuckCache.pages_start, DuckCache.PAGE_SIZE, Memory.PAGE_SIZE. destruct Hn as [-> | ->];
        repeat match goal with |- context [Utils.round_up ?x ?y] =>
          let v := eval vm_compute in (Utils.round_up x y) in change (Utils.round_up x y) with v end; lia. }
    cbv zeta. destruct (Z.leb_spec (base + size) (DuckCache.pages_start n base + DuckCache.PAGE_SIZE)); [lia|].
    destruct (DuckCache.link_pages _ _ _ _ _) as [f' k]. eexists. split; reflexivity. }
  destruct E as (cache & E & Es). exists cache. split; [done|].
  assert (Hs0 : 0 <= size) by lia.
  assert (Hn1 : 1 <= n) by (unfold Judger.ELF_CACHE_N, Judger.DATA_CACHE_N in Hn; lia).
  destruct (CacheStore.init_empty l f c n size m _ _ Hl Hn1 Hs0 Hc E) as (W & A & _).
  by split; [|split].
Qed.

(** What the judger starts with, with [b], [e] and [d] bytes for buffer and caches. *)
Record fresh_judger (m : Memory.state) (b e d : Z) (j : Judger.state) : Prop := {
  f_counts : Judger.n_judges j = 0 /\ Judger.total_time_ns j = 0;
  f_result : Judger.judge_result j = Judger.no_result;
  f_buffer : Judger.buffer_size j = b /\ forall x, 0 <= x < b -> Judger.buffer j x = 0;
  f_elf : CacheStore.wf (Judger.elf_cache j) /\ CacheStore.abs (Judger.elf_cache j) = ∅ /\
    DuckCache.cache_size (Judger.elf_cache j) = e;
  f_data : CacheStore.wf (Judger.data_cache j) /\ CacheStore.abs (Judger.data_cache j) = ∅ /\
    DuckCache.cache_size (Judger.data_cache j) = d;
  f_memory : Judger.memory j = Memory.with_vaddr_break m (Memory.vaddr_break m - (b + e + d)) }.

(** Memory holds arrays of the right size and whole pages, with whatever in them. *)
Record arrays_ok (im : Judger.init_memory) : Prop := {
  i_elf : zlen (Judger.im_elf im).1.1 = Judger.ELF_CACHE_N /\ forall p, CacheSpec.full_page (Judger.im_elf im).2 p;
  i_data : zlen (Judger.im_data im).1.1 = Judger.DATA_CACHE_N /\ forall p, CacheSpec.full_page (Judger.im_data im).2 p }.

Lemma share_row size : row_ok (share size) /\ (mib 1024 <= size -> mib (row_total (share size)) <= size).
Proof.
  unfold share. destruct (List.find _ rows) as [r|] eqn:E.
  - apply List.find_some in E as [Hi Hl%Z.leb_le]. split; [exact (proj1 (List.Forall_forall _ rows) rows_ok r Hi)|].
    intros _. etransitivity; [|exact Hl]. unfold mib. rewrite !Z.shiftl_mul_pow2 by lia. change (2 ^ 20) with 1048576. lia.
  - split; [vm_compute; intuition discriminate|done].
Qed.

Lemma pick_share m : roomy m ->
  match Judger.pick_sizes Judger.BUFFER_CACHE_SIZES m with Some t => t | None => Judger.default_sizes end =
    let '(b, e, d) := share (room m) in (mib b, mib e, mib d).
Proof.
  intros Hm. change Judger.BUFFER_CACHE_SIZES with (rows ++ [(0, 0, 0)]) at 1. rewrite pick_sizes_find; [|done|exact rows_ok].
  unfold share. destruct (List.find _ rows) as [[[b e] d]|]; reflexivity.
Qed.

Lemma judger_comes_up im m : roomy m -> arrays_ok im -> mib 1024 <= room m ->
  let '(b, e, d) := share (room m) in
  exists j, Judger.init im m = Some j /\ fresh_judger m (mib b) (mib e) (mib d) j.
Proof.
  intros Hm [[L1 C1] [L2 C2]] Hr. pose proof (share_row (room m)) as [Hrow Hle]. specialize (Hle Hr).
  unfold Judger.init. rewrite pick_share by done. destruct (share (room m)) as [[b e] d].
  destruct Hrow as ((Hb & Wb) & (He & We) & (Hd & Wd) & E1 & _ & _ & Hbound). cbn [row_total] in Hle. rewrite E1 in Hle.
  assert (Hpos : 0 < mib b /\ mib 256 <= mib e /\ mib 256 <= mib d).
  { unfold mib. rewrite !Z.shiftl_mul_pow2 by lia. change (2 ^ 20) with 1048576. lia. }
  change (mib 256) with 268435456 in Hpos. pose proof Hm as [Hv _].
  rewrite allocate_whole; [|done|unfold room, Memory.kernel_break in *; lia|done]. destruct (Z.ltb_spec (room m) (mib b)); [lia|].
  set (m1 := Memory.with_vaddr_break m _). assert (R1 : roomy m1) by (apply roomy_less; [done|lia|done]).
  assert (Q1 : room m1 = room m - mib b) by (unfold room, m1; cbn; lia).
  destruct (Judger.im_elf im) as [[l1 f1] c1]. destruct (Judger.im_data im) as [[l2 f2] c2].
  destruct (cache_comes_up l1 f1 c1 Judger.ELF_CACHE_N (mib e) m1) as (ce & -> & We' & Ae & Se); try done; [change (mib 256) with 268435456; lia|by left|].
  set (m2 := Memory.with_vaddr_break m1 _). assert (R2 : roomy m2) by (apply roomy_less; [done|lia|done]).
  assert (Q2 : room m2 = room m - mib b - mib e) by (unfold m2, room in *; cbn; lia).
  destruct (cache_comes_up l2 f2 c2 Judger.DATA_CACHE_N (mib d) m2) as (cd & -> & Wd' & Ad & Sd); try done; [change (mib 256) with 268435456; lia|by right|].
  eexists. split; [reflexivity|]. constructor; try done.
  - split; [done|]. intros x Hx. cbn. unfold Memory.zero_range. destruct (Z.leb_spec 0 x), (Z.ltb_spec x (0 + mib b)); try lia. done.
  - cbn. unfold m2, m1, Memory.with_vaddr_break. cbn. f_equal. lia.
Qed.

Lemma judger_needs_a_gigabyte im m : roomy m -> room m < mib 1024 -> Judger.init im m = None.
Proof.
  intros Hm Hr. unfold Judger.init. rewrite pick_share by done.
  assert (Hs : share (room m) = (512, 256, 256)).
  { unfold share. destruct (List.find _ rows) as [r|] eqn:E; [|done]. apply List.find_some in E as [Hi Hl%Z.leb_le].
    pose proof (proj1 (List.Forall_forall _ rows) rows_ok r Hi) as H. destruct r as [[b e] d]. cbn [row_total] in Hl.
    destruct H as ((Hb & _) & (He & _) & (Hd & _) & _). exfalso. revert Hl Hr. unfold mib.
    rewrite !Z.shiftl_mul_pow2 by lia. change (2 ^ 20) with 1048576. lia. }
  rewrite Hs. change (mib 1024) with 1073741824 in Hr. change (mib 512) with 536870912. change (mib 256) with 268435456.
  rewrite allocate_whole by done. destruct (Z.ltb_spec (room m) 536870912); [done|].
  set (m1 := Memory.with_vaddr_break m _). assert (R1 : roomy m1) by (apply roomy_less; [done|lia|done]).
  assert (Q1 : room m1 = room m - 536870912) by (unfold room, m1; cbn; lia).
  assert (Hno : forall mem n size m', roomy m' -> size mod HP = 0 -> 0 <= size < 2 ^ 62 -> room m' < size ->
    DuckCache.init mem n size m' = Some (m', None)).
  { intros [[l f] c] n size m' Hm' Hw Hb Hl. unfold DuckCache.init. rewrite allocate_whole by done.
    by destruct (Z.ltb_spec (room m') size); [|lia]. }
  destruct (Z.lt_ge_cases (room m1) 268435456) as [Hlt|Hge]; [by rewrite Hno|].
  destruct (DuckCache.init (Judger.im_elf im) _ _ _) as [[m2 [ce|]]|] eqn:E; [|done|done].
  assert (E2 : m2 = Memory.with_vaddr_break m1 (Memory.vaddr_break m1 - 268435456)).
  { revert E. destruct (Judger.im_elf im) as [[l f] c]. unfold DuckCache.init. rewrite allocate_whole by done.
    destruct (Z.ltb_spec (room m1) 268435456); [lia|]. cbv zeta. destruct (_ <=? _); [done|].
    destruct (DuckCache.link_pages _ _ _ _ _). by intros [= <- _]. }
  subst m2. rewrite Hno; [done|apply roomy_less; [done|lia|done]|done|done|]. unfold room in *. cbn in *. lia.
Qed.

Lemma share_fits size : mib 1024 <= size -> let '(b, e, d) := share size in
  0 <= mib b + mib e + mib d <= size /\ mib (b + e + d) = mib b + mib e + mib d.
Proof.
  intros Hs. destruct (share_row size) as [Hrow Hle]. specialize (Hle Hs). destruct (share size) as [[b e] d].
  destruct Hrow as ((Hb & _) & (He & _) & (Hd & _) & E & _). cbn [row_total] in Hle. rewrite E in Hle. split; [|done]. split; [|done].
  unfold mib. rewrite !Z.shiftl_mul_pow2 by lia. change (2 ^ 20) with 1048576. lia.
Qed.
Lemma fresh_roomy m (r : Z * Z * Z) j : roomy m -> row_ok r ->
  let '(b, e, d) := r in
  0 <= mib b + mib e + mib d <= room m -> fresh_judger m (mib b) (mib e) (mib d) j -> roomy (Judger.memory j).
Proof.
  destruct r as [[b e] d]. intros Hm ((_ & Wb) & (_ & We) & (_ & Wd) & _) Hp Hj. rewrite (f_memory _ _ _ _ _ Hj).
  apply roomy_less; [done|done|].
  assert (Hadd : forall x y, x mod HP = 0 -> y mod HP = 0 -> (x + y) mod HP = 0)
    by (intros x y Hx Hy; by rewrite Z.add_mod, Hx, Hy). auto.
Qed.
Lemma init_buffer im m j : Judger.init im m = Some j ->
  Judger.buffer j = Memory.zero_range (Judger.im_buffer im) 0 (Judger.buffer_size j).
Proof.
  unfold Judger.init. destruct (match Judger.pick_sizes _ _ with Some _ => _ | None => _ end) as [[b e] d].
  destruct (Memory.allocate_virtual_memory b m) as [m1 [base|]]; [|done].
  destruct (DuckCache.init _ _ _ _) as [[m2 [ce|]]|]; [|done..].
  destruct (DuckCache.init _ _ _ _) as [[m3 [cd|]]|]; [|done..]. by intros [= <-].
Qed.
Lemma share_left size : (exists r, r ∈ rows /\ mib (row_total r + 3072) <= size) -> mib (row_total (share size) + 3072) <= size.
Proof.
  intros (r & Hi & Hr). unfold share. destruct (List.find _ rows) as [r'|] eqn:E.
  - by apply List.find_some in E as [_ ?%Z.leb_le].
  - apply list_elem_of_In, (List.find_none _ _ E r), Z.leb_gt in Hi. lia.
Qed.
(** C24: The judger takes its memory from the top.  With less than a gigabyte it does not start.
    Otherwise it has a buffer, all zeros, and two empty well-formed caches, of the sizes of the
    first row of its table that leaves three gigabytes, or of the last row when none does;
    only the limit of memory changes, it stays above the kernel's, and three
    gigabytes are left whenever some row would leave them. *)
Theorem judger_takes_its_memory im m : roomy m -> arrays_ok im ->
  if room m <? mib 1024 then Judger.init im m = None
  else let '(b, e, d) := share (room m) in
    exists j, Judger.init im m = Some j /\ fresh_judger m (mib b) (mib e) (mib d) j /\ roomy (Judger.memory j) /\
      ((exists r, r ∈ rows /\ mib (row_total r + 3072) <= room m) -> mib 3072 <= room (Judger.memory j)).
Proof.
  intros Hm Him. destruct (Z.ltb_spec (room m) (mib 1024)) as [Hlt|Hge]; [by apply judger_needs_a_gigabyte|].
  pose proof (judger_comes_up im m Hm Him Hge) as H. pose proof (share_left (room m)) as Hleft.
  pose proof (share_fits _ Hge) as Hfit. pose proof (proj1 (share_row (room m))) as Hrow.
  destruct (share (room m)) as [[b e] d]. destruct H as (j & E & Hj), Hfit as [Hp _].
  exists j. split; [done|]. split; [done|]. split.
  - by apply (fresh_roomy m (b, e, d)).
  - rewrite (f_memory _ _ _ _ _ Hj). intros Hr. specialize (Hleft Hr). cbn [row_total] in Hleft. destruct Hrow as (_ & _ & _ & _ & E2 & _). rewrite E2 in Hleft.
    unfold room in *. cbn. lia.
Qed.

(** ** Instances *)

Definition demo_im : Judger.init_memory :=
  Judger.mk_init_memory (λ _, 7)
    (replicate (Z.to_nat Judger.ELF_CACHE_N) DuckCache.no_obj, (λ _, 0), CacheStore.demo_page)
    (replicate (Z.to_nat Judger.DATA_CACHE_N) DuckCache.no_obj, (λ _, 0), CacheStore.demo_page).
Lemma demo_arrays : arrays_ok demo_im.
Proof.
  assert (H : forall n, 0 <= n -> zlen (replicate (Z.to_nat n) DuckCache.no_obj) = n)
    by (intros; unfold zlen; rewrite length_replicate; lia).
  split; (split; [by apply H|intros p; reflexivity]).
Qed.

(** Eight gigabytes: the row of 1536, 256 and 3072 MiB. *)
Definition demo_roomy : Memory.state :=
  Memory.mk_state ∅ 0 0 0 (Memory.kernel_break + mib 8192) (λ _, 0) (λ _, 0) (λ _, 0).
Lemma judger_takes_its_memory_witness : exists j, Judger.init demo_im demo_roomy = Some j /\
  Judger.buffer_size j = mib 1536 /\ mib 3072 <= room (Judger.memory j).
Proof.
  pose proof (judger_takes_its_memory demo_im demo_roomy ltac:(split; [vm_compute; split; [discriminate|reflexivity]|reflexivity])
    demo_arrays) as H.
  assert (Es : share (room demo_roomy) = (1536, 256, 3072)) by (vm_compute; reflexivity).
  assert (El : (room demo_roomy <? mib 1024) = false) by (vm_compute; reflexivity).
  rewrite El, Es in H. destruct H as (j & E & Hj & _ & Hl). exists j. split; [exact E|]. split; [exact (proj1 (f_buffer _ _ _ _ _ Hj))|].
  apply Hl. exists (512, 256, 256). split; [vm_compute; repeat constructor|vm_compute; discriminate].
Defined.

End JudgerInit.
