(* ===== verification/JudgeAnswers.v ===== *)
(** * JudgeAnswers: nothing a client orders stops the judge

    The operations of [Judger] as orders of a client, a whole session of them, and the
    invariant that keeps a judge answering: the memory below the judge's own can be
    loaded into, bytes are bytes, the caches are well formed. *)
From Stdlib Require Import String.
From S2P Require Import Prelude Utils LibC Timer Memory.
From S2P Require Import Elf.
From S2P Require Import ElfRun.
From S2P Require Import DuckCache CacheSpec CacheStore.
From S2P Require Import Judger.
From S2P Require Import JudgerSpec.
From S2P Require Import JudgerInit.
From stdpp Require Import gmap list sorting.

Module JudgeAnswers.
Local Open Scope Z_scope.

(** ** Sessions *)

(** What a client can order, with the time the processor shows when it does. *)
Inductive order :=
| Judge (req : Judger.JudgeRequest)
| Clear (off len : Z)
| Write (off : Z) (data : list Z)
| Copy (dst src len : Z)
| Load (now : Z) (cache : list Z) (dst len : Z) (hex : list Z)
| Store (now : Z) (cache : list Z) (src len : Z) (hex : list Z).
Inductive answer := Judged (r : Judger.JudgeResult) | Done (ok : bool).

(** Numbers and bytes of the widths the client sends; for the caches also a place in the
    buffer of [size] bytes, which [Judger] does not check ([cache_leaves_buffer]). *)
Definition well_formed (size : Z) (o : order) : Prop :=
  match o with
  | Judge req => Forall JudgerSpec.desc_ok (Judger.request_buffers req)
  | Write _ data => bytes data
  | Load now _ off len _ | Store now _ off len _ => 0 < now /\ 0 <= off /\ 0 <= len < 2 ^ 62 /\ off + len <= size
  | _ => True
  end.
Definition answers (o : order) (a : answer) : Prop :=
  match o, a with Judge _, Judged _ => True | Judge _, _ => False | _, Done _ => True | _, _ => False end.

Definition byte_map (f : Z -> Z) : Prop := forall x, is_u8 (f x).
(** A program runs in memory: it does not reach the kernel's variables, entries of page
    tables have 64 bits and memory holds bytes, whatever it did. *)
Definition well_run (run_user : Elf.App -> Z -> Memory.state -> Memory.state * Elf.Outcome) : Prop :=
  forall app limit m, (forall p, is_u64 (Memory.P1 m p)) ->
  let m' := fst (run_user app limit m) in
  Memory.vaddr_break m' = Memory.vaddr_break m /\ (forall p, is_u64 (Memory.P1 m' p)) /\ byte_map (Memory.user_mem m').

Section Session.
Variable sort : (Z -> Z) -> list Z -> list Z.
Variable run_user : Elf.App -> Z -> Memory.state -> Memory.state * Elf.Outcome.
Variable timer : Timer.state.

Definition done (p : Judger.state * bool) : Judger.state * answer := (fst p, Done (snd p)).
Definition obey (o : order) (s : Judger.state) : option (Judger.state * answer) :=
  match o with
  | Judge req => '(s, r) ← Judger.judge run_user timer req s; Some (s, Judged r)
  | Clear off len => Some (done (Judger.clear_buffer off len s))
  | Write off data => Some (done (Judger.write_buffer off data (zlen data) s))
  | Copy dst src len => Some (done (Judger.copy_buffer dst src len s))
  | Load now c dst len hex => done <$> Judger.load_cache now c dst len hex s
  | Store now c src len hex => done <$> Judger.store_cache sort now c src len hex s
  end.
Fixpoint session (os : list order) (s : Judger.state) : option (Judger.state * list answer) :=
  match os with
  | [] => Some (s, [])
  | o :: os => '(s, a) ← obey o s; '(s, l) ← session os s; Some (s, a :: l)
  end.

(** ** The invariant *)

(** The memory of programs ends above 4 GiB: there is room behind every 32-bit program. *)
Definition memory_ok (m : Memory.state) : Prop :=
  (Elf.vbreak_ok (Memory.vaddr_break m) /\ 2 ^ 32 < Memory.vaddr_break m) /\ forall p, is_u64 (Memory.P1 m p).
Definition cache_ok (c : DuckCache.state) : Prop :=
  CacheStore.wf c /\ forall d bs, CacheStore.abs c !! d = Some bs -> bytes bs.

Record ready (s : Judger.state) : Prop := {
  rd_memory : memory_ok (Judger.memory s);
  rd_buffer : byte_map (Judger.buffer s);
  rd_elf : cache_ok (Judger.elf_cache s);
  rd_data : cache_ok (Judger.data_cache s) }.

(** What a session never changes. *)
Definition limits (s : Judger.state) : Z * Z := (Judger.buffer_size s, Memory.vaddr_break (Judger.memory s)).

Hypothesis sort_perm : forall key l, sort key l ≡ₚ l.
Hypothesis machine : well_run run_user.

Lemma bytes_of_map f a n : byte_map f -> bytes (read_bytes f a n).
Proof. intros Hf. apply Forall_fmap, Forall_true. intros x. apply Hf. Qed.
Lemma bytes_default (x : list Z) (o : option (list Z)) :
  (forall b, o = Some b -> bytes b) -> bytes x -> bytes (default x o).
Proof. intros H Hx. destruct o; [by apply H|done]. Qed.
Lemma byte_map_write f a bs : byte_map f -> bytes bs -> byte_map (write_bytes f a bs).
Proof.
  intros Hf Hb x. unfold write_bytes. destruct (_ && _); [|apply Hf]. unfold zget.
  destruct (nth_in_or_default (Z.to_nat (x - a)) bs 0) as [H| ->]; [|done].
  by apply (proj1 (List.Forall_forall _ _) Hb).
Qed.
Lemma byte_map_zero f a n : byte_map f -> byte_map (Memory.zero_range f a n).
Proof. intros Hf x. unfold Memory.zero_range. destruct (_ && _); [done|apply Hf]. Qed.

(** ** The loader and the run *)

(** The page of the image lies below a memory that ends above 4 GiB. *)
Lemma room_behind buf len cfg vbreak h l :
  bytes buf -> 0 <= len < 2 ^ 32 -> Elf.wf_config cfg -> Elf.vbreak_ok vbreak -> 2 ^ 32 < vbreak ->
  Elf.plan32 buf len cfg vbreak = Some (h, l) -> Elf.special_break l + Memory.PAGE_SIZE <= vbreak.
Proof.
  intros Hb Hl Hc Hv Hbig Ep. destruct (Elf.plan32_ok buf len cfg vbreak h l Hb Hl Hv Hc Ep) as (_ & _ & _ & H32 & Hm).
  destruct Hv as [_ Hvm]. clear -H32 Hm Hvm Hbig. unfold Memory.PAGE_SIZE in *. Z.to_euclidean_division_equations; lia.
Qed.

(** Both loaders answer on every file, and give up nothing the next load needs. *)
Lemma load_answers buf len cfg f s :
  bytes buf -> 0 <= len < 2 ^ 32 -> Elf.wf_config cfg -> memory_ok s ->
  exists s' r, Elf.load buf len cfg f s = Some (s', r) /\ memory_ok s' /\
    Memory.vaddr_break s' = Memory.vaddr_break s /\
    forall app, r = Some app -> Elf.app_ok app /\ Judger.load_end buf app <= Memory.vaddr_break s.
Proof.
  intros Hb Hl Hc [[Hv Hbig] Hu]. unfold Elf.load. destruct (_ <? _); [by exists s, None|]. cbv zeta.
  unfold Judger.load_end. destruct (Z.eqb_spec (zget 0 buf 4) (Elf.ei_class Elf.class64)) as [Ecl|_];
    [rewrite Ecl; change (_ =? _) with false; cbn iota|destruct (_ =? _); [|by exists s, None]].
  - pose proof (Elf.load64_loads buf len cfg f s Hb Hl Hc Hv Hu) as H.
    destruct (Elf.load_elf64 _ _ _ _ _) as [[s' [app|]]|]; [|subst s'; by exists s, None|done].
    destruct H as ([_ Hend] & Ev & [Hu' _] & Ha). exists s', (Some app). split; [done|].
    split; [split; [by rewrite Ev|done]|]. split; [done|]. by intros ? [= <-].
  - destruct (Elf.plan32 buf len cfg (Memory.vaddr_break s)) as [[h l]|] eqn:Ep.
    + destruct (ElfRun.load32_loads buf len cfg f s h l Hb Hl Hc Hv Hu Ep) as (s' & app & -> & Ev & Es & _ & [Hu' _] & Ha).
      exists s', (Some app). split; [done|]. split; [split; [by rewrite Ev|done]|]. split; [done|]. intros ? [= <-].
      split; [done|]. rewrite Es. by apply (room_behind buf len cfg _ h).
    + unfold Elf.load_elf32, Memory.get_vaddr_break. rewrite Ep. by exists s, None.
Qed.

(** ** Each order *)

Lemma clear_result_ready s : ready s -> ready (Judger.clear_judge_result s) /\ limits (Judger.clear_judge_result s) = limits s.
Proof. intros [H1 H2 H3 H4]. unfold Judger.clear_judge_result. by destruct (Judger.judge_result_cleared s). Qed.
Lemma new_buffer_ready s b : ready s -> byte_map b ->
  ready (Judger.clear_judge_result (Judger.with_buffer s b)) /\
  limits (Judger.clear_judge_result (Judger.with_buffer s b)) = limits s.
Proof. intros [H1 H2 H3 H4] Hb. apply (clear_result_ready (Judger.with_buffer s b)). by split. Qed.

(** The last step of every case: the state is ready and the limits stand. *)
Definition fine (s s' : Judger.state) : Prop := ready s' /\ limits s' = limits s.
Lemma fine_refl s : ready s -> fine s s.
Proof. by split. Qed.

Lemma judge_fine req s : ready s -> Forall JudgerSpec.desc_ok (Judger.request_buffers req) ->
  exists s' r, Judger.judge run_user timer req s = Some (s', r) /\ fine s s'.
Proof.
  intros Hs Hd. pose proof Hs as [Hm Hb He Hda]. unfold Judger.judge. destruct (_ =? _); [by eexists _, _|].
  cbv zeta. destruct (_ <? _); [by eexists _, _|]. destruct (negb _); [by eexists _, _|].
  destruct (_ || _); [by eexists _, _|].
  match goal with |- context [Elf.load ?b ?l ?c ?f ?m] => destruct (load_answers b l c f m) as (m1 & [app|] & -> & Hm1 & Ev & Ha) end.
  - by apply bytes_of_map.
  - unfold u32. by apply Z.mod_pos_bound.
  - unfold Judger.request_buffers in Hd. rewrite !Forall_cons in Hd.
    destruct Hd as (_ & [_ D1] & [_ D2] & [_ D3] & [_ D4] & [_ D5] & _). unfold Elf.wf_config. cbn.
    conj_split; try done. apply u64_range.
  - exact Hm.
  - destruct Hm1 as [Hv1 Hu1]. pose proof (machine app (Judger.time_limit_ns req) m1 Hu1) as Hmach. cbv zeta in Hmach.
    match goal with |- context [?x <? ?y] => destruct (Z.ltb_spec x y) as [Hpast|_] end.
    { destruct (Ha app eq_refl) as [_ Hend]. exfalso. rewrite Ev in Hpast. unfold Judger.part in *. cbn in *. lia. }
    destruct (run_user app (Judger.time_limit_ns req) m1) as [m2 o]. cbn [fst] in Hmach. destruct Hmach as (Ev2 & Hu2 & Hb2).
    destruct (ElfRun.run_reports timer app o m2 (proj1 (Ha app eq_refl))) as (m3 & res & -> & (Ev3 & Eb3 & Hu3) & _).
    eexists _, _. split; [reflexivity|]. split.
    + split; [split|..]; cbn; try done; [by rewrite Ev3, Ev2|auto|].
      unfold Judger.copy_results. rewrite Eb3. do 3 (apply byte_map_write; [|by apply bytes_of_map]). exact Hb.
    + unfold limits. cbn. by rewrite Ev3, Ev2, Ev.
  - eexists _, _. split; [reflexivity|]. split; [by split|]. unfold limits. cbn. by rewrite Ev.
Qed.

Lemma put_fine elf c s : ready s -> cache_ok c -> fine s (JudgerSpec.put_cache elf s c).
Proof. intros [H1 H2 H3 H4] Hc. by destruct elf. Qed.
Lemma named_ok elf s : ready s -> cache_ok (JudgerSpec.cache_named elf s).
Proof. intros [_ _ H3 H4]. by destruct elf. Qed.
(** A name picks one of the two caches, or none. *)
Lemma pick_either name s : Judger.pick_cache name s = None \/
  exists elf, Judger.pick_cache name s = Some (JudgerSpec.cache_named elf s, JudgerSpec.put_cache elf s).
Proof.
  unfold Judger.pick_cache. destruct (LibC.strcmp_eq name _); [right; by exists true|].
  destruct (LibC.strcmp_eq name _); [right; by exists false|by left].
Qed.

Lemma load_fine now name dst len hex s : ready s -> 0 < now -> 0 <= dst -> dst + len <= Judger.buffer_size s ->
  exists s' ok, Judger.load_cache now name dst len hex s = Some (s', ok) /\ fine s s'.
Proof.
  intros Hs Hn Hd1 Hd2. unfold Judger.load_cache.
  destruct (DuckCache.digest_from_hex hex) as [d|] eqn:Ed; [|by exists s, false].
  apply JudgerSpec.digest_length in Ed. destruct (pick_either name s) as [-> |[elf ->]]; [by exists s, false|].
  destruct (named_ok elf s Hs) as [Hw Hbs].
  destruct (CacheStore.load_abs (JudgerSpec.cache_named elf s) now d len Hw Ed Hn) as (c & r & -> & Hw' & Ea & Hr).
  assert (Hc : cache_ok c) by (split; [done|by rewrite Ea]). destruct (put_fine elf c s Hs Hc) as [Hp El].
  destruct r as [bs|]; [|by eexists _, _]. cbv zeta.
  rewrite JudgerSpec.reaches_inside by (rewrite ?JudgerSpec.put_cache_size; done). cbn [negb].
  eexists _, _. split; [reflexivity|].
  destruct (proj1 (Hr bs) eq_refl) as [Hin _].
  destruct (new_buffer_ready (JudgerSpec.put_cache elf s c)
    (write_bytes (Judger.buffer (JudgerSpec.put_cache elf s c)) dst bs) Hp) as [H1 H2].
  { apply byte_map_write; [apply Hp|by apply (Hbs d)]. }
  split; [done|by rewrite H2].
Qed.

Lemma store_fine now name src len hex s : ready s -> 0 < now -> 0 <= len < 2 ^ 62 ->
  0 <= src -> src + len <= Judger.buffer_size s ->
  exists s' ok, Judger.store_cache sort now name src len hex s = Some (s', ok) /\ fine s s'.
Proof.
  intros Hs Hn Hl Hs1 Hs2. unfold Judger.store_cache.
  destruct (DuckCache.digest_from_hex hex) as [d|] eqn:Ed; [|by exists s, false].
  apply JudgerSpec.digest_length in Ed. destruct (pick_either name s) as [-> |[elf ->]]; [by exists s, false|].
  destruct (named_ok elf s Hs) as [Hw Hbs]. pose proof (zlen_read_bytes (Judger.buffer s) src len (proj1 Hl)) as Hz.
  destruct (CacheStore.store_abs sort sort_perm (JudgerSpec.cache_named elf s) now d
    (read_bytes (Judger.buffer s) src len) Hw Ed Hn) as (c & r & E & Hw' & _ & Hno & Hyes & Hother & _); [rewrite Hz; lia|].
  rewrite Hz in E. rewrite E, JudgerSpec.reaches_inside by done. rewrite andb_false_r. eexists _, r. split; [reflexivity|]. apply put_fine; [done|]. split; [done|].
  intros d' bs Hin. destruct r; [|rewrite (Hno eq_refl) in Hin; by apply (Hbs d')].
  destruct (decide (d' = d)) as [->|Hne]; [|by apply (Hbs d'), Hother].
  rewrite (Hyes eq_refl) in Hin. injection Hin as <-.
  apply bytes_default; [apply Hbs|apply bytes_of_map, Hs].
Qed.

Lemma obey_fine o s : ready s -> well_formed (Judger.buffer_size s) o -> exists s' a, obey o s = Some (s', a) /\ fine s s' /\ answers o a.
Proof.
  intros Hs Ho. destruct o as [req|off len|off data|dst src len|now c dst len hex|now c src len hex]; cbn [obey well_formed] in *.
  - destruct (judge_fine req s Hs Ho) as (s' & r & -> & Hf). by eexists _, _.
  - unfold Judger.clear_buffer. destruct (Judger.in_buffer _ _ _); [|by eexists _, _]. eexists _, _.
    split; [reflexivity|]. split; [|done]. apply new_buffer_ready; [done|apply byte_map_zero, Hs].
  - unfold Judger.write_buffer. destruct (Judger.in_buffer _ _ _); [|by eexists _, _]. eexists _, _.
    split; [reflexivity|]. split; [|done]. apply new_buffer_ready; [done|]. apply byte_map_write; [apply Hs|by apply bytes_ztake].
  - unfold Judger.copy_buffer. cbv zeta. destruct (_ && _); [|by eexists _, _]. eexists _, _.
    split; [reflexivity|]. split; [|done]. apply new_buffer_ready; [done|]. apply byte_map_write; [apply Hs|apply bytes_of_map, Hs].
  - destruct (load_fine now c dst len hex s Hs) as (s' & r & -> & Hf); [apply Ho..|]. by eexists _, _.
  - destruct (store_fine now c src len hex s Hs) as (s' & r & -> & Hf); [apply Ho..|]. by eexists _, _.
Qed.

Lemma session_fine os : forall s, ready s -> Forall (well_formed (Judger.buffer_size s)) os ->
  exists s' l, session os s = Some (s', l) /\ fine s s' /\ Forall2 answers os l.
Proof.
  induction os as [|o os IH]; intros s Hs Hos; cbn [session]; [by exists s, []|].
  apply Forall_cons in Hos as [Ho Hos]. destruct (obey_fine o s Hs Ho) as (s1 & a & -> & [H1 E1] & Ha). cbn.
  assert (Es : Judger.buffer_size s1 = Judger.buffer_size s) by (injection E1; done).
  destruct (IH s1 H1 ltac:(by rewrite Es)) as (s2 & l & -> & [H2 E2] & Hl). cbn. exists s2, (a :: l).
  split; [done|]. split; [split; [done|by rewrite E2]|by constructor].
Qed.

(** ** The judge that was just started *)

Lemma started_ready m b e d j :
  Elf.vbreak_ok (Memory.vaddr_break (Judger.memory j)) -> 2 ^ 32 < Memory.vaddr_break (Judger.memory j) -> (forall p, is_u64 (Memory.P1 m p)) ->
  JudgerInit.fresh_judger m b e d j -> byte_map (Judger.buffer j) -> ready j.
Proof.
  intros Hv Hbig Hu [_ _ _ (W1 & A1 & _) (W2 & A2 & _) Em] Hb. rewrite Em in *.
  constructor; [rewrite Em; by split|done|..]; (split; [done|]); intros d' bs; by rewrite ?A1, ?A2, lookup_empty.
Qed.
Lemma roomy_vbreak m : JudgerInit.roomy m -> Memory.vaddr_break m <= 2 ^ 46 -> Elf.vbreak_ok (Memory.vaddr_break m).
Proof.
  intros [[Hb _] Hw] Ht. split; [by split|]. apply Z.mod_divide in Hw as [k ->]; [|done].
  change Memory.HUGE_PAGE_SIZE with (512 * Memory.PAGE_SIZE). rewrite Z.mul_assoc. by apply Z_mod_mult.
Qed.

End Session.

(** ** A session *)

(** C5: The judge always answers.  Once the judger has started, no session of a client
    makes an assertion fail or a loop run on, copies past the end of the buffer or loads a
    program over a cache, whatever files it sends, whatever its programs do to their
    memory, and however it mixes judgements with writes to the buffer and use of the
    caches: every order is answered in its kind, the buffer and the memory of the
    programs keep their sizes, and the judger is again in a state in which all this
    holds.  The places it names to the caches must lie in the buffer
    ([cache_leaves_buffer]), and the memory left for programs must end above 4 GiB:
    in less, the page of [load32_image_page] can be the first page of the data cache. *)
Theorem judge_always_answers sort run_user timer im m os :
  (forall key l, sort key l ≡ₚ l) -> well_run run_user ->
  JudgerInit.roomy m -> JudgerInit.mib 1024 <= JudgerInit.room m -> Memory.vaddr_break m <= 2 ^ 46 ->
  2 ^ 32 < Memory.vaddr_break m - JudgerInit.mib (JudgerInit.row_total (JudgerInit.share (JudgerInit.room m))) ->
  (forall p, is_u64 (Memory.P1 m p)) -> JudgerInit.arrays_ok im -> byte_map (Judger.im_buffer im) ->
  Forall (well_formed (JudgerInit.mib (JudgerInit.share (JudgerInit.room m)).1.1)) os ->
  exists j s l, Judger.init im m = Some j /\ session sort run_user timer os j = Some (s, l) /\
    Forall2 answers os l /\ limits s = limits j /\ ready s.
Proof.
  intros Hp Hrun Hm Hr Ht Hbig Hu Him Hb Hos. pose proof (JudgerInit.judger_comes_up im m Hm Him Hr) as H.
  pose proof (JudgerInit.share_fits _ Hr) as Hfit. pose proof (proj1 (JudgerInit.share_row (JudgerInit.room m))) as Hrow.
  destruct (JudgerInit.share (JudgerInit.room m)) as [[b e] d]. destruct H as (j & E & Hj), Hfit as [Hpos Esum].
  pose proof (JudgerInit.fresh_roomy m (b, e, d) j Hm Hrow Hpos Hj) as Hroomy. cbn [JudgerInit.row_total] in Hbig. rewrite Esum in Hbig.
  destruct (session_fine sort run_user timer Hp Hrun os j) as (s & l & Es & [Hs El] & Ha).
  - apply (started_ready m (JudgerInit.mib b) (JudgerInit.mib e) (JudgerInit.mib d)); [| |done|done|].
    + apply roomy_vbreak; [done|]. rewrite (JudgerInit.f_memory _ _ _ _ _ Hj). cbn. lia.
    + by rewrite (JudgerInit.f_memory _ _ _ _ _ Hj).
    + rewrite (JudgerInit.init_buffer _ _ _ E). by apply byte_map_zero.
  - by rewrite (proj1 (JudgerInit.f_buffer _ _ _ _ _ Hj)).
  - by exists j, s, l.
Qed.

(** ** A client that stores its program, loads it, changes a byte and has it judged *)

(** A program that fills its memory with sevens and exits. *)
Definition demo_program (app : Elf.App) (limit : Z) (m : Memory.state) : Memory.state * Elf.Outcome :=
  (Memory.with_user_mem m (λ _, 7), Elf.mk_outcome 10 Judger.TRAP_SYSCALL 0 5 10 10 0 0).
Definition demo_digest : list Z := repeat 48 64.
Definition demo_orders : list order :=
  [Write 0 Elf.demo_elf; Store 10 (LibC.str "elf"%string) 0 130 demo_digest; Clear 0 130; Load 11 (LibC.str "elf"%string) 0 130 demo_digest;
   Judge JudgerSpec.demo_request; Write 77 [255]; Copy 600 0 130; Load 12 (LibC.str "none"%string) 0 1 demo_digest].

Lemma demo_well_run : well_run demo_program.
Proof. intros app limit m Hu. by conj_split. Qed.
(** Sixteen gigabytes: the largest row of the table, and more than 4 GiB for programs. *)
Definition demo_large : Memory.state :=
  Memory.mk_state ∅ 0 0 0 (Memory.kernel_break + JudgerInit.mib 16384) (λ _, 0) (λ _, 0) (λ _, 0).
Lemma demo_well_formed : Forall (well_formed (JudgerInit.mib 3072)) demo_orders.
Proof.
  assert (Hb : bytes Elf.demo_elf) by (apply bytesb_bytes; vm_compute; reflexivity).
  assert (Hs : JudgerInit.mib 3072 = 3221225472) by reflexivity. rewrite Hs. unfold demo_orders.
  rewrite !Forall_cons. cbn [well_formed]. conj_split; try lia; try done.
  all: first [apply JudgerSpec.demo_descs | by apply bytesb_bytes].
Qed.

Lemma judge_always_answers_witness : exists j s l,
  Judger.init JudgerInit.demo_im demo_large = Some j /\
  session CacheStore.demo_sort demo_program JudgerSpec.demo_timer demo_orders j = Some (s, l) /\
  length l = 8%nat.
Proof.
  destruct (judge_always_answers CacheStore.demo_sort demo_program JudgerSpec.demo_timer JudgerInit.demo_im
    demo_large demo_orders CacheStore.demo_sort_perm demo_well_run) as (j & s & l & E & Es & Ha & _);
    [split; [vm_compute; split; [discriminate|reflexivity]|reflexivity]|vm_compute; discriminate|vm_compute; discriminate
    |vm_compute; reflexivity|done|exact JudgerInit.demo_arrays|intros x; done|..].
  { assert (Eb : (JudgerInit.share (JudgerInit.room demo_large)).1.1 = 3072) by (vm_compute; reflexivity).
    rewrite Eb. exact demo_well_formed. }
  exists j, s, l. split; [exact E|]. split; [exact Es|]. symmetry. exact (Forall2_length _ _ _ Ha).
Defined.

End JudgeAnswers.
