(* ===== verification/Judgement.v ===== *)
(** * Judgement: from the trap that ends a program to its verdict

    [ELF::run] as a whole ([lib/elf.cpp]): the run under [Trap], the performance
    counters, the report of [Elf], then the verdict of [Judger]. *)
From S2P Require Import Prelude Utils Timer Memory.
From S2P Require Import Elf.
From S2P Require Import ElfRun.
From S2P Require Import UserRun.
From S2P Require Import Trap.
From S2P Require Import Judger.
From stdpp Require Import list.

Module Judgement.
Local Open Scope Z_scope.

(** ** [ELF::run] *)

Section Run.
Variables (traps : list Z) (trap_0x80_entry : Z) (tm : Timer.state).

(** What the processor adds to a run: the flags and the frame of the kernel's [int],
    the times of the start, what the performance counters have counted, and what the return code
    is when nothing assigns it. *)
Record hardware := mk_hardware {
  rflags : Z; kf : Trap.Trapframe; c_record : Z; c_reset : Z;
  n_inst : Z; n_clk_thread : Z; n_clk_ref_tsc : Z; unassigned : Z }.

Definition outcome_of (h : hardware) (s : Trap.state) (r : Z * Z * option Z) : Elf.Outcome :=
  let '(time_tsc, trap_num, return_code) := r in
  Elf.mk_outcome time_tsc trap_num (default (unassigned h) return_code) (n_inst h) (n_clk_thread h)
    (n_clk_ref_tsc h) (Trap.trap_epc s) (Trap.trap_cr2 s).

(** [l] are the traps of the program; a 64-bit one has one. *)
Definition run_user (h : hardware) (app : Elf.App) (limit : Z) (l : list Trap.event) (s : Trap.state)
    : option (Memory.state * Trap.state * Elf.Outcome) :=
  if negb (Elf.duckinfo_ptr app =? 0) then
    match l with
    | [] => None
    | e :: _ =>
        match Trap.run_user_64 traps trap_0x80_entry tm (rflags h) (Elf.entry app) (Elf.rsp app) limit (kf h)
                (c_record h) (c_reset h) e s with
        | Some (s, r) => Some (Trap.ev_mem e, s, outcome_of h s r)
        | None => None
        end
    end
  else
    match Trap.run_user_32 traps trap_0x80_entry tm (rflags h) (Elf.entry app) (Elf.rsp app) limit (kf h)
            (c_record h) (c_reset h) l s with
    | Some (m, s, r) => Some (m, s, outcome_of h s r)
    | None => None
    end.

(** The run, the report, and the verdict on it. *)
Definition judge_run (h : hardware) (app : Elf.App) (limit : Z) (l : list Trap.event) (s : Trap.state)
    : option (Memory.state * Trap.state * Judger.JudgeResult) :=
  match run_user h app limit l s with
  | None => None
  | Some (m, s, o) =>
      match Elf.run tm app o m with
      | None => None
      | Some (m, res) => Some (m, s, Judger.verdict limit res)
      end
  end.
End Run.

(** ** What a verdict should be *)

(** How a program can end. *)
Inductive ending := Exit (code : Z) | Abort | InvalidCall | Stopped (num : Z).

(** The ending, from the frame of the last trap. *)
Definition how_it_ended (bits32 : bool) (tf : Trap.Trapframe) : ending :=
  let num := Trap.tf_num tf in
  let call := s32 (Trap.rax (Trap.tf_regs tf)) in
  if bits32 then
    if num =? 0x80 then if call =? 1 then Exit (s32 (Trap.rbx (Trap.tf_regs tf))) else InvalidCall
    else if num =? 255 then InvalidCall
    else Stopped num
  else if num =? 255 then
    if call =? 60 then Exit (s32 (Trap.rdi (Trap.tf_regs tf))) else if call =? 200 then Abort else InvalidCall
  else Stopped num.

Inductive judged := Fine (code time : Z) | TimeLimitExceeded (time : Z) | RuntimeError (num time : Z).

Definition expected (limit time : Z) (e : ending) : judged :=
  if limit <? time then TimeLimitExceeded limit
  else
    match e with
    | Exit code => Fine code time
    | Abort => RuntimeError 253 time
    | InvalidCall => RuntimeError 254 time
    | Stopped num => if num =? 32 then TimeLimitExceeded limit else RuntimeError num time
    end.

(** What a client reads in a result. *)
Definition read_result (r : Judger.JudgeResult) : judged :=
  if Judger.is_TLE r then TimeLimitExceeded (Judger.j_time_ns r)
  else if Judger.is_RE r then RuntimeError (Judger.j_trap_num r) (Judger.j_time_ns r)
  else Fine (Judger.j_return_code r) (Judger.j_time_ns r).

Definition number (e : ending) : Z :=
  match e with Exit _ => 255 | Abort => 253 | InvalidCall => 254 | Stopped num => num end.
Definition code_is (e : ending) (code : Z) : Prop :=
  match e with Exit c => code = c | Abort => True | _ => code = 0 end.

Lemma verdict_expected limit e res :
  Elf.trap_num res = number e -> code_is e (Elf.return_code res) -> (forall n, e = Stopped n -> n <> 255) ->
  read_result (Judger.verdict limit res) = expected limit (Elf.time_ns res) e.
Proof.
  intros Hn Hc He. unfold Judger.verdict, Judger.result_of, read_result, expected, Judger.TRAP_SYSCALL, Judger.TRAP_TIMER.
  rewrite Hn. cbn [Judger.is_TLE]. destruct (Z.ltb_spec limit (Elf.time_ns res)); [done|]. cbn [orb].
  destruct e as [code| | |num]; cbn [number code_is] in *; cbn; [by rewrite Hc|done|done|].
  destruct (Z.eqb_spec num 32) as [->|N]; cbn; [done|]. rewrite ?Hn. cbn [number].
  by rewrite (proj2 (Z.eqb_neq num 255) (He num eq_refl)).
Qed.

Lemma ending_64 num call trap_num return_code rdi :
  (num <> Trap.TRAP_SYSCALL -> trap_num = num /\ return_code = Some 0) /\
  (num = Trap.TRAP_SYSCALL -> call = Trap.DUCK_sys_exit -> trap_num = Trap.TRAP_SYSCALL /\ return_code = Some rdi) /\
  (num = Trap.TRAP_SYSCALL -> call = Trap.SYS_tkill -> trap_num = Trap.TRAP_ABORT /\ return_code = None) /\
  (num = Trap.TRAP_SYSCALL -> call <> Trap.DUCK_sys_exit -> call <> Trap.SYS_tkill ->
    trap_num = Trap.TRAP_INVALID_SYSCALL /\ return_code = Some 0) ->
  let e := if num =? 255 then if call =? 60 then Exit rdi else if call =? 200 then Abort else InvalidCall
           else Stopped num in
  trap_num = number e /\ forall d, code_is e (default d return_code).
Proof.
  intros (H1 & H2 & H3 & H4). cbn zeta. unfold Trap.TRAP_SYSCALL, Trap.DUCK_sys_exit, Trap.SYS_tkill in *.
  destruct (Z.eqb_spec num 255) as [E|E]; [|by destruct H1 as [-> ->]].
  destruct (Z.eqb_spec call 60) as [Ec|Ec]; [by destruct H2 as [-> ->]|].
  destruct (Z.eqb_spec call 200) as [Ek|Ek]; [by destruct H3 as [-> ->]|by destruct H4 as [-> ->]].
Qed.

Lemma ending_32 num call trap_num return_code rbx :
  (num <> Trap.TRAP_SYSCALL32 -> num <> Trap.TRAP_SYSCALL -> trap_num = num /\ return_code = 0) /\
  (num = Trap.TRAP_SYSCALL32 -> call = Trap.DUCK_sys_exit_32 -> trap_num = Trap.TRAP_SYSCALL /\ return_code = rbx) /\
  (num = Trap.TRAP_SYSCALL32 /\ call <> Trap.DUCK_sys_exit_32 \/ num = Trap.TRAP_SYSCALL ->
    trap_num = Trap.TRAP_INVALID_SYSCALL /\ return_code = 0) ->
  let e := if num =? 0x80 then if call =? 1 then Exit rbx else InvalidCall
           else if num =? 255 then InvalidCall else Stopped num in
  trap_num = number e /\ forall d, code_is e (default d (Some return_code)).
Proof.
  intros (H1 & H2 & H3). cbn zeta. unfold Trap.TRAP_SYSCALL, Trap.TRAP_SYSCALL32, Trap.DUCK_sys_exit_32 in *.
  destruct (Z.eqb_spec num 0x80) as [E|E];
    [destruct (Z.eqb_spec call 1) as [Ec|Ec]; [by destruct H2 as [-> ->]|by destruct H3 as [-> ->]; [left|]]|].
  destruct (Z.eqb_spec num 255) as [Es|Es]; [by destruct H3 as [-> ->]; [right|]|by destruct H1 as [-> ->]].
Qed.

Lemma not_the_door bits32 tf n : how_it_ended bits32 tf = Stopped n -> n <> 255.
Proof.
  unfold how_it_ended. destruct bits32; cbn zeta.
  - destruct (_ =? 0x80); [by destruct (_ =? 1)|]. destruct (Z.eqb_spec (Trap.tf_num tf) 255); [done|]. by intros [= <-].
  - destruct (Z.eqb_spec (Trap.tf_num tf) 255); [by destruct (_ =? 60); [|destruct (_ =? 200)]|]. by intros [= <-].
Qed.

(** The report is always made. *)
Lemma report_made t app o m :
  Memory.page_range (Elf.start_addr app) (Elf.special_region_break_addr app) ->
  Memory.page_range (Elf.stdin_start_addr app) (Elf.stdin_break_addr app) ->
  exists m' res, Elf.run t app o m = Some (m', res) /\ Elf.trap_num res = Elf.o_trap_num o /\
    Elf.return_code res = Elf.o_return_code o /\ Elf.time_ns res = Timer.clk_to_ns t (Elf.o_clk_thread o) /\
    Elf.time_tsc res = Elf.o_time_tsc o /\ Elf.trap_epc res = Elf.o_trap_epc o /\ Elf.trap_cr2 res = Elf.o_trap_cr2 o.
Proof.
  intros R1 R2. unfold Elf.run, Memory.set_duck_written_by_dirty, Memory.count_dirty_pages, Memory.count_accessed_pages.
  destruct (Memory.for_pages_update (λ e, Z.lor e (if negb (Z.land e Memory.PTE_DIRTY =? 0)
    then Memory.PTE_DUCK_WRITTEN else 0)) _ _ m R1) as (m1 & -> & _).
  cbn [Memory.obind]. rewrite !ElfRun.count_pages_spec by done. cbn [Memory.obind].
  eexists _, _. split; [reflexivity|]. by conj_split.
Qed.

Section Verdicts.
Variables (traps : list Z) (trap_0x80_entry : Z) (tm : Timer.state).
Hypothesis Htm : is_u32 (Timer.ext_freq tm).

(** C4: A program gets the verdict it deserves.  Run a program of either kind, whatever
    segments it asks for before its last trap, and judge the report: the result
    says "fine" with the code of its exit call when it made one within
    the limit, "time limit exceeded", with the limit as the time, when
    the measured time exceeds the limit or the timer stopped it, and
    otherwise "runtime error", with the number of its trap, 253 for an abort and 254 for
    a system call that is not one.  The result says where the program stopped and
    how long that took; afterwards the kernel goes on where it was, the timer
    is off and the time-stamp counter is the kernel's. *)
Theorem programs_get_their_verdict h app limit pre e s c1 :
  Memory.page_range (Elf.start_addr app) (Elf.special_region_break_addr app) ->
  Memory.page_range (Elf.stdin_start_addr app) (Elf.stdin_break_addr app) ->
  let bits32 := Elf.duckinfo_ptr app =? 0 in
  s32 (Trap.tf_num (kf h)) = (if bits32 then Trap.TRAP_RUN_USER32 else Trap.TRAP_RUN_USER) ->
  Z.land (Trap.tf_cs (kf h)) 3 = 0 ->
  (if bits32 then Forall Trap.asks_for_area pre /\ ~ Trap.asks_for_area e else pre = []) ->
  Z.land (Trap.tf_cs (Trap.ev_tf e)) 3 <> 0 -> 0 <= Trap.tf_num (Trap.ev_tf e) < 256 ->
  Trap.tsc (Trap.tf_regs (Trap.ev_tf e)) = u64 (c1 - c_reset h) ->
  exists m' s' r, judge_run traps trap_0x80_entry tm h app limit (pre ++ [e]) s = Some (m', s', r) /\
    read_result r = expected limit (Timer.clk_to_ns tm (n_clk_thread h)) (how_it_ended bits32 (Trap.ev_tf e)) /\
    Judger.j_time_tsc r = u64 (c1 - c_record h) /\ Judger.j_trap_epc r = Trap.tf_rip (Trap.ev_tf e) /\
    Judger.j_trap_cr2 r = Trap.ev_cr2 e /\
    Trap.kernel_resumes (kf h) (Trap.tf_run_user s') (Trap.tf_num (Trap.ev_tf e)) /\ Trap.tsc_adjust s' = 0 /\
    LAPIC.writes (Trap.lapic s') = LAPIC.writes (Trap.lapic s) ++ Trap.timer_writes tm limit ++
      [(LAPIC.EOI, 0); (LAPIC.TICR, u32 (-1))].
Proof.
  cbn zeta. intros R1 R2 Hk Hkc Hpre Huc Hr Htsc.
  set (en := how_it_ended _ _). set (time := Timer.clk_to_ns tm _).
  assert (Hrun : exists m1 s1 o, run_user traps trap_0x80_entry tm h app limit (pre ++ [e]) s = Some (m1, s1, o) /\
    Elf.o_trap_num o = number en /\ code_is en (Elf.o_return_code o) /\ Elf.o_clk_thread o = n_clk_thread h /\
    Elf.o_time_tsc o = u64 (c1 - c_record h) /\ Elf.o_trap_epc o = Trap.tf_rip (Trap.ev_tf e) /\
    Elf.o_trap_cr2 o = Trap.ev_cr2 e /\
    Trap.kernel_resumes (kf h) (Trap.tf_run_user s1) (Trap.tf_num (Trap.ev_tf e)) /\ Trap.tsc_adjust s1 = 0 /\
    LAPIC.writes (Trap.lapic s1) = LAPIC.writes (Trap.lapic s) ++ Trap.timer_writes tm limit ++
      [(LAPIC.EOI, 0); (LAPIC.TICR, u32 (-1))]).
  { unfold run_user. subst en. destruct (Elf.duckinfo_ptr app =? 0); cbn [negb].
    - destruct Hpre as [Hp He].
      destruct (Trap.run_32_reports traps trap_0x80_entry tm Htm (rflags h) (Elf.entry app) (Elf.rsp app) limit (kf h)
        (c_record h) (c_reset h) pre e s c1 Hk Hkc Hp He Huc Hr Htsc) as (s1 & n & rc & -> & H & X & X1 & X2 & X3 & X4).
      apply ending_32 in H as [-> H]. eexists _, _, _. split; [reflexivity|]. cbn. rewrite X1, X2.
      conj_split; (done || apply (H 0)).
    - subst pre. cbn [Datatypes.app].
      destruct (Trap.run_64_reports traps trap_0x80_entry tm Htm (rflags h) (Elf.entry app) (Elf.rsp app) limit (kf h)
        (c_record h) (c_reset h) e s c1 Hk Hkc Huc Hr Htsc) as (s1 & n & rc & -> & H & X & X1 & X2 & X3 & X4).
      apply ending_64 in H as [-> H]. eexists _, _, _. split; [reflexivity|]. cbn. rewrite X1, X2.
      conj_split; (done || apply H). }
  destruct Hrun as (m1 & s1 & o & E & O1 & O2 & O3 & O4 & O5 & O6 & O7 & O8 & O9). unfold judge_run. rewrite E.
  destruct (report_made tm app o m1 R1 R2) as (m2 & res & -> & P1 & P2 & P3 & P4 & P5 & P6).
  exists m2, s1, (Judger.verdict limit res). split; [done|].
  split; [|unfold Judger.verdict; destruct (_ || _); cbn; rewrite P4, P5, P6; by conj_split].
  rewrite (verdict_expected limit en res); [by rewrite P3, O3|congruence|by rewrite P2|].
  intros n Hn. by apply (not_the_door _ _ _ Hn).
Qed.
End Verdicts.

(** ** Two programs *)

Definition demo_hardware (num : Z) : hardware := mk_hardware 0x246 (Trap.demo_kernel num) 1000 1010 5000 7200 7000 77.
Definition with_duckinfo (a b : Z) : Elf.App :=
  let d := UserRun.demo_64 in
  Elf.mk_app (Elf.entry d) (Elf.rsp d) (Elf.start_addr d) (Elf.break_addr d) (Elf.special_region_start_addr d)
    (Elf.special_region_break_addr d) (Elf.stdin_start_addr d) (Elf.stdin_break_addr d) (Elf.duckinfo_orig d) a b.
Definition demo_32 : Elf.App := with_duckinfo 0 0x401f90.
(** A program of 64 bits stopped by a division by zero. *)
Definition demo_fault : Trap.event := Trap.mk_event (Trap.demo_frame 43 0 1 3 0 (u64 (9000 - 1010))) 0 0 Trap.demo_memory.

Lemma programs_get_their_verdict_witness :
  (exists m s r, judge_run Trap.demo_traps 0x202000 Trap.demo_tm (demo_hardware Trap.TRAP_RUN_USER32) demo_32 1000000000
      [Trap.demo_area; Trap.demo_exit_32] Trap.demo_init = Some (m, s, r) /\ read_result r = Fine 3 2000) /\
  (exists m s r, judge_run Trap.demo_traps 0x202000 Trap.demo_tm (demo_hardware Trap.TRAP_RUN_USER) UserRun.demo_64 1000000000
      [demo_fault] Trap.demo_init = Some (m, s, r) /\ read_result r = RuntimeError 0 2000).
Proof.
  assert (Ht : is_u32 (Timer.ext_freq Trap.demo_tm)) by (unfold is_u32; cbn; lia).
  assert (R1 : Memory.page_range (Elf.start_addr demo_32) (Elf.special_region_break_addr demo_32)) by (by repeat split).
  assert (R2 : Memory.page_range (Elf.stdin_start_addr demo_32) (Elf.stdin_break_addr demo_32)) by (by repeat split).
  split.
  - destruct (programs_get_their_verdict Trap.demo_traps 0x202000 Trap.demo_tm Ht (demo_hardware Trap.TRAP_RUN_USER32)
      demo_32 1000000000 [Trap.demo_area] Trap.demo_exit_32 Trap.demo_init 9000 R1 R2) as (m & s & r & E & H & _);
      [done|done|split; [by repeat constructor|by intros [_ ?]]|done|cbn; lia|done|].
    exists m, s, r. split; [exact E|]. rewrite H. reflexivity.
  - destruct (programs_get_their_verdict Trap.demo_traps 0x202000 Trap.demo_tm Ht (demo_hardware Trap.TRAP_RUN_USER)
      UserRun.demo_64 1000000000 [] demo_fault Trap.demo_init 9000 R1 R2) as (m & s & r & E & H & _);
      [done|done|done|done|cbn; lia|done|].
    exists m, s, r. split; [exact E|]. rewrite H. reflexivity.
Defined.

End Judgement.
