(* ===== verification/DuckServer.v ===== *)
(** * DuckServer: the UDP command server ([kern/duck_server.cpp])

    Every handler takes the content of a datagram and returns whether it was for
    it and the reply; a handler may change the judger, or stop the machine ([None]: a
    failed assertion, or an access outside the buffer).  A function that reboots or
    fails does not return; in the model it sets [halted], after which no hook does
    anything, and the loop of [Service.run] ends.  Clocks, sensors and the printing of one floating-point
    number come from the environment ([sensors]). *)
From Stdlib Require Import String.
From S2P Require Import Prelude Utils LibC SysLog Timer Scheduler DucknetUtils Net Phy Arp Ipv4.
From S2P Require Import Transport Ducknet Memory Elf DuckCache CacheStore Judger JudgerSpec.

Module DuckServer.
Import Utils LibC.

Definition DUCK_UDP_PORT : Z := 9999.
Definition MAX_QUERY_LEN : Z := 1400.

(** What the handlers read of the machine. *)
Record sensors := mk_sensors {
  s_uptime : Z;                       (* [(uint64_t) Timer::secf_since_epoch()] *)
  s_now : Z;                          (* [Timer::tsc_since_epoch()] *)
  s_temperature_target : Z; s_therm_status : Z;
  s_microcode_orig_rev : Z; s_microcode_rev : Z;
  s_cpu_model_name : list Z;
  s_clock_MHz : Z -> Z -> Z -> list Z (* [%.5lf] of [a / (double) b * c] *) }.

Section Handlers.
Variable sort : (Z -> Z) -> list Z -> list Z.
Variable run_user : Elf.App -> Z -> Memory.state -> Memory.state * Elf.Outcome.
Variable timer : Timer.state.
Variable log : SysLog.state.
Variable e : sensors.

(** Handled or not; with what reply; in which state.  [None] stops the machine. *)
Inductive answer :=
  | Pass                                            (* [return false] *)
  | Handled (j : Judger.state) (res : option (list Z)).

Definition starts_with (s1 : list Z) (len1 : Z) (s2 : string) : bool :=
  (zlen (str s2) <=? len1) && list_eqb (ztake (zlen (str s2)) s1) (str s2).
Definition equals_to (s1 : list Z) (len1 : Z) (s2 : string) : bool :=
  (len1 =? zlen (str s2)) && list_eqb (ztake len1 s1) (str s2).

Definition process_controls (content : list Z) (len : Z) (j : Judger.state) : answer :=
  let content := ztake len content in
  if equals_to content len "uptime" then
    Handled j (Some (sprintf (fmt "uptime %lu") [VNum (s_uptime e)]))
  else if equals_to content len "statistics" then
    let stat := Judger.get_statistics j in
    Handled j (Some (sprintf (fmt "statistics %lu %lu")
      [VNum (Judger.st_n_judges stat); VNum (Judger.st_total_time_ns stat)]))
  else if equals_to content len "cpu-temp" then
    let temp_target := extract_bits (s_temperature_target e) 23 16 in
    let temp := u64 (temp_target - extract_bits (s_therm_status e) 22 16) in
    Handled j (Some (sprintf (fmt "cpu-temp %lu") [VNum temp]))
  else if equals_to content len "cpu-model-name" then
    Handled j (Some (sprintf (fmt "cpu-model-name %s") [VStr (s_cpu_model_name e)]))
  else if equals_to content len "sysinfo" then
    Handled j (Some (sprintf (fmt "microcode-orig-rev = 0x%02x
microcode-current-rev = 0x%02x
") [VNum (s_microcode_orig_rev e); VNum (s_microcode_rev e)]))
  else
    match sscanf content "syslog %d %d" with
    | [VNum q_start; VNum q_len] =>
        if (0 <=? q_len) && (q_len <=? 1400) then
          Handled j (Some (snd (SysLog.get log q_start q_len)))
        else Handled j None
    | _ => Pass
    end.

Definition process_data (content : list Z) (len : Z) (j : Judger.state) : answer :=
  let content := ztake len content in
  if equals_to content len "query-buffer-size" then
    Handled j (Some (sprintf (fmt "ok-query-buffer-size %lu") [VNum (Judger.query_buffer_size j)]))
  else
  match sscanf content "clear-buffer %lu %lu" with
  | [VNum q_off; VNum q_len] =>
      let '(j, ok) := Judger.clear_buffer q_off q_len j in
      Handled j (if ok : bool then Some (sprintf (fmt "ok-clear-buffer %lu %lu") [VNum q_off; VNum q_len]) else None)
  | _ =>
  match sscanf content "read-buffer %lu %lu" with
  | [VNum q_off; VNum q_len] =>
      if MAX_QUERY_LEN <? q_len then Handled j None
      else
        match Judger.read_buffer q_off q_len j with
        | Some q_res => Handled j (Some (sprintf (fmt "ok-read-buffer") [] ++ le_bytes 8 q_off ++ q_res))
        | None => Handled j None
        end
  | _ =>
  if starts_with content len "write-buffer" then
    let tmp_len := zlen (str "write-buffer") in
    let data := zdrop tmp_len content in
    let data_len := u64 (len - tmp_len) in
    if data_len <? 8 then Handled j None
    else
      let q_off := get64 data 0 in
      let q_len := data_len - 8 in
      let '(j, ok) := Judger.write_buffer q_off (zdrop 8 data) q_len j in
      Handled j (if ok : bool then Some (sprintf (fmt "ok-write-buffer %lu %lu") [VNum q_off; VNum q_len]) else None)
  else
  match sscanf content "copy-buffer %lu %lu %lu" with
  | [VNum q_off; VNum q_off2; VNum q_len] =>
      let '(j, ok) := Judger.copy_buffer q_off q_off2 q_len j in
      Handled j (if ok : bool then
        Some (sprintf (fmt "ok-copy-buffer %lu %lu %lu") [VNum q_off; VNum q_off2; VNum q_len]) else None)
  | _ =>
  match sscanf content "compare-buffer %lu %lu %lu" with
  | [VNum q_off; VNum q_off2; VNum q_len] =>
      match Judger.compare_buffer q_off q_off2 q_len j with
      | Some comp_result =>
          Handled j (Some (sprintf (fmt "ok-compare-buffer %lu %lu %lu %lu")
            [VNum q_off; VNum q_off2; VNum q_len; VNum (if comp_result : bool then 1 else 0)]))
      | None => Handled j None
      end
  | _ => Pass
  end end end end.

(** The text of a judgement (all of it fits in the 1024 bytes of [res_str]). *)
Definition judge_reply (r : Judger.JudgeResult) : list Z :=
  match Judger.error r with
  | Some err => sprintf (fmt "ok-judge
Judge Failed
%s
") [VStr err]
  | None =>
      let tsc_MHz := Timer.tsc_freq timer / 1000000 in
      let ext_MHz := Timer.ext_freq timer / 1000000 in
      let clock_MHz :=
        if Judger.j_clk_ref_tsc r =? 0 then str "0.00000"
        else s_clock_MHz e (Judger.j_clk_thread r) (Judger.j_clk_ref_tsc r) tsc_MHz in
      sprintf (fmt "ok-judge
count-inst %lu
clk-thread %lu
clk-ref-tsc %lu
clock-MHz %s
tsc-MHz %lu
ext-MHz %lu
time-ns %lu
time-ns-ref-tsc %lu
time-ns-real %lu
time-tsc %lu
memory-kb %lu
memory-kb-accessed %lu
stdout-size %lu
stderr-size %lu
return-code %d
trap-num %d
trap-epc 0x%lx
trap-cr2 0x%lx
status %s
") [VNum (Judger.j_count_inst r); VNum (Judger.j_clk_thread r); VNum (Judger.j_clk_ref_tsc r);
    VStr clock_MHz; VNum tsc_MHz; VNum ext_MHz; VNum (Judger.j_time_ns r);
    VNum (Judger.j_time_ns_ref_tsc r); VNum (Judger.j_time_ns_real r); VNum (Judger.j_time_tsc r);
    VNum (Judger.j_memory_kb r); VNum (Judger.j_memory_kb_accessed r);
    VNum (Judger.j_stdout_size r); VNum (Judger.j_stderr_size r); VNum (Judger.j_return_code r);
    VNum (Judger.j_trap_num r); VNum (Judger.j_trap_epc r); VNum (Judger.j_trap_cr2 r);
    VStr (str (if Judger.is_RE r then "Runtime Error"
               else if Judger.is_TLE r then "Time Limit Exceeded" else "Run Finished"))]
  end.

Definition process_judge (content : list Z) (len : Z) (j : Judger.state) : option answer :=
  let content := ztake len content in
  match sscanf content "judge %lu %lu %lu %lu %lu %lu %lu %lu %lu %lu %lu%lu %lu %lu %lu %lu" with
  | [VNum seq; VNum tlns; VNum mhlkb; VNum elf_off; VNum elf_len; VNum in_off; VNum in_len;
     VNum out_off; VNum out_len; VNum err_off; VNum err_len; VNum ib_off; VNum ib_len;
     VNum ob_off; VNum ob_len; VNum ob_need_clear] =>
      let req := Judger.mk_request seq tlns mhlkb (Judger.mk_desc elf_off elf_len)
        (Judger.mk_desc in_off in_len) (Judger.mk_desc out_off out_len) (Judger.mk_desc err_off err_len)
        (Judger.mk_desc ib_off ib_len) (Judger.mk_desc ob_off ob_len) ob_need_clear in
      match Judger.judge run_user timer req j with
      | Some (j, r) => Some (Handled j (Some (judge_reply r)))
      | None => None
      end
  | _ => Some Pass
  end.

(** The last 64 bytes are the digest in hexadecimal. *)
Definition process_cache (content : list Z) (len : Z) (j : Judger.state) : option answer :=
  let content := ztake len content in
  let hex := zdrop (len - 64) content in
  match (if 64 <? len then sscanf content "load-cache %s %lu %lu" else []) with
  | [VStr q_cache_name; VNum q_off; VNum q_len] =>
      match Judger.load_cache (s_now e) q_cache_name q_off q_len hex j with
      | None => None
      | Some (j, ok) =>
          let args := [VStr q_cache_name; VNum q_off; VNum q_len] in
          Some (Handled j (Some (if ok : bool then sprintf (fmt "ok-load-cache %s %lu %lu") args
                                 else sprintf (fmt "fail-load-cache %s %lu %lu") args)))
      end
  | _ =>
  match (if 64 <? len then sscanf content "store-cache %s %lu %lu" else []) with
  | [VStr q_cache_name; VNum q_off; VNum q_len] =>
      match Judger.store_cache sort (s_now e) q_cache_name q_off q_len hex j with
      | None => None
      | Some (j, ok) =>
          let args := [VStr q_cache_name; VNum q_off; VNum q_len] in
          Some (Handled j (Some (if ok : bool then sprintf (fmt "ok-store-cache %s %lu %lu") args
                                 else sprintf (fmt "fail-store-cache %s %lu %lu") args)))
      end
  | _ =>
  match sscanf content "info-cache %s" with
  | [VStr q_cache_name] =>
      Some (Handled j (Some (sprintf (fmt "info-cache %s %s")
        [VStr q_cache_name; VStr (Judger.get_cache_info q_cache_name j)])))
  | _ => Some Pass
  end end end.

(** The replies to six queries, each followed by a newline. *)
Definition control_reply (query : string) (j : Judger.state) : list Z :=
  match process_controls (str query) (zlen (str query)) j with Handled _ (Some r) => r ++ [10] | _ => [] end.
Definition cache_reply (query : string) (j : Judger.state) : list Z :=
  match process_cache (str query) (zlen (str query)) j with Some (Handled _ (Some r)) => r ++ [10] | _ => [] end.
Definition process_special (content : list Z) (len : Z) (j : Judger.state) : answer :=
  let content := ztake len content in
  if equals_to content len "query-all" then
    Handled j (Some (control_reply "uptime" j ++ control_reply "statistics" j ++
      cache_reply "info-cache elf" j ++ cache_reply "info-cache data" j ++
      control_reply "cpu-temp" j ++ control_reply "cpu-model-name" j))
  else Pass.

(** [a || b]: the next handler is asked when the answer was [false]. *)
Definition or_else (a : option answer) (b : Judger.state -> option answer) (j : Judger.state) : option answer :=
  match a with Some Pass => b j | _ => a end.

Definition process (content : list Z) (len : Z) (j : Judger.state) : option answer :=
  or_else (Some (process_controls content len j)) (λ j,
  or_else (Some (process_data content len j)) (λ j,
  or_else (process_judge content len j) (λ j,
  or_else (process_cache content len j) (λ j, Some (process_special content len j)) j) j) j) j.

End Handlers.

(** ** The hooks of the network stack *)

Section Server.
(** [W] is the network driver, the clocks and everything else outside the server;
    the hooks of the driver and the sensors are given. *)
Context {W : Type}.
Variable sort : (Z -> Z) -> list Z -> list Z.
Variable run_user : Elf.App -> Z -> Memory.state -> Memory.state * Elf.Outcome.
Variable timer : Timer.state.

(** The statics the hooks use; [halted] when a hook did not return: it rebooted the machine,
    failed an assertion or left the buffer. *)
Record server := mk_server {
  device : W; scheduler : Scheduler.state; lapic : Timer.LAPIC.state;
  log : SysLog.state; judger : Judger.state; my_ip : Z; halted : bool }.

Variable read_sensors : server -> sensors.
Variable ns_since_epoch : server -> Z.

Definition with_scheduler (s : server) (c : Scheduler.state) : server :=
  mk_server (device s) c (lapic s) (log s) (judger s) (my_ip s) (halted s).
Definition with_judger (s : server) (j : Judger.state) : server :=
  mk_server (device s) (scheduler s) (lapic s) (log s) j (my_ip s) (halted s).
Definition with_lapic (s : server) (l : Timer.LAPIC.state) : server :=
  mk_server (device s) (scheduler s) l (log s) (judger s) (my_ip s) (halted s).
Definition halt (s : server) : server :=
  mk_server (device s) (scheduler s) (lapic s) (log s) (judger s) (my_ip s) true.

Variable phy_conf : Phy.PhyConfig server.
Abbreviation net := (Phy.net server).

Definition duck_packet_handle (n : net) (src sport : Z) (content : list Z) (content_len : Z) : net * Z :=
  let s := Phy.world n in
  if equals_to (ztake content_len content) content_len "reboot" then (Phy.with_world n (halt s), -1)
  else
    match process sort run_user timer (log s) (read_sensors s) content content_len (judger s) with
    | None => (Phy.with_world n (halt s), -1)
    | Some Pass => (n, -1)
    | Some (Handled j None) => (Phy.with_world n (with_judger s j), -1)
    | Some (Handled j (Some to_send)) =>
        let n := Phy.with_world n (with_judger s j) in
        (fst (Transport.ducknet_udp_send phy_conf n src sport DUCK_UDP_PORT to_send (zlen to_send)), -1)
    end.

(** The hook for UDP: the datagrams for other hosts and ports are dropped. *)
Definition udp_packet_handle (n : net) (src dst : Z) (hdr : Net.UDPHeader) (content : list Z)
    (content_len : Z) : net * Net.UDPHeader * list Z * Z :=
  if halted (Phy.world n) then (n, hdr, content, -1)
  else if u8 src =? 255 then (n, hdr, content, -1)
  else if negb (dst =? my_ip (Phy.world n)) then (n, hdr, content, -1)
  else if Net.dport hdr =? DUCK_UDP_PORT then
    let '(n, r) := duck_packet_handle n src (Net.sport hdr) content content_len in (n, hdr, content, r)
  else (n, hdr, content, -1).

Definition phy_recv_packet_handle (pkt : list Z) (len : Z) (s : server) : server * list Z * Z :=
  (with_scheduler s (Scheduler.set_active (scheduler s)), pkt, 0).
Definition phy_send_packet_handle (pkt : list Z) (len : Z) (s : server) : server * Z :=
  (with_scheduler s (Scheduler.set_active (scheduler s)), 0).

(** The idle hook, which is not reached in a round that stopped the machine; a failed
    assertion of the LAPIC driver stops it too. *)
Definition idle (n : net) : net * Z :=
  if halted (Phy.world n) then (n, 0) else
  let s := Phy.world n in
  let s := with_scheduler s (Scheduler.set_idle (ns_since_epoch s) (scheduler s)) in
  let n := Phy.with_world n s in
  if Scheduler.can_sleep (ns_since_epoch s) (scheduler s) then
    let n := fst (Phy.ducknet_phy_flush phy_conf n) in
    let s := Phy.world n in
    match Scheduler.sleep timer (ns_since_epoch s) (scheduler s) (lapic s) with
    | Some l => (Phy.with_world n (with_lapic s l), 0)
    | None => (Phy.with_world n (halt s), 0)
    end
  else (n, 0).

End Server.

(** ** Lemmas: requests *)

(** The text of a request with decimal arguments. *)
Definition request (f : string) (args : list Z) : list Z := sprintf (fmt f) (VNum <$> args).

Lemma sscanf_request f args :
  readable (fmt f) (length args) = true -> Forall is_u64 args -> sscanf (request f args) f = VNum <$> args.
Proof.
  intros Hr Ha. destruct (scan_sprintf (fmt f) args Hr Ha) as [E F]. unfold sscanf, request.
  by rewrite c_string_id.
Qed.

Lemma equals_to_self c s : equals_to c (zlen c) s = list_eqb c (str s).
Proof.
  unfold equals_to. rewrite ztake_all by lia. destruct (list_eqb c (str s)) eqn:E; [|apply andb_false_r].
  apply list_eqb_eq in E as ->. by rewrite Z.eqb_refl.
Qed.

Lemma Forall_u64_2 a b : is_u64 a -> is_u64 b -> Forall is_u64 [a; b].
Proof. intros. repeat (apply List.Forall_cons; [done|]). apply List.Forall_nil. Qed.
Lemma Forall_u64_3 a b c : is_u64 a -> is_u64 b -> is_u64 c -> Forall is_u64 [a; b; c].
Proof. intros. repeat (apply List.Forall_cons; [done|]). apply List.Forall_nil. Qed.

(** C29: The server understands what a client prints.  A request for a buffer operation
    with its numbers in decimal, of any 64-bit value, reaches exactly that
    operation with exactly those numbers; a successful operation is answered with
    the same numbers, a refused one not at all, and reading returns the bytes. *)
Theorem requests_are_understood a b c j :
  is_u64 a -> is_u64 b -> is_u64 c ->
  let serve content := process_data content (zlen content) j in
  let answer (r : Judger.state * bool) text := Handled (fst r) (if snd r then Some text else None) in
  serve (request "clear-buffer %lu %lu" [a; b]) =
    answer (Judger.clear_buffer a b j) (request "ok-clear-buffer %lu %lu" [a; b]) /\
  serve (request "copy-buffer %lu %lu %lu" [a; b; c]) =
    answer (Judger.copy_buffer a b c j) (request "ok-copy-buffer %lu %lu %lu" [a; b; c]) /\
  serve (request "read-buffer %lu %lu" [a; b]) =
    Handled j (if b <=? 1400 then
      match Judger.read_buffer a b j with Some bs => Some (str "ok-read-buffer" ++ le_bytes 8 a ++ bs) | None => None end
      else None) /\
  serve (request "compare-buffer %lu %lu %lu" [a; b; c]) =
    Handled j (match Judger.compare_buffer a b c j with
      | Some r => Some (request "ok-compare-buffer %lu %lu %lu %lu" [a; b; c; if r then 1 else 0]) | None => None end).
Proof.
  intros Ha Hb Hc. cbn zeta.
  assert (Hreq : forall f args, request f args = sprintf (fmt f) (VNum <$> args)) by done.
  assert (Hz : forall (l : list Z), negb (list_eqb (ztake 12 l) (str "write-buffer")) = true ->
    starts_with l (zlen l) "write-buffer" = false).
  { intros l H. unfold starts_with. change (zlen (str "write-buffer")) with 12.
    apply negb_true_iff in H. rewrite H. apply andb_false_r. }
  conj_split; unfold process_data; rewrite ztake_all by lia; rewrite equals_to_self.
  - set (r := request _ _). replace (list_eqb r _) with false by reflexivity.
    unfold r. rewrite sscanf_request by (reflexivity || by apply Forall_u64_2). cbn [fmap list_fmap].
    rewrite ?Hreq. cbn [fmap list_fmap]. by destruct (Judger.clear_buffer a b j) as [? []].
  - set (r := request _ _). replace (list_eqb r _) with false by reflexivity.
    replace (sscanf r "clear-buffer %lu %lu") with (@nil value) by reflexivity.
    replace (sscanf r "read-buffer %lu %lu") with (@nil value) by reflexivity. rewrite Hz by reflexivity.
    unfold r. rewrite sscanf_request by (reflexivity || by apply Forall_u64_3). cbn [fmap list_fmap].
    rewrite ?Hreq. cbn [fmap list_fmap]. by destruct (Judger.copy_buffer a b c j) as [? []].
  - set (r := request _ _). replace (list_eqb r _) with false by reflexivity.
    replace (sscanf r "clear-buffer %lu %lu") with (@nil value) by reflexivity.
    unfold r. rewrite sscanf_request by (reflexivity || by apply Forall_u64_2). cbn [fmap list_fmap].
    unfold MAX_QUERY_LEN. destruct (Z.ltb_spec 1400 b), (Z.leb_spec b 1400); try lia; [done|].
    by destruct (Judger.read_buffer a b j).
  - set (r := request _ _). replace (list_eqb r _) with false by reflexivity.
    replace (sscanf r "clear-buffer %lu %lu") with (@nil value) by reflexivity.
    replace (sscanf r "read-buffer %lu %lu") with (@nil value) by reflexivity. rewrite Hz by reflexivity.
    replace (sscanf r "copy-buffer %lu %lu %lu") with (@nil value) by reflexivity.
    unfold r. rewrite sscanf_request by (reflexivity || by apply Forall_u64_3). cbn [fmap list_fmap].
    destruct (Judger.compare_buffer a b c j); [|done]. by rewrite Hreq.
Qed.

(** ** Lemmas: the size of replies *)

Lemma digits_length fuel z acc k :
  0 <= z < 10 ^ k -> 1 <= k -> zlen (digits fuel 10 z acc) <= zlen acc + k.
Proof.
  revert z acc k. induction fuel as [|fuel IH]; intros z acc k Hz Hk; cbn [digits]; [lia|].
  assert (Hl : zlen (digit_char (z mod 10) :: acc) = zlen acc + 1) by (unfold zlen; cbn [length]; lia).
  destruct (Z.eqb_spec (z / 10) 0); [lia|].
  assert (Hk2 : 2 <= k). { destruct (Z.eq_dec k 1) as [->|]; [|lia]. cbn in Hz. Z.to_euclidean_division_equations; lia. }
  assert (Hp : 10 ^ k = 10 * 10 ^ (k - 1)) by (rewrite <- Z.pow_succ_r by lia; f_equal; lia).
  specialize (IH (z / 10) (digit_char (z mod 10) :: acc) (k - 1)).
  rewrite Hl in IH. enough (0 <= z / 10 < 10 ^ (k - 1)) by (specialize (IH ltac:(done) ltac:(lia)); lia).
  Z.to_euclidean_division_equations; lia.
Qed.
Lemma print_lu_length z : is_u64 z -> zlen (print_lu z) <= 20.
Proof.
  intros Hz. pose proof (digits_length 64 z [] 20) as H. unfold print_lu. change (zlen []) with 0 in H.
  apply H; [|lia]. split; [apply Hz|]. eapply Z.lt_le_trans; [apply Hz|]. by vm_compute.
Qed.

Lemma scan_digits_nonneg l acc : 0 <= acc -> 0 <= fst (scan_digits l acc).
Proof.
  revert acc. induction l as [|c l IH]; intros acc Ha; cbn [scan_digits fst]; [done|].
  unfold is_digit. destruct (Z.leb_spec 48 c), (Z.leb_spec c 57); cbn [andb fst]; try done. apply IH. lia.
Qed.
Lemma scan_lu_range l v k : scan_lu l = Some (v, k) -> is_u64 v.
Proof.
  unfold scan_lu, scan_number.
  set (p := match skip_space l with [] => _ | _ => _ end). destruct p as [neg l'].
  destruct l' as [|c l']; [done|]. destruct (is_digit c); [|done].
  pose proof (scan_digits_nonneg (c :: l') 0 ltac:(lia)) as H.
  destruct (scan_digits (c :: l') 0) as [v' k']. cbn [fst] in H. intros [= <- _].
  destruct (Z.leb_spec (2 ^ 64) v'); [unfold is_u64; lia|].
  destruct neg; [apply u64_range|]. unfold is_u64. lia.
Qed.

(** The values read by a format of [%lu] only are 64-bit integers. *)
Definition only_lu (f : list directive) : bool :=
  forallb (λ d, match d with Lit _ | Space _ | Lu => true | _ => false end) f.
Definition u64_value (v : value) : Prop := match v with VNum z => is_u64 z | VStr _ => False end.
Lemma scan_u64 f l : only_lu f = true -> Forall u64_value (scan f l).
Proof.
  revert l. induction f as [|d f IH]; intros l; cbn [only_lu forallb scan]; [intros _; apply List.Forall_nil|].
  intros [Hd Hf]%andb_true_iff. destruct d as [c|c| | | | | | |]; try done.
  - destruct l as [|x l]; [apply List.Forall_nil|]. destruct (x =? c); [by apply IH|apply List.Forall_nil].
  - by apply IH.
  - destruct (scan_lu l) as [[v k]|] eqn:E; [|apply List.Forall_nil].
    apply List.Forall_cons; [by apply scan_lu_range in E|by apply IH].
Qed.

(** The longest text a format of [%lu] prints. *)
Fixpoint fmt_bound (f : list directive) : Z :=
  match f with [] => 0 | Lu :: f => 20 + fmt_bound f | _ :: f => 1 + fmt_bound f end.
Lemma sprintf_length f args :
  only_lu f = true -> Forall u64_value args -> zlen (sprintf f args) <= fmt_bound f.
Proof.
  assert (Hc : forall (c : Z) l, zlen (c :: l) = 1 + zlen l) by (intros; unfold zlen; cbn [length]; lia).
  revert args. induction f as [|d f IH]; intros args; cbn [only_lu forallb fmt_bound sprintf]; [done|].
  intros [Hd Hf]%andb_true_iff Ha. destruct d as [c|c| | | | | | |]; try done.
  - rewrite Hc. specialize (IH args Hf Ha). lia.
  - rewrite Hc. specialize (IH args Hf Ha). lia.
  - assert (0 <= fmt_bound f) by (clear; induction f as [|[] f IH]; cbn [fmt_bound]; lia).
    destruct args as [|[z|] args]; [unfold zlen; cbn; lia| |by apply Forall_cons_iff in Ha as [[] _]].
    apply Forall_cons_iff in Ha as [Hz Ha]. rewrite zlen_app. specialize (IH args Hf Ha).
    pose proof (print_lu_length z Hz). lia.
Qed.

Lemma sscanf_u64 c f : only_lu (fmt f) = true -> Forall u64_value (sscanf c f).
Proof. apply scan_u64. Qed.

Lemma text_fits f args :
  only_lu (fmt f) = true -> (fmt_bound (fmt f) <=? 1422) = true -> Forall u64_value args ->
  zlen (sprintf (fmt f) args) <= 1422.
Proof. intros H1 H2%Z.leb_le H3. etransitivity; [by apply sprintf_length|done]. Qed.

(** A handler asked with two or three numbers, or passed. *)
Lemma match_two {B} (P : B -> Prop) l (x : Z -> Z -> B) (y : B) :
  Forall u64_value l -> (forall a b, is_u64 a -> is_u64 b -> P (x a b)) -> P y ->
  P match l with [VNum a; VNum b] => x a b | _ => y end.
Proof.
  intros Hl Hx Hy. destruct l as [|[a|] [|[b|] [|]]]; try done.
  apply Forall_cons_iff in Hl as [Ha Hl]. apply Forall_cons_iff in Hl as [Hb _]. by apply Hx.
Qed.
Lemma match_three {B} (P : B -> Prop) l (x : Z -> Z -> Z -> B) (y : B) :
  Forall u64_value l -> (forall a b c, is_u64 a -> is_u64 b -> is_u64 c -> P (x a b c)) -> P y ->
  P match l with [VNum a; VNum b; VNum c] => x a b c | _ => y end.
Proof.
  intros Hl Hx Hy. destruct l as [|[a|] [|[b|] [|[c|] [|]]]]; try done.
  apply Forall_cons_iff in Hl as [Ha Hl]. apply Forall_cons_iff in Hl as [Hb Hl].
  apply Forall_cons_iff in Hl as [Hc _]. by apply Hx.
Qed.

Definition fits (a : answer) : Prop := match a with Handled _ (Some r) => zlen r <= 1422 | _ => True end.
Ltac text_fits := apply text_fits; [reflexivity|reflexivity|repeat (apply List.Forall_cons; [done|]); apply List.Forall_nil].

Lemma process_data_fits content len j :
  bytes content -> is_u64 (Judger.buffer_size j) -> fits (process_data content len j).
Proof.
  intros Hb Hs. unfold process_data. set (c := ztake len content).
  assert (Hbc : bytes c) by by apply bytes_ztake.
  destruct (equals_to c len "query-buffer-size"); [cbn [fits]; text_fits|].
  apply (match_two fits); [by apply sscanf_u64| |].
  { intros a b Ha Hb2. destruct (Judger.clear_buffer a b j) as [j' []]; [|done]. cbn [fits]. text_fits. }
  apply (match_two fits); [by apply sscanf_u64| |].
  { intros a b Ha Hb2. unfold MAX_QUERY_LEN. destruct (Z.ltb_spec 1400 b); [done|].
    destruct (Judger.read_buffer a b j) as [bs|] eqn:E; [|done]. unfold Judger.read_buffer in E.
    destruct (Judger.in_buffer j a b); [|done]. injection E as <-. cbn [fits].
    rewrite !zlen_app, zlen_le_bytes. change (zlen (sprintf (fmt "ok-read-buffer") [])) with 14.
    unfold zlen, read_bytes. rewrite length_fmap, length_seqZ. lia. }
  destruct (starts_with c len "write-buffer").
  { cbn zeta. destruct (_ <? 8) eqn:El; [done|]. set (d := get64 _ _). set (n := u64 _ - 8).
    assert (Hd : is_u64 d) by (apply get64_range; by apply bytes_zdrop).
    assert (Hn : is_u64 n).
    { apply Z.ltb_ge in El. subst n. pose proof (u64_range (len - zlen (str "write-buffer"))). unfold is_u64 in *. lia. }
    destruct (Judger.write_buffer _ _ _ j) as [j' []]; [|done]. cbn [fits]. text_fits. }
  apply (match_three fits); [by apply sscanf_u64| |].
  { intros a b k Ha Hb2 Hk. destruct (Judger.copy_buffer a b k j) as [j' []]; [|done]. cbn [fits]. text_fits. }
  apply (match_three fits); [by apply sscanf_u64| |done].
  intros a b k Ha Hb2 Hk. destruct (Judger.compare_buffer a b k j) as [r|]; [|done]. cbn [fits].
  assert (Hr : is_u64 (if r then 1 else 0)) by (unfold is_u64; destruct r; lia). text_fits.
Qed.

(** Every reply about the buffer fits in one datagram: whatever the request, it has at
    most 1422 bytes, under the 1472 that a frame can carry. *)
Theorem data_replies_fit content len j j' r :
  bytes content -> is_u64 (Judger.buffer_size j) ->
  process_data content len j = Handled j' (Some r) -> zlen r <= 1422.
Proof. intros Hb Hs E. pose proof (process_data_fits content len j Hb Hs) as H. by rewrite E in H. Qed.

(** The server answers nobody else.  A datagram for another host or another port, or
    from an address that ends in 255, changes nothing and is not answered; so does
    every datagram after the machine has stopped. *)
Theorem others_are_ignored {W} sort run_user timer read_sensors (conf : Phy.PhyConfig (server (W := W)))
    n src dst hdr content len :
  halted (Phy.world n) = true \/ src mod 256 = 255 \/ dst <> my_ip (Phy.world n) \/ Net.dport hdr <> DUCK_UDP_PORT ->
  udp_packet_handle sort run_user timer read_sensors conf n src dst hdr content len = (n, hdr, content, -1).
Proof.
  intros H. unfold udp_packet_handle, u8. destruct (halted (Phy.world n)); [done|].
  destruct (Z.eqb_spec (src mod 256) 255) as [|E1]; [done|].
  destruct (Z.eqb_spec dst (my_ip (Phy.world n))) as [E2|]; cbn [negb]; [|done].
  destruct (Z.eqb_spec (Net.dport hdr) DUCK_UDP_PORT) as [E3|]; [|done].
  destruct H as [?|[?|[?|?]]]; done.
Qed.

(** ** Witnesses *)

Lemma requests_are_understood_witness :
  process_data (request "copy-buffer %lu %lu %lu" [900; 0; 50])
    (zlen (request "copy-buffer %lu %lu %lu" [900; 0; 50])) JudgerSpec.demo_judger =
  Handled (fst (Judger.copy_buffer 900 0 50 JudgerSpec.demo_judger))
    (if snd (Judger.copy_buffer 900 0 50 JudgerSpec.demo_judger) then
       Some (request "ok-copy-buffer %lu %lu %lu" [900; 0; 50]) else None).
Proof.
  assert (H1 : is_u64 900) by (unfold is_u64; lia). assert (H2 : is_u64 0) by (unfold is_u64; lia).
  assert (H3 : is_u64 50) by (unfold is_u64; lia).
  exact (proj1 (proj2 (requests_are_understood 900 0 50 JudgerSpec.demo_judger H1 H2 H3))).
Defined.

Lemma data_replies_fit_witness :
  exists j r, process_data (str "read-buffer 0 100") 17 JudgerSpec.demo_judger = Handled j (Some r) /\
    zlen r <= 1422.
Proof.
  eexists _, _. split; [reflexivity|].
  apply (data_replies_fit (str "read-buffer 0 100") 17 JudgerSpec.demo_judger JudgerSpec.demo_judger);
    [by apply bytesb_bytes|unfold is_u64; cbn; lia|reflexivity].
Defined.

Definition demo_server : server (W := unit) :=
  mk_server tt (Scheduler.mk_state Scheduler.ACTIVE 0) (Timer.LAPIC.mk_state [] 0) SysLog.boot
    JudgerSpec.demo_judger 0x0a00027b false.
Definition demo_server_net : Phy.net (server (W := unit)) :=
  let n := Phy.demo_net [] in
  Phy.mk_net demo_server (Phy.currenttime n) (Phy.tsc_freq n) (Phy.sendbuf n) (Phy.mac n) (Phy.MTU n)
    (Phy.ip n) (Phy.phy n) (Phy.arp n) (Phy.ipv4 n) (Phy.udp_buf n) (Phy.recv_buf n).
Definition demo_sensors : server (W := unit) -> sensors :=
  λ _, mk_sensors 0 0 0 0 0 0 [] (λ _ _ _, []).
Lemma others_are_ignored_witness :
  udp_packet_handle CacheStore.demo_sort JudgerSpec.demo_run JudgerSpec.demo_timer demo_sensors
    (Phy.mk_phy_config None None None None None) demo_server_net 0x0a000202 0x0a00027b
    (Net.mk_udp 4000 53 8 0) [] 0 = (demo_server_net, Net.mk_udp 4000 53 8 0, [], -1).
Proof.
  apply (others_are_ignored CacheStore.demo_sort JudgerSpec.demo_run JudgerSpec.demo_timer demo_sensors
    (Phy.mk_phy_config None None None None None) demo_server_net 0x0a000202 0x0a00027b (Net.mk_udp 4000 53 8 0) [] 0).
  right. right. right. vm_compute. discriminate.
Defined.

End DuckServer.
