(* ===== verification/Service.v ===== *)
(** * Service: the command server on the network ([kern/duck_server.cpp])

    [DuckServer::init] and [run]: the addresses of the command line, the
    configuration of the network stack with the functions of the network driver
    and the hooks of the server, and the main loop, which ends when a round returns a
    failure or stops the machine.  The driver is given by its
    three functions; [NetworkDriver.network_is_a_queue] says what they do. *)
From Stdlib Require Import String.
From S2P Require Import Prelude Utils LibC SysLog Timer Scheduler DucknetUtils Net Phy Arp Ipv4.
From S2P Require Import Transport Ducknet NetInvariant.
From S2P Require Import Memory Elf DuckCache CacheStore Judger JudgerSpec.
From S2P Require Import DuckServer.
From S2P Require Import NetworkDriver.
From stdpp Require Import list.

Module Service.
Local Open Scope Z_scope.
Import Utils LibC DuckServer.

(** ** [init] *)

Definition IA32_MISC_ENABLE : Z := 416.
Definition TURBO_MODE_DISABLE : Z := Z.shiftl 1 38.
Definition IA32_PERF_CTL : Z := 409.
Definition freq : Z := 46.

Section Service.
Context {W : Type}.
Abbreviation server := (DuckServer.server (W := W)).
Abbreviation net := (Phy.net server).
Variable sort : (Z -> Z) -> list Z -> list Z.
Variable run_user : Elf.App -> Z -> Memory.state -> Memory.state * Elf.Outcome.
Variable timer : Timer.state.
Variable read_sensors : server -> sensors.
Variable ns_since_epoch : server -> Z.
(** What the processor does when a model-specific register is written. *)
Variable wrmsr : Z -> Z -> (Z -> Z) -> (Z -> Z).
(** [NetworkDriver::send], [receive] and [flush], and the time-stamp counter. *)
Variable nic_send : list Z -> W -> W * Z.
Variable nic_receive : W -> W * list Z * Z.
Variable nic_flush : W -> W * Z.
Variable rdtsc : W -> W * Z.

Definition enable_turbo_boost (msr : Z -> Z) : Z -> Z :=
  let misc := msr IA32_MISC_ENABLE in
  let msr := wrmsr IA32_MISC_ENABLE (Z.land misc (u64 (Z.lnot TURBO_MODE_DISABLE))) msr in
  wrmsr IA32_PERF_CTL (Z.shiftl freq 8) msr.

Definition with_device (s : server) (w : W) : server :=
  mk_server w (scheduler s) (lapic s) (log s) (judger s) (my_ip s) (halted s).
Definition with_my_ip (s : server) (ip : Z) : server :=
  mk_server (device s) (scheduler s) (lapic s) (log s) (judger s) ip (halted s).
Definition on_device (f : W -> W * Z) (s : server) : server * Z :=
  let '(w, r) := f (device s) in (with_device s w, r).
Definition receive (s : server) : server * list Z * Z :=
  let '(w, pkt, len) := nic_receive (device s) in (with_device s w, pkt, len).
Definition gettime : server -> server * Z := on_device rdtsc.

Definition phy_conf : Phy.PhyConfig server :=
  Phy.mk_phy_config (Some (λ a, on_device (nic_send a))) (Some receive) (Some (on_device nic_flush))
    (Some phy_recv_packet_handle) (Some phy_send_packet_handle).

Definition address_of (ip : list Z) : Z := le_val [zget 0 ip 3; zget 0 ip 2; zget 0 ip 1; zget 0 ip 0].
Definition mac_of (mac : list Z) : list Z := map (zget 0 mac) (seqZ 0 6).

Definition conf (ip mac : list Z) : Ducknet.DucknetConfig server :=
  Ducknet.mk_config (Timer.tsc_freq timer) phy_conf (mac_of mac) None None (address_of ip) None None
    (Some (udp_packet_handle sort run_user timer read_sensors phy_conf))
    (Some (idle timer ns_since_epoch phy_conf)).

(** A failed [ducknet_init] is only logged. *)
Definition init (ip mac : list Z) (msr : Z -> Z) (n : net) : (Z -> Z) * net :=
  (enable_turbo_boost msr,
   fst (Ducknet.ducknet_init (conf ip mac) gettime
     (Phy.with_world n (with_my_ip (Phy.world n) (address_of ip))))).

(** How the main loop can end: a hook did not return (the machine restarts or stands
    still), or [ducknet_mainloop] returned. *)
Inductive ending := Stopped (n : net) | Returned (n : net) (r : Z).

(** [ducknet_mainloop], one round after the other, on a machine that runs as long as no hook
    stops it; [None] when it still runs after [fuel] rounds. *)
Fixpoint run (ip mac : list Z) (fuel : nat) (n : net) : option ending :=
  if halted (Phy.world n) then Some (Stopped n)
  else match fuel with
  | O => None
  | S fuel =>
      let '(n, r) := Ducknet.ducknet_step (conf ip mac) gettime n in
      if negb (halted (Phy.world n)) && (r <? 0) then Some (Returned n r) else run ip mac fuel n
  end.

(** The server after [k] rounds of its main loop, when the machine runs that long. *)
Fixpoint rounds (ip mac : list Z) (k : nat) (n : net) : option net :=
  if halted (Phy.world n) then None
  else match k with O => Some n | S k => rounds ip mac k (fst (Ducknet.ducknet_step (conf ip mac) gettime n)) end.

(** ** Lemmas: the server keeps its addresses *)

(** Who the server is for others, and whom it takes itself for; and whether the machine
    still runs. *)
Definition identity (n : net) : list Z * Z * Z := (Phy.mac n, Phy.ip n, my_ip (Phy.world n)).
Definition whole (n : net) : list Z * Z * Z * bool := (identity n, halted (Phy.world n)).
Lemma whole_identity n n' : whole n' = whole n -> identity n' = identity n.
Proof. apply (f_equal fst). Qed.

Abbreviation keeps f := (forall n : net, whole (fst (f n)) = whole n).

Lemma keep_phy_send n a : whole (fst (Phy.ducknet_phy_send phy_conf n a)) = whole n.
Proof.
  unfold Phy.ducknet_phy_send, phy_conf, phy_send_packet_handle, on_device. cbn.
  by destruct (nic_send a _).
Qed.
Lemma keep_phy_flush : keeps (Phy.ducknet_phy_flush phy_conf).
Proof.
  intros n. unfold Phy.ducknet_phy_flush, phy_conf, on_device. cbn. destruct (Phy.flushed _); [done|].
  destruct (nic_flush _) as [w r]. cbn. by destruct (r =? 0).
Qed.
Lemma keep_arp_send n d op p len : whole (fst (Arp.ducknet_arp_send phy_conf n d op p len)) = whole n.
Proof. unfold Arp.ducknet_arp_send. repeat (destruct (_ <? _); [done|]). by rewrite keep_phy_send. Qed.
Lemma keep_arp_query n ip : whole (fst (Arp.ducknet_arp_query phy_conf n ip)) = whole n.
Proof.
  unfold Arp.ducknet_arp_query. destruct (_ || _); [|done]. destruct (_ =? _); [done|]. by rewrite keep_arp_send.
Qed.
Lemma keep_arp_update n ip m : whole (fst (Arp.ducknet_arp_update n ip m)) = whole n.
Proof. unfold Arp.ducknet_arp_update. destruct (_ || _); [destruct (_ =? _)|]; done. Qed.
Lemma keep_ipv4_send n d p b len : whole (fst (Ipv4.ducknet_ipv4_send phy_conf n d p b len)) = whole n.
Proof.
  unfold Ipv4.ducknet_ipv4_send. destruct (Arp.ducknet_arp_lookup n d).
  - destruct (Ipv4.ipv4_build_packet _ _ _ _ _ _); [|done]. by rewrite keep_phy_send.
  - pose proof (keep_arp_query n d) as Hq. destruct (Arp.ducknet_arp_query _ n d) as [n1 r]. cbn [fst] in Hq.
    destruct (_ =? _); [done|]. by destruct (Ipv4.ipv4_build_packet _ _ _ _ _ _).
Qed.
Lemma keep_udp_send n d dp sp b len : whole (fst (Transport.ducknet_udp_send phy_conf n d dp sp b len)) = whole n.
Proof. unfold Transport.ducknet_udp_send. repeat (destruct (_ <? _); [done|]). by rewrite keep_ipv4_send. Qed.

(** The hooks of the server. *)
Lemma keep_duck_packet n src sp c len :
  identity (fst (duck_packet_handle sort run_user timer read_sensors phy_conf n src sp c len)) = identity n.
Proof.
  unfold duck_packet_handle. cbn zeta. destruct (equals_to _ _ _); [done|].
  destruct (process _ _ _ _ _ _ _ _) as [[|j [r|]]|]; try done. cbn [fst]. apply whole_identity. by rewrite keep_udp_send.
Qed.
Lemma keep_udp_packet n src dst h c len :
  identity (fst (fst (fst (udp_packet_handle sort run_user timer read_sensors phy_conf n src dst h c len)))) = identity n.
Proof.
  unfold udp_packet_handle. destruct (halted _); [done|]. destruct (_ =? 255); [done|].
  destruct (negb _); [done|]. destruct (_ =? DUCK_UDP_PORT); [|done].
  pose proof (keep_duck_packet n src (Net.sport h) c len) as Hk. by destruct (duck_packet_handle _ _ _ _ _ _ _ _ _ _).
Qed.
Lemma keep_idle n : identity (fst (idle timer ns_since_epoch phy_conf n)) = identity n.
Proof.
  unfold idle. destruct (halted _); [done|]. cbn zeta. destruct (Scheduler.can_sleep _ _); [|done].
  set (n1 := Phy.with_world _ _). pose proof (whole_identity _ _ (keep_phy_flush n1)) as Hf. revert Hf.
  generalize (fst (Phy.ducknet_phy_flush phy_conf n1)). intros n2 Hf.
  by destruct (Scheduler.sleep _ _ _ _).
Qed.

Section Configured.
Variables (ip mac : list Z).
Abbreviation cf := (conf ip mac).

(** The layers, without hooks but the server's. *)
Lemma fst_result (p : net * Z) (r : Z) : fst (let (n, _) := p in (n, r)) = fst p.
Proof. by destruct p. Qed.
Lemma keep_arp_packet n b len : whole (fst (Arp.ducknet_arp_packet_handle phy_conf None n b len)) = whole n.
Proof.
  unfold Arp.ducknet_arp_packet_handle. cbn zeta. change (0 <? 0) with false. cbn iota.
  repeat (match goal with |- context [if ?b then _ else _] => destruct b end; try done); rewrite fst_result; [apply keep_arp_send|apply keep_arp_update].
Qed.
Lemma keep_icmp_packet n src dst b len :
  whole (fst (Transport.ducknet_icmp_packet_handle phy_conf None n src dst b len)) = whole n.
Proof.
  unfold Transport.ducknet_icmp_packet_handle. cbn zeta. change (0 <? 0) with false. cbn iota.
  repeat (match goal with |- context [if ?b then _ else _] => destruct b end; try done); rewrite fst_result; apply keep_ipv4_send.
Qed.
Lemma keep_ipv4_packet n b len : identity (fst (Ducknet.ducknet_ipv4_packet_handle cf n b len)) = identity n.
Proof.
  unfold Ducknet.ducknet_ipv4_packet_handle. cbn zeta. change (Ducknet.ipv4_hook cf) with (@None (Arp.hook (W := server) Net.IPv4Header)).
  change (0 <? 0) with false. cbn iota. repeat first [destruct (_ <? _); [done|] | destruct (negb _); [done|]].
  destruct (_ =? _); [apply whole_identity, keep_icmp_packet|]. destruct (_ =? _); [|done].
  unfold Transport.ducknet_udp_packet_handle. destruct (_ <? _); [done|]. cbn zeta.
  unfold conf. cbn [Ducknet.udp_hook].
  match goal with |- context [udp_packet_handle ?a ?b ?c ?d ?e ?n ?f ?g ?h ?i ?j] => pose proof (keep_udp_packet n f g h i j) as Hk;
    destruct (udp_packet_handle a b c d e n f g h i j) as [[[n1 h1] c1] r1] end.
  by destruct (r1 <? 0).
Qed.
Lemma keep_ether_packet n b len : identity (fst (Ducknet.ducknet_ether_packet_handle cf n b len)) = identity n.
Proof.
  unfold Ducknet.ducknet_ether_packet_handle. cbn zeta. change (Ducknet.ether_hook cf) with (@None (Arp.hook (W := server) Net.EtherHeader)).
  change (0 <? 0) with false. cbn iota. destruct (_ <? _); [done|]. destruct (_ && _); [done|].
  destruct (_ =? _); [apply whole_identity, keep_arp_packet|]. destruct (_ =? _); [by apply keep_ipv4_packet|done].
Qed.
Lemma keep_packet n b len : identity (fst (Ducknet.ducknet_packet_handle cf n b len)) = identity n.
Proof. apply (keep_ether_packet (Phy.with_world n (with_scheduler (Phy.world n) (Scheduler.set_active (scheduler (Phy.world n)))))). Qed.

Lemma keep_phy_idle : keeps (Phy.ducknet_phy_idle phy_conf).
Proof.
  intros n. unfold Phy.ducknet_phy_idle. cbn zeta. destruct (_ || _); [|done].
  set (n1 := Phy.with_phy n _). pose proof (keep_phy_flush n1) as Hf.
  by destruct (Phy.ducknet_phy_flush phy_conf n1).
Qed.
Lemma keep_arp_idle : keeps Arp.ducknet_arp_idle.
Proof. intros n. unfold Arp.ducknet_arp_idle. by destruct (_ && _). Qed.
Lemma keep_idle_slot n i : whole (Ipv4.idle_slot phy_conf n i) = whole n.
Proof.
  unfold Ipv4.idle_slot. cbn zeta. destruct (Ipv4.is_free _ _); [done|]. destruct (_ <? _); [done|].
  destruct (Arp.ducknet_arp_lookup _ _); [by rewrite keep_phy_send|apply keep_arp_query].
Qed.
Lemma keep_ipv4_idle : keeps (Ipv4.ducknet_ipv4_idle phy_conf).
Proof.
  intros n. unfold Ipv4.ducknet_ipv4_idle. cbn zeta. destruct (_ && _); [done|]. cbn [fst].
  match goal with |- context [fold_left _ ?l ?n1] => change (whole n) with (whole n1); generalize l n1 end.
  intros l. induction l as [|i l IH]; intros n1; [done|]. cbn [fold_left]. by rewrite IH, keep_idle_slot.
Qed.
Lemma keep_gettime : keeps (Ducknet.ducknet_utils_idle gettime).
Proof. intros n. unfold Ducknet.ducknet_utils_idle, gettime, on_device. by destruct (rdtsc _). Qed.

Lemma keep_chain fs : Forall (λ f, keeps f) fs -> keeps (Ducknet.chain fs).
Proof.
  induction 1 as [|f fs Hf _ IH]; intros n; [done|]. cbn [Ducknet.chain]. specialize (Hf n).
  destruct (f n) as [n1 r]. cbn [fst] in Hf. destruct (r <? 0); [done|]. by rewrite IH.
Qed.
Lemma keep_ducknet_idle : keeps (Ducknet.ducknet_idle cf gettime).
Proof.
  apply keep_chain. repeat (apply List.Forall_cons); try done; [apply keep_gettime|apply keep_phy_idle|
    apply keep_arp_idle|apply keep_ipv4_idle].
Qed.
(** A round up to the frame the driver hands out. *)
Definition received (n : net) : net * list Z * Z :=
  let '(n, pkt, len) := Phy.ducknet_phy_recv phy_conf (fst (Ducknet.ducknet_idle cf gettime n)) in
  (Phy.with_recv_buf n (write_at 0 pkt (Phy.recv_buf n)), pkt, len).
Lemma before_hook_received n : Ducknet.before_hook cf gettime n =
  let '(n, pkt, len) := received n in if 0 <=? len then fst (Ducknet.ducknet_packet_handle cf n pkt len) else n.
Proof. unfold Ducknet.before_hook, received. by destruct (Phy.ducknet_phy_recv _ _) as [[n1 pkt] len]. Qed.
Lemma keep_received n : whole (fst (fst (received n))) = whole n.
Proof.
  rewrite <- (keep_ducknet_idle n). unfold received. generalize (fst (Ducknet.ducknet_idle cf gettime n)). intros n1.
  unfold Phy.ducknet_phy_recv. change (Phy.recv phy_conf) with (Some receive). cbv iota beta. unfold receive.
  by destruct (nic_receive _) as [[w pkt] len].
Qed.
Lemma keep_before_hook n : identity (Ducknet.before_hook cf gettime n) = identity n.
Proof.
  rewrite before_hook_received, <- (whole_identity _ _ (keep_received n)). destruct (received n) as [[n1 pkt] len]. cbn [fst].
  destruct (0 <=? len); [by rewrite keep_packet|done].
Qed.
Lemma idle_never_fails n : snd (idle timer ns_since_epoch phy_conf n) = 0.
Proof. unfold idle. cbn zeta. by repeat case_match. Qed.
(** A round is the part before the idle hook, and the hook. *)
Lemma step_idle n : Ducknet.ducknet_step cf gettime n =
  (fst (idle timer ns_since_epoch phy_conf (Ducknet.before_hook cf gettime n)), 0).
Proof.
  rewrite Ducknet.step_cases. generalize (Ducknet.before_hook cf gettime n). intros n1.
  change (Ducknet.idle_hook cf) with (Some (idle timer ns_since_epoch phy_conf)). cbn iota.
  pose proof (idle_never_fails n1) as Hi.
  destruct (idle timer ns_since_epoch phy_conf n1) as [n2 r]. cbn [snd] in Hi. by subst r.
Qed.
Lemma keep_step n : identity (fst (Ducknet.ducknet_step cf gettime n)) = identity n.
Proof. rewrite step_idle. cbn [fst]. by rewrite keep_idle, keep_before_hook. Qed.

Lemma keep_rounds k : forall n n', rounds ip mac k n = Some n' -> identity n' = identity n.
Proof.
  induction k as [|k IH]; intros n n'; cbn [rounds]; (destruct (halted _); [done|]); [by intros [= <-]|].
  intros H%IH. by rewrite H, keep_step.
Qed.
Lemma rounds_running k : forall n n', rounds ip mac k n = Some n' -> halted (Phy.world n') = false.
Proof.
  induction k as [|k IH]; intros n n'; cbn [rounds]; destruct (halted (Phy.world n)) eqn:Hh; try done; [by intros [= <-]|apply IH].
Qed.

Lemma rounds_one n : halted (Phy.world n) = false -> halted (Phy.world (fst (Ducknet.ducknet_step cf gettime n))) = false ->
  rounds ip mac 1 n = Some (fst (Ducknet.ducknet_step cf gettime n)).
Proof. intros H1 H2. cbn [rounds]. by rewrite H1, H2. Qed.

(** The loop runs as long as the machine: when it still runs after [fuel] rounds, these are
    [rounds]; when it ended, a round stopped the machine. *)
Lemma service_run_spec fuel : forall n, match run ip mac fuel n with
  | None => exists n', rounds ip mac fuel n = Some n'
  | Some (Stopped n') => halted (Phy.world n') = true /\ rounds ip mac fuel n = None
  | Some (Returned _ _) => False
  end.
Proof.
  induction fuel as [|fuel IH]; intros n; cbn [run rounds]; destruct (halted (Phy.world n)) eqn:Hh; try done; [by exists n|].
  rewrite step_idle. cbn [fst]. change (0 <? 0) with false. rewrite andb_false_r. apply IH.
Qed.

(** It is the loop of the network stack: with no stop, they end alike. *)
Lemma run_mainloop fuel : forall n, match run ip mac fuel n with
  | None => Ducknet.ducknet_mainloop cf gettime fuel n = None
  | Some (Returned n' r) => Ducknet.ducknet_mainloop cf gettime fuel n = Some (n', r)
  | Some (Stopped _) => True
  end.
Proof.
  induction fuel as [|fuel IH]; intros n; cbn [run Ducknet.ducknet_mainloop]; destruct (halted _); try done.
  destruct (Ducknet.ducknet_step cf gettime n) as [n1 r]. destruct (r <? 0); rewrite ?andb_true_r, ?andb_false_r.
  - destruct (halted (Phy.world n1)) eqn:Hh; [|done]. destruct fuel; cbn [run negb]; by rewrite Hh.
  - apply IH.
Qed.

(** ** Lemmas: no buffer of the stack overflows *)

(** The driver stores bytes, no more than the 1564 of the buffer it is given, and returns no
    more than it stored. *)
Definition frames_fit : Prop :=
  forall w, let '(_, pkt, len) := nic_receive w in bytes pkt /\ len <= zlen pkt <= Net.MAX_MTU + 64.

Lemma wf_world (n : net) s : NetInvariant.wf_net n -> NetInvariant.wf_net (Phy.with_world n s).
Proof. intros Hn. by apply (NetInvariant.wf_net_ext n). Qed.
Lemma wf_duck_packet (n : net) src sp c len : NetInvariant.wf_net n ->
  NetInvariant.wf_net (fst (duck_packet_handle sort run_user timer read_sensors phy_conf n src sp c len)).
Proof.
  intros Hn. unfold duck_packet_handle. cbn zeta. destruct (equals_to _ _ _); [by apply wf_world|].
  destruct (process _ _ _ _ _ _ _ _) as [[|j [r|]]|]; cbn [fst]; try done; try by apply wf_world.
  by apply NetInvariant.wf_udp_send, wf_world.
Qed.
Lemma wf_idle_hook (n : net) : NetInvariant.wf_net n -> NetInvariant.wf_net (fst (idle timer ns_since_epoch phy_conf n)).
Proof.
  intros Hn. unfold idle. destruct (halted _); [done|]. cbn zeta. set (n1 := Phy.with_world n _).
  assert (H1 : NetInvariant.wf_net n1) by by apply wf_world. destruct (Scheduler.can_sleep _ _); [|done].
  assert (H2 : NetInvariant.wf_net (fst (Phy.ducknet_phy_flush phy_conf n1))).
  { clear Hn. unfold Phy.ducknet_phy_flush. repeat (case_match; simplify_eq; try done; try by apply (NetInvariant.wf_net_ext n1)). }
  revert H2. generalize (fst (Phy.ducknet_phy_flush phy_conf n1)). intros n2 H2.
  destruct (Scheduler.sleep _ _ _ _); by apply wf_world.
Qed.
Lemma server_conf_ok : frames_fit -> Net.is_mac (mac_of mac) -> NetInvariant.conf_ok cf.
Proof.
  intros Hfit Hm. split; [split|split; [done|]].
  - intros s. unfold receive. specialize (Hfit (device s)). by destruct (nic_receive _) as [[w pkt] len].
  - by intros pkt len s Hp.
  - do 4 (split; [exact I|]). split; [|exact wf_idle_hook].
    intros n src dst hdr c len Hn Hc. unfold udp_packet_handle. destruct (halted _); [done|]. destruct (_ =? 255); [done|].
    destruct (negb _); [done|]. destruct (_ =? DUCK_UDP_PORT); [|done].
    pose proof (wf_duck_packet n src (Net.sport hdr) c len Hn) as Hw. by destruct (duck_packet_handle _ _ _ _ _ _ _ _ _ _).
Qed.
Lemma wf_rounds k : frames_fit -> Net.is_mac (mac_of mac) ->
  forall n n', NetInvariant.wf_net n -> rounds ip mac k n = Some n' -> NetInvariant.wf_net n'.
Proof.
  intros Hfit Hm. induction k as [|k IH]; intros n n' Hn; cbn [rounds]; (destruct (halted _); [done|]); [by intros [= <-]|].
  apply IH, NetInvariant.wf_step; [by apply server_conf_ok|done].
Qed.

End Configured.
(** ** Lemmas: requests from the network *)

(** The hook of received frames ends the idle time. *)
Definition awake (n : net) : net :=
  Phy.with_world n (with_scheduler (Phy.world n) (Scheduler.set_active (scheduler (Phy.world n)))).

Lemma init_identity ip mac msr n : Timer.tsc_freq timer <> 0 ->
  identity (snd (init ip mac msr n)) = (mac_of mac, address_of ip, address_of ip).
Proof.
  intros Hf. unfold init, Ducknet.ducknet_init, Ducknet.ducknet_utils_init, gettime, on_device. cbn.
  destruct (Z.eqb_spec (Timer.tsc_freq timer) 0); [done|]. by destruct (rdtsc _).
Qed.

(** The handlers look at the request, not at what follows it in the frame. *)
Lemma process_cut t l e c rest j :
  process sort run_user t l e (c ++ rest) (zlen c) j = process sort run_user t l e c (zlen c) j.
Proof.
  unfold process, process_controls, process_data, process_judge, process_cache, process_special.
  by rewrite (Phy.ztake_app_exact c rest (zlen c) eq_refl), ztake_all by lia.
Qed.
Lemma duck_packet_cut n src sp c rest :
  duck_packet_handle sort run_user timer read_sensors phy_conf n src sp (c ++ rest) (zlen c) =
  duck_packet_handle sort run_user timer read_sensors phy_conf n src sp c (zlen c).
Proof. unfold duck_packet_handle. by rewrite process_cut, (Phy.ztake_app_exact c rest (zlen c) eq_refl), ztake_all by lia. Qed.
Lemma duck_packet_result n src sp c len :
  snd (duck_packet_handle sort run_user timer read_sensors phy_conf n src sp c len) = -1.
Proof. unfold duck_packet_handle. cbn zeta. by repeat case_match. Qed.

(** What a request does: the machine stops, or the handlers answer; the reply goes
    from the port of the server to where the request came from. *)
Definition serve (n : net) (src sport : Z) (request : list Z) : net :=
  let n := awake n in
  let s := Phy.world n in
  if list_eqb request (str "reboot") then Phy.with_world n (halt s)
  else
    match process sort run_user timer (log s) (read_sensors s) request (zlen request) (judger s) with
    | None => Phy.with_world n (halt s)
    | Some Pass => n
    | Some (Handled j None) => Phy.with_world n (with_judger s j)
    | Some (Handled j (Some reply)) =>
        fst (Transport.ducknet_udp_send phy_conf (Phy.with_world n (with_judger s j)) src sport DUCK_UDP_PORT
               reply (zlen reply))
    end.

Lemma duck_packet_serves n src sp c :
  fst (duck_packet_handle sort run_user timer read_sensors phy_conf (awake n) src sp c (zlen c)) = serve n src sp c.
Proof.
  unfold duck_packet_handle, serve. rewrite ztake_all, equals_to_self by lia. cbn zeta. by repeat case_match.
Qed.

(** The hook of UDP, on a datagram for the server. *)
Lemma udp_packet_serves n src hdr c rest :
  halted (Phy.world n) = false -> u8 src <> 255 -> Net.dport hdr = DUCK_UDP_PORT ->
  udp_packet_handle sort run_user timer read_sensors phy_conf (awake n) src (my_ip (Phy.world n)) hdr (c ++ rest) (zlen c) =
    (serve n src (Net.sport hdr) c, hdr, c ++ rest, -1).
Proof.
  intros Hh Hs Hp. unfold udp_packet_handle. change (halted (Phy.world (awake n))) with (halted (Phy.world n)).
  rewrite Hh. destruct (Z.eqb_spec (u8 src) 255); [done|].
  change (my_ip (Phy.world (awake n))) with (my_ip (Phy.world n)). rewrite Z.eqb_refl, Hp, Z.eqb_refl. cbn [negb].
  rewrite duck_packet_cut, <- duck_packet_serves.
  pose proof (duck_packet_result (awake n) src (Net.sport hdr) c (zlen c)) as Hr.
  destruct (duck_packet_handle _ _ _ _ _ _ _ _ _ _) as [n2 r]. cbn [snd] in Hr. by subst r.
Qed.

(** ** The server on the network *)

(** The server has the addresses of the command line, and keeps them. *)
Lemma service_identity a b c d m0 m1 m2 m3 m4 m5 k msr n0 n :
  Timer.tsc_freq timer <> 0 ->
  let ip := [a; b; c; d] in let mac := [m0; m1; m2; m3; m4; m5] in
  rounds ip mac k (snd (init ip mac msr n0)) = Some n -> identity n = (mac, address_of ip, address_of ip).
Proof. intros Hf ip mac Hr. by rewrite (keep_rounds ip mac k _ n Hr), init_identity. Qed.
Lemma init_wf ip mac msr n0 : frames_fit -> Net.is_mac (mac_of mac) -> NetInvariant.start_ok n0 -> Timer.tsc_freq timer <> 0 ->
  NetInvariant.wf_net (snd (init ip mac msr n0)).
Proof. intros Hfit Hm Hn Hf. apply NetInvariant.wf_init; [by apply server_conf_ok|done|done]. Qed.

(** A round in which the frame of a request arrives: the request is served, and the rest of
    the round is the idle hook. *)
Lemma request_arrives {W1} (conf1 : Phy.PhyConfig W1) (n1 : Phy.net W1) ip mac address n sport request :
  halted (Phy.world n) = false -> identity n = (mac, address, address) -> Net.is_mac mac -> is_u32 address ->
  Net.is_mac (Phy.mac n1) -> is_u32 (Phy.ip n1) -> u8 (Phy.ip n1) <> 255 -> is_u16 sport ->
  Phy.MTU n1 = 1500 -> zlen (Phy.sendbuf n1) = Net.MAX_MTU + 64 -> zlen (Phy.udp_buf n1) = Net.MAX_MTU + 64 ->
  zlen request <= 1472 -> Arp.ducknet_arp_lookup n1 address = Some mac ->
  let f := Ducknet.udp_frame n1 mac address DUCK_UDP_PORT sport request in
  (exists b1 b2, Transport.ducknet_udp_send conf1 n1 address DUCK_UDP_PORT sport request (zlen request) =
      Phy.ducknet_phy_send conf1 (Phy.with_sendbuf (Phy.with_udp_buf n1 b1) b2) f) /\
  forall padding n2, received ip mac n = (n2, f ++ padding, zlen (f ++ padding)) ->
    Ducknet.ducknet_step (conf ip mac) gettime n =
      (fst (idle timer ns_since_epoch phy_conf (serve n2 (Phy.ip n1) sport request)), 0).
Proof.
  intros Hh Hid Hm2 Hi2 Hm1 Hi1 Hi255 Hsp Hmtu Hsb Hub Hlen Hl f.
  assert (Hd : forall n2 padding, identity n2 = (mac, address, address) -> exists b1 b2 x,
    Transport.ducknet_udp_send conf1 n1 address DUCK_UDP_PORT sport request (zlen request) =
      Phy.ducknet_phy_send conf1 (Phy.with_sendbuf (Phy.with_udp_buf n1 b1) b2) f /\
    Ducknet.ducknet_ether_packet_handle (conf ip mac) (awake n2) (f ++ padding) (zlen (f ++ padding)) =
      (let '(n', _, _, r) := udp_packet_handle sort run_user timer read_sensors phy_conf (awake n2) (Phy.ip n1) address
         (Net.mk_udp sport DUCK_UDP_PORT (zlen request + Net.sizeof_udp) x) (request ++ padding) (zlen request) in
       if r <? 0 then (n', r) else (n', 0))).
  { intros n2 padding [= Em Ei Ew]. pose proof (Ducknet.udp_delivery conf1 (conf ip mac) n1 (awake n2) DUCK_UDP_PORT sport request
      padding (udp_packet_handle sort run_user timer read_sensors phy_conf)) as H. cbv zeta in H.
    change (Phy.ip (awake n2)) with (Phy.ip n2) in H. change (Phy.mac (awake n2)) with (Phy.mac n2) in H.
    rewrite Em, Ei in H. apply H; try done. unfold Net.sizeof_udp, Net.sizeof_ipv4. lia. }
  split. { destruct (Hd n [] Hid) as (b1 & b2 & x & E1 & _). by exists b1, b2. }
  intros padding n2 Hr. pose proof (keep_received ip mac n) as Hk. rewrite Hr in Hk. cbn [fst] in Hk.
  pose proof (whole_identity _ _ Hk) as Hid2. rewrite Hid in Hid2. apply (f_equal snd) in Hk. cbn [snd whole] in Hk. rewrite Hh in Hk.
  rewrite step_idle, before_hook_received, Hr. destruct (Z.leb_spec 0 (zlen (f ++ padding))) as [_|Hneg];
    [|pose proof (zlen_nonneg (f ++ padding)); lia].
  destruct (Hd n2 padding Hid2) as (b1 & b2 & x & _ & E2).
  change (Ducknet.ducknet_packet_handle (conf ip mac) n2 (f ++ padding) (zlen (f ++ padding))) with
    (Ducknet.ducknet_ether_packet_handle (conf ip mac) (awake n2) (f ++ padding) (zlen (f ++ padding))).
  rewrite E2. injection Hid2 as _ _ <-. by rewrite udp_packet_serves by done.
Qed.

(** The address as a number. *)
Definition number_of (a b c d : Z) : Z := ((a * 256 + b) * 256 + c) * 256 + d.
Lemma address_of_bytes a b c d : address_of [a; b; c; d] = number_of a b c d.
Proof.
  change (address_of [a; b; c; d]) with (d + 256 * (c + 256 * (b + 256 * (a + 256 * 0)))). unfold number_of. lia.
Qed.
Lemma number_of_u32 a b c d : is_u8 a -> is_u8 b -> is_u8 c -> is_u8 d -> is_u32 (number_of a b c d).
Proof. unfold is_u8, is_u32, number_of. lia. Qed.

(** A round that stops the machine is the last one. *)
Lemma reboot_ends_the_loop ip mac fuel n n2 src sport : halted (Phy.world n) = false ->
  Ducknet.ducknet_step (conf ip mac) gettime n = (fst (idle timer ns_since_epoch phy_conf (serve n2 src sport (str "reboot"))), 0) ->
  run ip mac (S fuel) n = Some (Stopped (serve n2 src sport (str "reboot"))).
Proof.
  intros Hh E. assert (Es : halted (Phy.world (serve n2 src sport (str "reboot"))) = true) by done.
  assert (Ei : fst (idle timer ns_since_epoch phy_conf (serve n2 src sport (str "reboot"))) = serve n2 src sport (str "reboot"))
    by (unfold idle; by rewrite Es).
  cbn [run]. rewrite Hh, E, Ei, Es. cbn [negb andb]. destruct fuel; cbn [run]; by rewrite Es.
Qed.

(** A driver that always hands out the same frame. *)
Lemma received_always ip mac n pkt len : (forall w, nic_receive w = (w, pkt, len)) ->
  exists n2, received ip mac n = (n2, pkt, len).
Proof.
  intros H. unfold received. generalize (fst (Ducknet.ducknet_idle (conf ip mac) gettime n)). intros n1.
  unfold Phy.ducknet_phy_recv. change (Phy.recv phy_conf) with (Some receive). cbv iota beta. unfold receive. rewrite H. by eexists.
Qed.


End Service.
(** ** Instances *)

(** A driver that keeps the frames it is given and receives nothing; the statics at
    boot. *)
Definition demo_server : DuckServer.server (W := Phy.wire) :=
  mk_server [] (Scheduler.mk_state Scheduler.ACTIVE 0) (Timer.LAPIC.mk_state [] 0) SysLog.boot
    JudgerSpec.demo_judger 0 false.
Definition demo_statics : Phy.net (DuckServer.server (W := Phy.wire)) :=
  Phy.mk_net demo_server 0 0 (replicate 1564 0) (replicate 6 0) 0 0 (Phy.mk_phy_state false 0 0 0)
    (Phy.mk_arp_state [] [] 0 0 0)
    (Phy.mk_ipv4_state (replicate 64 (Phy.mk_slot 0 0 0 (replicate 1564 0))) (replicate 2 0) 0 0 0)
    (replicate 1564 0) (replicate 1564 0).
Definition demo_sensors : DuckServer.server (W := Phy.wire) -> sensors :=
  λ _, mk_sensors 77 0 0 0 0 0 [] (λ _ _ _, []).
Definition demo_wrmsr (i v : Z) (r : Z -> Z) : Z -> Z := λ x, if x =? i then v else r x.
Definition demo_send (a : list Z) (w : Phy.wire) : Phy.wire * Z := (a :: w, 0).
Definition demo_receive (w : Phy.wire) : Phy.wire * list Z * Z := (w, [], -1).
Definition demo_flush (w : Phy.wire) : Phy.wire * Z := (w, 0).
Definition demo_rdtsc (w : Phy.wire) : Phy.wire * Z := (w, 5000).
Definition demo_now (s : DuckServer.server (W := Phy.wire)) : Z := 7000.

(** A driver that hands out the same request again and again: the host 10.0.0.9 asks for
    the uptime. *)
Abbreviation demo_mac := [2; 0; 0; 0; 0; 1].
Definition demo_frame : list Z := Ducknet.udp_frame Ducknet.sender demo_mac 0x0a000002 9999 2333 (str "uptime") ++ [0; 0].
Definition demo_request (w : Phy.wire) : Phy.wire * list Z * Z := (w, demo_frame, zlen demo_frame).

Abbreviation on_demo f := (f CacheStore.demo_sort JudgerSpec.demo_run JudgerSpec.demo_timer demo_sensors demo_now).
Abbreviation demo_step := (Ducknet.ducknet_step (on_demo conf demo_send demo_request demo_flush [10; 0; 0; 2] demo_mac)
  (gettime demo_rdtsc)).
Definition demo_started : Phy.net (DuckServer.server (W := Phy.wire)) :=
  snd (on_demo init demo_wrmsr demo_send demo_request demo_flush demo_rdtsc [10; 0; 0; 2] demo_mac (λ _, 0) demo_statics).
(** After one round of the loop. *)
Definition demo_service : Phy.net (DuckServer.server (W := Phy.wire)) := fst (demo_step demo_started).

Lemma pair_of_first {A B} (x : A * B) a b : x = (a, b) -> x = (fst x, b).
Proof. by intros ->. Qed.
Lemma demo_rounds : on_demo rounds demo_send demo_request demo_flush demo_rdtsc [10; 0; 0; 2] demo_mac 1 demo_started = Some demo_service.
Proof.
  assert (H1 : halted (Phy.world demo_started) = false) by (vm_compute; reflexivity).
  assert (H2 : halted (Phy.world (fst (demo_step demo_started))) = false) by (vm_compute; reflexivity).
  exact (on_demo rounds_one demo_send demo_request demo_flush demo_rdtsc [10; 0; 0; 2] demo_mac demo_started H1 H2).
Qed.
Lemma demo_frames_fit : frames_fit demo_request.
Proof. intros w. cbv beta iota delta [demo_request]. split; [by apply bytesb_bytes|]. vm_compute. split; discriminate. Qed.
Lemma demo_start_ok : NetInvariant.start_ok demo_statics.
Proof. do 4 (split; [reflexivity|]). apply Forall_replicate. reflexivity. Qed.


End Service.
