(* ===== verification/KernelMemory.v ===== *)
(** * KernelMemory: what becomes of memory during the start

    The boot loader's pages are what [Memory::init] starts from; its tables are loaded
    and each page of user memory is then closed and to be cleared; the PCI scan
    ([lib/pci.cpp]) finds regions that have a size, and the drivers map devices into
    arrays of the kernel and change nothing else. *)
From S2P Require Import Prelude Utils NetInvariant Console.
From S2P Require Import Memory PageTables.
From S2P Require Import E1000 I211 Realtek Pci NetworkDriver.
From S2P Require Import Boot.
From stdpp Require Import gmap list.

Module KernelMemory.
Local Open Scope Z_scope.

#[local] Abbreviation HP := Memory.HUGE_PAGE_SIZE.

(** [x86_64::lcr3]: from now on the entry of a page is what the walk finds at
    [get_P1], and a byte of user memory is the one the page has. *)
Definition lcr3 (cr3 : Z) (s : Memory.state) : Memory.state :=
  let ph := Memory.phys s in
  Memory.mk_state (Memory.huge_page_map s) (Memory.n_huge_pages s) (Memory.next_page_table_address s)
    (Memory.page_table_break s) (Memory.vaddr_break s) ph
    (λ slot, let v := slot * Memory.PAGE_SIZE in ph (Memory.walk_P1 ph cr3 v + 8 * Memory.P1_index v))
    (λ v, match PageTables.mmu ph cr3 v with
          | Some x => Memory.user_mem s (PageTables.at_address x)
          | None => Memory.user_mem s v
          end).

(** The statics of [lib/memory.cpp] before anything ran. *)
Definition first_memory (ph mem : Z -> Z) : Memory.state :=
  Memory.mk_state ∅ 0 Memory.kernel_break 0 0 ph ph mem.

(** ** What the boot loader's pages are *)

Lemma first_boot ph mem : PageTables.boot (first_memory ph mem).
Proof. split; [|reflexivity|reflexivity]. intros i Hi. by apply not_elem_of_empty in Hi. Qed.

(** What a property of memory needs to survive the loader. *)
Lemma load_keeps (P : Memory.state -> Prop) m ebss rounds tags addr s s' :
  (forall va a b, Memory.register_available_huge_page va a = Some b -> P a -> P b) ->
  Boot.Multiboot.load m ebss rounds tags addr s = Some s' -> P (Boot.Multiboot.memory s) -> P (Boot.Multiboot.memory s').
Proof.
  intros Hreg. assert (H1 : forall fuel va end_ a b, Boot.Multiboot.register_loop fuel va end_ a = Some b -> P a -> P b).
  { induction fuel as [|fuel IH]; intros va end_ a b; cbn [Boot.Multiboot.register_loop]; [done|].
    destruct (va <? end_); [|by intros [= ->]]. destruct (Memory.register_available_huge_page va a) as [c|] eqn:E; [|done]. eauto. }
  assert (H2 : forall fuel e last size a b, Boot.Multiboot.mmap_loop m ebss rounds fuel e last size a = Some b -> P a -> P b).
  { induction fuel as [|fuel IH]; intros e last size a b; cbn [Boot.Multiboot.mmap_loop]; [done|].
    destruct (e =? last); [by intros [= ->]|]. unfold Boot.Multiboot.load_entry.
    destruct (_ =? _); [|eauto]. destruct (Boot.Multiboot.register_loop _ _ _ _) as [c|] eqn:E; [|done]. eauto. }
  unfold Boot.Multiboot.load. generalize (addr + 8). intros tag. revert tag s.
  induction tags as [|tags IH]; intros tag s; cbn [Boot.Multiboot.load_loop]; [done|].
  destruct (_ =? _); [by intros [= ->]|].
  destruct (Boot.Multiboot.load_tag m ebss rounds tag s) as [c|] eqn:E; [|done]. intros Hl Hp. apply (IH _ _ Hl). revert E.
  unfold Boot.Multiboot.load_tag. destruct (_ =? _).
  { destruct (Boot.Multiboot.load_mmap _ _ _ _ _) as [b|] eqn:E; [|done]. intros [= <-]. exact (H2 _ _ _ _ _ _ E Hp). }
  repeat (destruct (_ =? _); [by intros [= <-]|]).
  destruct (_ =? _); [|by intros [= <-]]. by destruct (Boot.Multiboot.supported m tag); intros [= <-].
Qed.

Lemma size_pages (X : gset Z) k : (forall i, i ∈ X -> 0 <= i < k) -> Z.of_nat (size X) <= Z.max 0 k.
Proof.
  intros H. etransitivity; [apply inj_le, (subseteq_size X (list_to_set (seqZ 0 k)))|].
  - intros i Hi%H. rewrite elem_of_list_to_set, elem_of_seqZ. lia.
  - rewrite size_list_to_set by apply NoDup_seqZ. rewrite length_seqZ. lia.
Qed.

(** Registering a page keeps what [Memory::init] starts from. *)
Lemma register_boot va a b : Memory.register_available_huge_page va a = Some b -> PageTables.boot a -> PageTables.boot b.
Proof.
  intros E [Hp Hc Hn]. destruct (Z.lt_ge_cases va Memory.kernel_break) as [Hlt|Hge].
  { revert E. unfold Memory.register_available_huge_page. destruct (negb _); [done|]. destruct (negb _); [done|].
    destruct (Z.ltb_spec va Memory.kernel_break); [|lia]. by intros [= <-]. }
  assert (Hb : Z.of_nat (size (Memory.huge_page_map a)) < 2 ^ 32).
  { eapply Z.le_lt_trans; [apply (size_pages _ Memory.MAX_N_HUGE_PAGES)|done]. intros i Hi%Hp.
    unfold Memory.kernel_break in Hi. change (4194304 / HP) with 2 in Hi. lia. }
  split; [|apply (Memory.register_counts va a b Hc Hb); [|done]|].
  - revert E. unfold Memory.register_available_huge_page. destruct (negb _); [done|].
    destruct (Z.ltb_spec va Memory.MAX_MEMORY_SIZE) as [Hmax|]; [|done]. destruct (va <? _); [by intros [= <-]|]. cbn [negb].
    destruct (bool_decide _); intros [= <-]; [done|]. intros i. cbn [Memory.huge_page_map]. rewrite elem_of_union, elem_of_singleton.
    intros [->|Hi]; [|by apply Hp]. change Memory.MAX_MEMORY_SIZE with (Memory.MAX_N_HUGE_PAGES * HP) in Hmax.
    assert (Memory.kernel_break / HP <= va / HP < Memory.MAX_N_HUGE_PAGES)
      by (split; [by apply Z.div_le_mono|apply Z.div_lt_upper_bound; [done|lia]]).
    rewrite u32_small; [done|]. unfold is_u32. change Memory.MAX_N_HUGE_PAGES with 261632 in *.
    change (Memory.kernel_break / HP) with 2 in *. lia.
  - unfold Memory.kernel_break in Hge. lia.
  - revert E. unfold Memory.register_available_huge_page. destruct (negb _); [done|]. destruct (negb _); [done|].
    destruct (va <? _); [by intros [= <-]|]. by destruct (bool_decide _); intros [= <-].
Qed.

(** ** What the tables of [Memory::init] are to the kernel that uses them *)

(** A page of user memory: closed to user mode, to be cleared, and a byte of [s]. *)
Definition fresh_page (s : Memory.state) (us : list Z) (m : Memory.state) (v : Z) : Prop :=
  let e := Memory.P1 m (Memory.P1_slot v) in
  Memory.user_ok e = false /\ Memory.writable e = true /\ Memory.duck_written e = true /\
  Memory.user_mem m v = Memory.user_mem s (PageTables.translate us v).

Lemma slot_page v : 0 <= v < 2 ^ 39 -> let w := Memory.P1_slot v * Memory.PAGE_SIZE in
  0 <= w <= v /\ w / HP = v / HP /\ w / Memory.PAGE_SIZE = v / Memory.PAGE_SIZE.
Proof.
  intros Hv. unfold Memory.P1_slot. rewrite shiftr_div by lia. change (2 ^ 12) with Memory.PAGE_SIZE.
  assert (Hs : 0 <= v / Memory.PAGE_SIZE < 2 ^ 36).
  { unfold Memory.PAGE_SIZE. change (2 ^ 39) with 549755813888 in Hv. change (2 ^ 36) with 68719476736.
    Z.to_euclidean_division_equations; lia. }
  rewrite Z.mod_small by done. cbv zeta. clear Hs. unfold Memory.PAGE_SIZE, Memory.HUGE_PAGE_SIZE.
  split; [|split]; Z.to_euclidean_division_equations; lia.
Qed.

Lemma lcr3_fresh s T us v : let n := 2 + zlen us in PageTables.built s T (PageTables.gigabytes n) n us ->
  List.Forall (λ i, 0 <= i < Memory.MAX_N_HUGE_PAGES) us -> Memory.kernel_break <= v < n * HP -> n * HP <= 2 ^ 39 ->
  fresh_page s us (lcr3 (T PageTables.R4) s) v.
Proof.
  intros n HB Hus Hv Hn. unfold fresh_page, lcr3. cbn [Memory.P1 Memory.user_mem]. change Memory.kernel_break with (2 * HP) in Hv.
  assert (Hhp : 0 < HP) by done. assert (Hvr : 0 <= v < 2 ^ 39) by lia.
  rewrite (PageTables.mmu_mapped s T us HB Hus v) by lia. destruct (slot_page v Hvr) as (Hw & Eh & Ep).
  set (w := Memory.P1_slot v * Memory.PAGE_SIZE) in *. assert (Hwr : 0 <= w < n * HP) by lia.
  destruct (PageTables.walk_tables_mapped s T us w HB Hus Hwr) as [Et _]; [lia|].
  assert (EP1 : Memory.walk_P1 (Memory.phys s) (T PageTables.R4) w = T (PageTables.R1 (w / HP))) by (unfold PageTables.walk_tables in Et; by injection Et).
  destruct (PageTables.walk_mapped s T us HB Hus w Hwr) as (_ & _ & E1 & _ & _ & Tp); [lia|].
  rewrite EP1, E1. unfold Memory.user_ok, Memory.writable, Memory.duck_written.
  rewrite !(PageTables.flag_of_table _ _ _ Tp) by lia. destruct (PageTables.page_flags_bits (w / HP)) as (_ & -> & -> & -> & ->).
  rewrite Eh. assert (2 <= v / HP) by (apply Z.div_le_lower_bound; lia). destruct (Z.ltb_spec (v / HP) 2); [lia|done].
Qed.

(** *** What the drivers change *)

(** They map devices into arrays of the kernel, and leave everything else. *)
Record devices_only (m m' : Memory.state) : Prop := {
  d_map : Memory.huge_page_map m' = Memory.huge_page_map m; d_vaddr : Memory.vaddr_break m' = Memory.vaddr_break m;
  d_mem : Memory.user_mem m' = Memory.user_mem m;
  d_P1 : forall p, Memory.kernel_break <= Memory.PAGE_SIZE * p -> Memory.P1 m' p = Memory.P1 m p }.
#[export] Instance devices_only_pre : PreOrder devices_only.
Proof. split; [done|]. intros ??? [] []. split; try congruence. intros p Hp. rewrite d_P3 by done. auto. Qed.

Lemma fresh_devices s us m m' v : devices_only m m' -> fresh_page s us m v -> Memory.kernel_break <= v < 2 ^ 39 ->
  fresh_page s us m' v.
Proof.
  intros Hd (H1 & H2 & H3 & H4) Hv. change Memory.kernel_break with (2 * HP) in Hv. assert (Hhp : 0 < HP) by done.
  destruct (slot_page v) as ([_ _] & Eh & _); [lia|]. unfold fresh_page.
  rewrite (d_P1 _ _ Hd), (d_mem _ _ Hd); [done|]. rewrite Z.mul_comm. set (w := Memory.P1_slot v * Memory.PAGE_SIZE) in *.
  assert (2 <= w / HP) by (rewrite Eh; apply Z.div_le_lower_bound; lia). change Memory.kernel_break with (2 * HP).
  pose proof (Z.mul_div_le w HP Hhp). nia.
Qed.

(** ** The regions the scan finds have a size *)

Definition sized (f : Pci.Func) : Prop := Forall (Z.le 0) (Pci.reg_size f).
Definition all_sized (s : Pci.state) : Prop := Forall sized (Pci.stored_pci_devices s).
(** The command keeps it, and what it returns has [Q]. *)
Definition keeps {A} (c : Pci.M A) (Q : A -> Prop) : Prop :=
  forall s s' a, all_sized s -> c s = Some (s', a) -> all_sized s' /\ Q a.

Lemma keeps_ret {A} (a : A) (Q : A -> Prop) : Q a -> keeps (Pci.ret a) Q.
Proof. by intros HQ s s' b Hs [= <- <-]. Qed.
Lemma keeps_bind {A B} (c : Pci.M A) (k : A -> Pci.M B) (R : A -> Prop) Q :
  keeps c R -> (forall a, R a -> keeps (k a) Q) -> keeps (Pci.bind c k) Q.
Proof.
  intros Hc Hk s s' b Hs. unfold Pci.bind. destruct (c s) as [[s1 a]|] eqn:E; [|done].
  destruct (Hc _ _ _ Hs E) as [H1 Ha]. exact (Hk a Ha _ _ _ H1).
Qed.
Lemma keeps_weaken {A} (c : Pci.M A) (R Q : A -> Prop) : keeps c R -> (forall a, R a -> Q a) -> keeps c Q.
Proof. intros Hc H s s' a Hs E. destruct (Hc _ _ _ Hs E). auto. Qed.
Lemma keeps_fail {A} (Q : A -> Prop) : keeps Pci.fail Q.
Proof. done. Qed.

Section Sizes.
Context {pci_write : Z -> Z -> Pci.space -> Pci.space} {pci_write_byte : Z -> Z -> Z -> Pci.space -> Pci.space}.
#[local] Abbreviation any := (λ _, True).

Lemma keeps_addr b d k off : keeps (Pci.pci_conf1_set_addr b d k off) any.
Proof.
  unfold Pci.pci_conf1_set_addr. repeat (destruct (negb _); [apply keeps_fail|]). by intros s s' a Hs [= <- <-].
Qed.
Ltac io := intros; eapply keeps_bind; [apply keeps_addr|by intros _ _ s s' x Hs [= <- <-]].
Lemma keeps_read f off : keeps (Pci.pci_conf_read f off) any.
Proof. io. Qed.
Lemma keeps_write f off v : keeps (Pci.pci_conf_write pci_write f off v) any.
Proof. io. Qed.
Lemma keeps_read_byte f off : keeps (Pci.pci_conf_read_byte f off) any.
Proof. io. Qed.
Lemma keeps_write_byte f off v : keeps (Pci.pci_conf_write_byte pci_write_byte f off v) any.
Proof. io. Qed.

Lemma region_size_nonneg o r : 0 <= (Pci.region o r).1.2.
Proof.
  assert (H32 : forall x y, 0 <= Z.land x (u32 y)) by (intros; apply Z.land_nonneg; right; apply u32_range).
  unfold Pci.region. destruct (_ =? _); apply H32.
Qed.
Lemma sized_with f n base size io : sized f -> 0 <= size -> sized (Pci.with_reg f n base size io).
Proof. intros Hf Hs. unfold sized. cbn. by apply NetInvariant.Forall_zset. Qed.

Lemma keeps_probe n bar f : sized f -> keeps (Pci.probe_bars pci_write n bar f) sized.
Proof.
  revert bar f. induction n as [|n IH]; intros bar f Hf; cbn [Pci.probe_bars]; (destruct (bar <? _); [|by apply keeps_ret]).
  { apply keeps_fail. }
  eapply keeps_bind; [apply keeps_read|]. intros o _. eapply keeps_bind; [apply keeps_write|]. intros _ _.
  eapply keeps_bind; [apply keeps_read|]. intros r _. destruct (r =? 0); [by apply IH|].
  pose proof (region_size_nonneg o r) as Hs. destruct (Pci.region o r) as [[base size] io].
  eapply keeps_bind; [apply keeps_write|]. intros _ _. apply IH. by apply sized_with.
Qed.
Lemma keeps_enable f : sized f -> keeps (Pci.pci_func_enable pci_write pci_write_byte f) sized.
Proof.
  intros Hf. unfold Pci.pci_func_enable. eapply keeps_bind; [apply keeps_write|]. intros _ _.
  eapply keeps_bind; [apply keeps_read_byte|]. intros lat _. apply (keeps_bind _ _ any).
  - destruct (lat <? 32); [apply keeps_write_byte|by apply keeps_ret].
  - intros _ _. by apply keeps_probe.
Qed.
Lemma keeps_store f : sized f -> keeps (Pci.pci_store pci_write pci_write_byte f) (λ r, sized r.1).
Proof.
  intros Hf. unfold Pci.pci_store. intros s s' a Hs. destruct (_ <? _); [|by intros [= <- <-]]. revert s s' a Hs.
  apply (keeps_bind _ _ sized); [by apply keeps_enable|]. intros f' Hf'. apply (keeps_bind _ _ any).
  - intros s s' a Hs [= <- _]. split; [|done]. unfold all_sized. cbn. apply Forall_app. split; [done|by constructor].
  - intros _ _. by apply keeps_ret.
Qed.
Lemma keeps_match k1 k2 l f : sized f ->
  Forall (λ d, forall f, sized f -> keeps (Pci.attachfn d f) (λ r, sized r.1)) l -> keeps (Pci.pci_attach_match k1 k2 l f) any.
Proof.
  intros Hf Hl. revert f Hf. induction Hl as [|d l Hd _ IH]; intros f Hf; cbn [Pci.pci_attach_match]; [by apply keeps_ret|].
  destruct (_ && _); [|by apply IH]. eapply keeps_bind; [by apply Hd|]. intros r Hr. destruct (0 <? _); [by apply keeps_ret|by apply IH].
Qed.
Lemma keeps_scan fuel : forall b, keeps (Pci.pci_scan_bus pci_write pci_write_byte fuel b) any.
Proof.
  induction fuel as [|fuel IH]; intros b; cbn [Pci.pci_scan_bus]; [apply keeps_fail|].
  assert (Hattach : forall f, sized f -> keeps (Pci.pci_attach pci_write pci_write_byte (Pci.pci_scan_bus pci_write pci_write_byte fuel) f) any).
  { intros f Hf. unfold Pci.pci_attach. apply (keeps_bind _ _ any).
    - apply keeps_match; [done|]. apply Forall_singleton. intros g Hg. cbn [Pci.attachfn]. unfold Pci.pci_bridge_attach.
      eapply keeps_bind; [apply keeps_read|]. intros io _. eapply keeps_bind; [apply keeps_read|]. intros br _.
      destruct (Pci.PCI_BRIDGE_IO_32BITS io); [by apply keeps_ret|]. eapply keeps_bind; [apply IH|]. intros _ _. by apply keeps_ret.
    - intros r _. destruct (negb _); [by apply keeps_ret|]. eapply keeps_bind; [|by intros; apply keeps_ret].
      apply keeps_match; [done|]. apply Forall_fmap, Forall_forall. intros d _ g Hg. by apply keeps_store. }
  assert (Hfunc : forall d k, keeps (Pci.scan_func pci_write pci_write_byte (Pci.pci_scan_bus pci_write pci_write_byte fuel) b d k) any).
  { intros d k. unfold Pci.scan_func. cbv zeta. eapply keeps_bind; [apply keeps_read|]. intros id _.
    destruct (_ =? _); [by apply keeps_ret|]. eapply keeps_bind; [apply keeps_read|]. intros intr _.
    eapply keeps_bind; [apply keeps_read|]. intros class _. eapply keeps_bind; [apply Hattach|by intros; apply keeps_ret].
    unfold sized. cbn. repeat constructor; done. }
  assert (Hfuncs : forall d ks, keeps (Pci.scan_funcs pci_write pci_write_byte (Pci.pci_scan_bus pci_write pci_write_byte fuel) b d ks) any).
  { intros d. induction ks as [|k ks IHk]; cbn [Pci.scan_funcs]; [by apply keeps_ret|]. eapply keeps_bind; [apply Hfunc|by intros]. }
  generalize 0 at 2. generalize (seqZ 0 32). intros l. induction l as [|d ds IHd]; intros z; cbn [Pci.scan_devs]; [by apply keeps_ret|].
  eapply keeps_bind; [apply keeps_read|]. intros h _. destruct (1 <? _); [apply IHd|].
  eapply keeps_bind; [apply Hfuncs|]. intros _ _. apply IHd.
Qed.
End Sizes.

(** ** What the drivers do to memory *)

(** An array for a device, below the end of the kernel. *)
Definition array (dev len : Z) : Prop :=
  0 <= dev /\ dev mod Memory.PAGE_SIZE = 0 /\ 0 <= len /\ len mod Memory.PAGE_SIZE = 0 /\ dev + len <= Memory.kernel_break.

Lemma map_region_devices fuel : forall start end_ src m m', 0 <= start -> start mod Memory.PAGE_SIZE = 0 ->
  end_ mod Memory.PAGE_SIZE = 0 -> start <= end_ <= Memory.kernel_break ->
  Memory.map_region_loop fuel start end_ src m = Some m' -> devices_only m m'.
Proof.
  induction fuel as [|fuel IH]; intros start end_ src m m' H0 Hs He Hle; cbn [Memory.map_region_loop].
  { destruct (_ =? _); [by intros [= ->]|done]. }
  destruct (Z.eqb_spec start end_) as [->|Hne]; [by intros [= ->]|].
  assert (Hnext : start + Memory.PAGE_SIZE <= end_) by (apply PageTables.aligned_lt; [done|done|done|lia]).
  unfold Memory.kernel_break, Memory.PAGE_SIZE in *. rewrite (u64_small (start + 4096)) by (unfold is_u64; lia).
  intros E. apply IH in E; [|lia| |done|lia].
  - etransitivity; [|exact E]. unfold Memory.update_P1. split; try done. intros p Hp. cbn. unfold Memory.upd.
    unfold Memory.kernel_break, Memory.PAGE_SIZE in Hp. rewrite Memory.P1_slot_small by (unfold Memory.PAGE_SIZE; lia).
    destruct (Z.eqb_spec p (start / Memory.PAGE_SIZE)) as [->|]; [|done]. exfalso. unfold Memory.PAGE_SIZE in Hp.
    pose proof (Z.mul_div_le start 4096 eq_refl). lia.
  - by apply (PageTables.add_page_aligned start).
Qed.

Lemma round_up_below x len : 0 <= x <= len -> len mod Memory.PAGE_SIZE = 0 -> len < 2 ^ 32 ->
  0 <= Utils.round_up x Memory.PAGE_SIZE <= len /\ Utils.round_up x Memory.PAGE_SIZE mod Memory.PAGE_SIZE = 0.
Proof.
  intros Hx Hl Hb. destruct (Utils.round_up_no_wrap x Memory.PAGE_SIZE) as (E & H1 & H2 & _);
    [unfold is_u64; lia|done|unfold Memory.PAGE_SIZE; lia|].
  split; [|done]. split; [lia|]. rewrite E. clear E H1 H2. unfold Memory.PAGE_SIZE in *.
  Z.to_euclidean_division_equations; lia.
Qed.

Lemma zget_sized l i : Forall (Z.le 0) l -> 0 <= zget 0 l i.
Proof.
  intros Hl. unfold zget. destruct (nth_in_or_default (Z.to_nat i) l 0) as [Hin| ->]; [|done].
  exact (proj1 (List.Forall_forall _ l) Hl _ Hin).
Qed.

Lemma map_device_devices k1 k2 dev len bar devs m m' r : array dev len -> Forall sized devs ->
  Pci.map_device k1 k2 dev len bar devs m = Some (m', r) -> devices_only m m'.
Proof.
  intros (H0 & Ha & Hl & Hla & Hk) Hd. unfold Pci.map_device. destruct (Pci.find_stored _ _ _ _ _) as [f|] eqn:E; [|by intros [= <- _]].
  apply Pci.find_stored_found in E as (Hin & _ & _). pose proof (proj1 (Forall_forall _ _) Hd f Hin) as Hf.
  assert (Hz : 0 <= zget 0 (Pci.reg_size f) bar) by by apply zget_sized.
  destruct (round_up_below (Z.min (zget 0 (Pci.reg_size f) bar) len) len) as [Hr Hrm];
    [lia|done|unfold Memory.kernel_break in Hk; lia|].
  set (ru := Utils.round_up _ _) in *. rewrite u64_small by (unfold is_u64; unfold Memory.kernel_break in *; lia).
  unfold Memory.map_region_cache_disabled. destruct (negb _); [done|]. destruct (Z.eqb_spec ((dev + ru) mod Memory.PAGE_SIZE) 0); [|done].
  cbn [negb]. destruct (negb _); [done|]. destruct (Memory.map_region_loop _ _ _ _ _) as [m1|] eqn:E; [|done]. intros [= <- _].
  eapply map_region_devices; [| | | |exact E]; try done. lia.
Qed.

Lemma first_mapped_devices {A} (keys : A -> Z * Z) bar dev len devs options : array dev len -> Forall sized devs ->
  forall m m' o, NetworkDriver.first_mapped keys bar dev len devs options m = Some (m', o) -> devices_only m m'.
Proof.
  intros Ha Hd. induction options as [|x options IH]; intros m m' o; cbn [NetworkDriver.first_mapped]; [by intros [= <- _]|].
  destruct (Pci.map_device _ _ _ _ _ _ _) as [[m1 r]|] eqn:E; [|done]. apply map_device_devices in E; [|done..].
  destruct (negb _); [by intros [= <- _]|]. intros E2%IH. by etransitivity.
Qed.

End KernelMemory.
