(* ===== verification/Parts.v ===== *)
(** * Parts: what each part of the kernel needs to come up

    For every part whose [init] can wait or fail an assertion, a condition on what the
    machine shows it (the readings of a register, a table in memory, the regions of a
    device), and the lemma that the part then comes up. *)
From Stdlib Require Import String.
From S2P Require Import Prelude Utils LibC Timer.
From S2P Require Import Memory E1000 I211 Realtek Pci NetworkDriver.
From S2P Require Import Boot KernelMemory.
From stdpp Require Import list gmap.

Module Parts.
Local Open Scope Z_scope.

(** ** The clock and the interrupt controllers *)

(** Leaf 0x15 of [cpuid]: a ratio that is given has a denominator. *)
Definition ratio_ok (leaf15 : Z * Z * Z) : Prop := let '(a, b, _) := leaf15 in a = 0 -> b = 0.
Lemma timer_starts brand model leaf15 tsc : ratio_ok leaf15 ->
  exists t, Timer.init brand model leaf15 tsc = Some t /\ Timer.ext_freq t <> 0.
Proof.
  destruct leaf15 as [[a b] c]. unfold ratio_ok. intros Hr. unfold Timer.init, Timer.detect_cpu_speed_intel, Timer.get_tsc_clock_ratio.
  destruct (String.eqb brand _); [|by eexists]. destruct (Timer.special_case model) as [[ext0 tsc0] clk0].
  destruct (Z.eqb_spec ext0 0) as [_|He]; [|by eexists]. destruct (Z.eqb_spec b 0) as [_|Hb]; [by eexists|].
  destruct (Z.eqb_spec a 0) as [Ha|Ha]; [by apply Hr in Ha|]. eexists. split; [reflexivity|]. cbn. by destruct (Z.eqb_spec c 0).
Qed.

(** Some reading of the command register shows that the message was delivered. *)
Definition delivered (readings : list Z) : Prop := exists v, v ∈ readings /\ Z.land v 0x1000 = 0.
Lemma lapic_starts version readings s : delivered readings -> is_Some (LAPIC.init version readings s).
Proof.
  intros (v & Hv & H0). unfold LAPIC.init. cbv zeta.
  assert (Hw : is_Some (LAPIC.wait_delivery readings)).
  { induction readings as [|x l IH]; [by apply elem_of_nil in Hv|]. cbn [LAPIC.wait_delivery].
    apply elem_of_cons in Hv as [<- |Hv]; [rewrite H0; by eexists|]. destruct (negb _); [by apply IH|by eexists]. }
  destruct Hw as [rest ->]. by eexists.
Qed.

(** The root table lists [n] tables, none at address zero, one of them of the interrupt
    controller; and if a table of the power management names a port and a command, some
    reading of its control port shows that the machine obeyed. *)
Record acpi_ok (m : Z -> Z) (rsdp : Z) (readings : list Z) : Prop := {
  ao_rsdp : rsdp <> 0;
  ao_tables : let rsdt := Boot.u32_at m (rsdp + Boot.ACPI.RSDP_rsdt_addr_phys) in exists n, 0 <= n < 2 ^ 29 /\
    Boot.u32_at m (rsdt + Boot.ACPI.HEADER_length) = Boot.ACPI.sizeof_RSDT + 4 * n /\ Forall (λ t, t <> 0) (Boot.tables m rsdt n) /\
    is_Some (Boot.last_of (Boot.signed m Boot.ACPI.APIC) (Boot.tables m rsdt n)) /\
    forall f, Boot.last_of (Boot.signed m Boot.ACPI.FACP) (Boot.tables m rsdt n) = Some f ->
      Boot.u32_at m (f + Boot.ACPI.FADT_SMI_CommandPort) <> 0 -> Boot.u8_at m (f + Boot.ACPI.FADT_ACPI_Enable) <> 0 ->
      exists v, v ∈ readings /\ Z.land v 1 <> 0 }.
Lemma first_enabled readings : (exists v, v ∈ readings /\ Z.land v 1 <> 0) ->
  exists pre v rest, readings = pre ++ v :: rest /\ Forall (λ v, Z.land v 1 = 0) pre /\ Z.land v 1 <> 0.
Proof.
  induction readings as [|x l IH]; intros (v & Hv & H1); [by apply elem_of_nil in Hv|].
  destruct (Z.eq_dec (Z.land x 1) 0) as [E|E]; [|exists [], x, l; by split; [|split]].
  apply elem_of_cons in Hv as [-> |Hv]; [done|]. destruct IH as (pre & w & rest & -> & Hp & Hw); [by exists v|].
  exists (x :: pre), w, rest. split; [done|]. split; [by constructor|done].
Qed.
Lemma acpi_starts m rsdp readings : acpi_ok m rsdp readings ->
  exists madt outs, Boot.ACPI.init m rsdp readings = Boot.ACPI.found madt outs.
Proof.
  intros [Hr (n & Hn & Hl & Hz & [t Ht] & Hf)]. pose proof (Boot.apic_table_is_found m rsdp _ n readings Hr eq_refl Hn Hl Hz) as H.
  cbv zeta in H, Hf. rewrite Ht in H. destruct (Boot.last_of (Boot.signed m Boot.ACPI.FACP) _) as [f|]; [|by exists t, []].
  destruct H as [H1 H2]. specialize (Hf f eq_refl).
  destruct (Z.eq_dec (Boot.u32_at m (f + Boot.ACPI.FADT_SMI_CommandPort)) 0) as [E1|E1]; [exists t, []; apply H1; by left|].
  destruct (Z.eq_dec (Boot.u8_at m (f + Boot.ACPI.FADT_ACPI_Enable)) 0) as [E2|E2]; [exists t, []; apply H1; by right|].
  destruct (first_enabled readings (Hf E1 E2)) as (pre & v & rest & -> & Hp & Hv). eexists t, _. by apply (H2 E1 E2 pre v rest).
Qed.

(** ** The command line *)

Lemma skip_space_length l : zlen (LibC.skip_space l) <= zlen l.
Proof. unfold zlen. induction l as [|c l IH]; cbn [LibC.skip_space]; [done|]. destruct (LibC.is_space c); cbn [length] in *; lia. Qed.
Lemma scan_word_length l : zlen (fst (LibC.scan_word l)) + zlen (snd (LibC.scan_word l)) = zlen l.
Proof.
  unfold zlen. induction l as [|c l IH]; cbn [LibC.scan_word]; [done|]. destruct (LibC.is_space c); [done|].
  destruct (LibC.scan_word l) as [w l']. cbn [fst snd length] in *. lia.
Qed.
Lemma c_string_length l : zlen (LibC.c_string l) <= zlen l.
Proof. unfold zlen. induction l as [|c l IH]; cbn [LibC.c_string]; [done|]. destruct (c =? 0); cbn [length] in *; lia. Qed.

(** The words of a format of literals, blanks and words. *)
Definition text_only (f : list LibC.directive) : bool :=
  forallb (λ d, match d with LibC.Lit _ | LibC.Space _ | LibC.S_ => true | _ => false end) f.
Lemma scan_words f : text_only f = true -> forall l w, LibC.VStr w ∈ LibC.scan f l -> zlen w <= zlen l.
Proof.
  induction f as [|d f IH]; cbn [text_only forallb]; [by intros _ l w ?%elem_of_nil|].
  intros [Hd Hf]%andb_true_iff l w. specialize (IH Hf). destruct d as [c|c| | | | | | |]; try done; cbn [LibC.scan].
  - destruct l as [|x l]; [by intros ?%elem_of_nil|]. destruct (x =? c); [|by intros ?%elem_of_nil].
    intros H%IH. unfold zlen in *. cbn [length]. lia.
  - intros H%IH. pose proof (skip_space_length l). lia.
  - pose proof (skip_space_length l) as Hs. pose proof (scan_word_length (LibC.skip_space l)) as Hw.
    destruct (LibC.scan_word (LibC.skip_space l)) as [[|c w0] l']; [by intros ?%elem_of_nil|]. cbn [fst snd] in Hw.
    pose proof (zlen_nonneg l'). pose proof (zlen_nonneg (c :: w0)). intros Hin.
    apply elem_of_cons in Hin as [Ew|Hin]; [by injection Ew as ->; lia|]. apply IH in Hin. lia.
Qed.

(** The arguments fit in the buffers they are copied to. *)
Lemma arguments_fit cmdline : zlen cmdline <= NetworkDriver.MAX_LEN -> is_Some (NetworkDriver.read_ip_mac cmdline).
Proof.
  intros Hl. unfold NetworkDriver.read_ip_mac. cbv zeta. destruct (existsb _ _) eqn:E; [|by eexists].
  exfalso. apply existsb_exists in E as (v & Hv & Hlen). destruct v as [z|w]; [done|]. apply Z.leb_le in Hlen.
  apply list_elem_of_In in Hv. unfold LibC.sscanf in Hv. pose proof (c_string_length cmdline) as Hc.
  pose proof (skip_space_length (LibC.c_string cmdline)) as Hs.
  change (LibC.fmt " ip = %s mac = %s ") with
    ([LibC.Space 32; LibC.Lit 105] ++ [LibC.Lit 112; LibC.Space 32; LibC.Lit 61; LibC.Space 32; LibC.S_; LibC.Space 32; LibC.Lit 109;
      LibC.Lit 97; LibC.Lit 99; LibC.Space 32; LibC.Lit 61; LibC.Space 32; LibC.S_; LibC.Space 32]) in Hv.
  cbn [app LibC.scan] in Hv. destruct (LibC.skip_space (LibC.c_string cmdline)) as [|x l]; [by apply elem_of_nil in Hv|].
  destruct (x =? 105); [|by apply elem_of_nil in Hv].
  match type of Hv with LibC.VStr w ∈ match ?y with [] => _ | _ => _ end =>
    change (LibC.VStr w ∈ LibC.scan [LibC.Lit 112; LibC.Space 32; LibC.Lit 61; LibC.Space 32; LibC.S_; LibC.Space 32; LibC.Lit 109;
      LibC.Lit 97; LibC.Lit 99; LibC.Space 32; LibC.Lit 61; LibC.Space 32; LibC.S_; LibC.Space 32] y) in Hv end.
  apply scan_words in Hv; [|done]. unfold zlen in *. cbn [length] in Hs. unfold NetworkDriver.MAX_LEN in *. lia.
Qed.

(** ** The network cards *)

Section Network.
Variables (e1000_dev i211_dev rtl_dev e1000_tq e1000_rq i211_rq i211_tq i211_header dma_buffer : Z).
Variables (e1000_hw : Z -> (Z -> Z) -> Z -> Z) (i211_hw_write : Z -> Z -> (Z -> Z) -> Z -> Z).
Variables (i211_hw : Z -> (Z -> Z) -> Z -> Z) (rtl_hw_write : Z -> Z -> (Z -> Z) -> Z -> Z).
Variable rtl_hw : Z -> (Z -> Z) -> Z -> Z.
Variable devs : list Pci.Func.
Variable waits : nat.
Hypothesis Harrays : KernelMemory.array e1000_dev 0x10000 /\ KernelMemory.array i211_dev 0x13000 /\ KernelMemory.array rtl_dev 0x1000.

(** The registers of the cards lie in memory from the beginning of a page on. *)
Definition regions_ok : Prop := forall f bar, f ∈ devs -> is_u32 (zget 0 (Pci.reg_base f) bar) /\ is_u32 (zget 0 (Pci.reg_size f) bar) /\
  (zget false (Pci.reg_is_io f) bar = false -> zget 0 (Pci.reg_base f) bar mod Memory.PAGE_SIZE = 0).
Definition on_bus (key : Z * Z) (bar : Z) : Prop := is_Some (Pci.find_stored key.1 key.2 bar false devs).
(** A card that is on the bus leaves the waiting loops of its driver within [waits]
    readings of each, whatever state it is in: the link comes up, the semaphore of the
    firmware is given away, the queues report that they are on. *)
Record cards_ok : Prop := {
  co_e1000 : forall o, o ∈ NetworkDriver.e1000_options -> on_bus o.1 0 -> forall mac e,
    is_Some (E1000.e1000_init e1000_tq e1000_rq dma_buffer e1000_hw waits o.2 mac e);
  co_i211 : forall o, o ∈ NetworkDriver.i211_options -> on_bus o.1 0 -> forall mac e,
    is_Some (I211.i211_init i211_rq i211_tq i211_header dma_buffer i211_hw_write i211_hw waits mac o.2 e);
  co_rtl : forall o, o ∈ NetworkDriver.rtl_options -> on_bus o.1 o.2 -> forall mac e,
    is_Some (Realtek.rtl_init dma_buffer rtl_hw_write rtl_hw waits mac e) }.
Hypothesis Hregions : regions_ok.
Hypothesis Hcards : cards_ok.

(** A driver looks for its card, and maps the registers of one it finds. *)
Lemma mapped {A} (keys : A -> Z * Z) bar dev len options m : KernelMemory.array dev len ->
  exists m', NetworkDriver.first_mapped keys bar dev len devs options m = Some (m', None) \/
    exists o, NetworkDriver.first_mapped keys bar dev len devs options m = Some (m', Some o) /\ o ∈ options /\ on_bus (keys o) (bar o).
Proof.
  intros (H0 & Ha & Hl & Hla & Hk). revert m. induction options as [|x options IH]; intros m; cbn [NetworkDriver.first_mapped];
    [exists m; by left|].
  destruct (Pci.map_device_correct (keys x).1 (keys x).2 dev len (bar x) devs m) as (m1 & r & -> & Hr);
    [done|done|done|unfold Memory.kernel_break, Memory.PAGE_SIZE in *; lia|intros f Hf; by apply Hregions|].
  destruct (negb (r =? u64 (-1))) eqn:En.
  - exists m1. right. exists x. split; [done|]. split; [by left|]. destruct Hr as [(-> & _)|(f & Hf & Hd & Hio & _)]; [by rewrite Z.eqb_refl in En|].
    unfold on_bus. clear IH. induction devs as [|g l IHl]; [by apply elem_of_nil in Hf|]. cbn [Pci.find_stored].
    destruct (_ && _) eqn:E; [by eexists|]. apply elem_of_cons in Hf as [-> |Hf]; [|by apply IHl].
    by rewrite Hd, Hio in E.
  - destruct (IH m1) as (m2 & [E|(o & E & Ho & Hb)]); exists m2; [by left|]. right. exists o. split; [done|]. split; [by right|done].
Qed.

Lemma network_starts cmdline s : zlen cmdline <= NetworkDriver.MAX_LEN ->
  is_Some (NetworkDriver.init e1000_dev i211_dev rtl_dev e1000_tq e1000_rq i211_rq i211_tq i211_header dma_buffer e1000_hw
    i211_hw_write i211_hw rtl_hw_write rtl_hw devs waits cmdline s).
Proof.
  intros Hc. destruct Harrays as (A1 & A2 & A3). unfold NetworkDriver.init. destruct (arguments_fit cmdline Hc) as [r ->].
  destruct (match r with Some _ => _ | None => _ end) as [ip mac].
  assert (H1 : is_Some (NetworkDriver.e1000_init e1000_dev e1000_tq e1000_rq dma_buffer e1000_hw devs waits mac s)).
  { unfold NetworkDriver.e1000_init, NetworkDriver.e1000_init_.
    destruct (mapped (λ o : Z * Z * Z, o.1) (λ _, 0) e1000_dev 0x10000 NetworkDriver.e1000_options (NetworkDriver.memory s) A1)
      as (m' & [->|(o & -> & Ho & Hb)]); [by eexists|].
    destruct (co_e1000 Hcards o Ho Hb mac (NetworkDriver.e1000_at s)) as [[e z] ->]. by eexists. }
  destruct H1 as [[s1 []] ->]; [by eexists|].
  assert (H2 : is_Some (NetworkDriver.i211_init i211_dev i211_rq i211_tq i211_header dma_buffer i211_hw_write i211_hw devs waits mac s1)).
  { unfold NetworkDriver.i211_init.
    destruct (mapped (λ o : Z * Z * bool, o.1) (λ _, 0) i211_dev 0x13000 NetworkDriver.i211_options (NetworkDriver.memory s1) A2)
      as (m' & [->|(o & -> & Ho & Hb)]); [by eexists|].
    destruct (co_i211 Hcards o Ho Hb mac (NetworkDriver.i211_at s1)) as [[e z] ->]. by eexists. }
  destruct H2 as [[s2 []] ->]; [by eexists|].
  assert (H3 : is_Some (NetworkDriver.rtl_init rtl_dev dma_buffer rtl_hw_write rtl_hw devs waits mac s2)).
  { unfold NetworkDriver.rtl_init.
    destruct (mapped (λ o : Z * Z * Z, o.1) (λ o, o.2) rtl_dev 0x1000 NetworkDriver.rtl_options (NetworkDriver.memory s2) A3)
      as (m' & [->|(o & -> & Ho & Hb)]); [by eexists|].
    destruct (co_rtl Hcards o Ho Hb mac (NetworkDriver.rtl_at s2)) as [[e z] ->]. by eexists. }
  destruct H3 as [[s3 []] ->]; by eexists.
Qed.
End Network.

(** What the scan of the bus stores has regions of 32 bits. *)
Lemma scanned_regions writable c n b : (forall a, is_u32 (writable a)) -> Pci.space_ok c ->
  (forall f bar, f ∈ take 128 (Pci.visit writable c n b) -> zget false (Pci.reg_is_io f) bar = false ->
     zget 0 (Pci.reg_base f) bar mod Memory.PAGE_SIZE = 0) ->
  regions_ok (take 128 (Pci.visit writable c n b)).
Proof.
  intros Hw Hc Ha f bar Hf. destruct (Pci.visit_range writable c Hw Hc n b f) as [Hb Hs].
  { apply elem_of_take in Hf as (i & Hi & _). by apply list_elem_of_lookup_2 in Hi. }
  assert (Hz : forall l, Forall is_u32 l -> is_u32 (zget 0 l bar)).
  { intros l Hl. unfold zget. destruct (nth_in_or_default (Z.to_nat bar) l 0) as [H| ->]; [|done].
    by apply (proj1 (List.Forall_forall _ _) Hl). }
  split; [by apply Hz|]. split; [by apply Hz|by apply Ha].
Qed.

End Parts.
