(* ===== verification/Startup.v ===== *)
(** * Startup: the start of the kernel ([kern/kern_main.cpp])

    [main] calls the [init] of every part in its order, each on what the ones
    before it left: the pages the boot loader offers go to [Memory::init], whose
    address space the drivers map their devices into and the judger takes its buffer
    and its caches from; the frequencies of the clock go to the server and so on.
    The lines the parts print are not modelled, but for their characters in the log
    that the frame buffer shows when it is turned on. *)
From Stdlib Require Import String.
From S2P Require Import Prelude Utils LibC SysLog Console Timer Scheduler.
From S2P Require Import Phy.
From S2P Require Import Memory PageTables.
From S2P Require Import E1000 I211 Realtek Pci NetworkDriver.
From S2P Require Import Elf Logger Boot Trap DuckCache CacheSpec CacheStore Judger JudgerSpec JudgerInit.
From S2P Require Import DuckServer Service KernelMemory Parts.
From stdpp Require Import gmap list.

Module Startup.
Local Open Scope Z_scope.
Import JudgerInit KernelMemory.
#[local] Abbreviation HP := Memory.HUGE_PAGE_SIZE.
#[local] Notation "'let?' p ':=' e 'in' f" := (Memory.obind e (fun p => f))
  (at level 10, p pattern, e at level 200, f at level 200).

(** [unimplemented] when the frequency that drives the timer is not known. *)
Definition detect_ext_freq (t : Timer.state) : option unit :=
  if Timer.ext_freq t =? 0 then None else Some tt.

(** What a started kernel is. *)
Record kernel {W : Type} := mk_kernel {
  loader : Boot.Multiboot.state; pic : Boot.PIC.state; timer : Timer.state; madt : Z; acpi_outs : list (Z * Z);
  cr3 : Z; trap : Trap.state; pci : Pci.state; screen : Console.FrameBuffer.state;
  drivers : NetworkDriver.statics; driver : NetworkDriver.active; addresses : list Z * list Z;
  msr : Z -> Z; net : Phy.net (DuckServer.server (W := W)); logger : Logger.state }.
Arguments kernel : clear implicits.

Definition judger_of {W} (k : kernel W) : Judger.state := DuckServer.judger (Phy.world (net k)).
Definition memory_of {W} (k : kernel W) : Memory.state := Judger.memory (judger_of k).
Definition on_judger {W} (f : Judger.state -> Judger.state) (k : kernel W) : kernel W :=
  let s := Phy.world (net k) in
  mk_kernel W (loader k) (pic k) (timer k) (madt k) (acpi_outs k) (cr3 k) (trap k) (pci k) (screen k) (drivers k) (driver k)
    (addresses k) (msr k) (Phy.with_world (net k) (DuckServer.with_judger s (f (DuckServer.judger s)))) (logger k).
Definition set_log_level {W} (l : Logger.LogLevel) (k : kernel W) : kernel W :=
  mk_kernel W (loader k) (pic k) (timer k) (madt k) (acpi_outs k) (cr3 k) (trap k) (pci k) (screen k) (drivers k) (driver k)
    (addresses k) (msr k) (net k) (Logger.set_log_level l (logger k)).

(** ** [run_tests] *)

Section Tests.
(** What a program does when it runs, as for the judger. *)
Variable run_user : Elf.App -> Z -> Memory.state -> Memory.state * Elf.Outcome.
Variable t : Timer.state.

Definition test_config : Elf.AppConfig :=
  Elf.mk_config (Z.shiftl 100 20) (LibC.str "100 987" ++ [10]) 8 10240 10240 [] 0 [] 0 false.
(** [None] is a failed assertion: the program is refused, or the memory manager fails. *)
Definition run_test (elf : list Z) (m : Memory.state) : option (Memory.state * Elf.RunResult) :=
  match Elf.load elf (u32 (zlen elf)) test_config (Timer.tsc_freq t) m with
  | Some (m, Some app) => let '(m, o) := run_user app 0 m in Elf.run t app o m
  | _ => None
  end.
Definition run_tests (hello hello32 : list Z) (m : Memory.state) : option Memory.state :=
  match run_test hello m with
  | None => None
  | Some (m, _) => match run_test hello32 m with None => None | Some (m, _) => Some m end
  end.
End Tests.


(** The space for the judger, when memory has the pages [us]. *)
Lemma room_of m (us : list Z) : Memory.vaddr_break m = (2 + zlen us) * HP -> (2 + zlen us) * HP < 2 ^ 39 ->
  roomy m /\ room m = zlen us * HP.
Proof.
  intros Hv H39. pose proof (zlen_nonneg us). unfold room. change Memory.kernel_break with (2 * HP). rewrite Hv. split; [|lia].
  split; rewrite Hv; [|by apply Z_mod_mult]. change Memory.kernel_break with (2 * HP).
  split; [apply Z.mul_le_mono_nonneg_r; [done|lia]|]. etransitivity; [exact H39|done].
Qed.
Lemma ext_freq_known t : Timer.ext_freq t <> 0 -> detect_ext_freq t = Some tt.
Proof. intros Hf. unfold detect_ext_freq. by destruct (Z.eqb_spec (Timer.ext_freq t) 0). Qed.

(** ** [main] *)

Section Main.
Context {W : Type}.
(** What the boot loader left, the end of the kernel's image, and what the parts read: the
    names and leaves of the processor, the clock, the registers of ACPI and APIC. *)
Variables (m : Z -> Z) (ebss multiboot_addr : Z) (brand model : string) (leaf15 : Z * Z * Z) (tsc : Z).
Variables (acpi_readings : list Z) (lapic_version : Z) (lapic_readings : list Z).
(** The code of the traps. *)
Variables (traps : list Z) (syscall_entry interrupt_stack : Z).
(** The configuration space of the PCI bus, and the network cards. *)
Variables (pci_write : Z -> Z -> Pci.space -> Pci.space) (pci_write_byte : Z -> Z -> Z -> Pci.space -> Pci.space).
Variables (e1000_dev i211_dev rtl_dev e1000_tq e1000_rq i211_rq i211_tq i211_header dma_buffer : Z).
Variables (e1000_hw : Z -> (Z -> Z) -> Z -> Z) (i211_hw_write : Z -> Z -> (Z -> Z) -> Z -> Z).
Variables (i211_hw : Z -> (Z -> Z) -> Z -> Z) (rtl_hw_write : Z -> Z -> (Z -> Z) -> Z -> Z).
Variable rtl_hw : Z -> (Z -> Z) -> Z -> Z.
(** The driver as the network stack sees it, once it is chosen. *)
Variable plug : NetworkDriver.active -> NetworkDriver.statics -> W.
Variables (nic_send : list Z -> W -> W * Z) (nic_receive : W -> W * list Z * Z) (nic_flush rdtsc : W -> W * Z).
Variables (sort : (Z -> Z) -> list Z -> list Z) (run_user : Elf.App -> Z -> Memory.state -> Memory.state * Elf.Outcome).
Variables (read_sensors : DuckServer.server (W := W) -> DuckServer.sensors).
Variables (ns_since_epoch : DuckServer.server (W := W) -> Z) (wrmsr : Z -> Z -> (Z -> Z) -> (Z -> Z)).
(** The colour of the screen, the characters printed until the frame buffer is on, what
    memory holds where the judger's buffer and caches go, and the two test programs. *)
Variables (color : Z) (printed : list Z) (im : Judger.init_memory) (hello hello32 : list Z).
(** Bounds for the loops: over a region of memory, the tags, the buses, the log, a card's answer. *)
Variables (rounds tags buses lines waits : nat).

(** The statics before [main]. *)
Record statics := mk_statics {
  log0 : SysLog.state; logger0 : Logger.state; loader0 : Boot.Multiboot.state; pic0 : Boot.PIC.state;
  lapic0 : LAPIC.state; trap0 : Trap.state; pci0 : Pci.state; drivers0 : NetworkDriver.statics;
  net0 : Phy.net (DuckServer.server (W := W)) }.

Definition with_pages (mem : Memory.state) (dma : Z) (d : NetworkDriver.statics) : NetworkDriver.statics :=
  NetworkDriver.mk_statics (NetworkDriver.e1000 d) (NetworkDriver.i211 d) (NetworkDriver.rtl d) mem dma.
Definition server_with (w : W) (l : LAPIC.state) (log : SysLog.state) (s : DuckServer.server (W := W))
    : DuckServer.server (W := W) :=
  DuckServer.mk_server w (DuckServer.scheduler s) l log (DuckServer.judger s) (DuckServer.my_ip s) (DuckServer.halted s).

Definition acpi_init (rsdp_addr : Z) : option (Z * list (Z * Z)) :=
  match Boot.ACPI.init m rsdp_addr acpi_readings with Boot.ACPI.found madt outs => Some (madt, outs) | _ => None end.
Definition network_init (pci : Pci.state) (command_line : list Z) (d : NetworkDriver.statics)
    : option (NetworkDriver.statics * (list Z * list Z) * NetworkDriver.active) :=
  NetworkDriver.init e1000_dev i211_dev rtl_dev e1000_tq e1000_rq i211_rq i211_tq i211_header dma_buffer
    e1000_hw i211_hw_write i211_hw rtl_hw_write rtl_hw (Pci.stored_pci_devices pci) waits command_line d.

(** From [SysLog::init] to [Judger::init]. *)
Definition start_up (s : statics) : option (kernel W) :=
  let log := fold_left SysLog.putchar printed (SysLog.init (log0 s)) in
  let logger := Logger.init (logger0 s) in
  let? loader := Boot.Multiboot.load m ebss rounds tags multiboot_addr (loader0 s) in
  let pic := Boot.PIC.init (pic0 s) in
  let? t := Timer.init brand model leaf15 tsc in
  let? (madt, outs) := acpi_init (Boot.Multiboot.rsdp_addr loader) in
  let? lapic := LAPIC.init lapic_version lapic_readings (lapic0 s) in
  let? _ := detect_ext_freq t in
  let? (mem, P4) := Memory.init ebss (Boot.Multiboot.memory loader) in
  let mem := lcr3 P4 mem in
  let trap := Trap.init traps syscall_entry interrupt_stack (Trap.with_lapic lapic (trap0 s)) in
  let? (pci, _) := Pci.init pci_write pci_write_byte buses (pci0 s) in
  let? screen := Console.FrameBuffer.init lines log color (Boot.Multiboot.framebuffer loader) in
  let dma := DMA.init dma_buffer in
  let? (d, (ip, mac), active) := network_init pci (Boot.Multiboot.command_line loader) (with_pages mem dma (drivers0 s)) in
  let srv := server_with (plug active d) lapic log (Phy.world (net0 s)) in
  let '(msr, n) := Service.init sort run_user t read_sensors ns_since_epoch wrmsr nic_send nic_receive nic_flush rdtsc
    ip mac (Trap.msr trap) (Phy.with_world (net0 s) srv) in
  let n := Phy.with_world n
    (DuckServer.with_scheduler (Phy.world n) (Scheduler.init (DuckServer.scheduler (Phy.world n)))) in
  let? j := Judger.init im (NetworkDriver.memory d) in
  Some (mk_kernel W loader pic t madt outs P4 trap pci screen d active (ip, mac) msr
    (Phy.with_world n (DuckServer.with_judger (Phy.world n) j)) logger).

(** [stopped]: an assertion failed, the machine restarted itself, or a part waits for
    its device; [serving]: in the loop of the server; [rebooted]: the loop returned, and
    [GG_reboot] after it restarts the machine. *)
Inductive fate := stopped | serving (k : kernel W) | rebooted.
Definition main (fuel : nat) (s : statics) : fate :=
  match start_up s with
  | None => stopped
  | Some k =>
      match run_tests run_user (timer k) hello hello32 (memory_of k) with
      | None => stopped
      | Some mem =>
          let k := set_log_level Logger.LL_WARN (set_log_level Logger.LL_INFO (on_judger (λ j, Judger.with_memory j mem) k)) in
          match Service.run sort run_user (timer k) read_sensors ns_since_epoch nic_send nic_receive nic_flush rdtsc
                  (fst (addresses k)) (snd (addresses k)) fuel (net k) with
          | None => serving k
          | Some (Service.Stopped _) => stopped
          | Some (Service.Returned _ _) => rebooted
          end
      end
  end.

(** ** Lemmas: the start *)

Lemma network_devices pci cmd d d' a act :
  array e1000_dev 0x10000 -> array i211_dev 0x13000 -> array rtl_dev 0x1000 -> all_sized pci ->
  network_init pci cmd d = Some (d', a, act) -> devices_only (NetworkDriver.memory d) (NetworkDriver.memory d').
Proof.
  intros A1 A2 A3 Hs. unfold network_init, NetworkDriver.init. destruct (NetworkDriver.read_ip_mac cmd) as [r|]; [|done].
  destruct (match r with Some a => a | None => _ end) as [ip mac]. set (devs := Pci.stored_pci_devices pci) in *.
  assert (H1 : forall s s1 ok, NetworkDriver.e1000_init e1000_dev e1000_tq e1000_rq dma_buffer e1000_hw devs waits mac s = Some (s1, ok) ->
    devices_only (NetworkDriver.memory s) (NetworkDriver.memory s1)).
  { intros s s1 ok. unfold NetworkDriver.e1000_init, NetworkDriver.e1000_init_.
    destruct (NetworkDriver.first_mapped _ _ _ _ _ _ _) as [[m1 [o|]]|] eqn:E; [| |done]; apply first_mapped_devices in E; try done.
    - destruct (E1000.e1000_init _ _ _ _ _ _ _ _) as [[e r']|]; [|done]. by intros [= <- _].
    - by intros [= <- _]. }
  assert (H2 : forall s s1 ok, NetworkDriver.i211_init i211_dev i211_rq i211_tq i211_header dma_buffer i211_hw_write i211_hw devs waits mac s = Some (s1, ok) ->
    devices_only (NetworkDriver.memory s) (NetworkDriver.memory s1)).
  { intros s s1 ok. unfold NetworkDriver.i211_init.
    destruct (NetworkDriver.first_mapped _ _ _ _ _ _ _) as [[m1 [o|]]|] eqn:E; [| |done]; apply first_mapped_devices in E; try done.
    - destruct (I211.i211_init _ _ _ _ _ _ _ _ _ _) as [[e r']|]; [|done]. by intros [= <- _].
    - by intros [= <- _]. }
  assert (H3 : forall s s1 ok, NetworkDriver.rtl_init rtl_dev dma_buffer rtl_hw_write rtl_hw devs waits mac s = Some (s1, ok) ->
    devices_only (NetworkDriver.memory s) (NetworkDriver.memory s1)).
  { intros s s1 ok. unfold NetworkDriver.rtl_init.
    destruct (NetworkDriver.first_mapped _ _ _ _ _ _ _) as [[m1 [o|]]|] eqn:E; [| |done]; apply first_mapped_devices in E; try done.
    - destruct (Realtek.rtl_init _ _ _ _ _ _) as [[e r']|]; [|done]. by intros [= <- _].
    - by intros [= <- _]. }
  destruct (NetworkDriver.e1000_init _ _ _ _ _ _ _ _ _) as [[d1 []]|] eqn:E1; [|apply H1 in E1|done].
  { intros [= <- _ _]. by apply (H1 _ _ _ E1). }
  destruct (NetworkDriver.i211_init _ _ _ _ _ _ _ _ _ _ _) as [[d2 []]|] eqn:E2; [|apply H2 in E2|done].
  { intros [= <- _ _]. etransitivity; [exact E1|by apply (H2 _ _ _ E2)]. }
  destruct (NetworkDriver.rtl_init _ _ _ _ _ _ _ _) as [[d3 []]|] eqn:E3; [apply H3 in E3|apply H3 in E3|done];
    intros [= <- _ _]; (etransitivity; [exact E1|]; by etransitivity).
Qed.

(** What the machine has to show the kernel for it to come up: a list of tags in memory as the
    specification writes them; a ratio of the clock with a denominator; the delivery of
    a message; ACPI tables at the address of the last tag for them; a bus whose bridges
    lead up, with the registers of the network cards at the beginning of pages; and cards
    that leave the waiting loops of their drivers.  The loops are given enough rounds. *)
Definition rsdp_of (s : statics) (ts : list Boot.tag) : Z :=
  match Boot.last_of (Boot.is_acpi m) (Boot.addresses (multiboot_addr + 8) ts) with
  | Some t => t + 8 | None => Boot.Multiboot.rsdp_addr (loader0 s) end.
Definition bus_of (writable : Z -> Z) (s : statics) : list Pci.Func := take 128 (Pci.visit writable (Pci.cfg (pci0 s)) 256 0).
Record machine_ok (s : statics) (ts : list Boot.tag) (writable : Z -> Z) : Prop := {
  ok_bytes : forall a, is_u8 (m a);
  ok_tags : List.Forall (Boot.good rounds) ts /\ 0 <= multiboot_addr + 8 /\
    multiboot_addr + 8 + zlen (Boot.write_tags ts) < 2 ^ 64 /\ Boot.holds m (multiboot_addr + 8) (Boot.write_tags ts);
  ok_clock : Parts.ratio_ok leaf15;
  ok_lapic : Parts.delivered lapic_readings;
  ok_acpi : Parts.acpi_ok m (rsdp_of s ts) acpi_readings;
  ok_bus : Pci.config_space pci_write pci_write_byte writable /\ Pci.space_ok (Pci.cfg (pci0 s)) /\ Pci.bridges_go_up (Pci.cfg (pci0 s));
  ok_regions : forall f bar, f ∈ bus_of writable s -> zget false (Pci.reg_is_io f) bar = false ->
    zget 0 (Pci.reg_base f) bar mod Memory.PAGE_SIZE = 0;
  ok_cards : Parts.cards_ok e1000_tq e1000_rq i211_rq i211_tq i211_header dma_buffer e1000_hw i211_hw_write i211_hw
    rtl_hw_write rtl_hw (bus_of writable s) waits;
  ok_rounds : Memory.MAX_N_HUGE_PAGES < Z.of_nat rounds /\ (length ts < tags)%nat /\ (256 <= buses)%nat /\ (1025 <= lines)%nat }.

(** The statics as the image has them, with room for the devices. *)
Record image_ok (s : statics) : Prop := {
  im_arrays : array e1000_dev 0x10000 /\ array i211_dev 0x13000 /\ array rtl_dev 0x1000;
  im_ebss : 0 <= ebss <= Memory.kernel_break;
  im_command : zlen (Boot.Multiboot.command_line (loader0 s)) = 256;
  im_pci : Pci.stored_pci_devices (pci0 s) = [];
  im_log : SysLog.wf (log0 s);
  im_memory : PageTables.boot (Boot.Multiboot.memory (loader0 s));
  im_judger : arrays_ok im }.

(** The parts before [Memory::init] come up. *)
Lemma loader_comes_up s ts writable : image_ok s -> machine_ok s ts writable ->
  exists ld, Boot.Multiboot.load m ebss rounds tags multiboot_addr (loader0 s) = Some ld /\
    Boot.loaded m ebss (Boot.addresses (multiboot_addr + 8) ts) (loader0 s) ld.
Proof.
  intros Hi Hm. destruct (ok_tags _ _ _ Hm) as (T1 & T2 & T3 & T4), (ok_rounds _ _ _ Hm) as (R1 & R2 & _).
  apply (Boot.information_loaded m ebss rounds (ok_bytes _ _ _ Hm)); try done.
  - pose proof (im_ebss _ Hi). unfold Memory.kernel_break in *. lia.
  - apply (im_command _ Hi).
Qed.
Lemma scan_comes_up s ts writable : image_ok s -> machine_ok s ts writable ->
  exists pci n, Pci.init pci_write pci_write_byte buses (pci0 s) = Some (pci, n) /\ Pci.stored_pci_devices pci = bus_of writable s /\ all_sized pci.
Proof.
  intros Hi Hm. destruct (ok_bus _ _ _ Hm) as (B1 & B2 & B3), (ok_rounds _ _ _ Hm) as (_ & _ & R3 & _).
  destruct (Pci.init_scans B1 buses (pci0 s) R3 B2 (im_pci _ Hi) B3) as (pci & E & Es & _).
  assert (H0 : all_sized (pci0 s)) by (unfold all_sized; rewrite (im_pci _ Hi); constructor).
  eexists pci, _. split; [exact E|]. split; [exact Es|]. exact (proj1 (keeps_scan buses 0 _ _ _ H0 E)).
Qed.
Lemma network_comes_up s ts writable pci ld d : image_ok s -> machine_ok s ts writable ->
  Pci.stored_pci_devices pci = bus_of writable s -> Boot.loaded m ebss (Boot.addresses (multiboot_addr + 8) ts) (loader0 s) ld ->
  is_Some (network_init pci (Boot.Multiboot.command_line ld) d).
Proof.
  intros Hi Hm Ep Hl. unfold network_init. rewrite Ep. destruct (ok_bus _ _ _ Hm) as (B1 & B2 & _).
  apply Parts.network_starts; [apply (im_arrays _ Hi)| |apply (ok_cards _ _ _ Hm)|].
  - apply Parts.scanned_regions; [apply B1|done|apply (ok_regions _ _ _ Hm)].
  - rewrite (Boot.ld_command _ _ _ _ _ Hl) by apply (im_command _ Hi). destruct (Boot.last_of _ _).
    + rewrite zlen_app, Boot.zlen_strncpy. done.
    + by rewrite (im_command _ Hi).
Qed.

(** What becomes of a kernel that has come up. *)
Lemma main_serves s k fuel : start_up s = Some k ->
  main fuel s = match run_tests run_user (timer k) hello hello32 (memory_of k) with
  | None => stopped
  | Some mem =>
      let k := set_log_level Logger.LL_WARN (set_log_level Logger.LL_INFO (on_judger (λ j, Judger.with_memory j mem) k)) in
      match Service.rounds sort run_user (timer k) read_sensors ns_since_epoch nic_send nic_receive nic_flush rdtsc
              (fst (addresses k)) (snd (addresses k)) fuel (net k) with
      | Some _ => serving k
      | None => stopped
      end
  end.
Proof.
  intros E. unfold main. rewrite E. destruct (run_tests _ _ _ _ _) as [m2|]; [|done]. cbv zeta.
  match goal with |- context [Service.run ?a ?b ?c ?d ?e ?f ?g ?h ?i ?j ?k ?l ?n] =>
    pose proof (Service.service_run_spec a b c d e f g h i j k l n) as Hrun; destruct (Service.run a b c d e f g h i j k l n) as [[]|] end.
  - by destruct Hrun as [_ ->].
  - done.
  - by destruct Hrun as [n' ->].
Qed.

(** C8: The kernel comes up and shares out its memory.  On a machine that shows the kernel what
    [machine_ok] lists (tags, tables and registers in memory; cards that leave the
    waiting loops of their drivers), with the statics as the image has them, every part
    that runs before [Memory::init] ends without a failed assertion; and if the boot
    loader offered at least a gigabyte behind the limit of the page tables, so do all
    others.  Then the judger has its buffer, full of zeros, and two empty caches, of the
    sizes of the first row of its table that leaves three gigabytes for programs, or of the
    last row; what is left below them is for programs, every page of it closed to user
    mode, to be cleared, and the byte of an available huge page that [Memory::init] put
    there; and if the two test programs run, the kernel is in the loop of the server
    for as long as no round of it stops the machine, and never comes out of it. *)
Theorem kernel_comes_up s ts writable :
  image_ok s -> machine_ok s ts writable ->
  exists ld t, Boot.Multiboot.load m ebss rounds tags multiboot_addr (loader0 s) = Some ld /\
  Boot.loaded m ebss (Boot.addresses (multiboot_addr + 8) ts) (loader0 s) ld /\
  Timer.init brand model leaf15 tsc = Some t /\
  forall brk, PageTables.limit (Boot.Multiboot.memory ld) = Some brk ->
  let us := PageTables.user_pages (Boot.Multiboot.memory ld) brk in mib 1024 <= zlen us * HP ->
  exists k, start_up s = Some k /\ timer k = t /\
    (let '(b, e, d) := share (zlen us * HP) in let mem := memory_of k in
     Memory.vaddr_break mem = Memory.kernel_break + zlen us * HP - (mib b + mib e + mib d) /\
     Memory.kernel_break <= Memory.vaddr_break mem /\
     (forall v, Memory.kernel_break <= v < Memory.vaddr_break mem -> fresh_page (Boot.Multiboot.memory ld) us mem v) /\
     exists m0, fresh_judger m0 (mib b) (mib e) (mib d) (judger_of k)) /\
    forall fuel, main fuel s = match run_tests run_user t hello hello32 (memory_of k) with
      | None => stopped
      | Some mem =>
          let k := set_log_level Logger.LL_WARN (set_log_level Logger.LL_INFO (on_judger (λ j, Judger.with_memory j mem) k)) in
          match Service.rounds sort run_user t read_sensors ns_since_epoch nic_send nic_receive nic_flush rdtsc
                  (fst (addresses k)) (snd (addresses k)) fuel (net k) with
          | Some _ => serving k
          | None => stopped
          end
      end.
Proof.
  intros Hi Hm. destruct (loader_comes_up s ts writable Hi Hm) as (ld & El & Hloaded).
  destruct (Parts.timer_starts brand model leaf15 tsc (ok_clock _ _ _ Hm)) as (t & Et & Hf). exists ld, t.
  split; [done|]. split; [done|]. split; [done|]. intros brk Hl us Hroom.
  pose proof (load_keeps _ _ _ _ _ _ _ _ register_boot El (im_memory _ Hi)) as Hld.
  destruct (PageTables.init_maps ebss _ brk Hld (proj2 (im_ebss _ Hi)) Hl) as (s' & T & E & Ev & H39 & _ & Emem & HB & Hus & _).
  fold us in Ev, H39, HB, Hus.
  assert (Er : Boot.Multiboot.rsdp_addr ld = rsdp_of s ts) by exact (Boot.ld_acpi _ _ _ _ _ Hloaded).
  destruct (Parts.acpi_starts m (Boot.Multiboot.rsdp_addr ld) acpi_readings) as (madt & outs & Eacpi);
    [rewrite Er; exact (ok_acpi _ _ _ Hm)|].
  destruct (Parts.lapic_starts lapic_version lapic_readings (lapic0 s) (ok_lapic _ _ _ Hm)) as [lapic Elapic].
  destruct (scan_comes_up s ts writable Hi Hm) as (pci & np & Epci & Edevs & Hsz).
  destruct (Console.screen_init_ends lines (fold_left SysLog.putchar printed (SysLog.init (log0 s))) color
    (Boot.Multiboot.framebuffer ld)) as [screen Esc];
    [apply (ok_rounds _ _ _ Hm)|apply SysLog.wf_run; split; [apply (im_log _ Hi)|done]|].
  destruct (im_arrays _ Hi) as (A1 & A2 & A3). pose proof (im_judger _ Hi) as Him.
  set (mem1 := lcr3 (T PageTables.R4) s').
  destruct (network_comes_up s ts writable pci ld (with_pages mem1 (DMA.init dma_buffer) (drivers0 s)) Hi Hm Edevs Hloaded)
    as [[[d [ip mac]] act] Enet].
  pose proof (network_devices _ _ _ _ _ _ A1 A2 A3 Hsz Enet) as Hd. change (NetworkDriver.memory (with_pages _ _ _)) with mem1 in Hd.
  assert (Hv : Memory.vaddr_break (NetworkDriver.memory d) = (2 + zlen us) * HP) by (by rewrite (d_vaddr _ _ Hd), <- Ev).
  destruct (room_of _ us Hv H39) as [Hroomy Hr]. rewrite <- Hr in Hroom |- *.
  pose proof (judger_comes_up im _ Hroomy Him Hroom) as Hj. pose proof (share_fits _ Hroom) as Hfit.
  destruct (share (room (NetworkDriver.memory d))) as [[b e] dd]. destruct Hj as (j & Ej & Hfresh). destruct Hfit as [Hpos Hle].
  assert (Eup : exists k, start_up s = Some k /\ timer k = t /\ judger_of k = j).
  { eexists. split.
    - unfold start_up. rewrite El. cbn [Memory.obind]. rewrite Et. cbn [Memory.obind]. unfold acpi_init. rewrite Eacpi. cbn [Memory.obind].
      rewrite Elapic. cbn [Memory.obind]. rewrite (ext_freq_known t Hf). cbn [Memory.obind]. rewrite E. cbn [Memory.obind].
      fold mem1. rewrite Epci. cbn [Memory.obind]. rewrite Esc. cbn [Memory.obind]. rewrite Enet. cbn [Memory.obind].
      unfold Service.init. rewrite Ej. reflexivity.
    - split; reflexivity. }
  destruct Eup as (k & Eup & Etk & Ejk). exists k. split; [exact Eup|]. split; [exact Etk|].
  split; [|intros fuel; rewrite <- Etk; exact (main_serves s k fuel Eup)].
  unfold memory_of. rewrite Ejk, (f_memory _ _ _ _ _ Hfresh). cbn [Memory.vaddr_break Memory.with_vaddr_break].
  split; [|split; [|split]].
  - rewrite Hv, Hr. change Memory.kernel_break with (2 * HP). lia.
  - unfold room in Hle, Hpos. lia.
  - intros v Hv'. assert (Hvn : v < (2 + zlen us) * HP) by (rewrite <- Hv; lia).
    apply (fresh_devices _ us mem1 (NetworkDriver.memory d)); [exact Hd| |lia].
    unfold fresh_page. rewrite <- Emem. apply lcr3_fresh; [exact HB|exact Hus|lia|lia].
  - by exists (NetworkDriver.memory d).
Qed.
End Main.

(** ** Instances *)

(** The pages of a whole interval are at least as many. *)
Lemma available_at_least m a len k : 0 <= k <= len -> (forall i, a <= i < a + k -> i ∈ m) -> k <= zlen (PageTables.available m a len).
Proof.
  intros Hk Hm. assert (H : seqZ a k ⊆+ PageTables.available m a len).
  { apply NoDup_submseteq; [apply NoDup_seqZ|]. intros i Hi%elem_of_seqZ. apply PageTables.available_elem. split; [by apply Hm|lia]. }
  apply submseteq_length in H. rewrite length_seqZ in H. unfold zlen. lia.
Qed.
(** A machine with 1.4 GiB, the ACPI tables of [Boot] and the bus of [Pci]: the boot loader
    tells of two regions of memory, of the ACPI tables and of a command line. *)
Definition demo_tags : list Boot.tag :=
  [Boot.mk_tag (Boot.Memory_map 24 0 [Boot.mk_region 0 0x9fc00 1 (replicate 4 0);
     Boot.mk_region 0x100000 0x57d00000 1 (replicate 4 0)]) [];
   Boot.mk_tag (Boot.Other 14 (replicate 16 0 ++ le_bytes 4 0x2000)) (replicate 4 0);
   Boot.mk_tag (Boot.Other 1 (LibC.str "ip=10.0.0.2 mac=02:00:00:00:00:01"%string ++ [0])) (replicate 6 0)].
Definition demo_m : Z -> Z := write_bytes Boot.demo_acpi 0x9008 (Boot.write_tags demo_tags).
Definition demo_loader : Boot.Multiboot.state :=
  Boot.Multiboot.mk_state (first_memory (λ _, 0) (λ x, x mod 256)) (replicate 256 0) 0 (Console.FrameBuffer.boot (λ _, 0)).
Definition demo_startup : statics (W := Phy.wire) :=
  mk_statics SysLog.boot Logger.demo demo_loader Boot.PIC.boot (LAPIC.mk_state [] 0) Trap.demo_boot
    Pci.demo_state NetworkDriver.demo_statics Service.demo_statics.
Definition demo_clock : Timer.state := Timer.detect_cpu_speed_others 5.
Definition demo_rounds : nat := Z.to_nat 300000.
#[local] Abbreviation on_cards f := (f 0x200000 0x210000 0x230000 0x300000 0x301000 0x302000 0x303000 0x304000 0x240000
  E1000.demo_hw I211.demo_write I211.demo_delay Realtek.demo_write Realtek.demo_delay).
#[local] Abbreviation on_demo f := (f demo_m 0x180000 0x9000 "AuthenticAMD"%string ""%string (0, 0, 0) 5 [0; 2; 3] 0 [0]).

Lemma demo_m_bytes a : is_u8 (demo_m a).
Proof.
  assert (Hw : forall f b bs, (forall x, is_u8 (f x)) -> bytes bs -> forall x, is_u8 (write_bytes f b bs x)).
  { intros f b bs Hf Hb x. unfold write_bytes. destruct (_ && _); [by apply zget_byte|apply Hf]. }
  unfold demo_m, Boot.demo_acpi. repeat (apply Hw; [|by apply bytesb_bytes]). done.
Qed.
Lemma demo_tags_good : List.Forall (Boot.good demo_rounds) demo_tags.
Proof.
  repeat apply List.Forall_cons; [..|apply List.Forall_nil]; (split; [|split; vm_compute; reflexivity]).
  - split; [unfold is_u32; lia|]. split; [reflexivity|]. split; [|vm_compute; reflexivity].
    repeat apply List.Forall_cons; [..|apply List.Forall_nil]; unfold Boot.good_region, is_u64, is_u32;
      cbn [Boot.r_base Boot.r_length Boot.r_type]; split_and!; try lia; try reflexivity; by vm_compute.
  - split; [unfold is_u32; lia|]. by split.
  - split; [unfold is_u32; lia|]. by split.
Qed.
Lemma demo_acpi_ok : Parts.acpi_ok demo_m 0x9050 [0; 2; 3].
Proof.
  split; [done|]. exists 2. split; [lia|]. split; [by vm_compute|]. split.
  - repeat apply Forall_cons_2; [by vm_compute|by vm_compute|apply Forall_nil_2].
  - split; [eexists; by vm_compute|]. intros f _ _ _. exists 3. split; [|done]. by repeat constructor.
Qed.

(** The only card on the bus is an e1000, whose link comes up. *)
Lemma demo_bus : bus_of Pci.demo_writable demo_startup = [Pci.demo_device].
Proof. vm_compute. reflexivity. Qed.
Lemma demo_cards : Parts.cards_ok 0x300000 0x301000 0x302000 0x303000 0x304000 0x240000 E1000.demo_hw I211.demo_write I211.demo_delay
  Realtek.demo_write Realtek.demo_delay [Pci.demo_device] 1.
Proof.
  split.
  - intros o _ _ mac e. unfold E1000.e1000_init. destruct (E1000.alloc_buffers _ _) as [e1 []]; [|by eexists]. cbn [negb].
    generalize (E1000.reset E1000.demo_hw (E1000.fill_addresses e1)). intros e2. cbn [E1000.wait_link].
    destruct (negb _); [by eexists|]. change (E1000.READ32 E1000.STATUS (E1000.microdelay E1000.demo_hw 100000 e2)) with 0x80080783.
    by eexists.
  - intros o Ho [f Hf]. exfalso. revert Hf. unfold NetworkDriver.i211_options in Ho. rewrite !elem_of_cons in Ho.
    destruct Ho as [-> |[-> |Ho]]; [vm_compute; discriminate..|by apply elem_of_nil in Ho].
  - intros o Ho [f Hf]. exfalso. revert Hf. unfold NetworkDriver.rtl_options in Ho. rewrite !elem_of_cons in Ho.
    destruct Ho as [-> |Ho]; [vm_compute; discriminate|by apply elem_of_nil in Ho].
Qed.
Lemma demo_regions f bar : f ∈ bus_of Pci.demo_writable demo_startup -> zget false (Pci.reg_is_io f) bar = false ->
  zget 0 (Pci.reg_base f) bar mod Memory.PAGE_SIZE = 0.
Proof.
  rewrite demo_bus. intros ->%list_elem_of_singleton. unfold zget. generalize (Z.to_nat bar). intros n.
  do 6 (destruct n as [|n]; [by vm_compute|]). intros _. rewrite nth_overflow; [done|]. cbn. lia.
Qed.

Lemma demo_machine : machine_ok demo_m 0x9000 (0, 0, 0) [0; 2; 3] [0] Pci.demo_write Pci.demo_write_byte
  0x300000 0x301000 0x302000 0x303000 0x304000 0x240000 E1000.demo_hw I211.demo_write I211.demo_delay Realtek.demo_write
  Realtek.demo_delay demo_rounds 4%nat 256%nat 1025%nat 1%nat demo_startup demo_tags Pci.demo_writable.
Proof.
  split.
  - exact demo_m_bytes.
  - split; [exact demo_tags_good|]. split; [lia|]. split; by vm_compute.
  - done.
  - exists 0. split; [by left|done].
  - exact demo_acpi_ok.
  - exact (conj Pci.demo_config (conj Pci.demo_space_ok Pci.demo_bridges)).
  - exact demo_regions.
  - rewrite demo_bus. exact demo_cards.
  - split; [by vm_compute|]. cbn. lia.
Qed.
Lemma demo_image : image_ok 0x180000 0x200000 0x210000 0x230000 demo_im demo_startup.
Proof.
  constructor.
  - split; [|split]; (split; [done|split; [done|split; [done|split; [done|by vm_compute]]]]).
  - by vm_compute.
  - reflexivity.
  - reflexivity.
  - exact SysLog.wf_boot.
  - apply first_boot.
  - exact demo_arrays.
Qed.

Definition demo_loaded : Boot.Multiboot.state :=
  match Boot.Multiboot.load demo_m 0x180000 demo_rounds 4 0x9000 demo_loader with Some ld => ld | None => demo_loader end.
Lemma demo_limit : PageTables.limit (Boot.Multiboot.memory demo_loaded) = Some (4 * HP).
Proof. by vm_compute. Qed.
Lemma demo_users : mib 1024 <= zlen (PageTables.user_pages (Boot.Multiboot.memory demo_loaded) (4 * HP)) * HP.
Proof.
  change (mib 1024) with (512 * HP). apply Z.mul_le_mono_nonneg_r; [done|]. unfold PageTables.user_pages.
  change (4 * HP / HP) with 4. change Memory.MAX_N_HUGE_PAGES with 261632. apply available_at_least; [lia|]. intros i Hi.
  assert (H : forallb (λ i, bool_decide (i ∈ Memory.huge_page_map (Boot.Multiboot.memory demo_loaded))) (seqZ 4 512) = true)
    by (vm_compute; reflexivity).
  rewrite forallb_forall in H. assert (Hin : In i (seqZ 4 512)) by (apply list_elem_of_In, elem_of_seqZ; lia).
  exact (proj1 (bool_decide_eq_true _) (H i Hin)).
Qed.

Lemma some_same {A} {o : option A} {a b : A} : o = Some a -> o = Some b -> a = b.
Proof. congruence. Qed.
Lemma kernel_comes_up_witness :
  exists k, on_cards (on_demo start_up Trap.demo_traps 0x203000 0x310000 Pci.demo_write Pci.demo_write_byte) (λ _ _, [])
      Service.demo_send Service.demo_receive Service.demo_flush Service.demo_rdtsc CacheStore.demo_sort JudgerSpec.demo_run
      Service.demo_sensors Service.demo_now Service.demo_wrmsr 7 (LibC.str "Hello world!") demo_im demo_rounds 4%nat 256%nat
      1025%nat 1%nat demo_startup = Some k /\ timer k = demo_clock /\ Memory.kernel_break <= Memory.vaddr_break (memory_of k).
Proof.
  destruct (on_cards (on_demo kernel_comes_up Trap.demo_traps 0x203000 0x310000 Pci.demo_write Pci.demo_write_byte) (λ _ _, [])
      Service.demo_send Service.demo_receive Service.demo_flush Service.demo_rdtsc CacheStore.demo_sort JudgerSpec.demo_run
      Service.demo_sensors Service.demo_now Service.demo_wrmsr 7 (LibC.str "Hello world!") demo_im [] [] demo_rounds 4%nat 256%nat
      1025%nat 1%nat demo_startup demo_tags Pci.demo_writable demo_image demo_machine) as (ld & t & El & _ & Et & H).
  assert (Eld : ld = demo_loaded).
  { unfold demo_loaded. change (loader0 demo_startup) with demo_loader in El. rewrite El. reflexivity. }
  assert (Ett : t = demo_clock) by exact (some_same Et eq_refl).
  clear El Et. subst ld t. destruct (H (4 * HP) demo_limit demo_users) as (k & E & Ek & Hm & _). clear H.
  exists k. split; [exact E|]. split; [exact Ek|]. clear E Ek. cbv zeta in Hm. revert Hm.
  match goal with |- match ?x with _ => _ end -> _ => destruct x as [[b e] d] end. intros (_ & Hm & _). exact Hm.
Defined.
End Startup.
